(* ===== verification/_CoqProject ===== *)
-Q . S2P
Prelude.v
Mm.v
Dll.v
Lists.v
Chain.v
Family.v
PhysMem.v
LibAlloc.v
HeapRep.v
Heap.v
Paging.v
PagingRuns.v
Ualloc.v
UallocRep.v
UallocOps.v
UallocThms.v
Cpu.v
Gc.v
Strings.v
Console.v
Dmesg.v
DmesgRep.v
DmesgThms.v
Env.v
Vmem.v
VmemRep.v
VmemSegs.v
VmemInv.v
VmemFree.v
VmemArena.v
VmemAlloc.v
VmemArenas.v
VmemCreate.v
VmemThms.v
IQueue.v
AQueue.v
HTable.v
RwLock.v
Processes.v
ProcTable.v
Shmem.v
ShmemRep.v
ShmemUse.v
ShmemMake.v
ShmemDelete.v
ShmemThms.v
Objects.v
Scheduler.v
Ipc.v
Pulses.v
Messages.v
Ports.v
IpcTrace.v
Irq.v
