(* ===== verification/Prelude.v ===== *)
(** Shared prelude: the outcome monad in which every operation of the kernel is
    written, machine integers of the 32-bit target, C arrays, typed heaps and
    ring buffers, with the lemmas and tactics that the component files use. *)
From stdpp Require Export base option list gmap fin_maps.
From Stdlib Require Export ZArith Lia.

#[export] Set Default Goal Selector "!".
Open Scope Z_scope.

(** * Outcomes *)

(** Why an execution stops without returning: a failed [assert] (debug/assert.h
    halts the kernel), a null dereference, an access outside of a live object or
    an array, a division by zero, an invalid [kfree], a read of an
    uninitialised cell, or a loop that ran out of the fuel of its model. *)
Inductive fault :=
  | AssertFail
  | NullDeref
  | BadAccess
  | DivByZero
  | BadFree
  | Uninit
  | Spin.

#[export] Instance fault_eq_dec : EqDecision fault.
Proof. solve_decision. Defined.

Inductive outcome (A : Type) :=
  | Ok (a : A)
  | Halt (f : fault).
Arguments Ok {A} a.
Arguments Halt {A} f.

#[export] Instance outcome_ret : MRet outcome := fun A a => Ok a.
#[export] Instance outcome_bind : MBind outcome := fun A B k m =>
  match m with Ok a => k a | Halt f => Halt f end.

(** [assert] of debug/assert.h. *)
Definition kassert (b : bool) : outcome unit :=
  if b then Ok tt else Halt AssertFail.

(** Unsigned division and remainder trap on a zero divisor. *)
Definition udiv (a b : Z) : outcome Z :=
  if b =? 0 then Halt DivByZero else Ok (a / b).
Definition umod (a b : Z) : outcome Z :=
  if b =? 0 then Halt DivByZero else Ok (a mod b).

(** Stateful operations that may stop: a state monad over [outcome]. *)
Definition M (S A : Type) : Type := S -> outcome (A * S).

#[export] Instance M_ret S : MRet (M S) := fun A a s => Ok (a, s).
#[export] Instance M_bind S : MBind (M S) := fun A B k m s =>
  match m s with Ok (a, s') => k a s' | Halt f => Halt f end.

Definition getS {S} : M S S := fun s => Ok (s, s).
Definition modifyS {S} (f : S -> S) : M S unit := fun s => Ok (tt, f s).
Definition liftO {S A} (m : outcome A) : M S A := fun s =>
  match m with Ok a => Ok (a, s) | Halt f => Halt f end.
Definition massert {S} (b : bool) : M S unit := liftO (kassert b).

(** * Machine integers of the ILP32 target *)

Definition two32 : Z := 4294967296.
(** conversion to [unsigned int], [size_t], [uintptr_t] *)
Definition u32 (z : Z) : Z := z mod two32.
(** conversion to [int] *)
Definition s32 (z : Z) : Z := (z + 2147483648) mod two32 - 2147483648.
Definition is_u32 (z : Z) : Prop := 0 <= z < two32.
Definition is_s32 (z : Z) : Prop := -2147483648 <= z < 2147483648.
(** the null pointer *)
Definition NULL : Z := 0.
Definition PAGE_SIZE : Z := 4096.

(** * C arrays: an access outside of the bounds is a fault *)

Definition aget {A} (l : list A) (i : Z) : outcome A :=
  if (0 <=? i) && (i <? Z.of_nat (length l)) then
    match l !! Z.to_nat i with Some x => Ok x | None => Halt BadAccess end
  else Halt BadAccess.

Definition aset {A} (l : list A) (i : Z) (x : A) : outcome (list A) :=
  if (0 <=? i) && (i <? Z.of_nat (length l)) then Ok (<[Z.to_nat i := x]> l)
  else Halt BadAccess.

(** * Typed heaps: the live objects of one C type, by address *)

Definition hload {A} (h : gmap Z A) (p : Z) : outcome A :=
  if p =? NULL then Halt NullDeref
  else match h !! p with Some x => Ok x | None => Halt BadAccess end.

Definition hstore {A} (h : gmap Z A) (p : Z) (x : A) : outcome (gmap Z A) :=
  if p =? NULL then Halt NullDeref
  else match h !! p with Some _ => Ok (<[p := x]> h) | None => Halt BadAccess end.

(** A field update through a pointer. *)
Definition hupd {A} (h : gmap Z A) (p : Z) (f : A -> A) : outcome (gmap Z A) :=
  x ← hload h p; Ok (<[p := f x]> h).

(** * Ring buffers *)

(** The [n] cells of the circular buffer [buf] from index [s] on. *)
Definition ring {A} (buf : list A) (s n : nat) : list A :=
  omap (fun k => buf !! ((s + k) mod length buf)%nat) (seq 0 n).

(** * Lemmas *)

Lemma bind_Ok_inv {A B} (m : outcome A) (k : A -> outcome B) b :
  mbind k m = Ok b -> exists a, m = Ok a /\ k a = Ok b.
Proof. destruct m; simpl; [eauto | discriminate]. Qed.

Lemma bind_assoc {A B C} (m : outcome A) (k : A -> outcome B) (k' : B -> outcome C) :
  mbind k' (mbind k m) = mbind (fun a => mbind k' (k a)) m.
Proof. by destruct m. Qed.

Lemma bind_ret_r {A} (m : outcome A) : mbind Ok m = m.
Proof. by destruct m. Qed.

Lemma kassert_Ok_inv b u : kassert b = Ok u -> b = true.
Proof. by destruct b. Qed.

Lemma kassert_true b : b = true -> kassert b = Ok tt.
Proof. by intros ->. Qed.

Lemma umod_pos a b : 0 < b -> umod a b = Ok (a mod b).
Proof. intros Hb. unfold umod. destruct (Z.eqb_spec b 0); [lia | done]. Qed.

Lemma udiv_pos a b : 0 < b -> udiv a b = Ok (a / b).
Proof. intros Hb. unfold udiv. destruct (Z.eqb_spec b 0); [lia | done]. Qed.

Lemma u32_small z : is_u32 z -> u32 z = z.
Proof. unfold is_u32, u32. intros; by apply Z.mod_small. Qed.

Lemma u32_range z : is_u32 (u32 z).
Proof. unfold is_u32, u32, two32. apply Z.mod_pos_bound. lia. Qed.

Lemma u32_idemp z : u32 (u32 z) = u32 z.
Proof. apply u32_small, u32_range. Qed.

Lemma u32_sub_l a b : u32 (u32 a - b) = u32 (a - b).
Proof. unfold u32. apply Zminus_mod_idemp_l. Qed.

Lemma s32_small z : is_s32 z -> s32 z = z.
Proof.
  unfold is_s32, s32, two32. intros. rewrite Z.mod_small; lia.
Qed.

Lemma s32_range z : is_s32 (s32 z).
Proof.
  unfold is_s32, s32, two32.
  pose proof (Z.mod_pos_bound (z + 2147483648) 4294967296). lia.
Qed.

(** The run of a stateful operation. *)
Lemma run_bind {S A B} (k : A -> M S B) (m : M S A) s :
  mbind k m s = match m s with Ok (a, s') => k a s' | Halt f => Halt f end.
Proof. done. Qed.

Lemma run_ret {S A} (a : A) (s : S) : (mret a : M S A) s = Ok (a, s).
Proof. done. Qed.

Lemma run_lift {S A} (m : outcome A) (a : A) (s : S) : m = Ok a -> liftO m s = Ok (a, s).
Proof. by intros ->. Qed.

Lemma run_bind_Ok {S A B} (k : A -> M S B) (m : M S A) s a s' :
  m s = Ok (a, s') -> mbind k m s = k a s'.
Proof. intros H. by rewrite run_bind, H. Qed.

Lemma run_bind_inv {S A B} (k : A -> M S B) (m : M S A) s r :
  mbind k m s = Ok r -> exists a s', m s = Ok (a, s') /\ k a s' = Ok r.
Proof. rewrite run_bind. destruct (m s) as [[a s']|]; [eauto | done]. Qed.

Lemma filter_none {A} (P : A -> Prop) `{forall x, Decision (P x)} l :
  (forall x, x ∈ l -> ~ P x) -> filter P l = [].
Proof.
  induction l as [|x l IH]; intros Hl; [done |]. rewrite filter_cons_False.
  - apply IH. intros y Hy. apply Hl. by apply elem_of_cons; right.
  - apply Hl. by apply elem_of_cons; left.
Qed.

Lemma NoDup_insert_fresh {A} (l : list A) i x : NoDup l -> x ∉ l -> NoDup (<[i := x]> l).
Proof.
  rewrite !NoDup_alt. intros Hnd Hx j k y Hj Hk.
  apply list_lookup_insert_Some in Hj as [(<- & <- & _)|[Hj Hjy]],
    Hk as [(<- & Hk & _)|[Hk Hky]]; simplify_eq; try done.
  - destruct Hx. by eapply list_elem_of_lookup_2.
  - destruct Hx. by eapply list_elem_of_lookup_2.
  - by eapply Hnd.
Qed.

(** Two elements leave a set. *)
Lemma elem_of_diff2 (X : gset Z) x a b : x ∈ X -> x <> a -> x <> b -> x ∈ X ∖ {[a; b]}.
Proof. set_solver. Qed.

(** Two elements replace two others. *)
Lemma swap_diff2 (X : gset Z) a b c d : a ∈ X -> b ∈ X -> a <> c -> a <> d -> b <> c -> b <> d ->
  X ∖ {[c; d]} = {[a; b]} ∪ (X ∖ {[a; b]} ∖ {[c; d]}).
Proof.
  intros Ha Hb Hac Had Hbc Hbd. apply set_eq. intros x.
  destruct (decide (x = a)); [set_solver |]. destruct (decide (x = b)); set_solver.
Qed.

Lemma alter_insert_of_Some {A} (f : A -> A) (h : gmap Z A) k x :
  h !! k = Some x -> alter f k h = <[k := f x]> h.
Proof.
  intros Hx. apply map_eq. intros j. destruct (decide (j = k)) as [->|].
  - by rewrite lookup_insert_eq, lookup_alter_eq, Hx.
  - by rewrite lookup_insert_ne, lookup_alter_ne.
Qed.

Section arrays.
Context {A : Type}.
Implicit Types (l : list A) (x : A).

Lemma aget_Some l i x :
  aget l i = Ok x <-> 0 <= i /\ l !! Z.to_nat i = Some x.
Proof.
  unfold aget. split.
  - destruct (Z.leb_spec 0 i), (Z.ltb_spec i (Z.of_nat (length l))); simpl; try done.
    destruct (l !! Z.to_nat i); intros [= ->]; done.
  - intros [Hi Hl]. pose proof (lookup_lt_Some _ _ _ Hl).
    destruct (Z.leb_spec 0 i), (Z.ltb_spec i (Z.of_nat (length l))); try lia.
    simpl. by rewrite Hl.
Qed.

Lemma aget_nat l (i : nat) x : l !! i = Some x -> aget l (Z.of_nat i) = Ok x.
Proof. intros H. apply aget_Some. rewrite Nat2Z.id. split; [lia | done]. Qed.

Lemma aget_lt l i : 0 <= i < Z.of_nat (length l) -> exists x, aget l i = Ok x.
Proof.
  intros Hi. destruct (lookup_lt_is_Some_2 l (Z.to_nat i)) as [x Hx]; [lia |].
  exists x. apply aget_Some. split; [lia | done].
Qed.

Lemma aset_lt l i x :
  0 <= i < Z.of_nat (length l) -> aset l i x = Ok (<[Z.to_nat i := x]> l).
Proof.
  intros Hi. unfold aset.
  destruct (Z.leb_spec 0 i), (Z.ltb_spec i (Z.of_nat (length l))); (done || lia).
Qed.

Lemma aset_Ok_inv l i x l' :
  aset l i x = Ok l' -> 0 <= i < Z.of_nat (length l) /\ l' = <[Z.to_nat i := x]> l.
Proof.
  unfold aset.
  destruct (Z.leb_spec 0 i), (Z.ltb_spec i (Z.of_nat (length l))); simpl; try done.
  intros [= <-]. split; [lia | done].
Qed.

Lemma aget_oob l i : i < 0 \/ Z.of_nat (length l) <= i -> aget l i = Halt BadAccess.
Proof.
  intros Hi. unfold aget.
  destruct (Z.leb_spec 0 i), (Z.ltb_spec i (Z.of_nat (length l))); simpl; (done || lia).
Qed.

Lemma aset_oob l i x : i < 0 \/ Z.of_nat (length l) <= i -> aset l i x = Halt BadAccess.
Proof.
  intros Hi. unfold aset.
  destruct (Z.leb_spec 0 i), (Z.ltb_spec i (Z.of_nat (length l))); simpl; (done || lia).
Qed.

Lemma aget_insert l i x : 0 <= i < Z.of_nat (length l) -> aget (<[Z.to_nat i := x]> l) i = Ok x.
Proof. intros Hi. apply aget_Some. split; [lia |]. apply list_lookup_insert_eq. lia. Qed.

Lemma aget_bounds l i x : aget l i = Ok x -> 0 <= i < Z.of_nat (length l).
Proof. intros [H0 H]%aget_Some. apply lookup_lt_Some in H. lia. Qed.

Lemma aset_aget l i x y : aget l i = Ok y -> aset l i x = Ok (<[Z.to_nat i := x]> l).
Proof. intros H%aget_bounds. by apply aset_lt. Qed.
End arrays.

Section heaps.
Context {A : Type}.
Implicit Types (h : gmap Z A) (x : A).

Lemma hload_Some h p x : p <> 0 -> h !! p = Some x -> hload h p = Ok x.
Proof. intros Hp Hx. unfold hload, NULL. destruct (Z.eqb_spec p 0); [done | by rewrite Hx]. Qed.

Lemma hload_Ok_inv h p x : hload h p = Ok x -> p <> 0 /\ h !! p = Some x.
Proof.
  unfold hload, NULL. destruct (Z.eqb_spec p 0); [done |].
  destruct (h !! p); [intros [= ->]; done | done].
Qed.

Lemma hupd_Some h p f x : p <> 0 -> h !! p = Some x -> hupd h p f = Ok (<[p := f x]> h).
Proof. intros Hp Hx. unfold hupd. by rewrite (hload_Some _ _ _ Hp Hx). Qed.

Lemma hstore_Some h p x : p <> 0 -> is_Some (h !! p) -> hstore h p x = Ok (<[p := x]> h).
Proof.
  intros Hp [y Hy]. unfold hstore, NULL. destruct (Z.eqb_spec p 0); [done | by rewrite Hy].
Qed.

Lemma hstore_Ok_inv h p x h' :
  hstore h p x = Ok h' -> p <> 0 /\ is_Some (h !! p) /\ h' = <[p := x]> h.
Proof.
  unfold hstore, NULL. destruct (Z.eqb_spec p 0); [done |].
  destruct (h !! p); [intros [= <-]; eauto | done].
Qed.
End heaps.

Section rings.
Context {A : Type}.
Implicit Types (buf : list A) (s n : nat) (x : A).
Local Open Scope nat_scope.

Lemma ring_0 buf s : ring buf s 0 = [].
Proof. done. Qed.

Lemma ring_S buf s n :
  ring buf s (S n) =
  ring buf s n ++ match buf !! ((s + n) mod length buf) with Some x => [x] | None => [] end.
Proof.
  unfold ring. rewrite seq_S, omap_app. simpl.
  by destruct (buf !! ((s + n) mod length buf)).
Qed.

Lemma ring_S_Some buf s n x :
  buf !! ((s + n) mod length buf) = Some x -> ring buf s (S n) = ring buf s n ++ [x].
Proof. intros H. rewrite ring_S. by rewrite H. Qed.

Lemma ring_slot buf s n : 0 < length buf -> is_Some (buf !! ((s + n) mod length buf)).
Proof. intros Hl. apply lookup_lt_is_Some_2, Nat.mod_upper_bound. lia. Qed.

Lemma length_ring buf s n : 0 < length buf -> length (ring buf s n) = n.
Proof.
  intros Hl. induction n as [|n IH]; [done |].
  destruct (ring_slot buf s n Hl) as [x Hx].
  rewrite (ring_S_Some _ _ _ _ Hx), length_app, IH. simpl. lia.
Qed.

Lemma ring_head buf s n x :
  s < length buf -> buf !! s = Some x ->
  ring buf s (S n) = x :: ring buf ((s + 1) mod length buf) n.
Proof.
  intros Hs Hx. induction n as [|n IH].
  - rewrite ring_S. rewrite Nat.add_0_r, Nat.mod_small by lia. by rewrite Hx.
  - rewrite ring_S, IH. rewrite (ring_S buf ((s + 1) mod length buf) n). simpl.
    f_equal. f_equal.
    rewrite Nat.Div0.add_mod_idemp_l. by replace (s + 1 + n) with (s + S n) by lia.
Qed.

Lemma mod_shift_ne L s j n : j < n -> n < L -> s < L ->
  (s + n) mod L <> (s + j) mod L.
Proof.
  intros Hj Hn Hs.
  destruct (decide (s + n < L)) as [H1|H1]; destruct (decide (s + j < L)) as [H2|H2].
  - rewrite !Nat.mod_small by lia. lia.
  - lia.
  - rewrite (Nat.mod_small (s + j)) by lia.
    rewrite (Nat.Div0.mod_eq (s + n) L).
    assert ((s + n) / L = 1) as -> by (symmetry; apply (Nat.div_unique _ _ _ (s + n - L)); lia).
    lia.
  - rewrite (Nat.Div0.mod_eq (s + n) L), (Nat.Div0.mod_eq (s + j) L).
    assert ((s + n) / L = 1) as -> by (symmetry; apply (Nat.div_unique _ _ _ (s + n - L)); lia).
    assert ((s + j) / L = 1) as -> by (symmetry; apply (Nat.div_unique _ _ _ (s + j - L)); lia).
    lia.
Qed.

Lemma ring_insert_ne buf s n i x :
  (forall k, k < n -> (s + k) mod length buf <> i) ->
  ring (<[i := x]> buf) s n = ring buf s n.
Proof.
  intros Hne. induction n as [|n IH]; [done |].
  rewrite !ring_S, length_insert, IH by (intros; apply Hne; lia).
  by rewrite list_lookup_insert_ne by (apply not_eq_sym, Hne; lia).
Qed.

Lemma ring_snoc buf s n x :
  s < length buf -> n < length buf ->
  ring (<[(s + n) mod length buf := x]> buf) s (S n) = ring buf s n ++ [x].
Proof.
  intros Hs Hn.
  rewrite (ring_S_Some _ _ _ x).
  - f_equal. apply ring_insert_ne. intros k Hk. apply not_eq_sym, mod_shift_ne; lia.
  - rewrite length_insert. apply list_lookup_insert_eq, Nat.mod_upper_bound. lia.
Qed.

Lemma ring_take buf n : n <= length buf -> ring buf 0 n = take n buf.
Proof.
  intros Hn. induction n as [|n IH]; [done |].
  destruct (lookup_lt_is_Some_2 buf n) as [x Hx]; [lia |].
  rewrite (ring_S_Some _ _ _ x).
  - rewrite IH by lia. by rewrite (take_S_r _ _ _ Hx).
  - by rewrite Nat.add_0_l, Nat.mod_small by lia.
Qed.

Lemma ring_lookup buf s n k :
  0 < length buf -> k < n -> ring buf s n !! k = buf !! ((s + k) mod length buf).
Proof.
  intros Hl. revert k. induction n as [|n IH]; intros k Hk; [lia |].
  destruct (ring_slot buf s n Hl) as [x Hx]. rewrite (ring_S_Some _ _ _ _ Hx).
  destruct (decide (k < n)).
  - rewrite lookup_app_l by (rewrite length_ring; lia). by apply IH.
  - assert (k = n) as -> by lia.
    rewrite lookup_app_r by (rewrite length_ring; lia).
    rewrite length_ring, Nat.sub_diag by lia. by rewrite Hx.
Qed.
End rings.

(** * Tactics *)

(** Inverts every [_ <- m; k = Ok _] hypothesis into its steps. *)
Ltac inv_ok :=
  repeat match goal with
  | H : mbind _ _ = Ok _ |- _ =>
      let a := fresh "r" in let E := fresh "E" in
      apply bind_Ok_inv in H; destruct H as (a & E & H); cbn beta in H
  | H : kassert ?b = Ok _ |- _ => apply kassert_Ok_inv in H
  | H : (let '(_, _) := ?p in _) = Ok _ |- _ => destruct p eqn:?
  | H : Ok _ = Ok _ |- _ => injection H; clear H; intros; subst
  | H : mret _ = Ok _ |- _ => injection H; clear H; intros; subst
  | H : Halt _ = Ok _ |- _ => discriminate H
  end.

(** Inverts every successful step of a stateful operation. *)
Ltac inv_run :=
  repeat match goal with
  | H : mbind _ _ _ = Ok _ |- _ =>
      let a := fresh "r" in let s := fresh "s" in let E := fresh "E" in
      apply run_bind_inv in H; destruct H as (a & s & E & H); cbn beta in H
  | H : (mret _ : M _ _) _ = Ok _ |- _ => injection H; clear H; intros; subst
  | H : (let '(_, _) := ?p in _) _ = Ok _ |- _ => destruct p eqn:?
  end.

(** Runs the next steps of a stateful operation. *)
Ltac mstep := cbn [mbind mret M_bind M_ret outcome_bind outcome_ret getS modifyS liftO massert].
Tactic Notation "mrw" uconstr(e) := rewrite e; mstep.

(** The same, one [_ <- _; _] at a time from the outside in. *)
Ltac mred := cbn [getS modifyS liftO massert kassert negb andb orb].
Ltac mrun := mred; repeat (first [rewrite run_bind | rewrite run_ret]; mred).

(** Case analysis on every boolean comparison of integers in sight. *)
Ltac zbool :=
  repeat match goal with
  | |- context [Z.eqb ?a ?b] => destruct (Z.eqb_spec a b)
  | |- context [Z.ltb ?a ?b] => destruct (Z.ltb_spec a b)
  | |- context [Z.leb ?a ?b] => destruct (Z.leb_spec a b)
  | H : context [Z.eqb ?a ?b] |- _ => destruct (Z.eqb_spec a b)
  | H : context [Z.ltb ?a ?b] |- _ => destruct (Z.ltb_spec a b)
  | H : context [Z.leb ?a ?b] |- _ => destruct (Z.leb_spec a b)
  end; try done; try lia.

Create HintDb kernel discriminated.
Create Rewrite HintDb kernel.
#[export] Hint Resolve u32_range s32_range : kernel.
#[export] Hint Rewrite @length_insert u32_idemp : kernel.
