(* ===== verification/Mm.v ===== *)
(** The memory subsystem interface: [kmalloc]/[kfree]/[krealloc] of mm/mm.c
    dispatch to a table of functions ([struct mm_subsystem]).  The class states
    the table, its laws are what the callers rely on, and [bump] is a concrete
    instance with a budget, on which witnesses compute. *)
From S2P Require Import Prelude.

(** [struct mm_subsystem] of mm/mm.h: [A] is the allocator's state, [mm_live]
    the set of addresses handed out and not yet given back. *)
Class MmSubsystem (A : Type) := {
  mm_malloc : Z -> A -> Z * A;
  mm_free : Z -> A -> A;
  mm_realloc : Z -> Z -> A -> Z * A;
  mm_live : A -> gset Z;
}.

(** What the callers of the table rely on. *)
Class MmLaws (A : Type) `{MmSubsystem A} := {
  mm_malloc_law : forall n a p a', mm_malloc n a = (p, a') ->
    (p = NULL /\ mm_live a' = mm_live a) \/
    (p <> NULL /\ p ∉ mm_live a /\ mm_live a' = {[p]} ∪ mm_live a);
  mm_free_law : forall p a, p ∈ mm_live a -> mm_live (mm_free p a) = mm_live a ∖ {[p]};
  mm_realloc_law : forall p n a q a', mm_realloc p n a = (q, a') ->
    p = NULL \/ p ∈ mm_live a ->
    (q = NULL /\ mm_live a' = mm_live a ∖ {[p]}) \/
    (q <> NULL /\ q ∉ mm_live a ∖ {[p]} /\ mm_live a' = {[q]} ∪ (mm_live a ∖ {[p]}));
  mm_live_nonnull : forall a, NULL ∉ mm_live a;
}.

(** [kmalloc], [kfree], [krealloc] of mm/mm.c.  Giving back the null pointer is
    a no-op of the installed allocator; giving back an address that is not live
    is a fault of the caller. *)
Definition kmalloc `{MmSubsystem A} (s : Z) (a : A) : Z * A := mm_malloc s a.

Definition kfree `{MmSubsystem A} (ptr : Z) (a : A) : outcome A :=
  if ptr =? NULL then Ok a
  else if decide (ptr ∈ mm_live a) then Ok (mm_free ptr a) else Halt BadFree.

Definition krealloc `{MmSubsystem A} (ptr s : Z) (a : A) : outcome (Z * A) :=
  if decide (ptr = NULL \/ ptr ∈ mm_live a) then Ok (mm_realloc ptr s a)
  else Halt BadFree.

(** A concrete allocator with a bounded number of blocks: the next block is
    placed above every live one. *)
Record arena := Arena { arena_budget : nat; arena_live : gset Z }.

Definition arena_next (live : gset Z) : Z := set_fold Z.max 0 live + 1.

Definition arena_malloc (a : arena) : Z * arena :=
  match arena_budget a with
  | O => (NULL, a)
  | S b =>
      let p := arena_next (arena_live a ∖ {[NULL]}) in
      (p, Arena b ({[p]} ∪ arena_live a))
  end.

Definition arena_free (p : Z) (a : arena) : arena :=
  Arena (arena_budget a) (arena_live a ∖ {[p]}).

Definition arena_realloc (p n : Z) (a : arena) : Z * arena :=
  if n =? 0 then (NULL, arena_free p a) else arena_malloc (arena_free p a).

#[export] Instance arena_mm : MmSubsystem arena := {
  mm_malloc _ a := arena_malloc a;
  mm_free := arena_free;
  mm_realloc := arena_realloc;
  mm_live a := arena_live a ∖ {[NULL]};
}.

Definition arena0 (n : nat) : arena := Arena n ∅.

Lemma set_fold_max_ub (X : gset Z) : 0 <= set_fold Z.max 0 X /\ forall x, x ∈ X -> x <= set_fold Z.max 0 X.
Proof.
  apply (set_fold_ind_L (fun r X => 0 <= r /\ forall x, x ∈ X -> x <= r)).
  - split; [lia | set_solver].
  - intros x Y r _ [H0 HY]. split; [lia |].
    intros y [->%elem_of_singleton|Hy]%elem_of_union; [lia |].
    specialize (HY y Hy). lia.
Qed.

Lemma arena_next_spec X : arena_next X <> NULL /\ arena_next X ∉ X.
Proof.
  unfold arena_next, NULL. destruct (set_fold_max_ub X) as [H0 HX].
  split; [lia |]. intros Hin. apply HX in Hin. lia.
Qed.

Lemma arena_malloc_spec a p a' : arena_malloc a = (p, a') ->
  (p = NULL /\ mm_live a' = mm_live a) \/
  (p <> NULL /\ p ∉ mm_live a /\ mm_live a' = {[p]} ∪ mm_live a).
Proof.
  unfold arena_malloc. destruct (arena_budget a).
  - intros [= <- <-]. by left.
  - intros [= <- <-]. right.
    destruct (arena_next_spec (arena_live a ∖ {[NULL]})) as [Hp Hx]. simpl.
    split_and!; [done | done | set_solver].
Qed.

#[export] Instance arena_laws : MmLaws arena.
Proof.
  split.
  - intros n a p a' H. by apply arena_malloc_spec.
  - intros p a _. simpl. set_solver.
  - intros p n a q a' H Hp. clear Hp.
    assert (mm_live (arena_free p a) = mm_live a ∖ {[p]}) as Hf by (simpl; set_solver).
    change (arena_realloc p n a = (q, a')) in H. unfold arena_realloc in H.
    destruct (n =? 0).
    + injection H as <- <-. by left.
    + apply arena_malloc_spec in H. by rewrite Hf in H.
  - intros a. simpl. set_solver.
Qed.

Section laws.
Context {A : Type} `{MmLaws A}.
Implicit Types a : A.

Lemma kfree_live p a : p ∈ mm_live a ->
  exists a', kfree p a = Ok a' /\ mm_live a' = mm_live a ∖ {[p]}.
Proof.
  intros Hp. unfold kfree. destruct (Z.eqb_spec p NULL) as [->|].
  - by destruct (mm_live_nonnull a).
  - rewrite decide_True by done. eexists. split; [done | by apply mm_free_law].
Qed.

Lemma kfree_null a : kfree NULL a = Ok a.
Proof. done. Qed.

Lemma kfree_dead p a : p <> NULL -> p ∉ mm_live a -> kfree p a = Halt BadFree.
Proof.
  intros Hp Hl. unfold kfree. destruct (Z.eqb_spec p NULL); [done |].
  by rewrite decide_False.
Qed.

Lemma kmalloc_cases n a p a' : kmalloc n a = (p, a') ->
  (p = NULL /\ mm_live a' = mm_live a) \/
  (p <> NULL /\ p ∉ mm_live a /\ mm_live a' = {[p]} ∪ mm_live a).
Proof. apply mm_malloc_law. Qed.
End laws.
