(* ===== verification/Dll.v ===== *)
(** Doubly linked lists in a typed heap: nodes of any type that has a previous
    and a next pointer, the predicate that a list of addresses and payloads is
    laid out in the heap, and what insertion and removal of a node do to it. *)
From S2P Require Import Prelude.

(** A node [N] is its two pointers and a payload [P]. *)
Class DNode (P N : Type) := {
  mk_node : Z -> Z -> P -> N;
  with_prev : Z -> N -> N;
  with_next : Z -> N -> N;
  with_prev_mk : forall v p n x, with_prev v (mk_node p n x) = mk_node v n x;
  with_next_mk : forall v p n x, with_next v (mk_node p n x) = mk_node p v x;
}.

Section dll.
Context {P N : Type} `{DNode P N}.
Implicit Types (h : gmap Z N) (l : list (Z * P)) (x : P) (a p n : Z).

(** The address of the first and of the last node, or [d] if there is none. *)
Definition head_or (d : Z) (l : list (Z * P)) : Z := match l with [] => d | (a, _) :: _ => a end.
Definition last_or (d : Z) (l : list (Z * P)) : Z := match last l with Some (a, _) => a | None => d end.

(** The nodes of [l], one after another, between the nodes [p] and [n]. *)
Fixpoint seg (h : gmap Z N) (p : Z) (l : list (Z * P)) (n : Z) : Prop :=
  match l with
  | [] => True
  | (a, x) :: l' => h !! a = Some (mk_node p (head_or n l') x) /\ seg h a l' n
  end.

(** The pointer updates [p->next = v] and [n->prev = v], on a node that may be
    missing. *)
Definition link_next (p v : Z) (h : gmap Z N) : gmap Z N := if p =? NULL then h else alter (with_next v) p h.
Definition link_prev (n v : Z) (h : gmap Z N) : gmap Z N := if n =? NULL then h else alter (with_prev v) n h.

Lemma head_or_app d l1 l2 : head_or d (l1 ++ l2) = head_or (head_or d l2) l1.
Proof. by destruct l1 as [|[]]. Qed.

Lemma last_or_app d l1 l2 : last_or d (l1 ++ l2) = last_or (last_or d l1) l2.
Proof.
  unfold last_or. rewrite last_app. destruct (last l2) as [[]|]; [done |]. by destruct (last l1) as [[]|].
Qed.

Lemma last_or_cons d a x l : last_or d ((a, x) :: l) = last_or a l.
Proof. change ((a, x) :: l) with ([(a, x)] ++ l). by rewrite last_or_app. Qed.

Lemma last_or_snoc d l a x : last_or d (l ++ [(a, x)]) = a.
Proof. by rewrite last_or_app. Qed.

Lemma head_or_in d l : head_or d l = d \/ head_or d l ∈ l.*1.
Proof. destruct l as [|[a x] l]; [by left | right; simpl; by apply elem_of_cons; left]. Qed.

Lemma last_or_in d l : last_or d l = d \/ last_or d l ∈ l.*1.
Proof.
  unfold last_or. destruct (last l) as [[a x]|] eqn:E; [right | by left].
  apply last_Some in E as [l' ->]. rewrite fmap_app. apply elem_of_app. right. simpl. by apply elem_of_cons; left.
Qed.

Lemma seg_app h p l1 l2 n : seg h p (l1 ++ l2) n <-> seg h p l1 (head_or n l2) /\ seg h (last_or p l1) l2 n.
Proof.
  revert p. induction l1 as [|[a x] l1 IH]; intros p; simpl; [tauto |].
  rewrite head_or_app, last_or_cons, IH. tauto.
Qed.

Lemma seg_frame h h' p l n : (forall a, a ∈ l.*1 -> h' !! a = h !! a) -> seg h p l n -> seg h' p l n.
Proof.
  revert p. induction l as [|[a x] l IH]; intros p Hf; simpl; [done |]. intros [Ha Hl]. split.
  - rewrite Hf; [done |]. simpl. by apply elem_of_cons; left.
  - apply IH; [|done]. intros b Hb. apply Hf. simpl. by apply elem_of_cons; right.
Qed.

Lemma seg_lookup h p l1 a x l2 n : seg h p (l1 ++ (a, x) :: l2) n ->
  h !! a = Some (mk_node (last_or p l1) (head_or n l2) x).
Proof. rewrite seg_app. simpl. by intros (_ & Ha & _). Qed.

Lemma seg_dom h p l n a : seg h p l n -> a ∈ l.*1 -> is_Some (h !! a).
Proof.
  intros Hs Ha. apply list_elem_of_fmap in Ha as ([b x] & -> & Hb). apply list_elem_of_split in Hb as (l1 & l2 & ->).
  eexists. by eapply seg_lookup.
Qed.

(** Changing the outer pointers of a segment. *)
Lemma seg_link_prev h p l n v : seg h p l n -> NoDup (l.*1) -> NULL ∉ l.*1 ->
  seg (link_prev (head_or NULL l) v h) v l n.
Proof.
  destruct l as [|[a x] l]; [done |]. simpl. intros [Ha Hl] Hnd Hn. apply NoDup_cons in Hnd as [Hnin _].
  unfold link_prev. destruct (Z.eqb_spec a NULL) as [->|_]; [destruct Hn; by apply elem_of_cons; left |]. split.
  - rewrite lookup_alter_eq, Ha. simpl. by rewrite with_prev_mk.
  - eapply seg_frame; [|done]. intros b Hb. apply lookup_alter_ne. by intros ->.
Qed.

Lemma seg_link_next h p l n v : seg h p l n -> NoDup (l.*1) -> NULL ∉ l.*1 ->
  seg (link_next (last_or NULL l) v h) p l v.
Proof.
  destruct l as [|[a x] l _] using rev_ind; [done |]. rewrite last_or_snoc, fmap_app, seg_app. simpl.
  intros [Hl [Ha _]] (_ & Hdis & _)%NoDup_app Hn. unfold link_next.
  destruct (Z.eqb_spec a NULL) as [->|_]; [destruct Hn; apply elem_of_app; right; by apply elem_of_cons; left |].
  apply seg_app. simpl. split.
  - eapply seg_frame; [|done]. intros b Hb. apply lookup_alter_ne. intros <-.
    apply (Hdis a Hb). by apply elem_of_cons; left.
  - split; [|done]. rewrite lookup_alter_eq, Ha. simpl. by rewrite with_next_mk.
Qed.

Lemma link_next_ne p v h a : a <> p -> link_next p v h !! a = h !! a.
Proof. unfold link_next. intros Ha. destruct (p =? NULL); [done |]. by apply lookup_alter_ne. Qed.
Lemma link_prev_ne p v h a : a <> p -> link_prev p v h !! a = h !! a.
Proof. unfold link_prev. intros Ha. destruct (p =? NULL); [done |]. by apply lookup_alter_ne. Qed.

Lemma link_next_insert p v h (x : N) : p <> NULL -> h !! p = Some x -> link_next p v h = <[p := with_next v x]> h.
Proof. intros Hp Hx. unfold link_next. destruct (Z.eqb_spec p NULL); [done |]. by apply alter_insert_of_Some. Qed.
Lemma link_prev_insert p v h (x : N) : p <> NULL -> h !! p = Some x -> link_prev p v h = <[p := with_prev v x]> h.
Proof. intros Hp Hx. unfold link_prev. destruct (Z.eqb_spec p NULL); [done |]. by apply alter_insert_of_Some. Qed.

Lemma link_next_some p v h a : is_Some (link_next p v h !! a) <-> is_Some (h !! a).
Proof.
  unfold link_next. destruct (p =? NULL); [done |]. destruct (decide (a = p)) as [->|].
  - rewrite lookup_alter_eq. destruct (h !! p); simpl; split; intros []; eauto; done.
  - by rewrite lookup_alter_ne.
Qed.
Lemma link_prev_some p v h a : is_Some (link_prev p v h !! a) <-> is_Some (h !! a).
Proof.
  unfold link_prev. destruct (p =? NULL); [done |]. destruct (decide (a = p)) as [->|].
  - rewrite lookup_alter_eq. destruct (h !! p); simpl; split; intros []; eauto; done.
  - by rewrite lookup_alter_ne.
Qed.

Lemma last_or_notin d l a : a ∉ l.*1 -> a <> d -> last_or d l <> a.
Proof. intros Ha Hd. destruct (last_or_in d l) as [->|Hin]; [done | congruence]. Qed.
Lemma head_or_notin d l a : a ∉ l.*1 -> a <> d -> head_or d l <> a.
Proof. intros Ha Hd. destruct (head_or_in d l) as [->|Hin]; [done | congruence]. Qed.

Lemma seg_split_parts l1 l2 : NoDup ((l1 ++ l2).*1) -> NULL ∉ (l1 ++ l2).*1 ->
  NoDup (l1.*1) /\ NoDup (l2.*1) /\ NULL ∉ l1.*1 /\ NULL ∉ l2.*1 /\
  (forall a, a ∈ l1.*1 -> a <> head_or NULL l2) /\ (forall a, a ∈ l2.*1 -> a <> last_or NULL l1).
Proof.
  rewrite fmap_app. intros (H1 & Hd & H2)%NoDup_app Hn. rewrite not_elem_of_app in Hn. destruct Hn as [N1 N2].
  split_and!; try done.
  - intros a Ha Eq. destruct (head_or_in NULL l2) as [E|E]; [congruence |]. rewrite <- Eq in E. by apply (Hd a).
  - intros a Ha Eq. destruct (last_or_in NULL l1) as [E|E]; [congruence |]. rewrite <- Eq in E. by apply (Hd a).
Qed.

(** The heap around a node [a] between [l1] and [l2]: their ends linked to it. *)
Definition splice (v1 v2 : Z) (l1 l2 : list (Z * P)) (h : gmap Z N) : gmap Z N :=
  link_prev (head_or NULL l2) v2 (link_next (last_or NULL l1) v1 h).

Lemma splice_ne v1 v2 l1 l2 h a : a <> last_or NULL l1 -> a <> head_or NULL l2 -> splice v1 v2 l1 l2 h !! a = h !! a.
Proof. intros H1 H2. unfold splice. by rewrite link_prev_ne, link_next_ne. Qed.

Lemma splice_other v1 v2 l1 l2 h a : a ∉ (l1 ++ l2).*1 -> a <> NULL -> splice v1 v2 l1 l2 h !! a = h !! a.
Proof.
  rewrite fmap_app, not_elem_of_app. intros [H1 H2] Hn.
  apply splice_ne; apply not_eq_sym; [by apply last_or_notin | by apply head_or_notin].
Qed.

Lemma splice_some v1 v2 l1 l2 h a : is_Some (splice v1 v2 l1 l2 h !! a) <-> is_Some (h !! a).
Proof. unfold splice. by rewrite link_prev_some, link_next_some. Qed.

Lemma splice_segs h l1 l2 m1 m2 v1 v2 : seg h NULL l1 m1 -> seg h m2 l2 NULL -> NoDup ((l1 ++ l2).*1) ->
  NULL ∉ (l1 ++ l2).*1 ->
  seg (splice v1 v2 l1 l2 h) NULL l1 v1 /\ seg (splice v1 v2 l1 l2 h) v2 l2 NULL.
Proof.
  intros H1 H2 Hnd Hn. destruct (seg_split_parts l1 l2 Hnd Hn) as (N1 & N2 & Z1 & Z2 & D1 & D2). unfold splice. split.
  - eapply seg_frame; [|eapply (seg_link_next h NULL l1 m1 v1); done]. intros a Ha. apply link_prev_ne. by apply D1.
  - eapply (seg_link_prev _ m2); [|done..]. eapply seg_frame; [|done]. intros a Ha. apply link_next_ne. by apply D2.
Qed.

(** The two updates can be made in either order. *)
Lemma link_comm p v1 n v2 h : p <> n \/ p = NULL ->
  link_next p v1 (link_prev n v2 h) = link_prev n v2 (link_next p v1 h).
Proof.
  unfold link_next, link_prev. intros Hpn.
  destruct (Z.eqb_spec p NULL) as [->|Hp]; [done |]. destruct (Z.eqb_spec n NULL); [done |].
  destruct Hpn; [|done]. apply alter_alter_ne. congruence.
Qed.

(** A new payload for one node. *)
Lemma seg_update h p l1 a x y l2 n : seg h p (l1 ++ (a, x) :: l2) n -> NoDup ((l1 ++ (a, x) :: l2).*1) ->
  seg (<[a := mk_node (last_or p l1) (head_or n l2) y]> h) p (l1 ++ (a, y) :: l2) n.
Proof.
  rewrite fmap_app. intros (H1 & _ & H2)%seg_app (_ & Hd & Ha)%NoDup_app. simpl in Ha. apply NoDup_cons in Ha as [Ha _].
  apply seg_app. simpl. split; [|split].
  - eapply seg_frame; [|exact H1]. intros b Hb. apply lookup_insert_ne. intros ->.
    apply (Hd b Hb). simpl. by apply elem_of_cons; left.
  - apply lookup_insert_eq.
  - eapply seg_frame; [|exact H2]. intros b Hb. apply lookup_insert_ne. by intros ->.
Qed.

(** Insertion of a node and removal of one. *)
Lemma dll_insert h l1 l2 a x : seg h NULL (l1 ++ l2) NULL -> NoDup ((l1 ++ l2).*1) -> NULL ∉ (l1 ++ l2).*1 ->
  a ∉ (l1 ++ l2).*1 ->
  seg (<[a := mk_node (last_or NULL l1) (head_or NULL l2) x]> (splice a a l1 l2 h)) NULL (l1 ++ (a, x) :: l2) NULL.
Proof.
  intros [H1 H2]%seg_app Hnd Hn Ha.
  destruct (splice_segs h l1 l2 _ _ a a H1 H2 Hnd Hn) as [S1 S2]. rewrite fmap_app, not_elem_of_app in Ha.
  destruct Ha as [Ha1 Ha2]. apply seg_app. simpl. split.
  - eapply seg_frame; [|done]. intros b Hb. apply lookup_insert_ne. by intros ->.
  - rewrite lookup_insert_eq. split; [done |]. eapply seg_frame; [|done]. intros b Hb. apply lookup_insert_ne. by intros ->.
Qed.

Lemma dll_remove h l1 l2 a x : seg h NULL (l1 ++ (a, x) :: l2) NULL -> NoDup ((l1 ++ l2).*1) ->
  NULL ∉ (l1 ++ l2).*1 ->
  seg (splice (head_or NULL l2) (last_or NULL l1) l1 l2 h) NULL (l1 ++ l2) NULL.
Proof.
  intros [H1 H2]%seg_app Hnd Hn. simpl in H2. destruct H2 as [_ H2].
  destruct (splice_segs h l1 l2 _ _ (head_or NULL l2) (last_or NULL l1) H1 H2 Hnd Hn) as [S1 S2].
  apply seg_app. split; done.
Qed.
End dll.
