(* ===== verification/Lists.v ===== *)
(** The intrusive doubly linked lists of ds/list.h: an element is embedded in an
    object, and is named by the address of that object. *)
From S2P Require Import Prelude Dll.

(** [struct ds_list]; [object] is the address that names the element. *)
Record ds_list := DsList { l_prev : Z; l_next : Z }.

Definition set_lprev (v : Z) (l : ds_list) : ds_list := DsList v (l_next l).
Definition set_lnext (v : Z) (l : ds_list) : ds_list := DsList (l_prev l) v.

#[export] Instance ds_node : DNode unit ds_list := {
  mk_node p n _ := DsList p n;
  with_prev := set_lprev;
  with_next := set_lnext;
  with_prev_mk _ _ _ _ := eq_refl;
  with_next_mk _ _ _ _ := eq_refl;
}.

Notation lheap := (gmap Z ds_list).

Definition list_init (l : Z) (h : lheap) : lheap := <[l := DsList NULL NULL]> h.

Definition list_remove (l : Z) (h : lheap) : outcome lheap :=
  x ← hload h l;
  h ← (if negb (l_prev x =? NULL) then hupd h (l_prev x) (set_lnext (l_next x)) else Ok h);
  h ← (if negb (l_next x =? NULL) then hupd h (l_next x) (set_lprev (l_prev x)) else Ok h);
  Ok (list_init l h).

Definition list_insertBefore (position l : Z) (h : lheap) : outcome lheap :=
  p ← hload h position;
  h ← hupd h l (set_lprev (l_prev p));
  h ← hupd h l (set_lnext position);
  h ← hupd h position (set_lprev l);
  if negb (l_prev p =? NULL) then hupd h (l_prev p) (set_lnext l) else Ok h.

Definition list_insertAfter (position l : Z) (h : lheap) : outcome lheap :=
  h ← hupd h l (set_lprev position);
  p ← hload h position;
  h ← hupd h l (set_lnext (l_next p));
  h ← hupd h position (set_lnext l);
  if negb (l_next p =? NULL) then hupd h (l_next p) (set_lprev l) else Ok h.

(** The macro [NEXT_LINEAR]. *)
Definition NEXT_LINEAR (l : Z) (h : lheap) : outcome Z := x ← hload h l; Ok (l_next x).

(** The list from its first element on. *)
Definition unit_nodes (l : list Z) : list (Z * unit) := map (fun a => (a, tt)) l.
Definition dlist (h : lheap) (l : list Z) : Prop := seg h NULL (unit_nodes l) NULL /\ NoDup l /\ NULL ∉ l.

Definition first_of (l : list Z) : Z := match l with [] => NULL | a :: _ => a end.
Definition last_of (l : list Z) : Z := default NULL (last l).

Lemma unit_nodes_fst l : (unit_nodes l).*1 = l.
Proof. induction l as [|a l IH]; [done |]. simpl. f_equal. exact IH. Qed.

Lemma unit_nodes_app l1 l2 : unit_nodes (l1 ++ l2) = unit_nodes l1 ++ unit_nodes l2.
Proof. apply map_app. Qed.

Lemma unit_nodes_head l : head_or NULL (unit_nodes l) = first_of l.
Proof. by destruct l. Qed.

Lemma unit_nodes_last l : last_or NULL (unit_nodes l) = last_of l.
Proof.
  unfold last_of. destruct l as [|a l _] using rev_ind; [done |]. rewrite unit_nodes_app, last_snoc. apply last_or_snoc.
Qed.

Lemma dlist_lookup h l1 a l2 : dlist h (l1 ++ a :: l2) -> h !! a = Some (DsList (last_of l1) (first_of l2)) /\ a <> NULL.
Proof.
  intros (Hs & _ & Hn). split.
  - rewrite unit_nodes_app in Hs. cbn [unit_nodes map] in Hs. apply seg_lookup in Hs.
    rewrite unit_nodes_head, unit_nodes_last in Hs. exact Hs.
  - intros ->. apply Hn, elem_of_app. right. by apply elem_of_cons; left.
Qed.

Lemma dlist_frame h h' l : (forall a, a ∈ l -> h' !! a = h !! a) -> dlist h l -> dlist h' l.
Proof.
  intros Hf (Hs & Hnd & Hn). split; [|done]. eapply seg_frame; [|done]. intros a Ha. apply Hf. by rewrite unit_nodes_fst in Ha.
Qed.

(** The list walks: the successor of an element. *)
Lemma NEXT_LINEAR_ok h l1 a l2 : dlist h (l1 ++ a :: l2) -> NEXT_LINEAR a h = Ok (first_of l2).
Proof. intros [Ha Hn]%dlist_lookup. unfold NEXT_LINEAR. by rewrite (hload_Some _ _ _ Hn Ha). Qed.

Lemma last_of_in l : l <> [] -> last_of l ∈ l.
Proof.
  destruct l as [|b l _] using rev_ind; [done |]. intros _. unfold last_of. rewrite last_snoc. apply elem_of_app. right.
  by apply list_elem_of_singleton.
Qed.
Lemma first_of_in l : l <> [] -> first_of l ∈ l.
Proof. destruct l; [done |]. intros _. by apply elem_of_cons; left. Qed.

Lemma last_of_notin l a : a ∉ l -> a <> NULL -> last_of l <> a.
Proof.
  intros Hl Hn. destruct l as [|b l _] using rev_ind; [done |]. unfold last_of. rewrite last_snoc. simpl. intros ->.
  apply Hl, elem_of_app. right. by apply list_elem_of_singleton.
Qed.
Lemma first_of_notin l a : a ∉ l -> a <> NULL -> first_of l <> a.
Proof. destruct l as [|b l]; simpl; [done |]. intros Hl _ ->. apply Hl. by apply elem_of_cons; left. Qed.

(** The guarded updates of a neighbour are the updates of the list. *)
Lemma hupd_next h n v : n = NULL \/ is_Some (h !! n) ->
  (if negb (n =? NULL) then hupd h n (set_lnext v) else Ok h) = Ok (link_next n v h).
Proof.
  intros Hn. unfold link_next. destruct (Z.eqb_spec n NULL) as [->|Hne]; cbn [negb]; [done |].
  destruct Hn as [?|[x Hx]]; [done |]. by rewrite (hupd_Some _ _ _ _ Hne Hx), (alter_insert_of_Some _ _ _ _ Hx).
Qed.
Lemma hupd_prev h n v : n = NULL \/ is_Some (h !! n) ->
  (if negb (n =? NULL) then hupd h n (set_lprev v) else Ok h) = Ok (link_prev n v h).
Proof.
  intros Hn. unfold link_prev. destruct (Z.eqb_spec n NULL) as [->|Hne]; cbn [negb]; [done |].
  destruct Hn as [?|[x Hx]]; [done |]. by rewrite (hupd_Some _ _ _ _ Hne Hx), (alter_insert_of_Some _ _ _ _ Hx).
Qed.

Lemma dlist_neighbours h l1 l2 : dlist h (l1 ++ l2) ->
  (last_of l1 = NULL \/ is_Some (h !! last_of l1)) /\ (first_of l2 = NULL \/ is_Some (h !! first_of l2)).
Proof.
  intros Hd. split.
  - destruct l1 as [|b l1 _] using rev_ind; [by left | right]. unfold last_of. rewrite last_snoc. simpl.
    rewrite <- app_assoc in Hd. destruct (dlist_lookup _ _ _ _ Hd) as [-> _]. done.
  - destruct l2 as [|b l2]; [by left | right]. destruct (dlist_lookup _ _ _ _ Hd) as [E _]. simpl. by rewrite E.
Qed.

Lemma dlist_insert h l1 l2 a : dlist h (l1 ++ l2) -> a <> NULL -> a ∉ l1 ++ l2 ->
  dlist (<[a := DsList (last_of l1) (first_of l2)]> (link_prev (first_of l2) a (link_next (last_of l1) a h))) (l1 ++ a :: l2).
Proof.
  intros (Hs & Hnd & Hn) Ha Hin. rewrite unit_nodes_app in Hs.
  pose proof (dll_insert h (unit_nodes l1) (unit_nodes l2) a tt) as Hi. rewrite <- !unit_nodes_app, unit_nodes_fst in Hi.
  unfold splice in Hi. rewrite !unit_nodes_head, !unit_nodes_last in Hi. split; [|split].
  - rewrite unit_nodes_app. apply Hi; (done || by rewrite unit_nodes_app).
  - apply NoDup_app in Hnd as (N1 & N2 & N3). rewrite elem_of_app in Hin. apply NoDup_app. split_and!; [done | |].
    + intros b Hb [->|Hb2]%elem_of_cons; [tauto | by apply (N2 b)].
    + apply NoDup_cons. tauto.
  - rewrite elem_of_app in Hn. rewrite elem_of_app, elem_of_cons. intros [?|[?|?]]; [tauto | by apply Ha | tauto].
Qed.

(** [list_insertAfter] puts the element behind the position. *)
Lemma list_insertAfter_ok h l1 p l2 a : dlist h (l1 ++ p :: l2) -> a <> NULL -> a ∉ l1 ++ p :: l2 -> is_Some (h !! a) ->
  exists h', list_insertAfter p a h = Ok h' /\ dlist h' (l1 ++ p :: a :: l2) /\
  forall b, b ∉ l1 ++ p :: a :: l2 -> h' !! b = h !! b.
Proof.
  intros Hd Ha Hin [x Hx]. pose proof (dlist_lookup _ _ _ _ Hd) as [Hp Hpn].
  replace (l1 ++ p :: l2) with ((l1 ++ [p]) ++ l2) in Hd, Hin by by rewrite <- app_assoc.
  pose proof (dlist_neighbours _ _ _ Hd) as [_ Hnx]. pose proof (dlist_insert _ _ _ _ Hd Ha Hin) as Hi.
  rewrite !elem_of_app, list_elem_of_singleton in Hin.
  assert (last_of (l1 ++ [p]) = p) as Hl by (unfold last_of; by rewrite last_snoc). rewrite Hl in Hi.
  assert (first_of l2 <> a) as Hna by (apply first_of_notin; tauto). assert (p <> a) as Hpa by (intros ->; tauto).
  assert (first_of l2 <> p) as Hnp.
  { destruct Hd as (_ & (_ & N & _)%NoDup_app & _). apply first_of_notin; [|done]. apply N, elem_of_app. right.
    by apply list_elem_of_singleton. }
  unfold list_insertAfter. rewrite (hupd_Some _ _ _ _ Ha Hx). cbn [mbind outcome_bind].
  rewrite (hload_Some _ p _ Hpn) by (rewrite lookup_insert_ne by done; exact Hp). cbn [mbind outcome_bind l_next].
  rewrite (hupd_Some _ a _ _ Ha (lookup_insert_eq _ _ _)). cbn [mbind outcome_bind]. rewrite insert_insert_eq.
  rewrite (hupd_Some _ p _ (DsList (last_of l1) (first_of l2)) Hpn) by (rewrite lookup_insert_ne by done; exact Hp).
  cbn [mbind outcome_bind]. rewrite hupd_prev.
  2:{ destruct Hnx as [?|Hnx]; [by left | right]. apply lookup_insert_is_Some'. right. apply lookup_insert_is_Some'. by right. }
  eexists. split; [done |].
  assert (link_prev (first_of l2) a (<[p := set_lnext a (DsList (last_of l1) (first_of l2))]> (<[a := set_lnext (first_of l2) (set_lprev p x)]> h))
    = <[a := DsList p (first_of l2)]> (link_prev (first_of l2) a (link_next p a h))) as ->.
  { rewrite (link_next_insert _ _ _ _ Hpn Hp), insert_insert_ne by done. cbn [with_next ds_node]. unfold link_prev.
    destruct (_ =? _); [done |]. apply map_eq. intros b. destruct (decide (b = first_of l2)) as [->|Hb].
    - by repeat (rewrite lookup_alter_eq || (rewrite lookup_insert_ne by done)).
    - rewrite lookup_alter_ne by done. destruct (decide (b = a)) as [->|]; [by rewrite !lookup_insert_eq |].
      destruct (decide (b = p)) as [->|];
        by repeat (rewrite lookup_insert_eq || (rewrite lookup_alter_ne by done) || (rewrite lookup_insert_ne by done)). }
  rewrite <- app_assoc in Hi. split; [exact Hi |]. intros b Hb. rewrite elem_of_app, !elem_of_cons in Hb.
  rewrite lookup_insert_ne by (intros ->; tauto). destruct l2 as [|c l2]; cbn [first_of].
  - change (link_prev NULL a ?g) with g. apply link_next_ne. intros ->; tauto.
  - rewrite elem_of_cons in Hb. rewrite link_prev_ne, link_next_ne; [done | intros ->; tauto..].
Qed.

(** [list_insertBefore] puts the element in front of the position. *)
Lemma list_insertBefore_ok h l1 p l2 a : dlist h (l1 ++ p :: l2) -> a <> NULL -> a ∉ l1 ++ p :: l2 -> is_Some (h !! a) ->
  exists h', list_insertBefore p a h = Ok h' /\ dlist h' (l1 ++ a :: p :: l2) /\
  forall b, b ∉ l1 ++ a :: p :: l2 -> h' !! b = h !! b.
Proof.
  intros Hd Ha Hin [x Hx]. pose proof (dlist_lookup _ _ _ _ Hd) as [Hp Hpn].
  pose proof (dlist_neighbours _ _ _ Hd) as [Hpv _]. pose proof (dlist_insert _ _ _ _ Hd Ha Hin) as Hi.
  rewrite elem_of_app, elem_of_cons in Hin. cbn [first_of] in Hi.
  assert (last_of l1 <> a) as Hla by (apply last_of_notin; tauto). assert (p <> a) as Hpa by (intros ->; tauto).
  assert (last_of l1 <> p) as Hlp.
  { destruct Hd as (_ & (_ & N & _)%NoDup_app & _). apply last_of_notin; [|done]. intros Hl. apply (N p Hl). by apply elem_of_cons; left. }
  unfold list_insertBefore. rewrite (hload_Some _ _ _ Hpn Hp). cbn [mbind outcome_bind l_prev].
  rewrite (hupd_Some _ _ _ _ Ha Hx). cbn [mbind outcome_bind].
  rewrite (hupd_Some _ a _ _ Ha (lookup_insert_eq _ _ _)). cbn [mbind outcome_bind]. rewrite insert_insert_eq.
  rewrite (hupd_Some _ p _ (DsList (last_of l1) (first_of l2)) Hpn) by (rewrite lookup_insert_ne by done; exact Hp).
  cbn [mbind outcome_bind]. rewrite hupd_next.
  2:{ destruct Hpv as [?|Hpv]; [by left | right]. apply lookup_insert_is_Some'. right. apply lookup_insert_is_Some'. by right. }
  eexists. split; [done |].
  assert (link_next (last_of l1) a (<[p := set_lprev a (DsList (last_of l1) (first_of l2))]> (<[a := set_lnext p (set_lprev (last_of l1) x)]> h))
    = <[a := DsList (last_of l1) p]> (link_prev p a (link_next (last_of l1) a h))) as ->.
  { assert (link_next (last_of l1) a h !! p = Some (DsList (last_of l1) (first_of l2))) as Hp' by (by rewrite link_next_ne).
    rewrite (link_prev_insert _ _ _ _ Hpn Hp'), insert_insert_ne by done. cbn [with_prev ds_node]. unfold link_next.
    destruct (_ =? _); [done |]. apply map_eq. intros b. destruct (decide (b = last_of l1)) as [->|Hb].
    - by repeat (rewrite lookup_alter_eq || (rewrite lookup_insert_ne by done)).
    - rewrite lookup_alter_ne by done. destruct (decide (b = a)) as [->|]; [by rewrite !lookup_insert_eq |].
      destruct (decide (b = p)) as [->|];
        by repeat (rewrite lookup_insert_eq || (rewrite lookup_alter_ne by done) || (rewrite lookup_insert_ne by done)). }
  split; [exact Hi |]. intros b Hb. rewrite elem_of_app, !elem_of_cons in Hb.
  rewrite lookup_insert_ne by (intros ->; tauto). rewrite link_prev_ne by (intros ->; tauto).
  destruct l1 as [|c l1 _] using rev_ind; [done |]. apply link_next_ne. unfold last_of. rewrite last_snoc. simpl. intros ->.
  apply Hb. left. apply elem_of_app. right. by apply list_elem_of_singleton.
Qed.

(** [list_remove] takes the element out and resets its links. *)
Lemma list_remove_ok h l1 a l2 : dlist h (l1 ++ a :: l2) ->
  exists h', list_remove a h = Ok h' /\ dlist h' (l1 ++ l2) /\ h' !! a = Some (DsList NULL NULL) /\
  forall b, b ∉ l1 ++ a :: l2 -> h' !! b = h !! b.
Proof.
  intros Hd. pose proof (dlist_lookup _ _ _ _ Hd) as [Ha Han]. pose proof Hd as (Hs & Hnd & Hn).
  assert ((last_of l1 = NULL \/ is_Some (h !! last_of l1)) /\ (first_of l2 = NULL \/ is_Some (h !! first_of l2))) as [Hl Hf].
  { split; [apply (dlist_neighbours _ _ _ Hd) |]. replace (l1 ++ a :: l2) with ((l1 ++ [a]) ++ l2) in Hd by by rewrite <- app_assoc.
    apply (dlist_neighbours _ _ _ Hd). }
  assert (NoDup (l1 ++ l2) /\ NULL ∉ l1 ++ l2 /\ a ∉ l1 ++ l2) as (N1 & N2 & N3).
  { apply NoDup_app in Hnd as (M1 & M2 & M3). apply NoDup_cons in M3 as [M3 M4]. rewrite elem_of_app, elem_of_cons in Hn.
    rewrite !elem_of_app. split_and!; [apply NoDup_app; split_and!; try done | tauto |].
    - intros b Hb Hb2. apply (M2 b Hb). by apply elem_of_cons; right.
    - intros [Hb|Hb]; [apply (M2 a Hb); by apply elem_of_cons; left | done]. }
  unfold list_remove. rewrite (hload_Some _ _ _ Han Ha). cbn [mbind outcome_bind l_prev l_next].
  rewrite (hupd_next _ _ _ Hl). cbn [mbind outcome_bind]. rewrite hupd_prev.
  2:{ destruct Hf as [?|Hf]; [by left | right]. by apply link_next_some. }
  cbn [mbind outcome_bind]. unfold list_init. eexists. split; [done |].
  rewrite unit_nodes_app in Hs. cbn [unit_nodes map] in Hs. apply dll_remove in Hs;
    [|by rewrite <- unit_nodes_app, unit_nodes_fst..]. unfold splice in Hs. change (map _ l2) with (unit_nodes l2) in Hs.
  rewrite !unit_nodes_head, !unit_nodes_last, <- unit_nodes_app in Hs. split_and!.
  - split; [|by split]. eapply seg_frame; [|exact Hs]. intros b Hb. rewrite unit_nodes_fst in Hb. apply lookup_insert_ne. by intros ->.
  - apply lookup_insert_eq.
  - intros b Hb. rewrite elem_of_app, elem_of_cons in Hb. rewrite lookup_insert_ne by (intros ->; tauto).
    assert (forall v g, link_prev (first_of l2) v g !! b = (g : lheap) !! b) as ->.
    { intros v g. destruct l2 as [|c l2]; [done |]. apply link_prev_ne. simpl. intros ->. apply Hb. right. right. by apply elem_of_cons; left. }
    destruct l1 as [|c l1 _] using rev_ind; [done |]. apply link_next_ne. unfold last_of. rewrite last_snoc. simpl. intros ->.
    apply Hb. left. apply elem_of_app. right. by apply list_elem_of_singleton.
Qed.
