(* ===== verification/Chain.v ===== *)
(** Doubly linked chains inside of a typed heap: the links are a view of the heap,
    a map from addresses to the pair of the next and the previous address, so that
    one object can be in several chains and every chain has its own view. *)
From S2P Require Import Prelude Lists.

Notation links := (gmap Z (Z * Z)).

(** Following the links from the first element on visits [l]. *)
Definition chain (m : links) (l : list Z) : Prop :=
  NoDup l /\ NULL ∉ l /\ forall l1 a l2, l = l1 ++ a :: l2 -> m !! a = Some (first_of l2, last_of l1).

(** [if ( p != NULL ) p->next = v], and [p->prev = v]. *)
Definition set_next (p v : Z) (m : links) : links := if p =? NULL then m else alter (fun x => (v, x.2)) p m.
Definition set_prev (p v : Z) (m : links) : links := if p =? NULL then m else alter (fun x => (x.1, v)) p m.

Lemma chain_nil m : chain m [].
Proof. split_and!; [by apply NoDup_nil | by apply not_elem_of_nil |]. by intros [|] ? ?. Qed.

Lemma chain_lookup m l1 a l2 : chain m (l1 ++ a :: l2) -> m !! a = Some (first_of l2, last_of l1).
Proof. intros (_ & _ & Hc). by apply Hc. Qed.

Lemma chain_elem m l a : chain m l -> a ∈ l -> exists l1 l2, l = l1 ++ a :: l2 /\ m !! a = Some (first_of l2, last_of l1) /\ a <> NULL.
Proof.
  intros Hc Ha. pose proof Hc as (_ & Hn & _). apply list_elem_of_split in Ha as (l1 & l2 & ->). exists l1, l2. split_and!; [done | |].
  - by apply chain_lookup.
  - intros ->. apply Hn, elem_of_app. right. by apply elem_of_cons; left.
Qed.

Lemma chain_frame m m' l : (forall a, a ∈ l -> m' !! a = m !! a) -> chain m l -> chain m' l.
Proof.
  intros Hf (H1 & H2 & H3). split_and!; try done. intros l1 a l2 ->. rewrite Hf; [by apply H3 |]. apply elem_of_app. right. by apply elem_of_cons; left.
Qed.

Lemma chain_size (m : links) l : chain m l -> (length l <= base.size m)%nat.
Proof.
  intros Hc. pose proof Hc as (Hnd & _ & _). rewrite <- (size_dom m), <- (size_list_to_set l Hnd : base.size (list_to_set l : gset Z) = _).
  apply subseteq_size. intros a Ha%elem_of_list_to_set. apply elem_of_dom.
  destruct (chain_elem _ _ _ Hc Ha) as (l1 & l2 & _ & -> & _). by eexists.
Qed.

Lemma first_of_app l1 l2 : first_of (l1 ++ l2) = if decide (l1 = []) then first_of l2 else first_of l1.
Proof. by destruct l1. Qed.
Lemma first_of_mid l1 a l2 : first_of (l1 ++ a :: l2) = first_of (l1 ++ [a]).
Proof. by destruct l1. Qed.
Lemma last_of_app l1 l2 : last_of (l1 ++ l2) = if decide (l2 = []) then last_of l1 else last_of l2.
Proof.
  destruct l2 as [|a l2 _] using rev_ind; [by rewrite app_nil_r |]. rewrite decide_False by (by destruct l2).
  unfold last_of. by rewrite app_assoc, !last_snoc.
Qed.
Lemma last_of_null l : NULL ∉ l -> last_of l = NULL -> l = [].
Proof.
  destruct l as [|a l _] using rev_ind; [done |]. unfold last_of. rewrite last_snoc. simpl. intros Hn ->. destruct Hn.
  apply elem_of_app. right. by apply list_elem_of_singleton.
Qed.
Lemma first_of_null l : NULL ∉ l -> first_of l = NULL -> l = [].
Proof. destruct l as [|a l]; [done |]. intros Hn E. destruct Hn. simpl in E. rewrite E. by apply elem_of_cons; left. Qed.

Lemma set_next_eq p v (m : links) x : p <> NULL -> m !! p = Some x -> set_next p v m !! p = Some (v, x.2).
Proof. intros Hp Hm. unfold set_next. destruct (Z.eqb_spec p NULL); [done |]. by rewrite lookup_alter_eq, Hm. Qed.
Lemma set_next_ne p v (m : links) q : q <> p -> set_next p v m !! q = m !! q.
Proof. intros Hq. unfold set_next. destruct (_ =? _); [done |]. by rewrite lookup_alter_ne. Qed.
Lemma set_prev_eq p v (m : links) x : p <> NULL -> m !! p = Some x -> set_prev p v m !! p = Some (x.1, v).
Proof. intros Hp Hm. unfold set_prev. destruct (Z.eqb_spec p NULL); [done |]. by rewrite lookup_alter_eq, Hm. Qed.
Lemma set_prev_ne p v (m : links) q : q <> p -> set_prev p v m !! q = m !! q.
Proof. intros Hq. unfold set_prev. destruct (_ =? _); [done |]. by rewrite lookup_alter_ne. Qed.

(** The neighbours of a gap are linked to [u] and [w]; [l1] and [l2] are the parts
    of the chain around it. *)
Definition splice (l1 l2 : list Z) (u w : Z) (m : links) : links := set_prev (first_of l2) w (set_next (last_of l1) u m).

Lemma splice_apart l1 l2 u w m b : b <> last_of l1 -> b <> first_of l2 -> splice l1 l2 u w m !! b = m !! b.
Proof. intros H1 H2. unfold splice. by rewrite set_prev_ne, set_next_ne. Qed.

(** An element outside of both parts is not touched. *)
Lemma splice_out l1 l2 u w m b : b ∉ l1 -> b ∉ l2 -> splice l1 l2 u w m !! b = m !! b.
Proof.
  intros H1 H2. unfold splice. assert (forall l, set_next (last_of l1) u l !! b = l !! b) as E1.
  { intros l. destruct (decide (l1 = [])) as [->|Hn]; [done |]. apply set_next_ne. intros ->. by apply H1, last_of_in. }
  destruct (decide (l2 = [])) as [->|Hn]; [apply E1 |]. rewrite set_prev_ne; [apply E1 |]. intros ->. by apply H2, first_of_in.
Qed.

(** The fields after the splice, given those before it. *)
Lemma splice_lookup l1 l2 u w m b x : b <> NULL -> m !! b = Some x ->
  splice l1 l2 u w m !! b = Some (if decide (b = last_of l1) then u else x.1, if decide (b = first_of l2) then w else x.2).
Proof.
  intros Hb Hx. unfold splice.
  assert (set_next (last_of l1) u m !! b = Some (if decide (b = last_of l1) then u else x.1, x.2)) as H1.
  { destruct (decide (b = last_of l1)) as [->|Hne]; [by rewrite (set_next_eq _ _ _ x) | rewrite set_next_ne by done; by destruct x]. }
  destruct (decide (b = first_of l2)) as [->|Hne]; [by rewrite (set_prev_eq _ _ _ _ Hb H1) | by rewrite set_prev_ne].
Qed.

Lemma app_cons_split {B} (k1 : list B) x k2 l1 l2 : k1 ++ x :: k2 = l1 ++ l2 ->
  (exists m, l1 = k1 ++ x :: m /\ k2 = m ++ l2) \/ (exists m, l2 = m ++ x :: k2 /\ k1 = l1 ++ m).
Proof.
  intros E. apply app_eq_inv in E as [(m & -> & E)|(m & -> & E)].
  - right. by exists m.
  - destruct m as [|y m]; simpl in E.
    + right. exists []. by rewrite !app_nil_r.
    + injection E as <- ->. left. by exists m.
Qed.

Section two_parts.
Context (m m' : links) (l1 l2 mid : list Z) (a : Z).
Context (Hnd : NoDup (l1 ++ mid ++ l2)) (Hn : NULL ∉ l1 ++ mid ++ l2).
Context (H1 : forall k1 b k2, l1 = k1 ++ b :: k2 -> m' !! b = Some (if decide (k2 = []) then first_of (mid ++ l2) else first_of k2, last_of k1)).
Context (H2 : forall k1 b k2, l2 = k1 ++ b :: k2 -> m' !! b = Some (first_of k2, if decide (k1 = []) then last_of (l1 ++ mid) else last_of k1)).

Lemma chain_from_parts : (forall k1 b k2, mid = k1 ++ b :: k2 -> m' !! b = Some (first_of (k2 ++ l2), last_of (l1 ++ k1))) ->
  chain m' (l1 ++ mid ++ l2).
Proof using Hnd Hn H1 H2.
  intros Hm. split_and!; try done. intros k1 b k2 E. symmetry in E. apply app_cons_split in E as [(n & -> & ->)|(n & E & ->)].
  - rewrite (H1 _ _ _ eq_refl), (first_of_app n). done.
  - symmetry in E. apply app_cons_split in E as [(n' & -> & ->)|(n' & -> & ->)].
    + by rewrite (Hm _ _ _ eq_refl).
    + rewrite (H2 _ _ _ eq_refl), app_assoc, (last_of_app _ n'). done.
Qed.
End two_parts.

Lemma nodup_last k1 b k2 : NoDup (k1 ++ b :: k2) -> b = last_of (k1 ++ b :: k2) <-> k2 = [].
Proof.
  intros (_ & _ & [Hb _]%NoDup_cons)%NoDup_app. rewrite last_of_app, decide_False by done. split; [|by intros ->].
  destruct k2 as [|c k2]; [done |]. intros E. destruct Hb. change (b :: c :: k2) with ([b] ++ c :: k2) in E.
  rewrite last_of_app, decide_False in E by done. rewrite E. by apply last_of_in.
Qed.

Lemma nodup_first k1 b k2 : NoDup (k1 ++ b :: k2) -> b = first_of (k1 ++ b :: k2) <-> k1 = [].
Proof.
  intros Hnd. split; [|by intros ->]. destruct k1 as [|c k1]; [done |]. simpl. intros ->. apply NoDup_cons in Hnd as [Hc _].
  destruct Hc. apply elem_of_app. right. by apply elem_of_cons; left.
Qed.

Lemma nodup_parts {B} (l1 mid l2 : list B) : NoDup (l1 ++ mid ++ l2) -> NoDup l1 /\ NoDup mid /\ NoDup l2 /\ NoDup (l1 ++ l2) /\
  (forall b, b ∈ l1 -> b ∉ l2) /\ (forall b, b ∈ mid -> b ∉ l1 /\ b ∉ l2).
Proof.
  intros (H1 & H2 & (H3 & H4 & H5)%NoDup_app)%NoDup_app. split_and!; try done.
  - apply NoDup_app. split_and!; try done. intros b Hb Hb2. apply (H2 b Hb), elem_of_app. by right.
  - intros b Hb Hb2. apply (H2 b Hb), elem_of_app. by right.
  - intros b Hb. split; [|by apply H4]. intros Hb1. apply (H2 b Hb1), elem_of_app. by left.
Qed.

(** Replacing the middle of a chain: the gap is spliced to the ends of the new
    middle, whose elements have their final links. *)
Lemma chain_splice m m' l1 old mid l2 : chain m (l1 ++ old ++ l2) -> NoDup (l1 ++ mid ++ l2) -> NULL ∉ l1 ++ mid ++ l2 ->
  (forall b, b ∈ l1 ++ l2 -> m' !! b = splice l1 l2 (first_of (mid ++ l2)) (last_of (l1 ++ mid)) m !! b) ->
  (forall k1 b k2, mid = k1 ++ b :: k2 -> m' !! b = Some (first_of (k2 ++ l2), last_of (l1 ++ k1))) ->
  chain m' (l1 ++ mid ++ l2).
Proof.
  intros (Hnd0 & Hn0 & Hc) Hnd Hn Hends Hmid. destruct (nodup_parts _ _ _ Hnd) as (N1 & N2 & N3 & _ & N4 & _).
  rewrite !elem_of_app in Hn. apply chain_from_parts; try done; [by rewrite !elem_of_app | |].
  - intros k1 b k2 ->. assert (b ∈ k1 ++ b :: k2) as Hb by (apply elem_of_app; right; by apply elem_of_cons; left).
    rewrite Hends by (apply elem_of_app; by left).
    assert (m !! b = Some (first_of (k2 ++ old ++ l2), last_of k1)) as Hm by (apply Hc; by rewrite <- app_assoc).
    assert (b <> NULL) as Hbn by (intros ->; tauto).
    rewrite (splice_lookup _ _ _ _ _ _ _ Hbn Hm). cbn [fst snd].
    rewrite (decide_False (P := b = first_of l2)) by (intros ->; apply (N4 _ Hb), first_of_in; intros ->; done).
    repeat f_equal. pose proof (nodup_last k1 b k2 N1) as Hl. rewrite (first_of_app k2). repeat case_decide; try done; tauto.
  - intros k1 b k2 ->. assert (b ∈ k1 ++ b :: k2) as Hb by (apply elem_of_app; right; by apply elem_of_cons; left).
    rewrite Hends by (apply elem_of_app; by right).
    assert (m !! b = Some (first_of k2, last_of ((l1 ++ old) ++ k1))) as Hm by (apply Hc; by rewrite <- !app_assoc).
    assert (b <> NULL) as Hbn by (intros ->; tauto).
    rewrite (splice_lookup _ _ _ _ _ _ _ Hbn Hm). cbn [fst snd].
    rewrite (decide_False (P := b = last_of l1)).
    2:{ intros ->. apply (N4 (last_of l1)); [apply last_of_in; intros ->; done | done]. }
    repeat f_equal. pose proof (nodup_first k1 b k2 N3) as Hl. rewrite (last_of_app _ k1). repeat case_decide; try done; tauto.
Qed.

Lemma chain_remove m m' l1 a l2 : chain m (l1 ++ a :: l2) ->
  (forall b, b ∈ l1 ++ l2 -> m' !! b = splice l1 l2 (first_of l2) (last_of l1) m !! b) -> chain m' (l1 ++ l2).
Proof.
  intros Hc Hends. pose proof Hc as (Hnd & Hn & _). apply (chain_splice m m' l1 [a] [] l2); try done.
  - apply (nodup_parts l1 [a] l2 Hnd).
  - rewrite elem_of_app, elem_of_cons in Hn. simpl. rewrite elem_of_app. tauto.
  - by rewrite app_nil_r.
  - by intros [|] ? ?.
Qed.

Lemma chain_insert m m' l1 a l2 : chain m (l1 ++ l2) -> a <> NULL -> a ∉ l1 ++ l2 ->
  (forall b, b ∈ l1 ++ l2 -> m' !! b = splice l1 l2 a a m !! b) -> m' !! a = Some (first_of l2, last_of l1) ->
  chain m' (l1 ++ a :: l2).
Proof.
  intros Hc Ha Hin Hends Hma. pose proof Hc as (Hnd & Hn & _). rewrite elem_of_app in Hin, Hn.
  apply (chain_splice m m' l1 [] [a] l2); try done.
  - apply NoDup_app in Hnd as (N1 & N2 & N3). apply NoDup_app. split_and!; [done | |].
    + intros b Hb [->|Hb2]%elem_of_cons; [tauto | by apply (N2 b)].
    + apply NoDup_cons. tauto.
  - rewrite elem_of_app. simpl. rewrite elem_of_cons. intros [?|[?|?]]; [tauto | congruence | tauto].
  - intros b Hb. rewrite Hends by done. simpl. by rewrite last_of_app.
  - intros [|c k1] b k2 E; [injection E as <- <-; simpl; by rewrite app_nil_r | by destruct k1].
Qed.
