(* ===== verification/Family.v ===== *)
(** The intrusive trees of ds/family.h: every node knows its parent, its first
    child and its neighbours among the children of its parent.  A node is
    embedded in an object, and is named by the address of that object. *)
From S2P Require Import Prelude Lists.

(** [struct ds_family_tree]; [object] is the address that names the node. *)
Record family := Family { parent : Z; child : Z; sibling_prev : Z; sibling_next : Z }.

Definition set_parent (v : Z) (f : family) : family := Family v (child f) (sibling_prev f) (sibling_next f).
Definition set_child (v : Z) (f : family) : family := Family (parent f) v (sibling_prev f) (sibling_next f).
Definition set_sprev (v : Z) (f : family) : family := Family (parent f) (child f) v (sibling_next f).
Definition set_snext (v : Z) (f : family) : family := Family (parent f) (child f) (sibling_prev f) v.

Notation fheap := (gmap Z family).

Definition family_init (fam : Z) (h : fheap) : fheap := <[fam := Family NULL NULL NULL NULL]> h.

(** [if ( p != NULL ) p->field = ...] *)
Definition hupd_if (h : fheap) (p : Z) (f : family -> family) : outcome fheap :=
  if negb (p =? NULL) then hupd h p f else Ok h.

Definition family_remove (fam : Z) (h : fheap) : outcome fheap :=
  f ← hload h fam;
  h ← (if negb (parent f =? NULL) then
         p ← hload h (parent f);
         if child p =? fam then hupd h (parent f) (set_child (sibling_next f)) else Ok h
       else Ok h);
  h ← hupd_if h (sibling_prev f) (set_snext (sibling_next f));
  h ← hupd_if h (sibling_next f) (set_sprev (sibling_prev f));
  hupd h fam (fun f => set_parent NULL (set_snext NULL (set_sprev NULL f))).

Definition family_add_child (par fam : Z) (h : fheap) : outcome fheap :=
  p ← hload h par;
  h ← (if negb (child p =? NULL) then
         h ← hupd h (child p) (set_sprev fam);
         hupd h fam (set_snext (child p))
       else Ok h);
  h ← hupd h par (set_child fam);
  hupd h fam (set_parent par).

Definition family_add_sibling (bro fam : Z) (h : fheap) : outcome fheap :=
  b ← hload h bro;
  h ← hupd_if h (sibling_next b) (set_sprev fam);
  h ← hupd h fam (set_snext (sibling_next b));
  h ← hupd h fam (set_sprev bro);
  h ← hupd h bro (set_snext fam);
  hupd h fam (set_parent (parent b)).

(** The loop of [family_adopt]. *)
Fixpoint adopt_loop (fuel : nat) (tmp stepParent : Z) (h : fheap) : outcome fheap :=
  match fuel with
  | O => Halt Spin
  | S fuel =>
      if tmp =? NULL then Ok h
      else
        t ← hload h tmp;
        let next := sibling_next t in
        h ← hupd h tmp (set_parent stepParent);
        h ← hupd h tmp (set_sprev NULL);
        s ← hload h stepParent;
        h ← hupd h tmp (set_snext (child s));
        h ← hupd_if h (child s) (set_sprev tmp);
        h ← hupd h stepParent (set_child tmp);
        adopt_loop fuel next stepParent h
  end.

Definition family_adopt (stepParent deadParent : Z) (h : fheap) : outcome fheap :=
  d ← hload h deadParent;
  h ← adopt_loop (S (base.size h)) (child d) stepParent h;
  hupd h deadParent (set_child NULL).

(** The macro [PARENT]. *)
Definition PARENT (fam : Z) (h : fheap) : outcome Z := f ← hload h fam; Ok (parent f).

(** * The tree as a map from nodes to their children *)

Notation kids := (gmap Z (list Z)).

Definition kids_of (T : kids) (a : Z) : list Z := default [] (T !! a).

(** The record of [a] between its siblings; [x] is a node whose left neighbour is
    not yet right, [y] one whose first child is not. *)
Definition node_ok (T : kids) (x y a par pv nx : Z) (f : family) : Prop :=
  parent f = par /\ sibling_next f = nx /\ (a <> x -> sibling_prev f = pv) /\ (a <> y -> child f = first_of (kids_of T a)).

Record fam_okx (x y : Z) (h : fheap) (T : kids) : Prop := {
  fo_dom : forall a, is_Some (h !! a) <-> is_Some (T !! a);
  fo_null : T !! NULL = None;
  fo_kid : forall p l1 a l2, T !! p = Some (l1 ++ a :: l2) ->
    exists f, h !! a = Some f /\ node_ok T x y a p (last_of l1) (first_of l2) f;
  fo_nodup : forall p l, T !! p = Some l -> NoDup l;
  fo_one : forall p q l m a, T !! p = Some l -> T !! q = Some m -> a ∈ l -> a ∈ m -> p = q;
  fo_root : forall a, is_Some (T !! a) -> (forall p l, T !! p = Some l -> a ∉ l) ->
    exists f, h !! a = Some f /\ node_ok T x y a NULL NULL NULL f;
  fo_rank : exists rank : Z -> nat, forall p l c, T !! p = Some l -> c ∈ l -> (rank p < rank c)%nat
}.
Definition fam_ok := fam_okx NULL NULL.

Lemma fo_closed x y h T p l a : fam_okx x y h T -> T !! p = Some l -> a ∈ l -> is_Some (T !! a) /\ a <> NULL.
Proof.
  intros Hf Hp Ha. apply list_elem_of_split in Ha as (l1 & l2 & ->).
  destruct (fo_kid _ _ _ _ Hf _ _ _ _ Hp) as (f & Hfa & _).
  assert (is_Some (T !! a)) as Hs by (apply (fo_dom _ _ _ _ Hf); by eexists). split; [done |].
  intros ->. rewrite (fo_null _ _ _ _ Hf) in Hs. by destruct Hs.
Qed.

Lemma fo_node_null x y h T a : fam_okx x y h T -> is_Some (T !! a) -> a <> NULL.
Proof. intros Hf [l Hl] ->. by rewrite (fo_null _ _ _ _ Hf) in Hl. Qed.

(** A node is the child of some node, or the root of a tree. *)
Lemma fo_case x y h T a : fam_okx x y h T -> is_Some (T !! a) ->
  (exists p l1 l2, T !! p = Some (l1 ++ a :: l2)) \/ (forall p l, T !! p = Some l -> a ∉ l).
Proof.
  intros Hf Ha. destruct (decide (Exists (fun pl => a ∈ pl.2) (map_to_list T))) as [H|H].
  - left. apply Exists_exists in H as ([p l] & Hin & Hal). apply elem_of_map_to_list in Hin. simpl in Hal.
    apply list_elem_of_split in Hal as (l1 & l2 & ->). by exists p, l1, l2.
  - right. intros p l Hp Hal. apply H, Exists_exists. exists (p, l). split; [by apply elem_of_map_to_list | done].
Qed.

(** ** Facts about consistent trees *)

Section facts.
Context (x y : Z) (h : fheap) (T : kids) (Hf : fam_okx x y h T).

Lemma fo_kid_record p l a : T !! p = Some l -> a ∈ l -> exists l1 l2 f, l = l1 ++ a :: l2 /\ h !! a = Some f /\
  node_ok T x y a p (last_of l1) (first_of l2) f.
Proof using Hf.
  intros Hp Ha. apply list_elem_of_split in Ha as (l1 & l2 & ->). destruct (fo_kid _ _ _ _ Hf _ _ _ _ Hp) as (f & H1 & H2).
  by exists l1, l2, f.
Qed.

Lemma fo_irrefl p l : T !! p = Some l -> p ∉ l.
Proof using Hf. intros Hp Hin. destruct (fo_rank _ _ _ _ Hf) as [r Hr]. specialize (Hr _ _ _ Hp Hin). lia. Qed.

Lemma fo_first_child a f : a <> y -> h !! a = Some f -> child f = first_of (kids_of T a).
Proof using Hf.
  intros Hy Ha. assert (is_Some (T !! a)) as Hs by (apply (fo_dom _ _ _ _ Hf); by eexists).
  destruct (fo_case _ _ _ _ _ Hf Hs) as [(p & l1 & l2 & Hp)|Hroot].
  - destruct (fo_kid _ _ _ _ Hf _ _ _ _ Hp) as (g & Hg & Hok). rewrite Ha in Hg. injection Hg as <-. by apply Hok.
  - destruct (fo_root _ _ _ _ Hf _ Hs Hroot) as (g & Hg & Hok). rewrite Ha in Hg. injection Hg as <-. by apply Hok.
Qed.

Lemma fo_first_some p l : T !! p = Some l -> first_of l = NULL \/ (first_of l <> NULL /\ first_of l ∈ l /\ is_Some (h !! first_of l)).
Proof using Hf.
  intros Hp. destruct l as [|c l]; [by left | right]. assert (c ∈ c :: l) as Hc by (by apply elem_of_cons; left). simpl.
  destruct (fo_closed _ _ _ _ _ _ _ Hf Hp Hc) as [Hs Hn]. split_and!; try done. by apply (fo_dom _ _ _ _ Hf).
Qed.

Lemma node_split l1 l2 m1 m2 p a : T !! p = Some (l1 ++ a :: l2) -> l1 ++ a :: l2 = m1 ++ a :: m2 -> l1 = m1 /\ l2 = m2.
Proof using Hf.
  intros Hp. pose proof (fo_nodup _ _ _ _ Hf _ _ Hp) as Hnd. revert m1 Hnd. clear Hp.
  induction l1 as [|b l1 IH]; intros [|c m1] Hnd E; simpl in *; simplify_eq; try done.
  - apply NoDup_cons in Hnd as [Hn _]. destruct Hn. apply elem_of_app. right. by apply elem_of_cons; left.
  - apply NoDup_cons in Hnd as [Hn _]. destruct Hn. apply elem_of_app. right. by apply elem_of_cons; left.
  - apply NoDup_cons in Hnd as [_ Hnd]. destruct (IH m1 Hnd) as [-> ->]; done.
Qed.
End facts.

Lemma node_ok_ext T T' x y x' y' a par pv nx f : kids_of T' a = kids_of T a -> (x = a -> x' = a) -> (y = a -> y' = a) ->
  node_ok T x y a par pv nx f -> node_ok T' x' y' a par pv nx f.
Proof.
  intros Hk Hx Hy (H1 & H2 & H3 & H4). split_and!; try done.
  - intros Hn. apply H3. intros ->. by apply Hn, eq_sym, Hx.
  - intros Hn. rewrite Hk. apply H4. intros ->. by apply Hn, eq_sym, Hy.
Qed.

Lemma kids_of_insert T p l a : kids_of (<[p := l]> T) a = if decide (a = p) then l else kids_of T a.
Proof. unfold kids_of. destruct (decide (a = p)) as [->|]; [by rewrite lookup_insert_eq | by rewrite lookup_insert_ne]. Qed.

Lemma last_of_cons_ne a l : l <> [] -> last_of (a :: l) = last_of l.
Proof. by destruct l. Qed.

(** ** [family_add_child] *)

Lemma add_leaf_rank x y h T p a l : fam_okx x y h T -> T !! p = Some l -> T !! a = Some [] ->
  (forall q m, T !! q = Some m -> a ∉ m) -> a <> p ->
  exists rank : Z -> nat, forall q m c, <[p := a :: l]> T !! q = Some m -> c ∈ m -> (rank q < rank c)%nat.
Proof.
  intros Hf Hp Ha Hnew Hap. destruct (fo_rank _ _ _ _ Hf) as [r Hr]. exists (fun b => if decide (b = a) then S (r p) else r b).
  intros q m c Hq Hc. destruct (decide (q = a)) as [->|Hqa].
  - rewrite lookup_insert_ne in Hq by done. rewrite Ha in Hq. injection Hq as <-. by apply not_elem_of_nil in Hc.
  - destruct (decide (q = p)) as [->|Hqp].
    + rewrite lookup_insert_eq in Hq. injection Hq as <-. destruct (decide (c = a)); [lia |].
      apply elem_of_cons in Hc as [?|Hc]; [done |]. by apply (Hr _ _ _ Hp).
    + rewrite lookup_insert_ne in Hq by done. destruct (decide (c = a)) as [->|]; [by destruct (Hnew _ _ Hq) |]. by apply (Hr _ _ _ Hq).
Qed.

Section add_child.
Context (x y : Z) (h h' : fheap) (T : kids) (p a : Z) (l : list Z) (fp : family).
Context (Hf : fam_okx x y h T) (Hp : T !! p = Some l) (Ha : is_Some (T !! a)).
Context (Hnew : forall q m, T !! q = Some m -> a ∉ m) (Hap : a <> p).
Context (Hya : y <> p).
Context (Hhp : h !! p = Some fp) (Hp' : h' !! p = Some (set_child a fp)).
Context (Ha' : exists f, h' !! a = Some f /\ node_ok T x y a p NULL (first_of l) f).
Context (Hc' : forall c f, c = first_of l -> l <> [] -> h !! c = Some f -> h' !! c = Some (set_sprev a f)).
Context (Hoth : forall b, b <> p -> b <> a -> b <> first_of l \/ l = [] -> h' !! b = h !! b).
Local Abbreviation T' := (<[p := a :: l]> T).
Context (Hrank : exists rank : Z -> nat, forall q m c, T' !! q = Some m -> c ∈ m -> (rank q < rank c)%nat).

Lemma add_child_kid q l1 b l2 : T' !! q = Some (l1 ++ b :: l2) -> exists f, h' !! b = Some f /\ node_ok T' x y b q (last_of l1) (first_of l2) f.
Proof using All.
  intros Hq. destruct (decide (q = p)) as [->|Hqp].
  - rewrite lookup_insert_eq in Hq. injection Hq as Hq. destruct l1 as [|a' l1]; simpl in Hq; injection Hq as <- Hq.
    + subst l2. destruct Ha' as (f & H1 & H2). exists f. split; [done |]. eapply node_ok_ext; [..|exact H2]; try done.
      rewrite kids_of_insert. by rewrite decide_False.
    + pose proof Hp as Hp2. rewrite Hq in Hp2. 
      destruct (fo_kid _ _ _ _ Hf _ _ _ _ Hp2) as (f & Hfb & Hok).
      assert (b ∈ l) as Hb by (rewrite Hq; apply elem_of_app; right; by apply elem_of_cons; left).
      assert (b <> p) as Hbp by (intros ->; by apply (fo_irrefl _ _ _ _ Hf p l)).
      assert (b <> a) as Hba by (intros ->; by apply (Hnew p l)).
      assert (kids_of T' b = kids_of T b) as Hk by (rewrite kids_of_insert; by rewrite decide_False).
      destruct l1 as [|d l1].
      * exists (set_sprev a f). split; [apply Hc'; rewrite ?Hq; done |].
        destruct Hok as (H1 & H2 & H3 & H4). split_and!; try done. by rewrite Hk.
      * rewrite last_of_cons_ne by done. exists f. rewrite Hoth; try done.
        -- split; [done |]. by eapply node_ok_ext.
        -- left. rewrite Hq. simpl. intros ->. pose proof (fo_nodup _ _ _ _ Hf _ _ Hp2) as Hnd. simpl in Hnd.
           apply NoDup_cons in Hnd as [Hn _]. apply Hn, elem_of_app. right. by apply elem_of_cons; left.
  - rewrite lookup_insert_ne in Hq by done. destruct (fo_kid _ _ _ _ Hf _ _ _ _ Hq) as (f & Hfb & Hok).
    assert (b ∈ l1 ++ b :: l2) as Hb by (apply elem_of_app; right; by apply elem_of_cons; left).
    assert (b <> a) as Hba by (intros ->; by apply (Hnew _ _ Hq)).
    destruct (decide (b = p)) as [->|Hbp].
    + exists (set_child a fp). split; [done |]. rewrite Hhp in Hfb. injection Hfb as <-.
      destruct Hok as (H1 & H2 & H3 & H4). split_and!; try done. intros _. rewrite kids_of_insert. by rewrite decide_True.
    + exists f. split.
      * rewrite Hoth; try done. destruct l as [|c l']; [by right | left]. simpl. intros ->.
        apply Hqp. apply (fo_one _ _ _ _ Hf q p _ _ c Hq Hp Hb). by apply elem_of_cons; left.
      * eapply node_ok_ext; [..|exact Hok]; try done. rewrite kids_of_insert. by rewrite decide_False.
Qed.

Lemma add_child_dom b : is_Some (h' !! b) <-> is_Some (T' !! b).
Proof using All.
  destruct (decide (b = p)) as [->|Hbp]; [rewrite Hp', lookup_insert_eq; done |].
  rewrite lookup_insert_ne by done. destruct (decide (b = a)) as [->|Hba].
  { destruct Ha' as (f & -> & _). split; [by intros _ | done]. }
  destruct (decide (b = first_of l /\ l <> [])) as [[-> Hl]|Hn].
  - rewrite <- (fo_dom _ _ _ _ Hf). destruct (fo_first_some _ _ _ _ Hf _ _ Hp) as [E|(_ & _ & [f Hfc])].
    + destruct l as [|c l']; [done |]. simpl in *. destruct (fo_closed _ _ _ _ _ _ c Hf Hp) as [_ ?]; [by apply elem_of_cons; left | done].
    + rewrite (Hc' _ f eq_refl Hl Hfc), Hfc. done.
  - rewrite Hoth; [apply (fo_dom _ _ _ _ Hf) | done | done |]. destruct l; [by right | left; intros ->; apply Hn; done].
Qed.

Lemma add_child_ok : fam_okx x y h' T'.
Proof using All.
  split.
  - apply add_child_dom.
  - rewrite lookup_insert_ne; [apply (fo_null _ _ _ _ Hf) |]. apply (fo_node_null _ _ _ _ _ Hf). by rewrite Hp.
  - apply add_child_kid.
  - intros q m Hq. destruct (decide (q = p)) as [->|]; [|rewrite lookup_insert_ne in Hq by done; by apply (fo_nodup _ _ _ _ Hf q)].
    rewrite lookup_insert_eq in Hq. injection Hq as <-. apply NoDup_cons. split; [by apply (Hnew p) | by apply (fo_nodup _ _ _ _ Hf p)].
  - assert (forall q m b, T' !! q = Some m -> b ∈ m -> (q = p /\ b = a) \/ (b <> a /\ exists m', T !! q = Some m' /\ b ∈ m')) as Hin.
    { intros q m b Hq Hb. destruct (decide (q = p)) as [->|].
      - rewrite lookup_insert_eq in Hq. injection Hq as <-. destruct (decide (b = a)); [by left | right]. split; [done |].
        exists l. split; [done |]. by apply elem_of_cons in Hb as [?|?].
      - rewrite lookup_insert_ne in Hq by done. right. split; [intros ->; by apply (Hnew _ _ Hq) | by exists m]. }
    intros q r m n b Hq Hr Hb Hb2.
    destruct (Hin _ _ _ Hq Hb) as [[-> ->]|(Hba & m' & Hm & Hbm)], (Hin _ _ _ Hr Hb2) as [[-> E]|(Hba2 & n' & Hn & Hbn)]; try done.
    by apply (fo_one _ _ _ _ Hf _ _ _ _ _ Hm Hn Hbm).
  - intros b Hb Hno. assert (b <> a) as Hba.
    { intros ->. apply (Hno p (a :: l)); [apply lookup_insert_eq | by apply elem_of_cons; left]. }
    assert (forall q m, T !! q = Some m -> b ∉ m) as Hno'.
    { intros q m Hq Hbm. destruct (decide (q = p)) as [->|].
      - rewrite Hp in Hq. injection Hq as <-. apply (Hno p (a :: l)); [apply lookup_insert_eq | by apply elem_of_cons; right].
      - apply (Hno q m); [by rewrite lookup_insert_ne | done]. }
    destruct (decide (b = p)) as [->|Hbp].
    + destruct (fo_root _ _ _ _ Hf p) as (f & Hfb & H1 & H2 & H3 & H4); [by rewrite Hp | done |].
      rewrite Hhp in Hfb. injection Hfb as <-. exists (set_child a fp). split; [done |]. split_and!; try done.
      intros _. rewrite kids_of_insert. by rewrite decide_True.
    + rewrite lookup_insert_ne in Hb by done. destruct (fo_root _ _ _ _ Hf b Hb Hno') as (f & Hfb & Hok).
      exists f. split.
      * rewrite Hoth; try done. destruct l as [|c l']; [by right | left]. simpl. intros ->. apply (Hno' _ _ Hp). by apply elem_of_cons; left.
      * eapply node_ok_ext; [..|exact Hok]; try done. rewrite kids_of_insert. by rewrite decide_False.
  - exact Hrank.
Qed.
End add_child.

(** A root without children. *)
Lemma fo_lone h T a : fam_ok h T -> T !! a = Some [] -> (forall q m, T !! q = Some m -> a ∉ m) ->
  h !! a = Some (Family NULL NULL NULL NULL) /\ a <> NULL.
Proof.
  intros Hf Ha Hno. assert (is_Some (T !! a)) as Hs by by rewrite Ha. pose proof (fo_node_null _ _ _ _ _ Hf Hs) as Hn.
  destruct (fo_root _ _ _ _ Hf a Hs Hno) as ([par ch pv nx] & -> & H1 & H2 & H3 & H4). split; [|done]. simpl in *.
  rewrite H1, H2, (H3 Hn), (H4 Hn). unfold kids_of. by rewrite Ha.
Qed.

Ltac hlook := repeat (rewrite lookup_insert_eq || (rewrite lookup_insert_ne by congruence)).

Lemma family_add_child_ok h T p a l : fam_ok h T -> T !! p = Some l -> T !! a = Some [] ->
  (forall q m, T !! q = Some m -> a ∉ m) -> a <> p ->
  exists h', family_add_child p a h = Ok h' /\ fam_ok h' (<[p := a :: l]> T).
Proof.
  intros Hf Hp Ha Hno Hap. destruct (fo_lone _ _ _ Hf Ha Hno) as [Hha Han].
  assert (exists fp, h !! p = Some fp) as [fp Hfp].
  { destruct (proj2 (fo_dom _ _ _ _ Hf p)) as [fp ?]; [by rewrite Hp | by exists fp]. }
  assert (p <> NULL) as Hpn by (apply (fo_node_null _ _ _ _ _ Hf); by rewrite Hp).
  pose proof (fo_first_child _ _ _ _ Hf p fp Hpn Hfp) as Hch. unfold kids_of in Hch. rewrite Hp in Hch. simpl in Hch.
  unfold family_add_child. rewrite (hload_Some _ _ _ Hpn Hfp). cbn [mbind outcome_bind]. rewrite Hch.
  destruct l as [|c l]; cbn [first_of].
  - change (negb (NULL =? NULL)) with false. cbn iota. cbn [mbind outcome_bind].
    rewrite (hupd_Some _ p _ _ Hpn Hfp). cbn [mbind outcome_bind].
    rewrite (hupd_Some _ a _ (Family NULL NULL NULL NULL) Han) by (by hlook). eexists. split; [done |].
    apply (add_child_ok NULL NULL h _ T p a [] fp); try done; [by hlook | | | by eapply add_leaf_rank].
    + eexists. split; [by hlook |]. split_and!; try done. intros _. unfold kids_of. by rewrite Ha.
    + intros b Hbp Hba _. by hlook.
  - assert (c ∈ c :: l) as Hcl by (by apply elem_of_cons; left).
    destruct (fo_closed _ _ _ _ _ _ _ Hf Hp Hcl) as [_ Hcn]. destruct (fo_kid_record _ _ _ _ Hf _ _ _ Hp Hcl) as (_ & _ & fc & _ & Hfc & _).
    assert (c <> p) as Hcp by (intros ->; by apply (fo_irrefl _ _ _ _ Hf _ _ Hp)).
    assert (c <> a) as Hca by (intros ->; by apply (Hno _ _ Hp)).
    destruct (Z.eqb_spec c NULL); [done |]. cbn [negb].
    rewrite (hupd_Some _ c _ _ Hcn Hfc). cbn [mbind outcome_bind].
    rewrite (hupd_Some _ a _ (Family NULL NULL NULL NULL) Han) by (by hlook). cbn [mbind outcome_bind].
    rewrite (hupd_Some _ p _ fp Hpn) by (by hlook). cbn [mbind outcome_bind].
    rewrite (hupd_Some _ a _ (set_snext c (Family NULL NULL NULL NULL)) Han) by (by hlook). eexists. split; [done |].
    apply (add_child_ok NULL NULL h _ T p a (c :: l) fp); try done; [by hlook | | | | by eapply add_leaf_rank].
    + eexists. split; [by hlook |]. split_and!; try done. intros _. unfold kids_of. by rewrite Ha.
    + intros c' f -> _ Hf'. simpl in Hf' |- *. hlook. by simplify_eq.
    + intros b Hbp Hba [Hbc|?]; [|done]. simpl in Hbc. by hlook.
Qed.

(** ** [family_remove] *)

Lemma app_mid_inv (l1 l2 m1 m2 : list Z) b : l1 ++ l2 = m1 ++ b :: m2 ->
  (exists r, l1 = m1 ++ b :: r /\ m2 = r ++ l2) \/ (exists r, m1 = l1 ++ r /\ l2 = r ++ b :: m2).
Proof.
  intros E. apply List.app_eq_app in E as (r & [[-> E]|[-> ->]]); [|right; by exists r].
  destruct r as [|c r]; simpl in E.
  - right. exists []. rewrite !app_nil_r. by subst.
  - injection E as <- ->. left. by exists r.
Qed.

Lemma last_of_mid l1 a l2 : last_of (l1 ++ a :: l2) = last_of (a :: l2).
Proof.
  unfold last_of. destruct l2 as [|b l2 _] using rev_ind; [by rewrite last_snoc |].
  rewrite !app_comm_cons, app_assoc, !last_snoc. done.
Qed.

Section remove_kid.
Context (h h' : fheap) (T : kids) (p a : Z) (l1 l2 : list Z) (fp fa : family).
Context (Hf : fam_ok h T) (Hp : T !! p = Some (l1 ++ a :: l2)).
Context (Hhp : h !! p = Some fp) (Hha : h !! a = Some fa).
Context (Hp' : h' !! p = Some (if decide (l1 = []) then set_child (first_of l2) fp else fp)).
Context (Ha' : h' !! a = Some (Family NULL (child fa) NULL NULL)).
Context (Hl' : forall f, l1 <> [] -> h !! last_of l1 = Some f -> h' !! last_of l1 = Some (set_snext (first_of l2) f)).
Context (Hr' : forall f, l2 <> [] -> h !! first_of l2 = Some f -> h' !! first_of l2 = Some (set_sprev (last_of l1) f)).
Context (Hoth : forall b, b <> p -> b <> a -> (l1 <> [] -> b <> last_of l1) -> (l2 <> [] -> b <> first_of l2) -> h' !! b = h !! b).
Local Abbreviation T' := (<[p := l1 ++ l2]> T).

Lemma remove_kid_facts : NoDup (l1 ++ l2) /\ a ∉ l1 ++ l2 /\ a <> p /\ p ∉ l1 ++ l2 /\ a <> NULL /\ p <> NULL /\
  (forall b, b ∈ l1 ++ l2 -> b <> NULL).
Proof using All.
  pose proof (fo_nodup _ _ _ _ Hf _ _ Hp) as Hnd. apply NoDup_app in Hnd as (N1 & N2 & N3). apply NoDup_cons in N3 as [N3 N4].
  pose proof (fo_irrefl _ _ _ _ Hf _ _ Hp) as Hirr. rewrite elem_of_app, elem_of_cons in Hirr.
  assert (forall b, b ∈ l1 ++ a :: l2 -> b <> NULL) as Hnn by (intros b Hb; by apply (fo_closed _ _ _ _ _ _ _ Hf Hp Hb)).
  rewrite !elem_of_app. split_and!.
  - apply NoDup_app. split_and!; try done. intros b Hb Hb2. apply (N2 b Hb). by apply elem_of_cons; right.
  - intros [H|H]; [apply (N2 a H); by apply elem_of_cons; left | done].
  - intros ->. tauto.
  - tauto.
  - apply Hnn, elem_of_app. right. by apply elem_of_cons; left.
  - apply (fo_node_null _ _ _ _ _ Hf). by rewrite Hp.
  - intros b Hb. apply Hnn. rewrite elem_of_app, elem_of_cons. rewrite elem_of_app in Hb. tauto.
Qed.

Lemma remove_kid_other b : b ∉ l1 ++ a :: l2 -> b <> p -> h' !! b = h !! b.
Proof using All.
  rewrite elem_of_app, elem_of_cons. intros Hb Hbp. apply Hoth; [done | intros ->; tauto | |].
  - intros Hne ->. apply Hb. left. by apply last_of_in.
  - intros Hne ->. apply Hb. right. right. by apply first_of_in.
Qed.

Lemma remove_kid_sib m1 b m2 : l1 ++ l2 = m1 ++ b :: m2 -> exists f, h' !! b = Some f /\ node_ok T' NULL NULL b p (last_of m1) (first_of m2) f.
Proof using All.
  intros E. destruct remove_kid_facts as (N1 & N2 & N3 & N4 & N5 & N6 & N7).
  assert (b ∈ l1 ++ l2) as Hb by (rewrite E; apply elem_of_app; right; by apply elem_of_cons; left).
  assert (b <> p) as Hbp by (intros ->; done). assert (b <> a) as Hba by (intros ->; done).
  assert (kids_of T' b = kids_of T b) as Hk by (rewrite kids_of_insert; by rewrite decide_False).
  apply NoDup_app in N1 as (D1 & D2 & D3).
  destruct (app_mid_inv _ _ _ _ _ E) as [(r & E1 & E2)|(r & E1 & E2)].
  - pose proof Hp as Hp2. rewrite E1, <- app_assoc in Hp2. simpl in Hp2.
    destruct (fo_kid _ _ _ _ Hf _ _ _ _ Hp2) as (f & Hfb & Hok). destruct r as [|d r].
    + rewrite E2. simpl in Hok |- *. assert (last_of l1 = b) as El by (rewrite E1; unfold last_of; by rewrite last_snoc).
      exists (set_snext (first_of l2) f). rewrite <- El. split; [apply Hl'; [by rewrite E1; destruct m1 | by rewrite El] |].
      rewrite El. destruct Hok as (H1 & H2 & H3 & H4). split_and!; try done. by rewrite Hk.
    + exists f. rewrite E2. simpl in Hok |- *. split; [|by eapply node_ok_ext].
      rewrite Hoth; try done.
      * intros _ Eb. rewrite E1 in D1. apply NoDup_app in D1 as (_ & _ & D1). apply NoDup_cons in D1 as [D1 _]. apply D1.
        rewrite Eb, E1, last_of_mid, last_of_cons_ne by done. by apply last_of_in.
      * intros Hne ->. apply (D2 (first_of l2)); [|by apply first_of_in]. rewrite E1. apply elem_of_app. right. by apply elem_of_cons; left.
  - pose proof Hp as Hp2. rewrite E2 in Hp2. change (l1 ++ a :: r ++ b :: m2) with (l1 ++ (a :: r) ++ b :: m2) in Hp2. rewrite app_assoc in Hp2.
    destruct (fo_kid _ _ _ _ Hf _ _ _ _ Hp2) as (f & Hfb & Hok). rewrite last_of_mid in Hok. rewrite E1. destruct r as [|d r].
    + rewrite app_nil_r. simpl in E2. exists (set_sprev (last_of l1) f). split; [rewrite E2 in Hr'; by apply Hr' |].
      destruct Hok as (H1 & H2 & H3 & H4). split_and!; try done. by rewrite Hk.
    + rewrite last_of_mid. rewrite last_of_cons_ne in Hok by done. exists f. split; [|by eapply node_ok_ext].
      rewrite Hoth; try done.
      * intros Hne ->. apply (D2 (last_of l1)); [by apply last_of_in |]. rewrite E2. apply elem_of_app. right. by apply elem_of_cons; left.
      * intros _ Eb. rewrite E2 in D3. apply NoDup_app in D3 as (_ & D3 & _). apply (D3 b); [|by apply elem_of_cons; left].
        rewrite Eb, E2. by apply elem_of_cons; left.
Qed.

(** The record of a node that is not a child of [p]. *)
Lemma remove_kid_rest b par pv nx f : b ∉ l1 ++ a :: l2 -> h !! b = Some f -> node_ok T NULL NULL b par pv nx f ->
  exists f', h' !! b = Some f' /\ node_ok T' NULL NULL b par pv nx f'.
Proof using All.
  intros Hb Hfb Hok. destruct remove_kid_facts as (N1 & N2 & N3 & N4 & N5 & N6 & N7). destruct (decide (b = p)) as [->|Hbp].
  - rewrite Hfb in Hhp. injection Hhp as ->. eexists. split; [exact Hp' |]. destruct Hok as (H1 & H2 & H3 & H4).
    case_decide as El; (split_and!; try done); intros _; rewrite kids_of_insert, decide_True by done; [by rewrite El |].
    rewrite (H4 N6). unfold kids_of. rewrite Hp. by destruct l1.
  - exists f. rewrite remove_kid_other by done. split; [done |]. eapply node_ok_ext; [..|exact Hok]; try done.
    rewrite kids_of_insert. by rewrite decide_False.
Qed.

Lemma remove_kid_lookup q m : T' !! q = Some m -> exists m', T !! q = Some m' /\ (forall b, b ∈ m -> b ∈ m') /\ (q <> p -> m' = m) /\
  (q = p -> m = l1 ++ l2).
Proof using All.
  intros Hq. destruct (decide (q = p)) as [->|].
  - rewrite lookup_insert_eq in Hq. injection Hq as <-. exists (l1 ++ a :: l2). split_and!; try done. intros b.
    rewrite !elem_of_app, elem_of_cons. tauto.
  - rewrite lookup_insert_ne in Hq by done. by exists m.
Qed.

Lemma remove_kid_ok : fam_ok h' T' /\ (forall q m, T' !! q = Some m -> a ∉ m).
Proof using All.
  destruct remove_kid_facts as (N1 & N2 & N3 & N4 & N5 & N6 & N7).
  assert (forall q m, T' !! q = Some m -> a ∉ m) as Hno.
  { intros q m Hq Ha. destruct (remove_kid_lookup _ _ Hq) as (m' & Hm & Hsub & Hne & He). destruct (decide (q = p)) as [E|Hqp].
    - rewrite (He E) in Ha. done.
    - apply Hqp. apply (fo_one _ _ _ _ Hf q p _ _ a Hm Hp (Hsub _ Ha)). apply elem_of_app. right. by apply elem_of_cons; left. }
  split; [|done]. split.
  - intros b. assert (is_Some (T' !! b) <-> is_Some (T !! b)) as ->.
    { destruct (decide (b = p)) as [->|]; [rewrite lookup_insert_eq, Hp; done | by rewrite lookup_insert_ne]. }
    rewrite <- (fo_dom _ _ _ _ Hf). destruct (decide (b = a)) as [->|Hba]; [rewrite Ha', Hha; done |].
    destruct (decide (b ∈ l1 ++ l2)) as [Hb|Hb].
    + pose proof Hb as (m1 & m2 & E)%list_elem_of_split. destruct (remove_kid_sib _ _ _ E) as (f & -> & _).
      destruct (fo_kid_record _ _ _ _ Hf p _ b Hp) as (_ & _ & g & _ & -> & _); [|done].
      rewrite elem_of_app, elem_of_cons. rewrite elem_of_app in Hb. tauto.
    + destruct (decide (b = p)) as [->|Hbp]; [rewrite Hp', Hhp; done |]. rewrite remove_kid_other; [done | | done].
      rewrite elem_of_app, elem_of_cons. rewrite elem_of_app in Hb. tauto.
  - rewrite lookup_insert_ne by done. apply (fo_null _ _ _ _ Hf).
  - intros q m1 b m2 Hq. destruct (decide (q = p)) as [->|Hqp].
    + rewrite lookup_insert_eq in Hq. injection Hq as Hq. by apply remove_kid_sib.
    + rewrite lookup_insert_ne in Hq by done. destruct (fo_kid _ _ _ _ Hf _ _ _ _ Hq) as (f & Hfb & Hok).
      eapply remove_kid_rest; [|exact Hfb | exact Hok]. intros Hb. apply Hqp. apply (fo_one _ _ _ _ Hf q p _ _ b Hq Hp); [|done].
      apply elem_of_app. right. by apply elem_of_cons; left.
  - intros q m Hq. destruct (remove_kid_lookup _ _ Hq) as (m' & Hm & _ & Hne & He). destruct (decide (q = p)) as [E|Hqp].
    + by rewrite (He E).
    + rewrite <- (Hne Hqp). by apply (fo_nodup _ _ _ _ Hf q).
  - intros q r m n b Hq Hr Hb Hb2. destruct (remove_kid_lookup _ _ Hq) as (m' & Hm & Hs1 & _). destruct (remove_kid_lookup _ _ Hr) as (n' & Hn & Hs2 & _).
    apply (fo_one _ _ _ _ Hf _ _ _ _ b Hm Hn); auto.
  - intros b Hb Hno'. destruct (decide (b = a)) as [->|Hba].
    { eexists. split; [exact Ha' |]. split_and!; try done. intros _. simpl. rewrite kids_of_insert, decide_False by done.
      by apply (fo_first_child _ _ _ _ Hf). }
    assert (is_Some (T !! b)) as Hb'.
    { destruct (decide (b = p)) as [->|]; [by rewrite Hp | by rewrite lookup_insert_ne in Hb]. }
    assert (b ∉ l1 ++ l2) as Hbn by (apply (Hno' p), lookup_insert_eq).
    assert (forall q m, T !! q = Some m -> b ∉ m) as Hroot.
    { intros q m Hq. destruct (decide (q = p)) as [->|]; [|apply (Hno' q); by rewrite lookup_insert_ne].
      rewrite Hp in Hq. injection Hq as <-. rewrite elem_of_app, elem_of_cons. rewrite elem_of_app in Hbn. tauto. }
    destruct (fo_root _ _ _ _ Hf b Hb' Hroot) as (f & Hfb & Hok). eapply remove_kid_rest; [by apply (Hroot p) | exact Hfb | exact Hok].
  - destruct (fo_rank _ _ _ _ Hf) as [r Hr]. exists r. intros q m c Hq Hc. destruct (remove_kid_lookup _ _ Hq) as (m' & Hm & Hs & _).
    apply (Hr _ _ _ Hm); auto.
Qed.
End remove_kid.

(** Updates behind a guard. *)
Definition upd_if (n : Z) (f : family -> family) (h : fheap) : fheap := if n =? NULL then h else alter f n h.

Lemma hupd_if_ok h n f : n = NULL \/ is_Some (h !! n) -> hupd_if h n f = Ok (upd_if n f h).
Proof.
  intros Hn. unfold hupd_if, upd_if. destruct (Z.eqb_spec n NULL) as [->|Hne]; cbn [negb]; [done |].
  destruct Hn as [?|[x Hx]]; [done |]. by rewrite (hupd_Some _ _ _ _ Hne Hx), (alter_insert_of_Some _ _ _ _ Hx).
Qed.
Lemma upd_if_ne n f h b : b <> n -> upd_if n f h !! b = h !! b.
Proof. intros Hb. unfold upd_if. destruct (n =? NULL); [done |]. by apply lookup_alter_ne. Qed.
Lemma upd_if_null n f h b : n = NULL -> upd_if n f h !! b = h !! b.
Proof. by intros ->. Qed.
Lemma upd_if_eq n f h x : n <> NULL -> h !! n = Some x -> upd_if n f h !! n = Some (f x).
Proof. intros Hn Hx. unfold upd_if. destruct (Z.eqb_spec n NULL); [done |]. by rewrite lookup_alter_eq, Hx. Qed.
Lemma upd_if_some n f h b : is_Some (h !! b) -> is_Some (upd_if n f h !! b).
Proof.
  intros [x Hx]. destruct (decide (b = n)) as [->|]; [|rewrite upd_if_ne by done; by eexists].
  destruct (decide (n = NULL)) as [->|]; [by eexists |]. rewrite (upd_if_eq _ _ _ _ ltac:(done) Hx). by eexists.
Qed.

Lemma family_remove_ok h T p l1 a l2 : fam_ok h T -> T !! p = Some (l1 ++ a :: l2) ->
  exists h', family_remove a h = Ok h' /\ fam_ok h' (<[p := l1 ++ l2]> T) /\
  (forall q m, (<[p := l1 ++ l2]> T) !! q = Some m -> a ∉ m).
Proof.
  intros Hf Hp. destruct (fo_kid _ _ _ _ Hf _ _ _ _ Hp) as (fa & Hha & Hpar & Hnx & Hpv & _).
  assert (exists fp, h !! p = Some fp) as [fp Hhp].
  { destruct (proj2 (fo_dom _ _ _ _ Hf p)) as [fp ?]; [by rewrite Hp | by exists fp]. }
  assert (p <> NULL) as Hpn by (apply (fo_node_null _ _ _ _ _ Hf); by rewrite Hp).
  pose proof (fo_first_child _ _ _ _ Hf p fp Hpn Hhp) as Hch. unfold kids_of in Hch. rewrite Hp in Hch. simpl in Hch.
  pose proof (fo_nodup _ _ _ _ Hf _ _ Hp) as (M1 & M2 & M3)%NoDup_app. apply NoDup_cons in M3 as [M3 M4].
  pose proof (fo_irrefl _ _ _ _ Hf _ _ Hp) as Hirr. rewrite elem_of_app, elem_of_cons in Hirr.
  assert (forall b, b ∈ l1 ++ a :: l2 -> b <> NULL /\ is_Some (h !! b)) as Hin.
  { intros b Hb. destruct (fo_closed _ _ _ _ _ _ _ Hf Hp Hb). split; [done |]. by apply (fo_dom _ _ _ _ Hf). }
  assert (a <> NULL) as Han by (apply Hin, elem_of_app; right; by apply elem_of_cons; left).
  assert (l1 <> [] -> last_of l1 ∈ l1 /\ last_of l1 <> NULL /\ is_Some (h !! last_of l1)) as Hl.
  { intros Hne. pose proof (last_of_in _ Hne). split; [done |]. apply Hin, elem_of_app. by left. }
  assert (l2 <> [] -> first_of l2 ∈ l2 /\ first_of l2 <> NULL /\ is_Some (h !! first_of l2)) as Hr.
  { intros Hne. pose proof (first_of_in _ Hne). split; [done |]. apply Hin, elem_of_app. right. by apply elem_of_cons; right. }
  assert (last_of l1 = NULL \/ is_Some (h !! last_of l1)) as Hl0.
  { destruct l1 as [|? ?]; [by left | right; by apply Hl]. }
  assert (first_of l2 = NULL \/ is_Some (h !! first_of l2)) as Hr0.
  { destruct l2 as [|? ?]; [by left | right; by apply Hr]. }
  set (fp' := if decide (l1 = []) then set_child (first_of l2) fp else fp).
  set (h1 := <[p := fp']> h).
  assert ((if negb (p =? NULL) then x ← hload h p; if child x =? a then hupd h p (set_child (first_of l2)) else Ok h else Ok h) = Ok h1) as E1.
  { destruct (Z.eqb_spec p NULL); [done |]. cbn [negb]. rewrite (hload_Some _ _ _ Hpn Hhp). cbn [mbind outcome_bind]. rewrite Hch.
    unfold h1, fp'. destruct l1 as [|c l1]; simpl.
    - rewrite Z.eqb_refl. by rewrite (hupd_Some _ _ _ _ Hpn Hhp).
    - destruct (Z.eqb_spec c a) as [->|]; [exfalso; apply (M2 a); by apply elem_of_cons; left |]. by rewrite (insert_id _ _ _ Hhp). }
  unfold family_remove. rewrite (hload_Some _ _ _ Han Hha). cbn [mbind outcome_bind]. rewrite Hpar, Hnx, (Hpv Han).
  rewrite E1. cbn [mbind outcome_bind].
  assert (forall b, is_Some (h !! b) -> is_Some (h1 !! b)) as Hsome by (intros b; unfold h1; intros; apply lookup_insert_is_Some'; by right).
  rewrite hupd_if_ok by (destruct Hl0; [by left | right; auto]). cbn [mbind outcome_bind].
  rewrite hupd_if_ok by (destruct Hr0; [by left | right; apply upd_if_some; auto]). cbn [mbind outcome_bind].
  set (h2 := upd_if (last_of l1) (set_snext (first_of l2)) h1). set (h3 := upd_if (first_of l2) (set_sprev (last_of l1)) h2).
  assert (last_of l1 <> a) as Hla by (apply last_of_notin; [intros ?; apply (M2 a); [done | by apply elem_of_cons; left] | done]).
  assert (first_of l2 <> a) as Hra by (by apply first_of_notin).
  assert (last_of l1 <> p) as Hlp by (apply last_of_notin; tauto). assert (first_of l2 <> p) as Hrp by (apply first_of_notin; tauto).
  assert (a <> p) as Hap by (intros ->; tauto).
  assert (forall b, b <> last_of l1 -> b <> first_of l2 -> b <> p -> h3 !! b = h !! b) as H3.
  { intros b B1 B2 B3. unfold h3, h2, h1. rewrite upd_if_ne, upd_if_ne, lookup_insert_ne by congruence. done. }
  assert (h3 !! a = Some fa) as H3a by (rewrite H3 by congruence; done).
  rewrite (hupd_Some _ _ _ _ Han H3a). eexists. split; [done |].
  apply (remove_kid_ok h _ T p a l1 l2 fp fa); try done.
  - rewrite lookup_insert_ne by congruence. unfold h3, h2, h1. rewrite upd_if_ne, upd_if_ne by congruence. apply lookup_insert_eq.
  - rewrite lookup_insert_eq. by destruct fa.
  - intros f Hne Hfl. destruct (Hl Hne) as (L1 & L2 & _). rewrite lookup_insert_ne by congruence. unfold h3, h2.
    rewrite upd_if_ne.
    + apply upd_if_eq; [done |]. unfold h1. by rewrite lookup_insert_ne by congruence.
    + destruct (decide (l2 = [])) as [->|Hne2]; [done |]. intros E. apply (M2 (last_of l1) L1). rewrite E.
      apply elem_of_cons. right. by apply first_of_in.
  - intros f Hne Hfr. destruct (Hr Hne) as (L1 & L2 & _). rewrite lookup_insert_ne by congruence. unfold h3.
    apply upd_if_eq; [done |]. unfold h2, h1. rewrite upd_if_ne; [by rewrite lookup_insert_ne by congruence |].
    destruct (decide (l1 = [])) as [->|Hne2]; [done |]. intros E. apply (M2 (last_of l1)); [by apply last_of_in |].
    rewrite <- E. apply elem_of_cons. by right.
  - intros b B1 B2 B3 B4. rewrite lookup_insert_ne by congruence. unfold h3, h2, h1.
    assert (forall l f g, (b <> l \/ l = NULL) -> upd_if l f g !! b = g !! b) as Hu.
    { intros l f g [?| ->]; [by apply upd_if_ne | done]. }
    rewrite !Hu; [by rewrite lookup_insert_ne by congruence | |].
    + destruct l1; [by right | left; by apply B3].
    + destruct l2; [by right | left; by apply B4].
Qed.

(** ** [family_adopt] *)

(** The first child of [dead] is cut off; the field [child] of [dead] and the
    left neighbour of the next child are left for later. *)
Lemma detach_ok h T dead c k fc : fam_okx c dead h T -> T !! dead = Some (c :: k) -> h !! c = Some fc ->
  fam_okx (first_of k) dead (<[c := Family NULL (child fc) NULL NULL]> h) (<[dead := k]> T) /\
  (forall q m, <[dead := k]> T !! q = Some m -> c ∉ m).
Proof.
  intros Hf Hd Hc. pose proof (fo_nodup _ _ _ _ Hf _ _ Hd) as [N1 N2]%NoDup_cons.
  pose proof (fo_irrefl _ _ _ _ Hf _ _ Hd) as Hirr. rewrite elem_of_cons in Hirr.
  assert (forall q m, <[dead := k]> T !! q = Some m -> exists m', T !! q = Some m' /\ (forall b, b ∈ m -> b ∈ m') /\
    (q = dead -> m = k) /\ (q <> dead -> m' = m)) as Hl.
  { intros q m Hq. destruct (decide (q = dead)) as [->|].
    - rewrite lookup_insert_eq in Hq. injection Hq as <-. exists (c :: k). split_and!; try done. intros b Hb. apply elem_of_cons. by right.
    - rewrite lookup_insert_ne in Hq by done. by exists m. }
  assert (forall q m, <[dead := k]> T !! q = Some m -> c ∉ m) as Hno.
  { intros q m Hq Hcm. destruct (Hl _ _ Hq) as (m' & Hm & Hs & He & _). destruct (decide (q = dead)) as [->|Hqd]; [by rewrite (He eq_refl) in Hcm |].
    apply Hqd. apply (fo_one _ _ _ _ Hf _ _ _ _ c Hm Hd); [by apply Hs | by apply elem_of_cons; left]. }
  assert (forall q m b, q <> dead -> T !! q = Some m -> b ∈ m -> b ∉ c :: k) as Hdisj.
  { intros q m b Hqd Hq Hb Hbk. apply Hqd. by apply (fo_one _ _ _ _ Hf q dead m (c :: k) b). }
  split; [|done]. split.
  - intros b. destruct (decide (b = c)) as [->|]; [rewrite lookup_insert_eq | rewrite lookup_insert_ne by done].
    + rewrite lookup_insert_ne by (intros ->; tauto). rewrite <- (fo_dom _ _ _ _ Hf), Hc. done.
    + rewrite (fo_dom _ _ _ _ Hf). destruct (decide (b = dead)) as [->|]; [by rewrite lookup_insert_eq, Hd | by rewrite lookup_insert_ne].
  - rewrite lookup_insert_ne; [apply (fo_null _ _ _ _ Hf) |]. apply (fo_node_null _ _ _ _ _ Hf). by rewrite Hd.
  - intros q m1 b m2 Hq. destruct (decide (q = dead)) as [->|Hqd].
    + rewrite lookup_insert_eq in Hq. injection Hq as Hq. pose proof Hd as Hd2. rewrite Hq in Hd2.
      change (c :: m1 ++ b :: m2) with ((c :: m1) ++ b :: m2) in Hd2.
      destruct (fo_kid _ _ _ _ Hf _ _ _ _ Hd2) as (f & Hfb & H1 & H2 & H3 & H4).
      assert (b ∈ k) as Hbk by (rewrite Hq; apply elem_of_app; right; by apply elem_of_cons; left).
      assert (b <> c) as Hbc by congruence. assert (b <> dead) as Hbd by (intros ->; tauto).
      exists f. rewrite lookup_insert_ne by done. split; [done |]. split_and!; try done.
      * intros Hx. rewrite (H3 Hbc). destruct m1 as [|d m1]; [|done]. rewrite Hq in Hx. done.
      * intros _. rewrite kids_of_insert, decide_False by done. by apply H4.
    + rewrite lookup_insert_ne in Hq by done. destruct (fo_kid _ _ _ _ Hf _ _ _ _ Hq) as (f & Hfb & H1 & H2 & H3 & H4).
      assert (b ∉ c :: k) as Hbk by (eapply Hdisj; [exact Hqd | exact Hq |]; apply elem_of_app; right; by apply elem_of_cons; left).
      rewrite elem_of_cons in Hbk. exists f. rewrite lookup_insert_ne by (intros ->; tauto). split; [done |]. split_and!; try done.
      * intros _. apply H3. intros ->; tauto.
      * intros Hy. rewrite kids_of_insert, decide_False by done. by apply H4.
  - intros q m Hq. destruct (Hl _ _ Hq) as (m' & Hm & _ & He & Hne). destruct (decide (q = dead)) as [->|Hqd]; [by rewrite (He eq_refl) |].
    rewrite <- (Hne Hqd). by apply (fo_nodup _ _ _ _ Hf q).
  - intros q r m n b Hq Hr Hb Hb2. destruct (Hl _ _ Hq) as (m' & Hm & Hs & _). destruct (Hl _ _ Hr) as (n' & Hn & Hs2 & _).
    apply (fo_one _ _ _ _ Hf _ _ _ _ b Hm Hn); auto.
  - intros b Hb Hroot. destruct (decide (b = c)) as [->|Hbc].
    { eexists. rewrite lookup_insert_eq. split; [done |]. split_and!; try done. intros Hy. simpl.
      rewrite kids_of_insert, decide_False by done. by apply (fo_first_child _ _ _ _ Hf). }
    assert (is_Some (T !! b)) as Hb'.
    { destruct (decide (b = dead)) as [->|]; [by rewrite Hd | by rewrite lookup_insert_ne in Hb]. }
    assert (forall q m, T !! q = Some m -> b ∉ m) as Hno'.
    { intros q m Hq. destruct (decide (q = dead)) as [->|].
      - rewrite Hd in Hq. injection Hq as <-. rewrite elem_of_cons. intros [?|Hk]; [done |]. apply (Hroot dead k); [apply lookup_insert_eq | done].
      - apply (Hroot q m). by rewrite lookup_insert_ne. }
    destruct (fo_root _ _ _ _ Hf b Hb' Hno') as (f & Hfb & H1 & H2 & H3 & H4). exists f. rewrite lookup_insert_ne by done.
    split; [done |]. split_and!; try done.
    + intros _. by apply H3.
    + intros Hy. rewrite kids_of_insert, decide_False by done. by apply H4.
  - destruct (fo_rank _ _ _ _ Hf) as [r Hr]. exists r. intros q m b Hq Hb. destruct (Hl _ _ Hq) as (m' & Hm & Hs & _). apply (Hr _ _ _ Hm); auto.
Qed.

Lemma adopt_loop_ok fuel h T dead step k l : fam_okx (first_of k) dead h T -> T !! dead = Some k -> T !! step = Some l ->
  dead ∈ l -> (length k < fuel)%nat -> exists h', adopt_loop fuel (first_of k) step h = Ok h' /\
  fam_okx NULL dead h' (<[dead := []]> (<[step := reverse k ++ l]> T)).
Proof.
  revert h T k l. induction fuel as [|fuel IH]; intros h T k l Hf Hd Hs Hdl Hlen; [lia |]. cbn [adopt_loop].
  assert (dead <> step) as Hds by (intros ->; by apply (fo_irrefl _ _ _ _ Hf _ _ Hs)).
  destruct k as [|c k]; cbn [first_of].
  { change (NULL =? NULL) with true. cbn iota. exists h. split; [done |]. simpl. by rewrite (insert_id _ step), (insert_id _ dead). }
  assert (c ∈ c :: k) as Hck by (by apply elem_of_cons; left).
  destruct (fo_closed _ _ _ _ _ _ _ Hf Hd Hck) as [Hcs Hcn]. destruct (Z.eqb_spec c NULL); [done |].
  destruct (fo_kid _ _ _ _ Hf dead [] c k Hd) as (fc & Hfc & _ & Hnx & _ & Hch).
  assert (c <> dead) as Hcd by (intros ->; by apply (fo_irrefl _ _ _ _ Hf _ _ Hd)).
  destruct (fo_rank _ _ _ _ Hf) as [r Hr]. pose proof (Hr _ _ _ Hd Hck) as Hr1. pose proof (Hr _ _ _ Hs Hdl) as Hr2.
  assert (c <> step) as Hcst by (intros ->; lia).
  assert (first_of l ∈ l) as Hfl by (apply first_of_in; intros ->; by apply not_elem_of_nil in Hdl).
  assert (first_of l <> c) as Hlc by (intros E; rewrite E in Hfl; by apply Hds, (fo_one _ _ _ _ Hf _ _ _ _ c Hd Hs)).
  assert (first_of l <> step) as Hls by (intros E; rewrite E in Hfl; by apply (fo_irrefl _ _ _ _ Hf _ _ Hs)).
  destruct (fo_kid_record _ _ _ _ Hf _ _ _ Hs Hfl) as (_ & _ & fl & _ & Hhl & _).
  destruct (fo_closed _ _ _ _ _ _ _ Hf Hs Hfl) as [_ Hln].
  assert (exists fs, h !! step = Some fs) as [fs Hfs].
  { destruct (proj2 (fo_dom _ _ _ _ Hf step)) as [fs ?]; [by rewrite Hs | by exists fs]. }
  assert (step <> NULL) as Hsn by (apply (fo_node_null _ _ _ _ _ Hf); by rewrite Hs).
  pose proof (fo_first_child _ _ _ _ Hf step fs (not_eq_sym Hds) Hfs) as Hsc. unfold kids_of in Hsc. rewrite Hs in Hsc. simpl in Hsc.
  rewrite (hload_Some _ _ _ Hcn Hfc). cbn [mbind outcome_bind]. rewrite (hupd_Some _ _ _ _ Hcn Hfc). cbn [mbind outcome_bind].
  rewrite (hupd_Some _ c _ _ Hcn (lookup_insert_eq _ _ _)). cbn [mbind outcome_bind].
  rewrite (hload_Some _ step fs Hsn) by (by hlook). cbn [mbind outcome_bind].
  rewrite (hupd_Some _ c _ _ Hcn (lookup_insert_eq _ _ _)). cbn [mbind outcome_bind]. rewrite !insert_insert_eq, Hsc.
  unfold hupd_if. destruct (Z.eqb_spec (first_of l) NULL); [done |]. cbn [negb].
  rewrite (hupd_Some _ (first_of l) _ fl Hln) by (by hlook). cbn [mbind outcome_bind].
  rewrite (hupd_Some _ step _ fs Hsn) by (by hlook). cbn [mbind outcome_bind].
  destruct (detach_ok h T dead c k fc Hf Hd Hfc) as [Hf0 Hno].
  set (h5 := <[step := _]> _). set (T0 := <[dead := k]> T) in *.
  assert (fam_okx (first_of k) dead h5 (<[step := c :: l]> T0)) as Hf1.
  { apply (add_child_ok _ _ _ h5 T0 step c l fs Hf0); try done; unfold h5, T0; try (by hlook).
    - eexists. split; [by hlook |]. split_and!; try done. intros _. simpl. rewrite kids_of_insert, decide_False by done. by apply Hch.
    - intros c' f -> _ Hf'. rewrite lookup_insert_ne in Hf' by done. hlook. by simplify_eq.
    - intros b B1 B2 [B3|B3]; [by hlook | rewrite B3 in Hfl; by apply not_elem_of_nil in Hfl].
    - exists r. intros q m b Hq Hb. destruct (decide (q = step)) as [->|Hqs].
      + rewrite lookup_insert_eq in Hq. injection Hq as <-. apply elem_of_cons in Hb as [->|Hb]; [lia | by apply (Hr _ _ _ Hs)].
      + rewrite lookup_insert_ne in Hq by done. destruct (decide (q = dead)) as [->|Hqd].
        * rewrite lookup_insert_eq in Hq. injection Hq as <-. apply (Hr _ _ _ Hd). apply elem_of_cons. by right.
        * rewrite lookup_insert_ne in Hq by done. by apply (Hr _ _ _ Hq). }
  rewrite Hnx. destruct (IH h5 (<[step := c :: l]> T0) k (c :: l) Hf1) as (h' & E & Hf').
  - unfold T0. by rewrite lookup_insert_ne, lookup_insert_eq.
  - apply lookup_insert_eq.
  - apply elem_of_cons. by right.
  - simpl in Hlen. lia.
  - exists h'. split; [exact E |]. replace (<[dead := []]> (<[step := reverse (c :: k) ++ l]> T)) with
      (<[dead := []]> (<[step := reverse k ++ c :: l]> (<[step := c :: l]> T0))); [exact Hf' |].
    rewrite insert_insert_eq. unfold T0. rewrite (insert_insert_ne _ step dead) by done. rewrite insert_insert_eq.
    by rewrite reverse_cons, <- app_assoc.
Qed.

(** The children of the dead node come first, in reverse order. *)
Lemma family_adopt_ok h T step dead k l : fam_ok h T -> T !! dead = Some k -> T !! step = Some l -> dead ∈ l ->
  exists h', family_adopt step dead h = Ok h' /\ fam_ok h' (<[dead := []]> (<[step := reverse k ++ l]> T)).
Proof.
  intros Hf Hd Hs Hdl. assert (dead <> NULL) as Hdn by (apply (fo_node_null _ _ _ _ _ Hf); by rewrite Hd).
  assert (exists fd, h !! dead = Some fd) as [fd Hfd].
  { destruct (proj2 (fo_dom _ _ _ _ Hf dead)) as [fd ?]; [by rewrite Hd | by exists fd]. }
  pose proof (fo_first_child _ _ _ _ Hf dead fd Hdn Hfd) as Hch. unfold kids_of in Hch. rewrite Hd in Hch. simpl in Hch.
  assert (fam_okx (first_of k) dead h T) as Hfx.
  { destruct Hf as [F1 F2 F3 F4 F5 F6 F7]. split; try done.
    - intros p l1 a l2 Hp. destruct (F3 p l1 a l2 Hp) as (f & Hfa & H1 & H2 & H3 & H4). exists f. split; [done |].
      assert (a <> NULL) as Han.
      { intros ->. assert (is_Some (T !! NULL)) as [? Hx] by (apply F1; by eexists). by rewrite F2 in Hx. }
      split_and!; try done; intros _; auto.
    - intros a Ha Hroot. destruct (F6 a Ha Hroot) as (f & Hfa & H1 & H2 & H3 & H4). exists f. split; [done |].
      assert (a <> NULL) as Han by (intros ->; rewrite F2 in Ha; by destruct Ha).
      split_and!; try done; intros _; auto. }
  assert (length k < S (base.size h))%nat as Hlen.
  { replace (length k) with (base.size (list_to_set k : gset Z)) by (apply size_list_to_set; by apply (fo_nodup _ _ _ _ Hf dead)).
    rewrite <- (size_dom h). apply le_n_S, subseteq_size. intros a Ha%elem_of_list_to_set. apply elem_of_dom.
    apply (fo_dom _ _ _ _ Hf). by apply (fo_closed _ _ _ _ _ _ _ Hf Hd). }
  destruct (adopt_loop_ok _ h T dead step k l Hfx Hd Hs Hdl Hlen) as (h1 & E & Hf1).
  unfold family_adopt. rewrite (hload_Some _ _ _ Hdn Hfd). cbn [mbind outcome_bind]. rewrite Hch, E. cbn [mbind outcome_bind].
  assert (exists fd1, h1 !! dead = Some fd1) as [fd1 Hfd1].
  { destruct (proj2 (fo_dom _ _ _ _ Hf1 dead)) as [fd1 ?]; [by rewrite lookup_insert_eq | by exists fd1]. }
  rewrite (hupd_Some _ _ _ _ Hdn Hfd1). eexists. split; [done |].
  set (T' := <[dead := []]> (<[step := reverse k ++ l]> T)) in *.
  destruct Hf1 as [F1 F2 F3 F4 F5 F6 F7].
  assert (forall a par pv nx f, h1 !! a = Some f -> a <> NULL -> node_ok T' NULL dead a par pv nx f ->
    exists f', <[dead := set_child NULL fd1]> h1 !! a = Some f' /\ node_ok T' NULL NULL a par pv nx f') as Hrec.
  { intros a par pv nx f Hfa Han (H1 & H2 & H3 & H4). destruct (decide (a = dead)) as [->|Had].
    - rewrite lookup_insert_eq. rewrite Hfd1 in Hfa. injection Hfa as <-. eexists. split; [done |]. split_and!; try done.
      intros _. unfold kids_of, T'. by rewrite lookup_insert_eq.
    - exists f. rewrite lookup_insert_ne by done. split; [done |]. split_and!; try done. intros _. by apply H4. }
  split; try done.
  - intros a. rewrite <- F1. destruct (decide (a = dead)) as [->|]; [by rewrite lookup_insert_eq, Hfd1 | by rewrite lookup_insert_ne].
  - intros p l1 a l2 Hp. destruct (F3 p l1 a l2 Hp) as (f & Hfa & Hok). eapply Hrec; [exact Hfa | | exact Hok].
    intros ->. assert (is_Some (T' !! NULL)) as [? Hx] by (apply F1; by eexists). by rewrite F2 in Hx.
  - intros a Ha Hroot. destruct (F6 a Ha Hroot) as (f & Hfa & Hok). eapply Hrec; [exact Hfa | | exact Hok].
    intros ->. rewrite F2 in Ha. by destruct Ha.
Qed.
