(* ===== verification/PhysMem.v ===== *)
(** The physical page allocator (mm/physmem.c): a bitmap with one bit per page,
    set when the page is in use, under the kernel lock. *)
From S2P Require Import Prelude.

Definition BLOCK_BITS : Z := 32.

(** The static variables of physmem.c; the contents of the bitmap by word. *)
Record physmem := PhysMem {
  memory_bitmap : list Z;
  memory_pages : Z;
  memory_offset : Z;
  s_freePages : Z;
  s_lastPage : Z;
  kernel_lock : Z
}.

Definition set_bitmap (v : list Z) (x : physmem) : physmem :=
  PhysMem v (memory_pages x) (memory_offset x) (s_freePages x) (s_lastPage x) (kernel_lock x).
Definition set_freePages (v : Z) (x : physmem) : physmem :=
  PhysMem (memory_bitmap x) (memory_pages x) (memory_offset x) v (s_lastPage x) (kernel_lock x).
Definition set_lastPage (v : Z) (x : physmem) : physmem :=
  PhysMem (memory_bitmap x) (memory_pages x) (memory_offset x) (s_freePages x) v (kernel_lock x).
Definition set_kernel_lock (v : Z) (x : physmem) : physmem :=
  PhysMem (memory_bitmap x) (memory_pages x) (memory_offset x) (s_freePages x) (s_lastPage x) v.

(** The macros [ISSET], [SET] and [UNSET]; the last two answer the old bit, as
    the atomic bit operations of smk/atomic.h do. *)
Definition ISSET (w : list Z) (page : Z) : outcome bool :=
  b ← aget w (page / BLOCK_BITS);
  Ok (negb (Z.land b (Z.shiftl 1 (page mod BLOCK_BITS)) =? 0)).

Definition SET (w : list Z) (page : Z) : outcome (Z * list Z) :=
  b ← aget w (page / BLOCK_BITS);
  w ← aset w (page / BLOCK_BITS) (Z.lor b (Z.shiftl 1 (page mod BLOCK_BITS)));
  Ok (if Z.testbit b (page mod BLOCK_BITS) then 1 else 0, w).

Definition UNSET (w : list Z) (page : Z) : outcome (Z * list Z) :=
  b ← aget w (page / BLOCK_BITS);
  w ← aset w (page / BLOCK_BITS) (Z.ldiff b (Z.shiftl 1 (page mod BLOCK_BITS)));
  Ok (if Z.testbit b (page mod BLOCK_BITS) then 1 else 0, w).

Definition acquire (m : physmem) : outcome physmem :=
  if kernel_lock m =? 0 then Ok (set_kernel_lock 1 m) else Halt Spin.
Definition release (m : physmem) : physmem := set_kernel_lock 0 m.

(** The scan for [n] free pages from [block + j] on: the offset of the first page
    in use, if any. *)
Fixpoint first_used (n : nat) (w : list Z) (block j : Z) : outcome (option Z) :=
  match n with
  | O => Ok None
  | S n =>
      b ← ISSET w (u32 (block + j));
      if (b : bool) then Ok (Some j) else first_used n w block (j + 1)
  end.

(** The search loop of [memory_multiple_alloc]: [i] and [block] when it ends.
    Every round advances [i], so [memory_pages] rounds are enough. *)
Fixpoint search (fuel : nat) (m : physmem) (pages i block : Z) : outcome (Z * Z) :=
  match fuel with
  | O => Halt Spin
  | S fuel =>
      if u32 i <? memory_pages m then
        block ← umod (u32 (i + s_lastPage m)) (memory_pages m);
        if memory_pages m <? u32 (block + pages) then
          search fuel m pages (s32 (s32 (i + u32 (pages - 2)) + 1)) block
        else
          bad ← first_used (Z.to_nat pages) (memory_bitmap m) block 0;
          match (bad : option Z) with
          | Some j => search fuel m pages (s32 (s32 (i + j) + 1)) block
          | None => Ok (i, block)
          end
      else Ok (i, block)
  end.

(** [for ( i = 0; i < pages; i++ ) { SET( block + i ); s_freePages -= 1; }] *)
Fixpoint take_pages (n : nat) (i block : Z) (m : physmem) : outcome physmem :=
  match n with
  | O => Ok m
  | S n =>
      '(_, w) ← SET (memory_bitmap m) (u32 (block + i));
      take_pages n (i + 1) block (set_freePages (s32 (s_freePages m - 1)) (set_bitmap w m))
  end.

Definition memory_multiple_alloc (pages : Z) (m : physmem) : outcome (Z * physmem) :=
  '(i, block) ← search (S (Z.to_nat (memory_pages m))) m pages 0 0;
  if memory_pages m <=? u32 i then Ok (NULL, m)
  else
    m ← take_pages (Z.to_nat pages) 0 block m;
    let m := set_lastPage (s32 (block + pages)) m in
    Ok (u32 (block * PAGE_SIZE + memory_offset m), m).

Definition memory_alloc (pages : Z) (m : physmem) : outcome (Z * physmem) :=
  kassert (0 <? pages) ;;
  m ← acquire m;
  '(ptr, m) ← (if pages <? u32 (s_freePages m) then memory_multiple_alloc pages m else Ok (NULL, m));
  Ok (ptr, release m).

(** The loop of [memory_free]. *)
Fixpoint free_pages (n : nat) (i start : Z) (m : physmem) : outcome physmem :=
  match n with
  | O => Ok m
  | S n =>
      '(tmp, w) ← UNSET (memory_bitmap m) (u32 (start + i));
      kassert (tmp =? 1) ;;
      free_pages n (i + 1) start (set_freePages (s32 (s_freePages m + 1)) (set_bitmap w m))
  end.

Definition memory_free (pages position : Z) (m : physmem) : outcome physmem :=
  let pos := u32 (position - memory_offset m) in
  kassert (pos mod PAGE_SIZE =? 0) ;;
  m ← acquire m;
  m ← free_pages (Z.to_nat pages) 0 (pos / PAGE_SIZE) m;
  Ok (release m).

(** One round of the loop of [memory_set]. *)
Definition set_page (used page : Z) (m : physmem) : outcome physmem :=
  if used =? 1 then
    '(tmp, w) ← SET (memory_bitmap m) page;
    let m := set_bitmap w m in
    Ok (if tmp =? 0 then set_freePages (s32 (s_freePages m - 1)) m else m)
  else
    '(tmp, w) ← UNSET (memory_bitmap m) page;
    let m := set_bitmap w m in
    Ok (if tmp =? 1 then set_freePages (s32 (s_freePages m + 1)) m else m).

Fixpoint set_pages (n : nat) (i start used : Z) (m : physmem) : outcome physmem :=
  match n with
  | O => Ok m
  | S n => m ← set_page used (u32 (start + i)) m; set_pages n (i + 1) start used m
  end.

(** The rounding of a range to whole pages: outwards for a used range, inwards
    for a free one. *)
Definition page_down (p : Z) : Z := p / PAGE_SIZE * PAGE_SIZE.
Definition page_up (p : Z) : Z := u32 ((p / PAGE_SIZE + 1) * PAGE_SIZE).
Definition round_down (p : Z) : Z := if p mod PAGE_SIZE =? 0 then p else page_down p.
Definition round_up (p : Z) : Z := if p mod PAGE_SIZE =? 0 then p else page_up p.

Definition memory_set (pstart pend used : Z) (m : physmem) : outcome physmem :=
  let pstart' := if used =? 1 then round_down pstart else round_up pstart in
  let pend' := if used =? 1 then round_up pend else round_down pend in
  let start := u32 (pstart' - memory_offset m) / PAGE_SIZE in
  let pages := u32 (pend' - pstart') / PAGE_SIZE in
  m ← acquire m;
  m ← set_pages (Z.to_nat pages) 0 start used m;
  Ok (release m).

(** [init_physmem] over the words of the map. *)
Fixpoint fill_words (n : nat) (i : Z) (w : list Z) : outcome (list Z) :=
  match n with O => Ok w | S n => w ← aset w i (two32 - 1); fill_words n (i + 1) w end.
Fixpoint set_bits (n : nat) (i j : Z) (w : list Z) : outcome (list Z) :=
  match n with O => Ok w | S n => '(_, w) ← SET w (s32 (j + i)); set_bits n (i + 1) j w end.

Definition init_physmem (offset : Z) (map : list Z) (pages : Z) (m : physmem) : outcome physmem :=
  kassert ((s_freePages m =? 0) && (s_lastPage m =? 0)) ;;
  let j := pages / BLOCK_BITS in
  w ← fill_words (Z.to_nat j) 0 map;
  w ← set_bits (Z.to_nat (pages mod BLOCK_BITS)) 0 (s32 (j * BLOCK_BITS)) w;
  let m := PhysMem w pages offset (s_freePages m) (s_lastPage m) (kernel_lock m) in
  kassert ((s_freePages m =? 0) && (s_lastPage m =? 0)) ;;
  Ok m.

(** * The bitmap as a set of pages *)

(** Page [p] is in use. *)
Definition used (w : list Z) (p : Z) : bool :=
  match w !! Z.to_nat (p / BLOCK_BITS) with
  | Some b => Z.testbit b (p mod BLOCK_BITS)
  | None => false
  end.

(** The number of free pages below [n]. *)
Fixpoint free_below (w : list Z) (n : nat) : Z :=
  match n with
  | O => 0
  | S n => free_below w n + if used w (Z.of_nat n) then 0 else 1
  end.

Definition in_map (w : list Z) (p : Z) : Prop := 0 <= p < Z.of_nat (length w) * BLOCK_BITS.

(** The bitmap covers the managed pages, the count of free pages is right, the
    lock is free, and the machine's integers hold every page number. *)
Definition pm_wf (m : physmem) : Prop :=
  0 < memory_pages m < 1048576 /\
  memory_pages m <= Z.of_nat (length (memory_bitmap m)) * BLOCK_BITS /\
  Z.of_nat (length (memory_bitmap m)) < 33554432 /\
  s_freePages m = free_below (memory_bitmap m) (Z.to_nat (memory_pages m)) /\
  0 <= s_lastPage m <= memory_pages m /\ kernel_lock m = 0 /\ is_u32 (memory_offset m).

Lemma land_pow2_testbit b k : 0 <= k ->
  negb (Z.land b (Z.shiftl 1 k) =? 0) = Z.testbit b k.
Proof.
  intros Hk. rewrite Z.shiftl_1_l. destruct (Z.testbit b k) eqn:E.
  - destruct (Z.eqb_spec (Z.land b (2 ^ k)) 0) as [H0|]; [|done].
    assert (Z.testbit (Z.land b (2 ^ k)) k = true) as Ht by (rewrite Z.land_spec, E, Z.pow2_bits_true; done).
    rewrite H0, Z.bits_0 in Ht. done.
  - assert (Z.land b (2 ^ k) = 0) as ->; [|done].
    apply Z.bits_inj'. intros n Hn. rewrite Z.land_spec, Z.bits_0, Z.pow2_bits_eqb by done.
    destruct (Z.eqb_spec k n) as [->|]; [by rewrite E | by rewrite andb_false_r].
Qed.

Lemma page_index w p : in_map w p ->
  0 <= p mod BLOCK_BITS < 32 /\ exists b, aget w (p / BLOCK_BITS) = Ok b /\ w !! Z.to_nat (p / BLOCK_BITS) = Some b.
Proof.
  unfold in_map, BLOCK_BITS. intros Hp. split; [apply Z.mod_pos_bound; lia |].
  destruct (aget_lt w (p / 32)) as [b Hb].
  - split; [apply Z.div_pos; lia | apply Z.div_lt_upper_bound; lia].
  - exists b. split; [done |]. by apply aget_Some in Hb as [_ ?].
Qed.

Lemma ISSET_used w p : in_map w p -> ISSET w p = Ok (used w p).
Proof.
  intros Hp. destruct (page_index w p Hp) as (Hm & b & Hb & Hl). unfold ISSET, used.
  rewrite Hb, Hl. cbn [mbind outcome_bind]. by rewrite land_pow2_testbit by lia.
Qed.

Lemma update_word w p b f : in_map w p -> w !! Z.to_nat (p / BLOCK_BITS) = Some b ->
  (forall k, 0 <= k -> k <> p mod BLOCK_BITS -> Z.testbit (f b) k = Z.testbit b k) ->
  let w' := <[Z.to_nat (p / BLOCK_BITS) := f b]> w in
  length w' = length w /\ used w' p = Z.testbit (f b) (p mod BLOCK_BITS) /\
  forall q, 0 <= q -> q <> p -> used w' q = used w q.
Proof.
  intros Hp Hl Hf w'. unfold used, w'. pose proof (lookup_lt_Some _ _ _ Hl) as Hlt.
  split; [by rewrite length_insert |]. split; [by rewrite list_lookup_insert_eq |].
  intros q Hq Hne. destruct (decide (Z.to_nat (q / BLOCK_BITS) = Z.to_nat (p / BLOCK_BITS))) as [E|E].
  - rewrite E, list_lookup_insert_eq, Hl by done. unfold in_map, BLOCK_BITS in *.
    apply Hf; [apply Z.mod_pos_bound; lia |]. intros Hm. apply Hne.
    assert (q / 32 = p / 32).
    { pose proof (Z.div_pos q 32). pose proof (Z.div_pos p 32). lia. }
    rewrite (Z.div_mod q 32), (Z.div_mod p 32) by lia. lia.
  - by rewrite list_lookup_insert_ne.
Qed.

Lemma SET_spec w p : in_map w p -> exists w', SET w p = Ok (if used w p then 1 else 0, w') /\
  length w' = length w /\ used w' p = true /\ forall q, 0 <= q -> q <> p -> used w' q = used w q.
Proof.
  intros Hp. destruct (page_index w p Hp) as (Hm & b & Hb & Hl). unfold SET.
  rewrite Hb. cbn [mbind outcome_bind]. rewrite (aset_aget _ _ _ _ Hb). cbn [mbind outcome_bind].
  eexists. split; [unfold used; by rewrite Hl |].
  destruct (update_word w p b (fun b => Z.lor b (Z.shiftl 1 (p mod BLOCK_BITS))) Hp Hl) as (H1 & H2 & H3).
  - intros k Hk Hne. rewrite Z.lor_spec, Z.shiftl_1_l, Z.pow2_bits_false by lia. apply orb_false_r.
  - split; [exact H1 |]. split; [|exact H3]. cbv zeta in H2. rewrite H2.
    rewrite Z.lor_spec, Z.shiftl_1_l, Z.pow2_bits_true by lia. apply orb_true_r.
Qed.

Lemma UNSET_spec w p : in_map w p -> exists w', UNSET w p = Ok (if used w p then 1 else 0, w') /\
  length w' = length w /\ used w' p = false /\ forall q, 0 <= q -> q <> p -> used w' q = used w q.
Proof.
  intros Hp. destruct (page_index w p Hp) as (Hm & b & Hb & Hl). unfold UNSET.
  rewrite Hb. cbn [mbind outcome_bind]. rewrite (aset_aget _ _ _ _ Hb). cbn [mbind outcome_bind].
  eexists. split; [unfold used; by rewrite Hl |].
  destruct (update_word w p b (fun b => Z.ldiff b (Z.shiftl 1 (p mod BLOCK_BITS))) Hp Hl) as (H1 & H2 & H3).
  - intros k Hk Hne. rewrite Z.ldiff_spec, Z.shiftl_1_l, Z.pow2_bits_false by lia. apply andb_true_r.
  - split; [exact H1 |]. split; [|exact H3]. cbv zeta in H2. rewrite H2.
    rewrite Z.ldiff_spec, Z.shiftl_1_l, Z.pow2_bits_true by lia. apply andb_false_r.
Qed.

(** How the count of free pages follows one bit. *)
Lemma free_below_other w w' n : (forall q, 0 <= q < Z.of_nat n -> used w' q = used w q) ->
  free_below w' n = free_below w n.
Proof.
  induction n as [|n IH]; intros Hq; [done |]. cbn [free_below].
  rewrite IH by (intros; apply Hq; lia). by rewrite Hq by lia.
Qed.

Lemma free_below_update w w' p n : (forall q, 0 <= q -> q <> p -> used w' q = used w q) ->
  0 <= p < Z.of_nat n ->
  free_below w' n = free_below w n + (if used w p then 1 else 0) - (if used w' p then 1 else 0).
Proof.
  intros Hq. induction n as [|n IH]; intros Hp; [lia |]. cbn [free_below].
  destruct (decide (p = Z.of_nat n)) as [->|Hne].
  - rewrite (free_below_other w w' n) by (intros; apply Hq; lia).
    destruct (used w (Z.of_nat n)), (used w' (Z.of_nat n)); lia.
  - rewrite IH, (Hq (Z.of_nat n)) by lia. lia.
Qed.

Lemma free_below_range w n : 0 <= free_below w n <= Z.of_nat n.
Proof. induction n as [|n IH]; cbn [free_below]; [lia |]. destruct (used w (Z.of_nat n)); lia. Qed.

(** * Allocation *)

(** The pages [b], ..., [b + n - 1] are all in the state [st]. *)
Definition run_of (w : list Z) (b n : Z) (st : bool) : Prop :=
  forall p, b <= p < b + n -> used w p = st.

Lemma first_used_spec n w block j : 0 <= block -> 0 <= j ->
  block + j + Z.of_nat n <= Z.of_nat (length w) * BLOCK_BITS -> Z.of_nat (length w) < 33554432 ->
  exists r, first_used n w block j = Ok r /\
  match r with
  | Some k => j <= k < j + Z.of_nat n /\ used w (block + k) = true
  | None => run_of w (block + j) (Z.of_nat n) false
  end.
Proof.
  intros Hb. revert j. induction n as [|n IH]; intros j Hj Hin Hl; cbn [first_used].
  { exists None. split; [done |]. intros p Hp. lia. }
  unfold BLOCK_BITS in *. rewrite u32_small by (unfold is_u32, two32; lia).
  rewrite ISSET_used by (unfold in_map, BLOCK_BITS; lia). cbn [mbind outcome_bind].
  destruct (used w (block + j)) eqn:E.
  - exists (Some j). split; [done |]. split; [lia | done].
  - destruct (IH (j + 1)) as (r & -> & Hr); [lia | lia | done |]. exists r. split; [done |].
    destruct r as [k|].
    + destruct Hr. split; [lia | done].
    + intros p Hp. destruct (decide (p = block + j)) as [->|]; [done | apply Hr; lia].
Qed.

(** The search ends, with a free run or past the last page; for single pages the
    pages that were passed are all in use. *)
Lemma search_spec fuel m pages i b0 : pm_wf m -> 0 < pages < memory_pages m -> 0 <= i ->
  i < 4194304 -> (Z.to_nat (memory_pages m - i) < fuel)%nat ->
  exists i' block, search fuel m pages i b0 = Ok (i', block) /\ i <= i' < 8388608 /\
  (i' < memory_pages m -> 0 <= block /\ block + pages <= memory_pages m /\
     run_of (memory_bitmap m) block pages false) /\
  (pages = 1 -> forall k, i <= k < i' -> k < memory_pages m ->
     used (memory_bitmap m) ((k + s_lastPage m) mod memory_pages m) = true).
Proof.
  intros (Hmp & Hmap & Hlen & Hfree & Hlast & Hlock & Hoff) Hpg. revert i b0.
  induction fuel as [|fuel IH]; intros i b0 Hi Hib Hf; [lia |]. cbn [search].
  rewrite (u32_small i) by (unfold is_u32, two32; lia).
  destruct (Z.ltb_spec i (memory_pages m)) as [Him|Him].
  2:{ exists i, b0. split; [done |]. split; [lia |]. split; lia. }
  rewrite (u32_small (i + s_lastPage m)) by (unfold is_u32, two32; lia).
  rewrite umod_pos by lia. cbn [mbind outcome_bind].
  set (block := (i + s_lastPage m) mod memory_pages m).
  pose proof (Z.mod_pos_bound (i + s_lastPage m) (memory_pages m) ltac:(lia)) as Hb. fold block in Hb.
  rewrite (u32_small (block + pages)) by (unfold is_u32, two32; lia).
  destruct (Z.ltb_spec (memory_pages m) (block + pages)) as [Hw|Hw].
  - assert (2 <= pages) by lia. rewrite (u32_small (pages - 2)) by (unfold is_u32, two32; lia).
    rewrite !s32_small by (rewrite ?s32_small; unfold is_s32; lia).
    destruct (IH (i + (pages - 2) + 1) block) as (i' & bl & -> & H1 & H2 & H3); [lia | lia | lia |].
    exists i', bl. split; [done |]. split; [lia |]. split; [done | lia].
  - unfold BLOCK_BITS in *. destruct (first_used_spec (Z.to_nat pages) (memory_bitmap m) block 0)
      as (r & -> & Hr); [lia | lia | unfold BLOCK_BITS; lia | lia |]. cbn [mbind outcome_bind].
    rewrite Z.add_0_r, Z2Nat.id in Hr by lia. destruct r as [k|].
    + destruct Hr as [Hk Hu]. rewrite !s32_small by (rewrite ?s32_small; unfold is_s32; lia).
      destruct (IH (i + k + 1) block) as (i' & bl & -> & H1 & H2 & H3); [lia | lia | lia |].
      exists i', bl. split; [done |]. split; [lia |]. split; [done |]. intros Hp1 q Hq Hqm.
      destruct (decide (q = i)) as [->|]; [|apply H3; lia].
      fold block. by replace block with (block + k) by lia.
    + exists i, block. split; [done |]. split; [lia |]. split; [|lia]. intros _. split_and!; [lia | lia | done].
Qed.

(** The fields that the page loops leave alone. *)
Definition pm_same (m m' : physmem) : Prop :=
  memory_pages m' = memory_pages m /\ memory_offset m' = memory_offset m /\
  s_lastPage m' = s_lastPage m /\ kernel_lock m' = kernel_lock m /\
  length (memory_bitmap m') = length (memory_bitmap m).

(** The count of free pages is right. *)
Definition counted (m : physmem) : Prop :=
  s_freePages m = free_below (memory_bitmap m) (Z.to_nat (memory_pages m)).

Definition covers (m : physmem) : Prop :=
  0 < memory_pages m < 1048576 /\
  memory_pages m <= Z.of_nat (length (memory_bitmap m)) * BLOCK_BITS /\
  Z.of_nat (length (memory_bitmap m)) < 33554432.

(** One page changed to the state [st], and the count with it. *)
Lemma one_page m w' p st : covers m -> counted m -> 0 <= p < memory_pages m ->
  length w' = length (memory_bitmap m) -> used w' p = st ->
  (forall q, 0 <= q -> q <> p -> used w' q = used (memory_bitmap m) q) ->
  let m' := set_freePages (s_freePages m + (if used (memory_bitmap m) p then 1 else 0) - (if st then 1 else 0))
              (set_bitmap w' m) in
  covers m' /\ counted m' /\ pm_same m m' /\ is_s32 (s_freePages m') /\
  s32 (s_freePages m') = s_freePages m'.
Proof.
  intros (Hmp & Hmap & Hlen) Hc Hp Hl Hu Ho m'.
  assert (counted m') as Hc'.
  { unfold counted, m'. simpl. rewrite (free_below_update (memory_bitmap m) w' p) by (done || lia).
    rewrite Hu, <- Hc. done. }
  assert (is_s32 (s_freePages m')) as Hs.
  { rewrite Hc'. pose proof (free_below_range (memory_bitmap m') (Z.to_nat (memory_pages m'))).
    unfold m' in *. simpl in *. unfold is_s32. lia. }
  split_and!; try done; try (by apply s32_small).
  - unfold covers, m'. simpl. rewrite Hl. done.
Qed.

Lemma in_map_covers m p : covers m -> 0 <= p < memory_pages m -> in_map (memory_bitmap m) p.
Proof. unfold covers, in_map. lia. Qed.

Lemma pm_same_trans m1 m2 m3 : pm_same m1 m2 -> pm_same m2 m3 -> pm_same m1 m3.
Proof. unfold pm_same. intros (?&?&?&?&?) (?&?&?&?&?). split_and!; congruence. Qed.

Lemma pm_same_refl m : pm_same m m.
Proof. by unfold pm_same. Qed.

(** What a loop over the pages [b], ..., [b + n - 1] leaves. *)
Definition pages_set (m m' : physmem) (b n : Z) (st : bool) : Prop :=
  pm_same m m' /\ covers m' /\ counted m' /\ run_of (memory_bitmap m') b n st /\
  forall q, 0 <= q -> ~ (b <= q < b + n) -> used (memory_bitmap m') q = used (memory_bitmap m) q.

Lemma pages_set_cons m m1 m' b n st : pages_set m m1 b 1 st -> pages_set m1 m' (b + 1) (Z.of_nat n) st ->
  0 <= b -> pages_set m m' b (Z.of_nat (S n)) st.
Proof.
  intros (H1 & H2 & H3 & H4 & H5) (H1' & H2' & H3' & H4' & H5') Hb.
  split; [by eapply pm_same_trans |]. split; [done |]. split; [done |]. split.
  - intros q Hq. destruct (decide (q = b)) as [->|]; [|apply H4'; lia].
    rewrite H5' by lia. apply H4. lia.
  - intros q Hq Hn. rewrite H5' by lia. apply H5; lia.
Qed.

Lemma pages_set_nil m b st : covers m -> counted m -> pages_set m m b 0 st.
Proof. intros Hc Hn. split_and!; try done. intros q Hq. lia. Qed.

Lemma take_pages_spec n i block m : covers m -> counted m -> 0 <= block -> 0 <= i ->
  block + i + Z.of_nat n <= memory_pages m -> run_of (memory_bitmap m) (block + i) (Z.of_nat n) false ->
  exists m', take_pages n i block m = Ok m' /\ pages_set m m' (block + i) (Z.of_nat n) true /\
  s_freePages m' = s_freePages m - Z.of_nat n.
Proof.
  revert i m. induction n as [|n IH]; intros i m Hcov Hcnt Hb Hi Hin Hrun; cbn [take_pages].
  { exists m. split; [done |]. split; [by apply pages_set_nil | lia]. }
  rewrite u32_small by (destruct Hcov; unfold is_u32, two32; lia).
  assert (used (memory_bitmap m) (block + i) = false) as Hu by (apply Hrun; lia).
  destruct (SET_spec (memory_bitmap m) (block + i)) as (w' & -> & Hl & Hu' & Ho); [apply in_map_covers; [done | lia] |].
  cbn [mbind outcome_bind].
  destruct (one_page m w' (block + i) true Hcov Hcnt ltac:(lia) Hl Hu' Ho) as (Hc1 & Hn1 & Hs1 & _ & Hs32).
  rewrite Hu in *. simpl in Hs32. rewrite !Z.add_0_r in *. rewrite Hs32.
  set (m1 := set_freePages (s_freePages m - 1) (set_bitmap w' m)) in *.
  destruct (IH (i + 1) m1) as (m' & -> & Hset & Hfree); try done; try lia.
  - rewrite (proj1 Hs1). lia.
  - intros q Hq. unfold m1. simpl. rewrite Ho by lia. apply Hrun. lia.
  - exists m'. split; [done |]. rewrite Z.add_assoc in Hset. split; [|rewrite Hfree; unfold m1; simpl; lia].
    apply (pages_set_cons m m1); [| done | lia].
    split_and!; try done.
    + intros q Hq. replace q with (block + i) by lia. done.
    + intros q Hq Hne. apply Ho; lia.
Qed.

Lemma free_pages_spec n i start m : covers m -> counted m -> 0 <= start -> 0 <= i ->
  start + i + Z.of_nat n <= memory_pages m -> run_of (memory_bitmap m) (start + i) (Z.of_nat n) true ->
  exists m', free_pages n i start m = Ok m' /\ pages_set m m' (start + i) (Z.of_nat n) false /\
  s_freePages m' = s_freePages m + Z.of_nat n.
Proof.
  revert i m. induction n as [|n IH]; intros i m Hcov Hcnt Hb Hi Hin Hrun; cbn [free_pages].
  { exists m. split; [done |]. split; [by apply pages_set_nil | lia]. }
  rewrite u32_small by (destruct Hcov; unfold is_u32, two32; lia).
  assert (used (memory_bitmap m) (start + i) = true) as Hu by (apply Hrun; lia).
  destruct (UNSET_spec (memory_bitmap m) (start + i)) as (w' & -> & Hl & Hu' & Ho); [apply in_map_covers; [done | lia] |].
  rewrite Hu. cbn [mbind outcome_bind Z.eqb Pos.eqb kassert].
  destruct (one_page m w' (start + i) false Hcov Hcnt ltac:(lia) Hl Hu' Ho) as (Hc1 & Hn1 & Hs1 & _ & Hs32).
  rewrite Hu in *. simpl in Hs32. rewrite !Z.sub_0_r in *. rewrite Hs32.
  set (m1 := set_freePages (s_freePages m + 1) (set_bitmap w' m)) in *.
  destruct (IH (i + 1) m1) as (m' & -> & Hset & Hfree); try done; try lia.
  - rewrite (proj1 Hs1). lia.
  - intros q Hq. unfold m1. simpl. rewrite Ho by lia. apply Hrun. lia.
  - exists m'. split; [done |]. rewrite Z.add_assoc in Hset. split; [|rewrite Hfree; unfold m1; simpl; lia].
    apply (pages_set_cons m m1); [| done | lia].
    split_and!; try done.
    + intros q Hq. replace q with (start + i) by lia. done.
    + intros q Hq Hne. apply Ho; lia.
Qed.

Lemma pm_wf_parts m : pm_wf m -> covers m /\ counted m.
Proof. intros (H1 & H2 & H3 & H4 & _). done. Qed.

Lemma no_free_page m : covers m ->
  (forall k, 0 <= k < memory_pages m -> used (memory_bitmap m) ((k + s_lastPage m) mod memory_pages m) = true) ->
  0 <= s_lastPage m -> free_below (memory_bitmap m) (Z.to_nat (memory_pages m)) = 0.
Proof.
  intros (Hmp & _) Hall Hlast.
  assert (forall n, Z.of_nat n <= memory_pages m -> free_below (memory_bitmap m) n = 0) as Hn; [|apply Hn; lia].
  induction n as [|n IH]; intros Hn; cbn [free_below]; [done |]. rewrite IH by lia.
  specialize (Hall ((Z.of_nat n - s_lastPage m) mod memory_pages m)).
  rewrite Zplus_mod_idemp_l in Hall. replace (Z.of_nat n - s_lastPage m + s_lastPage m) with (Z.of_nat n) in Hall by lia.
  rewrite (Z.mod_small (Z.of_nat n)) in Hall by lia. rewrite Hall; [lia | apply Z.mod_pos_bound; lia].
Qed.

Lemma memory_multiple_alloc_ok pages m : covers m -> counted m -> 0 <= s_lastPage m <= memory_pages m ->
  is_u32 (memory_offset m) -> 0 < pages < memory_pages m ->
  exists ptr m', memory_multiple_alloc pages m = Ok (ptr, m') /\
  ((ptr = NULL /\ m' = m /\ (pages = 1 -> s_freePages m = 0)) \/
   exists block, 0 <= block /\ block + pages <= memory_pages m /\
     ptr = u32 (block * PAGE_SIZE + memory_offset m) /\
     run_of (memory_bitmap m) block pages false /\
     pages_set m (set_lastPage (s_lastPage m) m') block pages true /\
     s_freePages m' = s_freePages m - pages /\ s_lastPage m' = block + pages).
Proof.
  intros Hcov Hcnt Hlast Hoff Hpg. unfold memory_multiple_alloc.
  assert (pm_wf (release m)) as Hwf.
  { destruct Hcov as (?&?&?). unfold pm_wf, release. simpl. split_and!; (done || lia). }
  assert (forall f i b, search f m pages i b = search f (release m) pages i b) as Hsame.
  { induction f as [|f IH]; intros i b; simpl; [done |]. destruct (_ <? _); [|done].
    unfold umod. destruct (_ =? _); [done |]. simpl. destruct (_ <? _); [apply IH |].
    destruct (first_used _ _ _ _) as [[j|]|]; simpl; [apply IH | done | done]. }
  rewrite Hsame.
  destruct (search_spec (S (Z.to_nat (memory_pages m))) (release m) pages 0 0 Hwf)
    as (i & block & -> & Hi & Hrun & Hall); [done | lia | lia | simpl; lia |]. simpl in Hrun, Hall.
  cbn [mbind outcome_bind]. rewrite u32_small by (unfold is_u32, two32; lia).
  destruct (Z.leb_spec (memory_pages m) i) as [Hend|Hend].
  - exists NULL, m. split; [done |]. left. split_and!; try done. intros Hp1. rewrite Hcnt.
    apply no_free_page; [done | | lia]. intros k Hk. apply (Hall Hp1); lia.
  - destruct (Hrun Hend) as (Hb & Hbp & Hfree). destruct Hcov as (Hmp & Hcov').
    destruct (take_pages_spec (Z.to_nat pages) 0 block m) as (m' & -> & Hset & Hfr); try done; try lia.
    { rewrite Z.add_0_r, Z2Nat.id by lia. done. }
    cbn [mbind outcome_bind]. rewrite Z.add_0_r, Z2Nat.id in Hset by lia. rewrite Z2Nat.id in Hfr by lia.
    rewrite s32_small by (unfold is_s32; lia).
    pose proof Hset as ((E1 & E2 & E3 & E4 & E5) & _).
    exists (u32 (block * PAGE_SIZE + memory_offset m)), (set_lastPage (block + pages) m').
    split; [simpl; by rewrite E2 |]. right. exists block. split_and!; try done; try lia.
    replace (set_lastPage _ _) with m' by (rewrite <- E3; by destruct m'). exact Hset.
Qed.

(** What [memory_alloc] does, for its callers. *)
Lemma memory_alloc_spec pages m : pm_wf m -> 0 < pages < two32 ->
  exists ptr m', memory_alloc pages m = Ok (ptr, m') /\ pm_wf m' /\
  (memory_pages m' = memory_pages m /\ memory_offset m' = memory_offset m) /\
  ((ptr = NULL /\ m' = m /\ (pages = 1 -> s_freePages m <= 1)) \/
   exists block, 0 <= block /\ block + pages <= memory_pages m /\
     ptr = u32 (block * PAGE_SIZE + memory_offset m) /\
     run_of (memory_bitmap m) block pages false /\ run_of (memory_bitmap m') block pages true /\
     (forall q, 0 <= q -> ~ (block <= q < block + pages) ->
        used (memory_bitmap m') q = used (memory_bitmap m) q) /\
     s_freePages m' = s_freePages m - pages).
Proof.
  intros Hwf Hpg. pose proof Hwf as (Hmp & Hmap & Hlen & Hfree & Hlast & Hlock & Hoff).
  pose proof (free_below_range (memory_bitmap m) (Z.to_nat (memory_pages m))) as Hfr.
  unfold memory_alloc, acquire. rewrite kassert_true by lia. cbn [mbind outcome_bind]. rewrite Hlock.
  cbn [Z.eqb mbind outcome_bind s_freePages set_kernel_lock].
  rewrite u32_small by (unfold is_u32, two32; lia).
  assert (release (set_kernel_lock 1 m) = m) as Hrel by (destruct m; simpl in *; by subst).
  destruct (Z.ltb_spec pages (s_freePages m)) as [Hlt|Hge].
  2:{ exists NULL, m. cbn [mbind outcome_bind]. rewrite Hrel. split_and!; try done.
      left. split_and!; try done. lia. }
  destruct (memory_multiple_alloc_ok pages (set_kernel_lock 1 m))
    as (ptr & m' & -> & Hcase); try done; [simpl; lia |]. cbn [mbind outcome_bind]. simpl in Hcase.
  exists ptr, (release m'). split; [done |]. destruct Hcase as [(-> & -> & H1)|(block & Hb & Hbp & -> & Hrun & Hset & Hf & Hl)].
  - rewrite Hrel. split; [done |]. split; [done |]. left. split_and!; try done. intros Hp1. specialize (H1 Hp1). lia.
  - destruct Hset as ((E1 & E2 & E3 & E4 & E5) & Hc' & Hn' & Hr' & Ho'). simpl in *. split.
    + unfold pm_wf, release. simpl in *. destruct Hc' as (?&?&?). simpl in *. unfold counted in Hn'. simpl in Hn'.
      split_and!; (done || lia || congruence).
    + split; [done |]. right. exists block. split_and!; done.
Qed.

(** C6. [memory_alloc] on a consistent allocator either answers NULL and changes
    nothing, or the address of a run of pages inside of the managed memory that
    were all free, are all in use afterwards, and are the only ones that
    changed; the free count stays exact and the lock is released.  A request for
    one page is served whenever two pages are free.  The search ends. *)
Theorem memory_alloc_sound pages m : pm_wf m -> 0 < pages < two32 ->
  exists ptr m', memory_alloc pages m = Ok (ptr, m') /\ pm_wf m' /\
  ((ptr = NULL /\ m' = m /\ (pages = 1 -> s_freePages m <= 1)) \/
   exists block, 0 <= block /\ block + pages <= memory_pages m /\
     ptr = u32 (block * PAGE_SIZE + memory_offset m) /\
     run_of (memory_bitmap m) block pages false /\ run_of (memory_bitmap m') block pages true /\
     (forall q, 0 <= q -> ~ (block <= q < block + pages) ->
        used (memory_bitmap m') q = used (memory_bitmap m) q) /\
     s_freePages m' = s_freePages m - pages).
Proof.
  intros Hwf Hpg. destruct (memory_alloc_spec pages m Hwf Hpg) as (ptr & m' & H1 & H2 & _ & H3).
  exists ptr, m'. done.
Qed.

(** What [memory_free] does, for its callers. *)
Lemma memory_free_spec pages block m : pm_wf m -> 0 <= block -> 0 < pages ->
  block + pages <= memory_pages m ->
  (run_of (memory_bitmap m) block pages true ->
    exists m', memory_free pages (u32 (block * PAGE_SIZE + memory_offset m)) m = Ok m' /\ pm_wf m' /\
    run_of (memory_bitmap m') block pages false /\
    (forall q, 0 <= q -> ~ (block <= q < block + pages) ->
       used (memory_bitmap m') q = used (memory_bitmap m) q) /\
    s_freePages m' = s_freePages m + pages /\
    memory_pages m' = memory_pages m /\ memory_offset m' = memory_offset m) /\
  (forall p, block <= p < block + pages -> used (memory_bitmap m) p = false ->
    memory_free pages (u32 (block * PAGE_SIZE + memory_offset m)) m = Halt AssertFail).
Proof.
  intros Hwf Hb Hpg Hbp. pose proof Hwf as (Hmp & Hmap & Hlen & Hfree & Hlast & Hlock & Hoff).
  assert (forall k, memory_free pages (u32 (block * PAGE_SIZE + memory_offset m)) m = k <->
    (m' ← free_pages (Z.to_nat pages) 0 block (set_kernel_lock 1 m); Ok (release m')) = k) as Hrun.
  { intros k. unfold memory_free, acquire.
    assert (u32 (u32 (block * PAGE_SIZE + memory_offset m) - memory_offset m) = block * PAGE_SIZE) as ->.
    { unfold u32 at 1 2. rewrite Zminus_mod_idemp_l.
      replace (block * PAGE_SIZE + memory_offset m - memory_offset m) with (block * PAGE_SIZE) by lia.
      apply Z.mod_small. unfold two32, PAGE_SIZE. lia. }
    rewrite Z.mod_mul, Z.div_mul by (unfold PAGE_SIZE; lia). rewrite Hlock. done. }
  set (m1 := set_kernel_lock 1 m) in *.
  assert (covers m1 /\ counted m1) as [Hcov Hcnt] by done. split.
  - intros Hused. destruct (free_pages_spec (Z.to_nat pages) 0 block m1) as (m' & E & Hset & Hf); try done; try lia.
    { simpl. lia. } { rewrite Z.add_0_r, Z2Nat.id by lia. done. }
    rewrite Z.add_0_r, Z2Nat.id in Hset by lia. rewrite Z2Nat.id in Hf by lia.
    exists (release m'). split; [apply Hrun; by rewrite E |].
    destruct Hset as ((E1 & E2 & E3 & E4 & E5) & Hc' & Hn' & Hr' & Ho'). simpl in *.
    split; [|split_and!; done].
    unfold pm_wf, release. destruct Hc' as (?&?&?). unfold counted in Hn'. simpl. rewrite E1, E2, E3 in *.
    split_and!; (done || lia).
  - intros p Hp Hunused. apply Hrun.
    assert (forall n i m2, covers m2 -> counted m2 -> memory_pages m2 = memory_pages m -> 0 <= i ->
      block + i <= p < block + i + Z.of_nat n -> block + i + Z.of_nat n <= memory_pages m ->
      used (memory_bitmap m2) p = false -> free_pages n i block m2 = Halt AssertFail) as Hstop.
    { induction n as [|n IH]; intros i m2 Hc2 Hn2 Hm2 Hi Hpi Hin Hu; [lia |]. cbn [free_pages].
      rewrite u32_small by (unfold is_u32, two32; lia).
      destruct (UNSET_spec (memory_bitmap m2) (block + i)) as (w' & -> & Hl & Hu' & Ho);
        [apply in_map_covers; [done | lia] |]. cbn [mbind outcome_bind].
      destruct (used (memory_bitmap m2) (block + i)) eqn:Hui; [|done].
      assert (p <> block + i) as Hpne by congruence. cbn [Z.eqb Pos.eqb kassert mbind outcome_bind].
      destruct (one_page m2 w' (block + i) false Hc2 Hn2 ltac:(lia) Hl Hu' Ho) as (Hc1 & Hn1 & Hs1 & _ & Hs32).
      rewrite Hui in *. rewrite !Z.sub_0_r in *. simpl in Hs32. rewrite Hs32.
      apply IH; try done; try lia. simpl. by rewrite Ho by lia. }
    rewrite (Hstop (Z.to_nat pages) 0 m1); try done; lia.
Qed.

(** [memory_free] of a run of pages that are all in use clears exactly those
    pages, keeps the free count exact and releases the lock; a run with a page
    that is not in use, as in a double free, stops at its first such page. *)
Theorem memory_free_checked pages block m : pm_wf m -> 0 <= block -> 0 < pages ->
  block + pages <= memory_pages m ->
  (run_of (memory_bitmap m) block pages true ->
    exists m', memory_free pages (u32 (block * PAGE_SIZE + memory_offset m)) m = Ok m' /\ pm_wf m' /\
    run_of (memory_bitmap m') block pages false /\
    (forall q, 0 <= q -> ~ (block <= q < block + pages) ->
       used (memory_bitmap m') q = used (memory_bitmap m) q) /\
    s_freePages m' = s_freePages m + pages) /\
  (forall p, block <= p < block + pages -> used (memory_bitmap m) p = false ->
    memory_free pages (u32 (block * PAGE_SIZE + memory_offset m)) m = Halt AssertFail).
Proof.
  intros Hwf Hb Hpg Hbp. destruct (memory_free_spec pages block m Hwf Hb Hpg Hbp) as [H1 H2].
  split; [|done]. intros Hr. destruct (H1 Hr) as (m' & ? & ? & ? & ? & ? & _). by exists m'.
Qed.

(** * Marking ranges *)

Lemma set_pages_spec n i start st m : covers m -> counted m -> 0 <= start -> 0 <= i ->
  start + i + Z.of_nat n <= memory_pages m ->
  exists m', set_pages n i start st m = Ok m' /\ pages_set m m' (start + i) (Z.of_nat n) (st =? 1).
Proof.
  revert i m. induction n as [|n IH]; intros i m Hcov Hcnt Hb Hi Hin; cbn [set_pages].
  { exists m. split; [done |]. by apply pages_set_nil. }
  rewrite u32_small by (destruct Hcov; unfold is_u32, two32; lia).
  assert (in_map (memory_bitmap m) (start + i)) as Hm by (apply in_map_covers; [done | lia]).
  assert (exists m1, set_page st (start + i) m = Ok m1 /\
     pages_set m m1 (start + i) 1 (st =? 1)) as (m1 & -> & H1).
  { unfold set_page. destruct (st =? 1).
    - destruct (SET_spec _ _ Hm) as (w' & -> & Hl & Hu & Ho). cbn [mbind outcome_bind].
      destruct (one_page m w' (start + i) true Hcov Hcnt ltac:(lia) Hl Hu Ho) as (Hc1 & Hn1 & Hs1 & _ & Hs32).
      eexists. split; [done |]. destruct (used (memory_bitmap m) (start + i)); cbn [Z.eqb] in *.
      + replace (s_freePages m + 1 - 1) with (s_freePages m) in * by lia.
        replace (set_freePages (s_freePages m) (set_bitmap w' m)) with (set_bitmap w' m) in * by by destruct m.
        split_and!; try done; intros q Hq; [by replace q with (start + i) by lia | intros; apply Ho; lia].
      + simpl in Hs32. rewrite !Z.add_0_r in *. cbn [s_freePages set_bitmap]. rewrite Hs32.
        split_and!; try done; intros q Hq; [by replace q with (start + i) by lia | intros; apply Ho; lia].
    - destruct (UNSET_spec _ _ Hm) as (w' & -> & Hl & Hu & Ho). cbn [mbind outcome_bind].
      destruct (one_page m w' (start + i) false Hcov Hcnt ltac:(lia) Hl Hu Ho) as (Hc1 & Hn1 & Hs1 & _ & Hs32).
      eexists. split; [done |]. destruct (used (memory_bitmap m) (start + i)); cbn [Z.eqb Pos.eqb] in *.
      + simpl in Hs32. rewrite !Z.sub_0_r in *. cbn [s_freePages set_bitmap]. rewrite Hs32.
        split_and!; try done; intros q Hq; [by replace q with (start + i) by lia | intros; apply Ho; lia].
      + rewrite Z.add_0_r, Z.sub_0_r in *.
        replace (set_freePages (s_freePages m) (set_bitmap w' m)) with (set_bitmap w' m) in * by by destruct m.
        split_and!; try done; intros q Hq; [by replace q with (start + i) by lia | intros; apply Ho; lia]. }
  cbn [mbind outcome_bind]. pose proof H1 as ((E1 & _) & Hc1 & Hn1 & _).
  destruct (IH (i + 1) m1) as (m' & -> & Hset); try done; try lia. exists m'. split; [done |].
  rewrite Z.add_assoc in Hset. apply (pages_set_cons m m1); [done | done | lia].
Qed.

Lemma round_down_spec p : 0 <= p -> exists k, round_down p = k * PAGE_SIZE /\ k = p / PAGE_SIZE.
Proof.
  intros Hp. exists (p / PAGE_SIZE). split; [|done]. unfold round_down, page_down, PAGE_SIZE.
  destruct (Z.eqb_spec (p mod 4096) 0); [|done]. rewrite (Z.div_mod p 4096) at 1 by lia. lia.
Qed.

Lemma round_up_spec p : 0 <= p < two32 - PAGE_SIZE ->
  round_up p = (p + PAGE_SIZE - 1) / PAGE_SIZE * PAGE_SIZE.
Proof.
  intros Hp. unfold round_up, page_up, PAGE_SIZE, two32 in *.
  pose proof (Z.div_mod p 4096 ltac:(lia)) as Hdm. pose proof (Z.mod_pos_bound p 4096 ltac:(lia)) as Hm.
  destruct (Z.eqb_spec (p mod 4096) 0) as [E|E].
  - assert ((p + 4096 - 1) / 4096 = p / 4096) as ->; [|lia].
    symmetry. apply (Z.div_unique _ _ _ 4095); lia.
  - rewrite u32_small by (unfold is_u32, two32; lia).
    assert ((p + 4096 - 1) / 4096 = p / 4096 + 1) as ->; [|lia].
    symmetry. apply (Z.div_unique _ _ _ (p mod 4096 - 1)); lia.
Qed.

(** C39. [memory_set] on an address range of the managed memory: with [used] every
    page that the range touches is marked in use; without it exactly the pages
    that lie whole inside the range are freed, provided the rounded range is not
    inverted.  All other pages stay, and the free count stays exact whatever the
    pages were before. *)
Theorem memory_set_rounds m base pstart pend st : pm_wf m -> memory_offset m = base * PAGE_SIZE ->
  0 <= base -> base * PAGE_SIZE <= pstart -> pstart <= pend -> pend <= (base + memory_pages m) * PAGE_SIZE ->
  pend < two32 - PAGE_SIZE ->
  let first := if st =? 1 then pstart / PAGE_SIZE else (pstart + PAGE_SIZE - 1) / PAGE_SIZE in
  let last := if st =? 1 then (pend + PAGE_SIZE - 1) / PAGE_SIZE else pend / PAGE_SIZE in
  first <= last ->
  exists m', memory_set pstart pend st m = Ok m' /\ pm_wf m' /\
  forall q, 0 <= q ->
    used (memory_bitmap m') q =
      if decide (first <= base + q < last) then st =? 1 else used (memory_bitmap m) q.
Proof.
  intros Hwf Hoff Hbase Hps Hpe Hend H32 first last Hfl.
  pose proof Hwf as (Hmp & Hmap & Hlen & Hfree & Hlast & Hlock & Hou).
  assert ((if st =? 1 then round_down pstart else round_up pstart) = first * PAGE_SIZE /\
          (if st =? 1 then round_up pend else round_down pend) = last * PAGE_SIZE) as [E1 E2].
  { unfold first, last. destruct (round_down_spec pstart) as (k1 & -> & ->); [unfold PAGE_SIZE in *; lia |].
    destruct (round_down_spec pend) as (k2 & -> & ->); [unfold PAGE_SIZE in *; lia |].
    rewrite !round_up_spec by (unfold PAGE_SIZE in *; lia). by destruct (st =? 1). }
  assert (base <= first /\ last <= base + memory_pages m) as [Hf Hl].
  { unfold first, last, PAGE_SIZE in *. destruct (st =? 1); split.
    - apply Z.div_le_lower_bound; lia.
    - apply Z.lt_succ_r, Z.div_lt_upper_bound; lia.
    - apply Z.div_le_lower_bound; lia.
    - apply Z.div_le_upper_bound; lia. }
  unfold memory_set, acquire. rewrite E1, E2, Hoff, Hlock. cbn [Z.eqb mbind outcome_bind].
  rewrite <- !Z.mul_sub_distr_r.
  assert (last * PAGE_SIZE <= pend + PAGE_SIZE) as Hle.
  { unfold last, PAGE_SIZE in *. destruct (st =? 1);
      [pose proof (Z.mul_div_le (pend + 4096 - 1) 4096) | pose proof (Z.mul_div_le pend 4096)]; lia. }
  unfold PAGE_SIZE in *. rewrite !u32_small by (unfold is_u32, two32 in *; lia). rewrite !Z.div_mul by lia.
  destruct (set_pages_spec (Z.to_nat (last - first)) 0 (first - base) st (set_kernel_lock 1 m))
    as (m' & -> & Hset); try done; try lia; [simpl; lia |].
  cbn [mbind outcome_bind]. exists (release m'). split; [done |].
  rewrite Z.add_0_r, Z2Nat.id in Hset by lia.
  destruct Hset as ((F1 & F2 & F3 & F4 & F5) & Hc' & Hn' & Hr' & Ho'). simpl in *. split.
  - unfold pm_wf, release. destruct Hc' as (?&?&?). unfold counted in Hn'. simpl. rewrite F1, F2, F3 in *.
    split_and!; (done || lia).
  - intros q Hq. case_decide; [apply Hr'; lia | apply Ho'; lia].
Qed.

(** Freeing a range that lies inside of one page and touches neither of its
    ends, which contains no whole page, does not free nothing: the rounded range
    is inverted, the page count wraps around, and the loop clears the bits of
    every following page until it leaves the bitmap. *)
Theorem memory_set_subpage_overruns m base pstart pend : pm_wf m -> memory_offset m = base * PAGE_SIZE ->
  0 <= base -> base * PAGE_SIZE <= pstart -> pstart <= pend -> pend < two32 - PAGE_SIZE ->
  pstart / PAGE_SIZE = pend / PAGE_SIZE -> pstart mod PAGE_SIZE <> 0 -> pend mod PAGE_SIZE <> 0 ->
  Z.of_nat (length (memory_bitmap m)) * BLOCK_BITS < 1048575 ->
  memory_set pstart pend 0 m = Halt BadAccess.
Proof.
  intros Hwf Hoff Hbase Hps Hpe H32 Hsame Hm1 Hm2 Hmap. pose proof Hwf as (_ & _ & _ & _ & _ & Hlock & _).
  unfold memory_set, acquire. rewrite Hlock. cbn [Z.eqb mbind outcome_bind].
  assert (round_up pstart = (pstart / PAGE_SIZE + 1) * PAGE_SIZE) as ->.
  { unfold round_up, page_up. destruct (Z.eqb_spec (pstart mod PAGE_SIZE) 0); [done |].
    apply u32_small. unfold is_u32, two32, PAGE_SIZE in *. pose proof (Z.mul_div_le pstart 4096).
    pose proof (Z.div_pos pstart 4096). lia. }
  assert (round_down pend = pstart / PAGE_SIZE * PAGE_SIZE) as ->.
  { unfold round_down, page_down. destruct (Z.eqb_spec (pend mod PAGE_SIZE) 0); [done |]. by rewrite Hsame. }
  assert (u32 (pstart / PAGE_SIZE * PAGE_SIZE - (pstart / PAGE_SIZE + 1) * PAGE_SIZE) / PAGE_SIZE = 1048575) as ->.
  { replace (pstart / PAGE_SIZE * PAGE_SIZE - (pstart / PAGE_SIZE + 1) * PAGE_SIZE) with (- PAGE_SIZE) by lia. done. }
  set (start := u32 ((pstart / PAGE_SIZE + 1) * PAGE_SIZE - memory_offset m) / PAGE_SIZE).
  assert (0 <= start) as Hstart.
  { unfold start. apply Z.div_pos; [apply u32_range | done]. }
  assert (start < 1048576) as Hs2.
  { unfold start. apply Z.div_lt_upper_bound; [done |]. apply u32_range. }
  assert (forall n i m2, 0 <= i -> length (memory_bitmap m2) = length (memory_bitmap m) ->
    Z.of_nat (length (memory_bitmap m)) * BLOCK_BITS < i + Z.of_nat n -> start + i + Z.of_nat n < 4194304 ->
    i <= Z.of_nat (length (memory_bitmap m)) * BLOCK_BITS ->
    set_pages n i start 0 m2 = Halt BadAccess) as Hover.
  { induction n as [|n IH]; intros i m2 Hi Hl2 Hn Hbig Hil; [lia |]. cbn [set_pages]. unfold set_page. cbn [Z.eqb].
    rewrite u32_small by (unfold is_u32, two32; lia).
    destruct (decide (start + i < Z.of_nat (length (memory_bitmap m)) * BLOCK_BITS)).
    - destruct (UNSET_spec (memory_bitmap m2) (start + i)) as (w' & -> & Hl & _);
        [unfold in_map; rewrite Hl2; lia |].
      cbn [mbind outcome_bind]. apply IH; try lia. destruct (_ =? 1); simpl; by rewrite Hl.
    - unfold UNSET. rewrite aget_oob; [done |]. right. rewrite Hl2. unfold BLOCK_BITS in *.
      apply Z.div_le_lower_bound; lia. }
  rewrite Hover; [done | lia | done | rewrite Z2Nat.id; lia | rewrite Z2Nat.id; lia | ].
  unfold BLOCK_BITS. lia.
Qed.

(** * Addresses of pages *)

(** The managed pages start on a page boundary, not at the null address, and end
    within the address space. *)
Definition mem_ok (m : physmem) : Prop :=
  pm_wf m /\ exists base, memory_offset m = base * PAGE_SIZE /\ 1 <= base /\
  base + memory_pages m <= 1048576.

(** The address of block [b]. *)
Definition frame (m : physmem) (b : Z) : Z := b * PAGE_SIZE + memory_offset m.

Lemma frame_page m b : mem_ok m -> 0 <= b < memory_pages m ->
  exists k, frame m b = k * 4096 /\ 0 < k /\ is_u32 (k * 4096).
Proof.
  intros (Hwf & base & Ho & Hb1 & Hb2) Hb. exists (b + base). unfold frame. rewrite Ho.
  unfold PAGE_SIZE, is_u32, two32. split_and!; lia.
Qed.

(** Forty pages from 1 MB on, the first four in use. *)
Definition sample_physmem : physmem := PhysMem [15; 0] 40 1048576 36 39 0.

Lemma sample_physmem_wf : pm_wf sample_physmem.
Proof. unfold pm_wf, is_u32, two32, BLOCK_BITS. vm_compute. split_and!; congruence || done. Qed.

Lemma memory_alloc_sound_witness : exists ptr m',
  memory_alloc 3 sample_physmem = Ok (ptr, m') /\ pm_wf m'.
Proof.
  destruct (memory_alloc_sound 3 sample_physmem sample_physmem_wf) as (ptr & m' & H1 & H2 & _);
    [unfold two32; lia |].
  exists ptr, m'. auto.
Defined.

Lemma memory_free_checked_witness :
  (exists m', memory_free 2 (u32 (1 * PAGE_SIZE + 1048576)) sample_physmem = Ok m' /\ s_freePages m' = 38) /\
  memory_free 2 (u32 (3 * PAGE_SIZE + 1048576)) sample_physmem = Halt AssertFail.
Proof.
  split.
  - destruct (memory_free_checked 2 1 sample_physmem sample_physmem_wf) as [H _]; try (simpl; lia).
    destruct H as (m' & H1 & _ & _ & _ & H2).
    + intros p Hp. assert (p = 1 \/ p = 2) as [-> | ->] by lia; reflexivity.
    + exists m'. split; [exact H1 | exact H2].
  - destruct (memory_free_checked 2 3 sample_physmem sample_physmem_wf) as [_ H]; try (simpl; lia).
    apply (H 4); [lia | reflexivity].
Defined.

Lemma memory_set_rounds_witness : exists m',
  memory_set (1048576 + 5000) (1048576 + 9000) 1 sample_physmem = Ok m' /\ pm_wf m'.
Proof.
  destruct (memory_set_rounds sample_physmem 256 (1048576 + 5000) (1048576 + 9000) 1 sample_physmem_wf)
    as (m' & H1 & H2 & _);
    [reflexivity | lia | vm_compute; congruence | lia | vm_compute; congruence | vm_compute; congruence
    | vm_compute; congruence |].
  exists m'. auto.
Defined.

Lemma memory_set_subpage_overruns_witness :
  memory_set (1048576 + 5000) (1048576 + 6000) 0 sample_physmem = Halt BadAccess.
Proof.
  apply (memory_set_subpage_overruns sample_physmem 256);
    [exact sample_physmem_wf | reflexivity | lia | vm_compute; congruence | lia | vm_compute; congruence
    | vm_compute; congruence | vm_compute; congruence | vm_compute; congruence | vm_compute; congruence].
Defined.

(** The search for several pages can miss a free run: with the search starting
    near the end of the managed memory, the pages skipped for not wrapping around
    are also skipped at the start, so three free pages at the very start are not
    found although more pages are free than requested. *)
Theorem memory_alloc_misses_run :
  let m := PhysMem [4294967128] 8 0 5 7 0 in
  pm_wf m /\ run_of (memory_bitmap m) 0 3 false /\ memory_alloc 3 m = Ok (NULL, m).
Proof.
  split; [|split; [|reflexivity]].
  - unfold pm_wf, is_u32, two32, BLOCK_BITS. vm_compute. split_and!; congruence || done.
  - intros p Hp. assert (p = 0 \/ p = 1 \/ p = 2) as [-> | [-> | ->]] by lia; reflexivity.
Qed.
