(* ===== verification/LibAlloc.v ===== *)
(** The kernel's heap (mm/liballoc.c and its hooks): major blocks of pages taken
    from the physical page allocator, each with a list of sections that were
    handed out.  The two kinds of headers are typed heaps of doubly linked
    nodes.  HeapRep.v relates them to lists of blocks and sections; Heap.v holds
    the theorems. *)
From S2P Require Import Prelude Mm Dll PhysMem.

Definition ALIGNMENT : Z := 4.
Definition ALIGN_INFO : Z := 2.
Definition LIBALLOC_MAGIC : Z := 0xc001c0de.
Definition LIBALLOC_DEAD : Z := 0xdeaddead.
Definition l_pageSize : Z := 4096.
Definition l_pageCount : Z := 16.

(** [sizeof( struct liballoc_major )] and [sizeof( struct liballoc_minor )]. *)
Definition MAJOR : Z := 24.
Definition MINOR : Z := 24.

Record major := Major {
  prev : Z; next : Z; pages : Z; size : Z; usage : Z; first : Z
}.
Record minor := Minor {
  mprev : Z; mnext : Z; block : Z; magic : Z; msize : Z; req_size : Z
}.

Definition set_prev (v : Z) (m : major) : major := Major v (next m) (pages m) (size m) (usage m) (first m).
Definition set_next (v : Z) (m : major) : major := Major (prev m) v (pages m) (size m) (usage m) (first m).
Definition set_usage (v : Z) (m : major) : major := Major (prev m) (next m) (pages m) (size m) v (first m).
Definition set_first (v : Z) (m : major) : major := Major (prev m) (next m) (pages m) (size m) (usage m) v.
Definition set_mprev (v : Z) (m : minor) : minor := Minor v (mnext m) (block m) (magic m) (msize m) (req_size m).
Definition set_mnext (v : Z) (m : minor) : minor := Minor (mprev m) v (block m) (magic m) (msize m) (req_size m).
Definition set_magic (v : Z) (m : minor) : minor := Minor (mprev m) (mnext m) (block m) v (msize m) (req_size m).
Definition set_req (v : Z) (m : minor) : minor := Minor (mprev m) (mnext m) (block m) (magic m) (msize m) v.

(** The static variables of liballoc.c, the headers by address, the alignment
    information stored in front of the pointers handed out, the bytes of the
    sections, and the page allocator. *)
Record liballoc := LibAlloc {
  l_memRoot : Z;
  l_bestBet : Z;
  majors : gmap Z major;
  minors : gmap Z minor;
  infos : gmap Z Z;
  data : gmap Z Z;
  l_allocated : Z;
  l_inuse : Z;
  l_warningCount : Z;
  l_errorCount : Z;
  l_possibleOverruns : Z;
  liballoc_spinlock : Z;
  phys : physmem
}.

Definition set_memRoot v (x : liballoc) := LibAlloc v (l_bestBet x) (majors x) (minors x) (infos x) (data x)
  (l_allocated x) (l_inuse x) (l_warningCount x) (l_errorCount x) (l_possibleOverruns x) (liballoc_spinlock x) (phys x).
Definition set_bestBet v (x : liballoc) := LibAlloc (l_memRoot x) v (majors x) (minors x) (infos x) (data x)
  (l_allocated x) (l_inuse x) (l_warningCount x) (l_errorCount x) (l_possibleOverruns x) (liballoc_spinlock x) (phys x).
Definition set_majors v (x : liballoc) := LibAlloc (l_memRoot x) (l_bestBet x) v (minors x) (infos x) (data x)
  (l_allocated x) (l_inuse x) (l_warningCount x) (l_errorCount x) (l_possibleOverruns x) (liballoc_spinlock x) (phys x).
Definition set_minors v (x : liballoc) := LibAlloc (l_memRoot x) (l_bestBet x) (majors x) v (infos x) (data x)
  (l_allocated x) (l_inuse x) (l_warningCount x) (l_errorCount x) (l_possibleOverruns x) (liballoc_spinlock x) (phys x).
Definition set_infos v (x : liballoc) := LibAlloc (l_memRoot x) (l_bestBet x) (majors x) (minors x) v (data x)
  (l_allocated x) (l_inuse x) (l_warningCount x) (l_errorCount x) (l_possibleOverruns x) (liballoc_spinlock x) (phys x).
Definition set_data v (x : liballoc) := LibAlloc (l_memRoot x) (l_bestBet x) (majors x) (minors x) (infos x) v
  (l_allocated x) (l_inuse x) (l_warningCount x) (l_errorCount x) (l_possibleOverruns x) (liballoc_spinlock x) (phys x).
Definition set_allocated v (x : liballoc) := LibAlloc (l_memRoot x) (l_bestBet x) (majors x) (minors x) (infos x) (data x)
  v (l_inuse x) (l_warningCount x) (l_errorCount x) (l_possibleOverruns x) (liballoc_spinlock x) (phys x).
Definition set_inuse v (x : liballoc) := LibAlloc (l_memRoot x) (l_bestBet x) (majors x) (minors x) (infos x) (data x)
  (l_allocated x) v (l_warningCount x) (l_errorCount x) (l_possibleOverruns x) (liballoc_spinlock x) (phys x).
Definition set_warnings v (x : liballoc) := LibAlloc (l_memRoot x) (l_bestBet x) (majors x) (minors x) (infos x) (data x)
  (l_allocated x) (l_inuse x) v (l_errorCount x) (l_possibleOverruns x) (liballoc_spinlock x) (phys x).
Definition set_errors v (x : liballoc) := LibAlloc (l_memRoot x) (l_bestBet x) (majors x) (minors x) (infos x) (data x)
  (l_allocated x) (l_inuse x) (l_warningCount x) v (l_possibleOverruns x) (liballoc_spinlock x) (phys x).
Definition set_overruns v (x : liballoc) := LibAlloc (l_memRoot x) (l_bestBet x) (majors x) (minors x) (infos x) (data x)
  (l_allocated x) (l_inuse x) (l_warningCount x) (l_errorCount x) v (liballoc_spinlock x) (phys x).
Definition set_lock v (x : liballoc) := LibAlloc (l_memRoot x) (l_bestBet x) (majors x) (minors x) (infos x) (data x)
  (l_allocated x) (l_inuse x) (l_warningCount x) (l_errorCount x) (l_possibleOverruns x) v (phys x).
Definition set_phys v (x : liballoc) := LibAlloc (l_memRoot x) (l_bestBet x) (majors x) (minors x) (infos x) (data x)
  (l_allocated x) (l_inuse x) (l_warningCount x) (l_errorCount x) (l_possibleOverruns x) (liballoc_spinlock x) v.

Notation K := (M liballoc).

(** [long long] *)
Definition s64 (z : Z) : Z := (z + 2 ^ 63) mod 2 ^ 64 - 2 ^ 63.

(** The hooks. *)
Definition liballoc_lock : K unit :=
  s ← getS;
  if liballoc_spinlock s =? 0 then modifyS (set_lock 1) else liftO (Halt Spin).
Definition liballoc_unlock : K unit := modifyS (set_lock 0).
Definition liballoc_alloc (pages : Z) : K Z :=
  s ← getS; '(ptr, m) ← liftO (memory_alloc pages (phys s)); modifyS (set_phys m) ;; mret ptr.
Definition liballoc_free (ptr pages : Z) : K unit :=
  s ← getS; m ← liftO (memory_free pages ptr (phys s)); modifyS (set_phys m).

(** Access to the headers. *)
Definition get_maj (a : Z) : K major := s ← getS; liftO (hload (majors s) a).
Definition upd_maj (a : Z) (f : major -> major) : K unit :=
  s ← getS; m ← liftO (hload (majors s) a); modifyS (set_majors (<[a := f m]> (majors s))).
Definition get_min (a : Z) : K minor := s ← getS; liftO (hload (minors s) a).
Definition upd_min (a : Z) (f : minor -> minor) : K unit :=
  s ← getS; m ← liftO (hload (minors s) a); modifyS (set_minors (<[a := f m]> (minors s))).

(** The objects of [width] bytes that the memory from [lo] to [hi] held are gone
    when it is put to another use. *)
Definition overlaps (width lo hi a : Z) : Prop := a < hi /\ lo < a + width.
#[export] Instance overlaps_dec width lo hi a : Decision (overlaps width lo hi a).
Proof. unfold overlaps. apply _. Defined.
Definition scrub {A} (width lo hi : Z) (h : gmap Z A) : gmap Z A :=
  filter (fun kx => ~ overlaps width lo hi kx.1) h.

(** The header of a new section at [a]. *)
Definition new_minor (a : Z) (m : minor) : K unit :=
  modifyS (fun s =>
    set_infos (scrub ALIGN_INFO a (a + MINOR + msize m) (infos s))
      (set_minors (<[a := m]> (scrub MINOR a (a + MINOR + msize m) (minors s))) s)).

(** The macros [ALIGN] and [UNALIGN]. *)
Definition ALIGN (ptr : Z) : K Z :=
  let ptr := u32 (ptr + ALIGN_INFO) in
  let diff := Z.land ptr (ALIGNMENT - 1) in
  let '(ptr, diff) := if negb (diff =? 0) then (u32 (ptr + (ALIGNMENT - diff)), ALIGNMENT - diff) else (ptr, diff) in
  modifyS (fun s => set_infos (<[u32 (ptr - ALIGN_INFO) := diff + ALIGN_INFO]> (infos s)) s) ;;
  mret ptr.

Definition UNALIGN (ptr : Z) : K Z :=
  s ← getS;
  diff ← liftO (hload (infos s) (u32 (ptr - ALIGN_INFO)));
  mret (if diff <? ALIGNMENT + ALIGN_INFO then u32 (ptr - diff) else ptr).

(** [liballoc_memset] and [liballoc_memcpy]; a byte that was never written is
    copied as such. *)
Definition move_byte (h h' : gmap Z Z) (d s : Z) : gmap Z Z := partial_alter (fun _ => h !! s) d h'.

Fixpoint memset_loop (n : nat) (i s c : Z) (h : gmap Z Z) : gmap Z Z :=
  match n with O => h | S n => memset_loop n (i + 1) s c (<[u32 (s + i) := c]> h) end.
Definition liballoc_memset (s c n : Z) : K Z :=
  if (s =? NULL) && (0 <? n) then liftO (Halt NullDeref)
  else modifyS (fun x => set_data (memset_loop (Z.to_nat n) 0 s c (data x)) x) ;; mret s.

Fixpoint memcpy_words (n : nat) (d s : Z) (h : gmap Z Z) : gmap Z Z :=
  match n with
  | O => h
  | S n =>
      memcpy_words n (u32 (d + 4)) (u32 (s + 4))
        (move_byte h (move_byte h (move_byte h (move_byte h h d s) (u32 (d + 1)) (u32 (s + 1)))
           (u32 (d + 2)) (u32 (s + 2))) (u32 (d + 3)) (u32 (s + 3)))
  end.
Fixpoint memcpy_bytes (n : nat) (d s : Z) (h : gmap Z Z) : gmap Z Z :=
  match n with O => h | S n => memcpy_bytes n (u32 (d + 1)) (u32 (s + 1)) (move_byte h h d s) end.
Definition liballoc_memcpy (s1 s2 n : Z) : K Z :=
  if ((s1 =? NULL) || (s2 =? NULL)) && (0 <? n) then liftO (Halt NullDeref)
  else
    modifyS (fun x => set_data (memcpy_bytes (Z.to_nat (n mod 4)) (u32 (s1 + n / 4 * 4)) (u32 (s2 + n / 4 * 4))
      (memcpy_words (Z.to_nat (n / 4)) s1 s2 (data x))) x) ;;
    mret s1.

(** The pages that a block for [size] bytes takes. *)
Definition pages_for (size : Z) : Z :=
  let st := u32 (u32 (size + MAJOR) + MINOR) in
  let st := if st mod l_pageSize =? 0 then st / l_pageSize else st / l_pageSize + 1 in
  if st <? l_pageCount then l_pageCount else st.

Definition allocate_new_page (sz : Z) : K Z :=
  let st := pages_for sz in
  maj ← liballoc_alloc st;
  if maj =? NULL then
    modifyS (fun s => set_warnings (s64 (l_warningCount s + 1)) s) ;; mret NULL
  else
    let m := Major NULL NULL st (u32 (st * l_pageSize)) MAJOR NULL in
    modifyS (fun s => set_majors (<[maj := m]> (majors s)) s) ;;
    modifyS (fun s => set_allocated (s64 (l_allocated s + size m)) s) ;;
    mret maj.

(** What every case does once the header is linked in: [maj->usage] and
    [l_inuse] grow, and the pointer behind the header is aligned. *)
Definition hand_out (maj min sz : Z) : K Z :=
  upd_maj maj (fun m => set_usage (u32 (usage m + u32 (sz + MINOR))) m) ;;
  modifyS (fun s => set_inuse (s64 (l_inuse s + sz)) s) ;;
  ALIGN (u32 (min + MINOR)).

(** The loop of case 4 over the sections of a block. *)
Fixpoint section_loop (fuel : nat) (maj min sz req : Z) : K (option Z) :=
  match fuel with
  | O => liftO (Halt Spin)
  | S fuel =>
      if min =? NULL then mret None
      else
        m ← get_min min;
        let next_min := u32 (u32 (min + MINOR) + msize m) in
        if mnext m =? NULL then
          mj ← get_maj maj;
          let diff := u32 (u32 (u32 (u32 (maj + size mj) - min) - MINOR) - msize m) in
          if u32 (sz + MINOR) <=? diff then
            upd_min min (set_mnext next_min) ;;
            new_minor next_min (Minor min NULL maj LIBALLOC_MAGIC sz req) ;;
            p ← hand_out maj next_min sz;
            mret (Some p)
          else section_loop fuel maj (mnext m) sz req
        else
          let diff := u32 (u32 (u32 (mnext m - min) - MINOR) - msize m) in
          if u32 (sz + MINOR) <=? diff then
            new_minor next_min (Minor min (mnext m) maj LIBALLOC_MAGIC sz req) ;;
            upd_min (mnext m) (set_mprev next_min) ;;
            upd_min min (set_mnext next_min) ;;
            p ← hand_out maj next_min sz;
            mret (Some p)
          else section_loop fuel maj (mnext m) sz req
  end.

(** Cases 2, 3 and 4 on one block: the pointer, if a section fits.  A block has
    fewer sections than bytes. *)
Definition place (maj sz req : Z) : K (option Z) :=
  mj ← get_maj maj;
  let base := u32 (maj + MAJOR) in
  if first mj =? NULL then
    upd_maj maj (set_first base) ;;
    new_minor base (Minor NULL NULL maj LIBALLOC_MAGIC sz req) ;;
    p ← hand_out maj base sz;
    mret (Some p)
  else
    let diff := u32 (u32 (first mj - maj) - MAJOR) in
    if u32 (sz + MINOR) <=? diff then
      upd_min (first mj) (set_mprev base) ;;
      new_minor base (Minor NULL (first mj) maj LIBALLOC_MAGIC sz req) ;;
      upd_maj maj (set_first base) ;;
      p ← hand_out maj base sz;
      mret (Some p)
    else section_loop (S (Z.to_nat (size mj))) maj (first mj) sz req.

(** A new block behind the last one. *)
Definition append_block (maj sz : Z) : K Z :=
  new ← allocate_new_page sz;
  upd_maj maj (set_next new) ;;
  (if new =? NULL then mret tt else upd_maj new (set_prev maj)) ;;
  mret new.

(** How case 1 leaves the round. *)
Inductive step :=
  | Continue (maj startedBet : Z)
  | Break
  | Proceed (maj : Z).

(** Case 1 *)
Definition case1 (maj startedBet diff sz : Z) (mj : major) : K step :=
  if diff <? u32 (sz + MINOR) then
    if negb (next mj =? NULL) then mret (Continue (next mj) startedBet)
    else if startedBet =? 1 then s ← getS; mret (Continue (l_memRoot s) 0)
    else
      new ← append_block maj sz;
      mret (if new =? NULL then Break else Proceed new)
  else mret (Proceed maj).

(** The loop of [malloc] over the blocks. *)
Fixpoint block_loop (fuel : nat) (maj startedBet bestSize sz req : Z) : K Z :=
  match fuel with
  | O => liftO (Halt Spin)
  | S fuel =>
      if maj =? NULL then mret NULL
      else
        mj ← get_maj maj;
        let diff := u32 (size mj - usage mj) in
        bestSize ← (if bestSize <? diff then modifyS (set_bestBet maj) ;; mret diff else mret bestSize);
        st ← case1 maj startedBet diff sz mj;
        match st with
        | Continue maj startedBet => block_loop fuel maj startedBet bestSize sz req
        | Break => mret NULL
        | Proceed maj =>
            r ← place maj sz req;
            match (r : option Z) with
            | Some p => mret p
            | None =>
                mj ← get_maj maj;
                if next mj =? NULL then
                  if startedBet =? 1 then s ← getS; block_loop fuel (l_memRoot s) 0 bestSize sz req
                  else
                    new ← append_block maj sz;
                    if new =? NULL then mret NULL else block_loop fuel new startedBet bestSize sz req
                else block_loop fuel (next mj) startedBet bestSize sz req
            end
        end
  end.

(** [malloc] for a size that is not 0 once the alignment is added. *)
Definition malloc_sized (req sz : Z) : K Z :=
  s ← getS;
  root ← (if l_memRoot s =? NULL then
            new ← allocate_new_page sz;
            modifyS (set_memRoot new) ;; mret new
          else mret (l_memRoot s));
  if root =? NULL then liballoc_unlock ;; mret NULL
  else
    s ← getS;
    '(maj, startedBet, bestSize) ←
      (if negb (l_bestBet s =? NULL) then
         b ← get_maj (l_bestBet s);
         let bestSize := u32 (size b - usage b) in
         mret (if u32 (sz + MINOR) <? bestSize then (l_bestBet s, 1, bestSize) else (l_memRoot s, 0, bestSize))
       else mret (l_memRoot s, 0, 0));
    p ← block_loop (4 + 2 * length (map_to_list (majors s))) maj startedBet bestSize sz req;
    liballoc_unlock ;;
    mret p.

Definition malloc (req_size : Z) : K Z :=
  let sz := u32 (req_size + (ALIGNMENT + ALIGN_INFO)) in
  liballoc_lock ;;
  if sz =? 0 then
    modifyS (fun s => set_warnings (s64 (l_warningCount s + 1)) s) ;;
    liballoc_unlock ;;
    liballoc_lock ;;
    malloc_sized 1 (1 + (ALIGNMENT + ALIGN_INFO))
  else malloc_sized req_size sz.

(** The counters of a header with a bad magic number. *)
Definition bad_magic (m : minor) : K unit :=
  modifyS (fun s => set_errors (s64 (l_errorCount s + 1)) s) ;;
  if (Z.land (magic m) 0xFFFFFF =? Z.land LIBALLOC_MAGIC 0xFFFFFF) ||
     (Z.land (magic m) 0xFFFF =? Z.land LIBALLOC_MAGIC 0xFFFF) ||
     (Z.land (magic m) 0xFF =? Z.land LIBALLOC_MAGIC 0xFF)
  then modifyS (fun s => set_overruns (s64 (l_possibleOverruns s + 1)) s)
  else mret tt.

(** The end of [free]: an empty block goes back to the page allocator; otherwise
    the block may become the best bet. *)
Definition release_block (maj : Z) : K unit :=
  mj ← get_maj maj;
  s ← getS;
  (if l_memRoot s =? maj then modifyS (set_memRoot (next mj)) else mret tt) ;;
  (if l_bestBet s =? maj then modifyS (set_bestBet NULL) else mret tt) ;;
  (if negb (prev mj =? NULL) then upd_maj (prev mj) (set_next (next mj)) else mret tt) ;;
  (if negb (next mj =? NULL) then upd_maj (next mj) (set_prev (prev mj)) else mret tt) ;;
  modifyS (fun s => set_allocated (s64 (l_allocated s - size mj)) s) ;;
  liballoc_free maj (pages mj) ;;
  modifyS (fun s => set_majors (delete maj (majors s))
    (set_minors (scrub MINOR maj (maj + size mj) (minors s))
      (set_infos (scrub ALIGN_INFO maj (maj + size mj) (infos s)) s))).

Definition better_bet (maj : Z) : K unit :=
  s ← getS;
  if negb (l_bestBet s =? NULL) then
    b ← get_maj (l_bestBet s);
    mj ← get_maj maj;
    let bestSize := s32 (size b - usage b) in
    let majSize := s32 (size mj - usage mj) in
    if bestSize <? majSize then modifyS (set_bestBet maj) else mret tt
  else mret tt.

(** The section [min] leaves its block. *)
Definition unlink_minor (min maj : Z) (m : minor) : K unit :=
  modifyS (fun s => set_inuse (s64 (l_inuse s - msize m)) s) ;;
  upd_maj maj (fun mj => set_usage (u32 (usage mj - u32 (msize m + MINOR))) mj) ;;
  upd_min min (set_magic LIBALLOC_DEAD) ;;
  (if negb (mnext m =? NULL) then upd_min (mnext m) (set_mprev (mprev m)) else mret tt) ;;
  (if negb (mprev m =? NULL) then upd_min (mprev m) (set_mnext (mnext m)) else mret tt) ;;
  (if mprev m =? NULL then upd_maj maj (set_first (mnext m)) else mret tt).

Definition free (ptr : Z) : K unit :=
  if ptr =? NULL then modifyS (fun s => set_warnings (s64 (l_warningCount s + 1)) s)
  else
    ptr ← UNALIGN ptr;
    liballoc_lock ;;
    let min := u32 (ptr - MINOR) in
    m ← get_min min;
    (if negb (magic m =? LIBALLOC_MAGIC) then bad_magic m
     else
       let maj := block m in
       unlink_minor min maj m ;;
       mj ← get_maj maj;
       if first mj =? NULL then release_block maj else better_bet maj) ;;
    liballoc_unlock.

Definition calloc (nobj size : Z) : K Z :=
  let real_size := s32 (nobj * size) in
  p ← malloc (u32 real_size);
  liballoc_memset p 0 (u32 real_size) ;;
  mret p.

Definition realloc (p size : Z) : K Z :=
  if size =? 0 then free p ;; mret NULL
  else if p =? NULL then malloc size
  else
    ptr ← UNALIGN p;
    liballoc_lock ;;
    let min := u32 (ptr - MINOR) in
    m ← get_min min;
    if negb (magic m =? LIBALLOC_MAGIC) then bad_magic m ;; liballoc_unlock ;; mret NULL
    else
      let real_size := s32 (req_size m) in
      if size <=? u32 real_size then
        upd_min min (set_req size) ;; liballoc_unlock ;; mret p
      else
        liballoc_unlock ;;
        ptr ← malloc size;
        liballoc_memcpy ptr p (u32 real_size) ;;
        free p ;;
        mret ptr.

