(* ===== verification/HeapRep.v ===== *)
(** The representation of the kernel's heap (LibAlloc.v): its headers are a list
    of blocks, each a list of sections, and what every operation does to them. *)
From S2P Require Import Prelude Mm Dll PhysMem LibAlloc.

(** * The blocks and sections as lists *)

#[export] Instance major_node : DNode (Z * Z * Z * Z) major := {
  mk_node p n x := let '(pg, sz, us, fi) := x in Major p n pg sz us fi;
  with_prev := set_prev;
  with_next := set_next;
  with_prev_mk v p n x := match x with (_, _, _, _) => eq_refl end;
  with_next_mk v p n x := match x with (_, _, _, _) => eq_refl end;
}.

#[export] Instance minor_node : DNode (Z * Z * Z * Z) minor := {
  mk_node p n x := let '(bl, mg, sz, rq) := x in Minor p n bl mg sz rq;
  with_prev := set_mprev;
  with_next := set_mnext;
  with_prev_mk v p n x := match x with (_, _, _, _) => eq_refl end;
  with_next_mk v p n x := match x with (_, _, _, _) => eq_refl end;
}.

(** A section: the address of its header, its size and the size asked for. *)
Record section := Section_ { s_at : Z; s_size : Z; s_req : Z }.
#[export] Instance section_eq_dec : EqDecision section.
Proof. solve_decision. Defined.
(** A block: its address, its pages and its sections. *)
Record blk := Blk { b_at : Z; b_pages : Z; b_secs : list section }.
#[export] Instance blk_eq_dec : EqDecision blk.
Proof. solve_decision. Defined.

Definition b_end (b : blk) : Z := b_at b + b_pages b * 4096.
Definition s_end (x : section) : Z := s_at x + MINOR + s_size x.

Definition sec_node (b : Z) (x : section) : Z * (Z * Z * Z * Z) := (s_at x, (b, LIBALLOC_MAGIC, s_size x, s_req x)).
Definition sec_nodes (b : blk) : list (Z * (Z * Z * Z * Z)) := map (sec_node (b_at b)) (b_secs b).
Definition secs_usage (l : list section) : Z := foldr (fun x n => s_size x + MINOR + n) MAJOR l.
Definition first_sec (l : list section) : Z := match l with [] => NULL | x :: _ => s_at x end.
Definition blk_node (b : blk) : Z * (Z * Z * Z * Z) :=
  (b_at b, (b_pages b, b_pages b * 4096, secs_usage (b_secs b), first_sec (b_secs b))).

(** The sections lie one behind the other between [lo] and [hi]. *)
Fixpoint layout (lo : Z) (l : list section) (hi : Z) : Prop :=
  match l with
  | [] => lo <= hi
  | x :: l => lo <= s_at x /\ 0 <= s_size x /\ layout (s_end x) l hi
  end.

(** The pointer that [ALIGN] makes of [p]. *)
Definition aligned (p : Z) : Z := p + 2 + (- (p + 2)) mod 4.

(** The pointer of a section, and the memory that belongs to the caller. *)
Definition s_ptr (x : section) : Z := aligned (s_at x + MINOR).

Definition extent (b : blk) : Z * Z := (b_at b, b_end b).
Definition apart (p q : Z * Z) : Prop := p.2 <= q.1 \/ q.2 <= p.1.

(** A block is consistent: its pages are in use and no other block's, and its
    sections fit into it. *)
Record blk_ok (s : liballoc) (b : blk) : Prop := {
  blk_pages : exists k, b_at b = frame (phys s) k /\ 0 <= k /\ 0 < b_pages b /\ k + b_pages b <= memory_pages (phys s) /\
    run_of (memory_bitmap (phys s)) k (b_pages b) true;
  blk_layout : layout (b_at b + MAJOR) (b_secs b) (b_end b);
  blk_secs : seg (minors s) NULL (sec_nodes b) NULL;
  blk_infos : forall x, x ∈ b_secs b -> infos s !! (s_ptr x - 2) = Some (s_ptr x - (s_at x + MINOR));
  blk_sizes : forall x, x ∈ b_secs b -> s_req x <= s_size x - (ALIGNMENT + ALIGN_INFO) /\ 0 <= s_req x
}.

(** The heap holds the blocks [bs]. *)
Record rep (s : liballoc) (bs : list blk) : Prop := {
  rep_mem : mem_ok (phys s);
  rep_root : l_memRoot s = head_or NULL (map blk_node bs);
  rep_majors : seg (majors s) NULL (map blk_node bs) NULL;
  rep_blocks : forall b, b ∈ bs -> blk_ok s b;
  rep_apart : forall i j p q, map extent bs !! i = Some p -> map extent bs !! j = Some q -> i <> j -> apart p q;
  rep_bet : l_bestBet s = NULL \/ l_bestBet s ∈ map b_at bs;
  rep_live : forall a m, minors s !! a = Some m -> magic m = LIBALLOC_MAGIC ->
    exists b x, b ∈ bs /\ x ∈ b_secs b /\ s_at x = a
}.

Definition unlocked (s : liballoc) : Prop := liballoc_spinlock s = 0.

(** ** Arithmetic of sections and blocks *)

Lemma aligned_spec p : 0 <= p -> p + 5 < two32 ->
  aligned p mod 4 = 0 /\ p + 2 <= aligned p <= p + 5.
Proof.
  intros Hp Hp2. unfold aligned. pose proof (Z.mod_pos_bound (- (p + 2)) 4 ltac:(lia)). split; [|lia].
  rewrite Zplus_mod_idemp_r. replace (p + 2 + - (p + 2)) with 0 by lia. done.
Qed.

Lemma layout_bounds lo l hi x : layout lo l hi -> x ∈ l ->
  lo <= s_at x /\ 0 <= s_size x /\ s_end x <= hi.
Proof.
  revert lo. induction l as [|y l IH]; intros lo Hl Hx; [by apply not_elem_of_nil in Hx |]. simpl in Hl.
  destruct Hl as (H1 & H2 & H3). assert (s_end y <= hi) as Hle.
  { clear IH Hx. revert H3. generalize (s_end y). induction l as [|z l IH]; intros e; simpl; [done |].
    intros (A1 & A2 & A3). apply IH in A3. unfold s_end, MINOR in *. lia. }
  apply elem_of_cons in Hx as [->|Hx]; [done |]. apply (IH _ H3) in Hx as (?&?&?). unfold s_end, MINOR in *. lia.
Qed.

Lemma layout_le lo l hi : layout lo l hi -> lo <= hi.
Proof.
  revert lo. induction l as [|z l IH]; intros e; simpl; [done |].
  intros (A1 & A2 & A3). apply IH in A3. unfold s_end, MINOR in *. lia.
Qed.

Definition last_end (lo : Z) (l : list section) : Z := match last l with Some x => s_end x | None => lo end.

Lemma last_end_cons lo x l : last_end lo (x :: l) = last_end (s_end x) l.
Proof.
  unfold last_end. change (x :: l) with ([x] ++ l). rewrite last_app. by destruct (last l).
Qed.

Lemma layout_app lo l1 l2 hi : layout lo (l1 ++ l2) hi <-> layout lo l1 (last_end lo l1) /\ layout (last_end lo l1) l2 hi.
Proof.
  revert lo. induction l1 as [|x l1 IH]; intros lo; simpl.
  { unfold last_end. simpl. split; [intros H; split; [lia | done] | by intros []]. }
  rewrite last_end_cons, IH. tauto.
Qed.

Lemma secs_usage_bound lo l hi : layout lo l hi -> secs_usage l - MAJOR <= hi - lo.
Proof.
  revert lo. induction l as [|x l IH]; intros lo; simpl; [unfold MAJOR; lia |].
  intros (H1 & H2 & H3). apply IH in H3. unfold s_end in *. lia.
Qed.

Lemma secs_usage_app l1 l2 : secs_usage (l1 ++ l2) = secs_usage l1 + secs_usage l2 - MAJOR.
Proof. induction l1 as [|x l1 IH]; simpl; [lia |]. rewrite IH. lia. Qed.

Lemma secs_usage_pos lo l hi : layout lo l hi -> MAJOR <= secs_usage l.
Proof.
  revert lo. induction l as [|x l IH]; intros lo; simpl; [lia |].
  intros (H1 & H2 & H3). apply IH in H3. unfold MINOR. lia.
Qed.

Lemma layout_count lo l hi : layout lo l hi -> MINOR * Z.of_nat (length l) <= hi - lo.
Proof.
  revert lo. induction l as [|x l IH]; intros lo; simpl length; [simpl; unfold MINOR; lia |].
  intros (H1 & H2 & H3). apply IH in H3. unfold s_end, MINOR in *. lia.
Qed.

Lemma layout_nodup lo l hi : layout lo l hi -> NoDup (map s_at l).
Proof.
  revert lo. induction l as [|x l IH]; intros lo; simpl; [constructor |].
  intros (H1 & H2 & H3). constructor; [|by eapply IH]. intros Hin.
  apply list_elem_of_fmap in Hin as (y & Ey & Hy). apply (layout_bounds _ _ _ _ H3) in Hy as (?&?&?).
  unfold s_end, MINOR in *. lia.
Qed.

(** ** The parts of a consistent heap *)

Lemma blk_ok_range s b : mem_ok (phys s) -> blk_ok s b ->
  4096 <= b_at b /\ b_at b + 4096 <= b_end b /\ b_end b <= two32 /\ 0 < b_pages b.
Proof.
  intros (Hpm & base & Ho & Hb1 & Hb2) [(k & Ek & Hk & Hp & Hkp & _) _ _ _ _]. unfold b_end. rewrite Ek.
  unfold frame. rewrite Ho. unfold PAGE_SIZE, two32. split_and!; lia.
Qed.

Lemma rep_range s bs b : rep s bs -> b ∈ bs -> 4096 <= b_at b /\ b_at b + 4096 <= b_end b /\ b_end b <= two32 /\ 0 < b_pages b.
Proof. intros Hr Hb. apply (blk_ok_range s b); [apply Hr | by apply (rep_blocks _ _ Hr)]. Qed.

Lemma extent_elem bs i p : map extent bs !! i = Some p -> exists b, b ∈ bs /\ p = extent b.
Proof.
  intros H. apply list_elem_of_lookup_2, list_elem_of_fmap in H as (b & -> & Hb). by exists b.
Qed.

Lemma rep_nodup s bs : rep s bs -> NoDup (map b_at bs).
Proof.
  intros Hr. apply NoDup_alt. intros i j a Hi Hj. destruct (decide (i = j)) as [|Hne]; [done |].
  rewrite list_lookup_fmap in Hi, Hj. apply fmap_Some in Hi as (b & Hi & ->). apply fmap_Some in Hj as (c & Hj & Ej).
  pose proof (rep_range s bs b Hr ltac:(by eapply list_elem_of_lookup_2)).
  pose proof (rep_range s bs c Hr ltac:(by eapply list_elem_of_lookup_2)).
  assert (apart (extent b) (extent c)) as Ha.
  { apply (rep_apart _ _ Hr i j); [..|done]; rewrite list_lookup_fmap; [by rewrite Hi | by rewrite Hj]. }
  unfold apart, extent in Ha. simpl in Ha. lia.
Qed.

Lemma rep_apart2 s bs1 b bs2 c : rep s (bs1 ++ b :: bs2) -> c ∈ bs1 ++ bs2 -> apart (extent b) (extent c).
Proof.
  intros Hr Hc. apply list_elem_of_lookup_1 in Hc as [i Hi].
  assert (exists j, (bs1 ++ b :: bs2) !! j = Some c /\ j <> length bs1) as (j & Hj & Hne).
  { apply lookup_app_Some in Hi as [Hi|[Hle Hi]].
    - exists i. split; [by apply lookup_app_l_Some |]. apply lookup_lt_Some in Hi. lia.
    - exists (S i). split; [|lia]. rewrite lookup_app_r by lia.
      replace (S i - length bs1)%nat with (S (i - length bs1)) by lia. done. }
  apply (rep_apart _ _ Hr (length bs1) j); rewrite ?list_lookup_fmap; [|by rewrite Hj | done].
  by rewrite list_lookup_middle.
Qed.

Lemma map_blk_at bs : (map blk_node bs).*1 = map b_at bs.
Proof. induction bs as [|b bs IH]; [done |]. simpl. f_equal. exact IH. Qed.

Lemma map_sec_at b : (sec_nodes b).*1 = map s_at (b_secs b).
Proof. unfold sec_nodes. induction (b_secs b) as [|x l IH]; [done |]. simpl. f_equal. exact IH. Qed.

(** The header of a section is where the lists say. *)
Lemma sec_lookup s b l1 x l2 : blk_ok s b -> b_secs b = l1 ++ x :: l2 ->
  minors s !! s_at x = Some (Minor (last_or NULL (map (sec_node (b_at b)) l1)) (head_or NULL (map (sec_node (b_at b)) l2))
    (b_at b) LIBALLOC_MAGIC (s_size x) (s_req x)).
Proof.
  intros Hb E. pose proof (blk_secs _ _ Hb) as Hs. unfold sec_nodes in Hs. rewrite E, map_app in Hs. simpl in Hs.
  apply seg_lookup in Hs. exact Hs.
Qed.

Lemma blk_lookup s bs1 b bs2 : rep s (bs1 ++ b :: bs2) ->
  majors s !! b_at b = Some (Major (last_or NULL (map blk_node bs1)) (head_or NULL (map blk_node bs2))
    (b_pages b) (b_pages b * 4096) (secs_usage (b_secs b)) (first_sec (b_secs b))).
Proof.
  intros Hr. pose proof (rep_majors _ _ Hr) as Hs. rewrite map_app in Hs. simpl in Hs.
  apply seg_lookup in Hs. exact Hs.
Qed.

Lemma sec_in_block s b x : blk_ok s b -> x ∈ b_secs b ->
  b_at b + MAJOR <= s_at x /\ ALIGNMENT + ALIGN_INFO <= s_size x /\ s_end x <= b_end b.
Proof.
  intros Hb Hx. destruct (layout_bounds _ _ _ _ (blk_layout _ _ Hb) Hx) as (?&?&?).
  pose proof (blk_sizes _ _ Hb x Hx). unfold ALIGNMENT, ALIGN_INFO in *. lia.
Qed.

(** The pointer lies in the section, behind its alignment information. *)
Lemma s_ptr_range x : 0 <= s_at x -> ALIGNMENT + ALIGN_INFO <= s_size x -> s_end x <= two32 ->
  s_at x + MINOR + 2 <= s_ptr x <= s_at x + MINOR + 5 /\ s_ptr x < s_end x /\ s_ptr x mod 4 = 0.
Proof.
  intros H1 H2 H3. unfold s_ptr, s_end, MINOR, ALIGNMENT, ALIGN_INFO in *.
  destruct (aligned_spec (s_at x + 24)) as [Ha Hr]; lia.
Qed.

Lemma scrub_out {A} w lo hi (h : gmap Z A) a : ~ overlaps w lo hi a -> scrub w lo hi h !! a = h !! a.
Proof.
  intros Ho. unfold scrub. destruct (h !! a) as [x|] eqn:E.
  - apply map_lookup_filter_Some. by split.
  - apply map_lookup_filter_None. by left.
Qed.

Lemma scrub_in {A} w lo hi (h : gmap Z A) a : overlaps w lo hi a -> scrub w lo hi h !! a = None.
Proof. intros Ho. unfold scrub. apply map_lookup_filter_None. right. intros x _ Hn. by apply Hn. Qed.

Lemma splice_magic v1 v2 l1 l2 (h : gmap Z minor) a m : splice v1 v2 l1 l2 h !! a = Some m ->
  exists m0, h !! a = Some m0 /\ magic m0 = magic m.
Proof.
  unfold splice, link_prev, link_next. intros Hm.
  assert (forall (f : minor -> minor) k (g : gmap Z minor) m, (forall m, magic (f m) = magic m) -> alter f k g !! a = Some m ->
    exists m0, g !! a = Some m0 /\ magic m0 = magic m) as Halter.
  { intros f k g m1 Hf H1. destruct (decide (a = k)) as [->|].
    - rewrite lookup_alter_eq in H1. destruct (g !! k) as [m0|]; [|done]. injection H1 as <-. exists m0. by rewrite Hf.
    - rewrite lookup_alter_ne in H1 by done. by exists m1. }
  destruct (head_or NULL l2 =? NULL), (last_or NULL l1 =? NULL); try apply Halter in Hm as (m1 & Hm & <-); try done.
  - by exists m.
  - by exists m1.
  - by exists m1.
  - by apply Halter in Hm.
Qed.

(** A section [x] is put between the sections [l1] and [l2] of the block [b]. *)
Record placed (s s' : liballoc) (b : blk) (l1 : list section) (x : section) (l2 : list section) : Prop := {
  pl_minors : forall a, minors s' !! a =
    if decide (a = s_at x) then
      Some (Minor (last_or NULL (map (sec_node (b_at b)) l1)) (head_or NULL (map (sec_node (b_at b)) l2))
              (b_at b) LIBALLOC_MAGIC (s_size x) (s_req x))
    else if decide (overlaps MINOR (s_at x) (s_end x) a) then None
    else splice (s_at x) (s_at x) (map (sec_node (b_at b)) l1) (map (sec_node (b_at b)) l2) (minors s) !! a;
  pl_infos : forall a, infos s' !! a =
    if decide (a = s_ptr x - 2) then Some (s_ptr x - (s_at x + MINOR))
    else if decide (overlaps ALIGN_INFO (s_at x) (s_end x) a) then None else infos s !! a;
  pl_phys : phys s' = phys s;
  pl_root : l_memRoot s' = l_memRoot s;
  pl_bet : l_bestBet s' = l_bestBet s
}.

Section insert.
Context (s s' : liballoc) (bs1 bs2 : list blk) (b : blk) (l1 l2 : list section) (x : section).
Context (Hr : rep s (bs1 ++ b :: bs2)) (Hsecs : b_secs b = l1 ++ l2) (Hpl : placed s s' b l1 x l2).
Context (Hlay : layout (b_at b + MAJOR) (l1 ++ x :: l2) (b_end b)).
Context (Hsz : s_req x <= s_size x - (ALIGNMENT + ALIGN_INFO) /\ 0 <= s_req x).
Local Abbreviation b' := (Blk (b_at b) (b_pages b) (l1 ++ x :: l2)).
Context (Hmaj : majors s' = <[b_at b := mk_node (last_or NULL (map blk_node bs1)) (head_or NULL (map blk_node bs2))
  (blk_node b').2]> (majors s)).

Lemma insert_b_ok : blk_ok s b.
Proof using Hr. apply (rep_blocks _ _ Hr). apply elem_of_app. right. by apply elem_of_cons; left. Qed.

Lemma insert_x_range : b_at b + MAJOR <= s_at x /\ ALIGNMENT + ALIGN_INFO <= s_size x /\ s_end x <= b_end b.
Proof using Hlay Hsz.
  destruct (layout_bounds _ _ _ x Hlay) as (?&?&?); [apply elem_of_app; right; by apply elem_of_cons; left |].
  unfold ALIGNMENT, ALIGN_INFO in *. lia.
Qed.

(** Sections elsewhere do not overlap the new one. *)
Lemma insert_apart y : (y ∈ l1 ++ l2) \/ (exists c, c ∈ bs1 ++ bs2 /\ y ∈ b_secs c) ->
  s_end y <= s_at x \/ s_end x <= s_at y.
Proof using Hr Hlay.
  intros [Hy|(c & Hc & Hy)].
  - apply layout_app in Hlay as [L1 L2]. simpl in L2. destruct L2 as (A1 & A2 & L2).
    apply elem_of_app in Hy as [Hy|Hy].
    + destruct (layout_bounds _ _ _ y L1 Hy) as (?&?&?). lia.
    + destruct (layout_bounds _ _ _ y L2 Hy) as (?&?&?). lia.
  - pose proof (rep_apart2 _ _ _ _ _ Hr Hc) as Ha. unfold apart, extent in Ha. simpl in Ha.
    assert (blk_ok s c) as Hco.
    { apply (rep_blocks _ _ Hr). apply elem_of_app. apply elem_of_app in Hc as [?|?]; [by left | right; by apply elem_of_cons; right]. }
    destruct (sec_in_block _ _ _ Hco Hy) as (?&?&?).
    destruct (layout_bounds _ _ _ x Hlay) as (?&?&?); [apply elem_of_app; right; by apply elem_of_cons; left |].
    unfold MAJOR in *. lia.
Qed.

Lemma insert_other_b c : c ∈ bs1 ++ bs2 -> blk_ok s c.
Proof using Hr.
  intros Hc. apply (rep_blocks _ _ Hr). apply elem_of_app.
  apply elem_of_app in Hc as [?|?]; [by left | right; by apply elem_of_cons; right].
Qed.

Lemma insert_range c : c ∈ bs1 ++ b :: bs2 -> 4096 <= b_at c /\ b_at c + 4096 <= b_end c /\ b_end c <= two32 /\ 0 < b_pages c.
Proof using Hr. by apply (rep_range s). Qed.

(** The old sections are there as before, apart from the links to the new one. *)
Lemma insert_keeps y c : c ∈ bs1 ++ b :: bs2 -> y ∈ b_secs c ->
  (s_end y <= s_at x \/ s_end x <= s_at y) /\ 0 <= s_at y /\ ALIGNMENT + ALIGN_INFO <= s_size y /\ s_end y <= two32 /\
  minors s' !! s_at y = splice (s_at x) (s_at x) (map (sec_node (b_at b)) l1) (map (sec_node (b_at b)) l2) (minors s) !! s_at y /\
  infos s' !! (s_ptr y - 2) = infos s !! (s_ptr y - 2).
Proof using All.
  intros Hc Hy. assert (blk_ok s c) as Hco by (by apply (rep_blocks _ _ Hr)).
  destruct (sec_in_block _ _ _ Hco Hy) as (B1 & B2 & B3). destruct (insert_range c Hc) as (R1 & R2 & R3 & _).
  assert (s_end y <= s_at x \/ s_end x <= s_at y) as Hap.
  { apply insert_apart. apply elem_of_app in Hc as [Hc|Hc]; [right; exists c; rewrite elem_of_app; by auto |].
    apply elem_of_cons in Hc as [->|Hc]; [left; by rewrite <- Hsecs | right; exists c; rewrite elem_of_app; by auto]. }
  destruct insert_x_range as (X1 & X2 & X3). destruct (insert_range b) as (Q1 & Q2 & Q3 & _);
    [apply elem_of_app; right; by apply elem_of_cons; left |].
  unfold MAJOR, ALIGNMENT, ALIGN_INFO in *.
  destruct (s_ptr_range y) as (P1 & P2 & _); [lia | unfold ALIGNMENT, ALIGN_INFO; lia | lia |].
  destruct (s_ptr_range x) as (P3 & P4 & _); [lia | unfold ALIGNMENT, ALIGN_INFO; lia | lia |].
  assert (s_end x = s_at x + MINOR + s_size x /\ s_end y = s_at y + MINOR + s_size y) as [Ex Ey] by done.
  unfold MINOR in *. split_and!; try lia; try done.
  - rewrite (pl_minors _ _ _ _ _ _ Hpl), decide_False, decide_False; [done | unfold overlaps, MINOR; lia | lia].
  - rewrite (pl_infos _ _ _ _ _ _ Hpl), decide_False, decide_False; [done | unfold overlaps, ALIGN_INFO; lia | lia].
Qed.

Lemma insert_nodup : NoDup (map s_at (l1 ++ l2)) /\ s_at x ∉ map s_at (l1 ++ l2) /\ NULL ∉ map s_at (l1 ++ l2).
Proof using Hr Hlay Hsecs.
  pose proof (blk_layout _ _ insert_b_ok) as Hl. rewrite Hsecs in Hl.
  destruct (insert_range b) as (R1 & _); [apply elem_of_app; right; by apply elem_of_cons; left |].
  assert (NoDup (map s_at (l1 ++ x :: l2))) as Hnd by (by eapply layout_nodup). split_and!.
  - by eapply layout_nodup.
  - rewrite map_app. rewrite map_app in Hnd. simpl in Hnd. apply NoDup_app in Hnd as (_ & Hd & Hn).
    apply NoDup_cons in Hn as [Hn _]. rewrite elem_of_app. intros [Hin|Hin]; [|done]. apply (Hd _ Hin). by apply elem_of_cons; left.
  - intros Hin. apply list_elem_of_fmap in Hin as (y & Ey & Hy). apply (layout_bounds _ _ _ _ Hl) in Hy as (?&_).
    unfold NULL, MAJOR in *. lia.
Qed.

Lemma insert_secs : seg (minors s') NULL (sec_nodes b') NULL.
Proof using All.
  destruct insert_nodup as (N1 & N2 & N3).
  assert (forall l, (map (sec_node (b_at b)) l).*1 = map s_at l) as Hfst.
  { intros l. induction l as [|y l IH]; [done |]. simpl. f_equal. exact IH. }
  pose proof (blk_secs _ _ insert_b_ok) as Hs. unfold sec_nodes in *. rewrite Hsecs, map_app in Hs. simpl.
  rewrite map_app. simpl. change (sec_node (b_at b) x) with (s_at x, (b_at b, LIBALLOC_MAGIC, s_size x, s_req x)).
  eapply seg_frame; [|apply (dll_insert (minors s))]; try done; try by rewrite <- map_app, Hfst.
  intros a Ha. rewrite fmap_app in Ha. simpl in Ha. rewrite !Hfst in Ha.
  destruct (decide (a = s_at x)) as [->|Hne].
  - rewrite lookup_insert_eq, (pl_minors _ _ _ _ _ _ Hpl), decide_True by done. done.
  - rewrite lookup_insert_ne by done. assert (exists y, y ∈ b_secs b /\ a = s_at y) as (y & Hy & ->).
    { rewrite Hsecs. assert (a ∈ map s_at (l1 ++ l2)) as Hin.
      { rewrite map_app. apply elem_of_app. apply elem_of_app in Ha as [Ha|Ha]; [by left |]. right.
        by apply elem_of_cons in Ha as [->|Ha]. }
      apply list_elem_of_fmap in Hin as (y & -> & Hy). by exists y. }
    apply (insert_keeps y b); [apply elem_of_app; right; by apply elem_of_cons; left | done].
Qed.

Lemma insert_blk_ok c : c ∈ bs1 ++ bs2 -> blk_ok s' c.
Proof using All.
  intros Hc. pose proof (insert_other_b c Hc) as Hco. pose proof Hco as [C1 C2 C3 C4 C5].
  assert (c ∈ bs1 ++ b :: bs2) as Hc'.
  { apply elem_of_app. apply elem_of_app in Hc as [?|?]; [by left | right; by apply elem_of_cons; right]. }
  split; try done.
  - by rewrite (pl_phys _ _ _ _ _ _ Hpl).
  - eapply seg_frame; [|done]. intros a Ha. rewrite map_sec_at in Ha. apply list_elem_of_fmap in Ha as (y & -> & Hy).
    destruct (insert_keeps y c Hc' Hy) as (_ & Y1 & Y2 & _ & -> & _).
    assert (forall z, z ∈ l1 ++ l2 -> s_at z <> s_at y) as Hz.
    { intros z Hz Ez. pose proof (rep_apart2 _ _ _ _ _ Hr Hc) as Hap. unfold apart, extent in Hap. simpl in Hap.
      destruct (sec_in_block _ _ _ Hco Hy) as (?&?&?). rewrite <- Hsecs in Hz.
      destruct (sec_in_block _ _ _ insert_b_ok Hz) as (?&?&?). unfold s_end, MAJOR, MINOR, ALIGNMENT, ALIGN_INFO in *. lia. }
    apply splice_other.
    + rewrite <- map_app. intros Hin. apply list_elem_of_fmap in Hin as ([k w] & Ek & Hin).
      apply list_elem_of_fmap in Hin as (z & Ez & Hin). rewrite Ez in Ek. by apply (Hz z).
    + destruct (sec_in_block _ _ _ Hco Hy). destruct (insert_range c Hc') as (?&_). unfold NULL, MAJOR in *. lia.
  - intros y Hy. destruct (insert_keeps y c Hc' Hy) as (_ & _ & _ & _ & _ & ->). by apply C4.
Qed.

Lemma insert_rep : rep s' (bs1 ++ b' :: bs2).
Proof using All.
  assert (extent b' = extent b) as Hext by done.
  assert (map b_at (bs1 ++ b' :: bs2) = map b_at (bs1 ++ b :: bs2)) as Hat by by rewrite !map_app.
  split.
  - rewrite (pl_phys _ _ _ _ _ _ Hpl). apply Hr.
  - rewrite (pl_root _ _ _ _ _ _ Hpl), (rep_root _ _ Hr), !map_app. by destruct bs1.
  - rewrite Hmaj, map_app. cbn [map]. change (blk_node b') with (b_at b, (blk_node b').2).
    pose proof (rep_majors _ _ Hr) as Hs. rewrite map_app in Hs. cbn [map] in Hs.
    change (blk_node b) with (b_at b, (blk_node b).2) in Hs.
    eapply seg_update; [exact Hs |]. pose proof (rep_nodup _ _ Hr) as Hnd. rewrite <- map_blk_at, map_app in Hnd. exact Hnd.
  - intros c Hc. apply elem_of_app in Hc as [Hc|Hc]; [apply insert_blk_ok; rewrite elem_of_app; by left |].
    apply elem_of_cons in Hc as [->|Hc]; [|apply insert_blk_ok; rewrite elem_of_app; by right].
    pose proof insert_b_ok as [C1 C2 C3 C4 C5]. split; try done.
    + by rewrite (pl_phys _ _ _ _ _ _ Hpl).
    + apply insert_secs.
    + simpl. intros y Hy. apply elem_of_app in Hy. destruct (decide (y = x)) as [->|Hne].
      { by rewrite (pl_infos _ _ _ _ _ _ Hpl), decide_True. }
      assert (y ∈ b_secs b) as Hyb.
      { rewrite Hsecs. apply elem_of_app. destruct Hy as [?|Hy]; [by left | right]. by apply elem_of_cons in Hy as [->|Hy]. }
      destruct (insert_keeps y b) as (_ & _ & _ & _ & _ & ->); [apply elem_of_app; right; by apply elem_of_cons; left | done |].
      by apply C4.
    + simpl. intros y Hy. apply elem_of_app in Hy. destruct (decide (y = x)) as [->|Hne]; [done |].
      apply C5. rewrite Hsecs. apply elem_of_app. destruct Hy as [?|Hy]; [by left | right]. by apply elem_of_cons in Hy as [->|Hy].
  - intros i j p q. rewrite !map_app. simpl. rewrite Hext. pose proof (rep_apart _ _ Hr i j p q) as Ha.
    rewrite map_app in Ha. exact Ha.
  - rewrite (pl_bet _ _ _ _ _ _ Hpl), Hat. apply Hr.
  - intros a m Hm Hmg. rewrite (pl_minors _ _ _ _ _ _ Hpl) in Hm.
    destruct (decide (a = s_at x)) as [->|].
    { exists b', x. split; [apply elem_of_app; right; by apply elem_of_cons; left |]. split; [|done]. simpl.
      apply elem_of_app. right. by apply elem_of_cons; left. }
    case_decide; [done |]. apply splice_magic in Hm as (m0 & Hm0 & Hmg0).
    destruct (rep_live _ _ Hr a m0 Hm0) as (c & y & Hc & Hy & <-); [congruence |].
    apply elem_of_app in Hc as [Hc|Hc]; [exists c, y; split; [apply elem_of_app; by left | done] |].
    apply elem_of_cons in Hc as [->|Hc].
    + exists b', y. split; [apply elem_of_app; right; by apply elem_of_cons; left |]. split; [|done]. simpl.
      rewrite Hsecs in Hy. apply elem_of_app. apply elem_of_app in Hy as [?|?]; [by left | right; by apply elem_of_cons; right].
    + exists c, y. split; [apply elem_of_app; right; by apply elem_of_cons; right | done].
Qed.
End insert.

(** ** Handing out a section *)

Lemma ALIGN_ok p s : 0 <= p -> p + 5 < two32 ->
  ALIGN p s = Ok (aligned p, set_infos (<[aligned p - 2 := aligned p - p]> (infos s)) s).
Proof.
  intros Hp Hp2. unfold ALIGN, ALIGN_INFO. rewrite (u32_small (p + 2)) by (unfold is_u32, two32 in *; lia).
  change (ALIGNMENT - 1) with (Z.ones 2). rewrite Z.land_ones by lia. change (2 ^ 2) with 4.
  pose proof (Z.mod_pos_bound (p + 2) 4 ltac:(lia)) as Hm.
  assert (aligned p = if negb ((p + 2) mod 4 =? 0) then p + 2 + (4 - (p + 2) mod 4) else p + 2) as Ha.
  { unfold aligned. destruct (Z.eqb_spec ((p + 2) mod 4) 0) as [E|E]; simpl.
    - rewrite Z.mod_opp_l_z; lia.
    - rewrite Z.mod_opp_l_nz by lia. lia. }
  destruct (Z.eqb_spec ((p + 2) mod 4) 0) as [E|E]; cbn [negb] in *; rewrite Ha; unfold ALIGNMENT.
  - rewrite u32_small by (unfold is_u32, two32 in *; lia). mrun. f_equal. f_equal. f_equal. f_equal. lia.
  - rewrite (u32_small (p + 2 + _)), u32_small by (unfold is_u32, two32 in *; lia). mrun. do 4 f_equal. lia.
Qed.

Lemma upd_maj_ok s a f m : a <> NULL -> majors s !! a = Some m ->
  upd_maj a f s = Ok (tt, set_majors (<[a := f m]> (majors s)) s).
Proof. intros Ha Hm. unfold upd_maj. mrun. by rewrite (hload_Some _ _ _ Ha Hm). Qed.
Lemma upd_min_ok s a f m : a <> NULL -> minors s !! a = Some m ->
  upd_min a f s = Ok (tt, set_minors (<[a := f m]> (minors s)) s).
Proof. intros Ha Hm. unfold upd_min. mrun. by rewrite (hload_Some _ _ _ Ha Hm). Qed.
Lemma get_maj_ok s a m : a <> NULL -> majors s !! a = Some m -> get_maj a s = Ok (m, s).
Proof. intros Ha Hm. unfold get_maj. mrun. by rewrite (hload_Some _ _ _ Ha Hm). Qed.
Lemma get_min_ok s a m : a <> NULL -> minors s !! a = Some m -> get_min a s = Ok (m, s).
Proof. intros Ha Hm. unfold get_min. mrun. by rewrite (hload_Some _ _ _ Ha Hm). Qed.

(** What the operations on one block leave alone. *)
Definition same_env (s s' : liballoc) : Prop :=
  liballoc_spinlock s' = liballoc_spinlock s /\ data s' = data s /\ phys s' = phys s.

(** The header of [x] was linked in: the rest of the work. *)
Lemma hand_out_rep s s1 bs1 bs2 b l1 x l2 : rep s (bs1 ++ b :: bs2) -> b_secs b = l1 ++ l2 ->
  layout (b_at b + MAJOR) (l1 ++ x :: l2) (b_end b) ->
  s_req x <= s_size x - (ALIGNMENT + ALIGN_INFO) /\ 0 <= s_req x ->
  (forall a, minors s1 !! a =
    if decide (a = s_at x) then
      Some (Minor (last_or NULL (map (sec_node (b_at b)) l1)) (head_or NULL (map (sec_node (b_at b)) l2))
              (b_at b) LIBALLOC_MAGIC (s_size x) (s_req x))
    else if decide (overlaps MINOR (s_at x) (s_end x) a) then None
    else splice (s_at x) (s_at x) (map (sec_node (b_at b)) l1) (map (sec_node (b_at b)) l2) (minors s) !! a) ->
  infos s1 = scrub ALIGN_INFO (s_at x) (s_end x) (infos s) ->
  majors s1 = <[b_at b := Major (last_or NULL (map blk_node bs1)) (head_or NULL (map blk_node bs2))
    (b_pages b) (b_pages b * 4096) (secs_usage (b_secs b)) (first_sec (l1 ++ x :: l2))]> (majors s) ->
  l_memRoot s1 = l_memRoot s -> l_bestBet s1 = l_bestBet s -> same_env s s1 ->
  exists s2, hand_out (b_at b) (s_at x) (s_size x) s1 = Ok (s_ptr x, s2) /\
  rep s2 (bs1 ++ Blk (b_at b) (b_pages b) (l1 ++ x :: l2) :: bs2) /\ same_env s s2.
Proof.
  intros Hr Hsecs Hlay Hsz Hmin Hinf Hmaj Hroot Hbet (He1 & He2 & He3).
  destruct (insert_x_range b l1 l2 x Hlay Hsz) as (X1 & X2 & X3).
  destruct (insert_range s bs1 bs2 b Hr b) as (R1 & R2 & R3 & R4); [apply elem_of_app; right; by apply elem_of_cons; left |].
  assert (s_end x = s_at x + MINOR + s_size x) as Ex by done. unfold MAJOR, MINOR, ALIGNMENT, ALIGN_INFO in *.
  assert (secs_usage (l1 ++ x :: l2) = secs_usage (b_secs b) + (s_size x + 24)) as Hus.
  { rewrite Hsecs, !secs_usage_app. simpl. unfold MINOR. lia. }
  pose proof (secs_usage_bound _ _ _ Hlay) as Hub. pose proof (secs_usage_pos _ _ _ (blk_layout _ _ (insert_b_ok _ _ _ _ Hr))) as Hup.
  unfold MAJOR, b_end in *. unfold hand_out, MINOR.
  assert (majors s1 !! b_at b = Some (Major (last_or NULL (map blk_node bs1)) (head_or NULL (map blk_node bs2))
    (b_pages b) (b_pages b * 4096) (secs_usage (b_secs b)) (first_sec (l1 ++ x :: l2)))) as Hm
    by (rewrite Hmaj; apply lookup_insert_eq).
  rewrite (run_bind_Ok _ _ _ _ _ (upd_maj_ok s1 (b_at b) _ _ ltac:(unfold NULL; lia) Hm)). mrun.
  rewrite (u32_small (s_size x + 24)), (u32_small (s_at x + 24)), u32_small by (simpl; unfold is_u32, two32 in *; lia).
  rewrite ALIGN_ok by (unfold two32 in *; lia). eexists. split; [done |]. split; [|done].
  eapply insert_rep; try done.
  - split; simpl; [exact Hmin | | done..]. intros a. unfold s_ptr, MINOR. rewrite Hinf. destruct (decide (a = _)) as [->|Hne].
    + by rewrite lookup_insert_eq.
    + rewrite lookup_insert_ne by done. case_decide; [by apply scrub_in | by apply scrub_out].
  - simpl. rewrite Hmaj, insert_insert_eq. f_equal. unfold set_usage. simpl. rewrite Hus. done.
Qed.

(** ** Placing a section in a block *)

(** What [place] makes of a block: nothing, or the block with one section more,
    whose pointer is the answer. *)
Definition placed_in (s s' : liballoc) (bs1 : list blk) (b : blk) (bs2 : list blk) (sz req : Z) (r : option Z) : Prop :=
  match r with
  | None => s' = s
  | Some p => exists l1 x l2, b_secs b = l1 ++ l2 /\ s_size x = sz /\ s_req x = req /\ s_ptr x = p /\
      rep s' (bs1 ++ Blk (b_at b) (b_pages b) (l1 ++ x :: l2) :: bs2) /\ same_env s s'
  end.

Lemma new_minor_ok a m s : new_minor a m s = Ok (tt, set_infos (scrub ALIGN_INFO a (a + MINOR + msize m) (infos s))
  (set_minors (<[a := m]> (scrub MINOR a (a + MINOR + msize m) (minors s))) s)).
Proof. done. Qed.

Section place.
Context (s : liballoc) (bs1 bs2 : list blk) (b : blk) (sz req : Z).
Context (Hr : rep s (bs1 ++ b :: bs2)).
Context (Hreq : 0 <= req) (Hsz : sz = req + (ALIGNMENT + ALIGN_INFO)) (Hsz2 : sz + MINOR < two32).

Lemma place_b_range : 4096 <= b_at b /\ b_at b + 4096 <= b_end b /\ b_end b <= two32 /\ 0 < b_pages b /\ blk_ok s b.
Proof using Hr.
  destruct (insert_range s bs1 bs2 b Hr b) as (?&?&?&?); [apply elem_of_app; right; by apply elem_of_cons; left |].
  split_and!; try done. by apply (insert_b_ok _ _ _ _ Hr).
Qed.

Lemma place_b_maj : majors s !! b_at b = Some (Major (last_or NULL (map blk_node bs1)) (head_or NULL (map blk_node bs2))
    (b_pages b) (b_pages b * 4096) (secs_usage (b_secs b)) (first_sec (b_secs b))).
Proof using Hr. by apply blk_lookup. Qed.

Lemma place_empty : b_secs b = [] -> sz + MINOR + MAJOR <= b_pages b * 4096 ->
  exists r s', place (b_at b) sz req s = Ok (r, s') /\ placed_in s s' bs1 b bs2 sz req r /\ r <> None.
Proof using All.
  intros He Hfit. destruct place_b_range as (R1 & R2 & R3 & R4 & Hb). pose proof place_b_maj as Hm. rewrite He in Hm.
  assert (b_at b <> NULL) as Hnn by (unfold NULL; lia). unfold b_end, MAJOR, MINOR in *.
  assert (u32 (b_at b + MAJOR) = b_at b + 24) as Hbase by (apply u32_small; unfold MAJOR, is_u32, two32 in *; lia).
  set (x := Section_ (b_at b + 24) sz req).
  assert (s_end x = b_at b + 24 + MINOR + sz) as Ex by done. unfold ALIGNMENT, ALIGN_INFO, MINOR in *.
  unfold place. rewrite (run_bind_Ok _ _ _ _ _ (get_maj_ok s _ _ Hnn Hm)). cbn [first first_sec Z.eqb NULL].
  rewrite Hbase, (run_bind_Ok _ _ _ _ _ (upd_maj_ok s (b_at b) _ _ Hnn Hm)).
  rewrite (run_bind_Ok _ _ _ _ _ (new_minor_ok _ _ _)).
  edestruct (hand_out_rep s) with (l1 := @nil section) (x := x) (l2 := @nil section) as (s2 & E & Hrep & Hse);
    [exact Hr | done | | simpl; unfold ALIGNMENT, ALIGN_INFO; lia | | | | | | | rewrite (run_bind_Ok _ _ _ _ _ E)]; try done.
  - simpl. unfold b_end, MAJOR. lia.
  - intros a. simpl. destruct (decide (a = b_at b + 24)) as [->|Hne]; [by rewrite lookup_insert_eq |].
    rewrite lookup_insert_ne by done. case_decide; [by apply scrub_in | by apply scrub_out].
  - simpl. by rewrite He.
  - exists (Some (s_ptr x)), s2. split; [done |]. split; [|done]. by exists [], x, [].
Qed.

(** A section in front of the first one. *)
Lemma place_front y l : b_secs b = y :: l -> sz + MINOR <= s_at y - b_at b - MAJOR ->
  exists p s', place (b_at b) sz req s = Ok (Some p, s') /\ placed_in s s' bs1 b bs2 sz req (Some p).
Proof using All.
  intros He Hfit. destruct place_b_range as (R1 & R2 & R3 & R4 & Hb). pose proof place_b_maj as Hm. rewrite He in Hm.
  assert (b_at b <> NULL) as Hnn by (unfold NULL; lia).
  assert (y ∈ b_secs b) as Hy by (rewrite He; by apply elem_of_cons; left).
  destruct (sec_in_block _ _ _ Hb Hy) as (Y1 & Y2 & Y3).
  pose proof (sec_lookup s b [] y l Hb He) as Hmy. cbn [map last_or last] in Hmy.
  pose proof (blk_layout _ _ Hb) as Hlay. rewrite He in Hlay.
  assert (s_at y <> NULL) as Hyn by (unfold NULL, MAJOR in *; lia).
  assert (s_end y = s_at y + MINOR + s_size y) as Ey by done.
  unfold b_end, MAJOR, MINOR, ALIGNMENT, ALIGN_INFO in *.
  assert (u32 (b_at b + 24) = b_at b + 24) as Hbase by (apply u32_small; unfold is_u32, two32 in *; lia).
  set (x := Section_ (b_at b + 24) sz req).
  assert (s_end x = b_at b + 24 + MINOR + sz) as Ex by done. unfold MINOR in *.
  unfold place. rewrite (run_bind_Ok _ _ _ _ _ (get_maj_ok s _ _ Hnn Hm)). cbn [first first_sec].
  destruct (Z.eqb_spec (s_at y) NULL); [done |]. unfold MAJOR, MINOR. rewrite Hbase.
  rewrite (u32_small (s_at y - b_at b)), !u32_small by (rewrite ?u32_small; unfold is_u32, two32 in *; lia).
  destruct (Z.leb_spec (sz + 24) (s_at y - b_at b - 24)); [|lia].
  rewrite (run_bind_Ok _ _ _ _ _ (upd_min_ok s _ _ _ Hyn Hmy)), (run_bind_Ok _ _ _ _ _ (new_minor_ok _ _ _)).
  erewrite run_bind_Ok by (apply upd_maj_ok; [exact Hnn | exact Hm]).
  edestruct (hand_out_rep s) with (l1 := @nil section) (x := x) (l2 := y :: l) as (s2 & E & Hrep & Hse);
    [exact Hr | done | | simpl; unfold ALIGNMENT, ALIGN_INFO; lia | | | | | | | rewrite (run_bind_Ok _ _ _ _ _ E)]; try done.
  - simpl in *. split_and!; [unfold MAJOR; lia | lia | lia | lia | apply Hlay].
  - intros a. simpl. destruct (decide (a = b_at b + 24)) as [->|Hne]; [by rewrite lookup_insert_eq |].
    rewrite lookup_insert_ne by done. unfold splice.
    change (head_or NULL (map (sec_node (b_at b)) (y :: l))) with (s_at y). cbn [map last_or last].
    change (link_next NULL ?v ?h) with h.
    rewrite (link_prev_insert _ _ _ _ Hyn Hmy). case_decide; [by apply scrub_in | by apply scrub_out].
  - simpl. by rewrite He.
  - exists (s_ptr x), s2. split; [done |]. by exists [], x, (y :: l).
Qed.

(** The search behind the sections. *)
Lemma section_loop_ok fuel l1 y l2 : b_secs b = l1 ++ y :: l2 -> (S (length l2) < fuel)%nat ->
  exists r s', section_loop fuel (b_at b) (s_at y) sz req s = Ok (r, s') /\ placed_in s s' bs1 b bs2 sz req r.
Proof using All.
  revert l1 y l2. induction fuel as [|fuel IH]; intros l1 y l2 He Hf; [lia |]. cbn [section_loop].
  destruct place_b_range as (R1 & R2 & R3 & R4 & Hb). pose proof place_b_maj as Hm.
  assert (b_at b <> NULL) as Hnn by (unfold NULL; lia).
  assert (y ∈ b_secs b) as Hy by (rewrite He; apply elem_of_app; right; by apply elem_of_cons; left).
  destruct (sec_in_block _ _ _ Hb Hy) as (Y1 & Y2 & Y3).
  pose proof (sec_lookup s b l1 y l2 Hb He) as Hmy.
  pose proof (blk_layout _ _ Hb) as Hlay. rewrite He in Hlay. apply layout_app in Hlay as [L1 L2]. cbn [layout] in L2.
  destruct L2 as (L3 & L4 & L2).
  assert (s_at y <> NULL) as Hyn by (unfold NULL, MAJOR in *; lia).
  assert (s_end y = s_at y + MINOR + s_size y) as Ey by done.
  set (x := Section_ (s_end y) sz req).
  assert (s_end x = s_end y + MINOR + sz) as Ex by done.
  destruct (Z.eqb_spec (s_at y) NULL); [done |]. rewrite (run_bind_Ok _ _ _ _ _ (get_min_ok s _ _ Hyn Hmy)).
  cbn [msize mnext].
  assert (s_end x <= two32 -> u32 (u32 (s_at y + MINOR) + s_size y) = s_end y) as Hnext.
  { intros Hx. unfold MINOR, MAJOR, ALIGNMENT, ALIGN_INFO in *.
    rewrite !u32_small by (rewrite ?u32_small; unfold is_u32, two32 in *; lia). lia. }
  assert (last_or NULL (map (sec_node (b_at b)) (l1 ++ [y])) = s_at y) as Hlast by (rewrite map_app; by apply last_or_snoc).
  destruct l2 as [|z l2]; cbn [map head_or].
  - (* behind the last section *)
    change (NULL =? NULL) with true. cbn iota.
    rewrite (run_bind_Ok _ _ _ _ _ (get_maj_ok s _ _ Hnn Hm)). cbn [size].
    rewrite (u32_sub_l (_ + _)), (u32_sub_l (_ - s_at y)), (u32_sub_l (_ - MINOR)).
    unfold b_end, MAJOR, MINOR, ALIGNMENT, ALIGN_INFO in *. cbn [layout] in L2.
    rewrite (u32_small (sz + 24)), (u32_small (_ - _)) by (unfold is_u32, two32 in *; lia).
    destruct (Z.leb_spec (sz + 24) (b_at b + b_pages b * 4096 - s_at y - 24 - s_size y)) as [Hfit|Hfit].
    2:{ destruct fuel as [|fuel]; [simpl in Hf; lia |]. exists None, s. by split. }
    rewrite Hnext by lia.
    rewrite (run_bind_Ok _ _ _ _ _ (upd_min_ok s _ _ _ Hyn Hmy)), (run_bind_Ok _ _ _ _ _ (new_minor_ok _ _ _)).
    edestruct (hand_out_rep s) with (l1 := l1 ++ [y]) (x := x) (l2 := @nil section) as (s2 & E & Hrep & Hse);
      [exact Hr | by rewrite app_nil_r | | simpl; unfold ALIGNMENT, ALIGN_INFO; lia | | | | | |
       | rewrite (run_bind_Ok _ _ _ _ _ E)]; try done.
    + rewrite <- app_assoc. apply layout_app. split; [exact L1 |]. cbn [app layout].
      split_and!; simpl; unfold b_end, MAJOR in *; lia.
    + intros a. rewrite Hlast. simpl. destruct (decide (a = s_end y)) as [->|Hne]; [by rewrite lookup_insert_eq |].
      rewrite lookup_insert_ne by done. unfold splice. change (link_prev (head_or NULL []) _ ?h) with h.
      rewrite Hlast, (link_next_insert _ _ _ _ Hyn Hmy). case_decide; [by apply scrub_in | by apply scrub_out].
    + simpl. symmetry. apply insert_id. rewrite Hm, He. by destruct l1.
    + exists (Some (s_ptr x)), s2. split; [done |]. exists (l1 ++ [y]), x, []. by rewrite app_nil_r.
  - (* between two sections *)
    pose proof (sec_lookup s b (l1 ++ [y]) z l2 Hb ltac:(by rewrite <- app_assoc)) as Hmz.
    cbn [layout] in L2. destruct L2 as (Z1 & Z2 & Z3).
    assert (z ∈ b_secs b) as Hz by (rewrite He; apply elem_of_app; right; by apply elem_of_cons; right; apply elem_of_cons; left).
    destruct (sec_in_block _ _ _ Hb Hz) as (W1 & W2 & W3).
    assert (s_end z = s_at z + MINOR + s_size z) as Ez by done.
    assert (s_at z <> NULL) as Hzn by (unfold NULL, MAJOR in *; lia).
    change (let (a, _) := sec_node (b_at b) z in a) with (s_at z).
    destruct (Z.eqb_spec (s_at z) NULL); [done |]. cbn iota.
    rewrite (u32_sub_l (_ - s_at y)), (u32_sub_l (_ - MINOR)).
    unfold b_end, MAJOR, MINOR, ALIGNMENT, ALIGN_INFO in *.
    rewrite (u32_small (sz + 24)), (u32_small (_ - _)) by (unfold is_u32, two32 in *; lia).
    destruct (Z.leb_spec (sz + 24) (s_at z - s_at y - 24 - s_size y)) as [Hfit|Hfit].
    2:{ destruct (IH (l1 ++ [y]) z l2) as (r & s' & E & Hp); [by rewrite <- app_assoc | simpl in Hf; lia |].
        exists r, s'. by split. }
    rewrite Hnext by lia. rewrite (run_bind_Ok _ _ _ _ _ (new_minor_ok _ _ _)).
    assert (forall a, a < s_end y \/ s_end x <= a -> a + 24 <= s_end y \/ s_end x <= a -> a <> s_end y ->
      forall v, (<[s_end y := v]> (scrub MINOR (s_end y) (s_end y + MINOR + sz) (minors s))) !! a = minors s !! a) as Hkeep.
    { intros a _ Ha Hne v. rewrite lookup_insert_ne by done. apply scrub_out. unfold overlaps, MINOR. lia. }
    erewrite run_bind_Ok by (apply upd_min_ok; [exact Hzn | cbn [minors set_infos set_minors msize]; rewrite Hkeep by lia; exact Hmz]).
    erewrite run_bind_Ok by (apply upd_min_ok; [exact Hyn | cbn [minors set_infos set_minors msize];
      rewrite lookup_insert_ne by lia; rewrite Hkeep by lia; exact Hmy]).
    edestruct (hand_out_rep s) with (l1 := l1 ++ [y]) (x := x) (l2 := z :: l2) as (s2 & E & Hrep & Hse);
      [exact Hr | by rewrite <- app_assoc | | simpl; unfold ALIGNMENT, ALIGN_INFO; lia | | | | | |
       | rewrite (run_bind_Ok _ _ _ _ _ E)]; try done.
    + rewrite <- app_assoc. apply layout_app. split; [exact L1 |]. cbn [app layout].
      split_and!; try exact Z3; simpl; unfold b_end, MAJOR in *; lia.
    + intros a. rewrite Hlast. simpl. unfold splice. rewrite Hlast.
      change (head_or NULL (map (sec_node (b_at b)) (z :: l2))) with (s_at z).
      rewrite (link_next_insert _ _ _ _ Hyn Hmy).
      rewrite (link_prev_insert _ _ _ (Minor (s_at y) (head_or NULL (map (sec_node (b_at b)) l2)) (b_at b) LIBALLOC_MAGIC (s_size z) (s_req z)) Hzn)
        by (rewrite lookup_insert_ne by lia; by rewrite Hmz, Hlast).
      destruct (decide (a = s_end y)) as [->|Hne].
      { rewrite lookup_insert_ne, lookup_insert_ne, lookup_insert_eq by lia. done. }
      destruct (decide (a = s_at y)) as [->|Hny].
      { rewrite lookup_insert_eq, decide_False by (unfold overlaps, MINOR; lia).
        rewrite lookup_insert_ne, lookup_insert_eq by lia. done. }
      rewrite lookup_insert_ne by done. destruct (decide (a = s_at z)) as [->|Hnz].
      { rewrite lookup_insert_eq, decide_False by (unfold overlaps, MINOR; lia). by rewrite lookup_insert_eq. }
      rewrite !lookup_insert_ne by done. case_decide; [by apply scrub_in | by apply scrub_out].
    + simpl. symmetry. apply insert_id. rewrite Hm, He. by destruct l1.
    + exists (Some (s_ptr x)), s2. split; [done |]. exists (l1 ++ [y]), x, (z :: l2). by rewrite <- app_assoc.
Qed.
End place.

Lemma place_ok s bs1 b bs2 sz req : rep s (bs1 ++ b :: bs2) -> 0 <= req -> sz = req + (ALIGNMENT + ALIGN_INFO) ->
  sz + MINOR <= b_pages b * 4096 - secs_usage (b_secs b) -> sz + MINOR < two32 ->
  exists r s', place (b_at b) sz req s = Ok (r, s') /\ placed_in s s' bs1 b bs2 sz req r /\ (b_secs b = [] -> r <> None).
Proof.
  intros Hr Hreq Hsz Hfit Hsz2. destruct (place_b_range s bs1 bs2 b Hr) as (R1 & R2 & R3 & R4 & Hb).
  destruct (b_secs b) as [|y l] eqn:He.
  { destruct (place_empty s bs1 bs2 b sz req Hr Hreq Hsz Hsz2 He) as (r & s' & E & Hp & Hn).
    { simpl in Hfit. unfold MAJOR in *. lia. }
    exists r, s'. by split_and!. }
  destruct (decide (sz + MINOR <= s_at y - b_at b - MAJOR)) as [Hfront|Hfront].
  { destruct (place_front s bs1 bs2 b sz req Hr Hreq Hsz Hsz2 y l He Hfront) as (p & s' & E & Hp).
    exists (Some p), s'. by split_and!. }
  assert (y ∈ b_secs b) as Hy by (rewrite He; by apply elem_of_cons; left).
  destruct (sec_in_block _ _ _ Hb Hy) as (Y1 & Y2 & Y3).
  pose proof (place_b_maj s bs1 bs2 b Hr) as Hm. rewrite He in Hm.
  assert (b_at b <> NULL) as Hnn by (unfold NULL; lia).
  pose proof (layout_count _ _ _ (blk_layout _ _ Hb)) as Hcnt. rewrite He in Hcnt.
  assert (s_end y = s_at y + MINOR + s_size y) as Ey by done.
  unfold b_end, MAJOR, MINOR, ALIGNMENT, ALIGN_INFO in *.
  destruct (section_loop_ok s bs1 bs2 b sz req Hr Hreq Hsz Hsz2 (S (Z.to_nat (b_pages b * 4096))) [] y l He) as (r & s' & E & Hp);
    [simpl length in Hcnt; lia |].
  exists r, s'. split_and!; try done. unfold place.
  rewrite (run_bind_Ok _ _ _ _ _ (get_maj_ok s _ _ Hnn Hm)). cbn [first first_sec size].
  destruct (Z.eqb_spec (s_at y) NULL); [unfold NULL in *; lia |]. rewrite u32_sub_l. unfold MAJOR, MINOR.
  rewrite !u32_small by (unfold is_u32, two32 in *; lia).
  destruct (Z.leb_spec (sz + 24) (s_at y - b_at b - 24)); [lia | done].
Qed.

(** ** A new block *)

Lemma pages_for_spec sz : 0 <= sz -> sz + 48 + 4096 <= two32 ->
  16 <= pages_for sz < 1048577 /\ sz + MAJOR + MINOR <= pages_for sz * 4096.
Proof.
  intros H0 H1. unfold pages_for, MAJOR, MINOR, l_pageSize, l_pageCount.
  rewrite (u32_small (sz + 24)), u32_small by (unfold is_u32, two32 in *; lia).
  pose proof (Z.div_mod (sz + 24 + 24) 4096 ltac:(lia)). pose proof (Z.mod_pos_bound (sz + 24 + 24) 4096 ltac:(lia)).
  assert ((sz + 24 + 24) / 4096 < 1048576) by (apply Z.div_lt_upper_bound; unfold two32 in *; lia).
  assert (0 <= (sz + 24 + 24) / 4096) by (apply Z.div_pos; lia).
  destruct (Z.eqb_spec ((sz + 24 + 24) mod 4096) 0), (Z.ltb_spec ((sz + 24 + 24) / 4096) 16);
    try destruct (Z.ltb_spec ((sz + 24 + 24) / 4096 + 1) 16); lia.
Qed.

(** The fields that matter besides the blocks. *)
Definition same_lists (s s' : liballoc) : Prop :=
  l_memRoot s' = l_memRoot s /\ l_bestBet s' = l_bestBet s /\ minors s' = minors s /\ infos s' = infos s /\
  liballoc_spinlock s' = liballoc_spinlock s /\ data s' = data s.

(** A block without sections on pages that were free. *)
Definition new_block (s s' : liballoc) (bs : list blk) (nb : blk) (sz : Z) : Prop :=
  b_secs nb = [] /\ sz + MAJOR + MINOR <= b_pages nb * 4096 /\ mem_ok (phys s') /\
  blk_ok s' nb /\ (forall b, b ∈ bs -> blk_ok s' b /\ apart (extent b) (extent nb)) /\
  majors s' = <[b_at nb := Major NULL NULL (b_pages nb) (b_pages nb * 4096) MAJOR NULL]> (majors s) /\ same_lists s s' /\
  s_freePages (phys s') = s_freePages (phys s) - b_pages nb.

(** The page allocator has no run of pages for a block of [sz] bytes. *)
Definition refused (s : liballoc) (sz : Z) : Prop := memory_alloc (pages_for sz) (phys s) = Ok (NULL, phys s).

Lemma allocate_new_page_ok s bs sz : rep s bs -> 0 <= sz -> sz + 48 + 4096 <= two32 -> exists p s',
  allocate_new_page sz s = Ok (p, s') /\
  ((p = NULL /\ refused s sz /\ majors s' = majors s /\ phys s' = phys s /\ same_lists s s') \/
   (exists nb, p = b_at nb /\ new_block s s' bs nb sz)).
Proof.
  intros Hr H0 H1. destruct (pages_for_spec sz H0 H1) as [Hst Hfit].
  pose proof (rep_mem _ _ Hr) as Hmem. pose proof Hmem as (Hpm & base & Ho & Hb1 & Hb2).
  destruct (memory_alloc_spec (pages_for sz) (phys s) Hpm) as (ptr & m' & E & Hwf' & [Ep Eo] & Hc);
    [unfold two32; lia |].
  unfold allocate_new_page, liballoc_alloc. cbv zeta. rewrite run_bind, run_bind. cbn [getS].
  rewrite (run_bind_Ok _ _ _ (ptr, m') s) by (unfold liftO; by rewrite E). rewrite run_bind. cbn [modifyS]. rewrite run_ret.
  destruct Hc as [(-> & -> & _)|(k & Hk & Hkp & -> & Hfree & Hused & Hother & Hcnt)].
  { change (NULL =? NULL) with true. cbn iota. rewrite run_bind. cbn [modifyS]. eexists _, _. split; [done |]. left. by split_and!. }
  rewrite u32_small by (rewrite Ho; unfold is_u32, two32, PAGE_SIZE; lia).
  set (nb := Blk (k * PAGE_SIZE + memory_offset (phys s)) (pages_for sz) []).
  destruct (Z.eqb_spec (k * PAGE_SIZE + memory_offset (phys s)) NULL) as [En|_];
    [unfold NULL in En; rewrite Ho in En; unfold PAGE_SIZE in En; lia |].
  cbn iota. rewrite run_bind. cbn [modifyS]. rewrite run_bind. cbn [modifyS].
  rewrite u32_small by (unfold l_pageSize, is_u32, two32; lia).
  eexists _, _. split; [done |]. right. exists nb. split; [done |].
  assert (forall q, 0 <= q -> used (memory_bitmap (phys s)) q = true -> used (memory_bitmap m') q = true) as Hmono.
  { intros q Hq Hqu. destruct (decide (k <= q < k + pages_for sz)); [apply Hused; lia | by rewrite Hother by lia]. }
  split_and!; try done.
  - split; [done |]. exists base. simpl. by rewrite Eo, Ep.
  - split; try done; simpl; try (intros ? []%not_elem_of_nil).
    + exists k. unfold frame. rewrite Eo, Ep. split_and!; (done || lia).
    + unfold b_end, MAJOR. simpl. lia.
  - intros b Hb. destruct (rep_blocks _ _ Hr b Hb) as [(kb & Ekb & Hkb & Hpb & Hkpb & Hrun) C2 C3 C4 C5]. split.
    + split; try done. exists kb. unfold frame in *. simpl. rewrite Eo, Ep. split_and!; try done.
      intros q Hq. apply Hmono; [lia | by apply Hrun].
    + unfold apart, extent, b_end. simpl. rewrite Ekb. unfold frame, PAGE_SIZE.
      assert (kb + b_pages b <= k \/ k + pages_for sz <= kb) as Hd; [|lia].
      destruct (decide (kb + b_pages b <= k)) as [|Hn1]; [by left |]. destruct (decide (k + pages_for sz <= kb)) as [|Hn2]; [by right |].
      pose proof (Hrun (Z.max k kb) ltac:(lia)) as T1. pose proof (Hfree (Z.max k kb) ltac:(lia)) as T2. congruence.
Qed.

Lemma blk_ok_ext s s' b : phys s' = phys s -> minors s' = minors s -> infos s' = infos s -> blk_ok s b -> blk_ok s' b.
Proof. intros Hp Hm Hi []. split; try done; [by rewrite Hp | by rewrite Hm | by rewrite Hi]. Qed.

Lemma rep_ext s s' bs : phys s' = phys s -> l_memRoot s' = l_memRoot s -> majors s' = majors s -> minors s' = minors s ->
  infos s' = infos s -> (l_bestBet s' = NULL \/ l_bestBet s' ∈ map b_at bs) -> rep s bs -> rep s' bs.
Proof.
  intros Hp Hr Hma Hmi Hi Hb [R1 R2 R3 R4 R5 R6 R7]. split; try done.
  - by rewrite Hp.
  - by rewrite Hr.
  - by rewrite Hma.
  - intros b Hbin. eapply blk_ok_ext; [done..|]. by apply R4.
  - by rewrite Hmi.
Qed.

(** The new block is linked in at the end. *)
Lemma append_rep s s' s2 bs nb sz : rep s bs -> new_block s s' bs nb sz ->
  majors s2 = <[b_at nb := mk_node (last_or NULL (map blk_node bs)) NULL (blk_node nb).2]>
    (link_next (last_or NULL (map blk_node bs)) (b_at nb) (majors s)) ->
  l_memRoot s2 = head_or (b_at nb) (map blk_node bs) -> phys s2 = phys s' -> minors s2 = minors s -> infos s2 = infos s ->
  l_bestBet s2 = l_bestBet s -> rep s2 (bs ++ [nb]).
Proof.
  intros Hr (Hsecs & Hfit & Hmem & Hnb & Hbs & _ & (_ & Hbet' & Hmin & Hinf & _) & _) Hmaj Hroot Hph Hmin2 Hinf2 Hbet.
  assert (forall b, blk_ok s' b -> blk_ok s2 b) as Hext by (intros b; apply blk_ok_ext; congruence).
  pose proof (blk_ok_range s' nb Hmem Hnb) as (N1 & N2 & N3 & N4).
  assert (b_at nb ∉ map b_at bs) as Hfresh.
  { intros Hin. apply list_elem_of_fmap in Hin as (b & Eb & Hb). destruct (Hbs b Hb) as [Hbo Ha].
    pose proof (blk_ok_range s' b Hmem Hbo). unfold apart, extent in Ha. simpl in Ha. lia. }
  assert (NULL ∉ map b_at bs) as Hnull.
  { intros Hin. apply list_elem_of_fmap in Hin as (b & Eb & Hb). pose proof (rep_range _ _ _ Hr Hb). unfold NULL in *. lia. }
  split.
  - by rewrite Hph.
  - rewrite Hroot, map_app, head_or_app. simpl. done.
  - rewrite map_app. cbn [map]. change (blk_node nb) with (b_at nb, (blk_node nb).2).
    pose proof (dll_insert (majors s) (map blk_node bs) [] (b_at nb) (blk_node nb).2) as Hins.
    rewrite !app_nil_r, map_blk_at in Hins. rewrite Hmaj. apply Hins; [apply Hr | by eapply rep_nodup | done | done].
  - intros b Hb. apply elem_of_app in Hb as [Hb|Hb]; [by apply Hext, Hbs |].
    apply list_elem_of_singleton in Hb as ->. by apply Hext.
  - intros i j p q. rewrite map_app. cbn [map]. intros Hi Hj Hne.
    assert (forall k p, (map extent bs ++ [extent nb]) !! k = Some p -> map extent bs !! k = Some p \/ (k = length bs /\ p = extent nb)) as Hlk.
    { intros k p' Hk. apply lookup_app_Some in Hk as [Hk|[Hle Hk]]; [by left | right].
      rewrite length_map in *. destruct (k - length bs)%nat eqn:Ek; [|done]. injection Hk as <-. split; [lia | done]. }
    assert (forall k p, map extent bs !! k = Some p -> apart p (extent nb)) as Hap.
    { intros k p' Hk. apply extent_elem in Hk as (b & Hb & ->). by apply Hbs. }
    apply Hlk in Hi as [Hi|[-> ->]], Hj as [Hj|[-> ->]]; [by apply (rep_apart _ _ Hr i j) | by eapply Hap | | done].
    apply Hap in Hj. unfold apart in *. tauto.
  - rewrite Hbet, map_app. destruct (rep_bet _ _ Hr) as [?|?]; [by left | right; apply elem_of_app; by left].
  - intros a m. rewrite Hmin2. intros Hm Hmg. destruct (rep_live _ _ Hr a m Hm Hmg) as (b & x & Hb & Hx & <-).
    exists b, x. split; [apply elem_of_app; by left | done].
Qed.

Lemma refused_ext s s' sz : phys s' = phys s -> refused s sz -> refused s' sz.
Proof. intros H. unfold refused. by rewrite H. Qed.

Lemma append_block_ok s bs b sz : rep s (bs ++ [b]) -> 0 <= sz -> sz + 48 + 4096 <= two32 -> exists p s',
  append_block (b_at b) sz s = Ok (p, s') /\ liballoc_spinlock s' = liballoc_spinlock s /\ data s' = data s /\
  ((p = NULL /\ refused s sz /\ rep s' (bs ++ [b]) /\ phys s' = phys s) \/
   (exists nb, p = b_at nb /\ p <> NULL /\ b_secs nb = [] /\ sz + MAJOR + MINOR <= b_pages nb * 4096 /\
      rep s' ((bs ++ [b]) ++ [nb]) /\ s_freePages (phys s') = s_freePages (phys s) - b_pages nb)).
Proof.
  intros Hr H0 H1. destruct (allocate_new_page_ok s _ sz Hr H0 H1) as (p & s1 & E & Hcase).
  pose proof (blk_lookup _ _ _ _ Hr) as Hm. cbn [map head_or] in Hm.
  destruct (rep_range _ _ b Hr) as (R1 & R2 & R3 & R4); [apply elem_of_app; right; by apply elem_of_cons; left |].
  assert (b_at b <> NULL) as Hnn by (unfold NULL; lia).
  unfold append_block. rewrite (run_bind_Ok _ _ _ _ _ E).
  destruct Hcase as [(-> & Hrf & Hma & Hph & L1 & L2 & L3 & L4 & L5 & L6)|(nb & -> & Hnb)].
  - rewrite <- Hma in Hm. rewrite (run_bind_Ok _ _ _ _ _ (upd_maj_ok s1 _ _ _ Hnn Hm)).
    change (NULL =? NULL) with true. cbn iota. rewrite run_bind, run_ret. eexists _, _. split; [done |].
    split_and!; try done. left. split_and!; try done. eapply (rep_ext s); try done.
    + simpl. rewrite insert_id; [done | by rewrite Hm].
    + simpl. rewrite L2. apply Hr.
  - pose proof Hnb as (Hsecs & Hfit & Hmem & Hok & Hbs & Hma & (L1 & L2 & L3 & L4 & L5 & L6) & Hcnt).
    destruct (blk_ok_range s1 nb Hmem Hok) as (N1 & N2 & N3 & N4).
    assert (b_at nb <> NULL) as Hnbn by (unfold NULL; lia).
    assert (b_at b <> b_at nb) as Hne.
    { destruct (Hbs b) as [_ Ha]; [apply elem_of_app; right; by apply elem_of_cons; left |]. unfold apart, extent in Ha. simpl in Ha. lia. }
    assert (majors s1 !! b_at b = majors s !! b_at b) as Hm1 by (rewrite Hma; by apply lookup_insert_ne).
    rewrite <- Hm1 in Hm. rewrite (run_bind_Ok _ _ _ _ _ (upd_maj_ok s1 _ _ _ Hnn Hm)).
    destruct (Z.eqb_spec (b_at nb) NULL); [done |].
    erewrite run_bind_Ok; [|apply upd_maj_ok; [exact Hnbn |]; simpl; rewrite lookup_insert_ne by done; rewrite Hma; apply lookup_insert_eq].
    rewrite run_ret. eexists _, _. split; [done |]. split_and!; try done. right. exists nb. split_and!; try done.
    apply (append_rep s s1 _ (bs ++ [b]) nb sz Hr Hnb); try done.
    + cbn [majors set_majors]. rewrite map_app. cbn [map]. change (blk_node b) with (b_at b, (blk_node b).2). rewrite last_or_snoc.
      unfold link_next. destruct (Z.eqb_spec (b_at b) NULL); [done |].
      rewrite Hm1 in Hm. rewrite (alter_insert_of_Some _ _ _ _ Hm), Hma.
      rewrite (insert_insert_ne _ (b_at b) (b_at nb)) by done. rewrite insert_insert_eq. f_equal.
      unfold blk_node, set_prev, set_next. simpl. by rewrite Hsecs.
    + simpl. rewrite L1, (rep_root _ _ Hr), map_app. by destruct bs.
Qed.

(** ** The search over the blocks *)

(** The pages of the blocks. *)
Definition held (bs : list blk) : Z := foldr (fun b n => b_pages b + n) 0 bs.

(** A new section for [req] bytes: in one of the blocks [bs], or in a new block
    behind them; its pointer is [p].  There were [free] free pages before. *)
Definition added (free : Z) (s' : liballoc) (bs : list blk) (sz req p : Z) : Prop :=
  exists new bs1 b bs2 l1 x l2, (new = [] \/ new = [b] /\ bs1 = bs /\ bs2 = []) /\
    bs ++ new = bs1 ++ b :: bs2 /\ b_secs b = l1 ++ l2 /\ s_size x = sz /\ s_req x = req /\ s_ptr x = p /\
    rep s' (bs1 ++ Blk (b_at b) (b_pages b) (l1 ++ x :: l2) :: bs2) /\ (new <> [] -> b_secs b = []) /\
    s_freePages (phys s') + held new = free.

(** What [malloc] does once the size is known: it answers NULL, when the page
    allocator refuses, or a new section's pointer. *)
Definition alloc_result (s s' : liballoc) (bs : list blk) (sz req p : Z) : Prop :=
  data s' = data s /\
  ((p = NULL /\ refused s sz /\ rep s' bs /\ s_freePages (phys s') = s_freePages (phys s)) \/
   (p <> NULL /\ added (s_freePages (phys s)) s' bs sz req p)).

Lemma bet_ok s bs b best diff : rep s bs -> b ∈ bs -> exists best' s',
  (if best <? diff then modifyS (set_bestBet (b_at b)) ;; mret diff else mret best : K Z) s = Ok (best', s') /\
  rep s' bs /\ phys s' = phys s /\ data s' = data s /\ liballoc_spinlock s' = liballoc_spinlock s /\
  majors s' = majors s /\ l_memRoot s' = l_memRoot s.
Proof.
  intros Hr Hb. destruct (best <? diff); eexists _, _; split; try done; split_and!; try done.
  apply (rep_ext s); try done. right. simpl. apply list_elem_of_fmap. by exists b.
Qed.

Section block_loop.
Context (sz req : Z) (Hreq : 0 <= req) (Hsz : sz = req + (ALIGNMENT + ALIGN_INFO)) (Hsz2 : sz + 48 + 4096 <= two32).

(** A pointer handed out is not null. *)
Lemma placed_ptr s bs1 b bs2 : rep s (bs1 ++ b :: bs2) -> forall x, x ∈ b_secs b -> s_ptr x <> NULL.
Proof using.
  intros Hr x Hx. destruct (place_b_range s bs1 bs2 b Hr) as (R1 & R2 & R3 & R4 & Hb).
  destruct (sec_in_block _ _ _ Hb Hx) as (X1 & X2 & X3). unfold NULL, MAJOR in *.
  destruct (s_ptr_range x) as (P & _ & _); [lia | done | lia |]. unfold MINOR in *. lia.
Qed.

Lemma placed_added s s' bs new bs1 b bs2 p : bs ++ new = bs1 ++ b :: bs2 ->
  (new = [] \/ new = [b] /\ bs1 = bs /\ bs2 = []) -> (new <> [] -> b_secs b = []) ->
  placed_in s s' bs1 b bs2 sz req (Some p) ->
  p <> NULL /\ added (s_freePages (phys s) + held new) s' bs sz req p /\ same_env s s'.
Proof using.
  intros Ebs Hnew Hne (l1 & x & l2 & E1 & E2 & E3 & E4 & Hrep & Hse). split_and!; [| | done].
  2:{ exists new, bs1, b, bs2, l1, x, l2. destruct Hse as (_ & _ & ->). by split_and!. }
  rewrite <- E4. eapply placed_ptr; [exact Hrep |]. simpl. apply elem_of_app. right. by apply elem_of_cons; left.
Qed.

Lemma blk_diff s bs1 b bs2 : rep s (bs1 ++ b :: bs2) ->
  MAJOR <= secs_usage (b_secs b) <= b_pages b * 4096 /\
  u32 (b_pages b * 4096 - secs_usage (b_secs b)) = b_pages b * 4096 - secs_usage (b_secs b).
Proof using.
  intros Hr. destruct (place_b_range s bs1 bs2 b Hr) as (R1 & R2 & R3 & R4 & Hb).
  pose proof (secs_usage_bound _ _ _ (blk_layout _ _ Hb)). pose proof (secs_usage_pos _ _ _ (blk_layout _ _ Hb)).
  unfold b_end, MAJOR in *. split; [lia |]. apply u32_small. unfold is_u32, two32 in *. lia.
Qed.

(** A block without sections is used at once. *)
Lemma place_fresh s bs nb : rep s (bs ++ [nb]) -> b_secs nb = [] -> sz + MAJOR + MINOR <= b_pages nb * 4096 -> exists p s',
  place (b_at nb) sz req s = Ok (Some p, s') /\
  liballoc_spinlock s' = liballoc_spinlock s /\ data s' = data s /\ p <> NULL /\
  added (s_freePages (phys s) + b_pages nb) s' bs sz req p.
Proof using Hreq Hsz Hsz2.
  intros Hr He Hfit.
  destruct (place_ok s bs nb [] sz req Hr Hreq Hsz) as (r & s2 & E2 & Hp & Hsome);
    [rewrite He; simpl; lia | unfold two32, MINOR in *; lia |].
  destruct r as [p|]; [|by destruct (Hsome He)].
  destruct (placed_added s s2 bs [nb] bs nb [] p) as (Hpn & Ha & Hse1 & Hse2 & _); [done | by right | done.. |].
  replace (held [nb]) with (b_pages nb) in Ha by (unfold held; simpl; lia). exists p, s2. by split_and!.
Qed.

Lemma loop_fresh fuel s bs nb started best : rep s (bs ++ [nb]) -> b_secs nb = [] ->
  sz + MAJOR + MINOR <= b_pages nb * 4096 -> exists p s',
  block_loop (S fuel) (b_at nb) started best sz req s = Ok (p, s') /\
  liballoc_spinlock s' = liballoc_spinlock s /\ data s' = data s /\ p <> NULL /\
  added (s_freePages (phys s) + b_pages nb) s' bs sz req p.
Proof using Hreq Hsz Hsz2.
  intros Hr He Hfit. destruct (place_b_range s bs [] nb Hr) as (R1 & R2 & R3 & R4 & Hb).
  pose proof (blk_lookup _ _ _ _ Hr) as Hm. destruct (blk_diff _ _ _ _ Hr) as [_ Hd].
  assert (b_at nb <> NULL) as Hnn by (unfold NULL; lia).
  cbn [block_loop]. destruct (Z.eqb_spec (b_at nb) NULL); [done |].
  rewrite (run_bind_Ok _ _ _ _ _ (get_maj_ok s _ _ Hnn Hm)). cbn [size usage]. rewrite Hd.
  assert (nb ∈ bs ++ [nb]) as Hin by (apply elem_of_app; right; by apply list_elem_of_singleton).
  destruct (bet_ok s _ nb best (b_pages nb * 4096 - secs_usage (b_secs nb)) Hr Hin) as (best' & s1 & E1 & Hr1 & P1 & D1 & L1 & M1 & _).
  cbn zeta. rewrite (run_bind_Ok _ _ _ _ _ E1). rewrite He in *. cbn [secs_usage foldr] in *.
  unfold case1. rewrite (u32_small (sz + MINOR)) by (unfold is_u32, two32, MINOR, ALIGNMENT, ALIGN_INFO in *; lia).
  destruct (Z.ltb_spec (b_pages nb * 4096 - MAJOR) (sz + MINOR)); [lia |]. rewrite run_bind, run_ret.
  destruct (place_fresh s1 bs nb Hr1 He Hfit) as (p & s2 & E2 & H2 & D2 & Hpn & Ha). rewrite P1 in Ha.
  rewrite (run_bind_Ok _ _ _ _ _ E2). exists p, s2. split; [done |]. split_and!; (done || congruence).
Qed.

Lemma alloc_result_ext s s1 s' bs p : phys s1 = phys s -> data s1 = data s -> alloc_result s1 s' bs sz req p ->
  alloc_result s s' bs sz req p.
Proof using.
  intros Hp Hd [H1 H2]. split; [congruence |]. rewrite Hp in H2. destruct H2 as [(?&?&?&?)|H2]; [left | by right].
  split_and!; try done. by apply (refused_ext s1).
Qed.

(** The bound for the fuel: once over all blocks if the search has begun at the
    best bet, then over the rest of the blocks and a new one. *)
Definition rounds (started : Z) (bs bs2 : list blk) : nat :=
  ((if (started =? 1)%Z then length bs else 0) + length bs2 + 3)%nat.

Lemma block_loop_ok fuel s bs1 b bs2 started best : rep s (bs1 ++ b :: bs2) -> started = 0 \/ started = 1 ->
  (rounds started (bs1 ++ b :: bs2) bs2 <= fuel)%nat -> exists p s',
  block_loop fuel (b_at b) started best sz req s = Ok (p, s') /\ liballoc_spinlock s' = liballoc_spinlock s /\
  alloc_result s s' (bs1 ++ b :: bs2) sz req p.
Proof using Hreq Hsz Hsz2.
  revert s bs1 b bs2 started best. induction fuel as [|fuel IH]; intros s bs1 b bs2 started best Hr Hst Hf;
    [unfold rounds in Hf; lia |].
  destruct (place_b_range s bs1 bs2 b Hr) as (R1 & R2 & R3 & R4 & Hb).
  pose proof (blk_lookup _ _ _ _ Hr) as Hm. destruct (blk_diff _ _ _ _ Hr) as [Hu Hd].
  assert (b_at b <> NULL) as Hnn by (unfold NULL; lia).
  cbn [block_loop]. destruct (Z.eqb_spec (b_at b) NULL); [done |].
  rewrite (run_bind_Ok _ _ _ _ _ (get_maj_ok s _ _ Hnn Hm)). cbn [size usage]. rewrite Hd.
  assert (b ∈ bs1 ++ b :: bs2) as Hin by (apply elem_of_app; right; by apply elem_of_cons; left).
  destruct (bet_ok s _ b best (b_pages b * 4096 - secs_usage (b_secs b)) Hr Hin) as (best' & s1 & E1 & Hr1 & P1 & D1 & L1 & M1 & _).
  cbn zeta. rewrite (run_bind_Ok _ _ _ _ _ E1).
  (* the three ways on *)
  assert (forall c cs, bs2 = c :: cs -> exists p s',
    block_loop fuel (b_at c) started best' sz req s1 = Ok (p, s') /\ liballoc_spinlock s' = liballoc_spinlock s /\
    alloc_result s s' (bs1 ++ b :: bs2) sz req p) as Hhop.
  { intros c cs ->. destruct (IH s1 (bs1 ++ [b]) c cs started best') as (p & s' & E & Hl & Ha).
    - by rewrite <- app_assoc.
    - done.
    - rewrite <- app_assoc. unfold rounds in *. simpl in *. lia.
    - rewrite <- app_assoc in Ha. exists p, s'. split_and!; [done | congruence | by eapply alloc_result_ext]. }
  assert (started = 1 -> exists p s',
    block_loop fuel (l_memRoot s1) 0 best' sz req s1 = Ok (p, s') /\ liballoc_spinlock s' = liballoc_spinlock s /\
    alloc_result s s' (bs1 ++ b :: bs2) sz req p) as Hroot.
  { intros ->. rewrite (rep_root _ _ Hr1). destruct (bs1 ++ b :: bs2) as [|c cs] eqn:Ebs; [by destruct bs1 |].
    destruct (IH s1 [] c cs 0 best') as (p & s' & E & Hl & Ha); [done | by left | unfold rounds in *; simpl in *; lia |].
    exists p, s'. split_and!; [done | congruence | by eapply alloc_result_ext]. }
  assert (bs2 = [] -> exists p s', append_block (b_at b) sz s1 = Ok (p, s') /\ liballoc_spinlock s' = liballoc_spinlock s /\
    data s' = data s /\ ((p = NULL /\ alloc_result s s' (bs1 ++ b :: bs2) sz req NULL) \/
      (exists nb, p = b_at nb /\ p <> NULL /\ b_secs nb = [] /\ sz + MAJOR + MINOR <= b_pages nb * 4096 /\
      rep s' ((bs1 ++ b :: bs2) ++ [nb]) /\ s_freePages (phys s') + b_pages nb = s_freePages (phys s)))) as Hnew.
  { intros ->. destruct (append_block_ok s1 bs1 b sz Hr1) as (p & s' & E & Hl & Hda & Hc); [unfold ALIGNMENT, ALIGN_INFO in *; lia | done |].
    exists p, s'. split_and!; [done | congruence.. |]. destruct Hc as [(-> & Hrf & Hr' & Hp')|(nb & ? & ? & ? & ? & ? & Hcnt)]; [left | right].
    - split; [done |]. split; [congruence |]. left. split_and!; try done; [by apply (refused_ext s1) | by rewrite Hp', P1].
    - exists nb. split_and!; try done. rewrite Hcnt, P1. lia. }
  unfold case1. rewrite (u32_small (sz + MINOR)) by (unfold is_u32, two32, MINOR, ALIGNMENT, ALIGN_INFO in *; lia). cbn [next].
  destruct (Z.ltb_spec (b_pages b * 4096 - secs_usage (b_secs b)) (sz + MINOR)) as [Hsmall|Hbig].
  - (* case 1 *)
    destruct bs2 as [|c cs]; cbn [map head_or].
    + change (negb (NULL =? NULL)) with false. cbn iota. destruct (Z.eqb_spec started 1) as [Es|Es].
      { rewrite run_bind, run_bind. cbn [getS]. rewrite run_ret. by apply Hroot. }
      destruct (Hnew eq_refl) as (p & s2 & E2 & Hl2 & Hd2 & Hc). rewrite run_bind, (run_bind_Ok _ _ _ _ _ E2), run_ret.
      destruct Hc as [[-> Hc]|(nb & -> & Hnbn & He & Hfit & Hr2 & Hcnt)].
      { change (NULL =? NULL) with true. cbn iota. rewrite run_ret. by exists NULL, s2. }
      destruct (Z.eqb_spec (b_at nb) NULL); [done |]. cbn iota.
      destruct (place_fresh s2 _ nb Hr2 He Hfit) as (p & s3 & E3 & Hl3 & Hd3 & Hpn & Ha). rewrite Hcnt in Ha.
      rewrite (run_bind_Ok _ _ _ _ _ E3), run_ret. exists p, s3. split_and!; [done | congruence |].
      split; [congruence |]. by right.
    + pose proof (rep_range _ _ c Hr ltac:(apply elem_of_app; right; apply elem_of_cons; right; by apply elem_of_cons; left)).
      change (let (a, _) := blk_node c in a) with (b_at c).
      destruct (Z.eqb_spec (b_at c) NULL); [unfold NULL in *; lia |]. cbn [negb]. rewrite run_bind, run_ret. by eapply Hhop.
  - rewrite run_bind, run_ret.
    destruct (place_ok s1 bs1 b bs2 sz req Hr1 Hreq Hsz) as (r & s2 & E2 & Hp & _); [lia | unfold two32, MINOR in *; lia |].
    rewrite (run_bind_Ok _ _ _ _ _ E2). destruct r as [p|].
    { destruct (placed_added s1 s2 (bs1 ++ b :: bs2) [] bs1 b bs2 p) as (Hpn & Ha & Hse1 & Hse2 & _);
        [by rewrite app_nil_r | by left | done.. |].
      unfold held in Ha. cbn [foldr] in Ha. rewrite Z.add_0_r, P1 in Ha. rewrite run_ret. exists p, s2. split_and!; [done | congruence |]. split; [congruence |]. by right. }
    simpl in Hp. subst s2. rewrite <- M1 in Hm. rewrite (run_bind_Ok _ _ _ _ _ (get_maj_ok s1 _ _ Hnn Hm)). cbn [next].
    destruct bs2 as [|c cs]; cbn [map head_or].
    + change (NULL =? NULL) with true. cbn iota. destruct (Z.eqb_spec started 1) as [Es|Es].
      { rewrite run_bind. cbn [getS]. by apply Hroot. }
      destruct (Hnew eq_refl) as (p & s2 & E3 & Hl2 & Hd2 & Hc). rewrite (run_bind_Ok _ _ _ _ _ E3).
      destruct Hc as [[-> Hc]|(nb & -> & Hnbn & He & Hfit & Hr2 & Hcnt)].
      { change (NULL =? NULL) with true. cbn iota. rewrite run_ret. by exists NULL, s2. }
      destruct (Z.eqb_spec (b_at nb) NULL); [done |]. cbn iota.
      destruct fuel as [|fuel]; [unfold rounds in Hf; simpl in Hf; lia |].
      destruct (loop_fresh fuel s2 _ nb started best' Hr2 He Hfit) as (p & s3 & E4 & Hl3 & Hd3 & Hpn & Ha). rewrite Hcnt in Ha.
      exists p, s3. split_and!; [done | congruence |]. split; [congruence |]. by right.
    + pose proof (rep_range _ _ c Hr ltac:(apply elem_of_app; right; apply elem_of_cons; right; by apply elem_of_cons; left)).
      change (let (a, _) := blk_node c in a) with (b_at c).
      destruct (Z.eqb_spec (b_at c) NULL); [unfold NULL in *; lia |]. cbn iota. by eapply Hhop.
Qed.
End block_loop.

(** ** [malloc] *)

(** The fuel of the search is enough: every block has a header. *)
Lemma blocks_count s bs : rep s bs -> (length bs <= length (map_to_list (majors s)))%nat.
Proof.
  intros Hr. replace (length (map_to_list (majors s))) with (base.size (dom (majors s) : gset Z)).
  2:{ rewrite size_dom. symmetry. apply length_map_to_list. }
  replace (length bs) with (base.size (list_to_set (map b_at bs) : gset Z)).
  2:{ rewrite size_list_to_set; [apply length_map | by eapply rep_nodup]. }
  apply subseteq_size. intros a Ha. apply elem_of_list_to_set, list_elem_of_fmap in Ha as (b & -> & Hb).
  apply list_elem_of_split in Hb as (bs1 & bs2 & ->). apply elem_of_dom. eexists. by apply blk_lookup.
Qed.

Lemma unlock_ok s : liballoc_unlock s = Ok (tt, set_lock 0 s).
Proof. done. Qed.

Lemma rep_lock s bs v : rep s bs -> rep (set_lock v s) bs.
Proof. intros Hr. apply (rep_ext s); try done. apply Hr. Qed.

Lemma alloc_result_lock s s' bs sz req p v : alloc_result s s' bs sz req p -> alloc_result s (set_lock v s') bs sz req p.
Proof.
  intros [Hd H]. split; [done |]. destruct H as [(-> & Hrf & Hr & Hc)|(Hp & new & bs1 & b & bs2 & l1 & x & l2 & H1 & H2 & H3 & H4 & H5 & H6 & H7 & H8 & H9)].
  - left. split_and!; try done. by apply rep_lock.
  - right. split; [done |]. exists new, bs1, b, bs2, l1, x, l2. split_and!; try done. by apply rep_lock.
Qed.

Section malloc_sized.
Context (s : liballoc) (bs : list blk) (sz req : Z).
Context (Hr : rep s bs) (Hreq : 0 <= req) (Hsz : sz = req + (ALIGNMENT + ALIGN_INFO)) (Hsz2 : sz + 48 + 4096 <= two32).

(** The first block. *)
Lemma malloc_sized_first : bs = [] -> exists p s', malloc_sized req sz s = Ok (p, s') /\
  unlocked s' /\ alloc_result s s' bs sz req p.
Proof using All.
  intros ->. pose proof (rep_root _ _ Hr) as Hroot. cbn [map head_or] in Hroot.
  assert (l_bestBet s = NULL) as Hbet.
  { destruct (rep_bet _ _ Hr) as [?|Hin]; [done | by apply not_elem_of_nil in Hin]. }
  destruct (allocate_new_page_ok s [] sz Hr) as (p & s1 & E & Hc); [unfold ALIGNMENT, ALIGN_INFO in *; lia | done |].
  unfold malloc_sized. rewrite run_bind. cbn [getS]. rewrite Hroot. change (NULL =? NULL) with true. cbn iota.
  rewrite run_bind, (run_bind_Ok _ _ _ _ _ E), run_bind. cbn [modifyS]. rewrite run_ret.
  destruct Hc as [(-> & Hrf & Hma & Hph & L1 & L2 & L3 & L4 & L5 & L6)|(nb & -> & Hnb)].
  - change (NULL =? NULL) with true. cbn iota. rewrite (run_bind_Ok _ _ _ _ _ (unlock_ok _)), run_ret.
    eexists _, _. split; [done |]. split; [done |]. split; [done |]. left. split_and!; try done; [|simpl; by rewrite Hph].
    apply (rep_ext s); try done. left. simpl. by rewrite L2.
  - pose proof Hnb as (He & Hfit & Hmem & Hok & _ & Hma & (L1 & L2 & L3 & L4 & L5 & L6) & Hcnt).
    destruct (blk_ok_range s1 nb Hmem Hok) as (N1 & _).
    destruct (Z.eqb_spec (b_at nb) NULL) as [En|Hn]; [unfold NULL in En; lia |]. rewrite run_bind. cbn [getS l_bestBet set_memRoot].
    rewrite L2, Hbet. change (negb (NULL =? NULL)) with false. cbn iota. rewrite run_bind, run_ret. cbn iota beta. cbn [l_memRoot set_memRoot].
    assert (rep (set_memRoot (b_at nb) s1) ([] ++ [nb])) as Hr2.
    { apply (append_rep s s1 _ [] nb sz Hr Hnb); try done. simpl. rewrite Hma. unfold blk_node. simpl. by rewrite He. }
    destruct (loop_fresh sz req Hreq Hsz Hsz2 (3 + 2 * length (map_to_list (majors s1))) _ [] nb 0 0 Hr2 He Hfit)
      as (p & s2 & E2 & Hl2 & Hd2 & Hpn & Ha).
    change (4 + 2 * length (map_to_list (majors (set_memRoot (b_at nb) s1))))%nat with (S (3 + 2 * length (map_to_list (majors s1)))).
    rewrite (run_bind_Ok _ _ _ _ _ E2), (run_bind_Ok _ _ _ _ _ (unlock_ok _)), run_ret. eexists _, _. split; [done |].
    split; [done |]. apply alloc_result_lock. split; [rewrite Hd2; done |]. right. split; [done |].
    cbn [phys set_memRoot] in Ha. by replace (s_freePages (phys s1) + b_pages nb) with (s_freePages (phys s)) in Ha by lia.
Qed.

Lemma malloc_sized_ok : exists p s', malloc_sized req sz s = Ok (p, s') /\ unlocked s' /\ alloc_result s s' bs sz req p.
Proof using All.
  assert (bs = [] \/ exists c cs, bs = c :: cs) as [Ebs|(c & cs & Ebs)] by (clear; destruct bs; eauto);
    [by apply malloc_sized_first |].
  pose proof (rep_root _ _ Hr) as Hroot. rewrite Ebs in Hroot at 1. cbn [map head_or] in Hroot.
  change (let (a, _) := blk_node c in a) with (b_at c) in Hroot.
  assert (b_at c <> NULL) as Hn.
  { destruct (rep_range s bs c Hr) as (R & _); [rewrite Ebs; by apply elem_of_cons; left |]. unfold NULL. lia. }
  pose proof (blocks_count _ _ Hr) as Hcnt.
  unfold malloc_sized. rewrite run_bind. cbn [getS]. rewrite Hroot. destruct (Z.eqb_spec (b_at c) NULL); [done |].
  rewrite run_bind, run_ret. destruct (Z.eqb_spec (b_at c) NULL); [done |]. rewrite run_bind. cbn [getS].
  assert (forall b best started, b ∈ bs -> started = 0 \/ started = 1 -> exists p s',
    (p ← block_loop (4 + 2 * length (map_to_list (majors s))) (b_at b) started best sz req; liballoc_unlock ;; mret p : K Z) s
    = Ok (p, s') /\ unlocked s' /\ alloc_result s s' bs sz req p) as Hloop.
  { intros b best started (bs1 & bs2 & E)%list_elem_of_split Hst. pose proof Hr as Hr'. rewrite E in Hr' |- *.
    destruct (block_loop_ok sz req Hreq Hsz Hsz2 (4 + 2 * length (map_to_list (majors s))) s bs1 b bs2 started best Hr' Hst)
      as (p & s' & Ep & Hl & Ha).
    { rewrite E, length_app in Hcnt. simpl in Hcnt. unfold rounds. rewrite length_app. simpl. destruct (started =? 1)%Z; lia. }
    rewrite (run_bind_Ok _ _ _ _ _ Ep), (run_bind_Ok _ _ _ _ _ (unlock_ok _)), run_ret. eexists _, _. split; [done |].
    split; [done |]. by apply alloc_result_lock. }
  destruct (Z.eqb_spec (l_bestBet s) NULL) as [Hb|Hb]; cbn [negb].
  - rewrite run_bind, run_ret. cbn iota beta. rewrite Hroot. apply Hloop; [rewrite Ebs; by apply elem_of_cons; left | by left].
  - destruct (rep_bet _ _ Hr) as [?|Hin]; [done |]. apply list_elem_of_fmap in Hin as (b & Eb & Hin).
    rewrite Eb in *. assert (exists m, majors s !! b_at b = Some m) as [m Hm].
    { pose proof Hin as (bs1 & bs2 & E)%list_elem_of_split. pose proof Hr as Hr'. rewrite E in Hr'. eexists. by eapply blk_lookup. }
    rewrite run_bind, (run_bind_Ok _ _ _ _ _ (get_maj_ok s _ _ Hb Hm)), run_ret.
    destruct (u32 (sz + MINOR) <? u32 (size m - usage m)).
    + apply Hloop; [done | by right].
    + rewrite Hroot. apply Hloop; [rewrite Ebs; by apply elem_of_cons; left | by left].
Qed.
End malloc_sized.

Lemma lock_ok s : unlocked s -> liballoc_lock s = Ok (tt, set_lock 1 s).
Proof. intros Hu. unfold liballoc_lock. mrun. by rewrite Hu. Qed.

(** [malloc] on a consistent heap, for requests that leave room for the headers
    below 4 GB. *)
Lemma malloc_ok s bs req : rep s bs -> unlocked s -> 0 <= req -> req + 6 + 48 + 4096 <= two32 -> exists p s',
  malloc req s = Ok (p, s') /\ unlocked s' /\ alloc_result s s' bs (req + 6) req p.
Proof.
  intros Hr Hu H0 H1. unfold malloc, ALIGNMENT, ALIGN_INFO. rewrite (u32_small (req + _)) by (unfold is_u32, two32 in *; lia).
  rewrite (run_bind_Ok _ _ _ _ _ (lock_ok s Hu)). destruct (Z.eqb_spec (req + (4 + 2)) 0); [lia |].
  destruct (malloc_sized_ok (set_lock 1 s) bs (req + 6) req (rep_lock _ _ _ Hr) H0) as (p & s' & E & Hu' & Ha); [done | lia |].
  exists p, s'. split_and!; [done | done |]. destruct Ha as [Hd Ha]. by split.
Qed.

(** ** Taking a section out of its block *)

Lemma layout_weaken lo lo' l hi : lo' <= lo -> layout lo l hi -> layout lo' l hi.
Proof. destruct l as [|y l]; simpl; [lia |]. intros H (H1 & H2 & H3). split_and!; (lia || done). Qed.

Lemma layout_remove lo l1 x l2 hi : layout lo (l1 ++ x :: l2) hi -> layout lo (l1 ++ l2) hi.
Proof.
  rewrite !layout_app. simpl. intros (L1 & A1 & A2 & L2). split; [done |].
  eapply layout_weaken; [|done]. unfold s_end, MINOR. lia.
Qed.

Lemma elem_of_sub (A : Type) (l1 : list A) x l2 y : y ∈ l1 ++ l2 -> y ∈ l1 ++ x :: l2.
Proof. rewrite !elem_of_app, elem_of_cons. tauto. Qed.
Lemma elem_of_mid (A : Type) (l1 : list A) x l2 : x ∈ l1 ++ x :: l2.
Proof. apply elem_of_app. right. by apply elem_of_cons; left. Qed.
Lemma elem_of_mid_inv (A : Type) (l1 : list A) x l2 y : y ∈ l1 ++ x :: l2 -> y = x \/ y ∈ l1 ++ l2.
Proof. rewrite !elem_of_app, elem_of_cons. tauto. Qed.

Section remove.
Context (s s' : liballoc) (bs1 bs2 : list blk) (b : blk) (l1 l2 : list section) (x : section).
Context (Hr : rep s (bs1 ++ b :: bs2)) (Hsecs : b_secs b = l1 ++ x :: l2).
Local Abbreviation nodes := (map (sec_node (b_at b))).
Local Abbreviation b' := (Blk (b_at b) (b_pages b) (l1 ++ l2)).
Context (Hmin : minors s' = splice (head_or NULL (nodes l2)) (last_or NULL (nodes l1)) (nodes l1) (nodes l2)
  (<[s_at x := Minor (last_or NULL (nodes l1)) (head_or NULL (nodes l2)) (b_at b) LIBALLOC_DEAD (s_size x) (s_req x)]> (minors s))).
Context (Hmaj : majors s' = <[b_at b := mk_node (last_or NULL (map blk_node bs1)) (head_or NULL (map blk_node bs2))
  (blk_node b').2]> (majors s)).
Context (Hinf : infos s' = infos s) (Hph : phys s' = phys s) (Hroot : l_memRoot s' = l_memRoot s)
  (Hbet : l_bestBet s' = l_bestBet s).

Lemma nodes_at l : (nodes l).*1 = map s_at l.
Proof using. induction l as [|y l IH]; [done |]. simpl. f_equal. exact IH. Qed.

Lemma remove_b_ok : blk_ok s b.
Proof using Hr. apply (rep_blocks _ _ Hr), elem_of_mid. Qed.

Lemma remove_null : NULL ∉ map s_at (l1 ++ x :: l2) /\ NoDup (map s_at (l1 ++ x :: l2)).
Proof using Hr Hsecs.
  pose proof (blk_layout _ _ remove_b_ok) as Hl. rewrite Hsecs in Hl. split; [|by eapply layout_nodup].
  intros Hin. apply list_elem_of_fmap in Hin as (y & Ey & Hy). apply (layout_bounds _ _ _ _ Hl) in Hy as (?&_).
  destruct (rep_range _ _ b Hr) as (R1 & _); [apply elem_of_mid |]. unfold NULL, MAJOR in *. lia.
Qed.

Lemma remove_nodup : NULL ∉ map s_at (l1 ++ l2) /\ NoDup (map s_at (l1 ++ l2)) /\ s_at x ∉ map s_at (l1 ++ l2).
Proof using Hr Hsecs.
  destruct remove_null as [Hn Hnd]. rewrite !map_app in *. cbn [map] in *. split_and!.
  - intros Hin. apply Hn. by apply elem_of_sub.
  - apply NoDup_app in Hnd as (N1 & N2 & N3). apply NoDup_cons in N3 as [_ N3]. apply NoDup_app. split_and!; try done.
    intros a Ha Ha2. apply (N2 a Ha). by apply elem_of_cons; right.
  - apply NoDup_app in Hnd as (N1 & N2 & N3). apply NoDup_cons in N3 as [N3 _]. rewrite elem_of_app.
    intros [Hin|Hin]; [apply (N2 _ Hin); by apply elem_of_cons; left | done].
Qed.

(** The headers elsewhere are as before. *)
Lemma remove_other c y : c ∈ bs1 ++ bs2 -> y ∈ b_secs c -> minors s' !! s_at y = minors s !! s_at y.
Proof using Hr Hsecs Hmin.
  intros Hc Hy. pose proof (rep_apart2 _ _ _ _ _ Hr Hc) as Hap. unfold apart, extent in Hap. simpl in Hap.
  assert (blk_ok s c) as Hco by (apply (rep_blocks _ _ Hr); by apply elem_of_sub).
  destruct (sec_in_block _ _ _ Hco Hy) as (C1 & C2 & C3).
  assert (forall z, z ∈ l1 ++ x :: l2 -> s_at z <> s_at y) as Hz.
  { intros z Hz Ez. rewrite <- Hsecs in Hz. destruct (sec_in_block _ _ _ remove_b_ok Hz) as (?&?&?).
    unfold s_end, MAJOR, MINOR, ALIGNMENT, ALIGN_INFO in *. lia. }
  rewrite Hmin, splice_other.
  - rewrite lookup_insert_ne; [done |]. apply Hz, elem_of_mid.
  - rewrite <- map_app. change ((nodes (l1 ++ l2)).*1) with ((nodes (l1 ++ l2)).*1). rewrite nodes_at.
    intros Hin. apply list_elem_of_fmap in Hin as (z & Ez & Hin). apply (Hz z); [by apply elem_of_sub | done].
  - destruct (rep_range _ _ c Hr) as (R1 & _); [by apply elem_of_sub |]. unfold NULL, MAJOR in *. lia.
Qed.

Lemma remove_blk_ok c : c ∈ bs1 ++ bs2 -> blk_ok s' c.
Proof using Hr Hsecs Hmin Hinf Hph.
  intros Hc. assert (blk_ok s c) as [C1 C2 C3 C4 C5] by (apply (rep_blocks _ _ Hr); by apply elem_of_sub). split; try done.
  - by rewrite Hph.
  - eapply seg_frame; [|exact C3]. intros a Ha. rewrite map_sec_at in Ha. apply list_elem_of_fmap in Ha as (y & -> & Hy).
    by eapply remove_other.
  - by rewrite Hinf.
Qed.

Lemma remove_b' : blk_ok s' b'.
Proof using Hr Hsecs Hmin Hinf Hph.
  pose proof remove_b_ok as [C1 C2 C3 C4 C5]. rewrite Hsecs in *. destruct remove_nodup as (N1 & N2 & N3).
  destruct remove_null as [N4 N5]. split; simpl.
  - by rewrite Hph.
  - by eapply layout_remove.
  - unfold sec_nodes in *. simpl. rewrite Hsecs, map_app in C3. cbn [map] in C3.
    change (sec_node (b_at b) x) with (s_at x, (b_at b, LIBALLOC_MAGIC, s_size x, s_req x)) in C3.
    apply (seg_update _ _ _ _ _ (b_at b, LIBALLOC_DEAD, s_size x, s_req x)) in C3.
    + rewrite Hmin, map_app. eapply dll_remove; [exact C3 | |]; by rewrite <- map_app, nodes_at.
    + rewrite fmap_app. cbn [fmap list_fmap]. change (list_fmap ?A ?B ?f ?l) with (f <$> l). rewrite !nodes_at.
      rewrite map_app in N5. exact N5.
  - intros y Hy. rewrite Hinf. apply C4. by apply elem_of_sub.
  - intros y Hy. apply C5. by apply elem_of_sub.
Qed.

Lemma remove_rep : rep s' (bs1 ++ b' :: bs2).
Proof using All.
  assert (map b_at (bs1 ++ b' :: bs2) = map b_at (bs1 ++ b :: bs2)) as Hat by by rewrite !map_app.
  split.
  - rewrite Hph. apply Hr.
  - rewrite Hroot, (rep_root _ _ Hr), !map_app. by destruct bs1.
  - rewrite Hmaj, map_app. cbn [map]. change (blk_node b') with (b_at b, (blk_node b').2).
    pose proof (rep_majors _ _ Hr) as Hs. rewrite map_app in Hs. cbn [map] in Hs.
    change (blk_node b) with (b_at b, (blk_node b).2) in Hs.
    eapply seg_update; [exact Hs |]. pose proof (rep_nodup _ _ Hr) as Hnd. rewrite <- map_blk_at, map_app in Hnd. exact Hnd.
  - intros c [->|Hc]%elem_of_mid_inv; [apply remove_b' | by apply remove_blk_ok].
  - intros i j p q. pose proof (rep_apart _ _ Hr i j p q) as Ha. rewrite !map_app in *. exact Ha.
  - rewrite Hbet, Hat. apply Hr.
  - intros a m Hm Hmg. rewrite Hmin in Hm. apply splice_magic in Hm as (m0 & Hm0 & Hmg0).
    destruct (decide (a = s_at x)) as [->|Hne].
    { rewrite lookup_insert_eq in Hm0. injection Hm0 as <-. simpl in Hmg0. rewrite Hmg in Hmg0. done. }
    rewrite lookup_insert_ne in Hm0 by done.
    destruct (rep_live _ _ Hr a m0 Hm0) as (c & y & Hc & Hy & <-); [congruence |].
    apply elem_of_mid_inv in Hc as [->|Hc].
    + exists b', y. split; [apply elem_of_mid |]. split; [|done]. simpl. rewrite Hsecs in Hy.
      by apply elem_of_mid_inv in Hy as [->|Hy].
    + exists c, y. split; [by apply elem_of_sub | done].
Qed.
End remove.

(** The guarded updates of a neighbour are the updates of the list. *)
Lemma set_minors_id s : set_minors (minors s) s = s.
Proof. by destruct s. Qed.
Lemma set_majors_id s : set_majors (majors s) s = s.
Proof. by destruct s. Qed.

Lemma link_minor_prev n v s : n = NULL \/ is_Some (minors s !! n) ->
  (if negb (n =? NULL) then upd_min n (set_mprev v) else mret tt : K unit) s = Ok (tt, set_minors (link_prev n v (minors s)) s).
Proof.
  intros Hn. unfold link_prev. destruct (Z.eqb_spec n NULL) as [->|Hne]; cbn [negb]; [by rewrite set_minors_id |].
  destruct Hn as [->|[m Hm]]; [done |]. rewrite (upd_min_ok _ _ _ _ Hne Hm). by rewrite (alter_insert_of_Some _ _ _ _ Hm).
Qed.
Lemma link_minor_next n v s : n = NULL \/ is_Some (minors s !! n) ->
  (if negb (n =? NULL) then upd_min n (set_mnext v) else mret tt : K unit) s = Ok (tt, set_minors (link_next n v (minors s)) s).
Proof.
  intros Hn. unfold link_next. destruct (Z.eqb_spec n NULL) as [->|Hne]; cbn [negb]; [by rewrite set_minors_id |].
  destruct Hn as [->|[m Hm]]; [done |]. rewrite (upd_min_ok _ _ _ _ Hne Hm). by rewrite (alter_insert_of_Some _ _ _ _ Hm).
Qed.
Lemma link_major_prev n v s : n = NULL \/ is_Some (majors s !! n) ->
  (if negb (n =? NULL) then upd_maj n (set_prev v) else mret tt : K unit) s = Ok (tt, set_majors (link_prev n v (majors s)) s).
Proof.
  intros Hn. unfold link_prev. destruct (Z.eqb_spec n NULL) as [->|Hne]; cbn [negb]; [by rewrite set_majors_id |].
  destruct Hn as [->|[m Hm]]; [done |]. rewrite (upd_maj_ok _ _ _ _ Hne Hm). by rewrite (alter_insert_of_Some _ _ _ _ Hm).
Qed.
Lemma link_major_next n v s : n = NULL \/ is_Some (majors s !! n) ->
  (if negb (n =? NULL) then upd_maj n (set_next v) else mret tt : K unit) s = Ok (tt, set_majors (link_next n v (majors s)) s).
Proof.
  intros Hn. unfold link_next. destruct (Z.eqb_spec n NULL) as [->|Hne]; cbn [negb]; [by rewrite set_majors_id |].
  destruct Hn as [->|[m Hm]]; [done |]. rewrite (upd_maj_ok _ _ _ _ Hne Hm). by rewrite (alter_insert_of_Some _ _ _ _ Hm).
Qed.

Lemma seg_head_some {P N} `{DNode P N} (h : gmap Z N) p l n : seg h p l n -> head_or NULL l = NULL \/ is_Some (h !! head_or NULL l).
Proof. destruct l as [|[a x] l]; simpl; [by left | intros [-> _]; by right]. Qed.
Lemma seg_last_some {P N} `{DNode P N} (h : gmap Z N) p l n : seg h p l n -> last_or NULL l = NULL \/ is_Some (h !! last_or NULL l).
Proof.
  intros Hs. destruct (last_or_in NULL l) as [->|Hin]; [by left | right]. by eapply seg_dom.
Qed.

(** ** Giving back an empty block *)

Section release.
Context (s : liballoc) (bs1 bs2 : list blk) (b : blk).
Context (Hr : rep s (bs1 ++ b :: bs2)) (Hempty : b_secs b = []).
Local Abbreviation nodes := (map blk_node).

Lemma release_nodup : NoDup (map b_at (bs1 ++ b :: bs2)) /\ NoDup (map b_at (bs1 ++ bs2)) /\ b_at b ∉ map b_at (bs1 ++ bs2) /\
  NULL ∉ map b_at (bs1 ++ bs2).
Proof using Hr.
  pose proof (rep_nodup _ _ Hr) as Hnd. split; [done |]. rewrite !map_app in *. cbn [map] in *.
  apply NoDup_app in Hnd as (N1 & N2 & N3). apply NoDup_cons in N3 as [N3 N4]. split_and!.
  - apply NoDup_app. split_and!; try done. intros a Ha Ha2. apply (N2 a Ha). by apply elem_of_cons; right.
  - rewrite elem_of_app. intros [Hin|Hin]; [apply (N2 _ Hin); by apply elem_of_cons; left | done].
  - rewrite <- map_app. intros Hin. apply list_elem_of_fmap in Hin as (c & Ec & Hc).
    destruct (rep_range _ _ c Hr) as (R & _); [by apply elem_of_sub |]. unfold NULL in *. lia.
Qed.

(** What [release_block] leaves. *)
Record released (s' : liballoc) : Prop := {
  rl_majors : majors s' = delete (b_at b) (splice (head_or NULL (nodes bs2)) (last_or NULL (nodes bs1)) (nodes bs1) (nodes bs2) (majors s));
  rl_minors : minors s' = scrub MINOR (b_at b) (b_end b) (minors s);
  rl_infos : infos s' = scrub ALIGN_INFO (b_at b) (b_end b) (infos s);
  rl_root : l_memRoot s' = if l_memRoot s =? b_at b then head_or NULL (nodes bs2) else l_memRoot s;
  rl_bet : l_bestBet s' = if l_bestBet s =? b_at b then NULL else l_bestBet s;
  rl_freed : forall k, b_at b = frame (phys s) k -> run_of (memory_bitmap (phys s')) k (b_pages b) false;
  rl_kept : forall k q, b_at b = frame (phys s) k -> 0 <= q -> ~ (k <= q < k + b_pages b) ->
    used (memory_bitmap (phys s')) q = used (memory_bitmap (phys s)) q;
  rl_mem : mem_ok (phys s') /\ memory_pages (phys s') = memory_pages (phys s) /\ memory_offset (phys s') = memory_offset (phys s) /\
    s_freePages (phys s') = s_freePages (phys s) + b_pages b;
  rl_env : liballoc_spinlock s' = liballoc_spinlock s /\ data s' = data s
}.

Lemma release_block_ok : exists s', release_block (b_at b) s = Ok (tt, s') /\ released s'.
Proof using Hr.
  destruct (place_b_range s bs1 bs2 b Hr) as (R1 & R2 & R3 & R4 & Hb).
  assert (b_at b <> NULL) as Hnn by (unfold NULL; lia).
  destruct release_nodup as (N1 & N2 & N3 & N4).
  pose proof (rep_majors _ _ Hr) as Hseg. rewrite map_app in Hseg. apply seg_app in Hseg as [S1 S2]. cbn [map seg] in S2.
  change (seg (majors s) (last_or NULL (nodes bs1)) (blk_node b :: nodes bs2) NULL) with
    (seg (majors s) (last_or NULL (nodes bs1)) ((b_at b, (blk_node b).2) :: nodes bs2) NULL) in S2. cbn [seg] in S2. destruct S2 as [_ S2].
  pose proof (seg_last_some _ _ _ _ S1) as Hl. pose proof (seg_head_some _ _ _ _ S2) as Hh.
  destruct (rep_mem _ _ Hr) as (Hpm & base & Ho & Hb1 & Hb2).
  destruct (blk_pages _ _ Hb) as (k & Ek & Hk & Hp & Hkp & Hrun).
  destruct (memory_free_spec (b_pages b) k (phys s) Hpm Hk Hp Hkp) as [Hfree _].
  destruct (Hfree Hrun) as (m' & Em & Hwf' & Hcl & Hoth & Hcnt & Ep & Eo).
  rewrite u32_small in Em by (unfold frame in Ek; rewrite <- Ek; unfold is_u32, b_end, two32 in *; lia).
  change (k * PAGE_SIZE + memory_offset (phys s)) with (frame (phys s) k) in Em. rewrite <- Ek in Em.
  set (s1 := if l_memRoot s =? b_at b then set_memRoot (head_or NULL (nodes bs2)) s else s).
  set (s2 := if l_bestBet s =? b_at b then set_bestBet NULL s1 else s1).
  assert (majors s2 = majors s /\ minors s2 = minors s /\ infos s2 = infos s /\ phys s2 = phys s /\
    liballoc_spinlock s2 = liballoc_spinlock s /\ data s2 = data s) as (F1 & F2 & F3 & F4 & F5 & F6).
  { unfold s2, s1. by destruct (l_bestBet s =? b_at b), (l_memRoot s =? b_at b). }
  unfold release_block. rewrite (run_bind_Ok _ _ _ _ _ (get_maj_ok s _ _ Hnn (blk_lookup _ _ _ _ Hr))), run_bind. cbn [getS next prev pages size].
  rewrite (run_bind_Ok _ _ s tt s1) by (unfold s1; by destruct (l_memRoot s =? b_at b)).
  rewrite (run_bind_Ok _ _ s1 tt s2) by (unfold s2; by destruct (l_bestBet s =? b_at b)).
  erewrite run_bind_Ok by (apply link_major_next; by rewrite F1). rewrite F1.
  erewrite run_bind_Ok by (apply link_major_prev; cbn [majors set_majors];
    destruct Hh as [Hh|Hh]; [by left | right; by apply link_next_some]).
  rewrite run_bind. cbn [modifyS]. unfold liballoc_free. rewrite run_bind, run_bind. cbn [getS].
  erewrite run_bind_Ok by (apply run_lift; simpl; rewrite F4; exact Em). cbn [modifyS].
  eexists. split; [done |]. split; simpl; rewrite ?F2, ?F3; try done.
  - unfold s2, s1. by destruct (l_bestBet s =? b_at b), (l_memRoot s =? b_at b).
  - unfold s2, s1. by destruct (l_bestBet s =? b_at b), (l_memRoot s =? b_at b).
  - intros k' Ek'. assert (k' = k) as -> by (unfold frame, PAGE_SIZE in *; lia). exact Hcl.
  - intros k' q Ek'. assert (k' = k) as -> by (unfold frame, PAGE_SIZE in *; lia). apply Hoth.
  - split_and!; try done. split; [done |]. exists base. by rewrite Eo, Ep.
Qed.

Lemma rep_apart_sub i j p q : map extent (bs1 ++ bs2) !! i = Some p -> map extent (bs1 ++ bs2) !! j = Some q -> i <> j -> apart p q.
Proof using Hr.
  set (up := fun n => if decide (n < length bs1)%nat then n else S n).
  assert (forall n p, map extent (bs1 ++ bs2) !! n = Some p -> map extent (bs1 ++ b :: bs2) !! up n = Some p) as Hup.
  { intros n p'. rewrite !list_lookup_fmap. intros Hn. apply fmap_Some in Hn as (c & Hn & ->). unfold up. case_decide as Hlt.
    - rewrite lookup_app_l in Hn by done. by rewrite lookup_app_l, Hn.
    - rewrite lookup_app_r in Hn by lia. rewrite lookup_app_r by lia.
      replace (S n - length bs1)%nat with (S (n - length bs1)) by lia. simpl. by rewrite Hn. }
  intros Hi%Hup Hj%Hup Hne. apply (rep_apart _ _ Hr _ _ _ _ Hi Hj). unfold up. repeat case_decide; lia.
Qed.

Lemma released_blk s' c : released s' -> c ∈ bs1 ++ bs2 -> blk_ok s' c.
Proof using Hr.
  intros Hrl Hc. pose proof (rep_apart2 _ _ _ _ _ Hr Hc) as Hap. unfold apart, extent in Hap. simpl in Hap.
  assert (blk_ok s c) as Hco by (apply (rep_blocks _ _ Hr); by apply elem_of_sub).
  destruct (rep_range _ _ c Hr) as (R1 & R2 & R3 & R4); [by apply elem_of_sub |].
  destruct (rl_mem _ Hrl) as (_ & Ep & Eo & _). pose proof Hco as [C1 C2 C3 C4 C5].
  assert (forall y, y ∈ b_secs c -> b_at c <= s_at y /\ s_at y + MINOR <= s_end y /\ s_end y <= b_end c /\
    s_at y + MINOR + 2 <= s_ptr y < s_end y) as Hy.
  { intros y Hy. destruct (sec_in_block _ _ _ Hco Hy) as (Y1 & Y2 & Y3). unfold MAJOR in *.
    destruct (s_ptr_range y) as (P1 & P2 & _); [lia | done | lia |]. unfold s_end, MINOR, ALIGNMENT, ALIGN_INFO in *. lia. }
  split; try done.
  - destruct C1 as (k & Ek & Hk & Hp & Hkp & Hrun). exists k. unfold frame in *. rewrite Ep, Eo. split_and!; try done.
    destruct (blk_pages _ _ (rep_blocks _ _ Hr b (elem_of_mid _ _ _ _))) as (kb & Ekb & Hkb & Hpb & _).
    intros q Hq. rewrite (rl_kept _ Hrl kb); [by apply Hrun | done | lia |].
    unfold b_end, frame, PAGE_SIZE in *. lia.
  - eapply seg_frame; [|exact C3]. intros a Ha. rewrite map_sec_at in Ha. apply list_elem_of_fmap in Ha as (y & -> & Hin).
    rewrite (rl_minors _ Hrl). apply scrub_out. pose proof (Hy y Hin). unfold overlaps. lia.
  - intros y Hin. rewrite (rl_infos _ Hrl), scrub_out; [by apply C4 |]. pose proof (Hy y Hin). unfold overlaps, ALIGN_INFO, MINOR in *. lia.
Qed.

Lemma released_rep s' : released s' -> rep s' (bs1 ++ bs2).
Proof using Hr Hempty.
  intros Hrl. destruct release_nodup as (N1 & N2 & N3 & N4). split.
  - apply (rl_mem _ Hrl).
  - rewrite (rl_root _ Hrl), (rep_root _ _ Hr). destruct bs1 as [|c cs]; simpl; [by rewrite Z.eqb_refl |].
    destruct (Z.eqb_spec (b_at c) (b_at b)) as [E|]; [|done]. destruct N3. rewrite <- E. simpl. by apply elem_of_cons; left.
  - rewrite (rl_majors _ Hrl). pose proof (rep_majors _ _ Hr) as Hs. rewrite map_app in Hs |- *. cbn [map] in Hs.
    change (blk_node b) with (b_at b, (blk_node b).2) in Hs.
    apply dll_remove in Hs; [|by rewrite <- map_app, map_blk_at..].
    eapply seg_frame; [|exact Hs]. intros a Ha. apply lookup_delete_ne. intros <-. apply N3.
    by rewrite <- map_app, map_blk_at in Ha.
  - intros c. by apply released_blk.
  - intros i j p q. apply rep_apart_sub.
  - rewrite (rl_bet _ Hrl). destruct (Z.eqb_spec (l_bestBet s) (b_at b)) as [E|E]; [by left |].
    destruct (rep_bet _ _ Hr) as [?|Hin]; [by left | right]. rewrite map_app in *. cbn [map] in Hin.
    by apply elem_of_mid_inv in Hin as [?|?].
  - intros a m. rewrite (rl_minors _ Hrl). intros Hm Hmg. unfold scrub in Hm. apply map_lookup_filter_Some in Hm as [Hm _].
    destruct (rep_live _ _ Hr a m Hm Hmg) as (c & y & Hc & Hy & <-). exists c, y. split; [|done].
    apply elem_of_mid_inv in Hc as [->|Hc]; [rewrite Hempty in Hy; by apply not_elem_of_nil in Hy | done].
Qed.
End release.

(** ** [free] *)

Lemma UNALIGN_ok s p d : infos s !! (p - 2) = Some d -> d < 6 -> 2 < p < two32 -> 0 <= p - d -> 0 <= d ->
  UNALIGN p s = Ok (p - d, s).
Proof.
  intros Hi Hd Hp Hpd H0. unfold UNALIGN, ALIGN_INFO, ALIGNMENT. rewrite run_bind. cbn [getS].
  rewrite (u32_small (p - 2)) by (unfold is_u32, two32 in *; lia).
  erewrite run_bind_Ok by (apply run_lift, hload_Some; [lia | exact Hi]). rewrite run_ret.
  destruct (Z.ltb_spec d (4 + 2)); [|lia]. by rewrite u32_small by (unfold is_u32, two32 in *; lia).
Qed.

(** The blocks without one section of [b]; an empty block is given back. *)
Definition without (bs1 : list blk) (b : blk) (l1 l2 : list section) (bs2 : list blk) : list blk :=
  match l1 ++ l2 with [] => bs1 ++ bs2 | l => bs1 ++ Blk (b_at b) (b_pages b) l :: bs2 end.

Lemma better_bet_ok s bs1 b bs2 : rep s (bs1 ++ b :: bs2) -> exists s', better_bet (b_at b) s = Ok (tt, s') /\
  rep s' (bs1 ++ b :: bs2) /\ same_env s s' /\ minors s' = minors s /\ infos s' = infos s.
Proof.
  intros Hr. unfold better_bet. rewrite run_bind. cbn [getS].
  destruct (Z.eqb_spec (l_bestBet s) NULL) as [E|E]; cbn [negb]; [by exists s |].
  destruct (rep_bet _ _ Hr) as [?|Hin]; [done |]. apply list_elem_of_fmap in Hin as (c & Ec & Hc).
  assert (exists m, majors s !! b_at c = Some m) as [m Hm].
  { apply list_elem_of_split in Hc as (cs1 & cs2 & Ecs). rewrite Ecs in Hr. eexists. by apply blk_lookup. }
  rewrite Ec in E |- *. rewrite (run_bind_Ok _ _ _ _ _ (get_maj_ok s _ _ E Hm)).
  assert (b_at b <> NULL) as Hn by (destruct (rep_range _ _ b Hr (elem_of_mid _ _ _ _)); unfold NULL; lia).
  rewrite (run_bind_Ok _ _ _ _ _ (get_maj_ok s _ _ Hn (blk_lookup _ _ _ _ Hr))). cbv zeta.
  destruct (_ <? _); [|by exists s]. eexists. split; [done |]. split; [|done].
  apply (rep_ext s); try done. right. apply list_elem_of_fmap. exists b. split; [done | apply elem_of_mid].
Qed.

Section free.
Context (s : liballoc) (bs1 bs2 : list blk) (b : blk) (l1 l2 : list section) (x : section).
Context (Hr : rep s (bs1 ++ b :: bs2)) (Hsecs : b_secs b = l1 ++ x :: l2).
Local Abbreviation nodes := (map (sec_node (b_at b))).
Local Abbreviation header := (Minor (last_or NULL (nodes l1)) (head_or NULL (nodes l2)) (b_at b) LIBALLOC_MAGIC (s_size x) (s_req x)).

Lemma free_header : minors s !! s_at x = Some header /\ s_at x <> NULL.
Proof using Hr Hsecs.
  pose proof (rep_blocks _ _ Hr b (elem_of_mid _ _ _ _)) as Hb. split; [by apply sec_lookup |].
  destruct (remove_null s bs1 bs2 b l1 l2 x Hr Hsecs) as [Hn _]. intros E. apply Hn. rewrite <- E.
  apply list_elem_of_fmap. exists x. split; [done | apply elem_of_mid].
Qed.

(** The neighbours have headers. *)
Lemma free_neighbours : (last_or NULL (nodes l1) = NULL \/ is_Some (minors s !! last_or NULL (nodes l1))) /\
  (head_or NULL (nodes l2) = NULL \/ is_Some (minors s !! head_or NULL (nodes l2))) /\
  (last_or NULL (nodes l1) <> head_or NULL (nodes l2) \/ last_or NULL (nodes l1) = NULL) /\
  (last_or NULL (nodes l1) = NULL <-> l1 = []).
Proof using Hr Hsecs.
  pose proof (rep_blocks _ _ Hr b (elem_of_mid _ _ _ _)) as Hb.
  pose proof (blk_secs _ _ Hb) as Hs. unfold sec_nodes in Hs. rewrite Hsecs, map_app in Hs. apply seg_app in Hs as [S1 S2].
  cbn [map seg] in S2. change (sec_node (b_at b) x) with (s_at x, (b_at b, LIBALLOC_MAGIC, s_size x, s_req x)) in S2.
  cbn [seg] in S2. destruct S2 as [_ S2].
  destruct (remove_nodup s bs1 bs2 b l1 l2 x Hr Hsecs) as (N1 & N2 & _). rewrite map_app in N1, N2.
  apply NoDup_app in N2 as (_ & N2 & _). rewrite elem_of_app in N1. split_and!.
  - by eapply seg_last_some.
  - by eapply seg_head_some.
  - destruct (last_or_in NULL (nodes l1)) as [E|Hin]; [by right | left]. rewrite nodes_at in Hin.
    destruct (head_or_in NULL (nodes l2)) as [E2|Hin2].
    + intros E. rewrite E, E2 in Hin. by apply N1; left.
    + rewrite nodes_at in Hin2. intros E. rewrite E in Hin. by apply (N2 _ Hin).
  - split; [|by intros ->]. intros E. destruct l1 as [|y l] using rev_ind; [done |]. exfalso.
    rewrite map_app in E. cbn [map] in E. change (sec_node (b_at b) y) with (s_at y, (sec_node (b_at b) y).2) in E.
    rewrite last_or_snoc in E. apply N1. left. rewrite <- E. apply list_elem_of_fmap. exists y. split; [done |].
    apply elem_of_app. right. by apply list_elem_of_singleton.
Qed.

Lemma unlink_minor_ok : exists s', unlink_minor (s_at x) (b_at b) header s = Ok (tt, s') /\
  rep s' (bs1 ++ Blk (b_at b) (b_pages b) (l1 ++ l2) :: bs2) /\ same_env s s' /\
  minors s' !! s_at x = Some (Minor (last_or NULL (nodes l1)) (head_or NULL (nodes l2)) (b_at b) LIBALLOC_DEAD (s_size x) (s_req x)) /\
  infos s' = infos s.
Proof using Hr Hsecs.
  destruct free_header as [Hm Hn]. destruct free_neighbours as (Hl & Hh & Hne & Hfirst).
  pose proof (blk_lookup _ _ _ _ Hr) as Hmaj. pose proof (rep_blocks _ _ Hr b (elem_of_mid _ _ _ _)) as Hb.
  destruct (rep_range _ _ b Hr (elem_of_mid _ _ _ _)) as (R1 & R2 & R3 & _).
  assert (b_at b <> NULL) as Hnn by (unfold NULL; lia).
  destruct (blk_diff _ _ _ _ Hr) as [Hu _]. destruct (sec_in_block _ _ x Hb) as (X1 & X2 & X3); [rewrite Hsecs; apply elem_of_mid |].
  pose proof (secs_usage_pos _ _ _ (layout_remove _ _ _ _ _ ltac:(rewrite <- Hsecs; apply Hb))) as Hpos.
  assert (secs_usage (b_secs b) = secs_usage (l1 ++ l2) + (s_size x + MINOR)) as Hus by (rewrite Hsecs, !secs_usage_app; simpl; lia).
  unfold unlink_minor. rewrite run_bind. cbn [modifyS msize mnext mprev].
  rewrite (u32_small (s_size x + MINOR)) by (unfold s_end, b_end, MAJOR, MINOR, ALIGNMENT, ALIGN_INFO, is_u32, two32 in *; lia).
  erewrite run_bind_Ok by (apply upd_maj_ok; [exact Hnn | exact Hmaj]).
  erewrite run_bind_Ok by (apply upd_min_ok; [exact Hn | exact Hm]).
  cbn [usage set_usage set_magic mprev mnext block msize req_size majors minors set_majors set_minors set_inuse].
  replace (u32 (secs_usage (b_secs b) - (s_size x + MINOR))) with (secs_usage (l1 ++ l2))
    by (rewrite u32_small; unfold b_end, is_u32, two32, MAJOR, MINOR, ALIGNMENT, ALIGN_INFO in *; lia).
  erewrite run_bind_Ok by (apply link_minor_prev; simpl; destruct Hh as [Hh|Hh]; [by left | right; apply lookup_insert_is_Some'; tauto]).
  erewrite run_bind_Ok by (apply link_minor_next; simpl; destruct Hl as [Hl|Hl];
    [by left | right; apply link_prev_some, lookup_insert_is_Some'; tauto]).
  cbn [minors set_minors]. rewrite (link_comm _ _ _ _ _ Hne).
  eexists. split; [|split; [|split]].
  - instantiate (1 := set_majors (<[b_at b := Major (last_or NULL (map blk_node bs1)) (head_or NULL (map blk_node bs2))
      (b_pages b) (b_pages b * 4096) (secs_usage (l1 ++ l2)) (first_sec (l1 ++ l2))]> (majors s)) _).
    destruct (Z.eqb_spec (last_or NULL (nodes l1)) NULL) as [E|E].
    + rewrite (upd_maj_ok _ _ _ _ Hnn (lookup_insert_eq _ _ _)). cbn [majors set_majors set_minors]. rewrite insert_insert_eq.
      apply Hfirst in E. rewrite E. unfold set_first. cbn [prev next pages size usage]. f_equal. f_equal. f_equal.
      f_equal. f_equal. by destruct l2.
    + rewrite run_ret. f_equal. f_equal. cbn [majors set_majors set_minors]. unfold set_majors. simpl. f_equal. f_equal. f_equal.
      rewrite Hsecs. destruct l1 as [|y l]; [|done]. by destruct E.
  - eapply remove_rep; try done.
  - done.
  - split; [|done]. simpl. change (link_prev ?n ?v (link_next ?p ?w ?h)) with (splice w v (nodes l1) (nodes l2) h).
    destruct (remove_nodup s bs1 bs2 b l1 l2 x Hr Hsecs) as (_ & _ & N3).
    rewrite splice_other; [apply lookup_insert_eq | by rewrite <- map_app, nodes_at | done].
Qed.

Lemma free_unalign : UNALIGN (s_ptr x) s = Ok (s_at x + MINOR, s) /\ s_ptr x <> NULL /\ u32 (s_at x + MINOR - MINOR) = s_at x.
Proof using Hr Hsecs.
  pose proof (rep_blocks _ _ Hr b (elem_of_mid _ _ _ _)) as Hb. assert (x ∈ b_secs b) as Hx by (rewrite Hsecs; apply elem_of_mid).
  destruct (rep_range _ _ b Hr (elem_of_mid _ _ _ _)) as (R1 & R2 & R3 & _).
  destruct (sec_in_block _ _ x Hb Hx) as (X1 & X2 & X3). unfold MAJOR in *.
  destruct (s_ptr_range x) as (P1 & P2 & _); [lia | done | lia |].
  assert (s_end x = s_at x + MINOR + s_size x) as Ex by done. unfold MINOR, NULL, ALIGNMENT, ALIGN_INFO in *. split_and!.
  - rewrite (UNALIGN_ok s _ _ (blk_infos _ _ Hb x Hx)); [do 2 f_equal | ..]; unfold MINOR; lia.
  - lia.
  - replace (s_at x + 24 - 24) with (s_at x) by lia. apply u32_small. unfold is_u32, two32 in *. lia.
Qed.

End free.

(** The pages of a block that is emptied are free again. *)
Lemma free_ok s bs1 b bs2 l1 x l2 : rep s (bs1 ++ b :: bs2) -> b_secs b = l1 ++ x :: l2 -> unlocked s -> exists s',
  free (s_ptr x) s = Ok (tt, s') /\ unlocked s' /\ data s' = data s /\ rep s' (without bs1 b l1 l2 bs2) /\
  s_freePages (phys s') = s_freePages (phys s) + (match l1 ++ l2 with [] => b_pages b | _ => 0 end) /\
  (l1 ++ l2 <> [] -> infos s' = infos s /\ exists m, minors s' !! s_at x = Some m /\ magic m = LIBALLOC_DEAD) /\
  (l1 ++ l2 = [] -> infos s' !! (s_ptr x - 2) = None).
Proof.
  intros Hr Hsecs Hu. destruct (free_unalign s bs1 bs2 b l1 l2 x Hr Hsecs) as (Eu & Hpn & Emin).
  pose proof (rep_lock s _ 1 Hr) as Hr0.
  destruct (free_header _ bs1 bs2 b l1 l2 x Hr0 Hsecs) as [Hm Hn].
  destruct (unlink_minor_ok _ bs1 bs2 b l1 l2 x Hr0 Hsecs) as (s1 & E1 & Hr1 & (Hk1 & Hd1 & Hp1) & Hdead & Hinf).
  unfold free. destruct (Z.eqb_spec (s_ptr x) NULL); [done |].
  rewrite (run_bind_Ok _ _ _ _ _ Eu), (run_bind_Ok _ _ _ _ _ (lock_ok s Hu)). cbv zeta. rewrite Emin.
  rewrite (run_bind_Ok _ _ _ _ _ (get_min_ok _ _ _ Hn Hm)). cbn [magic block].
  rewrite Z.eqb_refl. cbn [negb]. rewrite run_bind, (run_bind_Ok _ _ _ _ _ E1).
  assert (b_at b <> NULL) as Hnn by (destruct (rep_range _ _ b Hr (elem_of_mid _ _ _ _)); unfold NULL; lia).
  pose proof (blk_lookup _ _ _ _ Hr1) as Hm1. cbn [b_at b_pages b_secs] in Hm1.
  rewrite (run_bind_Ok _ _ _ _ _ (get_maj_ok s1 _ _ Hnn Hm1)). cbn [first]. unfold without.
  destruct (l1 ++ l2) as [|y l] eqn:El.
  - change (first_sec [] =? NULL) with true. cbn iota.
    destruct (release_block_ok _ _ _ _ Hr1) as (s2 & E2 & Hrl). cbn [b_at] in E2. rewrite E2, unlock_ok. eexists. split; [done |].
    pose proof (released_rep _ _ _ _ Hr1 eq_refl _ Hrl) as Hr2. destruct (rl_env _ _ _ _ _ Hrl) as [_ Hd2].
    destruct (rl_mem _ _ _ _ _ Hrl) as (_ & _ & _ & Hf). cbn [b_pages] in Hf. rewrite Hp1 in Hf.
    split_and!; [done | simpl; by rewrite Hd2, Hd1 | by apply rep_lock | done | by intros [] |].
    intros _. simpl. rewrite (rl_infos _ _ _ _ _ Hrl). apply scrub_in. cbn [b_at b_pages].
    pose proof (rep_blocks _ _ Hr b (elem_of_mid _ _ _ _)) as Hb. destruct (rep_range _ _ b Hr (elem_of_mid _ _ _ _)) as (R1 & R2 & R3 & _).
    destruct (sec_in_block _ _ x Hb) as (X1 & X2 & X3); [rewrite Hsecs; apply elem_of_mid |]. unfold MAJOR in *.
    destruct (s_ptr_range x) as (P1 & P2 & _); [lia | done | lia |]. unfold overlaps, b_end, ALIGN_INFO, MINOR in *. simpl. lia.
  - assert (first_sec (y :: l) <> NULL) as Hyn.
    { destruct (remove_nodup _ _ _ _ _ _ _ Hr Hsecs) as (N1 & _). rewrite El in N1. intros E. apply N1. rewrite <- E. simpl.
      by apply elem_of_cons; left. }
    destruct (Z.eqb_spec (first_sec (y :: l)) NULL); [done |]. cbn iota.
    destruct (better_bet_ok _ _ _ _ Hr1) as (s2 & E2 & Hr2 & (_ & Hd2 & Hp2) & Hm2 & Hi2). cbn [b_at] in E2. rewrite E2, unlock_ok. eexists. split; [done |].
    split_and!; [done | simpl; by rewrite Hd2, Hd1 | by apply rep_lock | simpl; rewrite Hp2, Hp1; simpl; lia | | done].
    intros _. simpl. rewrite Hi2, Hinf, Hm2. split; [done |]. by eexists.
Qed.

(** ** A new requested size for a section *)

Definition resized (x : section) (req : Z) : section := Section_ (s_at x) (s_size x) req.

Section resize.
Context (s : liballoc) (bs1 bs2 : list blk) (b : blk) (l1 l2 : list section) (x : section) (req : Z).
Context (Hr : rep s (bs1 ++ b :: bs2)) (Hsecs : b_secs b = l1 ++ x :: l2) (Hreq : 0 <= req <= s_req x).
Local Abbreviation nodes := (map (sec_node (b_at b))).
Local Abbreviation x' := (resized x req).
Local Abbreviation b' := (Blk (b_at b) (b_pages b) (l1 ++ x' :: l2)).
Local Abbreviation s' := (set_minors (<[s_at x := Minor (last_or NULL (nodes l1)) (head_or NULL (nodes l2)) (b_at b)
  LIBALLOC_MAGIC (s_size x) req]> (minors s)) s).

Lemma layout_resize lo hi : layout lo (l1 ++ x' :: l2) hi <-> layout lo (l1 ++ x :: l2) hi.
Proof using. by rewrite !layout_app. Qed.

Lemma resize_usage : secs_usage (l1 ++ x' :: l2) = secs_usage (l1 ++ x :: l2).
Proof using. by rewrite !secs_usage_app. Qed.

Lemma resize_b' : blk_ok s' b'.
Proof using Hr Hsecs Hreq.
  pose proof (rep_blocks _ _ Hr b (elem_of_mid _ _ _ _)) as [C1 C2 C3 C4 C5]. rewrite Hsecs in *.
  destruct (remove_null s bs1 bs2 b l1 l2 x Hr Hsecs) as [_ N]. split; simpl; try done.
  - by apply layout_resize.
  - unfold sec_nodes in *. simpl. rewrite Hsecs, map_app in C3. rewrite map_app. cbn [map] in *.
    change (sec_node (b_at b) x') with (s_at x, (b_at b, LIBALLOC_MAGIC, s_size x, req)).
    change (sec_node (b_at b) x) with (s_at x, (b_at b, LIBALLOC_MAGIC, s_size x, s_req x)) in C3.
    apply (seg_update _ _ _ _ _ (b_at b, LIBALLOC_MAGIC, s_size x, req)) in C3; [exact C3 |].
    rewrite fmap_app. cbn [fmap list_fmap]. change (list_fmap ?A ?B ?f ?l) with (f <$> l). rewrite !nodes_at.
    rewrite map_app in N. exact N.
  - intros y Hy. apply elem_of_mid_inv in Hy as [->|Hy]; [apply (C4 x), elem_of_mid | by apply C4, elem_of_sub].
  - intros y Hy. apply elem_of_mid_inv in Hy as [->|Hy]; [|by apply C5, elem_of_sub]. simpl.
    destruct (C5 x (elem_of_mid _ _ _ _)). lia.
Qed.

Lemma resize_rep : rep s' (bs1 ++ b' :: bs2).
Proof using All.
  assert (map b_at (bs1 ++ b' :: bs2) = map b_at (bs1 ++ b :: bs2)) as Hat by by rewrite !map_app.
  assert (blk_node b' = blk_node b) as Hnode.
  { unfold blk_node. simpl. rewrite resize_usage, <- Hsecs. do 2 f_equal. rewrite Hsecs. by destruct l1. }
  assert (map blk_node (bs1 ++ b' :: bs2) = map blk_node (bs1 ++ b :: bs2)) as Hnodes by (rewrite !map_app; cbn [map]; by rewrite Hnode).
  split; rewrite ?Hnodes, ?Hat; try apply Hr.
  - intros c [->|Hc]%elem_of_mid_inv; [apply resize_b' |].
    assert (blk_ok s c) as Hco by (apply (rep_blocks _ _ Hr); by apply elem_of_sub). pose proof Hco as [C1 C2 C3 C4 C5].
    split; try done. eapply seg_frame; [|exact C3]. intros a Ha. rewrite map_sec_at in Ha.
    apply list_elem_of_fmap in Ha as (y & -> & Hy). apply lookup_insert_ne. intros E.
    pose proof (rep_apart2 _ _ _ _ _ Hr Hc) as Hap. unfold apart, extent in Hap. simpl in Hap.
    destruct (sec_in_block _ _ _ Hco Hy) as (?&?&?).
    destruct (sec_in_block _ _ x (rep_blocks _ _ Hr b (elem_of_mid _ _ _ _))) as (?&?&?); [rewrite Hsecs; apply elem_of_mid |].
    unfold s_end, MAJOR, MINOR, ALIGNMENT, ALIGN_INFO in *. lia.
  - intros i j p q. pose proof (rep_apart _ _ Hr i j p q) as Ha. rewrite !map_app in *. exact Ha.
  - simpl. intros a m. destruct (decide (a = s_at x)) as [->|Hne].
    { intros _ _. exists b', x'. split; [apply elem_of_mid |]. split; [apply elem_of_mid | done]. }
    rewrite lookup_insert_ne by done. intros Hm Hmg. destruct (rep_live _ _ Hr a m Hm Hmg) as (c & y & Hc & Hy & <-).
    apply elem_of_mid_inv in Hc as [->|Hc]; [|exists c, y; split; [by apply elem_of_sub | done]].
    rewrite Hsecs in Hy. apply elem_of_mid_inv in Hy as [->|Hy]; [done |].
    exists b', y. split; [apply elem_of_mid |]. split; [by apply elem_of_sub | done].
Qed.
End resize.
