(* ===== verification/Heap.v ===== *)
(** What the kernel's heap (LibAlloc.v) promises to the callers of [kmalloc],
    [kfree] and [krealloc]: the regions handed out, that they are aligned, lie
    apart and keep their bytes, and what each operation does to them. *)
From S2P Require Import Prelude Mm Dll PhysMem LibAlloc HeapRep.

(** ** What the heap has handed out *)

(** The pointers handed out and not yet taken back, with the size asked for. *)
Definition la_live (s : liballoc) : gset (Z * Z) :=
  list_to_set (map (fun am => (aligned (am.1 + MINOR), req_size am.2))
    (base.filter (fun am => magic am.2 = LIBALLOC_MAGIC) (map_to_list (minors s)))).
Definition la_ptrs (s : liballoc) : gset Z := set_map fst (la_live s).

(** The heap is consistent: its blocks are in use, and with the free pages they
    are the [total] pages that the heap shares. *)
Record blocks (total : Z) (s : liballoc) (bs : list blk) : Prop := {
  blocks_rep : rep s bs;
  blocks_used : forall b, b ∈ bs -> b_secs b <> [];
  blocks_total : s_freePages (phys s) + held bs = total
}.
Definition heap_ok (total : Z) (s : liballoc) : Prop := (exists bs, blocks total s bs) /\ unlocked s.

Lemma held_app bs1 bs2 : held (bs1 ++ bs2) = held bs1 + held bs2.
Proof. unfold held. induction bs1 as [|b bs1 IH]; simpl; [lia |]. rewrite IH. lia. Qed.

Lemma blocks_ext total s s' bs : blocks total s bs -> rep s' bs -> s_freePages (phys s') = s_freePages (phys s) -> blocks total s' bs.
Proof. intros [H1 H2 H3] Hr Hp. split; [done | done |]. by rewrite Hp. Qed.

Lemma rep_live_set s bs p n : rep s bs ->
  (p, n) ∈ la_live s <-> exists b x, b ∈ bs /\ x ∈ b_secs b /\ s_ptr x = p /\ s_req x = n.
Proof.
  intros Hr. unfold la_live. rewrite elem_of_list_to_set, list_elem_of_fmap. split.
  - intros ([a m] & E & Hin). apply list_elem_of_filter in Hin as [Hmg Hin]. apply elem_of_map_to_list in Hin. simpl in *.
    destruct (rep_live _ _ Hr a m Hin Hmg) as (b & x & Hb & Hx & Ea). exists b, x. split_and!; try done.
    + unfold s_ptr. rewrite Ea. congruence.
    + pose proof Hx as (l1 & l2 & El)%list_elem_of_split.
      pose proof (sec_lookup s b l1 x l2 (rep_blocks _ _ Hr b Hb) El) as Hm. rewrite Ea, Hin in Hm. simplify_eq. done.
  - intros (b & x & Hb & Hx & <- & <-). pose proof Hx as (l1 & l2 & El)%list_elem_of_split.
    pose proof (sec_lookup s b l1 x l2 (rep_blocks _ _ Hr b Hb) El) as Hm. eexists (s_at x, _). split.
    2:{ apply list_elem_of_filter. rewrite elem_of_map_to_list. split; [|exact Hm]. done. }
    done.
Qed.

Lemma la_ptrs_spec s p : p ∈ la_ptrs s <-> exists n, (p, n) ∈ la_live s.
Proof.
  unfold la_ptrs. rewrite elem_of_map. split.
  - intros ([q n] & -> & H). by exists n.
  - intros [n H]. by exists (p, n).
Qed.

(** Two sections are the same or lie apart. *)
Lemma sections_apart s bs b c x y : rep s bs -> b ∈ bs -> c ∈ bs -> x ∈ b_secs b -> y ∈ b_secs c ->
  (b = c /\ x = y) \/ s_end x <= s_at y \/ s_end y <= s_at x.
Proof.
  intros Hr Hb Hc Hx Hy. pose proof (rep_blocks _ _ Hr b Hb) as Hbo. destruct (decide (b = c)) as [<-|Hne].
  - pose proof (blk_layout _ _ Hbo) as Hl. apply list_elem_of_split in Hx as (l1 & l2 & E). rewrite E in *.
    apply elem_of_mid_inv in Hy as [->|Hy]; [by left | right]. apply layout_app in Hl as [L1 L2]. simpl in L2.
    destruct L2 as (A1 & A2 & L2). apply elem_of_app in Hy as [Hy|Hy].
    + destruct (layout_bounds _ _ _ y L1 Hy) as (?&?&?). lia.
    + destruct (layout_bounds _ _ _ y L2 Hy) as (?&?&?). lia.
  - right. apply list_elem_of_split in Hb as (bs1 & bs2 & ->). apply elem_of_mid_inv in Hc as [->|Hc]; [done |].
    pose proof (rep_apart2 _ _ _ _ _ Hr Hc) as Ha. unfold apart, extent in Ha. simpl in Ha.
    assert (blk_ok s c) as Hco by (apply (rep_blocks _ _ Hr); by apply elem_of_sub).
    destruct (sec_in_block _ _ _ Hbo Hx) as (?&?&?). destruct (sec_in_block _ _ _ Hco Hy) as (?&?&?). unfold MAJOR in *. lia.
Qed.

(** Where the bytes of a section are. *)
Lemma section_range s bs b x : rep s bs -> b ∈ bs -> x ∈ b_secs b ->
  4096 <= s_at x /\ s_at x + MINOR + 2 <= s_ptr x /\ s_ptr x + s_req x < s_end x /\ s_end x <= b_end b /\
  b_end b <= two32 /\ 0 <= s_req x /\ s_ptr x mod 4 = 0 /\ b_at b + MAJOR <= s_at x.
Proof.
  intros Hr Hb Hx. pose proof (rep_blocks _ _ Hr b Hb) as Hbo. destruct (rep_range _ _ _ Hr Hb) as (R1 & R2 & R3 & _).
  destruct (sec_in_block _ _ _ Hbo Hx) as (X1 & X2 & X3). destruct (blk_sizes _ _ Hbo x Hx) as [Z1 Z2].
  unfold MAJOR in *. destruct (s_ptr_range x) as (P1 & P2 & P3); [lia | done | lia |].
  unfold s_end, MINOR, ALIGNMENT, ALIGN_INFO in *. split_and!; (done || lia).
Qed.

Lemma sections_ptr_inj s bs b c x y : rep s bs -> b ∈ bs -> c ∈ bs -> x ∈ b_secs b -> y ∈ b_secs c ->
  s_ptr x = s_ptr y -> b = c /\ x = y.
Proof.
  intros Hr Hb Hc Hx Hy E. destruct (sections_apart _ _ _ _ _ _ Hr Hb Hc Hx Hy) as [?|Ha]; [done |].
  pose proof (section_range _ _ _ _ Hr Hb Hx). pose proof (section_range _ _ _ _ Hr Hc Hy). unfold MINOR in *. lia.
Qed.

(** The regions handed out are aligned, lie apart and hold no header. *)
Lemma live_regions s bs p n : rep s bs -> (p, n) ∈ la_live s ->
  p mod 4 = 0 /\ 4096 < p /\ 0 <= n /\ p + n < two32 /\
  (forall q m, (q, m) ∈ la_live s -> q = p /\ m = n \/ p + n < q \/ q + m < p) /\
  (forall a m, minors s !! a = Some m -> magic m = LIBALLOC_MAGIC -> a + MINOR < p \/ p + n < a) /\
  (forall a m, majors s !! a = Some m -> a ∈ map b_at bs -> a + MAJOR < p \/ p + n < a).
Proof.
  intros Hr (b & x & Hb & Hx & <- & <-)%(rep_live_set _ _ _ _ Hr).
  destruct (section_range _ _ _ _ Hr Hb Hx) as (S1 & S2 & S3 & S4 & S5 & S6 & S7 & S8). unfold MINOR in *.
  split_and!; [done | lia.. | | |].
  - intros q m (c & y & Hc & Hy & <- & <-)%(rep_live_set _ _ _ _ Hr).
    destruct (sections_apart _ _ _ _ _ _ Hr Hb Hc Hx Hy) as [[-> ->]|Ha]; [by left | right].
    pose proof (section_range _ _ _ _ Hr Hc Hy). unfold MINOR in *. lia.
  - intros a m Hm Hmg. destruct (rep_live _ _ Hr a m Hm Hmg) as (c & y & Hc & Hy & <-).
    destruct (sections_apart _ _ _ _ _ _ Hr Hb Hc Hx Hy) as [[-> ->]|Ha]; [lia |].
    pose proof (section_range _ _ _ _ Hr Hc Hy). unfold s_end, MINOR in *. lia.
  - intros a m _ Ha. apply list_elem_of_fmap in Ha as (c & -> & Hc).
    destruct (decide (b = c)) as [<-|Hne]; [unfold MAJOR in *; lia |].
    apply list_elem_of_split in Hb as (bs1 & bs2 & ->). apply elem_of_mid_inv in Hc as [->|Hc]; [done |].
    pose proof (rep_apart2 _ _ _ _ _ Hr Hc) as Hap. unfold apart, extent in Hap. simpl in Hap.
    destruct (rep_range _ _ c Hr) as (R1 & R2 & _); [by apply elem_of_sub |]. unfold MAJOR in *. lia.
Qed.

(** [malloc] adds one region to those handed out, at a new pointer. *)
Lemma added_live total s s' bs sz req p : blocks total s bs -> added (s_freePages (phys s)) s' bs sz req p ->
  (exists bs', blocks total s' bs') /\ p ∉ la_ptrs s /\ la_live s' = {[(p, req)]} ∪ la_live s.
Proof.
  intros Hbl (new & bs1 & b & bs2 & l1 & x & l2 & Hnew & Ebs & Hsecs & Hsz & <- & <- & Hr' & Hempty & Hcnt).
  pose proof (blocks_rep _ _ _ Hbl) as Hr.
  assert (forall c y, c ∈ bs -> y ∈ b_secs c -> exists c', c' ∈ bs1 ++ Blk (b_at b) (b_pages b) (l1 ++ x :: l2) :: bs2 /\
    y ∈ b_secs c' /\ (c' = c /\ c ∈ bs1 ++ bs2 \/ c' = Blk (b_at b) (b_pages b) (l1 ++ x :: l2) /\ y ∈ l1 ++ l2)) as Hold.
  { intros c y Hc Hy. assert (c ∈ bs1 ++ b :: bs2) as Hc2 by (rewrite <- Ebs; apply elem_of_app; by left).
    apply elem_of_mid_inv in Hc2 as [->|Hc2].
    - eexists. split; [apply elem_of_mid |]. rewrite Hsecs in Hy. split; [by apply elem_of_sub | by right].
    - exists c. split; [by apply elem_of_sub |]. split; [done | by left]. }
  assert (x ∉ l1 ++ l2) as Hxn.
  { intros Hin. pose proof (blk_layout _ _ (rep_blocks _ _ Hr' _ (elem_of_mid _ _ _ _))) as Hl%layout_nodup. simpl in Hl.
    rewrite map_app in Hl. cbn [map] in Hl. apply NoDup_app in Hl as (_ & N2 & N3). apply NoDup_cons in N3 as [N3 _].
    apply elem_of_app in Hin as [Hin|Hin].
    - apply (N2 (s_at x)); [apply list_elem_of_fmap; by exists x | by apply elem_of_cons; left].
    - apply N3. apply list_elem_of_fmap. by exists x. }
  split_and!.
  - eexists. split; [exact Hr' | |].
    + intros c [->|Hc]%elem_of_mid_inv; [simpl; by destruct l1 |].
      destruct Hnew as [->|(-> & -> & ->)]; rewrite app_nil_r in *; [|by apply (blocks_used _ _ _ Hbl)].
      apply (blocks_used _ _ _ Hbl). rewrite Ebs. by apply elem_of_sub.
    + assert (held bs + held new = held bs1 + (b_pages b + held bs2)) as Hh by (rewrite <- held_app, Ebs, held_app; done).
      rewrite held_app. simpl. pose proof (blocks_total _ _ _ Hbl). unfold held in *. simpl. lia.
  - rewrite la_ptrs_spec. intros [n Hn]. apply (rep_live_set _ _ _ _ Hr) in Hn as (c & y & Hc & Hy & E & _).
    destruct (Hold c y Hc Hy) as (c' & Hc' & Hy' & Hcase).
    destruct (sections_ptr_inj _ _ _ _ x y Hr' (elem_of_mid _ _ _ _) Hc' (elem_of_mid _ _ _ _) Hy' (eq_sym E)) as [<- <-].
    destruct Hcase as [[Heq Hb]|[_ Hin]]; [|done].
    destruct (release_nodup _ _ _ _ Hr') as (_ & _ & N & _). apply N. apply list_elem_of_fmap. exists c. split; [by rewrite <- Heq | done].
  - apply set_eq. intros [q n]. rewrite elem_of_union, elem_of_singleton, (rep_live_set _ _ _ _ Hr'), (rep_live_set _ _ _ _ Hr).
    split.
    + intros (c & y & Hc & Hy & <- & <-).
      assert (forall d, d ∈ bs1 ++ b :: bs2 -> y ∈ b_secs d -> exists b0 x0, b0 ∈ bs /\ x0 ∈ b_secs b0 /\ s_ptr x0 = s_ptr y /\ s_req x0 = s_req y) as Hin.
      { intros d Hd Hyd. rewrite <- Ebs in Hd. exists d, y. split_and!; try done. apply elem_of_app in Hd as [?|Hd]; [done |].
        destruct Hnew as [->|(-> & _)]; [by apply not_elem_of_nil in Hd |].
        apply list_elem_of_singleton in Hd as ->. rewrite Hempty in Hyd by done. by apply not_elem_of_nil in Hyd. }
      apply elem_of_mid_inv in Hc as [->|Hc].
      * simpl in Hy. apply elem_of_mid_inv in Hy as [->|Hy]; [by left | right]. apply (Hin b); [apply elem_of_mid | by rewrite Hsecs].
      * right. apply (Hin c); [by apply elem_of_sub | done].
    + intros [[= -> ->]|(c & y & Hc & Hy & <- & <-)].
      * eexists _, x. split; [apply elem_of_mid |]. split; [apply elem_of_mid | done].
      * destruct (Hold c y Hc Hy) as (c' & Hc' & Hy' & _). by exists c', y.
Qed.

Lemma malloc_live total s req : heap_ok total s -> 0 <= req -> req + 6 + 48 + 4096 <= two32 -> exists p s',
  malloc req s = Ok (p, s') /\ heap_ok total s' /\ data s' = data s /\
  ((p = NULL /\ la_live s' = la_live s /\ refused s (req + 6)) \/
   (p <> NULL /\ p ∉ la_ptrs s /\ la_live s' = {[(p, req)]} ∪ la_live s)).
Proof.
  intros [[bs Hbl] Hu] H0 H1. pose proof (blocks_rep _ _ _ Hbl) as Hr.
  destruct (malloc_ok s bs req Hr Hu H0 H1) as (p & s' & E & Hu' & Hd & Hc).
  exists p, s'. split; [done |]. destruct Hc as [(-> & Hrf & Hr' & Hp)|[Hp Ha]].
  - split; [split; [exists bs; by eapply blocks_ext | done] |]. split; [done |]. left. split_and!; try done.
    apply set_eq. intros [q n]. by rewrite (rep_live_set _ _ _ _ Hr'), (rep_live_set _ _ _ _ Hr).
  - destruct (added_live _ _ _ _ _ _ _ Hbl Ha) as (Hok & Hnew & Hl). split; [by split |]. split; [done |]. by right.
Qed.

(** [free] takes one region out. *)
Lemma without_elem bs1 b l1 x l2 bs2 y : b_secs b = l1 ++ x :: l2 ->
  (exists c, c ∈ without bs1 b l1 l2 bs2 /\ y ∈ b_secs c) <->
  (exists c, c ∈ bs1 ++ bs2 /\ y ∈ b_secs c) \/ y ∈ l1 ++ l2.
Proof.
  intros Hsecs. unfold without. destruct (l1 ++ l2) as [|z l] eqn:El.
  { split; [by left | intros [?|Hy]; [done | by apply not_elem_of_nil in Hy]]. }
  split.
  - intros (c & Hc & Hy). apply elem_of_mid_inv in Hc as [->|Hc]; [by right | left; by exists c].
  - intros [(c & Hc & Hy)|Hy]; [exists c; split; [by apply elem_of_sub | done] |].
    eexists. split; [apply elem_of_mid | done].
Qed.

Lemma without_blocks total s s' bs1 b l1 x l2 bs2 : blocks total s (bs1 ++ b :: bs2) -> b_secs b = l1 ++ x :: l2 ->
  rep s' (without bs1 b l1 l2 bs2) ->
  s_freePages (phys s') = s_freePages (phys s) + (match l1 ++ l2 with [] => b_pages b | _ => 0 end) ->
  blocks total s' (without bs1 b l1 l2 bs2).
Proof.
  intros [_ Hused Htot] Hsecs Hr Hf. rewrite held_app in Htot. unfold without in *.
  destruct (l1 ++ l2) as [|z l] eqn:El; split; try done.
  - intros c Hc. apply Hused. by apply elem_of_sub.
  - rewrite held_app. unfold held in *. simpl in Htot. lia.
  - intros c [->|Hc]%elem_of_mid_inv; [done |]. apply Hused. by apply elem_of_sub.
  - rewrite held_app. unfold held in *. simpl in *. lia.
Qed.

Lemma free_live total s p n : heap_ok total s -> (p, n) ∈ la_live s -> exists s',
  free p s = Ok (tt, s') /\ heap_ok total s' /\ data s' = data s /\ la_live s' = la_live s ∖ {[(p, n)]} /\
  s_freePages (phys s) <= s_freePages (phys s').
Proof.
  intros [[bs Hbl] Hu] Hin. pose proof (blocks_rep _ _ _ Hbl) as Hr.
  apply (rep_live_set _ _ _ _ Hr) in Hin as (b & x & Hb & Hx & <- & <-).
  pose proof Hb as (bs1 & bs2 & ->)%list_elem_of_split. pose proof Hx as (l1 & l2 & Hsecs)%list_elem_of_split. destruct (free_ok s bs1 b bs2 l1 x l2 Hr Hsecs Hu) as (s' & E & Hu' & Hd & Hr' & Hf & _).
  exists s'. split; [done |]. split; [split; [eexists; by eapply without_blocks | done] |]. split_and!; [done | |].
  2:{ destruct (rep_range _ _ b Hr (elem_of_mid _ _ _ _)) as (_ & _ & _ & ?). destruct (l1 ++ l2); lia. }
  assert (forall y, (exists c, c ∈ bs1 ++ b :: bs2 /\ y ∈ b_secs c) <->
    y = x \/ (exists c, c ∈ without bs1 b l1 l2 bs2 /\ y ∈ b_secs c)) as Hsplit.
  { intros y. rewrite (without_elem _ _ _ _ _ _ _ Hsecs). split.
    - intros (c & [->|Hc]%elem_of_mid_inv & Hy); [|right; left; by exists c].
      rewrite Hsecs in Hy. apply elem_of_mid_inv in Hy as [->|Hy]; [by left | by right; right].
    - intros [->|[(c & Hc & Hy)|Hy]].
      + exists b. split; [apply elem_of_mid | by rewrite Hsecs; apply elem_of_mid].
      + exists c. split; [by apply elem_of_sub | done].
      + exists b. split; [apply elem_of_mid | rewrite Hsecs; by apply elem_of_sub]. }
  assert (~ (exists c, c ∈ without bs1 b l1 l2 bs2 /\ x ∈ b_secs c)) as Hgone.
  { rewrite (without_elem _ _ _ _ _ _ _ Hsecs). intros [(c & Hc & Hy)|Hy].
    - destruct (sections_ptr_inj _ _ b c x x Hr (elem_of_mid _ _ _ _)) as [<- _]; try done.
      + by apply elem_of_sub.
      + destruct (release_nodup _ _ _ _ Hr) as (_ & _ & N & _). apply N, list_elem_of_fmap. by exists b.
    - destruct (remove_nodup _ _ _ _ _ _ _ Hr Hsecs) as (_ & _ & N). apply N, list_elem_of_fmap. by exists x. }
  apply set_eq. intros [q m]. rewrite elem_of_difference, elem_of_singleton, (rep_live_set _ _ _ _ Hr'), (rep_live_set _ _ _ _ Hr).
  split.
  - intros (c & y & Hc & Hy & <- & <-). assert (exists d, d ∈ bs1 ++ b :: bs2 /\ y ∈ b_secs d) as (d & Hdin & Hyd)
      by (apply Hsplit; right; by exists c). split; [by exists d, y |]. intros [= Ep _].
    destruct (sections_ptr_inj _ _ d b y x Hr) as [_ ->]; try done.
    apply Hgone. by exists c.
  - intros [(d & y & Hdin & Hyd & <- & <-) Hne]. assert (y = x \/ (exists c, c ∈ without bs1 b l1 l2 bs2 /\ y ∈ b_secs c)) as [->|(c & Hc & Hy)]
      by (apply Hsplit; by exists d); [done |]. by exists c, y.
Qed.

(** ** Copies *)

Lemma move_byte_lookup h h' d s a : move_byte h h' d s !! a = if decide (a = d) then h !! s else h' !! a.
Proof.
  unfold move_byte. destruct (decide (a = d)) as [->|]; [by rewrite lookup_partial_alter_eq |].
  by rewrite lookup_partial_alter_ne.
Qed.

(** The memory after [n] bytes were copied from [s] to [d]. *)
Definition copied (n d s : Z) (h : gmap Z Z) (a : Z) : option Z :=
  if decide (d <= a < d + n) then h !! (s + (a - d)) else h !! a.

Lemma memcpy_bytes_spec n d s h a : 0 <= d -> 0 <= s -> d + Z.of_nat n < two32 -> s + Z.of_nat n < two32 ->
  d + Z.of_nat n <= s \/ s + Z.of_nat n <= d -> memcpy_bytes n d s h !! a = copied (Z.of_nat n) d s h a.
Proof.
  revert d s h. induction n as [|n IH]; intros d s h Hd Hs Hd2 Hs2 Hap; unfold copied.
  - rewrite decide_False by lia. done.
  - cbn [memcpy_bytes]. rewrite !u32_small by (unfold is_u32; lia). rewrite IH by lia. unfold copied.
    rewrite !move_byte_lookup. repeat case_decide; try lia; f_equal; lia.
Qed.

Lemma memcpy_words_spec n d s h a : 0 <= d -> 0 <= s -> d + 4 * Z.of_nat n < two32 -> s + 4 * Z.of_nat n < two32 ->
  d + 4 * Z.of_nat n <= s \/ s + 4 * Z.of_nat n <= d ->
  memcpy_words n d s h !! a = copied (4 * Z.of_nat n) d s h a.
Proof.
  revert d s h. induction n as [|n IH]; intros d s h Hd Hs Hd2 Hs2 Hap; unfold copied.
  - rewrite decide_False by lia. done.
  - cbn [memcpy_words]. rewrite !u32_small by (unfold is_u32; lia). rewrite IH by lia. unfold copied.
    rewrite !move_byte_lookup. repeat case_decide; try lia; f_equal; lia.
Qed.

(** Words first and then the bytes that are left is the copy of all bytes. *)
Lemma memcpy_ok s d src n : 0 < d -> 0 < src -> 0 <= n -> d + n < two32 -> src + n < two32 ->
  d + n <= src \/ src + n <= d -> exists h, liballoc_memcpy d src n s = Ok (d, set_data h s) /\
  forall a, h !! a = copied n d src (data s) a.
Proof.
  intros Hd Hs Hn Hd2 Hs2 Hap. unfold liballoc_memcpy, NULL.
  destruct (Z.eqb_spec d 0), (Z.eqb_spec src 0); try lia. cbn [orb andb]. rewrite run_bind. cbn [modifyS]. rewrite run_ret.
  eexists. split; [done |]. intros a.
  pose proof (Z.div_mod n 4 ltac:(lia)) as Hdm. pose proof (Z.mod_pos_bound n 4 ltac:(lia)).
  assert (0 <= n / 4) by (apply Z.div_pos; lia).
  rewrite !u32_small by (unfold is_u32; lia). rewrite memcpy_bytes_spec by lia. unfold copied. rewrite Z2Nat.id by lia.
  rewrite !memcpy_words_spec by lia. unfold copied. rewrite Z2Nat.id by lia.
  repeat case_decide; try lia; f_equal; lia.
Qed.

(** ** [realloc] *)

Lemma resized_live s bs1 bs2 b l1 l2 x req s' : rep s (bs1 ++ b :: bs2) -> b_secs b = l1 ++ x :: l2 ->
  rep s' (bs1 ++ Blk (b_at b) (b_pages b) (l1 ++ resized x req :: l2) :: bs2) ->
  la_live s' = {[(s_ptr x, req)]} ∪ (la_live s ∖ {[(s_ptr x, s_req x)]}).
Proof.
  intros Hr Hsecs Hr'. pose proof (elem_of_mid _ bs1 b bs2) as Hb.
  assert (x ∈ b_secs b) as Hx by (rewrite Hsecs; apply elem_of_mid).
  destruct (release_nodup _ _ _ _ Hr) as (_ & _ & Nb & _). destruct (remove_nodup _ _ _ _ _ _ _ Hr Hsecs) as (_ & _ & Nx).
  apply set_eq. intros [q m]. rewrite elem_of_union, elem_of_difference, !elem_of_singleton.
  rewrite (rep_live_set _ _ _ _ Hr'), (rep_live_set _ _ _ _ Hr). split.
  - intros (c & y & [->|Hc]%elem_of_mid_inv & Hy & <- & <-).
    + simpl in Hy. apply elem_of_mid_inv in Hy as [->|Hy]; [by left | right].
      assert (y ∈ b_secs b) as Hyb by (rewrite Hsecs; by apply elem_of_sub). split; [by exists b, y |]. intros [= Ep _].
      destruct (sections_ptr_inj _ _ b b y x Hr) as [_ ->]; try done. apply Nx, list_elem_of_fmap. by exists x.
    + right. assert (c ∈ bs1 ++ b :: bs2) as Hc2 by (by apply elem_of_sub). split; [by exists c, y |]. intros [= Ep _].
      destruct (sections_ptr_inj _ _ c b y x Hr) as [-> _]; try done. apply Nb, list_elem_of_fmap. by exists b.
  - intros [[= -> ->]|[(c & y & [->|Hc]%elem_of_mid_inv & Hy & <- & <-) Hne]].
    + eexists _, (resized x req). split; [apply elem_of_mid |]. split; [apply elem_of_mid | done].
    + rewrite Hsecs in Hy. apply elem_of_mid_inv in Hy as [->|Hy]; [done |].
      eexists _, y. split; [apply elem_of_mid |]. split; [by apply elem_of_sub | done].
    + exists c, y. split; [by apply elem_of_sub | done].
Qed.

(** The beginning of [realloc]: the header of the section. *)
Lemma realloc_start s bs1 b bs2 l1 x l2 size : rep s (bs1 ++ b :: bs2) -> b_secs b = l1 ++ x :: l2 -> unlocked s -> 0 < size ->
  realloc (s_ptr x) size s =
    (if size <=? s_req x then upd_min (s_at x) (set_req size) ;; liballoc_unlock ;; mret (s_ptr x)
     else liballoc_unlock ;; ptr ← malloc size; liballoc_memcpy ptr (s_ptr x) (s_req x) ;; free (s_ptr x) ;; mret ptr : K Z)
    (set_lock 1 s).
Proof.
  intros Hr Hsecs Hu Hs. destruct (free_unalign s bs1 bs2 b l1 l2 x Hr Hsecs) as (Eu & Hpn & Emin).
  destruct (free_header _ bs1 bs2 b l1 l2 x (rep_lock s _ 1 Hr) Hsecs) as [Hm Hn].
  destruct (section_range _ _ b x Hr (elem_of_mid _ _ _ _)) as (S1 & S2 & S3 & S4 & S5 & S6 & _); [rewrite Hsecs; apply elem_of_mid |].
  unfold realloc. destruct (Z.eqb_spec size 0); [lia |]. destruct (Z.eqb_spec (s_ptr x) NULL); [done |].
  rewrite (run_bind_Ok _ _ _ _ _ Eu), (run_bind_Ok _ _ _ _ _ (lock_ok s Hu)). cbv zeta. rewrite Emin.
  rewrite (run_bind_Ok _ _ _ _ _ (get_min_ok _ _ _ Hn Hm)). cbn [magic req_size]. rewrite Z.eqb_refl. cbn [negb].
  replace (u32 (s32 (s_req x))) with (s_req x); [done |].
  unfold u32, s32, MINOR, two32 in *. rewrite Zminus_mod_idemp_l. rewrite Z.mod_small; lia.
Qed.

Lemma realloc_shrinks total s p n size : heap_ok total s -> (p, n) ∈ la_live s -> 0 < size <= n -> exists s',
  realloc p size s = Ok (p, s') /\ heap_ok total s' /\ data s' = data s /\
  la_live s' = {[(p, size)]} ∪ (la_live s ∖ {[(p, n)]}).
Proof.
  intros [[bs Hbl] Hu] Hin Hs. pose proof (blocks_rep _ _ _ Hbl) as Hr. apply (rep_live_set _ _ _ _ Hr) in Hin as (b & x & Hb & Hx & <- & <-).
  apply list_elem_of_split in Hb as (bs1 & bs2 & ->). apply list_elem_of_split in Hx as (l1 & l2 & Hsecs).
  rewrite (realloc_start _ _ _ _ _ _ _ _ Hr Hsecs Hu) by lia. destruct (Z.leb_spec size (s_req x)); [|lia].
  destruct (free_header _ bs1 bs2 b l1 l2 x (rep_lock s _ 1 Hr) Hsecs) as [Hm Hn].
  rewrite (run_bind_Ok _ _ _ _ _ (upd_min_ok _ _ _ _ Hn Hm)), (run_bind_Ok _ _ _ _ _ (unlock_ok _)), run_ret.
  pose proof (resize_rep (set_lock 1 s) bs1 bs2 b l1 l2 x size (rep_lock _ _ _ Hr) Hsecs ltac:(lia)) as Hr'.
  eexists. split; [done |]. split; [split; [|done] |].
  - eexists. split; [apply rep_lock; exact Hr' | |].
    + intros c [->|Hc]%elem_of_mid_inv; [simpl; by destruct l1 |]. apply (blocks_used _ _ _ Hbl). by apply elem_of_sub.
    + pose proof (blocks_total _ _ _ Hbl) as Ht. rewrite held_app in Ht |- *. unfold held in *. simpl in *. lia.
  - split; [done |]. eapply resized_live; [exact Hr | done |]. apply rep_lock. exact Hr'.
Qed.

(** Only the bytes changed. *)
Lemma heap_ok_data total s h : heap_ok total s -> heap_ok total (set_data h s) /\ la_live (set_data h s) = la_live s.
Proof.
  intros [[bs Hbl] Hu]. split; [split; [exists bs | done] | done]. apply (blocks_ext _ s); [done | | done].
  apply (rep_ext s); try done; apply Hbl.
Qed.

Lemma realloc_grows total s p n size : heap_ok total s -> (p, n) ∈ la_live s -> n < size -> size + 6 + 48 + 4096 <= two32 ->
  (exists q s', realloc p size s = Ok (q, s') /\ heap_ok total s' /\ q <> NULL /\ q ∉ la_ptrs s /\
     la_live s' = {[(q, size)]} ∪ (la_live s ∖ {[(p, n)]}) /\
     (forall i, 0 <= i < n -> data s' !! (q + i) = data s !! (p + i)) /\
     (forall r m i, (r, m) ∈ la_live s -> 0 <= i < m -> data s' !! (r + i) = data s !! (r + i))) \/
  (refused s (size + 6) /\
   if 0 <? n then realloc p size s = Halt NullDeref
   else exists s', realloc p size s = Ok (NULL, s') /\ heap_ok total s' /\ la_live s' = la_live s ∖ {[(p, n)]}).
Proof.
  intros Hok Hin Hs Hs2. pose proof Hok as [[bs Hbl] Hu]. pose proof (blocks_rep _ _ _ Hbl) as Hr.
  destruct (live_regions _ _ _ _ Hr Hin) as (Hal & Hlo & Hn & Hhi & _).
  assert (forall r : outcome (Z * liballoc), (ptr ← malloc size; liballoc_memcpy ptr p n ;; free p ;; mret ptr : K Z) s = r ->
    realloc p size s = r) as Hstart.
  { intros r <-. pose proof Hin as (b & x & Hb & Hx & <- & <-)%(rep_live_set _ _ _ _ Hr).
    apply list_elem_of_split in Hb as (bs1 & bs2 & ->). apply list_elem_of_split in Hx as (l1 & l2 & Hsecs).
    rewrite (realloc_start _ _ _ _ _ _ _ _ Hr Hsecs Hu) by lia. destruct (Z.leb_spec size (s_req x)); [lia |].
    rewrite (run_bind_Ok _ _ _ _ _ (unlock_ok _)). destruct s. simpl. unfold unlocked in Hu. simpl in Hu. by rewrite Hu. }
  destruct (malloc_live total s size Hok ltac:(lia) Hs2) as (q & s1 & E & Hok1 & Hd & [(-> & Hl & Hrf)|(Hq & Hnew & Hl)]).
  - right. split; [done |]. destruct (Z.ltb_spec 0 n) as [Hpos|Hzero].
    + apply Hstart. rewrite (run_bind_Ok _ _ _ _ _ E). unfold liballoc_memcpy. change (NULL =? NULL) with true.
      destruct (Z.ltb_spec 0 n); [done | lia].
    + assert (n = 0) as -> by lia. rewrite <- Hl in Hin. destruct (free_live total s1 p 0 Hok1 Hin) as (s2 & E2 & Hok2 & _ & Hl2 & _).
      exists s2. split; [|by rewrite <- Hl]. apply Hstart. rewrite (run_bind_Ok _ _ _ _ _ E).
      assert (set_data (data s1) s1 = s1) as Eid by by destruct s1.
      assert (liballoc_memcpy NULL p 0 s1 = Ok (NULL, s1)) as Ec by (rewrite <- Eid at 2; done).
      by rewrite (run_bind_Ok _ _ _ _ _ Ec), (run_bind_Ok _ _ _ _ _ E2).
  - left. assert ((p, n) ∈ la_live s1 /\ (q, size) ∈ la_live s1) as [Hin1 Hq1] by (rewrite Hl; set_solver).
    pose proof Hok1 as [[bs1 Hbl1] _]. pose proof (blocks_rep _ _ _ Hbl1) as Hr1.
    destruct (live_regions _ _ _ _ Hr1 Hq1) as (_ & Hqlo & _ & Hqhi & Hap & _).
    assert (p <> q) as Hpq by (intros ->; apply Hnew, la_ptrs_spec; by exists n).
    destruct (memcpy_ok s1 q p n) as (h & Ec & Hh); try lia.
    { destruct (Hap p n Hin1) as [[-> _]|[?|?]]; [done | lia..]. }
    destruct (heap_ok_data total s1 h Hok1) as [Hok2 Hl2]. rewrite <- Hl2 in Hin1.
    destruct (free_live total _ p n Hok2 Hin1) as (s3 & E3 & Hok3 & Hd3 & Hl3 & _). exists q, s3.
    split; [apply Hstart; by rewrite (run_bind_Ok _ _ _ _ _ E), (run_bind_Ok _ _ _ _ _ Ec), (run_bind_Ok _ _ _ _ _ E3) |].
    rewrite Hl3, Hl2, Hl, Hd3. split_and!; try done.
    + apply set_eq. intros [r m]. rewrite !elem_of_difference, !elem_of_union, elem_of_difference, !elem_of_singleton.
      split; [tauto |]. intros [[= -> ->]|?]; [|tauto]. split; [by left |]. by intros [= ->].
    + intros i Hi. simpl. rewrite Hh. unfold copied. rewrite decide_True by lia. rewrite Hd. f_equal. lia.
    + intros r m i Hrm Hi. simpl. rewrite Hh, Hd. unfold copied. rewrite decide_False; [done |].
      assert ((r, m) ∈ la_live s1) as Hrm1 by (rewrite Hl; set_solver).
      destruct (Hap r m Hrm1) as [[-> _]|[?|?]]; [|lia..]. destruct Hnew. apply la_ptrs_spec. by exists m.
Qed.

(** ** Double frees *)

Lemma blocks_lock total s bs v : blocks total s bs -> blocks total (set_lock v s) bs.
Proof. intros Hbl. apply (blocks_ext _ s); [done | apply rep_lock, Hbl | done]. Qed.

Lemma bad_magic_ok m s : exists s', bad_magic m s = Ok (tt, s') /\ minors s' = minors s /\
  l_errorCount s' = s64 (l_errorCount s + 1) /\ forall total bs, blocks total s bs -> blocks total s' bs.
Proof.
  assert (forall s' : liballoc, phys s' = phys s -> l_memRoot s' = l_memRoot s -> majors s' = majors s -> minors s' = minors s ->
    infos s' = infos s -> l_bestBet s' = l_bestBet s -> forall total bs, blocks total s bs -> blocks total s' bs) as Hsame.
  { intros s' Hp Hm Hma Hmi Hi Hb total bs Hbl. apply (blocks_ext _ s); [done | | by rewrite Hp].
    apply (rep_ext s); try done; [rewrite Hb | ]; apply Hbl. }
  unfold bad_magic. rewrite run_bind. cbn [modifyS]. destruct (_ || _); eexists; (split_and!; [done..|]); by apply Hsame.
Qed.

Lemma free_twice_ok total s p n s1 : heap_ok total s -> (p, n) ∈ la_live s -> free p s = Ok (tt, s1) ->
  if s_freePages (phys s1) =? s_freePages (phys s) then
    exists s2, free p s1 = Ok (tt, s2) /\ heap_ok total s2 /\ la_live s2 = la_live s1 /\
      l_errorCount s2 = s64 (l_errorCount s1 + 1)
  else free p s1 = Halt BadAccess.
Proof.
  intros Hok Hin E. destruct (free_live _ _ _ _ Hok Hin) as (s1' & E' & Hok1 & _). rewrite E in E'. injection E' as <-.
  destruct Hok as [[bs Hbl] Hu]. pose proof (blocks_rep _ _ _ Hbl) as Hr.
  apply (rep_live_set _ _ _ _ Hr) in Hin as (b & x & Hb & Hx & <- & <-).
  pose proof (section_range _ _ _ _ Hr Hb Hx) as (S1 & S2 & S3 & S4 & S5 & S6 & _).
  pose proof (blk_infos _ _ (rep_blocks _ _ Hr b Hb) x Hx) as Hi.
  destruct (sec_in_block _ _ x (rep_blocks _ _ Hr b Hb) Hx) as (_ & X2 & _).
  destruct (s_ptr_range x) as (P1 & _ & _); [lia | done | lia |].
  apply list_elem_of_split in Hb as (bs1 & bs2 & ->). apply list_elem_of_split in Hx as (l1 & l2 & Hsecs).
  destruct (free_ok s bs1 b bs2 l1 x l2 Hr Hsecs Hu) as (s' & E' & _ & _ & _ & Hf & Hkeep & Hgone).
  rewrite E in E'. injection E' as <-. destruct (rep_range _ _ b Hr (elem_of_mid _ _ _ _)) as (_ & _ & _ & Hpos).
  unfold NULL, MINOR in *. destruct (Z.eqb_spec (s_freePages (phys s1)) (s_freePages (phys s))) as [Ef|Ef].
  - destruct Hkeep as (Hinf & m & Hm & Hmg); [intros El; rewrite El in Hf; lia |]. rewrite <- Hinf in Hi.
    pose proof Hok1 as [_ Hu1]. unfold free, NULL. destruct (Z.eqb_spec (s_ptr x) 0); [lia |].
    rewrite (run_bind_Ok _ _ _ _ _ (UNALIGN_ok _ _ _ Hi ltac:(unfold MINOR; lia) ltac:(lia) ltac:(unfold MINOR; lia) ltac:(unfold MINOR; lia))).
    replace (s_ptr x - (s_ptr x - (s_at x + 24))) with (s_at x + 24) by lia.
    rewrite (run_bind_Ok _ _ _ _ _ (lock_ok _ Hu1)). cbv zeta. unfold MINOR.
    replace (s_at x + 24 - 24) with (s_at x) by lia. rewrite u32_small by (unfold is_u32, s_end, MINOR in *; lia).
    erewrite run_bind_Ok by (apply get_min_ok; [unfold NULL; lia | exact Hm]). rewrite Hmg. cbn [negb Z.eqb].
    change (negb (LIBALLOC_DEAD =? LIBALLOC_MAGIC)) with true. cbn iota.
    destruct (bad_magic_ok m (set_lock 1 s1)) as (s2 & E2 & Hm2 & He & Hsame). rewrite (run_bind_Ok _ _ _ _ _ E2), unlock_ok.
    eexists. split; [done |]. destruct Hok1 as [[bs' Hbl'] _]. split; [split; [exists bs' | done] |].
    + by apply blocks_lock, Hsame, blocks_lock.
    + split; [unfold la_live; simpl; by rewrite Hm2 | done].
  - assert (l1 ++ l2 = []) as El by (destruct (l1 ++ l2); [done | lia]).
    unfold free, NULL. destruct (Z.eqb_spec (s_ptr x) 0); [lia |]. unfold UNALIGN, ALIGN_INFO.
    rewrite run_bind, run_bind. cbn [getS]. rewrite u32_small by (unfold is_u32, s_end, MINOR in *; lia).
    unfold hload, NULL. rewrite (Hgone El). destruct (Z.eqb_spec (s_ptr x - 2) 0); [lia | done].
Qed.

(** ** [calloc] *)

Lemma heap_memset_loop_spec n i s c h a : 0 <= s + i -> s + i + Z.of_nat n < two32 ->
  memset_loop n i s c h !! a = if decide (s + i <= a < s + i + Z.of_nat n) then Some c else h !! a.
Proof.
  revert i h. induction n as [|n IH]; intros i h H0 H1; cbn [memset_loop].
  - rewrite decide_False by lia. done.
  - rewrite u32_small by (unfold is_u32; lia). rewrite IH by lia.
    destruct (decide (a = s + i)) as [->|Hne]; [rewrite lookup_insert_eq | rewrite lookup_insert_ne by done];
      repeat case_decide; (done || lia).
Qed.

Lemma calloc_ok total s nobj size : heap_ok total s -> 0 <= nobj * size -> nobj * size + 6 + 48 + 4096 <= two32 ->
  (exists p s', calloc nobj size s = Ok (p, s') /\ heap_ok total s' /\ p <> NULL /\ p ∉ la_ptrs s /\
     la_live s' = {[(p, nobj * size)]} ∪ la_live s /\
     forall a, data s' !! a = if decide (p <= a < p + nobj * size) then Some 0 else data s !! a) \/
  (refused s (nobj * size + 6) /\
   if 0 <? nobj * size then calloc nobj size s = Halt NullDeref
   else exists s', calloc nobj size s = Ok (NULL, s') /\ heap_ok total s' /\ la_live s' = la_live s).
Proof.
  intros Hok H0 H1. set (n := nobj * size) in *.
  assert (u32 (s32 n) = n) as Hn.
  { unfold u32, s32, two32 in *. rewrite Zminus_mod_idemp_l. rewrite Z.mod_small; lia. }
  unfold calloc. fold n. cbv zeta. rewrite Hn.
  destruct (malloc_live total s n Hok H0 H1) as (p & s1 & E & Hok1 & Hd & [(-> & Hl & Hrf)|(Hp & Hnew & Hl)]);
    rewrite (run_bind_Ok _ _ _ _ _ E); unfold liballoc_memset.
  - right. split; [done |]. change (NULL =? NULL) with true. destruct (Z.ltb_spec 0 n) as [Hpos|Hz]; [done |].
    assert (n = 0) as -> by lia. exists s1. split_and!; try done. by destruct s1.
  - left. destruct (Z.eqb_spec p NULL); [done |]. cbn [andb]. rewrite !run_bind. cbn [modifyS]. rewrite !run_ret.
    pose proof Hok1 as [[bs Hbl] _]. pose proof (blocks_rep _ _ _ Hbl) as Hr.
    destruct (live_regions s1 bs p n Hr) as (_ & Hlo & _ & Hhi & _); [rewrite Hl; set_solver |].
    destruct (heap_ok_data total s1 (memset_loop (Z.to_nat n) 0 p 0 (data s1)) Hok1) as [Hok2 Hl2].
    eexists p, _. split; [done |]. split; [exact Hok2 |]. split; [done |]. split; [done |]. split; [by rewrite Hl2 |]. intros a. simpl.
    rewrite heap_memset_loop_spec by lia. rewrite Z2Nat.id, Hd, !Z.add_0_r by lia. done.
Qed.

(** * Runs of the heap *)

(** The heap at boot: no blocks, and the page allocator in order. *)
Record heap_init (s : liballoc) : Prop := {
  init_phys : mem_ok (phys s);
  init_root : l_memRoot s = NULL;
  init_bet : l_bestBet s = NULL;
  init_minors : minors s = ∅;
  init_lock : unlocked s
}.

(** One call of a client that frees only what it was given, or a byte that it
    writes into a region of its own. *)
Inductive heap_step : liballoc -> liballoc -> Prop :=
  | step_malloc s req p s' : 0 <= req -> req + 6 + 48 + 4096 <= two32 -> malloc req s = Ok (p, s') -> heap_step s s'
  | step_calloc s nobj size p s' : 0 <= nobj * size -> nobj * size + 6 + 48 + 4096 <= two32 ->
      calloc nobj size s = Ok (p, s') -> heap_step s s'
  | step_free s p n s' : (p, n) ∈ la_live s -> free p s = Ok (tt, s') -> heap_step s s'
  | step_realloc s p n size q s' : (p, n) ∈ la_live s -> 0 <= size -> size + 6 + 48 + 4096 <= two32 ->
      realloc p size s = Ok (q, s') -> heap_step s s'
  | step_write s p n i v : (p, n) ∈ la_live s -> 0 <= i < n -> heap_step s (set_data (<[p + i := v]> (data s)) s).

Lemma heap_init_ok s : heap_init s -> heap_ok (s_freePages (phys s)) s.
Proof.
  intros [H1 H2 H3 H4 H5]. split; [exists [] | done]. split; simpl.
  - split; try done.
    + intros b Hb. by apply not_elem_of_nil in Hb.
    + by left.
    + intros a m. by rewrite H4.
  - intros b Hb. by apply not_elem_of_nil in Hb.
  - unfold held. simpl. lia.
Qed.

Lemma heap_step_ok total s s' : heap_step s s' -> heap_ok total s -> heap_ok total s'.
Proof.
  intros Hst Hok. destruct Hst as [t req p t' H0 H1 E|t nobj size p t' H0 H1 E|t p n t' Hin E|t p n size q t' Hin H0 H1 E|t p n i v Hin Hi].
  - destruct (malloc_live _ _ _ Hok H0 H1) as (? & ? & E' & ? & _). congruence.
  - destruct (calloc_ok _ _ _ _ Hok H0 H1) as [(? & ? & E' & ? & _)|[_ Hc]]; [congruence |].
    destruct (0 <? _); [congruence |]. destruct Hc as (? & E' & ? & _). congruence.
  - destruct (free_live _ _ _ _ Hok Hin) as (? & E' & ? & _). congruence.
  - destruct (decide (size = 0)) as [->|Hs].
    { destruct (free_live _ _ _ _ Hok Hin) as (s1 & E' & ? & _). unfold realloc in E. simpl in E.
      rewrite (run_bind_Ok _ _ _ _ _ E'), run_ret in E. congruence. }
    destruct (decide (size <= n)).
    { destruct (realloc_shrinks _ _ _ _ size Hok Hin) as (? & E' & ? & _); [lia | congruence]. }
    destruct (realloc_grows _ _ _ _ size Hok Hin) as [(? & ? & E' & ? & _)|[_ Hc]]; [lia | done | congruence |].
    destruct (0 <? n); [congruence |]. destruct Hc as (? & E' & ? & _). congruence.
  - by apply heap_ok_data.
Qed.

Lemma heap_run_ok s0 s : heap_init s0 -> rtc heap_step s0 s -> heap_ok (s_freePages (phys s0)) s.
Proof.
  intros Hi Hrun. pose proof (heap_init_ok _ Hi) as Hok. revert Hok. generalize (s_freePages (phys s0)). clear Hi.
  induction Hrun as [|s0 s1 s Hst _ IH]; intros total Hok; [done |]. apply IH. by eapply heap_step_ok.
Qed.

(** No region is left: every page is back. *)
Lemma heap_empty total s : heap_ok total s -> la_live s = ∅ -> s_freePages (phys s) = total /\ l_memRoot s = NULL.
Proof.
  intros [[bs [Hr Hused Ht]] _] Hl. destruct bs as [|b bs].
  - unfold held in Ht. simpl in Ht. split; [lia | apply (rep_root _ _ Hr)].
  - exfalso. pose proof (Hused b ltac:(by apply elem_of_cons; left)) as Hne. destruct (b_secs b) as [|x l] eqn:E; [done |].
    assert ((s_ptr x, s_req x) ∈ la_live s) as Hin.
    { apply (rep_live_set _ _ _ _ Hr). exists b, x. split; [by apply elem_of_cons; left |]. split; [rewrite E; by apply elem_of_cons; left | done]. }
    rewrite Hl in Hin. by apply not_elem_of_empty in Hin.
Qed.

(** * Properties *)

(** C8. [malloc] ends with a new pointer, that is not in use, for the requested
    number of bytes, or with NULL when the page allocator has no run of pages for
    a new block.  The regions handed out before stay, with their bytes. *)
Theorem malloc_serves total s req : heap_ok total s -> 0 <= req -> req + 6 + 48 + 4096 <= two32 -> exists p s',
  malloc req s = Ok (p, s') /\ heap_ok total s' /\ data s' = data s /\
  ((p = NULL /\ la_live s' = la_live s /\ memory_alloc (pages_for (req + 6)) (phys s) = Ok (NULL, phys s)) \/
   (p <> NULL /\ p ∉ la_ptrs s /\ la_live s' = {[(p, req)]} ∪ la_live s)).
Proof. apply malloc_live. Qed.

(** C9. [free] takes exactly the given region out, keeps the bytes of all others,
    and never takes pages. *)
Theorem free_takes_back total s p n : heap_ok total s -> (p, n) ∈ la_live s -> exists s',
  free p s = Ok (tt, s') /\ heap_ok total s' /\ data s' = data s /\ la_live s' = la_live s ∖ {[(p, n)]} /\
  s_freePages (phys s) <= s_freePages (phys s').
Proof. apply free_live. Qed.

(** C10. [realloc] keeps the pointer when the region is large enough, and otherwise
    moves the bytes to a new region and leaves the other regions as they are.
    When there is no memory for the new region, the copy writes through the null
    pointer, unless the old region has no bytes: it is then lost. *)
Theorem realloc_keeps_or_moves total s p n size : heap_ok total s -> (p, n) ∈ la_live s -> 0 < size ->
  size + 6 + 48 + 4096 <= two32 ->
  if size <=? n then
    exists s', realloc p size s = Ok (p, s') /\ heap_ok total s' /\ data s' = data s /\
      la_live s' = {[(p, size)]} ∪ (la_live s ∖ {[(p, n)]})
  else
    (exists q s', realloc p size s = Ok (q, s') /\ heap_ok total s' /\ q <> NULL /\ q ∉ la_ptrs s /\
       la_live s' = {[(q, size)]} ∪ (la_live s ∖ {[(p, n)]}) /\
       (forall i, 0 <= i < n -> data s' !! (q + i) = data s !! (p + i)) /\
       (forall r m i, (r, m) ∈ la_live s -> 0 <= i < m -> data s' !! (r + i) = data s !! (r + i))) \/
    (memory_alloc (pages_for (size + 6)) (phys s) = Ok (NULL, phys s) /\
     if 0 <? n then realloc p size s = Halt NullDeref
     else exists s', realloc p size s = Ok (NULL, s') /\ heap_ok total s' /\ la_live s' = la_live s ∖ {[(p, n)]}).
Proof.
  intros Hok Hin Hs Hs2. destruct (Z.leb_spec size n); [apply (realloc_shrinks _ _ _ n); (done || lia) | by apply realloc_grows].
Qed.

(** C7. Whatever a client that frees only its own regions does after boot, the
    heap is consistent: the regions are aligned to four bytes, lie apart from each
    other and from the headers, and when the last one is gone every page is back
    with the page allocator. *)
Theorem heap_stays_consistent s0 s : heap_init s0 -> rtc heap_step s0 s ->
  heap_ok (s_freePages (phys s0)) s /\
  (forall p n, (p, n) ∈ la_live s -> p mod 4 = 0 /\ 4096 < p /\ 0 <= n /\ p + n < two32 /\
     (forall q m, (q, m) ∈ la_live s -> q = p /\ m = n \/ p + n < q \/ q + m < p) /\
     (forall a m, minors s !! a = Some m -> magic m = LIBALLOC_MAGIC -> a + MINOR < p \/ p + n < a)) /\
  (la_live s = ∅ -> s_freePages (phys s) = s_freePages (phys s0) /\ l_memRoot s = NULL).
Proof.
  intros Hi Hrun. pose proof (heap_run_ok _ _ Hi Hrun) as Hok. split; [done |]. split; [|by apply heap_empty].
  intros p n Hin. destruct Hok as [[bs Hbl] _].
  destruct (live_regions _ _ _ _ (blocks_rep _ _ _ Hbl) Hin) as (H1 & H2 & H3 & H4 & H5 & H6 & _). by split_and!.
Qed.

(** C11. A second [free] of the same pointer is detected by the magic number and
    changes only the counters, as long as the block of the region is still in use.
    When the first [free] gave the block back, the second reads memory that no
    longer belongs to the heap. *)
Theorem double_free_detected total s p n s1 : heap_ok total s -> (p, n) ∈ la_live s -> free p s = Ok (tt, s1) ->
  if s_freePages (phys s1) =? s_freePages (phys s) then
    exists s2, free p s1 = Ok (tt, s2) /\ heap_ok total s2 /\ la_live s2 = la_live s1 /\
      l_errorCount s2 = s64 (l_errorCount s1 + 1)
  else free p s1 = Halt BadAccess.
Proof. apply free_twice_ok. Qed.

(** The size of a request near 4 GB wraps around: the region that [malloc] answers
    for it has two bytes, its alignment included. *)
Lemma malloc_size_wraps s : unlocked s -> malloc 4294967292 s = malloc_sized 4294967292 2 (set_lock 1 s).
Proof. intros Hu. unfold malloc. by rewrite (run_bind_Ok _ _ _ _ _ (lock_ok s Hu)). Qed.

(** * Examples *)

Definition boot_heap : liballoc := LibAlloc NULL NULL ∅ ∅ ∅ ∅ 0 0 0 0 0 0 sample_physmem.
Definition ptr_of {A} (r : outcome (Z * A)) : Z := match r with Ok (p, _) => p | Halt _ => NULL end.
Definition state_of {A B} (d : B) (r : outcome (A * B)) : B := match r with Ok (_, s) => s | Halt _ => d end.
(** A heap with one region of a hundred bytes. *)
Definition used_heap : liballoc := state_of boot_heap (malloc 100 boot_heap).

Lemma boot_heap_init : heap_init boot_heap.
Proof. split; try done. split; [exact sample_physmem_wf | exists 256; by vm_compute]. Qed.
Lemma boot_heap_ok : heap_ok 36 boot_heap.
Proof. exact (heap_init_ok _ boot_heap_init). Qed.

Lemma used_ptr : ptr_of (malloc 100 boot_heap) = 1105972.
Proof. vm_compute. reflexivity. Qed.

Lemma used_heap_spec : malloc 100 boot_heap = Ok (1105972, used_heap) /\ heap_ok 36 used_heap /\ (1105972, 100) ∈ la_live used_heap.
Proof.
  destruct (malloc_live 36 boot_heap 100 boot_heap_ok) as (p & s' & E & Hok & _ & Hc); [lia | vm_compute; congruence |].
  assert (used_heap = s') as -> by (unfold used_heap; by rewrite E).
  pose proof used_ptr as Hp. rewrite E in Hp. cbn [ptr_of] in Hp. rewrite Hp in *. split; [exact E |]. split; [exact Hok |].
  destruct Hc as [[Hn _]|(_ & _ & ->)]; [done | set_solver].
Qed.
Definition used_heap_run := proj1 used_heap_spec.
Definition used_heap_ok := proj2 used_heap_spec.

Lemma malloc_serves_witness : exists p s', malloc 100 boot_heap = Ok (p, s') /\ heap_ok 36 s'.
Proof.
  destruct (malloc_serves 36 boot_heap 100 boot_heap_ok) as (p & s' & H1 & H2 & _); [lia | vm_compute; congruence |].
  exists p, s'. exact (conj H1 H2).
Defined.

Lemma free_takes_back_witness : exists s', free 1105972 used_heap = Ok (tt, s') /\ la_live s' = la_live used_heap ∖ {[(1105972, 100)]}.
Proof.
  destruct (free_takes_back 36 used_heap 1105972 100 (proj1 used_heap_ok) (proj2 used_heap_ok)) as (s' & H1 & _ & _ & H2 & _).
  exists s'. exact (conj H1 H2).
Defined.

Lemma realloc_keeps_or_moves_witness : exists s', realloc 1105972 50 used_heap = Ok (1105972, s') /\ heap_ok 36 s'.
Proof.
  pose proof (realloc_keeps_or_moves 36 used_heap 1105972 100 50 (proj1 used_heap_ok) (proj2 used_heap_ok) ltac:(lia)
    ltac:(vm_compute; congruence)) as H.
  change (50 <=? 100) with true in H. cbn iota in H. destruct H as (s' & H1 & H2 & _). exists s'. exact (conj H1 H2).
Defined.

Lemma heap_stays_consistent_witness : rtc heap_step boot_heap used_heap /\ heap_ok 36 used_heap.
Proof.
  assert (rtc heap_step boot_heap used_heap) as Hrun.
  { apply rtc_once. apply (step_malloc boot_heap 100 1105972 used_heap); [lia | vm_compute; congruence | exact used_heap_run]. }
  split; [exact Hrun |]. exact (proj1 (heap_stays_consistent boot_heap used_heap boot_heap_init Hrun)).
Defined.

Lemma double_free_detected_witness : exists s1, free 1105972 used_heap = Ok (tt, s1) /\
  (if s_freePages (phys s1) =? s_freePages (phys used_heap) then
    exists s2, free 1105972 s1 = Ok (tt, s2) /\ heap_ok 36 s2 /\ la_live s2 = la_live s1 /\
      l_errorCount s2 = s64 (l_errorCount s1 + 1)
  else free 1105972 s1 = Halt BadAccess).
Proof.
  destruct (free_live 36 used_heap 1105972 100 (proj1 used_heap_ok) (proj2 used_heap_ok)) as (s1 & H1 & _).
  exists s1. split; [exact H1 |].
  exact (double_free_detected 36 used_heap 1105972 100 s1 (proj1 used_heap_ok) (proj2 used_heap_ok) H1).
Defined.
