(* ===== verification/Paging.v ===== *)
(** Page directories and page tables (paging.c) on top of the physical page
    allocator: building and destroying a directory, mapping pages in and out,
    the search for free pages, and copying through a directory.  The hardware's
    translation is [mmu]; the theorems say what each operation does to it. *)
From S2P Require Import Prelude PhysMem.

(** The flags of paging.h: of the callers, and of the hardware. *)
Definition READ_ONLY : Z := 1.
Definition READ_WRITE : Z := 2.
Definition USER_PAGE : Z := 4.
Definition SYSTEM_PAGE : Z := 8.
Definition PAGE_PRESENT : Z := 1.
Definition PAGE_READ_ONLY : Z := 0.
Definition PAGE_RDWR : Z := Z.shiftl 1 1.
Definition PAGE_USER : Z := Z.shiftl 1 2.
Definition PAGE_SUPERVISOR : Z := 0.
Definition PAGE_4MB : Z := Z.shiftl 1 7.
Definition PAGE_GLOBAL : Z := Z.shiftl 1 8.

(** Physical memory as paging.c uses it: the pages that hold tables of 1024
    entries, the bytes of the other pages, the page allocator; and the
    processor's cr3 and the addresses given to [invlpg], latest first.  The
    kernel reaches physical memory at the same addresses, since every directory
    maps the first two gigabytes to themselves. *)
Record paging := Paging {
  tables : gmap Z (list Z);
  bytes : gmap Z Z;
  phys : physmem;
  cr3 : Z;
  invalidated : list Z
}.

Definition set_tables (v : gmap Z (list Z)) (x : paging) : paging :=
  Paging v (bytes x) (phys x) (cr3 x) (invalidated x).
Definition set_bytes (v : gmap Z Z) (x : paging) : paging :=
  Paging (tables x) v (phys x) (cr3 x) (invalidated x).
Definition set_phys (v : physmem) (x : paging) : paging :=
  Paging (tables x) (bytes x) v (cr3 x) (invalidated x).
Definition set_cr3 (v : Z) (x : paging) : paging :=
  Paging (tables x) (bytes x) (phys x) v (invalidated x).
Definition set_invalidated (v : list Z) (x : paging) : paging :=
  Paging (tables x) (bytes x) (phys x) (cr3 x) v.

(** Reading and writing [table[i]], and the calls of the page allocator. *)
Definition get_entry (table i : Z) : M paging Z :=
  s ← getS; l ← liftO (hload (tables s) table); liftO (aget l i).
Definition set_entry (table i v : Z) : M paging unit :=
  s ← getS; l ← liftO (hload (tables s) table); l ← liftO (aset l i v);
  modifyS (set_tables (<[table := l]> (tables s))).
Definition alloc_page : M paging Z :=
  s ← getS; '(ptr, m) ← liftO (memory_alloc 1 (phys s)); modifyS (set_phys m) ;; mret ptr.
Definition free_page (page : Z) : M paging unit :=
  s ← getS; m ← liftO (memory_free 1 page (phys s)); modifyS (set_phys m).
Definition invlpg (address : Z) : M paging unit :=
  modifyS (fun s => set_invalidated (address :: invalidated s) s).
Definition invlpg_if (invalidate : bool) (address : Z) : M paging unit :=
  if invalidate then invlpg address else mret tt.

(** [ & ~0xFFF ] *)
Definition page_base (x : Z) : Z := Z.land x (u32 (Z.lnot 4095)).

Definition page_table_of (address : Z) : Z := Z.land (Z.shiftr address 22) 1023.
Definition page_entry_of (address : Z) : Z := Z.land (Z.shiftr address 12) 1023.

Definition page_table (pde address : Z) : M paging Z :=
  e ← get_entry pde (page_table_of address); mret (page_base e).
Definition page_entry (pde address : Z) : M paging Z :=
  t ← page_table pde address; e ← get_entry t (page_entry_of address); mret (page_base e).

(** The entry of the [i]th page of 4 MB, for the supervisor; the product wraps
    around in 32 bits ([new_page_directory] computes it in signed integers). *)
Definition large_entry (i : Z) : Z :=
  Z.lor (Z.lor (Z.lor (Z.lor (Z.lor (u32 (i * 4096 * 1024)) PAGE_SUPERVISOR) PAGE_4MB) PAGE_RDWR)
    PAGE_PRESENT) PAGE_GLOBAL.

(** [init_paging] fills the kernel's own directory [page_directory]. *)
Fixpoint init_entries (n : nat) (i : Z) (l : list Z) : outcome (list Z) :=
  match n with
  | O => Ok l
  | S n => l ← aset l i (large_entry i); init_entries n (i + 1) l
  end.
Definition init_paging (page_directory : list Z) : outcome (list Z) :=
  init_entries 1024 0 page_directory.

(** [for ( ; i < i + n; i++) map[i] = f i] *)
Fixpoint fill_table (n : nat) (i : Z) (f : Z -> Z) (map : Z) : M paging unit :=
  match n with
  | O => mret tt
  | S n => set_entry map i (f i) ;; fill_table n (i + 1) f map
  end.

(** A page that [memory_alloc] hands out holds 1024 entries; its old contents do
    not matter, since all of it is written before it is used.  Writing to the
    page that a failed allocation stands for is a null dereference. *)
Definition zero_table : list Z := replicate 1024 0.
Arguments zero_table : simpl never.
Definition fresh_table (table : Z) : M paging unit :=
  if table =? NULL then liftO (Halt NullDeref)
  else modifyS (fun s => set_tables (<[table := zero_table]> (tables s)) s).

Definition new_page_directory : M paging Z :=
  map ← alloc_page;
  fresh_table map ;;
  fill_table 512 0 large_entry map ;;
  fill_table 504 512 (fun _ => 0) map ;;
  fill_table 8 1016 large_entry map ;;
  mret map.

Definition page_table_present (pde address : Z) : M paging Z :=
  e ← get_entry pde (page_table_of address);
  mret (if Z.land e PAGE_PRESENT =? PAGE_PRESENT then 0 else -1).

Definition page_entry_present (pde address : Z) : M paging Z :=
  tmp ← get_entry pde (page_table_of address);
  if negb (Z.land tmp PAGE_PRESENT =? PAGE_PRESENT) then mret (-1)
  else
    e ← get_entry (page_base tmp) (page_entry_of address);
    mret (if Z.land e PAGE_PRESENT =? PAGE_PRESENT then 0 else -1).

(** The two loops of [delete_page_directory]; [position] is [i * PAGE_SIZE]. *)
Fixpoint delete_entries (n : nat) (i : Z) (map : Z) : M paging unit :=
  match n with
  | O => mret tt
  | S n =>
      let position := u32 (i * PAGE_SIZE) in
      t ← page_table_present map position;
      (if negb (t =? 0) then mret tt
       else
         e ← page_entry_present map position;
         if negb (e =? 0) then mret tt
         else
           page ← page_entry map position;
           table ← page_table map position;
           set_entry table (page_entry_of position) 0 ;;
           free_page page) ;;
      delete_entries n (i + 1) map
  end.

Fixpoint delete_tables (n : nat) (i : Z) (map : Z) : M paging unit :=
  match n with
  | O => mret tt
  | S n =>
      let position := u32 (i * PAGE_SIZE) in
      t ← page_table_present map position;
      (if negb (t =? 0) then mret tt
       else
         table ← page_table map position;
         set_entry map (page_table_of position) 0 ;;
         free_page table) ;;
      delete_tables n (i + 1) map
  end.

Definition delete_page_directory (map : Z) : M paging unit :=
  s ← getS;
  massert (negb (cr3 s =? map)) ;;
  delete_entries 504 512 map ;;
  delete_tables 504 512 map ;;
  free_page map.

Definition convert_paging_types (flags : Z) : Z :=
  let f := 0 in
  let f := if negb (Z.land flags READ_ONLY =? 0) then Z.lor f PAGE_READ_ONLY else f in
  let f := if negb (Z.land flags READ_WRITE =? 0) then Z.lor f PAGE_RDWR else f in
  let f := if negb (Z.land flags USER_PAGE =? 0) then Z.lor f PAGE_USER else f in
  let f := if negb (Z.land flags SYSTEM_PAGE =? 0) then Z.lor f PAGE_SUPERVISOR else f in
  f.

(** The step that [page_ensure], [page_map_in] and [page_direct_map] share: a
    missing page table is allocated, cleared and installed. *)
Definition ensure_table (directory index type : Z) : M paging unit :=
  t ← page_table_present directory index;
  if negb (t =? 0) then
    table ← alloc_page;
    fresh_table table ;;
    set_entry directory (page_table_of index) (Z.lor (Z.lor table type) PAGE_PRESENT)
  else mret tt.

(** The loop of [page_ensure]: [index] and [alreadies] at the start of a round. *)
Fixpoint ensure_loop (n : nat) (directory index type : Z) (invalidate : bool) (alreadies : Z) : M paging Z :=
  match n with
  | O => mret alreadies
  | S n =>
      let index := u32 (index + PAGE_SIZE) in
      ensure_table directory index type ;;
      e ← page_entry_present directory index;
      if negb (e =? 0) then
        table ← page_table directory index;
        page ← alloc_page;
        set_entry table (page_entry_of index) (Z.lor (Z.lor page type) PAGE_PRESENT) ;;
        invlpg_if invalidate index ;;
        ensure_loop n directory index type invalidate alreadies
      else ensure_loop n directory index type invalidate (s32 (alreadies + 1))
  end.

Definition page_ensure (directory start pages flags : Z) : M paging Z :=
  let type := convert_paging_types flags in
  s ← getS;
  ensure_loop (Z.to_nat pages) directory (u32 (start - PAGE_SIZE)) type (cr3 s =? directory) 0.

Definition page_present (directory address : Z) : M paging Z :=
  t ← page_table_present directory address;
  if negb (t =? 0) then mret (-1)
  else
    e ← page_entry_present directory address;
    mret (if negb (e =? 0) then -1 else 0).

(** The search of [page_map_in]: [found] and [found_start] when it ends.  The
    number of rounds is bounded by [fuel]: the loop variable wraps around when
    [end] lies in the last page of the address space. *)
Fixpoint map_in_search (fuel : nat) (directory i end_ pages type found found_start : Z) : M paging (Z * Z) :=
  match fuel with
  | O => liftO (Halt Spin)
  | S fuel =>
      if i <? end_ then
        ensure_table directory i type ;;
        e ← page_entry_present directory i;
        let '(found, found_start) :=
          if negb (e =? 0) then (u32 (found + 1), if found_start =? 0 then i else found_start)
          else (0, 0) in
        if found =? pages then mret (found, found_start)
        else map_in_search fuel directory (u32 (i + PAGE_SIZE)) end_ pages type found found_start
      else mret (found, found_start)
  end.

Fixpoint map_in_loop (n : nat) (directory index type : Z) (invalidate : bool) : M paging unit :=
  match n with
  | O => mret tt
  | S n =>
      let index := u32 (index + PAGE_SIZE) in
      table ← page_table directory index;
      page ← alloc_page;
      set_entry table (page_entry_of index) (Z.lor (Z.lor page type) PAGE_PRESENT) ;;
      invlpg_if invalidate index ;;
      map_in_loop n directory index type invalidate
  end.

Definition page_map_in (fuel : nat) (directory start end_ pages type : Z) : M paging Z :=
  s ← getS;
  let invalidate := cr3 s =? directory in
  '(found, found_start) ← map_in_search fuel directory start end_ pages type 0 0;
  if negb (found =? pages) then mret 0
  else
    map_in_loop (Z.to_nat pages) directory (u32 (found_start - PAGE_SIZE)) type invalidate ;;
    mret found_start.

(** The loop of [page_direct_map]; [i] is unsigned, so that a negative [pages]
    counts as a large one. *)
Fixpoint direct_loop (n : nat) (directory index phys flags : Z) (invalidate : bool) : M paging unit :=
  match n with
  | O => mret tt
  | S n =>
      ensure_table directory index flags ;;
      table ← page_table directory index;
      set_entry table (page_entry_of index) (Z.lor (Z.lor phys flags) PAGE_PRESENT) ;;
      invlpg_if invalidate index ;;
      direct_loop n directory (u32 (index + PAGE_SIZE)) (u32 (phys + PAGE_SIZE)) flags invalidate
  end.

Definition page_direct_map (directory physical start pages type : Z) : M paging Z :=
  let flags := convert_paging_types type in
  s ← getS;
  direct_loop (Z.to_nat (u32 pages)) directory start physical flags (cr3 s =? directory) ;;
  mret 0.

(** The inner loop of [page_find_free]: the first [count] whose page is present. *)
Fixpoint first_present (n : nat) (directory current count : Z) : M paging (option Z) :=
  match n with
  | O => mret None
  | S n =>
      e ← page_entry_present directory (u32 (current + count * PAGE_SIZE));
      if e =? 0 then mret (Some count) else first_present n directory current (count + 1)
  end.

Fixpoint find_free_loop (fuel : nat) (directory current finish pages : Z) : M paging Z :=
  match fuel with
  | O => liftO (Halt Spin)
  | S fuel =>
      if current <? finish then
        r ← first_present (Z.to_nat pages) directory current 0;
        match (r : option Z) with
        | Some count =>
            find_free_loop fuel directory (u32 (u32 (current + count * PAGE_SIZE) + PAGE_SIZE)) finish pages
        | None => mret current
        end
      else mret 0
  end.

Definition page_find_free (fuel : nat) (directory start finish pages : Z) : M paging Z :=
  find_free_loop fuel directory (page_base start) finish pages.

Definition page_provide (fuel : nat) (directory physical start end_ pages type : Z) : M paging Z :=
  location ← page_find_free fuel directory start end_ pages;
  if location =? 0 then mret 0
  else
    r ← page_direct_map directory physical location (s32 pages) type;
    mret (if negb (r =? 0) then 0 else location).

Fixpoint release_loop (n : nat) (directory index : Z) (invalidate : bool) : M paging unit :=
  match n with
  | O => mret tt
  | S n =>
      e ← page_entry_present directory index;
      (if e =? 0 then
         table ← page_table directory index; set_entry table (page_entry_of index) 0
       else mret tt) ;;
      invlpg_if invalidate index ;;
      release_loop n directory (u32 (index + PAGE_SIZE)) invalidate
  end.

Definition page_release (directory start pages : Z) : M paging Z :=
  s ← getS;
  release_loop (Z.to_nat pages) directory start (cr3 s =? directory) ;;
  mret 0.

Definition map_out_page (directory index : Z) : M paging unit :=
  e ← page_entry_present directory index;
  if e =? 0 then
    table ← page_table directory index;
    page ← page_entry directory index;
    set_entry table (page_entry_of index) 0 ;;
    free_page page
  else mret tt.

Fixpoint map_out_loop (n : nat) (directory index : Z) (invalidate : bool) : M paging unit :=
  match n with
  | O => mret tt
  | S n =>
      map_out_page directory index ;;
      invlpg_if invalidate index ;;
      map_out_loop n directory (u32 (index + PAGE_SIZE)) invalidate
  end.

Definition page_map_out (directory start pages : Z) : M paging Z :=
  s ← getS;
  map_out_loop (Z.to_nat pages) directory start (cr3 s =? directory) ;;
  mret 0.

(** Bytes of physical memory. *)
Definition get_byte (a : Z) : M paging Z := s ← getS; liftO (hload (bytes s) a).
Definition set_byte (a v : Z) : M paging unit :=
  s ← getS; h ← liftO (hstore (bytes s) a v); modifyS (set_bytes h).

Fixpoint copy_out_loop (n : nat) (i directory dest src : Z) : M paging unit :=
  match n with
  | O => mret tt
  | S n =>
      found ← page_entry directory (u32 (src + i));
      let found := u32 (found + u32 (src + i) mod PAGE_SIZE) in
      c ← get_byte found;
      set_byte (u32 (dest + i)) c ;;
      copy_out_loop n (i + 1) directory dest src
  end.

Definition page_copy_out (directory dest src bytes : Z) : M paging Z :=
  copy_out_loop (Z.to_nat bytes) 0 directory dest src ;; mret bytes.

Fixpoint copy_in_loop (n : nat) (i directory dest src : Z) : M paging unit :=
  match n with
  | O => mret tt
  | S n =>
      found ← page_entry directory (u32 (dest + i));
      let found := u32 (found + u32 (dest + i) mod PAGE_SIZE) in
      c ← get_byte (u32 (src + i));
      set_byte found c ;;
      copy_in_loop n (i + 1) directory dest src
  end.

Definition page_copy_in (directory dest src bytes : Z) : M paging Z :=
  copy_in_loop (Z.to_nat bytes) 0 directory dest src ;; mret bytes.

(** A 32-bit load, in the byte order of the machine. *)
Definition get_word (a : Z) : M paging Z :=
  b0 ← get_byte a; b1 ← get_byte (u32 (a + 1)); b2 ← get_byte (u32 (a + 2)); b3 ← get_byte (u32 (a + 3));
  mret (b0 + 256 * b1 + 65536 * b2 + 16777216 * b3).

Definition page_data_get (cr3 address : Z) : M paging Z :=
  pde ← get_entry cr3 (page_table_of address);
  if negb (Z.land pde PAGE_PRESENT =? PAGE_PRESENT) then mret (u32 (-1))
  else if negb (Z.land pde PAGE_4MB =? 0) then
    let page := Z.land pde (u32 (Z.lnot (1024 * 4096 - 1))) in
    get_word (u32 (page + Z.land address (1024 * 4096 - 1)))
  else
    let table := page_base pde in
    e ← get_entry table (page_entry_of address);
    if negb (Z.land e PAGE_PRESENT =? PAGE_PRESENT) then mret (u32 (-1))
    else get_word (u32 (page_base e + Z.land address (PAGE_SIZE - 1))).

(** Loading and reading cr3. *)
Definition set_map (map : Z) : M paging Z := modifyS (set_cr3 map) ;; mret 0.
Definition get_map : M paging Z := s ← getS; mret (cr3 s).

(** * Entries *)

Lemma page_table_of_div a : is_u32 a -> page_table_of a = a / 4194304.
Proof.
  intros Ha. unfold page_table_of, is_u32, two32 in *. rewrite Z.shiftr_div_pow2 by lia.
  change 1023 with (Z.ones 10). rewrite Z.land_ones by lia. apply Z.mod_small.
  split; [apply Z.div_pos; lia | apply Z.div_lt_upper_bound; lia].
Qed.

Lemma page_entry_of_div a : page_entry_of a = a / 4096 mod 1024.
Proof.
  unfold page_entry_of. rewrite Z.shiftr_div_pow2 by lia.
  change 1023 with (Z.ones 10). by rewrite Z.land_ones by lia.
Qed.

Lemma page_entry_of_bound a : 0 <= page_entry_of a < 1024.
Proof. rewrite page_entry_of_div. by apply Z.mod_pos_bound. Qed.

Lemma page_base_div x : is_u32 x -> page_base x = x / 4096 * 4096.
Proof.
  intros Hx. unfold page_base. change (u32 (Z.lnot 4095)) with (Z.shiftl (Z.ones 20) 12).
  assert (x / 4096 * 4096 = Z.shiftl (Z.shiftr x 12) 12) as ->
    by by rewrite Z.shiftl_mul_pow2, Z.shiftr_div_pow2 by lia.
  apply Z.bits_inj'. intros n Hn. rewrite Z.land_spec.
  destruct (decide (n < 12)) as [Hl|Hl].
  { by rewrite !Z.shiftl_spec_low, andb_false_r by lia. }
  rewrite !Z.shiftl_spec, Z.shiftr_spec, Z.sub_add by lia.
  destruct (decide (n < 32)).
  - by rewrite Z.ones_spec_low, andb_true_r by lia.
  - rewrite Z.ones_spec_high, andb_false_r by lia. unfold is_u32, two32 in Hx.
    destruct (decide (x = 0)) as [->|]; [by rewrite Z.bits_0 |].
    rewrite Z.bits_above_log2; [done | lia |].
    apply Z.log2_lt_pow2; [lia |]. apply Z.lt_le_trans with (2 ^ 32); [lia |].
    apply Z.pow_le_mono_r; lia.
Qed.

(** An entry is the address of its page plus its twelve low bits. *)
Lemma entry_base t f : 0 <= t -> is_u32 (t * 4096) -> 0 <= f < 4096 ->
  page_base (Z.lor (t * 4096) f) = t * 4096 /\ Z.lor (t * 4096) f mod 4096 = f /\
  is_u32 (Z.lor (t * 4096) f).
Proof.
  intros Ht Hu Hf. assert (Z.lor (t * 4096) f = t * 4096 + f) as E.
  { rewrite <- (Z.add_lor_land (t * 4096) f). assert (Z.land (t * 4096) f = 0) as ->; [|lia].
    apply Z.bits_inj'. intros n Hn. rewrite Z.land_spec, Z.bits_0.
    replace (t * 4096) with (Z.shiftl t 12) by by rewrite Z.shiftl_mul_pow2 by lia.
    destruct (decide (n < 12)); [by rewrite Z.shiftl_spec_low by lia |].
    rewrite andb_comm. destruct (decide (f = 0)) as [->|]; [by rewrite Z.bits_0 |].
    rewrite Z.bits_above_log2; [done | lia |]. apply Z.log2_lt_pow2; [lia |].
    apply Z.lt_le_trans with (2 ^ 12); [lia |]. apply Z.pow_le_mono_r; lia. }
  rewrite E. assert (is_u32 (t * 4096 + f)) as Hs by (unfold is_u32, two32 in *; lia).
  split_and!; [| | done].
  - rewrite page_base_div by done. rewrite Z.add_comm, Z.div_add, (Z.div_small f) by lia. lia.
  - rewrite Z.add_comm, Z.mod_add, Z.mod_small by lia. done.
Qed.

Definition present (e : Z) : bool := Z.land e PAGE_PRESENT =? PAGE_PRESENT.
Definition large (e : Z) : bool := negb (Z.land e PAGE_4MB =? 0).

Lemma land_mod_pow2 e k m : 0 <= k -> 0 <= m < 2 ^ k -> Z.land e m = Z.land (e mod 2 ^ k) m.
Proof.
  intros Hk Hm. apply Z.bits_inj'. intros n Hn. rewrite !Z.land_spec.
  destruct (decide (n < k)); [by rewrite Z.mod_pow2_bits_low by lia |].
  destruct (decide (m = 0)) as [->|]; [by rewrite Z.bits_0, !andb_false_r |].
  rewrite (Z.bits_above_log2 m), !andb_false_r; [done | lia |].
  apply Z.log2_lt_pow2; [lia |]. apply Z.lt_le_trans with (2 ^ k); [lia |]. apply Z.pow_le_mono_r; lia.
Qed.

Lemma present_low e : present e = present (e mod 4096).
Proof. unfold present, PAGE_PRESENT. by rewrite (land_mod_pow2 e 12) by (vm_compute; intuition congruence). Qed.

Lemma large_low e : large e = large (e mod 4096).
Proof. unfold large, PAGE_4MB. by rewrite (land_mod_pow2 e 12) by (vm_compute; intuition congruence). Qed.

(** The flags that the callers can ask for. *)
Lemma convert_paging_types_cases flags :
  convert_paging_types flags ∈ [0; PAGE_RDWR; PAGE_USER; Z.lor PAGE_RDWR PAGE_USER].
Proof.
  unfold convert_paging_types. cbv zeta.
  repeat match goal with |- context [if ?b then _ else _] => destruct b end; vm_compute; set_solver.
Qed.

(** Low bits of an entry with no page size bit and a page address. *)
Definition small_type (type : Z) : Prop := 0 <= type < 4096 /\ large (Z.lor type PAGE_PRESENT) = false.

Lemma convert_small flags : small_type (convert_paging_types flags).
Proof.
  pose proof (convert_paging_types_cases flags) as Hc.
  repeat (apply elem_of_cons in Hc as [->|Hc]; [by vm_compute |]). by apply elem_of_nil in Hc.
Qed.

Lemma lor_present_small f : 0 <= f < 4096 -> 0 <= Z.lor f PAGE_PRESENT < 4096 /\
  present (Z.lor f PAGE_PRESENT) = true.
Proof.
  intros Hf. unfold PAGE_PRESENT. split.
  - split; [apply Z.lor_nonneg; lia |].
    destruct (decide (f = 0)) as [->|]; [done |].
    assert (0 < Z.lor f 1) by (pose proof (Z.lor_nonneg f 1); assert (Z.lor f 1 <> 0) by (rewrite Z.lor_eq_0_iff; lia); lia).
    apply (Z.log2_lt_cancel _ (2 ^ 12)). rewrite Z.log2_lor, Z.log2_pow2 by lia.
    apply Z.max_lub_lt; [|done]. apply Z.log2_lt_pow2; lia.
  - unfold present, PAGE_PRESENT. rewrite Z.land_lor_distr_l. change (Z.land 1 1) with 1.
    destruct (Z.eqb_spec (Z.lor (Z.land f 1) 1) 1) as [|Hn]; [done |]. destruct Hn.
    change 1 with (Z.ones 1) at 1. rewrite Z.land_ones by lia.
    pose proof (Z.mod_pos_bound f (2 ^ 1)). assert (f mod 2 ^ 1 = 0 \/ f mod 2 ^ 1 = 1) as [-> | ->] by lia; done.
Qed.

(** The entry that the mapping operations write. *)
Lemma mapped_entry t type : 0 <= t -> is_u32 (t * 4096) -> 0 <= type < 4096 ->
  let e := Z.lor (Z.lor (t * 4096) type) PAGE_PRESENT in
  page_base e = t * 4096 /\ e mod 4096 = Z.lor type PAGE_PRESENT /\ is_u32 e /\ present e = true.
Proof.
  intros Ht Hu Hty e. unfold e. rewrite <- Z.lor_assoc.
  destruct (lor_present_small type Hty) as [H1 H2].
  destruct (entry_base t (Z.lor type PAGE_PRESENT) Ht Hu H1) as (E1 & E2 & E3).
  split_and!; try done. by rewrite present_low, E2.
Qed.

(** * The address space of a directory *)

(** Entry [i] of the table [t]. *)
Definition entry_at (s : paging) (t i : Z) : option Z := tables s !! t ≫= (.!! Z.to_nat i).

(** The translation of the hardware: the physical address of [va] and the low
    bits of the entry that maps it. *)
Definition mmu (s : paging) (d va : Z) : option (Z * Z) :=
  pde ← entry_at s d (va / 4194304);
  if negb (present pde) then None
  else if large pde then Some (pde / 4194304 * 4194304 + va mod 4194304, pde mod 4096)
  else
    pte ← entry_at s (page_base pde) (va / 4096 mod 1024);
    if negb (present pte) then None else Some (page_base pte + va mod 4096, pte mod 4096).

Definition is_table (s : paging) (t : Z) : Prop :=
  t <> NULL /\ exists l, tables s !! t = Some l /\ length l = 1024%nat /\ Forall is_u32 l.

(** The directory entries of the process's half of the address space. *)
Definition user_slot (i : Z) : Prop := 512 <= i < 1016.

Definition small_present (e : Z) : Prop := present e = true /\ large e = false.

(** No table lies in a free page. *)
Definition tables_used (s : paging) : Prop :=
  forall b, 0 <= b < memory_pages (phys s) -> used (memory_bitmap (phys s)) b = false ->
  tables s !! (b * PAGE_SIZE + memory_offset (phys s)) = None.

(** The directory [d] is consistent: outside of the kernel's large pages, every
    present entry belongs to the process's half and points to a table of its own. *)
Record pg_wf (s : paging) (d : Z) : Prop := {
  wf_mem : mem_ok (phys s);
  wf_used : tables_used s;
  wf_dir : is_table s d;
  wf_slot : forall i pde, 0 <= i -> entry_at s d i = Some pde -> present pde = true ->
    if large pde then ~ user_slot i
    else user_slot i /\ is_table s (page_base pde) /\ page_base pde <> d;
  wf_inj : forall i j e f, 0 <= i -> 0 <= j -> entry_at s d i = Some e -> entry_at s d j = Some f ->
    small_present e -> small_present f -> page_base e = page_base f -> i = j
}.

Lemma is_table_entry s t i : is_table s t -> 0 <= i < 1024 ->
  exists e, entry_at s t i = Some e /\ get_entry t i s = Ok (e, s) /\ is_u32 e.
Proof.
  intros (Hn & l & Hl & Hlen & Hu) Hi. destruct (lookup_lt_is_Some_2 l (Z.to_nat i)) as [e He]; [lia |].
  exists e. unfold entry_at, get_entry. rewrite Hl. split; [done |]. split.
  - mrun. rewrite (hload_Some _ _ _ Hn Hl). mrun.
    replace i with (Z.of_nat (Z.to_nat i)) at 1 by lia. by rewrite (aget_nat _ _ _ He).
  - by eapply Forall_lookup_1.
Qed.

Lemma entry_at_bound s t i e : is_table s t -> entry_at s t i = Some e -> i < 1024.
Proof.
  intros (_ & l & Hl & Hlen & _). unfold entry_at. rewrite Hl. simpl. intros H%lookup_lt_Some. lia.
Qed.

(** The state after [table[i] = v]. *)
Definition put_entry (t i v : Z) (s : paging) : paging :=
  set_tables (alter (fun l => <[Z.to_nat i := v]> l) t (tables s)) s.

Lemma set_entry_ok s t i v : is_table s t -> 0 <= i < 1024 ->
  set_entry t i v s = Ok (tt, put_entry t i v s).
Proof.
  intros (Hn & l & Hl & Hlen & Hu) Hi. unfold set_entry. mrun.
  rewrite (hload_Some _ _ _ Hn Hl). mrun. rewrite aset_lt by lia. mrun. unfold put_entry.
  by rewrite (alter_insert_of_Some _ _ _ _ Hl).
Qed.

Lemma put_entry_at s t i v t' i' : is_table s t -> 0 <= i < 1024 -> 0 <= i' ->
  entry_at (put_entry t i v s) t' i' =
  if decide (t' = t /\ i' = i) then Some v else entry_at s t' i'.
Proof.
  intros (Hn & l & Hl & Hlen & Hu) Hi Hi'. unfold entry_at, put_entry. simpl.
  destruct (decide (t' = t)) as [->|]; [|rewrite lookup_alter_ne, decide_False by naive_solver; done].
  rewrite lookup_alter_eq, Hl. simpl. destruct (decide (i' = i)) as [->|].
  - rewrite decide_True by done. apply list_lookup_insert_eq. lia.
  - rewrite decide_False by naive_solver. apply list_lookup_insert_ne. lia.
Qed.

Lemma put_entry_table s t i v t' : is_u32 v -> is_table s t' -> is_table (put_entry t i v s) t'.
Proof.
  intros Hv (Hn & l & Hl & Hlen & Hu). split; [done |]. unfold put_entry. simpl.
  destruct (decide (t' = t)) as [->|].
  - rewrite lookup_alter_eq, Hl. eexists. split; [done |]. rewrite length_insert.
    split; [done |]. by apply Forall_insert.
  - rewrite lookup_alter_ne by done. by exists l.
Qed.

Lemma put_entry_used s t i v : tables_used s -> tables_used (put_entry t i v s).
Proof.
  intros Hu b Hb Hf. simpl in *. rewrite lookup_alter_None. by apply Hu.
Qed.

(** The entries of an address: its slot in the directory and in the table. *)
Lemma slot_range va : is_u32 va -> 0 <= va / 4194304 < 1024.
Proof.
  unfold is_u32, two32. intros. split; [apply Z.div_pos; lia | apply Z.div_lt_upper_bound; lia].
Qed.
Lemma page_split va : 0 <= va -> va / 4096 = va / 4194304 * 1024 + va / 4096 mod 1024.
Proof.
  intros. change 4194304 with (4096 * 1024). rewrite <- Z.div_div by lia.
  pose proof (Z.div_mod (va / 4096) 1024). lia.
Qed.

Section directory.
Context (s : paging) (d : Z) (Hwf : pg_wf s d).

Lemma slot_cases va : is_u32 va -> exists pde,
  entry_at s d (va / 4194304) = Some pde /\ is_u32 pde /\
  get_entry d (page_table_of va) s = Ok (pde, s) /\
  page_table_present d va s = Ok (if present pde then 0 else -1, s).
Proof.
  intros Hva. destruct (is_table_entry s d (va / 4194304) (wf_dir _ _ Hwf) (slot_range va Hva))
    as (pde & H1 & H2 & H3). exists pde. rewrite <- page_table_of_div in H2 by done. split_and!; try done.
  unfold page_table_present. rewrite (run_bind_Ok _ _ _ _ _ H2). mrun. unfold present. done.
Qed.

(** What the software walk of a process address finds. *)
Lemma walk_user va pde : is_u32 va -> user_slot (va / 4194304) ->
  entry_at s d (va / 4194304) = Some pde ->
  (present pde = false -> mmu s d va = None /\ page_entry_present d va s = Ok (-1, s)) /\
  (present pde = true -> exists pte, is_table s (page_base pde) /\ page_base pde <> d /\ large pde = false /\
     entry_at s (page_base pde) (va / 4096 mod 1024) = Some pte /\ is_u32 pte /\
     page_table d va s = Ok (page_base pde, s) /\ page_entry d va s = Ok (page_base pte, s) /\
     page_entry_present d va s = Ok (if present pte then 0 else -1, s) /\
     mmu s d va = if present pte then Some (page_base pte + va mod 4096, pte mod 4096) else None).
Proof.
  intros Hva Hus Hpde. destruct (slot_cases va Hva) as (pde' & H1 & Hu & Hget & _). simplify_eq.
  unfold mmu, page_entry, page_table, page_entry_present. rewrite Hpde. simpl.
  split; intros Hp; rewrite Hp; simpl.
  - split; [done |]. rewrite (run_bind_Ok _ _ _ _ _ Hget). unfold present in Hp. rewrite Hp. done.
  - assert (0 <= va / 4194304) as H0 by (unfold user_slot in Hus; lia).
    pose proof (wf_slot _ _ Hwf _ _ H0 Hpde Hp) as Hs.
    destruct (large pde) eqn:El; [done |]. destruct Hs as (_ & Ht & Hd).
    destruct (is_table_entry s (page_base pde) (va / 4096 mod 1024) Ht) as (pte & P1 & P2 & P3);
      [apply Z.mod_pos_bound; lia |].
    exists pte. rewrite <- page_entry_of_div in P2. rewrite P1.
    rewrite !(run_bind_Ok _ _ _ _ _ Hget). cbn [mbind option_bind].
    assert (page_table d va s = Ok (page_base pde, s)) as Hpt
      by (unfold page_table; rewrite (run_bind_Ok _ _ _ _ _ Hget); done).
    split_and!; try done.
    + rewrite run_bind. unfold page_table in Hpt. rewrite Hpt.
      rewrite (run_bind_Ok _ _ _ _ _ P2). done.
    + unfold present in Hp. rewrite Hp. cbn [negb]. rewrite (run_bind_Ok _ _ _ _ _ P2). done.
    + by destruct (present pte).
Qed.
End directory.

(** Writing the table entry of a page changes the translation of that page only. *)
Lemma put_pte s d va pde v : pg_wf s d -> is_u32 va -> user_slot (va / 4194304) -> is_u32 v ->
  entry_at s d (va / 4194304) = Some pde -> present pde = true ->
  let s' := put_entry (page_base pde) (va / 4096 mod 1024) v s in
  pg_wf s' d /\ (forall i, 0 <= i -> entry_at s' d i = entry_at s d i) /\ forall a, is_u32 a ->
  mmu s' d a = if decide (a / 4096 = va / 4096)
    then if present v then Some (page_base v + a mod 4096, v mod 4096) else None else mmu s d a.
Proof.
  intros Hwf Hva Hus Hv Hpde Hp s'.
  destruct (walk_user s d Hwf va pde Hva Hus Hpde) as [_ Hw].
  destruct (Hw Hp) as (pte & Ht & Hd & Hl & Hpte & _). clear Hw.
  pose proof (Z.mod_pos_bound (va / 4096) 1024 ltac:(lia)) as Hk.
  assert (forall i, 0 <= i -> entry_at s' d i = entry_at s d i) as Hdir.
  { intros i Hi. unfold s'. rewrite put_entry_at, decide_False by (done || naive_solver). done. }
  assert (pg_wf s' d) as Hwf'.
  { split.
    - apply Hwf.
    - apply put_entry_used, Hwf.
    - apply put_entry_table, Hwf. done.
    - intros i e Hi. rewrite Hdir by done. intros He Hpe. pose proof (wf_slot _ _ Hwf i e Hi He Hpe) as H.
      destruct (large e); [done |]. destruct H as (?&?&?). split_and!; [done | by apply put_entry_table | done].
    - intros i j e f Hi Hj. rewrite !Hdir by done. by apply (wf_inj _ _ Hwf). }
  split_and!; [done | done |]. intros a Ha. unfold mmu.
  pose proof (slot_range a Ha) as Hsa. pose proof (slot_range va Hva) as Hsv. rewrite Hdir by lia.
  destruct (slot_cases s d Hwf a Ha) as (pa & Epa & _). rewrite Epa. simpl.
  assert (0 <= a) as Ha0 by apply Ha. assert (0 <= va) as Hva0 by apply Hva.
  pose proof (page_split a Ha0) as Sa. pose proof (page_split va Hva0) as Sv.
  destruct (decide (a / 4194304 = va / 4194304)) as [Es|Es].
  - rewrite Es in Epa. simplify_eq. rewrite Hp, Hl. simpl. unfold s'.
    pose proof (Z.mod_pos_bound (a / 4096) 1024 ltac:(lia)).
    rewrite put_entry_at by (done || lia).
    destruct (decide (a / 4096 = va / 4096)) as [E|E].
    + rewrite decide_True by (rewrite E; done). simpl. by destruct (present v).
    + rewrite decide_False; [done |]. intros [_ ?]. lia.
  - rewrite decide_False by (intros E; pose proof (Z.mod_pos_bound (a / 4096) 1024); lia).
    destruct (present pa) eqn:Epp; [simpl | done]. destruct (large pa) eqn:Epl; [done |].
    unfold s'. rewrite put_entry_at, decide_False; [done | | done | done | by apply Z.mod_pos_bound].
    intros [Eb _]. apply Es. eapply (wf_inj _ _ Hwf); [lia | lia | done | done | done | done | done].
Qed.

(** What an operation that only takes pages leaves alone. *)
Record grows (s s' : paging) : Prop := {
  grows_pages : memory_pages (phys s') = memory_pages (phys s);
  grows_offset : memory_offset (phys s') = memory_offset (phys s);
  grows_used : forall b, 0 <= b -> used (memory_bitmap (phys s)) b = true -> used (memory_bitmap (phys s')) b = true;
  grows_tables : forall b, 0 <= b < memory_pages (phys s) -> used (memory_bitmap (phys s)) b = true ->
    tables s !! frame (phys s) b = None -> tables s' !! frame (phys s) b = None;
  grows_bytes : bytes s' = bytes s;
  grows_cr3 : cr3 s' = cr3 s
}.

Lemma grows_refl s : grows s s.
Proof. by split. Qed.

Lemma grows_trans s1 s2 s3 : grows s1 s2 -> grows s2 s3 -> grows s1 s3.
Proof.
  intros [A1 A2 A3 A4 A5 A6] [B1 B2 B3 B4 B5 B6]. unfold frame in *. split; try congruence; eauto.
  intros b Hb Hu Ht. rewrite A1, A2 in *. apply B4; [lia | apply A3; (lia || done) | by apply A4].
Qed.

Lemma grows_put s t i v : grows s (put_entry t i v s).
Proof. split; try done. intros b Hb Hu Ht. unfold put_entry. simpl. by rewrite lookup_alter_None. Qed.

(** Block [b] leaves the free pages. *)
Record takes (s s' : paging) (b : Z) : Prop := {
  takes_range : 0 <= b < memory_pages (phys s);
  takes_free : used (memory_bitmap (phys s)) b = false;
  takes_used : used (memory_bitmap (phys s')) b = true;
  takes_count : s_freePages (phys s') = s_freePages (phys s) - 1
}.

Lemma alloc_page_mem s : mem_ok (phys s) -> tables_used s -> 1 < s_freePages (phys s) -> exists b m',
  let s' := set_phys m' s in
  alloc_page s = Ok (frame (phys s) b, s') /\ mem_ok (phys s') /\ tables_used s' /\ grows s s' /\ takes s s' b /\
  tables s !! frame (phys s) b = None.
Proof.
  intros Hmem Htu Hfree. pose proof Hmem as (Hpm & base & Ho & Hb1 & Hb2).
  destruct (memory_alloc_spec 1 (phys s) Hpm) as (p & m' & E & Hwf' & [Ep Eo] & Hc); [unfold two32; lia |].
  destruct Hc as [(_ & _ & H)|(b & Hb & Hbp & -> & Hf & Hu & Hother & Hcount)]; [specialize (H eq_refl); lia |].
  assert (used (memory_bitmap (phys s)) b = false) as Hbf by (apply Hf; lia).
  assert (used (memory_bitmap m') b = true) as Hbu by (apply Hu; lia).
  assert (forall q, 0 <= q -> used (memory_bitmap (phys s)) q = true -> used (memory_bitmap m') q = true) as Hmono.
  { intros q Hq Hqu. destruct (decide (q = b)) as [->|]; [done |]. by rewrite Hother by lia. }
  exists b, m'. unfold frame. rewrite <- (u32_small (b * PAGE_SIZE + memory_offset (phys s)))
    by (rewrite Ho; unfold is_u32, two32, PAGE_SIZE; lia).
  split. { unfold alloc_page. mrun. rewrite E. mrun. done. }
  split_and!.
  - simpl. split; [done |]. exists base. rewrite Eo, Ep. done.
  - intros q Hq Hqf. simpl in *. rewrite Eo. rewrite Ep in Hq. apply Htu; [done |].
    destruct (used (memory_bitmap (phys s)) q) eqn:Eq; [|done]. rewrite Hmono in Hqf by (lia || done). done.
  - split; done.
  - split; try done. lia.
  - rewrite u32_small by (rewrite Ho; unfold is_u32, two32, PAGE_SIZE; lia). apply Htu; [lia | done].
Qed.

Lemma alloc_page_ok s d : pg_wf s d -> 1 < s_freePages (phys s) -> exists b m',
  let s' := set_phys m' s in
  alloc_page s = Ok (frame (phys s) b, s') /\ pg_wf s' d /\ grows s s' /\ takes s s' b /\
  tables s !! frame (phys s) b = None.
Proof.
  intros Hwf Hfree. destruct (alloc_page_mem s (wf_mem _ _ Hwf) (wf_used _ _ Hwf) Hfree)
    as (b & m' & E & Hm & Ht & Hg & Hk & Hn).
  exists b, m'. split_and!; try done. destruct Hwf as [? ? ? ? ?]. by split.
Qed.

(** The state with a cleared table in block [b] as the entry [i] of [d]. *)
Definition install (s : paging) (d i b type : Z) : paging :=
  put_entry d i (Z.lor (Z.lor (frame (phys s) b) type) PAGE_PRESENT)
    (set_tables (<[frame (phys s) b := zero_table]> (tables s)) s).

Lemma zeros_table s p : p <> NULL -> tables s !! p = Some (zero_table) -> is_table s p.
Proof.
  intros Hp Hl. split; [done |]. eexists. split; [done |]. split; [done |].
  apply Forall_replicate. by vm_compute.
Qed.

Section install.
Context (s : paging) (d i b type : Z) (Hwf : pg_wf s d) (Hus : user_slot i) (Hty : small_type type).
Context (Hb : 0 <= b < memory_pages (phys s)) (Hbu : used (memory_bitmap (phys s)) b = true).
Context (Hnone : tables s !! frame (phys s) b = None).
Context (Habs : exists e, entry_at s d i = Some e /\ present e = false).
Local Abbreviation p := (frame (phys s) b).
Local Abbreviation e := (Z.lor (Z.lor p type) PAGE_PRESENT).
Local Abbreviation s' := (install s d i b type).

Lemma install_new_entry : page_base e = p /\ large e = false /\ present e = true /\ is_u32 e /\ p <> NULL.
Proof using All.
  destruct Hty as [Ht Hlg]. destruct (frame_page (phys s) b (wf_mem _ _ Hwf) Hb) as (k & Hk & Hk0 & Hku).
  destruct (mapped_entry k type ltac:(lia) Hku Ht) as (E1 & E2 & E3 & E4). rewrite Hk.
  split_and!; try done; [by rewrite large_low, E2 | unfold NULL; lia].
Qed.

Lemma install_keeps t : is_table s t -> t <> p /\ is_table (set_tables (<[p := zero_table]> (tables s)) s) t.
Proof using All.
  intros (Hn & l & Hl & Hx). assert (t <> p) by congruence. split; [done |].
  split; [done |]. exists l. simpl. by rewrite lookup_insert_ne.
Qed.

Lemma install_table t : is_table s t \/ t = p -> is_table s' t.
Proof using All.
  destruct install_new_entry as (_ & _ & _ & Hu & Hp). intros Ht. apply put_entry_table; [done |].
  destruct Ht as [Ht| ->]; [by apply install_keeps |].
  apply zeros_table; [done |]. simpl. by rewrite lookup_insert_eq.
Qed.

Lemma install_dir j : 0 <= j -> entry_at s' d j = if decide (j = i) then Some e else entry_at s d j.
Proof using All.
  intros Hj. destruct (install_keeps d (wf_dir _ _ Hwf)) as [Hdp Hd1].
  unfold install. rewrite put_entry_at by (done || unfold user_slot in Hus; lia).
  destruct (decide (j = i)); [by rewrite decide_True | rewrite decide_False by naive_solver].
  unfold entry_at. simpl. by rewrite lookup_insert_ne.
Qed.

Lemma install_other t j : t <> p -> t <> d -> 0 <= j -> entry_at s' t j = entry_at s t j.
Proof using All.
  intros Ht Htd Hj. destruct (install_keeps d (wf_dir _ _ Hwf)) as [Hdp Hd1].
  unfold install. rewrite put_entry_at, decide_False by (naive_solver || unfold user_slot in Hus; lia).
  unfold entry_at. simpl. by rewrite lookup_insert_ne.
Qed.

Lemma install_zero k : 0 <= k < 1024 -> entry_at s' p k = Some 0.
Proof using All.
  intros Hk. destruct (install_keeps d (wf_dir _ _ Hwf)) as [Hdp Hd1].
  unfold install. rewrite put_entry_at, decide_False by (naive_solver || unfold user_slot in Hus; lia).
  unfold entry_at. simpl. rewrite lookup_insert_eq. unfold zero_table. cbn [mbind option_bind].
  apply lookup_replicate_2. lia.
Qed.

Lemma install_old_table j x : 0 <= j -> entry_at s d j = Some x -> small_present x ->
  is_table s (page_base x) /\ page_base x <> d /\ page_base x <> p.
Proof using All.
  intros Hj Hx [Hp Hl]. pose proof (wf_slot _ _ Hwf j x Hj Hx Hp) as H. rewrite Hl in H.
  destruct H as (_ & Ht & Hd). split_and!; [done | done | by apply install_keeps].
Qed.

Lemma install_wf : pg_wf s' d.
Proof using All.
  destruct install_new_entry as (Eb & El & Ep & Eu & Hp0). destruct (install_keeps d (wf_dir _ _ Hwf)) as [Hdp Hd1].
  split.
  - apply Hwf.
  - apply put_entry_used. intros q Hq Hqf. simpl in *. rewrite lookup_insert_ne; [by apply (wf_used _ _ Hwf) |].
    unfold frame. intros Eq. assert (q = b) as -> by (unfold PAGE_SIZE in Eq; lia). congruence.
  - apply install_table. left. apply Hwf.
  - intros j x Hj. rewrite install_dir by done. destruct (decide (j = i)) as [->|].
    + intros [= <-] _. rewrite El, Eb. split_and!; [done | apply install_table; by right | congruence].
    + intros Hx Hpx. pose proof (wf_slot _ _ Hwf j x Hj Hx Hpx) as H. destruct (large x); [done |].
      destruct H as (?&Ht&?). split_and!; [done | apply install_table; by left | done].
  - intros j1 j2 x1 x2 H1 H2. rewrite !install_dir by done.
    destruct (decide (j1 = i)) as [->|], (decide (j2 = i)) as [->|]; try done.
    + intros [= <-] Hx2 _ Hs2 Eq. destruct (install_old_table _ _ H2 Hx2 Hs2). naive_solver congruence.
    + intros Hx1 [= <-] Hs1 _ Eq. destruct (install_old_table _ _ H1 Hx1 Hs1). naive_solver congruence.
    + by apply (wf_inj _ _ Hwf).
Qed.

Lemma install_mmu a : is_u32 a -> mmu s' d a = mmu s d a.
Proof using All.
  destruct install_new_entry as (Eb & El & Ep & Eu & Hp0). destruct Habs as (old & Hold & Hpold).
  intros Ha. unfold mmu. pose proof (slot_range a Ha). rewrite install_dir by lia.
  pose proof (Z.mod_pos_bound (a / 4096) 1024 ltac:(lia)).
  destruct (decide (a / 4194304 = i)) as [->|].
  - rewrite Hold. cbn [mbind option_bind]. rewrite Hpold, Ep, El, Eb, install_zero by lia. done.
  - destruct (slot_cases s d Hwf a Ha) as (x & Hx & _). rewrite Hx. cbn [mbind option_bind].
    destruct (present x) eqn:Px; [|done]. destruct (large x) eqn:Lx; [done |]. cbn [negb].
    destruct (install_old_table (a / 4194304) x) as (_ & Hnd & Hnp); [lia | done | done |].
    by rewrite install_other by (done || lia).
Qed.
End install.

Lemma grows_install s m' d i b type : let s1 := set_phys m' s in
  grows s s1 -> takes s s1 b -> grows s (install s1 d i b type).
Proof.
  intros s1 Hg Ht. pose proof (takes_range _ _ _ Ht) as Hr. pose proof (takes_free _ _ _ Ht) as Hf.
  destruct Hg as [G1 G2 G3 G4 G5 G6]. split; try done.
  intros q Hq Hu Hn. unfold install, put_entry. simpl. rewrite lookup_alter_None, lookup_insert_ne; [done |].
  unfold frame. rewrite <- G2. intros Eq. assert (q = b) as -> by (unfold PAGE_SIZE in *; simpl in *; lia). congruence.
Qed.

(** Extensionally the same translation. *)
Definition same_mmu (s s' : paging) (d : Z) : Prop := forall a, is_u32 a -> mmu s' d a = mmu s d a.

Lemma ensure_table_ok s d va type : pg_wf s d -> is_u32 va -> user_slot (va / 4194304) -> small_type type ->
  1 < s_freePages (phys s) -> exists s',
  ensure_table d va type s = Ok (tt, s') /\ pg_wf s' d /\ grows s s' /\
  s_freePages (phys s) - 1 <= s_freePages (phys s') <= s_freePages (phys s) /\
  invalidated s' = invalidated s /\ same_mmu s s' d /\
  exists pde, entry_at s' d (va / 4194304) = Some pde /\ present pde = true.
Proof.
  intros Hwf Hva Hus Hty Hfree. destruct (slot_cases s d Hwf va Hva) as (pde & Hpde & Hu & _ & Hpres).
  unfold ensure_table. rewrite (run_bind_Ok _ _ _ _ _ Hpres). destruct (present pde) eqn:Ep; cbn [Z.eqb negb].
  { exists s. split_and!; try done; try lia. by exists pde. }
  destruct (alloc_page_ok s d Hwf Hfree) as (b & m' & E & Hwf1 & Hg & Ht & Hn).
  set (s1 := set_phys m' s) in *. rewrite (run_bind_Ok _ _ _ _ _ E).
  pose proof (grows_offset _ _ Hg) as Eo. pose proof (grows_pages _ _ Hg) as Epg.
  assert (frame (phys s) b = frame (phys s1) b) as Ef by (unfold frame; by rewrite Eo).
  assert (0 <= b < memory_pages (phys s1)) as Hb by (rewrite Epg; apply Ht).
  rewrite Ef in *. pose proof (takes_used _ _ _ Ht) as Hbu.
  assert (exists e, entry_at s1 d (va / 4194304) = Some e /\ present e = false) as Habs by by exists pde.
  destruct (install_new_entry s1 d (va / 4194304) b type Hwf1 Hus Hty Hb Hbu Hn Habs) as (Eb & El & Ep1 & Eu & Hp0).
  pose proof (install_wf s1 d (va / 4194304) b type Hwf1 Hus Hty Hb Hbu Hn Habs) as Hwf2.
  pose proof (install_mmu s1 d (va / 4194304) b type Hwf1 Hus Hty Hb Hbu Hn Habs) as Hmmu.
  pose proof (install_dir s1 d (va / 4194304) b type Hwf1 Hus Hty Hb Hbu Hn Habs) as Hdir.
  destruct (install_keeps s1 d (va / 4194304) b type Hwf1 Hus Hty Hb Hbu Hn Habs d (wf_dir _ _ Hwf1))
    as [_ Hd1].
  exists (install s1 d (va / 4194304) b type). split.
  { unfold fresh_table. destruct (Z.eqb_spec (frame (phys s1) b) NULL); [done |]. mrun.
    rewrite page_table_of_div by done. apply set_entry_ok; [done |]. by apply slot_range. }
  pose proof (takes_count _ _ _ Ht) as Hc. split_and!; try done; try (simpl in *; lia).
  - by apply grows_install.
  - eexists. split; [|exact Ep1]. rewrite Hdir by (pose proof (slot_range va Hva); lia). by rewrite decide_True.
Qed.

(** Writing the page's entry after [ensure_table]. *)
Lemma write_page_ok s d va pde v : pg_wf s d -> is_u32 va -> user_slot (va / 4194304) -> is_u32 v ->
  entry_at s d (va / 4194304) = Some pde -> present pde = true -> exists s',
  page_table d va s = Ok (page_base pde, s) /\
  (forall m', is_table (set_phys m' s) (page_base pde) ->
    set_entry (page_base pde) (page_entry_of va) v (set_phys m' s) = Ok (tt, set_phys m' s')) /\
  s' = put_entry (page_base pde) (va / 4096 mod 1024) v s.
Proof.
  intros Hwf Hva Hus Hv Hpde Hp. destruct (walk_user s d Hwf va pde Hva Hus Hpde) as [_ Hw].
  destruct (Hw Hp) as (pte & Ht & Hd & Hl & Hpte & _ & Hpt & _). eexists. split_and!; [done | | done].
  intros m' Ht'. rewrite page_entry_of_div. rewrite set_entry_ok; [done | done | apply Z.mod_pos_bound; lia].
Qed.

Lemma invlpg_if_ok inv a s :
  invlpg_if inv a s = Ok (tt, if inv then set_invalidated (a :: invalidated s) s else s).
Proof. by destruct inv. Qed.

Lemma pg_wf_invalidated s d l : pg_wf s d -> pg_wf (set_invalidated l s) d.
Proof. intros []. by split. Qed.

(** One page set to the entry [v] in a present table. *)
Definition page_set (s s' : paging) (d va v : Z) (inv : bool) : Prop :=
  pg_wf s' d /\ grows s s' /\ phys s' = phys s /\
  invalidated s' = (if inv then [va] else []) ++ invalidated s /\
  (forall a, is_u32 a -> mmu s' d a = if decide (a / 4096 = va / 4096)
    then if present v then Some (page_base v + a mod 4096, v mod 4096) else None else mmu s d a).

Lemma page_set_ok s d va pde v inv : pg_wf s d -> is_u32 va -> user_slot (va / 4194304) -> is_u32 v ->
  entry_at s d (va / 4194304) = Some pde -> present pde = true -> exists s1 s',
  page_table d va s = Ok (page_base pde, s) /\
  set_entry (page_base pde) (page_entry_of va) v s = Ok (tt, s1) /\
  invlpg_if inv va s1 = Ok (tt, s') /\ page_set s s' d va v inv.
Proof.
  intros Hwf Hva Hus Hv Hpde Hp. destruct (walk_user s d Hwf va pde Hva Hus Hpde) as [_ Hw].
  destruct (Hw Hp) as (pte & Ht & Hd & Hl & Hpte & _ & Hpt & _).
  destruct (put_pte s d va pde v Hwf Hva Hus Hv Hpde Hp) as (Hwf' & Hent & Hmmu).
  eexists _, _. split; [exact Hpt |]. split.
  { rewrite page_entry_of_div. apply set_entry_ok; [done | apply Z.mod_pos_bound; lia]. }
  split; [apply invlpg_if_ok |]. pose proof (grows_put s (page_base pde) (va / 4096 mod 1024) v) as Hg.
  destruct inv; (split; [first [done | by apply pg_wf_invalidated] |]); (split; [by destruct Hg |]); done.
Qed.

(** The pages [p], ..., [p + n - 1], in the process's half. *)
Definition user_pages (p n : Z) : Prop := 524288 <= p /\ 0 <= n /\ p + n <= 1040384.

Lemma user_page_slot p n : user_pages p n -> 0 < n ->
  is_u32 (p * 4096) /\ user_slot (p * 4096 / 4194304) /\ p * 4096 / 4096 = p.
Proof.
  unfold user_pages, is_u32, two32, user_slot. intros Hp Hn. split; [lia |]. split; [|apply Z.div_mul; lia].
  split; [apply Z.div_le_lower_bound; lia | apply Z.div_lt_upper_bound; lia].
Qed.

Lemma direct_loop_ok n s d p f flags inv : pg_wf s d -> user_pages p (Z.of_nat n) ->
  0 <= f -> f + Z.of_nat n <= 1048576 -> small_type flags -> Z.of_nat n < s_freePages (phys s) -> exists s',
  direct_loop n d (p * 4096) (u32 (f * 4096)) flags inv s = Ok (tt, s') /\ pg_wf s' d /\ grows s s' /\
  invalidated s' = (if inv then reverse (map (fun q => q * 4096) (seqZ p (Z.of_nat n))) else []) ++ invalidated s /\
  forall a, is_u32 a -> mmu s' d a =
    if decide (p <= a / 4096 < p + Z.of_nat n)
    then Some ((f + (a / 4096 - p)) * 4096 + a mod 4096, Z.lor flags PAGE_PRESENT) else mmu s d a.
Proof.
  revert s p f. induction n as [|n IH]; intros s p f Hwf Hup Hf Hfn Hty Hfree.
  { exists s. cbn [direct_loop]. split_and!; try done; [by destruct inv |].
    intros a Ha. rewrite decide_False; [done | lia]. }
  destruct (user_page_slot p _ Hup ltac:(lia)) as (Hva & Hus & Hpd).
  destruct (ensure_table_ok s d (p * 4096) flags Hwf Hva Hus Hty) as (s1 & E1 & Hwf1 & G1 & F1 & I1 & Hm1 & pde & Hpde & Hpp);
    [lia |].
  assert (is_u32 (f * 4096)) as Hfu by (unfold is_u32, two32; lia).
  destruct (mapped_entry f flags Hf Hfu (proj1 Hty)) as (V1 & V2 & V3 & V4).
  destruct (page_set_ok s1 d (p * 4096) pde _ inv Hwf1 Hva Hus V3 Hpde Hpp)
    as (s2 & s3 & E2 & E3 & E4 & Hwf3 & G3 & F3 & I3 & Hm3).
  destruct (IH s3 (p + 1) (f + 1)) as (s' & E & Hwf' & G' & I' & Hm'); try done; try lia.
  { unfold user_pages in *. lia. } { rewrite F3. lia. }
  exists s'. cbn [direct_loop]. rewrite (run_bind_Ok _ _ _ _ _ E1). rewrite (run_bind_Ok _ _ _ _ _ E2).
  rewrite (u32_small (f * 4096)) by done.
  rewrite (run_bind_Ok _ _ _ _ _ E3), (run_bind_Ok _ _ _ _ _ E4).
  rewrite (u32_small (p * 4096 + PAGE_SIZE)) by (unfold user_pages, is_u32, two32, PAGE_SIZE in *; lia).
  replace (p * 4096 + PAGE_SIZE) with ((p + 1) * 4096) by (unfold PAGE_SIZE; lia).
  replace (f * 4096 + PAGE_SIZE) with ((f + 1) * 4096) by (unfold PAGE_SIZE; lia).
  split; [done |]. split; [done |]. split; [by eapply grows_trans, grows_trans |]. split.
  - rewrite I', I3, I1. destruct inv; [|done]. rewrite (seqZ_cons p (Z.of_nat (S n))) by lia.
    replace (Z.pred (Z.of_nat (S n))) with (Z.of_nat n) by lia. cbn [map]. rewrite reverse_cons, <- app_assoc. done.
  - intros a Ha. rewrite Hm' by done. destruct (decide (p + 1 <= a / 4096 < p + 1 + Z.of_nat n)) as [Hin|Hout].
    + rewrite decide_True by lia. f_equal. f_equal. lia.
    + rewrite Hm3, Hpd by done. destruct (decide (a / 4096 = p)) as [Ep|Ep].
      * rewrite decide_True, V4, V1, V2 by lia. f_equal. f_equal. rewrite Ep. lia.
      * rewrite decide_False by lia. by apply Hm1.
Qed.

(** What [page_direct_map] does, for its callers. *)
Lemma page_direct_map_ok s d p f n type : pg_wf s d -> user_pages p n -> 0 <= f < 1048576 ->
  f + n <= 1048576 -> n < s_freePages (phys s) -> exists s',
  page_direct_map d (f * 4096) (p * 4096) n type s = Ok (0, s') /\ pg_wf s' d /\ grows s s' /\
  (forall a, is_u32 a -> mmu s' d a =
    if decide (p * 4096 <= a < (p + n) * 4096)
    then Some (f * 4096 + (a - p * 4096), Z.lor (convert_paging_types type) PAGE_PRESENT) else mmu s d a) /\
  invalidated s' = (if cr3 s =? d then reverse (map (fun q => q * 4096) (seqZ p n)) else []) ++ invalidated s.
Proof.
  intros Hwf Hup Hf Hfn Hfree. pose proof Hup as (Hp & Hn & Hpn).
  destruct (direct_loop_ok (Z.to_nat n) s d p f (convert_paging_types type) (cr3 s =? d) Hwf)
    as (s' & E & Hwf' & G & I & Hm); rewrite ?Z2Nat.id by lia; try done; try lia; [apply convert_small |].
  rewrite Z2Nat.id in * by lia. exists s'. split.
  { unfold page_direct_map. mrun. rewrite (u32_small n) by (unfold is_u32, two32; lia).
    rewrite (u32_small (f * 4096)) in E by (unfold is_u32, two32; lia). by rewrite E. }
  split; [done |]. split; [done |]. split; [|done]. intros a Ha. rewrite Hm by done.
  pose proof (Z.div_mod a 4096 ltac:(lia)). pose proof (Z.mod_pos_bound a 4096 ltac:(lia)).
  destruct (decide (p * 4096 <= a < (p + n) * 4096)) as [Hin|Hout].
  - rewrite decide_True by lia. f_equal. f_equal. lia.
  - rewrite decide_False by lia. done.
Qed.

(** C30. [page_direct_map] of a page-aligned physical range into the process's half
    of a consistent directory, with enough free pages for the tables: afterwards
    the hardware translates every address of the range to the corresponding
    physical address, with the flags asked for on its entry, and every other
    address as before; the directory stays consistent, and when it is the loaded
    one exactly the pages of the range are invalidated. *)
Theorem page_direct_map_translates s d p f n type : pg_wf s d -> user_pages p n -> 0 <= f < 1048576 ->
  f + n <= 1048576 -> n < s_freePages (phys s) -> exists s',
  page_direct_map d (f * 4096) (p * 4096) n type s = Ok (0, s') /\ pg_wf s' d /\
  (forall a, is_u32 a -> mmu s' d a =
    if decide (p * 4096 <= a < (p + n) * 4096)
    then Some (f * 4096 + (a - p * 4096), Z.lor (convert_paging_types type) PAGE_PRESENT) else mmu s d a) /\
  invalidated s' = (if cr3 s =? d then reverse (map (fun q => q * 4096) (seqZ p n)) else []) ++ invalidated s.
Proof.
  intros Hwf Hup Hf Hfn Hfree. destruct (page_direct_map_ok s d p f n type Hwf Hup Hf Hfn Hfree) as (s' & E & H1 & _ & H2).
  by exists s'.
Qed.

(** Is page [q] mapped? *)
Definition mapped (s : paging) (d q : Z) : bool := match mmu s d (q * 4096) with Some _ => true | None => false end.

Lemma mmu_page s d a : is_u32 a -> is_Some (mmu s d a) <-> mapped s d (a / 4096) = true.
Proof.
  intros Ha. unfold mapped, mmu.
  assert (a / 4096 * 4096 / 4194304 = a / 4194304) as ->.
  { change 4194304 with (4096 * 1024). by rewrite <- !Z.div_div, Z.div_mul by lia. }
  rewrite Z.div_mul by lia. destruct (entry_at s d _) as [pde|]; simpl; [|by split; [intros []|]].
  destruct (present pde); simpl; [|by split; [intros []|]]. destruct (large pde); [done |].
  destruct (entry_at s (page_base pde) _) as [pte|]; simpl; [|by split; [intros []|]].
  destruct (present pte); simpl; [done |]. by split; [intros []|].
Qed.

Fixpoint mapped_count (n : nat) (s : paging) (d p : Z) : Z :=
  match n with O => 0 | S n => (if mapped s d p then 1 else 0) + mapped_count n s d (p + 1) end.

Lemma mapped_count_same n s s' d p : (forall q, p <= q < p + Z.of_nat n -> mapped s' d q = mapped s d q) ->
  mapped_count n s' d p = mapped_count n s d p.
Proof.
  revert p. induction n as [|n IH]; intros p H; cbn [mapped_count]; [done |].
  rewrite H, IH by (intros; apply H || idtac; lia). done.
Qed.

Lemma mapped_count_const (b : bool) n s d p : (forall q, p <= q < p + Z.of_nat n -> mapped s d q = b) ->
  mapped_count n s d p = if b then Z.of_nat n else 0.
Proof.
  revert p. induction n as [|n IH]; intros p H; cbn [mapped_count]; [by destruct b |].
  rewrite IH, H by (intros; apply H || idtac; lia). destruct b; lia.
Qed.

Lemma mapped_count_range n s d p : 0 <= mapped_count n s d p <= Z.of_nat n.
Proof.
  revert p. induction n as [|n IH]; intros p; cbn [mapped_count]; [lia |].
  specialize (IH (p + 1)). destruct (mapped s d p); lia.
Qed.

(** The translation after frames were given to the pages of a range that had
    none: page [q] gets block [F q]. *)
Definition filled (s s' : paging) (d p n type : Z) (F : Z -> Z) : Prop :=
  forall a, is_u32 a -> mmu s' d a =
    if decide (p <= a / 4096 < p + n) then
      if mapped s d (a / 4096) then mmu s d a
      else Some (frame (phys s) (F (a / 4096)) + a mod 4096, Z.lor type PAGE_PRESENT)
    else mmu s d a.

(** The blocks are newly taken, different, and hold no tables. *)
Definition fresh_blocks (s s' : paging) (d p n : Z) (F : Z -> Z) : Prop :=
  (forall q, p <= q < p + n -> mapped s d q = false ->
    0 <= F q < memory_pages (phys s) /\ used (memory_bitmap (phys s)) (F q) = false /\
    used (memory_bitmap (phys s')) (F q) = true /\ tables s' !! frame (phys s) (F q) = None) /\
  (forall q r, p <= q < p + n -> p <= r < p + n -> mapped s d q = false -> mapped s d r = false ->
    F q = F r -> q = r).

(** One round of [page_ensure] on a page that is mapped, and on one that is not. *)
Lemma ensure_step s d p n type inv : pg_wf s d -> user_pages p n -> 0 < n -> small_type type ->
  2 < s_freePages (phys s) -> exists s1,
  ensure_table d (p * 4096) type s = Ok (tt, s1) /\ pg_wf s1 d /\ grows s s1 /\ same_mmu s s1 d /\
  s_freePages (phys s) - 1 <= s_freePages (phys s1) /\ invalidated s1 = invalidated s /\
  page_entry_present d (p * 4096) s1 = Ok (if mapped s d p then 0 else -1, s1) /\
  exists b t s2 s3 s', page_table d (p * 4096) s1 = Ok (t, s1) /\
    alloc_page s1 = Ok (frame (phys s1) b, s2) /\ takes s1 s2 b /\ tables s' !! frame (phys s1) b = None /\
    set_entry t (page_entry_of (p * 4096)) (Z.lor (Z.lor (frame (phys s1) b) type) PAGE_PRESENT) s2 = Ok (tt, s3) /\
    invlpg_if inv (p * 4096) s3 = Ok (tt, s') /\ pg_wf s' d /\ grows s1 s' /\ phys s' = phys s2 /\
    invalidated s' = (if inv then [p * 4096] else []) ++ invalidated s /\
    forall a, is_u32 a -> mmu s' d a = if decide (a / 4096 = p)
      then Some (frame (phys s1) b + a mod 4096, Z.lor type PAGE_PRESENT) else mmu s1 d a.
Proof.
  intros Hwf Hup Hn Hty Hfree. destruct (user_page_slot p n Hup Hn) as (Hva & Hus & Hpd).
  destruct (ensure_table_ok s d (p * 4096) type Hwf Hva Hus Hty) as (s1 & E1 & Hwf1 & G1 & F1 & I1 & Hm1 & pde & Hpde & Hpp);
    [lia |].
  destruct (walk_user s1 d Hwf1 (p * 4096) pde Hva Hus Hpde) as [_ Hw].
  destruct (Hw Hpp) as (pte & Ht & _ & _ & _ & _ & Hpt & _ & Hpres & Hmp).
  exists s1. split_and!; try done; try lia.
  { rewrite Hpres. unfold mapped. rewrite <- Hm1, Hmp by done. by destruct (present pte). }
  destruct (alloc_page_ok s1 d Hwf1) as (b & m' & Ea & Hwf2 & G2 & Htk & Htn); [lia |].
  destruct (frame_page (phys s1) b (wf_mem _ _ Hwf1) (takes_range _ _ _ Htk)) as (k & Hk & Hk0 & Hku).
  destruct (mapped_entry k type ltac:(lia) Hku (proj1 Hty)) as (V1 & V2 & V3 & V4). rewrite <- Hk in *.
  destruct (page_set_ok (set_phys m' s1) d (p * 4096) pde _ inv Hwf2 Hva Hus V3 Hpde Hpp)
    as (s3 & s' & _ & E3 & E4 & Hwf' & G3 & F3 & I3 & Hm3).
  exists b, (page_base pde), (set_phys m' s1), s3, s'. split_and!; try done.
  - pose proof (grows_tables _ _ G3 b) as Hg. unfold frame in *. rewrite (grows_offset _ _ G2) in Hg.
    apply Hg; [rewrite (grows_pages _ _ G2); apply Htk | apply Htk | done].
  - by eapply grows_trans.
  - rewrite I3. simpl. by rewrite I1.
  - intros a Ha. rewrite Hm3, Hpd by done. destruct (decide (a / 4096 = p)); [|done].
    by rewrite V4, V1, V2.
Qed.

Lemma same_mapped s s' d p n q : same_mmu s s' d -> user_pages p n -> p <= q < p + n -> mapped s' d q = mapped s d q.
Proof.
  intros Hm Hup Hq. unfold mapped. rewrite Hm; [done |]. unfold user_pages, is_u32, two32 in *. lia.
Qed.

(** The first page was mapped. *)
Lemma filled_skip s s1 s' d p n type F : same_mmu s s1 d -> grows s s1 -> mapped s d p = true ->
  filled s1 s' d (p + 1) n type F -> 0 <= n -> filled s s' d p (n + 1) type F.
Proof.
  intros Hm Hg Hp Hf Hn a Ha. rewrite Hf, Hm by done.
  assert (mapped s1 d (a / 4096) = mapped s d (a / 4096)) as ->.
  { apply eq_true_iff_eq. rewrite <- !mmu_page by done. by rewrite Hm. }
  unfold frame. rewrite (grows_offset _ _ Hg).
  destruct (decide (a / 4096 = p)) as [->|].
  - rewrite Hp, decide_False, decide_True by lia. done.
  - destruct (decide (p <= a / 4096 < p + (n + 1))); [rewrite decide_True by lia | rewrite decide_False by lia]; done.
Qed.

(** The first page gets block [b]. *)
Lemma filled_cons s s1 s2 s' d p n type b F : same_mmu s s1 d -> grows s s1 -> grows s1 s2 -> mapped s d p = false ->
  (forall a, is_u32 a -> mmu s2 d a = if decide (a / 4096 = p)
      then Some (frame (phys s1) b + a mod 4096, Z.lor type PAGE_PRESENT) else mmu s1 d a) ->
  filled s2 s' d (p + 1) n type F -> 0 <= n ->
  filled s s' d p (n + 1) type (fun q => if decide (q = p) then b else F q).
Proof.
  intros Hm Hg1 Hg2 Hp H2 Hf Hn a Ha. rewrite Hf, H2 by done. unfold frame.
  rewrite (grows_offset _ _ Hg2), (grows_offset _ _ Hg1).
  destruct (decide (a / 4096 = p)) as [->|Hne].
  - rewrite Hp, decide_False, decide_True by lia. done.
  - assert (mapped s2 d (a / 4096) = mapped s d (a / 4096)) as ->.
    { apply eq_true_iff_eq. rewrite <- !mmu_page by done. rewrite H2, decide_False by done. by rewrite Hm. }
    rewrite Hm by done.
    destruct (decide (p <= a / 4096 < p + (n + 1))); [rewrite decide_True by lia | rewrite decide_False by lia]; done.
Qed.

(** A block that is free later was free before. *)
Lemma grows_free s s' q : grows s s' -> 0 <= q -> used (memory_bitmap (phys s')) q = false ->
  used (memory_bitmap (phys s)) q = false.
Proof.
  intros Hg Hq Hf. destruct (used (memory_bitmap (phys s)) q) eqn:E; [|done].
  by rewrite (grows_used _ _ Hg) in Hf.
Qed.

Lemma fresh_skip s s1 s' d p n F : same_mmu s s1 d -> grows s s1 -> user_pages (p + 1) n -> mapped s d p = true ->
  fresh_blocks s1 s' d (p + 1) n F -> fresh_blocks s s' d p (n + 1) F.
Proof.
  intros Hm Hg Hup Hp [Hb1 Hb2].
  assert (forall q, p <= q < p + (n + 1) -> mapped s d q = false ->
    p + 1 <= q < p + 1 + n /\ mapped s1 d q = false) as Hq.
  { intros q Hq Hmq. assert (q <> p) by congruence. split; [lia |].
    rewrite (same_mapped s s1 d _ _ q Hm Hup); [done | lia]. }
  split.
  - intros q Hq1 Hmq. destruct (Hq q Hq1 Hmq) as [Hq2 Hmq1]. destruct (Hb1 q Hq2 Hmq1) as (R1 & R2 & R3 & R4).
    unfold frame in *. rewrite (grows_pages _ _ Hg) in R1. rewrite (grows_offset _ _ Hg) in R4.
    split_and!; try done; try lia. eapply grows_free; [done | lia | done].
  - intros q r Hq1 Hr1 Hmq Hmr. destruct (Hq q Hq1 Hmq), (Hq r Hr1 Hmr). by apply Hb2.
Qed.

Lemma fresh_cons s s1 s2 s4 s' d p n b F : grows s s1 -> takes s1 s2 b -> grows s1 s4 -> phys s4 = phys s2 ->
  tables s4 !! frame (phys s1) b = None -> grows s4 s' -> 0 <= n -> mapped s d p = false ->
  (forall q, p + 1 <= q < p + 1 + n -> mapped s4 d q = mapped s d q) ->
  fresh_blocks s4 s' d (p + 1) n F ->
  fresh_blocks s s' d p (n + 1) (fun q => if decide (q = p) then b else F q).
Proof.
  intros G1 Htk G4 P4 Htn G' Hn Hmp Hm4 [Hb1 Hb2]. pose proof (grows_trans _ _ _ G1 G4) as G14.
  assert (used (memory_bitmap (phys s4)) b = true) as Hbu by (rewrite P4; apply Htk).
  assert (forall q, p <= q < p + (n + 1) -> mapped s d q = false -> q <> p ->
    0 <= F q < memory_pages (phys s) /\ used (memory_bitmap (phys s)) (F q) = false /\ F q <> b /\
    used (memory_bitmap (phys s')) (F q) = true /\ tables s' !! frame (phys s) (F q) = None) as Hq.
  { intros q Hq1 Hmq Hne. destruct (Hb1 q) as (R1 & R2 & R3 & R4); [lia | by rewrite Hm4 by lia |].
    unfold frame in *. rewrite (grows_pages _ _ G14) in R1. rewrite (grows_offset _ _ G14) in R4.
    split_and!; try done; try lia; [|congruence]. eapply grows_free; [exact G14 | lia | done]. }
  split.
  - intros q Hq1 Hmq. case_decide as Ed; [|by destruct (Hq q Hq1 Hmq Ed) as (?&?&?&?&?)].
    pose proof (takes_range _ _ _ Htk) as Hr. rewrite (grows_pages _ _ G1) in Hr. split_and!; try lia.
    + apply (grows_free s s1); [done | lia | apply Htk].
    + apply (grows_used _ _ G'); [lia | done].
    + unfold frame in *. rewrite (grows_offset _ _ G1) in Htn.
      pose proof (grows_tables _ _ G' b) as Ht. unfold frame in Ht. rewrite (grows_offset _ _ G14), (grows_pages _ _ G14) in Ht.
      apply Ht; [lia | done | done].
  - intros q r Hq1 Hr1 Hmq Hmr. destruct (decide (q = p)) as [->|Hqp], (decide (r = p)) as [->|Hrp]; try done.
    + intros Eq. by destruct (Hq r Hr1 Hmr Hrp) as (?&?&[]&?).
    + intros Eq. by destruct (Hq q Hq1 Hmq Hqp) as (?&?&[]&?).
    + apply Hb2; [lia | lia | by rewrite Hm4 by lia | by rewrite Hm4 by lia].
Qed.

Lemma ensure_loop_ok n s d p type inv al : pg_wf s d -> user_pages p (Z.of_nat n) -> small_type type ->
  2 * Z.of_nat n < s_freePages (phys s) -> 0 <= al -> al + Z.of_nat n < 2147483648 -> exists F s',
  ensure_loop n d (u32 (p * 4096 - PAGE_SIZE)) type inv al s = Ok (al + mapped_count n s d p, s') /\
  pg_wf s' d /\ grows s s' /\ fresh_blocks s s' d p (Z.of_nat n) F /\ filled s s' d p (Z.of_nat n) type F.
Proof.
  revert s p al. induction n as [|n IH]; intros s p al Hwf Hup Hty Hfree Hal Hal2.
  { exists (fun q => q), s. cbn [ensure_loop mapped_count]. rewrite Z.add_0_r. split_and!; try done.
    - split; intros; lia.
    - intros a Ha. by rewrite decide_False by lia. }
  assert (user_pages (p + 1) (Z.of_nat n)) as Hup1 by (unfold user_pages in *; lia).
  destruct (ensure_step s d p _ type inv Hwf Hup ltac:(lia) Hty) as (s1 & E1 & Hwf1 & G1 & Hm1 & F1 & I1 & Epres & Hstep); [lia |].
  cbn [ensure_loop mapped_count].
  assert (u32 ((p + 1) * 4096 - PAGE_SIZE) = p * 4096) as Hu.
  { replace ((p + 1) * 4096 - PAGE_SIZE) with (p * 4096) by (unfold PAGE_SIZE; lia).
    apply u32_small. unfold user_pages, is_u32, two32 in *; lia. }
  assert (u32 (u32 (p * 4096 - PAGE_SIZE) + PAGE_SIZE) = p * 4096) as ->.
  { unfold user_pages in Hup. rewrite (u32_small (_ - _)), u32_small; unfold is_u32, two32, PAGE_SIZE; lia. }
  rewrite (run_bind_Ok _ _ _ _ _ E1), (run_bind_Ok _ _ _ _ _ Epres), Nat2Z.inj_succ, <- Z.add_1_r.
  destruct (mapped s d p) eqn:Hmp; cbn [Z.eqb negb]; rewrite <- Hu.
  - rewrite s32_small by (unfold is_s32; lia).
    destruct (IH s1 (p + 1) (al + 1)) as (F & s' & E & Hwf' & G' & Hb & Hfl); try done; try lia.
    rewrite E. exists F, s'.
    rewrite (mapped_count_same n s s1 d (p + 1)) by (intros q Hq; by apply (same_mapped s s1 d _ _ q Hm1 Hup1)).
    split_and!; [f_equal; f_equal; lia | done | by eapply grows_trans | by eapply fresh_skip | ].
    eapply filled_skip; (done || lia).
  - destruct Hstep as (b & t & s2 & s3 & s4 & E2 & E3 & Htk & Htn & E4 & E5 & Hwf4 & G4 & P4 & I4 & Hm4).
    rewrite <- Hu in E2, E4, E5.
    rewrite (run_bind_Ok _ _ _ _ _ E2), (run_bind_Ok _ _ _ _ _ E3), (run_bind_Ok _ _ _ _ _ E4), (run_bind_Ok _ _ _ _ _ E5).
    pose proof (takes_count _ _ _ Htk) as Hc.
    destruct (IH s4 (p + 1) al) as (F & s' & E & Hwf' & G' & Hb & Hfl); try done; try lia; [rewrite P4; lia |].
    rewrite E. exists (fun q => if decide (q = p) then b else F q), s'.
    assert (forall q, p + 1 <= q < p + 1 + Z.of_nat n -> mapped s4 d q = mapped s d q) as Hm4'.
    { intros q Hq. unfold mapped. rewrite Hm4, Hm1 by (unfold user_pages, is_u32, two32 in *; lia).
      rewrite decide_False by (rewrite Z.div_mul; lia). done. }
    rewrite (mapped_count_same n s s4 d (p + 1) Hm4').
    split_and!; [done | done | by eapply grows_trans, grows_trans | | eapply filled_cons; (done || lia)].
    eapply fresh_cons; (done || lia).
Qed.

(** What [page_ensure] does, for its callers. *)
Lemma page_ensure_ok s d p n flags : pg_wf s d -> user_pages p n -> 2 * n < s_freePages (phys s) ->
  exists F s', page_ensure d (p * 4096) n flags s = Ok (mapped_count (Z.to_nat n) s d p, s') /\
  pg_wf s' d /\ grows s s' /\ fresh_blocks s s' d p n F /\ filled s s' d p n (convert_paging_types flags) F.
Proof.
  intros Hwf Hup Hfree. pose proof Hup as (Hp & Hn & Hpn).
  destruct (ensure_loop_ok (Z.to_nat n) s d p (convert_paging_types flags) (cr3 s =? d) 0 Hwf)
    as (F & s' & E & Hwf' & G & Hb & Hf); rewrite ?Z2Nat.id in * by lia; try done; try lia; [apply convert_small |].
  exists F, s'. split; [|done]. unfold page_ensure. mrun. by rewrite E.
Qed.

(** [page_ensure] of a range of the process's half, with enough free pages:
    pages that were mapped keep their translation and are counted in the
    answer, every other page of the range gets a block that was free, is now in
    use, holds no table and belongs to no other page of the range, with the
    flags asked for on its entry; no other address changes. *)
Theorem page_ensure_fills s d p n flags : pg_wf s d -> user_pages p n -> 2 * n < s_freePages (phys s) ->
  exists F s', page_ensure d (p * 4096) n flags s = Ok (mapped_count (Z.to_nat n) s d p, s') /\
  pg_wf s' d /\ fresh_blocks s s' d p n F /\ filled s s' d p n (convert_paging_types flags) F.
Proof.
  intros Hwf Hup Hfree. destruct (page_ensure_ok s d p n flags Hwf Hup Hfree) as (F & s' & E & H1 & _ & H2).
  by exists F, s'.
Qed.

(** * Mapping out *)

(** Every mapped page of the range has a block of its own that the allocator
    manages, in use and without a table. *)
Definition owned (s : paging) (d p n : Z) (F : Z -> Z) : Prop :=
  (forall q, p <= q < p + n -> mapped s d q = true ->
    (exists fl, mmu s d (q * 4096) = Some (frame (phys s) (F q), fl)) /\
    0 <= F q < memory_pages (phys s) /\ used (memory_bitmap (phys s)) (F q) = true /\
    tables s !! frame (phys s) (F q) = None) /\
  (forall q r, p <= q < p + n -> p <= r < p + n -> mapped s d q = true -> mapped s d r = true ->
    F q = F r -> q = r).

(** Blocks go back to the free pages. *)
Lemma free_page_ok s d b : pg_wf s d -> 0 <= b < memory_pages (phys s) ->
  used (memory_bitmap (phys s)) b = true -> tables s !! frame (phys s) b = None -> exists m',
  let s' := set_phys m' s in
  free_page (frame (phys s) b) s = Ok (tt, s') /\ pg_wf s' d /\
  memory_pages m' = memory_pages (phys s) /\ memory_offset m' = memory_offset (phys s) /\
  used (memory_bitmap m') b = false /\
  (forall q, 0 <= q -> q <> b -> used (memory_bitmap m') q = used (memory_bitmap (phys s)) q) /\
  s_freePages m' = s_freePages (phys s) + 1.
Proof.
  intros Hwf Hb Hu Hn. pose proof (wf_mem _ _ Hwf) as Hmem. pose proof Hmem as (Hpm & base & Ho & Hb1 & Hb2).
  destruct (memory_free_spec 1 b (phys s) Hpm) as [Hf _]; try lia.
  destruct Hf as (m' & E & Hwf' & Hr & Hother & Hc & Ep & Eo).
  { intros q Hq. by replace q with b by lia. }
  assert (used (memory_bitmap m') b = false) as Hbf by (apply Hr; lia).
  exists m'. simpl. split. { destruct (frame_page (phys s) b Hmem Hb) as (k & Hk & _ & Hku). unfold free_page. mrun.
    unfold frame in *. rewrite u32_small in E by by rewrite Hk. rewrite E. mrun. done. }
  split_and!; try done; [|intros q Hq Hne; apply Hother; lia].
  destruct Hwf as [? ? ? ? ?]. split; try done.
  - simpl. split; [done |]. exists base. rewrite Eo, Ep. done.
  - intros q Hq Hqf. simpl in *. rewrite Eo. rewrite Ep in Hq. destruct (decide (q = b)) as [->|Hne]; [done |].
    apply wf_used0; [done |]. by rewrite <- Hother by lia.
Qed.

Lemma map_out_step s d p n F inv : pg_wf s d -> user_pages p n -> 0 < n -> owned s d p n F -> exists s1 s',
  map_out_page d (p * 4096) s = Ok (tt, s1) /\
  invlpg_if inv (p * 4096) s1 = Ok (tt, s') /\ pg_wf s' d /\
  tables s' = tables s1 /\ (forall t, tables s !! t = None -> tables s' !! t = None) /\
  memory_pages (phys s') = memory_pages (phys s) /\ memory_offset (phys s') = memory_offset (phys s) /\
  s_freePages (phys s') = s_freePages (phys s) + (if mapped s d p then 1 else 0) /\
  (forall b, 0 <= b -> used (memory_bitmap (phys s')) b =
     if decide (mapped s d p = true /\ b = F p) then false else used (memory_bitmap (phys s)) b) /\
  (forall a, is_u32 a -> mmu s' d a = if decide (a / 4096 = p) then None else mmu s d a) /\
  cr3 s' = cr3 s /\ bytes s' = bytes s.
Proof.
  intros Hwf Hup Hn [Ho1 Ho2]. destruct (user_page_slot p n Hup Hn) as (Hva & Hus & Hpd).
  destruct (slot_cases s d Hwf _ Hva) as (pde & Hpde & _ & _ & _).
  destruct (walk_user s d Hwf _ pde Hva Hus Hpde) as [Habs Hpres].
  destruct (mapped s d p) eqn:Em.
  - destruct (present pde) eqn:Ep; [|destruct (Habs eq_refl) as [Hno _]; unfold mapped in Em; by rewrite Hno in Em].
    destruct (Hpres eq_refl) as (pte & Ht & Hd & Hl & Hpte & _ & Hpt & Hpe & Hpp & Hm).
    destruct (Ho1 p) as ((fl & Hfr) & Hr & Hu & Hnt); [lia | done |].
    rewrite Hfr in Hm. destruct (present pte) eqn:Epte; [|done]. injection Hm as Hbase _.
    rewrite Z.mod_mul, Z.add_0_r in Hbase by lia.
    destruct (put_pte s d _ pde 0 Hwf Hva Hus ltac:(by vm_compute) Hpde Ep) as (Hwf1 & _ & Hmmu).
    set (s0 := put_entry (page_base pde) (p * 4096 / 4096 mod 1024) 0 s) in *.
    assert (tables s0 !! frame (phys s0) (F p) = None) as Hnt0.
    { unfold s0, put_entry. simpl. by rewrite lookup_alter_None. }
    destruct (free_page_ok s0 d (F p) Hwf1 Hr Hu Hnt0) as (m' & Ef & Hwf2 & F1 & F2 & F3 & F4 & F5).
    exists (set_phys m' s0). eexists. split.
    { unfold map_out_page. rewrite (run_bind_Ok _ _ _ _ _ Hpp). cbn [Z.eqb]. rewrite (run_bind_Ok _ _ _ _ _ Hpt), (run_bind_Ok _ _ _ _ _ Hpe).
      rewrite page_entry_of_div. rewrite (run_bind_Ok _ _ _ tt s0); [by rewrite <- Hbase |].
      apply set_entry_ok; [done | apply Z.mod_pos_bound; lia]. }
    split; [apply invlpg_if_ok |].
    assert (forall b, 0 <= b -> used (memory_bitmap m') b =
      if decide (true = true /\ b = F p) then false else used (memory_bitmap (phys s)) b) as Hused.
    { intros b Hb. case_decide as Hd'; [by destruct Hd' as [_ ->] |]. apply F4; [done |]. naive_solver. }
    assert (forall t, tables s !! t = None -> tables s0 !! t = None) as Htn.
    { intros t Htn. unfold s0, put_entry. simpl. by rewrite lookup_alter_None. }
    rewrite Hpd in Hmmu.
    destruct inv; (split; [first [done | by apply pg_wf_invalidated] |]); by split_and!.
  - assert (page_entry_present d (p * 4096) s = Ok (-1, s)) as Hno.
    { destruct (present pde) eqn:Ep; [|by apply Habs].
      destruct (Hpres eq_refl) as (pte & _ & _ & _ & _ & _ & _ & _ & -> & Hm).
      unfold mapped in Em. rewrite Hm in Em. by destruct (present pte). }
    exists s. eexists. split. { unfold map_out_page. rewrite (run_bind_Ok _ _ _ _ _ Hno). done. }
    split; [apply invlpg_if_ok |].
    assert (forall a, is_u32 a -> mmu s d a = if decide (a / 4096 = p) then None else mmu s d a) as Hmm.
    { intros a Ha. case_decide as Ea; [|done]. destruct (mmu s d a) eqn:E; [|done].
      assert (mapped s d (a / 4096) = true) as Hc by (apply mmu_page; [done | by rewrite E]). congruence. }
    assert (forall b, 0 <= b -> used (memory_bitmap (phys s)) b =
      if decide (false = true /\ b = F p) then false else used (memory_bitmap (phys s)) b) as Hused.
    { intros b Hb. rewrite decide_False by naive_solver. done. }
    destruct inv; (split; [first [done | by apply pg_wf_invalidated] |]); (split_and!; try done; simpl; lia).
Qed.

(** What mapping out a range leaves. *)
Record emptied (s s' : paging) (d p n : Z) (F : Z -> Z) : Prop := {
  emptied_mmu : forall a, is_u32 a -> mmu s' d a = if decide (p <= a / 4096 < p + n) then None else mmu s d a;
  emptied_used : forall b, 0 <= b -> used (memory_bitmap (phys s')) b = true <->
    used (memory_bitmap (phys s)) b = true /\ ~ (exists q, p <= q < p + n /\ mapped s d q = true /\ F q = b);
  emptied_count : s_freePages (phys s') = s_freePages (phys s) + mapped_count (Z.to_nat n) s d p
}.

Lemma map_out_loop_ok n s d p F inv : pg_wf s d -> user_pages p (Z.of_nat n) -> owned s d p (Z.of_nat n) F ->
  exists s', map_out_loop n d (p * 4096) inv s = Ok (tt, s') /\ pg_wf s' d /\ emptied s s' d p (Z.of_nat n) F.
Proof.
  revert s p. induction n as [|n IH]; intros s p Hwf Hup Hown.
  { exists s. cbn [map_out_loop]. split; [done |]. split; [done |]. split.
    - intros a Ha. by rewrite decide_False by lia.
    - intros b Hb. split; [intros Hu; split; [done | intros (q & Hq & _); lia] | by intros []].
    - simpl. lia. }
  assert (user_pages (p + 1) (Z.of_nat n)) as Hup1 by (unfold user_pages in *; lia).
  destruct (map_out_step s d p _ F inv Hwf Hup ltac:(lia) Hown)
    as (s1 & s2 & E1 & E2 & Hwf2 & _ & Ht & Ep & Eo & Ec & Hu & Hm & _).
  assert (forall q, p + 1 <= q < p + 1 + Z.of_nat n -> mmu s2 d (q * 4096) = mmu s d (q * 4096)) as Hm2.
  { intros q Hq. rewrite Hm, decide_False; [done | rewrite Z.div_mul; lia |].
    unfold user_pages, is_u32, two32 in *. lia. }
  assert (forall q, p + 1 <= q < p + 1 + Z.of_nat n -> mapped s2 d q = mapped s d q) as Hmp.
  { intros q Hq. unfold mapped. by rewrite Hm2. }
  pose proof Hown as [Ho1 Ho2].
  destruct (IH s2 (p + 1) Hwf2 Hup1) as (s' & E & Hwf' & [Rm Ru Rc]).
  { split.
    - intros q Hq Hmq. rewrite Hmp in Hmq by done. destruct (Ho1 q) as (H1 & H2 & H3 & H4); [lia | done |].
      unfold frame in *. rewrite Hm2, Ep, Eo by done. split_and!; try done; try lia; [|by apply Ht].
      rewrite Hu, decide_False; [done | | lia]. intros [Hmp0 Eq]. assert (q = p); [|lia]. apply Ho2; (done || lia).
    - intros q r Hq Hr Hmq Hmr. rewrite Hmp in Hmq, Hmr by done. apply Ho2; (done || lia). }
  exists s'. split.
  { cbn [map_out_loop]. rewrite (u32_small (p * 4096 + PAGE_SIZE)) by (unfold user_pages, is_u32, two32, PAGE_SIZE in *; lia).
    replace (p * 4096 + PAGE_SIZE) with ((p + 1) * 4096) by (unfold PAGE_SIZE; lia).
    by rewrite (run_bind_Ok _ _ _ _ _ E1), (run_bind_Ok _ _ _ _ _ E2). }
  split; [done |]. split.
  - intros a Ha. rewrite Rm, Hm by done. destruct (decide (a / 4096 = p)) as [->|].
    + rewrite decide_False, (decide_True (P:=p <= p < _)) by lia. done.
    + destruct (decide (p <= a / 4096 < p + Z.of_nat (S n))); [rewrite decide_True by lia | rewrite decide_False by lia]; done.
  - intros b Hb. rewrite Ru, Hu by done. split.
    + intros [Hub Hno]. case_decide as Hd; [done |]. split; [done |]. intros (q & Hq & Hmq & Eq).
      destruct (decide (q = p)) as [->|]; [by apply Hd |]. apply Hno. exists q. rewrite Hmp by lia. split; [lia | done].
    + intros [Hub Hno]. rewrite decide_False.
      * split; [done |]. intros (q & Hq & Hmq & Eq). rewrite Hmp in Hmq by lia. apply Hno. exists q. split; [lia | done].
      * intros [Hmp0 ->]. apply Hno. exists p. split; [lia | done].
  - rewrite Rc, Ec, !Nat2Z.id. cbn [mapped_count]. rewrite (mapped_count_same n s s2 d (p + 1) Hmp). lia.
Qed.

(** [page_map_out] of a range of the process's half whose mapped pages have
    blocks of their own: no address of the range is translated afterwards and
    every other one as before; exactly the blocks of the range go back to the
    free pages, and the free count follows. *)
Theorem page_map_out_frees s d p n F : pg_wf s d -> user_pages p n -> owned s d p n F -> exists s',
  page_map_out d (p * 4096) n s = Ok (0, s') /\ pg_wf s' d /\
  (forall a, is_u32 a -> mmu s' d a = if decide (p * 4096 <= a < (p + n) * 4096) then None else mmu s d a) /\
  (forall b, 0 <= b -> used (memory_bitmap (phys s')) b = true <->
    used (memory_bitmap (phys s)) b = true /\ ~ (exists q, p <= q < p + n /\ mapped s d q = true /\ F q = b)) /\
  s_freePages (phys s') = s_freePages (phys s) + mapped_count (Z.to_nat n) s d p.
Proof.
  intros Hwf Hup Hown. pose proof Hup as (Hp & Hn & Hpn).
  destruct (map_out_loop_ok (Z.to_nat n) s d p F (cr3 s =? d) Hwf) as (s' & E & Hwf' & [Rm Ru Rc]);
    rewrite ?Z2Nat.id in * by lia; try done.
  exists s'. split_and!; try done. { unfold page_map_out. mrun. by rewrite E. }
  intros a Ha. rewrite Rm by done. pose proof (Z.div_mod a 4096 ltac:(lia)). pose proof (Z.mod_pos_bound a 4096 ltac:(lia)).
  destruct (decide (p * 4096 <= a < (p + n) * 4096)); [rewrite decide_True by lia | rewrite decide_False by lia]; done.
Qed.

(** Pages that got fresh blocks are mapped, and own them. *)
Lemma filled_page s s' d p n type F q : user_pages p n -> (forall q, p <= q < p + n -> mapped s d q = false) ->
  filled s s' d p n type F -> p <= q < p + n ->
  mmu s' d (q * 4096) = Some (frame (phys s) (F q), Z.lor type PAGE_PRESENT).
Proof.
  intros (Hp & Hn & Hpn) Hnone Hf Hq. rewrite Hf, Z.div_mul, decide_True, Hnone by (unfold is_u32, two32; lia).
  rewrite Z.mod_mul, Z.add_0_r by lia. done.
Qed.

Lemma filled_mapped s s' d p n type F q : user_pages p n -> (forall q, p <= q < p + n -> mapped s d q = false) ->
  filled s s' d p n type F -> p <= q < p + n -> mapped s' d q = true.
Proof. intros Hup Hnone Hf Hq. unfold mapped. by rewrite (filled_page s s' d p n type F q Hup Hnone Hf Hq). Qed.

Lemma filled_owned s s' d p n type F : user_pages p n -> (forall q, p <= q < p + n -> mapped s d q = false) ->
  grows s s' -> fresh_blocks s s' d p n F -> filled s s' d p n type F -> owned s' d p n F.
Proof.
  intros Hup Hnone G [Hb1 Hb2] Hf. split.
  - intros q Hq _. destruct (Hb1 q Hq (Hnone q Hq)) as (R1 & R2 & R3 & R4).
    pose proof (filled_page s s' d p n type F q Hup Hnone Hf Hq). unfold frame in *.
    rewrite (grows_pages _ _ G), (grows_offset _ _ G). split_and!; try done; try lia. by eexists.
  - intros q r Hq Hr _ _. apply Hb2; (done || by apply Hnone).
Qed.

(** C31. Mapping pages in and out again is the identity on the address space: after
    [page_ensure] of a range with no mapped page and [page_map_out] of the same
    range every address is translated as at the start, the directory is
    consistent, and all of the blocks that the pages of the range got are free
    again. *)
Theorem page_ensure_map_out_roundtrip s d p n flags : pg_wf s d -> user_pages p n ->
  (forall q, p <= q < p + n -> mapped s d q = false) -> 2 * n < s_freePages (phys s) -> exists F s1 s2,
  page_ensure d (p * 4096) n flags s = Ok (0, s1) /\ page_map_out d (p * 4096) n s1 = Ok (0, s2) /\
  pg_wf s2 d /\ same_mmu s s2 d /\ fresh_blocks s s1 d p n F /\
  (forall q, p <= q < p + n -> mapped s1 d q = true /\ used (memory_bitmap (phys s2)) (F q) = false) /\
  s_freePages (phys s2) = s_freePages (phys s1) + n.
Proof.
  intros Hwf Hup Hnone Hfree. pose proof Hup as (Hp & Hn & Hpn).
  destruct (page_ensure_ok s d p n flags Hwf Hup Hfree) as (F & s1 & E & Hwf1 & G & Hb & Hf).
  pose proof (filled_owned _ _ _ _ _ _ _ Hup Hnone G Hb Hf) as Hown.
  assert (forall q, p <= q < p + n -> mapped s1 d q = true) as Hmp by (intros q Hq; by eapply filled_mapped).
  destruct (map_out_loop_ok (Z.to_nat n) s1 d p F (cr3 s1 =? d) Hwf1) as (s2 & E2 & Hwf2 & [Rm Ru Rc]);
    rewrite ?Z2Nat.id in * by lia; try done.
  exists F, s1, s2. split. { rewrite E, (mapped_count_const false); [done |]. by rewrite Z2Nat.id. }
  split. { unfold page_map_out. mrun. by rewrite E2. }
  split_and!; try done.
  - intros a Ha. rewrite Rm, Hf by done. case_decide as Hd; [|done].
    destruct (mmu s d a) eqn:Em; [|done]. assert (mapped s d (a / 4096) = true) as Hc by (apply mmu_page; [done | by rewrite Em]).
    by rewrite Hnone in Hc.
  - intros q Hq. split; [by apply Hmp |]. destruct Hb as [Hb1 _]. destruct (Hb1 q Hq (Hnone q Hq)) as (R1 & _).
    destruct (used (memory_bitmap (phys s2)) (F q)) eqn:Eu; [|done]. apply Ru in Eu as [_ Hno]; [|lia].
    destruct Hno. exists q. split; [done |]. split; [by apply Hmp | done].
  - rewrite Rc, (mapped_count_const true), Z2Nat.id by (rewrite ?Z2Nat.id by lia; done || lia). done.
Qed.

(** * The search for free pages *)

Lemma page_entry_present_ok s d q : pg_wf s d -> user_pages q 1 ->
  page_entry_present d (q * 4096) s = Ok (if mapped s d q then 0 else -1, s).
Proof.
  intros Hwf Hup. destruct (user_page_slot q 1 Hup ltac:(lia)) as (Hva & Hus & Hpd).
  destruct (slot_cases s d Hwf _ Hva) as (pde & Hpde & _ & _ & _).
  destruct (walk_user s d Hwf _ pde Hva Hus Hpde) as [Habs Hpres]. unfold mapped.
  destruct (present pde); [|by destruct (Habs eq_refl) as [-> ->]].
  destruct (Hpres eq_refl) as (pte & _ & _ & _ & _ & _ & _ & _ & -> & ->). by destruct (present pte).
Qed.

(** The [n] pages from [q] on are free. *)
Definition free_run (s : paging) (d q n : Z) : Prop := forall k, q <= k < q + n -> mapped s d k = false.

Lemma first_present_ok n s d c k : pg_wf s d -> user_pages (c + k) (Z.of_nat n) -> 0 <= c -> 0 <= k -> exists r,
  first_present n d (c * 4096) k s = Ok (r, s) /\
  match r with
  | Some j => k <= j < k + Z.of_nat n /\ mapped s d (c + j) = true
  | None => free_run s d (c + k) (Z.of_nat n)
  end.
Proof.
  intros Hwf Hup Hc. revert k Hup. induction n as [|n IH]; intros k Hup Hk; cbn [first_present].
  { exists None. split; [done |]. intros j Hj. lia. }
  assert (u32 (c * 4096 + k * PAGE_SIZE) = (c + k) * 4096) as ->.
  { rewrite u32_small; unfold user_pages, is_u32, two32, PAGE_SIZE in *; lia. }
  rewrite run_bind, page_entry_present_ok by (done || unfold user_pages in *; lia).
  destruct (mapped s d (c + k)) eqn:Em; cbn [Z.eqb].
  { exists (Some k). split; [done |]. split; [lia | done]. }
  destruct (IH (k + 1)) as (r & -> & Hr); [unfold user_pages in *; lia | lia |]. exists r. split; [done |].
  destruct r as [j|]; [destruct Hr; split; [lia | done] |].
  intros j Hj. destruct (decide (j = c + k)) as [->|]; [done | apply Hr; lia].
Qed.

Lemma find_free_loop_ok fuel s d c finish n : pg_wf s d -> 524288 <= c -> 0 <= n ->
  (finish + 4095) / 4096 + n <= 1040384 -> c <= 1040384 -> (Z.to_nat ((finish + 4095) / 4096 - c) < fuel)%nat ->
  exists r, find_free_loop fuel d (c * 4096) finish n s = Ok (r, s) /\
  ((exists q, r = q * 4096 /\ c <= q /\ r < finish /\ free_run s d q n /\
      forall k, c <= k < q -> ~ free_run s d k n) \/
   (r = 0 /\ forall k, c <= k -> k * 4096 < finish -> ~ free_run s d k n)).
Proof.
  intros Hwf Hc Hn Hfin. revert c Hc. induction fuel as [|fuel IH]; intros c Hc Hc2 Hf; [lia |]. cbn [find_free_loop].
  pose proof (Z.div_mod (finish + 4095) 4096 ltac:(lia)). pose proof (Z.mod_pos_bound (finish + 4095) 4096 ltac:(lia)).
  destruct (Z.ltb_spec (c * 4096) finish) as [Hlt|Hge].
  2:{ exists 0. split; [done |]. right. split; [done |]. intros k Hk Hk2. lia. }
  destruct (first_present_ok (Z.to_nat n) s d c 0 Hwf) as (r & E & Hr); [unfold user_pages; lia | lia | lia |].
  rewrite Z.add_0_r, Z2Nat.id in Hr by lia. rewrite (run_bind_Ok _ _ _ _ _ E). destruct r as [j|].
  - destruct Hr as [Hj Hm].
    assert (u32 (u32 (c * 4096 + j * PAGE_SIZE) + PAGE_SIZE) = (c + j + 1) * 4096) as ->.
    { rewrite (u32_small (_ + j * _)), u32_small; unfold is_u32, two32, PAGE_SIZE; lia. }
    assert (forall k, c <= k <= c + j -> ~ free_run s d k n) as Hno.
    { intros k Hk Hfr. rewrite Hfr in Hm by lia. done. }
    destruct (IH (c + j + 1)) as (r & E' & Hr); [lia | lia | lia |]. exists r. split; [done |].
    destruct Hr as [(q & -> & Hq & Hqf & Hfr & Hfirst)|[-> Hnone]].
    + left. exists q. split_and!; try done; try lia. intros k Hk.
      destruct (decide (k <= c + j)); [apply Hno; lia | apply Hfirst; lia].
    + right. split; [done |]. intros k Hk Hkf.
      destruct (decide (k <= c + j)); [apply Hno; lia | apply Hnone; lia].
  - exists (c * 4096). split; [done |]. left. exists c. split_and!; try done; lia.
Qed.

(** [page_find_free] ends without changing anything, and answers the first
    page at or after [start] and before [finish] from which on the requested
    number of pages is free, or 0 when there is none.  The pages of the answer
    may reach past [finish], which bounds their first address only. *)
Theorem page_find_free_first_fit fuel s d start finish n : pg_wf s d -> is_u32 start -> 524288 <= start / 4096 <= 1040384 ->
  0 <= n -> (finish + 4095) / 4096 + n <= 1040384 ->
  (Z.to_nat ((finish + 4095) / 4096 - start / 4096) < fuel)%nat -> exists r,
  page_find_free fuel d start finish n s = Ok (r, s) /\
  ((exists q, r = q * 4096 /\ start / 4096 <= q /\ r < finish /\ free_run s d q n /\
      forall k, start / 4096 <= k < q -> ~ free_run s d k n) \/
   (r = 0 /\ forall k, start / 4096 <= k -> k * 4096 < finish -> ~ free_run s d k n)).
Proof.
  intros Hwf Hs Hc Hn Hfin Hf. unfold page_find_free. rewrite page_base_div by done.
  apply find_free_loop_ok; (done || lia).
Qed.

(** * Copying through a directory *)

(** The bytes from [va] on are mapped, at the physical addresses [A i], which
    are all different. *)
Definition resolves (s : paging) (d va n : Z) (A : Z -> Z) : Prop :=
  (forall i, 0 <= i < n -> (exists fl, mmu s d (va + i) = Some (A i, fl)) /\ A i <> NULL /\ is_Some (bytes s !! A i)) /\
  (forall i j, 0 <= i < n -> 0 <= j < n -> A i = A j -> i = j).

(** The bytes of the kernel from [a] on. *)
Definition buffer (s : paging) (a n : Z) : Prop :=
  0 < a /\ a + n <= two32 /\ forall i, 0 <= i < n -> is_Some (bytes s !! (a + i)).

Definition user_range (va n : Z) : Prop := 2147483648 <= va /\ va + n <= 4261412864.

Lemma page_entry_ok s d va x fl : pg_wf s d -> user_range va 1 -> mmu s d va = Some (x, fl) ->
  exists b, page_entry d va s = Ok (b, s) /\ u32 (b + va mod PAGE_SIZE) = x.
Proof.
  intros Hwf Hr Hm. assert (is_u32 va) as Hva by (unfold user_range, is_u32, two32 in *; lia).
  assert (user_slot (va / 4194304)) as Hus.
  { unfold user_slot, user_range in *. split; [apply Z.div_le_lower_bound; lia | apply Z.div_lt_upper_bound; lia]. }
  destruct (slot_cases s d Hwf _ Hva) as (pde & Hpde & _ & _ & _).
  destruct (walk_user s d Hwf _ pde Hva Hus Hpde) as [Habs Hpres].
  destruct (present pde); [|destruct (Habs eq_refl); congruence].
  destruct (Hpres eq_refl) as (pte & _ & _ & _ & _ & Hu & _ & Hpe & _ & Hm'). rewrite Hm in Hm'.
  destruct (present pte); [|done]. injection Hm' as -> ->. exists (page_base pte). split; [done |].
  unfold PAGE_SIZE. rewrite page_base_div by done. apply u32_small.
  pose proof (Z.mod_pos_bound va 4096 ltac:(lia)). unfold is_u32, two32 in *.
  pose proof (Z.div_mod pte 4096 ltac:(lia)). pose proof (Z.mod_pos_bound pte 4096 ltac:(lia)).
  pose proof (Z.div_pos pte 4096). split; [lia |].
  assert (pte / 4096 < 1048576) by (apply Z.div_lt_upper_bound; lia). lia.
Qed.

Lemma get_byte_ok s a v : a <> NULL -> bytes s !! a = Some v -> get_byte a s = Ok (v, s).
Proof. intros Ha Hv. unfold get_byte. mrun. by rewrite (hload_Some _ _ _ Ha Hv). Qed.

Lemma set_byte_ok s a v : a <> NULL -> is_Some (bytes s !! a) ->
  set_byte a v s = Ok (tt, set_bytes (<[a := v]> (bytes s)) s).
Proof. intros Ha Hv. unfold set_byte. mrun. by rewrite (hstore_Some _ _ _ Ha Hv). Qed.

Lemma pg_wf_bytes s d h : pg_wf s d -> pg_wf (set_bytes h s) d.
Proof. intros []. by split. Qed.

(** The bytes at [dst i] become those at [src i], for the [n] indices from [i] on. *)
Definition copied (h h' : gmap Z Z) (dst src : Z -> Z) (i n : Z) : Prop :=
  (forall j, i <= j < i + n -> h' !! dst j = h !! src j) /\
  (forall a, (forall j, i <= j < i + n -> a <> dst j) -> h' !! a = h !! a).

Lemma copied_cons h h' dst src i n v : h !! src i = Some v -> 0 <= n ->
  (forall j k, i <= j < i + (n + 1) -> i <= k < i + (n + 1) -> dst j = dst k -> j = k) ->
  (forall j k, i <= j < i + (n + 1) -> i <= k < i + (n + 1) -> dst j <> src k) ->
  copied (<[dst i := v]> h) h' dst src (i + 1) n -> copied h h' dst src i (n + 1).
Proof.
  intros Hv Hn Hinj Hdis [H1 H2]. split.
  - intros j Hj. destruct (decide (j = i)) as [->|Hne].
    + rewrite H2, lookup_insert_eq by (intros k Hk Eq; apply Hinj in Eq; lia). done.
    + rewrite H1 by lia. apply lookup_insert_ne. apply Hdis; lia.
  - intros a Ha. rewrite H2 by (intros j Hj; apply Ha; lia). apply lookup_insert_ne. intros <-. by apply (Ha i); [lia |].
Qed.

Section copy.
Context (s : paging) (d : Z) (Hwf : pg_wf s d) (va buf n : Z) (A : Z -> Z).
Context (Hr : user_range va n) (HA : resolves s d va n A) (Hb : buffer s buf n).
Context (Hdis : forall i j, 0 <= i < n -> 0 <= j < n -> A i <> buf + j).

Lemma copy_in_loop_ok m i h : 0 <= i -> i + Z.of_nat m <= n -> (forall a, is_Some (bytes s !! a) -> is_Some (h !! a)) ->
  exists h', copy_in_loop m i d va buf (set_bytes h s) = Ok (tt, set_bytes h' s) /\
  copied h h' A (fun j => buf + j) i (Z.of_nat m) /\ (forall a, is_Some (h !! a) -> is_Some (h' !! a)).
Proof using All.
  destruct HA as [HA1 HA2]. destruct Hb as (Hb1 & Hb2 & Hb3). revert i h. induction m as [|m IH]; intros i h Hi Hin Hh.
  { exists h. split; [done |]. split; [|done]. split; [intros; lia | done]. }
  cbn [copy_in_loop]. destruct (HA1 i) as ((fl & Hm) & Hnn & Hsome); [lia |].
  rewrite (u32_small (va + i)) by (unfold user_range, is_u32, two32 in *; lia).
  rewrite (u32_small (buf + i)) by (unfold is_u32, two32 in *; lia).
  destruct (page_entry_ok (set_bytes h s) d (va + i) (A i) fl) as (b & E & Ex);
    [by apply pg_wf_bytes | unfold user_range in *; lia | done |].
  rewrite (run_bind_Ok _ _ _ _ _ E). cbn zeta. rewrite Ex. destruct (Hh _ (Hb3 i ltac:(lia))) as [v Hv].
  rewrite (run_bind_Ok _ _ _ _ _ (get_byte_ok (set_bytes h s) (buf + i) v ltac:(unfold NULL; lia) Hv)).
  rewrite (run_bind_Ok _ _ _ _ _ (set_byte_ok (set_bytes h s) (A i) v Hnn (Hh _ Hsome))).
  destruct (IH (i + 1) (<[A i := v]> h)) as (h' & E' & Hc & Hd'); [lia | lia | |].
  { intros a Ha. destruct (decide (a = A i)) as [->|]; [by rewrite lookup_insert_eq | rewrite lookup_insert_ne by done; by apply Hh]. }
  exists h'. split; [exact E' |]. rewrite Nat2Z.inj_succ, <- Z.add_1_r. split.
  - apply (copied_cons h h' A (fun j => buf + j) i (Z.of_nat m) v); try done; try lia.
    + intros j k Hj Hk. apply HA2; lia.
    + intros j k Hj Hk. apply Hdis; lia.
  - intros a Ha. apply Hd'. destruct (decide (a = A i)) as [->|]; [by rewrite lookup_insert_eq | by rewrite lookup_insert_ne].
Qed.

Lemma copy_out_loop_ok m i h : 0 <= i -> i + Z.of_nat m <= n -> (forall a, is_Some (bytes s !! a) -> is_Some (h !! a)) ->
  exists h', copy_out_loop m i d buf va (set_bytes h s) = Ok (tt, set_bytes h' s) /\
  copied h h' (fun j => buf + j) A i (Z.of_nat m).
Proof using All.
  destruct HA as [HA1 HA2]. destruct Hb as (Hb1 & Hb2 & Hb3). revert i h. induction m as [|m IH]; intros i h Hi Hin Hh.
  { exists h. split; [done |]. split; [intros; lia | done]. }
  cbn [copy_out_loop]. destruct (HA1 i) as ((fl & Hm) & Hnn & Hsome); [lia |].
  rewrite (u32_small (va + i)) by (unfold user_range, is_u32, two32 in *; lia).
  rewrite (u32_small (buf + i)) by (unfold is_u32, two32 in *; lia).
  destruct (page_entry_ok (set_bytes h s) d (va + i) (A i) fl) as (b & E & Ex);
    [by apply pg_wf_bytes | unfold user_range in *; lia | done |].
  rewrite (run_bind_Ok _ _ _ _ _ E). cbn zeta. rewrite Ex. destruct (Hh _ Hsome) as [v Hv].
  rewrite (run_bind_Ok _ _ _ _ _ (get_byte_ok (set_bytes h s) (A i) v Hnn Hv)).
  rewrite (run_bind_Ok _ _ _ _ _ (set_byte_ok (set_bytes h s) (buf + i) v ltac:(unfold NULL; lia) (Hh _ (Hb3 i ltac:(lia))))).
  destruct (IH (i + 1) (<[buf + i := v]> h)) as (h' & E' & Hc); [lia | lia | |].
  { intros a Ha. destruct (decide (a = buf + i)) as [->|]; [by rewrite lookup_insert_eq | rewrite lookup_insert_ne by done; by apply Hh]. }
  exists h'. split; [exact E' |]. rewrite Nat2Z.inj_succ, <- Z.add_1_r.
  apply (copied_cons h h' (fun j => buf + j) A i (Z.of_nat m) v); try done; try lia.
  intros j k Hj Hk. apply not_eq_sym, Hdis; lia.
Qed.
End copy.

(** C32. What [page_copy_in] writes through a directory is what [page_copy_out]
    reads back through it: after copying [n] bytes from the kernel's [src] to the
    process's [va] and from there to the kernel's [dst], the bytes at [dst] are
    those that were at [src], and only the process's pages and [dst] changed. *)
Theorem page_copy_roundtrip s d va src dst n A : pg_wf s d -> 0 <= n -> user_range va n -> resolves s d va n A ->
  buffer s src n -> buffer s dst n ->
  (forall i j, 0 <= i < n -> 0 <= j < n -> A i <> src + j /\ A i <> dst + j) -> exists s1 s2,
  page_copy_in d va src n s = Ok (n, s1) /\ page_copy_out d dst va n s1 = Ok (n, s2) /\
  (forall i, 0 <= i < n -> bytes s2 !! (dst + i) = bytes s !! (src + i)) /\
  (forall a, (forall i, 0 <= i < n -> a <> A i /\ a <> dst + i) -> bytes s2 !! a = bytes s !! a) /\
  s2 = set_bytes (bytes s2) s.
Proof.
  intros Hwf Hn Hr HA Hs Hd Hdis.
  destruct (copy_in_loop_ok s d Hwf va src n A Hr HA Hs) with (m := Z.to_nat n) (i := 0) (h := bytes s)
    as (h1 & E1 & [C1 C2] & Hdom); [intros i j Hi Hj; apply (Hdis i j Hi Hj) | lia | lia | done |].
  destruct (copy_out_loop_ok s d Hwf va dst n A Hr HA Hd) with (m := Z.to_nat n) (i := 0) (h := h1)
    as (h2 & E2 & [C3 C4]); [intros i j Hi Hj; apply (Hdis i j Hi Hj) | lia | lia | done |].
  rewrite Z2Nat.id in * by lia. exists (set_bytes h1 s), (set_bytes h2 s). split.
  { unfold page_copy_in. replace (set_bytes (bytes s) s) with s in E1 by by destruct s.
    by rewrite (run_bind_Ok _ _ _ _ _ E1). }
  split. { unfold page_copy_out. by rewrite (run_bind_Ok _ _ _ _ _ E2). }
  split_and!; [| |done].
  - intros i Hi. simpl. rewrite (C3 i) by lia. by apply C1.
  - intros a Ha. simpl. rewrite C4 by (intros j Hj; apply Ha; lia). apply C2. intros j Hj. apply Ha. lia.
Qed.

(** * Building and destroying a directory *)

Lemma large_entry_spec i : 0 <= i < 1024 -> large_entry i = i * 4194304 + 387 /\
  present (large_entry i) = true /\ large (large_entry i) = true /\ is_u32 (large_entry i).
Proof.
  intros Hi. assert (large_entry i = Z.lor (i * 1024 * 4096) 387) as E.
  { unfold large_entry. rewrite u32_small by (unfold is_u32, two32; lia). rewrite <- !Z.lor_assoc. f_equal. lia. }
  destruct (entry_base (i * 1024) 387) as (_ & E2 & E3); [lia | unfold is_u32, two32; lia | lia |].
  assert (Z.lor (i * 1024 * 4096) 387 = i * 4194304 + 387) as E1.
  { pose proof (Z.add_lor_land (i * 1024 * 4096) 387) as Hl. assert (Z.land (i * 1024 * 4096) 387 = 0); [|lia].
    rewrite (land_mod_pow2 _ 12) by (vm_compute; intuition congruence). replace (_ mod 2 ^ 12) with 0; [done |].
    symmetry. apply (Z.mod_mul (i * 1024) 4096). lia. }
  rewrite E. split_and!; [lia | by rewrite present_low, E2 | by rewrite large_low, E2 | done].
Qed.

Lemma fill_table_ok n i f map s : is_table s map -> 0 <= i -> i + Z.of_nat n <= 1024 ->
  (forall j, i <= j < i + Z.of_nat n -> is_u32 (f j)) -> exists s',
  fill_table n i f map s = Ok (tt, s') /\ is_table s' map /\ grows s s' /\ phys s' = phys s /\ invalidated s' = invalidated s /\
  (forall t, t <> map -> tables s' !! t = tables s !! t) /\
  (forall j, 0 <= j -> entry_at s' map j = if decide (i <= j < i + Z.of_nat n) then Some (f j) else entry_at s map j).
Proof.
  revert i s. induction n as [|n IH]; intros i s Ht Hi Hin Hf; cbn [fill_table].
  { exists s. split_and!; try done. intros j Hj. by rewrite decide_False by lia. }
  rewrite (run_bind_Ok _ _ _ _ _ (set_entry_ok s map i (f i) Ht ltac:(lia))).
  destruct (IH (i + 1) (put_entry map i (f i) s)) as (s' & E & Ht' & G & P & I & Ho & He); [| lia | lia | |].
  { apply put_entry_table; [apply Hf; lia | done]. } { intros j Hj. apply Hf. lia. }
  exists s'. split_and!; try done.
  - eapply grows_trans; [apply grows_put | done].
  - intros t Hne. rewrite Ho by done. unfold put_entry. simpl. by apply lookup_alter_ne.
  - intros j Hj. rewrite He, put_entry_at by (done || lia).
    destruct (decide (i <= j < i + Z.of_nat (S n))) as [Hd|Hd].
    + destruct (decide (j = i)) as [->|]; [rewrite decide_False, decide_True by lia; done | rewrite decide_True by lia; done].
    + rewrite decide_False, decide_False by lia. done.
Qed.

(** A table that the directory [d] does not use is added or changed. *)
Lemma other_directory s s' map d : pg_wf s d -> tables s !! map = None -> mem_ok (phys s') -> tables_used s' ->
  (forall t, t <> map -> tables s' !! t = tables s !! t) -> pg_wf s' d /\ same_mmu s s' d.
Proof.
  intros Hwf Hn Hm Hu Ho. pose proof (wf_dir _ _ Hwf) as Hd.
  assert (forall t, is_table s t -> t <> map /\ is_table s' t) as Hkeep.
  { intros t (Hnn & l & Hl & Hx). assert (t <> map) by congruence. split; [done |]. split; [done |]. exists l.
    by rewrite Ho. }
  assert (forall t j, is_table s t -> entry_at s' t j = entry_at s t j) as Hent.
  { intros t j Ht. unfold entry_at. rewrite Ho; [done |]. by apply Hkeep. }
  split.
  - split; try done; [by apply Hkeep | |].
    + intros i pde Hi. rewrite Hent by done. intros He Hp. pose proof (wf_slot _ _ Hwf i pde Hi He Hp) as H.
      destruct (large pde); [done |]. destruct H as (?&?&?). split_and!; [done | by apply Hkeep | done].
    + intros i j e f Hi Hj. rewrite !Hent by done. by apply (wf_inj _ _ Hwf).
  - intros a Ha. unfold mmu. rewrite Hent by done.
    destruct (slot_cases s d Hwf a Ha) as (pde & Hpde & _). rewrite Hpde. cbn [mbind option_bind].
    destruct (present pde) eqn:Ep; [|done]. destruct (large pde) eqn:El; [done |]. cbn [negb].
    pose proof (wf_slot _ _ Hwf _ pde (proj1 (slot_range a Ha)) Hpde Ep) as H. rewrite El in H.
    rewrite Hent by apply H. done.
Qed.

(** The kernel's part of every address space. *)
Definition kernel_address (a : Z) : Prop := a < 2147483648 \/ 4261412864 <= a.
#[export] Instance kernel_address_dec a : Decision (kernel_address a).
Proof. unfold kernel_address. apply _. Defined.

(** A directory with the kernel's large pages and nothing else. *)
Section fresh_directory.
Context (s : paging) (d : Z) (Ht : is_table s d) (Hm : mem_ok (phys s)) (Hu : tables_used s).
Context (Hent : forall j, 0 <= j < 1024 ->
  entry_at s d j = Some (if decide (512 <= j < 1016) then 0 else large_entry j)).

Lemma fresh_directory_wf : pg_wf s d.
Proof using All.
  split; try done.
  - intros i pde Hi He Hp. pose proof (entry_at_bound _ _ _ _ Ht He). rewrite Hent in He by lia.
    injection He as <-. case_decide; [done |]. destruct (large_entry_spec i) as (_ & _ & -> & _); [lia |].
    unfold user_slot. lia.
  - intros i j e f Hi Hj He Hf [Hp Hl]. pose proof (entry_at_bound _ _ _ _ Ht He). rewrite Hent in He by lia.
    injection He as <-. case_decide; [done |]. destruct (large_entry_spec i) as (_ & _ & Hl2 & _); [lia | congruence].
Qed.

Lemma fresh_directory_mmu a : is_u32 a -> mmu s d a = if decide (kernel_address a) then Some (a, 387) else None.
Proof using All.
  intros Ha. unfold mmu. pose proof (slot_range a Ha). rewrite Hent by lia. cbn [mbind option_bind].
  pose proof (Z.div_mod a 4194304 ltac:(lia)). pose proof (Z.mod_pos_bound a 4194304 ltac:(lia)). unfold kernel_address.
  destruct (decide (512 <= a / 4194304 < 1016)).
  - rewrite decide_False by lia. done.
  - rewrite decide_True by lia. destruct (large_entry_spec (a / 4194304)) as (-> & -> & -> & _); [lia |]. cbn [negb].
    replace (a / 4194304 * 4194304 + 387) with (387 + a / 4194304 * 4194304) by lia. rewrite Z.div_add by lia.
    f_equal. f_equal; [change (387 / 4194304) with 0; lia |].
    change 4194304 with (1024 * 4096) at 2. rewrite Z.mul_assoc, Z.mod_add by lia. done.
Qed.
End fresh_directory.

(** What [new_page_directory] makes. *)
Lemma new_page_directory_ok s : mem_ok (phys s) -> tables_used s -> 1 < s_freePages (phys s) -> exists map s',
  new_page_directory s = Ok (map, s') /\ pg_wf s' map /\ tables s !! map = None /\
  (forall a, is_u32 a -> mmu s' map a = if decide (kernel_address a) then Some (a, 387) else None) /\
  (forall d, pg_wf s d -> pg_wf s' d /\ same_mmu s s' d).
Proof.
  intros Hmem Htu Hfree. destruct (alloc_page_mem s Hmem Htu Hfree) as (b & m' & E & Hm1 & Ht1 & Hg & Hk & Hn).
  set (map := frame (phys s) b) in *. set (s1 := set_phys m' s) in *.
  destruct (frame_page (phys s) b Hmem (takes_range _ _ _ Hk)) as (k & Hmk & Hk0 & _).
  assert (map <> NULL) as Hnn by (unfold map; rewrite Hmk; unfold NULL; lia).
  set (s2 := set_tables (<[map := zero_table]> (tables s1)) s1).
  assert (is_table s2 map) as T2 by (apply zeros_table; [done | apply lookup_insert_eq]).
  destruct (fill_table_ok 512 0 large_entry map s2 T2) as (s3 & E3 & T3 & G3 & P3 & I3 & O3 & N3);
    [lia | lia | intros; apply large_entry_spec; lia |].
  destruct (fill_table_ok 504 512 (fun _ => 0) map s3 T3) as (s4 & E4 & T4 & G4 & P4 & I4 & O4 & N4);
    [lia | lia | by vm_compute |].
  destruct (fill_table_ok 8 1016 large_entry map s4 T4) as (s5 & E5 & T5 & G5 & P5 & I5 & O5 & N5);
    [lia | lia | intros; apply large_entry_spec; lia |].
  assert (phys s5 = m') as Hph by by rewrite P5, P4, P3.
  assert (forall t, t <> map -> tables s5 !! t = tables s !! t) as Ho.
  { intros t Ht. rewrite O5, O4, O3 by done. simpl. by rewrite lookup_insert_ne. }
  assert (tables_used s5) as Htu5.
  { intros q Hq Hf. rewrite Hph in *. simpl in *. rewrite Ho; [by apply Ht1 |]. unfold map, frame.
    pose proof (grows_offset _ _ Hg) as Eo. simpl in Eo. rewrite Eo. intros Eq.
    assert (q = b) as -> by (unfold PAGE_SIZE in Eq; lia). pose proof (takes_used _ _ _ Hk) as Hu. simpl in Hu. congruence. }
  assert (forall j, 0 <= j < 1024 -> entry_at s5 map j =
    Some (if decide (512 <= j < 1016) then 0 else large_entry j)) as Hent.
  { intros j Hj. rewrite N5, N4, N3 by lia. repeat case_decide; try done; lia. }
  exists map, s5. split_and!; try done.
  - unfold new_page_directory. rewrite (run_bind_Ok _ _ _ _ _ E). unfold fresh_table.
    destruct (Z.eqb_spec map NULL); [done |].
    rewrite (run_bind_Ok _ _ _ tt s2), (run_bind_Ok _ _ _ _ _ E3), (run_bind_Ok _ _ _ _ _ E4),
      (run_bind_Ok _ _ _ _ _ E5) by done. done.
  - apply fresh_directory_wf; (done || by rewrite Hph).
  - intros a Ha. apply fresh_directory_mmu; (done || by rewrite Hph).
  - intros d Hd. apply (other_directory s s5 map d); (done || by rewrite Hph).
Qed.

(** [new_page_directory] with a free page to spare makes a consistent directory
    in a page that was free: the kernel's part of the address space is mapped to
    itself and nothing else is mapped; every other consistent directory stays so
    and translates as before. *)
Theorem new_page_directory_identity s : mem_ok (phys s) -> tables_used s -> 1 < s_freePages (phys s) -> exists map s',
  new_page_directory s = Ok (map, s') /\ pg_wf s' map /\ tables s !! map = None /\
  (forall a, is_u32 a -> mmu s' map a = if decide (kernel_address a) then Some (a, 387) else None) /\
  (forall d, pg_wf s d -> pg_wf s' d /\ same_mmu s s' d).
Proof. apply new_page_directory_ok. Qed.

(** [delete_page_directory] does not walk the process's half of the directory:
    it turns the directory slots 512 to 1015 into addresses by multiplying them
    with the page size, which all lie in the first four megabytes.  On a
    directory whose first entry is the kernel's large page at address 0, as
    [new_page_directory] makes it, it goes through the null pointer. *)
Theorem delete_page_directory_reads_null s map : is_table s map -> cr3 s <> map ->
  entry_at s map 0 = Some (large_entry 0) -> delete_page_directory map s = Halt NullDeref.
Proof.
  intros Ht Hc He. unfold delete_page_directory. mrun. destruct (Z.eqb_spec (cr3 s) map); [done |]. mred.
  assert (get_entry map 0 s = Ok (large_entry 0, s)) as Hget.
  { destruct (is_table_entry s map 0 Ht) as (e & He' & Hg & _); [lia |]. by simplify_eq. }
  assert (forall n, delete_entries (S n) 512 map s = Halt NullDeref) as Hdel; [|mrun; by rewrite (Hdel 503%nat)].
  intros k. cbn [delete_entries].
  change (u32 (512 * PAGE_SIZE)) with 2097152. unfold page_table_present, page_entry_present.
  change (page_table_of 2097152) with 0. change (page_entry_of 2097152) with 512.
  rewrite run_bind, (run_bind_Ok _ _ _ _ _ Hget), run_ret.
  change (Z.land (large_entry 0) PAGE_PRESENT =? PAGE_PRESENT) with true. cbn [Z.eqb negb].
  rewrite !run_bind, Hget. done.
Qed.

(** * A concrete directory *)

(** Forty pages from 1 MB on, of which a directory without process pages and four
    others are in use, and a few bytes of the kernel and of the page at
    257 * 4096. *)
Definition sample_map : Z := 1208320.
Definition sample_directory : list Z :=
  map large_entry (seqZ 0 512) ++ replicate 504 0 ++ map large_entry (seqZ 1016 8).
Definition sample_bytes : gmap Z Z :=
  list_to_map [(100, 7); (101, 8); (200, 0); (201, 0); (1052672, 1); (1052673, 2)].
Definition sample_memory : paging := Paging ∅ sample_bytes sample_physmem 0 [].
Definition sample_paging : paging :=
  Paging {[sample_map := sample_directory]} sample_bytes (PhysMem [15; 128] 40 1048576 35 40 0) 0 [].

Lemma sample_memory_ok : mem_ok (phys sample_memory) /\ tables_used sample_memory.
Proof.
  split; [split; [exact sample_physmem_wf | exists 256; by vm_compute] |]. intros b _ _. apply lookup_empty.
Qed.

Lemma sample_entry j : 0 <= j < 1024 ->
  sample_directory !! Z.to_nat j = Some (if decide (512 <= j < 1016) then 0 else large_entry j).
Proof.
  intros Hj. assert (length (map large_entry (seqZ 0 512)) = 512%nat) as L1 by by rewrite length_map, length_seqZ.
  unfold sample_directory. destruct (decide (j < 512)).
  { rewrite decide_False, lookup_app_l by (rewrite ?L1; lia). rewrite list_lookup_fmap, lookup_seqZ_lt by lia.
    simpl. f_equal. f_equal. lia. }
  rewrite lookup_app_r, L1 by (rewrite ?L1; lia). destruct (decide (j < 1016)).
  { rewrite decide_True, lookup_app_l by (rewrite ?length_replicate; lia). apply lookup_replicate_2. lia. }
  rewrite decide_False, lookup_app_r by (rewrite ?length_replicate; lia).
  rewrite length_replicate, list_lookup_fmap, lookup_seqZ_lt by lia. simpl. f_equal. f_equal. lia.
Qed.

Lemma sample_is_table : is_table sample_paging sample_map.
Proof.
  split; [done |]. exists sample_directory. split; [apply lookup_insert_eq |].
  assert (length sample_directory = 1024%nat) as Hlen.
  { unfold sample_directory. by rewrite !length_app, !length_map, !length_seqZ, length_replicate. }
  split; [done |]. apply Forall_lookup_2. intros i e He. pose proof (lookup_lt_Some _ _ _ He).
  rewrite <- (Nat2Z.id i), sample_entry in He by lia. injection He as <-.
  case_decide; [by vm_compute | apply large_entry_spec; lia].
Qed.

Lemma sample_wf_parts : mem_ok (phys sample_paging) /\ tables_used sample_paging /\
  (forall j, 0 <= j < 1024 -> entry_at sample_paging sample_map j =
     Some (if decide (512 <= j < 1016) then 0 else large_entry j)).
Proof.
  split_and!.
  - split; [|exists 256; by vm_compute].
    unfold pm_wf, is_u32, two32, BLOCK_BITS. vm_compute. split_and!; congruence || done.
  - intros b Hb Hf. apply lookup_singleton_ne. simpl in *. unfold sample_map, PAGE_SIZE. intros Eq.
    assert (b = 39) as -> by lia. by vm_compute in Hf.
  - intros j Hj. unfold entry_at, sample_paging. cbn [tables]. rewrite lookup_singleton_eq. by apply sample_entry.
Qed.

Lemma sample_paging_wf : pg_wf sample_paging sample_map.
Proof. destruct sample_wf_parts as (H1 & H2 & H3). apply fresh_directory_wf; [exact sample_is_table | done..]. Qed.

Lemma sample_unmapped q : user_pages q 1 -> mapped sample_paging sample_map q = false.
Proof.
  destruct sample_wf_parts as (H1 & H2 & H3). intros Hq. unfold mapped.
  rewrite fresh_directory_mmu; [|exact sample_is_table | done..| unfold user_pages, is_u32, two32 in *; lia].
  rewrite decide_False; [done | unfold kernel_address, user_pages in *; lia].
Qed.

Lemma new_page_directory_identity_witness : exists map s',
  new_page_directory sample_memory = Ok (map, s') /\ mmu s' map 1048576 = Some (1048576, 387).
Proof.
  destruct (new_page_directory_identity sample_memory (proj1 sample_memory_ok) (proj2 sample_memory_ok))
    as (map & s' & E & _ & _ & Hm & _); [reflexivity |].
  exists map, s'. split; [exact E |]. rewrite (Hm 1048576); [reflexivity | split; [lia | reflexivity]].
Defined.

Lemma page_direct_map_translates_witness : exists s',
  page_direct_map sample_map (256 * 4096) (524288 * 4096) 3 READ_WRITE sample_paging = Ok (0, s') /\
  mmu s' sample_map (524289 * 4096 + 5) = Some (257 * 4096 + 5, 3).
Proof.
  destruct (page_direct_map_translates sample_paging sample_map 524288 256 3 READ_WRITE sample_paging_wf)
    as (s' & E & _ & Hm & _); [unfold user_pages; lia | lia | lia | reflexivity |].
  exists s'. split; [exact E |]. rewrite Hm; [reflexivity | split; [lia | reflexivity]].
Defined.

Lemma page_ensure_fills_witness : exists F s',
  page_ensure sample_map (524288 * 4096) 2 READ_WRITE sample_paging = Ok (0, s') /\
  fresh_blocks sample_paging s' sample_map 524288 2 F.
Proof.
  destruct (page_ensure_fills sample_paging sample_map 524288 2 READ_WRITE sample_paging_wf)
    as (F & s' & E & _ & Hb & _); [unfold user_pages; lia | reflexivity |].
  rewrite (mapped_count_const false) in E.
  - exists F, s'. split; [exact E | exact Hb].
  - intros q Hq. apply sample_unmapped. unfold user_pages. lia.
Defined.

Lemma page_map_out_frees_witness : exists s1 s2,
  page_ensure sample_map (524288 * 4096) 2 READ_WRITE sample_paging = Ok (0, s1) /\
  page_map_out sample_map (524288 * 4096) 2 s1 = Ok (0, s2) /\ s_freePages (phys s2) = s_freePages (phys s1) + 2.
Proof.
  destruct (page_ensure_ok sample_paging sample_map 524288 2 READ_WRITE sample_paging_wf)
    as (F & s1 & E & Hwf & G & Hb & Hf); [unfold user_pages; lia | reflexivity |].
  rewrite (mapped_count_const false) in E by (intros; apply sample_unmapped; unfold user_pages; lia).
  assert (owned s1 sample_map 524288 2 F) as Hown.
  { apply (filled_owned sample_paging s1 sample_map 524288 2 (convert_paging_types READ_WRITE) F);
      [unfold user_pages; lia | intros; apply sample_unmapped; unfold user_pages; lia | exact G | exact Hb | exact Hf]. }
  destruct (page_map_out_frees s1 sample_map 524288 2 F Hwf) as (s2 & E2 & _ & _ & _ & Hc);
    [unfold user_pages; lia | exact Hown |].
  exists s1, s2. split; [exact E |]. split; [exact E2 |]. rewrite Hc.
  rewrite (mapped_count_const true); [reflexivity |].
  intros q Hq. apply (filled_mapped sample_paging s1 sample_map 524288 2 (convert_paging_types READ_WRITE) F);
    [unfold user_pages; lia | intros; apply sample_unmapped; unfold user_pages; lia | exact Hf | exact Hq].
Defined.

Lemma page_ensure_map_out_roundtrip_witness : exists s1 s2,
  page_ensure sample_map (524288 * 4096) 2 READ_WRITE sample_paging = Ok (0, s1) /\
  page_map_out sample_map (524288 * 4096) 2 s1 = Ok (0, s2) /\ same_mmu sample_paging s2 sample_map.
Proof.
  destruct (page_ensure_map_out_roundtrip sample_paging sample_map 524288 2 READ_WRITE sample_paging_wf)
    as (F & s1 & s2 & E1 & E2 & _ & Hm & _).
  - unfold user_pages. lia.
  - intros q Hq. apply sample_unmapped. unfold user_pages. lia.
  - reflexivity.
  - exists s1, s2. split; [exact E1 |]. split; [exact E2 | exact Hm].
Defined.

Lemma page_find_free_first_fit_witness : exists r,
  page_find_free 5 sample_map 2147483648 2147495936 2 sample_paging = Ok (r, sample_paging).
Proof.
  destruct (page_find_free_first_fit 5 sample_paging sample_map 2147483648 2147495936 2 sample_paging_wf)
    as (r & E & _).
  - split; [lia | reflexivity].
  - split; vm_compute; congruence.
  - lia.
  - vm_compute. congruence.
  - vm_compute. lia.
  - exists r. exact E.
Defined.

Lemma page_copy_roundtrip_witness : exists s s1 s2,
  page_direct_map sample_map (256 * 4096) (524288 * 4096) 3 READ_WRITE sample_paging = Ok (0, s) /\
  page_copy_in sample_map 2147487744 100 2 s = Ok (2, s1) /\
  page_copy_out sample_map 200 2147487744 2 s1 = Ok (2, s2) /\ bytes s2 !! 201 = Some 8.
Proof.
  destruct (page_direct_map_ok sample_paging sample_map 524288 256 3 READ_WRITE sample_paging_wf)
    as (s & E & Hwf & G & Hm & _); [unfold user_pages; lia | lia | lia | reflexivity |].
  pose proof (grows_bytes _ _ G) as Hb. change (bytes sample_paging) with sample_bytes in Hb.
  destruct (page_copy_roundtrip s sample_map 2147487744 100 200 2 (fun i => 1052672 + i) Hwf)
    as (s1 & s2 & E1 & E2 & Hc & _).
  - lia.
  - unfold user_range. lia.
  - split; [|intros i j _ _ Eq; lia].
    intros i Hi. split; [|split; [unfold NULL; lia |]].
    + exists 3. rewrite Hm by (unfold is_u32, two32; lia). rewrite decide_True by lia.
      f_equal. f_equal. lia.
    + rewrite Hb. assert (i = 0 \/ i = 1) as [-> | ->] by lia; eexists; reflexivity.
  - split; [lia | split; [vm_compute; congruence |]]. intros i Hi. rewrite Hb.
    assert (i = 0 \/ i = 1) as [-> | ->] by lia; eexists; reflexivity.
  - split; [lia | split; [vm_compute; congruence |]]. intros i Hi. rewrite Hb.
    assert (i = 0 \/ i = 1) as [-> | ->] by lia; eexists; reflexivity.
  - intros i j Hi Hj. lia.
  - exists s, s1, s2. split; [exact E |]. split; [exact E1 | split; [exact E2 |]]. specialize (Hc 1 ltac:(lia)).
    change (200 + 1) with 201 in Hc. rewrite Hc, Hb. reflexivity.
Defined.

Lemma delete_page_directory_reads_null_witness : delete_page_directory sample_map sample_paging = Halt NullDeref.
Proof.
  apply delete_page_directory_reads_null.
  - exact sample_is_table.
  - discriminate.
  - apply sample_wf_parts. lia.
Defined.
