(* ===== verification/PagingRuns.v ===== *)
(** Runs of pages that somebody else owns: [page_provide] maps a physical run at
    the first free place of a range, [page_release] takes such a mapping away and
    leaves the pages to their owner. *)
From S2P Require Import Prelude Mm PhysMem Paging.

(** What taking a mapping away leaves: the memory itself is not touched. *)
Definition released (s s' : paging) (d p n : Z) : Prop :=
  pg_wf s' d /\ phys s' = phys s /\ cr3 s' = cr3 s /\ bytes s' = bytes s /\
  (forall t, tables s !! t = None -> tables s' !! t = None) /\
  forall a, is_u32 a -> mmu s' d a = if decide (p <= a / 4096 < p + n) then None else mmu s d a.

Lemma release_step s d p n inv : pg_wf s d -> user_pages p n -> 0 < n -> exists s',
  (e ← page_entry_present d (p * 4096);
   (if e =? 0 then table ← page_table d (p * 4096); set_entry table (page_entry_of (p * 4096)) 0 else mret tt) ;;
   invlpg_if inv (p * 4096)) s = Ok (tt, s') /\ released s s' d p 1.
Proof.
  intros Hwf Hup Hn. destruct (user_page_slot p n Hup Hn) as (Hva & Hus & Hpd). assert (user_pages p 1) as Hup1 by (unfold user_pages in *; lia).
  rewrite run_bind, (page_entry_present_ok s d p Hwf Hup1). destruct (mapped s d p) eqn:Em; cbn [Z.eqb].
  - destruct (slot_cases s d Hwf _ Hva) as (pde & Hpde & _ & _ & _). destruct (walk_user s d Hwf _ pde Hva Hus Hpde) as [Habs _].
    destruct (present pde) eqn:Ep; [|destruct (Habs eq_refl) as [Hno _]; unfold mapped in Em; by rewrite Hno in Em].
    destruct (page_set_ok s d (p * 4096) pde 0 inv Hwf Hva Hus ltac:(by vm_compute) Hpde Ep) as (s1 & s' & E1 & E2 & E3 & Hwf' & G & Hph & _ & Hm).
    exists s'. rewrite run_bind. unfold page_set in Hm. assert ((table ← page_table d (p * 4096); set_entry table (page_entry_of (p * 4096)) 0) s = Ok (tt, s1)) as ->.
    { by rewrite run_bind, E1. }
    split; [exact E3 |]. split; [done |]. split; [done |].
    assert (s1 = put_entry (page_base pde) (p * 4096 / 4096 mod 1024) 0 s) as E.
    { destruct (walk_user s d Hwf _ pde Hva Hus Hpde) as [_ Hp]. destruct (Hp Ep) as (pte & Ht & _).
      rewrite page_entry_of_div, (set_entry_ok _ _ _ _ Ht) in E2 by (apply Z.mod_pos_bound; lia). by injection E2 as <-. }
    rewrite invlpg_if_ok in E3. injection E3 as <-. subst s1.
    split; [by destruct inv |]. split; [by destruct inv |].
    split; [intros t Ht; destruct inv; (cbn; by rewrite lookup_alter_None) |]. intros a Ha. rewrite Hm, Hpd by done.
    case_decide; [rewrite decide_True by lia; done | rewrite decide_False by lia; done].
  - rewrite run_bind. cbn [mret]. unfold mret. exists (if inv then set_invalidated (p * 4096 :: invalidated s) s else s). split; [apply invlpg_if_ok |].
    split; [destruct inv; [by apply pg_wf_invalidated | done] |]. split; [by destruct inv |]. split; [by destruct inv |]. split; [by destruct inv |]. split; [by destruct inv |].
    intros a Ha. assert (mmu (if inv then set_invalidated (p * 4096 :: invalidated s) s else s) d a = mmu s d a) as -> by by destruct inv.
    case_decide as Hd; [|done]. destruct (mmu s d a) eqn:E; [|done].
    assert (mapped s d (a / 4096) = true) as Hc by (apply mmu_page; [done | by rewrite E]). replace (a / 4096) with p in Hc by lia. congruence.
Qed.

Lemma released_cons s s1 s' d p n : released s s1 d p 1 -> released s1 s' d (p + 1) n -> 0 <= n -> released s s' d p (n + 1).
Proof.
  intros (_ & P1 & C1 & B1 & T1 & M1) (W & P2 & C2 & B2 & T2 & M2) Hn. split; [done |]. split_and!; try congruence; [auto |].
  intros a Ha. rewrite M2, M1 by done. repeat case_decide; (lia || done).
Qed.

Lemma release_loop_ok n s d p inv : pg_wf s d -> user_pages p (Z.of_nat n) -> exists s',
  release_loop n d (p * 4096) inv s = Ok (tt, s') /\ released s s' d p (Z.of_nat n).
Proof.
  revert s p. induction n as [|n IH]; intros s p Hwf Hup.
  { exists s. split; [done |]. split; [done |]. split_and!; try done. intros a Ha. by rewrite decide_False by lia. }
  destruct (release_step s d p _ inv Hwf Hup ltac:(lia)) as (s1 & E1 & R1).
  destruct (IH s1 (p + 1)) as (s' & E' & R'); [apply R1 | unfold user_pages in *; lia |]. exists s'. split.
  - cbn [release_loop]. rewrite (u32_small (p * 4096 + PAGE_SIZE)) by (unfold user_pages, is_u32, two32, PAGE_SIZE in *; lia).
    replace (p * 4096 + PAGE_SIZE) with ((p + 1) * 4096) by (unfold PAGE_SIZE; lia). rewrite !run_bind in *.
    destruct (page_entry_present d (p * 4096) s) as [[e t]|]; [|done]. rewrite !run_bind in *. revert E1.
    match goal with |- match ?x with _ => _ end = _ -> _ => destruct x as [[[] t2]|]; [|done] end. intros E1. by rewrite run_bind, E1.
  - replace (Z.of_nat (S n)) with (Z.of_nat n + 1) by lia. apply (released_cons s s1); (done || lia).
Qed.

Lemma page_release_ok s d p n : pg_wf s d -> user_pages p n -> exists s', page_release d (p * 4096) n s = Ok (0, s') /\ released s s' d p n.
Proof.
  intros Hwf Hup. pose proof Hup as (_ & Hn & _). destruct (release_loop_ok (Z.to_nat n) s d p (cr3 s =? d) Hwf) as (s' & E & R); [by rewrite Z2Nat.id |].
  rewrite Z2Nat.id in R by done. exists s'. split; [|done]. unfold page_release. mrun. by rewrite E.
Qed.

(** What providing a run leaves. *)
Definition provided (s s' : paging) (d f q n type : Z) : Prop :=
  pg_wf s' d /\ grows s s' /\
  forall a, is_u32 a -> mmu s' d a =
    if decide (q <= a / 4096 < q + n) then Some (f * 4096 + (a - q * 4096), Z.lor (convert_paging_types type) PAGE_PRESENT) else mmu s d a.

Lemma page_provide_ok fuel s d f start finish n type : pg_wf s d -> is_u32 start -> 524288 <= start / 4096 <= 1040384 ->
  0 <= n -> (finish + 4095) / 4096 + n <= 1040384 -> (Z.to_nat ((finish + 4095) / 4096 - start / 4096) < fuel)%nat ->
  0 <= f < 1048576 -> f + n <= 1048576 -> n < s_freePages (phys s) -> exists r s', page_provide fuel d (f * 4096) start finish n type s = Ok (r, s') /\
  ((exists q, r = q * 4096 /\ start / 4096 <= q /\ r < finish /\ free_run s d q n /\ provided s s' d f q n type) \/
   (r = 0 /\ s' = s /\ forall k, start / 4096 <= k -> k * 4096 < finish -> ~ free_run s d k n)).
Proof.
  intros Hwf Hs Hc Hn Hfin Hf Hf0 Hfn Hfree. unfold page_provide.
  destruct (find_free_loop_ok fuel s d (start / 4096) finish n Hwf) as (r & E & Hr); try lia.
  assert (page_find_free fuel d start finish n s = Ok (r, s)) as Ef by (unfold page_find_free; by rewrite page_base_div).
  rewrite run_bind, Ef. destruct Hr as [(q & -> & Hq & Hqf & Hfr & Hfirst)|[-> Hnone]].
  - destruct (Z.eqb_spec (q * 4096) 0) as [|_]; [lia |]. rewrite run_bind.
    assert (s32 n = n) as -> by (apply s32_small; unfold is_s32; lia).
    assert (q * 4096 < finish -> q + n <= 1040384) as Hend.
    { intros _. pose proof (Z.div_mod (finish + 4095) 4096 ltac:(lia)). pose proof (Z.mod_pos_bound (finish + 4095) 4096 ltac:(lia)). lia. }
    specialize (Hend Hqf). destruct (page_direct_map_ok s d q f n type Hwf) as (s' & -> & Hwf' & G & Hm & _); try lia; [unfold user_pages; lia |].
    exists (q * 4096), s'. split; [done |]. left. exists q. split_and!; try done. split; [done |]. split; [done |].
    intros a Ha. rewrite Hm by done. pose proof (Z.div_mod a 4096 ltac:(lia)). pose proof (Z.mod_pos_bound a 4096 ltac:(lia)).
    repeat case_decide; (lia || done).
  - exists 0, s. split; [done |]. by right.
Qed.
