(* ===== verification/Ualloc.v ===== *)
(** The memory of processes (ualloc.c): each process has a list of the regions that
    were allocated or mapped for it.  The operations work on the list, on the
    page directory of the process and on physical memory. *)
From S2P Require Import Prelude Mm Dll PhysMem Paging.

(** err.h, ualloc.h and threads.h *)
Definition SMK_OK : Z := 0.
Definition SMK_NOMEM : Z := -2.
Definition SMK_NOT_FOUND : Z := -14.
Definition SMK_REQUESTED_NOTHING : Z := -15.
Definition SMK_NOT_ALIGNED : Z := -16.
Definition UALLOC_NORELEASE : Z := 1.
Definition uK_BASE : Z := 2147483648.
Definition uK_CEILING : Z := 4194304000.

(** The fields of [struct allocated_memory] besides its links. *)
Record region := Region { r_pages : Z; r_flags : Z; r_phys : Z; r_virt : Z; r_shared : Z; r_parent : Z }.

(** [struct allocated_memory] *)
Record allocated_memory := AllocatedMemory { am_region : region; am_next : Z; am_prev : Z }.

Definition set_am_prev (v : Z) (x : allocated_memory) := AllocatedMemory (am_region x) (am_next x) v.
Definition set_am_next (v : Z) (x : allocated_memory) := AllocatedMemory (am_region x) v (am_prev x).
Definition orphan (x : allocated_memory) :=
  let r := am_region x in AllocatedMemory (Region (r_pages r) (r_flags r) (r_phys r) (r_virt r) (r_shared r) NULL) (am_next x) (am_prev x).

#[export] Instance am_node : DNode region allocated_memory := {
  mk_node p n r := AllocatedMemory r n p;
  with_prev := set_am_prev;
  with_next := set_am_next;
  with_prev_mk _ _ _ _ := eq_refl;
  with_next_mk _ _ _ _ := eq_refl;
}.

(** The fields of [struct process]: its page directory and its regions. *)
Record uproc := UProc { up_map : Z; up_alloc : Z }.

Record ustate (A : Type) := UState { uprocs : gmap Z uproc; allocs : gmap Z allocated_memory; umem : A; upg : paging }.
Arguments UState {A} _ _ _ _.
Arguments uprocs {A} _.
Arguments allocs {A} _.
Arguments umem {A} _.
Arguments upg {A} _.

Section ualloc.
Context {A : Type} `{MmSubsystem A}.
Abbreviation K := (M (ustate A)).

Definition set_uprocs v (s : ustate A) := UState v (allocs s) (umem s) (upg s).
Definition set_allocs v (s : ustate A) := UState (uprocs s) v (umem s) (upg s).
Definition set_umem (v : A) (s : ustate A) := UState (uprocs s) (allocs s) v (upg s).
Definition set_upg v (s : ustate A) := UState (uprocs s) (allocs s) (umem s) v.

Definition on_paging {B} (m : M paging B) : K B :=
  fun s => match m (upg s) with Ok (b, p) => Ok (b, set_upg p s) | Halt f => Halt f end.
Definition uproc_of (proc : Z) : K uproc := s ← getS; liftO (hload (uprocs s) proc).
Definition set_alloc (proc v : Z) : K unit :=
  s ← getS; h ← liftO (hupd (uprocs s) proc (fun p => UProc (up_map p) v)); modifyS (set_uprocs h).
Definition am_get (a : Z) : K allocated_memory := s ← getS; liftO (hload (allocs s) a).
Definition am_upd (a : Z) (f : allocated_memory -> allocated_memory) : K unit :=
  s ← getS; h ← liftO (hupd (allocs s) a f); modifyS (set_allocs h).

Definition ua_pages (pages : Z) : K Z :=
  on_paging (s ← getS; '(ptr, m) ← liftO (memory_alloc pages (phys s)); modifyS (set_phys m) ;; mret ptr).
Definition ua_release (pages position : Z) : K unit :=
  on_paging (s ← getS; m ← liftO (memory_free pages position (phys s)); modifyS (set_phys m)).
Definition ua_malloc (n : Z) : K Z := s ← getS; let '(p, a) := kmalloc n (umem s) in modifyS (set_umem a) ;; mret p.
Definition ua_free (p : Z) : K unit :=
  s ← getS; a ← liftO (kfree p (umem s)); modifyS (set_umem a) ;; modifyS (fun s => set_allocs (base.delete p (allocs s)) s).

(** The new region in front of the list. *)
Definition push_region (proc mem : Z) (r : region) : K unit :=
  if mem =? NULL then liftO (Halt NullDeref)
  else
    p ← uproc_of proc;
    modifyS (fun s => set_allocs (<[mem := AllocatedMemory r (up_alloc p) NULL]> (allocs s)) s) ;;
    set_alloc proc mem ;;
    if negb (up_alloc p =? NULL) then am_upd (up_alloc p) (set_am_prev mem) else mret tt.

(** [user_alloc]; [ptr] is what the pointer of the caller points to, [fuel] bounds
    the search for free addresses. *)
Definition user_alloc (fuel : nat) (proc pages ptr : Z) : K (Z * Z) :=
  if pages =? 0 then mret (SMK_REQUESTED_NOTHING, ptr)
  else
    location ← ua_pages pages;
    if location =? NULL then mret (SMK_NOMEM, ptr)
    else
      mem ← ua_malloc 32;
      if mem =? NULL then ua_release pages location ;; mret (SMK_NOMEM, ptr)
      else
        p ← uproc_of proc;
        found ← on_paging (page_provide fuel (up_map p) location uK_BASE uK_CEILING pages (Z.lor USER_PAGE READ_WRITE));
        if found =? 0 then ua_release pages location ;; ua_free mem ;; mret (SMK_NOMEM, ptr)
        else
          push_region proc mem (Region pages 0 location found 0 proc) ;;
          mret (SMK_OK, location).

(** [user_alloc_hard]; an unsigned number is never negative. *)
Definition user_alloc_hard (proc virtual pages : Z) : K Z :=
  massert (negb (pages =? 0)) ;;
  location ← ua_pages pages;
  if location =? NULL then mret SMK_NOMEM
  else
    mem ← ua_malloc 32;
    if mem =? NULL then ua_release pages location ;; mret SMK_NOMEM
    else
      p ← uproc_of proc;
      n ← on_paging (page_ensure (up_map p) virtual pages (Z.lor USER_PAGE READ_WRITE));
      let found := u32 n in
      if found <? 0 then ua_release pages location ;; ua_free mem ;; mret SMK_NOMEM
      else
        massert (found =? 0) ;;
        push_region proc mem (Region pages 0 location found 0 proc) ;;
        mret SMK_OK.

(** The walk for the region at an address. *)
Fixpoint region_at (fuel : nat) (mem ptr : Z) : K Z :=
  match fuel with
  | O => liftO (Halt Spin)
  | S fuel =>
      if mem =? NULL then mret NULL
      else
        x ← am_get mem;
        if r_virt (am_region x) =? ptr then mret mem else region_at fuel (am_next x) ptr
  end.
Definition find_region (proc ptr : Z) : K Z := p ← uproc_of proc; s ← getS; region_at (S (base.size (allocs s))) (up_alloc p) ptr.

Definition user_free (proc ptr : Z) : K Z :=
  mem ← find_region proc ptr;
  if mem =? NULL then mret SMK_NOT_FOUND
  else
    p ← uproc_of proc;
    x ← am_get mem;
    (if up_alloc p =? mem then set_alloc proc (am_next x) else mret tt) ;;
    (if negb (am_next x =? NULL) then am_upd (am_next x) (set_am_prev (am_prev x)) else mret tt) ;;
    (if negb (am_prev x =? NULL) then am_upd (am_prev x) (set_am_next (am_next x)) else mret tt) ;;
    am_upd mem orphan ;;
    let r := am_region x in
    let release_mem := if 0 <? r_shared r then 0 else 1 in
    let release_mem := if negb (Z.land (r_flags r) UALLOC_NORELEASE =? 0) then 0 else release_mem in
    (if release_mem =? 1 then ua_release (r_pages r) (r_phys r) else mret tt) ;;
    p ← uproc_of proc;
    on_paging (page_release (up_map p) (r_virt r) (s32 (r_pages r))) ;;
    (if release_mem =? 1 then ua_free mem else mret tt) ;;
    mret SMK_OK.

(** [user_size] and [user_location]; [out] is what the pointer points to. *)
Definition user_size (proc ptr out : Z) : K (Z * Z) :=
  mem ← find_region proc ptr;
  if mem =? NULL then mret (SMK_NOT_FOUND, out)
  else x ← am_get mem; mret (SMK_OK, u32 (r_pages (am_region x) * PAGE_SIZE)).

Definition user_location (proc ptr out : Z) : K (Z * Z) :=
  mem ← find_region proc ptr;
  if mem =? NULL then mret (SMK_NOT_FOUND, out)
  else x ← am_get mem; mret (SMK_OK, r_phys (am_region x)).

Definition user_map (fuel : nat) (proc ptr pages virtptr : Z) : K (Z * Z) :=
  if pages =? 0 then mret (SMK_REQUESTED_NOTHING, virtptr)
  else if negb (Z.land ptr (PAGE_SIZE - 1) =? 0) then mret (SMK_NOT_ALIGNED, virtptr)
  else
    p ← uproc_of proc;
    found ← on_paging (page_provide fuel (up_map p) ptr uK_BASE uK_CEILING pages (Z.lor USER_PAGE READ_WRITE));
    (if negb (found =? 0) then
       mem ← ua_malloc 32;
       push_region proc mem (Region pages UALLOC_NORELEASE ptr found 0 proc)
     else mret tt) ;;
    mret (SMK_OK, found).

(** The loop of [user_release_all]; [fuel] bounds the regions. *)
Fixpoint release_all_loop (fuel : nat) (proc : Z) : K unit :=
  match fuel with
  | O => liftO (Halt Spin)
  | S fuel =>
      p ← uproc_of proc;
      if up_alloc p =? NULL then mret tt
      else x ← am_get (up_alloc p); user_free proc (r_virt (am_region x)) ;; release_all_loop fuel proc
  end.
Definition user_release_all (proc : Z) : K Z :=
  s ← getS;
  release_all_loop (S (base.size (allocs s))) proc ;;
  p ← uproc_of proc;
  massert (up_alloc p =? NULL) ;;
  mret 0.

(** The loop of [user_ensure]: the last result and [last_start]; it ends early
    when an allocation fails.  [fuel] bounds the pages. *)
Fixpoint user_ensure_loop (fuel : nat) (proc index end_ last_start : Z) : K (Z * Z) :=
  match fuel with
  | O => liftO (Halt Spin)
  | S fuel =>
      if negb (index <? end_) then mret (SMK_OK, last_start)
      else
        p ← uproc_of proc;
        present ← on_paging (page_present (up_map p) index);
        if negb (present =? 0) then user_ensure_loop fuel proc (u32 (index + PAGE_SIZE)) end_ last_start
        else
          rc ← (if negb (index =? last_start) then user_alloc_hard proc last_start (u32 (index - last_start) / PAGE_SIZE) else mret SMK_OK);
          if negb (rc =? SMK_OK) then mret (rc, last_start)
          else user_ensure_loop fuel proc (u32 (index + PAGE_SIZE)) end_ (u32 (index + PAGE_SIZE))
  end.

Definition user_ensure (fuel : nat) (proc ptr pages : Z) : K Z :=
  let end_ := u32 (ptr + u32 (pages * PAGE_SIZE)) in
  '(rc, last_start) ← user_ensure_loop fuel proc ptr end_ ptr;
  if negb (rc =? SMK_OK) then mret rc
  else if last_start <? end_ then user_alloc_hard proc last_start (u32 (end_ - last_start) / PAGE_SIZE)
  else mret SMK_OK.
End ualloc.
