(* ===== verification/UallocRep.v ===== *)
(** The regions of a process as a list: the invariant of the operations of
    [Ualloc], and the runs of their parts. *)
From S2P Require Import Prelude Mm Dll PhysMem Paging PagingRuns Ualloc.

Notation regions := (list (Z * region)).

(** Does [user_free] give the pages and the block back? *)
Definition releasable (r : region) : bool := negb (0 <? r_shared r) && (Z.land (r_flags r) UALLOC_NORELEASE =? 0).

(** The pages [b], ..., [b + n - 1] are in use, and none of them holds a table. *)
Definition owned_run (p : paging) (b n : Z) : Prop :=
  forall k, b <= k < b + n -> used (memory_bitmap (phys p)) k = true /\ tables p !! frame (phys p) k = None.

(** A region is a run of pages of the process's half, and a run of physical pages
    when those are the region's to give back. *)
Record region_in (p : paging) (r : region) : Prop := {
  ri_pages : 0 < r_pages r;
  ri_virt : exists q, r_virt r = q * 4096 /\ user_pages q (r_pages r);
  ri_phys : releasable r = true -> exists b, r_phys r = frame (phys p) b /\ 0 <= b /\ b + r_pages r <= memory_pages (phys p) /\ owned_run p b (r_pages r)
}.

Definition apart (r r' : region) : Prop :=
  r_phys r + r_pages r * PAGE_SIZE <= r_phys r' \/ r_phys r' + r_pages r' * PAGE_SIZE <= r_phys r.

Section rep.
Context {A : Type} `{MmLaws A}.
Implicit Types s : ustate A.

(** The regions [L] of the process; [fr] are the other live blocks. *)
Record ua_ok s (proc d : Z) (L : regions) (fr : gset Z) : Prop := {
  uo_proc : proc <> NULL /\ uprocs s !! proc = Some (UProc d (head_or NULL L));
  uo_seg : seg (allocs s) NULL L NULL;
  uo_nodup : NoDup L.*1 /\ NULL ∉ L.*1;
  uo_live : (forall u, u ∈ L.*1 -> u ∉ fr) /\ mm_live (umem s) = list_to_set L.*1 ∪ fr;
  uo_pg : pg_wf (upg s) d;
  uo_regions : forall u r, (u, r) ∈ L -> region_in (upg s) r;
  uo_apart : forall u r u' r', (u, r) ∈ L -> (u', r') ∈ L -> u <> u' -> releasable r = true -> releasable r' = true -> apart r r'
}.

(** ** Physical runs *)

(** The same pages in use. *)
Definition same_memory (m m' : physmem) : Prop :=
  memory_pages m' = memory_pages m /\ memory_offset m' = memory_offset m /\ s_freePages m' = s_freePages m /\
  forall k, 0 <= k -> used (memory_bitmap m') k = used (memory_bitmap m) k.

(** What [memory_alloc] and [memory_free] do to a run. *)
Record run_taken (p p' : paging) (b n : Z) : Prop := {
  rt_range : 0 <= b /\ b + n <= memory_pages (phys p);
  rt_free : forall k, b <= k < b + n -> used (memory_bitmap (phys p)) k = false;
  rt_own : owned_run p' b n;
  rt_other : forall k, 0 <= k -> ~ (b <= k < b + n) -> used (memory_bitmap (phys p')) k = used (memory_bitmap (phys p)) k;
  rt_count : s_freePages (phys p') = s_freePages (phys p) - n
}.

Lemma alloc_run_ok p d n : pg_wf p d -> 0 < n < two32 -> exists ptr m', memory_alloc n (phys p) = Ok (ptr, m') /\
  ((ptr = NULL /\ m' = phys p) \/
   exists b, ptr = frame (phys p) b /\ ptr <> NULL /\ pg_wf (set_phys m' p) d /\ grows p (set_phys m' p) /\ run_taken p (set_phys m' p) b n).
Proof.
  intros Hwf Hn. pose proof (wf_mem _ _ Hwf) as Hmem. pose proof Hmem as (Hpm & base & Ho & Hb1 & Hb2).
  destruct (memory_alloc_spec n (phys p) Hpm Hn) as (ptr & m' & E & Hwf' & [Ep Eo] & [(-> & -> & _)|(b & Hb & Hbp & -> & Hf & Hu & Hother & Hc)]).
  { exists NULL, (phys p). split; [done | by left]. }
  assert (forall k, 0 <= k -> used (memory_bitmap (phys p)) k = true -> used (memory_bitmap m') k = true) as Hmono.
  { intros k Hk Hku. destruct (decide (b <= k < b + n)) as [Hin|Hout]; [by apply Hu | by rewrite Hother]. }
  exists (u32 (b * PAGE_SIZE + memory_offset (phys p))), m'. split; [done |]. right. exists b.
  destruct (frame_page (phys p) b Hmem) as (k & Ek & Hk & Hku); [lia |]. unfold frame in Ek. unfold frame. rewrite Ek in *.
  rewrite u32_small by done. split; [done |]. split; [unfold NULL; lia |]. split; [|split; [by split|]].
  - destruct Hwf as [W1 W2 W3 W4 W5]. split; try done.
    + split; [done |]. exists base. cbn. rewrite Eo, Ep. done.
    + intros q Hq Hqf. cbn in *. rewrite Eo. rewrite Ep in Hq. apply W2; [done |].
      destruct (used (memory_bitmap (phys p)) q) eqn:Eq; [|done]. rewrite Hmono in Hqf by (lia || done). done.
  - split; try done. intros j Hj. split; [by apply Hu |]. cbn. unfold frame. rewrite Eo. apply (wf_used _ _ Hwf); [lia | by apply Hf].
Qed.

Lemma free_run_ok p d b n : pg_wf p d -> 0 <= b -> 0 < n -> b + n <= memory_pages (phys p) -> owned_run p b n -> exists m',
  memory_free n (frame (phys p) b) (phys p) = Ok m' /\ pg_wf (set_phys m' p) d /\
  memory_pages m' = memory_pages (phys p) /\ memory_offset m' = memory_offset (phys p) /\ s_freePages m' = s_freePages (phys p) + n /\
  forall k, 0 <= k -> used (memory_bitmap m') k = if decide (b <= k < b + n) then false else used (memory_bitmap (phys p)) k.
Proof.
  intros Hwf Hb Hn Hbn Hown. pose proof (wf_mem _ _ Hwf) as Hmem. pose proof Hmem as (Hpm & base & Ho & Hb1 & Hb2).
  destruct (memory_free_spec n b (phys p) Hpm Hb Hn Hbn) as [Hf _]. destruct Hf as (m' & E & Hwf' & Hr & Hother & Hc & Ep & Eo).
  { intros k Hk. by apply Hown. }
  assert (forall k, 0 <= k -> used (memory_bitmap m') k = if decide (b <= k < b + n) then false else used (memory_bitmap (phys p)) k) as Hused.
  { intros k Hk. case_decide; [by apply Hr | by apply Hother]. }
  exists m'. destruct (frame_page (phys p) b Hmem) as (k & Ek & Hk & Hku); [lia |]. unfold frame in *. rewrite Ek in *. rewrite u32_small in E by done.
  split; [done |]. split; [|by split_and!]. destruct Hwf as [W1 W2 W3 W4 W5]. split; try done.
  - split; [done |]. exists base. cbn. rewrite Eo, Ep. done.
  - intros q Hq Hqf. cbn in *. rewrite Eo. rewrite Ep in Hq. rewrite Hused in Hqf by lia. case_decide as Hd; [apply Hown; lia | by apply W2].
Qed.

(** A region stays what it is when the paging state grows, and when a run apart
    from it is freed or a mapping is taken away. *)
Lemma region_grows p p' r : grows p p' -> region_in p r -> region_in p' r.
Proof.
  intros [G1 G2 G3 G4 _ _] [X1 X2 X3]. split; [done | done |]. intros Hr. destruct (X3 Hr) as (b & Eb & Hb & Hbp & Hown). exists b.
  unfold frame in *. rewrite G1, G2. split_and!; try done. intros k Hk. destruct (Hown k Hk) as [Hu Ht]. unfold frame in *. rewrite G2.
  split; [apply G3; [lia | done] | apply G4; [lia | done | done]].
Qed.

Lemma region_freed p m' b n r : region_in p r -> memory_pages m' = memory_pages (phys p) -> memory_offset m' = memory_offset (phys p) ->
  (forall k, 0 <= k -> used (memory_bitmap m') k = if decide (b <= k < b + n) then false else used (memory_bitmap (phys p)) k) ->
  (releasable r = true -> r_phys r + r_pages r * PAGE_SIZE <= frame (phys p) b \/ frame (phys p) b + n * PAGE_SIZE <= r_phys r) ->
  region_in (set_phys m' p) r.
Proof.
  intros [X1 X2 X3] Ep Eo Hu Hap. split; [done | done |]. intros Hr. destruct (X3 Hr) as (c & Ec & Hc & Hcp & Hown). specialize (Hap Hr). rewrite Ec in Hap.
  exists c. cbn. unfold frame in *. rewrite Eo, Ep. split_and!; try done. intros k Hk. destruct (Hown k Hk) as [Hku Hkt]. cbn. unfold frame in *. rewrite Eo. split; [|done].
  rewrite Hu by lia. rewrite decide_False; [done |]. unfold PAGE_SIZE in Hap. lia.
Qed.

Lemma region_released p p' d q n r : released p p' d q n -> region_in p r -> region_in p' r.
Proof.
  intros (_ & Ep & _ & _ & Ht & _) [X1 X2 X3]. split; [done | done |]. intros Hr. destruct (X3 Hr) as (b & Eb & Hb & Hbp & Hown).
  exists b. unfold owned_run. rewrite Ep. split_and!; try done. intros k Hk. destruct (Hown k Hk) as [Hu Hkt]. split; [done | by apply Ht].
Qed.

(** ** The list *)

Fixpoint addr_of (ptr : Z) (L : regions) : Z :=
  match L with [] => NULL | (u, r) :: L => if r_virt r =? ptr then u else addr_of ptr L end.

Lemma addr_of_at ptr L1 u r L2 : (forall v r', (v, r') ∈ L1 -> r_virt r' <> ptr) -> r_virt r = ptr -> addr_of ptr (L1 ++ (u, r) :: L2) = u.
Proof.
  intros Hno Hr. induction L1 as [|[v r'] L1 IH]; simpl; [by rewrite Hr, Z.eqb_refl |].
  destruct (Z.eqb_spec (r_virt r') ptr) as [E|_]; [destruct (Hno v r'); [by apply elem_of_cons; left | done] |].
  apply IH. intros w x Hin. apply (Hno w). by apply elem_of_cons; right.
Qed.

Lemma addr_of_none ptr L : (forall v r', (v, r') ∈ L -> r_virt r' <> ptr) -> addr_of ptr L = NULL.
Proof.
  intros Hno. induction L as [|[v r'] L IH]; simpl; [done |].
  destruct (Z.eqb_spec (r_virt r') ptr) as [E|_]; [destruct (Hno v r'); [by apply elem_of_cons; left | done] |].
  apply IH. intros w x Hin. apply (Hno w). by apply elem_of_cons; right.
Qed.

Lemma seg_size (h : gmap Z allocated_memory) p (L : regions) n : seg h p L n -> NoDup L.*1 -> (length L <= base.size h)%nat.
Proof.
  intros Hs Hnd. rewrite <- (length_fmap fst L), <- (size_dom h), <- (size_list_to_set L.*1 Hnd : base.size (list_to_set L.*1 : gset Z) = _).
  apply subseteq_size. intros a Ha%elem_of_list_to_set. apply elem_of_dom. by apply (seg_dom h p L n).
Qed.

Lemma region_at_ok fuel s L0 L ptr : seg (allocs s) NULL (L0 ++ L) NULL -> NULL ∉ (L0 ++ L).*1 -> (length L < fuel)%nat ->
  region_at fuel (head_or NULL L) ptr s = Ok (addr_of ptr L, s).
Proof.
  revert L0 L. induction fuel as [|fuel IH]; intros L0 L Hs Hn Hf; [lia |]. cbn [region_at]. destruct L as [|[u r] L]; [done |]. cbn [head_or addr_of].
  assert (u <> NULL) as Hu by (intros ->; apply Hn; rewrite fmap_app; apply elem_of_app; right; by apply elem_of_cons; left).
  destruct (Z.eqb_spec u NULL) as [|_]; [done |]. unfold am_get. mrun. rewrite (hload_Some _ _ _ Hu (seg_lookup _ _ _ _ _ _ _ Hs)). mrun.
  cbn [mk_node am_node am_region am_next]. destruct (r_virt r =? ptr); [done |]. apply (IH (L0 ++ [(u, r)])).
  - by rewrite <- app_assoc.
  - by rewrite <- app_assoc.
  - simpl in Hf. lia.
Qed.

Lemma uproc_of_ok s proc x : proc <> NULL -> uprocs s !! proc = Some x -> uproc_of proc s = Ok (x, s).
Proof. intros Hp Hx. unfold uproc_of. mrun. by rewrite (hload_Some _ _ _ Hp Hx). Qed.

Lemma am_get_ok s a x : a <> NULL -> allocs s !! a = Some x -> am_get a s = Ok (x, s).
Proof. intros Ha Hx. unfold am_get. mrun. by rewrite (hload_Some _ _ _ Ha Hx). Qed.

Lemma find_region_ok s proc d L fr ptr : ua_ok s proc d L fr -> find_region proc ptr s = Ok (addr_of ptr L, s).
Proof.
  intros [[Hp Hx] Hs [Hnd Hn] _ _ _ _]. unfold find_region. rewrite run_bind, (uproc_of_ok _ _ _ Hp Hx). mrun.
  apply (region_at_ok _ _ []); [done | done |]. pose proof (seg_size _ _ _ _ Hs Hnd). lia.
Qed.

(** A guarded update of a neighbour. *)
Lemma am_upd_next s n v : n = NULL \/ is_Some (allocs s !! n) ->
  (if negb (n =? NULL) then am_upd n (set_am_next v) else mret tt) s = Ok (tt, set_allocs (link_next n v (allocs s)) s).
Proof.
  intros Hn. unfold link_next. destruct (Z.eqb_spec n NULL) as [->|Hne]; cbn [negb]; [by destruct s |].
  destruct Hn as [?|[x Hx]]; [done |]. unfold am_upd. mrun. by rewrite (hupd_Some _ _ _ _ Hne Hx), (alter_insert_of_Some _ _ _ _ Hx).
Qed.
Lemma am_upd_prev s n v : n = NULL \/ is_Some (allocs s !! n) ->
  (if negb (n =? NULL) then am_upd n (set_am_prev v) else mret tt) s = Ok (tt, set_allocs (link_prev n v (allocs s)) s).
Proof.
  intros Hn. unfold link_prev. destruct (Z.eqb_spec n NULL) as [->|Hne]; cbn [negb]; [by destruct s |].
  destruct Hn as [?|[x Hx]]; [done |]. unfold am_upd. mrun. by rewrite (hupd_Some _ _ _ _ Hne Hx), (alter_insert_of_Some _ _ _ _ Hx).
Qed.

Lemma set_alloc_ok s proc d v w : proc <> NULL -> uprocs s !! proc = Some (UProc d v) -> set_alloc proc w s = Ok (tt, set_uprocs (<[proc := UProc d w]> (uprocs s)) s).
Proof. intros Hp Hx. unfold set_alloc. mrun. by rewrite (hupd_Some _ _ _ _ Hp Hx). Qed.

(** [push_region] *)
Lemma push_region_ok s proc d L u r : proc <> NULL -> uprocs s !! proc = Some (UProc d (head_or NULL L)) -> seg (allocs s) NULL L NULL ->
  NoDup L.*1 -> NULL ∉ L.*1 -> u <> NULL -> u ∉ L.*1 -> exists h, seg h NULL ((u, r) :: L) NULL /\
  push_region proc u r s = Ok (tt, UState (<[proc := UProc d u]> (uprocs s)) h (umem s) (upg s)).
Proof.
  intros Hp Hx Hs Hnd Hn Hu HuL. exists (link_prev (head_or NULL L) u (<[u := AllocatedMemory r (head_or NULL L) NULL]> (allocs s))). split.
  - pose proof (dll_insert (allocs s) [] L u r Hs Hnd Hn HuL) as Hi. unfold splice in Hi. cbn [app last_or last head_or] in Hi.
    replace (link_prev (head_or NULL L) u (<[u := AllocatedMemory r (head_or NULL L) NULL]> (allocs s))) with
      (<[u := mk_node NULL (head_or NULL L) r]> (link_prev (head_or NULL L) u (link_next NULL u (allocs s)))); [exact Hi |].
    cbn [mk_node am_node]. change (link_next NULL u (allocs s)) with (allocs s). unfold link_prev.
    destruct (Z.eqb_spec (head_or NULL L) NULL); [done |]. apply map_eq. intros b.
    assert (head_or NULL L <> u) as Hh by by apply head_or_notin.
    destruct (decide (b = u)) as [->|]; [by rewrite lookup_insert_eq, lookup_alter_ne, lookup_insert_eq |]. rewrite lookup_insert_ne by done.
    destruct (decide (b = head_or NULL L)) as [->|]; [by rewrite !lookup_alter_eq, lookup_insert_ne | by rewrite !lookup_alter_ne, lookup_insert_ne].
  - unfold push_region. destruct (Z.eqb_spec u NULL) as [|_]; [done |]. rewrite run_bind, (uproc_of_ok _ _ _ Hp Hx). mrun.
    cbn [up_alloc]. set (s1 := set_allocs _ s). rewrite (set_alloc_ok s1 _ d (head_or NULL L) u Hp Hx).
    set (s2 := set_uprocs _ s1). rewrite (am_upd_prev s2); [done |]. destruct L as [|[v r'] L]; [by left | right].
    cbn [head_or s2 s1 set_uprocs set_allocs allocs]. apply lookup_insert_is_Some'. right. apply (seg_dom _ _ _ _ v Hs). by apply elem_of_cons; left.
Qed.

(** The steps of [user_free] that take a region out of the list. *)
Definition unlink (proc mem : Z) (p : uproc) (x : allocated_memory) : M (ustate A) unit :=
  (if up_alloc p =? mem then set_alloc proc (am_next x) else mret tt) ;;
  (if negb (am_next x =? NULL) then am_upd (am_next x) (set_am_prev (am_prev x)) else mret tt) ;;
  (if negb (am_prev x =? NULL) then am_upd (am_prev x) (set_am_next (am_next x)) else mret tt) ;;
  am_upd mem orphan.

Lemma unlink_ok s proc d L1 u r L2 : proc <> NULL -> uprocs s !! proc = Some (UProc d (head_or NULL (L1 ++ (u, r) :: L2))) ->
  seg (allocs s) NULL (L1 ++ (u, r) :: L2) NULL -> NoDup (L1 ++ (u, r) :: L2).*1 -> NULL ∉ (L1 ++ (u, r) :: L2).*1 -> exists h,
  unlink proc u (UProc d (head_or NULL (L1 ++ (u, r) :: L2))) (AllocatedMemory r (head_or NULL L2) (last_or NULL L1)) s =
    Ok (tt, UState (<[proc := UProc d (head_or NULL (L1 ++ L2))]> (uprocs s)) h (umem s) (upg s)) /\
  seg h NULL (L1 ++ L2) NULL /\ is_Some (h !! u).
Proof.
  intros Hp Hx Hs Hnd Hn.
  assert (NoDup (L1 ++ L2).*1 /\ NULL ∉ (L1 ++ L2).*1 /\ u ∉ (L1 ++ L2).*1 /\ u <> NULL) as (N1 & N2 & N3 & N4).
  { rewrite fmap_app, fmap_cons in Hnd, Hn. rewrite fmap_app. cbn [fst] in *. apply NoDup_app in Hnd as (M1 & M2 & [M3 M4]%NoDup_cons).
    rewrite elem_of_app, elem_of_cons in Hn. rewrite !elem_of_app. split_and!; [apply NoDup_app; split_and!; try done | tauto | | intros ->; tauto].
    - intros b Hb Hb2. apply (M2 b Hb). by apply elem_of_cons; right.
    - intros [Hb|Hb]; [apply (M2 u Hb); by apply elem_of_cons; left | done]. }
  destruct (seg_split_parts L1 L2 N1 N2) as (_ & _ & _ & _ & D1 & D2). rewrite fmap_app, not_elem_of_app in N3. destruct N3 as [N3 N3'].
  assert (head_or NULL L2 <> u /\ last_or NULL L1 <> u) as [Hhu Hlu] by (split; [apply head_or_notin | apply last_or_notin]; done).
  assert (last_or NULL L1 <> head_or NULL L2 \/ last_or NULL L1 = NULL) as Hlh.
  { destruct (last_or_in NULL L1) as [?|Hin]; [by right | left]. by apply D1. }
  assert (head_or NULL L2 = NULL \/ is_Some (allocs s !! head_or NULL L2)) as Hh.
  { destruct (head_or_in NULL L2) as [?|Hin]; [by left | right]. apply (seg_dom _ _ _ _ _ Hs). rewrite fmap_app. apply elem_of_app. right. by apply elem_of_cons; right. }
  assert (last_or NULL L1 = NULL \/ is_Some (allocs s !! last_or NULL L1)) as Hl.
  { destruct (last_or_in NULL L1) as [?|Hin]; [by left | right]. apply (seg_dom _ _ _ _ _ Hs). rewrite fmap_app. apply elem_of_app. by left. }
  set (h := splice (head_or NULL L2) (last_or NULL L1) L1 L2 (allocs s)).
  assert (h !! u = Some (AllocatedMemory r (head_or NULL L2) (last_or NULL L1))) as Hu.
  { unfold h. rewrite splice_ne by congruence. exact (seg_lookup _ _ _ _ _ _ _ Hs). }
  exists (<[u := orphan (AllocatedMemory r (head_or NULL L2) (last_or NULL L1))]> h). split_and!.
  - unfold unlink. cbn [up_alloc am_next am_prev]. rewrite run_bind.
    assert ((if head_or NULL (L1 ++ (u, r) :: L2) =? u then set_alloc proc (head_or NULL L2) else mret tt) s =
      Ok (tt, set_uprocs (<[proc := UProc d (head_or NULL (L1 ++ L2))]> (uprocs s)) s)) as ->.
    { destruct L1 as [|[v r'] L1]; cbn [app head_or]; [rewrite Z.eqb_refl; by apply (set_alloc_ok s proc d u) |].
      destruct (Z.eqb_spec v u) as [->|_]; [destruct N3; by apply elem_of_cons; left |]. rewrite insert_id by done. by destruct s. }
    set (s1 := set_uprocs _ s). rewrite run_bind, (am_upd_prev s1 _ _ Hh), run_bind. set (s2 := set_allocs _ s1).
    rewrite (am_upd_next s2); [|destruct Hl as [?|Hl]; [by left | right; by apply link_prev_some]].
    cbn [s2 s1 set_allocs set_uprocs allocs]. rewrite link_comm by done. fold (splice (head_or NULL L2) (last_or NULL L1) L1 L2 (allocs s)). fold h.
    unfold am_upd. mrun. cbn [set_allocs allocs]. rewrite (hupd_Some _ _ _ _ N4 Hu). mrun. done.
  - eapply seg_frame; [|exact (dll_remove _ _ _ _ _ Hs N1 N2)]. intros b Hb. apply lookup_insert_ne. intros <-. rewrite fmap_app in Hb. by apply elem_of_app in Hb as [?|?].
  - rewrite lookup_insert_eq. by eexists.
Qed.
End rep.
