(* ===== verification/UallocOps.v ===== *)
(** What the operations of [Ualloc] do to the regions of a process. *)
From S2P Require Import Prelude Mm Dll PhysMem Paging PagingRuns Ualloc UallocRep.

Section ops.
Context {A : Type} `{MmLaws A}.
Implicit Types s : ustate A.

(** * Giving a region back *)

(** The physical pages of a region that are given back. *)
Definition pages_back (p p' : paging) (r : region) : Prop :=
  if releasable r then exists b, r_phys r = frame (phys p) b /\ s_freePages (phys p') = s_freePages (phys p) + r_pages r /\
    forall k, 0 <= k -> used (memory_bitmap (phys p')) k = if decide (b <= k < b + r_pages r) then false else used (memory_bitmap (phys p)) k
  else phys p' = phys p.

(** The paging state without the region. *)
Definition region_gone (p p' : paging) d (r : region) : Prop :=
  pages_back p p' r /\ bytes p' = bytes p /\ cr3 p' = cr3 p /\
  forall a, is_u32 a -> mmu p' d a = if decide (r_virt r <= a < r_virt r + r_pages r * 4096) then None else mmu p d a.

Lemma give_back_ok p d r : pg_wf p d -> region_in p r -> exists m1 p',
  (if releasable r then memory_free (r_pages r) (r_phys r) (phys p) = Ok m1 else m1 = phys p) /\
  page_release d (r_virt r) (s32 (r_pages r)) (set_phys m1 p) = Ok (0, p') /\ pg_wf p' d /\ region_gone p p' d r /\
  forall r', region_in p r' -> (releasable r = true -> releasable r' = true -> apart r r') -> region_in p' r'.
Proof.
  intros Hwf Hr. pose proof Hr as [X1 (q & Eq & Hup) X3]. pose proof Hup as (U1 & U2 & U3).
  assert (s32 (r_pages r) = r_pages r) as -> by (apply s32_small; unfold is_s32; lia). rewrite Eq.
  assert (exists m1, (if releasable r then memory_free (r_pages r) (r_phys r) (phys p) = Ok m1 else m1 = phys p) /\ pg_wf (set_phys m1 p) d /\
    pages_back p (set_phys m1 p) r /\ (forall r', region_in p r' -> (releasable r = true -> releasable r' = true -> apart r r') -> region_in (set_phys m1 p) r'))
    as (m1 & E1 & Hwf1 & Hback & Hkeep).
  { unfold pages_back. destruct (releasable r) eqn:Er.
    - destruct (X3 eq_refl) as (b & Eb & Hb & Hbp & Hown). destruct (free_run_ok p d b (r_pages r) Hwf Hb X1 Hbp Hown) as (m1 & E1 & Hwf1 & Ep & Eo & Ec & Hu).
      exists m1. rewrite Eb. split_and!; try done; [by exists b |]. intros r' Hr' Hap. apply (region_freed p m1 b (r_pages r)); try done. intros Hrel.
      specialize (Hap eq_refl Hrel). unfold apart in Hap. rewrite Eb in Hap. tauto.
    - exists (phys p). assert (set_phys (phys p) p = p) as -> by by destruct p. by split_and!. }
  destruct (page_release_ok (set_phys m1 p) d q (r_pages r) Hwf1 Hup) as (p' & E2 & Hrel). exists m1, p'. split; [done |]. split; [done |].
  split; [apply Hrel |]. pose proof Hrel as (_ & Ep & Ec & Eby & _ & Hm). split.
  - split; [unfold pages_back in *; rewrite Ep; done |]. split_and!; [by rewrite Eby | by rewrite Ec |]. intros a Ha. rewrite Hm by done. rewrite Eq.
    pose proof (Z.div_mod a 4096 ltac:(lia)). pose proof (Z.mod_pos_bound a 4096 ltac:(lia)).
    change (mmu (set_phys m1 p) d a) with (mmu p d a). repeat case_decide; (lia || done).
  - intros r' Hr' Hap. apply (region_released (set_phys m1 p) p' d q (r_pages r)); [done |]. by apply Hkeep.
Qed.

(** What is left of the list after a region is taken out. *)
Lemma user_free_takes_out s proc d L1 u r L2 fr ptr : ua_ok s proc d (L1 ++ (u, r) :: L2) fr -> (forall v r', (v, r') ∈ L1 -> r_virt r' <> ptr) -> r_virt r = ptr ->
  exists s', user_free proc ptr s = Ok (SMK_OK, s') /\ ua_ok s' proc d (L1 ++ L2) (if releasable r then fr else {[u]} ∪ fr) /\
  region_gone (upg s) (upg s') d r.
Proof.
  intros Hok Hno Hptr. pose proof Hok as [[Hp Hx] Hs [Hnd Hn] [Hfr Hlive] Hwf Hreg Hap].
  assert (u ∈ (L1 ++ (u, r) :: L2).*1) as HuL by (rewrite fmap_app; apply elem_of_app; right; by apply elem_of_cons; left).
  assert (u <> NULL) as Hu by by intros ->.
  assert ((u, r) ∈ L1 ++ (u, r) :: L2) as Hin by (apply elem_of_app; right; by apply elem_of_cons; left).
  destruct (unlink_ok s proc d L1 u r L2 Hp Hx Hs Hnd Hn) as (h & Eu & Hsh & Hhu).
  destruct (give_back_ok (upg s) d r Hwf (Hreg u r Hin)) as (m1 & p' & E1 & E2 & Hwf' & Hgone & Hkeep).
  assert (forall v x, (v, x) ∈ L1 ++ L2 -> (v, x) ∈ L1 ++ (u, r) :: L2 /\ v <> u) as Hsub.
  { intros v x Hv. split.
    - apply elem_of_app in Hv as [Hv|Hv]; apply elem_of_app; [by left | right; by apply elem_of_cons; right].
    - intros ->. rewrite fmap_app, fmap_cons in Hnd. apply NoDup_app in Hnd as (_ & M2 & [M3 _]%NoDup_cons). cbn [fst] in *.
      apply elem_of_app in Hv as [Hv|Hv]; [apply (M2 u) | apply M3]; [apply list_elem_of_fmap; by exists (u, x) | by apply elem_of_cons; left | apply list_elem_of_fmap; by exists (u, x)]. }
  set (s1 := UState (<[proc := UProc d (head_or NULL (L1 ++ L2))]> (uprocs s)) h (umem s) (upg s)) in *.
  assert (kfree u (umem s) = kfree u (umem s) /\ u ∈ mm_live (umem s)) as [_ Hul] by (split; [done |]; rewrite Hlive; apply elem_of_union; left; by apply elem_of_list_to_set).
  destruct (kfree_live u (umem s) Hul) as (a' & Ek & Hl').
  set (s' := if releasable r then UState (uprocs s1) (base.delete u h) a' p' else UState (uprocs s1) h (umem s) p').
  exists s'. split; [|split].
  - unfold user_free. rewrite run_bind, (find_region_ok s proc d _ fr ptr Hok), (addr_of_at ptr L1 u r L2 Hno Hptr).
    destruct (Z.eqb_spec u NULL) as [|_]; [done |]. rewrite run_bind, (uproc_of_ok _ _ _ Hp Hx), run_bind.
    rewrite (am_get_ok s u _ Hu (seg_lookup _ _ _ _ _ _ _ Hs)). cbn [mk_node am_node]. unfold unlink in Eu. revert Eu. rewrite !run_bind.
    match goal with |- match ?x with _ => _ end = _ -> _ => destruct x as [[[] t1]|]; [|done] end. rewrite !run_bind.
    match goal with |- match ?x with _ => _ end = _ -> _ => destruct x as [[[] t2]|]; [|done] end. rewrite !run_bind.
    match goal with |- match ?x with _ => _ end = _ -> _ => destruct x as [[[] t3]|]; [|done] end. intros Eu. rewrite run_bind, Eu. cbn [am_region]. cbn zeta.
    assert ((if negb (Z.land (r_flags r) UALLOC_NORELEASE =? 0) then 0 else if 0 <? r_shared r then 0 else 1) = if releasable r then 1 else 0) as ->.
    { unfold releasable. destruct (0 <? r_shared r), (Z.land (r_flags r) UALLOC_NORELEASE =? 0); done. }
    assert ((if (if releasable r then 1 else 0) =? 1 then ua_release (r_pages r) (r_phys r) else mret tt) s1 = Ok (tt, set_upg (set_phys m1 (upg s)) s1)) as Er.
    { destruct (releasable r); cbn [Z.eqb Pos.eqb].
      - unfold ua_release, on_paging. cbn [upg s1]. mrun. by rewrite E1.
      - subst m1. unfold mret. cbn. by destruct (upg s). }
    rewrite run_bind, Er, run_bind, (uproc_of_ok _ _ _ Hp (lookup_insert_eq _ _ _)), run_bind. unfold on_paging. cbn [upg set_upg up_map]. rewrite E2.
    unfold s'. destruct (releasable r); cbn [Z.eqb Pos.eqb]; [|done]. unfold ua_free. mrun. cbn [umem set_upg s1]. by rewrite Ek.
  - assert (uprocs s' = uprocs s1 /\ upg s' = p') as [Eup Epg] by (unfold s'; by destruct (releasable r)). split.
    + split; [done |]. rewrite Eup. apply lookup_insert_eq.
    + unfold s'. destruct (releasable r); [|done]. cbn [allocs]. eapply seg_frame; [|exact Hsh]. intros b Hb. apply lookup_delete_ne. intros <-.
      apply list_elem_of_fmap in Hb as ([v x] & -> & Hv). by destruct (Hsub v x Hv).
    + rewrite fmap_app in *. rewrite fmap_cons in *. apply NoDup_app in Hnd as (M1 & M2 & [M3 M4]%NoDup_cons). rewrite elem_of_app, elem_of_cons in Hn. cbn [fst] in *. split.
      * apply NoDup_app. split_and!; try done. intros b Hb Hb2. apply (M2 b Hb). by apply elem_of_cons; right.
      * rewrite elem_of_app. tauto.
    + assert (forall v, v ∈ (L1 ++ L2).*1 -> v ∈ (L1 ++ (u, r) :: L2).*1 /\ v <> u) as Hsub'.
      { intros v ([w x] & -> & Hv)%list_elem_of_fmap. destruct (Hsub w x Hv). split; [|done]. apply list_elem_of_fmap. by exists (w, x). }
      assert (list_to_set (L1 ++ (u, r) :: L2).*1 = ({[u]} ∪ list_to_set (L1 ++ L2).*1 : gset Z)) as El by (rewrite !fmap_app, fmap_cons, !list_to_set_app_L, list_to_set_cons; cbn [fst]; clear; set_solver).
      unfold s'. destruct (releasable r); cbn [umem].
      * split; [intros v Hv; by apply Hfr, Hsub' |]. rewrite Hl', Hlive, El. pose proof (Hfr u HuL) as Huf.
        assert (u ∉ (list_to_set (L1 ++ L2).*1 : gset Z)) as Hnl by (rewrite elem_of_list_to_set; intros Hv; by destruct (Hsub' u Hv)). clear -Huf Hnl. set_solver.
      * split; [|rewrite Hlive, El; clear; set_solver]. intros v Hv. destruct (Hsub' v Hv) as [Hv1 Hv2]. rewrite elem_of_union, elem_of_singleton. intros [?|Hf]; [done |]. by apply (Hfr v).
    + by rewrite Epg.
    + rewrite Epg. intros v x Hv. destruct (Hsub v x Hv) as [Hv1 Hv2]. apply Hkeep; [by apply (Hreg v) |]. intros R1 R2. by apply (Hap u r v x).
    + intros v x v' x' Hv Hv'. apply Hap; by apply Hsub.
  - unfold s'. by destruct (releasable r).
Qed.

(** A pointer that is no region's. *)
Lemma user_free_none s proc d L fr ptr : ua_ok s proc d L fr -> (forall v r', (v, r') ∈ L -> r_virt r' <> ptr) -> user_free proc ptr s = Ok (SMK_NOT_FOUND, s).
Proof. intros Hok Hno. unfold user_free. by rewrite run_bind, (find_region_ok s proc d L fr ptr Hok), (addr_of_none _ _ Hno). Qed.

(** * Allocating a region *)

Lemma taken_apart p p1 b n r : run_taken p p1 b n -> 0 < n -> region_in p r -> releasable r = true ->
  r_phys r + r_pages r * PAGE_SIZE <= frame (phys p) b \/ frame (phys p) b + n * PAGE_SIZE <= r_phys r.
Proof.
  intros [[Hb Hbn] Hfree _ _ _] Hn [X1 _ X3] Hr. destruct (X3 Hr) as (c & -> & Hc & Hcp & Hown). unfold frame, PAGE_SIZE.
  destruct (Z.le_gt_cases (c + r_pages r) b) as [?|H1]; [left; lia |]. destruct (Z.le_gt_cases (b + n) c) as [?|H2]; [right; lia |].
  destruct (Hown (Z.max b c)) as [Hu _]; [lia |]. rewrite Hfree in Hu by lia. done.
Qed.

(** A run that was taken and given back. *)
Lemma taken_undone p d p1 b n : pg_wf p d -> pg_wf p1 d -> grows p p1 -> tables p1 = tables p -> run_taken p p1 b n -> 0 < n -> exists m2,
  memory_free n (frame (phys p) b) (phys p1) = Ok m2 /\ pg_wf (set_phys m2 p1) d /\ same_memory (phys p) m2 /\
  forall r, region_in p r -> region_in (set_phys m2 p1) r.
Proof.
  intros Hwf Hwf1 G Et T Hn. pose proof T as [[Hb Hbn] Hfree Hown Hother Hc]. pose proof G as [G1 G2 _ _ _ _].
  destruct (free_run_ok p1 d b n Hwf1 Hb Hn) as (m2 & E & Hwf2 & Ep & Eo & Ec & Hu); [lia | done |].
  assert (frame (phys p1) b = frame (phys p) b) as Ef by (unfold frame; by rewrite G2). exists m2. rewrite <- Ef. split; [done |]. split; [done |]. split.
  - split; [congruence |]. split; [congruence |]. split; [lia |]. intros k Hk. rewrite Hu by done. case_decide as Hd; [by rewrite Hfree | by apply Hother].
  - intros r Hr. apply (region_freed p1 m2 b n); try done; [by apply (region_grows p) |]. intros Hrel. rewrite Ef. by apply (taken_apart p p1 b n r).
Qed.

(** The list and the blocks stay, and the regions stay what they are. *)
Lemma ua_ok_same s proc d L fr a p : ua_ok s proc d L fr -> mm_live a = mm_live (umem s) -> pg_wf p d -> (forall r, region_in (upg s) r -> region_in p r) ->
  ua_ok (UState (uprocs s) (allocs s) a p) proc d L fr.
Proof.
  intros [X1 X2 X3 [X4 X5] X6 X7 X8] Ha Hwf Hk. split; try done; [cbn; by rewrite Ha |]. intros u r Hin. apply Hk. by apply (X7 u).
Qed.

(** The new region, at page [q] of the process and block [b] of the memory. *)
Definition new_region (p : paging) proc pages b q : region := Region pages 0 (frame (phys p) b) (q * 4096) 0 proc.

Lemma ua_ok_push s proc d L fr a p1 p2 b q u h pages : ua_ok s proc d L fr -> run_taken (upg s) p1 b pages -> grows (upg s) p1 -> grows p1 p2 -> pg_wf p2 d ->
  0 < pages <= 16384 -> 524288 <= q -> q * 4096 < uK_CEILING -> u <> NULL -> u ∉ mm_live (umem s) -> mm_live a = {[u]} ∪ mm_live (umem s) ->
  seg h NULL ((u, new_region (upg s) proc pages b q) :: L) NULL ->
  ua_ok (UState (<[proc := UProc d u]> (uprocs s)) h a p2) proc d ((u, new_region (upg s) proc pages b q) :: L) fr.
Proof.
  intros [[X1 X1'] X2 [X3 X3'] [X4 X5] X6 X7 X8] T G1 G2 Hwf Hpg Hq Hqc Hu Hul Ha Hs. rewrite X5 in Hul. apply not_elem_of_union in Hul as [HuL Hufr].
  rewrite elem_of_list_to_set in HuL. pose proof (grows_trans _ _ _ G1 G2) as G. pose proof T as [[Hb Hbn] Hfree Hown _ _].
  assert (region_in p2 (new_region (upg s) proc pages b q)) as Hnew.
  { split; [cbn; lia | exists q; split; [done | unfold user_pages, uK_CEILING in *; cbn; lia] |]. intros _. exists b. destruct G as [E1 E2 _ _ _ _]. destruct G1 as [E3 E4 _ _ _ _].
    cbn. unfold frame. rewrite E1, E2. split_and!; try done. intros k Hk. destruct (Hown k Hk) as [Hku Hkt]. destruct G2 as [E5 E6 E7 E8 _ _].
    split; [apply E7; [lia | done] |]. unfold frame in *. rewrite E6. apply E8; [rewrite E3; lia | done | done]. }
  split.
  - split; [done | apply lookup_insert_eq].
  - done.
  - rewrite fmap_cons. cbn [fst]. split; [by apply NoDup_cons | by intros [?|?]%elem_of_cons].
  - rewrite fmap_cons. cbn [fst umem]. split; [by intros v [->|Hv]%elem_of_cons; [|apply X4] |]. rewrite Ha, X5, list_to_set_cons. clear. set_solver.
  - done.
  - intros v r [[= -> ->]|Hin]%elem_of_cons; [done |]. apply (region_grows (upg s)); [done | by apply (X7 v)].
  - intros v r v' r' [[= -> ->]|Hin]%elem_of_cons [[= -> ->]|Hin']%elem_of_cons Hne Hr Hr'; [done | | | by apply (X8 v r v' r')].
    + destruct (taken_apart (upg s) p1 b pages r' T ltac:(lia) (X7 _ _ Hin') Hr'); [by right | by left].
    + destruct (taken_apart (upg s) p1 b pages r T ltac:(lia) (X7 _ _ Hin) Hr); [by left | by right].
Qed.

(** The free addresses can be searched, and there are pages for the tables. *)
Definition roomy (fuel : nat) (p : paging) (pages : Z) : Prop := 0 < pages <= 16384 /\ 2 * pages < s_freePages (phys p) /\ 499712 < Z.of_nat fuel.

(** The flags of a region. *)
Definition ua_flags : Z := Z.lor (convert_paging_types (Z.lor USER_PAGE READ_WRITE)) PAGE_PRESENT.

(** What [page_provide] answers for a physical run, with a bound on its first page. *)
Lemma provide_ok fuel p d f pages : pg_wf p d -> 0 < pages <= 16384 -> pages < s_freePages (phys p) -> 499712 < Z.of_nat fuel ->
  0 <= f < 1048576 -> f + pages <= 1048576 -> exists found p2,
  page_provide fuel d (f * 4096) uK_BASE uK_CEILING pages (Z.lor USER_PAGE READ_WRITE) p = Ok (found, p2) /\
  ((exists q, found = q * 4096 /\ 524288 <= q /\ q * 4096 < uK_CEILING /\ free_run p d q pages /\ pg_wf p2 d /\ grows p p2 /\
      forall a, is_u32 a -> mmu p2 d a = if decide (q * 4096 <= a < (q + pages) * 4096) then Some (f * 4096 + (a - q * 4096), ua_flags) else mmu p d a) \/
   (found = 0 /\ p2 = p)).
Proof.
  intros Hwf Hpg Hfree Hfuel Hf Hfn.
  destruct (page_provide_ok fuel p d f uK_BASE uK_CEILING pages (Z.lor USER_PAGE READ_WRITE) Hwf) as (found & p2 & E & Hcase); try done; try lia.
  { change ((uK_CEILING + 4095) / 4096) with 1024000. lia. }
  { change ((uK_CEILING + 4095) / 4096) with 1024000. change (uK_BASE / 4096) with 524288. lia. }
  exists found, p2. split; [done |]. destruct Hcase as [(q & -> & Hq & Hqc & Hfr & Hwf2 & G & Hm)|(-> & -> & _)]; [left | by right].
  exists q. change (uK_BASE / 4096) with 524288 in Hq. split_and!; try done. intros a Ha. rewrite Hm by done.
  pose proof (Z.div_mod a 4096 ltac:(lia)). pose proof (Z.mod_pos_bound a 4096 ltac:(lia)). repeat case_decide; (lia || done).
Qed.

(** Everything as it was: the list, the blocks, the memory and the translations. *)
Definition unchanged s s' proc d L fr : Prop :=
  ua_ok s' proc d L fr /\ mm_live (umem s') = mm_live (umem s) /\ same_memory (phys (upg s)) (phys (upg s')) /\
  forall a, mmu (upg s') d a = mmu (upg s) d a.

(** The state with a new region [r] at [u]. *)
Definition allocated s s' proc d L fr pages u b q : Prop :=
  ua_ok s' proc d ((u, new_region (upg s) proc pages b q) :: L) fr /\ memory_offset (phys (upg s')) = memory_offset (phys (upg s)) /\
  free_run (upg s) d q pages /\ 524288 <= q /\ q * 4096 < uK_CEILING /\
  (forall k, b <= k < b + pages -> used (memory_bitmap (phys (upg s))) k = false) /\
  (forall a, is_u32 a -> mmu (upg s') d a = if decide (q * 4096 <= a < (q + pages) * 4096) then Some (frame (phys (upg s)) b + (a - q * 4096), ua_flags) else mmu (upg s) d a).

Lemma same_memory_refl m : same_memory m m.
Proof. by split_and!. Qed.

Lemma on_paging_ok {B} (m : M paging B) s b p : m (upg s) = Ok (b, p) -> on_paging m s = Ok (b, set_upg p s).
Proof. intros E. unfold on_paging. by rewrite E. Qed.

Lemma ua_release_ok s n pos m : memory_free n pos (phys (upg s)) = Ok m -> ua_release n pos s = Ok (tt, set_upg (set_phys m (upg s)) s).
Proof. intros E. unfold ua_release, on_paging. mrun. by rewrite E. Qed.

Lemma ua_malloc_ok s n p a : kmalloc n (umem s) = (p, a) -> ua_malloc n s = Ok (p, set_umem a s).
Proof. intros E. unfold ua_malloc. mrun. by rewrite E. Qed.

Lemma ua_free_ok s p a : kfree p (umem s) = Ok a -> ua_free p s = Ok (tt, UState (uprocs s) (base.delete p (allocs s)) a (upg s)).
Proof. intros E. unfold ua_free. mrun. by rewrite E. Qed.

Lemma ua_pages_ok s n ptr m : memory_alloc n (phys (upg s)) = Ok (ptr, m) -> ua_pages n s = Ok (ptr, set_upg (set_phys m (upg s)) s).
Proof. intros E. unfold ua_pages, on_paging. mrun. by rewrite E. Qed.

Lemma user_alloc_cases s proc d L fr fuel pages ptr : ua_ok s proc d L fr -> roomy fuel (upg s) pages ->
  (exists s', user_alloc fuel proc pages ptr s = Ok ((SMK_NOMEM, ptr), s') /\ unchanged s s' proc d L fr) \/
  (exists s' u b q, user_alloc fuel proc pages ptr s = Ok ((SMK_OK, frame (phys (upg s)) b), s') /\ allocated s s' proc d L fr pages u b q).
Proof.
  intros Hok (Hpg & Hfree & Hfuel). pose proof Hok as [[Hp Hx] Hs [Hnd Hn] [Hfr Hlive] Hwf _ _].
  unfold user_alloc. destruct (Z.eqb_spec pages 0) as [|_]; [lia |].
  destruct (alloc_run_ok (upg s) d pages Hwf) as (loc & m1 & E1 & Hcase); [unfold two32; lia |]. rewrite run_bind, (ua_pages_ok _ _ _ _ E1).
  destruct Hcase as [[-> ->]|(b & -> & Hnn & Hwf1 & G1 & T)].
  { left. eexists. split; [done |]. change (NULL =? NULL) with true. assert (set_upg (set_phys (phys (upg s)) (upg s)) s = s) as -> by by destruct s as [? ? ? []].
    split; [done |]. by split_and!. }
  destruct (Z.eqb_spec (frame (phys (upg s)) b) NULL) as [|_]; [done |]. set (p1 := set_phys m1 (upg s)) in *. set (s1 := set_upg p1 s).
  destruct (taken_undone (upg s) d p1 b pages Hwf Hwf1 G1 eq_refl T ltac:(lia)) as (m2 & E2 & Hwf2 & Hsame & Hkeep).
  destruct (kmalloc 32 (umem s)) as [u a] eqn:Em. rewrite run_bind, (ua_malloc_ok s1 32 u a Em).
  destruct (kmalloc_cases _ _ _ _ Em) as [[-> Ha]|(Hu & Hul & Ha)].
  { left. change (NULL =? NULL) with true. cbn iota. rewrite run_bind, (ua_release_ok (set_umem a s1) _ _ m2 E2). eexists. split; [done |].
    split; [by apply (ua_ok_same s) |]. by split_and!. }
  destruct (Z.eqb_spec u NULL) as [|_]; [done |]. set (s2 := set_umem a s1). rewrite run_bind, (uproc_of_ok s2 proc _ Hp Hx), run_bind. cbn [up_map].
  pose proof (wf_mem _ _ Hwf) as Hmem. pose proof T as [[Hb Hbn] _ _ _ Hc]. destruct (frame_page (phys (upg s)) b Hmem) as (k & Ek & Hk & Hku); [lia |].
  assert (k + pages <= 1048576) as Hkn.
  { destruct Hmem as (_ & base & Ho & ? & ?). unfold frame in Ek. rewrite Ho in Ek. unfold PAGE_SIZE in Ek. lia. }
  rewrite Ek. destruct (provide_ok fuel p1 d k pages Hwf1 Hpg) as (found & p2 & Ep & [(q & -> & Hq & Hqc & Hfrun & Hwfp & G2 & Hm)|(-> & ->)]); try lia; rewrite (on_paging_ok _ s2 _ _ Ep).
  - right. destruct (Z.eqb_spec (q * 4096) 0) as [|_]; [lia |]. set (s3 := set_upg p2 s2). assert (u ∉ L.*1) as HuL.
    { rewrite Hlive in Hul. apply not_elem_of_union in Hul as [Hul _]. by rewrite elem_of_list_to_set in Hul. }
    destruct (push_region_ok s3 proc d L u (new_region (upg s) proc pages b q) Hp Hx Hs Hnd Hn Hu HuL) as (h & Hsh & Epush).
    unfold new_region in Epush. rewrite <- Ek, run_bind, Epush. eexists _, u, b, q. split; [done |].
    split; [by apply (ua_ok_push s proc d L fr a p1 p2) |]. split_and!; [exact (grows_offset _ _ (grows_trans _ _ _ G1 G2)) | exact Hfrun | done | done | apply T |]. intros a' Ha'. rewrite Hm, <- Ek by done. done.
  - left. change (0 =? 0) with true. cbn iota. rewrite Ek in E2. set (s3 := set_upg p1 s2). rewrite run_bind, (ua_release_ok s3 pages (k * 4096) m2 E2).
    destruct (kfree_live u a) as (a' & Ea & Hl'); [rewrite Ha; clear; set_solver |]. set (s4 := set_upg (set_phys m2 (upg s3)) s3). rewrite run_bind, (ua_free_ok s4 u a' Ea). eexists. split; [done |].
    assert (mm_live a' = mm_live (umem s)) as Hla by (rewrite Hl', Ha; clear -Hul; set_solver). split; [|by split_and!].
    assert (ua_ok (UState (uprocs s) (base.delete u (allocs s)) (umem s) (upg s)) proc d L fr) as Hok'.
    { destruct Hok as [X1 X2 X3 X4 X5 X6 X7]. split; try done. eapply seg_frame; [|exact X2]. intros v Hv. apply lookup_delete_ne. intros <-.
      rewrite (proj2 X4) in Hul. apply Hul, elem_of_union. left. by apply elem_of_list_to_set. }
    exact (ua_ok_same _ proc d L fr a' (set_phys m2 p1) Hok' Hla Hwf2 Hkeep).
Qed.

(** * Ending a process *)

Definition covers_address (r : region) (a : Z) : bool := (r_virt r <=? a) && (a <? r_virt r + r_pages r * 4096).
Definition any_covers (L : regions) (a : Z) : bool := existsb (fun x => covers_address x.2 a) L.
(** The pages that the regions give back. *)
Fixpoint pages_held (L : regions) : Z := match L with [] => 0 | (_, r) :: L => (if releasable r then r_pages r else 0) + pages_held L end.

Lemma release_all_ok fuel s proc d L fr : ua_ok s proc d L fr -> (length L < fuel)%nat -> exists s' fr',
  release_all_loop fuel proc s = Ok (tt, s') /\ ua_ok s' proc d [] fr' /\
  s_freePages (phys (upg s')) = s_freePages (phys (upg s)) + pages_held L /\
  (forall a, is_u32 a -> mmu (upg s') d a = if any_covers L a then None else mmu (upg s) d a).
Proof.
  revert s L fr. induction fuel as [|fuel IH]; intros s L fr Hok Hf; [lia |]. cbn [release_all_loop]. pose proof Hok as [[Hp Hx] Hs [Hnd Hn] _ _ _ _].
  rewrite run_bind, (uproc_of_ok _ _ _ Hp Hx). cbn [up_alloc]. destruct L as [|[u r] L]; cbn [head_or].
  { exists s, fr. change (NULL =? NULL) with true. split; [done |]. split; [done |]. split; [cbn; lia | done]. }
  assert (u <> NULL) as Hu by (intros ->; apply Hn; by apply elem_of_cons; left). destruct (Z.eqb_spec u NULL) as [|_]; [done |].
  rewrite run_bind, (am_get_ok s u _ Hu (seg_lookup _ _ [] _ _ _ _ Hs)). cbn [mk_node am_node am_region].
  destruct (user_free_takes_out s proc d [] u r L fr (r_virt r) Hok) as (s1 & E1 & Hok1 & Hback & _ & _ & Hm1); [by intros v r' ?%not_elem_of_nil | done |].
  rewrite run_bind, E1. cbn [app] in Hok1. destruct (IH s1 L _ Hok1) as (s' & fr' & E & Hok' & Hc & Hm); [simpl in Hf; lia |].
  exists s', fr'. split; [done |]. split; [done |]. split.
  - rewrite Hc. cbn [pages_held]. unfold pages_back in Hback. destruct (releasable r); [destruct Hback as (b & _ & -> & _); lia | rewrite Hback; lia].
  - intros a Ha. rewrite Hm, Hm1 by done. change (any_covers ((u, r) :: L) a) with (covers_address r a || any_covers L a).
    destruct (any_covers L a); [by rewrite orb_true_r |]. rewrite orb_false_r. unfold covers_address. case_decide as Hd.
    + by rewrite (proj2 (Z.leb_le _ _)), (proj2 (Z.ltb_lt _ _)) by lia.
    + destruct (Z.leb_spec (r_virt r) a), (Z.ltb_spec a (r_virt r + r_pages r * 4096)); (lia || done).
Qed.

(** * Making a range present *)

Lemma page_present_missing p d q : pg_wf p d -> user_pages q 1 -> mapped p d q = false -> page_present d (q * 4096) p = Ok (-1, p).
Proof.
  intros Hwf Hup Hm. destruct (user_page_slot q 1 Hup ltac:(lia)) as (Hva & _ & _). destruct (slot_cases p d Hwf _ Hva) as (pde & _ & _ & _ & Et).
  unfold page_present. rewrite run_bind, Et. destruct (present pde); [|done]. change (negb (0 =? 0)) with false. cbn iota.
  by rewrite run_bind, (page_entry_present_ok p d q Hwf Hup), Hm.
Qed.

Lemma user_ensure_loop_missing n fuel s proc d q last : (n < fuel)%nat -> proc <> NULL -> (exists v, uprocs s !! proc = Some (UProc d v)) -> pg_wf (upg s) d -> user_pages q (Z.of_nat n) ->
  (forall k, q <= k < q + Z.of_nat n -> mapped (upg s) d k = false) ->
  user_ensure_loop fuel proc (q * 4096) ((q + Z.of_nat n) * 4096) last s = Ok ((SMK_OK, last), s).
Proof.
  intros Hf Hp [v Hx] Hwf. revert fuel q Hf. induction n as [|n IH]; intros [|fuel] q Hf Hup Hm; [lia | | lia |].
  { cbn [user_ensure_loop]. by destruct (Z.ltb_spec (q * 4096) ((q + Z.of_nat 0) * 4096)); [lia |]. }
  cbn [user_ensure_loop]. destruct (Z.ltb_spec (q * 4096) ((q + Z.of_nat (S n)) * 4096)) as [_|]; [|lia]. cbn [negb].
  rewrite run_bind, (uproc_of_ok _ _ _ Hp Hx), run_bind. cbn [up_map]. assert (user_pages q 1) as Hup1 by (unfold user_pages in *; lia).
  rewrite (on_paging_ok _ s _ _ (page_present_missing (upg s) d q Hwf Hup1 (Hm q ltac:(lia)))). change (negb (-1 =? 0)) with true. cbn iota.
  assert (set_upg (upg s) s = s) as -> by by destruct s.
  assert (u32 (q * 4096 + PAGE_SIZE) = (q + 1) * 4096) as -> by (rewrite u32_small; unfold PAGE_SIZE, user_pages, is_u32, two32 in *; lia).
  replace ((q + Z.of_nat (S n)) * 4096) with ((q + 1 + Z.of_nat n) * 4096) by lia. apply IH; [lia | unfold user_pages in *; lia |]. intros k Hk. apply Hm. lia.
Qed.

(** What the region that [user_alloc_hard] records says. *)
Definition lost_region (p : paging) proc pages b : region := Region pages 0 (frame (phys p) b) 0 0 proc.

Lemma user_alloc_hard_cases s proc d L fr q n : ua_ok s proc d L fr -> user_pages q n -> 0 < n -> 3 * n < s_freePages (phys (upg s)) ->
  (forall k, q <= k < q + n -> mapped (upg s) d k = false) ->
  (exists s', user_alloc_hard proc (q * 4096) n s = Ok (SMK_NOMEM, s') /\ unchanged s s' proc d L fr) \/
  (exists s' u b, user_alloc_hard proc (q * 4096) n s = Ok (SMK_OK, s') /\ proc <> NULL /\ uprocs s' !! proc = Some (UProc d u) /\
     seg (allocs s') NULL ((u, lost_region (upg s) proc n b) :: L) NULL /\ NoDup (u :: L.*1) /\ NULL ∉ u :: L.*1 /\
     (forall k, b <= k < b + n -> used (memory_bitmap (phys (upg s))) k = false /\ used (memory_bitmap (phys (upg s'))) k = true) /\
     (forall k, q <= k < q + n -> mapped (upg s') d k = true)).
Proof.
  intros Hok Hup Hn Hfree Hmiss. pose proof Hok as [[Hp Hx] Hs [Hnd Hnn] [Hfr Hlive] Hwf _ _]. pose proof Hup as (U1 & U2 & U3).
  unfold user_alloc_hard. rewrite run_bind. destruct (Z.eqb_spec n 0) as [|_]; [lia |]. change (massert (negb false) s) with (Ok (tt, s)). cbn iota.
  destruct (alloc_run_ok (upg s) d n Hwf) as (loc & m1 & E1 & Hcase); [unfold two32; lia |]. rewrite run_bind, (ua_pages_ok _ _ _ _ E1).
  destruct Hcase as [[-> ->]|(b & -> & Hbn & Hwf1 & G1 & T)].
  { left. eexists. split; [done |]. change (NULL =? NULL) with true. assert (set_upg (set_phys (phys (upg s)) (upg s)) s = s) as -> by by destruct s as [? ? ? []].
    split; [done |]. by split_and!. }
  destruct (Z.eqb_spec (frame (phys (upg s)) b) NULL) as [|_]; [done |]. set (p1 := set_phys m1 (upg s)) in *. set (s1 := set_upg p1 s).
  destruct (taken_undone (upg s) d p1 b n Hwf Hwf1 G1 eq_refl T Hn) as (m2 & E2 & Hwf2 & Hsame & Hkeep).
  destruct (kmalloc 32 (umem s)) as [u a] eqn:Em. rewrite run_bind, (ua_malloc_ok s1 32 u a Em).
  destruct (kmalloc_cases _ _ _ _ Em) as [[-> Ha]|(Hu & Hul & Ha)].
  { left. change (NULL =? NULL) with true. cbn iota. rewrite run_bind, (ua_release_ok (set_umem a s1) _ _ m2 E2). eexists. split; [done |].
    split; [by apply (ua_ok_same s) |]. by split_and!. }
  right. destruct (Z.eqb_spec u NULL) as [|_]; [done |]. set (s2 := set_umem a s1). rewrite run_bind, (uproc_of_ok s2 proc _ Hp Hx), run_bind. cbn [up_map].
  assert (u ∉ L.*1) as HuL. { rewrite Hlive in Hul. apply not_elem_of_union in Hul as [Hul _]. by rewrite elem_of_list_to_set in Hul. }
  pose proof T as [[Hb Hbp] Hbfree Hown _ Hc].
  destruct (page_ensure_ok p1 d q n (Z.lor USER_PAGE READ_WRITE) Hwf1 Hup) as (F & p2 & Ep & Hwfp & G2 & _ & Hfill); [lia |].
  rewrite (on_paging_ok _ s2 _ _ Ep). rewrite (mapped_count_const false) by (intros k Hk; apply Hmiss; lia). change (u32 0) with 0. change (0 <? 0) with false. cbn zeta iota.
  set (s3 := set_upg p2 s2). rewrite run_bind. change (massert (0 =? 0) s3) with (Ok (tt, s3)). cbn iota.
  destruct (push_region_ok s3 proc d L u (lost_region (upg s) proc n b) Hp Hx Hs Hnd Hnn Hu HuL) as (h & Hsh & Epush).
  unfold lost_region in Epush. rewrite run_bind, Epush. eexists _, u, b. split; [done |]. split; [done |]. split; [apply lookup_insert_eq |]. split; [exact Hsh |].
  split; [by apply NoDup_cons |]. split; [by intros [?|?]%elem_of_cons |]. split.
  - intros k Hk. split; [by apply Hbfree |]. apply (grows_used _ _ G2); [lia | by apply Hown].
  - intros k Hk. exact (filled_mapped p1 p2 d q n _ F k Hup Hmiss Hfill Hk).
Qed.

(** A range without a page goes to [user_alloc_hard] as a whole. *)
Lemma user_ensure_whole fuel s proc d L fr q n : ua_ok s proc d L fr -> user_pages q n -> 0 < n -> (Z.to_nat n < fuel)%nat ->
  (forall k, q <= k < q + n -> mapped (upg s) d k = false) -> user_ensure fuel proc (q * 4096) n s = user_alloc_hard proc (q * 4096) n s.
Proof.
  intros [[Hp Hx] _ _ _ Hwf _ _] Hup Hn Hf Hmiss. pose proof Hup as (U1 & U2 & U3). unfold user_ensure.
  assert (u32 (q * 4096 + u32 (n * PAGE_SIZE)) = (q + n) * 4096) as -> by (unfold PAGE_SIZE; rewrite (u32_small (n * 4096)), u32_small by (unfold is_u32, two32; lia); lia).
  assert (user_ensure_loop fuel proc (q * 4096) ((q + n) * 4096) (q * 4096) s = Ok ((SMK_OK, q * 4096), s)) as E.
  { replace n with (Z.of_nat (Z.to_nat n)) by lia. apply (user_ensure_loop_missing _ fuel s proc d); rewrite ?Z2Nat.id by lia; try done. by eexists. }
  cbn zeta. rewrite run_bind, E. change (negb (SMK_OK =? SMK_OK)) with false. cbn iota. destruct (Z.ltb_spec (q * 4096) ((q + n) * 4096)) as [_|]; [|lia].
  f_equal. unfold PAGE_SIZE. rewrite u32_small by (unfold is_u32, two32; lia). replace ((q + n) * 4096 - q * 4096) with (n * 4096) by lia. apply Z.div_mul. lia.
Qed.
End ops.
