(* ===== verification/UallocThms.v ===== *)
(** The theorems about the memory of processes of [Ualloc], and a process without
    regions on which they compute. *)
From S2P Require Import Prelude Mm Dll PhysMem Paging PagingRuns Ualloc UallocRep UallocOps.

Section thms.
Context {A : Type} `{MmLaws A}.
Implicit Types s : ustate A.

Lemma region_virt p r : region_in p r -> uK_BASE <= r_virt r.
Proof. intros [_ (q & -> & Hq & _) _]. unfold uK_BASE. lia. Qed.

Lemma page_in_run a q n : q * 4096 <= a < q * 4096 + n * 4096 <-> q <= a / 4096 < q + n.
Proof. pose proof (Z.div_mod a 4096 ltac:(lia)). pose proof (Z.mod_pos_bound a 4096 ltac:(lia)). lia. Qed.


(** C22. [user_alloc] and then [user_free] of the region's address: the list, the
    blocks of the allocator and every translation are as before the allocation,
    and the pages of the region are free again.  Pages that hold tables stay. *)
Theorem user_alloc_free_roundtrip s proc d L fr fuel pages ptr : ua_ok s proc d L fr -> roomy fuel (upg s) pages ->
  (exists s', user_alloc fuel proc pages ptr s = Ok ((SMK_NOMEM, ptr), s')) \/
  (exists s1 s2 b q, user_alloc fuel proc pages ptr s = Ok ((SMK_OK, frame (phys (upg s)) b), s1) /\ user_free proc (q * 4096) s1 = Ok (SMK_OK, s2) /\
     ua_ok s2 proc d L fr /\ mm_live (umem s2) = mm_live (umem s) /\ (forall a, is_u32 a -> mmu (upg s2) d a = mmu (upg s) d a) /\
     (forall k, b <= k < b + pages -> used (memory_bitmap (phys (upg s2))) k = false) /\
     s_freePages (phys (upg s2)) = s_freePages (phys (upg s1)) + pages).
Proof.
  intros Hok Hroom. pose proof Hroom as ((Hpg & _) & _). destruct (user_alloc_cases s proc d L fr fuel pages ptr Hok Hroom) as [(s' & E & _)|(s1 & u & b & q & E1 & Hok1 & Eo & Hfr & Hq & Hqc & Hfree & Hm)].
  { left. by exists s'. }
  right. set (r := new_region (upg s) proc pages b q) in *.
  destruct (user_free_takes_out s1 proc d [] u r L fr (q * 4096) Hok1) as (s2 & E2 & Hok2 & Hback & _ & _ & Hm2); [by intros v x ?%not_elem_of_nil | done |].
  change (releasable r) with true in Hok2. change (pages_back (upg s1) (upg s2) r) with (exists c, r_phys r = frame (phys (upg s1)) c /\
    s_freePages (phys (upg s2)) = s_freePages (phys (upg s1)) + pages /\ forall k, 0 <= k -> used (memory_bitmap (phys (upg s2))) k = if decide (c <= k < c + pages) then false else used (memory_bitmap (phys (upg s1))) k) in Hback.
  destruct Hback as (c & Ec & Hcount & Hused). exists s1, s2, b, q. split_and!; try done.
  - by rewrite (proj2 (uo_live _ _ _ _ _ Hok2)), (proj2 (uo_live _ _ _ _ _ Hok)).
  - intros a Ha. rewrite Hm2, Hm by done. cbn [r new_region r_virt r_pages]. pose proof (page_in_run a q pages) as Hrun. repeat case_decide; try (lia || done).
    destruct (mmu (upg s) d a) eqn:Em; [|done]. assert (mapped (upg s) d (a / 4096) = true) as Hc by (apply mmu_page; [done | by rewrite Em]).
    rewrite Hfr in Hc by lia. done.
  - destruct (uo_regions _ _ _ _ _ Hok1 u r) as [_ _ X]; [by apply elem_of_cons; left |]. destruct (X eq_refl) as (c' & Ec' & Hc' & _).
    unfold r, frame in Ec, Ec'. cbn [new_region r_phys] in Ec, Ec'. unfold frame, PAGE_SIZE in Ec, Ec'.
    intros k Hk. rewrite Hused by lia. by rewrite decide_True by lia.
Qed.

(** C23. [user_release_all] returns: the process has no region left, its list is
    consistent and every page that a region held is free again, and no address
    of a region translates any more.  The other addresses translate as before. *)
Theorem user_release_all_empties s proc d L fr : ua_ok s proc d L fr -> exists s' fr',
  user_release_all proc s = Ok (0, s') /\ ua_ok s' proc d [] fr' /\
  s_freePages (phys (upg s')) = s_freePages (phys (upg s)) + pages_held L /\
  forall a, is_u32 a -> mmu (upg s') d a = if any_covers L a then None else mmu (upg s) d a.
Proof.
  intros Hok. pose proof Hok as [_ Hs [Hnd _] _ _ _ _]. pose proof (seg_size _ _ _ _ Hs Hnd) as Hsz.
  destruct (release_all_ok (S (base.size (allocs s))) s proc d L fr Hok) as (s' & fr' & E & Hok' & Hrest); [lia |]. exists s', fr'. split; [|done].
  unfold user_release_all. rewrite run_bind. unfold getS at 1. rewrite run_bind, E. pose proof Hok' as [[Hp Hx] _ _ _ _ _ _].
  by rewrite run_bind, (uproc_of_ok _ _ _ Hp Hx).
Qed.

End thms.

(** A process without regions. *)
Definition sample_ustate : ustate arena := UState {[400 := UProc sample_map NULL]} ∅ (Arena 9 {[5]}) sample_paging.

Lemma sample_ua_ok : ua_ok sample_ustate 400 sample_map [] {[5]}.
Proof.
  split.
  - done.
  - done.
  - split; [apply NoDup_nil_2 | apply not_elem_of_nil].
  - split; [by intros u ?%not_elem_of_nil |]. cbn. by rewrite union_empty_l_L.
  - exact sample_paging_wf.
  - by intros u r ?%not_elem_of_nil.
  - by intros u r u' r' ?%not_elem_of_nil.
Qed.

Lemma sample_roomy : roomy (Z.to_nat 500000) (upg sample_ustate) 2.
Proof. split; [lia |]. split; [done |]. rewrite Z2Nat.id; lia. Qed.

Definition answer {B} (r : outcome ((Z * Z) * B)) : Z := match r with Ok ((v, _), _) => v | Halt _ => 5 end.


Lemma user_alloc_free_roundtrip_witness : exists s1 s2 b q,
  user_alloc (Z.to_nat 500000) 400 2 7 sample_ustate = Ok ((SMK_OK, frame (phys sample_paging) b), s1) /\
  user_free 400 (q * 4096) s1 = Ok (SMK_OK, s2) /\ ua_ok s2 400 sample_map [] {[5]}.
Proof.
  assert (answer (user_alloc (Z.to_nat 500000) 400 2 7 sample_ustate) = SMK_OK) as Ev by (vm_compute; reflexivity).
  destruct (user_alloc_free_roundtrip sample_ustate 400 sample_map [] {[5]} (Z.to_nat 500000) 2 7 sample_ua_ok sample_roomy) as [(s' & E)|(s1 & s2 & b & q & E1 & E2 & Hok & _)].
  - rewrite E in Ev. discriminate Ev.
  - exists s1, s2, b, q. split; [exact E1 | split; [exact E2 | exact Hok]].
Defined.

Lemma user_release_all_empties_witness : exists s1 s' fr' b q,
  user_alloc (Z.to_nat 500000) 400 2 7 sample_ustate = Ok ((SMK_OK, frame (phys sample_paging) b), s1) /\ mmu (upg s1) sample_map (q * 4096) <> None /\
  user_release_all 400 s1 = Ok (0, s') /\ ua_ok s' 400 sample_map [] fr' /\ mmu (upg s') sample_map (q * 4096) = None /\
  s_freePages (phys (upg s')) = s_freePages (phys (upg s1)) + 2.
Proof.
  assert (answer (user_alloc (Z.to_nat 500000) 400 2 7 sample_ustate) = SMK_OK) as Ev by (vm_compute; reflexivity).
  destruct (user_alloc_cases sample_ustate 400 sample_map [] {[5]} (Z.to_nat 500000) 2 7 sample_ua_ok sample_roomy) as [(s' & E & _)|(s1 & u & b & q & E & Hok & _ & _ & Hq & Hqc & _ & Hm)].
  - rewrite E in Ev. discriminate Ev.
  - destruct (user_release_all_empties s1 400 sample_map _ {[5]} Hok) as (s' & fr' & E' & Hok' & Hc & Hm').
    assert (is_u32 (q * 4096)) as Ha by (unfold uK_CEILING, is_u32, two32 in *; lia). exists s1, s', fr', b, q. split; [exact E |]. split; [|split; [exact E' | split; [exact Hok' | split]]].
    + rewrite Hm by exact Ha. rewrite decide_True by lia. discriminate.
    + rewrite Hm' by exact Ha. cbn [any_covers existsb covers_address snd new_region r_virt r_pages]. unfold covers_address. cbn [new_region r_virt r_pages].
      rewrite (proj2 (Z.leb_le _ _)), (proj2 (Z.ltb_lt _ _)) by lia. reflexivity.
    + rewrite Hc. reflexivity.
Defined.

