(* ===== verification/Cpu.v ===== *)
(** The interrupt flag of a processor (interrupts.c): [cli]/[sti] as state
    transformers on the flag. *)
From S2P Require Import Prelude.

(** [disable_interrupts]: returns 1 when interrupts were enabled, and clears the
    flag; the pair is the return value and the new flag. *)
Definition disable_interrupts (iflag : bool) : Z * bool :=
  (if iflag then 1 else 0, false).

Definition enable_interrupts (iflag : bool) : bool := true.

(** The idiom [if ( ei != 0 ) enable_interrupts();] *)
Definition restore_interrupts (ei : Z) (iflag : bool) : bool :=
  if ei =? 0 then iflag else enable_interrupts iflag.

Lemma restore_disable iflag :
  let '(ei, off) := disable_interrupts iflag in restore_interrupts ei off = iflag.
Proof. by destruct iflag. Qed.
