(* ===== verification/Gc.v ===== *)
(** The garbage collector's work queue (gc.c): per processor, a circular buffer
    of the threads and processes waiting for destruction. *)
From S2P Require Import Prelude Cpu.

Definition MAX_GC : Z := 32.

(** [struct gc_info] *)
Record gc_info := GcInfo { gc_pid : Z; gc_tid : Z }.

(** One element of [qdata]. *)
Record gc_qdata := GcQdata { info : list gc_info; pos : Z; size : Z }.

(** [qdata[MAX_CPU]] and the interrupt flag of the running processor. *)
Record gc_state := GcState { qdata : list gc_qdata; iflag : bool }.

(** [load_gc]: the info array keeps its contents. *)
Definition load_gc (cpu_id : Z) (s : gc_state) : outcome gc_state :=
  q ← aget (qdata s) cpu_id;
  l ← aset (qdata s) cpu_id (GcQdata (info q) 0 0);
  Ok (GcState l (iflag s)).

(** [gc_queue], on processor [cpu_id] = [CPUID]. *)
Definition gc_queue (cpu_id pid tid : Z) (s : gc_state) : outcome (Z * gc_state) :=
  let '(ei, fl) := disable_interrupts (iflag s) in
  q ← aget (qdata s) cpu_id;
  kassert (0 <=? pos q) ;;
  kassert (0 <=? size q) ;;
  if negb (size q =? MAX_GC) then
    let new_pos := Z.rem (s32 (pos q + size q)) MAX_GC in
    inf ← aset (info q) new_pos (GcInfo pid tid);
    l ← aset (qdata s) cpu_id (GcQdata inf (pos q) (s32 (size q + 1)));
    Ok (0, GcState l (restore_interrupts ei fl))
  else Ok (-1, GcState (qdata s) (restore_interrupts ei fl)).

(** [gc_has_work]: called by the scheduler with interrupts off. *)
Definition gc_has_work (cpu_id : Z) (s : gc_state) : outcome Z :=
  kassert (negb (iflag s)) ;;
  q ← aget (qdata s) cpu_id;
  kassert (0 <=? pos q) ;;
  kassert (0 <=? size q) ;;
  if size q =? 0 then Ok (-1) else Ok 0.

(** [gc_peek]: the entry is the pair stored through the two out pointers, [None]
    when they are left untouched. *)
Definition gc_peek (cpu_id : Z) (s : gc_state) : outcome (Z * option gc_info * gc_state) :=
  let '(ei, fl) := disable_interrupts (iflag s) in
  q ← aget (qdata s) cpu_id;
  kassert (0 <=? pos q) ;;
  kassert (0 <=? size q) ;;
  if negb (size q =? 0) then
    e ← aget (info q) (pos q);
    Ok (0, Some e, GcState (qdata s) (restore_interrupts ei fl))
  else Ok (-1, None, GcState (qdata s) (restore_interrupts ei fl)).

(** [gc_next] *)
Definition gc_next (cpu_id : Z) (s : gc_state) : outcome gc_state :=
  let '(ei, fl) := disable_interrupts (iflag s) in
  q ← aget (qdata s) cpu_id;
  kassert (0 <=? pos q) ;;
  kassert (0 <? size q) ;;
  l ← aset (qdata s) cpu_id
        (GcQdata (info q) (Z.rem (s32 (pos q + 1)) MAX_GC) (s32 (size q - 1)));
  Ok (GcState l (restore_interrupts ei fl)).

(** The entry points as one signature, for sequences of operations. *)
Inductive gc_op :=
  | OpQueue (pid tid : Z)
  | OpPeek
  | OpNext.

Definition run_gc_op (cpu_id : Z) (o : gc_op) (s : gc_state)
    : outcome (Z * option gc_info * gc_state) :=
  match o with
  | OpQueue pid tid => '(rc, s') ← gc_queue cpu_id pid tid s; Ok (rc, None, s')
  | OpPeek => gc_peek cpu_id s
  | OpNext => s' ← gc_next cpu_id s; Ok (0, None, s')
  end.

(** Specification: a FIFO of at most [MAX_GC] entries. *)
Definition spec_gc_op (o : gc_op) (l : list gc_info)
    : outcome (Z * option gc_info * list gc_info) :=
  match o with
  | OpQueue pid tid =>
      if decide (Z.of_nat (length l) = MAX_GC) then Ok (-1, None, l)
      else Ok (0, None, l ++ [GcInfo pid tid])
  | OpPeek => match l with [] => Ok (-1, None, l) | e :: _ => Ok (0, Some e, l) end
  | OpNext => match l with [] => Halt AssertFail | _ :: l' => Ok (0, None, l') end
  end.

Fixpoint run_gc_ops (cpu_id : Z) (os : list gc_op) (s : gc_state)
    : outcome (list (Z * option gc_info) * gc_state) :=
  match os with
  | [] => Ok ([], s)
  | o :: os =>
      '(r, s') ← run_gc_op cpu_id o s;
      '(rs, s'') ← run_gc_ops cpu_id os s';
      Ok (r :: rs, s'')
  end.

Fixpoint spec_gc_ops (os : list gc_op) (l : list gc_info)
    : outcome (list (Z * option gc_info) * list gc_info) :=
  match os with
  | [] => Ok ([], l)
  | o :: os =>
      '(r, l') ← spec_gc_op o l;
      '(rs, l'') ← spec_gc_ops os l';
      Ok (r :: rs, l'')
  end.

(** Well-formed queue of one processor, and the FIFO it represents. *)
Definition gc_wf (q : gc_qdata) : Prop :=
  length (info q) = 32%nat /\ 0 <= pos q < MAX_GC /\ 0 <= size q <= MAX_GC.

Definition gc_abs (q : gc_qdata) : list gc_info :=
  ring (info q) (Z.to_nat (pos q)) (Z.to_nat (size q)).

(** The queue of processor [cpu_id] is well formed and represents [l]. *)
Definition gc_rep (cpu_id : Z) (s : gc_state) (l : list gc_info) : Prop :=
  exists q, aget (qdata s) cpu_id = Ok q /\ gc_wf q /\ gc_abs q = l.

Lemma gc_abs_length q : gc_wf q -> Z.of_nat (length (gc_abs q)) = size q.
Proof. intros (Hl & Hp & Hs). unfold gc_abs. rewrite length_ring; lia. Qed.

Lemma gc_set_rep cpu_id s q q' fl :
  aget (qdata s) cpu_id = Ok q -> gc_wf q' ->
  exists l', aset (qdata s) cpu_id q' = Ok l' /\ gc_rep cpu_id (GcState l' fl) (gc_abs q').
Proof.
  intros Hq Hwf. apply aget_Some in Hq as [H0 Hq].
  pose proof (lookup_lt_Some _ _ _ Hq).
  rewrite aset_lt by lia. eexists. split; [done |].
  exists q'. split_and!; [|done..].
  apply aget_Some. split; [done |]. apply list_lookup_insert_eq. lia.
Qed.

Lemma gc_push_ring (q : gc_qdata) e : gc_wf q -> size q <> MAX_GC ->
  Z.rem (s32 (pos q + size q)) MAX_GC = (pos q + size q) mod MAX_GC /\
  gc_wf (GcQdata (<[Z.to_nat ((pos q + size q) mod MAX_GC) := e]> (info q)) (pos q)
          (s32 (size q + 1))) /\
  gc_abs (GcQdata (<[Z.to_nat ((pos q + size q) mod MAX_GC) := e]> (info q)) (pos q)
          (s32 (size q + 1))) = gc_abs q ++ [e].
Proof.
  intros (Hl & Hp & Hs) Hfull. unfold MAX_GC in *.
  rewrite (s32_small (pos q + size q)), (s32_small (size q + 1)) by (unfold is_s32; lia).
  split_and!.
  - apply Z.rem_mod_nonneg; lia.
  - unfold gc_wf, MAX_GC. simpl. rewrite length_insert. lia.
  - unfold gc_abs. simpl.
    replace (Z.to_nat (size q + 1)) with (S (Z.to_nat (size q))) by lia.
    rewrite <- ring_snoc by lia. do 2 f_equal.
    rewrite Z2Nat.inj_mod, Z2Nat.inj_add, Hl by lia. done.
Qed.

Lemma gc_pop_ring (q : gc_qdata) : gc_wf q -> 0 < size q ->
  exists e, aget (info q) (pos q) = Ok e /\
  let q' := GcQdata (info q) (Z.rem (s32 (pos q + 1)) MAX_GC) (s32 (size q - 1)) in
  gc_wf q' /\ gc_abs q = e :: gc_abs q'.
Proof.
  intros (Hl & Hp & Hs) Hne. unfold MAX_GC in *.
  destruct (aget_lt (info q) (pos q)) as [e He]; [lia |].
  exists e. split; [done |]. apply aget_Some in He as [_ He]. simpl.
  rewrite (s32_small (pos q + 1)), (s32_small (size q - 1)) by (unfold is_s32; lia).
  rewrite Z.rem_mod_nonneg by lia.
  pose proof (Z.mod_pos_bound (pos q + 1) 32).
  split; [unfold gc_wf, MAX_GC; simpl; lia |].
  unfold gc_abs. simpl.
  replace (Z.to_nat (size q)) with (S (Z.to_nat (size q - 1))) by lia.
  rewrite (ring_head _ _ _ e) by (done || lia). do 2 f_equal.
  rewrite Hl, Z2Nat.inj_mod, Z2Nat.inj_add by lia. done.
Qed.

Lemma run_gc_op_refines cpu_id o s l : gc_rep cpu_id s l ->
  match run_gc_op cpu_id o s with
  | Ok (r, s') => exists l', spec_gc_op o l = Ok (r, l') /\ gc_rep cpu_id s' l' /\ iflag s' = iflag s
  | Halt f => spec_gc_op o l = Halt f
  end.
Proof.
  intros (q & Hq & Hwf & <-). pose proof Hwf as (Hl & Hp & Hs).
  pose proof (gc_abs_length q Hwf) as Hlen.
  assert (kassert (0 <=? pos q) = Ok tt) as Hap by (apply kassert_true; lia).
  assert (kassert (0 <=? size q) = Ok tt) as Has by (apply kassert_true; lia).
  destruct o as [pid tid| |]; cbn [run_gc_op spec_gc_op].
  - unfold gc_queue. rewrite Hq. simpl. rewrite Hap, Has. simpl.
    destruct (Z.eqb_spec (size q) MAX_GC) as [E|E]; simpl.
    + exists (gc_abs q). rewrite decide_True by lia.
      split_and!; [done | by exists q | by destruct (iflag s)].
    + destruct (gc_push_ring q (GcInfo pid tid) Hwf E) as (Hpos & Hwf' & Habs).
      pose proof (Z.mod_pos_bound (pos q + size q) MAX_GC).
      unfold MAX_GC in H at 1. rewrite Hpos.
      rewrite aset_lt by (rewrite Hl; unfold MAX_GC in *; lia). simpl.
      destruct (gc_set_rep cpu_id s q _
        (restore_interrupts (if iflag s then 1 else 0) false) Hq Hwf') as (l' & -> & Hrep).
      simpl. rewrite decide_False by lia. eexists. rewrite <- Habs.
      split_and!; [done | done | by destruct (iflag s)].
  - unfold gc_peek. rewrite Hq. simpl. rewrite Hap, Has. simpl.
    destruct (Z.eqb_spec (size q) 0) as [E|E]; simpl.
    + destruct (gc_abs q) eqn:Ha; [|simpl in Hlen; lia].
      exists []. split_and!; [done | by exists q | by destruct (iflag s)].
    + destruct (gc_pop_ring q Hwf) as (e & -> & _ & Habs); [lia |]. simpl.
      rewrite Habs. eexists. split_and!; [done | by exists q | by destruct (iflag s)].
  - unfold gc_next. rewrite Hq. simpl. rewrite Hap. simpl.
    destruct (Z.ltb_spec 0 (size q)) as [E|E]; simpl.
    + destruct (gc_pop_ring q Hwf E) as (e & _ & Hwf' & Habs).
      destruct (gc_set_rep cpu_id s q _
        (restore_interrupts (if iflag s then 1 else 0) false) Hq Hwf') as (l' & -> & Hrep).
      simpl. rewrite Habs. eexists. split_and!; [done | done | by destruct (iflag s)].
    + destruct (gc_abs q) eqn:Ha; [done |]. simpl in Hlen. lia.
Qed.

(** C4. The garbage collector's queue is a bounded FIFO: for every sequence of
    [gc_queue], [gc_peek] and [gc_next] calls on a processor, the return codes
    and reported entries are those of a list of at most 32 entries, a full queue
    refuses with -1, [gc_next] on an empty queue fails its assertion, and the
    interrupt flag is what it was. *)
Theorem gc_refines_fifo cpu_id os s l : gc_rep cpu_id s l ->
  match run_gc_ops cpu_id os s with
  | Ok (rs, s') => exists l', spec_gc_ops os l = Ok (rs, l') /\ gc_rep cpu_id s' l' /\ iflag s' = iflag s
  | Halt f => spec_gc_ops os l = Halt f
  end.
Proof.
  revert s l. induction os as [|o os IH]; intros s l Hrep; simpl; [by exists l |].
  pose proof (run_gc_op_refines cpu_id o s l Hrep) as Hop.
  destruct (run_gc_op cpu_id o s) as [[r s']|f]; simpl; [|by rewrite Hop].
  destruct Hop as (l' & -> & Hrep' & Hfl). simpl.
  specialize (IH s' l' Hrep').
  destruct (run_gc_ops cpu_id os s') as [[rs s'']|f]; simpl; [|by rewrite IH].
  destruct IH as (l'' & -> & Hrep'' & Hfl'). simpl. exists l''.
  split_and!; [done | done | congruence].
Qed.

Lemma gc_refines_fifo_witness :
  let q := GcQdata (repeat (GcInfo 0 0) 32) 31 0 in
  let s := GcState [q] true in
  let os := [OpQueue 7 (-1); OpQueue 8 3; OpPeek; OpNext; OpPeek] in
  match run_gc_ops 0 os s with
  | Ok (rs, s') => exists l', spec_gc_ops os [] = Ok (rs, l') /\ gc_rep 0 s' l' /\ iflag s' = iflag s
  | Halt f => spec_gc_ops os [] = Halt f
  end.
Proof.
  apply (gc_refines_fifo 0). eexists. split; [reflexivity |].
  split; [unfold gc_wf, MAX_GC; simpl; lia | reflexivity].
Defined.
