(* ===== verification/Strings.v ===== *)
(** The memory and string routines (libsmk/strings.c, which the kernel links).
    The objects that the pointers designate are arrays of [char] values; source
    and destination are distinct objects, and a step outside of an object is a
    fault. *)
From S2P Require Import Prelude.

(** conversion to [char], signed on the target *)
Definition s8 (z : Z) : Z := (z + 128) mod 256 - 128.

(** [for ( i = 0; i < n; i++ ) dest[i] = src[i];] *)
Fixpoint memcpy_loop (n : nat) (i : Z) (dest src : list Z) : outcome (list Z) :=
  match n with
  | O => Ok dest
  | S n => c ← aget src i; dest ← aset dest i c; memcpy_loop n (i + 1) dest src
  end.
Definition kmemcpy (dest src : list Z) (n : Z) : outcome (list Z) :=
  memcpy_loop (Z.to_nat (u32 n)) 0 dest src.

Fixpoint memcmp_loop (n : nat) (i : Z) (s d : list Z) : outcome Z :=
  match n with
  | O => Ok 0
  | S n =>
      a ← aget s i; b ← aget d i;
      if a <? b then Ok (-1) else if b <? a then Ok 1 else memcmp_loop n (i + 1) s d
  end.
Definition kmemcmp (s d : list Z) (n : Z) : outcome Z := memcmp_loop (Z.to_nat (u32 n)) 0 s d.

Fixpoint memset_loop (n : nat) (i c : Z) (s : list Z) : outcome (list Z) :=
  match n with
  | O => Ok s
  | S n => s ← aset s i c; memset_loop n (i + 1) c s
  end.
Definition kmemset (s : list Z) (c n : Z) : outcome (list Z) :=
  memset_loop (Z.to_nat (u32 n)) 0 (s8 c) s.

(** [do { s[i] = ct[i]; } while ( ct[i++] != 0 );], one round for every element
    of [ct] at most: the next one is out of bounds. *)
Fixpoint strcpy_loop (fuel : nat) (i : Z) (s ct : list Z) : outcome (list Z) :=
  match fuel with
  | O => Halt Spin
  | S fuel => c ← aget ct i; s ← aset s i c; if c =? 0 then Ok s else strcpy_loop fuel (i + 1) s ct
  end.
Definition kstrcpy (s ct : list Z) : outcome (list Z) := strcpy_loop (S (length ct)) 0 s ct.

(** The copying and the padding loop of [kstrncpy]. *)
Fixpoint strncpy_loop (n : nat) (i : Z) (s ct : list Z) : outcome (list Z) :=
  match n with
  | O => Ok s
  | S m =>
      c ← aget ct i;
      if c =? 0 then memset_loop n i 0 s
      else s ← aset s i c; strncpy_loop m (i + 1) s ct
  end.
Definition kstrncpy (s ct : list Z) (n : Z) : outcome (list Z) :=
  strncpy_loop (Z.to_nat (u32 n)) 0 s ct.

Fixpoint strlen_loop (fuel : nat) (ans : Z) (cs : list Z) : outcome Z :=
  match fuel with
  | O => Halt Spin
  | S fuel => c ← aget cs ans; if c =? 0 then Ok (ans + 1) else strlen_loop fuel (ans + 1) cs
  end.
Definition kstrlen (cs : list Z) : outcome Z :=
  ans ← strlen_loop (S (length cs)) 0 cs; Ok (u32 (ans - 1)).

Fixpoint strncmp_loop (n : nat) (i : Z) (s1 s2 : list Z) : outcome Z :=
  match n with
  | O => Ok 0
  | S n =>
      a ← aget s1 i; b ← aget s2 i;
      if a <? b then Ok (-1) else if b <? a then Ok 1
      else if a =? 0 then Ok 0 else strncmp_loop n (i + 1) s1 s2
  end.
Definition kstrncmp (s1 s2 : list Z) (n : Z) : outcome Z :=
  strncmp_loop (Z.to_nat (u32 n)) 0 s1 s2.

(** * Strings as lists of characters *)

(** The characters before the terminator. *)
Fixpoint cstr (l : list Z) : list Z :=
  match l with
  | c :: l => if c =? 0 then [] else c :: cstr l
  | [] => []
  end.

(** [l] holds a terminator. *)
Definition terminated (l : list Z) : Prop := 0 ∈ l.

Lemma memcpy_loop_spec n i dest src : (i + n <= length src)%nat -> (i + n <= length dest)%nat ->
  memcpy_loop n (Z.of_nat i) dest src = Ok (take i dest ++ take n (drop i src) ++ drop (i + n) dest).
Proof.
  revert i dest. induction n as [|n IH]; intros i dest Hs Hd; cbn [memcpy_loop].
  { simpl. by rewrite Nat.add_0_r, take_drop. }
  destruct (lookup_lt_is_Some_2 src i) as [c Hc]; [lia |].
  rewrite (aget_nat _ _ _ Hc). cbn [mbind outcome_bind]. rewrite aset_lt by lia.
  cbn [mbind outcome_bind]. rewrite Nat2Z.id. replace (Z.of_nat i + 1) with (Z.of_nat (S i)) by lia.
  rewrite IH by (rewrite ?length_insert; lia). f_equal.
  rewrite (take_S_r _ _ c) by (apply list_lookup_insert_eq; lia).
  rewrite take_insert_ge by lia. rewrite drop_insert_lt by lia.
  rewrite (drop_S _ _ _ Hc). cbn [take]. rewrite <- app_assoc. simpl.
  by replace (i + S n)%nat with (S (i + n)) by lia.
Qed.

Lemma memcpy_loop_oob n i dest src : (i <= length src)%nat -> (i <= length dest)%nat ->
  (length src < i + n)%nat \/ (length dest < i + n)%nat ->
  memcpy_loop n (Z.of_nat i) dest src = Halt BadAccess.
Proof.
  revert i dest. induction n as [|n IH]; intros i dest Hs Hd Hov; [lia |]. cbn [memcpy_loop].
  destruct (decide (i < length src)%nat).
  2:{ by rewrite aget_oob by lia. }
  destruct (lookup_lt_is_Some_2 src i) as [c Hc]; [lia |].
  rewrite (aget_nat _ _ _ Hc). cbn [mbind outcome_bind]. destruct (decide (i < length dest)%nat).
  2:{ by rewrite aset_oob by lia. }
  rewrite aset_lt by lia. cbn [mbind outcome_bind]. rewrite Nat2Z.id.
  replace (Z.of_nat i + 1) with (Z.of_nat (S i)) by lia. apply IH; rewrite ?length_insert; lia.
Qed.

(** [kmemcpy] copies a prefix, or runs off one of the objects. *)
Lemma kmemcpy_spec dest src n : is_u32 n ->
  kmemcpy dest src n =
  if decide (n <= Z.of_nat (length src) /\ n <= Z.of_nat (length dest))
  then Ok (take (Z.to_nat n) src ++ drop (Z.to_nat n) dest) else Halt BadAccess.
Proof.
  intros Hn. unfold kmemcpy. rewrite u32_small by done. unfold is_u32 in Hn. case_decide.
  - pose proof (memcpy_loop_spec (Z.to_nat n) 0 dest src) as H0. change (Z.of_nat 0) with 0 in H0. simpl in H0.
    rewrite H0 by lia. by rewrite drop_0.
  - apply (memcpy_loop_oob _ 0); lia.
Qed.

Lemma memset_loop_spec n i c s : (i + n <= length s)%nat ->
  memset_loop n (Z.of_nat i) c s = Ok (take i s ++ replicate n c ++ drop (i + n) s).
Proof.
  revert i s. induction n as [|n IH]; intros i s Hs; cbn [memset_loop].
  { simpl. by rewrite Nat.add_0_r, take_drop. }
  rewrite aset_lt by lia. cbn [mbind outcome_bind]. rewrite Nat2Z.id.
  replace (Z.of_nat i + 1) with (Z.of_nat (S i)) by lia.
  rewrite IH by (rewrite ?length_insert; lia). f_equal.
  rewrite (take_S_r _ _ c) by (apply list_lookup_insert_eq; lia).
  rewrite take_insert_ge by lia. rewrite drop_insert_lt by lia. rewrite <- app_assoc. simpl.
  by replace (i + S n)%nat with (S (i + n)) by lia.
Qed.

Lemma strncpy_loop_spec n i s ct : (i + n <= length s)%nat ->
  (terminated (drop i ct) \/ i + n <= length ct)%nat ->
  strncpy_loop n (Z.of_nat i) s ct =
    Ok (take i s ++ take n (cstr (drop i ct) ++ replicate n 0) ++ drop (i + n) s).
Proof.
  revert i s. induction n as [|n IH]; intros i s Hs Ht; cbn [strncpy_loop].
  { by rewrite Nat.add_0_r, take_0, app_nil_l, take_drop. }
  assert (is_Some (ct !! i)) as [c Hc].
  { apply lookup_lt_is_Some_2. destruct Ht as [Ht|]; [|lia].
    apply list_elem_of_lookup in Ht as [j Hj]. rewrite lookup_drop in Hj. apply lookup_lt_Some in Hj. lia. }
  rewrite (aget_nat _ _ _ Hc). cbn [mbind outcome_bind]. rewrite (drop_S _ _ _ Hc). cbn [cstr].
  destruct (Z.eqb_spec c 0) as [->|Hc0].
  - rewrite memset_loop_spec by lia. f_equal. rewrite app_nil_l.
    rewrite (take_ge (replicate (S n) 0)) by (simpl; rewrite ?length_replicate; lia). done.
  - rewrite aset_lt by lia. cbn [mbind outcome_bind]. rewrite Nat2Z.id.
    replace (Z.of_nat i + 1) with (Z.of_nat (S i)) by lia.
    rewrite IH.
    + f_equal. rewrite (take_S_r _ _ c) by (apply list_lookup_insert_eq; lia).
      rewrite take_insert_ge by lia. rewrite drop_insert_lt by lia. rewrite <- app_assoc. f_equal. simpl.
      f_equal. replace (i + S n)%nat with (S (i + n)) by lia. f_equal.
      change (0 :: replicate n 0) with (replicate (S n) 0). rewrite replicate_S_end, app_assoc.
      symmetry. apply take_app_le. rewrite length_app, length_replicate. lia.
    + rewrite length_insert. lia.
    + destruct Ht as [Ht|]; [|right; lia]. left. rewrite (drop_S _ _ _ Hc) in Ht.
      by apply elem_of_cons in Ht as [|].
Qed.

(** [kstrncpy] fills exactly [n] characters of the destination: the source
    string cut at [n], padded with zeros; the rest of the destination stays.  A
    source of [n] characters or more leaves the copy without a terminator. *)
Theorem kstrncpy_pads s ct n : 0 <= n <= Z.of_nat (length s) -> n < two32 ->
  terminated ct \/ n <= Z.of_nat (length ct) ->
  exists s', kstrncpy s ct n = Ok s' /\ length s' = length s /\
  drop (Z.to_nat n) s' = drop (Z.to_nat n) s /\
  take (Z.to_nat n) s' = take (Z.to_nat n) (cstr ct ++ replicate (Z.to_nat n) 0) /\
  (terminated (take (Z.to_nat n) s') <-> Z.of_nat (length (cstr ct)) < n).
Proof.
  intros Hn Hn32 Ht. unfold kstrncpy. rewrite u32_small by (unfold is_u32; lia).
  pose proof (strncpy_loop_spec (Z.to_nat n) 0 s ct) as H0. change (Z.of_nat 0) with 0 in H0.
  simpl in H0. rewrite drop_0 in H0.
  set (x := take (Z.to_nat n) (cstr ct ++ replicate (Z.to_nat n) 0)) in *.
  assert (length x = Z.to_nat n) as Hx.
  { unfold x. rewrite length_take, length_app, length_replicate. lia. }
  exists (x ++ drop (Z.to_nat n) s). split; [apply H0; [lia |]; destruct Ht; [by left | right; lia] |].
  assert (take (Z.to_nat n) (x ++ drop (Z.to_nat n) s) = x) as ->.
  { by rewrite <- Hx, take_app_length. }
  split_and!; [rewrite length_app, length_drop; lia | by rewrite <- Hx at 1; rewrite drop_app_length | done |].
  assert (0 ∉ cstr ct) as Hno.
  { clear. induction ct as [|c l IH]; simpl; [by apply not_elem_of_nil |].
    destruct (Z.eqb_spec c 0); [by apply not_elem_of_nil |]. apply not_elem_of_cons. split; [lia | done]. }
  unfold terminated, x. split.
  - intros [j Hj]%list_elem_of_lookup. apply lookup_take_Some in Hj as [Hj Hjn].
    destruct (decide (j < length (cstr ct))%nat); [|lia].
    rewrite lookup_app_l in Hj by done. destruct Hno. apply list_elem_of_lookup. eauto.
  - intros Hlt. apply list_elem_of_lookup. exists (length (cstr ct)).
    rewrite lookup_take_lt by lia. rewrite lookup_app_r by lia.
    apply lookup_replicate. split; [done | lia].
Qed.

(** The comparison of two strings, character by character. *)
Fixpoint str_cmp (n : nat) (l1 l2 : list Z) : Z :=
  match n, cstr l1, cstr l2 with
  | O, _, _ => 0
  | S _, [], [] => 0
  | S _, [], b :: _ => if 0 <? b then -1 else 1
  | S _, a :: _, [] => if a <? 0 then -1 else 1
  | S n, a :: _, b :: _ => if a <? b then -1 else if b <? a then 1 else str_cmp n (tail l1) (tail l2)
  end.

(** The first [n] characters may be read: there is a terminator or enough room. *)
Definition readable (n : nat) (l : list Z) : Prop := terminated l \/ (n <= length l)%nat.

Lemma readable_cons n l : readable (S n) l -> exists c l', l = c :: l' /\ (c = 0 \/ readable n l').
Proof.
  destruct l as [|c l]; intros [H|H].
  - by apply elem_of_nil in H.
  - simpl in H. lia.
  - exists c, l. split; [done |]. apply elem_of_cons in H as [<-|H]; [by left | right; by left].
  - exists c, l. split; [done |]. right. right. simpl in H. lia.
Qed.

Lemma strncmp_loop_spec n i s1 s2 : readable n (drop i s1) -> readable n (drop i s2) ->
  strncmp_loop n (Z.of_nat i) s1 s2 = Ok (str_cmp n (drop i s1) (drop i s2)).
Proof.
  revert i. induction n as [|n IH]; intros i H1 H2; cbn [strncmp_loop]; [done |].
  apply readable_cons in H1 as (a & l1 & E1 & H1), H2 as (b & l2 & E2 & H2).
  assert (forall (s : list Z) c l, drop i s = c :: l -> s !! i = Some c /\ drop (S i) s = l) as Hd.
  { intros s c l E. split.
    - rewrite <- (Nat.add_0_r i), <- lookup_drop, E. done.
    - rewrite <- Nat.add_1_r, <- drop_drop, E. done. }
  destruct (Hd _ _ _ E1) as [Ha E1'], (Hd _ _ _ E2) as [Hb E2'].
  rewrite (aget_nat _ _ _ Ha), (aget_nat _ _ _ Hb). cbn [mbind outcome_bind].
  rewrite E1, E2. cbn [str_cmp cstr tail].
  replace (Z.of_nat i + 1) with (Z.of_nat (S i)) by lia.
  destruct (Z.eqb_spec a 0) as [->|Ha0], (Z.eqb_spec b 0) as [->|Hb0]; simpl.
  - done.
  - destruct (Z.ltb_spec 0 b), (Z.ltb_spec b 0); (done || lia).
  - destruct (Z.ltb_spec a 0), (Z.ltb_spec 0 a); (done || lia).
  - destruct (a <? b); [done |]. destruct (b <? a); [done |]. rewrite <- E1', <- E2'.
    apply IH; [by rewrite E1'; destruct H1 | by rewrite E2'; destruct H2].
Qed.

Lemma kstrncmp_str_cmp s1 s2 n : is_u32 n -> readable (Z.to_nat n) s1 -> readable (Z.to_nat n) s2 ->
  kstrncmp s1 s2 n = Ok (str_cmp (Z.to_nat n) s1 s2).
Proof.
  intros Hn H1 H2. unfold kstrncmp. rewrite u32_small by done. change 0 with (Z.of_nat 0).
  rewrite strncmp_loop_spec by by rewrite drop_0. by rewrite !drop_0.
Qed.

Lemma cstr_nonzero l c l' : cstr l = c :: l' -> c <> 0 /\ cstr (tail l) = l'.
Proof. destruct l as [|d l]; simpl; [done |]. destruct (Z.eqb_spec d 0); [done |]. by intros [= <- <-]. Qed.

Lemma str_cmp_facts n l1 l2 :
  (str_cmp n l1 l2 = 0 <-> take n (cstr l1) = take n (cstr l2)) /\
  str_cmp n l2 l1 = - str_cmp n l1 l2 /\ (str_cmp n l1 l2 = 0 \/ str_cmp n l1 l2 = 1 \/ str_cmp n l1 l2 = -1).
Proof.
  revert l1 l2. induction n as [|n IH]; intros l1 l2; [simpl; naive_solver |]. cbn [str_cmp].
  destruct (cstr l1) as [|a t1] eqn:E1, (cstr l2) as [|b t2] eqn:E2.
  - simpl. naive_solver.
  - apply cstr_nonzero in E2 as [Hb _].
    destruct (Z.ltb_spec 0 b), (Z.ltb_spec b 0); try lia; simpl; naive_solver.
  - apply cstr_nonzero in E1 as [Ha _].
    destruct (Z.ltb_spec 0 a), (Z.ltb_spec a 0); try lia; simpl; naive_solver.
  - apply cstr_nonzero in E1 as [Ha <-], E2 as [Hb <-]. destruct (IH (tail l1) (tail l2)) as (IH1 & IH2 & IH3).
    destruct (Z.ltb_spec a b), (Z.ltb_spec b a); try lia.
    + split; [split; [done | simpl; intros [=]; lia] | naive_solver].
    + split; [split; [done | simpl; intros [=]; lia] | naive_solver].
    + assert (a = b) as -> by lia. split; [|done]. rewrite IH1. simpl. split; [by intros -> | by intros [=]].
Qed.

(** C40. [kstrncmp] on readable strings answers 0, 1 or -1; it answers 0 exactly
    when the strings agree on their first [n] characters, and exchanging the
    strings negates the answer. *)
Theorem kstrncmp_decides s1 s2 n : is_u32 n ->
  readable (Z.to_nat n) s1 -> readable (Z.to_nat n) s2 ->
  exists r, kstrncmp s1 s2 n = Ok r /\ kstrncmp s2 s1 n = Ok (- r) /\
  (r = 0 \/ r = 1 \/ r = -1) /\
  (r = 0 <-> take (Z.to_nat n) (cstr s1) = take (Z.to_nat n) (cstr s2)).
Proof.
  intros Hn H1 H2. unfold kstrncmp. rewrite u32_small by done.
  pose proof (strncmp_loop_spec (Z.to_nat n) 0 s1 s2 H1 H2) as E12.
  pose proof (strncmp_loop_spec (Z.to_nat n) 0 s2 s1 H2 H1) as E21.
  destruct (str_cmp_facts (Z.to_nat n) s1 s2) as (F1 & F2 & F3).
  exists (str_cmp (Z.to_nat n) s1 s2). change (Z.of_nat 0) with 0 in *. rewrite !drop_0 in *.
  rewrite <- F2. auto.
Qed.

Lemma strlen_loop_spec cs fuel i : terminated (drop i cs) -> (length cs < fuel + i)%nat ->
  strlen_loop fuel (Z.of_nat i) cs = Ok (Z.of_nat (i + length (cstr (drop i cs))) + 1).
Proof.
  revert i. induction fuel as [|fuel IH]; intros i Ht Hf.
  { apply list_elem_of_lookup in Ht as [j Hj]. rewrite lookup_drop in Hj. apply lookup_lt_Some in Hj. lia. }
  cbn [strlen_loop]. destruct (drop i cs) as [|c l] eqn:E; [by apply elem_of_nil in Ht |].
  assert (cs !! i = Some c) as Hc by (rewrite <- (Nat.add_0_r i), <- lookup_drop, E; done).
  rewrite (aget_nat _ _ _ Hc). cbn [mbind outcome_bind cstr]. destruct (Z.eqb_spec c 0) as [->|Hc0].
  { simpl. by rewrite Nat.add_0_r. }
  assert (drop (S i) cs = l) as El by (rewrite <- Nat.add_1_r, <- drop_drop, E; done).
  replace (Z.of_nat i + 1) with (Z.of_nat (S i)) by lia. rewrite IH.
  - rewrite El. simpl length. do 2 f_equal. lia.
  - rewrite El. apply elem_of_cons in Ht as [|]; [lia | done].
  - lia.
Qed.

Lemma kstrlen_spec cs : terminated cs -> Z.of_nat (length cs) < two32 ->
  kstrlen cs = Ok (Z.of_nat (length (cstr cs))).
Proof.
  intros Ht Hl. unfold kstrlen. pose proof (strlen_loop_spec cs (S (length cs)) 0) as H0.
  change (Z.of_nat 0) with 0 in H0. rewrite H0 by (rewrite ?drop_0; (done || lia)).
  cbn [mbind outcome_bind]. rewrite drop_0, Nat.add_0_l.
  assert (length (cstr cs) <= length cs)%nat.
  { clear. induction cs as [|c l IH]; simpl; [done |]. destruct (c =? 0); simpl; lia. }
  rewrite u32_small by (unfold is_u32; lia). f_equal. lia.
Qed.

Lemma kstrncpy_pads_witness : exists s',
  kstrncpy [9; 9; 9; 9; 9] [104; 105; 0] 4 = Ok s' /\ drop 4 s' = [9].
Proof.
  destruct (kstrncpy_pads [9; 9; 9; 9; 9] [104; 105; 0] 4) as (s' & H1 & _ & H2 & _);
    [simpl; lia | unfold two32; lia | left; unfold terminated; set_solver |].
  exists s'. split; [exact H1 | exact H2].
Defined.

Lemma kstrncmp_decides_witness : exists r,
  kstrncmp [104; 105; 0] [104; 111; 0] 64 = Ok r /\ kstrncmp [104; 111; 0] [104; 105; 0] 64 = Ok (- r).
Proof.
  destruct (kstrncmp_decides [104; 105; 0] [104; 111; 0] 64) as (r & H1 & H2 & _);
    [unfold is_u32, two32; lia | left; unfold terminated; set_solver | left; unfold terminated; set_solver |].
  exists r. auto.
Defined.
