(* ===== verification/Console.v ===== *)
(** The text screen (puts.c): 25 lines of 80 cells of a character and its
    attribute, and the cursor.  The memory of the screen is an array, the port
    writes to the video controller are a log, and [inb] gives what its ports
    answer after the writes so far. *)
From S2P Require Import Prelude Cpu Strings.

Definition WIDTH : Z := 80.
Definition HEIGHT : Z := 25.
Definition SCREEN_ATTR : Z := 7.

Record console := Console { screen : list Z; s_x : Z; s_y : Z; video_log : list (Z * Z); cflag : bool }.

Abbreviation C := (M console).

Definition set_screen v k := Console v (s_x k) (s_y k) (video_log k) (cflag k).
Definition set_xy x y k := Console (screen k) x y (video_log k) (cflag k).
Definition set_video_log v k := Console (screen k) (s_x k) (s_y k) v (cflag k).
Definition set_cflag v k := Console (screen k) (s_x k) (s_y k) (video_log k) v.

Definition outb (port byte : Z) : C unit := modifyS (fun k => set_video_log ((port, byte) :: video_log k) k).

(** A store to a cell of the screen. *)
Definition scr_set (i v : Z) : C unit := k ← getS; l ← liftO (aset (screen k) i v); modifyS (set_screen l).

Section console.
Variable inb : list (Z * Z) -> Z -> Z.

Definition in_byte (port : Z) : C Z := k ← getS; mret (Z.land (inb (video_log k) port) 255).

Definition get_cursor : C unit :=
  outb 980 14 ;;
  hi ← in_byte 981;
  outb 980 15 ;;
  lo ← in_byte 981;
  let position := u32 (u32 (Z.shiftl hi 8) + lo) in
  let x := position mod 80 in
  let y := position / 80 in
  modifyS (set_xy (if (x <? 0) || (WIDTH <=? x) then 0 else x) (if (y <? 0) || (HEIGHT <=? y) then 0 else y)).

Definition set_cursor (x y : Z) : C unit :=
  let position := u32 (y * 80 + x) in
  k ← getS;
  let '(ei, off) := disable_interrupts (cflag k) in
  modifyS (set_cflag off) ;;
  outb 980 15 ;;
  outb 981 (Z.land position 255) ;;
  outb 980 14 ;;
  outb 981 (Z.land (Z.shiftr position 8) 255) ;;
  modifyS (fun k => set_cflag (restore_interrupts ei (cflag k)) k).

(** [kmemcpy] inside of the screen: the source is [off] cells behind the
    destination. *)
Fixpoint memcpy_within (n : nat) (i off : Z) : C unit :=
  match n with
  | O => mret tt
  | S n => k ← getS; c ← liftO (aget (screen k) (i + off)); scr_set i c ;; memcpy_within n (i + 1) off
  end.

(** The loop of [scroll]: [n] blank cells from [i] on. *)
Fixpoint blank_loop (n : nat) (i : Z) : C unit :=
  match n with
  | O => mret tt
  | S n => scr_set i 32 ;; scr_set (i + 1) SCREEN_ATTR ;; blank_loop n (i + 2)
  end.
Definition scroll : C unit :=
  memcpy_within (Z.to_nat ((HEIGHT - 1) * WIDTH * 2)) 0 (WIDTH * 2) ;;
  blank_loop (Z.to_nat WIDTH) ((HEIGHT - 1) * WIDTH * 2).

(** The rows of [clear]. *)
Fixpoint clear_loop (n : nat) (i : Z) : C unit :=
  match n with
  | O => mret tt
  | S n => blank_loop (Z.to_nat WIDTH) (i * WIDTH * 2) ;; clear_loop n (i + 1)
  end.
Definition clear : C unit := clear_loop (Z.to_nat HEIGHT) 0 ;; modifyS (set_xy 0 0) ;; set_cursor 0 0.

Definition putc (x y c : Z) : C unit :=
  scr_set (y * WIDTH * 2 + x * 2) c ;; scr_set (y * WIDTH * 2 + x * 2 + 1) SCREEN_ATTR.

(** The loop of [puts_xy]; it ends at the terminator, or outside of the string. *)
Fixpoint puts_loop (fuel : nat) (i x y : Z) (s : list Z) : C (Z * Z) :=
  match fuel with
  | O => liftO (Halt Spin)
  | S fuel =>
      c ← liftO (aget s i);
      if c =? 0 then mret (x, y)
      else
        let '(x, y) := if WIDTH <=? x then (0, y + 1) else (x, y) in
        y ← (if HEIGHT <=? y then scroll ;; mret (y - 1) else mret y);
        if c =? 10 then puts_loop fuel (i + 1) 0 (y + 1) s
        else putc x y c ;; puts_loop fuel (i + 1) (x + 1) y s
  end.
Definition puts_xy (x y : Z) (s : list Z) : C (Z * Z) := puts_loop (S (length s)) 0 x y s.

Definition puts (str : list Z) : C unit :=
  k ← getS;
  (if (s_x k <? 0) || (s_y k <? 0) then get_cursor else mret tt) ;;
  k ← getS;
  '(x, y) ← puts_xy (s_x k) (s_y k) str;
  modifyS (set_xy x y) ;;
  set_cursor x y.
End console.

(** * The screen as a terminal *)

(** Every place that the cursor takes. *)
Definition cursor_ok (x y : Z) : Prop := 0 <= x <= 80 /\ 0 <= y <= 25 /\ (x = 80 -> y < 25).
Definition console_ok (k : console) : Prop := length (screen k) = 4000%nat /\ (s_x k < 0 \/ s_y k < 0 \/ cursor_ok (s_x k) (s_y k)).

Fixpoint blanks (n : nat) : list Z := match n with O => [] | S n => 32 :: SCREEN_ATTR :: blanks n end.

Lemma length_blanks n : length (blanks n) = (2 * n)%nat.
Proof. induction n; simpl; lia. Qed.

(** One character: a new line at the end of a line, the lines move up below the
    last one, and a cell is set or a line is begun. *)
Definition new_line (x y : Z) : Z * Z := if WIDTH <=? x then (0, y + 1) else (x, y).
Definition line_up (scr : list Z) (y : Z) : list Z * Z := if HEIGHT <=? y then (drop 160 scr ++ blanks 80, y - 1) else (scr, y).
Definition set_cell (scr : list Z) (x y c : Z) : list Z :=
  <[Z.to_nat (y * 160 + x * 2 + 1) := SCREEN_ATTR]> (<[Z.to_nat (y * 160 + x * 2) := c]> scr).
Definition type_char (t : list Z * Z * Z) (c : Z) : list Z * Z * Z :=
  let '(scr, x, y) := t in
  let '(x, y) := new_line x y in
  let '(scr, y) := line_up scr y in
  if c =? 10 then (scr, 0, y + 1) else (set_cell scr x y c, x + 1, y).
Definition type_text (scr : list Z) (x y : Z) (text : list Z) : list Z * Z * Z := fold_left type_char text (scr, x, y).

Lemma scr_set_ok i v k : 0 <= i < Z.of_nat (length (screen k)) -> scr_set i v k = Ok (tt, set_screen (<[Z.to_nat i := v]> (screen k)) k).
Proof. intros Hi. unfold scr_set. mrun. by rewrite aset_lt. Qed.

(** The copy moves the cells to the front, one after the other. *)
Lemma memcpy_within_ok n i off k l : (i + n + off <= length l)%nat -> screen k = take i (drop off l) ++ drop i l ->
  memcpy_within n (Z.of_nat i) (Z.of_nat off) k = Ok (tt, set_screen (take (i + n) (drop off l) ++ drop (i + n) l) k).
Proof.
  revert i k. induction n as [|n IH]; intros i k Hl Hk; cbn [memcpy_within].
  { rewrite Nat.add_0_r, <- Hk. by destruct k. }
  assert (length (take i (drop off l)) = i) as Hi by (rewrite length_take, length_drop; lia).
  destruct (lookup_lt_is_Some_2 l (i + off)) as [c Hc]; [lia |]. mrun.
  assert (aget (screen k) (Z.of_nat i + Z.of_nat off) = Ok c) as ->.
  { rewrite <- Nat2Z.inj_add. apply aget_nat. rewrite Hk, lookup_app_r, Hi, lookup_drop by lia. by replace (i + (i + off - i))%nat with (i + off)%nat by lia. }
  mrun. rewrite scr_set_ok by (rewrite Hk, length_app, Hi, length_drop; lia). replace (Z.of_nat i + 1) with (Z.of_nat (S i)) by lia.
  rewrite IH; [|lia |].
  - by replace (S i + n)%nat with (i + S n)%nat by lia.
  - cbn [screen set_screen]. rewrite Hk, Nat2Z.id, insert_app_r_alt by lia. rewrite Hi, Nat.sub_diag.
    destruct (lookup_lt_is_Some_2 l i) as [d Hd]; [lia |]. rewrite (drop_S _ _ _ Hd). cbn [insert list_insert].
    rewrite (take_S_r (drop off l) i c), <- app_assoc; [done |]. rewrite lookup_drop. by replace (off + i)%nat with (i + off)%nat by lia.
Qed.

Lemma blank_loop_ok n k pre mid post : screen k = pre ++ mid ++ post -> length mid = (2 * n)%nat ->
  blank_loop n (Z.of_nat (length pre)) k = Ok (tt, set_screen (pre ++ blanks n ++ post) k).
Proof.
  revert k pre mid. induction n as [|n IH]; intros k pre mid Hk Hm; cbn [blank_loop].
  { destruct mid; [|done]. cbn [blanks app]. rewrite app_nil_l in Hk. rewrite <- Hk. by destruct k. }
  destruct mid as [|a [|b mid]]; [done | simpl in Hm; lia |]. mrun. rewrite scr_set_ok by (rewrite Hk, !length_app; simpl; lia). mrun.
  rewrite scr_set_ok by (cbn [screen set_screen]; rewrite length_insert, Hk, !length_app; simpl; lia). mrun.
  replace (Z.of_nat (length pre) + 2) with (Z.of_nat (length (pre ++ [32; SCREEN_ATTR]))) by (rewrite length_app; simpl; lia).
  rewrite (IH _ (pre ++ [32; SCREEN_ATTR]) mid); [|cbn [screen set_screen] | simpl in Hm; lia].
  - by rewrite <- app_assoc.
  - rewrite Hk. replace (Z.to_nat (Z.of_nat (length pre) + 1)) with (S (length pre)) by lia. rewrite Nat2Z.id.
    rewrite insert_app_r_alt, Nat.sub_diag by lia. cbn [app insert list_insert]. rewrite insert_app_r_alt by lia.
    replace (S (length pre) - length pre)%nat with 1%nat by lia. cbn [insert list_insert]. by rewrite <- app_assoc.
Qed.

(** [scroll] drops the first line and adds a blank one. *)
Lemma scroll_ok k : length (screen k) = 4000%nat -> scroll k = Ok (tt, set_screen (drop 160 (screen k) ++ blanks 80) k).
Proof.
  intros Hl. unfold scroll. rewrite run_bind. change (Z.to_nat ((HEIGHT - 1) * WIDTH * 2)) with 3840%nat.
  pose proof (memcpy_within_ok 3840 0 160 k (screen k)) as Hm. change (Z.of_nat 0) with 0 in Hm. change (Z.of_nat 160) with (WIDTH * 2) in Hm.
  rewrite Hm; [|rewrite Hl; lia | by rewrite take_0, drop_0]. change (0 + 3840)%nat with 3840%nat.
  set (k1 := set_screen _ k). assert (length (take 3840 (drop 160 (screen k))) = 3840%nat) as H1 by (rewrite length_take, length_drop; lia).
  pose proof (blank_loop_ok 80 k1 (take 3840 (drop 160 (screen k))) (drop 3840 (screen k)) []) as Hb. rewrite H1 in Hb.
  change (Z.of_nat 3840) with ((HEIGHT - 1) * WIDTH * 2) in Hb. change (Z.to_nat WIDTH) with 80%nat. rewrite Hb.
  - rewrite app_nil_r, take_ge by (rewrite length_drop; lia). done.
  - by rewrite app_nil_r.
  - rewrite length_drop. lia.
Qed.

(** [clear] blanks every cell. *)
Lemma clear_loop_ok n k pre mid : screen k = pre ++ mid -> length mid = (160 * n)%nat -> forall r, length pre = (160 * r)%nat ->
  clear_loop n (Z.of_nat r) k = Ok (tt, set_screen (pre ++ blanks (80 * n)) k).
Proof.
  revert k pre mid. induction n as [|n IH]; intros k pre mid Hk Hm r Hr; cbn [clear_loop].
  { destruct mid; [|done]. replace (80 * 0)%nat with 0%nat by lia. cbn [blanks]. rewrite <- Hk. by destruct k. }
  mrun. pose proof (blank_loop_ok 80 k pre (take 160 mid) (drop 160 mid)) as Hb.
  replace (Z.of_nat r * WIDTH * 2) with (Z.of_nat (length pre)) by (rewrite Hr; unfold WIDTH; lia). change (Z.to_nat WIDTH) with 80%nat.
  rewrite Hb; [|by rewrite take_drop | rewrite length_take; lia]. replace (Z.of_nat r + 1) with (Z.of_nat (S r)) by lia.
  rewrite (IH _ (pre ++ blanks 80) (drop 160 mid)); cbn [screen set_screen].
  - replace (80 * S n)%nat with (80 + 80 * n)%nat by lia. assert (forall a b, blanks (a + b) = blanks a ++ blanks b) as -> by (clear; induction a; intros; simpl; [done | by rewrite IHa]).
    by rewrite <- app_assoc.
  - by rewrite app_assoc.
  - rewrite length_drop. lia.
  - rewrite length_app, length_blanks. lia.
Qed.

Lemma length_set_cell scr x y c : length (set_cell scr x y c) = length scr.
Proof. unfold set_cell. by rewrite !length_insert. Qed.

Lemma putc_ok x y c k : 0 <= x < 80 -> 0 <= y < 25 -> length (screen k) = 4000%nat -> putc x y c k = Ok (tt, set_screen (set_cell (screen k) x y c) k).
Proof.
  intros Hx Hy Hl. unfold putc, set_cell. replace (y * WIDTH * 2 + x * 2) with (y * 160 + x * 2) by (unfold WIDTH; lia). mrun.
  rewrite scr_set_ok by lia. by rewrite scr_set_ok by (cbn [screen set_screen]; rewrite length_insert; lia).
Qed.

Lemma length_up scr : length scr = 4000%nat -> length (drop 160 scr ++ blanks 80) = 4000%nat.
Proof. intros Hl. rewrite length_app, length_drop, length_blanks. lia. Qed.

(** Room for a character: the cursor is inside of the screen. *)
Lemma room_ok k x y x1 y1 scr2 y2 : length (screen k) = 4000%nat -> cursor_ok x y -> new_line x y = (x1, y1) -> line_up (screen k) y1 = (scr2, y2) ->
  0 <= x1 < 80 /\ 0 <= y2 < 25 /\ length scr2 = 4000%nat /\
  (if HEIGHT <=? y1 then scroll ;; mret (y1 - 1) else mret y1) k = Ok (y2, set_screen scr2 k).
Proof.
  intros Hl Hc En El. assert (0 <= x1 < 80 /\ 0 <= y1 <= 25) as [Hx1 Hy1].
  { unfold cursor_ok, new_line, WIDTH in *. destruct (Z.leb_spec 80 x); injection En as <- <-; lia. }
  split; [done |]. unfold line_up, HEIGHT in *. destruct (Z.leb_spec 25 y1); injection El; intros <- <-.
  - split; [lia |]. split; [by apply length_up |]. mrun. by rewrite scroll_ok.
  - split; [lia |]. split; [done |]. by destruct k.
Qed.

(** The text that [puts_loop] shows. *)
Lemma puts_loop_ok fuel i x y s k : (length s < fuel + i)%nat -> (i <= length s)%nat -> terminated (drop i s) -> length (screen k) = 4000%nat -> cursor_ok x y ->
  exists scr' x' y', type_text (screen k) x y (cstr (drop i s)) = (scr', x', y') /\ length scr' = 4000%nat /\ cursor_ok x' y' /\
  puts_loop fuel (Z.of_nat i) x y s k = Ok ((x', y'), set_screen scr' k).
Proof.
  revert i x y k. induction fuel as [|fuel IH]; intros i x y k Hf Hi Ht Hl Hc; [lia |]. cbn [puts_loop].
  assert (is_Some (s !! i)) as [c Hs].
  { apply lookup_lt_is_Some_2. apply list_elem_of_lookup in Ht as [j Hj]. rewrite lookup_drop in Hj. apply lookup_lt_Some in Hj. lia. }
  pose proof (lookup_lt_Some _ _ _ Hs). mrun. rewrite (aget_nat _ _ _ Hs), (drop_S _ _ _ Hs). mrun. cbn [cstr].
  destruct (Z.eqb_spec c 0) as [->|Hc0]. { exists (screen k), x, y. split_and!; try done. by destruct k. }
  assert (terminated (drop (S i) s)) as Ht'.
  { rewrite (drop_S _ _ _ Hs) in Ht. by apply elem_of_cons in Ht as [|]. }
  unfold type_text. cbn [fold_left type_char]. fold (new_line x y). destruct (new_line x y) as [x1 y1] eqn:En.
  destruct (line_up (screen k) y1) as [scr2 y2] eqn:El. replace (Z.of_nat i + 1) with (Z.of_nat (S i)) by lia.
  destruct (room_ok k x y x1 y1 scr2 y2 Hl Hc En El) as (Hx1 & Hy2 & Hl2 & E).
  rewrite run_bind, E. destruct (Z.eqb_spec c 10).
  - apply (IH (S i) 0 (y2 + 1) (set_screen scr2 k)); [lia | lia | done | done | unfold cursor_ok; lia].
  - mrun. rewrite putc_ok by done. cbn [screen set_screen].
    apply (IH (S i) (x1 + 1) y2 (set_screen (set_cell scr2 x1 y2 c) (set_screen scr2 k))); [lia | lia | done | cbn; by rewrite length_set_cell | unfold cursor_ok; lia].
Qed.

Lemma puts_loop_overrun fuel i x y s k : (length s < fuel + i)%nat -> (i <= length s)%nat -> ~ terminated (drop i s) -> length (screen k) = 4000%nat -> cursor_ok x y ->
  puts_loop fuel (Z.of_nat i) x y s k = Halt BadAccess.
Proof.
  revert i x y k. induction fuel as [|fuel IH]; intros i x y k Hf Hi Ht Hl Hc; [lia |]. cbn [puts_loop].
  destruct (decide (i = length s)) as [->|Hne]; [by rewrite run_bind, aget_oob by lia |].
  destruct (lookup_lt_is_Some_2 s i) as [c Hs]; [lia |]. mrun. rewrite (aget_nat _ _ _ Hs). mrun. rewrite (drop_S _ _ _ Hs) in Ht.
  destruct (Z.eqb_spec c 0) as [->|Hc0]; [destruct Ht; by apply elem_of_cons; left |].
  assert (~ terminated (drop (S i) s)) as Ht' by (intros Hx; apply Ht; by apply elem_of_cons; right).
  fold (new_line x y). destruct (new_line x y) as [x1 y1] eqn:En.
  destruct (line_up (screen k) y1) as [scr2 y2] eqn:El. replace (Z.of_nat i + 1) with (Z.of_nat (S i)) by lia.
  destruct (room_ok k x y x1 y1 scr2 y2 Hl Hc En El) as (Hx1 & Hy2 & Hl2 & E).
  pose proof (lookup_lt_Some _ _ _ Hs). rewrite run_bind, E. destruct (Z.eqb_spec c 10).
  - apply IH; [lia | lia | done | done | unfold cursor_ok; lia].
  - mrun. rewrite putc_ok by done. apply IH; [lia | lia | done | cbn; by rewrite length_set_cell | unfold cursor_ok; lia].
Qed.

Section thms.
Variable inb : list (Z * Z) -> Z -> Z.

Lemma get_cursor_ok k : exists x y, get_cursor inb k = Ok (tt, set_xy x y (set_video_log ((980, 15) :: (980, 14) :: video_log k) k)) /\ cursor_ok x y.
Proof.
  unfold get_cursor. eexists _, _. split; [done |]. unfold WIDTH, HEIGHT, cursor_ok.
  match goal with |- context [?p mod 80] => pose proof (Z.mod_pos_bound p 80 ltac:(lia)); set (a := p mod 80) in *; set (b := p / 80) in * end.
  destruct (Z.ltb_spec a 0), (Z.leb_spec 80 a), (Z.ltb_spec b 0), (Z.leb_spec 25 b); cbn [orb]; lia.
Qed.

(** The cursor position as the controller gets it. *)
Definition cursor_writes (x y : Z) : list (Z * Z) :=
  [(981, Z.land (Z.shiftr (u32 (y * 80 + x)) 8) 255); (980, 14); (981, Z.land (u32 (y * 80 + x)) 255); (980, 15)].

Lemma set_cursor_ok x y k : set_cursor x y k = Ok (tt, set_video_log (cursor_writes x y ++ video_log k) k).
Proof. unfold set_cursor. destruct k as [scr a b log fl]. by destruct fl. Qed.

(** Where [puts] begins. *)
Lemma puts_start k : console_ok k -> exists k1 x y, (if (s_x k <? 0) || (s_y k <? 0) then get_cursor inb else mret tt) k = Ok (tt, k1) /\
  s_x k1 = x /\ s_y k1 = y /\ cursor_ok x y /\ screen k1 = screen k /\ cflag k1 = cflag k /\ (0 <= s_x k -> 0 <= s_y k -> k1 = k).
Proof.
  intros [Hl Hc]. destruct (Z.ltb_spec (s_x k) 0), (Z.ltb_spec (s_y k) 0); cbn [orb].
  1-3: destruct (get_cursor_ok k) as (x & y & E & Hxy); eexists _, x, y; split; [exact E | split_and!; (done || lia)].
  exists k, (s_x k), (s_y k). destruct Hc as [?|[?|Hc]]; [lia | lia | by split_and!].
Qed.

Lemma puts_ok str k : console_ok k -> terminated str -> exists k1 k', console_ok k' /\ cursor_ok (s_x k') (s_y k') /\ cursor_ok (s_x k1) (s_y k1) /\
  (0 <= s_x k -> 0 <= s_y k -> k1 = k) /\ type_text (screen k) (s_x k1) (s_y k1) (cstr str) = (screen k', s_x k', s_y k') /\
  video_log k' = cursor_writes (s_x k') (s_y k') ++ video_log k1 /\ cflag k' = cflag k /\ puts inb str k = Ok (tt, k').
Proof.
  intros Hk Ht. destruct (puts_start k Hk) as (k1 & x & y & E & <- & <- & Hc & Hs & Hf & Hsame). pose proof Hk as [Hl _].
  destruct (puts_loop_ok (S (length str)) 0 (s_x k1) (s_y k1) str k1) as (scr & x & y & Et & Hl' & Hc' & E2); [lia | lia | done | congruence | done |].
  rewrite Hs, drop_0 in Et. set (k2 := set_xy x y (set_screen scr k1)). exists k1, (set_video_log (cursor_writes x y ++ video_log k2) k2). split_and!; try done.
  - by split; [|right; right].
  - unfold puts. mrun. rewrite E. mrun. unfold puts_xy. change 0 with (Z.of_nat 0) at 1. rewrite E2. mrun. apply set_cursor_ok.
Qed.

Lemma puts_overrun str k : console_ok k -> ~ terminated str -> puts inb str k = Halt BadAccess.
Proof.
  intros Hk Ht. destruct (puts_start k Hk) as (k1 & x & y & E & <- & <- & Hc & Hs & _ & _). pose proof Hk as [Hl _].
  unfold puts. mrun. rewrite E. mrun. unfold puts_xy. change 0 with (Z.of_nat 0) at 1.
  rewrite puts_loop_overrun; [done | lia | lia | done | congruence | done].
Qed.
End thms.
