(* ===== verification/Dmesg.v ===== *)
(** The kernel log (dmesg.c): numbers and strings are formatted into a buffer of
    limited length, and [dmesg] appends the result to a ring of 16384 characters
    and shows it on the screen. *)
From S2P Require Import Prelude Cpu Strings Console.

Definition DMESG_TMPSIZE : Z := 512.
Definition DMESG_BUFSIZE : Z := 16384.

(** * Formatting.  A printer gets the buffer, the offset of its first free
    character and the room that is left, and answers the new buffer and the
    number of characters.  The argument words of a call are a list, and strings
    are character arrays by address. *)

(** [number[i++] = c;] for an array of [cap] characters *)
Definition push (cap : nat) (c : Z) (number : list Z) : outcome (list Z) :=
  if decide (length number < cap)%nat then Ok (number ++ [s8 c]) else Halt BadAccess.

(** The loop that copies the digits, the last one first. *)
Fixpoint emit_loop (digits : list Z) (buffer : list Z) (off len count : Z) : outcome (list Z * Z) :=
  match digits with
  | [] => Ok (buffer, count)
  | c :: digits =>
      if len <=? count then Ok (buffer, len)
      else b ← aset buffer (off + count) c; emit_loop digits b off len (count + 1)
  end.
Definition emit (number buffer : list Z) (off len : Z) : outcome (list Z * Z) := emit_loop (rev number) buffer off len 0.

Fixpoint uint_digits (fuel : nat) (tmp : Z) (number : list Z) : outcome (list Z) :=
  match fuel with
  | O => Halt Spin
  | S fuel =>
      number ← push 32 (Z.rem tmp 10 + 48) number;
      if tmp =? 0 then Ok number
      else
        let tmp := Z.quot tmp 10 in
        if tmp =? 0 then Ok number else uint_digits fuel tmp number
  end.
Definition dmesg_uint (buffer : list Z) (off len num : Z) : outcome (list Z * Z) :=
  number ← uint_digits 32 (s32 num) []; emit number buffer off len.

Fixpoint hex_digits (fuel : nat) (tmp : Z) (number : list Z) : outcome (list Z) :=
  match fuel with
  | O => Halt Spin
  | S fuel =>
      let letter := tmp mod 16 in
      number ← push 64 (if letter <? 10 then letter + 48 else letter - 10 + 65) number;
      if tmp =? 0 then Ok number
      else
        let tmp := tmp / 16 in
        if tmp =? 0 then Ok number else hex_digits fuel tmp number
  end.
Definition dmesg_hex (buffer : list Z) (off len hex : Z) : outcome (list Z * Z) :=
  number ← hex_digits 32 hex [];
  number ← push 64 120 number;
  number ← push 64 48 number;
  emit number buffer off len.

Definition dmesg_ptr (buffer : list Z) (off len ptr : Z) : outcome (list Z * Z) := dmesg_hex buffer off len ptr.

Fixpoint bin_digits (fuel : nat) (tmp : Z) (number : list Z) : outcome (list Z) :=
  match fuel with
  | O => Halt Spin
  | S fuel =>
      if tmp <=? 0 then Ok number
      else
        number ← push 128 (if Z.land tmp 1 =? 1 then 49 else 48) number;
        number ← (if (length number mod 9 =? 0)%nat then push 128 32 number else Ok number);
        bin_digits fuel (Z.shiftr tmp 1) number
  end.
Definition dmesg_bin (buffer : list Z) (off len num : Z) : outcome (list Z * Z) :=
  number ← push 128 98 [];
  number ← bin_digits 33 num number;
  emit number buffer off len.

Fixpoint string_loop (fuel : nat) (s buffer : list Z) (off len count : Z) : outcome (list Z * Z) :=
  match fuel with
  | O => Halt Spin
  | S fuel =>
      c ← aget s count;
      if c =? 0 then Ok (buffer, count)
      else if len <=? count then Ok (buffer, len)
      else b ← aset buffer (off + count) c; string_loop fuel s b off len (count + 1)
  end.
(** A null pointer is [None]. *)
Definition dmesg_string (buffer : list Z) (off len : Z) (str : option (list Z)) : outcome (list Z * Z) :=
  let s := default [78; 85; 76; 76; 0] str in string_loop (S (length s)) s buffer off len 0.

Definition dmesg_int (buffer : list Z) (off len num : Z) : outcome (list Z * Z) :=
  if 0 <=? num then dmesg_uint buffer off len (u32 num)
  else
    '(buffer, n) ← dmesg_string buffer off len (Some [45; 0]);
    if n =? len then Ok (buffer, len)
    else
      '(buffer, val) ← dmesg_uint buffer (off + 1) (len - 1) (u32 (- num));
      if len - 1 <=? val then Ok (buffer, val) else Ok (buffer, val + 1).

Definition va_arg (ap : list Z) : outcome (Z * list Z) := match ap with w :: ap => Ok (w, ap) | [] => Halt BadAccess end.
Definition load_str (mem : gmap Z (list Z)) (p : Z) : outcome (option (list Z)) :=
  if p =? NULL then Ok None else s ← hload mem p; Ok (Some s).

(** The letter after a percent sign: the buffer and the characters, what is left
    of the arguments, and the flags. *)
Definition convert (mem : gmap Z (list Z)) (letter : Z) (buffer : list Z) (off len : Z) (ap : list Z) (flags : Z) :
    outcome ((list Z * Z) * (list Z * Z)) :=
  if letter =? 33 then Ok ((buffer, 0), (ap, Z.lor flags 1))
  else if letter =? 115 then '(w, ap) ← va_arg ap; s ← load_str mem w; r ← dmesg_string buffer off len s; Ok (r, (ap, flags))
  else if letter =? 105 then '(w, ap) ← va_arg ap; r ← dmesg_int buffer off len (s32 w); Ok (r, (ap, flags))
  else if letter =? 117 then '(w, ap) ← va_arg ap; r ← dmesg_uint buffer off len w; Ok (r, (ap, flags))
  else if letter =? 98 then '(w, ap) ← va_arg ap; r ← dmesg_bin buffer off len w; Ok (r, (ap, flags))
  else if letter =? 120 then '(w, ap) ← va_arg ap; r ← dmesg_hex buffer off len w; Ok (r, (ap, flags))
  else if letter =? 112 then '(w, ap) ← va_arg ap; r ← dmesg_ptr buffer off len w; Ok (r, (ap, flags))
  else Ok ((buffer, 0), (ap, flags)).

Fixpoint sdmesg_loop (fuel : nat) (mem : gmap Z (list Z)) (format : list Z) (i max_len : Z) (buffer : list Z) (position : Z)
    (modifier : bool) (ap : list Z) (flags : Z) : outcome ((list Z * Z) * Z) :=
  match fuel with
  | O => Halt Spin
  | S fuel =>
      letter ← aget format i;
      if letter =? 0 then Ok ((buffer, position), flags)
      else
        let len := max_len - position in
        if modifier then
          '((b, n), (ap, flags)) ← convert mem letter buffer position len ap flags;
          sdmesg_loop fuel mem format (i + 1) max_len b (position + n) false ap flags
        else if letter =? 37 then sdmesg_loop fuel mem format (i + 1) max_len buffer position true ap flags
        else
          '(b, n) ← dmesg_string buffer position len (Some [letter; 0]);
          sdmesg_loop fuel mem format (i + 1) max_len b (position + n) false ap flags
  end.
(** The buffer, the position and the flags. *)
Definition sdmesg (mem : gmap Z (list Z)) (buffer : list Z) (max_len : Z) (format ap : list Z) : outcome ((list Z * Z) * Z) :=
  '((buffer, position), flags) ← sdmesg_loop (S (length format)) mem format 0 max_len buffer 0 false ap 0;
  b ← (if position <? max_len then aset buffer position 0 else Ok buffer);
  Ok ((b, position), flags).

(** * The log *)

Record klog := KLog { dmesg_buffer : list Z; dmesg_position : Z; dmesg_lock : bool; kcon : console }.
Definition set_log b p k := KLog b p (dmesg_lock k) (kcon k).
Definition set_dlock v k := KLog (dmesg_buffer k) (dmesg_position k) v (kcon k).
Definition set_kcon v k := KLog (dmesg_buffer k) (dmesg_position k) (dmesg_lock k) v.

Definition on_con {B} (m : M console B) : M klog B :=
  fun k => match m (kcon k) with Ok (b, c) => Ok (b, set_kcon c k) | Halt f => Halt f end.

(** The loop of [dmesg] that appends to the ring. *)
Fixpoint append_loop (n : nat) (i : Z) (buffer ring : list Z) (position : Z) : outcome (list Z) :=
  match n with
  | O => Ok ring
  | S n => c ← aget buffer i; r ← aset ring (Z.rem (position + i) DMESG_BUFSIZE) c; append_loop n (i + 1) buffer r position
  end.

Section dmesg.
Variable inb : list (Z * Z) -> Z -> Z.

Definition dmesg_clear : M klog unit := on_con clear.

(** [stack] is what the local buffer holds at first. *)
Definition dmesg (mem : gmap Z (list Z)) (stack format ap : list Z) : M klog Z :=
  '((buffer, rc), flags) ← liftO (sdmesg mem stack DMESG_TMPSIZE format ap);
  k ← getS;
  r ← liftO (append_loop (Z.to_nat rc) 0 buffer (dmesg_buffer k) (dmesg_position k));
  modifyS (set_log r (Z.rem (dmesg_position k + rc) DMESG_BUFSIZE)) ;;
  (if Z.land flags 1 =? 1 then on_con (puts inb buffer) else on_con (puts inb buffer)) ;;
  mret rc.

Definition dmesg_xy (mem : gmap Z (list Z)) (stack : list Z) (x y : Z) (format ap : list Z) : M klog Z :=
  '((buffer, rc), flags) ← liftO (sdmesg mem stack DMESG_TMPSIZE format ap);
  on_con (puts_xy x y buffer) ;;
  mret rc.

(** The buffer of the caller and the number of characters. *)
Definition get_dmesg (buffer : list Z) (len : Z) : M klog (list Z * Z) :=
  k ← getS;
  (if dmesg_lock k then liftO (Halt Spin) else modifyS (set_dlock true)) ;;
  let size := if len <? dmesg_position k then len else dmesg_position k in
  b ← liftO (kmemcpy buffer (dmesg_buffer k) size);
  modifyS (set_dlock false) ;;
  mret (b, size).

Definition get_dmesg_size : Z := DMESG_BUFSIZE.
End dmesg.
