(* ===== verification/DmesgRep.v ===== *)
(** What the printers of [Dmesg] write: the text of every conversion, and of a
    whole format, without the limit of the buffer. *)
From S2P Require Import Prelude Cpu Strings Console Dmesg.

(** * Text in a buffer *)

Definition put_at (b : list Z) (off : Z) (txt : list Z) : list Z :=
  take (Z.to_nat off) b ++ txt ++ drop (Z.to_nat off + length txt) b.

Lemma put_at_nil b off : put_at b off [] = b.
Proof. unfold put_at. by rewrite app_nil_l, Nat.add_0_r, take_drop. Qed.

Lemma length_put_at b off txt : 0 <= off -> off + Z.of_nat (length txt) <= Z.of_nat (length b) -> length (put_at b off txt) = length b.
Proof. intros. unfold put_at. rewrite !length_app, length_take, length_drop. lia. Qed.

Lemma put_at_app b off t1 t2 : 0 <= off -> off + Z.of_nat (length t1 + length t2) <= Z.of_nat (length b) ->
  put_at (put_at b off t1) (off + Z.of_nat (length t1)) t2 = put_at b off (t1 ++ t2).
Proof.
  intros Ho Hb. unfold put_at. set (n := Z.to_nat off) in *. assert (length (take n b) = n) as Hn by (rewrite length_take; lia).
  replace (Z.to_nat (off + Z.of_nat (length t1))) with (n + length t1)%nat by lia. rewrite (app_assoc (take n b) t1).
  assert (length (take n b ++ t1) = (n + length t1)%nat) as Hl by (rewrite length_app; lia). rewrite take_app_length' by done.
  rewrite drop_app_ge, Hl, drop_drop, length_app, <- !app_assoc by lia. do 4 f_equal. lia.
Qed.

Lemma put_at_one b off c : 0 <= off < Z.of_nat (length b) -> <[Z.to_nat off := c]> b = put_at b off [c].
Proof.
  intros Ho. unfold put_at. set (n := Z.to_nat off). destruct (lookup_lt_is_Some_2 b n) as [x Hx]; [lia |].
  rewrite <- (take_drop_middle _ _ _ Hx) at 1. rewrite insert_app_r_alt by (rewrite length_take; lia).
  assert (length (take n b) = n) as -> by (rewrite length_take; lia). rewrite Nat.sub_diag. simpl. by rewrite Nat.add_1_r.
Qed.

Lemma put_at_cons b off c t : 0 <= off -> off + 1 + Z.of_nat (length t) <= Z.of_nat (length b) ->
  put_at (<[Z.to_nat off := c]> b) (off + 1) t = put_at b off (c :: t).
Proof. intros Ho Hb. rewrite put_at_one by lia. apply (put_at_app b off [c] t); simpl; lia. Qed.

Lemma emit_loop_ok digits b off len count : 0 <= off -> 0 <= count <= len -> off + len <= Z.of_nat (length b) ->
  emit_loop digits b off len count = Ok (put_at b (off + count) (take (Z.to_nat (len - count)) digits), Z.min len (count + Z.of_nat (length digits))).
Proof.
  intros Ho. revert b count. induction digits as [|c digits IH]; intros b count Hc Hb; cbn [emit_loop].
  { rewrite take_nil, put_at_nil. simpl. do 2 f_equal. lia. }
  destruct (Z.leb_spec len count).
  - replace (Z.to_nat (len - count)) with 0%nat by lia. rewrite take_0, put_at_nil. do 2 f_equal. lia.
  - rewrite aset_lt by lia. cbn [mbind outcome_bind]. rewrite IH by (rewrite ?length_insert; lia). do 2 f_equal; [|simpl; lia].
    replace (Z.to_nat (len - count)) with (S (Z.to_nat (len - (count + 1)))) by lia. cbn [take].
    rewrite Z.add_assoc, put_at_cons; [done | lia |]. rewrite length_take. lia.
Qed.

Lemma string_loop_ok fuel s b off len count : terminated (drop (Z.to_nat count) s) -> (length s < fuel + Z.to_nat count)%nat -> 0 <= off -> 0 <= count <= len -> off + len <= Z.of_nat (length b) ->
  let txt := cstr (drop (Z.to_nat count) s) in
  string_loop fuel s b off len count = Ok (put_at b (off + count) (take (Z.to_nat (len - count)) txt), Z.min len (count + Z.of_nat (length txt))).
Proof.
  revert b count. induction fuel as [|fuel IH]; intros b count Ht Hf Ho Hc Hb txt.
  { apply list_elem_of_lookup in Ht as [j Hj]. rewrite lookup_drop in Hj. apply lookup_lt_Some in Hj. lia. }
  cbn [string_loop]. assert (is_Some (s !! Z.to_nat count)) as [c Hs].
  { apply lookup_lt_is_Some_2. apply list_elem_of_lookup in Ht as [j Hj]. rewrite lookup_drop in Hj. apply lookup_lt_Some in Hj. lia. }
  assert (aget s count = Ok c) as -> by (apply aget_Some; split; [lia | done]). cbn [mbind outcome_bind]. unfold txt. rewrite (drop_S _ _ _ Hs) in *. cbn [cstr].
  destruct (Z.eqb_spec c 0) as [->|Hc0]. { rewrite take_nil, put_at_nil. simpl. do 2 f_equal. lia. }
  replace (S (Z.to_nat count)) with (Z.to_nat (count + 1)) in * by lia. destruct (Z.leb_spec len count).
  - replace (Z.to_nat (len - count)) with 0%nat by lia. rewrite take_0, put_at_nil. do 2 f_equal. simpl. lia.
  - apply elem_of_cons in Ht as [|Ht]; [lia |]. rewrite aset_lt by lia. cbn [mbind outcome_bind]. rewrite IH by (rewrite ?length_insert; (done || lia)). do 2 f_equal; [|simpl; lia].
    replace (Z.to_nat (len - count)) with (S (Z.to_nat (len - (count + 1)))) by lia. cbn [take].
    rewrite Z.add_assoc, put_at_cons; [done | lia |]. rewrite length_take. lia.
Qed.

(** A printer writes a text as far as there is room. *)
Definition written (b : list Z) (off len : Z) (txt : list Z) : list Z * Z := (put_at b off (take (Z.to_nat len) txt), Z.min len (Z.of_nat (length txt))).

Lemma emit_ok number b off len : 0 <= off -> 0 <= len -> off + len <= Z.of_nat (length b) -> emit number b off len = Ok (written b off len (rev number)).
Proof. intros. unfold emit. rewrite emit_loop_ok by lia. unfold written. by rewrite Z.add_0_r, Z.sub_0_r. Qed.

Lemma dmesg_string_ok b off len str : terminated (default [78; 85; 76; 76; 0] str) -> 0 <= off -> 0 <= len -> off + len <= Z.of_nat (length b) ->
  dmesg_string b off len str = Ok (written b off len (cstr (default [78; 85; 76; 76; 0] str))).
Proof.
  intros. unfold dmesg_string. cbn zeta. set (s := default _ str) in *. pose proof (string_loop_ok (S (length s)) s b off len 0) as Hs. cbn zeta in Hs.
  change (Z.to_nat 0) with 0%nat in Hs. rewrite drop_0, Z.add_0_r, Z.sub_0_r in Hs. rewrite Hs by (done || lia). done.
Qed.

(** * Numbers *)

(** The digits of [n], the last one first. *)
Fixpoint digits (fuel : nat) (base n : Z) : list Z :=
  match fuel with
  | O => []
  | S fuel => n mod base :: if n / base =? 0 then [] else digits fuel base (n / base)
  end.
Definition value (base : Z) (ds : list Z) : Z := foldr (fun d v => d + base * v) 0 ds.

Lemma digits_value fuel base n : 1 < base -> 0 <= n < base ^ Z.of_nat fuel -> value base (digits fuel base n) = n.
Proof.
  intros Hb. revert n. induction fuel as [|fuel IH]; intros n Hn; [simpl in *; lia |]. cbn [digits value foldr].
  rewrite Nat2Z.inj_succ, Z.pow_succ_r in Hn by lia. pose proof (Z.div_mod n base ltac:(lia)). destruct (Z.eqb_spec (n / base) 0) as [E|]; [simpl; lia |].
  fold (value base (digits fuel base (n / base))). rewrite IH; [lia |]. split; [apply Z.div_pos; lia |]. apply Z.div_lt_upper_bound; lia.
Qed.

Lemma digits_range fuel base n d : 1 < base -> d ∈ digits fuel base n -> 0 <= d < base.
Proof.
  intros Hb. revert n. induction fuel as [|fuel IH]; intros n; cbn [digits]; [by intros ?%not_elem_of_nil |].
  intros [->|Hd]%elem_of_cons; [by apply Z.mod_pos_bound; lia |]. destruct (n / base =? 0); [by apply not_elem_of_nil in Hd | by apply IH in Hd].
Qed.

(** No leading zero. *)
Lemma digits_last fuel base n ds : 1 < base -> 0 <= n < base ^ Z.of_nat fuel -> digits fuel base n = ds ++ [0] -> ds = [].
Proof.
  intros Hb. revert n ds. induction fuel as [|fuel IH]; intros n ds Hn; cbn [digits]; [by destruct ds |].
  rewrite Nat2Z.inj_succ, Z.pow_succ_r in Hn by lia. destruct (Z.eqb_spec (n / base) 0) as [E|Hne].
  - by destruct ds as [|x [|y ds]].
  - assert (0 <= n / base < base ^ Z.of_nat fuel) as Hd by (split; [apply Z.div_pos; lia | apply Z.div_lt_upper_bound; lia]).
    destruct ds as [|x ds]; intros E; injection E as E1 E2.
    + destruct fuel; [simpl in Hd; lia | simpl in E2; discriminate].
    + pose proof (IH _ _ Hd E2) as ->. pose proof (digits_value fuel base (n / base) Hb Hd) as Hv. rewrite E2 in Hv. simpl in Hv. lia.
Qed.

Lemma s8_small z : -128 <= z < 128 -> s8 z = z.
Proof. intros. unfold s8. rewrite Z.mod_small; lia. Qed.

Lemma push_ok cap c number : (length number < cap)%nat -> -128 <= c < 128 -> push cap c number = Ok (number ++ [c]).
Proof. intros Hl Hc. unfold push. rewrite decide_True by done. by rewrite s8_small. Qed.

(** The sign of the number is the sign of its digits. *)
Lemma uint_digits_ok fuel sg n number : sg = 1 \/ sg = -1 -> 0 <= n < 10 ^ Z.of_nat fuel -> (0 < fuel)%nat -> (length number + fuel <= 32)%nat ->
  uint_digits fuel (sg * n) number = Ok (number ++ map (fun d => sg * d + 48) (digits fuel 10 n)).
Proof.
  intros Hsg. revert n number. induction fuel as [|fuel IH]; intros n number Hn H0 Hl; [lia |]. cbn [uint_digits digits].
  rewrite Nat2Z.inj_succ, Z.pow_succ_r in Hn by lia. pose proof (Z.mod_pos_bound n 10 ltac:(lia)). pose proof (Z.div_mod n 10 ltac:(lia)).
  assert (Z.rem (sg * n) 10 = sg * (n mod 10) /\ Z.quot (sg * n) 10 = sg * (n / 10)) as [-> ->].
  { destruct Hsg as [->| ->]; [rewrite !Z.mul_1_l, Z.rem_mod_nonneg, Z.quot_div_nonneg by lia; done |].
    replace (-1 * n) with (- n) by lia. rewrite Z.rem_opp_l, Z.quot_opp_l, Z.rem_mod_nonneg, Z.quot_div_nonneg by lia. lia. }
  rewrite push_ok by lia. cbn [mbind outcome_bind]. cbn zeta. destruct (Z.eqb_spec (sg * n) 0) as [E|Hne].
  - assert (n = 0) as -> by lia. done.
  - destruct (Z.eqb_spec (sg * (n / 10)) 0), (Z.eqb_spec (n / 10) 0); try lia; [done |]. assert (0 < fuel)%nat as Hf by (destruct fuel; [simpl in Hn |]; lia).
    rewrite IH; [by rewrite <- app_assoc | | done | rewrite length_app; simpl; lia]. split; [apply Z.div_pos; lia | apply Z.div_lt_upper_bound; lia].
Qed.

Definition sign (n : Z) : Z := if n <? 0 then -1 else 1.

(** The digits of the number as [int]: [dmesg_uint] keeps it in one. *)
Definition uint_text (num : Z) : list Z := rev (map (fun d => sign (s32 num) * d + 48) (digits 32 10 (Z.abs (s32 num)))).

Lemma dmesg_uint_ok b off len num : 0 <= off -> 0 <= len -> off + len <= Z.of_nat (length b) -> dmesg_uint b off len num = Ok (written b off len (uint_text num)).
Proof.
  intros. unfold dmesg_uint. pose proof (s32_range num) as Hr. unfold is_s32 in Hr.
  assert (s32 num = sign (s32 num) * Z.abs (s32 num)) as E by (unfold sign; destruct (Z.ltb_spec (s32 num) 0); lia).
  rewrite E at 1. rewrite uint_digits_ok; [| | | lia | simpl; lia].
  - cbn [mbind outcome_bind]. by rewrite app_nil_l, emit_ok.
  - unfold sign. destruct (s32 num <? 0); lia.
  - assert (10 ^ Z.of_nat 32 = 100000000000000000000000000000000) as -> by reflexivity. lia.
Qed.

Definition hex_digit (d : Z) : Z := if d <? 10 then d + 48 else d - 10 + 65.
Definition hex_text (num : Z) : list Z := 48 :: 120 :: rev (map hex_digit (digits 32 16 num)).

Lemma hex_digits_ok fuel n number : 0 <= n < 16 ^ Z.of_nat fuel -> (0 < fuel)%nat -> (length number + fuel <= 64)%nat ->
  hex_digits fuel n number = Ok (number ++ map hex_digit (digits fuel 16 n)).
Proof.
  revert n number. induction fuel as [|fuel IH]; intros n number Hn H0 Hl; [lia |]. cbn [hex_digits digits].
  rewrite Nat2Z.inj_succ, Z.pow_succ_r in Hn by lia. pose proof (Z.mod_pos_bound n 16 ltac:(lia)). pose proof (Z.div_mod n 16 ltac:(lia)). cbn zeta.
  fold (hex_digit (n mod 16)). rewrite push_ok; [|lia | unfold hex_digit; destruct (Z.ltb_spec (n mod 16) 10); lia]. cbn [mbind outcome_bind].
  destruct (Z.eqb_spec n 0) as [->|Hne]; [done |]. destruct (Z.eqb_spec (n / 16) 0); [done |]. assert (0 < fuel)%nat as Hf by (destruct fuel; [simpl in Hn |]; lia).
  rewrite IH; [by rewrite <- app_assoc | | done | rewrite length_app; simpl; lia]. split; [apply Z.div_pos; lia | apply Z.div_lt_upper_bound; lia].
Qed.

Lemma length_digits fuel base n : (length (digits fuel base n) <= fuel)%nat.
Proof. revert n. induction fuel as [|fuel IH]; intros n; cbn [digits length]; [lia |]. destruct (n / base =? 0); simpl; [lia |]. specialize (IH (n / base)). lia. Qed.

Lemma dmesg_hex_ok b off len num : is_u32 num -> 0 <= off -> 0 <= len -> off + len <= Z.of_nat (length b) -> dmesg_hex b off len num = Ok (written b off len (hex_text num)).
Proof.
  intros Hn ? ? ?. unfold dmesg_hex. rewrite hex_digits_ok; [| | lia | simpl; lia].
  - cbn [mbind outcome_bind]. pose proof (length_digits 32 16 num). rewrite push_ok by (rewrite ?app_nil_l, ?length_map; lia). cbn [mbind outcome_bind].
    rewrite push_ok by (rewrite ?length_app, ?length_map; cbn [length]; lia). cbn [mbind outcome_bind]. rewrite emit_ok by done. unfold hex_text.
    generalize (map hex_digit (digits 32 16 num)). intros ds. by rewrite app_nil_l, !rev_app_distr.
  - assert (16 ^ Z.of_nat 32 = 340282366920938463463374607431768211456) as -> by reflexivity. unfold is_u32, two32 in Hn. lia.
Qed.

(** The number of [dmesg_bin], its last character first. *)
Fixpoint bin_number (fuel : nat) (tmp : Z) (number : list Z) : list Z :=
  match fuel with
  | O => number
  | S fuel =>
      if tmp <=? 0 then number
      else
        let number := number ++ [if Z.land tmp 1 =? 1 then 49 else 48] in
        bin_number fuel (Z.shiftr tmp 1) (if (length number mod 9 =? 0)%nat then number ++ [32] else number)
  end.
Definition bin_text (num : Z) : list Z := rev (bin_number 33 num [98]).

Lemma bin_digits_ok fuel tmp number : 0 <= tmp < 2 ^ (Z.of_nat fuel - 1) -> (length number + 2 * fuel <= 128)%nat -> bin_digits fuel tmp number = Ok (bin_number fuel tmp number).
Proof.
  revert tmp number. induction fuel as [|fuel IH]; intros tmp number Ht Hl; [simpl in Ht; lia |]. cbn [bin_digits bin_number].
  destruct (Z.leb_spec tmp 0); [done |]. rewrite push_ok by (try lia; destruct (Z.land tmp 1 =? 1); lia). cbn [mbind outcome_bind]. cbn zeta.
  set (number' := number ++ _). assert (length number' = S (length number)) as Hl' by (unfold number'; rewrite length_app; simpl; lia).
  assert (0 <= Z.shiftr tmp 1 < 2 ^ (Z.of_nat fuel - 1)) as Hs.
  { rewrite Z.shiftr_div_pow2 by lia. change (2 ^ 1) with 2. assert (1 <= Z.of_nat fuel) by (destruct fuel; [simpl in Ht |]; lia).
    replace (Z.of_nat (S fuel) - 1) with (Z.succ (Z.of_nat fuel - 1)) in Ht by lia. rewrite Z.pow_succ_r in Ht by lia.
    split; [apply Z.div_pos; lia | apply Z.div_lt_upper_bound; lia]. }
  destruct (length number' mod 9 =? 0)%nat.
  - rewrite push_ok by lia. cbn [mbind outcome_bind]. apply IH; [done |]. rewrite length_app, Hl'. simpl. lia.
  - apply IH; [done | lia].
Qed.

Lemma dmesg_bin_ok b off len num : is_u32 num -> 0 <= off -> 0 <= len -> off + len <= Z.of_nat (length b) -> dmesg_bin b off len num = Ok (written b off len (bin_text num)).
Proof.
  intros Hn ? ? ?. unfold dmesg_bin. rewrite push_ok by (simpl; lia). cbn [mbind outcome_bind app]. rewrite bin_digits_ok; [|exact Hn | simpl; lia].
  cbn [mbind outcome_bind]. rewrite emit_ok by done. unfold bin_text. reflexivity.
Qed.

(** A negative number that fills the room to its end counts one character less. *)
Definition int_text (num : Z) : list Z := if 0 <=? num then uint_text (u32 num) else 45 :: uint_text (u32 (- num)).

Lemma dmesg_int_ok b off len num : 0 <= off -> 0 <= len -> off + len <= Z.of_nat (length b) -> exists n,
  dmesg_int b off len num = Ok (put_at b off (take (Z.to_nat len) (int_text num)), n) /\ 0 <= n <= len /\ n <= Z.of_nat (length (int_text num)) /\
  (Z.of_nat (length (int_text num)) < len -> n = Z.of_nat (length (int_text num))).
Proof.
  intros Ho Hl Hb. unfold dmesg_int, int_text. destruct (Z.leb_spec 0 num).
  { rewrite dmesg_uint_ok by done. eexists. split; [done |]. lia. }
  rewrite dmesg_string_ok by (try done; by apply elem_of_cons; right; apply elem_of_cons; left). change (cstr (default [78; 85; 76; 76; 0] (Some [45; 0]))) with [45].
  cbn [mbind outcome_bind written]. unfold written. cbn iota beta. change (Z.of_nat (length [45])) with 1. destruct (Z.eqb_spec (Z.min len 1) len) as [E|].
  { exists len. split; [|cbn [length]; lia]. destruct (Z.to_nat len) as [|[|k]] eqn:Ek; [done | done | lia]. }
  assert (take (Z.to_nat len) [45] = [45]) as -> by (apply take_ge; simpl; lia).
  assert (length (put_at b off [45]) = length b) as Hlp by (apply length_put_at; simpl; lia).
  rewrite dmesg_uint_ok by (rewrite ?Hlp; lia). cbn [mbind outcome_bind written]. unfold written. cbn iota beta. generalize (uint_text (u32 (- num))). intros U.
  replace (off + 1) with (off + Z.of_nat (length [45])) by (simpl; lia). rewrite put_at_app by (rewrite ?length_take; simpl; lia).
  assert ([45] ++ take (Z.to_nat (len - 1)) U = take (Z.to_nat len) (45 :: U)) as -> by (replace (Z.to_nat len) with (S (Z.to_nat (len - 1))) by lia; done).
  cbn [length]. destruct (Z.leb_spec (len - 1) (Z.min (len - 1) (Z.of_nat (length U)))); eexists; (split; [done | lia]).
Qed.

(** * A whole format *)

Definition str_text (mem : gmap Z (list Z)) (p : Z) : option (list Z) :=
  if p =? NULL then Some [78; 85; 76; 76] else s ← mem !! p; if decide (terminated s) then Some (cstr s) else None.

(** The text of a conversion, and what is left of the arguments and the flags. *)
Definition conv_text (mem : gmap Z (list Z)) (letter : Z) (ap : list Z) (flags : Z) : option (list Z * (list Z * Z)) :=
  let word (f : Z -> option (list Z)) := match ap with w :: ap => txt ← f w; Some (txt, (ap, flags)) | [] => None end in
  if letter =? 33 then Some ([], (ap, Z.lor flags 1))
  else if letter =? 115 then word (str_text mem)
  else if letter =? 105 then word (fun w => Some (int_text (s32 w)))
  else if letter =? 117 then word (fun w => Some (uint_text w))
  else if letter =? 98 then word (fun w => Some (bin_text w))
  else if letter =? 120 then word (fun w => Some (hex_text w))
  else if letter =? 112 then word (fun w => Some (hex_text w))
  else Some ([], (ap, flags)).

(** The text of a format, without a limit. *)
Fixpoint render (mem : gmap Z (list Z)) (format : list Z) (modifier : bool) (ap : list Z) (flags : Z) : option (list Z * Z) :=
  match format with
  | [] => Some ([], flags)
  | c :: format =>
      if modifier then '(txt, (ap, flags)) ← conv_text mem c ap flags; '(rest, fl) ← render mem format false ap flags; Some (txt ++ rest, fl)
      else if c =? 37 then render mem format true ap flags
      else '(rest, fl) ← render mem format false ap flags; Some (c :: rest, fl)
  end.

Lemma convert_ok mem letter b off len ap flags txt ap' fl' : Forall is_u32 ap -> conv_text mem letter ap flags = Some (txt, (ap', fl')) ->
  0 <= off -> 0 <= len -> off + len <= Z.of_nat (length b) -> exists n,
  convert mem letter b off len ap flags = Ok ((put_at b off (take (Z.to_nat len) txt), n), (ap', fl')) /\ Forall is_u32 ap' /\
  0 <= n <= len /\ n <= Z.of_nat (length txt) /\ (Z.of_nat (length txt) < len -> n = Z.of_nat (length txt)) /\
  (letter <> 105 -> n = Z.min len (Z.of_nat (length txt))).
Proof.
  intros Hap E Ho Hl Hb. unfold convert, conv_text in *. cbn zeta in *.
  assert (forall fl, Some ([] : list Z, (ap, fl)) = Some (txt, (ap', fl')) -> exists n, Ok ((b, 0), (ap, fl)) = Ok ((put_at b off (take (Z.to_nat len) txt), n), (ap', fl')) /\ Forall is_u32 ap' /\
    0 <= n <= len /\ n <= Z.of_nat (length txt) /\ (Z.of_nat (length txt) < len -> n = Z.of_nat (length txt)) /\ (letter <> 105 -> n = Z.min len (Z.of_nat (length txt)))) as Hnil.
  { intros fl [= <- <- <-]. exists 0. rewrite take_nil, put_at_nil. split_and!; (done || simpl; lia). }
  destruct (Z.eqb_spec letter 33); [by apply Hnil |].
  destruct ap as [|w ap]; [repeat case_match; try done; by apply Hnil |]. apply Forall_cons in Hap as [Hw Hap]. cbn [va_arg mbind outcome_bind option_bind] in *.
  assert (forall r, r = written b off len txt -> exists n, Ok (r, (ap, flags)) = Ok ((put_at b off (take (Z.to_nat len) txt), n), (ap, flags)) /\ Forall is_u32 ap /\
    0 <= n <= len /\ n <= Z.of_nat (length txt) /\ (Z.of_nat (length txt) < len -> n = Z.of_nat (length txt)) /\ (letter <> 105 -> n = Z.min len (Z.of_nat (length txt)))) as Hw'.
  { intros r ->. eexists. split; [done |]. split; [done | lia]. }
  destruct (Z.eqb_spec letter 115).
  { unfold str_text, load_str in *. destruct (Z.eqb_spec w NULL) as [->|Hne]; cbn [mbind outcome_bind option_bind] in *.
    - injection E as <- <- <-. rewrite dmesg_string_ok by (try done; repeat (first [by apply elem_of_cons; left | apply elem_of_cons; right])). cbn [mbind outcome_bind]. by apply Hw'.
    - destruct (mem !! w) as [s|] eqn:Es; [|done]. cbn [mbind option_bind] in E. destruct (decide (terminated s)); [|done]. injection E as <- <- <-.
      rewrite (hload_Some _ _ _ Hne Es). cbn [mbind outcome_bind]. rewrite dmesg_string_ok by done. by apply Hw'. }
  destruct (Z.eqb_spec letter 105).
  { injection E as <- <- <-. destruct (dmesg_int_ok b off len (s32 w) Ho Hl Hb) as (m & -> & H1 & H2 & H3). exists m. split; [done |]. split_and!; (done || lia). }
  destruct (Z.eqb_spec letter 117). { injection E as <- <- <-. rewrite dmesg_uint_ok by done. by apply Hw'. }
  destruct (Z.eqb_spec letter 98). { injection E as <- <- <-. rewrite dmesg_bin_ok by done. by apply Hw'. }
  destruct (Z.eqb_spec letter 120). { injection E as <- <- <-. rewrite dmesg_hex_ok by done. by apply Hw'. }
  destruct (Z.eqb_spec letter 112). { injection E as <- <- <-. unfold dmesg_ptr. rewrite dmesg_hex_ok by done. by apply Hw'. }
  by apply Hnil.
Qed.

(** ** No text holds a terminator *)

Lemma cstr_nonzero_all l : 0 ∉ cstr l.
Proof.
  induction l as [|c l IH]; simpl; [by apply not_elem_of_nil |]. destruct (Z.eqb_spec c 0); [by apply not_elem_of_nil |].
  apply not_elem_of_cons. split; [lia | done].
Qed.

Lemma uint_text_nonzero num : 0 ∉ uint_text num.
Proof.
  unfold uint_text. rewrite list_elem_of_In, <- in_rev, in_map_iff. intros (d & E & Hd). apply list_elem_of_In, digits_range in Hd; [|lia].
  unfold sign in E. destruct (s32 num <? 0); lia.
Qed.

Lemma hex_text_nonzero num : 0 ∉ hex_text num.
Proof.
  unfold hex_text. rewrite !not_elem_of_cons. split_and!; [done | done |]. rewrite list_elem_of_In, <- in_rev, in_map_iff. intros (d & E & Hd).
  apply list_elem_of_In, digits_range in Hd; [|lia]. unfold hex_digit in E. destruct (d <? 10); lia.
Qed.

Lemma bin_number_nonzero fuel tmp number : 0 ∉ number -> 0 ∉ bin_number fuel tmp number.
Proof.
  revert tmp number. induction fuel as [|fuel IH]; intros tmp number Hn; cbn [bin_number]; [done |]. destruct (tmp <=? 0); [done |]. cbn zeta.
  assert (0 ∉ number ++ [if Z.land tmp 1 =? 1 then 49 else 48]) as Hn'.
  { rewrite not_elem_of_app. split; [done |]. rewrite list_elem_of_singleton. destruct (Z.land tmp 1 =? 1); lia. }
  apply IH. destruct (_ =? 0)%nat; [|done]. rewrite not_elem_of_app. split; [done |]. rewrite list_elem_of_singleton. lia.
Qed.

#[local] Opaque digits bin_number.

Lemma conv_text_nonzero mem letter ap flags txt r : conv_text mem letter ap flags = Some (txt, r) -> 0 ∉ txt.
Proof.
  unfold conv_text. cbn zeta. destruct (letter =? 33); [by intros [= <- _]; apply not_elem_of_nil |].
  destruct ap as [|w ap]; [repeat case_match; try done; intros [= <- _]; apply not_elem_of_nil |].
  destruct (letter =? 115).
  { unfold str_text. destruct (w =? NULL); [intros [= <- _]; by rewrite !not_elem_of_cons; split_and!; try done; apply not_elem_of_nil |].
    destruct (mem !! w) as [s|]; [|done]. cbn [mbind option_bind]. destruct (decide (terminated s)); [|done]. intros [= <- _]. apply cstr_nonzero_all. }
  destruct (letter =? 105).
  { intros [= <- _]. unfold int_text. destruct (0 <=? s32 w); [apply uint_text_nonzero |]. apply not_elem_of_cons. split; [done | apply uint_text_nonzero]. }
  destruct (letter =? 117); [intros [= <- _]; apply uint_text_nonzero |].
  destruct (letter =? 98).
  { intros [= <- _]. unfold bin_text. rewrite list_elem_of_In, <- in_rev, <- list_elem_of_In. apply bin_number_nonzero. by rewrite list_elem_of_singleton. }
  destruct (letter =? 120); [intros [= <- _]; apply hex_text_nonzero |]. destruct (letter =? 112); [intros [= <- _]; apply hex_text_nonzero |].
  intros [= <- _]. apply not_elem_of_nil.
Qed.

(** ** The loop over the format *)

(** The buffer after [n] of the characters of [txt] were counted at [off]. *)
Record filled (b b' : list Z) (off n max_len : Z) (txt : list Z) (exact : Prop) : Prop := {
  fi_length : length b' = length b;
  fi_before : take (Z.to_nat off) b' = take (Z.to_nat off) b;
  fi_behind : drop (Z.to_nat max_len) b' = drop (Z.to_nat max_len) b;
  fi_count : 0 <= n <= max_len - off;
  fi_nonzero : 0 ∉ take (Z.to_nat n) (drop (Z.to_nat off) b');
  fi_fits : Z.of_nat (length txt) < max_len - off -> n = Z.of_nat (length txt) /\ take (Z.to_nat n) (drop (Z.to_nat off) b') = txt;
  fi_full : exact -> n = Z.min (max_len - off) (Z.of_nat (length txt))
}.

Lemma put_at_parts b off t : 0 <= off -> off + Z.of_nat (length t) <= Z.of_nat (length b) ->
  take (Z.to_nat off) (put_at b off t) = take (Z.to_nat off) b /\
  (forall n, (n <= length t)%nat -> take n (drop (Z.to_nat off) (put_at b off t)) = take n t) /\
  (forall m, (Z.to_nat off + length t <= m)%nat -> drop m (put_at b off t) = drop m b).
Proof.
  intros Ho Hb. unfold put_at. set (o := Z.to_nat off) in *. assert (length (take o b) = o) as Hl by (rewrite length_take; lia). split_and!.
  - by rewrite take_app_length'.
  - intros n Hn. rewrite drop_app_length' by done. apply take_app_le. lia.
  - intros m Hm. rewrite drop_app_ge by lia. rewrite drop_app_ge by lia. rewrite Hl, drop_drop. f_equal. lia.
Qed.

Lemma filled_step b off len max_len txt n (exact : Prop) : 0 <= off -> len = max_len - off -> 0 <= len -> max_len <= Z.of_nat (length b) -> 0 ∉ txt ->
  0 <= n <= len -> n <= Z.of_nat (length txt) -> (Z.of_nat (length txt) < len -> n = Z.of_nat (length txt)) -> (exact -> n = Z.min len (Z.of_nat (length txt))) ->
  filled b (put_at b off (take (Z.to_nat len) txt)) off n max_len txt exact.
Proof.
  intros Ho -> Hl Hb Hz Hn Hnt Hfit Hex. set (t := take (Z.to_nat (max_len - off)) txt).
  assert (length t = Nat.min (Z.to_nat (max_len - off)) (length txt)) as Ht by (unfold t; by rewrite length_take).
  destruct (put_at_parts b off t Ho ltac:(lia)) as (P1 & P2 & P3). split; try done.
  - apply length_put_at; lia.
  - apply P3. lia.
  - rewrite P2 by lia. intros Hin. apply Hz. unfold t in Hin. rewrite take_take in Hin. apply list_elem_of_lookup in Hin as [j Hj].
    apply lookup_take_Some in Hj as [Hj _]. apply list_elem_of_lookup. by exists j.
  - intros Hlt. specialize (Hfit Hlt). split; [done |]. rewrite P2 by lia. unfold t. rewrite take_take. apply take_ge. lia.
Qed.
