(* ===== verification/DmesgThms.v ===== *)
(** The theorems about the kernel log of [Dmesg]: what its printers write into a
    buffer of limited length, what the ring holds, and examples. *)
From S2P Require Import Prelude Cpu Strings Console Dmesg DmesgRep.

Lemma take_drop_split (l : list Z) o n m : take (n + m) (drop o l) = take n (drop o l) ++ take m (drop (o + n) l).
Proof.
  rewrite <- (drop_drop _ n o). generalize (drop o l). clear. intros l. rewrite <- (take_drop n l) at 1. rewrite take_app, take_take, length_take.
  rewrite Nat.min_r by lia. f_equal. destruct (decide (n <= length l)%nat).
  - f_equal. lia.
  - rewrite (drop_ge l) by lia. by rewrite !take_nil.
Qed.

Lemma take_drop_same (b b' : list Z) o n : take (o + n) b' = take (o + n) b -> take n (drop o b') = take n (drop o b).
Proof. intros E. by rewrite !take_drop_commute, E. Qed.

Lemma filled_trans b b1 b2 off n m max_len t1 t2 (e1 e2 : Prop) : 0 <= off -> filled b b1 off n max_len t1 e1 -> filled b1 b2 (off + n) m max_len t2 e2 ->
  filled b b2 off (n + m) max_len (t1 ++ t2) (e1 /\ e2).
Proof.
  intros Ho [A1 A2 A3 A4 A5 A6 A7] [B1 B2 B3 B4 B5 B6 B7]. replace (Z.to_nat (off + n)) with (Z.to_nat off + Z.to_nat n)%nat in * by lia.
  assert (take (Z.to_nat n) (drop (Z.to_nat off) b2) = take (Z.to_nat n) (drop (Z.to_nat off) b1)) as En by by apply take_drop_same.
  split; rewrite ?length_app.
  - congruence.
  - rewrite <- A2. replace (Z.to_nat off) with (Nat.min (Z.to_nat off) (Z.to_nat off + Z.to_nat n)) by lia. by rewrite <- !take_take, B2.
  - congruence.
  - lia.
  - rewrite Z2Nat.inj_add, take_drop_split, En, not_elem_of_app by lia. done.
  - intros Hlt. destruct (A6 ltac:(lia)) as [-> E1], (B6 ltac:(lia)) as [-> E2]. split; [lia |]. rewrite Z2Nat.inj_add, take_drop_split, En by lia. congruence.
  - intros [X1 X2]. rewrite (A7 X1) in *. rewrite (B7 X2). lia.
Qed.

Lemma filled_weaken b b' off n max_len txt (e e' : Prop) : (e' -> e) -> filled b b' off n max_len txt e -> filled b b' off n max_len txt e'.
Proof. intros He []. split; auto. Qed.

Lemma filled_none b off max_len e : 0 <= off <= max_len -> filled b b off 0 max_len [] e.
Proof. intros. split; try done; [lia | by apply not_elem_of_nil | simpl; lia]. Qed.

(** The loop writes the text of the format. *)
Lemma sdmesg_loop_ok fuel mem format i max_len b position modifier ap flags txt fl :
  (length format < fuel + i)%nat -> terminated (drop i format) -> Forall is_u32 ap -> render mem (cstr (drop i format)) modifier ap flags = Some (txt, fl) ->
  0 <= position <= max_len -> max_len <= Z.of_nat (length b) -> exists b' n,
  sdmesg_loop fuel mem format (Z.of_nat i) max_len b position modifier ap flags = Ok ((b', position + n), fl) /\
  filled b b' position n max_len txt (105 ∉ cstr (drop i format)).
Proof.
  revert i b position modifier ap flags txt. induction fuel as [|fuel IH]; intros i b position modifier ap flags txt Hf Ht Hap Hr Hp Hb.
  { apply list_elem_of_lookup in Ht as [j Hj]. rewrite lookup_drop in Hj. apply lookup_lt_Some in Hj. lia. }
  cbn [sdmesg_loop]. assert (is_Some (format !! i)) as [c Hc].
  { apply lookup_lt_is_Some_2. apply list_elem_of_lookup in Ht as [j Hj]. rewrite lookup_drop in Hj. apply lookup_lt_Some in Hj. lia. }
  rewrite (aget_nat _ _ _ Hc). cbn [mbind outcome_bind]. rewrite (drop_S _ _ _ Hc) in *. cbn [cstr] in *. replace (Z.of_nat i + 1) with (Z.of_nat (S i)) by lia.
  destruct (Z.eqb_spec c 0) as [->|Hc0].
  { injection Hr as <- <-. exists b, 0. rewrite Z.add_0_r. split; [done | by apply filled_none]. }
  apply elem_of_cons in Ht as [|Ht]; [done |]. cbn zeta. cbn [render] in Hr. destruct modifier.
  - destruct (conv_text mem c ap flags) as [[t1 [ap1 f1]]|] eqn:E1; [|done]. cbn [mbind option_bind] in Hr.
    destruct (render mem (cstr (drop (S i) format)) false ap1 f1) as [[t2 f2]|] eqn:E2; [|done]. injection Hr as <- <-.
    destruct (convert_ok mem c b position (max_len - position) ap flags t1 ap1 f1 Hap E1) as (n & -> & Hap1 & Hn & Hnt & Hfit & Hex); [lia | lia | lia |].
    cbn [mbind outcome_bind]. set (b1 := put_at b position (take (Z.to_nat (max_len - position)) t1)).
    assert (filled b b1 position n max_len t1 (c <> 105)) as F1 by (apply (filled_step _ _ (max_len - position)); try done; try lia; by apply (conv_text_nonzero mem c ap flags t1 (ap1, f1))).
    destruct (IH (S i) b1 (position + n) false ap1 f1 t2) as (b' & m & -> & F2); [lia | done | done | done | lia | by rewrite (fi_length _ _ _ _ _ _ _ F1) |].
    exists b', (n + m). split; [by rewrite Z.add_assoc |]. eapply filled_weaken; [|by apply (filled_trans b b1 b' position n m _ _ _ _ _ (proj1 Hp) F1 F2)].
    rewrite not_elem_of_cons. intros [X1 X2]. split; [by intros -> | done].
  - destruct (Z.eqb_spec c 37) as [->|Hc37].
    + destruct (IH (S i) b position true ap flags txt) as (b' & m & -> & F2); try done; [lia |]. exists b', m. split; [done |].
      eapply filled_weaken; [|exact F2]. rewrite not_elem_of_cons. by intros [_ ?].
    + destruct (render mem (cstr (drop (S i) format)) false ap flags) as [[t2 f2]|] eqn:E2; [|done]. injection Hr as <- <-.
      rewrite dmesg_string_ok; [|by apply elem_of_cons; right; apply elem_of_cons; left | lia | lia | lia]. assert (cstr (default [78; 85; 76; 76; 0] (Some [c; 0])) = [c]) as -> by (simpl; by destruct (Z.eqb_spec c 0)).
      cbn [mbind outcome_bind written]. unfold written. set (b1 := put_at b position _). set (n := Z.min _ _).
      assert (filled b b1 position n max_len [c] True) as F1.
      { apply (filled_step _ _ (max_len - position)); try done; try (unfold n; simpl; lia). rewrite list_elem_of_singleton. by apply not_eq_sym. }
      destruct (IH (S i) b1 (position + n) false ap flags t2) as (b' & m & -> & F2); [lia | done | done | done | unfold n; lia | by rewrite (fi_length _ _ _ _ _ _ _ F1) |].
      exists b', (n + m). split; [by rewrite Z.add_assoc |]. eapply filled_weaken; [|by apply (filled_trans b b1 b' position n m _ [c] _ _ _ (proj1 Hp) F1 F2)].
      rewrite not_elem_of_cons. by intros [X1 X2].
Qed.

(** ** The ring *)

(** The ring holds the last 16384 characters of everything that was logged. *)
Record logged (hist ring : list Z) (position : Z) : Prop := {
  lg_length : Z.of_nat (length ring) = DMESG_BUFSIZE;
  lg_position : position = Z.of_nat (length hist) mod DMESG_BUFSIZE;
  lg_last : forall j, (j < length hist)%nat -> Z.of_nat (length hist) <= Z.of_nat j + DMESG_BUFSIZE ->
    ring !! Z.to_nat (Z.of_nat j mod DMESG_BUFSIZE) = hist !! j
}.

Lemma logged_one hist ring position c : logged hist ring position -> logged (hist ++ [c]) (<[Z.to_nat position := c]> ring) (Z.rem (position + 1) DMESG_BUFSIZE).
Proof.
  intros [L1 L2 L3]. unfold DMESG_BUFSIZE in *. pose proof (Z.mod_pos_bound (Z.of_nat (length hist)) 16384 ltac:(lia)).
  split; [by rewrite length_insert | |].
  - rewrite length_app, Z.rem_mod_nonneg, L2, Zplus_mod_idemp_l by lia. simpl. f_equal. lia.
  - intros j Hj Hlast. unfold DMESG_BUFSIZE in *. rewrite length_app in Hj, Hlast. simpl in Hj, Hlast. pose proof (Z.mod_pos_bound (Z.of_nat j) 16384 ltac:(lia)).
    destruct (decide (j = length hist)) as [->|Hne].
    + rewrite <- L2, list_lookup_insert_eq by lia. symmetry. by apply list_lookup_middle.
    + rewrite lookup_app_l by lia. rewrite list_lookup_insert_ne; [apply L3; lia |]. intros E. apply Z2Nat.inj in E; [|lia | lia].
      pose proof (Z.div_mod (Z.of_nat j) 16384 ltac:(lia)). pose proof (Z.div_mod (Z.of_nat (length hist)) 16384 ltac:(lia)). lia.
Qed.

Lemma append_loop_ok n i buffer hist ring position : (i + n <= length buffer)%nat -> 0 <= position < DMESG_BUFSIZE -> logged hist ring (Z.rem (position + Z.of_nat i) DMESG_BUFSIZE) ->
  exists ring', append_loop n (Z.of_nat i) buffer ring position = Ok ring' /\ logged (hist ++ take n (drop i buffer)) ring' (Z.rem (position + Z.of_nat (i + n)) DMESG_BUFSIZE).
Proof.
  revert i hist ring. induction n as [|n IH]; intros i hist ring Hb Hp Hl; cbn [append_loop].
  { rewrite take_0, app_nil_r, Nat.add_0_r. by exists ring. }
  destruct (lookup_lt_is_Some_2 buffer i) as [c Hc]; [lia |]. rewrite (aget_nat _ _ _ Hc), (drop_S _ _ _ Hc). cbn [mbind outcome_bind take].
  pose proof (lg_length _ _ _ Hl) as Hlen. assert (0 < DMESG_BUFSIZE) as HB by done. pose proof (Z.mod_pos_bound (position + Z.of_nat i) DMESG_BUFSIZE HB).
  rewrite aset_lt by (rewrite Z.rem_mod_nonneg, Hlen; lia). cbn [mbind outcome_bind]. replace (Z.of_nat i + 1) with (Z.of_nat (S i)) by lia.
  destruct (IH (S i) (hist ++ [c]) (<[Z.to_nat (Z.rem (position + Z.of_nat i) DMESG_BUFSIZE) := c]> ring)) as (ring' & E & Hl'); [lia | done | |].
  - pose proof (logged_one _ _ _ c Hl) as H1. replace (Z.rem (position + Z.of_nat (S i)) DMESG_BUFSIZE) with (Z.rem (Z.rem (position + Z.of_nat i) DMESG_BUFSIZE + 1) DMESG_BUFSIZE); [done |].
    rewrite !Z.rem_mod_nonneg by (try rewrite Z.rem_mod_nonneg by lia; lia). rewrite Zplus_mod_idemp_l. f_equal. lia.
  - exists ring'. split; [exact E |]. rewrite <- app_assoc in Hl'. replace (i + S n)%nat with (S i + n)%nat by lia. exact Hl'.
Qed.

Lemma cstr_ended t r : 0 ∉ t -> cstr (t ++ 0 :: r) = t.
Proof.
  induction t as [|c t IH]; intros Hn; simpl; [done |]. apply not_elem_of_cons in Hn as [Hc Hn]. destruct (Z.eqb_spec c 0); [done |]. f_equal. by apply IH.
Qed.

(** What [sdmesg] leaves. *)
Lemma sdmesg_ok mem b max_len format ap txt fl : terminated format -> Forall is_u32 ap -> render mem (cstr format) false ap 0 = Some (txt, fl) ->
  0 <= max_len <= Z.of_nat (length b) -> exists b' n, sdmesg mem b max_len format ap = Ok ((b', n), fl) /\ length b' = length b /\
  drop (Z.to_nat max_len) b' = drop (Z.to_nat max_len) b /\ 0 <= n <= max_len /\ 0 ∉ take (Z.to_nat n) b' /\
  (n < max_len -> b' !! Z.to_nat n = Some 0) /\
  (Z.of_nat (length txt) < max_len -> n = Z.of_nat (length txt) /\ take (Z.to_nat n) b' = txt) /\
  (105 ∉ cstr format -> n = Z.min max_len (Z.of_nat (length txt))).
Proof.
  intros Ht Hap Hr Hb. destruct (sdmesg_loop_ok (S (length format)) mem format 0 max_len b 0 false ap 0 txt fl) as (b' & n & E & [F1 F2 F3 F4 F5 F6 F7]); [lia | done | done | done | lia | lia |].
  change (Z.to_nat 0) with 0%nat in *. rewrite drop_0 in F5, F6, F7. rewrite Z.sub_0_r in *. unfold sdmesg. change (Z.of_nat 0) with 0 in E. rewrite E. cbn [mbind outcome_bind].
  rewrite Z.add_0_l. destruct (Z.ltb_spec n max_len).
  - rewrite aset_lt by lia. cbn [mbind outcome_bind]. eexists _, n. split; [done |]. rewrite length_insert, drop_insert_lt, take_insert_ge by lia.
    split_and!; try done; try lia. intros _. apply list_lookup_insert_eq. lia.
  - exists b', n. cbn [mbind outcome_bind]. split_and!; (done || lia).
Qed.

(** * The theorems *)

(** C27. [dmesg_uint] prints the decimal digits of a number below 2^31, without
    leading zeros and cut at the room that is left.  It keeps the number in an
    [int], so that for any other number it prints the digits of its distance to
    2^32, each as the character that lies that far below the zero. *)
Theorem dmesg_uint_prints b off len num : is_u32 num -> 0 <= off -> 0 <= len -> off + len <= Z.of_nat (length b) -> exists ds,
  (forall d, d ∈ ds -> 0 <= d <= 9) /\ (forall ds', ds = ds' ++ [0] -> ds' = []) /\
  value 10 ds = (if num <? 2147483648 then num else two32 - num) /\
  dmesg_uint b off len num = Ok (written b off len (rev (map (fun d => if num <? 2147483648 then 48 + d else 48 - d) ds))).
Proof.
  intros Hn Ho Hl Hb. exists (digits 32 10 (Z.abs (s32 num))). unfold is_u32, two32 in Hn. pose proof (s32_range num) as Hr. unfold is_s32 in Hr.
  assert (0 <= Z.abs (s32 num) < 10 ^ Z.of_nat 32) as Hpow by (assert (10 ^ Z.of_nat 32 = 100000000000000000000000000000000) as -> by reflexivity; lia).
  assert (s32 num = if num <? 2147483648 then num else num - two32) as Es.
  { unfold two32. destruct (Z.ltb_spec num 2147483648); [by apply s32_small; unfold is_s32; lia |]. unfold s32, two32.
    rewrite <- (Z.mod_unique (num + 2147483648) 4294967296 1 (num - 2147483648)); lia. }
  split_and!.
  - intros d Hd. apply digits_range in Hd; lia.
  - intros ds'. apply digits_last; [lia | exact Hpow].
  - rewrite digits_value; [|lia | exact Hpow]. rewrite Es. unfold two32. destruct (Z.ltb_spec num 2147483648); lia.
  - rewrite dmesg_uint_ok by done. unfold uint_text. do 3 f_equal. apply map_ext. intros d. unfold sign. rewrite Es. unfold two32.
    destruct (Z.ltb_spec num 2147483648); [destruct (Z.ltb_spec num 0); lia | destruct (Z.ltb_spec (num - 4294967296) 0); lia].
Qed.

(** C25. [sdmesg] on any format whose arguments and strings are there: it ends,
    keeps to the first [max_len] characters of the buffer and answers at most
    [max_len].  It ends the text exactly when there is room for the terminator.
    A text that fits is written as a whole; without a conversion of an [int], a
    longer one is cut at [max_len]. *)
Theorem sdmesg_bounded mem b max_len format ap txt fl : terminated format -> Forall is_u32 ap -> render mem (cstr format) false ap 0 = Some (txt, fl) ->
  0 <= max_len <= Z.of_nat (length b) -> exists b' n, sdmesg mem b max_len format ap = Ok ((b', n), fl) /\ length b' = length b /\
  drop (Z.to_nat max_len) b' = drop (Z.to_nat max_len) b /\ 0 <= n <= max_len /\
  (n < max_len -> cstr b' = take (Z.to_nat n) b') /\ (n = max_len -> 0 ∉ take (Z.to_nat max_len) b') /\
  (Z.of_nat (length txt) < max_len -> n = Z.of_nat (length txt) /\ cstr b' = txt) /\
  (105 ∉ cstr format -> n = Z.min max_len (Z.of_nat (length txt))).
Proof.
  intros Ht Hap Hr Hb. destruct (sdmesg_ok mem b max_len format ap txt fl Ht Hap Hr Hb) as (b' & n & E & H1 & H2 & H3 & H4 & H5 & H6 & H7).
  exists b', n. assert (n < max_len -> cstr b' = take (Z.to_nat n) b') as Hc.
  { intros Hlt. rewrite <- (take_drop_middle _ _ _ (H5 Hlt)) at 1. by apply cstr_ended. }
  split_and!; try done; try lia.
  - by intros <-.
  - intros Hlt. destruct (H6 Hlt) as [En Et]. split; [done |]. rewrite Hc by lia. done.
Qed.

(** What the screen shows after a text. *)
Definition shown (c : console) (txt : list Z) (c' : console) : Prop := exists x y,
  cursor_ok x y /\ (0 <= s_x c -> 0 <= s_y c -> x = s_x c /\ y = s_y c) /\ type_text (screen c) x y txt = (screen c', s_x c', s_y c').

(** C26. [dmesg] appends a text of less than 512 characters to the ring, which
    holds the last 16384 characters of everything that was logged, and shows it
    on the screen.  A longer text leaves the local buffer without a terminator:
    [puts] runs past its end. *)
Theorem dmesg_logs inb mem stack format ap k hist txt fl : length stack = 512%nat -> logged hist (dmesg_buffer k) (dmesg_position k) -> console_ok (kcon k) ->
  terminated format -> Forall is_u32 ap -> render mem (cstr format) false ap 0 = Some (txt, fl) ->
  ((length txt < 512)%nat -> exists k', dmesg inb mem stack format ap k = Ok (Z.of_nat (length txt), k') /\
     logged (hist ++ txt) (dmesg_buffer k') (dmesg_position k') /\ console_ok (kcon k') /\ shown (kcon k) txt (kcon k')) /\
  ((512 <= length txt)%nat -> 105 ∉ cstr format -> dmesg inb mem stack format ap k = Halt BadAccess).
Proof.
  intros Hs Hl Hc Ht Hap Hr. destruct (sdmesg_ok mem stack DMESG_TMPSIZE format ap txt fl Ht Hap Hr) as (b' & n & E & H1 & _ & H3 & H4 & H5 & H6 & H7); [unfold DMESG_TMPSIZE; lia |].
  unfold DMESG_TMPSIZE in *. pose proof (lg_position _ _ _ Hl) as Hp. pose proof (Z.mod_pos_bound (Z.of_nat (length hist)) DMESG_BUFSIZE ltac:(done)).
  destruct (append_loop_ok (Z.to_nat n) 0 b' hist (dmesg_buffer k) (dmesg_position k)) as (ring & Ea & Hl'); [lia | lia |
    by rewrite Z.add_0_r, Z.rem_mod_nonneg, Z.mod_small by (unfold DMESG_BUFSIZE in *; lia) |]. rewrite drop_0 in Hl'.
  assert (forall (fl : Z), (if Z.land fl 1 =? 1 then on_con (puts inb b') else on_con (puts inb b')) = on_con (puts inb b')) as Ei by (intros; by destruct (_ =? 1)).
  set (k1 := set_log ring (Z.rem (dmesg_position k + n) DMESG_BUFSIZE) k).
  assert (dmesg inb mem stack format ap k = (on_con (puts inb b') ;; mret n) k1) as Erun.
  { unfold dmesg, DMESG_TMPSIZE. mrun. rewrite E. mrun. change 0 with (Z.of_nat 0) at 1. rewrite Ea. mrun. by rewrite Ei. }
  rewrite Erun. mrun. unfold on_con. cbn [kcon k1 set_log]. split.
  - intros Hlt. destruct (H6 ltac:(lia)) as [En Et]. assert (terminated b') as Hterm by (apply list_elem_of_lookup; exists (Z.to_nat n); apply H5; lia).
    destruct (puts_ok inb b' (kcon k) Hc Hterm) as (c1 & c' & Hc' & _ & Hx1 & Hsame & Htype & _ & _ & ->). exists (set_kcon c' k1).
    rewrite <- En. split; [done |]. split; [|split; [done |]].
    + rewrite Nat.add_0_l, Z2Nat.id, Et in Hl' by lia. exact Hl'.
    + exists (s_x c1), (s_y c1). split; [done |]. split; [intros X Y; by rewrite (Hsame X Y) |]. rewrite <- Et.
      rewrite <- (take_drop_middle _ _ _ (H5 ltac:(lia))), cstr_ended in Htype by done. exact Htype.
  - intros Hge Hi. specialize (H7 Hi). assert (n = 512) as -> by lia. rewrite puts_overrun; [done | done |].
    intros Hterm. apply H4. rewrite take_ge by lia. exact Hterm.
Qed.

(** [get_dmesg] answers what was logged since the ring last began anew, cut at
    the length of the buffer: what the ring still holds of the time before is
    not answered. *)
Theorem get_dmesg_reads k hist buffer len : logged hist (dmesg_buffer k) (dmesg_position k) -> dmesg_lock k = false -> 0 <= len ->
  let size := Z.min len (dmesg_position k) in size <= Z.of_nat (length buffer) ->
  get_dmesg buffer len k = Ok ((take (Z.to_nat size) (drop (Z.to_nat (DMESG_BUFSIZE * (Z.of_nat (length hist) / DMESG_BUFSIZE))) hist) ++ drop (Z.to_nat size) buffer, size), k).
Proof.
  intros [L1 L2 L3] Hlock Hlen size Hb. unfold get_dmesg. mrun. rewrite Hlock. mrun.
  assert ((if len <? dmesg_position k then len else dmesg_position k) = size) as -> by (unfold size; destruct (Z.ltb_spec len (dmesg_position k)); lia).
  unfold DMESG_BUFSIZE in *. pose proof (Z.mod_pos_bound (Z.of_nat (length hist)) 16384 ltac:(lia)). pose proof (Z.div_mod (Z.of_nat (length hist)) 16384 ltac:(lia)) as Hdm.
  set (q := Z.of_nat (length hist) / 16384) in *. rewrite kmemcpy_spec by (unfold is_u32, two32, size; lia). rewrite decide_True by (cbn; unfold size in *; lia).
  cbn [dmesg_buffer set_dlock]. assert (take (Z.to_nat size) (dmesg_buffer k) = take (Z.to_nat size) (drop (Z.to_nat (16384 * q)) hist)) as ->; [|destruct k; simpl in *; by rewrite Hlock].
  assert (0 <= q) by (apply Z.div_pos; lia). apply list_eq. intros j. destruct (decide (j < Z.to_nat size)%nat); [|by rewrite !lookup_take_ge by lia].
  rewrite !lookup_take_lt, lookup_drop by lia. rewrite <- L3 by (unfold size in *; lia). f_equal.
  rewrite Nat2Z.inj_add, Z2Nat.id, Z.add_comm, Z.mul_comm, Z.mod_add, Z.mod_small by (unfold size in *; lia). lia.
Qed.

(** An empty log before a blank screen. *)
Definition sample_klog : klog := KLog (replicate 16384 0) 0 false (Console (blanks 2000) 0 0 [] true).

Lemma sample_logged : logged [] (dmesg_buffer sample_klog) (dmesg_position sample_klog).
Proof. split; [vm_compute; reflexivity | reflexivity | simpl; lia]. Qed.

Lemma sample_console : console_ok (kcon sample_klog).
Proof. split; [vm_compute; reflexivity |]. right. right. unfold cursor_ok. simpl. lia. Qed.

Lemma dmesg_uint_prints_witness : exists ds, value 10 ds = 1 /\ dmesg_uint (replicate 12 0) 0 12 4294967295 = Ok (written (replicate 12 0) 0 12 (rev (map (fun d => 48 - d) ds))).
Proof.
  destruct (dmesg_uint_prints (replicate 12 0) 0 12 4294967295) as (ds & _ & _ & Hv & E).
  - split; reflexivity || lia.
  - lia.
  - lia.
  - rewrite length_replicate. lia.
  - exists ds. split; [exact Hv | exact E].
Defined.

(** ["%i"] with the argument -42 *)
Lemma sdmesg_bounded_witness : exists b' n, sdmesg ∅ (replicate 8 1) 4 [37; 105; 0] [4294967254] = Ok ((b', n), 0) /\ cstr b' = [45; 52; 50].
Proof.
  destruct (sdmesg_bounded ∅ (replicate 8 1) 4 [37; 105; 0] [4294967254] [45; 52; 50] 0) as (b' & n & E & _ & _ & _ & _ & _ & Hfit & _).
  - apply list_elem_of_further, list_elem_of_further, list_elem_of_here.
  - repeat constructor; unfold two32; lia.
  - vm_compute. reflexivity.
  - rewrite length_replicate. lia.
  - exists b', n. split; [exact E |]. apply Hfit. simpl. lia.
Defined.

(** ["hi\n"], and a string of 512 characters *)
Lemma dmesg_logs_witness : (exists k', dmesg (fun _ _ => 0) ∅ (replicate 512 1) [104; 105; 10; 0] [] sample_klog = Ok (3, k') /\
    logged [104; 105; 10] (dmesg_buffer k') (dmesg_position k')) /\
  dmesg (fun _ _ => 0) {[16 := replicate 512 65 ++ [0]]} (replicate 512 1) [37; 115; 0] [16] sample_klog = Halt BadAccess.
Proof.
  split.
  - destruct (dmesg_logs (fun _ _ => 0) ∅ (replicate 512 1) [104; 105; 10; 0] [] sample_klog [] [104; 105; 10] 0) as [Hyes _].
    + apply length_replicate.
    + exact sample_logged.
    + exact sample_console.
    + do 3 apply list_elem_of_further. apply list_elem_of_here.
    + constructor.
    + reflexivity.
    + destruct Hyes as (k' & E & Hl & _); [simpl; lia |]. exists k'. split; [exact E | exact Hl].
  - destruct (dmesg_logs (fun _ _ => 0) {[16 := replicate 512 65 ++ [0]]} (replicate 512 1) [37; 115; 0] [16] sample_klog [] (replicate 512 65) 0) as [_ Hno].
    + apply length_replicate.
    + exact sample_logged.
    + exact sample_console.
    + do 2 apply list_elem_of_further. apply list_elem_of_here.
    + repeat constructor; unfold two32; lia.
    + vm_compute. reflexivity.
    + apply Hno; [rewrite length_replicate; lia |]. cbn [cstr Z.eqb]. rewrite !not_elem_of_cons. split; [discriminate | split; [discriminate | apply not_elem_of_nil]].
Defined.

Lemma get_dmesg_reads_witness : get_dmesg [7; 7] 2 (KLog ([104; 105; 10] ++ replicate 16381 0) 3 false (kcon sample_klog)) =
  Ok (([104; 105], 2), KLog ([104; 105; 10] ++ replicate 16381 0) 3 false (kcon sample_klog)).
Proof.
  apply (get_dmesg_reads (KLog ([104; 105; 10] ++ replicate 16381 0) 3 false (kcon sample_klog)) [104; 105; 10] [7; 7] 2).
  - split; [cbn [dmesg_buffer]; rewrite length_app, length_replicate; reflexivity | reflexivity |]. intros j Hj _. simpl in Hj.
    destruct j as [|[|[|j]]]; [reflexivity | reflexivity | reflexivity | lia].
  - reflexivity.
  - lia.
  - cbn. lia.
Defined.
