(* ===== verification/Env.v ===== *)
(** Environment variables of processes (env.c): a growing array of named data
    blocks per process. *)
From S2P Require Import Prelude Mm Strings.

(** Codes of smk/err.h. *)
Definition SMK_OK : Z := 0.
Definition SMK_NOMEM : Z := -2.
Definition SMK_BAD_PARAMS : Z := -8.
Definition SMK_NOT_FOUND : Z := -14.
Definition SMK_REQUESTED_NOTHING : Z := -15.
Definition SMK_ENVNAME_LENGTH : Z := 1024.

(** [struct environ_info]; [sizeof] is 1032 on the target. *)
Record environ_info := EnvironInfo { ei_name : list Z; ei_size : Z; ei_data : Z }.
Definition environ_info_size : Z := 1032.

(** An entry of a block that [krealloc] enlarged, before it is written. *)
Definition raw_entry : environ_info := EnvironInfo (replicate 1024 0) 0 NULL.

(** The fields [environment] and [environment_count] of [struct process]. *)
Record proc_env := ProcEnv { environment : Z; environment_count : Z }.

(** The processes, the environment arrays, the data blocks and buffers by
    address, and the allocator. *)
Record env_state (A : Type) := EnvState {
  eprocs : gmap Z proc_env;
  envs : gmap Z (list environ_info);
  datas : gmap Z (list Z);
  emem : A
}.
Arguments EnvState {A} _ _ _ _.
Arguments eprocs {A} _.
Arguments envs {A} _.
Arguments datas {A} _.
Arguments emem {A} _.

Section env.
Context {A : Type} `{MmSubsystem A}.
Abbreviation K := (M (env_state A)).

Definition get_proc (p : Z) : K proc_env := s ← getS; liftO (hload (eprocs s) p).
Definition put_proc (p : Z) (v : proc_env) : K unit :=
  s ← getS; h ← liftO (hstore (eprocs s) p v);
  modifyS (fun s => EnvState h (envs s) (datas s) (emem s)).

(** [env[i]] and its update. *)
Definition entry_get (env i : Z) : K environ_info :=
  s ← getS; l ← liftO (hload (envs s) env); liftO (aget l i).
Definition entry_put (env i : Z) (e : environ_info) : K unit :=
  s ← getS; l ← liftO (hload (envs s) env); l ← liftO (aset l i e);
  modifyS (fun s => EnvState (eprocs s) (<[env := l]> (envs s)) (datas s) (emem s)).

Definition data_alloc (size : Z) : K Z :=
  s ← getS;
  let '(p, a) := kmalloc size (emem s) in
  modifyS (fun s => EnvState (eprocs s) (envs s)
    (if p =? NULL then datas s else <[p := replicate (Z.to_nat size) 0]> (datas s)) a) ;;
  mret p.
Definition data_free (p : Z) : K unit :=
  s ← getS; a ← liftO (kfree p (emem s));
  modifyS (fun s => EnvState (eprocs s) (envs s) (delete p (datas s)) a).
Definition data_copy (dest src n : Z) : K unit :=
  s ← getS; d ← liftO (hload (datas s) dest); c ← liftO (hload (datas s) src);
  d ← liftO (kmemcpy d c n);
  modifyS (fun s => EnvState (eprocs s) (envs s) (<[dest := d]> (datas s)) (emem s)).

(** [krealloc] of an environment array: the entries that fit are kept. *)
Definition env_realloc (env new_size : Z) : K Z :=
  s ← getS;
  '(q, a) ← liftO (krealloc env (u32 new_size) (emem s));
  let old := if env =? NULL then [] else default [] (envs s !! env) in
  let h := delete env (envs s) in
  let n := Z.to_nat (u32 new_size / environ_info_size) in
  modifyS (fun s => EnvState (eprocs s)
    (if q =? NULL then h else <[q := take n old ++ replicate (n - length old) raw_entry]> h)
    (datas s) a) ;;
  mret q.

(** The loops that look for a name: the index of the first entry that has it. *)
Fixpoint env_find (n : nat) (i env : Z) (name : list Z) : K (option Z) :=
  match n with
  | O => mret None
  | S n =>
      e ← entry_get env i;
      c ← liftO (kstrncmp (ei_name e) name SMK_ENVNAME_LENGTH);
      if c =? 0 then mret (Some i) else env_find n (i + 1) env name
  end.

(** [set_environment]; [None] is the null name, [data] an address. *)
Definition set_environment (proc : Z) (name : option (list Z)) (data size : Z) : K Z :=
  pr ← get_proc proc;
  let env := environment pr in
  let pos := environment_count pr in
  let new_size := s32 (u32 ((pos + 1) * environ_info_size)) in
  if data =? NULL then mret SMK_BAD_PARAMS
  else match name with
  | None => mret SMK_BAD_PARAMS
  | Some name =>
      if size =? 0 then mret SMK_REQUESTED_NOTHING
      else
        r ← env_find (Z.to_nat pos) 0 env name;
        match (r : option Z) with
        | Some i =>
            e ← entry_get env i;
            let tmp := ei_data e in
            d ← data_alloc size;
            entry_put env i (EnvironInfo (ei_name e) (ei_size e) d) ;;
            if d =? NULL then
              entry_put env i (EnvironInfo (ei_name e) (ei_size e) tmp) ;; mret SMK_NOMEM
            else
              data_free tmp ;;
              entry_put env i (EnvironInfo (ei_name e) size d) ;;
              data_copy d data size ;;
              mret SMK_OK
        | None =>
            tmp ← data_alloc size;
            if tmp =? NULL then mret SMK_NOMEM
            else
              q ← env_realloc env new_size;
              put_proc proc (ProcEnv q pos) ;;
              if q =? NULL then
                put_proc proc (ProcEnv q 0) ;;
                data_free tmp ;;
                mret SMK_NOMEM
              else
                data_copy tmp data size ;;
                e ← entry_get q pos;
                nm ← liftO (kstrncpy (ei_name e) name SMK_ENVNAME_LENGTH);
                entry_put q pos (EnvironInfo nm size tmp) ;;
                put_proc proc (ProcEnv q (s32 (pos + 1))) ;;
                mret SMK_OK
        end
  end.

(** [get_environment]: the code and the new value of [*size]. *)
Definition get_environment (proc : Z) (name : list Z) (data size : Z) : K (Z * Z) :=
  pr ← get_proc proc;
  r ← env_find (Z.to_nat (environment_count pr)) 0 (environment pr) name;
  match (r : option Z) with
  | None => mret (SMK_NOT_FOUND, size)
  | Some i =>
      e ← entry_get (environment pr) i;
      let new_size := if size <? ei_size e then size else ei_size e in
      data_copy data (ei_data e) new_size ;;
      mret (SMK_OK, new_size)
  end.

Definition get_environment_size (proc : Z) (name : list Z) : K (Z * option Z) :=
  pr ← get_proc proc;
  r ← env_find (Z.to_nat (environment_count pr)) 0 (environment pr) name;
  match (r : option Z) with
  | None => mret (SMK_NOT_FOUND, None)
  | Some i => e ← entry_get (environment pr) i; mret (0, Some (ei_size e))
  end.

(** [get_environment_information] into the caller's [name] array. *)
Definition get_environment_information (proc id : Z) (name : list Z) : K (Z * list Z * option Z) :=
  pr ← get_proc proc;
  if id <? 0 then mret (SMK_NOT_FOUND, name, None)
  else if environment_count pr <=? id then mret (SMK_NOT_FOUND, name, None)
  else
    e ← entry_get (environment pr) id;
    nm ← liftO (kstrncpy name (ei_name e) SMK_ENVNAME_LENGTH);
    mret (SMK_OK, nm, Some (ei_size e)).

(** The loop of [remove_environment]: [n] entries left from index [i]. *)
Fixpoint env_remove_loop (n : nat) (i found env : Z) (name : list Z) : K Z :=
  match n with
  | O => mret found
  | S n =>
      e ← entry_get env i;
      found ← (if found =? 0 then
                 c ← liftO (kstrncmp (ei_name e) name SMK_ENVNAME_LENGTH);
                 if c =? 0 then data_free (ei_data e) ;; mret 1 else mret found
               else
                 d ← entry_get env (i - 1);
                 nm ← liftO (kmemcpy (ei_name d) (ei_name e) SMK_ENVNAME_LENGTH);
                 entry_put env (i - 1) (EnvironInfo nm (ei_size e) (ei_data e)) ;;
                 mret found);
      env_remove_loop n (i + 1) found env name
  end.

Definition remove_environment (proc : Z) (name : list Z) : K Z :=
  pr ← get_proc proc;
  let env := environment pr in
  found ← env_remove_loop (Z.to_nat (environment_count pr)) 0 0 env name;
  if found =? 0 then mret SMK_NOT_FOUND
  else
    let new_size := s32 (u32 ((environment_count pr - 1) * environ_info_size)) in
    q ← env_realloc env new_size;
    put_proc proc (ProcEnv q (s32 (environment_count pr - 1))) ;;
    mret SMK_OK.

Fixpoint env_free_loop (n : nat) (i env : Z) : K unit :=
  match n with
  | O => mret tt
  | S n => e ← entry_get env i; data_free (ei_data e) ;; env_free_loop n (i + 1) env
  end.

Definition release_environment (proc : Z) : K Z :=
  pr ← get_proc proc;
  let env := environment pr in
  (if negb (env =? NULL) then
     env_free_loop (Z.to_nat (environment_count pr)) 0 env ;;
     s ← getS;
     a ← liftO (kfree env (emem s));
     modifyS (fun s => EnvState (eprocs s) (delete env (envs s)) (datas s) a)
   else mret tt) ;;
  put_proc proc (ProcEnv NULL 0) ;;
  mret SMK_OK.

(** The loop of [clone_environment]. *)
Fixpoint clone_loop (n : nat) (i dest src env : Z) : K Z :=
  match n with
  | O => mret 0
  | S n =>
      e ← entry_get env i;
      rc ← set_environment dest (Some (ei_name e)) (ei_data e) (ei_size e);
      if negb (rc =? 0) then release_environment dest ;; mret (-1)
      else clone_loop n (i + 1) dest src env
  end.

Definition clone_environment (dest src : Z) : K Z :=
  pr ← get_proc src;
  let env := environment pr in
  rc ← release_environment dest;
  if negb (rc =? 0) then mret (-1)
  else if env =? NULL then mret 0
  else
    pr ← get_proc src;
    clone_loop (Z.to_nat (environment_count pr)) 0 dest src env.
End env.

(** * Environments as finite maps *)

(** What identifies an entry: the characters of its name that are compared. *)
Definition env_key (name : list Z) : list Z := take 1024 (cstr name).

Section env_facts.
Context {A : Type} `{MmLaws A}.
Implicit Types s : env_state A.

(** An entry in order: a name array, and a live block of exactly its size. *)
Definition entry_ok s (x : environ_info) : Prop :=
  length (ei_name x) = 1024%nat /\ 0 < ei_size x < two32 /\ ei_data x <> NULL /\
  ei_data x ∈ mm_live (emem s) /\
  exists d, datas s !! ei_data x = Some d /\ Z.of_nat (length d) = ei_size x.

(** The environment of process [p] is the array [arr] at address [e]. *)
Record env_ok s (p e : Z) (arr : list environ_info) : Prop := {
  ok_p : p <> 0;
  ok_proc : eprocs s !! p = Some (ProcEnv e (Z.of_nat (length arr)));
  ok_len : Z.of_nat (length arr) < 1000000;
  ok_arr : (e = NULL /\ arr = []) \/
           (e <> NULL /\ envs s !! e = Some arr /\ e ∈ mm_live (emem s) /\ e ∉ ei_data <$> arr);
  ok_entries : Forall (entry_ok s) arr;
  ok_datas : NoDup (ei_data <$> arr);
  ok_keys : NoDup (env_key ∘ ei_name <$> arr)
}.

(** The environment maps [k] to the data [d]. *)
Definition env_has s (arr : list environ_info) (k d : list Z) : Prop :=
  exists i x, arr !! i = Some x /\ env_key (ei_name x) = k /\ datas s !! ei_data x = Some d.

Lemma get_proc_ok p v s : p <> 0 -> eprocs s !! p = Some v -> get_proc p s = Ok (v, s).
Proof. intros Hp E. unfold get_proc. mrun. by rewrite (hload_Some _ _ _ Hp E). Qed.

Lemma put_proc_ok p v v' s : p <> 0 -> eprocs s !! p = Some v' ->
  put_proc p v s = Ok (tt, EnvState (<[p := v]> (eprocs s)) (envs s) (datas s) (emem s)).
Proof. intros Hp E. unfold put_proc. mrun. by rewrite hstore_Some by eauto. Qed.

Lemma entry_get_ok e (i : nat) arr x s : e <> NULL -> envs s !! e = Some arr -> arr !! i = Some x ->
  entry_get e (Z.of_nat i) s = Ok (x, s).
Proof.
  intros He Ha Hx. unfold entry_get. mrun. rewrite (hload_Some _ _ _ He Ha). mrun.
  by rewrite (aget_nat _ _ _ Hx).
Qed.

Lemma entry_put_ok e (i : nat) arr x s : e <> NULL -> envs s !! e = Some arr -> (i < length arr)%nat ->
  entry_put e (Z.of_nat i) x s =
    Ok (tt, EnvState (eprocs s) (<[e := <[i := x]> arr]> (envs s)) (datas s) (emem s)).
Proof.
  intros He Ha Hi. unfold entry_put. mrun. rewrite (hload_Some _ _ _ He Ha). mrun.
  rewrite aset_lt by lia. by rewrite Nat2Z.id.
Qed.

Lemma data_copy_ok d c n db cb s : d <> NULL -> c <> NULL -> datas s !! d = Some db -> datas s !! c = Some cb ->
  0 <= n < two32 -> n <= Z.of_nat (length cb) -> n <= Z.of_nat (length db) ->
  data_copy d c n s = Ok (tt, EnvState (eprocs s) (envs s)
    (<[d := take (Z.to_nat n) cb ++ drop (Z.to_nat n) db]> (datas s)) (emem s)).
Proof.
  intros Hd Hc Hdb Hcb Hn Hcl Hdl. unfold data_copy. mrun. rewrite (hload_Some _ _ _ Hd Hdb). mrun.
  rewrite (hload_Some _ _ _ Hc Hcb). mrun. rewrite kmemcpy_spec by (unfold is_u32; lia).
  by rewrite decide_True by lia.
Qed.

Lemma data_free_ok d s : d ∈ mm_live (emem s) -> exists a,
  data_free d s = Ok (tt, EnvState (eprocs s) (envs s) (delete d (datas s)) a) /\
  mm_live a = mm_live (emem s) ∖ {[d]}.
Proof.
  intros Hd. destruct (kfree_live d (emem s) Hd) as (a & E & Hl). exists a. split; [|done].
  unfold data_free. mrun. by rewrite E.
Qed.

(** The search for a name. *)
Lemma env_find_ok e arr name s : readable 1024 name -> e <> NULL -> envs s !! e = Some arr ->
  Forall (fun x => length (ei_name x) = 1024%nat) arr ->
  forall n i, (i + n = length arr)%nat -> exists r, env_find n (Z.of_nat i) e name s = Ok (r, s) /\
  match r with
  | Some j => exists k x, j = Z.of_nat k /\ arr !! k = Some x /\ env_key (ei_name x) = env_key name
  | None => forall k x, (i <= k)%nat -> arr !! k = Some x -> env_key (ei_name x) <> env_key name
  end.
Proof.
  intros Hname He Ha Hlen. induction n as [|n IH]; intros i Hi; cbn [env_find].
  { exists None. split; [done |]. intros k x Hk Hx. apply lookup_lt_Some in Hx. lia. }
  destruct (lookup_lt_is_Some_2 arr i) as [x Hx]; [lia |].
  mrun. rewrite (entry_get_ok _ _ _ _ _ He Ha Hx). mrun.
  pose proof (Forall_lookup_1 _ _ _ _ Hlen Hx) as Hlx. cbv beta in Hlx.
  unfold kstrncmp. rewrite u32_small by (unfold is_u32, two32, SMK_ENVNAME_LENGTH; lia).
  change (Z.to_nat SMK_ENVNAME_LENGTH) with 1024%nat.
  pose proof (strncmp_loop_spec 1024 0 (ei_name x) name) as Hc. rewrite !drop_0 in Hc.
  change (Z.of_nat 0) with 0 in Hc. rewrite Hc by (done || (right; lia)). mrun.
  destruct (str_cmp_facts 1024 (ei_name x) name) as [Heq _].
  destruct (Z.eqb_spec (str_cmp 1024 (ei_name x) name) 0) as [E|E].
  - exists (Some (Z.of_nat i)). split; [done |]. exists i, x. split_and!; [done | done | by apply Heq].
  - replace (Z.of_nat i + 1) with (Z.of_nat (S i)) by lia.
    destruct (IH (S i)) as (r & -> & Hr); [lia |]. exists r. split; [done |]. destruct r as [j|]; [done |].
    intros k y Hk Hy. destruct (decide (k = i)) as [->|]; [|apply (Hr k y); [lia | done]].
    rewrite Hx in Hy. injection Hy as <-. intros Hkey. apply E, Heq, Hkey.
Qed.

(** The same on the environment of a process. *)
Lemma env_find_env p e arr name s : env_ok s p e arr -> readable 1024 name ->
  exists r, env_find (Z.to_nat (Z.of_nat (length arr))) 0 e name s = Ok (r, s) /\
  match r with
  | Some j => e <> NULL /\ envs s !! e = Some arr /\
      exists k x, j = Z.of_nat k /\ arr !! k = Some x /\ env_key (ei_name x) = env_key name
  | None => forall k x, arr !! k = Some x -> env_key (ei_name x) <> env_key name
  end.
Proof.
  intros Hok Hname. rewrite Nat2Z.id. destruct (ok_arr _ _ _ _ Hok) as [[-> ->]|(He & Ha & _)].
  { exists None. split; [done |]. intros k x Hx. by rewrite lookup_nil in Hx. }
  destruct (env_find_ok e arr name s Hname He Ha) with (n := length arr) (i := 0%nat) as (r & E & Hr); [|lia|].
  { eapply Forall_impl; [apply (ok_entries _ _ _ _ Hok) |]. intros x Hx. apply Hx. }
  exists r. split; [exact E |]. destruct r as [j|]; [done |]. intros k x Hx. apply (Hr k x); [lia | done].
Qed.

(** With distinct keys the first match is the only one. *)
Lemma keys_unique arr i j x y : NoDup (env_key ∘ ei_name <$> arr) -> arr !! i = Some x -> arr !! j = Some y ->
  env_key (ei_name x) = env_key (ei_name y) -> i = j.
Proof.
  intros Hnd Hx Hy E. apply (NoDup_lookup _ i j (env_key (ei_name x)) Hnd);
    rewrite list_lookup_fmap; [by rewrite Hx | by rewrite Hy; simpl; rewrite E].
Qed.
End env_facts.

(** [get_environment] on a well-formed environment: a variable that the
    environment has is found whatever its place, the prefix of its data that fits
    is copied into the caller's buffer, and [*size] becomes the number of bytes
    copied; the code is [SMK_OK], not that number.  A name that the environment
    does not have answers [SMK_NOT_FOUND] and changes nothing. *)
Theorem get_environment_reads {A} `{MmLaws A} (s : env_state A) p e arr name buf bb size :
  env_ok s p e arr -> readable 1024 name -> buf <> 0 -> datas s !! buf = Some bb ->
  0 <= size < two32 -> size <= Z.of_nat (length bb) ->
  (forall d, env_has s arr (env_key name) d ->
    let n := Z.to_nat (Z.min size (Z.of_nat (length d))) in
    get_environment p name buf size s =
      Ok (SMK_OK, Z.of_nat n, EnvState (eprocs s) (envs s) (<[buf := take n d ++ drop n bb]> (datas s)) (emem s))) /\
  ((forall d, ~ env_has s arr (env_key name) d) ->
    get_environment p name buf size s = Ok (SMK_NOT_FOUND, size, s)).
Proof.
  intros Hok Hname Hbuf Hbb Hsz Hroom.
  destruct (env_find_env p e arr name s Hok Hname) as (r & Hfind & Hr).
  unfold get_environment. mrun. rewrite (get_proc_ok _ _ _ (ok_p _ _ _ _ Hok) (ok_proc _ _ _ _ Hok)). mrun.
  cbn [environment environment_count]. rewrite Hfind. mrun. destruct r as [j|].
  - destruct Hr as (He & Ha & k & x & -> & Hx & Hkey).
    pose proof (Forall_lookup_1 _ _ _ _ (ok_entries _ _ _ _ Hok) Hx) as (_ & Hxs & Hxd & _ & dx & Hdx & Hlx).
    split; [|intros Hno; destruct (Hno dx); by exists k, x].
    intros d (i & y & Hy & Hky & Hdy). assert (i = k) as ->.
    { apply (keys_unique arr i k y x (ok_keys _ _ _ _ Hok)); (done || congruence). }
    rewrite Hx in Hy. injection Hy as <-. rewrite Hdx in Hdy. injection Hdy as <-. cbv zeta.
    mrun. rewrite (entry_get_ok _ _ _ _ _ He Ha Hx). mrun.
    assert ((if size <? ei_size x then size else ei_size x) = Z.min size (Z.of_nat (length dx))) as ->.
    { destruct (Z.ltb_spec size (ei_size x)); lia. }
    rewrite (data_copy_ok _ _ _ bb dx) by (done || lia). mrun. by rewrite Z2Nat.id by lia.
  - split; [|done]. intros d (k & x & Hx & Hkey & _). by destruct (Hr k x Hx).
Qed.

Section env_set.
Context {A : Type} `{MmLaws A}.
Implicit Types s : env_state A.

Lemma cstr_no_zero l : 0 ∉ cstr l.
Proof.
  induction l as [|c l IH]; simpl; [by apply not_elem_of_nil |].
  destruct (Z.eqb_spec c 0); [by apply not_elem_of_nil |]. apply not_elem_of_cons. split; [lia | done].
Qed.

Lemma cstr_padded n l : 0 ∉ l -> cstr (take n (l ++ replicate n 0)) = take n l.
Proof.
  revert l. induction n as [|n IH]; intros l Hl; [by rewrite !take_0 |].
  destruct l as [|c l]; [done |]. apply not_elem_of_cons in Hl as [Hc Hl]. simpl.
  destruct (Z.eqb_spec c 0); [lia |]. f_equal. rewrite <- (IH l Hl). f_equal.
  change (0 :: replicate n 0) with (replicate (S n) 0). rewrite replicate_S_end, app_assoc.
  apply take_app_le. rewrite length_app, length_replicate. lia.
Qed.

(** The copy of a name has the key of the name. *)
Lemma copy_name old name : length old = 1024%nat -> readable 1024 name ->
  exists nm, kstrncpy old name SMK_ENVNAME_LENGTH = Ok nm /\ length nm = 1024%nat /\ env_key nm = env_key name.
Proof.
  intros Hl Hr. unfold kstrncpy. change (Z.to_nat (u32 SMK_ENVNAME_LENGTH)) with 1024%nat.
  pose proof (strncpy_loop_spec 1024 0 old name) as E. rewrite drop_0 in E. change (Z.of_nat 0) with 0 in E.
  rewrite E by (done || lia). clear E. eexists. split; [done |].
  rewrite take_0, app_nil_l, drop_ge by lia. rewrite app_nil_r. split.
  - rewrite length_take, length_app, length_replicate. lia.
  - unfold env_key. rewrite cstr_padded by apply cstr_no_zero. by rewrite take_take, Nat.min_id.
Qed.

Lemma data_alloc_ok size s p a : kmalloc size (emem s) = (p, a) ->
  data_alloc size s = Ok (p, EnvState (eprocs s) (envs s)
    (if p =? NULL then datas s else <[p := replicate (Z.to_nat size) 0]> (datas s)) a).
Proof. intros E. unfold data_alloc. mrun. by rewrite E. Qed.

(** An entry survives changes of other blocks. *)
Lemma entry_ok_mono s s' x : entry_ok s x ->
  (ei_data x ∈ mm_live (emem s) -> ei_data x ∈ mm_live (emem s')) ->
  datas s' !! ei_data x = datas s !! ei_data x -> entry_ok s' x.
Proof. 
  intros (H1 & H2 & H3 & H4 & d & H5 & H6) Hl Hd. do 3 (split; [done |]). split; [auto |].
  exists d. by rewrite Hd.
Qed.

Lemma entry_live s p e arr x : env_ok s p e arr -> x ∈ arr -> ei_data x ∈ mm_live (emem s).
Proof. intros Hok Hx. pose proof (ok_entries _ _ _ _ Hok) as Hf. rewrite Forall_forall in Hf. by apply Hf. Qed.

(** The outcome of a call that stored [v] under [k]. *)
Definition env_stored s s' (arr arr' : list environ_info) (k v : list Z) : Prop :=
  forall k' d, env_has s' arr' k' d <-> (k' = k /\ d = v) \/ (k' <> k /\ env_has s arr k' d).

(** Blocks that do not belong to the environment stay. *)
Definition others_kept s s' (arr : list environ_info) : Prop :=
  forall q, q ∈ mm_live (emem s) -> q ∉ ei_data <$> arr -> datas s' !! q = datas s !! q.

Lemma overwrite_ok s p e arr k x dn a1 a2 data src size : env_ok s p e arr -> e <> NULL -> arr !! k = Some x ->
  envs s !! e = Some arr -> e ∈ mm_live (emem s) -> e ∉ ei_data <$> arr ->
  kmalloc size (emem s) = (dn, a1) -> dn <> NULL -> mm_live a2 = mm_live a1 ∖ {[ei_data x]} ->
  0 < size < two32 -> datas s !! data = Some src -> size <= Z.of_nat (length src) ->
  let v := take (Z.to_nat size) src in
  let y := EnvironInfo (ei_name x) size dn in
  let s' := EnvState (eprocs s) (<[e := <[k := y]> arr]> (envs s))
              (<[dn := v]> (delete (ei_data x) (datas s))) a2 in
  env_ok s' p e (<[k := y]> arr) /\ env_stored s s' arr (<[k := y]> arr) (env_key (ei_name x)) v /\
  others_kept s s' arr.
Proof.
  intros Hok He Hx Ha Hel Hed Hm Hdn Hl2 Hsz Hdata Hroom v y s'.
  destruct (kmalloc_cases _ _ _ _ Hm) as [[]|(_ & Hfresh & Hl1)]; [done |].
  pose proof (lookup_lt_Some _ _ _ Hx) as Hklt.
  assert (forall i z, arr !! i = Some z -> ei_data z <> dn) as Hdn_ne.
  { intros i z Hz E. apply Hfresh. rewrite <- E. eapply entry_live; [exact Hok |]. by eapply list_elem_of_lookup_2. }
  assert (forall i z, arr !! i = Some z -> i <> k -> ei_data z <> ei_data x) as Hx_ne.
  { intros i z Hz Hi E. apply Hi. apply (NoDup_lookup _ i k (ei_data z) (ok_datas _ _ _ _ Hok));
      rewrite list_lookup_fmap; [by rewrite Hz | by rewrite Hx; simpl; rewrite E]. }
  assert (forall i z, arr !! i = Some z -> i <> k -> datas s' !! ei_data z = datas s !! ei_data z) as Hsame.
  { intros i z Hz Hi. simpl. rewrite lookup_insert_ne by (apply not_eq_sym; eauto).
    apply lookup_delete_ne. apply not_eq_sym. eauto. }
  assert (e <> dn /\ e <> ei_data x) as [He1 He2].
  { split; [intros ->; by apply Hfresh |]. intros ->. apply Hed. apply list_elem_of_fmap.
    exists x. split; [done | by eapply list_elem_of_lookup_2]. }
  assert (env_key ∘ ei_name <$> <[k:=y]> arr = env_key ∘ ei_name <$> arr) as Hkeys.
  { rewrite list_fmap_insert. simpl. apply list_insert_id. by rewrite list_lookup_fmap, Hx. }
  split; [split|split].
  - apply (ok_p _ _ _ _ Hok).
  - rewrite length_insert. apply (ok_proc _ _ _ _ Hok).
  - rewrite length_insert. apply (ok_len _ _ _ _ Hok).
  - right. split; [done |]. simpl. rewrite lookup_insert_eq. split; [done |]. split.
    + rewrite Hl2, Hl1. set_solver.
    + rewrite list_fmap_insert. intros [i Hi]%list_elem_of_lookup.
      apply list_lookup_insert_Some in Hi as [(<- & Hi & _)|[Hne Hi]]; [done |].
      apply Hed. by eapply list_elem_of_lookup_2.
  - apply Forall_lookup. intros i z Hz. apply list_lookup_insert_Some in Hz as [(<- & <- & _)|[Hne Hz]].
    + pose proof (Forall_lookup_1 _ _ _ _ (ok_entries _ _ _ _ Hok) Hx) as (Hn & _).
      split_and!; simpl; try done; try lia.
      * rewrite Hl2, Hl1. assert (dn <> ei_data x) by (apply not_eq_sym; eauto). set_solver.
      * exists v. rewrite lookup_insert_eq. split; [done |]. unfold v. rewrite length_take. lia.
    + apply (entry_ok_mono s); [by apply (Forall_lookup_1 _ _ _ _ (ok_entries _ _ _ _ Hok) Hz) | | eauto].
      intros Hlz. simpl. rewrite Hl2, Hl1. assert (ei_data z <> ei_data x) by eauto. set_solver.
  - rewrite list_fmap_insert. simpl. apply NoDup_insert_fresh; [apply (ok_datas _ _ _ _ Hok) |].
    intros [z [-> Hz]]%list_elem_of_fmap. apply list_elem_of_lookup in Hz as [i Hz]. by apply (Hdn_ne i z).
  - by rewrite Hkeys; apply (ok_keys _ _ _ _ Hok).
  - intros k' d. split.
    + intros (i & z & Hz & Hkz & Hdz). apply list_lookup_insert_Some in Hz as [(<- & <- & _)|[Hne Hz]].
      * left. simpl in Hkz, Hdz. rewrite lookup_insert_eq in Hdz. injection Hdz as <-. done.
      * right. rewrite (Hsame i z Hz ltac:(done)) in Hdz. split; [|by exists i, z].
        intros ->. apply Hne. symmetry. by apply (keys_unique arr i k z x (ok_keys _ _ _ _ Hok)).
    + intros [[-> ->]|[Hne (i & z & Hz & Hkz & Hdz)]].
      * exists k, y. rewrite list_lookup_insert_eq by done. simpl. by rewrite lookup_insert_eq.
      * assert (i <> k) as Hik by (intros ->; congruence). exists i, z.
        rewrite list_lookup_insert_ne by done. rewrite (Hsame i z Hz Hik). done.
  - intros q Hq Hqn. simpl. rewrite lookup_insert_ne by (intros ->; done).
    apply lookup_delete_ne. intros <-. apply Hqn, list_elem_of_fmap. exists x.
    split; [done | by eapply list_elem_of_lookup_2].
Qed.

Lemma append_ok s p e arr q nm dn a1 a2 src size name : env_ok s p e arr ->
  kmalloc size (emem s) = (dn, a1) -> dn <> NULL ->
  q <> NULL -> q ∉ mm_live a1 ∖ {[e]} -> mm_live a2 = {[q]} ∪ (mm_live a1 ∖ {[e]}) ->
  Z.of_nat (length arr) < 999999 ->
  length nm = 1024%nat -> env_key nm = env_key name ->
  (forall k x, arr !! k = Some x -> env_key (ei_name x) <> env_key name) ->
  0 < size < two32 -> size <= Z.of_nat (length src) ->
  let v := take (Z.to_nat size) src in
  let arr' := arr ++ [EnvironInfo nm size dn] in
  let s' := EnvState (<[p := ProcEnv q (Z.of_nat (length arr'))]> (eprocs s))
              (<[q := arr']> (delete e (envs s))) (<[dn := v]> (datas s)) a2 in
  env_ok s' p q arr' /\ env_stored s s' arr arr' (env_key name) v /\ others_kept s s' arr.
Proof.
  intros Hok Hm Hdn Hq Hqf Hl2 Hlen Hnm Hkey Hnew Hsz Hroom v arr' s'.
  destruct (kmalloc_cases _ _ _ _ Hm) as [[]|(_ & Hfresh & Hl1)]; [done |].
  assert (dn <> e) as Hdne.
  { destruct (ok_arr _ _ _ _ Hok) as [[-> _]|(_ & _ & Hel & _)]; [done |]. by intros ->. }
  assert (forall x, x ∈ arr -> ei_data x <> dn /\ ei_data x <> e /\ ei_data x ∈ mm_live a1 ∖ {[e]}) as Hold.
  { intros x Hx. pose proof (entry_live _ _ _ _ _ Hok Hx) as Hlx.
    assert (ei_data x <> e) as Hxe.
    { intros Hxe. destruct (ok_arr _ _ _ _ Hok) as [[_ ->]|(_ & _ & _ & Hn)]; [by apply elem_of_nil in Hx |].
      apply Hn. rewrite <- Hxe. apply list_elem_of_fmap. eauto. }
    split; [intros Hxd; apply Hfresh; by rewrite <- Hxd |]. split; [done |]. rewrite Hl1. set_solver. }
  assert (dn ∈ mm_live a1 ∖ {[e]}) as Hdl by (rewrite Hl1; set_solver).
  assert (forall x, x ∈ arr -> datas s' !! ei_data x = datas s !! ei_data x) as Hsame.
  { intros x Hx. simpl. apply lookup_insert_ne. apply not_eq_sym, Hold, Hx. }
  split; [split|split].
  - apply (ok_p _ _ _ _ Hok).
  - apply lookup_insert_eq.
  - unfold arr'. rewrite length_app. simpl. lia.
  - right. split; [done |]. simpl. rewrite lookup_insert_eq. split; [done |]. split; [rewrite Hl2; set_solver |].
    unfold arr'. rewrite fmap_app. intros [Hin|Hin]%elem_of_app.
    + apply list_elem_of_fmap in Hin as (x & -> & Hx). apply Hqf. by apply Hold.
    + apply elem_of_cons in Hin as [->|Hin]; [done | by apply elem_of_nil in Hin].
  - apply Forall_app. split.
    + apply Forall_forall. intros x Hx. apply (entry_ok_mono s).
      * pose proof (ok_entries _ _ _ _ Hok) as Hf. rewrite Forall_forall in Hf. auto.
      * intros _. simpl. rewrite Hl2. destruct (Hold x Hx) as (_ & _ & ?). set_solver.
      * auto.
    + constructor; [|done]. split_and!; simpl; try done; try lia.
      * rewrite Hl2. set_solver.
      * exists v. rewrite lookup_insert_eq. split; [done |]. unfold v. rewrite length_take. lia.
  - unfold arr'. rewrite fmap_app. apply NoDup_app. split_and!; [apply (ok_datas _ _ _ _ Hok) | | apply NoDup_singleton].
    intros z Hz1 Hz2. apply elem_of_cons in Hz2 as [->|Hz2]; [|by apply elem_of_nil in Hz2].
    apply list_elem_of_fmap in Hz1 as (x & Hzx & Hx). simpl in Hzx. by destruct (Hold x Hx) as (? & _).
  - unfold arr'. rewrite fmap_app. apply NoDup_app. split_and!; [apply (ok_keys _ _ _ _ Hok) | | apply NoDup_singleton].
    intros z Hz1 Hz2. apply elem_of_cons in Hz2 as [->|Hz2]; [|by apply elem_of_nil in Hz2].
    apply list_elem_of_fmap in Hz1 as (x & Hzx & Hx). simpl in Hzx. apply list_elem_of_lookup in Hx as [i Hi].
    apply (Hnew i x Hi). congruence.
  - intros k' d. split.
    + intros (i & z & Hz & Hkz & Hdz). apply lookup_app_Some in Hz as [Hz|[Hi Hz]].
      * right. rewrite (Hsame z) in Hdz by (by eapply list_elem_of_lookup_2).
        split; [|by exists i, z]. rewrite <- Hkz. eauto.
      * left. destruct (i - length arr)%nat; [|done]. injection Hz as <-. simpl in Hkz, Hdz.
        rewrite lookup_insert_eq in Hdz. injection Hdz as <-. split; [congruence | done].
    + intros [[-> ->]|[Hne (i & z & Hz & Hkz & Hdz)]].
      * exists (length arr), (EnvironInfo nm size dn). unfold arr'. rewrite lookup_app_r, Nat.sub_diag by lia.
        simpl. by rewrite lookup_insert_eq.
      * exists i, z. unfold arr'. rewrite lookup_app_l by (by eapply lookup_lt_Some).
        rewrite (Hsame z) by (by eapply list_elem_of_lookup_2). done.
  - intros z Hz Hzn. simpl. apply lookup_insert_ne. by intros ->.
Qed.

Lemma env_realloc_cases s p e arr : env_ok s p e arr ->
  forall a1 ds, e = NULL \/ e ∈ mm_live a1 ->
  let new_size := s32 (u32 ((Z.of_nat (length arr) + 1) * environ_info_size)) in
  let s1 := EnvState (eprocs s) (envs s) ds a1 in
  exists q a2, env_realloc e new_size s1 = Ok (q, EnvState (eprocs s)
    (if q =? NULL then delete e (envs s) else <[q := arr ++ [raw_entry]]> (delete e (envs s))) ds a2) /\
  ((q = NULL /\ mm_live a2 = mm_live a1 ∖ {[e]}) \/
   (q <> NULL /\ q ∉ mm_live a1 ∖ {[e]} /\ mm_live a2 = {[q]} ∪ (mm_live a1 ∖ {[e]}))).
Proof.
  intros Hok a1 ds He new_size s1. pose proof (ok_len _ _ _ _ Hok) as Hl.
  unfold env_realloc. mrun. unfold krealloc. cbn [emem s1]. rewrite decide_True by done.
  destruct (mm_realloc e (u32 new_size) a1) as [q a2] eqn:E. mrun. exists q, a2.
  split; [|by apply mm_realloc_law in E].
  assert (u32 new_size / environ_info_size = Z.of_nat (length arr) + 1) as Hn.
  { unfold new_size, environ_info_size. rewrite (u32_small ((Z.of_nat (length arr) + 1) * 1032)) by (unfold is_u32, two32; lia).
    rewrite s32_small by (unfold is_s32; lia). rewrite u32_small by (unfold is_u32, two32; lia).
    apply Z.div_mul. lia. }
  rewrite Hn. cbn [envs s1].
  assert ((if e =? NULL then [] else default [] (envs s !! e)) = arr) as ->.
  { destruct (ok_arr _ _ _ _ Hok) as [[-> ->]|(Hne & Ha & _)]; [done |].
    destruct (Z.eqb_spec e NULL); [done |]. by rewrite Ha. }
  replace (Z.to_nat (Z.of_nat (length arr) + 1)) with (S (length arr)) by lia.
  rewrite take_ge by lia. by replace (S (length arr) - length arr)%nat with 1%nat by lia.
Qed.
(** The call when the variable exists. *)
Lemma set_existing s p e arr name data src size k x : env_ok s p e arr -> arr !! k = Some x ->
  env_find (Z.to_nat (Z.of_nat (length arr))) 0 e name s = Ok (Some (Z.of_nat k), s) ->
  env_key (ei_name x) = env_key name -> e <> NULL -> envs s !! e = Some arr ->
  data <> NULL -> data ∈ mm_live (emem s) -> data ∉ ei_data <$> arr -> datas s !! data = Some src ->
  0 < size < two32 -> size <= Z.of_nat (length src) ->
  exists rc s' arr', set_environment p (Some name) data size s = Ok (rc, s') /\
  env_ok s' p e arr' /\ others_kept s s' arr /\
  ((rc = SMK_OK /\ env_stored s s' arr arr' (env_key name) (take (Z.to_nat size) src)) \/
   (rc = SMK_NOMEM /\ arr' = arr /\ forall k d, env_has s' arr k d <-> env_has s arr k d)).
Proof.
  intros Hok Hx Hfind Hkey He Ha Hd0 Hdl Hdn Hsrc Hsz Hroom. pose proof (lookup_lt_Some _ _ _ Hx) as Hk.
  destruct (kmalloc size (emem s)) as [dn a1] eqn:Hm. pose proof (data_alloc_ok _ _ _ _ Hm) as Halloc.
  unfold set_environment. mrun. rewrite (get_proc_ok _ _ _ (ok_p _ _ _ _ Hok) (ok_proc _ _ _ _ Hok)). mrun.
  cbn [environment environment_count].
  destruct (Z.eqb_spec data NULL); [done |]. destruct (Z.eqb_spec size 0); [lia |]. mrun. rewrite Hfind. mrun.
  rewrite (entry_get_ok _ _ _ _ _ He Ha Hx). mrun. rewrite Halloc. mrun.
  erewrite entry_put_ok by (exact He || exact Ha || exact Hk). mrun.
  destruct (Z.eqb_spec dn NULL) as [->|Hdnn].
  { mrun. erewrite entry_put_ok by (exact He || apply lookup_insert_eq || (rewrite length_insert; exact Hk)). mrun.
    destruct (kmalloc_cases _ _ _ _ Hm) as [(_ & Hl1)|[]]; [|done].
    cbn [eprocs envs datas emem]. rewrite insert_insert_eq, list_insert_insert_eq.
    replace (EnvironInfo _ _ _) with x by by destruct x. rewrite (list_insert_id _ _ _ Hx), (insert_id _ _ _ Ha).
    do 2 eexists. exists arr. split; [done |]. split; [|split; [done | by right]].
    destruct Hok. split; try done.
    - by simpl; rewrite Hl1.
    - eapply Forall_impl; [done |]. intros z Hz. apply (entry_ok_mono s); [done | by simpl; rewrite Hl1 | done]. }
  destruct (ok_arr _ _ _ _ Hok) as [[]|(_ & _ & Hel & Hed)]; [done |].
  destruct (kmalloc_cases _ _ _ _ Hm) as [[]|(_ & Hfresh & Hl1)]; [done |]. mrun.
  assert (x ∈ arr) as Hxin by (by eapply list_elem_of_lookup_2).
  match goal with |- context [data_free (ei_data x) ?st] =>
    destruct (data_free_ok (ei_data x) st) as (a2 & Hfree & Hl2) end.
  { cbn [emem]. rewrite Hl1. pose proof (entry_live s p e arr x Hok Hxin). set_solver. }
  rewrite Hfree. mrun. cbn [eprocs envs datas emem] in *.
  erewrite entry_put_ok by (exact He || apply lookup_insert_eq || (rewrite length_insert; exact Hk)). mrun.
  assert (ei_data x <> dn) as Hdx by (intros <-; apply Hfresh; by eapply entry_live).
  assert (data <> ei_data x) as Hdax by (intros ->; apply Hdn, list_elem_of_fmap; eauto).
  assert (dn <> data) as Hdnd by (by intros ->).
  erewrite data_copy_ok; cycle 1;
    [exact Hdnn | exact Hd0 | cbn [datas]; rewrite lookup_delete_ne by done; apply lookup_insert_eq
    | cbn [datas]; rewrite lookup_delete_ne, lookup_insert_ne by done; exact Hsrc | lia | lia
    | rewrite length_replicate; lia |].
  mrun. cbn [eprocs envs datas emem]. rewrite insert_insert_eq, list_insert_insert_eq.
  rewrite drop_ge by (rewrite length_replicate; lia).
  rewrite app_nil_r, delete_insert_ne by done. rewrite insert_insert_eq.
  destruct (overwrite_ok s p e arr k x dn a1 a2 data src size) as (F1 & F2 & F3); try done.
  do 2 eexists. eexists. split; [done |]. split; [exact F1 |]. split; [exact F3 |]. left.
  split; [done |]. rewrite <- Hkey. exact F2.
Qed.

(** The call when the variable is new. *)
Lemma set_new s p e arr name data src size : env_ok s p e arr ->
  env_find (Z.to_nat (Z.of_nat (length arr))) 0 e name s = Ok (None, s) ->
  (forall k x, arr !! k = Some x -> env_key (ei_name x) <> env_key name) ->
  Z.of_nat (length arr) < 999999 -> readable 1024 name ->
  data <> NULL -> data ∈ mm_live (emem s) -> data ∉ ei_data <$> arr -> datas s !! data = Some src ->
  0 < size < two32 -> size <= Z.of_nat (length src) ->
  exists rc s' e' arr', set_environment p (Some name) data size s = Ok (rc, s') /\
  env_ok s' p e' arr' /\ others_kept s s' arr /\
  ((rc = SMK_OK /\ env_stored s s' arr arr' (env_key name) (take (Z.to_nat size) src)) \/
   (rc = SMK_NOMEM /\ arr' = arr /\ forall k d, env_has s' arr k d <-> env_has s arr k d) \/
   (rc = SMK_NOMEM /\ e' = NULL /\ arr' = [])).
Proof.
  intros Hok Hfind Hnew Hlen Hname Hd0 Hdl Hdn Hsrc Hsz Hroom. pose proof (ok_p _ _ _ _ Hok) as Hp.
  destruct (kmalloc size (emem s)) as [dn a1] eqn:Hm. pose proof (data_alloc_ok _ _ _ _ Hm) as Halloc.
  unfold set_environment. mrun. rewrite (get_proc_ok _ _ _ Hp (ok_proc _ _ _ _ Hok)). mrun.
  cbn [environment environment_count].
  destruct (Z.eqb_spec data NULL); [done |]. destruct (Z.eqb_spec size 0); [lia |]. mrun. rewrite Hfind. mrun.
  rewrite Halloc. mrun. destruct (Z.eqb_spec dn NULL) as [->|Hdnn].
  { destruct (kmalloc_cases _ _ _ _ Hm) as [(_ & Hl1)|[]]; [|done]. do 2 eexists. exists e, arr.
    split; [done |]. split; [|split; [done | by right; left]]. destruct Hok. split; try done.
    - by simpl; rewrite Hl1.
    - eapply Forall_impl; [done |]. intros z Hz. apply (entry_ok_mono s); [done | by simpl; rewrite Hl1 | done]. }
  destruct (kmalloc_cases _ _ _ _ Hm) as [[]|(_ & Hfresh & Hl1)]; [done |]. mrun.
  destruct (env_realloc_cases s p e arr Hok a1 (<[dn := replicate (Z.to_nat size) 0]> (datas s)))
    as (q & a2 & Hre & Hq).
  { destruct (ok_arr _ _ _ _ Hok) as [[]|(_ & _ & ? & _)]; [by left | right; rewrite Hl1; set_solver]. }
  rewrite Hre. mrun. erewrite put_proc_ok by (exact Hp || apply (ok_proc _ _ _ _ Hok)). mrun.
  destruct Hq as [(-> & Hl2)|(Hq & Hqf & Hl2)].
  - cbn [Z.eqb]. change (NULL =? NULL) with true. mrun.
    erewrite put_proc_ok by (exact Hp || apply lookup_insert_eq). mrun.
    assert (dn <> e) as Hdne.
    { destruct (ok_arr _ _ _ _ Hok) as [[-> _]|(_ & _ & ? & _)]; [done | by intros ->]. }
    match goal with |- context [data_free dn ?st] => destruct (data_free_ok dn st) as (a3 & Hfree & Hl3) end.
    { cbn [emem]. rewrite Hl2, Hl1. set_solver. }
    rewrite Hfree. mrun. cbn [eprocs envs datas emem] in *. do 2 eexists. exists NULL, [].
    split; [done |]. split; [|split].
    + split; simpl; try done; [by rewrite lookup_insert_eq | by left | by apply NoDup_nil_2 | by apply NoDup_nil_2].
    + intros z Hz Hzn. simpl. assert (dn <> z) by (by intros ->).
      rewrite lookup_delete_ne, lookup_insert_ne by done. done.
    + by right; right.
  - destruct (Z.eqb_spec q NULL); [done |]. mrun. cbn [eprocs envs datas emem].
    assert (dn <> data) as Hdnd by (by intros ->).
    erewrite data_copy_ok; cycle 1; [exact Hdnn | exact Hd0 | apply lookup_insert_eq
      | cbn [datas]; rewrite lookup_insert_ne by done; exact Hsrc | lia | lia | rewrite length_replicate; lia |].
    mrun. cbn [eprocs envs datas emem].
    rewrite (entry_get_ok q (length arr) (arr ++ [raw_entry]) raw_entry)
      by (exact Hq || apply lookup_insert_eq || (by rewrite lookup_app_r, Nat.sub_diag by lia)). mrun.
    destruct (copy_name (ei_name raw_entry) name) as (nm & Hcopy & Hnm & Hnk); [done | done |].
    rewrite Hcopy. mrun.
    erewrite entry_put_ok by (exact Hq || apply lookup_insert_eq || (rewrite length_app; simpl; lia)). mrun.
    erewrite put_proc_ok by (exact Hp || apply lookup_insert_eq). mrun. cbn [eprocs envs datas emem].
    rewrite !insert_insert_eq. rewrite drop_ge by (rewrite length_replicate; lia). rewrite app_nil_r.
    rewrite insert_app_r_alt by lia. rewrite Nat.sub_diag. cbn [insert list_insert].
    rewrite s32_small by (unfold is_s32; lia).
    destruct (append_ok s p e arr q nm dn a1 a2 src size name) as (F1 & F2 & F3); try done.
    rewrite length_app in F1. cbn [length] in F1. rewrite Nat2Z.inj_add in F1.
    do 2 eexists. exists q. eexists. split; [done |]. split; [exact F1 |].
    split; [|left; split; [done |]]; rewrite length_app in *; cbn [length] in *; rewrite Nat2Z.inj_add in *;
      [exact F3 | exact F2].
Qed.
End env_set.

(** [set_environment] is insertion into a finite map: when it answers
    [SMK_OK], the name is bound to the given bytes and every other binding is
    what it was, whether the variable existed (its old block is given back) or
    not; without memory for the block it answers [SMK_NOMEM] and keeps every
    binding; when the array cannot grow, every variable is lost.  Blocks of
    others stay. *)
Theorem set_environment_updates {A} `{MmLaws A} (s : env_state A) p e arr name data src size :
  env_ok s p e arr -> Z.of_nat (length arr) < 999999 -> readable 1024 name ->
  data <> NULL -> data ∈ mm_live (emem s) -> data ∉ ei_data <$> arr -> datas s !! data = Some src ->
  0 < size < two32 -> size <= Z.of_nat (length src) ->
  exists rc s' e' arr', set_environment p (Some name) data size s = Ok (rc, s') /\
  env_ok s' p e' arr' /\ others_kept s s' arr /\
  ((rc = SMK_OK /\ env_stored s s' arr arr' (env_key name) (take (Z.to_nat size) src)) \/
   (rc = SMK_NOMEM /\ arr' = arr /\ forall k d, env_has s' arr k d <-> env_has s arr k d) \/
   (rc = SMK_NOMEM /\ e' = NULL /\ arr' = [])).
Proof.
  intros Hok Hlen Hname Hd0 Hdl Hdn Hsrc Hsz Hroom.
  destruct (env_find_env p e arr name s Hok Hname) as ([j|] & Hfind & Hr); [|by apply (set_new s p e)].
  destruct Hr as (He & Ha & k & x & -> & Hx & Hkey).
  destruct (set_existing s p e arr name data src size k x) as (rc & s' & arr' & H1 & H2 & H3 & H4); try done.
  exists rc, s', e, arr'. split_and!; try done. destruct H4 as [?|?]; [by left | by right; left].
Qed.

Section env_remove.
Context {A : Type} `{MmLaws A}.
Implicit Types s : env_state A.

(** The loop after the name was found: entries move down by one. *)
Lemma remove_shift e name n : forall i arr s, e <> NULL -> envs s !! e = Some arr -> (0 < i)%nat ->
  (i + n = length arr)%nat -> Forall (fun x => length (ei_name x) = 1024%nat) arr ->
  exists arr', env_remove_loop n (Z.of_nat i) 1 e name s =
    Ok (1, EnvState (eprocs s) (<[e := arr']> (envs s)) (datas s) (emem s)) /\
  length arr' = length arr /\
  forall j, arr' !! j = if decide (i - 1 <= j < i - 1 + n)%nat then arr !! S j else arr !! j.
Proof.
  induction n as [|n IH]; intros i arr s He Ha Hi Hn Hlen; cbn [env_remove_loop].
  { exists arr. rewrite insert_id by done. split; [by destruct s |]. split; [done |].
    intros j. by rewrite decide_False by lia. }
  destruct (lookup_lt_is_Some_2 arr i) as [x Hx]; [lia |].
  destruct (lookup_lt_is_Some_2 arr (i - 1)) as [y Hy]; [lia |].
  pose proof (Forall_lookup_1 _ _ _ _ Hlen Hx) as Hlx. pose proof (Forall_lookup_1 _ _ _ _ Hlen Hy) as Hly.
  cbv beta in Hlx, Hly. mrun. rewrite (entry_get_ok _ _ _ _ _ He Ha Hx). mrun. cbn [Z.eqb]. mrun.
  replace (Z.of_nat i - 1) with (Z.of_nat (i - 1)) by lia.
  rewrite (entry_get_ok _ _ _ _ _ He Ha Hy). mrun.
  rewrite kmemcpy_spec by (unfold is_u32, two32, SMK_ENVNAME_LENGTH; lia).
  unfold SMK_ENVNAME_LENGTH. rewrite decide_True by lia. mrun.
  rewrite take_ge, drop_ge, app_nil_r by lia.
  replace (EnvironInfo _ _ _) with x by by destruct x.
  rewrite (entry_put_ok _ _ _ _ _ He Ha) by lia. mrun.
  replace (Z.of_nat i + 1) with (Z.of_nat (S i)) by lia.
  destruct (IH (S i) (<[(i - 1)%nat := x]> arr)
    (EnvState (eprocs s) (<[e := <[(i - 1)%nat := x]> arr]> (envs s)) (datas s) (emem s))) as (arr' & E & Hl' & Hj);
    [exact He | apply lookup_insert_eq | lia | rewrite length_insert; lia | by apply Forall_insert |].
  rewrite E. cbn [eprocs envs datas emem]. rewrite insert_insert_eq. exists arr'. split; [done |].
  split; [by rewrite Hl', length_insert |]. intros j. rewrite Hj.
  destruct (decide (j = i - 1)%nat) as [->|Hne].
  - rewrite decide_False, decide_True by lia. rewrite list_lookup_insert_eq by lia.
    by replace (S (i - 1)) with i by lia.
  - repeat case_decide; try lia; rewrite list_lookup_insert_ne by lia; done.
Qed.

(** The loop up to the name: the first entry [k] that has it loses its block. *)
Lemma remove_search e name arr : readable 1024 name -> e <> NULL ->
  Forall (fun x => length (ei_name x) = 1024%nat) arr ->
  forall n i s, envs s !! e = Some arr -> (i + n = length arr)%nat ->
  (forall x, x ∈ arr -> ei_data x ∈ mm_live (emem s)) ->
  ((forall k x, (i <= k)%nat -> arr !! k = Some x -> env_key (ei_name x) <> env_key name) /\
    env_remove_loop n (Z.of_nat i) 0 e name s = Ok (0, s)) \/
  (exists k x a arr', (i <= k)%nat /\ arr !! k = Some x /\ env_key (ei_name x) = env_key name /\
    env_remove_loop n (Z.of_nat i) 0 e name s =
      Ok (1, EnvState (eprocs s) (<[e := arr']> (envs s)) (delete (ei_data x) (datas s)) a) /\
    mm_live a = mm_live (emem s) ∖ {[ei_data x]} /\ length arr' = length arr /\
    take (length arr - 1) arr' = delete k arr).
Proof.
  intros Hname He Hlen. induction n as [|n IH]; intros i s Ha Hn Hlive; cbn [env_remove_loop].
  { left. split; [|done]. intros k x Hk Hx. apply lookup_lt_Some in Hx. lia. }
  destruct (lookup_lt_is_Some_2 arr i) as [x Hx]; [lia |].
  pose proof (Forall_lookup_1 _ _ _ _ Hlen Hx) as Hlx. cbv beta in Hlx.
  mrun. rewrite (entry_get_ok _ _ _ _ _ He Ha Hx). mrun. cbn [Z.eqb]. mrun.
  unfold kstrncmp. rewrite u32_small by (unfold is_u32, two32, SMK_ENVNAME_LENGTH; lia).
  change (Z.to_nat SMK_ENVNAME_LENGTH) with 1024%nat.
  pose proof (strncmp_loop_spec 1024 0 (ei_name x) name) as Hc. rewrite !drop_0 in Hc.
  change (Z.of_nat 0) with 0 in Hc. rewrite Hc by (done || (right; lia)). mrun.
  destruct (str_cmp_facts 1024 (ei_name x) name) as [Heq _].
  replace (Z.of_nat i + 1) with (Z.of_nat (S i)) by lia.
  destruct (Z.eqb_spec (str_cmp 1024 (ei_name x) name) 0) as [E|E].
  - right. mrun. destruct (data_free_ok (ei_data x) s) as (a & Hfree & Hl).
    { apply Hlive. by eapply list_elem_of_lookup_2. }
    rewrite Hfree. mrun.
    destruct (remove_shift e name n (S i) arr (EnvState (eprocs s) (envs s) (delete (ei_data x) (datas s)) a))
      as (arr' & Hsh & Hl' & Hj); try done; [lia | lia |].
    exists i, x, a, arr'. split_and!; try done; [by apply Heq |].
    assert (take (length arr - 1) arr' = delete i (take (length arr) arr)) as ->; [|by rewrite take_ge by lia].
    apply list_eq. intros j. destruct (decide (j < length arr - 1)%nat).
    + rewrite lookup_take_lt, Hj by lia. rewrite (take_ge arr) by lia. destruct (decide (i <= j)%nat).
      * rewrite decide_True, list_lookup_delete_ge by lia. done.
      * rewrite decide_False, list_lookup_delete_lt by lia. done.
    + rewrite lookup_take_ge by lia. symmetry. apply lookup_ge_None. rewrite (take_ge arr) by lia.
      rewrite length_delete by (apply lookup_lt_is_Some_2; lia). lia.
  - mrun. destruct (IH (S i) s) as [[Hno Hrun]|(k & y & a & arr' & Hk & Hrest)]; try done; [lia | |].
    + left. split; [|done]. intros k y Hk Hy. destruct (decide (k = i)) as [->|]; [|apply (Hno k y); [lia | done]].
      rewrite Hx in Hy. injection Hy as <-. intros Hkey. apply E, Heq, Hkey.
    + right. exists k, y, a, arr'. split; [lia | exact Hrest].
Qed.

(** [krealloc] to one entry less. *)
Lemma env_realloc_shrink s e (n : nat) arr' a : e <> NULL -> envs s !! e = Some arr' -> emem s = a ->
  e ∈ mm_live a -> (0 < n)%nat -> length arr' = n -> Z.of_nat n < 1000000 ->
  let new_size := s32 (u32 ((Z.of_nat n - 1) * environ_info_size)) in
  exists q a2, env_realloc e new_size s = Ok (q, EnvState (eprocs s)
    (if q =? NULL then delete e (envs s) else <[q := take (n - 1) arr']> (delete e (envs s))) (datas s) a2) /\
  ((q = NULL /\ mm_live a2 = mm_live a ∖ {[e]}) \/
   (q <> NULL /\ q ∉ mm_live a ∖ {[e]} /\ mm_live a2 = {[q]} ∪ (mm_live a ∖ {[e]}))).
Proof.
  intros He Ha Hm Hl Hn Hla Hb new_size. unfold env_realloc. mrun. unfold krealloc. rewrite Hm, decide_True by auto.
  destruct (mm_realloc e (u32 new_size) a) as [q a2] eqn:E. mrun. exists q, a2.
  split; [|by apply mm_realloc_law in E; auto].
  assert (u32 new_size / environ_info_size = Z.of_nat n - 1) as ->.
  { unfold new_size, environ_info_size. rewrite (u32_small ((Z.of_nat n - 1) * 1032)) by (unfold is_u32, two32; lia).
    rewrite s32_small by (unfold is_s32; lia). rewrite u32_small by (unfold is_u32, two32; lia).
    apply Z.div_mul. lia. }
  destruct (Z.eqb_spec e NULL); [done |]. rewrite Ha. cbn [default]. unfold id.
  replace (Z.to_nat (Z.of_nat n - 1)) with (n - 1)%nat by lia.
  assert ((n - 1 - length arr')%nat = 0%nat) as -> by lia. by rewrite app_nil_r.
Qed.

Lemma delete_keys {B} (f : environ_info -> B) (arr : list environ_info) k :
  NoDup (f <$> arr) -> NoDup (f <$> delete k arr).
Proof. intros Hnd. eapply sublist_NoDup; [exact Hnd | rewrite list_fmap_delete; apply sublist_delete]. Qed.

(** The environment without entry [k], in the array [q]. *)
Lemma delete_ok s p e q arr k x a m h : env_ok s p e arr -> arr !! k = Some x ->
  (q = NULL /\ length arr = 1%nat /\ mm_live a = mm_live (emem s) ∖ {[ei_data x]} ∖ {[e]} \/
   q <> NULL /\ h !! q = Some (delete k arr) /\ q ∉ mm_live (emem s) ∖ {[ei_data x]} ∖ {[e]} /\
   mm_live a = {[q]} ∪ (mm_live (emem s) ∖ {[ei_data x]} ∖ {[e]})) ->
  e ∉ ei_data <$> arr -> m = delete (ei_data x) (datas s) ->
  let s' := EnvState (<[p := ProcEnv q (Z.of_nat (length arr) - 1)]> (eprocs s)) h m a in
  env_ok s' p q (delete k arr) /\
  forall k' d, env_has s' (delete k arr) k' d <-> k' <> env_key (ei_name x) /\ env_has s arr k' d.
Proof.
  intros Hok Hx Hq Hed -> s'. pose proof (lookup_lt_Some _ _ _ Hx) as Hk.
  pose proof (length_delete _ _ (mk_is_Some _ _ Hx)) as Hld.
  assert (forall y, y ∈ delete k arr -> y ∈ arr /\ ei_data y <> ei_data x) as Hrest.
  { intros y Hy. assert (y ∈ arr) as Hya by (eapply elem_of_sublist; [exact Hy | apply sublist_delete]).
    split; [done |]. intros E. pose proof (ok_datas _ _ _ _ Hok) as Hnd.
    rewrite (delete_Permutation arr k x Hx) in Hnd. apply NoDup_cons in Hnd as [Hno _].
    apply Hno. rewrite <- E. apply list_elem_of_fmap. eauto. }
  split; [split|].
  - apply (ok_p _ _ _ _ Hok).
  - simpl. rewrite lookup_insert_eq, Hld. do 2 f_equal. lia.
  - rewrite Hld. pose proof (ok_len _ _ _ _ Hok). lia.
  - destruct Hq as [(-> & H1 & _)|(Hqn & Hh & Hqf & Hl)].
    + left. split; [done |]. apply length_zero_iff_nil. lia.
    + right. simpl. split_and!; [done | done | rewrite Hl; set_solver |].
      intros (y & -> & Hy)%list_elem_of_fmap. apply Hrest in Hy as [Hya Hyx]. apply Hqf.
      pose proof (entry_live _ _ _ _ _ Hok Hya). assert (ei_data y <> e); [|set_solver].
      intros <-. apply Hed, list_elem_of_fmap. eauto.
  - apply Forall_forall. intros y Hy. apply Hrest in Hy as [Hya Hyx].
    pose proof (ok_entries _ _ _ _ Hok) as Hf. rewrite Forall_forall in Hf.
    apply (entry_ok_mono s); [by apply Hf | | by simpl; rewrite lookup_delete_ne].
    intros Hly. assert (ei_data y <> e) by (intros <-; apply Hed, list_elem_of_fmap; eauto).
    simpl. destruct Hq as [(_ & _ & ->)|(_ & _ & _ & ->)]; set_solver.
  - by apply delete_keys, (ok_datas _ _ _ _ Hok).
  - by apply delete_keys, (ok_keys _ _ _ _ Hok).
  - intros k' d. pose proof (ok_keys _ _ _ _ Hok) as Hnd. split.
    + intros (i & y & Hy & Hky & Hdy). assert (y ∈ delete k arr) as Hin by (by eapply list_elem_of_lookup_2).
      destruct (Hrest y Hin) as [Hya Hyx]. simpl in Hdy. rewrite lookup_delete_ne in Hdy by done. split.
      * rewrite <- Hky. intros E. rewrite (delete_Permutation arr k x Hx) in Hnd.
        apply NoDup_cons in Hnd as [Hno _]. apply Hno. simpl. rewrite <- E. apply list_elem_of_fmap. eauto.
      * apply list_elem_of_lookup in Hya as [j Hj]. by exists j, y.
    + intros [Hne (i & y & Hy & Hky & Hdy)].
      assert (y ∈ delete k arr) as Hin.
      { assert (y ∈ x :: delete k arr) as Hc.
        { rewrite <- (delete_Permutation arr k x Hx). by eapply list_elem_of_lookup_2. }
        apply elem_of_cons in Hc as [->|?]; [congruence | done]. }
      destruct (Hrest y Hin) as [_ Hyx]. apply list_elem_of_lookup in Hin as [j Hj].
      exists j, y. split_and!; [done | done | simpl; by rewrite lookup_delete_ne].
Qed.
End env_remove.

(** [remove_environment] is deletion from a finite map: the entry with the
    name goes and its block is given back, the entries after it move down, every
    other binding is what it was, and the array has one entry less.  When the
    array cannot be reallocated (and entries remain) the code still answers
    [SMK_OK], with a null array and a count that is not zero.  A name that the
    environment does not have answers [SMK_NOT_FOUND] and changes nothing. *)
Theorem remove_environment_deletes {A} `{MmLaws A} (s : env_state A) p e arr name :
  env_ok s p e arr -> readable 1024 name ->
  ((forall k x, arr !! k = Some x -> env_key (ei_name x) <> env_key name) ->
    remove_environment p name s = Ok (SMK_NOT_FOUND, s)) /\
  (forall k x, arr !! k = Some x -> env_key (ei_name x) = env_key name ->
    exists q s', remove_environment p name s = Ok (SMK_OK, s') /\
    ((env_ok s' p q (delete k arr) /\ ei_data x ∉ mm_live (emem s') ∖ {[q]} /\
      forall k' d, env_has s' (delete k arr) k' d <-> k' <> env_key name /\ env_has s arr k' d) \/
     (1 < length arr)%nat /\ eprocs s' !! p = Some (ProcEnv NULL (Z.of_nat (length arr) - 1)))).
Proof.
  intros Hok Hname. pose proof (ok_p _ _ _ _ Hok) as Hp. pose proof (ok_len _ _ _ _ Hok) as Hlen.
  assert (e = NULL /\ arr = [] \/ e <> NULL /\ envs s !! e = Some arr /\ e ∈ mm_live (emem s) /\ e ∉ ei_data <$> arr)
    as [[-> ->]|(He & Ha & Hel & Hed)] by apply (ok_arr _ _ _ _ Hok).
  { split; [|intros k x Hx; by rewrite lookup_nil in Hx]. intros _. unfold remove_environment. mrun.
    rewrite (get_proc_ok _ _ _ Hp (ok_proc _ _ _ _ Hok)). by mrun. }
  assert (Forall (fun x => length (ei_name x) = 1024%nat) arr) as Hn.
  { eapply Forall_impl; [apply (ok_entries _ _ _ _ Hok) | intros x Hx; apply Hx]. }
  destruct (remove_search e name arr Hname He Hn (length arr) 0 s Ha) as
    [[Hno Hrun]|(k & x & a & arr' & _ & Hx & Hkey & Hrun & Hl & Hla & Htake)];
    [lia | intros x; eapply entry_live, Hok | |]; unfold remove_environment; mrun;
    rewrite (get_proc_ok _ _ _ Hp (ok_proc _ _ _ _ Hok)); mrun; cbn [environment environment_count];
    rewrite Nat2Z.id; change (Z.of_nat 0) with 0 in Hrun; rewrite !Hrun; mrun.
  { split; [done |]. intros k x Hx Hkey. destruct (Hno k x); [lia | done | done]. }
  split; [intros Hno; by destruct (Hno k x)|]. intros k2 x2 Hx2 Hkey2.
  assert (k2 = k) as -> by (apply (keys_unique arr k2 k x2 x (ok_keys _ _ _ _ Hok)); congruence).
  rewrite Hx in Hx2. injection Hx2 as <-. pose proof (lookup_lt_Some _ _ _ Hx) as Hk.
  cbn [Z.eqb]. set (s1 := EnvState (eprocs s) (<[e := arr']> (envs s)) (delete (ei_data x) (datas s)) a).
  destruct (env_realloc_shrink s1 e (length arr) arr' a) as (q & a2 & Hre & Hq); try done;
    [apply lookup_insert_eq | | lia |].
  { rewrite Hl. assert (e <> ei_data x); [|set_solver].
    intros ->. apply Hed, list_elem_of_fmap. exists x. split; [done | by eapply list_elem_of_lookup_2]. }
  rewrite run_bind, Hre. mrun. erewrite put_proc_ok by (exact Hp || apply (ok_proc _ _ _ _ Hok)). mrun.
  cbn [eprocs envs datas emem s1]. rewrite (s32_small (Z.of_nat (length arr) - 1)) by (unfold is_s32; lia).
  exists q. eexists. split; [done |]. rewrite Hl in Hq. rewrite <- Hkey.
  destruct (decide (q = NULL /\ 1 < length arr)%nat) as [[-> H1]|Hd].
  { right. split; [done | apply lookup_insert_eq]. }
  left. rewrite Htake. split; [|split]; [| simpl; destruct Hq as [(_ & ->)|(_ & _ & ->)]; set_solver |].
  all: eapply (delete_ok s p e q arr k x a2); try done.
  all: destruct Hq as [(-> & ?)|(? & ? & ?)];
    [left; split_and!; [done | lia | done] | right; split_and!; try done].
  all: destruct (Z.eqb_spec q NULL); [done | apply lookup_insert_eq].
Qed.

(** * A concrete environment *)

(** Process 1 has one variable, [A], with the data [7; 8]; block 30 is the
    caller's. *)
Definition sample_entry : environ_info := EnvironInfo (65 :: replicate 1023 0) 2 20.
Definition sample_env : env_state arena :=
  EnvState {[1 := ProcEnv 10 1]} {[10 := [sample_entry]]} (<[20 := [7; 8]]> {[30 := [1; 2; 3]]})
    (Arena 5 (list_to_set [10; 20; 30])).

Lemma sample_live x : bool_decide (x ∈ ([10; 20; 30] : list Z)) = true -> x ∈ mm_live (emem sample_env).
Proof. intros Hx%bool_decide_eq_true. simpl. unfold NULL. set_solver. Qed.

Lemma sample_env_ok : env_ok sample_env 1 10 [sample_entry].
Proof.
  split.
  - done.
  - reflexivity.
  - simpl. lia.
  - right. split_and!; [done | reflexivity | by apply sample_live | simpl; set_solver].
  - constructor; [|done]. split_and!; [vm_compute; reflexivity | done | unfold two32; simpl; lia | done |
      by apply sample_live | by exists [7; 8]].
  - apply NoDup_singleton.
  - apply NoDup_singleton.
Qed.

Lemma sample_name : readable 1024 [65; 0].
Proof. left. unfold terminated. set_solver. Qed.

Lemma sample_has : env_has sample_env [sample_entry] (env_key [65; 0]) [7; 8].
Proof. exists 0%nat, sample_entry. split_and!; [done | vm_compute; reflexivity | reflexivity]. Qed.

Lemma get_environment_reads_witness :
  get_environment 1 [65; 0] 30 3 sample_env =
    Ok (SMK_OK, 2, EnvState {[1 := ProcEnv 10 1]} {[10 := [sample_entry]]}
      (<[30 := [7; 8; 3]]> (datas sample_env)) (emem sample_env)).
Proof.
  refine (proj1 (get_environment_reads sample_env 1 10 [sample_entry] [65; 0] 30 [1; 2; 3] 3
    sample_env_ok sample_name _ _ _ _) [7; 8] sample_has);
  [done | reflexivity | unfold two32; lia | simpl; lia].
Defined.

Lemma set_environment_updates_witness :
  exists rc s' e' arr', set_environment 1 (Some [65; 0]) 30 3 sample_env = Ok (rc, s') /\
  env_ok s' 1 e' arr' /\ others_kept sample_env s' [sample_entry] /\
  ((rc = SMK_OK /\ env_stored sample_env s' [sample_entry] arr' (env_key [65; 0]) [1; 2; 3]) \/
   (rc = SMK_NOMEM /\ arr' = [sample_entry] /\
      forall k d, env_has s' arr' k d <-> env_has sample_env [sample_entry] k d) \/
   (rc = SMK_NOMEM /\ e' = NULL /\ arr' = [])).
Proof.
  destruct (set_environment_updates sample_env 1 10 [sample_entry] [65; 0] 30 [1; 2; 3] 3 sample_env_ok)
    as (rc & s' & e' & arr' & H1 & H2 & H3 & H4);
  [simpl; lia | apply sample_name | done | by apply sample_live | simpl; set_solver | reflexivity
  | unfold two32; lia | simpl; lia |].
  exists rc, s', e', arr'. split_and!; try assumption.
  destruct H4 as [?|[(? & -> & ?)|?]]; [by left | right; left; by split_and! | by right; right].
Defined.

Lemma remove_environment_deletes_witness :
  exists s', remove_environment 1 [65; 0] sample_env = Ok (SMK_OK, s').
Proof.
  destruct (proj2 (remove_environment_deletes sample_env 1 10 [sample_entry] [65; 0] sample_env_ok sample_name)
    0%nat sample_entry) as (q & s' & H & _); [done | vm_compute; reflexivity | by exists s'].
Defined.
