(* ===== verification/Vmem.v ===== *)
(** The arena allocator of mm/vmem.c: an arena holds spans of a resource, cut into
    segments that are described by boundary tags; the tags are in one list by
    address, the free ones of the smaller sizes also in lists by size class, and
    every span has a table of its allocated tags.  This file holds the operations. *)
From S2P Require Import Prelude Mm Strings.

Definition VMEM_NAME_LENGTH : Z := 64.
Definition VMEM_BESTFIT : Z := 1.
Definition VMEM_INSTANT : Z := 2.
Definition VMEM_SEARCH : Z := 4.
Definition VMEM_FREE : Z := 0.
Definition VMEM_ALLOCATED : Z := 1.

(** [struct vmem_bt] *)
Record vmem_bt := Bt {
  b_addr : Z; b_size : Z; source_addr : Z; allocated : Z;
  b_next : Z; b_prev : Z; fl_next : Z; fl_prev : Z
}.
(** A block of [sizeof( vmem_bt_t )] bytes before its fields are written. *)
Definition raw_bt : vmem_bt := Bt 0 0 0 0 0 0 0 0.

Definition set_bsize v b := Bt (b_addr b) v (source_addr b) (allocated b) (b_next b) (b_prev b) (fl_next b) (fl_prev b).
Definition set_source_addr v b := Bt (b_addr b) (b_size b) v (allocated b) (b_next b) (b_prev b) (fl_next b) (fl_prev b).
Definition set_allocated v b := Bt (b_addr b) (b_size b) (source_addr b) v (b_next b) (b_prev b) (fl_next b) (fl_prev b).
Definition set_bnext v b := Bt (b_addr b) (b_size b) (source_addr b) (allocated b) v (b_prev b) (fl_next b) (fl_prev b).
Definition set_bprev v b := Bt (b_addr b) (b_size b) (source_addr b) (allocated b) (b_next b) v (fl_next b) (fl_prev b).
Definition set_flnext v b := Bt (b_addr b) (b_size b) (source_addr b) (allocated b) (b_next b) (b_prev b) v (fl_prev b).
Definition set_flprev v b := Bt (b_addr b) (b_size b) (source_addr b) (allocated b) (b_next b) (b_prev b) (fl_next b) v.

(** [struct vmem_span]; [hash] is the address of an array of [slots] tags. *)
Record vmem_span := Span { s_addr : Z; s_size : Z; slots : Z; hash : Z; s_next : Z }.
Definition set_snext v s := Span (s_addr s) (s_size s) (slots s) (hash s) v.

(** A function pointer: one of the two static functions, or client code. *)
Inductive fun_ptr := Static | Client (f : Z).

(** [struct vmem]; [free_cache] is the address of an array of [cache_bits] tags. *)
Record vmem := Vmem {
  v_name : list Z; quantum : Z; cache_max : Z; cache_bits : Z;
  afunc : fun_ptr; ffunc : fun_ptr; source : Z;
  tags : Z; spans : Z; free_cache : Z; v_flag : Z
}.
Definition set_tags x v := Vmem (v_name v) (quantum v) (cache_max v) (cache_bits v) (afunc v) (ffunc v) (source v) x (spans v) (free_cache v) (v_flag v).
Definition set_spans x v := Vmem (v_name v) (quantum v) (cache_max v) (cache_bits v) (afunc v) (ffunc v) (source v) (tags v) x (free_cache v) (v_flag v).

(** The objects by address, the arrays of pointers, and the allocator. *)
Record vstate (A : Type) := VState {
  vmems : gmap Z vmem; bts : gmap Z vmem_bt; vspans : gmap Z vmem_span; arrays : gmap Z (list Z); vmm : A
}.
Arguments VState {A} _ _ _ _ _.
Arguments vmems {A} _.
Arguments bts {A} _.
Arguments vspans {A} _.
Arguments arrays {A} _.
Arguments vmm {A} _.

(** [highbit]: the instruction [bsrl] leaves -1 in the register for zero. *)
Definition highbit (value : Z) : outcome Z :=
  let i := if value =? 0 then -1 else Z.log2 value in
  kassert (0 <=? i) ;; Ok i.

Section vmem.
Context {A : Type} `{MmSubsystem A}.
Abbreviation K := (M (vstate A)).

Definition set_vmems h (s : vstate A) := VState h (bts s) (vspans s) (arrays s) (vmm s).
Definition set_bts h (s : vstate A) := VState (vmems s) h (vspans s) (arrays s) (vmm s).
Definition set_vspans h (s : vstate A) := VState (vmems s) (bts s) h (arrays s) (vmm s).
Definition set_arrays h (s : vstate A) := VState (vmems s) (bts s) (vspans s) h (vmm s).
Definition set_vmm (a : A) (s : vstate A) := VState (vmems s) (bts s) (vspans s) (arrays s) a.

(** Access through pointers. *)
Definition ldv (v : Z) : K vmem := s ← getS; liftO (hload (vmems s) v).
Definition updv (v : Z) (f : vmem -> vmem) : K unit := s ← getS; h ← liftO (hupd (vmems s) v f); modifyS (set_vmems h).
Definition ldb (b : Z) : K vmem_bt := s ← getS; liftO (hload (bts s) b).
Definition updb (b : Z) (f : vmem_bt -> vmem_bt) : K unit := s ← getS; h ← liftO (hupd (bts s) b f); modifyS (set_bts h).
Definition lds (p : Z) : K vmem_span := s ← getS; liftO (hload (vspans s) p).
Definition upds (p : Z) (f : vmem_span -> vmem_span) : K unit := s ← getS; h ← liftO (hupd (vspans s) p f); modifyS (set_vspans h).
Definition arr_get (p i : Z) : K Z := s ← getS; l ← liftO (hload (arrays s) p); liftO (aget l i).
Definition arr_set (p i x : Z) : K unit :=
  s ← getS; l ← liftO (hload (arrays s) p); l ← liftO (aset l i x); modifyS (set_arrays (<[p := l]> (arrays s))).

(** Blocks from the kernel's allocator, and back to it. *)
Definition malloc_block (n : Z) : K Z := s ← getS; let '(p, a) := kmalloc n (vmm s) in modifyS (set_vmm a) ;; mret p.
Definition free_block (p : Z) : K unit := s ← getS; a ← liftO (kfree p (vmm s)); modifyS (set_vmm a).
Definition malloc_bt : K Z :=
  p ← malloc_block 32;
  (if p =? NULL then mret tt else modifyS (fun s => set_bts (<[p := raw_bt]> (bts s)) s)) ;; mret p.
Definition malloc_array (n : Z) : K Z :=
  p ← malloc_block (u32 (n * 4));
  (if p =? NULL then mret tt else modifyS (fun s => set_arrays (<[p := replicate (Z.to_nat (u32 (n * 4) / 4)) 0]> (arrays s)) s)) ;; mret p.
Definition free_bt (p : Z) : K unit := free_block p ;; modifyS (fun s => set_bts (base.delete p (bts s)) s).
Definition free_span (p : Z) : K unit := free_block p ;; modifyS (fun s => set_vspans (base.delete p (vspans s)) s).
Definition free_array (p : Z) : K unit := free_block p ;; modifyS (fun s => set_arrays (base.delete p (arrays s)) s).
Definition free_vmem (p : Z) : K unit := free_block p ;; modifyS (fun s => set_vmems (base.delete p (vmems s)) s).

(** The loop of [vmem_getspan]. *)
Fixpoint getspan_loop (fuel : nat) (span res : Z) : K Z :=
  match fuel with
  | O => liftO (Halt Spin)
  | S fuel =>
      if span =? NULL then mret span
      else
        s ← lds span;
        if (s_addr s <=? res) && (res <? u32 (s_addr s + s_size s)) then mret span
        else getspan_loop fuel (s_next s) res
  end.

Definition vmem_getspan (v res : Z) : K Z :=
  x ← ldv v; s ← getS; getspan_loop (S (base.size (vspans s))) (spans x) res.

Definition cache_num (x : vmem) (sz : Z) : outcome Z :=
  n ← udiv sz (quantum x);
  pos ← highbit n;
  if cache_bits x <=? pos then Ok (-1) else Ok pos.

Definition add_freelist (v bt : Z) : K unit :=
  x ← ldv v; b ← ldb bt;
  n ← liftO (udiv (b_size b) (quantum x));
  pos ← liftO (highbit n);
  massert (0 <=? pos) ;;
  massert (fl_next b =? NULL) ;;
  massert (fl_prev b =? NULL) ;;
  c ← arr_get (free_cache x) pos;
  (if negb (c =? NULL) then updb c (set_flprev bt) else mret tt) ;;
  updb bt (set_flprev NULL) ;;
  c ← arr_get (free_cache x) pos;
  updb bt (set_flnext c) ;;
  arr_set (free_cache x) pos bt.

Definition rem_freelist (v bt : Z) : K unit :=
  x ← ldv v; b ← ldb bt;
  pos ← liftO (cache_num x (b_size b));
  massert (0 <=? pos) ;;
  c ← arr_get (free_cache x) pos;
  (if c =? bt then arr_set (free_cache x) pos (fl_next b) else mret tt) ;;
  b ← ldb bt;
  (if negb (fl_prev b =? NULL) then updb (fl_prev b) (set_flnext (fl_next b)) else mret tt) ;;
  b ← ldb bt;
  (if negb (fl_next b =? NULL) then updb (fl_next b) (set_flprev (fl_prev b)) else mret tt) ;;
  updb bt (set_flnext NULL) ;;
  updb bt (set_flprev NULL).

(** [if ( cache_num( vmem, bt->size ) >= 0 ) ..._freelist( vmem, bt )] *)
Definition if_cached (v bt : Z) (f : Z -> Z -> K unit) : K unit :=
  x ← ldv v; b ← ldb bt;
  n ← liftO (cache_num x (b_size b));
  if 0 <=? n then f v bt else mret tt.

Definition vmem_al_splittag (bt sz : Z) : K Z :=
  tmp ← malloc_bt;
  if tmp =? NULL then mret NULL
  else
    b ← ldb bt;
    massert (allocated b =? VMEM_FREE) ;;
    updb bt (set_bsize (u32 (b_size b - sz))) ;;
    b ← ldb bt;
    updb tmp (fun _ => Bt (u32 (b_addr b + b_size b)) sz NULL VMEM_FREE (b_next b) bt NULL NULL) ;;
    t ← ldb tmp;
    (if negb (b_next t =? NULL) then updb (b_next t) (set_bprev tmp) else mret tt) ;;
    updb bt (set_bnext tmp) ;;
    mret tmp.

(** The walk of [vmem_alloc_search] over the tags. *)
Fixpoint search_loop (fuel : nat) (bt best rsize vmflag : Z) : K Z :=
  match fuel with
  | O => liftO (Halt Spin)
  | S fuel =>
      if bt =? NULL then mret best
      else
        b ← ldb bt;
        if (allocated b =? VMEM_FREE) && (rsize <=? b_size b) then
          if negb (Z.land vmflag VMEM_BESTFIT =? VMEM_BESTFIT) then mret bt
          else
            best ← (if best =? NULL then mret bt
                    else (x ← ldb best; mret (if b_size b <? b_size x then bt else best)));
            search_loop fuel (b_next b) best rsize vmflag
        else search_loop fuel (b_next b) best rsize vmflag
  end.

Definition vmem_alloc_search (v rsize vmflag : Z) : K Z :=
  x ← ldv v; s ← getS;
  search_loop (S (base.size (bts s))) (tags x) NULL rsize vmflag.

(** The walk of [vmem_alloc_quantum] over one free list: a tag to return at once,
    or the best one so far. *)
Fixpoint quantum_list (fuel : nat) (bt best rsize vmflag : Z) : K (Z + Z) :=
  match fuel with
  | O => liftO (Halt Spin)
  | S fuel =>
      if bt =? NULL then mret (inr best)
      else
        b ← ldb bt;
        massert (allocated b =? VMEM_FREE) ;;
        if rsize <=? b_size b then
          if negb (Z.land vmflag VMEM_BESTFIT =? VMEM_BESTFIT) then mret (inl bt)
          else
            best ← (if best =? NULL then mret bt
                    else (x ← ldb best; mret (if b_size b <? b_size x then bt else best)));
            quantum_list fuel (fl_next b) best rsize vmflag
        else quantum_list fuel (fl_next b) best rsize vmflag
  end.

(** Its outer loop: [n] size classes left, from [pos] on. *)
Fixpoint quantum_loop (n : nat) (cache pos best rsize vmflag : Z) : K Z :=
  match n with
  | O => mret best
  | S n =>
      bt ← arr_get cache pos;
      s ← getS;
      r ← quantum_list (S (base.size (bts s))) bt best rsize vmflag;
      match r with
      | inl bt => mret bt
      | inr best =>
          if (Z.land vmflag VMEM_BESTFIT =? VMEM_BESTFIT) && negb (best =? NULL) then mret best
          else quantum_loop n cache (pos + 1) best rsize vmflag
      end
  end.

Definition vmem_alloc_quantum (v rsize vmflag : Z) : K Z :=
  x ← ldv v;
  n ← liftO (udiv rsize (quantum x));
  pos ← liftO (highbit n);
  let pos := if Z.land vmflag VMEM_INSTANT =? VMEM_INSTANT then pos + 1 else pos in
  quantum_loop (Z.to_nat (cache_bits x - pos)) (free_cache x) pos NULL rsize vmflag.

(** [afunc]/[ffunc] of an arena with a source, when they are client code. *)
Context (client_afunc client_ffunc : Z -> Z -> Z -> Z -> K Z).

(** The coalescing of [vmem_free] with the tag on the left. *)
Definition melt_left (v span bt : Z) : K Z :=
  b ← ldb bt;
  if negb (b_prev b =? NULL) then
    p ← ldb (b_prev b);
    sp ← lds span;
    if (allocated p =? VMEM_FREE) && (s_addr sp <=? b_addr p) then
      if_cached v (b_prev b) rem_freelist ;;
      p ← ldb (b_prev b);
      updb (b_prev b) (set_bsize (u32 (b_size p + b_size b))) ;;
      updb (b_prev b) (set_bnext (b_next b)) ;;
      (if negb (b_next b =? NULL) then updb (b_next b) (set_bprev (b_prev b)) else mret tt) ;;
      free_bt bt ;;
      mret (b_prev b)
    else mret bt
  else mret bt.

(** ... and with the tag on the right. *)
Definition melt_right (v span bt : Z) : K unit :=
  b ← ldb bt;
  if negb (b_next b =? NULL) then
    n ← ldb (b_next b);
    sp ← lds span;
    if (allocated n =? VMEM_FREE) && (b_addr n <? u32 (s_addr sp + s_size sp)) then
      if_cached v (b_next b) rem_freelist ;;
      n ← ldb (b_next b);
      updb bt (set_bsize (u32 (b_size b + b_size n))) ;;
      let tmp := b_next b in
      updb bt (set_bnext (b_next n)) ;;
      (if negb (b_next n =? NULL) then updb (b_next n) (set_bprev bt) else mret tt) ;;
      free_bt tmp ;; mret tt
    else mret tt
  else mret tt.

(** [vmem_free]; [fuel] bounds the chain of sources. *)
Fixpoint vmem_free (fuel : nat) (v addr size : Z) : K Z :=
  match fuel with
  | O => liftO (Halt Spin)
  | S fuel =>
      span ← vmem_getspan v addr;
      if span =? NULL then mret NULL
      else
        x ← ldv v; sp ← lds span;
        i ← liftO (udiv (u32 (addr - s_addr sp)) (quantum x));
        bt ← arr_get (hash sp) i;
        if bt =? NULL then mret NULL
        else
          b ← ldb bt;
          (if negb (source x =? NULL) && negb (source_addr b =? NULL) then
             match ffunc x with
             | Static => vmem_free fuel (source x) (source_addr b) (b_size b)
             | Client f => client_ffunc f (source x) (source_addr b) (b_size b)
             end
           else mret NULL) ;;
          c ← arr_get (hash sp) i;
          massert (negb (c =? NULL)) ;;
          arr_set (hash sp) i NULL ;;
          b ← ldb bt;
          massert (allocated b =? VMEM_ALLOCATED) ;;
          updb bt (set_allocated VMEM_FREE) ;;
          bt ← melt_left v span bt;
          melt_right v span bt ;;
          if_cached v bt add_freelist ;;
          mret addr
  end.

(** The choice of a tag. *)
Definition choose_tag (v sz vmflag : Z) : K Z :=
  if negb (Z.land vmflag VMEM_SEARCH =? VMEM_SEARCH) then
    bt ← vmem_alloc_quantum v sz vmflag;
    if bt =? NULL then vmem_alloc_search v sz vmflag else mret bt
  else vmem_alloc_search v sz vmflag.

(** The tag is taken off its free list and cut to the size. *)
Definition cut_tag (v bt sz : Z) : K Z :=
  if_cached v bt rem_freelist ;;
  x ← ldv v; b ← ldb bt;
  if quantum x <=? u32 (b_size b - sz) then
    tmp ← vmem_al_splittag bt sz;
    if_cached v bt add_freelist ;;
    mret tmp
  else mret bt.

(** [vmem_alloc] *)
Fixpoint vmem_alloc (fuel : nat) (v rsize vmflag : Z) : K Z :=
  match fuel with
  | O => liftO (Halt Spin)
  | S fuel =>
      if rsize =? 0 then mret NULL
      else
        x ← ldv v;
        m ← liftO (umod rsize (quantum x));
        let sz := if negb (m =? 0) then u32 (rsize + (quantum x - m)) else rsize in
        bt ← choose_tag v sz vmflag;
        if bt =? NULL then mret NULL
        else
          b ← ldb bt;
          massert (allocated b =? VMEM_FREE) ;;
          bt ← cut_tag v bt sz;
          updb bt (set_allocated VMEM_ALLOCATED) ;;
          b ← ldb bt;
          span ← vmem_getspan v (b_addr b);
          massert (negb (span =? NULL)) ;;
          sp ← lds span;
          i ← liftO (udiv (u32 (b_addr b - s_addr sp)) (quantum x));
          c ← arr_get (hash sp) i;
          massert (c =? NULL) ;;
          arr_set (hash sp) i bt ;;
          if negb (source x =? NULL) then
            r ← (match afunc x with
                 | Static => vmem_alloc fuel (source x) (b_size b) vmflag
                 | Client f => client_afunc f (source x) (b_size b) vmflag
                 end);
            updb bt (set_source_addr r) ;;
            if r =? NULL then
              vmem_free fuel v (b_addr b) rsize ;;
              mret NULL
            else mret (b_addr b)
          else mret (b_addr b)
  end.

(** The searches of [vmem_add] for the span and the tag in front of an address. *)
Fixpoint span_before (fuel : nat) (insert span addr : Z) : K Z :=
  match fuel with
  | O => liftO (Halt Spin)
  | S fuel =>
      if span =? NULL then mret insert
      else s ← lds span; if addr <=? s_addr s then mret insert else span_before fuel span (s_next s) addr
  end.
Fixpoint tag_before (fuel : nat) (insert bt addr : Z) : K Z :=
  match fuel with
  | O => liftO (Halt Spin)
  | S fuel =>
      if bt =? NULL then mret insert
      else b ← ldb bt; if addr <=? b_addr b then mret insert else tag_before fuel bt (b_next b) addr
  end.

Definition insert_span (v insert span : Z) : K unit :=
  if insert =? NULL then
    x ← ldv v; upds span (set_snext (spans x)) ;; updv v (set_spans span)
  else
    i ← lds insert; upds span (set_snext (s_next i)) ;; upds insert (set_snext span).

Definition insert_tag (v insert bt : Z) : K unit :=
  (if insert =? NULL then
     x ← ldv v; updb bt (set_bnext (tags x)) ;; updb bt (set_bprev NULL) ;; updv v (set_tags bt)
   else
     i ← ldb insert; updb bt (set_bnext (b_next i)) ;; updb bt (set_bprev insert)) ;;
  b ← ldb bt;
  (if negb (b_prev b =? NULL) then updb (b_prev b) (set_bnext bt) else mret tt) ;;
  b ← ldb bt;
  (if negb (b_next b =? NULL) then updb (b_next b) (set_bprev bt) else mret tt).

(** [vmem_add]; [kmemset] on the table writes null pointers. *)
Definition vmem_add (v addr size vmflag : Z) : K Z :=
  x ← ldv v;
  massert (0 <? size) ;;
  m ← liftO (umod size (quantum x));
  massert (m =? 0) ;;
  massert (addr <? u32 (addr + size)) ;;
  s ← getS;
  before ← span_before (S (base.size (vspans s))) NULL (spans x) addr;
  span ← malloc_block 20;
  if span =? NULL then mret NULL
  else
    n ← liftO (udiv size (quantum x));
    h ← malloc_array n;
    if h =? NULL then free_block span ;; mret NULL
    else
      modifyS (fun s => set_vspans (<[span := Span addr size n h NULL]> (vspans s)) s) ;;
      modifyS (fun s => set_arrays (<[h := replicate (Z.to_nat n) NULL]> (arrays s)) s) ;;
      s ← getS;
      insert ← tag_before (S (base.size (bts s))) NULL (tags x) addr;
      bt ← malloc_bt;
      if bt =? NULL then free_array h ;; free_span span ;; mret NULL
      else
        insert_span v before span ;;
        updb bt (fun _ => Bt addr size 0 VMEM_FREE NULL NULL NULL NULL) ;;
        insert_tag v insert bt ;;
        if_cached v bt add_freelist ;;
        mret addr.

(** [vmem_destroy] *)
Fixpoint destroy_tags (fuel : nat) (bt : Z) : K unit :=
  match fuel with
  | O => liftO (Halt Spin)
  | S fuel => if bt =? NULL then mret tt else b ← ldb bt; free_bt bt ;; destroy_tags fuel (b_next b)
  end.
Fixpoint destroy_spans (fuel : nat) (span : Z) : K unit :=
  match fuel with
  | O => liftO (Halt Spin)
  | S fuel =>
      if span =? NULL then mret tt
      else s ← lds span; free_array (hash s) ;; free_span span ;; destroy_spans fuel (s_next s)
  end.
Definition vmem_destroy (v : Z) : K unit :=
  x ← ldv v; s ← getS;
  destroy_tags (S (base.size (bts s))) (tags x) ;;
  destroy_spans (S (base.size (vspans s))) (spans x) ;;
  (if negb (free_cache x =? NULL) then free_array (free_cache x) else mret tt) ;;
  free_vmem v.

(** [vmem_create]; a null function pointer selects the static function. *)
Definition or_static (f : Z) : fun_ptr := if f =? NULL then Static else Client f.
Definition vmem_create (name : list Z) (base size quantum af ff source qcache_max vmflag : Z) : K Z :=
  v ← malloc_block 104;
  if v =? NULL then mret NULL
  else
    nm ← liftO (kstrncpy (replicate 64 0) name VMEM_NAME_LENGTH);
    n ← liftO (udiv qcache_max quantum);
    b ← liftO (highbit n);
    let bits := b + 1 in
    modifyS (fun s => set_vmems (<[v := Vmem nm quantum qcache_max bits (or_static af) (or_static ff) source NULL NULL NULL vmflag]> (vmems s)) s) ;;
    c ← (if 0 <? bits then malloc_array bits else mret NULL);
    if (0 <? bits) && (c =? NULL) then free_vmem v ;; mret NULL
    else
      (if 0 <? bits then modifyS (fun s => set_arrays (<[c := replicate (Z.to_nat bits) NULL]> (arrays s)) s) else mret tt) ;;
      updv v (fun x => Vmem (v_name x) (Vmem.quantum x) (cache_max x) (cache_bits x) (afunc x) (ffunc x) (Vmem.source x) (tags x) (spans x) c (v_flag x)) ;;
      if 0 <? size then
        r ← vmem_add v base size vmflag;
        if negb (r =? base) then vmem_destroy v ;; mret NULL
        else mret v
      else mret v.
End vmem.
