(* ===== verification/VmemRep.v ===== *)
(** The arenas of [Vmem] as abstract lists of segments: the representation in the
    heap, and what every internal operation does to it. *)
From S2P Require Import Prelude Mm Lists Chain Vmem.

(** * Views of the boundary tags *)

Definition tag_links (h : gmap Z vmem_bt) : links := (fun b => (b_next b, b_prev b)) <$> h.
Definition fl_links (h : gmap Z vmem_bt) : links := (fun b => (fl_next b, fl_prev b)) <$> h.
Definition data_of (h : gmap Z vmem_bt) : gmap Z (Z * Z * Z) := (fun b => (b_addr b, b_size b, allocated b)) <$> h.

(** [if ( p != NULL ) p->field = ...] *)
Definition updm (p : Z) (f : vmem_bt -> vmem_bt) (h : gmap Z vmem_bt) : gmap Z vmem_bt := if p =? NULL then h else alter f p h.

Lemma view_updm {B} (w : vmem_bt -> B) (f : vmem_bt -> vmem_bt) (g : B -> B) p h : (forall b, w (f b) = g (w b)) ->
  w <$> updm p f h = if p =? NULL then w <$> h else alter g p (w <$> h).
Proof.
  intros Hw. unfold updm. destruct (_ =? _); [done |]. apply map_eq. intros i. rewrite lookup_fmap. destruct (decide (i = p)) as [->|].
  - rewrite !lookup_alter_eq, lookup_fmap. destruct (h !! p); simpl; [by rewrite Hw | done].
  - by rewrite !lookup_alter_ne, lookup_fmap.
Qed.

Lemma view_updm_same {B} (w : vmem_bt -> B) (f : vmem_bt -> vmem_bt) p h : (forall b, w (f b) = w b) -> w <$> updm p f h = w <$> h.
Proof.
  intros Hw. rewrite (view_updm w f (fun x => x)) by done. destruct (_ =? _); [done |]. apply map_eq. intros i.
  destruct (decide (i = p)) as [->|]; [rewrite lookup_alter_eq; by destruct (_ !! p) | by rewrite lookup_alter_ne].
Qed.

Lemma tag_links_next p v h : tag_links (updm p (set_bnext v) h) = set_next p v (tag_links h).
Proof. by apply view_updm. Qed.
Lemma tag_links_prev p v h : tag_links (updm p (set_bprev v) h) = set_prev p v (tag_links h).
Proof. by apply view_updm. Qed.
Lemma fl_links_next p v h : fl_links (updm p (set_flnext v) h) = set_next p v (fl_links h).
Proof. by apply view_updm. Qed.
Lemma fl_links_prev p v h : fl_links (updm p (set_flprev v) h) = set_prev p v (fl_links h).
Proof. by apply view_updm. Qed.

(** The fields that an update leaves alone. *)
Lemma tag_links_same p f h : (forall b, b_next (f b) = b_next b /\ b_prev (f b) = b_prev b) -> tag_links (updm p f h) = tag_links h.
Proof. intros Hf. apply view_updm_same. intros b. by destruct (Hf b) as [-> ->]. Qed.
Lemma fl_links_same p f h : (forall b, fl_next (f b) = fl_next b /\ fl_prev (f b) = fl_prev b) -> fl_links (updm p f h) = fl_links h.
Proof. intros Hf. apply view_updm_same. intros b. by destruct (Hf b) as [-> ->]. Qed.
Lemma data_of_same p f h : (forall b, b_addr (f b) = b_addr b /\ b_size (f b) = b_size b /\ allocated (f b) = allocated b) ->
  data_of (updm p f h) = data_of h.
Proof. intros Hf. apply view_updm_same. intros b. by destruct (Hf b) as (-> & -> & ->). Qed.

Lemma data_of_size p v h : p <> NULL -> data_of (updm p (set_bsize v) h) = alter (fun d => (d.1.1, v, d.2)) p (data_of h).
Proof.
  intros Hp. unfold data_of. rewrite (view_updm _ (set_bsize v) (fun d => (d.1.1, v, d.2))) by done.
  by destruct (Z.eqb_spec p NULL).
Qed.
Lemma data_of_allocated p v h : p <> NULL -> data_of (updm p (set_allocated v) h) = alter (fun d => (d.1, v)) p (data_of h).
Proof.
  intros Hp. unfold data_of. rewrite (view_updm _ (set_allocated v) (fun d => (d.1, v))) by done.
  by destruct (Z.eqb_spec p NULL).
Qed.

Lemma updm_is_Some p f h q : is_Some (updm p f h !! q) <-> is_Some (h !! q).
Proof. unfold updm. destruct (_ =? _); [done |]. by rewrite lookup_alter_is_Some. Qed.

Lemma updm_ne p f h q : q <> p -> updm p f h !! q = h !! q.
Proof. intros Hq. unfold updm. destruct (_ =? _); [done |]. by rewrite lookup_alter_ne. Qed.

Lemma updm_eq p f h b : p <> NULL -> h !! p = Some b -> updm p f h !! p = Some (f b).
Proof. intros Hp Hb. unfold updm. destruct (Z.eqb_spec p NULL); [done |]. by rewrite lookup_alter_eq, Hb. Qed.

Lemma view_Some {B} (w : vmem_bt -> B) (h : gmap Z vmem_bt) (p : Z) y : (w <$> h) !! p = Some y -> exists b, h !! p = Some b /\ w b = y.
Proof. rewrite lookup_fmap. destruct (h !! p) as [b|]; [|done]. intros [= <-]. by exists b. Qed.

(** * The runs of the accesses *)

Section runs.
Context {A : Type} `{MmLaws A}.
Implicit Types s : vstate A.

Lemma ldb_ok s p b : p <> NULL -> bts s !! p = Some b -> ldb p s = Ok (b, s).
Proof. intros Hp Hb. unfold ldb. mrun. by rewrite (hload_Some _ _ _ Hp Hb). Qed.
Lemma ldv_ok s p x : p <> NULL -> vmems s !! p = Some x -> ldv p s = Ok (x, s).
Proof. intros Hp Hx. unfold ldv. mrun. by rewrite (hload_Some _ _ _ Hp Hx). Qed.
Lemma lds_ok s p x : p <> NULL -> vspans s !! p = Some x -> lds p s = Ok (x, s).
Proof. intros Hp Hx. unfold lds. mrun. by rewrite (hload_Some _ _ _ Hp Hx). Qed.
Lemma updb_ok s p f : p <> NULL -> is_Some (bts s !! p) -> updb p f s = Ok (tt, set_bts (updm p f (bts s)) s).
Proof.
  intros Hp [b Hb]. unfold updb. mrun. rewrite (hupd_Some _ _ _ _ Hp Hb). mrun. unfold updm. destruct (Z.eqb_spec p NULL); [done |].
  by rewrite (alter_insert_of_Some _ _ _ _ Hb).
Qed.
Lemma updb_if_ok s p f : p = NULL \/ is_Some (bts s !! p) ->
  (if negb (p =? NULL) then updb p f else mret tt) s = Ok (tt, set_bts (updm p f (bts s)) s).
Proof.
  intros Hp. destruct (Z.eqb_spec p NULL) as [->|Hn]; cbn [negb]; [by destruct s |]. apply updb_ok; [done | by destruct Hp].
Qed.
Lemma arr_get_ok s p l i x : p <> NULL -> arrays s !! p = Some l -> 0 <= i -> l !! Z.to_nat i = Some x -> arr_get p i s = Ok (x, s).
Proof.
  intros Hp Hl Hi Hx. unfold arr_get. mrun. rewrite (hload_Some _ _ _ Hp Hl). mrun.
  assert (aget l i = Ok x) as -> by (by apply aget_Some). done.
Qed.
Lemma arr_set_ok s p l i x : p <> NULL -> arrays s !! p = Some l -> 0 <= i < Z.of_nat (length l) ->
  arr_set p i x s = Ok (tt, set_arrays (<[p := <[Z.to_nat i := x]> l]> (arrays s)) s).
Proof. intros Hp Hl Hi. unfold arr_set. mrun. rewrite (hload_Some _ _ _ Hp Hl). mrun. by rewrite (aset_lt _ _ _ Hi). Qed.

(** ** Ownership of blocks *)

Definition owns (a : A) (l : list Z) (frame : gset Z) : Prop :=
  NoDup l /\ (forall b, b ∈ l -> b ∉ frame) /\ mm_live a = list_to_set l ∪ frame.

Lemma owns_perm a l l' frame : l ≡ₚ l' -> owns a l frame -> owns a l' frame.
Proof.
  intros Hl (H1 & H2 & H3). split_and!; [by rewrite <- Hl | intros b; rewrite <- Hl; apply H2 |]. rewrite H3. f_equal.
  by apply list_to_set_perm_L.
Qed.

Lemma owns_not_null a l frame b : owns a l frame -> b ∈ l -> b <> NULL.
Proof. intros (_ & _ & Hl) Hb ->. apply (mm_live_nonnull a). rewrite Hl. apply elem_of_union. left. by apply elem_of_list_to_set. Qed.

Lemma owns_free a p l frame : owns a (p :: l) frame -> exists a', kfree p a = Ok a' /\ owns a' l frame.
Proof.
  intros ([N1 N2]%NoDup_cons & H2 & H3). destruct (kfree_live p a) as (a' & E & Hl).
  { rewrite H3. apply elem_of_union. left. apply elem_of_list_to_set. by apply elem_of_cons; left. }
  exists a'. split; [done |]. split_and!; [done | |].
  - intros b Hb. apply H2. by apply elem_of_cons; right.
  - rewrite Hl, H3. specialize (H2 p (list_elem_of_here _ _)). apply set_eq. intros b. rewrite list_to_set_cons.
    rewrite elem_of_difference, !elem_of_union, elem_of_singleton, elem_of_list_to_set. split; [tauto |].
    intros Hb. split; [tauto |]. intros ->. tauto.
Qed.

Lemma owns_malloc n a p a' l frame : kmalloc n a = (p, a') -> owns a l frame ->
  (p = NULL /\ owns a' l frame) \/ (p <> NULL /\ p ∉ l /\ owns a' (p :: l) frame).
Proof.
  intros [[-> Hl]|(Hp & Hn & Hl)]%kmalloc_cases (H1 & H2 & H3).
  - left. split; [done |]. split_and!; try done. by rewrite Hl.
  - right. rewrite H3, elem_of_union, elem_of_list_to_set in Hn. split_and!; [done | tauto |]. split_and!.
    + apply NoDup_cons. tauto.
    + intros b [->|Hb]%elem_of_cons; [tauto | by apply H2].
    + rewrite Hl, H3, list_to_set_cons. set_solver.
Qed.
End runs.

(** * The free lists *)

(** The size class of a segment. *)
Definition class (q sz : Z) : nat := Z.to_nat (Z.log2 (sz / q)).

(** [C] maps the tags that are in the free lists [F] to their sizes. *)
Record fl_ok (q : Z) (C : gmap Z Z) (fl : links) (F : list (list Z)) : Prop := {
  fk_chain : forall i l, F !! i = Some l -> chain fl l;
  fk_in : forall i l p, F !! i = Some l -> p ∈ l <-> exists sz, C !! p = Some sz /\ class q sz = i;
  fk_class : forall p sz, C !! p = Some sz -> (class q sz < length F)%nat;
  fk_out : forall p x, fl !! p = Some x -> C !! p = None -> x = (NULL, NULL)
}.

Section free_lists.
Context (q : Z) (C : gmap Z Z) (fl fl' : links) (F : list (list Z)) (Hok : fl_ok q C fl F).

(** The list that a cached tag is in. *)
Lemma fl_find p sz : C !! p = Some sz -> exists l1 l2, F !! class q sz = Some (l1 ++ p :: l2).
Proof using Hok.
  intros Hp. destruct (lookup_lt_is_Some_2 F _ (fk_class _ _ _ _ Hok p sz Hp)) as [l Hl].
  assert (p ∈ l) as Hin by (apply (fk_in _ _ _ _ Hok _ _ _ Hl); by exists sz).
  apply list_elem_of_split in Hin as (l1 & l2 & ->). by exists l1, l2.
Qed.

(** No tag is in two lists. *)
Lemma fl_disjoint i j l l' p : F !! i = Some l -> F !! j = Some l' -> p ∈ l -> p ∈ l' -> i = j.
Proof using Hok.
  intros Hi Hj H1 H2. apply (fk_in _ _ _ _ Hok _ _ _ Hi) in H1 as (sz & Hp & <-). apply (fk_in _ _ _ _ Hok _ _ _ Hj) in H2 as (sz' & Hp' & <-).
  congruence.
Qed.

Lemma fl_remove p sz l1 l2 : C !! p = Some sz -> F !! class q sz = Some (l1 ++ p :: l2) ->
  (forall b, b <> p -> fl' !! b = splice l1 l2 (first_of l2) (last_of l1) fl !! b) -> fl' !! p = Some (NULL, NULL) ->
  fl_ok q (base.delete p C) fl' (<[class q sz := l1 ++ l2]> F).
Proof using Hok.
  intros Hp Hl Hb Hfp. pose proof (fk_chain _ _ _ _ Hok _ _ Hl) as Hc. pose proof Hc as (Hnd & _).
  destruct (nodup_parts l1 [p] l2 Hnd) as (_ & _ & _ & _ & _ & Hpl). specialize (Hpl p (list_elem_of_here _ _)).
  assert (forall b, b ∈ l1 ++ p :: l2 <-> b = p \/ (b <> p /\ b ∈ l1 ++ l2)) as Hin.
  { intros b. rewrite !elem_of_app, elem_of_cons. destruct (decide (b = p)) as [->|]; tauto. }
  split.
  - intros j l Hj. apply list_lookup_insert_Some in Hj as [(<- & <- & _)|[Hne Hj]].
    + apply (chain_remove fl fl' l1 p l2 Hc). intros b Hbl. apply Hb. intros ->. rewrite elem_of_app in Hbl. tauto.
    + apply (chain_frame fl); [|by apply (fk_chain _ _ _ _ Hok j)]. intros b Hbl.
      assert (b ∉ l1 ++ p :: l2) as Hx by (intros Hx; by apply Hne, (fl_disjoint _ j (l1 ++ p :: l2) l b)).
      rewrite Hin, elem_of_app in Hx. rewrite Hb by tauto. apply splice_out; tauto.
  - intros j l b Hj. apply list_lookup_insert_Some in Hj as [(<- & <- & _)|[Hne Hj]].
    + pose proof (fk_in _ _ _ _ Hok _ _ b Hl) as Hi. rewrite Hin in Hi. split.
      * intros Hbl. assert (b <> p) as Hbp by (intros ->; rewrite elem_of_app in Hbl; tauto).
        destruct (proj1 Hi) as (sz' & Hb' & Hcl); [by right |]. exists sz'. by rewrite lookup_delete_ne.
      * intros (sz' & [Hne Hb']%lookup_delete_Some & Hcl). destruct (proj2 Hi) as [?|[_ ?]]; [by exists sz' | congruence | done].
    + rewrite (fk_in _ _ _ _ Hok _ _ b Hj). split.
      * intros (sz' & Hb' & Hcl). exists sz'. rewrite lookup_delete_ne; [done |]. intros ->. congruence.
      * intros (sz' & [_ Hb']%lookup_delete_Some & Hcl). by exists sz'.
  - intros b sz' [_ Hb']%lookup_delete_Some. rewrite length_insert. by apply (fk_class _ _ _ _ Hok b).
  - intros b x Hx Hcb. destruct (decide (b = p)) as [->|Hne]; [congruence |]. rewrite lookup_delete_ne in Hcb by done.
    assert (b ∉ l1 ++ p :: l2) as Hbl.
    { intros (sz' & Hb' & _)%(fk_in _ _ _ _ Hok _ _ b Hl). congruence. }
    rewrite elem_of_app, elem_of_cons in Hbl. rewrite Hb, splice_out in Hx by tauto. by apply (fk_out _ _ _ _ Hok b).
Qed.

Lemma fl_insert p sz l : C !! p = None -> p <> NULL -> F !! class q sz = Some l ->
  (forall b, b <> p -> fl' !! b = splice [] l p p fl !! b) -> fl' !! p = Some (first_of l, NULL) ->
  fl_ok q (<[p := sz]> C) fl' (<[class q sz := p :: l]> F).
Proof using Hok.
  intros Hp Hpn Hl Hb Hfp. pose proof (fk_chain _ _ _ _ Hok _ _ Hl) as Hc. pose proof (lookup_lt_Some _ _ _ Hl) as Hlt.
  assert (forall j l', F !! j = Some l' -> p ∉ l') as Hno.
  { intros j l' Hj Hin. apply (fk_in _ _ _ _ Hok _ _ _ Hj) in Hin as (sz' & Hp' & _). congruence. }
  split.
  - intros j l' Hj. apply list_lookup_insert_Some in Hj as [(<- & <- & _)|[Hne Hj]].
    + apply (chain_insert fl fl' [] p l Hc Hpn); [by apply (Hno _ _ Hl) | | done]. intros b Hbl. apply Hb. intros ->. by apply (Hno _ _ Hl).
    + apply (chain_frame fl); [|by apply (fk_chain _ _ _ _ Hok j)]. intros b Hbl.
      rewrite Hb by (intros ->; by apply (Hno _ _ Hj)). apply splice_out; [apply not_elem_of_nil |].
      intros Hx. by apply Hne, (fl_disjoint _ j l l' b).
  - intros j l' b Hj. apply list_lookup_insert_Some in Hj as [(<- & <- & _)|[Hne Hj]].
    + rewrite elem_of_cons, (fk_in _ _ _ _ Hok _ _ b Hl). split.
      * intros [->|(sz' & Hb' & Hcl)]; [exists sz; by rewrite lookup_insert_eq | exists sz'; rewrite lookup_insert_ne by congruence; done].
      * intros (sz' & Hb' & Hcl). apply lookup_insert_Some in Hb' as [[-> _]|[_ ?]]; [by left | right; by exists sz'].
    + rewrite (fk_in _ _ _ _ Hok _ _ b Hj). split.
      * intros (sz' & Hb' & Hcl). exists sz'. rewrite lookup_insert_ne by congruence. done.
      * intros (sz' & Hb' & Hcl). apply lookup_insert_Some in Hb' as [[-> <-]|[_ ?]]; [congruence | by exists sz'].
  - intros b sz' Hb'. rewrite length_insert. apply lookup_insert_Some in Hb' as [[-> <-]|[_ ?]]; [done | by apply (fk_class _ _ _ _ Hok b)].
  - intros b x Hx Hcb. apply lookup_insert_None in Hcb as [Hcb Hne]. rewrite Hb in Hx by congruence.
    rewrite splice_out in Hx; [by apply (fk_out _ _ _ _ Hok b) | apply not_elem_of_nil |].
    intros (sz' & Hb' & _)%(fk_in _ _ _ _ Hok _ _ b Hl). congruence.
Qed.
End free_lists.

(** The free lists of one arena in memory. *)
Record caches_ok {A} (s : vstate A) (v : Z) (x : vmem) (C : gmap Z Z) (F : list (list Z)) : Prop := {
  ca_v : v <> NULL;
  ca_x : vmems s !! v = Some x;
  ca_q : 0 < quantum x;
  ca_cache : free_cache x <> NULL;
  ca_array : arrays s !! free_cache x = Some (first_of <$> F);
  ca_bits : cache_bits x = Z.of_nat (length F);
  ca_fl : fl_ok (quantum x) C (fl_links (bts s)) F
}.

Definition with_caches {A} (x : vmem) (h : gmap Z vmem_bt) (F : list (list Z)) (s : vstate A) : vstate A :=
  set_arrays (<[free_cache x := first_of <$> F]> (arrays s)) (set_bts h s).

Lemma highbit_ok n : 0 < n -> highbit n = Ok (Z.of_nat (Z.to_nat (Z.log2 n))).
Proof.
  intros Hn. unfold highbit. destruct (Z.eqb_spec n 0); [lia |]. pose proof (Z.log2_nonneg n). rewrite kassert_true by lia.
  cbn [mbind outcome_bind]. f_equal. lia.
Qed.

Lemma classes_pos q sz : 0 < q -> q <= sz -> 0 < sz / q.
Proof. intros Hq Hs. apply Z.div_str_pos. lia. Qed.

(** The tags that belong to the free lists: the free ones of the smaller classes. *)
Definition small (x : vmem) (F : list (list Z)) (sz : Z) : Prop := (class (quantum x) sz < length F)%nat.
#[export] Instance small_dec x F sz : Decision (small x F sz).
Proof. apply lt_dec. Defined.

Section cache_runs.
Context {A : Type} `{MmLaws A}.
Implicit Types s : vstate A.

Lemma cache_num_ok s v x C F sz : caches_ok s v x C F -> quantum x <= sz ->
  cache_num x sz = Ok (if decide (small x F sz) then Z.of_nat (class (quantum x) sz) else -1).
Proof.
  intros Hc Hs. pose proof (ca_q _ _ _ _ _ Hc) as Hq. unfold cache_num. rewrite udiv_pos by done. cbn [mbind outcome_bind].
  rewrite highbit_ok by by apply classes_pos. cbn [mbind outcome_bind]. rewrite (ca_bits _ _ _ _ _ Hc).
  fold (class (quantum x) sz). case_decide as Hsm; unfold small in Hsm; destruct (Z.leb_spec (Z.of_nat (length F)) (Z.of_nat (class (quantum x) sz))); (done || lia).
Qed.

(** The heap after [rem_freelist]. *)
Definition unlinked (p : Z) (l1 l2 : list Z) (h : gmap Z vmem_bt) : gmap Z vmem_bt :=
  updm p (set_flprev NULL) (updm p (set_flnext NULL)
    (updm (first_of l2) (set_flprev (last_of l1)) (updm (last_of l1) (set_flnext (first_of l2)) h))).

Lemma unlinked_same p l1 l2 h : tag_links (unlinked p l1 l2 h) = tag_links h /\ data_of (unlinked p l1 l2 h) = data_of h.
Proof. unfold unlinked. by rewrite !tag_links_same, !data_of_same by done. Qed.

Lemma unlinked_fl q C h F p sz l1 l2 : fl_ok q C (fl_links h) F -> C !! p = Some sz -> F !! class q sz = Some (l1 ++ p :: l2) ->
  fl_ok q (base.delete p C) (fl_links (unlinked p l1 l2 h)) (<[class q sz := l1 ++ l2]> F).
Proof.
  intros Hok Hp Hl. pose proof (fk_chain _ _ _ _ Hok _ _ Hl) as Hc. pose proof (chain_lookup _ _ _ _ Hc) as Hpl.
  destruct (chain_elem _ _ p Hc) as (_ & _ & _ & _ & Hpn); [apply elem_of_app; right; by apply elem_of_cons; left |].
  pose proof Hc as (Hnd & _). destruct (nodup_parts l1 [p] l2 Hnd) as (_ & _ & _ & _ & _ & Hpo). specialize (Hpo p (list_elem_of_here _ _)).
  unfold unlinked. rewrite !fl_links_prev, !fl_links_next, fl_links_prev, fl_links_next.
  apply (fl_remove q C (fl_links h)); try done.
  - intros b Hb. by rewrite set_prev_ne, set_next_ne.
  - assert (splice l1 l2 (first_of l2) (last_of l1) (fl_links h) !! p = Some (first_of l2, last_of l1)) as Hs by (by rewrite splice_out by tauto).
    unfold splice in Hs. rewrite (set_prev_eq _ _ _ (NULL, last_of l1)); [done | done |]. by rewrite (set_next_eq _ _ _ _ Hpn Hs).
Qed.

Lemma neighbours_some (h : gmap Z vmem_bt) m l1 p l2 : chain m (l1 ++ p :: l2) -> (forall a, is_Some (m !! a) -> is_Some (h !! a)) ->
  (last_of l1 = NULL \/ is_Some (h !! last_of l1)) /\ (first_of l2 = NULL \/ is_Some (h !! first_of l2)) /\
  p <> last_of l1 /\ p <> first_of l2 /\ (last_of l1 = NULL \/ last_of l1 <> first_of l2).
Proof.
  intros Hc Hm. pose proof Hc as (Hnd & _). destruct (nodup_parts l1 [p] l2 Hnd) as (_ & _ & _ & _ & Hd & Hpo).
  specialize (Hpo p (list_elem_of_here _ _)).
  assert (forall b, b ∈ l1 ++ p :: l2 -> is_Some (h !! b) /\ b <> NULL) as Hs.
  { intros b Hb. destruct (chain_elem _ _ _ Hc Hb) as (? & ? & _ & E & ?). split; [|done]. apply Hm. by rewrite E. }
  assert (is_Some (h !! p) /\ p <> NULL) as [_ Hpn] by (apply Hs, elem_of_app; right; by apply elem_of_cons; left).
  assert (last_of l1 = NULL \/ last_of l1 ∈ l1) as H1 by (destruct l1; [by left | right; by apply last_of_in]).
  assert (first_of l2 = NULL \/ first_of l2 ∈ l2) as H2 by (destruct l2; [by left | right; by apply first_of_in]).
  split_and!.
  - destruct H1 as [?|H1]; [by left | right]. apply Hs, elem_of_app. by left.
  - destruct H2 as [?|H2]; [by left | right]. apply Hs, elem_of_app. right. apply elem_of_cons. by right.
  - destruct H1 as [->|H1]; [done |]. intros ->. tauto.
  - destruct H2 as [->|H2]; [done |]. intros ->. tauto.
  - destruct H1 as [?|H1]; [by left | right]. destruct H2 as [->|H2].
    + apply Hs, elem_of_app. by left.
    + intros E. rewrite E in H1. by apply (Hd _ H1).
Qed.

Lemma view_is_Some {B} (w : vmem_bt -> B) (h : gmap Z vmem_bt) a : is_Some ((w <$> h) !! a) -> is_Some (h !! a).
Proof. by rewrite lookup_fmap, fmap_is_Some. Qed.

Lemma rem_freelist_ok s v x C F p b : caches_ok s v x C F -> C !! p = Some (b_size b) -> bts s !! p = Some b -> quantum x <= b_size b ->
  exists h F', rem_freelist v p s = Ok (tt, with_caches x h F' s) /\ tag_links h = tag_links (bts s) /\ data_of h = data_of (bts s) /\
  caches_ok (with_caches x h F' s) v x (base.delete p C) F'.
Proof.
  intros Hc Hp Hb Hs. pose proof Hc as [C1 C2 C3 C4 C5 C6 C7]. destruct (fl_find _ _ _ _ C7 _ _ Hp) as (l1 & l2 & Hl).
  pose proof (fk_chain _ _ _ _ C7 _ _ Hl) as Hch. pose proof (chain_lookup _ _ _ _ Hch) as Hpl.
  destruct (chain_elem _ _ p Hch) as (_ & _ & _ & _ & Hpn); [apply elem_of_app; right; by apply elem_of_cons; left |].
  unfold fl_links in Hpl. rewrite lookup_fmap, Hb in Hpl. injection Hpl as Hfn Hfp.
  destruct (neighbours_some (bts s) _ _ _ _ Hch (view_is_Some _ _)) as (N1 & N2 & N3 & N4 & _).
  set (i := class (quantum x) (b_size b)) in *. set (F' := <[i := l1 ++ l2]> F). set (s1 := set_arrays (<[free_cache x := first_of <$> F']> (arrays s)) s).
  assert ((if first_of (l1 ++ p :: l2) =? p then arr_set (free_cache x) (Z.of_nat i) (fl_next b) else mret tt) s = Ok (tt, s1)) as Ehead.
  { unfold s1, F'. rewrite list_fmap_insert. rewrite first_of_app. destruct (decide (l1 = [])) as [->|Hl1].
    - simpl. rewrite Z.eqb_refl. rewrite (arr_set_ok _ _ _ _ _ C4 C5), Nat2Z.id, Hfn; [done |]. rewrite length_fmap.
      pose proof (lookup_lt_Some _ _ _ Hl). lia.
    - destruct (Z.eqb_spec (first_of l1) p) as [E|_].
      { destruct Hch as (Hnd & _). destruct (nodup_parts l1 [p] l2 Hnd) as (_ & _ & _ & _ & _ & Hpo).
        destruct (Hpo p (list_elem_of_here _ _)) as [Hx _]. destruct Hx. rewrite <- E. by apply first_of_in. }
      rewrite list_insert_id by (rewrite list_lookup_fmap, Hl; simpl; by rewrite !first_of_app, !decide_False).
      rewrite insert_id by done. by destruct s. }
  exists (unlinked p l1 l2 (bts s)), F'. split.
  - unfold rem_freelist. rewrite run_bind, (ldv_ok _ _ _ C1 C2). rewrite run_bind, (ldb_ok _ _ _ Hpn Hb), run_bind.
    unfold liftO at 1. rewrite (cache_num_ok _ _ _ _ _ _ Hc Hs), decide_True by (by apply (fk_class _ _ _ _ C7 p)).
    rewrite run_bind. unfold massert, liftO. rewrite kassert_true by lia. fold i. rewrite run_bind.
    rewrite (arr_get_ok _ _ _ _ (first_of (l1 ++ p :: l2)) C4 C5); [|lia | by rewrite Nat2Z.id, list_lookup_fmap, Hl].
    rewrite run_bind, Ehead, run_bind, (ldb_ok s1 _ _ Hpn Hb), run_bind, Hfp, Hfn, (updb_if_ok s1 _ _ N1), run_bind.
    rewrite (ldb_ok _ _ b Hpn) by (cbn [set_bts bts]; by rewrite updm_ne). rewrite run_bind, Hfp, Hfn.
    rewrite updb_if_ok by (destruct N2 as [?|?]; [by left | right; cbn [set_bts bts]; by apply updm_is_Some]).
    rewrite run_bind, updb_ok by (done || cbn [set_bts bts]; apply updm_is_Some, updm_is_Some; by eexists).
    rewrite updb_ok by (done || cbn [set_bts bts]; apply updm_is_Some, updm_is_Some, updm_is_Some; by eexists). done.
  - destruct (unlinked_same p l1 l2 (bts s)) as [-> ->]. split_and!; try done. split; try done.
    + cbn. by rewrite lookup_insert_eq.
    + by rewrite C6; unfold F'; rewrite length_insert.
    + by apply unlinked_fl.
Qed.

(** The heap after [add_freelist]. *)
Definition relinked (p : Z) (l : list Z) (h : gmap Z vmem_bt) : gmap Z vmem_bt :=
  updm p (set_flnext (first_of l)) (updm p (set_flprev NULL) (updm (first_of l) (set_flprev p) h)).

Lemma relinked_same p l h : tag_links (relinked p l h) = tag_links h /\ data_of (relinked p l h) = data_of h.
Proof. unfold relinked. by rewrite !tag_links_same, !data_of_same by done. Qed.

Lemma relinked_fl q C h F p sz l : fl_ok q C (fl_links h) F -> C !! p = None -> p <> NULL -> is_Some (h !! p) -> F !! class q sz = Some l ->
  fl_ok q (<[p := sz]> C) (fl_links (relinked p l h)) (<[class q sz := p :: l]> F).
Proof.
  intros Hok Hp Hpn [b Hb] Hl. assert (fl_links h !! p = Some (NULL, NULL)) as Hpl.
  { unfold fl_links. rewrite lookup_fmap, Hb. simpl. f_equal. apply (fk_out _ _ _ _ Hok p); [|done]. unfold fl_links. by rewrite lookup_fmap, Hb. }
  assert (p ∉ l) as Hno by (intros (sz' & Hp' & _)%(fk_in _ _ _ _ Hok _ _ _ Hl); congruence).
  unfold relinked. rewrite fl_links_next, !fl_links_prev. apply (fl_insert q C (fl_links h)); try done.
  - intros a Ha. by rewrite set_next_ne, set_prev_ne.
  - assert (set_prev (first_of l) p (fl_links h) !! p = Some (NULL, NULL)) as Hs by (change (splice [] l NULL p (fl_links h) !! p = Some (NULL, NULL));
      rewrite splice_out; [done | apply not_elem_of_nil | done]).
    by rewrite (set_next_eq _ _ _ (NULL, NULL) Hpn (set_prev_eq _ _ _ _ Hpn Hs)).
Qed.

Lemma add_freelist_ok s v x C F p b : caches_ok s v x C F -> C !! p = None -> p <> NULL -> bts s !! p = Some b -> quantum x <= b_size b ->
  (class (quantum x) (b_size b) < length F)%nat ->
  exists h F', add_freelist v p s = Ok (tt, with_caches x h F' s) /\ tag_links h = tag_links (bts s) /\ data_of h = data_of (bts s) /\
  caches_ok (with_caches x h F' s) v x (<[p := b_size b]> C) F'.
Proof.
  intros Hc Hp Hpn Hb Hs Hcl. pose proof Hc as [C1 C2 C3 C4 C5 C6 C7]. set (i := class (quantum x) (b_size b)) in *.
  destruct (lookup_lt_is_Some_2 F i Hcl) as [l Hl]. assert (fl_links (bts s) !! p = Some (fl_next b, fl_prev b)) as Hpl by (unfold fl_links; by rewrite lookup_fmap, Hb).
  pose proof (fk_out _ _ _ _ C7 _ _ Hpl Hp) as E. injection E as Hfn Hfp.
  assert (first_of l = NULL \/ (is_Some (bts s !! first_of l) /\ first_of l <> NULL)) as Hfl.
  { destruct l as [|c l]; [by left | right]. destruct (chain_elem _ _ c (fk_chain _ _ _ _ C7 _ _ Hl)) as (? & ? & _ & E & ?); [by apply elem_of_cons; left |].
    split; [|done]. apply (view_is_Some (fun b => (fl_next b, fl_prev b))). by eexists. }
  exists (relinked p l (bts s)), (<[i := p :: l]> F). split.
  - unfold add_freelist. rewrite run_bind, (ldv_ok _ _ _ C1 C2), run_bind, (ldb_ok _ _ _ Hpn Hb), run_bind.
    unfold liftO at 1. rewrite udiv_pos by done. rewrite run_bind. unfold liftO at 1. rewrite highbit_ok by by apply classes_pos.
    fold (class (quantum x) (b_size b)). fold i. rewrite run_bind. unfold massert at 1, liftO. rewrite kassert_true by lia.
    rewrite run_bind. unfold massert at 1, liftO. rewrite kassert_true by by rewrite Hfn. rewrite run_bind. unfold massert, liftO.
    rewrite kassert_true by by rewrite Hfp. rewrite run_bind.
    rewrite (arr_get_ok _ _ _ _ (first_of l) C4 C5); [|lia | by rewrite Nat2Z.id, list_lookup_fmap, Hl]. rewrite run_bind.
    rewrite updb_if_ok by tauto. rewrite run_bind, updb_ok by (done || cbn [set_bts bts]; apply updm_is_Some; by eexists). rewrite run_bind.
    erewrite arr_get_ok; [|exact C4 | exact C5 | lia | by rewrite Nat2Z.id, list_lookup_fmap, Hl]. rewrite run_bind.
    rewrite updb_ok by (done || cbn [set_bts bts]; apply updm_is_Some, updm_is_Some; by eexists).
    erewrite arr_set_ok; [|exact C4 | exact C5 | rewrite length_fmap; lia].
    unfold with_caches, relinked. rewrite list_fmap_insert, Nat2Z.id. done.
  - destruct (relinked_same p l (bts s)) as [-> ->]. split_and!; try done. split; try done.
    + cbn. by rewrite lookup_insert_eq.
    + by rewrite C6, length_insert.
    + by apply relinked_fl.
Qed.

Lemma uncache_ok s v x C F p b : caches_ok s v x C F -> p <> NULL -> bts s !! p = Some b -> quantum x <= b_size b ->
  C !! p = (if decide (small x F (b_size b)) then Some (b_size b) else None) ->
  exists h F', if_cached v p rem_freelist s = Ok (tt, with_caches x h F' s) /\ tag_links h = tag_links (bts s) /\ data_of h = data_of (bts s) /\
  caches_ok (with_caches x h F' s) v x (base.delete p C) F' /\ length F' = length F.
Proof.
  intros Hc Hpn Hb Hs Hp. unfold if_cached. rewrite run_bind, (ldv_ok _ _ _ (ca_v _ _ _ _ _ Hc) (ca_x _ _ _ _ _ Hc)).
  rewrite run_bind, (ldb_ok _ _ _ Hpn Hb), run_bind. unfold liftO. rewrite (cache_num_ok _ _ _ _ _ _ Hc Hs).
  case_decide.
  - destruct (Z.leb_spec 0 (Z.of_nat (class (quantum x) (b_size b)))); [|lia].
    destruct (rem_freelist_ok s v x C F p b Hc Hp Hb Hs) as (h & F' & E & R1 & R2 & R3). exists h, F'. split_and!; try done.
    pose proof (ca_bits _ _ _ _ _ Hc). pose proof (ca_bits _ _ _ _ _ R3). lia.
  - change (0 <=? -1) with false. cbn iota. exists (bts s), F. destruct s. unfold with_caches. cbn.
    rewrite insert_id by apply (ca_array _ _ _ _ _ Hc). rewrite delete_id by done. by split_and!.
Qed.

Lemma recache_ok s v x C F p b : caches_ok s v x C F -> p <> NULL -> bts s !! p = Some b -> quantum x <= b_size b -> C !! p = None ->
  exists h F', if_cached v p add_freelist s = Ok (tt, with_caches x h F' s) /\ tag_links h = tag_links (bts s) /\ data_of h = data_of (bts s) /\
  caches_ok (with_caches x h F' s) v x (if decide (small x F (b_size b)) then <[p := b_size b]> C else C) F' /\ length F' = length F.
Proof.
  intros Hc Hpn Hb Hs Hp. unfold if_cached. rewrite run_bind, (ldv_ok _ _ _ (ca_v _ _ _ _ _ Hc) (ca_x _ _ _ _ _ Hc)).
  rewrite run_bind, (ldb_ok _ _ _ Hpn Hb), run_bind. unfold liftO. rewrite (cache_num_ok _ _ _ _ _ _ Hc Hs). case_decide.
  - destruct (Z.leb_spec 0 (Z.of_nat (class (quantum x) (b_size b)))); [|lia].
    destruct (add_freelist_ok s v x C F p b Hc Hp Hpn Hb Hs) as (h & F' & E & R1 & R2 & R3); [done |]. exists h, F'. split_and!; try done.
    pose proof (ca_bits _ _ _ _ _ Hc). pose proof (ca_bits _ _ _ _ _ R3). lia.
  - change (0 <=? -1) with false. cbn iota. exists (bts s), F. destruct s. unfold with_caches. cbn.
    rewrite insert_id by apply (ca_array _ _ _ _ _ Hc). by split_and!.
Qed.
End cache_runs.
