(* ===== verification/VmemSegs.v ===== *)
(** The segments of an arena: lists that tile their span without two neighbours
    both free, and how the boundary tags of [Vmem] represent them. *)
From S2P Require Import Prelude Mm Lists Chain Vmem VmemRep.

(** * Segments *)

Record seg := Seg { sg_addr : Z; sg_size : Z; sg_alloc : bool }.

(** The segments follow each other from [a] to [e], in multiples of the quantum. *)
Fixpoint tile (q a : Z) (l : list seg) (e : Z) : Prop :=
  match l with
  | [] => a = e
  | g :: l => sg_addr g = a /\ 0 < sg_size g /\ (q | sg_size g) /\ tile q (a + sg_size g) l e
  end.

(** Free segments are as large as they can be. *)
Fixpoint coalesced (l : list seg) : Prop :=
  match l with
  | g1 :: (g2 :: _) as l => (sg_alloc g1 = true \/ sg_alloc g2 = true) /\ coalesced l
  | _ => True
  end.

(** The regions that are handed out. *)
Definition allocs (l : list seg) : list (Z * Z) := omap (fun g => if sg_alloc g then Some (sg_addr g, sg_size g) else None) l.

Lemma allocs_app l1 l2 : allocs (l1 ++ l2) = allocs l1 ++ allocs l2.
Proof. apply omap_app. Qed.

Lemma tile_app q a l1 l2 e : tile q a (l1 ++ l2) e <-> exists b, tile q a l1 b /\ tile q b l2 e.
Proof.
  revert a. induction l1 as [|g l1 IH]; intros a; simpl.
  - split; [intros Ht; by exists a | by intros (b & -> & Ht)].
  - rewrite IH. split.
    + intros (H1 & H2 & H3 & b & H4 & H5). exists b. by split_and!.
    + intros (b & (H1 & H2 & H3 & H4) & H5). split_and!; try done. by exists b.
Qed.

Lemma tile_le q a l e : tile q a l e -> a <= e.
Proof. revert a. induction l as [|g l IH]; simpl; intros a; [lia |]. intros (_ & Hs & _ & Ht). apply IH in Ht. lia. Qed.

(** Where a segment lies. *)
Lemma tile_elem q a l1 g l2 e : tile q a (l1 ++ g :: l2) e ->
  a <= sg_addr g /\ sg_addr g + sg_size g <= e /\ 0 < sg_size g /\ (q | sg_size g) /\ tile q a l1 (sg_addr g) /\
  tile q (sg_addr g + sg_size g) l2 e.
Proof.
  intros (b & H1 & H2)%tile_app. simpl in H2. destruct H2 as (<- & H2 & H3 & H4). split_and!; try done.
  - by apply tile_le in H1.
  - by apply tile_le in H4.
Qed.

Lemma tile_offset q a l1 g l2 e : tile q a (l1 ++ g :: l2) e -> (q | sg_addr g - a).
Proof.
  intros (_ & _ & _ & _ & H1 & _)%tile_elem. revert a H1. induction l1 as [|g1 l1 IH]; intros a; simpl.
  - intros ->. rewrite Z.sub_diag. apply Z.divide_0_r.
  - intros (_ & _ & Hd & H1). apply IH in H1. replace (sg_addr g - a) with ((sg_addr g - (a + sg_size g1)) + sg_size g1) by lia.
    by apply Z.divide_add_r.
Qed.

(** Two segments of a tiling with one address are the same. *)
Lemma tile_unique q a e l1 g l2 k1 g' k2 : tile q a (l1 ++ g :: l2) e -> l1 ++ g :: l2 = k1 ++ g' :: k2 -> sg_addr g = sg_addr g' ->
  l1 = k1 /\ g = g' /\ l2 = k2.
Proof.
  revert a k1. induction l1 as [|h1 l1 IH]; intros a [|h2 k1] Ht E Ha; simpl in *.
  - by injection E as <- <-.
  - injection E as -> ->. destruct Ht as (Hh & Hp & _ & Ht). destruct (tile_elem _ _ _ _ _ _ Ht) as (Hx & _). lia.
  - injection E as <- <-. destruct Ht as (Hh & Hp & _ & Ht). destruct (tile_elem _ _ _ _ _ _ Ht) as (Hx & _). lia.
  - injection E as <- E. destruct Ht as (_ & _ & _ & Ht). by destruct (IH _ k1 Ht E Ha) as (-> & -> & ->).
Qed.

Lemma coalesced_app l1 l2 : coalesced (l1 ++ l2) <-> coalesced l1 /\ coalesced l2 /\
  (forall k1 g1 g2 k2, l1 = k1 ++ [g1] -> l2 = g2 :: k2 -> sg_alloc g1 = true \/ sg_alloc g2 = true).
Proof.
  induction l1 as [|g l1 IH].
  - simpl. split; [|tauto]. intros Hc. split_and!; try done. by intros [|].
  - destruct l1 as [|g' l1].
    + destruct l2 as [|g2 l2]; simpl.
      * split; [|tauto]. intros _. split_and!; try done.
      * split.
        -- intros [Ha Hc]. split_and!; try done. intros [|? [|]] g1 g2' k2 E E2; try done. injection E as <-. injection E2 as <- _. exact Ha.
        -- intros (_ & Hc & Hx). split; [by apply (Hx [] g g2 l2) | done].
    + change (coalesced ((g :: g' :: l1) ++ l2)) with ((sg_alloc g = true \/ sg_alloc g' = true) /\ coalesced ((g' :: l1) ++ l2)).
      rewrite IH. change (coalesced (g :: g' :: l1)) with ((sg_alloc g = true \/ sg_alloc g' = true) /\ coalesced (g' :: l1)). split.
      * intros (Ha & H1 & H2 & H3). split_and!; try done. intros [|h k1] g1 g2 k2 E E2; simpl in E; [done |]. injection E as <- E. by apply (H3 k1 g1 g2 k2).
      * intros ((Ha & H1) & H2 & H3). split_and!; try done. intros k1 g1 g2 k2 E E2. apply (H3 (g :: k1) g1 g2 k2); [by rewrite E | done].
Qed.

Lemma allocs_range q a l e x sz : tile q a l e -> (x, sz) ∈ allocs l -> a <= x /\ x + sz <= e /\ 0 < sz.
Proof.
  intros Ht Hx. unfold allocs in Hx. apply list_elem_of_omap in Hx as (g & Hg & E). destruct (sg_alloc g); [|done]. injection E as <- <-.
  apply list_elem_of_split in Hg as (l1 & l2 & ->). destruct (tile_elem _ _ _ _ _ _ Ht) as (? & ? & ? & _). lia.
Qed.

(** The regions that are handed out determine the segments. *)
Lemma segs_canonical q a l l' e : tile q a l e -> tile q a l' e -> coalesced l -> coalesced l' -> allocs l = allocs l' -> l = l'.
Proof.
  revert a l'. induction l as [|[x s al] l IH]; intros a [|[x' s' al'] l'] Ht Ht' Hc Hc' Ha; [done | | |].
  - destruct Ht' as (_ & Hs & _ & Hx). apply tile_le in Hx. simpl in Ht, Hs, Hx. lia.
  - destruct Ht as (_ & Hs & _ & Hx). apply tile_le in Hx. simpl in Ht', Hs, Hx. lia.
  - assert (coalesced l /\ coalesced l') as [Hl Hl'] by (destruct l, l'; simpl in Hc, Hc'; tauto).
    destruct Ht as (Hx & Hs & _ & Ht), Ht' as (Hx' & Hs' & _ & Ht'). simpl in *. subst x x'.
    destruct al, al'; cbn in Ha; fold (allocs l) in Ha; fold (allocs l') in Ha.
    + injection Ha as -> Ha. f_equal. by apply (IH (a + s')).
    + assert ((a, s) ∈ allocs l') as Hin by (rewrite <- Ha; by apply elem_of_cons; left).
      destruct (allocs_range _ _ _ _ _ _ Ht' Hin). lia.
    + assert ((a, s') ∈ allocs l) as Hin by (rewrite Ha; by apply elem_of_cons; left).
      destruct (allocs_range _ _ _ _ _ _ Ht Hin). lia.
    + destruct l as [|[y t [|]] l], l' as [|[y' t' [|]] l']; simpl in Hc, Hc'; try (destruct Hc as [[|] _]; done); try (destruct Hc' as [[|] _]; done);
        try done.
      * simpl in Ht, Ht'. by replace s' with s by lia.
      * pose proof Ha as Ha2. cbn in Ha2. injection Ha2 as Ea _ _. pose proof Ht as (E & _). pose proof Ht' as (E' & _). simpl in E, E'.
        assert (s = s') as -> by lia. f_equal. by apply (IH (a + s')).
Qed.

(** * The boundary tags of a list of segments *)

Definition alloc_bit (g : seg) : Z := if sg_alloc g then VMEM_ALLOCATED else VMEM_FREE.

(** The tags [L] are linked in this order and hold their segments. *)
Definition tags_rep (h : gmap Z vmem_bt) (L : list (Z * seg)) : Prop :=
  chain (tag_links h) L.*1 /\ forall p g, (p, g) ∈ L -> data_of h !! p = Some (sg_addr g, sg_size g, alloc_bit g).

Lemma tags_rep_views h h' L : tag_links h' = tag_links h -> data_of h' = data_of h -> tags_rep h L -> tags_rep h' L.
Proof. unfold tags_rep. by intros -> ->. Qed.

Lemma tags_rep_lookup h B1 p g B2 : tags_rep h (B1 ++ (p, g) :: B2) -> exists b, h !! p = Some b /\ p <> NULL /\
  b_addr b = sg_addr g /\ b_size b = sg_size g /\ allocated b = alloc_bit g /\ b_next b = first_of B2.*1 /\ b_prev b = last_of B1.*1.
Proof.
  intros [Hc Hd]. rewrite fmap_app, fmap_cons in Hc. cbn [fst] in Hc. assert (p ∈ B1.*1 ++ p :: B2.*1) as Hin by (apply elem_of_app; right; by apply elem_of_cons; left).
  destruct (chain_elem _ _ _ Hc Hin) as (_ & _ & _ & _ & Hn). apply chain_lookup in Hc.
  assert (data_of h !! p = Some (sg_addr g, sg_size g, alloc_bit g)) as Hp by (apply Hd, elem_of_app; right; by apply elem_of_cons; left).
  unfold tag_links in Hc. rewrite lookup_fmap in Hc. unfold data_of in Hp. rewrite lookup_fmap in Hp. destruct (h !! p) as [b|]; [|done].
  simpl in Hc, Hp. injection Hc as E1 E2. injection Hp as E3 E4 E5. exists b. by split_and!.
Qed.

Lemma tags_rep_nodup h B1 p g B2 : tags_rep h (B1 ++ (p, g) :: B2) -> p ∉ B1.*1 /\ p ∉ B2.*1 /\ (forall a, a ∈ B1.*1 -> a ∉ B2.*1).
Proof.
  intros [(Hnd & _) _]. rewrite fmap_app, fmap_cons in Hnd. cbn [fst] in Hnd. destruct (nodup_parts B1.*1 [p] B2.*1 Hnd) as (_ & _ & _ & _ & H1 & H2).
  destruct (H2 p (list_elem_of_here _ _)). done.
Qed.

(** A segment gets new data. *)
Lemma tags_rep_update h h' B1 p g g' B2 : tags_rep h (B1 ++ (p, g) :: B2) -> tag_links h' = tag_links h ->
  (forall b, b <> p -> data_of h' !! b = data_of h !! b) -> data_of h' !! p = Some (sg_addr g', sg_size g', alloc_bit g') ->
  tags_rep h' (B1 ++ (p, g') :: B2).
Proof.
  intros Hr Ht Hd Hp. destruct (tags_rep_nodup _ _ _ _ _ Hr) as (N1 & N2 & _). destruct Hr as [Hc Hdata]. split.
  - rewrite Ht. rewrite fmap_app, fmap_cons in *. exact Hc.
  - intros a k Ha. apply elem_of_app in Ha as [Ha|[[= -> ->]|Ha]%elem_of_cons]; [|done |].
    + rewrite Hd; [apply Hdata, elem_of_app; by left |]. intros ->. apply N1, list_elem_of_fmap. by exists (p, k).
    + rewrite Hd; [apply Hdata, elem_of_app; right; by apply elem_of_cons; right |]. intros ->. apply N2, list_elem_of_fmap. by exists (p, k).
Qed.

(** The tag [p0] swallows its right neighbour [p]. *)
Definition merged (p0 p nx sz : Z) (h : gmap Z vmem_bt) : gmap Z vmem_bt :=
  base.delete p (updm nx (set_bprev p0) (updm p0 (set_bnext nx) (updm p0 (set_bsize sz) h))).

Lemma tags_rep_merge h B1 p0 g0 p g B2 sz : tags_rep h (B1 ++ (p0, g0) :: (p, g) :: B2) ->
  tags_rep (merged p0 p (first_of B2.*1) sz h) (B1 ++ (p0, Seg (sg_addr g0) sz (sg_alloc g0)) :: B2).
Proof.
  intros Hr. destruct (tags_rep_lookup _ _ _ _ _ Hr) as (b0 & Hb0 & Hn0 & _).
  destruct (tags_rep_nodup _ _ _ _ _ Hr) as (N1 & N2 & N3). rewrite fmap_cons in N2. simpl in N2. rewrite elem_of_cons in N2.
  change (B1 ++ (p0, g0) :: (p, g) :: B2) with (B1 ++ [(p0, g0)] ++ (p, g) :: B2) in Hr. rewrite app_assoc in Hr.
  destruct (tags_rep_nodup _ _ _ _ _ Hr) as (M1 & M2 & M3). destruct Hr as [Hc Hd]. rewrite fmap_app, fmap_cons in Hc. simpl in Hc.
  assert (last_of (B1 ++ [(p0, g0)]).*1 = p0) as Hl by (rewrite fmap_app; simpl; unfold last_of; by rewrite last_snoc).
  set (h' := merged _ _ _ _ _).
  assert (forall b, b <> p -> tag_links h' !! b = splice (B1 ++ [(p0, g0)]).*1 B2.*1 (first_of B2.*1) p0 (tag_links h) !! b) as Ht.
  { intros b Hb. unfold h', merged, splice. unfold tag_links at 1. rewrite fmap_delete, lookup_delete_ne by done. fold (tag_links (updm (first_of B2.*1) (set_bprev p0) (updm p0 (set_bnext (first_of B2.*1)) (updm p0 (set_bsize sz) h)))).
    rewrite tag_links_prev, tag_links_next, tag_links_same by done. by rewrite Hl. }
  assert (forall b, b <> p -> data_of h' !! b = if decide (b = p0) then (fun d => (d.1.1, sz, d.2)) <$> (data_of h !! b) else data_of h !! b) as Hd'.
  { intros b Hb. unfold h', merged. unfold data_of at 1. rewrite fmap_delete, lookup_delete_ne by done.
    fold (data_of (updm (first_of B2.*1) (set_bprev p0) (updm p0 (set_bnext (first_of B2.*1)) (updm p0 (set_bsize sz) h)))).
    rewrite data_of_same, data_of_same, data_of_size by done. case_decide as E; [rewrite E; by rewrite lookup_alter_eq | by rewrite lookup_alter_ne]. }
  split.
  - rewrite fmap_app, fmap_cons. simpl. pose proof (chain_remove (tag_links h) (tag_links h') (B1 ++ [(p0, g0)]).*1 p B2.*1 Hc) as Hx.
    rewrite fmap_app in Hx. simpl in Hx. rewrite <- app_assoc in Hx. apply Hx. intros b Hb.
    pose proof (Ht b) as Hy. rewrite fmap_app in Hy. simpl in Hy. rewrite Hy.
    + f_equal. rewrite fmap_app in Hl. simpl in Hl. by rewrite Hl.
    + intros ->. rewrite fmap_app in M1. simpl in M1. apply elem_of_app in Hb as [Hb|[->|Hb]%elem_of_cons];
        [apply M1, elem_of_app; by left | apply M1, elem_of_app; right; by apply list_elem_of_singleton | done].
  - assert (forall a k, (a, k) ∈ B1 \/ (a, k) ∈ B2 -> a <> p0 /\ a <> p) as Hne.
    { intros a k Ha. rewrite fmap_app, elem_of_app in M1. split; intros ->.
      - destruct Ha as [Ha|Ha]; [apply N1 | apply N2; right]; apply list_elem_of_fmap; by exists (p0, k).
      - destruct Ha as [Ha|Ha]; [apply M1; left | apply M2]; apply list_elem_of_fmap; by exists (p, k). }
    assert (p0 <> p) as Hpp by (intros ->; apply N2; by left).
    intros a k Ha. apply elem_of_app in Ha as [Ha|[[= -> ->]|Ha]%elem_of_cons].
    + destruct (Hne a k) as [? ?]; [by left |]. rewrite Hd', decide_False by done. apply Hd. rewrite <- app_assoc. apply elem_of_app. by left.
    + rewrite Hd', decide_True by done. rewrite (Hd p0 g0); [done |]. rewrite <- app_assoc. apply elem_of_app. right. by apply elem_of_cons; left.
    + destruct (Hne a k) as [? ?]; [by right |]. rewrite Hd', decide_False by done. apply Hd. rewrite <- app_assoc. apply elem_of_app. right.
      apply elem_of_cons. right. by apply elem_of_cons; right.
Qed.

(** The tag [p] is cut, and the right part gets the new tag [t]. *)
Definition cut_at (p t nx sz1 : Z) (b : vmem_bt) (h : gmap Z vmem_bt) : gmap Z vmem_bt :=
  updm p (set_bnext t) (updm nx (set_bprev t) (updm t (fun _ => b) (updm p (set_bsize sz1) (<[t := raw_bt]> h)))).

Lemma tags_rep_split h B1 p g B2 t sz1 a2 sz2 : tags_rep h (B1 ++ (p, g) :: B2) -> t <> NULL -> t ∉ (B1 ++ (p, g) :: B2).*1 ->
  let b := Bt a2 sz2 NULL VMEM_FREE (first_of B2.*1) p NULL NULL in
  tags_rep (cut_at p t (first_of B2.*1) sz1 b h) (B1 ++ (p, Seg (sg_addr g) sz1 (sg_alloc g)) :: (t, Seg a2 sz2 false) :: B2).
Proof.
  intros Hr Htn Ht b. destruct (tags_rep_lookup _ _ _ _ _ Hr) as (bp & Hbp & Hpn & _).
  destruct (tags_rep_nodup _ _ _ _ _ Hr) as (N1 & N2 & N3). destruct Hr as [Hc Hd]. rewrite fmap_app, fmap_cons in Hc, Ht. cbn [fst] in Hc, Ht.
  rewrite elem_of_app, elem_of_cons in Ht. assert (p <> t) as Hpt by (intros ->; tauto).
  assert (first_of B2.*1 <> t) as Hnt.
  { destruct (decide (B2.*1 = [])) as [->|Hne]; [done |]. intros E. apply first_of_in in Hne. rewrite E in Hne. tauto. }
  assert (first_of B2.*1 <> p) as Hnp.
  { destruct (decide (B2.*1 = [])) as [->|Hne]; [done |]. intros E. apply first_of_in in Hne. by rewrite E in Hne. }
  set (h1 := updm t (fun _ => b) (updm p (set_bsize sz1) (<[t := raw_bt]> h))).
  assert (forall a, a <> t -> h1 !! a = updm p (set_bsize sz1) h !! a) as Hh1.
  { intros a Ha. unfold h1. rewrite updm_ne by done. destruct (decide (a = p)) as [->|Hap].
    - by rewrite !(updm_eq _ _ _ bp) by (done || rewrite lookup_insert_ne by congruence; done).
    - by rewrite !updm_ne, lookup_insert_ne by congruence. }
  assert (h1 !! t = Some b) as Hh1t by (unfold h1; by rewrite (updm_eq _ _ _ raw_bt) by (done || rewrite updm_ne by congruence; apply lookup_insert_eq)).
  set (h' := cut_at _ _ _ _ _ _). assert (tag_links h' = set_next p t (set_prev (first_of B2.*1) t (tag_links h1))) as Etl
    by (unfold h', cut_at; by rewrite tag_links_next, tag_links_prev).
  assert (data_of h' = data_of h1) as Eda by (unfold h', cut_at; rewrite !data_of_same by done; done).
  assert (forall a, a <> t -> tag_links h1 !! a = tag_links h !! a) as Htl1.
  { intros a Ha. unfold tag_links at 1. rewrite lookup_fmap, Hh1 by done. rewrite <- lookup_fmap. fold (tag_links (updm p (set_bsize sz1) h)).
    rewrite tag_links_same by done. done. }
  assert (last_of (B1.*1 ++ [p]) = p) as Hl by (unfold last_of; by rewrite last_snoc).
  change (B1.*1 ++ p :: B2.*1) with (B1.*1 ++ [p] ++ B2.*1) in Hc. rewrite app_assoc in Hc. split.
  - rewrite fmap_app, !fmap_cons. cbn [fst]. change (p :: t :: B2.*1) with ([p] ++ t :: B2.*1). rewrite app_assoc.
    apply (chain_insert (tag_links h) _ _ _ _ Hc Htn).
    + rewrite !elem_of_app, list_elem_of_singleton. intros [[?|?]|?]; [tauto | congruence | tauto].
    + intros a Ha. assert (a <> t) as Hat by (intros ->; rewrite !elem_of_app, list_elem_of_singleton in Ha; tauto).
      assert (is_Some (tag_links h !! a) /\ a <> NULL) as [[xa Hxa] Han].
      { destruct (chain_elem _ _ _ Hc Ha) as (? & ? & _ & -> & ?). by split. }
      rewrite Etl. unfold splice. rewrite Hl. unfold set_next, set_prev. destruct (Z.eqb_spec p NULL) as [|_]; [done |].
      destruct (Z.eqb_spec (first_of B2.*1) NULL) as [E0|E0].
      * destruct (decide (a = p)) as [->|Hap]; [by rewrite !lookup_alter_eq, Htl1 | rewrite !lookup_alter_ne, Htl1 by congruence; done].
      * destruct (decide (a = p)) as [->|Hap].
        -- rewrite lookup_alter_eq, !lookup_alter_ne, lookup_alter_eq, Htl1 by congruence. done.
        -- rewrite lookup_alter_ne by congruence. destruct (decide (a = first_of B2.*1)) as [->|Haf].
           ++ rewrite !lookup_alter_eq, lookup_alter_ne, Htl1 by congruence. done.
           ++ rewrite !lookup_alter_ne, Htl1 by congruence. done.
    + rewrite Etl, set_next_ne, set_prev_ne by congruence. unfold tag_links. rewrite lookup_fmap, Hh1t. simpl. by rewrite Hl.
  - assert (forall a k, (a, k) ∈ B1 \/ (a, k) ∈ B2 -> a <> p /\ a <> t /\ (a, k) ∈ B1 ++ (p, g) :: B2) as Hne.
    { intros a k Ha. rewrite elem_of_app, elem_of_cons. split_and!; [..|tauto]; intros ->.
      - destruct Ha as [Ha|Ha]; [apply N1 | apply N2]; apply list_elem_of_fmap; by exists (p, k).
      - apply Ht. destruct Ha as [Ha|Ha]; [left | right; right]; apply list_elem_of_fmap; by exists (t, k). }
    assert (forall a, a <> t -> data_of h1 !! a = alter (fun d => (d.1.1, sz1, d.2)) p (data_of h) !! a) as Hda1.
    { intros a Ha. unfold data_of at 1. rewrite lookup_fmap, Hh1 by done. rewrite <- lookup_fmap. fold (data_of (updm p (set_bsize sz1) h)).
      rewrite data_of_size by done. done. }
    intros a k Ha. rewrite Eda. apply elem_of_app in Ha as [Ha|[[= -> ->]|[[= -> ->]|Ha]%elem_of_cons]%elem_of_cons].
    + destruct (Hne a k) as (? & ? & ?); [by left |]. rewrite Hda1, lookup_alter_ne by congruence. by apply Hd.
    + rewrite Hda1, lookup_alter_eq by done. rewrite (Hd p g); [done |]. rewrite elem_of_app, elem_of_cons. tauto.
    + unfold data_of. by rewrite lookup_fmap, Hh1t.
    + destruct (Hne a k) as (? & ? & ?); [by right |]. rewrite Hda1, lookup_alter_ne by congruence. by apply Hd.
Qed.
