(* ===== verification/VmemInv.v ===== *)
(** The invariant of an arena of [Vmem], and the runs of the operations that every
    allocation and every release is made of. *)
From Stdlib Require Import Sorted.
From S2P Require Import Prelude Mm Lists Chain Vmem VmemRep VmemSegs.

(** A span with its boundary tags in the order of their addresses. *)
Record group := Group { g_span : Z; g_base : Z; g_size : Z; g_hash : Z; g_tags : list (Z * seg) }.
Definition with_tags (g : group) T := Group (g_span g) (g_base g) (g_size g) (g_hash g) T.

Definition all_tags (G : list group) : list (Z * seg) := concat (g_tags <$> G).

Record group_ok (q : Z) (g : group) : Prop := {
  go_base : 0 < g_base g;
  go_end : g_base g + g_size g < two32;
  go_tile : tile q (g_base g) (g_tags g).*2 (g_base g + g_size g);
  go_coalesced : coalesced (g_tags g).*2
}.

(** The address and the tag of every region that is handed out. *)
Definition handles (T : list (Z * seg)) : list (Z * Z) := omap (fun t => if sg_alloc t.2 then Some (sg_addr t.2, t.1) else None) T.
Fixpoint assoc (l : list (Z * Z)) (a : Z) : Z :=
  match l with [] => NULL | (b, p) :: l => if b =? a then p else assoc l a end.

(** The tags of the regions that are handed out. *)
Definition taken (T : list (Z * seg)) : list (Z * seg) := filter (fun t => sg_alloc t.2 = true) T.

(** The table of a span finds the tag of an address in quanta from its start. *)
Definition hash_rep (q : Z) (g : group) (hl : list Z) : Prop :=
  length hl = Z.to_nat (g_size g / q) /\
  forall i, (i < length hl)%nat -> hl !! i = Some (assoc (handles (g_tags g)) (g_base g + Z.of_nat i * q)).

(** The blocks that the arena keeps. *)
Definition blocks (v : Z) (x : vmem) (G : list group) : list Z :=
  v :: free_cache x :: (g_span <$> G) ++ (g_hash <$> G) ++ (all_tags G).*1.

Record vm_rep {A} `{MmSubsystem A} (s : vstate A) (v : Z) (x : vmem) (G : list group) (C : gmap Z Z) (F : list (list Z)) (frame : gset Z) : Prop := {
  vr_caches : caches_ok s v x C F;
  vr_source : source x = NULL;
  vr_tagptr : tags x = first_of (all_tags G).*1;
  vr_tags : tags_rep (bts s) (all_tags G);
  vr_cached : forall p sz, C !! p = Some sz <-> exists a, (p, Seg a sz false) ∈ all_tags G /\ small x F sz;
  vr_spanptr : spans x = first_of (g_span <$> G);
  vr_spans : forall G1 g G2, G = G1 ++ g :: G2 ->
    vspans s !! g_span g = Some (Span (g_base g) (g_size g) (g_size g / quantum x) (g_hash g) (first_of (g_span <$> G2)));
  vr_groups : forall g, g ∈ G -> group_ok (quantum x) g;
  vr_order : StronglySorted (fun g g' => g_base g + g_size g <= g_base g') G;
  vr_hash : forall g, g ∈ G -> exists hl, arrays s !! g_hash g = Some hl /\ hash_rep (quantum x) g hl;
  vr_mem : owns (vmm s) (blocks v x G) frame
}.

Lemma all_tags_app G1 G2 : all_tags (G1 ++ G2) = all_tags G1 ++ all_tags G2.
Proof. unfold all_tags. by rewrite fmap_app, concat_app. Qed.

Lemma all_tags_mid G1 g G2 T1 t T2 : g_tags g = T1 ++ t :: T2 ->
  all_tags (G1 ++ g :: G2) = (all_tags G1 ++ T1) ++ t :: (T2 ++ all_tags G2).
Proof. intros E. rewrite all_tags_app. unfold all_tags at 2. rewrite fmap_cons. simpl. fold (all_tags G2). rewrite E, <- !app_assoc. done. Qed.

Lemma handles_app T1 T2 : handles (T1 ++ T2) = handles T1 ++ handles T2.
Proof. apply omap_app. Qed.

Lemma taken_app T1 T2 : taken (T1 ++ T2) = taken T1 ++ taken T2.
Proof. apply filter_app. Qed.

Lemma taken_cons p g T : taken ((p, g) :: T) = if sg_alloc g then (p, g) :: taken T else taken T.
Proof. unfold taken. destruct (sg_alloc g) eqn:Hg; [by rewrite filter_cons_True | rewrite filter_cons_False; [done |]]. simpl. by rewrite Hg. Qed.

Lemma taken_free T1 p g T2 : sg_alloc g = false -> taken (T1 ++ (p, g) :: T2) = taken T1 ++ taken T2.
Proof. intros Hg. by rewrite taken_app, taken_cons, Hg. Qed.

Lemma taken_alloc T1 p g T2 : sg_alloc g = true -> taken (T1 ++ (p, g) :: T2) = taken T1 ++ (p, g) :: taken T2.
Proof. intros Hg. by rewrite taken_app, taken_cons, Hg. Qed.

Lemma handles_of_taken T : handles T = handles (taken T).
Proof.
  induction T as [|[p g] T IH]; [done |]. rewrite taken_cons. unfold handles in *. simpl. destruct (sg_alloc g) eqn:Hg; simpl; rewrite ?Hg; [f_equal |]; exact IH.
Qed.

Lemma handles_taken T T' : taken T = taken T' -> handles T = handles T'.
Proof. intros E. by rewrite handles_of_taken, E, <- handles_of_taken. Qed.

Lemma allocs_of_taken T : allocs T.*2 = (fun t => (sg_addr t.2, sg_size t.2)) <$> taken T.
Proof.
  induction T as [|[p g] T IH]; [done |]. rewrite taken_cons. unfold allocs in *. simpl. destruct (sg_alloc g); simpl; [f_equal |]; exact IH.
Qed.

Lemma handles_range q a T e x p : tile q a T.*2 e -> (x, p) ∈ handles T -> a <= x < e.
Proof.
  intros Ht Hx. unfold handles in Hx. apply list_elem_of_omap in Hx as ([p' g] & Hg & E). simpl in E. destruct (sg_alloc g); [|done]. injection E as <- <-.
  apply list_elem_of_split in Hg as (l1 & l2 & ->). rewrite fmap_app, fmap_cons in Ht. destruct (tile_elem _ _ _ _ _ _ Ht) as (? & ? & ? & _). simpl in *. lia.
Qed.

Lemma assoc_not_in l a : (forall p, (a, p) ∉ l) -> assoc l a = NULL.
Proof.
  induction l as [|[b p] l IH]; intros Hl; simpl; [done |]. destruct (Z.eqb_spec b a) as [->|Hb].
  - destruct (Hl p). by apply elem_of_cons; left.
  - apply IH. intros p' Hp. apply (Hl p'). by apply elem_of_cons; right.
Qed.

Lemma assoc_mid l1 a p l2 b : (forall p', (a, p') ∉ l1) -> assoc (l1 ++ (a, p) :: l2) b = if decide (b = a) then p else assoc (l1 ++ l2) b.
Proof.
  induction l1 as [|[c p'] l1 IH]; intros Hl; simpl.
  - destruct (Z.eqb_spec a b) as [->|]; case_decide; done.
  - rewrite IH by (intros p2 Hp; apply (Hl p2); by apply elem_of_cons; right). destruct (Z.eqb_spec c b) as [->|]; [|done].
    rewrite decide_False; [done |]. intros ->. apply (Hl p'). by apply elem_of_cons; left.
Qed.

(** ** Reading *)

Section reading.
Context {A : Type} `{MmLaws A}.
Context (s : vstate A) (v : Z) (x : vmem) (G : list group) (C : gmap Z Z) (F : list (list Z)) (frame : gset Z).
Context (Hr : vm_rep s v x G C F frame).

Lemma span_not_null g : g ∈ G -> g_span g <> NULL /\ g_hash g <> NULL /\ g_hash g <> free_cache x.
Proof using Hr H0.
  intros Hg. pose proof (vr_mem _ _ _ _ _ _ _ Hr) as Ho.
  assert (g_span g ∈ g_span <$> G /\ g_hash g ∈ g_hash <$> G) as [H1 H2] by (split; apply list_elem_of_fmap; by exists g).
  split_and!.
  - eapply owns_not_null; [exact Ho |]. unfold blocks. rewrite !elem_of_cons, !elem_of_app. tauto.
  - eapply owns_not_null; [exact Ho |]. unfold blocks. rewrite !elem_of_cons, !elem_of_app. tauto.
  - destruct Ho as ((_ & [Hn _]%NoDup_cons)%NoDup_cons & _). intros E. apply Hn. rewrite !elem_of_app, <- E. tauto.
Qed.

Lemma spans_nodup : NoDup (g_span <$> G).
Proof using Hr. destruct (vr_mem _ _ _ _ _ _ _ Hr) as ((_ & (_ & (Hn & _)%NoDup_app)%NoDup_cons)%NoDup_cons & _). done. Qed.

Lemma spans_fuel : (length G < S (base.size (vspans s)))%nat.
Proof using Hr.
  rewrite <- (length_fmap g_span). pose proof spans_nodup as Hnd. apply le_n_S.
  rewrite <- (size_dom (vspans s)), <- (size_list_to_set (g_span <$> G) Hnd : base.size (list_to_set (g_span <$> G) : gset Z) = _).
  apply subseteq_size. intros a Ha%elem_of_list_to_set. apply list_elem_of_fmap in Ha as (g & -> & Hg). apply elem_of_dom.
  apply list_elem_of_split in Hg as (G1 & G2 & E). rewrite (vr_spans _ _ _ _ _ _ _ Hr _ _ _ E). by eexists.
Qed.

Definition in_group (a : Z) (g : group) : Prop := g_base g <= a < g_base g + g_size g.

Lemma getspan_loop_ok fuel G1 G2 a : G = G1 ++ G2 -> (length G2 < fuel)%nat ->
  exists p, getspan_loop fuel (first_of (g_span <$> G2)) a s = Ok (p, s) /\
  ((exists K1 g K2, G2 = K1 ++ g :: K2 /\ p = g_span g /\ in_group a g) \/ (p = NULL /\ forall g, g ∈ G2 -> ~ in_group a g)).
Proof using Hr H0.
  revert G1 G2. induction fuel as [|fuel IH]; intros G1 G2 E Hf; [lia |]. destruct G2 as [|g G2]; cbn [getspan_loop].
  - exists NULL. split; [done |]. right. split; [done |]. intros g Hg. by apply not_elem_of_nil in Hg.
  - assert (g ∈ G) as Hg by (rewrite E; apply elem_of_app; right; by apply elem_of_cons; left).
    destruct (span_not_null g Hg) as (Hn & _). cbn [fmap list_fmap first_of]. destruct (Z.eqb_spec (g_span g) NULL) as [|_]; [done |].
    rewrite run_bind, (lds_ok _ _ _ Hn (vr_spans _ _ _ _ _ _ _ Hr _ _ _ E)). cbn [s_addr s_size s_next].
    pose proof (vr_groups _ _ _ _ _ _ _ Hr g Hg) as [O1 O2 O3 O4]. pose proof (tile_le _ _ _ _ O3) as Hle. rewrite u32_small by (unfold is_u32; lia).
    destruct ((g_base g <=? a) && (a <? g_base g + g_size g)) eqn:Ein.
    + exists (g_span g). split; [done |]. left. exists [], g, G2. unfold in_group. split_and!; try done; lia.
    + destruct (IH (G1 ++ [g]) G2) as (p & Ep & Hc); [by rewrite <- app_assoc | simpl in Hf; lia |]. exists p. split; [exact Ep |].
      destruct Hc as [(K1 & g' & K2 & -> & Hp & Hi)|(-> & Hno)]; [left; by exists (g :: K1), g', K2 | right; split; [done |]].
      intros g' [->|Hg']%elem_of_cons; [unfold in_group; lia | by apply Hno].
Qed.

(** Two groups do not share an address. *)
Lemma groups_apart g g' a : g ∈ G -> g' ∈ G -> in_group a g -> in_group a g' -> g = g'.
Proof using Hr.
  intros Hg Hg' Ha Ha'. pose proof (vr_order _ _ _ _ _ _ _ Hr) as Hs. unfold in_group in *. clear Hr. induction Hs as [|k l Hs IH Hk].
  - by apply not_elem_of_nil in Hg.
  - rewrite Forall_forall in Hk. apply elem_of_cons in Hg as [->|Hg], Hg' as [->|Hg']; [done | | | by apply IH].
    + specialize (Hk _ Hg'). lia.
    + specialize (Hk _ Hg). lia.
Qed.

Lemma getspan_ok g a : g ∈ G -> in_group a g -> vmem_getspan v a s = Ok (g_span g, s).
Proof using Hr H0.
  intros Hg Ha. unfold vmem_getspan. rewrite run_bind, (ldv_ok _ _ _ (ca_v _ _ _ _ _ (vr_caches _ _ _ _ _ _ _ Hr)) (ca_x _ _ _ _ _ (vr_caches _ _ _ _ _ _ _ Hr))).
  mrun. rewrite (vr_spanptr _ _ _ _ _ _ _ Hr). destruct (getspan_loop_ok _ [] G a eq_refl spans_fuel) as (p & -> & [(K1 & g' & K2 & E & -> & Hi)|(_ & Hno)]).
  - rewrite (groups_apart g g' a); try done. rewrite E. apply elem_of_app. right. by apply elem_of_cons; left.
  - by destruct (Hno g Hg).
Qed.

Lemma getspan_none a : (forall g, g ∈ G -> ~ in_group a g) -> vmem_getspan v a s = Ok (NULL, s).
Proof using Hr H0.
  intros Hno. unfold vmem_getspan. rewrite run_bind, (ldv_ok _ _ _ (ca_v _ _ _ _ _ (vr_caches _ _ _ _ _ _ _ Hr)) (ca_x _ _ _ _ _ (vr_caches _ _ _ _ _ _ _ Hr))).
  mrun. rewrite (vr_spanptr _ _ _ _ _ _ _ Hr). destruct (getspan_loop_ok _ [] G a eq_refl spans_fuel) as (p & -> & [(K1 & g & K2 & E & -> & Hi)|(-> & _)]); [|done].
  destruct (Hno g); [|done]. rewrite E. apply elem_of_app. right. by apply elem_of_cons; left.
Qed.
End reading.

(** ** Coalescing *)

(** What the operations on tags leave alone. *)
Definition quiet {A} (x : vmem) (s s' : vstate A) : Prop :=
  vmems s' = vmems s /\ vspans s' = vspans s /\ forall k, k <> free_cache x -> arrays s' !! k = arrays s !! k.

Lemma quiet_refl {A} x (s : vstate A) : quiet x s s.
Proof. done. Qed.
Lemma quiet_trans {A} x (s1 s2 s3 : vstate A) : quiet x s1 s2 -> quiet x s2 s3 -> quiet x s1 s3.
Proof. intros (A1 & A2 & A3) (B1 & B2 & B3). split_and!; [congruence | congruence |]. intros k Hk. by rewrite B3, A3. Qed.
Lemma quiet_caches {A} x h F (s : vstate A) : quiet x s (with_caches x h F s).
Proof. split_and!; try done. intros k Hk. cbn. by rewrite lookup_insert_ne. Qed.

Section melting.
Context {A : Type} `{MmLaws A}.
Implicit Types s : vstate A.

Lemma fl_ok_delete q C fl F p : C !! p = None -> fl_ok q C fl F -> fl_ok q C (base.delete p fl) F.
Proof.
  intros Hp Hok. split; try apply Hok.
  - intros i l Hl. apply (chain_frame fl); [|by apply (fk_chain _ _ _ _ Hok i)]. intros a Ha. apply lookup_delete_ne. intros ->.
    apply (fk_in _ _ _ _ Hok _ _ _ Hl) in Ha as (sz & Hc & _). congruence.
  - intros a y Hy. apply lookup_delete_Some in Hy as [_ Hy]. by apply (fk_out _ _ _ _ Hok a).
Qed.

(** A change of the tags that keeps the free lists. *)
Lemma caches_with_bts s v x C F h a : caches_ok s v x C F -> fl_ok (quantum x) C (fl_links h) F ->
  caches_ok (set_vmm a (set_bts h s)) v x C F.
Proof. intros [C1 C2 C3 C4 C5 C6 C7] Hf. by split. Qed.

Lemma merged_fl p0 p nx sz h : fl_links (merged p0 p nx sz h) = base.delete p (fl_links h).
Proof.
  unfold merged. unfold fl_links at 1. rewrite fmap_delete. f_equal.
  fold (fl_links (updm nx (set_bprev p0) (updm p0 (set_bnext nx) (updm p0 (set_bsize sz) h)))).
  rewrite !fl_links_same by done. done.
Qed.

(** The state after [p0] swallowed its right neighbour [p]. *)
Definition melted s (p0 p nx sz : Z) (a : A) : vstate A := set_vmm a (set_bts (merged p0 p nx sz (bts s)) s).

(** Preconditions of both directions: [g0] at [p0] and [g] at [p] are neighbours. *)
Record melt_pre s v x C F B1 p0 g0 p g B2 rest frame : Prop := {
  mp_caches : caches_ok s v x C F;
  mp_tags : tags_rep (bts s) (B1 ++ (p0, g0) :: (p, g) :: B2);
  mp_size : quantum x <= sg_size g0 /\ quantum x <= sg_size g /\ sg_size g0 + sg_size g < two32;
  mp_owns : owns (vmm s) (p :: rest) frame
}.

Lemma free_bt_ok s p rest frame : owns (vmm s) (p :: rest) frame -> exists a,
  free_bt p s = Ok (tt, set_vmm a (set_bts (base.delete p (bts s)) s)) /\ owns a rest frame.
Proof.
  intros Ho. destruct (owns_free _ _ _ _ Ho) as (a & E & Ho'). exists a. split; [|done].
  unfold free_bt, free_block. mrun. by rewrite E.
Qed.

(** The four steps that both directions take. *)
Lemma melt_steps s p0 p nx sz rest frame : p0 <> NULL -> is_Some (bts s !! p0) -> nx = NULL \/ is_Some (bts s !! nx) ->
  owns (vmm s) (p :: rest) frame ->
  exists a, owns a rest frame /\ forall B (k : M (vstate A) B), (updb p0 (set_bsize sz) ;; updb p0 (set_bnext nx) ;;
    (if negb (nx =? NULL) then updb nx (set_bprev p0) else mret tt) ;; free_bt p ;; k) s = k (melted s p0 p nx sz a).
Proof.
  intros Hp0 Hs0 Hnx Ho.
  destruct (free_bt_ok (set_bts (updm nx (set_bprev p0) (updm p0 (set_bnext nx) (updm p0 (set_bsize sz) (bts s)))) s) p rest frame Ho) as (a & E & Ha).
  exists a. split; [exact Ha |]. intros B k.
  rewrite run_bind, updb_ok by done. rewrite run_bind, updb_ok by (done || cbn [set_bts bts]; by apply updm_is_Some).
  rewrite run_bind, updb_if_ok by (destruct Hnx as [?|?]; [by left | right; cbn [set_bts bts]; by apply updm_is_Some, updm_is_Some]).
  rewrite run_bind. change (free_bt p _) with (free_bt p (set_bts (updm nx (set_bprev p0) (updm p0 (set_bnext nx) (updm p0 (set_bsize sz) (bts s)))) s)).
  by rewrite E.
Qed.

Lemma next_some (h : gmap Z vmem_bt) B1 p g B2 : tags_rep h (B1 ++ (p, g) :: B2) -> first_of B2.*1 = NULL \/ is_Some (h !! first_of B2.*1).
Proof.
  intros Hr. destruct B2 as [|[n gn] B2]; [by left | right]. change (B1 ++ (p, g) :: (n, gn) :: B2) with (B1 ++ [(p, g)] ++ (n, gn) :: B2) in Hr.
  rewrite app_assoc in Hr. destruct (tags_rep_lookup _ _ _ _ _ Hr) as (b & Hb & _). simpl. by eexists.
Qed.

Lemma mid_assoc {B} (l1 : list B) a b l2 : l1 ++ a :: b :: l2 = (l1 ++ [a]) ++ b :: l2.
Proof. by rewrite <- app_assoc. Qed.

(** What a melt leaves. *)
Definition melt_post s s' v x C F' B1 p0 g0 g B2 rest frame : Prop :=
  quiet x s s' /\ caches_ok s' v x C F' /\
  tags_rep (bts s') (B1 ++ (p0, Seg (sg_addr g0) (sg_size g0 + sg_size g) (sg_alloc g0)) :: B2) /\ owns (vmm s') rest frame.

Lemma melt_finish s v x C F F' h B1 p0 g0 p g B2 rest frame a : melt_pre s v x C F B1 p0 g0 p g B2 rest frame ->
  tag_links h = tag_links (bts s) -> data_of h = data_of (bts s) -> forall C', caches_ok (with_caches x h F' s) v x C' F' -> C' !! p = None -> owns a rest frame ->
  melt_post s (melted (with_caches x h F' s) p0 p (first_of B2.*1) (sg_size g0 + sg_size g) a) v x C' F' B1 p0 g0 g B2 rest frame.
Proof.
  intros [M1 M2 M3 M4] Ht Hd C' Hc Hp Ho. split_and!; [| | | done].
  - eapply quiet_trans; [apply (quiet_caches x h F')|]. done.
  - apply caches_with_bts; [done |]. rewrite merged_fl. by apply fl_ok_delete, Hc.
  - apply (tags_rep_merge h _ _ _ p g). by apply (tags_rep_views (bts s)).
Qed.

Lemma melt_left_merges s v x C F B1 p0 g0 p g B2 rest frame span sp : melt_pre s v x C F B1 p0 g0 p g B2 rest frame ->
  C !! p = None -> C !! p0 = (if decide (small x F (sg_size g0)) then Some (sg_size g0) else None) ->
  span <> NULL -> vspans s !! span = Some sp -> sg_alloc g0 = false -> s_addr sp <= sg_addr g0 ->
  exists s' F', melt_left v span p s = Ok (p0, s') /\ length F' = length F /\
  melt_post s s' v x (base.delete p0 C) F' B1 p0 g0 g B2 rest frame.
Proof.
  intros Hm Hp Hp0 Hsp Hspan Hfree Haddr. pose proof Hm as [M1 M2 (M3 & M4 & M5) M6]. pose proof M2 as M2b. rewrite mid_assoc in M2b.
  destruct (tags_rep_lookup _ _ _ _ _ M2) as (b0 & Hb0 & Hn0 & E0 & E1 & E2 & _).
  destruct (tags_rep_lookup _ _ _ _ _ M2b) as (b & Hb & Hn & _ & E4 & _ & E5 & E6). rewrite fmap_app in E6. simpl in E6.
  unfold last_of in E6. rewrite last_snoc in E6. simpl in E6.
  destruct (uncache_ok s v x C F p0 b0 M1 Hn0 Hb0) as (h & F' & Eu & Ht & Hd & Hc & Hlen); [by rewrite E1 | by rewrite E1 |].
  set (s1 := with_caches x h F' s) in *. assert (tags_rep (bts s1) (B1 ++ (p0, g0) :: (p, g) :: B2)) as M2' by (by apply (tags_rep_views (bts s))).
  destruct (tags_rep_lookup _ _ _ _ _ M2') as (b0' & Hb0' & _ & _ & E1' & _).
  destruct (melt_steps s1 p0 p (first_of B2.*1) (sg_size g0 + sg_size g) rest frame Hn0) as (a & Ho & Es); [by eexists | | done |].
  { rewrite mid_assoc in M2'. by apply (next_some _ _ _ _ _ M2'). }
  exists (melted s1 p0 p (first_of B2.*1) (sg_size g0 + sg_size g) a), F'. split; [|split; [done |]].
  - unfold melt_left. rewrite run_bind, (ldb_ok _ _ _ Hn Hb), E6. destruct (Z.eqb_spec p0 NULL) as [|_]; [done |]. cbn [negb].
    rewrite run_bind, (ldb_ok _ _ _ Hn0 Hb0), run_bind, (lds_ok _ _ _ Hsp Hspan), E0, E2. unfold alloc_bit. rewrite Hfree.
    change (VMEM_FREE =? VMEM_FREE) with true. destruct (Z.leb_spec (s_addr sp) (sg_addr g0)); [|lia]. cbn [andb].
    rewrite run_bind, Eu, run_bind, (ldb_ok s1 _ _ Hn0 Hb0'), E1', E4, E5, u32_small by (unfold is_u32; pose proof (ca_q _ _ _ _ _ M1); lia).
    by rewrite Es.
  - apply (melt_finish s v x C F); try done. by rewrite lookup_delete_None; right.
Qed.

Lemma melt_left_stays s v span p sp B1 g B2 : tags_rep (bts s) (B1 ++ (p, g) :: B2) -> span <> NULL -> vspans s !! span = Some sp ->
  (forall B1' p0 g0, B1 = B1' ++ [(p0, g0)] -> sg_alloc g0 = true \/ sg_addr g0 < s_addr sp) -> melt_left v span p s = Ok (p, s).
Proof.
  intros Hr Hsp Hspan Hno. destruct (tags_rep_lookup _ _ _ _ _ Hr) as (b & Hb & Hn & _ & _ & _ & _ & E6).
  unfold melt_left. rewrite run_bind, (ldb_ok _ _ _ Hn Hb), E6. destruct B1 as [|[p0 g0] B1 _] using rev_ind; [done |].
  rewrite fmap_app. simpl. unfold last_of. rewrite last_snoc. simpl. rewrite <- app_assoc in Hr.
  destruct (tags_rep_lookup _ _ _ _ _ Hr) as (b0 & Hb0 & Hn0 & E0 & _ & E2 & _). destruct (Z.eqb_spec p0 NULL) as [|_]; [done |]. cbn [negb].
  rewrite run_bind, (ldb_ok _ _ _ Hn0 Hb0), run_bind, (lds_ok _ _ _ Hsp Hspan), E0, E2. unfold alloc_bit.
  destruct (Hno B1 p0 g0 eq_refl) as [-> | Ha]; [done |]. destruct (Z.leb_spec (s_addr sp) (sg_addr g0)); [lia |]. by rewrite andb_false_r.
Qed.

Lemma melt_right_merges s v x C F B1 p0 g0 p g B2 rest frame span sp : melt_pre s v x C F B1 p0 g0 p g B2 rest frame ->
  C !! p0 = None -> C !! p = (if decide (small x F (sg_size g)) then Some (sg_size g) else None) ->
  span <> NULL -> vspans s !! span = Some sp -> sg_alloc g = false -> sg_addr g < u32 (s_addr sp + s_size sp) ->
  exists s' F', melt_right v span p0 s = Ok (tt, s') /\ length F' = length F /\
  melt_post s s' v x (base.delete p C) F' B1 p0 g0 g B2 rest frame.
Proof.
  intros Hm Hp0 Hp Hsp Hspan Hfree Haddr. pose proof Hm as [M1 M2 (M3 & M4 & M5) M6]. pose proof M2 as M2b. rewrite mid_assoc in M2b.
  destruct (tags_rep_lookup _ _ _ _ _ M2) as (b0 & Hb0 & Hn0 & _ & E1 & _ & E3 & _). cbn in E3.
  destruct (tags_rep_lookup _ _ _ _ _ M2b) as (b & Hb & Hn & E2 & E4 & E5 & _).
  destruct (uncache_ok s v x C F p b M1 Hn Hb) as (h & F' & Eu & Ht & Hd & Hc & Hlen); [by rewrite E4 | by rewrite E4 |].
  set (s1 := with_caches x h F' s) in *. assert (tags_rep (bts s1) ((B1 ++ [(p0, g0)]) ++ (p, g) :: B2)) as M2' by (by apply (tags_rep_views (bts s))).
  destruct (tags_rep_lookup _ _ _ _ _ M2') as (b' & Hb' & _ & _ & E4' & _ & E6' & _).
  destruct (melt_steps s1 p0 p (first_of B2.*1) (sg_size g0 + sg_size g) rest frame Hn0) as (a & Ho & Es).
  { rewrite <- mid_assoc in M2'. destruct (tags_rep_lookup _ _ _ _ _ M2') as (b1 & Hb1 & _). by eexists. }
  { by apply (next_some _ _ _ _ _ M2'). }
  { done. }
  exists (melted s1 p0 p (first_of B2.*1) (sg_size g0 + sg_size g) a), F'. split; [|split; [done |]].
  - unfold melt_right. rewrite run_bind, (ldb_ok _ _ _ Hn0 Hb0), E3. destruct (Z.eqb_spec p NULL) as [|_]; [done |]. cbn [negb].
    rewrite run_bind, (ldb_ok _ _ _ Hn Hb), run_bind, (lds_ok _ _ _ Hsp Hspan), E2, E5. unfold alloc_bit. rewrite Hfree.
    change (VMEM_FREE =? VMEM_FREE) with true. destruct (Z.ltb_spec (sg_addr g) (u32 (s_addr sp + s_size sp))); [|lia]. cbn [andb].
    rewrite run_bind, Eu, run_bind, (ldb_ok s1 _ _ Hn Hb'), E4', E6', E1, u32_small by (unfold is_u32; pose proof (ca_q _ _ _ _ _ M1); lia).
    by rewrite Es.
  - apply (melt_finish s v x C F); try done. by rewrite lookup_delete_eq.
Qed.

Lemma melt_right_stays s v span p sp B1 g B2 : tags_rep (bts s) (B1 ++ (p, g) :: B2) -> span <> NULL -> vspans s !! span = Some sp ->
  (forall n gn B2', B2 = (n, gn) :: B2' -> sg_alloc gn = true \/ u32 (s_addr sp + s_size sp) <= sg_addr gn) -> melt_right v span p s = Ok (tt, s).
Proof.
  intros Hr Hsp Hspan Hno. destruct (tags_rep_lookup _ _ _ _ _ Hr) as (b & Hb & Hn & _ & _ & _ & E5 & _).
  unfold melt_right. rewrite run_bind, (ldb_ok _ _ _ Hn Hb), E5. destruct B2 as [|[n gn] B2]; [done |]. cbn [fmap list_fmap first_of fst].
  rewrite mid_assoc in Hr. destruct (tags_rep_lookup _ _ _ _ _ Hr) as (b0 & Hb0 & Hn0 & E0 & _ & E2 & _). destruct (Z.eqb_spec n NULL) as [|_]; [done |]. cbn [negb].
  rewrite run_bind, (ldb_ok _ _ _ Hn0 Hb0), run_bind, (lds_ok _ _ _ Hsp Hspan), E0, E2. unfold alloc_bit.
  destruct (Hno n gn B2 eq_refl) as [-> | Ha]; [done |]. destruct (Z.ltb_spec (sg_addr gn) (u32 (s_addr sp + s_size sp))); [lia |]. by rewrite andb_false_r.
Qed.
End melting.
