(* ===== verification/VmemFree.v ===== *)
(** Releasing a region of an arena ([vmem_free]): the tag becomes free and melts
    into its free neighbours. *)
From Stdlib Require Import Sorted.
From S2P Require Import Prelude Mm Lists Chain Vmem VmemRep VmemSegs VmemInv.

(** The states inside of an operation: the tags are [L], and all free ones of the
    smaller classes but [e] are in the free lists. *)
Record mid {A} `{MmSubsystem A} (s : vstate A) (v : Z) (x : vmem) (R : list Z) (C : gmap Z Z) (F : list (list Z)) (L : list (Z * seg)) (e : Z)
    (frame : gset Z) : Prop := {
  mi_caches : caches_ok s v x C F;
  mi_tags : tags_rep (bts s) L;
  mi_cached : forall p sz, C !! p = Some sz <-> p <> e /\ exists a, (p, Seg a sz false) ∈ L /\ small x F sz;
  mi_owns : owns (vmm s) (R ++ L.*1) frame;
  mi_sizes : forall p g, (p, g) ∈ L -> quantum x <= sg_size g
}.

Lemma small_length x F F' sz : length F' = length F -> small x F' sz <-> small x F sz.
Proof. unfold small. by intros ->. Qed.

(** A tag has one segment. *)
Lemma tags_fun h L p g g' : tags_rep h L -> (p, g) ∈ L -> (p, g') ∈ L -> g = g'.
Proof.
  intros [_ Hd] H1 H2. apply Hd in H1, H2. rewrite H1 in H2. destruct g as [a sz al], g' as [a' sz' al']. unfold alloc_bit in H2. simpl in H2.
  destruct al, al'; injection H2 as -> ->; done.
Qed.

Section mid_steps.
Context {A : Type} `{MmLaws A}.
Implicit Types s : vstate A.

(** What the free lists know about a tag. *)
Lemma mid_cached s v x R C F B1 p g B2 e frame : mid s v x R C F (B1 ++ (p, g) :: B2) e frame -> sg_alloc g = false -> p <> e ->
  C !! p = (if decide (small x F (sg_size g)) then Some (sg_size g) else None).
Proof.
  intros Hm Hg Hpe. assert ((p, g) ∈ B1 ++ (p, g) :: B2) as Hin by (apply elem_of_app; right; by apply elem_of_cons; left).
  case_decide as Hs.
  - apply (mi_cached _ _ _ _ _ _ _ _ _ Hm). split; [done |]. exists (sg_addr g). split; [|done]. by destruct g as [a sz al]; simpl in *; subst.
  - destruct (C !! p) as [sz|] eqn:E; [|done]. apply (mi_cached _ _ _ _ _ _ _ _ _ Hm) in E as (_ & a & Hin2 & Hs2).
    destruct Hs. by rewrite (tags_fun _ _ _ _ _ (mi_tags _ _ _ _ _ _ _ _ _ Hm) Hin Hin2).
Qed.

Lemma mid_uncached s v x R C F L e frame : mid s v x R C F L e frame -> C !! e = None.
Proof. intros Hm. destruct (C !! e) as [sz|] eqn:E; [|done]. apply (mi_cached _ _ _ _ _ _ _ _ _ Hm) in E as [? _]. done. Qed.

(** Two neighbours, one of which is the exempt tag, and their merger. *)
Lemma mid_merge s s' v x R C F F' B1 p0 g0 p g B2 e d frame : mid s v x R C F (B1 ++ (p0, g0) :: (p, g) :: B2) e frame ->
  (e = p0 /\ d = p) \/ (e = p /\ d = p0) -> length F' = length F ->
  melt_post s s' v x (base.delete d C) F' B1 p0 g0 g B2 (R ++ (B1 ++ (p0, g0) :: B2).*1) frame ->
  mid s' v x R (base.delete d C) F' (B1 ++ (p0, Seg (sg_addr g0) (sg_size g0 + sg_size g) (sg_alloc g0)) :: B2) p0 frame.
Proof.
  intros [M1 M2 M3 M4 M5] Hed Hlen (_ & P1 & P2 & P3).
  destruct (tags_rep_nodup _ _ _ _ _ M2) as (N1 & N2 & _). rewrite mid_assoc in M2. destruct (tags_rep_nodup _ _ _ _ _ M2) as (N3 & N4 & _).
  rewrite fmap_app, elem_of_app in N3. simpl in N3. rewrite list_elem_of_singleton in N3. rewrite fmap_cons, elem_of_cons in N2.
  assert (forall a b, (a, b) ∈ B1 \/ (a, b) ∈ B2 -> a <> p0 /\ a <> p) as Hne.
  { intros a b Hab. split; intros ->; destruct Hab as [Hab|Hab].
    - apply N1, list_elem_of_fmap. by exists (p0, b).
    - apply N2. right. apply list_elem_of_fmap. by exists (p0, b).
    - apply N3. left. apply list_elem_of_fmap. by exists (p, b).
    - apply N4, list_elem_of_fmap. by exists (p, b). }
  split; try done.
  - intros c sz. rewrite lookup_delete_Some, M3. split.
    + intros (Hcd & Hce & a & Hin & Hs). assert (c <> p0 /\ c <> p) as [Hc0 Hcp] by (destruct Hed as [[-> ->]|[-> ->]]; split; congruence).
      split; [done |]. exists a. rewrite (small_length _ _ _ _ Hlen). split; [|done]. rewrite elem_of_app, !elem_of_cons in Hin. rewrite elem_of_app, elem_of_cons.
      destruct Hin as [?|[[= -> _]|[[= -> _]|?]]]; [tauto | done | done | tauto].
    + intros (Hc0 & a & Hin & Hs). rewrite (small_length _ _ _ _ Hlen) in Hs. rewrite elem_of_app, elem_of_cons in Hin.
      destruct (Hne c (Seg a sz false)) as [_ Hcp]; [destruct Hin as [?|[[= -> _]|?]]; [tauto | done | tauto] |].
      split; [destruct Hed as [[_ ->]|[_ ->]]; congruence |]. split; [destruct Hed as [[-> _]|[-> _]]; congruence |]. exists a. split; [|done].
      rewrite elem_of_app, !elem_of_cons. destruct Hin as [?|[[= -> _]|?]]; [tauto | done | tauto].
  - rewrite !fmap_app, !fmap_cons in *. exact P3.
  - intros a b Hab. rewrite elem_of_app, elem_of_cons in Hab.
    assert (quantum x <= sg_size g0) by (apply (M5 p0), elem_of_app; right; by apply elem_of_cons; left).
    assert (quantum x <= sg_size g) by (apply (M5 p), elem_of_app; right; apply elem_of_cons; right; by apply elem_of_cons; left).
    pose proof (ca_q _ _ _ _ _ M1). destruct Hab as [?|[[= -> ->]|?]]; [apply (M5 a), elem_of_app; by left | simpl; lia |].
    apply (M5 a), elem_of_app. right. apply elem_of_cons. right. apply elem_of_cons. by right.
Qed.

Lemma mid_pre s v x R C F B1 p0 g0 p g B2 e frame : mid s v x R C F (B1 ++ (p0, g0) :: (p, g) :: B2) e frame ->
  sg_size g0 + sg_size g < two32 -> melt_pre s v x C F B1 p0 g0 p g B2 (R ++ (B1 ++ (p0, g0) :: B2).*1) frame.
Proof.
  intros [M1 M2 M3 M4 M5] Hs. split; try done.
  - split_and!; [apply (M5 p0) | apply (M5 p) | done]; apply elem_of_app; right; rewrite ?elem_of_cons; tauto.
  - eapply owns_perm; [|exact M4]. rewrite !fmap_app, !fmap_cons. cbn [fst]. solve_Permutation.
Qed.

(** The tag that was exempt goes to its free list. *)
Lemma mid_recache s v x R C F B1 p g B2 frame : mid s v x R C F (B1 ++ (p, g) :: B2) p frame -> sg_alloc g = false ->
  exists s' C' F', if_cached v p add_freelist s = Ok (tt, s') /\ quiet x s s' /\ length F' = length F /\
  caches_ok s' v x C' F' /\ tags_rep (bts s') (B1 ++ (p, g) :: B2) /\ owns (vmm s') (R ++ (B1 ++ (p, g) :: B2).*1) frame /\
  forall c sz, C' !! c = Some sz <-> exists a, (c, Seg a sz false) ∈ B1 ++ (p, g) :: B2 /\ small x F' sz.
Proof.
  intros Hm Hg. pose proof Hm as [M1 M2 M3 M4 M5]. destruct (tags_rep_lookup _ _ _ _ _ M2) as (b & Hb & Hn & _ & E1 & _).
  assert ((p, g) ∈ B1 ++ (p, g) :: B2) as Hin by (apply elem_of_app; right; by apply elem_of_cons; left).
  destruct (recache_ok s v x C F p b M1 Hn Hb) as (h & F' & E & Ht & Hd & Hc & Hlen); [rewrite E1; by apply (M5 p) | by eapply mid_uncached |].
  exists (with_caches x h F' s), (if decide (small x F (b_size b)) then <[p := b_size b]> C else C), F'.
  split; [exact E |]. split; [apply quiet_caches |]. split; [exact Hlen |]. split; [exact Hc |].
  split; [by apply (tags_rep_views (bts s)) |]. split; [exact M4 |].
  intros c sz. assert (forall a, (c, Seg a sz false) ∈ B1 ++ (p, g) :: B2 -> c = p -> sz = sg_size g) as Hp.
    { intros a Hc2 ->. by rewrite (tags_fun _ _ _ _ _ M2 Hin Hc2). }
    transitivity ((c = p /\ sz = b_size b /\ small x F (b_size b)) \/ C !! c = Some sz).
    + case_decide as Hs; [rewrite lookup_insert_Some | by split; [right | intros [(_ & _ & ?)|?]]].
      split; [intros [[<- <-]|[_ ?]]; [by left | by right] |]. intros [(-> & -> & _)|Hx]; [by left | right]. split; [|done].
      intros ->. by rewrite (mid_uncached _ _ _ _ _ _ _ _ _ Hm) in Hx.
    + rewrite M3, E1. split.
      * intros [(-> & -> & Hs)|(_ & a & Ha & Hs)]; [exists (sg_addr g) | exists a]; rewrite (small_length _ _ _ _ Hlen); [|done].
        split; [|done]. by destruct g as [a sz al]; simpl in *; subst.
      * intros (a & Ha & Hs). rewrite (small_length _ _ _ _ Hlen) in Hs. destruct (decide (c = p)) as [->|]; [left | right; split; [done |]; by exists a].
        by rewrite (Hp a Ha eq_refl) in *.
Qed.
End mid_steps.

(** ** Segments that change *)

Lemma tile_flag q a l1 b sz al al' l2 e : tile q a (l1 ++ Seg b sz al :: l2) e -> tile q a (l1 ++ Seg b sz al' :: l2) e.
Proof. intros (c & H1 & H2)%tile_app. apply tile_app. by exists c. Qed.

Lemma tile_merge q a l1 g0 g l2 e al : tile q a (l1 ++ g0 :: g :: l2) e -> tile q a (l1 ++ Seg (sg_addr g0) (sg_size g0 + sg_size g) al :: l2) e.
Proof.
  intros (c & H1 & H2)%tile_app. apply tile_app. exists c. split; [done |]. simpl in *. destruct H2 as (<- & P1 & D1 & E2 & P2 & D2 & H2).
  split_and!; [done | lia | by apply Z.divide_add_r | by replace (sg_addr g0 + (sg_size g0 + sg_size g)) with (sg_addr g0 + sg_size g0 + sg_size g) by lia].
Qed.

Lemma coalesced_join l1 f f' l2 : coalesced (l1 ++ [f]) -> coalesced (f' :: l2) -> sg_alloc f = sg_alloc f' -> coalesced (l1 ++ f' :: l2).
Proof.
  intros (H1 & _ & H2)%coalesced_app H3 E. apply coalesced_app. split_and!; try done. intros k1 g1 g2 k2 El [= <- <-]. rewrite <- E. by eapply H2.
Qed.

Lemma coalesced_flag l1 f f' : coalesced (l1 ++ [f]) -> sg_alloc f = sg_alloc f' -> coalesced (l1 ++ [f']).
Proof. intros H1 E. by apply (coalesced_join _ f). Qed.

Lemma coalesced_cons_flag f f' l : coalesced (f :: l) -> sg_alloc f = sg_alloc f' -> coalesced (f' :: l).
Proof. destruct l as [|g l]; [done |]. simpl. by intros [Ha Hc] <-. Qed.

Lemma handles_free T1 p g T2 : sg_alloc g = false -> handles (T1 ++ (p, g) :: T2) = handles T1 ++ handles T2.
Proof. intros Hg. rewrite handles_app. f_equal. unfold handles. simpl. by rewrite Hg. Qed.

Section releasing.
Context {A : Type} `{MmLaws A}.
Implicit Types s : vstate A.

(** The surroundings of a span: the tags of other spans do not touch it. *)
Record around (O1 O2 : list (Z * seg)) (q base e : Z) : Prop := {
  ar_left : forall p g, (p, g) ∈ O1 -> sg_addr g < base;
  ar_right : forall p g, (p, g) ∈ O2 -> e <= sg_addr g;
  ar_base : 0 < base;
  ar_end : e < two32
}.

(** The free tag and everything it melted with on the left. *)
Lemma left_half s v x R C F O1 T1 p a sz T2 O2 frame span sp e : mid s v x R C F ((O1 ++ T1) ++ (p, Seg a sz false) :: (T2 ++ O2)) p frame ->
  span <> NULL -> vspans s !! span = Some sp -> around O1 O2 (quantum x) (s_addr sp) e ->
  tile (quantum x) (s_addr sp) (T1.*2 ++ Seg a sz false :: T2.*2) e -> coalesced T1.*2 ->
  exists s' C' F' T1' p' a' sz', melt_left v span p s = Ok (p', s') /\ quiet x s s' /\ length F' = length F /\
  mid s' v x R C' F' ((O1 ++ T1') ++ (p', Seg a' sz' false) :: (T2 ++ O2)) p' frame /\
  tile (quantum x) (s_addr sp) (T1'.*2 ++ Seg a' sz' false :: T2.*2) e /\ coalesced (T1'.*2 ++ [Seg a' sz' false]) /\
  taken T1' = taken T1 /\ first_of (T1'.*1 ++ [p']) = first_of (T1.*1 ++ [p]).
Proof.
  intros Hm Hsp Hspan [A1 A2 A3 A4] Ht Hc.
  assert ((exists T1' p0 g0, T1 = T1' ++ [(p0, g0)] /\ sg_alloc g0 = false) \/ (forall T1' p0 g0, T1 = T1' ++ [(p0, g0)] -> sg_alloc g0 = true)) as Hcase.
  { destruct T1 as [|[p0 g0] T1 _] using rev_ind; [right; by intros [|] |]. destruct (sg_alloc g0) eqn:Eg.
    - right. intros T1' p1 g1 E. apply app_inj_tail in E as [_ [= -> ->]]. done.
    - left. by exists T1, p0, g0. }
  destruct Hcase as [(T1' & p0 & g0 & -> & Hg0)|Hall].
  - rewrite fmap_app in Ht, Hc. cbn [fmap list_fmap snd] in Ht, Hc. rewrite <- app_assoc in Ht. cbn [app] in Ht.
    replace ((O1 ++ T1' ++ [(p0, g0)]) ++ (p, Seg a sz false) :: T2 ++ O2) with ((O1 ++ T1') ++ (p0, g0) :: (p, Seg a sz false) :: (T2 ++ O2)) in Hm
      by by rewrite <- !app_assoc.
    pose proof (tile_merge _ _ _ _ _ _ _ false Ht) as Ht'. destruct (tile_elem _ _ _ _ _ _ Ht') as (B1 & B2 & _ & _ & _ & _). cbn [sg_addr sg_size] in B1, B2.
    assert (sg_size g0 + sz < two32) as Hlt by lia.
    destruct (tags_rep_nodup _ _ _ _ _ (mi_tags _ _ _ _ _ _ _ _ _ Hm)) as (_ & N & _). rewrite fmap_cons, elem_of_cons in N.
    destruct (melt_left_merges s v x C F _ p0 g0 p (Seg a sz false) _ _ frame span sp (mid_pre _ _ _ _ _ _ _ _ _ _ _ _ _ _ Hm Hlt))
      as (s' & F' & E & Hlen & Hpost); try done.
    { by eapply mid_uncached. }
    { eapply (mid_cached s v x R C F (O1 ++ T1') p0 g0); [exact Hm | done |]. intros ->. tauto. }
    pose proof (mid_merge s s' v x R C F F' (O1 ++ T1') p0 g0 p (Seg a sz false) (T2 ++ O2) p p0 frame Hm (or_intror (conj eq_refl eq_refl)) Hlen Hpost) as Hm'.
    rewrite Hg0 in Hm'. exists s', (base.delete p0 C), F', T1', p0, (sg_addr g0), (sg_size g0 + sz). split; [exact E |]. split; [apply Hpost |].
    split; [exact Hlen |]. split; [exact Hm' |]. split; [exact Ht' |]. split; [by apply (coalesced_flag _ g0) |]. split.
    + symmetry. rewrite (taken_free _ _ _ [] Hg0). apply app_nil_r.
    + rewrite fmap_app, <- app_assoc. simpl. by destruct T1'.
  - exists s, C, F, T1, p, a, sz. split; [|split; [done |]; split; [done |]; split; [exact Hm |]; split; [exact Ht |]; split; [|done]].
    + eapply melt_left_stays; [exact (mi_tags _ _ _ _ _ _ _ _ _ Hm) | done | exact Hspan |]. intros B p0 g0 E.
      destruct T1 as [|[p1 g1] T1 _] using rev_ind.
      * rewrite app_nil_r in E. right. apply (A1 p0). rewrite E. apply elem_of_app. right. by apply list_elem_of_singleton.
      * rewrite app_assoc in E. apply app_inj_tail in E as [_ [= -> ->]]. left. by apply (Hall T1 p0).
    + apply coalesced_app. split_and!; [done | done |]. intros k1 g1 g2 k2 E [= <- <-]. left.
      destruct T1 as [|[p1 h1] T1 _] using rev_ind; [by destruct k1 |]. rewrite fmap_app in E. simpl in E. apply app_inj_tail in E as [_ <-].
      by apply (Hall T1 p1).
Qed.

(** ... and on the right. *)
Lemma right_half s v x R C F O1 T1 p a sz T2 O2 frame span sp e : mid s v x R C F ((O1 ++ T1) ++ (p, Seg a sz false) :: (T2 ++ O2)) p frame ->
  span <> NULL -> vspans s !! span = Some sp -> around O1 O2 (quantum x) (s_addr sp) e -> e = s_addr sp + s_size sp ->
  tile (quantum x) (s_addr sp) (T1.*2 ++ Seg a sz false :: T2.*2) e -> coalesced T2.*2 -> coalesced (T1.*2 ++ [Seg a sz false]) ->
  exists s' C' F' sz' T2', melt_right v span p s = Ok (tt, s') /\ quiet x s s' /\ length F' = length F /\
  mid s' v x R C' F' ((O1 ++ T1) ++ (p, Seg a sz' false) :: (T2' ++ O2)) p frame /\
  tile (quantum x) (s_addr sp) (T1.*2 ++ Seg a sz' false :: T2'.*2) e /\ coalesced (T1.*2 ++ Seg a sz' false :: T2'.*2) /\
  taken T2' = taken T2.
Proof.
  intros Hm Hsp Hspan [A1 A2 A3 A4] He Ht Hc Hc1. pose proof (tile_le _ _ _ _ Ht) as Hle.
  assert (u32 (s_addr sp + s_size sp) = e) as Hu by (rewrite u32_small; [done | unfold is_u32; lia]).
  assert ((exists n gn T2', T2 = (n, gn) :: T2' /\ sg_alloc gn = false) \/ (forall n gn T2', T2 = (n, gn) :: T2' -> sg_alloc gn = true)) as Hcase.
  { destruct T2 as [|[n gn] T2]; [by right |]. destruct (sg_alloc gn) eqn:Eg; [right | left; by exists n, gn, T2]. by intros n' gn' T2' [= -> -> _]. }
  destruct Hcase as [(n & gn & T2' & -> & Hgn)|Hall].
  - cbn [fmap list_fmap snd] in Ht, Hc. cbn [app] in Hm. pose proof (tile_merge _ _ _ _ _ _ _ false Ht) as Ht'.
    destruct (tile_elem _ _ _ _ _ _ Ht') as (B1 & B2 & _ & _ & _ & _). cbn [sg_addr sg_size] in B1, B2.
    assert (sz + sg_size gn < two32) as Hlt by lia.
    rewrite mid_assoc in Ht. destruct (tile_elem _ _ _ _ _ _ Ht) as (_ & B3 & B4 & _).
    destruct (tags_rep_nodup _ _ _ _ _ (mi_tags _ _ _ _ _ _ _ _ _ Hm)) as (_ & N & _). rewrite fmap_cons, elem_of_cons in N.
    destruct (melt_right_merges s v x C F _ p (Seg a sz false) n gn _ _ frame span sp (mid_pre _ _ _ _ _ _ _ _ _ _ _ _ _ _ Hm Hlt))
      as (s' & F' & E & Hlen & Hpost); try done.
    { by eapply mid_uncached. }
    { pose proof Hm as Hm2. rewrite mid_assoc in Hm2. eapply (mid_cached s v x R C F _ n gn); [exact Hm2 | done |]. intros ->. tauto. }
    { rewrite Hu. lia. }
    pose proof (mid_merge s s' v x R C F F' (O1 ++ T1) p (Seg a sz false) n gn (T2' ++ O2) p n frame Hm (or_introl (conj eq_refl eq_refl)) Hlen Hpost) as Hm'.
    exists s', (base.delete n C), F', (sz + sg_size gn), T2'. split; [exact E |]. split; [apply Hpost |]. split; [exact Hlen |]. split; [exact Hm' |].
    split; [exact Ht' |]. split.
    + apply (coalesced_join _ (Seg a sz false)); [done | by apply (coalesced_cons_flag gn) | done].
    + symmetry. apply (taken_free [] n gn T2' Hgn).
  - exists s, C, F, sz, T2. split; [|split; [done |]; split; [done |]; split; [exact Hm |]; split; [exact Ht |]; split; [|done]].
    + eapply melt_right_stays; [exact (mi_tags _ _ _ _ _ _ _ _ _ Hm) | done | exact Hspan |]. intros n gn B E. rewrite Hu. destruct T2 as [|[n1 g1] T2].
      * right. apply (A2 n). simpl in E. rewrite E. by apply elem_of_cons; left.
      * injection E as -> -> _. left. by apply (Hall n gn T2).
    + apply (coalesced_join _ (Seg a sz false)); [done | | done]. destruct T2 as [|[n gn] T2]; [done |]. cbn [fmap list_fmap snd] in *.
      split; [right; by apply (Hall n gn T2) | done].
Qed.
End releasing.
