(* ===== verification/VmemArena.v ===== *)
(** The theorems about the arenas of [Vmem]: what an allocation and a release do to
    the regions that are handed out. *)
From Stdlib Require Import Sorted.
From S2P Require Import Prelude Mm Lists Chain Vmem VmemRep VmemSegs VmemInv VmemFree.

Lemma sorted_replace {B} (R : B -> B -> Prop) l1 x y l2 : StronglySorted R (l1 ++ x :: l2) -> (forall z, R z x -> R z y) -> (forall z, R x z -> R y z) ->
  StronglySorted R (l1 ++ y :: l2).
Proof.
  intros Hs H1 H2. induction l1 as [|z l1 IH]; simpl in *; inversion_clear Hs as [|? ? Hs' Hf]; constructor.
  - done.
  - rewrite Forall_forall in *. intros w Hw. by apply H2, Hf.
  - by apply IH.
  - rewrite Forall_forall in *. intros w Hw. rewrite elem_of_app, elem_of_cons in Hw. setoid_rewrite elem_of_app in Hf. setoid_rewrite elem_of_cons in Hf.
    destruct Hw as [?|[->|?]]; [apply Hf; tauto | apply H1, Hf; tauto | apply Hf; tauto].
Qed.

(** The blocks besides the tags. *)
Definition fixed_blocks (v : Z) (x : vmem) (G : list group) : list Z := v :: free_cache x :: (g_span <$> G) ++ (g_hash <$> G).

Lemma blocks_fixed v x G : blocks v x G = fixed_blocks v x G ++ (all_tags G).*1.
Proof. unfold blocks, fixed_blocks. simpl. by rewrite <- app_assoc. Qed.

Lemma fixed_with_tags v x G1 g T G2 : fixed_blocks v x (G1 ++ with_tags g T :: G2) = fixed_blocks v x (G1 ++ g :: G2).
Proof. unfold fixed_blocks. by rewrite !fmap_app, !fmap_cons. Qed.

Lemma all_tags_with G1 g T G2 : all_tags (G1 ++ with_tags g T :: G2) = all_tags G1 ++ T ++ all_tags G2.
Proof. rewrite all_tags_app. done. Qed.

Section closing.
Context {A : Type} `{MmLaws A}.
Implicit Types s : vstate A.

(** An operation inside of one span ends in the invariant. *)
Lemma vm_close s s' v x G1 g G2 T' C C' F F' frame : vm_rep s v x (G1 ++ g :: G2) C F frame ->
  vspans s' = vspans s -> (forall k, k <> free_cache x -> k <> g_hash g -> arrays s' !! k = arrays s !! k) ->
  (exists hl, arrays s' !! g_hash g = Some hl /\ hash_rep (quantum x) (with_tags g T') hl) ->
  caches_ok s' v x C' F' -> tags_rep (bts s') (all_tags G1 ++ T' ++ all_tags G2) ->
  (forall p sz, C' !! p = Some sz <-> exists a, (p, Seg a sz false) ∈ all_tags G1 ++ T' ++ all_tags G2 /\ small x F' sz) ->
  owns (vmm s') (fixed_blocks v x (G1 ++ g :: G2) ++ (all_tags G1 ++ T' ++ all_tags G2).*1) frame ->
  first_of (all_tags G1 ++ T' ++ all_tags G2).*1 = first_of (all_tags (G1 ++ g :: G2)).*1 -> group_ok (quantum x) (with_tags g T') ->
  vm_rep s' v x (G1 ++ with_tags g T' :: G2) C' F' frame.
Proof.
  intros [V1 V2 V3 V4 V5 V6 V7 V8 V9 V10 V11] Hsp Harr Hhash Hc Ht Hcached Ho Hfirst Hg.
  assert (forall k, k ∈ G1 ++ with_tags g T' :: G2 -> k = with_tags g T' \/ ((k ∈ G1 \/ k ∈ G2) /\ k ∈ G1 ++ g :: G2)) as Hin.
  { intros k Hk. rewrite elem_of_app, elem_of_cons in Hk. rewrite elem_of_app, elem_of_cons. tauto. }
  assert (forall k, k ∈ G1 \/ k ∈ G2 -> g_hash k <> g_hash g) as Hh.
  { destruct V11 as ((_ & (_ & (_ & _ & (Hn & _ & _)%NoDup_app)%NoDup_app)%NoDup_cons)%NoDup_cons & _). rewrite fmap_app, fmap_cons in Hn.
    destruct (nodup_parts _ [_] _ Hn) as (_ & _ & _ & _ & _ & Hx). destruct (Hx (g_hash g) (list_elem_of_here _ _)) as [N1 N2].
    intros k Hk E. rewrite <- E in N1, N2. destruct Hk as [Hk|Hk]; [apply N1 | apply N2]; apply list_elem_of_fmap; by exists k. }
  split; try done.
  - rewrite all_tags_with, V3, Hfirst. done.
  - by rewrite all_tags_with.
  - intros p sz. by rewrite all_tags_with.
  - rewrite V6, !fmap_app, !fmap_cons. done.
  - intros K1 k K2 E. rewrite Hsp. symmetry in E. apply app_cons_split in E as [(m & -> & ->)|(m & E & ->)].
    + rewrite (V7 K1 k (m ++ g :: G2)) by by rewrite <- app_assoc. by rewrite !fmap_app, !fmap_cons.
    + destruct m as [|y m]; simpl in E; injection E as <- E.
      * subst K2. cbn. by apply (V7 G1 g G2).
      * subst G2. rewrite (V7 (G1 ++ g :: m) k K2); [done |]. by rewrite <- app_assoc.
  - intros k [->|[_ Hk]]%Hin; [done | by apply V8].
  - apply (sorted_replace _ _ g); done.
  - intros k [->|[Hk Hk2]]%Hin; [done |]. destruct (V10 k Hk2) as (hl & Hl & Hr). exists hl. split; [|done].
    destruct (span_not_null s v x _ C F frame (Build_vm_rep _ _ s v x _ C F frame V1 V2 V3 V4 V5 V6 V7 V8 V9 V10 V11) k Hk2) as (_ & _ & ?).
    rewrite Harr; [done | done | by apply Hh].
  - rewrite blocks_fixed, fixed_with_tags, all_tags_with. done.
Qed.

(** The tags of the other spans lie outside of a span. *)
Lemma vm_around s v x G1 g G2 C F frame : vm_rep s v x (G1 ++ g :: G2) C F frame ->
  around (all_tags G1) (all_tags G2) (quantum x) (g_base g) (g_base g + g_size g).
Proof.
  intros Hr. pose proof (vr_order _ _ _ _ _ _ _ Hr) as Ho.
  assert (g ∈ G1 ++ g :: G2) as Hg by (apply elem_of_app; right; by apply elem_of_cons; left).
  pose proof (vr_groups _ _ _ _ _ _ _ Hr g Hg) as [O1 O2 _ _].
  assert (forall p h k, (p, h) ∈ g_tags k -> k ∈ G1 ++ g :: G2 -> g_base k <= sg_addr h < g_base k + g_size k) as Hrange.
  { intros p h k Hh Hk. pose proof (vr_groups _ _ _ _ _ _ _ Hr k Hk) as [_ _ O3 _]. apply list_elem_of_split in Hh as (l1 & l2 & E).
    rewrite E, fmap_app, fmap_cons in O3. destruct (tile_elem _ _ _ _ _ _ O3) as (? & ? & ? & _). simpl in *. lia. }
  assert (forall k, k ∈ G1 -> g_base k + g_size k <= g_base g) as H1.
  { clear -Ho. induction G1 as [|h G1 IH]; intros k Hk; [by apply not_elem_of_nil in Hk |]. simpl in Ho. inversion_clear Ho as [|? ? Hs Hf].
    apply elem_of_cons in Hk as [->|Hk]; [|by apply IH]. rewrite Forall_forall in Hf. apply Hf, elem_of_app. right. by apply elem_of_cons; left. }
  assert (forall k, k ∈ G2 -> g_base g + g_size g <= g_base k) as H2.
  { clear -Ho. induction G1 as [|h G1 IH]; simpl in Ho; inversion_clear Ho as [|? ? Hs Hf]; [|by apply IH]. by rewrite Forall_forall in Hf. }
  split; try done.
  - intros p h Hh. unfold all_tags in Hh. apply list_elem_of_In, in_concat in Hh as (T & HT & Hh). apply list_elem_of_In in HT, Hh.
    apply list_elem_of_fmap in HT as (k & -> & Hk). specialize (H1 k Hk). destruct (Hrange p h k Hh); [apply elem_of_app; by left | lia].
  - intros p h Hh. unfold all_tags in Hh. apply list_elem_of_In, in_concat in Hh as (T & HT & Hh). apply list_elem_of_In in HT, Hh.
    apply list_elem_of_fmap in HT as (k & -> & Hk). specialize (H2 k Hk). destruct (Hrange p h k Hh); [apply elem_of_app; right; by apply elem_of_cons; right | lia].
Qed.

(** The slot of an address in the table of its span. *)
Lemma hash_slot q g hl a : 0 < q -> hash_rep q g hl -> (q | a - g_base g) -> in_group a g -> (q | g_size g) -> 0 < g_base g -> g_base g + g_size g < two32 ->
  let i := (a - g_base g) / q in u32 (a - g_base g) = a - g_base g /\ 0 <= i < Z.of_nat (length hl) /\ g_base g + i * q = a /\
  hl !! Z.to_nat i = Some (assoc (handles (g_tags g)) a).
Proof.
  intros Hq [Hlen Hhl] [d Hd] [H1 H2] [n Hn] Hbase Hend i. assert (i = d) as Ei by (unfold i; rewrite Hd; apply Z.div_mul; lia).
  assert (g_size g / q = n) as Es by (rewrite Hn; apply Z.div_mul; lia). assert (0 <= d < n) as Hi by nia.
  assert (0 <= i < Z.of_nat (length hl)) as Hb by (rewrite Hlen, Es; lia).
  split_and!.
  - apply u32_small. unfold is_u32. lia.
  - lia.
  - lia.
  - rewrite Ei. lia.
  - rewrite Hhl by lia. do 2 f_equal. rewrite Ei. rewrite Z2Nat.id by lia. lia.
Qed.
End closing.

Lemma tile_total q a l e : tile q a l e -> (q | e - a).
Proof.
  revert a. induction l as [|g l IH]; simpl; intros a.
  - intros ->. rewrite Z.sub_diag. apply Z.divide_0_r.
  - intros (_ & _ & Hd & Ht). apply IH in Ht. replace (e - a) with ((e - (a + sg_size g)) + sg_size g) by lia. by apply Z.divide_add_r.
Qed.

Lemma handles_alloc T1 p g T2 : sg_alloc g = true -> handles (T1 ++ (p, g) :: T2) = handles T1 ++ (sg_addr g, p) :: handles T2.
Proof. intros Hg. rewrite handles_app. f_equal. unfold handles. simpl. by rewrite Hg. Qed.

(** What is known about one tag of one span. *)
Record tag_facts (q : Z) (g : group) (T1 : list (Z * seg)) (p : Z) (h : seg) (T2 : list (Z * seg)) : Prop := {
  tf_in : in_group (sg_addr h) g;
  tf_end : sg_addr h + sg_size h <= g_base g + g_size g;
  tf_size : 0 < sg_size h /\ (q | sg_size h) /\ q <= sg_size h;
  tf_offset : (q | sg_addr h - g_base g);
  tf_total : (q | g_size g);
  tf_tile : tile q (g_base g) (T1.*2 ++ h :: T2.*2) (g_base g + g_size g);
  tf_left : forall p', (sg_addr h, p') ∉ handles T1;
  tf_right : forall p' c, sg_addr h <= c < sg_addr h + sg_size h -> (c, p') ∉ handles T2;
  tf_coalesced : coalesced (T1.*2 ++ h :: T2.*2)
}.

Lemma group_tag q g T1 p h T2 : 0 < q -> group_ok q g -> g_tags g = T1 ++ (p, h) :: T2 -> tag_facts q g T1 p h T2.
Proof.
  intros Hq [O1 O2 O3 O4] E. rewrite E, fmap_app, fmap_cons in O3, O4. cbn [snd] in O3, O4.
  destruct (tile_elem _ _ _ _ _ _ O3) as (H1 & H2 & H3 & H4 & H5 & H6). pose proof (tile_offset _ _ _ _ _ _ O3) as H7. pose proof (tile_total _ _ _ _ O3) as H8.
  split; try done.
  - unfold in_group. lia.
  - split_and!; try done. by apply Z.divide_pos_le.
  - by replace (g_base g + g_size g - g_base g) with (g_size g) in H8 by lia.
  - intros p' Hp. destruct (handles_range _ _ _ _ _ _ H5 Hp). lia.
  - intros p' c Hc Hp. destruct (handles_range _ _ _ _ _ _ H6 Hp). lia.
Qed.

Section sizes.
Context {A : Type} `{MmLaws A}.

Lemma vm_sizes (s : vstate A) v x G C F frame : vm_rep s v x G C F frame -> forall p h, (p, h) ∈ all_tags G -> quantum x <= sg_size h.
Proof.
  intros Hr p h Hh. unfold all_tags in Hh. apply list_elem_of_In, in_concat in Hh as (T & HT & Hh). apply list_elem_of_In in HT, Hh.
  apply list_elem_of_fmap in HT as (k & -> & Hk). apply list_elem_of_split in Hh as (l1 & l2 & E).
  apply (group_tag _ k l1 p h l2 (ca_q _ _ _ _ _ (vr_caches _ _ _ _ _ _ _ Hr)) (vr_groups _ _ _ _ _ _ _ Hr k Hk) E).
Qed.
End sizes.

(** * [vmem_free] *)

Section vmem_free.
Context {A : Type} `{MmLaws A}.
Context (client_ffunc : Z -> Z -> Z -> Z -> M (vstate A) Z).
Implicit Types s : vstate A.

(** The state after the slot was cleared and the tag marked. *)
Definition marked s (g : group) (hl : list Z) (i p : Z) : vstate A :=
  set_bts (updm p (set_allocated VMEM_FREE) (bts s)) (set_arrays (<[g_hash g := <[Z.to_nat i := NULL]> hl]> (arrays s)) s).

Lemma mid_marked s v x G1 g G2 C F frame T1 p a sz T2 hl i : vm_rep s v x (G1 ++ g :: G2) C F frame ->
  g_tags g = T1 ++ (p, Seg a sz true) :: T2 ->
  mid (marked s g hl i p) v x (fixed_blocks v x (G1 ++ g :: G2)) C F ((all_tags G1 ++ T1) ++ (p, Seg a sz false) :: (T2 ++ all_tags G2)) p frame.
Proof.
  intros Hr E. assert (g ∈ G1 ++ g :: G2) as Hg by (apply elem_of_app; right; by apply elem_of_cons; left).
  destruct (span_not_null s v x _ C F frame Hr g Hg) as (_ & _ & Hne). pose proof (vm_sizes s v x _ C F frame Hr) as Hsz.
  pose proof Hr as [V1 V2 V3 V4 V5 _ _ _ _ _ V11]. rewrite (all_tags_mid _ _ _ _ _ _ E) in V4, V5, Hsz.
  rewrite blocks_fixed, (all_tags_mid _ _ _ _ _ _ E) in V11. destruct (tags_rep_lookup _ _ _ _ _ V4) as (b & Hb & Hn & B1 & B2 & _).
  set (L1 := all_tags G1 ++ T1) in *. set (L2 := T2 ++ all_tags G2) in *.
  assert ((p, Seg a sz true) ∈ L1 ++ (p, Seg a sz true) :: L2) as Hin by (apply elem_of_app; right; by apply elem_of_cons; left).
  assert (forall c k, c <> p -> (c, k) ∈ L1 ++ (p, Seg a sz false) :: L2 <-> (c, k) ∈ L1 ++ (p, Seg a sz true) :: L2) as Hiff.
  { intros c k Hc. rewrite !elem_of_app, !elem_of_cons. split; intros [?|[[= -> _]|?]]; tauto. }
  split.
  - destruct V1 as [C1 C2 C3 C4 C5 C6 C7]. split; try done; cbn.
    + by rewrite lookup_insert_ne.
    + by rewrite fl_links_same.
  - apply (tags_rep_update (bts s) _ _ _ (Seg a sz true)); [exact V4 | cbn; by rewrite tag_links_same | |]; cbn; rewrite data_of_allocated by done.
    + intros c Hc. by rewrite lookup_alter_ne.
    + rewrite lookup_alter_eq. destruct V4 as [_ Hd]. by rewrite (Hd p _ Hin).
  - intros c z. rewrite V5. split.
    + intros (a' & Hc & Hs). assert (c <> p) as Hcp by (intros ->; by pose proof (tags_fun _ _ _ _ _ V4 Hin Hc)).
      split; [done |]. exists a'. by rewrite Hiff.
    + intros (Hcp & a' & Hc & Hs). exists a'. by rewrite <- Hiff.
  - rewrite (fmap_app fst L1), fmap_cons in V11 |- *. exact V11.
  - intros c k Hc. destruct (decide (c = p)) as [->|Hcp]; [|apply (Hsz c); by apply Hiff].
    rewrite elem_of_app, elem_of_cons in Hc. destruct Hc as [Hc|[[= ->]|Hc]]; [|by apply (Hsz p (Seg a sz true)) |].
    + apply (Hsz p). apply elem_of_app. by left.
    + apply (Hsz p). apply elem_of_app. right. apply elem_of_cons. by right.
Qed.

(** The cleared slot. *)
Lemma hash_cleared q g T1 p a sz T2 hl T' : 0 < q -> hash_rep q g hl -> g_tags g = T1 ++ (p, Seg a sz true) :: T2 ->
  tag_facts q g T1 p (Seg a sz true) T2 -> handles T' = handles T1 ++ handles T2 ->
  hash_rep q (with_tags g T') (<[Z.to_nat ((a - g_base g) / q) := NULL]> hl).
Proof.
  intros Hq [Hlen Hhl] E Hf HT. destruct (tf_offset _ _ _ _ _ _ Hf) as [d Hd]. cbn in Hd. destruct (tf_in _ _ _ _ _ _ Hf) as [I1 I2]. cbn in I1, I2.
  assert ((a - g_base g) / q = d) as -> by (rewrite Hd; apply Z.div_mul; lia). assert (0 <= d) as Hd0 by nia.
  split; [by rewrite length_insert |]. intros i Hi. rewrite length_insert in Hi. cbn [with_tags g_tags g_base].
  rewrite E, (handles_alloc _ _ (Seg a sz true)) in Hhl by done. cbn [sg_addr] in Hhl. rewrite HT.
  destruct (decide (i = Z.to_nat d)) as [->|Hne].
  - rewrite list_lookup_insert_eq by done. f_equal. symmetry. apply assoc_not_in.
    replace (g_base g + Z.of_nat (Z.to_nat d) * q) with a by lia. intros p' [Hx|Hx]%elem_of_app; [by apply (tf_left _ _ _ _ _ _ Hf p') |].
    apply (tf_right _ _ _ _ _ _ Hf p' a); [|done]. destruct (tf_size _ _ _ _ _ _ Hf). cbn in *. lia.
  - rewrite list_lookup_insert_ne by congruence. rewrite Hhl by done. f_equal. rewrite assoc_mid by apply (tf_left _ _ _ _ _ _ Hf).
    rewrite decide_False; [done |]. intros E2. assert (Z.of_nat i = d) by nia. lia.
Qed.

(** A region is taken back: its tag is free, and the free neighbours melted. *)
Lemma vmem_free_run s v x G1 g G2 C F frame T1 p (a sz : Z) T2 addr size fuel : vm_rep s v x (G1 ++ g :: G2) C F frame ->
  g_tags g = T1 ++ (p, Seg a sz true) :: T2 -> a <= addr < a + quantum x ->
  exists s' T' C' F', vmem_free client_ffunc (S fuel) v addr size s = Ok (addr, s') /\ vm_rep s' v x (G1 ++ with_tags g T' :: G2) C' F' frame /\
  taken T' = taken T1 ++ taken T2.
Proof.
  intros Hr E Haddr. assert (g ∈ G1 ++ g :: G2) as Hg by (apply elem_of_app; right; by apply elem_of_cons; left).
  pose proof Hr as [V1 V2 V3 V4 V5 V6 V7 V8 V9 V10 V11]. pose proof (ca_q _ _ _ _ _ V1) as Hq. pose proof (V8 g Hg) as [O1 O2 O3 O4].
  pose proof (group_tag _ g T1 p _ T2 Hq (V8 g Hg) E) as Hf. destruct (span_not_null s v x _ C F frame Hr g Hg) as (Hsn & Hhn & Hhne).
  destruct (V10 g Hg) as (hl & Hhl & Hrep).
  destruct (hash_slot _ g hl a Hq Hrep (tf_offset _ _ _ _ _ _ Hf) (tf_in _ _ _ _ _ _ Hf) (tf_total _ _ _ _ _ _ Hf) O1 O2) as (S1 & S2 & S3 & S4).
  set (i := (a - g_base g) / quantum x) in *. rewrite E, (handles_alloc _ _ (Seg a sz true)), assoc_mid, decide_True in S4;
    [|done | apply (tf_left _ _ _ _ _ _ Hf) | done].
  rewrite (all_tags_mid _ _ _ _ _ _ E) in V4. destruct (tags_rep_lookup _ _ _ _ _ V4) as (b & Hb & Hn & _ & _ & B3 & _).
  pose proof (mid_marked s v x G1 g G2 C F frame T1 p a sz T2 hl i Hr E) as Hm. set (s2 := marked s g hl i p) in *.
  assert (vspans s2 !! g_span g = Some (Span (g_base g) (g_size g) (g_size g / quantum x) (g_hash g) (first_of (g_span <$> G2)))) as Hsp by (by apply (V7 G1 g G2)).
  pose proof (tf_tile _ _ _ _ _ _ Hf) as Ht. apply (tile_flag _ _ _ _ _ _ false) in Ht. pose proof (tf_coalesced _ _ _ _ _ _ Hf) as Hc.
  apply coalesced_app in Hc as (Hc1 & Hc2 & _). assert (coalesced T2.*2) as Hc3 by (destruct T2.*2; simpl in Hc2; tauto).
  destruct (left_half s2 v x _ C F _ T1 p a sz T2 _ frame (g_span g) _ _ Hm Hsn Hsp (vm_around _ _ _ _ _ _ _ _ _ Hr) Ht Hc1)
    as (s3 & C3 & F3 & T1' & p' & a' & sz' & E3 & Q3 & L3 & M3 & Ht3 & Hc4 & Hh3 & Hf3).
  assert (vspans s3 !! g_span g = vspans s2 !! g_span g) as Hsp3 by (by destruct Q3 as (_ & -> & _)). rewrite Hsp in Hsp3.
  destruct (right_half s3 v x _ C3 F3 _ T1' p' a' sz' T2 _ frame (g_span g) _ _ M3 Hsn Hsp3 (vm_around _ _ _ _ _ _ _ _ _ Hr) eq_refl Ht3 Hc3 Hc4)
    as (s4 & C4 & F4 & sz4 & T2' & E4 & Q4 & L4 & M4 & Ht4 & Hc5 & Hh4).
  destruct (mid_recache s4 v x _ C4 F4 _ p' _ _ frame M4 eq_refl) as (s5 & C5 & F5 & E5 & Q5 & L5 & K1 & K2 & K3 & K4).
  pose proof (quiet_trans _ _ _ _ Q3 (quiet_trans _ _ _ _ Q4 Q5)) as (_ & Qs & Qa).
  set (T' := T1' ++ (p', Seg a' sz4 false) :: T2'). exists s5, T', C5, F5.
  assert (taken T' = taken T1 ++ taken T2) as HT by (unfold T'; by rewrite taken_free, Hh3, Hh4).
  pose proof (tf_in _ _ _ _ _ _ Hf) as [I1 I2]. pose proof (tf_end _ _ _ _ _ _ Hf) as I3. pose proof (tf_size _ _ _ _ _ _ Hf) as (_ & _ & I4). cbn in I1, I2, I3, I4.
  assert (in_group addr g) as Ia by (unfold in_group; lia).
  assert ((addr - g_base g) / quantum x = i) as Ei by (symmetry; apply (Z.div_unique _ _ _ (addr - a)); lia).
  assert ((all_tags G1 ++ T1') ++ (p', Seg a' sz4 false) :: T2' ++ all_tags G2 = all_tags G1 ++ T' ++ all_tags G2) as EL by (unfold T'; by rewrite <- !app_assoc).
  rewrite EL in K2, K3, K4. split; [|split; [|done]].
  - cbn [vmem_free]. rewrite run_bind, (getspan_ok s v x _ C F frame Hr g addr Hg Ia).
    destruct (Z.eqb_spec (g_span g) NULL) as [|_]; [done |]. rewrite run_bind, (ldv_ok _ _ _ (ca_v _ _ _ _ _ V1) (ca_x _ _ _ _ _ V1)).
    rewrite run_bind, (lds_ok _ _ _ Hsn (V7 G1 g G2 eq_refl)), run_bind. cbn [s_addr hash]. rewrite u32_small by (unfold is_u32; lia). unfold liftO at 1. rewrite udiv_pos, Ei by done.
    rewrite run_bind, (arr_get_ok s _ _ _ _ Hhn Hhl (proj1 S2) S4). destruct (Z.eqb_spec p NULL) as [|_]; [done |].
    rewrite run_bind, (ldb_ok _ _ _ Hn Hb), run_bind, V2. change (NULL =? NULL) with true. cbn [negb andb]. rewrite run_ret.
    rewrite run_bind, (arr_get_ok s _ _ _ _ Hhn Hhl (proj1 S2) S4), run_bind. unfold massert at 1, liftO. destruct (Z.eqb_spec p NULL) as [|_]; [done |].
    cbn [negb kassert]. rewrite run_bind, (arr_set_ok s _ _ _ _ Hhn Hhl S2), run_bind.
    rewrite (ldb_ok (set_arrays _ s) _ _ Hn Hb), run_bind. unfold massert, liftO. rewrite B3. cbn [alloc_bit sg_alloc]. change (VMEM_ALLOCATED =? VMEM_ALLOCATED) with true.
    cbn [kassert]. rewrite run_bind, updb_ok by (done || by eexists). change (set_bts _ _) with s2.
    rewrite run_bind, E3, run_bind, E4, run_bind, E5. done.
  - apply (vm_close s s5 v x G1 g G2 T' C C5 F F5 frame Hr); try done.
    + intros k Hk1 Hk2. rewrite Qa by done. cbn. by rewrite lookup_insert_ne.
    + exists (<[Z.to_nat i := NULL]> hl). split; [rewrite Qa by done; cbn; by rewrite lookup_insert_eq |]. apply (hash_cleared _ _ T1 p a sz T2); try done.
      rewrite handles_of_taken, HT, handles_app, <- !handles_of_taken. done.
    + rewrite (all_tags_mid _ _ _ _ _ _ E), <- app_assoc. unfold T'. rewrite !fmap_app, !fmap_cons, !(first_of_app (all_tags G1).*1).
      destruct (decide ((all_tags G1).*1 = [])); [|done]. rewrite <- app_assoc, <- app_comm_cons, (first_of_mid T1'.*1), (first_of_mid T1.*1). exact Hf3.
    + split; try done; unfold T'; cbn [with_tags g_tags g_base g_size]; by rewrite fmap_app, fmap_cons.
Qed.
End vmem_free.
