(* ===== verification/VmemAlloc.v ===== *)
(** Taking a region from an arena ([vmem_alloc]): the choice of a free tag and the
    cut of its segment. *)
From S2P Require Import Prelude Mm Lists Chain Vmem VmemRep VmemSegs VmemInv VmemFree VmemArena.

(** * The choice among a list of tags *)

Definition bestfit (flag : Z) : bool := Z.land flag VMEM_BESTFIT =? VMEM_BESTFIT.

(** The first free segment that is large enough, or the smallest one. *)
Fixpoint pick (bf : bool) (rsize : Z) (best : option (Z * Z)) (L : list (Z * seg)) : option (Z * Z) :=
  match L with
  | [] => best
  | (p, g) :: L =>
      if negb (sg_alloc g) && (rsize <=? sg_size g) then
        if bf then
          pick bf rsize (match best with
                         | Some (b, z) => if sg_size g <? z then Some (p, sg_size g) else best
                         | None => Some (p, sg_size g) end) L
        else Some (p, sg_size g)
      else pick bf rsize best L
  end.

(** The tag [p] of size [z] is free and large enough. *)
Definition fits (rsize : Z) (L : list (Z * seg)) (p z : Z) : Prop := rsize <= z /\ exists a, (p, Seg a z false) ∈ L.

Lemma fits_mono rsize L L' p z : (forall t, t ∈ L -> t ∈ L') -> fits rsize L p z -> fits rsize L' p z.
Proof. intros Hl (Hz & a & Ha). split; [done |]. exists a. by apply Hl. Qed.

Lemma fits_cons rsize p g L c z : fits rsize ((p, g) :: L) c z <-> (c = p /\ z = sg_size g /\ sg_alloc g = false /\ rsize <= z) \/ fits rsize L c z.
Proof.
  unfold fits. setoid_rewrite elem_of_cons. split.
  - intros (Hz & a & [[= <- <-]|Ha]); [left | right]; [done | split; [done |]; by exists a].
  - intros [(-> & -> & Hg & Hz)|(Hz & a & Ha)]; (split; [done |]); [exists (sg_addr g) | exists a; by right].
    left. destruct g as [? ? al]. simpl in *. by subst.
Qed.

Lemma pick_spec bf rsize best L : 
  match pick bf rsize best L with
  | Some (p, z) => (best = Some (p, z) \/ fits rsize L p z) /\
      (bf = true -> (forall c y, fits rsize L c y -> z <= y) /\ (forall b y, best = Some (b, y) -> z <= y))
  | None => best = None /\ forall p z, ~ fits rsize L p z
  end.
Proof.
  revert best. induction L as [|[p g] L IH]; intros best; cbn [pick].
  - destruct best as [[b z]|]; split; auto.
    + intros _. split; [intros c y (_ & a & Ha); by apply not_elem_of_nil in Ha | intros b' y [= _ ->]; lia].
    + intros p z (_ & a & Ha). by apply not_elem_of_nil in Ha.
  - destruct (negb (sg_alloc g) && (rsize <=? sg_size g)) eqn:Efit.
    + apply andb_true_iff in Efit as [Ea Es]. apply negb_true_iff in Ea. destruct bf.
      * assert (exists b z, match best with Some (b, z) => if sg_size g <? z then Some (p, sg_size g) else best | None => Some (p, sg_size g) end = Some (b, z) /\
          (best = Some (b, z) \/ (b = p /\ z = sg_size g)) /\ z <= sg_size g /\ (forall b' y, best = Some (b', y) -> z <= y)) as (b & z & -> & Hb & Hz & Hy).
        { destruct best as [[b z]|]; [destruct (Z.ltb_spec (sg_size g) z)|]; eexists _, _; (split; [done |]); split_and!; auto; try lia;
            [intros b' y [= _ <-]; lia | intros b' y [= _ <-]; lia | done]. }
        specialize (IH (Some (b, z))). destruct (pick true rsize (Some (b, z)) L) as [[c y]|]; [|by destruct IH].
        destruct IH as (I1 & I2). destruct (I2 eq_refl) as (I3 & I4). specialize (I4 b z eq_refl). split; [|intros _; split].
        -- rewrite fits_cons. destruct I1 as [[= <- <-]|I1]; [|tauto]. destruct Hb as [->|[-> ->]]; [by left | right; left]. split_and!; try done. lia.
        -- intros d w [(-> & -> & _)|Hd]%fits_cons; [lia | by apply (I3 d)].
        -- intros d w Hd. specialize (Hy d w Hd). lia.
      * split; [|done]. right. apply fits_cons. left. split_and!; try done. lia.
    + specialize (IH best). assert (forall c z, fits rsize ((p, g) :: L) c z <-> fits rsize L c z) as Hf.
      { intros c z. rewrite fits_cons. split; [|tauto]. intros [(-> & -> & Ha & Hz)|?]; [|done]. rewrite Ha in Efit. simpl in Efit. lia. }
      destruct (pick bf rsize best L) as [[c z]|].
      * rewrite Hf. split; [apply IH |]. intros Hb. split; [intros d w; rewrite Hf; by apply IH | by apply IH].
      * split; [apply IH |]. intros c z. rewrite Hf. by apply IH.
Qed.

Section choice.
Context {A : Type} `{MmLaws A}.
Implicit Types s : vstate A.

Definition ptr_of (o : option (Z * Z)) : Z := match o with Some (p, _) => p | None => NULL end.

(** The running best is a tag of the heap with that size. *)
Definition best_ok s (o : option (Z * Z)) : Prop := forall p z, o = Some (p, z) -> p <> NULL /\ exists b, bts s !! p = Some b /\ b_size b = z.

Lemma best_step s p g best b : bts s !! p = Some b -> b_size b = sg_size g -> p <> NULL -> best_ok s best ->
  (if ptr_of best =? NULL then mret p else (x ← ldb (ptr_of best); mret (if sg_size g <? b_size x then p else ptr_of best))) s =
    Ok (ptr_of (match best with Some (c, z) => if sg_size g <? z then Some (p, sg_size g) else best | None => Some (p, sg_size g) end), s) /\
  best_ok s (match best with Some (c, z) => if sg_size g <? z then Some (p, sg_size g) else best | None => Some (p, sg_size g) end).
Proof.
  intros Hb Hz Hp Hbest. assert (best_ok s (Some (p, sg_size g))) as Hnew by (intros ? ? [= <- <-]; split; [done |]; by exists b).
  destruct best as [[c z]|]; [|by split]. destruct (Hbest c z eq_refl) as (Hc & bc & Hbc & Hbz). cbn [ptr_of].
  destruct (Z.eqb_spec c NULL) as [|_]; [done |]. rewrite run_bind, (ldb_ok _ _ _ Hc Hbc), run_ret, Hbz. by destruct (sg_size g <? z).
Qed.

Lemma search_loop_ok s fuel L1 L2 best rsize flag : tags_rep (bts s) (L1 ++ L2) -> (length L2 < fuel)%nat -> best_ok s best ->
  search_loop fuel (first_of L2.*1) (ptr_of best) rsize flag s = Ok (ptr_of (pick (bestfit flag) rsize best L2), s).
Proof.
  revert L1 L2 best. induction fuel as [|fuel IH]; intros L1 L2 best Hr Hf Hbest; [lia |]. destruct L2 as [|[p g] L2]; [done |]. cbn [search_loop fmap list_fmap fst first_of pick].
  destruct (tags_rep_lookup _ _ _ _ _ Hr) as (b & Hb & Hn & B1 & B2 & B3 & B4 & _). destruct (Z.eqb_spec p NULL) as [|_]; [done |].
  rewrite run_bind, (ldb_ok _ _ _ Hn Hb), B2, B3, B4.
  assert ((alloc_bit g =? VMEM_FREE) = negb (sg_alloc g)) as -> by (unfold alloc_bit; by destruct (sg_alloc g)).
  assert (forall o, best_ok s o -> search_loop fuel (first_of L2.*1) (ptr_of o) rsize flag s = Ok (ptr_of (pick (bestfit flag) rsize o L2), s)) as IH'.
  { intros o Ho. apply (IH (L1 ++ [(p, g)])); [by rewrite <- app_assoc | simpl in Hf; lia | done]. }
  destruct (negb (sg_alloc g) && (rsize <=? sg_size g)); [|by apply IH']. unfold bestfit in *. destruct (_ =? VMEM_BESTFIT); [|done]. cbn [negb].
  destruct (best_step s p g best b Hb B2 Hn Hbest) as [Es Hs]. rewrite run_bind, Es. by apply IH'.
Qed.

(** The tags of a free list, with their segments. *)
Definition listed (l : list Z) (L : list (Z * seg)) (K : list (Z * seg)) : Prop :=
  K.*1 = l /\ forall p g, (p, g) ∈ K -> (p, g) ∈ L /\ sg_alloc g = false.

Lemma quantum_list_ok s fuel l1 K L best rsize flag : chain (fl_links (bts s)) (l1 ++ K.*1) -> listed K.*1 L K -> tags_rep (bts s) L ->
  (length K < fuel)%nat -> best_ok s best -> (bestfit flag = false -> best = None) ->
  quantum_list fuel (first_of K.*1) (ptr_of best) rsize flag s =
    Ok (let o := pick (bestfit flag) rsize best K in
        if bestfit flag then inr (ptr_of o) else match o with Some (p, _) => inl p | None => inr NULL end, s).
Proof.
  revert l1 K best. induction fuel as [|fuel IH]; intros l1 K best Hc [_ HK] Hr Hf Hbest Hnone; [lia |]. destruct K as [|[p g] K].
  { cbn [quantum_list fmap list_fmap first_of pick]. change (NULL =? NULL) with true. cbn iota. destruct (bestfit flag); [done |].
    by rewrite (Hnone eq_refl). }
  cbn [quantum_list fmap list_fmap fst first_of pick]. destruct (HK p g) as [Hin Hfree]; [by apply elem_of_cons; left |].
  apply list_elem_of_split in Hin as (B1 & B2 & ->). destruct (tags_rep_lookup _ _ _ _ _ Hr) as (b & Hb & Hn & _ & E2 & E3 & _).
  pose proof Hc as Hc'. cbn [fmap list_fmap fst] in Hc'. apply chain_lookup in Hc'. unfold fl_links in Hc'. rewrite lookup_fmap, Hb in Hc'. injection Hc' as Hnx _.
  destruct (Z.eqb_spec p NULL) as [|_]; [done |]. rewrite run_bind, (ldb_ok _ _ _ Hn Hb), run_bind. unfold massert, liftO. rewrite E3. unfold alloc_bit. rewrite Hfree.
  change (VMEM_FREE =? VMEM_FREE) with true. cbn [kassert negb andb]. rewrite E2, Hnx.
  assert (forall o, best_ok s o -> (bestfit flag = false -> o = None) -> quantum_list fuel (first_of K.*1) (ptr_of o) rsize flag s =
    Ok (let o := pick (bestfit flag) rsize o K in if bestfit flag then inr (ptr_of o) else match o with Some (p, _) => inl p | None => inr NULL end, s)) as IH'.
  { intros o Ho Ho2. apply (IH (l1 ++ [p])); try done.
    - by rewrite <- app_assoc.
    - split; [done |]. intros c h Hc2. apply HK. by apply elem_of_cons; right.
    - simpl in Hf. lia. }
  destruct (rsize <=? sg_size g); [|by apply IH']. unfold bestfit in *. destruct (_ =? VMEM_BESTFIT); [|done]. cbn [negb].
  destruct (best_step s p g best b Hb E2 Hn Hbest) as [Es Hs]. rewrite run_bind, Es. by apply IH'.
Qed.

Lemma class_mono q y z : 0 < q -> q <= y -> y <= z -> (class q y <= class q z)%nat.
Proof. intros Hq Hy Hz. unfold class. apply Z2Nat.inj_le; [apply Z.log2_nonneg.. |]. apply Z.log2_le_mono, Z.div_le_mono; lia. Qed.

Section rep.
Context s v x G C F frame (Hr : vm_rep s v x G C F frame).

Lemma fits_size rsize c y : fits rsize (all_tags G) c y -> quantum x <= y.
Proof using Hr H0. intros (_ & a & Ha). apply (vm_sizes s v x G C F frame Hr) in Ha. exact Ha. Qed.

(** A free list with the segments of its tags. *)
Lemma list_segments i l : F !! i = Some l -> exists K, listed l (all_tags G) K /\
  forall p g, (p, g) ∈ K <-> (p, g) ∈ all_tags G /\ sg_alloc g = false /\ small x F (sg_size g) /\ class (quantum x) (sg_size g) = i.
Proof using Hr H0.
  intros Hl. pose proof (ca_fl _ _ _ _ _ (vr_caches _ _ _ _ _ _ _ Hr)) as Hfl.
  assert (forall k, (forall p, p ∈ k -> p ∈ l) -> exists K, K.*1 = k /\ forall p g, (p, g) ∈ K -> p ∈ k /\ (p, g) ∈ all_tags G /\ sg_alloc g = false) as Hex.
  { induction k as [|p k IH]; intros Hk; [exists []; split; [done |]; intros p g Hp; by apply not_elem_of_nil in Hp |].
    destruct IH as (K & HK & Hin); [intros c Hc; apply Hk; by apply elem_of_cons; right |].
    assert (p ∈ l) as Hp by (apply Hk; by apply elem_of_cons; left). apply (fk_in _ _ _ _ Hfl _ _ _ Hl) in Hp as (sz & Hp & _).
    apply (vr_cached _ _ _ _ _ _ _ Hr) in Hp as (a & Ha & _). exists ((p, Seg a sz false) :: K). split; [by rewrite fmap_cons, HK |].
    intros c h [[= -> ->]|Hc]%elem_of_cons; [split_and!; try done; by apply elem_of_cons; left |]. destruct (Hin c h Hc) as (? & ? & ?).
    split_and!; try done. by apply elem_of_cons; right. }
  destruct (Hex l (fun p Hp => Hp)) as (K & HK & Hin). exists K. split; [split; [done |]; intros p g Hp; by apply Hin |]. intros p g. split.
  - intros Hp. destruct (Hin p g Hp) as (Hpl & Hpt & Hf). apply (fk_in _ _ _ _ Hfl _ _ _ Hl) in Hpl as (sz & Hp2 & Hcl).
    apply (vr_cached _ _ _ _ _ _ _ Hr) in Hp2 as (a & Ha & Hs). rewrite (tags_fun _ _ _ _ _ (vr_tags _ _ _ _ _ _ _ Hr) Hpt Ha). by split_and!.
  - intros (Hp & Hf & Hs & Hcl). assert (p ∈ l) as Hpl.
    { apply (fk_in _ _ _ _ Hfl _ _ _ Hl). exists (sg_size g). split; [|done]. apply (vr_cached _ _ _ _ _ _ _ Hr). exists (sg_addr g).
      split; [|done]. destruct g as [? ? al]. simpl in *. by subst. }
    rewrite <- HK in Hpl. apply list_elem_of_fmap in Hpl as ([p' h] & -> & Hh). destruct (Hin p' h Hh) as (_ & Hh2 & _).
    by rewrite (tags_fun _ _ _ _ _ (vr_tags _ _ _ _ _ _ _ Hr) Hp Hh2).
Qed.

Lemma quantum_loop_ok rsize flag n (pos : nat) : n = (length F - pos)%nat ->
  exists o, quantum_loop n (free_cache x) (Z.of_nat pos) NULL rsize flag s = Ok (ptr_of o, s) /\
  match o with
  | Some (p, z) => fits rsize (all_tags G) p z /\
      (bestfit flag = true -> forall c y, fits rsize (all_tags G) c y -> (pos <= class (quantum x) y)%nat -> z <= y)
  | None => forall c y, fits rsize (all_tags G) c y -> small x F y -> (class (quantum x) y < pos)%nat
  end.
Proof using Hr H0.
  revert pos. induction n as [|n IH]; intros pos En; cbn [quantum_loop].
  { exists None. split; [done |]. intros c y _ Hs. unfold small in Hs. lia. }
  pose proof (vr_caches _ _ _ _ _ _ _ Hr) as Hc. destruct (lookup_lt_is_Some_2 F pos) as [l Hl]; [lia |].
  destruct (list_segments pos l Hl) as (K & HK & Hin). pose proof HK as [<- _]. pose proof (fk_chain _ _ _ _ (ca_fl _ _ _ _ _ Hc) _ _ Hl) as Hch.
  rewrite run_bind, (arr_get_ok s _ _ _ (first_of K.*1) (ca_cache _ _ _ _ _ Hc) (ca_array _ _ _ _ _ Hc)); [|lia | by rewrite Nat2Z.id, list_lookup_fmap, Hl].
  mrun. pose proof (quantum_list_ok s (S (base.size (bts s))) [] K (all_tags G) None rsize flag Hch HK (vr_tags _ _ _ _ _ _ _ Hr)) as Eq.
  cbn [ptr_of] in Eq. rewrite Eq; [|pose proof (chain_size _ _ Hch) as Hsz; rewrite length_fmap in Hsz; unfold fl_links in Hsz; rewrite map_size_fmap in Hsz; lia | by intros ? ? | done].
  pose proof (pick_spec (bestfit flag) rsize None K) as Hp. cbv zeta. clear Eq.
  assert (forall c y, fits rsize K c y -> fits rsize (all_tags G) c y) as Hsub by (intros c y; apply fits_mono; intros [p g] Hg; by apply Hin).
  destruct (pick (bestfit flag) rsize None K) as [[p z]|].
  - destruct Hp as ([?|Hp] & Hbest); [done |]. exists (Some (p, z)). pose proof (Hsub _ _ Hp) as HpG. split; [|split; [done |]].
    + assert (p <> NULL) as Hpn.
      { destruct HpG as (_ & a & Ha). apply list_elem_of_split in Ha as (B1 & B2 & Ea). pose proof (vr_tags _ _ _ _ _ _ _ Hr) as Ht. rewrite Ea in Ht.
        by destruct (tags_rep_lookup _ _ _ _ _ Ht) as (? & _ & ? & _). }
      unfold bestfit in *. destruct (_ =? VMEM_BESTFIT); [|done]. cbn [ptr_of]. destruct (Z.eqb_spec p NULL); done.
    + intros Hb c y Hc2 Hcl. destruct (Hbest Hb) as [Hmin _]. destruct Hp as (_ & a & Ha). apply Hin in Ha as (Ha & _ & Hs & Hcz). cbn [sg_size] in *.
      destruct (decide (z <= y)) as [?|Hzy]; [done |]. pose proof (fits_size _ _ _ Hc2) as Hq. pose proof (ca_q _ _ _ _ _ Hc).
      assert (class (quantum x) y <= class (quantum x) z)%nat by (apply class_mono; lia). apply (Hmin c).
      destruct Hc2 as (Hy & a' & Ha'). split; [done |]. exists a'. apply Hin. cbn [sg_alloc sg_size]. split_and!; try done; [|lia]. unfold small in *. lia.
  - destruct Hp as [_ Hno]. destruct (IH (S pos)) as (o & Eo & Ho); [lia |]. exists o. split.
    + replace (Z.of_nat pos + 1) with (Z.of_nat (S pos)) by lia. cbn [ptr_of]. unfold bestfit. change (NULL =? NULL) with true. cbn [negb].
      destruct (_ =? VMEM_BESTFIT); cbn [andb]; exact Eo.
    + assert (forall c y, fits rsize (all_tags G) c y -> small x F y -> class (quantum x) y <> pos) as Hne.
      { intros c y (Hy & a & Ha) Hs Hcl. apply (Hno c y). split; [done |]. exists a. by apply Hin. }
      destruct o as [[p z]|].
      * destruct Ho as [Hf Hb]. split; [done |]. intros Hbf c y Hc2 Hcl. apply (Hb Hbf c); [done |].
        destruct (decide (small x F y)) as [Hs|Hs]; [pose proof (Hne c y Hc2 Hs); lia |]. unfold small in Hs. lia.
      * intros c y Hc2 Hs. pose proof (Ho c y Hc2 Hs). pose proof (Hne c y Hc2 Hs). lia.
Qed.

Lemma search_ok rsize flag : vmem_alloc_search v rsize flag s = Ok (ptr_of (pick (bestfit flag) rsize None (all_tags G)), s).
Proof using Hr H0.
  pose proof (vr_caches _ _ _ _ _ _ _ Hr) as Hc. unfold vmem_alloc_search. rewrite run_bind, (ldv_ok _ _ _ (ca_v _ _ _ _ _ Hc) (ca_x _ _ _ _ _ Hc)). mrun.
  rewrite (vr_tagptr _ _ _ _ _ _ _ Hr). apply (search_loop_ok s _ [] (all_tags G) None); [apply (vr_tags _ _ _ _ _ _ _ Hr) | | by intros ? ?].
  pose proof (vr_tags _ _ _ _ _ _ _ Hr) as [Hch _]. pose proof (chain_size _ _ Hch) as Hsz. rewrite length_fmap in Hsz. unfold tag_links in Hsz.
  rewrite map_size_fmap in Hsz. lia.
Qed.

(** The choice fails only when nothing fits; with [VMEM_BESTFIT], and without
    [VMEM_INSTANT], it is a smallest segment that fits. *)
Lemma choose_tag_ok sz flag : quantum x <= sz -> exists o, choose_tag v sz flag s = Ok (ptr_of o, s) /\
  match o with
  | Some (p, z) => fits sz (all_tags G) p z /\
      (bestfit flag = true -> Z.land flag VMEM_INSTANT <> VMEM_INSTANT -> forall c y, fits sz (all_tags G) c y -> z <= y)
  | None => forall c y, ~ fits sz (all_tags G) c y
  end.
Proof using Hr H0.
  intros Hsz. pose proof (vr_caches _ _ _ _ _ _ _ Hr) as Hc. pose proof (ca_q _ _ _ _ _ Hc) as Hq. unfold choose_tag.
  pose proof (pick_spec (bestfit flag) sz None (all_tags G)) as Hp.
  assert (match pick (bestfit flag) sz None (all_tags G) with
    | Some (p, z) => fits sz (all_tags G) p z /\ (bestfit flag = true -> Z.land flag VMEM_INSTANT <> VMEM_INSTANT -> forall c y, fits sz (all_tags G) c y -> z <= y)
    | None => forall c y, ~ fits sz (all_tags G) c y end) as Hsearch.
  { destruct (pick _ _ _ _) as [[p z]|]; [|tauto]. destruct Hp as ([?|Hf] & Hb); [done |]. split; [done |]. intros Hbf _. by apply Hb. }
  destruct (Z.land flag VMEM_SEARCH =? VMEM_SEARCH); cbn [negb].
  { exists (pick (bestfit flag) sz None (all_tags G)). split; [apply search_ok | exact Hsearch]. }
  set (pos := if Z.land flag VMEM_INSTANT =? VMEM_INSTANT then S (class (quantum x) sz) else class (quantum x) sz).
  destruct (quantum_loop_ok sz flag (length F - pos) pos eq_refl) as (o & Eo & Ho).
  assert (vmem_alloc_quantum v sz flag s = Ok (ptr_of o, s)) as Eq.
  { unfold vmem_alloc_quantum. rewrite run_bind, (ldv_ok _ _ _ (ca_v _ _ _ _ _ Hc) (ca_x _ _ _ _ _ Hc)), run_bind. unfold liftO. rewrite udiv_pos by done.
    rewrite run_bind, highbit_ok by by apply classes_pos. fold (class (quantum x) sz). rewrite <- Eo. rewrite (ca_bits _ _ _ _ _ Hc).
    unfold pos. destruct (_ =? VMEM_INSTANT); [replace (Z.of_nat (class (quantum x) sz) + 1) with (Z.of_nat (S (class (quantum x) sz))) by lia|]; f_equal; lia. }
  destruct o as [[p z]|].
  - destruct Ho as [Hf Hb]. exists (Some (p, z)). split.
    + destruct Hf as (_ & a & Ha). apply list_elem_of_split in Ha as (B1 & B2 & Ea). pose proof (vr_tags _ _ _ _ _ _ _ Hr) as Ht. rewrite Ea in Ht.
      destruct (tags_rep_lookup _ _ _ _ _ Ht) as (? & _ & Hn & _). rewrite run_bind, Eq. cbn [ptr_of]. destruct (Z.eqb_spec p NULL); done.
    + split; [done |]. intros Hbf Hi c y Hcy. apply (Hb Hbf c y Hcy). unfold pos. destruct (Z.eqb_spec (Z.land flag VMEM_INSTANT) VMEM_INSTANT); [done |].
      apply class_mono; [done | done | apply Hcy].
  - exists (pick (bestfit flag) sz None (all_tags G)). split; [rewrite run_bind, Eq; apply search_ok | exact Hsearch].
Qed.
End rep.
End choice.

(** * The cut *)

Section cut.
Context {A : Type} `{MmLaws A}.
Implicit Types s : vstate A.

(** The chosen tag leaves its free list. *)
Lemma mid_uncache s v x G C F frame B1 p a z B2 : vm_rep s v x G C F frame -> all_tags G = B1 ++ (p, Seg a z false) :: B2 ->
  exists s' F', if_cached v p rem_freelist s = Ok (tt, s') /\ quiet x s s' /\ length F' = length F /\ vmm s' = vmm s /\
  mid s' v x (fixed_blocks v x G) (base.delete p C) F' (B1 ++ (p, Seg a z false) :: B2) p frame.
Proof.
  intros Hr E. pose proof (vm_sizes s v x G C F frame Hr) as Hsz. pose proof Hr as [V1 V2 V3 V4 V5 _ _ _ _ _ V11]. rewrite E in V4, V5, Hsz.
  rewrite blocks_fixed, E in V11.
  assert ((p, Seg a z false) ∈ B1 ++ (p, Seg a z false) :: B2) as Hin by (apply elem_of_app; right; by apply elem_of_cons; left).
  destruct (tags_rep_lookup _ _ _ _ _ V4) as (b & Hb & Hn & _ & E1 & _). cbn in E1.
  destruct (uncache_ok s v x C F p b V1 Hn Hb) as (h & F' & Eu & Ht & Hd & Hc & Hlen).
  - rewrite E1. apply (Hsz _ _ Hin).
  - rewrite E1. case_decide as Hs; [apply V5; by exists a |]. destruct (C !! p) as [y|] eqn:Ey; [|done].
    apply V5 in Ey as (a' & Ha' & Hs'). pose proof (tags_fun _ _ _ _ _ V4 Hin Ha') as [= <- <-]. done.
  - exists (with_caches x h F' s), F'. split; [exact Eu |]. split; [apply quiet_caches |]. split; [done |]. split; [done |]. split; try done.
    + by apply (tags_rep_views (bts s)).
    + intros c y. rewrite lookup_delete_Some, V5. split.
      * intros (Hcp & a' & Ha' & Hs). split; [done |]. exists a'. by rewrite (small_length _ _ _ _ Hlen).
      * intros (Hcp & a' & Ha' & Hs). rewrite (small_length _ _ _ _ Hlen) in Hs. split; [done |]. by exists a'.
Qed.

Lemma fl_ok_fresh q C fl F t : C !! t = None -> fl_ok q C fl F -> fl_ok q C (<[t := (NULL, NULL)]> fl) F.
Proof.
  intros Ht Hok. split; try apply Hok.
  - intros i l Hl. apply (chain_frame fl); [|by apply (fk_chain _ _ _ _ Hok i)]. intros a Ha. apply lookup_insert_ne. intros <-.
    apply (fk_in _ _ _ _ Hok _ _ _ Hl) in Ha as (sz & Hc & _). congruence.
  - intros a y Hy Hc. apply lookup_insert_Some in Hy as [[_ <-]|[_ Hy]]; [done | by apply (fk_out _ _ _ _ Hok a)].
Qed.

Lemma cut_fl p t nx sz1 b h : p <> t -> t <> NULL -> fl_next b = NULL -> fl_prev b = NULL -> fl_links (cut_at p t nx sz1 b h) = <[t := (NULL, NULL)]> (fl_links h).
Proof.
  intros Hp Ht Hb1 Hb2. unfold cut_at. rewrite !fl_links_same by done. apply map_eq. intros c. unfold fl_links. rewrite lookup_fmap. destruct (decide (c = t)) as [->|Hc].
  - rewrite (updm_eq _ _ _ raw_bt) by (done || rewrite updm_ne by done; apply lookup_insert_eq). rewrite lookup_insert_eq. simpl. by rewrite Hb1, Hb2.
  - rewrite updm_ne, lookup_insert_ne, lookup_fmap by congruence. rewrite <- lookup_fmap. fold (fl_links (updm p (set_bsize sz1) (<[t := raw_bt]> h))).
    rewrite fl_links_same by done. unfold fl_links. by rewrite !lookup_fmap, lookup_insert_ne by congruence.
Qed.

(** The allocation of a tag. *)
Lemma malloc_bt_cases s l frame : owns (vmm s) l frame ->
  (exists a, malloc_bt s = Ok (NULL, set_vmm a s) /\ owns a l frame) \/
  (exists t a, t <> NULL /\ t ∉ l /\ malloc_bt s = Ok (t, set_bts (<[t := raw_bt]> (bts s)) (set_vmm a s)) /\ owns a (t :: l) frame).
Proof.
  intros Ho. unfold malloc_bt, malloc_block. destruct (kmalloc 32 (vmm s)) as [t a] eqn:Em.
  destruct (owns_malloc _ _ _ _ _ _ Em Ho) as [[-> Ha]|(Ht & Hnl & Ha)].
  - left. exists a. split; [|done]. mrun. rewrite Em. by mrun.
  - right. exists t, a. split_and!; try done. mrun. rewrite Em. mrun. destruct (Z.eqb_spec t NULL) as [|_]; [done |]. by mrun.
Qed.

Lemma splittag_ok s v x R C F B1 p a z B2 sz frame : mid s v x R C F (B1 ++ (p, Seg a z false) :: B2) p frame -> p ∈ (B1 ++ (p, Seg a z false) :: B2).*1 ->
  0 <= a -> a + z < two32 -> quantum x <= sz < z ->
  (exists s', vmem_al_splittag p sz s = Ok (NULL, s') /\ (exists k, s' = set_vmm k s)) \/
  (exists s' t, vmem_al_splittag p sz s = Ok (t, s') /\ t <> NULL /\ t ∉ R ++ (B1 ++ (p, Seg a z false) :: B2).*1 /\ quiet x s s' /\ caches_ok s' v x C F /\
    tags_rep (bts s') (B1 ++ (p, Seg a (z - sz) false) :: (t, Seg (a + z - sz) sz false) :: B2) /\
    owns (vmm s') (t :: R ++ (B1 ++ (p, Seg a z false) :: B2).*1) frame).
Proof.
  intros Hm Hpin Ha Haz Hsz. pose proof Hm as [M1 M2 M3 M4 M5]. destruct (tags_rep_lookup _ _ _ _ _ M2) as (b & Hb & Hn & E1 & E2 & E3 & E4 & _). cbn in E1, E2, E3.
  pose proof (ca_q _ _ _ _ _ M1) as Hq. unfold vmem_al_splittag. destruct (malloc_bt_cases s _ frame M4) as [(k & Em & _)|(t & k & Ht & Hnl & Em & Ho)].
  { left. exists (set_vmm k s). split; [|by exists k]. rewrite run_bind, Em. done. }
  right. set (L := B1 ++ (p, Seg a z false) :: B2) in *. assert (t ∉ L.*1) as HtL by (intros Hx; apply Hnl, elem_of_app; by right).
  assert (p <> t) as Hpt by (intros ->; done). set (s1 := set_bts (<[t := raw_bt]> (bts s)) (set_vmm k s)) in *.
  assert (bts s1 !! p = Some b) as Hb1 by (cbn; by rewrite lookup_insert_ne by congruence).
  set (s2 := set_bts (updm p (set_bsize (z - sz)) (bts s1)) s1). assert (bts s2 !! p = Some (set_bsize (z - sz) b)) as Hb2 by (cbn; by apply updm_eq).
  set (bt := Bt (a + z - sz) sz NULL VMEM_FREE (first_of B2.*1) p NULL NULL).
  set (s3 := set_bts (updm t (fun _ => bt) (bts s2)) s2). assert (bts s3 !! t = Some bt) as Hb3.
  { cbn. rewrite (updm_eq _ _ _ raw_bt); [done | done |]. rewrite updm_ne by congruence. apply lookup_insert_eq. }
  assert (first_of B2.*1 = NULL \/ is_Some (bts s3 !! first_of B2.*1)) as Hnx.
  { destruct (next_some _ _ _ _ _ M2) as [?|Hx]; [by left | right]. cbn. apply updm_is_Some, updm_is_Some, lookup_insert_is_Some'. by right. }
  exists (set_bts (cut_at p t (first_of B2.*1) (z - sz) bt (bts s)) (set_vmm k s)), t. split; [|split; [done |]; split; [done |]; split; [done |]; split; [|split; [|exact Ho]]].
  - rewrite run_bind, Em. fold s1. destruct (Z.eqb_spec t NULL) as [|_]; [done |]. rewrite run_bind, (ldb_ok s1 _ _ Hn Hb1), run_bind. unfold massert, liftO.
    rewrite E3. cbn [alloc_bit sg_alloc]. rewrite Z.eqb_refl. cbn [kassert]. rewrite run_bind, E2, u32_small by (unfold is_u32; lia).
    rewrite (updb_ok s1) by (done || by eexists). fold s2. rewrite run_bind, (ldb_ok s2 _ _ Hn Hb2), run_bind. cbn [set_bsize b_addr b_size b_next]. rewrite E1, E4, u32_small by (unfold is_u32; lia).
    replace (a + (z - sz)) with (a + z - sz) by lia. fold bt. rewrite (updb_ok s2); [|done | cbn; apply updm_is_Some, lookup_insert_is_Some'; by left].
    fold s3. rewrite run_bind, (ldb_ok s3 _ _ Ht Hb3), run_bind. cbn [bt b_next]. rewrite (updb_if_ok s3 _ _ Hnx), run_bind, updb_ok; [done | done |].
    cbn. apply updm_is_Some, updm_is_Some. by eexists.
  - apply (caches_with_bts s v x C F (cut_at p t (first_of B2.*1) (z - sz) bt (bts s)) k M1). rewrite cut_fl by done. apply fl_ok_fresh; [|apply M1].
    destruct (C !! t) as [y|] eqn:Ey; [|done]. apply M3 in Ey as (_ & a' & Hx & _). destruct HtL. apply list_elem_of_fmap. by exists (t, Seg a' y false).
  - apply (tags_rep_split (bts s) B1 p (Seg a z false) B2 t (z - sz) (a + z - sz) sz); done.
Qed.

(** The tag of the requested size, ready to be handed out. *)
Lemma cut_tag_ok s v x G C F frame B1 p a z B2 sz : vm_rep s v x G C F frame -> all_tags G = B1 ++ (p, Seg a z false) :: B2 ->
  0 <= a -> a + z < two32 -> quantum x <= sz <= z -> (quantum x | z) -> (quantum x | sz) ->
  (exists s', cut_tag v p sz s = Ok (NULL, s') /\ sz < z) \/
  (exists s' C' F' X t, cut_tag v p sz s = Ok (t, s') /\ quiet x s s' /\ (X = [] /\ z = sz /\ t = p \/ X = [(p, Seg a (z - sz) false)] /\ sz < z) /\
    mid s' v x (fixed_blocks v x G) C' F' ((B1 ++ X) ++ (t, Seg (a + z - sz) sz false) :: B2) t frame).
Proof.
  intros Hr E Ha Haz Hsz Hqz Hqs. destruct (mid_uncache s v x G C F frame B1 p a z B2 Hr E) as (s1 & F1 & E1 & Q1 & L1 & Hvm & M).
  pose proof M as [M1 M2 M3 M4 M5]. pose proof (ca_q _ _ _ _ _ M1) as Hq. destruct (tags_rep_lookup _ _ _ _ _ M2) as (b & Hb & Hn & _ & B3 & _). cbn in B3.
  unfold cut_tag. rewrite !run_bind, E1, !run_bind, (ldv_ok _ _ _ (ca_v _ _ _ _ _ M1) (ca_x _ _ _ _ _ M1)), !run_bind, (ldb_ok _ _ _ Hn Hb), B3.
  rewrite u32_small by (unfold is_u32; lia). assert (z = sz \/ quantum x <= z - sz) as Hcase.
  { destruct (decide (z = sz)) as [|Hne]; [by left | right]. apply Z.divide_pos_le; [lia |]. by apply Z.divide_sub_r. }
  destruct Hcase as [->|Hlt].
  { right. exists s1, (base.delete p C), F1, [], p. destruct (Z.leb_spec (quantum x) (sz - sz)); [lia |]. rewrite app_nil_r.
    replace (a + sz - sz) with a by lia. split_and!; try done. by left. }
  destruct (Z.leb_spec (quantum x) (z - sz)) as [_|]; [|lia]. rewrite run_bind.
  destruct (splittag_ok s1 v x _ _ F1 B1 p a z B2 sz frame M) as [(s2 & E2 & k & ->)|(s2 & t & E2 & Ht & Hnl & Q2 & K1 & K2 & K3)]; [| done | done | lia | |].
  { rewrite fmap_app, fmap_cons. apply elem_of_app. right. by apply elem_of_cons; left. }
  - left. rewrite E2, run_bind. destruct (recache_ok (set_vmm k s1) v x (base.delete p C) F1 p b) as (h & F2 & E3 & _).
    + apply (caches_with_bts s1 v x _ F1 (bts s1) k M1). apply M1.
    + done.
    + done.
    + rewrite B3. lia.
    + by rewrite lookup_delete_eq.
    + rewrite E3. eexists. split; [done | lia].
  - right. rewrite E2, run_bind. destruct (tags_rep_lookup _ _ _ _ _ K2) as (b2 & Hb2 & _ & _ & B4 & _). cbn in B4.
    destruct (recache_ok s2 v x (base.delete p C) F1 p b2 K1 Hn Hb2) as (h & F2 & E3 & Ht3 & Hd3 & K4 & L3); [rewrite B4; lia | by rewrite lookup_delete_eq |].
    assert (p <> t) as Hpt by (intros ->; apply Hnl, elem_of_app; right; rewrite fmap_app, fmap_cons; apply elem_of_app; right; by apply elem_of_cons; left).
    rewrite E3. eexists _, _, F2, [(p, Seg a (z - sz) false)], t. split; [done |]. split; [eapply quiet_trans; [exact Q1 | eapply quiet_trans; [exact Q2 | apply quiet_caches]] |].
    split; [by right; split; [|lia] |]. rewrite <- mid_assoc. split; [exact K4 | by apply (tags_rep_views (bts s2)) | | |].
    + intros c y. rewrite B4. assert (forall a', (c, Seg a' y false) ∈ B1 ++ (p, Seg a (z - sz) false) :: (t, Seg (a + z - sz) sz false) :: B2 <->
        (c = p /\ a' = a /\ y = z - sz) \/ (c = t /\ a' = a + z - sz /\ y = sz) \/ (c, Seg a' y false) ∈ B1 \/ (c, Seg a' y false) ∈ B2) as Hel.
      { intros a'. rewrite elem_of_app, !elem_of_cons. split; [intros [?|[[= -> -> ->]|[[= -> -> ->]|?]]]; tauto | intros [(-> & -> & ->)|[(-> & -> & ->)|?]]; tauto]. }
      assert (forall a', (c, Seg a' y false) ∈ B1 \/ (c, Seg a' y false) ∈ B2 -> c <> p /\ c <> t) as Hne.
      { intros a' Hc. destruct (tags_rep_nodup _ _ _ _ _ M2) as (N1 & N2 & _). split; intros ->.
        - destruct Hc; [apply N1 | apply N2]; apply list_elem_of_fmap; by exists (p, Seg a' y false).
        - apply Hnl, elem_of_app. right. rewrite fmap_app, fmap_cons, elem_of_app, elem_of_cons. destruct Hc; [left | right; right]; apply list_elem_of_fmap; by exists (t, Seg a' y false). }
      transitivity ((c = p /\ y = z - sz /\ small x F1 (z - sz)) \/ base.delete p C !! c = Some y).
      * destruct (decide (small x F1 (z - sz))) as [Hs|Hs]; [rewrite lookup_insert_Some | by split; [right | intros [(_ & _ & ?)|?]]].
        split; [intros [[<- <-]|[_ ?]]; [by left | by right] |]. intros [(-> & -> & _)|Hx]; [by left | right]. split; [|done]. intros ->. by rewrite lookup_delete_eq in Hx.
      * rewrite M3. setoid_rewrite Hel. split.
        -- intros [(-> & -> & Hs)|(Hcp & a' & Ha' & Hs)]; (split; [|eexists; rewrite (small_length _ _ _ _ L3); split; [|done]]).
           ++ done.
           ++ left. done.
           ++ rewrite elem_of_app, elem_of_cons in Ha'. by destruct (Hne a') as [_ ?]; [destruct Ha' as [?|[[= -> _]|?]]; [by left | done | by right] |].
           ++ rewrite elem_of_app, elem_of_cons in Ha'. right. right. destruct Ha' as [?|[[= -> _]|?]]; [by left | done | by right].
        -- intros (Hct & a' & Ha' & Hs). rewrite (small_length _ _ _ _ L3) in Hs. destruct Ha' as [(-> & _ & ->)|[(-> & _)|Ha']]; [by left | done |].
           right. destruct (Hne a' Ha') as [? _]. split; [done |]. exists a'. split; [|done]. rewrite elem_of_app, elem_of_cons. tauto.
    + cbn. eapply owns_perm; [|exact K3]. rewrite !fmap_app, !fmap_cons. cbn [fst]. solve_Permutation.
    + intros c h2 Hc. rewrite elem_of_app, !elem_of_cons in Hc. destruct Hc as [Hc|[[= -> ->]|[[= -> ->]|Hc]]]; [|simpl; lia | simpl; lia |].
      * apply (M5 c), elem_of_app. by left.
      * apply (M5 c), elem_of_app. right. by apply elem_of_cons; right.
Qed.
End cut.

(** * [vmem_alloc] *)

(** The size of a request in whole quanta. *)
Definition roundup (q r : Z) : Z := if r mod q =? 0 then r else r + (q - r mod q).

Lemma roundup_ok q r : 0 < q -> 0 < r -> (q | roundup q r) /\ q <= roundup q r /\ r <= roundup q r < r + q.
Proof.
  intros Hq Hr. unfold roundup. pose proof (Z.mod_pos_bound r q Hq). pose proof (Z.div_mod r q ltac:(lia)) as E.
  destruct (Z.eqb_spec (r mod q) 0) as [E0|]; (split; [|split; [|lia]]).
  - exists (r / q). lia.
  - apply Z.divide_pos_le; [lia |]. exists (r / q). lia.
  - exists (r / q + 1). lia.
  - assert (0 <= r / q) by (apply Z.div_pos; lia). nia.
Qed.

(** A segment handed out of a free one: it lies at the end, what is left stays free. *)
Definition carve (p a z : Z) (t sz : Z) : list (Z * seg) :=
  (if decide (z = sz) then [] else [(p, Seg a (z - sz) false)]) ++ [(t, Seg (a + z - sz) sz true)].

Lemma carve_ok q g T1 p a z T2 t sz : 0 < q -> group_ok q g -> g_tags g = T1 ++ (p, Seg a z false) :: T2 -> 0 < sz <= z -> (q | sz) ->
  group_ok q (with_tags g (T1 ++ carve p a z t sz ++ T2)).
Proof.
  intros Hq [O1 O2 O3 O4] E Hsz Hd. rewrite E, fmap_app, fmap_cons in O3, O4. cbn [snd] in O3, O4.
  apply tile_app in O3 as (b & Ht1 & Eb & Hz & Hdz & Ht2). cbn in Eb, Hz, Hdz, Ht2. subst b.
  apply coalesced_app in O4 as (Hc1 & Hc2 & Hc3). assert (coalesced T2.*2) as Hc4 by (destruct T2.*2; simpl in Hc2; tauto).
  split; try done; unfold carve; cbn [with_tags g_tags g_base g_size].
  - rewrite !fmap_app. apply tile_app. exists a. split; [done |]. case_decide as Hs; simpl.
    + subst sz. replace (a + z - z + z) with (a + z) by lia. split_and!; done || lia.
    + replace (a + z - sz + sz) with (a + z) by lia. split_and!; try lia; [by apply Z.divide_sub_r | done |]. by replace (a + (z - sz) + sz) with (a + z) by lia.
  - rewrite !fmap_app. apply coalesced_app. split; [done |]. case_decide as Hs; simpl.
    + split; [destruct T2.*2; [done | split; [by left | done]] |]. intros k1 g1 g2 k2 _ [= <- _]. by right.
    + split; [split; [by right | destruct T2.*2; [done | split; [by left | done]]] |]. intros k1 g1 g2 k2 E1 [= <- _].
      destruct (Hc3 k1 g1 _ _ E1 eq_refl) as [?|?]; [by left | done].
Qed.

Lemma handles_carve T1 p a z T2 t sz : handles (T1 ++ carve p a z t sz ++ T2) = handles T1 ++ (a + z - sz, t) :: handles T2.
Proof. unfold carve. rewrite !handles_app. by case_decide. Qed.

(** The filled slot. *)
Lemma hash_filled q g T1 T2 t a hl T' : 0 < q -> hash_rep q g hl -> handles (g_tags g) = handles T1 ++ handles T2 -> handles T' = handles T1 ++ (a, t) :: handles T2 ->
  (forall p, (a, p) ∉ handles T1) -> (q | a - g_base g) -> in_group a g -> (q | g_size g) ->
  hash_rep q (with_tags g T') (<[Z.to_nat ((a - g_base g) / q) := t]> hl).
Proof.
  intros Hq [Hlen Hhl] HT HT' Hl [d Hd] [I1 I2] [n Hn]. assert ((a - g_base g) / q = d) as -> by (rewrite Hd; apply Z.div_mul; lia).
  assert (0 <= d < n) as Hi by nia. assert (g_size g / q = n) as Es by (rewrite Hn; apply Z.div_mul; lia).
  split; [by rewrite length_insert |]. intros i Hil. rewrite length_insert in Hil. cbn [with_tags g_tags g_base]. rewrite HT', assoc_mid by done.
  destruct (decide (i = Z.to_nat d)) as [->|Hne].
  - rewrite list_lookup_insert_eq by done. rewrite decide_True; [done | nia].
  - rewrite list_lookup_insert_ne by congruence. rewrite Hhl by done. rewrite decide_False, HT; [done |]. intros E2. assert (Z.of_nat i = d) by nia. lia.
Qed.

Section vmem_alloc.
Context {A : Type} `{MmLaws A}.
Context (client_afunc client_ffunc : Z -> Z -> Z -> Z -> M (vstate A) Z).
Implicit Types s : vstate A.

Lemma getspan_same s s' v a p : vmems s' = vmems s -> vspans s' = vspans s -> vmem_getspan v a s = Ok (p, s) -> vmem_getspan v a s' = Ok (p, s').
Proof.
  intros Hv Hs. unfold vmem_getspan, ldv. mrun. rewrite Hv. destruct (hload (vmems s) v) as [x|]; [|done]. mrun. rewrite Hs.
  generalize (S (base.size (vspans s))) as fuel, (spans x) as c. intros fuel. induction fuel as [|fuel IH]; intros c; [done |]. cbn [getspan_loop].
  destruct (c =? NULL); [mrun; by intros [= ->] |]. unfold lds. mrun. rewrite Hs. destruct (hload (vspans s) c) as [y|]; [|done]. mrun.
  destruct (_ && _); [mrun; by intros [= ->] | apply IH].
Qed.

(** A free tag that is in no list is handed out. *)
Definition handed s (g : group) (hl : list Z) (i t : Z) : vstate A :=
  set_arrays (<[g_hash g := <[Z.to_nat i := t]> hl]> (arrays s)) (set_bts (updm t (set_allocated VMEM_ALLOCATED) (bts s)) s).

Lemma mid_handed s v x R C F L1 t a sz L2 frame g hl i : mid s v x R C F (L1 ++ (t, Seg a sz false) :: L2) t frame -> g_hash g <> free_cache x ->
  let s' := handed s g hl i t in caches_ok s' v x C F /\ tags_rep (bts s') (L1 ++ (t, Seg a sz true) :: L2) /\
  (forall p z, C !! p = Some z <-> exists a', (p, Seg a' z false) ∈ L1 ++ (t, Seg a sz true) :: L2 /\ small x F z).
Proof.
  intros [M1 M2 M3 M4 M5] Hne s'. destruct (tags_rep_lookup _ _ _ _ _ M2) as (b & Hb & Hn & B1 & B2 & _). split; [|split].
  - destruct M1 as [C1 C2 C3 C4 C5 C6 C7]. split; try done; cbn.
    + by rewrite lookup_insert_ne.
    + by rewrite fl_links_same.
  - apply (tags_rep_update (bts s) _ _ _ (Seg a sz false)); [exact M2 | cbn; by rewrite tag_links_same | |]; cbn; rewrite data_of_allocated by done.
    + intros c Hc. by rewrite lookup_alter_ne.
    + rewrite lookup_alter_eq. destruct M2 as [_ Hd]. by rewrite (Hd t (Seg a sz false)) by (apply elem_of_app; right; by apply elem_of_cons; left).
  - intros p z. rewrite M3. destruct (tags_rep_nodup _ _ _ _ _ M2) as (N1 & N2 & _). setoid_rewrite elem_of_app. setoid_rewrite elem_of_cons. split.
    + intros (Hp & a' & Ha & Hs). exists a'. split; [|done]. destruct Ha as [?|[[= ]|?]]; tauto.
    + intros (a' & Ha & Hs). assert (p <> t) as Hp.
      { intros ->. destruct Ha as [Ha|[[=]|Ha]]; [apply N1 | apply N2]; apply list_elem_of_fmap; by exists (t, Seg a' z false). }
      split; [done |]. exists a'. split; [|done]. destruct Ha as [?|[[= ]|?]]; tauto.
Qed.

(** The rest of [vmem_alloc] after the cut, in an arena without a source. *)
Lemma hand_out s s2 v x G1 g G2 C F frame T1 p a z T2 t sz C2 F2 : vm_rep s v x (G1 ++ g :: G2) C F frame -> g_tags g = T1 ++ (p, Seg a z false) :: T2 ->
  (quantum x | sz) -> 0 < sz <= z -> (z = sz -> t = p) -> quiet x s s2 ->
  mid s2 v x (fixed_blocks v x (G1 ++ g :: G2)) C2 F2
    ((all_tags G1 ++ T1 ++ if decide (z = sz) then [] else [(p, Seg a (z - sz) false)]) ++ (t, Seg (a + z - sz) sz false) :: T2 ++ all_tags G2) t frame ->
  exists hl, let i := (a + z - sz - g_base g) / quantum x in
  u32 (a + z - sz - g_base g) = a + z - sz - g_base g /\ 0 <= i < Z.of_nat (length hl) /\ arrays s2 !! g_hash g = Some hl /\ hl !! Z.to_nat i = Some NULL /\
  vmem_getspan v (a + z - sz) s = Ok (g_span g, s) /\
  vm_rep (handed s2 g hl i t) v x (G1 ++ with_tags g (T1 ++ carve p a z t sz ++ T2) :: G2) C2 F2 frame.
Proof.
  intros Hr E Hd Hsz Htp (Qv & Qs & Qa) Hm. set (T' := T1 ++ carve p a z t sz ++ T2). set (a' := a + z - sz).
  assert (g ∈ G1 ++ g :: G2) as Hg by (apply elem_of_app; right; by apply elem_of_cons; left).
  pose proof Hr as [V1 V2 V3 V4 V5 V6 V7 V8 V9 V10 V11]. pose proof (ca_q _ _ _ _ _ V1) as Hq. pose proof (V8 g Hg) as Hgo. pose proof Hgo as [O1 O2 _ _].
  destruct (span_not_null s v x _ C F frame Hr g Hg) as (Hsn & Hhn & Hhne). destruct (V10 g Hg) as (hl & Hhl & Hrep).
  pose proof (carve_ok (quantum x) g T1 p a z T2 t sz Hq Hgo E Hsz Hd) as Hgo'. fold T' in Hgo'.
  set (X := if decide (z = sz) then [] else [(p, Seg a (z - sz) false)]) in *.
  assert (T' = (T1 ++ X) ++ (t, Seg a' sz true) :: T2) as ET by (unfold T', carve; fold X; by rewrite <- !app_assoc).
  pose proof (group_tag _ (with_tags g T') (T1 ++ X) t _ T2 Hq Hgo' ET) as Hf. assert (handles (T1 ++ X) = handles T1) as HX
    by (rewrite handles_app; unfold X; case_decide; by rewrite app_nil_r).
  pose proof (tf_left _ _ _ _ _ _ Hf) as Hleft. rewrite HX in Hleft. cbn [sg_addr] in Hleft.
  assert (handles (g_tags g) = handles T1 ++ handles T2) as HT by (rewrite E; by rewrite handles_free).
  destruct (hash_slot _ g hl a' Hq Hrep (tf_offset _ _ _ _ _ _ Hf) (tf_in _ _ _ _ _ _ Hf) (tf_total _ _ _ _ _ _ Hf) O1 O2) as (S1 & S2 & S3 & S4).
  rewrite HT, assoc_not_in in S4.
  2: { intros p' [Hx|Hx]%elem_of_app; [by apply (Hleft p') |]. apply (tf_right _ _ _ _ _ _ Hf p' a'); [|done]. cbn. lia. }
  exists hl. split; [done |]. split; [done |]. split; [by rewrite Qa |]. split; [done |]. split.
  { apply (getspan_ok s v x _ C F frame Hr g a' Hg). apply (tf_in _ _ _ _ _ _ Hf). }
  destruct (mid_handed s2 v x _ C2 F2 _ t a' sz _ frame g hl ((a' - g_base g) / quantum x) Hm Hhne) as (K1 & K2 & K3).
  assert (forall b, (all_tags G1 ++ T1 ++ X) ++ (t, Seg a' sz b) :: T2 ++ all_tags G2 = all_tags G1 ++ ((T1 ++ X) ++ (t, Seg a' sz b) :: T2) ++ all_tags G2) as EL
    by (intros b; by rewrite <- !app_assoc). rewrite EL, <- ET in K2. rewrite EL in K3. setoid_rewrite <- ET in K3.
  apply (vm_close s _ v x G1 g G2 T' C C2 F F2 frame Hr); try done.
  - intros k Hk1 Hk2. cbn. rewrite lookup_insert_ne by congruence. by apply Qa.
  - exists (<[Z.to_nat ((a' - g_base g) / quantum x) := t]> hl). split; [cbn; by rewrite lookup_insert_eq |].
    apply (hash_filled _ g T1 T2 t a' hl T' Hq Hrep HT); try apply Hf; [apply handles_carve | exact Hleft].
  - pose proof (mi_owns _ _ _ _ _ _ _ _ _ Hm) as Ho. rewrite EL in Ho. revert Ho. rewrite ET, !fmap_app, !fmap_cons. intros Ho. exact Ho.
  - rewrite (all_tags_mid _ _ _ _ _ _ E), <- app_assoc, ET, !fmap_app, !(first_of_app (all_tags G1).*1). destruct (decide ((all_tags G1).*1 = [])); [|done].
    rewrite <- !(app_assoc T1.*1), !(first_of_app T1.*1). destruct (decide (T1.*1 = [])); [|done].
    unfold X. case_decide as Hz; [|done]. simpl. by apply Htp.
Qed.

(** An allocation for which a free tag was chosen: it is served from the end of the
    tag's segment, or it dereferences the null pointer of a refused split. *)
Lemma vmem_alloc_found s v x G1 g G2 C F frame T1 p a z T2 rsize flag fuel : vm_rep s v x (G1 ++ g :: G2) C F frame ->
  g_tags g = T1 ++ (p, Seg a z false) :: T2 -> 0 < rsize -> let sz := roundup (quantum x) rsize in sz <= z -> choose_tag v sz flag s = Ok (p, s) ->
  (vmem_alloc client_afunc client_ffunc (S fuel) v rsize flag s = Halt NullDeref /\ sz < z) \/
  exists s' t C' F', vmem_alloc client_afunc client_ffunc (S fuel) v rsize flag s = Ok (a + z - sz, s') /\
    vm_rep s' v x (G1 ++ with_tags g (T1 ++ carve p a z t sz ++ T2) :: G2) C' F' frame.
Proof.
  intros Hr E Hrs sz Hsz Hch. assert (g ∈ G1 ++ g :: G2) as Hg by (apply elem_of_app; right; by apply elem_of_cons; left).
  pose proof Hr as [V1 V2 V3 V4 V5 V6 V7 V8 V9 V10 V11]. pose proof V1 as [_ Ca2 Hq _ _ _ _]. pose proof (V8 g Hg) as [O1 O2 _ _].
  destruct (roundup_ok (quantum x) rsize Hq Hrs) as (Hd & Hqs & Hle). fold sz in Hd, Hqs, Hle.
  pose proof (group_tag _ g T1 p _ T2 Hq (V8 g Hg) E) as Hf. pose proof (tf_in _ _ _ _ _ _ Hf) as [I1 I2]. pose proof (tf_end _ _ _ _ _ _ Hf) as I3.
  cbn in I1, I2, I3. destruct (span_not_null s v x _ C F frame Hr g Hg) as (Hsn & Hhn & _). pose proof (all_tags_mid G1 g G2 _ _ _ E) as EA.
  pose proof V4 as V4'. rewrite EA in V4'. destruct (tags_rep_lookup _ _ _ _ _ V4') as (b & Hb & Hn & _ & _ & B3 & _).
  destruct (cut_tag_ok s v x _ C F frame _ p a z _ sz Hr EA) as [(s2 & Ec & Hlt)|(s2 & C2 & F2 & X & t & Ec & Q & HX & M)];
    [lia | lia | lia | apply (tf_size _ _ _ _ _ _ Hf) | done | |].
  1: left; split; [|done]. 2: right.
  2: destruct (tags_rep_lookup _ _ _ _ _ (mi_tags _ _ _ _ _ _ _ _ _ M)) as (b2 & Hb2 & Hn2 & D1 & _); cbn in D1;
     destruct (hand_out s s2 v x G1 g G2 C F frame T1 p a z T2 t sz C2 F2 Hr E Hd) as (hl & S1 & S2 & S3 & S4 & S5 & Hrep);
     [lia | intros ->; destruct HX as [(_ & _ & ?)|[_ ?]]; [done | lia] | done | | exists (handed s2 g hl ((a + z - sz - g_base g) / quantum x) t), t, C2, F2; split; [|done]].
  2: { replace (if decide (z = sz) then [] else [(p, Seg a (z - sz) false)]) with X; [by rewrite app_assoc |].
       destruct HX as [(-> & -> & _)|[-> ?]]; [by rewrite decide_True | rewrite decide_False; [done | lia]]. }
  all: cbn [vmem_alloc]; destruct (Z.eqb_spec rsize 0) as [|_]; [lia |]; rewrite run_bind, (ldv_ok _ _ _ (ca_v _ _ _ _ _ V1) Ca2), run_bind;
    unfold liftO at 1; rewrite umod_pos by done;
    replace (if negb (rsize mod quantum x =? 0) then u32 (rsize + (quantum x - rsize mod quantum x)) else rsize) with sz
      by (unfold sz, roundup in *; destruct (Z.eqb_spec (rsize mod quantum x) 0); cbn [negb]; [done | by rewrite u32_small by (unfold is_u32; lia)]);
    rewrite run_bind, Hch; destruct (Z.eqb_spec p NULL) as [|_]; [done |]; rewrite run_bind, (ldb_ok _ _ _ Hn Hb), run_bind;
    unfold massert at 1, liftO at 1; rewrite B3; cbn [alloc_bit sg_alloc]; rewrite Z.eqb_refl; cbn [kassert]; rewrite run_bind, Ec, run_bind.
  - unfold updb. mrun. done.
  - destruct Q as (Qv & Qs & Qa). rewrite updb_ok by (done || by eexists). set (s3 := set_bts _ s2).
    assert (bts s3 !! t = Some (set_allocated VMEM_ALLOCATED b2)) as Hb3 by (cbn; by apply updm_eq).
    rewrite run_bind, (ldb_ok s3 _ _ Hn2 Hb3), run_bind. cbn [set_allocated b_addr]. rewrite D1, (getspan_same s s3 _ _ _ Qv Qs S5), run_bind.
    unfold massert at 1, liftO at 1. destruct (Z.eqb_spec (g_span g) NULL) as [|_]; [done |]. cbn [negb kassert].
    assert (vspans s3 !! g_span g = Some (Span (g_base g) (g_size g) (g_size g / quantum x) (g_hash g) (first_of (g_span <$> G2)))) as Hsp by (cbn; rewrite Qs; by apply (V7 G1 g G2)).
    rewrite run_bind, (lds_ok s3 _ _ Hsn Hsp), run_bind. cbn [s_addr hash]. rewrite S1. unfold liftO at 1. rewrite udiv_pos by done.
    rewrite run_bind, (arr_get_ok s3 _ _ _ _ Hhn S3 (proj1 S2) S4), run_bind. unfold massert at 1, liftO at 1. rewrite Z.eqb_refl. cbn [kassert].
    rewrite run_bind, (arr_set_ok s3 _ _ _ _ Hhn S3 S2), V2. done.
Qed.
End vmem_alloc.
