(* ===== verification/VmemArenas.v ===== *)
(** The theorems about the arenas of [Vmem]: which regions are handed out after an
    allocation and after a release, and what a sequence of both leaves. *)
From Stdlib Require Import Sorted.
From S2P Require Import Prelude Mm Lists Chain Vmem VmemRep VmemSegs VmemInv VmemFree VmemArena VmemAlloc.

(** * The regions that are handed out *)

Definition handed_out (G : list group) : list (Z * Z) := allocs (all_tags G).*2.

Definition apart (r r' : Z * Z) : Prop := r.1 + r.2 <= r'.1 \/ r'.1 + r'.2 <= r.1.

(** What a client sees of a span: its range and the segments in it. *)
Definition layout (G : list group) : list (Z * Z * list seg) := (fun g => (g_base g, g_size g, (g_tags g).*2)) <$> G.

Lemma handed_out_app G1 G2 : handed_out (G1 ++ G2) = handed_out G1 ++ handed_out G2.
Proof. unfold handed_out. by rewrite all_tags_app, fmap_app, allocs_app. Qed.

Lemma handed_out_cons g G : handed_out (g :: G) = allocs (g_tags g).*2 ++ handed_out G.
Proof. unfold handed_out, all_tags. simpl. by rewrite fmap_app, allocs_app. Qed.

Lemma handed_out_with G1 g T G2 : handed_out (G1 ++ with_tags g T :: G2) = handed_out G1 ++ allocs T.*2 ++ handed_out G2.
Proof. by rewrite handed_out_app, handed_out_cons. Qed.

(** A region that is handed out has its tag. *)
Lemma handed_out_inv a n G : (a, n) ∈ handed_out G -> exists G1 g G2 T1 p T2, G = G1 ++ g :: G2 /\ g_tags g = T1 ++ (p, Seg a n true) :: T2.
Proof.
  intros Hin. unfold handed_out, allocs in Hin. apply list_elem_of_omap in Hin as ([a' n' al] & Hin & E). simpl in E. destruct al; [|done]. injection E as -> ->.
  apply list_elem_of_fmap in Hin as ([p h] & -> & Hin). unfold all_tags in Hin. apply list_elem_of_In, in_concat in Hin as (T & HT & Hin).
  apply list_elem_of_In in HT, Hin. apply list_elem_of_fmap in HT as (g & -> & Hg). apply list_elem_of_split in Hg as (G1 & G2 & ->).
  apply list_elem_of_split in Hin as (T1 & T2 & E). by exists G1, g, G2, T1, p, T2.
Qed.

Lemma fits_inv sz G p z : fits sz (all_tags G) p z -> exists G1 g G2 T1 a T2, G = G1 ++ g :: G2 /\ g_tags g = T1 ++ (p, Seg a z false) :: T2 /\ sz <= z.
Proof.
  intros (Hz & a & Hin). unfold all_tags in Hin. apply list_elem_of_In, in_concat in Hin as (T & HT & Hin).
  apply list_elem_of_In in HT, Hin. apply list_elem_of_fmap in HT as (g & -> & Hg). apply list_elem_of_split in Hg as (G1 & G2 & ->).
  apply list_elem_of_split in Hin as (T1 & T2 & E). by exists G1, g, G2, T1, a, T2.
Qed.

(** The regions of one tiled list lie apart, ... *)
Lemma allocs_apart q a l e : tile q a l e -> ForallOrdPairs apart (allocs l).
Proof.
  revert a. induction l as [|[b n al] l IH]; intros a Ht; [apply FOP_nil |]. destruct Ht as (Eb & _ & _ & Ht). cbn in Eb, Ht. destruct al.
  - apply (FOP_cons (b, n) (l := allocs l)); [|by eapply IH]. apply Forall_forall. intros [b' n'] Hin. left.
    destruct (allocs_range _ _ _ _ _ _ Ht Hin). simpl. lia.
  - exact (IH _ Ht).
Qed.

Lemma apart_app l1 l2 : ForallOrdPairs apart l1 -> ForallOrdPairs apart l2 -> (forall r r', r ∈ l1 -> r' ∈ l2 -> apart r r') -> ForallOrdPairs apart (l1 ++ l2).
Proof.
  intros H1 H2. induction H1 as [|r l Hr H1 IH]; simpl; intros Hx; [done |]. constructor.
  - rewrite Forall_forall in *. intros r' [Hr'|Hr']%elem_of_app; [by apply Hr |]. apply Hx; [by apply elem_of_cons; left | done].
  - apply IH. intros k k' Hk. apply Hx. by apply elem_of_cons; right.
Qed.

Section invariant.
Context {A : Type} `{MmLaws A}.
Context (s : vstate A) (v : Z) (x : vmem) (G : list group) (C : gmap Z Z) (F : list (list Z)) (frame : gset Z).
Context (Hr : vm_rep s v x G C F frame).

Lemma handed_out_range a n : (a, n) ∈ handed_out G -> exists g, g ∈ G /\ g_base g <= a /\ a + n <= g_base g + g_size g /\ 0 < n /\ (quantum x | n) /\ (quantum x | a - g_base g).
Proof using Hr.
  intros (G1 & g & G2 & T1 & p & T2 & E & Et)%handed_out_inv. exists g. assert (g ∈ G) as Hg by (rewrite E; apply elem_of_app; right; by apply elem_of_cons; left).
  split; [done |]. destruct (group_tag _ g T1 p _ T2 (ca_q _ _ _ _ _ (vr_caches _ _ _ _ _ _ _ Hr)) (vr_groups _ _ _ _ _ _ _ Hr g Hg) Et) as [[F1 _] F2 (F3 & F4 & _) F5 _ _ _ _ _].
  by split_and!.
Qed.

(** ... and so do those of an arena. *)
Lemma handed_out_apart : ForallOrdPairs apart (handed_out G).
Proof using Hr.
  pose proof (vr_groups _ _ _ _ _ _ _ Hr) as Hg. pose proof (vr_order _ _ _ _ _ _ _ Hr) as Ho. clear Hr.
  induction Ho as [|g G Ho IH Hx]; [apply FOP_nil |]. rewrite handed_out_cons. apply apart_app.
  - destruct (Hg g) as [_ _ Ht _]; [by apply elem_of_cons; left |]. by eapply allocs_apart.
  - apply IH. intros k Hk. apply Hg. by apply elem_of_cons; right.
  - intros [a n] [b m] H1 H2. left. destruct (Hg g) as [_ _ Ht _]; [by apply elem_of_cons; left |]. destruct (allocs_range _ _ _ _ _ _ Ht H1) as (_ & He & _).
    apply handed_out_inv in H2 as (G1 & k & G2 & T1 & p & T2 & -> & Et). assert (k ∈ G1 ++ k :: G2) as Hk by (apply elem_of_app; right; by apply elem_of_cons; left).
    destruct (Hg k) as [_ _ Ht2 _]; [by apply elem_of_cons; right |]. rewrite Et, fmap_app, fmap_cons in Ht2. destruct (tile_elem _ _ _ _ _ _ Ht2) as (Hb & _).
    rewrite Forall_forall in Hx. specialize (Hx k Hk). cbn in *. lia.
Qed.
End invariant.

Lemma allocs_carve (T1 : list (Z * seg)) p a z t sz (T2 : list (Z * seg)) : allocs (T1 ++ carve p a z t sz ++ T2).*2 = allocs T1.*2 ++ (a + z - sz, sz) :: allocs T2.*2.
Proof. unfold carve. rewrite !fmap_app, !allocs_app. by case_decide. Qed.

Lemma allocs_insert (T1 : list (Z * seg)) (p a z : Z) b (T2 : list (Z * seg)) : allocs (T1 ++ (p, Seg a z b) :: T2).*2 = allocs T1.*2 ++ (if b then [(a, z)] else []) ++ allocs T2.*2.
Proof. rewrite fmap_app, fmap_cons, allocs_app. by destruct b. Qed.

(** * The operations *)

Section operations.
Context {A : Type} `{MmLaws A}.
Context (client_afunc client_ffunc : Z -> Z -> Z -> Z -> M (vstate A) Z).
Implicit Types s : vstate A.

Lemma vmem_alloc_none s v x G C F frame rsize flag fuel : vm_rep s v x G C F frame -> 0 < rsize -> roundup (quantum x) rsize < two32 ->
  choose_tag v (roundup (quantum x) rsize) flag s = Ok (NULL, s) -> vmem_alloc client_afunc client_ffunc (S fuel) v rsize flag s = Ok (NULL, s).
Proof.
  intros Hr Hrs Hlt Hch. pose proof (vr_caches _ _ _ _ _ _ _ Hr) as [Ca1 Ca2 Hq _ _ _ _]. destruct (roundup_ok (quantum x) rsize Hq Hrs) as (_ & _ & Hle).
  cbn [vmem_alloc]. destruct (Z.eqb_spec rsize 0) as [|_]; [lia |]. rewrite run_bind, (ldv_ok _ _ _ Ca1 Ca2), run_bind.
  unfold liftO at 1. rewrite umod_pos by done. set (sz := if negb _ then _ else _). assert (sz = roundup (quantum x) rsize) as ->
    by (unfold sz, roundup in *; destruct (Z.eqb_spec (rsize mod quantum x) 0); cbn [negb]; [done | by rewrite u32_small by (unfold is_u32; lia)]).
  by rewrite run_bind, Hch.
Qed.

(** A free segment that an allocation may cut: [VMEM_BESTFIT] asks for a smallest one. *)
Definition chosen (flag sz : Z) (G : list group) (p z : Z) : Prop :=
  fits sz (all_tags G) p z /\
  (bestfit flag = true -> Z.land flag VMEM_INSTANT <> VMEM_INSTANT -> forall c y, fits sz (all_tags G) c y -> z <= y).

(** The region of size [sz] at [a] is served: it is the end of a chosen segment. *)
Definition serves (flag sz a : Z) (G G' : list group) : Prop :=
  (exists p b z, chosen flag sz G p z /\ (p, Seg b z false) ∈ all_tags G /\ a + sz = b + z) /\
  exists l1 l2, handed_out G = l1 ++ l2 /\ handed_out G' = l1 ++ (a, sz) :: l2.

Lemma vmem_alloc_run s v x G C F frame rsize flag fuel : vm_rep s v x G C F frame -> 0 < rsize -> let sz := roundup (quantum x) rsize in sz < two32 ->
  (vmem_alloc client_afunc client_ffunc (S fuel) v rsize flag s = Ok (NULL, s) /\ forall p z, ~ fits sz (all_tags G) p z) \/
  (vmem_alloc client_afunc client_ffunc (S fuel) v rsize flag s = Halt NullDeref /\ exists p z, chosen flag sz G p z /\ sz < z) \/
  exists a s' G' C' F', vmem_alloc client_afunc client_ffunc (S fuel) v rsize flag s = Ok (a, s') /\ vm_rep s' v x G' C' F' frame /\ serves flag sz a G G'.
Proof.
  intros Hr Hrs sz Hlt. pose proof (vr_caches _ _ _ _ _ _ _ Hr) as [_ _ Hq _ _ _ _]. destruct (roundup_ok (quantum x) rsize Hq Hrs) as (_ & Hqs & _).
  destruct (choose_tag_ok s v x G C F frame Hr sz flag Hqs) as ([[p z]|] & Hch & Ho).
  - right. destruct (fits_inv _ _ _ _ (proj1 Ho)) as (G1 & g & G2 & T1 & a & T2 & -> & E & Hz).
    destruct (vmem_alloc_found client_afunc client_ffunc s v x G1 g G2 C F frame T1 p a z T2 rsize flag fuel Hr E Hrs Hz Hch)
      as [[Hh Hlz]|(s' & t & C' & F' & Ho' & Hr')]; [left; split; [done | by exists p, z] | right].
    eexists _, s', _, C', F'. split; [exact Ho' |]. split; [exact Hr' |]. split.
    + exists p, a, z. split; [exact Ho |]. split; [|fold sz; lia]. rewrite (all_tags_mid _ _ _ _ _ _ E). apply elem_of_app. right. by apply elem_of_cons; left.
    + exists (handed_out G1 ++ allocs T1.*2), (allocs T2.*2 ++ handed_out G2). rewrite handed_out_with, allocs_carve, handed_out_app, handed_out_cons, E, allocs_insert.
      fold sz. rewrite <- !app_assoc. done.
  - left. split; [|exact Ho]. by apply (vmem_alloc_none s v x G C F frame).
Qed.

(** ** Releases *)

Lemma vmem_free_run_out s v x G C F frame a n addr size fuel : vm_rep s v x G C F frame -> (a, n) ∈ handed_out G -> a <= addr < a + quantum x ->
  exists s' G' C' F' l1 l2, vmem_free client_ffunc (S fuel) v addr size s = Ok (addr, s') /\ vm_rep s' v x G' C' F' frame /\
  handed_out G = l1 ++ (a, n) :: l2 /\ handed_out G' = l1 ++ l2.
Proof.
  intros Hr (G1 & g & G2 & T1 & p & T2 & -> & E)%handed_out_inv Haddr.
  destruct (vmem_free_run client_ffunc s v x G1 g G2 C F frame T1 p a n T2 addr size fuel Hr E Haddr) as (s' & T' & C' & F' & Ho & Hr' & Ht).
  exists s', (G1 ++ with_tags g T' :: G2), C', F', (handed_out G1 ++ allocs T1.*2), (allocs T2.*2 ++ handed_out G2). split; [exact Ho |]. split; [exact Hr' |].
  rewrite handed_out_with, handed_out_app, handed_out_cons, E, allocs_insert, (allocs_of_taken T'), Ht, fmap_app, <- !allocs_of_taken, <- !app_assoc. done.
Qed.

(** An address that no region has in its first quantum. *)
Lemma vmem_free_miss s v x G C F frame addr size fuel : vm_rep s v x G C F frame -> (forall a n, (a, n) ∈ handed_out G -> ~ a <= addr < a + quantum x) ->
  vmem_free client_ffunc (S fuel) v addr size s = Ok (NULL, s).
Proof using H0.
  clear client_afunc. intros Hr Hno. pose proof Hr as [V1 V2 V3 V4 V5 V6 V7 V8 V9 V10 V11]. pose proof V1 as [Ca1 Ca2 Hq _ _ _ _]. cbn [vmem_free]. rewrite run_bind.
  destruct (decide (Exists (in_group addr) G)) as [(g & Hg & Ia)%Exists_exists|Hn].
  2: { rewrite (getspan_none s v x G C F frame Hr); [done |]. intros g Hg Ia. apply Hn, Exists_exists. by exists g. }
  destruct (span_not_null s v x G C F frame Hr g Hg) as (Hsn & Hhn & _). destruct (V10 g Hg) as (hl & Hhl & Hrep). pose proof (V8 g Hg) as [O1 O2 O3 O4].
  rewrite (getspan_ok s v x G C F frame Hr g addr Hg Ia). destruct (Z.eqb_spec (g_span g) NULL) as [|_]; [done |]. rewrite run_bind, (ldv_ok _ _ _ Ca1 Ca2).
  pose proof Hg as (G1 & G2 & EG)%list_elem_of_split. rewrite run_bind, (lds_ok _ _ _ Hsn (V7 _ _ _ EG)), run_bind. cbn [s_addr hash].
  set (i := (addr - g_base g) / quantum x). pose proof (Z.div_mod (addr - g_base g) (quantum x) ltac:(lia)) as Ed. fold i in Ed.
  pose proof (Z.mod_pos_bound (addr - g_base g) (quantum x) Hq) as Em. destruct Ia as [I1 I2]. rewrite u32_small by (unfold is_u32; lia).
  unfold liftO at 1. rewrite udiv_pos by done. fold i. assert (0 <= i) as Hi by nia.
  destruct (hash_slot _ g hl (g_base g + i * quantum x) Hq Hrep) as (_ & S2 & _ & S4); [exists i; lia | split; nia | | done | done |].
  { pose proof (tile_total _ _ _ _ O3) as Ht. by replace (g_base g + g_size g - g_base g) with (g_size g) in Ht by lia. }
  replace ((g_base g + i * quantum x - g_base g) / quantum x) with i in S2, S4 by (rewrite Z.add_simpl_l, Z.div_mul; lia).
  rewrite assoc_not_in in S4; [by rewrite run_bind, (arr_get_ok s _ _ _ _ Hhn Hhl Hi S4) |].
  intros p Hp. unfold handles in Hp. apply list_elem_of_omap in Hp as ([p' [b n al]] & Hp & Eb). simpl in Eb. destruct al; [|done]. injection Eb as -> _.
  apply (Hno (g_base g + i * quantum x) n); [|lia]. rewrite EG, handed_out_app, handed_out_cons. apply list_elem_of_split in Hp as (l1 & l2 & El).
  rewrite El, allocs_insert, !elem_of_app, list_elem_of_singleton. tauto.
Qed.
End operations.

(** * Sequences of calls *)

Inductive call := Take (n flag : Z) | Give (addr size : Z).

(** What a client may rely on, in terms of the regions alone. *)
Inductive arena_step (q : Z) : list (Z * Z) -> call -> Z -> list (Z * Z) -> Prop :=
  | take_fails R n flag : arena_step q R (Take n flag) NULL R
  | take_serves l1 l2 n flag a : 0 < a -> (forall r, r ∈ l1 ++ l2 -> apart (a, roundup q n) r) ->
      arena_step q (l1 ++ l2) (Take n flag) a (l1 ++ (a, roundup q n) :: l2)
  | give_takes l1 a n l2 addr size : a <= addr < a + q -> arena_step q (l1 ++ (a, n) :: l2) (Give addr size) addr (l1 ++ l2)
  | give_misses R addr size : (forall a n, (a, n) ∈ R -> ~ a <= addr < a + q) -> arena_step q R (Give addr size) NULL R.

Inductive arena_steps (q : Z) : list (Z * Z) -> list call -> list Z -> list (Z * Z) -> Prop :=
  | steps_nil R : arena_steps q R [] [] R
  | steps_cons R c r R' cs rs R'' : arena_step q R c r R' -> arena_steps q R' cs rs R'' -> arena_steps q R (c :: cs) (r :: rs) R''.

(** A request that is not empty and whose rounding does not wrap around. *)
Definition proper (q : Z) (c : call) : Prop := match c with Take n _ => 0 < n /\ roundup q n < two32 | Give _ _ => True end.

Section sequences.
Context {A : Type} `{MmLaws A}.
Context (client_afunc client_ffunc : Z -> Z -> Z -> Z -> M (vstate A) Z).
Implicit Types s : vstate A.

Definition run_call (fuel : nat) (v : Z) (c : call) : M (vstate A) Z :=
  match c with
  | Take n flag => vmem_alloc client_afunc client_ffunc fuel v n flag
  | Give addr size => vmem_free client_ffunc fuel v addr size
  end.

Fixpoint run_calls (fuel : nat) (v : Z) (cs : list call) : M (vstate A) (list Z) :=
  match cs with
  | [] => mret []
  | c :: cs => r ← run_call fuel v c; rs ← run_calls fuel v cs; mret (r :: rs)
  end.

Lemma apart_mid l1 r l2 : ForallOrdPairs apart (l1 ++ r :: l2) -> forall r', r' ∈ l1 ++ l2 -> apart r r'.
Proof.
  induction l1 as [|k l1 IH]; simpl; inversion_clear 1 as [|? ? Hk Hl]; intros r' Hr'; rewrite Forall_forall in Hk; [by apply Hk |].
  apply elem_of_cons in Hr' as [->|Hr']; [|by apply IH]. destruct (Hk r) as [?|?]; [apply elem_of_app; right; by apply elem_of_cons; left | by right | by left].
Qed.

Lemma run_call_ok s v x G C F frame c fuel : vm_rep s v x G C F frame -> proper (quantum x) c ->
  run_call (S fuel) v c s = Halt NullDeref \/
  exists r s' G' C' F', run_call (S fuel) v c s = Ok (r, s') /\ vm_rep s' v x G' C' F' frame /\ arena_step (quantum x) (handed_out G) c r (handed_out G').
Proof.
  intros Hr Hc. destruct c as [n flag|addr size]; cbn [run_call proper] in *.
  - destruct Hc as [Hn Hlt]. destruct (vmem_alloc_run client_afunc client_ffunc s v x G C F frame n flag fuel Hr Hn Hlt)
      as [[E _]|[[E _]|(a & s' & G' & C' & F' & E & Hr' & _ & l1 & l2 & E1 & E2)]].
    + right. eexists NULL, s, G, C, F. split; [exact E |]. split; [exact Hr | apply take_fails].
    + left. exact E.
    + right. eexists a, s', G', C', F'. split; [exact E |]. split; [exact Hr' |]. rewrite E1, E2. apply take_serves.
      * destruct (handed_out_range s' v x G' C' F' frame Hr' a (roundup (quantum x) n)) as (g & Hg & Hb & _).
        { rewrite E2. apply elem_of_app. right. by apply elem_of_cons; left. }
        destruct (vr_groups _ _ _ _ _ _ _ Hr' g Hg). lia.
      * apply apart_mid. rewrite <- E2. by eapply handed_out_apart.
  - right. destruct (decide (Exists (fun r : Z * Z => r.1 <= addr < r.1 + quantum x) (handed_out G))) as [([a n] & Hin & Ha)%Exists_exists|Hn].
    + destruct (vmem_free_run_out client_ffunc s v x G C F frame a n addr size fuel Hr Hin Ha) as (s' & G' & C' & F' & l1 & l2 & E & Hr' & E1 & E2).
      eexists addr, s', G', C', F'. split; [exact E |]. split; [exact Hr' |]. rewrite E1, E2. by apply give_takes.
    + assert (forall a n, (a, n) ∈ handed_out G -> ~ a <= addr < a + quantum x) as Hno by (intros a n Hin Ha; apply Hn, Exists_exists; by exists (a, n)).
      eexists NULL, s, G, C, F. split; [by apply (vmem_free_miss client_ffunc s v x G C F frame) |]. split; [exact Hr | by apply give_misses].
Qed.

Lemma run_calls_ok v x frame fuel cs : Forall (proper (quantum x)) cs -> forall s G C F, vm_rep s v x G C F frame ->
  run_calls (S fuel) v cs s = Halt NullDeref \/
  exists rs s' G' C' F', run_calls (S fuel) v cs s = Ok (rs, s') /\ vm_rep s' v x G' C' F' frame /\ arena_steps (quantum x) (handed_out G) cs rs (handed_out G').
Proof.
  induction 1 as [|c cs Hc Hcs IH]; intros s G C F Hr.
  - right. exists [], s, G, C, F. split; [done |]. split; [done | constructor].
  - cbn [run_calls]. destruct (run_call_ok s v x G C F frame c fuel Hr Hc) as [E|(r & s1 & G1 & C1 & F1 & E & Hr1 & Hs)]; rewrite run_bind, E; [by left |].
    destruct (IH s1 G1 C1 F1 Hr1) as [E2|(rs & s2 & G2 & C2 & F2 & E2 & Hr2 & Hss)]; rewrite run_bind, E2; [by left | right].
    eexists _, s2, G2, C2, F2. split; [done |]. split; [exact Hr2 |]. by econstructor.
Qed.

(** An allocation given back leaves the spans as they were. *)
Lemma alloc_free_layout s v x G C F frame rsize flag fuel a s1 size fuel' : vm_rep s v x G C F frame -> 0 < rsize -> roundup (quantum x) rsize < two32 ->
  vmem_alloc client_afunc client_ffunc (S fuel) v rsize flag s = Ok (a, s1) -> a <> NULL ->
  exists s2 G2 C2 F2, vmem_free client_ffunc (S fuel') v a size s1 = Ok (a, s2) /\ vm_rep s2 v x G2 C2 F2 frame /\ layout G2 = layout G.
Proof.
  intros Hr Hrs Hlt Ea Ha. pose proof (vr_caches _ _ _ _ _ _ _ Hr) as [_ _ Hq _ _ _ _]. destruct (roundup_ok (quantum x) rsize Hq Hrs) as (Hd & Hqs & _).
  destruct (choose_tag_ok s v x G C F frame Hr _ flag Hqs) as ([[p z]|] & Hch & Ho).
  2: { rewrite (vmem_alloc_none client_afunc client_ffunc s v x G C F frame) in Ea by done. by injection Ea as <-. }
  destruct (fits_inv _ _ _ _ (proj1 Ho)) as (G1 & g & G2 & T1 & b & T2 & -> & E & Hz).
  destruct (vmem_alloc_found client_afunc client_ffunc s v x G1 g G2 C F frame T1 p b z T2 rsize flag fuel Hr E Hrs Hz Hch) as [[Hh _]|(s' & t & C' & F' & Ho' & Hr')];
    [by rewrite Hh in Ea |]. rewrite Ho' in Ea. injection Ea as <- <-. set (sz := roundup (quantum x) rsize) in *.
  set (X := if decide (z = sz) then [] else [(p, Seg b (z - sz) false)]). set (T' := T1 ++ carve p b z t sz ++ T2) in *.
  assert (g_tags (with_tags g T') = (T1 ++ X) ++ (t, Seg (b + z - sz) sz true) :: T2) as ET by (cbn; unfold T', carve; fold X; by rewrite <- !app_assoc).
  destruct (vmem_free_run client_ffunc s' v x G1 (with_tags g T') G2 C' F' frame _ t _ sz T2 (b + z - sz) size fuel' Hr' ET) as (s2 & T'' & C2 & F2 & Ef & Hr2 & Ht); [lia |].
  exists s2, (G1 ++ with_tags (with_tags g T') T'' :: G2), C2, F2. split; [exact Ef |]. split; [exact Hr2 |]. unfold layout. rewrite !fmap_app, !fmap_cons. cbn. do 3 f_equal.
  assert (g ∈ G1 ++ g :: G2 /\ with_tags (with_tags g T') T'' ∈ G1 ++ with_tags (with_tags g T') T'' :: G2) as [Hg Hg'] by (split; apply elem_of_app; right; by apply elem_of_cons; left).
  destruct (vr_groups _ _ _ _ _ _ _ Hr g Hg) as [_ _ O3 O4], (vr_groups _ _ _ _ _ _ _ Hr2 _ Hg') as [_ _ P3 P4].
  eapply segs_canonical; [exact P3 | exact O3 | exact P4 | exact O4 |]. cbn. rewrite (allocs_of_taken T''), (allocs_of_taken (g_tags g)), Ht, E, taken_free, taken_app by done.
  f_equal. assert (taken X = []) as -> by (unfold X; by case_decide). by rewrite app_nil_r.
Qed.
End sequences.
