(* ===== verification/VmemCreate.v ===== *)
(** The life of the arenas of [Vmem]: a span is added ([vmem_add]), an arena is
    created ([vmem_create]) and destroyed ([vmem_destroy]). *)
From Stdlib Require Import Sorted.
From S2P Require Import Prelude Mm Strings Lists Chain Vmem VmemRep VmemSegs VmemInv VmemFree VmemArena VmemAlloc.

(** * The spans *)

(** The spans [G] in memory, linked in this order. *)
Definition spans_rep (q : Z) (m : gmap Z vmem_span) (G : list group) : Prop := forall G1 g G2, G = G1 ++ g :: G2 ->
  g_span g <> NULL /\ m !! g_span g = Some (Span (g_base g) (g_size g) (g_size g / q) (g_hash g) (first_of (g_span <$> G2))).

Lemma spans_rep_frame q m m' G : (forall g, g ∈ G -> m' !! g_span g = m !! g_span g) -> spans_rep q m G -> spans_rep q m' G.
Proof.
  intros Hf Hs G1 g G2 ->. rewrite Hf by (apply elem_of_app; right; by apply elem_of_cons; left). by apply (Hs G1 g G2).
Qed.

(** A span is linked in behind [Ga]. *)
Lemma spans_rep_insert q m Ga g Gb : spans_rep q m (Ga ++ Gb) -> NoDup (g_span <$> (Ga ++ g :: Gb)) -> g_span g <> NULL ->
  let sp nx := Span (g_base g) (g_size g) (g_size g / q) (g_hash g) nx in
  spans_rep q (match last Ga with
               | None => <[g_span g := sp (first_of (g_span <$> Gb))]> m
               | Some k => alter (set_snext (g_span g)) (g_span k) (<[g_span g := sp (first_of (g_span <$> Gb))]> m)
               end) (Ga ++ g :: Gb).
Proof.
  intros Hs Hnd Hn sp. rewrite fmap_app, fmap_cons in Hnd. destruct (nodup_parts (g_span <$> Ga) [g_span g] (g_span <$> Gb) Hnd) as (Na & _ & Nb & _ & Nab & Ng).
  destruct (Ng (g_span g)) as [Ng1 Ng2]; [by apply elem_of_cons; left |].
  assert (forall k, k ∈ Ga \/ k ∈ Gb -> g_span k <> g_span g) as Hne.
  { intros k Hk E. destruct Hk as [Hk|Hk]; [apply Ng1 | apply Ng2]; apply list_elem_of_fmap; by exists k. }
  assert (forall c k, last Ga = Some c -> (k = g \/ k ∈ Gb) -> g_span k <> g_span c) as Hlast.
  { intros c k Hc Hk E. apply last_Some_elem_of in Hc. destruct Hk as [->|Hk].
    - apply Ng1, list_elem_of_fmap. by exists c.
    - apply (Nab (g_span c)); apply list_elem_of_fmap; [by exists c | by exists k]. }
  intros K1 k K2 E. symmetry in E. apply app_cons_split in E as [(n & -> & ->)|(n & E & ->)].
  - assert (k ∈ K1 ++ k :: n) as Hk by (apply elem_of_app; right; by apply elem_of_cons; left). destruct (Hs K1 k (n ++ Gb)) as [H1 H2]; [by rewrite <- app_assoc |].
    split; [done |]. destruct (decide (n = [])) as [->|Hnn].
    + rewrite last_snoc, lookup_alter_eq, lookup_insert_ne by (intros E; apply (Hne k); [by left | done]). rewrite H2. done.
    + destruct (last (K1 ++ k :: n)) as [c|] eqn:El.
      * assert (g_span k <> g_span c) as Hkc.
        { destruct n as [|n0 n _] using rev_ind; [done |]. rewrite app_comm_cons, app_assoc, last_snoc in El. injection El as <-.
          rewrite !fmap_app, fmap_cons in Na. apply NoDup_app in Na as (_ & _ & Na). rewrite fmap_app in Na. apply NoDup_cons in Na as [Na _]. intros Ek.
          apply Na. rewrite Ek. apply elem_of_app. right. by apply elem_of_cons; left. }
        rewrite lookup_alter_ne, lookup_insert_ne, H2 by (congruence || (intros E; apply (Hne k); [by left | done])). f_equal. f_equal.
        rewrite !fmap_app, !first_of_app. by destruct n.
      * apply last_None in El. by destruct K1.
  - destruct n as [|n0 n]; simpl in E; injection E as <- E.
    + subst K2. split; [done |]. destruct (last Ga) as [c|] eqn:El; rewrite ?app_nil_r.
      * rewrite lookup_alter_ne, lookup_insert_eq; [done |]. intros Ec. by apply (Hlast c g); [| left |].
      * by rewrite lookup_insert_eq.
    + subst Gb. assert (k ∈ n ++ k :: K2) as Hk by (apply elem_of_app; right; by apply elem_of_cons; left).
      destruct (Hs (Ga ++ n) k K2) as [H1 H2]; [by rewrite <- app_assoc |]. split; [done |].
      destruct (last Ga) as [c|] eqn:El.
      * rewrite lookup_alter_ne, lookup_insert_ne; [done | intros E; by apply (Hne k); [right |] |]. intros Ec. by apply (Hlast c k); [| right |].
      * rewrite lookup_insert_ne; [done |]. intros E. by apply (Hne k); [right |].
Qed.

(** * The tags *)

Lemma last_of_snoc l a : last_of (l ++ [a]) = a.
Proof. unfold last_of. by rewrite last_snoc. Qed.

Definition inserted (t nx pv : Z) (b : vmem_bt) (h : gmap Z vmem_bt) : gmap Z vmem_bt :=
  updm nx (set_bprev t) (updm pv (set_bnext t) (<[t := b]> h)).

Lemma inserted_fl t nx pv b h : fl_next b = NULL -> fl_prev b = NULL -> fl_links (inserted t nx pv b h) = <[t := (NULL, NULL)]> (fl_links h).
Proof.
  intros H1 H2. unfold inserted. rewrite !fl_links_same by done. unfold fl_links. by rewrite fmap_insert, H1, H2.
Qed.

(** A tag is linked in between [B1] and [B2]. *)
Lemma tags_rep_insert h B1 B2 t a z : tags_rep h (B1 ++ B2) -> t <> NULL -> t ∉ (B1 ++ B2).*1 ->
  let b := Bt a z 0 VMEM_FREE (first_of B2.*1) (last_of B1.*1) NULL NULL in
  tags_rep (inserted t (first_of B2.*1) (last_of B1.*1) b h) (B1 ++ (t, Seg a z false) :: B2).
Proof.
  intros [Hc Hd] Htn Ht b. rewrite fmap_app in Hc, Ht. set (h' := inserted _ _ _ _ _).
  assert (tag_links h' = splice B1.*1 B2.*1 t t (<[t := (first_of B2.*1, last_of B1.*1)]> (tag_links h))) as El.
  { unfold h', inserted. rewrite tag_links_prev, tag_links_next. unfold tag_links. by rewrite fmap_insert. }
  assert (data_of h' = <[t := (a, z, VMEM_FREE)]> (data_of h)) as Ed by (unfold h', inserted; rewrite !data_of_same by done; unfold data_of; by rewrite fmap_insert).
  pose proof Ht as [Ht1 Ht2]%not_elem_of_app. split.
  - rewrite fmap_app, fmap_cons. apply (chain_insert (tag_links h)); try done.
    + intros c Hcin. assert (c <> t) as Hct by (intros ->; done). rewrite El. destruct (chain_elem _ _ _ Hc Hcin) as (? & ? & _ & Hx & Hcn).
      rewrite (splice_lookup _ _ _ _ _ _ _ Hcn Hx). apply splice_lookup; [done |]. by rewrite lookup_insert_ne by congruence.
    + rewrite El, splice_out by done. by rewrite lookup_insert_eq.
  - intros c k Hk. rewrite Ed. assert ((c, k) ∈ B1 ++ B2 -> c <> t) as Hct.
    { intros Hin ->. apply Ht. rewrite <- fmap_app. apply list_elem_of_fmap. by exists (t, k). }
    rewrite elem_of_app, elem_of_cons in Hk. destruct Hk as [Hk|[[= -> ->]|Hk]]; [| by rewrite lookup_insert_eq |];
      (rewrite lookup_insert_ne; [apply Hd; rewrite elem_of_app; tauto |]; intros <-; apply Hct; [rewrite elem_of_app; tauto | done]).
Qed.

Section adding.
Context {A : Type} `{MmLaws A}.
Implicit Types s : vstate A.

Lemma upds_ok s p f y : p <> NULL -> vspans s !! p = Some y -> upds p f s = Ok (tt, set_vspans (<[p := f y]> (vspans s)) s).
Proof. intros Hp Hy. unfold upds. mrun. by rewrite (hupd_Some _ _ _ _ Hp Hy). Qed.

Lemma updv_ok s p f y : p <> NULL -> vmems s !! p = Some y -> updv p f s = Ok (tt, set_vmems (<[p := f y]> (vmems s)) s).
Proof. intros Hp Hy. unfold updv. mrun. by rewrite (hupd_Some _ _ _ _ Hp Hy). Qed.

Lemma span_before_ok fuel s q a Ga Gb G0 : spans_rep q (vspans s) (G0 ++ Ga ++ Gb) -> (forall g, g ∈ Ga -> g_base g < a) -> (forall g, g ∈ Gb -> a <= g_base g) ->
  (length (Ga ++ Gb) < fuel)%nat -> span_before fuel (last_of (g_span <$> G0)) (first_of (g_span <$> (Ga ++ Gb))) a s = Ok (last_of (g_span <$> (G0 ++ Ga)), s).
Proof.
  revert Ga G0. induction fuel as [|fuel IH]; intros Ga G0 Hs Ha Hb Hf; [lia |]. cbn [span_before]. destruct Ga as [|g Ga].
  - rewrite app_nil_r. cbn [app] in *. destruct Gb as [|g Gb]; [done |]. destruct (Hs G0 g Gb eq_refl) as [Hn Hg]. cbn [fmap list_fmap first_of].
    destruct (Z.eqb_spec (g_span g) NULL) as [|_]; [done |]. rewrite run_bind, (lds_ok _ _ _ Hn Hg). cbn [s_addr].
    specialize (Hb g (list_elem_of_here _ _)). destruct (Z.leb_spec a (g_base g)); [done | lia].
  - destruct (Hs G0 g (Ga ++ Gb) eq_refl) as [Hn Hg]. cbn [app fmap list_fmap first_of]. destruct (Z.eqb_spec (g_span g) NULL) as [|_]; [done |].
    rewrite run_bind, (lds_ok _ _ _ Hn Hg). cbn [s_addr s_next]. pose proof (Ha g (list_elem_of_here _ _)). destruct (Z.leb_spec a (g_base g)); [lia |].
    replace (g_span g) with (last_of (g_span <$> (G0 ++ [g]))) by (rewrite fmap_app; apply last_of_snoc).
    fold (g_span <$> (Ga ++ Gb)). change (list_fmap _ _ g_span (Ga ++ Gb)) with (g_span <$> (Ga ++ Gb)). rewrite (IH Ga (G0 ++ [g])).
    + by rewrite <- app_assoc.
    + by rewrite <- app_assoc.
    + intros k Hk. apply Ha. by apply elem_of_cons; right.
    + done.
    + simpl in Hf. lia.
Qed.

Lemma tag_before_ok fuel s a Ta Tb T0 : tags_rep (bts s) (T0 ++ Ta ++ Tb) -> (forall p g, (p, g) ∈ Ta -> sg_addr g < a) -> (forall p g, (p, g) ∈ Tb -> a <= sg_addr g) ->
  (length (Ta ++ Tb) < fuel)%nat -> tag_before fuel (last_of T0.*1) (first_of (Ta ++ Tb).*1) a s = Ok (last_of (T0 ++ Ta).*1, s).
Proof.
  revert Ta T0. induction fuel as [|fuel IH]; intros Ta T0 Hs Ha Hb Hf; [lia |]. cbn [tag_before]. destruct Ta as [|[p g] Ta].
  - rewrite app_nil_r. cbn [app] in *. destruct Tb as [|[p g] Tb]; [done |]. destruct (tags_rep_lookup _ _ _ _ _ Hs) as (b & Hbp & Hn & E & _).
    rewrite fmap_cons. cbn [first_of fst]. destruct (Z.eqb_spec p NULL) as [|_]; [done |]. rewrite run_bind, (ldb_ok _ _ _ Hn Hbp), E.
    specialize (Hb p g (list_elem_of_here _ _)). destruct (Z.leb_spec a (sg_addr g)); [done | lia].
  - destruct (tags_rep_lookup _ _ _ _ _ Hs) as (b & Hbp & Hn & E & _ & _ & E4 & _). cbn [app]. rewrite fmap_cons. cbn [first_of fst].
    destruct (Z.eqb_spec p NULL) as [|_]; [done |]. rewrite run_bind, (ldb_ok _ _ _ Hn Hbp), E. pose proof (Ha p g (list_elem_of_here _ _)).
    destruct (Z.leb_spec a (sg_addr g)); [lia |]. fold (Ta ++ Tb) in E4. rewrite E4.
    specialize (IH Ta (T0 ++ [(p, g)])). assert (last_of (T0 ++ [(p, g)]).*1 = p) as El by (rewrite fmap_app; apply last_of_snoc).
    rewrite El, <- !app_assoc in IH. apply IH; try done.
    + intros c k Hk. apply (Ha c). by apply elem_of_cons; right.
    + simpl in Hf. lia.
Qed.

Lemma insert_span_ok s v x q m Ga g Gb : v <> NULL -> vmems s !! v = Some x -> spans x = first_of (g_span <$> (Ga ++ Gb)) -> spans_rep q m (Ga ++ Gb) ->
  NoDup (g_span <$> (Ga ++ g :: Gb)) -> g_span g <> NULL -> vspans s = <[g_span g := Span (g_base g) (g_size g) (g_size g / q) (g_hash g) NULL]> m ->
  exists m', insert_span v (last_of (g_span <$> Ga)) (g_span g) s =
    Ok (tt, set_vspans m' (set_vmems (<[v := set_spans (first_of (g_span <$> (Ga ++ g :: Gb))) x]> (vmems s)) s)) /\ spans_rep q m' (Ga ++ g :: Gb).
Proof.
  intros Hv Hx Hsp Hs Hnd Hn Em. pose proof (spans_rep_insert q m Ga g Gb Hs Hnd Hn) as Hs'. cbn zeta in Hs'. unfold insert_span.
  destruct (last Ga) as [k|] eqn:El.
  - assert (exists Gc, Ga = Gc ++ [k]) as [Gc ->]. { destruct Ga as [|k' Gc _] using rev_ind; [done |]. rewrite last_snoc in El. injection El as ->. by exists Gc. }
    assert (last_of (g_span <$> (Gc ++ [k])) = g_span k) as -> by (rewrite fmap_app; apply last_of_snoc).
    destruct (Hs Gc k Gb) as [Hkn Hk]; [by rewrite <- app_assoc |]. assert (g_span k <> g_span g) as Hne.
    { rewrite (fmap_app g_span (Gc ++ [k])), fmap_cons in Hnd. apply (nodup_parts (g_span <$> Gc ++ [k]) [g_span g] (g_span <$> Gb)) in Hnd as (_ & _ & _ & _ & _ & Hg).
      destruct (Hg (g_span g)) as [Hg1 _]; [by apply elem_of_cons; left |]. intros E. apply Hg1. rewrite fmap_app, <- E. apply elem_of_app. right. by apply elem_of_cons; left. }
    destruct (Z.eqb_spec (g_span k) NULL) as [|_]; [done |]. eexists. split; [|exact Hs'].
    rewrite run_bind, (lds_ok s _ _ Hkn ltac:(rewrite Em, lookup_insert_ne by congruence; exact Hk)), run_bind.
    rewrite (upds_ok s _ _ _ Hn ltac:(rewrite Em; apply lookup_insert_eq)), Em, insert_insert_eq. cbn [set_snext s_addr s_size slots hash s_next].
    erewrite upds_ok; [| done | cbn; rewrite lookup_insert_ne by congruence; exact Hk]. do 2 f_equal.
    assert (set_spans (first_of (g_span <$> ((Gc ++ [k]) ++ g :: Gb))) x = x) as ->.
    { destruct x. unfold set_spans. cbn in Hsp |- *. f_equal. rewrite Hsp, !fmap_app, !first_of_app. by destruct Gc. }
    rewrite (insert_id (vmems s)) by done. erewrite (alter_insert_of_Some (set_snext _)); [| rewrite lookup_insert_ne by congruence; exact Hk]. by destruct s.
  - apply last_None in El as ->. cbn [app] in *. eexists. split; [|exact Hs']. cbn [fmap list_fmap]. change (last_of [] =? NULL) with true. cbn iota.
    rewrite run_bind, (ldv_ok _ _ _ Hv Hx), run_bind, (upds_ok s _ _ _ Hn ltac:(rewrite Em; apply lookup_insert_eq)), Em, insert_insert_eq.
    erewrite updv_ok; [| done | exact Hx]. by rewrite Hsp.
Qed.

Lemma insert_tag_ok s v x t Ta Tb a z b0 h : v <> NULL -> vmems s !! v = Some x -> tags x = first_of (Ta ++ Tb).*1 -> tags_rep h (Ta ++ Tb) ->
  t <> NULL -> t ∉ (Ta ++ Tb).*1 -> bts s = <[t := b0]> h -> b0 = Bt a z 0 VMEM_FREE NULL NULL NULL NULL ->
  insert_tag v (last_of Ta.*1) t s =
    Ok (tt, set_bts (inserted t (first_of Tb.*1) (last_of Ta.*1) (Bt a z 0 VMEM_FREE (first_of Tb.*1) (last_of Ta.*1) NULL NULL) h)
              (set_vmems (<[v := set_tags (first_of (Ta ++ (t, Seg a z false) :: Tb).*1) x]> (vmems s)) s)).
Proof.
  intros Hv Hx Htp Hr Htn Ht Eh ->. unfold insert_tag. set (b := Bt _ _ _ _ (first_of Tb.*1) _ _ _). set (x' := set_tags _ x).
  pose proof Hr as [(_ & Hnull & _) _]. rewrite fmap_app in Hnull, Ht. apply not_elem_of_app in Hnull as [Hna Hnb], Ht as [Ht1 Ht2].
  set (s1 := set_bts (<[t := b]> h) (set_vmems (<[v := x']> (vmems s)) s)).
  assert (first_of Tb.*1 <> t) as Hft by (intros <-; destruct (decide (Tb.*1 = [])) as [E|E]; [by rewrite E in Htn | by apply Ht2, first_of_in]).
  assert (last_of Ta.*1 <> t) as Hlt by (intros <-; destruct (decide (Ta.*1 = [])) as [E|E]; [by rewrite E in Htn | by apply Ht1, last_of_in]).
  assert (forall T p, p = first_of T.*1 \/ p = last_of T.*1 -> (forall c k, (c, k) ∈ T -> (c, k) ∈ Ta ++ Tb) -> p = NULL \/ is_Some (h !! p)) as Hends.
  { intros T p Hp Hsub. destruct (decide (T.*1 = [])) as [E|E]; [left; rewrite E in Hp; by destruct Hp | right].
    assert (p ∈ T.*1) as Hin by (destruct Hp as [->| ->]; [by apply first_of_in | by apply last_of_in]). apply list_elem_of_fmap in Hin as ([c k] & -> & Hin).
    apply Hsub, list_elem_of_split in Hin as (k1 & k2 & Ek). rewrite Ek in Hr. destruct (tags_rep_lookup _ _ _ _ _ Hr) as (b' & Hb' & _). by exists b'. }
  assert (forall f b1, updb t f (set_bts (<[t := b1]> h) s) = Ok (tt, set_bts (<[t := f b1]> h) s)) as Hup.
  { intros f b1. rewrite updb_ok by (done || by eexists; apply lookup_insert_eq). unfold updm. destruct (Z.eqb_spec t NULL); [done |]. cbn.
    by rewrite (alter_insert_of_Some _ _ _ b1), insert_insert_eq by apply lookup_insert_eq. }
  assert (forall f, updb t f s = Ok (tt, set_bts (<[t := f (Bt a z 0 VMEM_FREE NULL NULL NULL NULL)]> h) s)) as Hup0.
  { intros f. rewrite <- (Hup f). f_equal. destruct s. cbn in *. by subst. }
  rewrite run_bind. transitivity (match (Ok (tt, s1) : outcome (unit * vstate A)) with Ok (_, s') => (b ← ldb t; (if negb (b_prev b =? NULL) then updb (b_prev b) (set_bnext t) else mret tt) ;;
    b ← ldb t; (if negb (b_next b =? NULL) then updb (b_next b) (set_bprev t) else mret tt)) s' | Halt f => Halt f end).
  - match goal with |- match ?m with _ => _ end = _ => assert (m = Ok (tt, s1)) as ->; [|done] end.
    destruct (Z.eqb_spec (last_of Ta.*1) NULL) as [El|El].
    + apply (last_of_null _ Hna), fmap_nil_inv in El as ->. cbn [app] in *. rewrite run_bind, (ldv_ok _ _ _ Hv Hx), run_bind, Hup0, run_bind, Hup, Htp.
      erewrite updv_ok; [| done | exact Hx]. done.
    + assert (exists Tc p k, Ta = Tc ++ [(p, k)]) as (Tc & p & k & ->) by (destruct Ta as [|[p k] Tc _] using rev_ind; [done | by exists Tc, p, k]).
      rewrite <- app_assoc in Hr. destruct (tags_rep_lookup _ _ _ _ _ Hr) as (bp & Hbp & Hpn & _ & _ & _ & En & _).
      assert (last_of (Tc ++ [(p, k)]).*1 = p) as Elp by (rewrite fmap_app; apply last_of_snoc). subst b. rewrite Elp in *.
      assert (x' = x) as Ex. { subst x'. destruct x. unfold set_tags. cbn in Htp |- *. f_equal. rewrite Htp, !fmap_app, !first_of_app. by destruct Tc. }
      rewrite run_bind, (ldb_ok s p bp) by (done || rewrite Eh, lookup_insert_ne by congruence; done). rewrite run_bind, Hup0, Hup. cbn.
      unfold s1. rewrite Ex, (insert_id (vmems s)), En, Elp by done. by destruct s.
  - rewrite run_bind, (ldb_ok s1 t b Htn (lookup_insert_eq _ _ _)), run_bind. cbn [b b_prev]. rewrite updb_if_ok.
    2: { cbn. destruct (Hends Ta (last_of Ta.*1)) as [?|?]; [by right | intros; apply elem_of_app; by left | by left | right]. by rewrite lookup_insert_ne by congruence. }
    set (s2 := set_bts _ s1). assert (bts s2 !! t = Some b) as Hb2 by (cbn; rewrite updm_ne by congruence; apply lookup_insert_eq).
    rewrite run_bind, (ldb_ok s2 t b Htn Hb2). cbn [b b_next]. rewrite updb_if_ok; [done |]. cbn. rewrite updm_is_Some.
    destruct (Hends Tb (first_of Tb.*1)) as [?|?]; [by left | intros; apply elem_of_app; by right | by left | right]. by rewrite lookup_insert_ne by congruence.
Qed.
End adding.

(** * [vmem_add] *)

Section vmem_add.
Context {A : Type} `{MmLaws A}.
Implicit Types s : vstate A.

(** What the representation reads of a state. *)
Lemma vm_rep_frame s s' v x G C F frame : vm_rep s v x G C F frame -> vmems s' !! v = Some x -> bts s' = bts s ->
  (forall g, g ∈ G -> vspans s' !! g_span g = vspans s !! g_span g) ->
  (forall k, k ∈ blocks v x G -> arrays s' !! k = arrays s !! k) -> owns (vmm s') (blocks v x G) frame -> vm_rep s' v x G C F frame.
Proof.
  intros [V1 V2 V3 V4 V5 V6 V7 V8 V9 V10 V11] Hx Hb Hs Ha Ho. split; try done.
  - destruct V1 as [C1 C2 C3 C4 C5 C6 C7]. split; try done; [|by rewrite Hb]. rewrite Ha; [done |]. unfold blocks. set_solver.
  - by rewrite Hb.
  - intros G1 g G2 E. rewrite Hs; [by apply (V7 G1 g G2) |]. rewrite E. apply elem_of_app. right. by apply elem_of_cons; left.
  - intros g Hg. destruct (V10 g Hg) as (hl & Hhl & Hr). exists hl. split; [|done]. rewrite Ha; [done |].
    unfold blocks. rewrite !elem_of_cons, !elem_of_app. right. right. right. left. apply list_elem_of_fmap. by exists g.
Qed.

Lemma malloc_block_cases s n l frame : owns (vmm s) l frame ->
  (exists a, malloc_block n s = Ok (NULL, set_vmm a s) /\ owns a l frame) \/
  (exists p a, malloc_block n s = Ok (p, set_vmm a s) /\ p <> NULL /\ p ∉ l /\ owns a (p :: l) frame).
Proof.
  intros Ho. unfold malloc_block. destruct (kmalloc n (vmm s)) as [p a] eqn:Em. destruct (owns_malloc _ _ _ _ _ _ Em Ho) as [[-> Ha]|(Hp & Hn & Ha)].
  - left. exists a. split; [|done]. mrun. rewrite Em. by mrun.
  - right. exists p, a. split_and!; try done. mrun. rewrite Em. by mrun.
Qed.

Lemma malloc_array_cases s n l frame : owns (vmm s) l frame -> 0 <= n -> n * 4 < two32 ->
  (exists a, malloc_array n s = Ok (NULL, set_vmm a s) /\ owns a l frame) \/
  (exists p a, malloc_array n s = Ok (p, set_arrays (<[p := replicate (Z.to_nat n) 0]> (arrays s)) (set_vmm a s)) /\ p <> NULL /\ p ∉ l /\ owns a (p :: l) frame).
Proof.
  intros Ho H1 H2. unfold malloc_array. rewrite u32_small by (unfold is_u32; lia). replace (n * 4 / 4) with n by (rewrite Z.div_mul; lia).
  destruct (malloc_block_cases s (n * 4) l frame Ho) as [(a & E & Ha)|(p & a & E & Hp & Hn & Ha)]; rewrite run_bind, E.
  - left. exists a. by split.
  - right. exists p, a. destruct (Z.eqb_spec p NULL) as [|_]; [done |]. split; [|done]. by mrun.
Qed.

Lemma free_block_ok s p l frame : owns (vmm s) (p :: l) frame -> exists a, free_block p s = Ok (tt, set_vmm a s) /\ owns a l frame.
Proof. intros Ho. destruct (owns_free _ _ _ _ Ho) as (a & E & Ho'). exists a. split; [|done]. unfold free_block. mrun. by rewrite E. Qed.

(** A new span is placed between [Ga] and [Gb]. *)
Record placed (q : Z) (Ga Gb : list group) (a z : Z) : Prop := {
  pl_base : 0 < a; pl_size : 0 < z; pl_mult : (q | z); pl_end : a + z < two32;
  pl_left : forall g, g ∈ Ga -> g_base g < a /\ g_base g + g_size g <= a;
  pl_right : forall g, g ∈ Gb -> a + z <= g_base g
}.

Lemma placed_sorted q Ga Gb a z g : placed q Ga Gb a z -> g_base g = a -> g_size g = z ->
  StronglySorted (fun g g' => g_base g + g_size g <= g_base g') (Ga ++ Gb) -> StronglySorted (fun g g' => g_base g + g_size g <= g_base g') (Ga ++ g :: Gb).
Proof.
  intros [P1 P2 P3 P4 P5 P6] Eb Es. induction Ga as [|k Ga IH]; simpl; intros Hs.
  - constructor; [done |]. apply Forall_forall. intros k Hk. specialize (P6 k Hk). lia.
  - inversion_clear Hs as [|? ? Hs' Hk]. constructor; [apply IH; [intros k' Hk'; apply P5; by apply elem_of_cons; right | done] |].
    rewrite Forall_forall in *. intros k' Hk'. rewrite elem_of_app, elem_of_cons in Hk'. destruct Hk' as [Hk'|[->|Hk']].
    + apply Hk, elem_of_app. by left.
    + destruct (P5 k); [by apply elem_of_cons; left | lia].
    + apply Hk, elem_of_app. by right.
Qed.

Lemma group_ok_new q sp h t a z : 0 < q -> 0 < a -> 0 < z -> (q | z) -> a + z < two32 -> group_ok q (Group sp a z h [(t, Seg a z false)]).
Proof. intros Hq Ha Hz Hd He. split; simpl; try done; try lia. Qed.

Lemma hash_rep_new q sp h t a z : hash_rep q (Group sp a z h [(t, Seg a z false)]) (replicate (Z.to_nat (z / q)) NULL).
Proof. split; [by rewrite length_replicate |]. intros i Hi. rewrite length_replicate in Hi. by rewrite lookup_replicate_2 by done. Qed.

(** The state before the new tag is entered in a free list. *)
Lemma vmem_add_rep s st v x x' Ga Gb C F frame sp h t addr z : vm_rep s v x (Ga ++ Gb) C F frame -> placed (quantum x) Ga Gb addr z ->
  let g := Group sp addr z h [(t, Seg addr z false)] in
  x' = set_tags (first_of (all_tags Ga ++ (t, Seg addr z false) :: all_tags Gb).*1) (set_spans (first_of (g_span <$> (Ga ++ g :: Gb))) x) ->
  vmems st !! v = Some x' -> spans_rep (quantum x) (vspans st) (Ga ++ g :: Gb) ->
  arrays st !! h = Some (replicate (Z.to_nat (z / quantum x)) NULL) -> (forall k, k <> h -> arrays st !! k = arrays s !! k) ->
  bts st = inserted t (first_of (all_tags Gb).*1) (last_of (all_tags Ga).*1) (Bt addr z 0 VMEM_FREE (first_of (all_tags Gb).*1) (last_of (all_tags Ga).*1) NULL NULL) (bts s) ->
  owns (vmm st) (t :: h :: sp :: blocks v x (Ga ++ Gb)) frame ->
  exists s' C' F', if_cached v t add_freelist st = Ok (tt, s') /\ vm_rep s' v x' (Ga ++ g :: Gb) C' F' frame.
Proof.
  intros Hr Hpl g Ex Hx Hsr Hh Harr Eb Ho. pose proof Hr as [V1 V2 V3 V4 V5 V6 V7 V8 V9 V10 V11]. pose proof V1 as [C1 C2 C3 C4 C5 C6 C7].
  pose proof (owns_not_null _ _ _ t Ho (list_elem_of_here _ _)) as Htn. pose proof Ho as (([Nt1 Nt2]%not_elem_of_cons & [[Nh1 Nh2]%not_elem_of_cons _]%NoDup_cons)%NoDup_cons & _).
  apply not_elem_of_cons in Nt2 as [_ Ntb]. assert (t ∉ (all_tags Ga ++ all_tags Gb).*1) as Htt.
  { intros Hin. apply Ntb. unfold blocks. rewrite all_tags_app, !elem_of_cons, !elem_of_app. tauto. }
  rewrite all_tags_app in V4, V5. assert (forall k, k ∈ blocks v x (Ga ++ Gb) -> arrays st !! k = arrays s !! k) as Harr'.
  { intros k Hk. apply Harr. intros ->. done. }
  assert (all_tags (Ga ++ g :: Gb) = all_tags Ga ++ (t, Seg addr z false) :: all_tags Gb) as EA by (rewrite all_tags_app; done).
  assert (mid st v x' (h :: sp :: fixed_blocks v x (Ga ++ Gb)) C F (all_tags Ga ++ (t, Seg addr z false) :: all_tags Gb) t frame) as Hm.
  { split.
    - subst x'. split; try done; cbn; [rewrite Harr'; [done | unfold blocks; set_solver] |]. rewrite Eb, inserted_fl by done. apply fl_ok_fresh; [|done].
      destruct (C !! t) as [y|] eqn:Ey; [|done]. apply V5 in Ey as (a' & Hin & _). destruct Htt. apply list_elem_of_fmap. by exists (t, Seg a' y false).
    - rewrite Eb. by apply tags_rep_insert.
    - intros p y. rewrite V5. setoid_rewrite elem_of_app. setoid_rewrite elem_of_cons. unfold small. subst x'. cbn. split.
      + intros (a' & Ha & Hs). split; [intros ->; apply Htt, list_elem_of_fmap; exists (t, Seg a' y false); by rewrite elem_of_app |]. exists a'. tauto.
      + intros (Hp & a' & Ha & Hs). exists a'. split; [|done]. destruct Ha as [?|[[= ]|?]]; tauto.
    - eapply owns_perm; [|exact Ho]. rewrite blocks_fixed, all_tags_app, !fmap_app, !fmap_cons. cbn [fst]. solve_Permutation.
    - intros p k Hk. subst x'. cbn. rewrite elem_of_app, elem_of_cons in Hk. assert ((p, k) ∈ all_tags (Ga ++ Gb) -> quantum x <= sg_size k) as Hold
        by apply (vm_sizes s v x _ C F frame Hr). rewrite all_tags_app, elem_of_app in Hold. destruct Hk as [Hk|[[= -> ->]|Hk]]; [tauto | | tauto].
      apply Z.divide_pos_le; [apply Hpl | apply Hpl]. }
  destruct (mid_recache st v x' _ C F _ t _ _ frame Hm eq_refl) as (s' & C' & F' & E & (Qv & Qs & Qa) & L & K1 & K2 & K3 & K4).
  exists s', C', F'. split; [exact E |]. subst x'. split; try done.
  - by rewrite EA.
  - by rewrite EA.
  - intros p y. by rewrite EA.
  - intros G1 k G2 EG. rewrite Qs. by destruct (Hsr _ _ _ EG).
  - intros k Hk. rewrite elem_of_app, elem_of_cons in Hk. destruct Hk as [Hk|[->|Hk]]; [apply V8, elem_of_app; by left | | apply V8, elem_of_app; by right].
    apply group_ok_new; try apply Hpl. done.
  - by eapply placed_sorted.
  - assert (forall k, k ∈ Ga ++ Gb -> exists hl, arrays s' !! g_hash k = Some hl /\ hash_rep (quantum x) k hl) as Hold.
    { intros k Hk. destruct (V10 k Hk) as (hl & Hl & Hrep). exists hl. split; [|done]. destruct (span_not_null s v x _ C F frame Hr k Hk) as (_ & _ & Hne).
      rewrite Qa by done. rewrite Harr'; [done |]. unfold blocks. rewrite !elem_of_cons, !elem_of_app. right. right. right. left. apply list_elem_of_fmap. by exists k. }
    intros k Hk. rewrite elem_of_app, elem_of_cons in Hk. destruct Hk as [Hk|[->|Hk]]; [apply Hold, elem_of_app; by left | | apply Hold, elem_of_app; by right].
    exists (replicate (Z.to_nat (z / quantum x)) NULL). split; [|apply hash_rep_new]. cbn [g g_hash]. rewrite Qa; [done |]. cbn. intros ->. apply Nh2. unfold blocks. set_solver.
  - eapply owns_perm; [|exact K3]. rewrite !blocks_fixed, EA. unfold fixed_blocks. rewrite !fmap_app, !fmap_cons. cbn [fst g g_span g_hash]. solve_Permutation.
Qed.

Lemma all_tags_range q G p k : (forall g, g ∈ G -> group_ok q g) -> (p, k) ∈ all_tags G -> exists g, g ∈ G /\ g_base g <= sg_addr k < g_base g + g_size g.
Proof.
  intros Hg Hk. unfold all_tags in Hk. apply list_elem_of_In, in_concat in Hk as (T & HT & Hk). apply list_elem_of_In in HT, Hk.
  apply list_elem_of_fmap in HT as (g & -> & Hin). exists g. split; [done |]. destruct (Hg g Hin) as [_ _ Ht _]. apply list_elem_of_split in Hk as (l1 & l2 & E).
  rewrite E, fmap_app, fmap_cons in Ht. destruct (tile_elem _ _ _ _ _ _ Ht) as (? & ? & ? & _). simpl in *. lia.
Qed.

(** The two searches for the place. *)
Lemma add_searches s v x Ga Gb C F frame a z : vm_rep s v x (Ga ++ Gb) C F frame -> placed (quantum x) Ga Gb a z ->
  span_before (S (base.size (vspans s))) NULL (spans x) a s = Ok (last_of (g_span <$> Ga), s) /\
  forall st : vstate A, bts st = bts s -> tag_before (S (base.size (bts st))) NULL (tags x) a st = Ok (last_of (all_tags Ga).*1, st).
Proof.
  intros Hr [P1 P2 P3 P4 P5 P6]. pose proof Hr as [V1 V2 V3 V4 V5 V6 V7 V8 V9 V10 V11]. split.
  - rewrite V6. apply (span_before_ok _ s (quantum x) a Ga Gb []).
    + intros G1 g G2 E. split; [|by apply (V7 G1 g G2)]. apply (span_not_null s v x _ C F frame Hr). cbn in E. rewrite E. apply elem_of_app. right. by apply elem_of_cons; left.
    + intros g Hg. by apply P5.
    + intros g Hg. specialize (P6 g Hg). lia.
    + eapply spans_fuel. exact Hr.
  - intros st Eb. rewrite V3, all_tags_app, Eb. rewrite all_tags_app in V4. apply (tag_before_ok _ st a (all_tags Ga) (all_tags Gb) []).
    + by rewrite Eb.
    + intros p k Hk. destruct (all_tags_range (quantum x) Ga p k) as (g & Hg & ?); [intros g Hg; apply V8, elem_of_app; by left | done |]. destruct (P5 g Hg). lia.
    + intros p k Hk. destruct (all_tags_range (quantum x) Gb p k) as (g & Hg & ?); [intros g Hg; apply V8, elem_of_app; by right | done |]. specialize (P6 g Hg). lia.
    + pose proof V4 as [Hch _]. pose proof (chain_size _ _ Hch) as Hsz. rewrite length_fmap in Hsz. unfold tag_links in Hsz. rewrite map_size_fmap in Hsz. lia.
Qed.

Lemma free_array_ok s p l frame : owns (vmm s) (p :: l) frame -> exists a, free_array p s = Ok (tt, set_arrays (base.delete p (arrays s)) (set_vmm a s)) /\ owns a l frame.
Proof. intros Ho. destruct (free_block_ok s p l frame Ho) as (a & E & Ho'). exists a. split; [|done]. unfold free_array. rewrite run_bind, E. by mrun. Qed.

Lemma free_span_ok s p l frame : owns (vmm s) (p :: l) frame -> exists a, free_span p s = Ok (tt, set_vspans (base.delete p (vspans s)) (set_vmm a s)) /\ owns a l frame.
Proof. intros Ho. destruct (free_block_ok s p l frame Ho) as (a & E & Ho'). exists a. split; [|done]. unfold free_span. rewrite run_bind, E. by mrun. Qed.

(** The rest of [vmem_add], once its memory is there. *)
Lemma vmem_add_linked s st v x Ga Gb C F frame sp h t addr z a : vm_rep s v x (Ga ++ Gb) C F frame -> placed (quantum x) Ga Gb addr z ->
  vmems st = vmems s -> bts st = <[t := raw_bt]> (bts s) -> vspans st = <[sp := Span addr z (z / quantum x) h NULL]> (vspans s) ->
  arrays st = <[h := replicate (Z.to_nat (z / quantum x)) NULL]> (arrays s) -> vmm st = a -> owns a (t :: h :: sp :: blocks v x (Ga ++ Gb)) frame ->
  exists s' x' C' F', (insert_span v (last_of (g_span <$> Ga)) sp ;; updb t (fun _ => Bt addr z 0 VMEM_FREE NULL NULL NULL NULL) ;;
      insert_tag v (last_of (all_tags Ga).*1) t ;; if_cached v t add_freelist ;; mret addr) st = Ok (addr, s') /\ quantum x' = quantum x /\
    vm_rep s' v x' (Ga ++ Group sp addr z h [(t, Seg addr z false)] :: Gb) C' F' frame.
Proof.
  intros Hr Hpl Ev Eb Es Ea Em Ho. pose proof Hr as [V1 V2 V3 V4 V5 V6 V7 V8 V9 V10 V11]. pose proof V1 as [Ca1 Ca2 _ _ _ _ _].
  set (g := Group sp addr z h [(t, Seg addr z false)]). pose proof (owns_not_null _ _ _ t Ho) as Ht. pose proof (owns_not_null _ _ _ sp Ho) as Hsp.
  rewrite !elem_of_cons in Ht, Hsp. pose proof Ho as (([_ [_ Nt]%not_elem_of_cons]%not_elem_of_cons & [_ [Ns _]%NoDup_cons]%NoDup_cons)%NoDup_cons & _).
  assert (spans_rep (quantum x) (vspans s) (Ga ++ Gb)) as Hs0.
  { intros G1 k G2 E. split; [|by apply (V7 G1 k G2)]. apply (span_not_null s v x _ C F frame Hr). rewrite E. apply elem_of_app. right. by apply elem_of_cons; left. }
  assert (NoDup (g_span <$> (Ga ++ g :: Gb))) as Hnd.
  { assert (g_span <$> (Ga ++ g :: Gb) ≡ₚ sp :: (g_span <$> (Ga ++ Gb))) as -> by (rewrite !fmap_app, fmap_cons; cbn [g g_span]; solve_Permutation).
    apply NoDup_cons. split; [|by eapply spans_nodup]. intros Hin. apply Ns. unfold blocks. rewrite !elem_of_cons, !elem_of_app. tauto. }
  rewrite run_bind. destruct (insert_span_ok st v x (quantum x) (vspans s) Ga g Gb Ca1 ltac:(by rewrite Ev) V6 Hs0 Hnd ltac:(tauto) Es) as (m' & Ei & Hsr).
  change (g_span g) with sp in Ei. rewrite Ei, run_bind. set (st1 := set_vspans m' _). rewrite updb_ok; [| tauto | cbn; rewrite Eb; eexists; apply lookup_insert_eq]. rewrite run_bind. set (st2 := set_bts _ st1).
  rewrite all_tags_app in V3, V4. erewrite (insert_tag_ok st2 v _ t (all_tags Ga) (all_tags Gb) addr z _ (bts s) Ca1);
    [| cbn; apply lookup_insert_eq | exact V3 | exact V4 | tauto | | | reflexivity].
  2: { rewrite <- all_tags_app. intros Hin. apply Nt. apply elem_of_cons. right. unfold blocks. rewrite !elem_of_cons, !elem_of_app. tauto. }
  2: { cbn. unfold updm. destruct (Z.eqb_spec t NULL); [tauto |]. rewrite Eb. erewrite (alter_insert_of_Some _ _ _ raw_bt) by apply lookup_insert_eq. by rewrite insert_insert_eq. }
  rewrite run_bind. set (st3 := set_bts _ _). set (x' := set_tags _ _) in *.
  destruct (vmem_add_rep s st3 v x x' Ga Gb C F frame sp h t addr z Hr Hpl) as (s' & C' & F' & -> & Hr'); try done.
  - cbn. apply lookup_insert_eq.
  - cbn. rewrite Ea. apply lookup_insert_eq.
  - intros k Hk. cbn. rewrite Ea. by rewrite lookup_insert_ne by congruence.
  - cbn. by rewrite Em.
  - by exists s', x', C', F'.
Qed.

(** The span is added, or memory ran out and nothing changed. *)
Lemma vmem_add_ok s v x Ga Gb C F frame addr z flag : vm_rep s v x (Ga ++ Gb) C F frame -> placed (quantum x) Ga Gb addr z -> z / quantum x * 4 < two32 ->
  (exists s', vmem_add v addr z flag s = Ok (NULL, s') /\ vm_rep s' v x (Ga ++ Gb) C F frame) \/
  exists s' x' sp h t C' F', vmem_add v addr z flag s = Ok (addr, s') /\ quantum x' = quantum x /\
    vm_rep s' v x' (Ga ++ Group sp addr z h [(t, Seg addr z false)] :: Gb) C' F' frame.
Proof.
  intros Hr Hpl Hn4. pose proof Hr as [V1 V2 V3 V4 V5 V6 V7 V8 V9 V10 V11]. pose proof V1 as [Ca1 Ca2 Hq _ _ _ _]. destruct (add_searches s v x Ga Gb C F frame addr z Hr Hpl) as [Es Et].
  pose proof Hpl as [P1 P2 P3 P4 P5 P6]. assert (0 <= z / quantum x) as Hn0 by (apply Z.div_pos; lia). assert (z mod quantum x = 0) as Hm by (by apply Z.mod_divide; [lia |]).
  remember (vmem_add v addr z flag s) as r eqn:Er. unfold vmem_add in Er. rewrite run_bind, (ldv_ok _ _ _ Ca1 Ca2), run_bind in Er. unfold massert at 1, liftO at 1 in Er.
  rewrite kassert_true, run_bind in Er by lia. unfold liftO at 1 in Er. rewrite umod_pos, Hm, run_bind in Er by done. unfold massert at 1, liftO at 1 in Er.
  rewrite kassert_true, run_bind in Er by done. unfold massert at 1, liftO at 1 in Er. rewrite u32_small, kassert_true, run_bind in Er by (unfold is_u32; lia).
  unfold getS at 1 in Er. rewrite run_bind, Es, run_bind in Er.
  destruct (malloc_block_cases s 20 _ frame V11) as [(a1 & E1 & O1)|(sp & a1 & E1 & Hsp & Nsp & O1)]; rewrite E1 in Er.
  { left. exists (set_vmm a1 s). split; [exact Er |]. by apply (vm_rep_frame s). }
  destruct (Z.eqb_spec sp NULL) as [|_]; [done |]. rewrite run_bind in Er. unfold liftO at 1 in Er. rewrite udiv_pos, run_bind in Er by done.
  destruct (malloc_array_cases (set_vmm a1 s) (z / quantum x) _ frame O1 Hn0 Hn4) as [(a2 & E2 & O2)|(h & a2 & E2 & Hh & Nh & O2)]; rewrite E2 in Er.
  { left. destruct (free_block_ok (set_vmm a2 (set_vmm a1 s)) sp _ frame O2) as (a3 & E3 & O3). exists (set_vmm a3 s). change (NULL =? NULL) with true in Er. cbn iota in Er.
    rewrite run_bind, E3 in Er. split; [exact Er |]. by apply (vm_rep_frame s). }
  destruct (Z.eqb_spec h NULL) as [|_]; [done |]. do 2 (rewrite run_bind in Er; unfold modifyS at 1 in Er). rewrite run_bind in Er. unfold getS at 1 in Er. rewrite run_bind in Er.
  set (st := set_arrays _ (set_vspans _ _)) in *. rewrite (Et st eq_refl), run_bind in Er.
  destruct (malloc_bt_cases st _ frame O2) as [(a3 & E3 & O3)|(t & a3 & Ht & Nt & E3 & O3)]; rewrite E3 in Er.
  - left. change (NULL =? NULL) with true in Er. cbn iota in Er. destruct (free_array_ok (set_vmm a3 st) h _ frame O3) as (a4 & E4 & O4). rewrite run_bind, E4, run_bind in Er.
    destruct (free_span_ok (set_arrays (base.delete h (arrays (set_vmm a3 st))) (set_vmm a4 (set_vmm a3 st))) sp _ frame O4) as (a5 & E5 & O5). rewrite E5 in Er.
    eexists. split; [exact Er |]. apply not_elem_of_cons in Nh as [_ Nh]. apply (vm_rep_frame s); try done; cbn.
    + intros g Hg. assert (g_span g <> sp) as Hne; [|by rewrite lookup_delete_ne, lookup_insert_ne by congruence]. intros <-. apply Nsp. unfold blocks.
      rewrite !elem_of_cons, !elem_of_app. right. right. left. apply list_elem_of_fmap. by exists g.
    + intros k Hk. assert (k <> h) as Hne by (intros ->; done). by rewrite lookup_delete_ne, !lookup_insert_ne by congruence.
  - right. destruct (Z.eqb_spec t NULL) as [|_]; [done |].
    destruct (vmem_add_linked s (set_bts (<[t := raw_bt]> (bts st)) (set_vmm a3 st)) v x Ga Gb C F frame sp h t addr z a3 Hr Hpl) as (s' & x' & C' & F' & E & Eq & Hr'); try done.
    { cbn. by rewrite insert_insert_eq. }
    exists s', x', sp, h, t, C', F'. rewrite Er. by split_and!.
Qed.
End vmem_add.

(** * [vmem_destroy] *)

Section vmem_destroy.
Context {A : Type} `{MmLaws A}.
Implicit Types s : vstate A.

(** The tags [l], linked by their [next] fields. *)
Definition next_rep (h : gmap Z vmem_bt) (l : list Z) : Prop := forall l1 p l2, l = l1 ++ p :: l2 -> exists b, h !! p = Some b /\ b_next b = first_of l2.

Lemma destroy_tags_ok l : forall s rest frame fuel, owns (vmm s) (l ++ rest) frame -> next_rep (bts s) l -> (length l < fuel)%nat ->
  exists h a, destroy_tags fuel (first_of l) s = Ok (tt, set_bts h (set_vmm a s)) /\ owns a rest frame.
Proof.
  induction l as [|p l IH]; intros s rest frame fuel Ho Hn Hf; (destruct fuel as [|fuel]; [lia |]); cbn [destroy_tags first_of].
  - exists (bts s), (vmm s). split; [by destruct s | exact Ho].
  - destruct (Hn [] p l eq_refl) as (b & Hb & En). pose proof (owns_not_null _ _ _ p Ho (list_elem_of_here _ _)) as Hp.
    destruct (Z.eqb_spec p NULL) as [|_]; [done |]. rewrite run_bind, (ldb_ok _ _ _ Hp Hb), run_bind. destruct (free_bt_ok s p (l ++ rest) frame Ho) as (a & -> & Ho').
    rewrite En. destruct (IH (set_vmm a (set_bts (base.delete p (bts s)) s)) rest frame fuel Ho') as (h & a' & E & Ho2); [| simpl in Hf; lia |].
    + intros l1 q l2 ->. destruct (Hn (p :: l1) q l2 eq_refl) as (b' & Hb' & En'). exists b'. split; [|done]. cbn. rewrite lookup_delete_ne; [done |].
      intros <-. destruct Ho as ([Hni _]%NoDup_cons & _). apply Hni, elem_of_app. left. apply elem_of_app. right. by apply elem_of_cons; left.
    + exists h, a'. by rewrite E.
Qed.

Definition span_blocks (G : list group) : list Z := G ≫= fun g => [g_hash g; g_span g].

Lemma destroy_spans_ok q G : forall s rest frame fuel, owns (vmm s) (span_blocks G ++ rest) frame -> spans_rep q (vspans s) G -> (length G < fuel)%nat ->
  exists h m a, destroy_spans fuel (first_of (g_span <$> G)) s = Ok (tt, set_arrays h (set_vspans m (set_vmm a s))) /\ owns a rest frame.
Proof.
  induction G as [|g G IH]; intros s rest frame fuel Ho Hs Hf; (destruct fuel as [|fuel]; [lia |]); cbn [destroy_spans first_of fmap list_fmap].
  - exists (arrays s), (vspans s), (vmm s). split; [by destruct s | exact Ho].
  - destruct (Hs [] g G eq_refl) as [Hn Hg]. destruct (Z.eqb_spec (g_span g) NULL) as [|_]; [done |]. rewrite run_bind, (lds_ok _ _ _ Hn Hg), run_bind. cbn [hash s_next].
    destruct (free_array_ok s (g_hash g) (g_span g :: span_blocks G ++ rest) frame Ho) as (a & -> & Ho'). rewrite run_bind.
    destruct (free_span_ok (set_arrays (base.delete (g_hash g) (arrays s)) (set_vmm a s)) (g_span g) (span_blocks G ++ rest) frame Ho') as (a2 & -> & Ho2).
    set (s2 := set_vspans _ _). destruct (IH s2 rest frame fuel Ho2) as (h & m & a3 & E & Ho3); [| simpl in Hf; lia |].
    + intros G1 k G2 ->. destruct (Hs (g :: G1) k G2 eq_refl) as [Hk Hk2]. split; [done |]. cbn. rewrite lookup_delete_ne; [done |]. intros Ek.
      destruct Ho' as ([Hni _]%NoDup_cons & _). apply Hni, elem_of_app. left. unfold span_blocks. rewrite bind_app, elem_of_app, bind_cons, elem_of_app. right. left.
      rewrite Ek. apply elem_of_cons. right. by apply list_elem_of_singleton.
    + exists h, m, a3. by rewrite E.
Qed.

(** Every block is given back. *)
Lemma vmem_destroy_ok s v x G C F frame : vm_rep s v x G C F frame -> exists s', vmem_destroy v s = Ok (tt, s') /\ mm_live (vmm s') = frame.
Proof.
  intros Hr. pose proof Hr as [V1 V2 V3 V4 V5 V6 V7 V8 V9 V10 V11]. pose proof V1 as [Ca1 Ca2 _ Ca4 _ _ _].
  assert (owns (vmm s) ((all_tags G).*1 ++ span_blocks G ++ [free_cache x; v]) frame) as Ho.
  { eapply owns_perm; [|exact V11]. unfold blocks. assert (span_blocks G ≡ₚ (g_span <$> G) ++ (g_hash <$> G)) as ->.
    { clear. induction G as [|g G IH]; [done |]. unfold span_blocks in *. rewrite bind_cons, IH, !fmap_cons. solve_Permutation. }
    solve_Permutation. }
  unfold vmem_destroy. rewrite run_bind, (ldv_ok _ _ _ Ca1 Ca2), run_bind. unfold getS. rewrite run_bind, V3.
  destruct (destroy_tags_ok (all_tags G).*1 s _ frame (S (base.size (bts s))) Ho) as (h & a & -> & Ho1).
  { intros l1 p l2 E. pose proof V4 as [Hc _]. rewrite E in Hc. apply chain_lookup in Hc. apply (view_Some (fun b => (b_next b, b_prev b))) in Hc as (b & Hb & [= En _]). by exists b. }
  { pose proof V4 as [Hch _]. pose proof (chain_size _ _ Hch) as Hsz. unfold tag_links in Hsz. rewrite map_size_fmap in Hsz. lia. }
  rewrite run_bind, V6. set (s1 := set_bts h _).
  destruct (destroy_spans_ok (quantum x) G s1 _ frame (S (base.size (vspans s))) Ho1) as (h2 & m & a2 & -> & Ho2).
  { intros G1 g G2 E. split; [|by apply (V7 G1 g G2)]. apply (span_not_null s v x G C F frame Hr). rewrite E. apply elem_of_app. right. by apply elem_of_cons; left. }
  { eapply spans_fuel. exact Hr. }
  rewrite run_bind. destruct (Z.eqb_spec (free_cache x) NULL) as [|_]; [done |]. cbn [negb]. set (s2 := set_arrays h2 _).
  destruct (free_array_ok s2 (free_cache x) [v] frame Ho2) as (a3 & -> & Ho3). unfold free_vmem. rewrite run_bind.
  destruct (free_block_ok (set_arrays (base.delete (free_cache x) (arrays s2)) (set_vmm a3 s2)) v [] frame Ho3) as (a4 & -> & Ho4).
  eexists. split; [done |]. destruct Ho4 as (_ & _ & Hl). cbn in Hl |- *. rewrite Hl. set_solver.
Qed.
End vmem_destroy.

(** * [vmem_create] *)

Section vmem_create.
Context {A : Type} `{MmLaws A}.
Implicit Types s : vstate A.

(** An arena without a span. *)
Lemma vm_rep_nil s v x n frame : v <> NULL -> vmems s !! v = Some x -> 0 < quantum x -> free_cache x <> NULL -> arrays s !! free_cache x = Some (replicate n NULL) ->
  cache_bits x = Z.of_nat n -> (forall p b, bts s !! p = Some b -> fl_next b = NULL /\ fl_prev b = NULL) -> source x = NULL -> tags x = NULL -> spans x = NULL ->
  owns (vmm s) [v; free_cache x] frame -> vm_rep s v x [] ∅ (replicate n []) frame.
Proof.
  intros Hv Hx Hq Hc Ha Hb Hfl Hs Ht Hsp Ho. split; try done.
  - split; try done.
    + rewrite Ha. f_equal. by rewrite fmap_replicate.
    + by rewrite length_replicate.
    + split; [| | done |].
      * intros i l Hl. apply lookup_replicate in Hl as [-> _]. apply chain_nil.
      * intros i l p Hl. apply lookup_replicate in Hl as [-> _]. split; [by intros ?%not_elem_of_nil | by intros (sz & ? & _)].
      * intros p y Hy _. unfold fl_links in Hy. rewrite lookup_fmap in Hy. destruct (bts s !! p) as [b|] eqn:Eb; [|done]. injection Hy as <-. by destruct (Hfl p b Eb) as [-> ->].
  - split; [apply chain_nil |]. intros p g Hin. by apply not_elem_of_nil in Hin.
  - intros p sz. split; [done |]. intros (a & Hin & _). by apply not_elem_of_nil in Hin.
  - intros [|k K1] k2 K2 E; done.
  - intros g Hg. by apply not_elem_of_nil in Hg.
  - constructor.
  - intros g Hg. by apply not_elem_of_nil in Hg.
Qed.

(** The arena is created with its first span, or memory ran out and every block was
    given back. *)
Lemma vmem_create_ok s name nm base size q af ff qcache_max flag : 0 < q <= qcache_max -> qcache_max < two32 -> placed q [] [] base size -> size / q * 4 < two32 ->
  kstrncpy (replicate 64 0) name VMEM_NAME_LENGTH = Ok nm -> (forall p b, bts s !! p = Some b -> fl_next b = NULL /\ fl_prev b = NULL) ->
  (exists s', vmem_create name base size q af ff NULL qcache_max flag s = Ok (NULL, s') /\ mm_live (vmm s') = mm_live (vmm s)) \/
  exists v s' x G C F, vmem_create name base size q af ff NULL qcache_max flag s = Ok (v, s') /\ vm_rep s' v x G C F (mm_live (vmm s)) /\
    quantum x = q /\ (fun g => (g_base g, g_size g, (g_tags g).*2)) <$> G = [(base, size, [Seg base size false])].
Proof.
  intros Hq Hqc Hpl Hn4 Hnm Hfl. remember (vmem_create name base size q af ff NULL qcache_max flag s) as r eqn:Er. unfold vmem_create in Er. rewrite run_bind in Er.
  assert (owns (vmm s) [] (mm_live (vmm s))) as O0. { split_and!; [by apply NoDup_nil | intros b Hb; by apply not_elem_of_nil in Hb | set_solver]. }
  assert (forall a, owns a [] (mm_live (vmm s)) -> mm_live a = mm_live (vmm s)) as Hlive by (intros a (_ & _ & ->); set_solver).
  destruct (malloc_block_cases s 104 [] _ O0) as [(a1 & E1 & O1)|(v & a1 & E1 & Hv & _ & O1)]; rewrite E1 in Er.
  { left. exists (set_vmm a1 s). split; [exact Er | by apply Hlive]. }
  destruct (Z.eqb_spec v NULL) as [|_]; [done |]. rewrite run_bind in Er. unfold liftO at 1 in Er. rewrite Hnm, run_bind in Er. unfold liftO at 1 in Er.
  assert (1 <= qcache_max / q) as Hn1 by (apply Z.div_le_lower_bound; lia). assert (qcache_max / q < two32) as Hn2 by (apply Z.div_lt_upper_bound; nia).
  rewrite udiv_pos, run_bind in Er by lia. unfold liftO at 1 in Er. rewrite highbit_ok in Er by lia. set (n := qcache_max / q) in *. pose proof (Z.log2_nonneg n) as Hl0.
  assert (Z.log2 n < 32) as Hl1 by (apply Z.log2_lt_pow2; [lia | exact Hn2]). rewrite Z2Nat.id in Er by done. set (bits := Z.log2 n + 1) in *.
  rewrite run_bind in Er. unfold modifyS at 1 in Er. set (x0 := Vmem nm q qcache_max bits _ _ NULL NULL NULL NULL flag) in *. assert (0 <? bits = true) as Eb by lia. rewrite Eb, run_bind in Er.
  set (s1 := set_vmems _ _) in Er. destruct (malloc_array_cases s1 bits [v] _ O1) as [(a2 & E2 & O2)|(c & a2 & E2 & Hc & _ & O2)]; [lia | change two32 with (2 ^ 32); lia | |]; rewrite E2 in Er.
  { left. change (true && (NULL =? NULL)) with true in Er. cbn iota in Er. unfold free_vmem in Er. rewrite run_bind, run_bind in Er.
    destruct (free_block_ok (set_vmm a2 s1) v [] _ O2) as (a3 & E3 & O3). rewrite E3 in Er. eexists. split; [exact Er | by apply Hlive]. }
  destruct (Z.eqb_spec c NULL) as [|_]; [done |]. cbn [andb] in Er. rewrite run_bind in Er. unfold modifyS at 1 in Er. rewrite run_bind in Er.
  set (x1 := Vmem nm q qcache_max bits (or_static af) (or_static ff) NULL NULL NULL c flag). set (s2 := set_arrays _ (set_arrays _ _)) in Er.
  erewrite (updv_ok s2 v _ x0) in Er by (done || apply lookup_insert_eq). change (Vmem _ _ _ _ _ _ _ _ _ c _) with x1 in Er. set (s3 := set_vmems _ s2) in Er.
  assert (vm_rep s3 v x1 [] ∅ (replicate (Z.to_nat bits) []) (mm_live (vmm s))) as Hr3.
  { apply vm_rep_nil; try done; cbn; [apply lookup_insert_eq | lia | apply lookup_insert_eq | lia |]. eapply owns_perm; [|exact O2]. solve_Permutation. }
  pose proof (pl_size _ _ _ _ _ Hpl) as Hsz. pose proof (pl_base _ _ _ _ _ Hpl) as Hbs. rewrite (proj2 (Z.ltb_lt 0 size) Hsz), run_bind in Er.
  destruct (vmem_add_ok s3 v x1 [] [] ∅ _ _ base size flag Hr3 Hpl Hn4) as [(s4 & E4 & Hr4)|(s4 & x4 & sp & h & t & C4 & F4 & E4 & Eq & Hr4)]; rewrite E4 in Er.
  - left. destruct (Z.eqb_spec NULL base) as [Hb|_]; [unfold NULL in Hb; lia |]. cbn [negb] in Er. rewrite run_bind in Er.
    destruct (vmem_destroy_ok s4 v x1 _ _ _ _ Hr4) as (s5 & E5 & H5). rewrite E5 in Er. by exists s5.
  - right. rewrite Z.eqb_refl in Er. cbn [negb] in Er. eexists v, s4, x4, _, C4, F4. split; [exact Er |]. split; [exact Hr4 |]. by rewrite Eq.
Qed.
End vmem_create.
