(* ===== verification/VmemThms.v ===== *)
(** The arenas of mm/vmem.c as a client sees them: what [vmem_alloc] hands out, what
    [vmem_free] takes back, and what is left after the arena was destroyed. *)
From S2P Require Import Prelude Mm Strings Lists Chain Vmem VmemRep VmemSegs VmemInv VmemFree VmemArena VmemAlloc VmemArenas VmemCreate.

(** The arena at [v], with quantum [q] and without a source, has handed out the
    regions [R]; [frame] are the blocks of the kernel that are not its own. *)
Definition arena_at {A} `{MmSubsystem A} (s : vstate A) (v q : Z) (R : list (Z * Z)) (frame : gset Z) : Prop :=
  exists x G C F, vm_rep s v x G C F frame /\ quantum x = q /\ handed_out G = R.

(** No tag of another arena is in a free list. *)
Definition no_free_lists {A} (s : vstate A) : Prop := forall p b, bts s !! p = Some b -> fl_next b = NULL /\ fl_prev b = NULL.

Section theorems.
Context {A : Type} `{MmLaws A}.
Context (client_afunc client_ffunc : Z -> Z -> Z -> Z -> M (vstate A) Z).
Implicit Types s : vstate A.

(** C12. Every sequence of allocations and releases on an arena without a source refines
    the abstract arena [arena_steps]: an allocation answers a null pointer, or a new
    region of the requested size, rounded up to the quantum, that lies apart from all
    regions handed out before; a release of an address in the first quantum of a
    region takes exactly this region back, and every other address is refused without
    a change.  The regions always lie apart from each other.  The one way not to get
    there is the null pointer of a boundary tag that could not be allocated. *)
Theorem arena_refines s v q R frame fuel cs : arena_at s v q R frame -> Forall (proper q) cs ->
  run_calls client_afunc client_ffunc (S fuel) v cs s = Halt NullDeref \/
  exists rs s' R', run_calls client_afunc client_ffunc (S fuel) v cs s = Ok (rs, s') /\ arena_at s' v q R' frame /\
    arena_steps q R cs rs R' /\ ForallOrdPairs apart R'.
Proof.
  intros (x & G & C & F & Hr & <- & <-) Hcs. destruct (run_calls_ok client_afunc client_ffunc v x frame fuel cs Hcs s G C F Hr) as [E|(rs & s' & G' & C' & F' & E & Hr' & Hs)]; [by left |].
  right. exists rs, s', (handed_out G'). split; [exact E |]. split; [by exists x, G', C', F' |]. split; [exact Hs | by eapply handed_out_apart].
Qed.

(** C13. An allocation from an arena without a source ends in one of three ways: a null
    pointer and no change, because no free segment is as large as the rounded size; a
    dereference of a null pointer, because the chosen segment had to be cut and there
    was no memory for the second tag; or the region at the end of the chosen free
    segment.  With [VMEM_BESTFIT], and without [VMEM_INSTANT], the chosen segment is a
    smallest one that fits. *)
Theorem arena_alloc_serves s v x G C F frame rsize flag fuel : vm_rep s v x G C F frame -> 0 < rsize -> roundup (quantum x) rsize < two32 ->
  let r := vmem_alloc client_afunc client_ffunc (S fuel) v rsize flag s in let sz := roundup (quantum x) rsize in
  (r = Ok (NULL, s) /\ forall p z, ~ fits sz (all_tags G) p z) \/
  (r = Halt NullDeref /\ exists p z, chosen flag sz G p z /\ sz < z) \/
  exists a s' G' C' F', r = Ok (a, s') /\ vm_rep s' v x G' C' F' frame /\ serves flag sz a G G'.
Proof. intros Hr Hs Hlt. by apply (vmem_alloc_run client_afunc client_ffunc s v x G C F frame). Qed.

(** C14. A region that is given back after its allocation leaves the same spans with the
    same segments as before: the free neighbours have melted together again. *)
Theorem arena_alloc_free_roundtrip s v x G C F frame rsize flag fuel a s1 size fuel' : vm_rep s v x G C F frame -> 0 < rsize -> roundup (quantum x) rsize < two32 ->
  vmem_alloc client_afunc client_ffunc (S fuel) v rsize flag s = Ok (a, s1) -> a <> NULL ->
  exists s2 G2 C2 F2, vmem_free client_ffunc (S fuel') v a size s1 = Ok (a, s2) /\ vm_rep s2 v x G2 C2 F2 frame /\ layout G2 = layout G.
Proof. intros Hr Hs Hlt Ha Hn. by apply (alloc_free_layout client_afunc client_ffunc s v x G C F frame rsize flag fuel a s1 size fuel'). Qed.

(** C15. An arena does not leak: [vmem_create] answers a null pointer with every block
    given back, or a new arena with nothing handed out; and after any sequence of
    allocations and releases that ends, [vmem_destroy] gives every block back that
    the arena ever took. *)
Theorem arena_lifecycle s name nm base size q af ff qcache_max flag fuel cs : 0 < q <= qcache_max -> qcache_max < two32 ->
  placed q [] [] base size -> size / q * 4 < two32 -> kstrncpy (replicate 64 0) name VMEM_NAME_LENGTH = Ok nm -> no_free_lists s -> Forall (proper q) cs ->
  exists v s1, vmem_create name base size q af ff NULL qcache_max flag s = Ok (v, s1) /\
  (v = NULL -> mm_live (vmm s1) = mm_live (vmm s)) /\
  (v <> NULL -> arena_at s1 v q [] (mm_live (vmm s)) /\
     forall rs s2, run_calls client_afunc client_ffunc (S fuel) v cs s1 = Ok (rs, s2) ->
       exists s3 R, arena_steps q [] cs rs R /\ vmem_destroy v s2 = Ok (tt, s3) /\ mm_live (vmm s3) = mm_live (vmm s)).
Proof.
  intros Hq Hqc Hpl Hn4 Hnm Hfl Hcs.
  destruct (vmem_create_ok s name nm base size q af ff qcache_max flag Hq Hqc Hpl Hn4 Hnm Hfl) as [(s1 & E & Hl)|(v & s1 & x & G & C & F & E & Hr & <- & Hg)].
  - exists NULL, s1. by split_and!.
  - exists v, s1. split; [exact E |]. pose proof (ca_v _ _ _ _ _ (vr_caches _ _ _ _ _ _ _ Hr)) as Hv. split; [done |]. intros _.
    assert (handed_out G = []) as Hh.
    { destruct G as [|g [|]]; try done. injection Hg as _ _ Et. unfold handed_out, all_tags. simpl. by rewrite app_nil_r, Et. }
    split; [by exists x, G, C, F |]. intros rs s2 Ec.
    destruct (run_calls_ok client_afunc client_ffunc v x _ fuel cs Hcs s1 G C F Hr) as [E2|(rs' & s2' & G' & C' & F' & E2 & Hr' & Hs)]; rewrite E2 in Ec; [done |].
    injection Ec as <- <-. destruct (vmem_destroy_ok s2' v x G' C' F' _ Hr') as (s3 & E3 & H3). exists s3, (handed_out G'). by rewrite <- Hh.
Qed.
End theorems.

(** ** A concrete arena *)

Definition no_client : Z -> Z -> Z -> Z -> M (vstate arena) Z := fun _ _ _ _ => mret NULL.

(** Memory with [n] blocks left. *)
Definition memory_of (n : nat) : vstate arena := VState ∅ ∅ ∅ ∅ (arena0 n).

(** An arena "a" over [4096, 8192) in units of 256 bytes. *)
Definition create_sample : M (vstate arena) Z := vmem_create [97; 0] 4096 4096 256 0 0 NULL 2048 0.

Lemma sample_placed : placed 256 [] [] 4096 4096.
Proof.
  split; try (by compute); [by exists 16 | |]; intros g Hg; by apply not_elem_of_nil in Hg.
Qed.

Lemma sample_arena n v s1 : create_sample (memory_of n) = Ok (v, s1) -> v <> NULL -> exists x G C F, vm_rep s1 v x G C F ∅ /\ quantum x = 256 /\ handed_out G = [].
Proof.
  intros E Hv. destruct (vmem_create_ok (memory_of n) [97; 0] _ 4096 4096 256 0 0 2048 0 ltac:(lia) ltac:(by compute) sample_placed ltac:(by compute) eq_refl)
    as [(s' & E' & _)|(v' & s' & x & G & C & F & E' & Hr & Hq & Hg)].
  - intros p b Hb. done.
  - unfold create_sample in E. rewrite E' in E. by injection E as <- _.
  - unfold create_sample in E. rewrite E' in E. injection E as <- <-. exists x, G, C, F. replace (∅ : gset Z) with (mm_live (vmm (memory_of n))).
    + split_and!; try done. destruct G as [|g [|]]; try done. injection Hg as _ _ Et. unfold handed_out, all_tags. simpl. by rewrite app_nil_r, Et.
    + cbn. set_solver.
Qed.

Definition sample_state (n : nat) : vstate arena := match create_sample (memory_of n) with Ok (_, s) => s | Halt _ => memory_of n end.

Lemma sample_created : create_sample (memory_of 7) = Ok (1, sample_state 7) /\ create_sample (memory_of 5) = Ok (1, sample_state 5).
Proof. by vm_compute. Qed.

Lemma ok_pair_inj {B} (a b : B) (s s' : vstate arena) : Ok (a, s) = Ok (b, s') -> a = b /\ s = s'.
Proof. by intros [= -> ->]. Qed.

(** The chosen segment has to be cut, but there is no memory for the second tag:
    [vmem_alloc] writes through the null pointer of [vmem_al_splittag]. *)
Example split_without_memory : vmem_alloc no_client no_client 3 1 300 0 (sample_state 5) = Halt NullDeref.
Proof. by vm_compute. Qed.

Lemma sample7 : exists x G C F, vm_rep (sample_state 7) 1 x G C F ∅ /\ quantum x = 256 /\ handed_out G = [].
Proof. apply (sample_arena 7 1); [by vm_compute | done]. Qed.

Definition sample_calls : list call := [Take 300 0; Take 256 VMEM_BESTFIT; Give 7936 0; Give 7680 300; Give 5000 0].

Lemma arena_refines_witness : exists rs s' R', run_calls no_client no_client 3 1 sample_calls (sample_state 7) = Ok (rs, s') /\
  rs = [7680; 7424; NULL; 7680; NULL] /\ arena_at s' 1 256 R' ∅ /\ arena_steps 256 [] sample_calls rs R'.
Proof.
  destruct (arena_refines no_client no_client (sample_state 7) 1 256 [] ∅ 2 sample_calls) as [E|(rs & s' & R' & E & H1 & H2 & _)].
  - destruct sample7 as (x & G & C & F & Hr & Hq & Hg). by exists x, G, C, F.
  - unfold sample_calls. repeat constructor.
  - exfalso. revert E. vm_compute. discriminate.
  - exists rs, s', R'. split; [exact E |]. split; [|by split]. revert E. clear.
    assert ((run_calls no_client no_client 3 1 sample_calls (sample_state 7) ≫= fun r => Ok r.1) = Ok [7680; 7424; NULL; 7680; NULL]) as Hc by by vm_compute.
    intros E. rewrite E in Hc. by injection Hc.
Defined.

Lemma arena_alloc_serves_witness : exists x a s' G G' C' F',
  vmem_alloc no_client no_client 3 1 300 VMEM_BESTFIT (sample_state 7) = Ok (a, s') /\ vm_rep s' 1 x G' C' F' ∅ /\ serves VMEM_BESTFIT 512 a G G'.
Proof.
  destruct sample7 as (x & G & C & F & Hr & Hq & Hg).
  destruct (arena_alloc_serves no_client no_client (sample_state 7) 1 x G C F ∅ 300 VMEM_BESTFIT 2 Hr) as [[E _]|[[E _]|(a & s' & G' & C' & F' & E & Hr' & Hs)]].
  - done.
  - rewrite Hq. by vm_compute.
  - exfalso. revert E. vm_compute. discriminate.
  - exfalso. revert E. vm_compute. discriminate.
  - exists x, a, s', G, G', C', F'. split; [exact E |]. split; [exact Hr' |]. rewrite Hq in Hs. exact Hs.
Defined.

Lemma arena_alloc_free_roundtrip_witness : exists x G C F s1 s2 G2 C2 F2, vm_rep (sample_state 7) 1 x G C F ∅ /\
  vmem_alloc no_client no_client 3 1 300 0 (sample_state 7) = Ok (7680, s1) /\ vmem_free no_client 3 1 7680 300 s1 = Ok (7680, s2) /\
  vm_rep s2 1 x G2 C2 F2 ∅ /\ layout G2 = layout G.
Proof.
  destruct sample7 as (x & G & C & F & Hr & Hq & Hg).
  destruct (vmem_alloc no_client no_client 3 1 300 0 (sample_state 7)) as [[a s1]|f] eqn:E; [|exfalso; revert E; vm_compute; discriminate].
  assert (a = 7680) as ->.
  { assert ((vmem_alloc no_client no_client 3 1 300 0 (sample_state 7) ≫= fun r => Ok r.1) = Ok 7680) as Hc by by vm_compute. rewrite E in Hc. by injection Hc. }
  destruct (arena_alloc_free_roundtrip no_client no_client (sample_state 7) 1 x G C F ∅ 300 0 2 7680 s1 300 2 Hr) as (s2 & G2 & C2 & F2 & E2 & Hr2 & Hl).
  - done.
  - rewrite Hq. by vm_compute.
  - exact E.
  - done.
  - exists x, G, C, F, s1, s2, G2, C2, F2. split; [exact Hr |]. split; [reflexivity |]. split; [exact E2 |]. split; [exact Hr2 | exact Hl].
Defined.

Lemma arena_lifecycle_witness : exists s1, create_sample (memory_of 7) = Ok (1, s1) /\ arena_at s1 1 256 [] ∅ /\
  forall rs s2, run_calls no_client no_client 3 1 sample_calls s1 = Ok (rs, s2) ->
    exists s3 R, arena_steps 256 [] sample_calls rs R /\ vmem_destroy 1 s2 = Ok (tt, s3) /\ mm_live (vmm s3) = ∅.
Proof.
  assert (mm_live (vmm (memory_of 7)) = ∅) as Hl by (cbn; set_solver).
  destruct (arena_lifecycle no_client no_client (memory_of 7) [97; 0] (97 :: replicate 63 0) 4096 4096 256 0 0 2048 0 2 sample_calls) as (v & s1 & E & _ & Hc).
  - lia.
  - by vm_compute.
  - exact sample_placed.
  - by vm_compute.
  - by vm_compute.
  - intros p b Hb. done.
  - unfold sample_calls. repeat constructor.
  - pose proof (proj1 sample_created) as E1. unfold create_sample in E1. rewrite E in E1. apply ok_pair_inj in E1 as [-> ->]. rewrite Hl in Hc.
    assert (1 <> NULL) as Hn by (unfold NULL; lia). specialize (Hc Hn). exists (sample_state 7). split; [exact (proj1 sample_created) | exact Hc].
Defined.
