(* ===== verification/IQueue.v ===== *)
(** The growable circular queue of integers (ds/iqueue.c), with the buffers it
    takes from and gives back to the memory subsystem. *)
From S2P Require Import Prelude Mm.

Definition IQUEUE_NOGROW : Z := 1.
Definition IQUEUE_NOSHRINK : Z := 2.

(** [struct iqueue]; [cells] is the block that [queue] points to, an integer per
    cell, [None] before its first write. *)
Record iqueue := IQueue {
  initial : Z; grow : Z; size : Z; start : Z; count : Z;
  queue : Z; cells : list (option Z)
}.

(** The block returned by [(int* )kmalloc( bytes )]. *)
Definition int_block (bytes : Z) : list (option Z) := replicate (Z.to_nat (bytes / 4)) None.

Definition queue_get (iq : iqueue) (i : Z) : outcome Z :=
  if queue iq =? NULL then Halt NullDeref
  else c ← aget (cells iq) i; match c with Some v => Ok v | None => Halt Uninit end.

(** [iqueue_create]: the address of the structure with its contents, or [None]. *)
Definition iqueue_create `{MmSubsystem A} (initial_size grow_size : Z) (a : A)
    : outcome (option (Z * iqueue) * A) :=
  let '(p, a) := kmalloc 24 a in
  if p =? NULL then Ok (None, a)
  else if 0 <? initial_size then
    let bytes := u32 (4 * initial_size) in
    let '(q, a) := kmalloc bytes a in
    if q =? NULL then a ← kfree p a; Ok (None, a)
    else Ok (Some (p, IQueue initial_size grow_size initial_size 0 0 q (int_block bytes)), a)
  else Ok (Some (p, IQueue initial_size grow_size initial_size 0 0 NULL []), a).

(** [iqueue_destroy] of the structure at address [p]. *)
Definition iqueue_destroy `{MmSubsystem A} (p : Z) (iq : iqueue) (a : A) : outcome A :=
  kassert (negb (p =? NULL)) ;;
  a ← (if negb (queue iq =? NULL) then kfree (queue iq) a else Ok a);
  kfree p a.

(** The copy loop shared by growing and shrinking: [n] more cells from index [i]. *)
Fixpoint iqueue_copy (n : nat) (i : Z) (iq : iqueue) (new_queue : list (option Z))
    : outcome (list (option Z)) :=
  match n with
  | O => Ok new_queue
  | S n =>
      k ← umod (u32 (start iq + i)) (size iq);
      v ← queue_get iq k;
      new_queue ← aset new_queue i (Some v);
      iqueue_copy n (i + 1) iq new_queue
  end.

(** The reallocation to [new_size] cells, shared by growing and shrinking; [None]
    when the block is refused. *)
Definition iqueue_resize `{MmSubsystem A} (new_size : Z) (iq : iqueue) (a : A)
    : outcome (option iqueue * A) :=
  let bytes := u32 (u32 new_size * 4) in
  let '(q, a) := kmalloc bytes a in
  if q =? NULL then Ok (None, a)
  else
    new_queue ← iqueue_copy (Z.to_nat (count iq)) 0 iq (int_block bytes);
    a ← kfree (queue iq) a;
    Ok (Some (IQueue (initial iq) (grow iq) (u32 new_size) 0 (count iq) q new_queue), a).

(** The store [iq->queue[ (iq->start + iq->count++) % iq->size ] = num]. *)
Definition iqueue_put (iq : iqueue) (num : Z) : outcome iqueue :=
  k ← umod (u32 (start iq + count iq)) (size iq);
  if queue iq =? NULL then Halt NullDeref
  else
    c ← aset (cells iq) k (Some num);
    Ok (IQueue (initial iq) (grow iq) (size iq) (start iq) (u32 (count iq + 1)) (queue iq) c).

Definition iqueue_add `{MmSubsystem A} (iq : iqueue) (num iqflags : Z) (a : A)
    : outcome (Z * iqueue * A) :=
  if size iq =? count iq then
    if (grow iq =? 0) || (Z.land iqflags IQUEUE_NOGROW =? IQUEUE_NOGROW) then Ok (-1, iq, a)
    else
      '(r, a) ← iqueue_resize (size iq + grow iq) iq a;
      match r with
      | None => Ok (-1, iq, a)
      | Some iq => iq ← iqueue_put iq num; Ok (0, iq, a)
      end
  else iq ← iqueue_put iq num; Ok (0, iq, a).

Definition iqueue_next `{MmSubsystem A} (iq : iqueue) (iqflags : Z) (a : A)
    : outcome (Z * iqueue * A) :=
  kassert (0 <? count iq) ;;
  rc ← queue_get iq (start iq);
  st ← umod (u32 (start iq + 1)) (size iq);
  let iq := IQueue (initial iq) (grow iq) (size iq) st (count iq - 1) (queue iq) (cells iq) in
  if negb (grow iq =? 0) && negb (Z.land iqflags IQUEUE_NOSHRINK =? IQUEUE_NOSHRINK) then
    if (initial iq <? size iq) && (count iq mod grow iq =? 0) then
      '(r, a) ← iqueue_resize (size iq - grow iq) iq a;
      match r with
      | None => Ok (rc, iq, a)
      | Some iq => Ok (rc, iq, a)
      end
    else Ok (rc, iq, a)
  else Ok (rc, iq, a).

Definition iqueue_count (iq : iqueue) : Z := s32 (count iq).

(** * Representation *)

(** [cells] of the queue in order, as options. *)
Definition iq_ring (iq : iqueue) : list (option Z) :=
  ring (cells iq) (Z.to_nat (start iq)) (Z.to_nat (count iq)).

(** The structure is consistent and holds the integers [l], oldest first. *)
Definition iq_rep (iq : iqueue) (l : list Z) : Prop :=
  0 <= initial iq <= size iq /\ 0 <= grow iq /\ size iq < 1073741824 /\
  Z.of_nat (length (cells iq)) = size iq /\
  (0 < size iq -> 0 <= start iq < size iq /\ queue iq <> NULL) /\
  0 <= count iq <= size iq /\ 0 <= start iq /\
  iq_ring iq = Some <$> l.

(** The sizes the queue passes through are multiples of its growth step. *)
Definition iq_even (iq : iqueue) : Prop :=
  grow iq = 0 \/ ((grow iq | initial iq) /\ (grow iq | size iq)).

(** Growing once more keeps the byte count below 2^32. *)
Definition iq_room (iq : iqueue) : Prop := size iq + grow iq < 1073741824.

(** The queue owns its block: the live set is the frame and the block. *)
Definition iq_owns `{MmSubsystem A} (iq : iqueue) (a : A) (frame : gset Z) : Prop :=
  (queue iq = NULL /\ mm_live a = frame) \/
  (queue iq <> NULL /\ queue iq ∉ frame /\ mm_live a = {[queue iq]} ∪ frame).

Section iqueue_facts.
Context {A : Type} `{MmLaws A}.
Implicit Types (iq : iqueue) (a : A) (l : list Z).

Lemma iq_rep_length iq l : iq_rep iq l -> Z.of_nat (length l) = count iq.
Proof.
  intros (Hi & Hg & Hs & Hl & Hst & Hc & Hst0 & Hr).
  destruct (decide (count iq = 0)) as [E|E].
  - unfold iq_ring in Hr. rewrite E in Hr. destruct l; [done | discriminate].
  - apply (f_equal length) in Hr. rewrite length_fmap in Hr.
    rewrite <- Hr. unfold iq_ring. rewrite length_ring; lia.
Qed.

Lemma iq_index iq i : 0 < size iq < 1073741824 -> 0 <= start iq < size iq ->
  0 <= i <= size iq ->
  umod (u32 (start iq + i)) (size iq) =
    Ok (Z.of_nat ((Z.to_nat (start iq) + Z.to_nat i) mod Z.to_nat (size iq))).
Proof.
  intros Hs Hst Hi. rewrite u32_small by (unfold is_u32, two32; lia).
  rewrite umod_pos by lia.
  rewrite Nat2Z.inj_mod, Nat2Z.inj_add, !Z2Nat.id by lia. done.
Qed.

Lemma iq_ring_get iq l k v : iq_rep iq l -> l !! k = Some v ->
  cells iq !! ((Z.to_nat (start iq) + k) mod Z.to_nat (size iq))%nat = Some (Some v).
Proof.
  intros Hrep Hk. pose proof (iq_rep_length _ _ Hrep) as Hlen.
  pose proof (lookup_lt_Some _ _ _ Hk).
  destruct Hrep as (Hi & Hg & Hs & Hl & Hst & Hc & Hst0 & Hr).
  assert (iq_ring iq !! k = Some (Some v)) as Hx by (rewrite Hr, list_lookup_fmap, Hk; done).
  unfold iq_ring in Hx. rewrite ring_lookup in Hx by lia.
  by replace (Z.to_nat (size iq)) with (length (cells iq)) by lia.
Qed.

Lemma iqueue_copy_spec iq l n i done_ rest :
  iq_rep iq l -> (n + i = length l)%nat -> length done_ = i -> (n <= length rest)%nat ->
  iqueue_copy n (Z.of_nat i) iq (done_ ++ rest) =
    Ok (done_ ++ (Some <$> drop i l) ++ drop n rest).
Proof.
  intros Hrep. pose proof (iq_rep_length _ _ Hrep) as Hlen.
  pose proof Hrep as (Hi & Hg & Hs & Hl & Hst & Hc & Hst0 & Hr).
  revert i done_ rest. induction n as [|n IH]; intros i done_ rest Hn Hd Hrest; simpl.
  - rewrite drop_ge by lia. done.
  - assert (is_Some (l !! i)) as [v Hv] by (apply lookup_lt_is_Some_2; lia).
    rewrite iq_index by lia. cbn [mbind outcome_bind].
    unfold queue_get. destruct (Z.eqb_spec (queue iq) NULL) as [E|E]; [destruct Hst; lia || done |].
    rewrite Nat2Z.id. erewrite aget_nat by (eapply iq_ring_get; done).
    cbn [mbind outcome_bind].
    destruct rest as [|c rest]; [simpl in Hrest; lia |].
    rewrite aset_lt by (rewrite length_app; simpl; lia). cbn [mbind outcome_bind].
    rewrite Nat2Z.id. replace i with (length done_ + 0)%nat at 2 by lia.
    rewrite insert_app_r. simpl.
    replace (Z.of_nat i + 1) with (Z.of_nat (S i)) by lia.
    rewrite (cons_middle (Some v)), app_assoc, (IH (S i)) by (rewrite ?length_app; simpl in *; lia).
    rewrite (drop_S _ _ _ Hv). simpl. by rewrite <- !app_assoc.
Qed.

Lemma int_block_length n : 0 <= n < 1073741824 ->
  length (int_block (u32 (u32 n * 4))) = Z.to_nat n.
Proof.
  intros Hn. unfold int_block. rewrite length_replicate.
  rewrite (u32_small n), u32_small by (unfold is_u32, two32; lia).
  by rewrite Z.div_mul.
Qed.

(** A resize to at least the current population keeps the contents, moves the
    queue to a fresh block and gives the old one back. *)
Lemma iqueue_resize_spec iq l ns a frame :
  iq_rep iq l -> iq_owns iq a frame -> count iq <= ns < 1073741824 -> initial iq <= ns ->
  exists r a', iqueue_resize ns iq a = Ok (r, a') /\
  match r with
  | None => mm_live a' = mm_live a
  | Some iq' => iq_rep iq' l /\ iq_owns iq' a' frame /\ size iq' = ns /\ count iq' = count iq /\
      start iq' = 0 /\ initial iq' = initial iq /\ grow iq' = grow iq
  end.
Proof.
  intros Hrep Hown Hns Hini. pose proof (iq_rep_length _ _ Hrep) as Hlen.
  pose proof Hrep as (Hi & Hg & Hs & Hl & Hst & Hc & Hst0 & Hr).
  unfold iqueue_resize. destruct (kmalloc (u32 (u32 ns * 4)) a) as [q a1] eqn:Hm.
  apply kmalloc_cases in Hm. destruct (Z.eqb_spec q NULL) as [E|E].
  - destruct Hm as [[_ Hm]|[? _]]; [|done]. by exists None, a1.
  - destruct Hm as [[? _]|(_ & Hq & Hm)]; [done |].
    pose proof (iqueue_copy_spec iq l (length l) 0 [] (int_block (u32 (u32 ns * 4))) Hrep) as Hcp.
    rewrite int_block_length in Hcp by lia.
    change ([] ++ ?x) with x in Hcp. change (Z.of_nat 0) with 0 in Hcp.
    replace (Z.to_nat (count iq)) with (length l) by lia.
    rewrite Hcp by (done || lia). clear Hcp. cbn [mbind outcome_bind]. rewrite drop_0.
    set (cl := (Some <$> l) ++ drop (length l) (int_block (u32 (u32 ns * 4)))).
    assert (length cl = Z.to_nat ns) as Hcl.
    { unfold cl. rewrite length_app, length_fmap, length_drop, int_block_length; lia. }
    assert (exists a2, kfree (queue iq) a1 = Ok a2 /\ q ∉ frame /\ mm_live a2 = {[q]} ∪ frame)
      as (a2 & -> & Hqf & Hl2).
    { destruct Hown as [[-> Hf]|(Hn & Hnf & Hf)].
      - exists a1. rewrite kfree_null, Hm, Hf. split_and!; [done | by rewrite <- Hf | done].
      - destruct (kfree_live (queue iq) a1) as (a2 & ? & Hl2); [rewrite Hm, Hf; set_solver |].
        exists a2. rewrite Hm, Hf in Hl2. rewrite Hf in Hq. split_and!; [done | set_solver |].
        rewrite Hl2. set_solver. }
    cbn [mbind outcome_bind]. eexists _, _. split; [done |]. simpl.
    rewrite u32_small by (unfold is_u32, two32; lia).
    split_and!; try done; [|by right].
    unfold iq_rep, iq_ring. simpl. split_and!; try done; try lia.
    rewrite ring_take by lia. replace (Z.to_nat (count iq)) with (length (Some <$> l))
      by (rewrite length_fmap; lia).
    unfold cl. by rewrite take_app_length.
Qed.

Lemma iqueue_put_spec iq l num : iq_rep iq l -> count iq < size iq ->
  exists iq', iqueue_put iq num = Ok iq' /\ iq_rep iq' (l ++ [num]) /\
    size iq' = size iq /\ initial iq' = initial iq /\ grow iq' = grow iq /\
    queue iq' = queue iq.
Proof.
  intros Hrep Hlt. pose proof Hrep as (Hi & Hg & Hs & Hl & Hst & Hc & Hst0 & Hr).
  unfold iqueue_put. rewrite iq_index by lia. cbn [mbind outcome_bind].
  destruct (Z.eqb_spec (queue iq) NULL) as [E|E]; [destruct Hst; lia || done |].
  assert (Z.to_nat (size iq) = length (cells iq)) as Hsz by lia. rewrite Hsz.
  pose proof (Nat.mod_upper_bound (Z.to_nat (start iq) + Z.to_nat (count iq)) (length (cells iq))).
  rewrite aset_lt by lia. cbn [mbind outcome_bind]. rewrite Nat2Z.id.
  rewrite u32_small by (unfold is_u32, two32; lia).
  eexists. split; [done |]. simpl. split_and!; try done.
  unfold iq_rep, iq_ring. simpl. rewrite length_insert. split_and!; try done; try lia.
  replace (Z.to_nat (count iq + 1)) with (S (Z.to_nat (count iq))) by lia.
  rewrite ring_snoc by lia. rewrite fmap_app. f_equal. done.
Qed.
End iqueue_facts.

(** [iqueue_add] on a consistent queue either appends [num] and returns 0,
    or returns -1 with the queue unchanged, and then only because it is full
    and may not or can not grow; the growth replaces the queue's block by a
    fresh one without leaking the old. *)
Theorem iqueue_add_appends {A} `{MmLaws A} iq l num flags (a : A) frame :
  iq_rep iq l -> iq_even iq -> iq_room iq -> iq_owns iq a frame ->
  exists rc iq' a', iqueue_add iq num flags a = Ok (rc, iq', a') /\
  iq_even iq' /\ iq_owns iq' a' frame /\
  ((rc = 0 /\ iq_rep iq' (l ++ [num])) \/
   (rc = -1 /\ iq' = iq /\ Z.of_nat (length l) = size iq)).
Proof.
  intros Hrep Hev Hroom Hown. pose proof (iq_rep_length _ _ Hrep) as Hlen.
  pose proof Hrep as (Hi & Hg & Hs & Hl & Hst & Hc & Hst0 & Hr).
  unfold iqueue_add, iq_room in *. destruct (Z.eqb_spec (size iq) (count iq)) as [E|E].
  - destruct (Z.eqb_spec (grow iq) 0) as [Eg|Eg]; simpl.
    { do 3 eexists. split; [done |]. split_and!; [done | done | right; split_and!; (done || lia)]. }
    destruct (Z.land flags IQUEUE_NOGROW =? IQUEUE_NOGROW).
    { do 3 eexists. split; [done |]. split_and!; [done | done | right; split_and!; (done || lia)]. }
    destruct (iqueue_resize_spec iq l (size iq + grow iq) a frame) as (r & a' & -> & Hr'); try (done || lia).
    cbn [mbind outcome_bind]. destruct r as [iq1|].
    + destruct Hr' as (Hrep1 & Hown1 & Hs1 & Hc1 & Hst1 & Hi1 & Hg1).
      destruct (iqueue_put_spec iq1 l num) as (iq2 & -> & Hrep2 & Hs2 & Hi2 & Hg2 & Hq2); [done | lia |].
      cbn [mbind outcome_bind]. do 3 eexists. split; [done |]. split_and!; [| |by left].
      * right. destruct Hev as [|[Hev1 Hev2]]; [done |]. rewrite Hi2, Hi1, Hg2, Hg1, Hs2, Hs1.
        split; [done | by apply Z.divide_add_r].
      * unfold iq_owns. by rewrite Hq2.
    + do 3 eexists. split; [done |]. split_and!; [done | | right; split_and!; (done || lia)].
      unfold iq_owns. by rewrite Hr'.
  - destruct (iqueue_put_spec iq l num) as (iq2 & -> & Hrep2 & Hs2 & Hi2 & Hg2 & Hq2); [done | lia |].
    cbn [mbind outcome_bind]. do 3 eexists. split; [done |]. split_and!; [| |by left].
    + unfold iq_even. by rewrite Hi2, Hg2, Hs2.
    + unfold iq_owns. by rewrite Hq2.
Qed.

(** The queue after the head has been taken, before any shrinking. *)
Lemma iq_rep_advance iq v l st : iq_rep iq (v :: l) ->
  st = Z.of_nat ((Z.to_nat (start iq) + Z.to_nat 1) mod Z.to_nat (size iq)) ->
  iq_rep (IQueue (initial iq) (grow iq) (size iq) st (count iq - 1) (queue iq) (cells iq)) l.
Proof.
  intros Hrep ->. pose proof (iq_rep_length _ _ Hrep) as Hlen. simpl in Hlen.
  pose proof (iq_ring_get iq _ 0%nat v Hrep eq_refl) as Hv.
  destruct Hrep as (Hi & Hg & Hs & Hl & Hst & Hc & Hst0 & Hr).
  rewrite Nat.add_0_r, Nat.mod_small in Hv by lia.
  assert (Z.to_nat (size iq) = length (cells iq)) as Hsz by lia.
  pose proof (Nat.mod_upper_bound (Z.to_nat (start iq) + Z.to_nat 1) (Z.to_nat (size iq))).
  unfold iq_rep, iq_ring. simpl. split_and!; try done; try lia.
  unfold iq_ring in Hr. replace (Z.to_nat (count iq)) with (S (Z.to_nat (count iq - 1))) in Hr by lia.
  rewrite (ring_head _ _ _ (Some v)) in Hr by (done || lia).
  simpl in Hr. injection Hr as Hr. rewrite Nat2Z.id, Hsz. done.
Qed.

(** [iqueue_next] on a consistent non-empty queue whose size stays a multiple
    of its growth step returns the oldest integer and leaves the rest in order,
    whether it keeps, shrinks or fails to shrink its block, without leaking. *)
Theorem iqueue_next_takes_head {A} `{MmLaws A} iq v l flags (a : A) frame :
  iq_rep iq (v :: l) -> iq_even iq -> iq_owns iq a frame ->
  exists iq' a', iqueue_next iq flags a = Ok (v, iq', a') /\
  iq_rep iq' l /\ iq_even iq' /\ iq_owns iq' a' frame.
Proof.
  intros Hrep Hev Hown. pose proof (iq_rep_length _ _ Hrep) as Hlen. simpl in Hlen.
  pose proof (iq_ring_get iq _ 0%nat v Hrep eq_refl) as Hv.
  pose proof Hrep as (Hi & Hg & Hs & Hl & Hst & Hc & Hst0 & Hr).
  rewrite Nat.add_0_r, Nat.mod_small in Hv by lia.
  unfold iqueue_next. rewrite kassert_true by lia. cbn [mbind outcome_bind].
  unfold queue_get. destruct (Z.eqb_spec (queue iq) NULL) as [E|E]; [destruct Hst; lia || done |].
  assert (aget (cells iq) (start iq) = Ok (Some v)) as -> by (apply aget_Some; split; [lia | done]).
  cbn [mbind outcome_bind]. rewrite iq_index by lia. cbn [mbind outcome_bind].
  set (iq1 := IQueue _ _ _ _ _ _ _).
  assert (iq_rep iq1 l) as Hrep1 by (eapply iq_rep_advance; done).
  assert (iq_even iq1 /\ iq_owns iq1 a frame) as [Hev1 Hown1] by done.
  destruct (negb _ && negb _) eqn:Eg; [|by exists iq1, a].
  destruct ((initial iq1 <? size iq1) && (count iq1 mod grow iq1 =? 0)) eqn:Es; [|by exists iq1, a].
  apply andb_true_iff in Eg as [Eg _]. apply andb_true_iff in Es as [Es1 Es2].
  apply negb_true_iff, Z.eqb_neq in Eg. apply Z.ltb_lt in Es1. apply Z.eqb_eq in Es2.
  simpl in Eg, Es1, Es2.
  destruct Hev as [?|[[ki Hki] [ks Hks]]]; [done |].
  apply Z.mod_divide in Es2 as [kc Hkc]; [|done].
  assert (count iq - 1 <= size iq - grow iq /\ initial iq <= size iq - grow iq) as [Hfit Hini].
  { assert (kc < ks /\ ki < ks) as [Hkc' Hki'] by (split; apply (Z.mul_lt_mono_pos_r (grow iq)); lia).
    nia. }
  destruct (iqueue_resize_spec iq1 l (size iq1 - grow iq1) a frame)
    as (r & a' & -> & Hr'); try done; [simpl; lia |].
  cbn [mbind outcome_bind]. destruct r as [iq2|].
  - destruct Hr' as (Hrep2 & Hown2 & Hs2 & Hc2 & Hst2 & Hi2 & Hg2).
    exists iq2, a'. split_and!; try done. right. rewrite Hi2, Hg2, Hs2. simpl.
    split; [by exists ki |]. exists (ks - 1). lia.
  - exists iq1, a'. split_and!; try done. unfold iq_owns. by rewrite Hr'.
Qed.

Lemma iqueue_copy_overruns iq l n i done_ rest :
  iq_rep iq l -> (n + i = length l)%nat -> length done_ = i -> (length rest < n)%nat ->
  iqueue_copy n (Z.of_nat i) iq (done_ ++ rest) = Halt BadAccess.
Proof.
  intros Hrep. pose proof (iq_rep_length _ _ Hrep) as Hlen.
  pose proof Hrep as (Hi & Hg & Hs & Hl & Hst & Hc & Hst0 & Hr).
  revert i done_ rest. induction n as [|n IH]; intros i done_ rest Hn Hd Hrest; [lia |]. simpl.
  assert (is_Some (l !! i)) as [v Hv] by (apply lookup_lt_is_Some_2; lia).
  rewrite iq_index by lia. cbn [mbind outcome_bind].
  unfold queue_get. destruct (Z.eqb_spec (queue iq) NULL) as [E|E]; [destruct Hst; lia || done |].
  rewrite Nat2Z.id. erewrite aget_nat by (eapply iq_ring_get; done).
  cbn [mbind outcome_bind]. destruct rest as [|c rest].
  - rewrite aset_oob; [done |]. right. rewrite app_nil_r. lia.
  - rewrite aset_lt by (rewrite length_app; simpl; lia). cbn [mbind outcome_bind].
    rewrite Nat2Z.id. replace i with (length done_ + 0)%nat at 2 by lia.
    rewrite insert_app_r. simpl. replace (Z.of_nat i + 1) with (Z.of_nat (S i)) by lia.
    rewrite (cons_middle (Some v)), app_assoc.
    apply IH; rewrite ?length_app; simpl in *; lia.
Qed.

(** Without the divisibility assumption the shrink of [iqueue_next] overruns
    its new block: whenever the remaining count is a multiple of the growth step
    but does not fit in the smaller size, and the block is granted, the copy
    loop writes outside of it. *)
Theorem iqueue_next_shrink_overrun {A} `{MmLaws A} iq v l (a : A) :
  iq_rep iq (v :: l) -> 0 < grow iq -> initial iq < size iq -> grow iq <= size iq ->
  (count iq - 1) mod grow iq = 0 -> size iq - grow iq < count iq - 1 ->
  fst (kmalloc (u32 (u32 (size iq - grow iq) * 4)) a) <> NULL ->
  iqueue_next iq 0 a = Halt BadAccess.
Proof.
  intros Hrep Hgr Hini Hge Hmod Hfit Hal. pose proof (iq_rep_length _ _ Hrep) as Hlen.
  simpl in Hlen. pose proof (iq_ring_get iq _ 0%nat v Hrep eq_refl) as Hv.
  pose proof Hrep as (Hi & Hg & Hs & Hl & Hst & Hc & Hst0 & Hr).
  rewrite Nat.add_0_r, Nat.mod_small in Hv by lia.
  unfold iqueue_next. rewrite kassert_true by lia. cbn [mbind outcome_bind].
  unfold queue_get. destruct (Z.eqb_spec (queue iq) NULL) as [E|E]; [destruct Hst; lia || done |].
  assert (aget (cells iq) (start iq) = Ok (Some v)) as -> by (apply aget_Some; split; [lia | done]).
  cbn [mbind outcome_bind]. rewrite iq_index by lia. cbn [mbind outcome_bind].
  set (iq1 := IQueue _ _ _ _ _ _ _).
  assert (iq_rep iq1 l) as Hrep1 by (eapply iq_rep_advance; done).
  simpl. destruct (Z.eqb_spec (grow iq) 0); [lia |]. simpl.
  destruct (Z.ltb_spec (initial iq) (size iq)); [|lia]. rewrite Hmod. simpl.
  unfold iqueue_resize. simpl.
  destruct (kmalloc (u32 (u32 (size iq - grow iq) * 4)) a) as [q a1]. simpl in Hal.
  destruct (Z.eqb_spec q NULL); [done |].
  pose proof (iqueue_copy_overruns iq1 l (length l) 0 []
    (int_block (u32 (u32 (size iq - grow iq) * 4))) Hrep1) as Hcp.
  change ([] ++ ?x) with x in Hcp. change (Z.of_nat 0) with 0 in Hcp.
  replace (Z.to_nat (count iq - 1)) with (length l) by lia.
  rewrite Hcp; [done | lia | done |]. rewrite int_block_length; lia.
Qed.

Lemma iqueue_add_appends_witness :
  let iq := IQueue 2 2 2 1 2 5 [Some 20; Some 10] in
  exists rc iq' a', iqueue_add iq 30 0 (Arena 3 {[5; 9]}) = Ok (rc, iq', a') /\
  iq_even iq' /\ iq_owns iq' a' {[9]} /\
  ((rc = 0 /\ iq_rep iq' ([10; 20] ++ [30])) \/
   (rc = -1 /\ iq' = iq /\ Z.of_nat (length [10; 20]) = size iq)).
Proof.
  apply iqueue_add_appends.
  - unfold iq_rep. simpl. split_and!; (lia || done).
  - right. split; by exists 1.
  - unfold iq_room. simpl. lia.
  - right. split_and!; [done | set_solver | simpl; set_solver].
Defined.

Lemma iqueue_next_takes_head_witness :
  let iq := IQueue 2 2 4 3 3 5 [Some 20; Some 30; None; Some 10] in
  exists iq' a', iqueue_next iq 0 (Arena 3 {[5; 9]}) = Ok (10, iq', a') /\
  iq_rep iq' [20; 30] /\ iq_even iq' /\ iq_owns iq' a' {[9]}.
Proof.
  apply iqueue_next_takes_head.
  - unfold iq_rep. simpl. split_and!; (lia || done).
  - right. split; [by exists 1 | by exists 2].
  - right. split_and!; [done | set_solver | simpl; set_solver].
Defined.

Lemma iqueue_next_shrink_overrun_witness :
  iqueue_next (IQueue 3 2 5 0 5 5 [Some 1; Some 2; Some 3; Some 4; Some 5]) 0 (Arena 3 {[5]})
    = Halt BadAccess.
Proof.
  apply (iqueue_next_shrink_overrun _ 1 [2; 3; 4; 5]); try (simpl; lia); try done.
Defined.
