(* ===== verification/AQueue.v ===== *)
(** The paged FIFO of fixed-size objects (ds/aqueue.c) that carries pulses and
    messages.  Pages live in a typed heap, objects are values of a type [T], and
    the spin lock is a bit that a second acquisition would wait on forever. *)
From S2P Require Import Prelude Mm.

(** [struct aqueue_page]: the link and the [obj_count] object slots after it,
    [None] before their first write. *)
Record aqueue_page (T : Type) := AQueuePage { next : Z; slots : list (option T) }.
Arguments AQueuePage {T} _ _.
Arguments next {T} _.
Arguments slots {T} _.

(** [struct aqueue] *)
Record aqueue := AQueue {
  lock : Z; pages : Z; obj_size : Z; obj_count : Z;
  position : Z; last_position : Z; page : Z; last_page : Z
}.

Definition set_lock (aq : aqueue) (l : Z) : aqueue :=
  AQueue l (pages aq) (obj_size aq) (obj_count aq) (position aq) (last_position aq)
    (page aq) (last_page aq).

Definition acquire_spinlock (aq : aqueue) : outcome aqueue :=
  if lock aq =? 0 then Ok (set_lock aq 1) else Halt Spin.

Definition release_spinlock (aq : aqueue) : aqueue := set_lock aq 0.

Definition aqueue_create `{MmSubsystem A} (size count : Z) (a : A) : option (Z * aqueue) * A :=
  let '(p, a) := kmalloc 32 a in
  if p =? NULL then (None, a)
  else (Some (p, AQueue 0 0 size count 0 0 NULL NULL), a).

(** The loop of [aqueue_destroy]; one page is freed per round, so the number of
    live pages bounds the rounds. *)
Fixpoint aqueue_free_pages {T} `{MmSubsystem A} (fuel : nat) (p : Z)
    (h : gmap Z (aqueue_page T)) (a : A) : outcome (gmap Z (aqueue_page T) * A) :=
  match fuel with
  | O => Halt Spin
  | S fuel =>
      if p =? NULL then Ok (h, a)
      else
        pg ← hload h p;
        a ← kfree p a;
        aqueue_free_pages fuel (next pg) (delete p h) a
  end.

(** [aqueue_destroy] of the queue at address [q]. *)
Definition aqueue_destroy {T} `{MmSubsystem A} (q : Z) (aq : aqueue)
    (h : gmap Z (aqueue_page T)) (a : A) : outcome (gmap Z (aqueue_page T) * A) :=
  '(h, a) ← aqueue_free_pages (S (size h)) (page aq) h a;
  a ← kfree q a;
  Ok (h, a).

(** The page that [aqueue_add] takes when the last one is full, linked at the end
    of the chain; [None] when the block is refused. *)
Definition aqueue_add_page {T} `{MmSubsystem A} (aq : aqueue)
    (h : gmap Z (aqueue_page T)) (a : A)
    : outcome (option aqueue * gmap Z (aqueue_page T) * A) :=
  let sz := u32 (4 + obj_count aq * obj_size aq) in
  let '(p, a) := kmalloc sz a in
  if p =? NULL then Ok (None, h, a)
  else
    let h := <[p := AQueuePage NULL (replicate (Z.to_nat (obj_count aq)) None)]> h in
    let pgs := u32 (pages aq + 1) in
    if page aq =? NULL then
      Ok (Some (AQueue (lock aq) pgs (obj_size aq) (obj_count aq) (position aq)
                  (last_position aq) p p), h, a)
    else
      lp ← hload h (last_page aq);
      h ← hstore h (last_page aq) (AQueuePage p (slots lp));
      Ok (Some (AQueue (lock aq) pgs (obj_size aq) (obj_count aq) (position aq)
                  (last_position aq) (page aq) p), h, a).

Definition aqueue_add {T} `{MmSubsystem A} (aq : aqueue) (obj : T)
    (h : gmap Z (aqueue_page T)) (a : A)
    : outcome (Z * aqueue * gmap Z (aqueue_page T) * A) :=
  aq ← acquire_spinlock aq;
  d ← udiv (last_position aq) (obj_count aq);
  page_mod ← umod (last_position aq) (obj_count aq);
  '(r, h, a) ← (if (page_mod =? 0) && (pages aq <=? u32 (s32 d))
                then aqueue_add_page aq h a else Ok (Some aq, h, a));
  match r with
  | None => Ok (-1, release_spinlock aq, h, a)
  | Some aq =>
      pg ← hload h (last_page aq);
      sl ← aset (slots pg) page_mod (Some obj);
      h ← hstore h (last_page aq) (AQueuePage (next pg) sl);
      Ok (0, release_spinlock aq, h, a)
  end.

(** The loop of [aqueue_next] that drops consumed pages. *)
Fixpoint aqueue_drop_pages {T} `{MmSubsystem A} (page_div : nat) (aq : aqueue)
    (h : gmap Z (aqueue_page T)) (a : A) : outcome (aqueue * gmap Z (aqueue_page T) * A) :=
  match page_div with
  | O => Ok (aq, h, a)
  | S page_div =>
      let tmp := page aq in
      pg ← hload h tmp;
      a ← kfree tmp a;
      kassert (negb (next pg =? NULL)) ;;
      aqueue_drop_pages page_div
        (AQueue (lock aq) (u32 (pages aq - 1)) (obj_size aq) (obj_count aq)
           (u32 (position aq - obj_count aq)) (u32 (last_position aq - obj_count aq))
           (next pg) (last_page aq)) (delete tmp h) a
  end.

Definition aqueue_next {T} `{MmSubsystem A} (aq : aqueue)
    (h : gmap Z (aqueue_page T)) (a : A)
    : outcome (Z * T * aqueue * gmap Z (aqueue_page T) * A) :=
  aq ← acquire_spinlock aq;
  page_div ← udiv (position aq) (obj_count aq);
  page_mod ← umod (position aq) (obj_count aq);
  kassert (negb (position aq =? last_position aq)) ;;
  '(aq, h, a) ← aqueue_drop_pages (Z.to_nat (s32 page_div)) aq h a;
  pg ← hload h (page aq);
  c ← aget (slots pg) page_mod;
  match c with
  | None => Halt Uninit
  | Some obj =>
      let aq := AQueue (lock aq) (pages aq) (obj_size aq) (obj_count aq)
                  (u32 (position aq + 1)) (last_position aq) (page aq) (last_page aq) in
      Ok (0, obj, release_spinlock aq, h, a)
  end.

Definition aqueue_count (aq : aqueue) : outcome (Z * aqueue) :=
  aq ← acquire_spinlock aq;
  let rc := u32 (last_position aq - position aq) in
  Ok (rc, release_spinlock aq).

(** A sequence of additions, with the return codes. *)
Fixpoint aqueue_adds {T} `{MmSubsystem A} (objs : list T) (aq : aqueue)
    (h : gmap Z (aqueue_page T)) (a : A)
    : outcome (list Z * aqueue * gmap Z (aqueue_page T) * A) :=
  match objs with
  | [] => Ok ([], aq, h, a)
  | obj :: objs =>
      '(rc, aq, h, a) ← aqueue_add aq obj h a;
      '(rcs, aq, h, a) ← aqueue_adds objs aq h a;
      Ok (rc :: rcs, aq, h, a)
  end.

(** * Representation *)

(** The chain of pages from [p] on is [ps], each with [oc] slots. *)
Fixpoint page_chain {T} (oc : nat) (h : gmap Z (aqueue_page T)) (p : Z) (ps : list Z) : Prop :=
  match ps with
  | [] => p = NULL
  | q :: ps => p = q /\ q <> NULL /\
      exists pg, h !! q = Some pg /\ length (slots pg) = oc /\ page_chain oc h (next pg) ps
  end.

(** The slots of the pages [ps], in order. *)
Definition page_slots {T} (h : gmap Z (aqueue_page T)) (ps : list Z) : list (option T) :=
  concat (map (fun p => match h !! p with Some pg => slots pg | None => [] end) ps).

(** The queue is consistent, unlocked, made of the pages [ps], and holds the
    objects [l], oldest first. *)
Definition aq_rep {T} (aq : aqueue) (h : gmap Z (aqueue_page T)) (ps : list Z) (l : list T) : Prop :=
  lock aq = 0 /\ 0 < obj_count aq /\ NoDup ps /\ ps <> [] /\
  pages aq = Z.of_nat (length ps) /\ obj_count aq * Z.of_nat (length ps) < 2147483648 /\
  page_chain (Z.to_nat (obj_count aq)) h (page aq) ps /\
  0 <= position aq /\ position aq <= last_position aq /\
  last_position aq <= obj_count aq * Z.of_nat (length ps) /\
  drop (Z.to_nat (position aq)) (take (Z.to_nat (last_position aq)) (page_slots h ps)) = Some <$> l.

(** A queue from which nothing was ever taken: no page, or a single one. *)
Definition aq_young {T} (aq : aqueue) (h : gmap Z (aqueue_page T)) : Prop :=
  lock aq = 0 /\ 0 < obj_count aq /\ position aq = 0 /\ last_position aq = 0 /\
  ((pages aq = 0 /\ page aq = NULL) \/
   (pages aq = 1 /\ page aq <> NULL /\ last_page aq = page aq /\
    exists pg, h !! page aq = Some pg /\ length (slots pg) = Z.to_nat (obj_count aq))).

Section aqueue_facts.
Context {T : Type} {A : Type} `{MmLaws A}.
Implicit Types (h : gmap Z (aqueue_page T)) (a : A) (aq : aqueue) (l : list T).

Lemma page_chain_frame oc h p q ps pg :
  q ∉ ps -> page_chain oc h p ps -> page_chain oc (<[q := pg]> h) p ps.
Proof.
  revert p. induction ps as [|r ps IH]; intros p Hq; simpl; [done |].
  intros (-> & Hr & pg' & Hpg & Hlen & Hc). apply not_elem_of_cons in Hq as [Hqr Hq].
  split_and!; [done..|]. exists pg'. rewrite lookup_insert_ne by done. auto.
Qed.

Lemma page_chain_delete oc h p q ps :
  q ∉ ps -> page_chain oc h p ps -> page_chain oc (delete q h) p ps.
Proof.
  revert p. induction ps as [|r ps IH]; intros p Hq; simpl; [done |].
  intros (-> & Hr & pg' & Hpg & Hlen & Hc). apply not_elem_of_cons in Hq as [Hqr Hq].
  split_and!; [done..|]. exists pg'. rewrite lookup_delete_ne by done. auto.
Qed.

Lemma page_slots_delete h q ps : q ∉ ps -> page_slots (delete q h) ps = page_slots h ps.
Proof.
  unfold page_slots. intros Hq. f_equal. apply map_ext_in. intros p Hp.
  apply list_elem_of_In in Hp. rewrite lookup_delete_ne; [done | by intros ->].
Qed.

(** Dropping one consumed page. *)
Lemma aqueue_drop_one_rep aq h p ps l : aq_rep aq h (p :: ps) l ->
  obj_count aq <= position aq -> ps <> [] ->
  exists pg, h !! p = Some pg /\ p <> NULL /\ page aq = p /\ next pg <> NULL /\
  aq_rep (AQueue 0 (u32 (pages aq - 1)) (obj_size aq) (obj_count aq)
           (u32 (position aq - obj_count aq)) (u32 (last_position aq - obj_count aq))
           (next pg) (last_page aq)) (delete p h) ps l.
Proof.
  intros (Hlk & Hoc & Hnd & _ & Hpg & Hroom & Hch & Hp0 & Hpl & Hlp & Hl) Hge Hps.
  cbn [length] in *. rewrite Nat2Z.inj_succ in *.
  destruct Hch as (Hpage & Hnull & pg & Hlook & Hslots & Hch).
  exists pg. split_and!; [done..| |].
  { destruct ps as [|q ps]; [done |]. simpl in Hch. destruct Hch as (-> & ? & _). done. }
  apply NoDup_cons in Hnd as [Hnin Hnd].
  assert (0 < obj_count aq * Z.of_nat (length ps)) by (destruct ps; [done | simpl; lia]).
  rewrite !u32_small by (unfold is_u32, two32; lia).
  unfold aq_rep. simpl. split_and!; try done; try lia.
  - by apply page_chain_delete.
  - rewrite page_slots_delete by done.
    assert (page_slots h (p :: ps) = slots pg ++ page_slots h ps) as Hs.
    { unfold page_slots. simpl. by rewrite Hlook. }
    rewrite Hs in Hl. rewrite <- Hl.
    replace (Z.to_nat (last_position aq)) with
      (length (slots pg) + Z.to_nat (last_position aq - obj_count aq))%nat by lia.
    replace (Z.to_nat (position aq)) with
      (length (slots pg) + Z.to_nat (position aq - obj_count aq))%nat by lia.
    rewrite take_app_add, <- drop_drop, drop_app_length. done.
Qed.

Lemma aqueue_drop_pages_rep n aq h ps l a frame :
  aq_rep aq h ps l -> Z.of_nat n * obj_count aq <= position aq -> (n < length ps)%nat ->
  mm_live a = list_to_set ps ∪ frame -> list_to_set ps ## frame ->
  exists aq' h' a',
    aqueue_drop_pages n (set_lock aq 1) h a = Ok (set_lock aq' 1, h', a') /\
    aq_rep aq' h' (drop n ps) l /\ mm_live a' = list_to_set (drop n ps) ∪ frame /\
    position aq' = position aq - Z.of_nat n * obj_count aq /\
    last_position aq' = last_position aq - Z.of_nat n * obj_count aq /\
    obj_count aq' = obj_count aq.
Proof.
  revert aq h ps a. induction n as [|n IH]; intros aq h ps a Hrep Hn Hlt Hlive Hdisj.
  { exists aq, h, a. rewrite drop_0. split_and!; try done; lia. }
  destruct ps as [|p ps]; [simpl in Hlt; lia |]. simpl in Hlt.
  assert (ps <> []) as Hps by (intros ->; simpl in Hlt; lia).
  pose proof Hrep as (Hlk & Hoc & Hnd & _ & Hpg & Hroom & Hch & Hp0 & Hpl & Hlp & Hl).
  assert (obj_count aq <= position aq) as Hge by nia.
  destruct (aqueue_drop_one_rep aq h p ps l Hrep Hge Hps) as (pg & Hlook & Hnull & Hpage & Hnx & Hrep').
  apply NoDup_cons in Hnd as [Hnin Hnd]. simpl in Hlive, Hdisj.
  simpl. rewrite Hpage. rewrite (hload_Some _ _ pg) by done. cbn [mbind outcome_bind].
  destruct (kfree_live p a) as (a1 & -> & Hl1); [rewrite Hlive; set_solver |].
  cbn [mbind outcome_bind]. rewrite kassert_true by (destruct (Z.eqb_spec (next pg) NULL); done).
  cbn [mbind outcome_bind].
  destruct (IH _ _ _ a1 Hrep') as (aq' & h' & a' & Hrun & Hrep2 & Hl2 & Hpos & Hlpos & Hoc').
  - simpl. rewrite u32_small by (unfold is_u32, two32; simpl in *; lia). nia.
  - lia.
  - rewrite Hl1, Hlive. assert (p ∉ (list_to_set ps : gset Z)) by (by rewrite elem_of_list_to_set).
    set_solver.
  - set_solver.
  - exists aq', h', a'. cbn [length] in *. simpl in Hpos, Hlpos, Hoc'.
    rewrite u32_small in Hpos by (unfold is_u32, two32; lia).
    rewrite u32_small in Hlpos by (unfold is_u32, two32; lia).
    split_and!; try done; lia.
Qed.
Lemma aqueue_add_young aq h obj a : aq_young aq h ->
  exists rc aq' h' a', aqueue_add aq obj h a = Ok (rc, aq', h', a') /\
  (rc = 0 \/ rc = -1) /\ aq_young aq' h'.
Proof.
  intros (Hlk & Hoc & Hp & Hlp & Hpg). unfold aqueue_add, acquire_spinlock.
  rewrite Hlk. simpl. rewrite Hlp, udiv_pos, umod_pos by lia. simpl.
  rewrite Z.div_0_l, Z.mod_0_l by lia. simpl.
  destruct Hpg as [[Hpgs Hpage]|(Hpgs & Hpage & Hlast & pg & Hlook & Hlen)]; rewrite Hpgs; simpl.
  - unfold aqueue_add_page. simpl.
    destruct (kmalloc _ a) as [p a1] eqn:Hm. destruct (Z.eqb_spec p NULL) as [E|E]; simpl.
    + do 4 eexists. split; [done |]. split; [by right |].
      unfold aq_young. simpl. split_and!; try done. by left.
    + rewrite Hpage. simpl. rewrite (hload_Some _ p (AQueuePage NULL (replicate (Z.to_nat (obj_count aq)) None)))
        by (done || apply lookup_insert_eq).
      simpl. rewrite aset_lt by (rewrite length_replicate; lia). simpl.
      rewrite hstore_Some by (rewrite ?lookup_insert_eq; eauto). simpl.
      do 4 eexists. split; [done |]. split; [by left |].
      unfold aq_young. simpl. split_and!; try done. right.
      rewrite Hpgs. split_and!; [done..|]. eexists. rewrite lookup_insert_eq. split; [done |]. simpl.
      by rewrite length_insert, length_replicate.
  - rewrite Hlast, (hload_Some _ _ pg) by done. simpl.
    rewrite aset_lt by lia. simpl. rewrite hstore_Some by (rewrite ?Hlook; eauto). simpl.
    do 4 eexists. split; [done |]. split; [by left |].
    unfold aq_young. simpl. split_and!; try done. right. split_and!; try done.
    eexists. rewrite lookup_insert_eq. split; [done |]. simpl. by rewrite length_insert.
Qed.

Lemma aqueue_adds_young aq h objs a : aq_young aq h ->
  exists rcs aq' h' a', aqueue_adds objs aq h a = Ok (rcs, aq', h', a') /\
  Forall (fun rc => rc = 0 \/ rc = -1) rcs /\ aq_young aq' h'.
Proof.
  revert aq h a. induction objs as [|obj objs IH]; intros aq h a Hy; simpl.
  - do 4 eexists. split_and!; [done | done | done].
  - destruct (aqueue_add_young aq h obj a Hy) as (rc & aq1 & h1 & a1 & -> & Hrc & Hy1).
    simpl. destruct (IH aq1 h1 a1 Hy1) as (rcs & aq2 & h2 & a2 & -> & Hrcs & Hy2). simpl.
    do 4 eexists. split_and!; [done | by constructor | done].
Qed.

Lemma aq_young_count aq h : aq_young aq h -> exists aq', aqueue_count aq = Ok (0, aq').
Proof.
  intros (Hlk & Hoc & Hp & Hlp & Hpg). unfold aqueue_count, acquire_spinlock.
  rewrite Hlk. simpl. rewrite Hp, Hlp. by eexists.
Qed.

Lemma aq_young_next aq h a : aq_young aq h -> aqueue_next aq h a = Halt AssertFail.
Proof.
  intros (Hlk & Hoc & Hp & Hlp & Hpg). unfold aqueue_next, acquire_spinlock.
  rewrite Hlk. simpl. rewrite Hp, Hlp, udiv_pos, umod_pos by lia. done.
Qed.
End aqueue_facts.

(** What [aqueue_next] does on a consistent non-empty queue. *)
Lemma aqueue_next_spec {T A} `{MmLaws A} aq (h : gmap Z (aqueue_page T)) ps (v : T) l (a : A) frame :
  aq_rep aq h ps (v :: l) ->
  mm_live a = list_to_set ps ∪ frame -> list_to_set ps ## frame ->
  exists aq' h' a' n, n = Z.to_nat (position aq / obj_count aq) /\
  aqueue_next aq h a = Ok (0, v, aq', h', a') /\
  aq_rep aq' h' (drop n ps) l /\ mm_live a' = list_to_set (drop n ps) ∪ frame.
Proof.
  intros Hrep Hlive Hdisj.
  pose proof Hrep as (Hlk & Hoc & Hnd & Hne & Hpg & Hroom & Hch & Hp0 & Hpl & Hlp & Hl).
  assert (position aq < last_position aq) as Hlt.
  { apply (f_equal length) in Hl. rewrite length_drop, length_take in Hl. simpl in Hl. lia. }
  pose proof (Z.div_mod (position aq) (obj_count aq)) as Hdm.
  pose proof (Z.mod_pos_bound (position aq) (obj_count aq) Hoc) as Hmb.
  set (d := position aq / obj_count aq) in *. set (r := position aq mod obj_count aq) in *.
  assert (0 <= d) as Hd0 by (apply Z.div_pos; lia).
  assert (d < Z.of_nat (length ps)) as Hdlt by nia.
  unfold aqueue_next, acquire_spinlock. rewrite Hlk. simpl.
  rewrite udiv_pos, umod_pos by lia. cbn [mbind outcome_bind].
  rewrite kassert_true by (destruct (Z.eqb_spec (position aq) (last_position aq)); (done || lia)).
  cbn [mbind outcome_bind]. fold d r. rewrite s32_small by (unfold is_s32; nia).
  destruct (aqueue_drop_pages_rep (Z.to_nat d) aq h ps (v :: l) a frame)
    as (aq1 & h1 & a1 & -> & Hrep1 & Hl1 & Hpos1 & Hlpos1 & Hoc1); try done; [nia | lia |].
  rewrite Z2Nat.id in Hpos1, Hlpos1 by lia.
  cbn [mbind outcome_bind].
  destruct (drop (Z.to_nat d) ps) as [|p ps1] eqn:Hdrop.
  { apply (f_equal length) in Hdrop. rewrite length_drop in Hdrop. simpl in Hdrop. lia. }
  pose proof Hrep1 as (Hlk1 & _ & Hnd1 & _ & Hpg1 & Hroom1 & Hch1 & Hp01 & Hpl1 & Hlp1 & Hls1).
  destruct Hch1 as (Hpage1 & Hnull1 & pg & Hlook1 & Hslots1 & Hch1).
  simpl. rewrite Hpage1, (hload_Some _ _ pg) by done. cbn [mbind outcome_bind].
  assert (position aq1 = r) as Hposr by lia.
  assert (slots pg !! Z.to_nat r = Some (Some v)) as Hslot.
  { rewrite Hposr in Hls1. unfold page_slots in Hls1. simpl in Hls1. rewrite Hlook1 in Hls1.
    apply (f_equal (fun x => x !! 0%nat)) in Hls1. simpl in Hls1.
    rewrite lookup_drop, Nat.add_0_r in Hls1.
    apply lookup_take_Some in Hls1 as [Hls1 _].
    rewrite lookup_app_l in Hls1 by lia. done. }
  assert (aget (slots pg) r = Ok (Some v)) as -> by (apply aget_Some; split; [lia | done]).
  cbn [mbind outcome_bind]. do 4 eexists. split_and!; [done | done | | by rewrite Hdrop].
  unfold aq_rep. simpl. rewrite Hdrop. cbn [length] in *.
  rewrite u32_small by (unfold is_u32, two32; lia). split_and!; try done; try lia.
  - split_and!; [done..|]. exists pg. done.
  - replace (Z.to_nat (position aq1 + 1)) with (Z.to_nat (position aq1) + 1)%nat by lia.
    rewrite <- drop_drop, Hls1. done.
Qed.

(** [aqueue_next] on a consistent non-empty queue returns 0 and the oldest
    object, leaves the others in order, gives back exactly the pages that were
    fully consumed, and releases the lock. *)
Theorem aqueue_next_fifo {T A} `{MmLaws A} aq (h : gmap Z (aqueue_page T)) ps (v : T) l (a : A) frame :
  aq_rep aq h ps (v :: l) ->
  mm_live a = list_to_set ps ∪ frame -> list_to_set ps ## frame ->
  exists aq' h' a' n, n = Z.to_nat (position aq / obj_count aq) /\
  aqueue_next aq h a = Ok (0, v, aq', h', a') /\
  aq_rep aq' h' (drop n ps) l /\ mm_live a' = list_to_set (drop n ps) ∪ frame.
Proof. apply aqueue_next_spec. Qed.

(** Nothing added to a queue is ever counted or delivered: on a queue made by
    [aqueue_create], every sequence of [aqueue_add] calls runs to completion and
    answers 0 or -1, yet afterwards [aqueue_count] still reports 0 and
    [aqueue_next] fails its assertion, because [last_position] is never
    advanced. *)
Theorem aqueue_add_never_counted {T A} `{MmLaws A} size count (a : A) q aq a1
    (h : gmap Z (aqueue_page T)) (objs : list T) :
  0 < count -> aqueue_create size count a = (Some (q, aq), a1) ->
  exists rcs aq' h' a', aqueue_adds objs aq h a1 = Ok (rcs, aq', h', a') /\
  Forall (fun rc => rc = 0 \/ rc = -1) rcs /\
  (exists aq'', aqueue_count aq' = Ok (0, aq'')) /\
  aqueue_next aq' h' a' = Halt AssertFail.
Proof.
  intros Hc. unfold aqueue_create. destruct (kmalloc 32 a) as [p a2].
  destruct (p =? NULL); intros [= <- <- <-].
  assert (aq_young (AQueue 0 0 size count 0 0 NULL NULL) h) as Hy
    by (unfold aq_young; simpl; split_and!; (done || by left)).
  destruct (aqueue_adds_young _ h objs a2 Hy) as (rcs & aq' & h' & a' & Hrun & Hrcs & Hy').
  exists rcs, aq', h', a'. split_and!; [done | done | by eapply aq_young_count | by apply aq_young_next].
Qed.

Lemma aqueue_next_fifo_witness :
  let aq := AQueue 0 2 4 2 2 4 10 20 in
  let h := {[10 := AQueuePage 20 [Some 1; Some 2]; 20 := AQueuePage NULL [Some 3; Some 4]]} in
  exists aq' h' a' n, n = Z.to_nat (position aq / obj_count aq) /\
  aqueue_next aq h (Arena 0 {[10; 20; 7]}) = Ok (0, 3, aq', h', a') /\
  aq_rep aq' h' (drop n [10; 20]) [4] /\ mm_live a' = list_to_set (drop n [10; 20]) ∪ {[7]}.
Proof.
  apply aqueue_next_fifo.
  - unfold aq_rep. simpl. split_and!; try (done || lia).
    + repeat (apply NoDup_cons; split; [set_solver |]). apply NoDup_nil_2.
    + eexists. split; [reflexivity |]. split; [done |].
      split_and!; [done..|]. eexists. split; [reflexivity |]. done.
  - simpl. set_solver.
  - set_solver.
Defined.

Lemma aqueue_add_never_counted_witness :
  exists rcs aq' h' a',
    aqueue_adds [1; 2; 3] (AQueue 0 0 4 2 0 0 NULL NULL) ∅ (Arena 4 {[1]}) = Ok (rcs, aq', h', a') /\
  Forall (fun rc => rc = 0 \/ rc = -1) rcs /\
  (exists aq'', aqueue_count aq' = Ok (0, aq'')) /\
  aqueue_next aq' h' a' = Halt AssertFail.
Proof.
  apply (aqueue_add_never_counted 4 2 (Arena 5 ∅) 1); [done |]. reflexivity.
Defined.
