(* ===== verification/HTable.v ===== *)
(** The open-addressing hash table (ds/htable.c).  Entries are addresses of
    client objects; the key and comparison functions of the client are fields of
    the table, as in the code. *)
From S2P Require Import Prelude Mm.

(** [struct hash_table]; [slots] is the block that [table] points to. *)
Record hash_table := HashTable {
  compare : Z -> Z -> Z;
  key : Z -> Z;
  total : Z; size : Z; percent : Z;
  table : Z; slots : list Z
}.

Definition set_slots (t : hash_table) (tot : Z) (l : list Z) : hash_table :=
  HashTable (compare t) (key t) tot (size t) (percent t) (table t) l.

(** Signed division and remainder of [int]s. *)
Definition sdiv (a b : Z) : outcome Z :=
  if b =? 0 then Halt DivByZero else Ok (Z.quot a b).
Definition srem (a b : Z) : outcome Z :=
  if b =? 0 then Halt DivByZero else Ok (Z.rem a b).

(** [init_htable]: the address of the structure with its contents. *)
Definition init_htable `{MmSubsystem A} (sz pct : Z) (k : Z -> Z) (cmp : Z -> Z -> Z) (a : A)
    : outcome (option (Z * hash_table) * A) :=
  let '(p, a) := kmalloc 24 a in
  if p =? NULL then Ok (None, a)
  else
    let sz := if sz <=? 0 then 32 else sz in
    let '(tb, a) := kmalloc (u32 (sz * 4)) a in
    if tb =? NULL then Halt NullDeref
    else Ok (Some (p, HashTable cmp k 0 sz pct tb (replicate (Z.to_nat sz) NULL)), a).

(** [delete_htable] of the structure at address [p]. *)
Definition delete_htable `{MmSubsystem A} (p : Z) (t : hash_table) (a : A) : outcome (Z * A) :=
  a ← kfree (table t) a;
  a ← kfree p a;
  Ok (0, a).

(** The absolute value the code takes of a key. *)
Definition abs_key (t : hash_table) (data : Z) : Z :=
  let k := key t data in if k <? 0 then s32 (- k) else k.

(** The probing loop of [htable_insert]: [n] slots left, from step [i]. *)
Fixpoint htable_probe_insert (n : nat) (i k data : Z) (t : hash_table) : outcome hash_table :=
  match n with
  | O => Ok t
  | S n =>
      position ← srem (s32 (i + k)) (size t);
      kassert (0 <=? position) ;;
      d ← aget (slots t) position;
      if d =? NULL then
        l ← aset (slots t) position data;
        Ok (set_slots t (s32 (total t + 1)) l)
      else htable_probe_insert n (i + 1) k data t
  end.

(** [htable_rehash], over the insertion it calls back. *)
Definition htable_rehash_with `{MmSubsystem A}
    (insert : hash_table -> Z -> A -> outcome (Z * hash_table * A))
    (t : hash_table) (new_size : Z) (a : A) : outcome (Z * hash_table * A) :=
  let '(newTable, a) := kmalloc (u32 (4 * new_size)) a in
  if newTable =? NULL then Ok (-1, t, a)
  else
    let t' := HashTable (compare t) (key t) 0 new_size (percent t) newTable
                (replicate (Z.to_nat new_size) NULL) in
    '(t', a) ← foldl (fun acc d =>
      '(t', a) ← acc;
      if d =? NULL then Ok (t', a)
      else '(_, t', a) ← insert t' d a; Ok (t', a)) (Ok (t', a)) (slots t);
    a ← kfree (table t) a;
    Ok (0, t', a).

(** [htable_insert]; [fuel] bounds the nesting of rehash and insert. *)
Fixpoint htable_insert `{MmSubsystem A} (fuel : nat) (t : hash_table) (data : Z) (a : A)
    : outcome (Z * hash_table * A) :=
  match fuel with
  | O => Halt Spin
  | S fuel =>
      if total t =? size t then Ok (-1, t, a)
      else
        current_percent ← sdiv (s32 (s32 (total t + 1) * 100)) (size t);
        '(_, t, a) ← (if percent t <? current_percent
                      then htable_rehash_with (htable_insert fuel) t (s32 (size t * 2)) a
                      else Ok (0, t, a));
        t ← htable_probe_insert (Z.to_nat (size t)) 0 (abs_key t data) data t;
        Ok (0, t, a)
  end.

Definition htable_rehash `{MmSubsystem A} (fuel : nat) (t : hash_table) (new_size : Z) (a : A)
    : outcome (Z * hash_table * A) :=
  htable_rehash_with (htable_insert fuel) t new_size a.

(** The probing loop of [htable_remove]. *)
Fixpoint htable_probe_remove (n : nat) (i k data : Z) (t : hash_table) : outcome hash_table :=
  match n with
  | O => Ok t
  | S n =>
      position ← srem (s32 (i + k)) (size t);
      d ← aget (slots t) position;
      if d =? data then
        l ← aset (slots t) position NULL;
        Ok (set_slots t (s32 (total t - 1)) l)
      else htable_probe_remove n (i + 1) k data t
  end.

Definition htable_remove `{MmSubsystem A} (fuel : nat) (t : hash_table) (data : Z) (a : A)
    : outcome (Z * hash_table * A) :=
  if total t =? 0 then Ok (-1, t, a)
  else
    current_percent ← sdiv (s32 (s32 (total t - 1) * 100)) (size t);
    '(_, t, a) ← (if (current_percent <? Z.quot (percent t) 4) && (32 <? size t)
                  then htable_rehash fuel t (Z.quot (size t) 2) a
                  else Ok (0, t, a));
    t ← htable_probe_remove (Z.to_nat (size t)) 0 (abs_key t data) data t;
    Ok (0, t, a).

(** The probing loop of [htable_retrieve]. *)
Fixpoint htable_probe (n : nat) (i k sample : Z) (t : hash_table) : outcome Z :=
  match n with
  | O => Ok NULL
  | S n =>
      position ← srem (s32 (i + k)) (size t);
      kassert (0 <=? position) ;;
      d ← aget (slots t) position;
      if negb (d =? NULL) && (compare t d sample =? 0) then Ok d
      else htable_probe n (i + 1) k sample t
  end.

Definition htable_retrieve (t : hash_table) (sample : Z) : outcome Z :=
  if total t =? 0 then Ok NULL
  else htable_probe (Z.to_nat (size t)) 0 (abs_key t sample) sample t.

(** The scan of [htable_get]: [n] slots left from index [i], [count] entries seen. *)
Fixpoint htable_scan (n : nat) (i count num : Z) (t : hash_table) : outcome Z :=
  match n with
  | O => Ok NULL
  | S n =>
      d ← aget (slots t) i;
      if d =? NULL then htable_scan n (i + 1) count num t
      else if count =? num then Ok d
      else htable_scan n (i + 1) (s32 (count + 1)) num t
  end.

Definition htable_get (t : hash_table) (num : Z) : outcome Z :=
  if total t =? 0 then Ok NULL
  else if total t <=? num then Ok NULL
  else htable_scan (Z.to_nat (size t)) 0 0 num t.

(** * Contents and well-formedness *)

(** The stored entries in slot order. *)
Definition entries (t : hash_table) : list Z := filter (fun d => d <> NULL) (slots t).

Definition ht_wf (t : hash_table) : Prop :=
  0 < size t < 1000000 /\ Z.of_nat (length (slots t)) = size t /\
  total t = Z.of_nat (length (entries t)) /\ 50 <= percent t <= 99.

(** Keys small enough that probing does not leave the range of [int]. *)
Definition key_ok (k : Z -> Z) (d : Z) : Prop := -2000000000 <= k d <= 2000000000.

(** The table owns its block. *)
Definition ht_owns `{MmSubsystem A} (t : hash_table) (a : A) (frame : gset Z) : Prop :=
  table t <> NULL /\ table t ∉ frame /\ mm_live a = {[table t]} ∪ frame.

(** Same client functions and percentage. *)
Definition ht_same (t t' : hash_table) : Prop :=
  compare t' = compare t /\ key t' = key t /\ percent t' = percent t.

(** * Lists of slots *)

Lemma filter_insert_perm (l : list Z) i d : l !! i = Some NULL -> d <> NULL ->
  filter (fun x => x <> NULL) (<[i := d]> l) ≡ₚ d :: filter (fun x => x <> NULL) l.
Proof.
  intros Hi Hd. pose proof (lookup_lt_Some _ _ _ Hi).
  rewrite <- (take_drop_middle l i NULL Hi) at 2.
  rewrite insert_take_drop by done. rewrite !filter_app, !filter_cons.
  rewrite decide_True by done. rewrite decide_False by (intros E; by apply E).
  symmetry. apply Permutation_middle.
Qed.

Lemma filter_delete_perm (l : list Z) i d : l !! i = Some d -> d <> NULL ->
  filter (fun x => x <> NULL) l ≡ₚ d :: filter (fun x => x <> NULL) (<[i := NULL]> l).
Proof.
  intros Hi Hd. pose proof (lookup_lt_Some _ _ _ Hi).
  rewrite <- (take_drop_middle l i d Hi) at 1.
  rewrite insert_take_drop by done. rewrite !filter_app, !filter_cons.
  rewrite decide_True by done. rewrite decide_False by (intros E; by apply E).
  symmetry. apply Permutation_middle.
Qed.

Lemma filter_room (l : list Z) : (length (filter (fun x => x <> NULL) l) < length l)%nat ->
  exists i, l !! i = Some NULL.
Proof.
  induction l as [|x l IH]; simpl; [lia |]. intros Hlt.
  destruct (decide (x = NULL)) as [->|Hx]; [by exists 0%nat |].
  rewrite filter_cons, decide_True in Hlt by done. simpl in Hlt.
  destruct IH as [i Hi]; [lia |]. by exists (S i).
Qed.

Section htable_facts.
Context {A : Type} `{MmLaws A}.
Implicit Types (t : hash_table) (a : A).

Lemma abs_key_range t d : key_ok (key t) d -> 0 <= abs_key t d <= 2000000000.
Proof.
  unfold key_ok, abs_key. intros Hk. destruct (Z.ltb_spec (key t d) 0); [|lia].
  rewrite s32_small by (unfold is_s32; lia). lia.
Qed.

(** The slot probed at step [i]. *)
Lemma probe_position t k i : ht_wf t -> 0 <= k <= 2000000000 -> 0 <= i <= size t ->
  srem (s32 (i + k)) (size t) = Ok ((i + k) mod size t) /\
  0 <= (i + k) mod size t < Z.of_nat (length (slots t)).
Proof.
  intros (Hs & Hl & Ht & Hp) Hk Hi. rewrite s32_small by (unfold is_s32; lia).
  unfold srem. destruct (Z.eqb_spec (size t) 0); [lia |].
  rewrite Z.rem_mod_nonneg by lia. split; [done |].
  pose proof (Z.mod_pos_bound (i + k) (size t)). lia.
Qed.

(** Every slot is probed at some step. *)
Lemma probe_covers sz k (j : nat) : 0 < sz -> 0 <= k -> Z.of_nat j < sz ->
  exists i, 0 <= i < sz /\ (i + k) mod sz = Z.of_nat j.
Proof.
  intros Hs Hk Hj. exists ((Z.of_nat j - k) mod sz).
  split; [apply Z.mod_pos_bound; lia |].
  rewrite Z.add_mod_idemp_l by lia. replace (Z.of_nat j - k + k) with (Z.of_nat j) by lia.
  apply Z.mod_small. lia.
Qed.

Lemma htable_probe_insert_spec t k data n i0 i1 :
  ht_wf t -> 0 <= k <= 2000000000 -> data <> NULL ->
  0 <= i0 -> i0 + Z.of_nat n <= size t -> i0 <= i1 < i0 + Z.of_nat n ->
  slots t !! Z.to_nat ((i1 + k) mod size t) = Some NULL ->
  exists t', htable_probe_insert n i0 k data t = Ok t' /\
    ht_wf t' /\ entries t' ≡ₚ data :: entries t /\ ht_same t t' /\
    size t' = size t /\ table t' = table t.
Proof.
  intros Hwf Hk Hd. revert i0. induction n as [|n IH]; intros i0 Hi0 Hn Hi1 Hfree; [lia |]. cbn [htable_probe_insert].
  destruct (probe_position t k i0 Hwf Hk) as [Hpos Hr]; [lia |]. rewrite Hpos. cbn [mbind outcome_bind].
  rewrite kassert_true by lia. cbn [mbind outcome_bind].
  destruct (aget_lt (slots t) _ Hr) as [d Hget]. rewrite Hget. cbn [mbind outcome_bind].
  apply aget_Some in Hget as [_ Hget]. destruct (Z.eqb_spec d NULL) as [->|Hne].
  - rewrite aset_lt by done. cbn [mbind outcome_bind]. eexists. split; [done |].
    assert (entries (set_slots t (s32 (total t + 1)) (<[Z.to_nat ((i0 + k) mod size t) := data]> (slots t)))
      ≡ₚ data :: entries t) as Hperm by (by apply filter_insert_perm).
    split_and!; try done. destruct Hwf as (Hs & Hl & Ht & Hp). unfold ht_wf. simpl.
    split_and!; try lia; [by rewrite length_insert |].
    rewrite Hperm. simpl. rewrite s32_small; [lia |]. unfold is_s32.
    assert (length (entries t) <= length (slots t))%nat by apply length_filter. lia.
  - destruct (IH (i0 + 1)) as (t' & Hrun & Hrest); [lia | lia | | done | by exists t'].
    destruct (decide (i1 = i0)) as [->|]; [congruence | lia].
Qed.

(** A placement from step 0 in a table with room. *)
Lemma htable_place t data : ht_wf t -> data <> NULL -> key_ok (key t) data ->
  total t < size t ->
  exists t', htable_probe_insert (Z.to_nat (size t)) 0 (abs_key t data) data t = Ok t' /\
    ht_wf t' /\ entries t' ≡ₚ data :: entries t /\ ht_same t t' /\
    size t' = size t /\ table t' = table t.
Proof.
  intros Hwf Hd Hk Hroom. pose proof Hwf as (Hs & Hl & Ht & Hp).
  pose proof (abs_key_range t data Hk) as Hak.
  destruct (filter_room (slots t)) as [j Hj].
  { unfold entries in Ht. lia. }
  pose proof (lookup_lt_Some _ _ _ Hj).
  destruct (probe_covers (size t) (abs_key t data) j) as (i & Hi & Hpos); [lia | lia | lia |].
  eapply (htable_probe_insert_spec _ _ _ _ _ i); try done; try lia.
  rewrite Hpos, Nat2Z.id. done.
Qed.

(** [sdiv] of the load. *)
Lemma load_sdiv t n : 0 < size t -> 0 <= n < 1000000 ->
  sdiv (s32 (s32 n * 100)) (size t) = Ok (n * 100 / size t).
Proof.
  intros Hs Hn. rewrite (s32_small n), s32_small by (unfold is_s32; lia). unfold sdiv.
  destruct (Z.eqb_spec (size t) 0); [lia |]. by rewrite Z.quot_div_nonneg by lia.
Qed.

(** An insertion that stays below the rehash threshold. *)
Lemma htable_insert_low fuel t data a : ht_wf t -> data <> NULL -> key_ok (key t) data ->
  total t < size t -> (total t + 1) * 100 / size t <= percent t ->
  exists t', htable_insert (S fuel) t data a = Ok (0, t', a) /\
    ht_wf t' /\ entries t' ≡ₚ data :: entries t /\ ht_same t t' /\
    size t' = size t /\ table t' = table t.
Proof.
  intros Hwf Hd Hk Hroom Hlow. pose proof Hwf as (Hs & Hl & Ht & Hp). cbn [htable_insert].
  destruct (Z.eqb_spec (total t) (size t)); [lia |].
  rewrite load_sdiv by lia. cbn [mbind outcome_bind].
  destruct (Z.ltb_spec (percent t) ((total t + 1) * 100 / size t)); [lia |].
  cbn [mbind outcome_bind].
  destruct (htable_place t data Hwf Hd Hk Hroom) as (t' & -> & Hrest).
  cbn [mbind outcome_bind]. by exists t'.
Qed.

(** The reinsertion loop of a rehash into a table with room for everything. *)
Lemma rehash_loop fuel l t a :
  ht_wf t -> (forall d, d ∈ l -> d <> NULL -> key_ok (key t) d) ->
  (total t + Z.of_nat (length (filter (fun d => d <> NULL) l))) * 100 <
    (percent t + 1) * size t ->
  exists t', foldl (fun acc d =>
      '(t', a) ← acc;
      if d =? NULL then Ok (t', a)
      else '(_, t', a) ← htable_insert (S fuel) t' d a; Ok (t', a)) (Ok (t, a)) l = Ok (t', a) /\
    ht_wf t' /\ entries t' ≡ₚ filter (fun d => d <> NULL) l ++ entries t /\ ht_same t t' /\
    size t' = size t /\ table t' = table t.
Proof.
  revert t. induction l as [|d l IH]; intros t Hwf Hkeys Hroom.
  { exists t. split_and!; done. }
  pose proof Hwf as (Hs & Hl & Ht & Hp). cbn [foldl]. cbn [mbind outcome_bind].
  rewrite filter_cons in Hroom |- *.
  destruct (Z.eqb_spec d NULL) as [->|Hd].
  - rewrite decide_False in Hroom |- * by (intros E; by apply E).
    apply IH; [done | | done]. intros d' Hd'. apply Hkeys. by right.
  - rewrite decide_True in Hroom |- * by done. cbn [length] in Hroom.
    rewrite Nat2Z.inj_succ in Hroom.
    assert (total t < size t) as Hlt by nia.
    destruct (htable_insert_low fuel t d a) as (t1 & -> & Hwf1 & He1 & Hsame1 & Hs1 & Htb1);
      try done; [apply Hkeys; [by left | done] | |].
    { enough ((total t + 1) * 100 / size t < percent t + 1) by lia.
      apply Z.div_lt_upper_bound; nia. }
    cbn [mbind outcome_bind]. destruct Hsame1 as (Hc1 & Hk1 & Hp1).
    assert (total t1 = total t + 1) as Htot.
    { destruct Hwf1 as (_ & _ & -> & _). rewrite Ht, He1. simpl. lia. }
    destruct (IH t1) as (t2 & -> & Hwf2 & He2 & (Hc2 & Hk2 & Hp2) & Hs2 & Htb2); try done.
    { intros d' Hd'. rewrite Hk1. apply Hkeys. by right. }
    { rewrite Htot, Hp1, Hs1. lia. }
    exists t2. split_and!; try done; [|unfold ht_same; split_and!; congruence|congruence|congruence].
    rewrite He2, He1. simpl. by rewrite Permutation_middle.
Qed.

(** A rehash to a size with room keeps the entries and the table's ownership;
    without memory it changes nothing. *)
Lemma htable_rehash_spec fuel t ns a frame :
  ht_wf t -> 0 < ns < 1000000 -> (forall d, d ∈ entries t -> key_ok (key t) d) ->
  total t * 100 < (percent t + 1) * ns -> ht_owns t a frame ->
  exists rc t' a', htable_rehash_with (htable_insert (S fuel)) t ns a = Ok (rc, t', a') /\
    ht_wf t' /\ entries t' ≡ₚ entries t /\ ht_same t t' /\ ht_owns t' a' frame /\
    (size t' = ns \/ t' = t).
Proof.
  intros Hwf Hns Hkeys Hroom (Hnn & Hnf & Hlive). pose proof Hwf as (Hs & Hl & Ht & Hp).
  unfold htable_rehash_with. destruct (kmalloc (u32 (4 * ns)) a) as [nt a1] eqn:Hm.
  apply kmalloc_cases in Hm. destruct (Z.eqb_spec nt NULL) as [E|E].
  - destruct Hm as [[_ Hm]|[? _]]; [|done]. exists (-1), t, a1.
    split_and!; try done; [|by right]. unfold ht_owns. by rewrite Hm.
  - destruct Hm as [[? _]|(_ & Hq & Hm)]; [done |].
    set (t0 := HashTable _ _ _ _ _ _ _).
    assert (entries t0 = []) as He0.
    { unfold entries, t0. simpl. clear. induction (Z.to_nat ns) as [|n IH]; [done |].
      simpl. rewrite filter_cons, decide_False by (intros E; by apply E). done. }
    assert (ht_wf t0) as Hwf0.
    { unfold ht_wf. rewrite He0. simpl. rewrite length_replicate. split_and!; (lia || done). }
    destruct (rehash_loop fuel (slots t) t0 a1) as (t1 & -> & Hwf1 & He1 & Hsame1 & Hs1 & Htb1); try done.
    { intros d Hd Hne. apply Hkeys. unfold entries. apply list_elem_of_filter. done. }
    { unfold entries in Ht. simpl. rewrite <- Ht. lia. }
    cbn [mbind outcome_bind].
    destruct (kfree_live (table t) a1) as (a2 & -> & Hl2); [rewrite Hm, Hlive; set_solver |].
    cbn [mbind outcome_bind]. exists 0, t1, a2. rewrite He0, app_nil_r in He1.
    split_and!; try done; [|by left]. unfold ht_owns. rewrite Htb1. simpl.
    rewrite Hlive in Hq. split_and!; [done | set_solver |]. rewrite Hl2, Hm, Hlive. set_solver.
Qed.
End htable_facts.

Lemma htable_insert_spec {A} `{MmLaws A} fuel t data (a : A) frame :
  ht_wf t -> size t < 500000 -> data <> NULL -> key_ok (key t) data ->
  (forall d, d ∈ entries t -> key_ok (key t) d) -> ht_owns t a frame ->
  exists rc t' a', htable_insert (S (S fuel)) t data a = Ok (rc, t', a') /\
    ht_wf t' /\ ht_same t t' /\ ht_owns t' a' frame /\
    ((rc = -1 /\ t' = t /\ total t = size t) \/
     (rc = 0 /\ entries t' ≡ₚ data :: entries t)).
Proof.
  intros Hwf Hsz Hd Hk Hkeys Hown. pose proof Hwf as (Hs & Hl & Ht & Hp).
  assert (length (entries t) <= length (slots t))%nat as Hle by apply length_filter.
  change (htable_insert (S (S fuel)) t data a) with
    (if total t =? size t then Ok (-1, t, a) else
      current_percent ← sdiv (s32 (s32 (total t + 1) * 100)) (size t);
      '(_, t, a) ← (if percent t <? current_percent
                    then htable_rehash_with (htable_insert (S fuel)) t (s32 (size t * 2)) a
                    else Ok (0, t, a));
      t ← htable_probe_insert (Z.to_nat (size t)) 0 (abs_key t data) data t;
      Ok (0, t, a)).
  destruct (Z.eqb_spec (total t) (size t)) as [E|E].
  { exists (-1), t, a. split_and!; try done. by left. }
  rewrite load_sdiv by lia. cbn [mbind outcome_bind].
  destruct (percent t <? (total t + 1) * 100 / size t).
  - rewrite s32_small by (unfold is_s32; lia).
    destruct (htable_rehash_spec fuel t (size t * 2) a frame)
      as (rc & t1 & a1 & -> & Hwf1 & He1 & Hsame1 & Hown1 & Hs1); try done; [lia | nia |].
    cbn [mbind outcome_bind]. pose proof Hsame1 as (Hc1 & Hk1 & Hp1).
    destruct (htable_place t1 data) as (t2 & -> & Hwf2 & He2 & Hsame2 & Hs2 & Htb2); try done.
    { by rewrite Hk1. }
    { destruct Hs1 as [Hs1| ->]; [|lia].
      destruct Hwf1 as (_ & _ & Ht1 & _). rewrite Ht1, He1, Hs1. lia. }
    destruct Hsame2 as (Hc2 & Hk2 & Hp2).
    cbn [mbind outcome_bind]. exists 0, t2, a1. split_and!; try done.
    + unfold ht_same. split_and!; congruence.
    + unfold ht_owns. by rewrite Htb2.
    + right. split; [done |]. by rewrite He2, He1.
  - cbn [mbind outcome_bind].
    destruct (htable_place t data) as (t2 & -> & Hwf2 & He2 & Hsame2 & Hs2 & Htb2); try done; [lia |].
    cbn [mbind outcome_bind]. exists 0, t2, a. split_and!; try done.
    + unfold ht_owns. by rewrite Htb2.
    + by right.
Qed.

(** C34. [htable_insert] into a well-formed table terminates with nesting depth
    two; a full table refuses with -1 unchanged, otherwise the result is 0 and
    the new contents are the old ones plus the entry, whether or not the table
    was rehashed or the rehash was refused; the table owns exactly one block. *)
Theorem htable_insert_adds {A} `{MmLaws A} fuel t data (a : A) frame :
  ht_wf t -> size t < 500000 -> data <> NULL -> key_ok (key t) data ->
  (forall d, d ∈ entries t -> key_ok (key t) d) -> ht_owns t a frame ->
  exists rc t' a', htable_insert (S (S fuel)) t data a = Ok (rc, t', a') /\
    ht_wf t' /\ ht_same t t' /\ ht_owns t' a' frame /\
    ((rc = -1 /\ t' = t /\ total t = size t) \/
     (rc = 0 /\ entries t' ≡ₚ data :: entries t)).
Proof. by apply htable_insert_spec. Qed.

Section htable_search.
Context {A : Type} `{MmLaws A}.
Implicit Types (t : hash_table) (a : A).

Lemma entries_elem t d : d ∈ entries t <-> d <> NULL /\ d ∈ slots t.
Proof. unfold entries. by rewrite list_elem_of_filter. Qed.

(** The probe from step [i0] answers with a match among the slots it visits. *)
Lemma htable_probe_sound t k sample n i0 :
  ht_wf t -> 0 <= k <= 2000000000 -> 0 <= i0 -> i0 + Z.of_nat n <= size t ->
  exists d, htable_probe n i0 k sample t = Ok d /\
  ((d <> NULL /\ d ∈ entries t /\ compare t d sample = 0) \/
   (d = NULL /\ forall i e, i0 <= i < i0 + Z.of_nat n ->
      slots t !! Z.to_nat ((i + k) mod size t) = Some e -> e <> NULL -> compare t e sample <> 0)).
Proof.
  intros Hwf Hk. revert i0. induction n as [|n IH]; intros i0 Hi0 Hn; cbn [htable_probe].
  { exists NULL. split; [done |]. right. split; [done |]. lia. }
  destruct (probe_position t k i0 Hwf Hk) as [-> Hr]; [lia |]. cbn [mbind outcome_bind].
  rewrite kassert_true by lia. cbn [mbind outcome_bind].
  destruct (aget_lt (slots t) _ Hr) as [d Hget]. rewrite Hget. cbn [mbind outcome_bind].
  apply aget_Some in Hget as [_ Hget].
  destruct (Z.eqb_spec d NULL) as [->|Hd]; simpl.
  - destruct (IH (i0 + 1)) as (e & -> & Hcase); [lia | lia |]. exists e. split; [done |].
    destruct Hcase as [?|[-> Hno]]; [by left |]. right. split; [done |].
    intros i x Hi Hx Hxn. destruct (decide (i = i0)) as [->|]; [congruence |].
    apply (Hno i); (done || lia).
  - destruct (Z.eqb_spec (compare t d sample) 0) as [Hc|Hc].
    + exists d. split; [done |]. left. split_and!; try done. apply entries_elem.
      split; [done |]. by eapply list_elem_of_lookup_2.
    + destruct (IH (i0 + 1)) as (e & -> & Hcase); [lia | lia |]. exists e. split; [done |].
      destruct Hcase as [?|[-> Hno]]; [by left |]. right. split; [done |].
      intros i x Hi Hx Hxn. destruct (decide (i = i0)) as [->|]; [congruence |].
      apply (Hno i); (done || lia).
Qed.

Lemma htable_probe_remove_spec t k data n i0 :
  ht_wf t -> 0 <= k <= 2000000000 -> data <> NULL -> 0 <= i0 -> i0 + Z.of_nat n <= size t ->
  exists t', htable_probe_remove n i0 k data t = Ok t' /\ ht_wf t' /\ ht_same t t' /\
    table t' = table t /\
  (entries t ≡ₚ data :: entries t' \/
   (t' = t /\ forall i, i0 <= i < i0 + Z.of_nat n ->
      slots t !! Z.to_nat ((i + k) mod size t) <> Some data)).
Proof.
  intros Hwf Hk Hd. revert i0. induction n as [|n IH]; intros i0 Hi0 Hn; cbn [htable_probe_remove].
  { exists t. split_and!; try done. right. split; [done |]. lia. }
  destruct (probe_position t k i0 Hwf Hk) as [-> Hr]; [lia |]. cbn [mbind outcome_bind].
  destruct (aget_lt (slots t) _ Hr) as [d Hget]. rewrite Hget. cbn [mbind outcome_bind].
  apply aget_Some in Hget as [_ Hget]. destruct (Z.eqb_spec d data) as [->|Hne].
  - rewrite aset_lt by done. cbn [mbind outcome_bind]. eexists. split; [done |].
    set (t' := set_slots _ _ _).
    assert (entries t ≡ₚ data :: entries t') as Hperm by (by apply filter_delete_perm).
    destruct Hwf as (Hs & Hl & Ht & Hp). pose proof (Permutation_length Hperm) as Hlen. simpl in Hlen.
    split_and!; try done; [|by left]. unfold ht_wf. simpl.
    rewrite length_insert, s32_small by (unfold is_s32; unfold entries in Ht;
      pose proof (length_filter (fun d => d <> NULL) (slots t)); lia).
    split_and!; try done; try lia.
  - destruct (IH (i0 + 1)) as (t' & -> & Hwf' & Hsame & Htb & Hcase); [lia | lia |].
    exists t'. split_and!; try done. destruct Hcase as [?|[-> Hno]]; [by left |].
    right. split; [done |]. intros i Hi. destruct (decide (i = i0)) as [->|]; [congruence |].
    apply Hno. lia.
Qed.

(** [htable_get] counts through the entries. *)
Lemma htable_scan_spec t n i cnt num :
  ht_wf t -> (i + n = length (slots t))%nat -> 0 <= cnt <= Z.of_nat i -> cnt <= num ->
  htable_scan n (Z.of_nat i) cnt num t =
    Ok (default NULL (filter (fun d => d <> NULL) (drop i (slots t)) !! Z.to_nat (num - cnt))).
Proof.
  intros Hwf. pose proof Hwf as (Hs & Hl & Ht & Hp).
  revert i cnt. induction n as [|n IH]; intros i cnt Hi Hc Hnum; cbn [htable_scan].
  { rewrite drop_ge by lia. done. }
  assert (is_Some (slots t !! i)) as [d Hd] by (apply lookup_lt_is_Some_2; lia).
  rewrite (aget_nat _ _ _ Hd). cbn [mbind outcome_bind].
  rewrite (drop_S _ _ _ Hd), filter_cons.
  replace (Z.of_nat i + 1) with (Z.of_nat (S i)) by lia.
  destruct (Z.eqb_spec d NULL) as [->|Hne].
  - rewrite decide_False by (intros E; by apply E). rewrite IH; (done || lia).
  - rewrite decide_True by done. destruct (Z.eqb_spec cnt num) as [->|Hn].
    + by rewrite Z.sub_diag.
    + rewrite s32_small by (unfold is_s32; lia).
      replace (Z.to_nat (num - cnt)) with (S (Z.to_nat (num - (cnt + 1)))) by lia.
      rewrite IH; (done || lia).
Qed.
End htable_search.

(** What a search answers. *)
Lemma htable_retrieve_spec t sample : ht_wf t -> key_ok (key t) sample ->
  exists d, htable_retrieve t sample = Ok d /\
  ((d <> NULL /\ d ∈ entries t /\ compare t d sample = 0) \/
   (d = NULL /\ forall e, e ∈ entries t -> compare t e sample <> 0)).
Proof.
  intros Hwf Hk. pose proof Hwf as (Hs & Hl & Ht & Hp). unfold htable_retrieve.
  destruct (Z.eqb_spec (total t) 0) as [E|E].
  { exists NULL. split; [done |]. right. split; [done |]. intros e He.
    destruct (entries t); [by apply not_elem_of_nil in He | simpl in Ht; lia]. }
  pose proof (abs_key_range t sample Hk) as Hak.
  destruct (htable_probe_sound t (abs_key t sample) sample (Z.to_nat (size t)) 0)
    as (d & -> & Hcase); try done; [lia |].
  exists d. split; [done |]. destruct Hcase as [?|[-> Hno]]; [by left |].
  right. split; [done |]. intros e He. apply entries_elem in He as [Hne He].
  apply list_elem_of_lookup_1 in He as [j Hj]. pose proof (lookup_lt_Some _ _ _ Hj).
  destruct (probe_covers (size t) (abs_key t sample) j) as (i & Hi & Hpos); try lia.
  apply (Hno i); [lia | | done]. by rewrite Hpos, Nat2Z.id.
Qed.

(** C33. [htable_retrieve] on a well-formed table runs without fault and answers
    with a stored entry that compares equal to the sample; it answers NULL
    exactly when no stored entry does, wherever removals left holes. *)
Theorem htable_retrieve_correct t sample : ht_wf t -> key_ok (key t) sample ->
  exists d, htable_retrieve t sample = Ok d /\
  ((d <> NULL /\ d ∈ entries t /\ compare t d sample = 0) \/
   (d = NULL /\ forall e, e ∈ entries t -> compare t e sample <> 0)).
Proof. apply htable_retrieve_spec. Qed.

Lemma htable_remove_spec {A} `{MmLaws A} fuel t data (a : A) frame :
  ht_wf t -> data <> NULL -> key_ok (key t) data ->
  (forall d, d ∈ entries t -> key_ok (key t) d) -> ht_owns t a frame ->
  exists rc t' a', htable_remove (S fuel) t data a = Ok (rc, t', a') /\
    ht_wf t' /\ ht_same t t' /\ ht_owns t' a' frame /\
    ((rc = -1 /\ t' = t /\ entries t = []) \/
     (rc = 0 /\ data ∈ entries t /\ entries t ≡ₚ data :: entries t') \/
     (rc = 0 /\ data ∉ entries t /\ entries t' ≡ₚ entries t)).
Proof.
  intros Hwf Hd Hk Hkeys Hown. pose proof Hwf as (Hs & Hl & Ht & Hp).
  assert (length (entries t) <= length (slots t))%nat as Hle by apply length_filter.
  unfold htable_remove. destruct (Z.eqb_spec (total t) 0) as [E|E].
  { exists (-1), t, a. split_and!; try done. left. split_and!; try done.
    destruct (entries t); [done | simpl in Ht; lia]. }
  rewrite load_sdiv by lia. cbn [mbind outcome_bind].
  assert (exists rc1 t1 a1, (if ((total t - 1) * 100 / size t <? Z.quot (percent t) 4) && (32 <? size t)
      then htable_rehash (S fuel) t (Z.quot (size t) 2) a else Ok (0, t, a)) = Ok (rc1, t1, a1) /\
      ht_wf t1 /\ entries t1 ≡ₚ entries t /\ ht_same t t1 /\ ht_owns t1 a1 frame)
    as (rc1 & t1 & a1 & -> & Hwf1 & He1 & Hsame1 & Hown1).
  { destruct (_ && _) eqn:Ec; [|by exists 0, t, a].
    apply andb_true_iff in Ec as [Ec1 Ec2]. apply Z.ltb_lt in Ec1, Ec2.
    rewrite Z.quot_div_nonneg in Ec1 |- * by lia.
    destruct (htable_rehash_spec fuel t (size t / 2) a frame)
      as (rc & t1 & a1 & Hrun & Hwf1 & He1 & Hsame1 & Hown1 & Hs1); try done.
    - pose proof (Z.div_mod (size t) 2). pose proof (Z.mod_pos_bound (size t) 2). lia.
    - pose proof (Z.div_mod (size t) 2). pose proof (Z.mod_pos_bound (size t) 2).
      assert ((total t - 1) * 100 < percent t / 4 * size t) as Hlow.
      { assert ((total t - 1) * 100 / size t + 1 <= percent t / 4) by lia.
        pose proof (Z.div_mod ((total t - 1) * 100) (size t)).
        pose proof (Z.mod_pos_bound ((total t - 1) * 100) (size t)). nia. }
      assert (4 * (percent t / 4) <= percent t) by (apply Z.mul_div_le; lia). nia.
    - exists rc, t1, a1. done. }
  cbn [mbind outcome_bind]. pose proof Hsame1 as (Hc1 & Hk1 & Hp1).
  pose proof Hwf1 as (Hs1 & Hl1 & Ht1 & _).
  assert (key_ok (key t1) data) as Hkd by (by rewrite Hk1).
  pose proof (abs_key_range t1 data Hkd) as Hak.
  destruct (htable_probe_remove_spec t1 (abs_key t1 data) data (Z.to_nat (size t1)) 0)
    as (t2 & -> & Hwf2 & (Hc2 & Hk2 & Hp2) & Htb2 & Hcase); try done; [lia |].
  cbn [mbind outcome_bind]. exists 0, t2, a1. split_and!; try done.
  - unfold ht_same. split_and!; congruence.
  - unfold ht_owns. by rewrite Htb2.
  - right. destruct Hcase as [Hperm|[-> Hno]].
    + left. split_and!; [done | | by rewrite <- He1].
      rewrite <- He1, Hperm. by left.
    + right. split_and!; [done | | done]. rewrite <- He1. intros Hin.
      apply entries_elem in Hin as [_ Hin]. apply list_elem_of_lookup_1 in Hin as [j Hj].
      pose proof (lookup_lt_Some _ _ _ Hj).
      destruct (probe_covers (size t1) (abs_key t1 data) j) as (i & Hi & Hpos); try lia.
      apply (Hno i); [lia |]. by rewrite Hpos, Nat2Z.id.
Qed.

(** [htable_remove] of an entry that the table holds takes exactly one
    occurrence of it out and returns 0, through a shrinking rehash when the load
    is low; an entry that the table does not hold leaves the contents alone, and
    an empty table refuses with -1. *)
Theorem htable_remove_takes {A} `{MmLaws A} fuel t data (a : A) frame :
  ht_wf t -> data <> NULL -> key_ok (key t) data ->
  (forall d, d ∈ entries t -> key_ok (key t) d) -> ht_owns t a frame ->
  exists rc t' a', htable_remove (S fuel) t data a = Ok (rc, t', a') /\
    ht_wf t' /\ ht_same t t' /\ ht_owns t' a' frame /\
    ((rc = -1 /\ t' = t /\ entries t = []) \/
     (rc = 0 /\ data ∈ entries t /\ entries t ≡ₚ data :: entries t') \/
     (rc = 0 /\ data ∉ entries t /\ entries t' ≡ₚ entries t)).
Proof. by apply htable_remove_spec. Qed.

Lemma htable_get_spec t num : ht_wf t -> 0 <= num ->
  htable_get t num = Ok (default NULL (entries t !! Z.to_nat num)).
Proof.
  intros Hwf Hn. pose proof Hwf as (Hs & Hl & Ht & Hp). unfold htable_get.
  destruct (Z.eqb_spec (total t) 0) as [E|E].
  { rewrite lookup_ge_None_2 by lia. done. }
  destruct (Z.leb_spec (total t) num) as [Hge|Hlt].
  { rewrite lookup_ge_None_2 by lia. done. }
  pose proof (htable_scan_spec t (Z.to_nat (size t)) 0 0 num Hwf) as Hscan.
  rewrite Z.sub_0_r in Hscan. apply Hscan; lia.
Qed.

(** [htable_get] enumerates the stored entries: for an index in range it
    returns that entry in slot order, and NULL from the number of entries on, so
    a scan until NULL visits every entry once. *)
Theorem htable_get_enumerates t num : ht_wf t -> 0 <= num ->
  htable_get t num = Ok (default NULL (entries t !! Z.to_nat num)).
Proof. by apply htable_get_spec. Qed.

(** A table of four slots with three entries, hashed by the identity. *)
Definition sample_table : hash_table :=
  HashTable (fun a b => if a =? b then 0 else 1) (fun d => d) 3 4 75 100 [12; 0; 7; 3].

Lemma sample_table_wf : ht_wf sample_table.
Proof. unfold ht_wf. simpl. split_and!; (lia || done). Qed.

Lemma sample_table_keys d : d ∈ entries sample_table -> key_ok (key sample_table) d.
Proof.
  change (entries sample_table) with [12; 7; 3]. intros Hd.
  repeat (apply elem_of_cons in Hd as [->|Hd]; [unfold key_ok; simpl; lia |]).
  by apply not_elem_of_nil in Hd.
Qed.

Lemma sample_table_owns n : ht_owns sample_table (Arena n {[100; 5]}) {[5]}.
Proof. unfold ht_owns. simpl. split_and!; [done | set_solver | set_solver]. Qed.

Lemma htable_insert_adds_witness :
  exists rc t' a', htable_insert 2 sample_table 9 (Arena 3 {[100; 5]}) = Ok (rc, t', a') /\
    ht_wf t' /\ ht_same sample_table t' /\ ht_owns t' a' {[5]} /\
    ((rc = -1 /\ t' = sample_table /\ total sample_table = size sample_table) \/
     (rc = 0 /\ entries t' ≡ₚ 9 :: entries sample_table)).
Proof.
  apply (htable_insert_adds 0); [apply sample_table_wf | done | done | unfold key_ok; simpl; lia
    | apply sample_table_keys | apply sample_table_owns].
Defined.

Lemma htable_retrieve_correct_witness :
  exists d, htable_retrieve sample_table 7 = Ok d /\
  ((d <> NULL /\ d ∈ entries sample_table /\ compare sample_table d 7 = 0) \/
   (d = NULL /\ forall e, e ∈ entries sample_table -> compare sample_table e 7 <> 0)).
Proof. apply htable_retrieve_correct; [apply sample_table_wf | unfold key_ok; simpl; lia]. Defined.

Lemma htable_remove_takes_witness :
  exists rc t' a', htable_remove 1 sample_table 7 (Arena 3 {[100; 5]}) = Ok (rc, t', a') /\
    ht_wf t' /\ ht_same sample_table t' /\ ht_owns t' a' {[5]} /\
    ((rc = -1 /\ t' = sample_table /\ entries sample_table = []) \/
     (rc = 0 /\ 7 ∈ entries sample_table /\ entries sample_table ≡ₚ 7 :: entries t') \/
     (rc = 0 /\ 7 ∉ entries sample_table /\ entries t' ≡ₚ entries sample_table)).
Proof.
  apply (htable_remove_takes 0); [apply sample_table_wf | done | unfold key_ok; simpl; lia
    | apply sample_table_keys | apply sample_table_owns].
Defined.

Lemma htable_get_enumerates_witness :
  htable_get sample_table 1 = Ok (default NULL (entries sample_table !! Z.to_nat 1)).
Proof. apply htable_get_enumerates; [apply sample_table_wf | lia]. Defined.
