(* ===== verification/RwLock.v ===== *)
(** The reader-writer lock (ds/rwlock.c) as seen by concurrent processors: every
    memory access of the three entry points is one step of a thread, and steps
    of different threads interleave.  The unoptimised [num_readers += 1] of
    [rwlock_get_read_access] is a load and a store, [atomic_inc]/[atomic_dec] are
    single steps, and [acquire_spinlock] only steps when it takes the bit. *)
From S2P Require Import Prelude Mm.

(** [struct rwlock] *)
Record rwlock := RwLock {
  num_readers : Z; num_writers : Z; write_request : Z; spinlock : Z
}.

Definition set_readers (rw : rwlock) n := RwLock n (num_writers rw) (write_request rw) (spinlock rw).
Definition set_writers (rw : rwlock) n := RwLock (num_readers rw) n (write_request rw) (spinlock rw).
Definition set_request (rw : rwlock) n := RwLock (num_readers rw) (num_writers rw) n (spinlock rw).
Definition set_spinlock (rw : rwlock) n := RwLock (num_readers rw) (num_writers rw) (write_request rw) n.

(** [init_rwlock]: the block is used without a check. *)
Definition init_rwlock `{MmSubsystem A} (a : A) : outcome (Z * rwlock * A) :=
  let '(p, a) := kmalloc 16 a in
  if p =? NULL then Halt NullDeref else Ok (p, RwLock 0 0 0 0, a).

Definition delete_rwlock `{MmSubsystem A} (p : Z) (a : A) : outcome (Z * A) :=
  a ← kfree p a; Ok (0, a).

(** What a holder of the lock was granted (a ghost of the program counter: the
    code of [rwlock_release] does not know it). *)
Inductive grant := ByReader | ByWriter.

(** Where a thread is. *)
Inductive pc :=
  | Idle
  | W0                (* acquire_spinlock, write access *)
  | W1                (* reads num_readers *)
  | W2                (* reads num_writers *)
  | W3                (* atomic_inc( num_writers ) *)
  | W4                (* release_spinlock, then return *)
  | W5                (* write_request = 1 *)
  | W6                (* release_spinlock, then retry *)
  | Writing
  | R0                (* acquire_spinlock, read access *)
  | R1                (* reads num_writers *)
  | R2                (* reads write_request *)
  | R3                (* loads num_readers *)
  | R4 (v : Z)        (* stores v + 1 *)
  | R5                (* release_spinlock, then return *)
  | R6                (* release_spinlock, then retry *)
  | Reading
  | L0 (g : grant)    (* rwlock_release: reads num_writers *)
  | L1 (g : grant)    (* write_request = 0 *)
  | L2 (g : grant)    (* num_writers = 0 *)
  | L3 (g : grant).   (* atomic_dec( num_readers ) *)

(** [rwlock_get_write_access], one access at a time. *)
Definition write_access_step (p : pc) (rw : rwlock) : list (pc * rwlock) :=
  match p with
  | W0 => if spinlock rw =? 0 then [(W1, set_spinlock rw 1)] else []
  | W1 => if num_readers rw =? 0 then [(W2, rw)] else [(W5, rw)]
  | W2 => if num_writers rw =? 0 then [(W3, rw)] else [(W5, rw)]
  | W3 => [(W4, set_writers rw (u32 (num_writers rw + 1)))]
  | W4 => [(Writing, set_spinlock rw 0)]
  | W5 => [(W6, set_request rw 1)]
  | W6 => [(W0, set_spinlock rw 0)]
  | _ => []
  end.

(** [rwlock_get_read_access] *)
Definition read_access_step (p : pc) (rw : rwlock) : list (pc * rwlock) :=
  match p with
  | R0 => if spinlock rw =? 0 then [(R1, set_spinlock rw 1)] else []
  | R1 => if num_writers rw =? 0 then [(R2, rw)] else [(R6, rw)]
  | R2 => if write_request rw =? 0 then [(R3, rw)] else [(R6, rw)]
  | R3 => [(R4 (num_readers rw), rw)]
  | R4 v => [(R5, set_readers rw (u32 (v + 1)))]
  | R5 => [(Reading, set_spinlock rw 0)]
  | R6 => [(R0, set_spinlock rw 0)]
  | _ => []
  end.

(** [rwlock_release] *)
Definition release_step (p : pc) (rw : rwlock) : list (pc * rwlock) :=
  match p with
  | L0 g => if negb (num_writers rw =? 0) then [(L1 g, rw)] else [(L3 g, rw)]
  | L1 g => [(L2 g, set_request rw 0)]
  | L2 g => [(Idle, set_writers rw 0)]
  | L3 g => [(Idle, set_readers rw (u32 (num_readers rw - 1)))]
  | _ => []
  end.

(** The client: an idle thread may ask for either access, a holder may release. *)
Definition client_step (p : pc) (rw : rwlock) : list (pc * rwlock) :=
  match p with
  | Idle => [(W0, rw); (R0, rw)]
  | Writing => [(L0 ByWriter, rw)]
  | Reading => [(L0 ByReader, rw)]
  | _ => []
  end.

Definition thread_step (p : pc) (rw : rwlock) : list (pc * rwlock) :=
  client_step p rw ++ write_access_step p rw ++ read_access_step p rw ++ release_step p rw.

(** The lock and the threads that use it. *)
Record system := System { rw : rwlock; threads : list pc }.

Inductive step : system -> system -> Prop :=
  | step_thread s i p p' rw' :
      threads s !! i = Some p -> (p', rw') ∈ thread_step p (rw s) ->
      step s (System rw' (<[i := p']> (threads s))).

(** [steps n s s']: [n] interleaved steps. *)
Inductive steps : nat -> system -> system -> Prop :=
  | steps_refl s : steps 0 s s
  | steps_snoc n s s' s'' : steps n s s' -> step s' s'' -> steps (S n) s s''.

Definition init_system (n : nat) : system := System (RwLock 0 0 0 0) (replicate n Idle).

(** A schedule picks, step by step, a thread and one of its successors. *)
Definition run1 (c : nat * nat) (s : system) : option system :=
  p ← threads s !! fst c;
  r ← thread_step p (rw s) !! snd c;
  Some (System (snd r) (<[fst c := fst r]> (threads s))).

Definition run (sched : list (nat * nat)) (s : system) : option system :=
  foldl (fun acc c => acc ≫= run1 c) (Some s) sched.

(** The sequential reading of the entry points, for callers that hold the whole
    kernel: [Spin] when the access would wait. *)
Definition rwlock_get_write_access (l : rwlock) : outcome rwlock :=
  if negb (spinlock l =? 0) then Halt Spin
  else if (num_readers l =? 0) && (num_writers l =? 0)
  then Ok (set_writers l (u32 (num_writers l + 1)))
  else Halt Spin.

Definition rwlock_get_read_access (l : rwlock) : outcome rwlock :=
  if negb (spinlock l =? 0) then Halt Spin
  else if (num_writers l =? 0) && (write_request l =? 0)
  then Ok (set_readers l (u32 (num_readers l + 1)))
  else Halt Spin.

Definition rwlock_release (l : rwlock) : rwlock :=
  if negb (num_writers l =? 0) then set_writers (set_request l 0) 0
  else set_readers l (u32 (num_readers l - 1)).

(** * Who holds what *)

(** The thread has been granted read access and not yet given it back. *)
Definition is_reader (p : pc) : bool :=
  match p with
  | R5 | Reading => true
  | L0 ByReader | L3 ByReader => true
  | _ => false
  end.

Definition is_writer (p : pc) : bool :=
  match p with
  | W4 | Writing => true
  | L0 ByWriter | L1 ByWriter | L2 ByWriter => true
  | _ => false
  end.

(** The thread is inside the spin lock. *)
Definition in_spin (p : pc) : bool :=
  match p with
  | W1 | W2 | W3 | W4 | W5 | W6 | R1 | R2 | R3 | R4 _ | R5 | R6 => true
  | _ => false
  end.

(** The thread has seen no reader, no writer, and still holds the spin lock. *)
Definition saw_no_reader (p : pc) : bool := match p with W2 | W3 => true | _ => false end.
Definition saw_no_writer (p : pc) : bool :=
  match p with W3 | R2 | R3 | R4 _ => true | _ => false end.

(** The combinations of place and grant that no execution reaches. *)
Definition impossible (p : pc) : bool :=
  match p with L1 ByReader | L2 ByReader | L3 ByWriter => true | _ => false end.

Definition count_pc (f : pc -> bool) (l : list pc) : Z := Z.of_nat (length (filter (fun p => f p = true) l)).

Definition readers (s : system) : Z := count_pc is_reader (threads s).
Definition writers (s : system) : Z := count_pc is_writer (threads s).

(** The invariant, [n] bounding the number of steps taken. *)
Definition rw_inv (n : nat) (s : system) : Prop :=
  readers s <= num_readers (rw s) <= Z.of_nat n /\
  num_writers (rw s) = writers s /\ writers s <= 1 /\
  spinlock (rw s) = count_pc in_spin (threads s) /\ spinlock (rw s) <= 1 /\
  (0 < writers s -> readers s = 0) /\
  (0 < count_pc saw_no_reader (threads s) -> readers s = 0) /\
  (0 < count_pc saw_no_writer (threads s) -> writers s = 0) /\
  count_pc impossible (threads s) = 0 /\
  (forall v, R4 v ∈ threads s -> readers s <= v <= Z.of_nat n).

Definition b2z (b : bool) : Z := if b then 1 else 0.

Lemma count_pc_nonneg f l : 0 <= count_pc f l.
Proof. unfold count_pc. lia. Qed.

Lemma count_pc_cons f p l : count_pc f (p :: l) = b2z (f p) + count_pc f l.
Proof.
  unfold count_pc, b2z. rewrite filter_cons. destruct (f p) eqn:E.
  - rewrite decide_True by done. simpl. lia.
  - rewrite decide_False by done. lia.
Qed.

Lemma count_pc_insert f l i p p' : l !! i = Some p ->
  count_pc f (<[i := p']> l) = count_pc f l - b2z (f p) + b2z (f p').
Proof.
  revert i. induction l as [|q l IH]; intros [|i] Hi; simplify_eq/=.
  - rewrite !count_pc_cons. lia.
  - rewrite !count_pc_cons, IH by done. lia.
Qed.

Lemma count_pc_at f l i p : l !! i = Some p -> b2z (f p) <= count_pc f l.
Proof.
  revert i. induction l as [|q l IH]; intros [|i] Hi; simplify_eq/=;
    rewrite count_pc_cons; pose proof (count_pc_nonneg f l); [lia |].
  specialize (IH i Hi). unfold b2z in *. destruct (f q); lia.
Qed.

(** With a single thread inside the spin lock, the places inside it are counted
    by looking at that thread. *)
Lemma count_pc_only f l i p : l !! i = Some p -> in_spin p = true ->
  count_pc in_spin l <= 1 -> (forall q, f q = true -> in_spin q = true) ->
  count_pc f l = b2z (f p).
Proof.
  intros Hi Hp Hone Hf.
  assert (forall l', count_pc f l' <= count_pc in_spin l') as Hle.
  { induction l' as [|q l' IH]; [done |]. rewrite !count_pc_cons. unfold b2z.
    destruct (f q) eqn:E; [rewrite (Hf q E); lia |]. destruct (in_spin q); lia. }
  pose proof (count_pc_insert f l i p Idle Hi) as H1.
  pose proof (count_pc_insert in_spin l i p Idle Hi) as H2. rewrite Hp in H2.
  assert (f Idle = false) as Hidle.
  { destruct (f Idle) eqn:E; [apply Hf in E; done | done]. }
  rewrite Hidle in H1. simpl in H1, H2. pose proof (Hle (<[i := Idle]> l)).
  pose proof (count_pc_nonneg f (<[i := Idle]> l)).
  unfold b2z in *. simpl in *. lia.
Qed.

Lemma R4_unique (l : list pc) (i : nat) p v : l !! i = Some p -> in_spin p = true ->
  count_pc in_spin l <= 1 -> R4 v ∈ l -> p = R4 v.
Proof.
  intros Hi Hp Hone Hv. apply list_elem_of_lookup_1 in Hv as [j Hj].
  destruct (decide (i = j)) as [->|Hij]; [congruence |].
  pose proof (count_pc_insert in_spin l i p Idle Hi) as H2. rewrite Hp in H2.
  pose proof (count_pc_at in_spin (<[i := Idle]> l) j (R4 v)) as H3.
  rewrite list_lookup_insert_ne in H3 by done. specialize (H3 Hj). simpl in *. lia.
Qed.

Lemma R4_insert (l : list pc) (i : nat) p' v : R4 v ∈ <[i := p']> l ->
  p' = R4 v \/ (R4 v ∈ l /\ exists j, i <> j /\ l !! j = Some (R4 v)).
Proof.
  intros Hv. apply list_elem_of_lookup_1 in Hv as [j Hj].
  apply list_lookup_insert_Some in Hj as [(_ & <- & _)|(Hij & Hj)]; [by left |].
  right. split; [by eapply list_elem_of_lookup_2 | by exists j].
Qed.

Lemma spin_excl (l : list pc) (i j : nat) p q : l !! i = Some p -> l !! j = Some q ->
  i <> j -> in_spin p = true -> in_spin q = true -> 2 <= count_pc in_spin l.
Proof.
  intros Hi Hj Hij Hp Hq. pose proof (count_pc_insert in_spin l i p Idle Hi) as H2.
  pose proof (count_pc_at in_spin (<[i := Idle]> l) j q) as H3.
  rewrite list_lookup_insert_ne in H3 by done. specialize (H3 Hj).
  rewrite Hp in H2. rewrite Hq in H3. simpl in *. lia.
Qed.

(** The facts about thread [i] at [p] that every case of the preservation uses. *)
Lemma rw_inv_thread n s i p : rw_inv n s -> threads s !! i = Some p ->
  b2z (is_reader p) <= readers s /\ b2z (is_writer p) <= writers s /\
  b2z (in_spin p) <= count_pc in_spin (threads s) /\ impossible p = false /\
  (in_spin p = true ->
     count_pc saw_no_reader (threads s) = b2z (saw_no_reader p) /\
     count_pc saw_no_writer (threads s) = b2z (saw_no_writer p) /\
     forall v, R4 v ∈ threads s -> p = R4 v) /\
  (in_spin p = false -> saw_no_reader p = false /\ saw_no_writer p = false).
Proof.
  intros (Hr & Hw & Hw1 & Hs & Hs1 & Hwr & Hnr & Hnw & Himp & Hv) Hi.
  split_and!; try (by apply (count_pc_at _ _ i)).
  - pose proof (count_pc_at impossible _ i p Hi). destruct (impossible p); simpl in *; lia || done.
  - intros Hp. rewrite Hs in Hs1. split_and!.
    + apply (count_pc_only _ _ i); try done. by intros [].
    + apply (count_pc_only _ _ i); try done. by intros [].
    + intros v. by apply (R4_unique _ i).
  - by destruct p.
Qed.

Lemma thread_step_inv n s i p p' rw' : Z.of_nat (S n) < two32 ->
  rw_inv n s -> threads s !! i = Some p -> (p', rw') ∈ thread_step p (rw s) ->
  rw_inv (S n) (System rw' (<[i := p']> (threads s))).
Proof.
  intros Hn Hinv Hi Hstep.
  pose proof (rw_inv_thread n s i p Hinv Hi) as (Hbr & Hbw & Hbs & Hp & Hin & Hout).
  destruct Hinv as (Hr & Hw & Hw1 & Hs & Hs1 & Hwr & Hnr & Hnw & Himp & Hv).
  pose proof (count_pc_nonneg is_reader (threads s)). pose proof (count_pc_nonneg is_writer (threads s)).
  unfold rw_inv, readers, writers in *. unfold two32 in Hn. simpl.
  rewrite !(count_pc_insert _ _ _ _ _ Hi).
  destruct p as [| | | | | | | | | | | | |w| | | |[]|[]|[]|[]]; unfold thread_step in Hstep;
    simpl in Hstep; repeat case_match; try discriminate Hp;
    repeat (apply elem_of_cons in Hstep as [Hstep|Hstep]);
    try (by apply not_elem_of_nil in Hstep); simplify_eq; simpl in *;
    try (destruct (Hin eq_refl) as (Hin1 & Hin2 & Hin3));
    try (destruct (Hout eq_refl) as (Hout1 & Hout2));
    rewrite ?Z.eqb_eq, ?Z.eqb_neq, ?negb_true_iff, ?negb_false_iff in *;
    rewrite ?u32_small by (unfold is_u32, two32; try (specialize (Hv _ (list_elem_of_lookup_2 _ _ _ Hi))); lia).
  all: try (specialize (Hv _ (list_elem_of_lookup_2 _ _ _ Hi)) as Hvi).
  all: split_and!; try lia.
  all: try (intros v Hv'; apply R4_insert in Hv' as [Hv'|(Hv' & j & Hij & Hj)]; simplify_eq;
    try lia; try (specialize (Hv _ Hv'); lia);
    pose proof (spin_excl _ _ _ _ _ Hi Hj Hij eq_refl eq_refl); lia).
Qed.

Lemma rw_inv_init n : rw_inv 0 (init_system n).
Proof.
  assert (forall f, f Idle = false -> count_pc f (replicate n Idle) = 0) as Hz.
  { intros f Hf. induction n as [|n IH]; [done |]. simpl. by rewrite count_pc_cons, Hf. }
  unfold rw_inv, readers, writers, init_system. simpl. rewrite !Hz by done.
  split_and!; try lia. intros v Hv. apply elem_of_replicate in Hv as [? _]. done.
Qed.

Lemma steps_inv n s s' : rw_inv 0 s -> steps n s s' -> Z.of_nat n < two32 -> rw_inv n s'.
Proof.
  intros H0 Hs. induction Hs as [|n s s' s'' Hs IH Hstep]; [done |]. intros Hn.
  destruct Hstep as [s1 i p p' rw' Hi Hstep].
  eapply thread_step_inv; try done. apply IH; (done || lia).
Qed.

(** C1. Mutual exclusion under every interleaving: in any state that the threads
    reach within 2^32 - 1 steps, at most one thread has write access, and while
    one has it no thread has read access; the lost updates of [num_readers] only
    ever make it too large. *)
Theorem rwlock_mutual_exclusion threads_n n s :
  steps n (init_system threads_n) s -> Z.of_nat n < two32 ->
  writers s <= 1 /\ (0 < writers s -> readers s = 0) /\ readers s <= num_readers (rw s).
Proof.
  intros Hs Hn. pose proof (steps_inv _ _ _ (rw_inv_init threads_n) Hs Hn)
    as (Hr & _ & Hw1 & _ & _ & Hwr & _).
  split_and!; [done | done | lia].
Qed.

(** Asking, but neither granted anything nor able to be. *)
Definition waiting (p : pc) : bool :=
  match p with Idle | W0 | W1 | W5 | W6 | R0 | R1 | R2 | R6 => true | _ => false end.

(** The lock is dead: no one holds it or is about to, yet it looks read-held and a
    write request is pending. *)
Definition locked_out (s : system) : Prop :=
  num_readers (rw s) = 1 /\ write_request (rw s) = 1 /\
  forall p, p ∈ threads s -> waiting p = true.

Lemma locked_out_step s s' : locked_out s -> step s s' -> locked_out s'.
Proof.
  intros (Hr & Hq & Hp) Hstep. destruct Hstep as [s1 i p p' rw' Hi Hstep].
  pose proof (Hp p (list_elem_of_lookup_2 _ _ _ Hi)) as Hin.
  assert (num_readers rw' = 1 /\ write_request rw' = 1 /\ waiting p' = true) as (Hr' & Hq' & Hp').
  { destruct p; try discriminate Hin;
      unfold thread_step in Hstep; simpl in Hstep; rewrite ?Hr, ?Hq in Hstep; simpl in Hstep;
      repeat case_match; repeat (apply elem_of_cons in Hstep as [Hstep|Hstep]);
      try (by apply not_elem_of_nil in Hstep); simplify_eq; done. }
  split_and!; [done | done |]. simpl. intros q Hq2.
  apply list_elem_of_lookup_1 in Hq2 as [j Hj].
  apply list_lookup_insert_Some in Hj as [(_ & <- & _)|(_ & Hj)]; [done |].
  apply Hp. by eapply list_elem_of_lookup_2.
Qed.

Lemma locked_out_steps n s s' : locked_out s -> steps n s s' -> locked_out s'.
Proof. intros Hl Hs. induction Hs; [done |]. eauto using locked_out_step. Qed.

Lemma count_pc_zero f l : (forall p, p ∈ l -> f p = false) -> count_pc f l = 0.
Proof.
  induction l as [|p l IH]; intros Hf; [done |].
  rewrite count_pc_cons, (Hf p), IH; [done | | by left]. intros q Hq. apply Hf. by right.
Qed.

Lemma run_steps sched s s' : run sched s = Some s' -> steps (length sched) s s'.
Proof.
  revert s'. induction sched as [|c sched IH] using rev_ind; intros s' Hrun.
  - injection Hrun as <-. constructor.
  - unfold run in Hrun. rewrite foldl_app in Hrun. simpl in Hrun.
    apply bind_Some in Hrun as (s1 & Hrun & H1). rewrite length_app, Nat.add_comm. simpl.
    apply (steps_snoc _ _ s1); [by apply IH |].
    unfold run1 in H1. apply bind_Some in H1 as (p & Hp & H1).
    apply bind_Some in H1 as ([p' rw'] & Hr & H1). injection H1 as <-. simpl.
    eapply step_thread; [done |]. by eapply list_elem_of_lookup_2.
Qed.

(** Two readers, the second of which loads [num_readers] just before the first
    releases, then a writer that asks once. *)
Definition lost_update_schedule : list (nat * nat) :=
  [(0, 1); (0, 0); (0, 0); (0, 0); (0, 0); (0, 0); (0, 0);   (* thread 0 reads *)
   (1, 1); (1, 0); (1, 0); (1, 0); (1, 0);                   (* thread 1 has loaded 1 *)
   (0, 0); (0, 0); (0, 0);                                   (* thread 0 releases *)
   (1, 0); (1, 0); (1, 0); (1, 0); (1, 0);                   (* thread 1 stores 2, releases *)
   (2, 0); (2, 0); (2, 0); (2, 0)]%nat.                      (* thread 2 asks to write *)

(** The unlocked decrement of [rwlock_release] races with the two-access
    increment of [rwlock_get_read_access]: three threads reach a state in which
    nobody holds the lock, and from which no thread ever obtains any access
    again, whatever the schedule. *)
Theorem rwlock_lost_update_lockout :
  exists n s, steps n (init_system 3) s /\ readers s = 0 /\ writers s = 0 /\
  forall m s', steps m s s' -> readers s' = 0 /\ writers s' = 0.
Proof.
  destruct (run lost_update_schedule (init_system 3)) as [s|] eqn:Hrun; [|by vm_compute in Hrun].
  exists (length lost_update_schedule), s. pose proof (run_steps _ _ _ Hrun) as Hs.
  assert (locked_out s) as Hl.
  { vm_compute in Hrun. injection Hrun as <-. split_and!; [done | done |].
    intros p Hp. simpl in Hp.
    by repeat (apply elem_of_cons in Hp as [->|Hp]; [done |]); apply not_elem_of_nil in Hp. }
  assert (forall s', locked_out s' -> readers s' = 0 /\ writers s' = 0) as Hz.
  { intros s' (_ & _ & Hp). unfold readers, writers.
    split; apply count_pc_zero; intros p Hin; specialize (Hp p Hin); by destruct p. }
  destruct (Hz s Hl) as [Hr0 Hw0]. split; [exact Hs |]. split; [exact Hr0 |]. split; [exact Hw0 |].
  intros m s' Hm. apply Hz. exact (locked_out_steps m s s' Hl Hm).
Qed.

Lemma rwlock_mutual_exclusion_witness :
  let s := System (RwLock 0 1 0 0) [Writing; Idle] in
  writers s <= 1 /\ (0 < writers s -> readers s = 0) /\ readers s <= num_readers (rw s).
Proof.
  apply (rwlock_mutual_exclusion 2 6); [|done].
  apply (run_steps [(0, 0); (0, 0); (0, 0); (0, 0); (0, 0); (0, 0)]%nat). reflexivity.
Defined.
