(* ===== verification/Processes.v ===== *)
(** The process table (processes/process.c): the processes are in a tree, in a
    list and in a hash table by their number, under one reader-writer lock.
    [new_process] and [delete_process], which put the parts of one process
    together, are not here. *)
From S2P Require Import Prelude Mm Strings Dll Lists Family HTable RwLock Env.

Definition NAME_LENGTH : Z := 64.
Definition READER : Z := 0.
Definition WRITER : Z := 1.

(** [struct process]: the fields that the table works with.  Its tree node, its
    list element and its environment are found by its address. *)
Record process := Proc { name : list Z; pid : Z; state : Z; lock : Z }.

(** [struct process_information]; [pi_cmdline] is the address of the buffer. *)
Record process_information := ProcInfo { pi_name : list Z; pi_cmdline : Z; pi_pid : Z; pi_state : Z }.

(** The static variables of process.c, the objects by address, and the
    environments, with the allocator. *)
Record ptable (A : Type) := PTable {
  l_processTable : Z;
  ptab : hash_table;
  l_rootProcess : Z;
  l_processLock : Z;
  l_PID : Z;
  l_PIDlock : Z;
  procs : gmap Z process;
  tree : fheap;
  lists : lheap;
  locks : gmap Z rwlock;
  penv : env_state A
}.
Arguments PTable {A} _ _ _ _ _ _ _ _ _ _ _.
Arguments l_processTable {A} _.
Arguments ptab {A} _.
Arguments l_rootProcess {A} _.
Arguments l_processLock {A} _.
Arguments l_PID {A} _.
Arguments l_PIDlock {A} _.
Arguments procs {A} _.
Arguments tree {A} _.
Arguments lists {A} _.
Arguments locks {A} _.
Arguments penv {A} _.

Section setters.
Context {A : Type}.
Definition set_ptab p t (x : ptable A) := PTable p t (l_rootProcess x) (l_processLock x) (l_PID x) (l_PIDlock x) (procs x) (tree x) (lists x) (locks x) (penv x).
Definition set_root v (x : ptable A) := PTable (l_processTable x) (ptab x) v (l_processLock x) (l_PID x) (l_PIDlock x) (procs x) (tree x) (lists x) (locks x) (penv x).
Definition set_plock v (x : ptable A) := PTable (l_processTable x) (ptab x) (l_rootProcess x) v (l_PID x) (l_PIDlock x) (procs x) (tree x) (lists x) (locks x) (penv x).
Definition set_PID v (x : ptable A) := PTable (l_processTable x) (ptab x) (l_rootProcess x) (l_processLock x) v (l_PIDlock x) (procs x) (tree x) (lists x) (locks x) (penv x).
Definition set_PIDlock v (x : ptable A) := PTable (l_processTable x) (ptab x) (l_rootProcess x) (l_processLock x) (l_PID x) v (procs x) (tree x) (lists x) (locks x) (penv x).
Definition set_tree v (x : ptable A) := PTable (l_processTable x) (ptab x) (l_rootProcess x) (l_processLock x) (l_PID x) (l_PIDlock x) (procs x) v (lists x) (locks x) (penv x).
Definition set_lists v (x : ptable A) := PTable (l_processTable x) (ptab x) (l_rootProcess x) (l_processLock x) (l_PID x) (l_PIDlock x) (procs x) (tree x) v (locks x) (penv x).
Definition set_locks v (x : ptable A) := PTable (l_processTable x) (ptab x) (l_rootProcess x) (l_processLock x) (l_PID x) (l_PIDlock x) (procs x) (tree x) (lists x) v (penv x).
Definition set_penv (v : env_state A) (x : ptable A) := PTable (l_processTable x) (ptab x) (l_rootProcess x) (l_processLock x) (l_PID x) (l_PIDlock x) (procs x) (tree x) (lists x) (locks x) v.
Definition set_mem (a : A) (x : ptable A) := set_penv (EnvState (eprocs (penv x)) (envs (penv x)) (datas (penv x)) a) x.
End setters.

(** The functions of the hash table, over the processes that are live. *)
Definition ptable_key (h : gmap Z process) (d : Z) : Z :=
  match h !! d with
  | Some p => let ans := s32 (u32 (pid p * 100)) in if ans <? 0 then s32 (- ans) else ans
  | None => 0
  end.

Definition ptable_compare (h : gmap Z process) (ad bd : Z) : Z :=
  match h !! ad, h !! bd with
  | Some a, Some b =>
      if negb (pid b =? u32 (-1)) then
        if pid a =? pid b then 0 else if pid a <? pid b then -1 else 1
      else match kstrncmp (name a) (name b) NAME_LENGTH with Ok r => r | Halt _ => 0 end
  | _, _ => 1
  end.

Definition ptable_on (h : gmap Z process) (t : hash_table) : hash_table :=
  HashTable (ptable_compare h) (ptable_key h) (total t) (size t) (percent t) (table t) (slots t).

(** The automatic object of the searches: no heap object has its address. *)
Definition temp_process : Z := -1.
Definition sample_process (n : Z) : process := Proc (replicate 64 0) n 0 NULL.

Section processes.
Context {A : Type} `{MmSubsystem A}.
Abbreviation K := (M (ptable A)).

Definition find_pid (n : Z) : K Z :=
  s ← getS;
  let h := <[temp_process := sample_process n]> (procs s) in
  liftO (htable_retrieve (ptable_on h (ptab s)) temp_process).

(** Locks by address. *)
Definition get_write (l : Z) : K unit :=
  s ← getS; x ← liftO (hload (locks s) l); x ← liftO (rwlock_get_write_access x); modifyS (set_locks (<[l := x]> (locks s))).
Definition get_read (l : Z) : K unit :=
  s ← getS; x ← liftO (hload (locks s) l); x ← liftO (rwlock_get_read_access x); modifyS (set_locks (<[l := x]> (locks s))).
Definition release (l : Z) : K unit :=
  s ← getS; x ← liftO (hload (locks s) l); modifyS (set_locks (<[l := rwlock_release x]> (locks s))).

(** The loop of [next_pid]. *)
Fixpoint next_pid_loop (fuel : nat) (temp_pid : Z) : K unit :=
  match fuel with
  | O => liftO (Halt Spin)
  | S fuel =>
      (if negb (temp_pid =? u32 (-1)) then
         modifyS (fun s => set_PID (s32 (l_PID s + 1)) s) ;;
         modifyS (fun s => if l_PID s <? 0 then set_PID 2 s else s)
       else mret tt) ;;
      s ← getS;
      let temp_pid := u32 (l_PID s) in
      d ← find_pid temp_pid;
      if negb (d =? NULL) then next_pid_loop fuel temp_pid else mret tt
  end.

Definition next_pid : K Z :=
  s ← getS;
  (if l_PIDlock s =? 0 then modifyS (set_PIDlock 1) else liftO (Halt Spin)) ;;
  next_pid_loop (2 + length (slots (ptab s))) (u32 (-1)) ;;
  s ← getS;
  let pid := l_PID s in
  modifyS (set_PID (s32 (pid + 1))) ;;
  modifyS (set_PIDlock 0) ;;
  mret pid.

Definition init_processes : K unit :=
  s ← getS;
  '(t, a) ← liftO (init_htable 128 75 (ptable_key (procs s)) (ptable_compare (procs s)) (emem (penv s)));
  modifyS (fun s => match t with Some (p, t) => set_ptab p t s | None => set_ptab NULL (ptab s) s end) ;;
  '(l, x, a) ← liftO (init_rwlock a);
  modifyS (fun s => set_mem a (set_plock l (set_locks (<[l := x]> (locks s)) s))) ;;
  s ← getS;
  massert (l_PID s =? 1).

Definition insert_table (proc : Z) : K unit :=
  s ← getS;
  '(rc, t, a) ← liftO (htable_insert 2 (ptable_on (procs s) (ptab s)) proc (emem (penv s)));
  modifyS (fun s => set_mem a (set_ptab (l_processTable s) t s)).

Definition tree_op (f : fheap -> outcome fheap) : K unit := s ← getS; h ← liftO (f (tree s)); modifyS (set_tree h).
Definition list_op (f : lheap -> outcome lheap) : K unit := s ← getS; h ← liftO (f (lists s)); modifyS (set_lists h).
Definition pid_of (proc : Z) : K Z := s ← getS; p ← liftO (hload (procs s) proc); mret (pid p).

Definition insert_process (parent_pid proc : Z) : K Z :=
  s ← getS;
  if l_rootProcess s =? NULL then
    modifyS (set_root proc) ;;
    insert_table proc ;;
    n ← pid_of proc;
    mret (s32 n)
  else
    massert (0 <=? parent_pid) ;;
    get_write (l_processLock s) ;;
    parent ← find_pid (u32 parent_pid);
    massert (negb (parent =? NULL)) ;;
    tree_op (family_add_child parent proc) ;;
    list_op (list_insertAfter (l_rootProcess s) proc) ;;
    insert_table proc ;;
    n ← pid_of proc;
    release (l_processLock s) ;;
    mret (s32 n).

Definition remove_process (proc : Z) : K unit :=
  s ← getS;
  get_write (l_processLock s) ;;
  s ← getS;
  parent ← liftO (PARENT proc (tree s));
  massert (negb (parent =? NULL)) ;;
  tree_op (family_adopt parent proc) ;;
  tree_op (family_remove proc) ;;
  list_op (list_remove proc) ;;
  s ← getS;
  '(rc, t, a) ← liftO (htable_remove 2 (ptable_on (procs s) (ptab s)) proc (emem (penv s)));
  modifyS (fun s => set_mem a (set_ptab (l_processTable s) t s)) ;;
  s ← getS;
  release (l_processLock s).

(** The walk of [find_process] over the list. *)
Fixpoint find_name (fuel : nat) (tmp : Z) (nm : list Z) : K Z :=
  match fuel with
  | O => liftO (Halt Spin)
  | S fuel =>
      if tmp =? NULL then mret (-1)
      else
        s ← getS;
        p ← liftO (hload (procs s) tmp);
        c ← liftO (kstrncmp nm (name p) NAME_LENGTH);
        if c =? 0 then mret (s32 (pid p))
        else nx ← liftO (NEXT_LINEAR tmp (lists s)); find_name fuel nx nm
  end.

Definition find_process (nm : list Z) : K Z :=
  s ← getS;
  get_read (l_processLock s) ;;
  n ← find_name (S (base.size (lists s))) (l_rootProcess s) nm;
  release (l_processLock s) ;;
  mret n.

(** [checkout_process] leaves the process list locked for reading when it finds
    the process. *)
Definition checkout_process (n flags : Z) : K Z :=
  s ← getS;
  get_read (l_processLock s) ;;
  p ← find_pid (u32 n);
  if p =? NULL then release (l_processLock s) ;; mret NULL
  else
    s ← getS;
    pr ← liftO (hload (procs s) p);
    (if flags =? READER then get_read (lock pr) else get_write (lock pr)) ;;
    mret p.

Definition release_processes : K unit := s ← getS; release (l_processLock s).

Definition commit_process (p : Z) : K unit :=
  s ← getS;
  pr ← liftO (hload (procs s) p);
  release (lock pr) ;;
  release (l_processLock s).

(** The walk of [process_foreach]; the callback may change the table. *)
Fixpoint foreach_loop {L} (fuel : nat) (callback : Z -> L -> M (ptable A) (Z * L)) (p ans : Z) (l : L) : K (Z * L) :=
  match fuel with
  | O => liftO (Halt Spin)
  | S fuel =>
      if p =? NULL then mret (ans, l)
      else
        '(ans, l) ← callback p l;
        if negb (ans =? 0) then mret (ans, l)
        else s ← getS; nx ← liftO (NEXT_LINEAR p (lists s)); foreach_loop fuel callback nx ans l
  end.

(** [process_foreach]; [l] is the local state of the callback. *)
Definition process_foreach {L} (callback : Z -> L -> M (ptable A) (Z * L)) (flags : Z) (l : L) : K (Z * L) :=
  s ← getS;
  (if flags =? READER then get_read (l_processLock s) else mret tt) ;;
  (if flags =? WRITER then get_write (l_processLock s) else mret tt) ;;
  r ← foreach_loop (S (base.size (lists s))) callback (l_rootProcess s) 0 l;
  release (l_processLock s) ;;
  mret r.

(** [internal_callback] of [process_get_list]: the local state is [done] and the
    caller's array. *)
Definition CMD_LINE : list Z := [67; 77; 68; 95; 76; 73; 78; 69; 0].
Definition SMK_CMDLINE_LENGTH : Z := 256.
Definition internal_callback (max : Z) (p : Z) (l : Z * list process_information) : K (Z * (Z * list process_information)) :=
  let '(done, arr) := l in
  s ← getS;
  pr ← liftO (hload (procs s) p);
  e ← liftO (aget arr done);
  nm ← liftO (kstrncpy (pi_name e) (name pr) NAME_LENGTH);
  '((rc, _), es) ← liftO (get_environment p CMD_LINE (pi_cmdline e) SMK_CMDLINE_LENGTH (penv s));
  modifyS (set_penv es) ;;
  massert (0 <=? rc) ;;
  arr ← liftO (aset arr done (ProcInfo nm (pi_cmdline e) (s32 (pid pr)) (state pr)));
  let done := s32 (done + 1) in
  mret (if done =? max then -1 else 0, (done, arr)).

Definition process_get_list (max : Z) (arr : list process_information) : K (Z * list process_information) :=
  '(_, (done, arr)) ← process_foreach (internal_callback max) WRITER (0, arr);
  mret (done, arr).
End processes.

(** * The consistent process table *)

Section invariant.
Context {A : Type} `{MmLaws A}.
Implicit Types (s : ptable A) (l : list Z) (T : kids).

Definition pid_is s (p n : Z) : Prop := exists pr, procs s !! p = Some pr /\ pid pr = n.

(** The entries of the hash table are the live processes [l], and no two have
    the same number. *)
Record pids_ok s l : Prop := {
  po_ht : ht_wf (ptab s);
  po_entries : entries (ptab s) ≡ₚ l;
  po_live : forall p, p ∈ l -> p <> temp_process /\ exists pr, procs s !! p = Some pr /\ 0 <= pid pr <= 20000000;
  po_unique : forall p q n, p ∈ l -> q ∈ l -> pid_is s p n -> pid_is s q n -> p = q
}.

(** Every process but the first of the list has its parent in the list. *)
Record kin_ok s l T : Prop := {
  ko_root : l_rootProcess s = first_of l;
  ko_list : dlist (lists s) l;
  ko_tree : fam_ok (tree s) T;
  ko_node : forall p, p ∈ l -> is_Some (T !! p);
  ko_parent : forall p, p ∈ l -> p <> first_of l -> exists q m, q ∈ l /\ T !! q = Some m /\ p ∈ m;
  ko_kids : forall q m p, T !! q = Some m -> p ∈ m -> q ∈ l /\ p ∈ l;
  ko_top : forall q m, T !! q = Some m -> first_of l ∉ m
}.

(** The lock is not held. *)
Definition lock_free s (k : Z) : Prop := k <> NULL /\ locks s !! k = Some (RwLock 0 0 0 0).

Definition table_ok s l T (frame : gset Z) : Prop :=
  pids_ok s l /\ kin_ok s l T /\ lock_free s (l_processLock s) /\ ht_owns (ptab s) (emem (penv s)) frame.

Lemma ptable_key_ok (h : gmap Z process) p pr : h !! p = Some pr -> 0 <= pid pr <= 20000000 -> key_ok (ptable_key h) p.
Proof.
  intros Hp Hr. unfold key_ok, ptable_key. rewrite Hp, u32_small by (unfold is_u32, two32; lia).
  rewrite s32_small by (unfold is_s32; lia). cbv zeta. destruct (Z.ltb_spec (pid pr * 100) 0); lia.
Qed.

Lemma pids_keys s l p : pids_ok s l -> p ∈ entries (ptab s) -> key_ok (ptable_key (procs s)) p.
Proof.
  intros Hp Hin. rewrite (po_entries _ _ Hp) in Hin. destruct (po_live _ _ Hp p Hin) as (_ & pr & Hpr & Hr). by eapply ptable_key_ok.
Qed.

Lemma pid_is_inj s p n m : pid_is s p n -> pid_is s p m -> n = m.
Proof. intros (x & Hx & <-) (y & Hy & <-). rewrite Hx in Hy. by injection Hy as <-. Qed.

(** The search by number. *)
Lemma find_pid_ok s l n : pids_ok s l -> 0 <= n <= 20000000 -> exists p, find_pid n s = Ok (p, s) /\
  ((p <> NULL /\ p ∈ l /\ pid_is s p n) \/ (p = NULL /\ forall q, q ∈ l -> ~ pid_is s q n)).
Proof.
  intros Hp Hn. unfold find_pid. mrun. set (h' := <[temp_process := sample_process n]> (procs s)).
  assert (h' !! temp_process = Some (sample_process n)) as Ht by apply lookup_insert_eq.
  assert (forall q, q ∈ l -> (ptable_compare h' q temp_process = 0 <-> pid_is s q n)) as Hc.
  { intros q Hq. destruct (po_live _ _ Hp q Hq) as (Hne & pr & Hpr & Hr).
    assert (h' !! q = Some pr) as Hq' by (unfold h'; by rewrite lookup_insert_ne by done).
    unfold ptable_compare. rewrite Hq', Ht. cbn [sample_process pid]. change (u32 (-1)) with 4294967295.
    destruct (Z.eqb_spec n 4294967295); [lia |]. simpl. split.
    - intros Hz. exists pr. split; [done |]. revert Hz. zbool.
    - intros Hi. assert (pid pr = n) as -> by (apply (pid_is_inj s q); [by exists pr | done]). zbool. }
  destruct (htable_retrieve_spec (ptable_on h' (ptab s)) temp_process) as (d & Hd & Hcase).
  - exact (po_ht _ _ Hp).
  - apply (ptable_key_ok _ _ (sample_process n)); (done || simpl; lia).
  - exists d. change (entries (ptable_on h' (ptab s))) with (entries (ptab s)) in Hcase.
    change (compare (ptable_on h' (ptab s))) with (ptable_compare h') in Hcase. rewrite Hd. split; [done |].
    destruct Hcase as [(Hne & He & Hz)|(-> & Hno)].
    + left. rewrite (po_entries _ _ Hp) in He. split_and!; try done. by apply Hc.
    + right. split; [done |]. intros q Hq Hi. apply (Hno q); [by rewrite (po_entries _ _ Hp) | by apply Hc].
Qed.

Lemma find_pid_Some s l p n : pids_ok s l -> 0 <= n <= 20000000 -> p ∈ l -> p <> NULL -> pid_is s p n -> find_pid n s = Ok (p, s).
Proof.
  intros Hp Hn Hin Hnn Hi. destruct (find_pid_ok s l n Hp Hn) as (q & -> & [(_ & Hq & Hqi)|(_ & Hno)]); [|by destruct (Hno p Hin)].
  by rewrite (po_unique _ _ Hp p q n).
Qed.
End invariant.

(** * Fresh numbers *)

Section numbers.
Context {A : Type} `{MmLaws A}.
Implicit Types (s : ptable A) (l : list Z).

Definition pid_at s (p : Z) : Z := match procs s !! p with Some pr => pid pr | None => -1 end.

(** How many processes have a number from [d] on. *)
Definition above s l (d : Z) : nat := length (filter (fun p => d <= pid_at s p) l).

Lemma pid_is_at s p n : pid_is s p n -> pid_at s p = n.
Proof. intros (pr & Hp & <-). unfold pid_at. by rewrite Hp. Qed.

Lemma above_le s l d : (above s l d <= length l)%nat.
Proof. apply length_filter. Qed.

Lemma above_mono s l d : (above s l (d + 1) <= above s l d)%nat.
Proof.
  unfold above. induction l as [|p l IH]; [done |]. rewrite !filter_cons.
  destruct (decide (d + 1 <= pid_at s p)), (decide (d <= pid_at s p)); simpl; lia.
Qed.

Lemma above_next s l d p : p ∈ l -> pid_at s p = d -> (above s l (d + 1) < above s l d)%nat.
Proof.
  intros Hp Hd. induction Hp as [p l|p q l Hp IH].
  - unfold above. rewrite !filter_cons, (decide_False (P := d + 1 <= _)), decide_True by lia. simpl.
    pose proof (above_mono s l d). unfold above in *. lia.
  - unfold above in *. rewrite !filter_cons. destruct (decide (d + 1 <= pid_at s q)), (decide (d <= pid_at s q)); simpl; lia.
Qed.

Lemma pids_ok_PID s l n : pids_ok s l -> pids_ok (set_PID n s) l.
Proof. by intros [? ? ? ?]. Qed.

Lemma set_PID_twice s n m : set_PID n (set_PID m s) = set_PID n s.
Proof. done. Qed.

Lemma next_pid_loop_ok fuel s l tp d : pids_ok s l ->
  (tp = u32 (-1) /\ l_PID s = d) \/ (tp = l_PID s /\ d = tp + 1 /\ 0 <= tp) -> 0 < d ->
  d + Z.of_nat (above s l d) <= 20000000 -> (above s l d < fuel)%nat ->
  exists n, next_pid_loop fuel tp s = Ok (tt, set_PID n s) /\ d <= n <= 20000000 /\
  (forall q, q ∈ l -> ~ pid_is s q n) /\ (forall k, d <= k < n -> exists q, q ∈ l /\ pid_is s q k).
Proof.
  revert s tp d. induction fuel as [|fuel IH]; intros s tp d Hok Htp Hd Hb Hf; [lia |]. cbn [next_pid_loop].
  rewrite run_bind.
  assert ((if negb (tp =? u32 (-1)) then
      modifyS (fun s => set_PID (s32 (l_PID s + 1)) s) ;; modifyS (fun s => if l_PID s <? 0 then set_PID 2 s else s)
    else mret tt) s = Ok (tt, set_PID d s)) as ->.
  { change (u32 (-1)) with 4294967295 in *. destruct (Z.eqb_spec tp 4294967295) as [->|]; cbn [negb].
    - mrun. destruct Htp as [[_ <-]|Htp]; [by destruct s | lia].
    - destruct Htp as [?|(-> & -> & Hp)]; [tauto |]. mrun. rewrite s32_small by (unfold is_s32; lia). cbn [set_PID l_PID].
      unfold modifyS. cbn [set_PID l_PID]. by destruct (Z.ltb_spec (l_PID s + 1) 0); [lia |]. }
  mrun. cbn [set_PID l_PID]. rewrite u32_small by (unfold is_u32, two32; lia).
  destruct (find_pid_ok (set_PID d s) l d (pids_ok_PID _ _ _ Hok)) as (p & -> & Hcase); [lia |]. cbn beta iota.
  destruct Hcase as [(Hne & Hp & Hi)|(-> & Hno)].
  - destruct (Z.eqb_spec p NULL) as [|_]; [done |]. cbn [negb]. change (pid_is s p d) in Hi.
    pose proof (above_next s l d p Hp (pid_is_at _ _ _ Hi)).
    destruct (IH (set_PID d s) d (d + 1) (pids_ok_PID _ _ _ Hok)) as (n & E & Hn & Hfresh & Hused).
    + right. split_and!; (done || lia).
    + lia.
    + change (above (set_PID d s) l (d + 1)) with (above s l (d + 1)). lia.
    + change (above (set_PID d s) l (d + 1)) with (above s l (d + 1)). lia.
    + exists n. rewrite E, set_PID_twice. split_and!; try done; [lia | lia |]. intros k Hk.
      destruct (decide (k = d)) as [->|]; [by exists p | apply Hused; lia].
  - exists d. split_and!; try done; lia.
Qed.

(** The number handed out is the first unused one from the counter on. *)
Lemma next_pid_fresh s l : pids_ok s l -> l_PIDlock s = 0 -> 0 < l_PID s -> l_PID s + Z.of_nat (length l) <= 20000000 ->
  exists n, next_pid s = Ok (n, set_PID (n + 1) s) /\ l_PID s <= n <= 20000000 /\
  (forall q, q ∈ l -> ~ pid_is s q n) /\ (forall k, l_PID s <= k < n -> exists q, q ∈ l /\ pid_is s q k).
Proof.
  intros Hok Hl Hpos Hb. unfold next_pid. mrun. rewrite Hl. cbn [Z.eqb]. mrun.
  assert (pids_ok (set_PIDlock 1 s) l) as Hok1 by (by destruct Hok).
  destruct (next_pid_loop_ok (2 + length (slots (ptab s))) (set_PIDlock 1 s) l (u32 (-1)) (l_PID s) Hok1) as (n & E & Hn & Hfresh & Hused).
  - by left.
  - done.
  - pose proof (above_le (set_PIDlock 1 s) l (l_PID s)). lia.
  - pose proof (above_le (set_PIDlock 1 s) l (l_PID s)). rewrite <- (Permutation_length (po_entries _ _ Hok)) in *.
    pose proof (length_filter (fun d => d <> NULL) (slots (ptab s))). unfold entries in *. lia.
  - rewrite E. mrun. cbn [set_PID l_PID]. rewrite s32_small by (unfold is_s32; lia). exists n. split; [|done].
    destruct s; simpl in *. subst. done.
Qed.
End numbers.

(** * Insertion *)

Section insertion.
Context {A : Type} `{MmLaws A}.
Implicit Types (s : ptable A) (l : list Z) (T : kids).

Definition with_lock s (k : Z) (v : rwlock) : ptable A := set_locks (<[k := v]> (locks s)) s.

Lemma get_write_ok s k : lock_free s k -> get_write k s = Ok (tt, with_lock s k (RwLock 0 1 0 0)).
Proof. intros [Hk Hl]. unfold get_write. mrun. by rewrite (hload_Some _ _ _ Hk Hl). Qed.

Lemma get_read_ok s k : lock_free s k -> get_read k s = Ok (tt, with_lock s k (RwLock 1 0 0 0)).
Proof. intros [Hk Hl]. unfold get_read. mrun. by rewrite (hload_Some _ _ _ Hk Hl). Qed.

(** A lock with one holder, whoever that is, is free again. *)
Lemma release_ok s k v : k <> NULL -> locks s !! k = Some v -> v = RwLock 0 1 0 0 \/ v = RwLock 1 0 0 0 ->
  release k s = Ok (tt, with_lock s k (RwLock 0 0 0 0)).
Proof. intros Hk Hl Hv. unfold release. mrun. rewrite (hload_Some _ _ _ Hk Hl). by destruct Hv as [-> | ->]. Qed.

(** A process object that is not yet in the table. *)
Record new_proc s l T (p : Z) (pr : process) : Prop := {
  np_obj : procs s !! p = Some pr;
  np_pid : 0 <= pid pr <= 20000000;
  np_fresh : forall q, q ∈ l -> ~ pid_is s q (pid pr);
  np_addr : p <> NULL /\ p <> temp_process /\ p ∉ l;
  np_list : lists s !! p = Some (DsList NULL NULL);
  np_tree : T !! p = Some []
}.

Lemma new_proc_alone s l T p pr : new_proc s l T p pr -> kin_ok s l T -> forall q m, T !! q = Some m -> p ∉ m.
Proof. intros Hn Hk q m Hq Hm. destruct (np_addr _ _ _ _ _ Hn) as (_ & _ & Hp). by destruct (ko_kids _ _ _ Hk q m p Hq Hm). Qed.

(** The insertion into the hash table; a table without room stays as it is. *)
Lemma insert_table_ok s l p pr frame : pids_ok s l -> procs s !! p = Some pr -> 0 <= pid pr <= 20000000 -> p <> NULL ->
  size (ptab s) < 500000 -> ht_owns (ptab s) (emem (penv s)) frame ->
  exists t a, insert_table p s = Ok (tt, set_mem a (set_ptab (l_processTable s) t s)) /\ ht_owns t a frame /\ ht_wf t /\
    ((total (ptab s) = size (ptab s) /\ entries t = entries (ptab s)) \/ entries t ≡ₚ p :: entries (ptab s)).
Proof.
  intros Hok Hpr Hr Hp Hsz Hown. unfold insert_table. mrun.
  destruct (htable_insert_spec 0 (ptable_on (procs s) (ptab s)) p (emem (penv s)) frame)
    as (rc & t & a & -> & Hwf & _ & Ho & Hcase); try done.
  - exact (po_ht _ _ Hok).
  - by eapply (ptable_key_ok (procs s) p pr).
  - intros d Hd. eapply (pids_keys s l d Hok), Hd.
  - exists t, a. split_and!; try done. destruct Hcase as [(_ & -> & ?)|[_ He]]; [by left | by right].
Qed.

Lemma pids_insert s s' l T p pr : pids_ok s l -> new_proc s l T p pr -> procs s' = procs s -> ht_wf (ptab s') ->
  entries (ptab s') ≡ₚ p :: entries (ptab s) -> forall l', l' ≡ₚ p :: l -> pids_ok s' l'.
Proof.
  intros Hok Hn Hpr Hwf He l' Hl'. assert (forall q n, pid_is s' q n <-> pid_is s q n) as Hi by (unfold pid_is; by rewrite Hpr). split.
  - done.
  - by rewrite He, (po_entries _ _ Hok), Hl'.
  - intros q Hq. rewrite Hl' in Hq. rewrite Hpr. apply elem_of_cons in Hq as [->|Hq]; [|by apply (po_live _ _ Hok)].
    destruct (np_addr _ _ _ _ _ Hn) as (_ & ? & _). split; [done |]. exists pr. split; [apply (np_obj _ _ _ _ _ Hn) | apply (np_pid _ _ _ _ _ Hn)].
  - intros a b n Ha Hb. rewrite !Hi. rewrite Hl' in Ha, Hb. intros Hia Hib.
    assert (pid_is s p (pid pr)) as Hip by (exists pr; split; [apply (np_obj _ _ _ _ _ Hn) | done]).
    apply elem_of_cons in Ha as [->|Ha], Hb as [->|Hb]; try done.
    + rewrite (pid_is_inj _ _ _ _ Hia Hip) in Hib. by destruct (np_fresh _ _ _ _ _ Hn b Hb).
    + rewrite (pid_is_inj _ _ _ _ Hib Hip) in Hia. by destruct (np_fresh _ _ _ _ _ Hn a Ha).
    + by apply (po_unique _ _ Hok a b n).
Qed.

Lemma kin_insert s s' r rest T p pr q m : kin_ok s (r :: rest) T -> new_proc s (r :: rest) T p pr ->
  q ∈ r :: rest -> T !! q = Some m -> l_rootProcess s' = l_rootProcess s -> dlist (lists s') (r :: p :: rest) ->
  fam_ok (tree s') (<[q := p :: m]> T) -> kin_ok s' (r :: p :: rest) (<[q := p :: m]> T).
Proof.
  intros Hk Hn Hq Hqm Hroot Hl Ht. pose proof (np_addr _ _ _ _ _ Hn) as (_ & _ & Hpl). pose proof (new_proc_alone _ _ _ _ _ Hn Hk) as Hno.
  assert (forall x, x ∈ r :: p :: rest <-> x = p \/ x ∈ r :: rest) as Hin by (intros x; rewrite !elem_of_cons; tauto).
  assert (q <> p) as Hqp by (by intros ->).
  split; try done.
  - rewrite Hroot. apply (ko_root _ _ _ Hk).
  - intros x [->|Hx]%Hin; [rewrite lookup_insert_ne by done; by rewrite (np_tree _ _ _ _ _ Hn) |].
    destruct (decide (x = q)) as [->|]; [by rewrite lookup_insert_eq | rewrite lookup_insert_ne by done; by apply (ko_node _ _ _ Hk)].
  - intros x [->|Hx]%Hin Hr.
    + exists q, (p :: m). rewrite lookup_insert_eq, Hin. split_and!; [by right | done | set_solver].
    + destruct (ko_parent _ _ _ Hk x Hx Hr) as (y & m' & Hy & Hym & Hxm). exists y.
      destruct (decide (y = q)) as [->|].
      * rewrite Hqm in Hym. injection Hym as <-. exists (p :: m). rewrite lookup_insert_eq, Hin. split_and!; [by right | done | set_solver].
      * exists m'. rewrite lookup_insert_ne, Hin by done. split_and!; try done. by right.
  - intros y m' x Hy Hx. rewrite !Hin. destruct (decide (y = q)) as [->|].
    + rewrite lookup_insert_eq in Hy. injection Hy as <-. apply elem_of_cons in Hx as [->|Hx]; [tauto |].
      destruct (ko_kids _ _ _ Hk _ _ _ Hqm Hx). tauto.
    + rewrite lookup_insert_ne in Hy by done. destruct (ko_kids _ _ _ Hk _ _ _ Hy Hx). tauto.
  - intros y m' Hy. destruct (decide (y = q)) as [->|].
    + rewrite lookup_insert_eq in Hy. injection Hy as <-. rewrite elem_of_cons. intros [E|Hr].
      * apply Hpl. rewrite <- E. by apply elem_of_cons; left.
      * by apply (ko_top _ _ _ Hk _ _ Hqm).
    + rewrite lookup_insert_ne in Hy by done. apply (ko_top _ _ _ Hk _ _ Hy).
Qed.

Lemma kin_not_null s l T p : kin_ok s l T -> p ∈ l -> p <> NULL.
Proof. intros Hk Hp ->. by destruct (ko_list _ _ _ Hk) as (_ & _ & Hn). Qed.

(** What an insertion leaves: the process is in the tree and in the list; it is
    in the hash table unless that was full. *)
Definition inserted s s' l' T' (p : Z) (frame : gset Z) : Prop :=
  kin_ok s' l' T' /\ lock_free s' (l_processLock s') /\ procs s' = procs s /\ ht_owns (ptab s') (emem (penv s')) frame /\
  ((total (ptab s) = size (ptab s) /\ entries (ptab s') = entries (ptab s)) \/ pids_ok s' l').

Lemma insert_process_ok s r rest T frame p pr n q m : table_ok s (r :: rest) T frame -> new_proc s (r :: rest) T p pr ->
  size (ptab s) < 500000 -> q ∈ r :: rest -> pid_is s q n -> T !! q = Some m ->
  exists s', insert_process n p s = Ok (pid pr, s') /\ inserted s s' (r :: p :: rest) (<[q := p :: m]> T) p frame.
Proof.
  intros (Hok & Hk & [Hl0 Hl] & Hown) Hn Hsz Hq Hi Hqm. pose proof (np_addr _ _ _ _ _ Hn) as (Hpn & _ & Hpl).
  assert (r <> NULL) as Hrn by (eapply kin_not_null; [exact Hk | by apply elem_of_cons; left]).
  assert (0 <= n <= 20000000) as Hnr.
  { destruct (po_live _ _ Hok q Hq) as (_ & x & Hx & Hr). by rewrite (pid_is_inj s q n (pid x)) by (done || by exists x). }
  destruct (family_add_child_ok (tree s) T q p m (ko_tree _ _ _ Hk) Hqm (np_tree _ _ _ _ _ Hn) (new_proc_alone _ _ _ _ _ Hn Hk))
    as (h1 & Et & Ht); [by intros -> |].
  destruct (list_insertAfter_ok (lists s) [] r rest p (ko_list _ _ _ Hk) Hpn Hpl) as (h2 & El & Hd & _); [by rewrite (np_list _ _ _ _ _ Hn) |].
  unfold insert_process. mrun. rewrite (ko_root _ _ _ Hk). cbn [first_of]. destruct (Z.eqb_spec r NULL) as [|_]; [done |].
  rewrite run_bind. unfold massert, liftO. rewrite kassert_true by lia. rewrite run_bind, (get_write_ok _ _ (conj Hl0 Hl)).
  set (s1 := with_lock _ _ _). assert (pids_ok s1 (r :: rest)) as Hok1 by (by destruct Hok).
  rewrite run_bind, u32_small by (unfold is_u32, two32; lia).
  rewrite (find_pid_Some s1 _ q n Hok1 Hnr Hq (kin_not_null _ _ _ _ Hk Hq) Hi). rewrite run_bind.
  destruct (Z.eqb_spec q NULL) as [->|_]; [by destruct (kin_not_null _ _ _ _ Hk Hq) |]. mred. rewrite run_bind.
  unfold tree_op. mrun. cbn [s1 with_lock set_locks tree]. rewrite Et. mrun.
  unfold list_op. mrun. cbn [set_tree s1 with_lock set_locks lists]. rewrite El. mrun.
  set (s2 := set_lists h2 _). assert (pids_ok s2 (r :: rest)) as Hok2 by (by destruct Hok).
  destruct (insert_table_ok s2 (r :: rest) p pr frame Hok2) as (t & a & -> & Ho & Hwf & He); try done;
    [apply (np_obj _ _ _ _ _ Hn) | apply (np_pid _ _ _ _ _ Hn) |].
  unfold pid_of. mrun. set (s3 := set_mem a (set_ptab _ t s2)).
  rewrite (hload_Some (procs s3) p pr Hpn (np_obj _ _ _ _ _ Hn)). mrun.
  rewrite (release_ok s3 _ (RwLock 0 1 0 0) Hl0); [|apply lookup_insert_eq | by left].
  mrun. eexists. split; [rewrite s32_small; [done |]; pose proof (np_pid _ _ _ _ _ Hn); unfold is_s32; lia |].
  split; [by apply (kin_insert s) with pr |]. split_and!; try done.
  - split; [done |]. apply lookup_insert_eq.
  - destruct He as [?|He]; [by left | right]. eapply (pids_insert s _ (r :: rest) T p pr Hok Hn); [done | exact Hwf | exact He | apply perm_swap].
Qed.

(** The first process becomes the root; the lock is not taken. *)
Lemma insert_first_ok s T frame p pr n : table_ok s [] T frame -> new_proc s [] T p pr -> size (ptab s) < 500000 ->
  exists s', insert_process n p s = Ok (pid pr, s') /\ inserted s s' [p] T p frame.
Proof.
  intros (Hok & Hk & Hl & Hown) Hn Hsz. pose proof (np_addr _ _ _ _ _ Hn) as (Hpn & Hpt & Hpl).
  unfold insert_process. mrun. rewrite (ko_root _ _ _ Hk). change (first_of [] =? NULL) with true. mrun.
  set (s1 := set_root p s). assert (pids_ok s1 []) as Hok1 by (by destruct Hok).
  destruct (insert_table_ok s1 [] p pr frame Hok1) as (t & a & -> & Ho & Hwf & He); try done;
    [apply (np_obj _ _ _ _ _ Hn) | apply (np_pid _ _ _ _ _ Hn) |].
  unfold pid_of. mrun. set (s2 := set_mem a (set_ptab _ t s1)). rewrite (hload_Some (procs s2) p pr Hpn (np_obj _ _ _ _ _ Hn)). mrun.
  eexists. split; [rewrite s32_small; [done |]; pose proof (np_pid _ _ _ _ _ Hn); unfold is_s32; lia |].
  assert (forall q m x, T !! q = Some m -> x ∉ m) as Hno.
  { intros q m x Hq Hx. destruct (ko_kids _ _ _ Hk _ _ _ Hq Hx) as [Hqn _]. by apply not_elem_of_nil in Hqn. }
  split_and!; try done.
  - split; try done.
    + split_and!; [| by apply NoDup_singleton | by rewrite list_elem_of_singleton].
      change (seg (lists s) NULL [(p, tt)] NULL). simpl. split; [exact (np_list _ _ _ _ _ Hn) | done].
    + apply (ko_tree _ _ _ Hk).
    + intros x ->%list_elem_of_singleton. by rewrite (np_tree _ _ _ _ _ Hn).
    + intros x ->%list_elem_of_singleton Hx. done.
    + intros q m x Hq Hx. by destruct (Hno q m x).
    + intros q m Hq. by apply (Hno q m).
  - destruct He as [?|He]; [by left | right]. eapply (pids_insert s s2 [] T p pr Hok Hn); done.
Qed.
End insertion.

(** * Removal *)

Section removal.
Context {A : Type} `{MmLaws A}.
Implicit Types (s : ptable A) (l : list Z) (T : kids).

(** The children of a removed process go to its parent, in reverse order. *)
Definition orphaned T (p q : Z) (k m1 m2 : list Z) : kids :=
  <[q := (reverse k ++ m1) ++ m2]> (<[p := []]> (<[q := reverse k ++ m1 ++ p :: m2]> T)).

Lemma orphaned_lookup T p q k m1 m2 y : p <> q -> orphaned T p q k m1 m2 !! y =
  if decide (y = q) then Some ((reverse k ++ m1) ++ m2) else if decide (y = p) then Some [] else T !! y.
Proof.
  intros Hpq. unfold orphaned. destruct (decide (y = q)) as [->|]; [by rewrite lookup_insert_eq |].
  rewrite lookup_insert_ne by done. destruct (decide (y = p)) as [->|]; [by rewrite lookup_insert_eq | by rewrite !lookup_insert_ne].
Qed.

Section kin.
Context (s s' : ptable A) (r : Z) (l1 : list Z) (p : Z) (l2 : list Z) (T : kids) (q : Z) (k m1 m2 : list Z).
Context (Hk : kin_ok s (r :: l1 ++ p :: l2) T) (Hp : T !! p = Some k) (Hq : T !! q = Some (m1 ++ p :: m2)).

Local Lemma removed_pq : p <> q.
Proof using Hk Hp Hq.
  intros ->. apply (fo_irrefl _ _ _ _ (ko_tree _ _ _ Hk) _ _ Hq). apply elem_of_app. right. by apply elem_of_cons; left.
Qed.

Local Lemma removed_in x : x ∈ r :: l1 ++ l2 <-> x ∈ r :: l1 ++ p :: l2 /\ x <> p.
Proof using Hk Hp Hq.
  destruct (ko_list _ _ _ Hk) as (_ & Hnd & _). change (r :: l1 ++ p :: l2) with ((r :: l1) ++ p :: l2) in *.
  change (r :: l1 ++ l2) with ((r :: l1) ++ l2). apply NoDup_app in Hnd as (_ & N2 & (N3 & _)%NoDup_cons).
  rewrite !elem_of_app. rewrite (elem_of_cons l2). split.
  - intros [Hx|Hx]; (split; [tauto |]); intros ->; [apply (N2 p Hx); by apply elem_of_cons; left | done].
  - tauto.
Qed.

Lemma kin_remove : l_rootProcess s' = l_rootProcess s -> dlist (lists s') (r :: l1 ++ l2) ->
  fam_ok (tree s') (orphaned T p q k m1 m2) -> kin_ok s' (r :: l1 ++ l2) (orphaned T p q k m1 m2).
Proof using Hk Hp Hq.
  intros Hroot Hl Ht. pose proof removed_pq as Hpq. pose proof removed_in as Hin.
  assert (p ∈ m1 ++ p :: m2) as Hpm by (apply elem_of_app; right; by apply elem_of_cons; left).
  destruct (ko_kids _ _ _ Hk _ _ _ Hq Hpm) as [Hql Hpl].
  pose proof (ko_tree _ _ _ Hk) as Hf. pose proof (fo_irrefl _ _ _ _ Hf _ _ Hp) as Hpk.
  assert (p ∉ m1 ++ m2) as Hpm2.
  { pose proof (fo_nodup _ _ _ _ Hf _ _ Hq) as (_ & N2 & (N3 & _)%NoDup_cons)%NoDup_app.
    intros [Hx|Hx]%elem_of_app; [apply (N2 p Hx); by apply elem_of_cons; left | done]. }
  assert (forall x, x ∈ (reverse k ++ m1) ++ m2 <-> x ∈ k \/ x ∈ m1 ++ m2) as Hkm.
  { intros x. rewrite !elem_of_app, elem_of_reverse. tauto. }
  split; try done.
  - rewrite Hroot. apply (ko_root _ _ _ Hk).
  - intros x [Hx _]%Hin. rewrite orphaned_lookup by done. repeat case_decide; try done. by apply (ko_node _ _ _ Hk).
  - intros x [Hx Hxp]%Hin Hr. destruct (ko_parent _ _ _ Hk x Hx Hr) as (y & m & Hy & Hym & Hxm).
    destruct (decide (y = p \/ y = q)) as [Hyc|Hyc].
    + exists q, ((reverse k ++ m1) ++ m2). rewrite Hin, orphaned_lookup, decide_True, Hkm by done. split_and!; try done.
      destruct Hyc as [-> | ->]; [left; congruence | right]. rewrite Hq in Hym. injection Hym as <-.
      rewrite elem_of_app, elem_of_cons in Hxm. rewrite elem_of_app. tauto.
    + exists y, m. rewrite Hin, orphaned_lookup, !decide_False by tauto. tauto.
  - intros y m x Hy Hx. rewrite orphaned_lookup in Hy by done. rewrite !Hin.
    destruct (decide (y = q)) as [->|]; [|destruct (decide (y = p)) as [->|]].
    + injection Hy as <-. apply Hkm in Hx as [Hx|Hx].
      * destruct (ko_kids _ _ _ Hk _ _ _ Hp Hx). split_and!; try done; congruence.
      * assert (x ∈ m1 ++ p :: m2) as Hx2 by (rewrite elem_of_app, elem_of_cons; rewrite elem_of_app in Hx; tauto).
        destruct (ko_kids _ _ _ Hk _ _ _ Hq Hx2). split_and!; try done; congruence.
    + injection Hy as <-. by apply not_elem_of_nil in Hx.
    + destruct (ko_kids _ _ _ Hk _ _ _ Hy Hx). split_and!; try done. intros ->.
      by pose proof (fo_one _ _ _ _ Hf _ _ _ _ p Hy Hq Hx Hpm).
  - intros y m Hy. cbn [first_of]. rewrite orphaned_lookup in Hy by done.
    assert (forall z m', T !! z = Some m' -> r ∉ m') as Htop by apply (ko_top _ _ _ Hk).
    destruct (decide (y = q)) as [->|]; [|destruct (decide (y = p)) as [->|]].
    + injection Hy as <-. intros [Hx|Hx]%Hkm; [by apply (Htop p k) |]. apply (Htop q _ Hq). rewrite elem_of_app, elem_of_cons.
      rewrite elem_of_app in Hx. tauto.
    + injection Hy as <-. apply not_elem_of_nil.
    + by apply (Htop y).
Qed.
End kin.

Lemma PARENT_ok s l T p q m1 m2 : kin_ok s l T -> T !! q = Some (m1 ++ p :: m2) -> PARENT p (tree s) = Ok q.
Proof.
  intros Hk Hq. assert (p ∈ m1 ++ p :: m2) as Hpm by (apply elem_of_app; right; by apply elem_of_cons; left).
  destruct (ko_kids _ _ _ Hk _ _ _ Hq Hpm) as [_ Hpl]. destruct (fo_kid _ _ _ _ (ko_tree _ _ _ Hk) _ _ _ _ Hq) as (f & Hf & Hpar & _).
  unfold PARENT. rewrite (hload_Some _ _ _ (kin_not_null _ _ _ _ Hk Hpl) Hf). cbn [mbind outcome_bind]. by rewrite Hpar.
Qed.

(** The three operations on the tree. *)
Lemma orphan_tree_ok s l T p q k m1 m2 : kin_ok s l T -> T !! p = Some k -> T !! q = Some (m1 ++ p :: m2) -> p <> q ->
  exists h1 h2, family_adopt q p (tree s) = Ok h1 /\ family_remove p h1 = Ok h2 /\ fam_ok h2 (orphaned T p q k m1 m2).
Proof.
  intros Hk Hp Hq Hpq. destruct (family_adopt_ok (tree s) T q p k (m1 ++ p :: m2) (ko_tree _ _ _ Hk) Hp Hq) as (h1 & E1 & H1).
  { apply elem_of_app. right. by apply elem_of_cons; left. }
  destruct (family_remove_ok h1 _ q (reverse k ++ m1) p m2 H1) as (h2 & E2 & H2 & _).
  { rewrite lookup_insert_ne, lookup_insert_eq by done. by rewrite <- app_assoc. }
  by exists h1, h2.
Qed.

(** The removal from the hash table. *)
Lemma remove_table_ok s l l' p frame : pids_ok s l -> l ≡ₚ p :: l' -> p <> NULL -> ht_owns (ptab s) (emem (penv s)) frame ->
  exists rc t a, htable_remove 2 (ptable_on (procs s) (ptab s)) p (emem (penv s)) = Ok (rc, t, a) /\
  ht_wf t /\ ht_owns t a frame /\ entries t ≡ₚ l'.
Proof.
  intros Hok Hl Hp Hown. assert (p ∈ entries (ptab s)) as Hin by (rewrite (po_entries _ _ Hok), Hl; by apply elem_of_cons; left).
  destruct (htable_remove_spec 1 (ptable_on (procs s) (ptab s)) p (emem (penv s)) frame)
    as (rc & t & a & -> & Hwf & _ & Ho & Hcase); try done.
  - exact (po_ht _ _ Hok).
  - by apply (pids_keys s l).
  - intros d Hd. by apply (pids_keys s l).
  - exists rc, t, a. split_and!; try done. change (entries (ptable_on (procs s) (ptab s))) with (entries (ptab s)) in Hcase.
    destruct Hcase as [(_ & _ & E)|[(_ & _ & E)|(_ & Hn & _)]]; [|  | done].
    + rewrite E in Hin. by apply not_elem_of_nil in Hin.
    + rewrite (po_entries _ _ Hok), Hl in E. by apply Permutation_cons_inv in E.
Qed.

Lemma pids_subset s s' l l' : pids_ok s l -> procs s' = procs s -> ht_wf (ptab s') -> entries (ptab s') ≡ₚ l' ->
  (forall x, x ∈ l' -> x ∈ l) -> pids_ok s' l'.
Proof.
  intros Hok Hpr Hwf He Hs. assert (forall q n, pid_is s' q n <-> pid_is s q n) as Hi by (unfold pid_is; by rewrite Hpr). split; try done.
  - intros x Hx. rewrite Hpr. by apply (po_live _ _ Hok), Hs.
  - intros x y n Hx Hy. rewrite !Hi. by apply (po_unique _ _ Hok); apply Hs.
Qed.

Lemma remove_process_ok s r l1 p l2 T frame q k m1 m2 pr : table_ok s (r :: l1 ++ p :: l2) T frame ->
  T !! p = Some k -> T !! q = Some (m1 ++ p :: m2) -> procs s !! p = Some pr ->
  exists s', remove_process p s = Ok (tt, s') /\ table_ok s' (r :: l1 ++ l2) (orphaned T p q k m1 m2) frame /\
  new_proc s' (r :: l1 ++ l2) (orphaned T p q k m1 m2) p pr /\ l_PID s' = l_PID s.
Proof.
  intros (Hok & Hk & [Hl0 Hl] & Hown) Hp Hq Hpr. pose proof (removed_pq _ _ _ _ _ _ _ _ _ _ Hk Hp Hq) as Hpq.
  pose proof (removed_in _ _ _ _ _ _ _ _ _ _ Hk Hp Hq) as Hin.
  assert (p ∈ m1 ++ p :: m2) as Hpm by (apply elem_of_app; right; by apply elem_of_cons; left).
  destruct (ko_kids _ _ _ Hk _ _ _ Hq Hpm) as [Hql Hpl]. pose proof (kin_not_null _ _ _ _ Hk Hpl) as Hpn.
  destruct (orphan_tree_ok s _ T p q k m1 m2 Hk Hp Hq Hpq) as (h1 & h2 & E1 & E2 & Ht).
  destruct (list_remove_ok (lists s) (r :: l1) p l2 (ko_list _ _ _ Hk)) as (h3 & El & Hd & Hlp & _).
  destruct (remove_table_ok s _ (r :: l1 ++ l2) p frame Hok) as (rc & t & a & Eh & Hwf & Ho & He); try done.
  { symmetry. apply (Permutation_middle (r :: l1)). }
  unfold remove_process. mrun. rewrite (get_write_ok _ _ (conj Hl0 Hl)). mrun. set (s1 := with_lock _ _ _).
  change (tree s1) with (tree s). rewrite (PARENT_ok _ _ _ _ _ _ _ Hk Hq). mrun.
  destruct (Z.eqb_spec q NULL) as [Hqn|_]; [by destruct (kin_not_null _ _ _ _ Hk Hql) |]. mrun. unfold tree_op, list_op. mrun.
  change (tree s1) with (tree s). rewrite E1. mrun. change (tree (set_tree h1 s1)) with h1. rewrite E2. mrun.
  change (lists (set_tree h2 (set_tree h1 s1))) with (lists s). rewrite El. mrun. set (s2 := set_lists h3 _).
  change (htable_remove _ _ _ _) with (htable_remove 2 (ptable_on (procs s) (ptab s)) p (emem (penv s))). rewrite Eh. mrun.
  set (s3 := set_mem a (set_ptab _ t s2)).
  rewrite (release_ok s3 (l_processLock s3) (RwLock 0 1 0 0) Hl0); [| apply lookup_insert_eq | by left]. eexists. split; [done |].
  set (s4 := with_lock _ _ _). assert (kin_ok s4 (r :: l1 ++ l2) (orphaned T p q k m1 m2)) as Hk4 by by apply (kin_remove s).
  assert (forall x, x ∈ r :: l1 ++ l2 -> x ∈ r :: l1 ++ p :: l2) as Hsub by (by intros x [? _]%Hin).
  split_and!; [split_and! | | done].
  - by apply (pids_subset s s4 _ _ Hok).
  - done.
  - split; [done |]. apply lookup_insert_eq.
  - done.
  - destruct (po_live _ _ Hok p Hpl) as (Hpt & pr' & Hpr' & Hr). rewrite Hpr in Hpr'. injection Hpr' as <-. split; try done.
    + intros x [Hx Hxp]%Hin Hi. apply Hxp. apply (po_unique _ _ Hok x p (pid pr)); try done. by exists pr.
    + split_and!; try done. intros [_ ?]%Hin. done.
    + rewrite orphaned_lookup, decide_False, decide_True by done. done.
Qed.
End removal.

(** * Access to processes *)

Section access.
Context {A : Type} `{MmLaws A}.
Implicit Types (s : ptable A) (l : list Z) (T : kids).

Definition held_lock (flags : Z) : rwlock := if flags =? READER then RwLock 1 0 0 0 else RwLock 0 1 0 0.

Lemma lock_free_other s k k' v : k <> k' -> lock_free s k -> lock_free (with_lock s k' v) k.
Proof. intros Hk [H1 H2]. split; [done |]. unfold with_lock. simpl. by rewrite lookup_insert_ne. Qed.

Lemma pids_with_lock s l k v : pids_ok s l -> pids_ok (with_lock s k v) l.
Proof. by intros [? ? ? ?]. Qed.

Lemma with_lock_restore s k v : lock_free s k -> with_lock (with_lock s k v) k (RwLock 0 0 0 0) = s.
Proof.
  intros [_ Hk]. destruct s. unfold with_lock, set_locks. simpl in *. f_equal. by rewrite insert_insert_eq, insert_id.
Qed.

Lemma with_lock_comm s k k' v v' : k <> k' -> with_lock (with_lock s k v) k' v' = with_lock (with_lock s k' v') k v.
Proof. intros Hk. unfold with_lock, set_locks. simpl. f_equal. by apply insert_insert_ne. Qed.

(** A process that is found stays locked, and so does the list. *)
Lemma checkout_found s l p pr flags : pids_ok s l -> p ∈ l -> p <> NULL -> procs s !! p = Some pr ->
  lock_free s (l_processLock s) -> lock_free s (lock pr) -> lock pr <> l_processLock s ->
  checkout_process (pid pr) flags s =
    Ok (p, with_lock (with_lock s (l_processLock s) (RwLock 1 0 0 0)) (lock pr) (held_lock flags)).
Proof.
  intros Hok Hp Hpn Hpr Hl Hlp Hne. destruct (po_live _ _ Hok p Hp) as (_ & x & Hx & Hr). rewrite Hpr in Hx. injection Hx as <-.
  unfold checkout_process. mrun. rewrite (get_read_ok _ _ Hl). mrun. set (s1 := with_lock s _ _).
  rewrite u32_small by (unfold is_u32, two32; lia).
  assert (pid_is s1 p (pid pr)) as Hi by (by exists pr).
  rewrite (find_pid_Some s1 l p _ (pids_with_lock _ _ _ _ Hok) Hr Hp Hpn Hi). mrun.
  destruct (Z.eqb_spec p NULL) as [|_]; [done |]. mrun. change (procs s1) with (procs s).
  rewrite (hload_Some _ _ _ Hpn Hpr). mrun. pose proof (lock_free_other s _ _ (RwLock 1 0 0 0) Hne Hlp) as Hlp'. fold s1 in Hlp'.
  unfold held_lock. destruct (flags =? READER); [by rewrite (get_read_ok _ _ Hlp') | by rewrite (get_write_ok _ _ Hlp')].
Qed.

(** No process has the number: nothing stays locked. *)
Lemma checkout_missing s l n flags : pids_ok s l -> 0 <= n <= 20000000 -> (forall q, q ∈ l -> ~ pid_is s q n) ->
  lock_free s (l_processLock s) -> checkout_process n flags s = Ok (NULL, s).
Proof.
  intros Hok Hn Hno Hl. unfold checkout_process. mrun. rewrite (get_read_ok _ _ Hl). mrun. set (s1 := with_lock s _ _).
  rewrite u32_small by (unfold is_u32, two32; lia).
  destruct (find_pid_ok s1 l n (pids_with_lock _ _ _ _ Hok) Hn) as (d & -> & [(_ & Hd & Hi)|(-> & _)]); [by destruct (Hno d Hd) |].
  mrun. change (NULL =? NULL) with true. mrun.
  rewrite (release_ok s1 _ (RwLock 1 0 0 0) (proj1 Hl)); [| apply lookup_insert_eq | by right]. mrun. unfold s1.
  by rewrite with_lock_restore.
Qed.

(** Giving a process back undoes taking it. *)
Lemma commit_after_checkout s p pr flags : p <> NULL -> procs s !! p = Some pr ->
  lock_free s (l_processLock s) -> lock_free s (lock pr) -> lock pr <> l_processLock s ->
  commit_process p (with_lock (with_lock s (l_processLock s) (RwLock 1 0 0 0)) (lock pr) (held_lock flags)) = Ok (tt, s).
Proof.
  intros Hpn Hpr Hl Hlp Hne. unfold commit_process. mrun. cbn [with_lock set_locks procs]. rewrite (hload_Some _ _ _ Hpn Hpr). mrun.
  set (s1 := with_lock s _ _). set (s2 := with_lock s1 _ _).
  rewrite (release_ok s2 (lock pr) (held_lock flags) (proj1 Hlp)); [| apply lookup_insert_eq |].
  2:{ unfold held_lock. destruct (flags =? READER); auto. }
  mrun. unfold s2. rewrite with_lock_restore by (by apply lock_free_other).
  change (l_processLock (with_lock _ _ _)) with (l_processLock s).
  rewrite (release_ok s1 (l_processLock s) (RwLock 1 0 0 0) (proj1 Hl)); [| apply lookup_insert_eq | by right].
  unfold s1. by rewrite with_lock_restore.
Qed.

(** ** The walks over the list *)

Definition name_of s (p : Z) : list Z := match procs s !! p with Some pr => name pr | None => [] end.

(** The process a search by name answers with. *)
Fixpoint named s (nm : list Z) l : Z :=
  match l with
  | [] => -1
  | p :: l => if str_cmp 64 nm (name_of s p) =? 0 then pid_at s p else named s nm l
  end.

Lemma find_name_ok fuel s nm l0 l : dlist (lists s) (l0 ++ l) -> (length l < fuel)%nat -> readable 64 nm ->
  (forall p, p ∈ l -> exists pr, procs s !! p = Some pr /\ 0 <= pid pr <= 20000000 /\ readable 64 (name pr)) ->
  find_name fuel (first_of l) nm s = Ok (named s nm l, s).
Proof.
  revert l0 l. induction fuel as [|fuel IH]; intros l0 l Hd Hf Hnm Hl; [lia |]. cbn [find_name].
  destruct l as [|p l]; [done |]. destruct (dlist_lookup _ _ _ _ Hd) as [_ Hpn]. cbn [first_of named].
  destruct (Z.eqb_spec p NULL) as [|_]; [done |]. destruct (Hl p) as (pr & Hpr & Hr & Hrd); [by apply elem_of_cons; left |].
  mrun. rewrite (hload_Some _ _ _ Hpn Hpr). mrun. rewrite kstrncmp_str_cmp by (unfold is_u32, two32, NAME_LENGTH; (done || lia)).
  mrun. unfold name_of, pid_at. rewrite Hpr. change (Z.to_nat NAME_LENGTH) with 64%nat.
  destruct (_ =? 0); [mrun; by rewrite s32_small by (unfold is_s32; lia) |].
  mrun. rewrite (NEXT_LINEAR_ok _ _ _ _ Hd). mrun. apply (IH (l0 ++ [p])).
  - by rewrite <- app_assoc.
  - simpl in Hf. lia.
  - done.
  - intros q Hq. apply Hl. by apply elem_of_cons; right.
Qed.

Lemma dlist_size (h : lheap) l : dlist h l -> (length l <= base.size h)%nat.
Proof.
  intros Hd. pose proof Hd as (_ & Hnd & _). rewrite <- (size_dom h), <- (size_list_to_set l Hnd : base.size (list_to_set l : gset Z) = _).
  apply subseteq_size. intros a Ha%elem_of_list_to_set. apply elem_of_dom. apply list_elem_of_split in Ha as (l1 & l2 & ->).
  destruct (dlist_lookup _ _ _ _ Hd) as [-> _]. by eexists.
Qed.

Lemma find_process_ok s l T nm : pids_ok s l -> kin_ok s l T -> lock_free s (l_processLock s) -> readable 64 nm ->
  (forall p, p ∈ l -> readable 64 (name_of s p)) -> find_process nm s = Ok (named s nm l, s).
Proof.
  intros Hok Hk Hl Hnm Hrd. unfold find_process. mrun. rewrite (get_read_ok _ _ Hl). mrun. set (s1 := with_lock s _ _).
  rewrite (ko_root _ _ _ Hk). rewrite (find_name_ok _ s1 nm [] l).
  - mrun. rewrite (release_ok s1 _ (RwLock 1 0 0 0) (proj1 Hl)); [| apply lookup_insert_eq | by right]. mrun. unfold s1.
    rewrite with_lock_restore by done. f_equal. f_equal. clear Hok Hk Hrd. induction l as [|p l IH]; [done |]. cbn [named].
    rewrite IH. done.
  - exact (ko_list _ _ _ Hk).
  - pose proof (dlist_size _ _ (ko_list _ _ _ Hk)). lia.
  - done.
  - intros p Hp. destruct (po_live _ _ Hok p Hp) as (_ & pr & Hpr & Hr). exists pr. split_and!; try done; [lia | lia |].
    specialize (Hrd p Hp). unfold name_of in Hrd. by rewrite Hpr in Hrd.
Qed.

(** The reference of [process_foreach]: a fold with an early end. *)
Fixpoint visit {L} (callback : Z -> L -> M (ptable A) (Z * L)) (l : list Z) (ans : Z) (x : L) : M (ptable A) (Z * L) :=
  match l with
  | [] => mret (ans, x)
  | p :: l => '(ans, x) ← callback p x; if ans =? 0 then visit callback l ans x else mret (ans, x)
  end.

(** The callback leaves the list and the locks alone. *)
Definition gentle {L} (callback : Z -> L -> M (ptable A) (Z * L)) : Prop :=
  forall p x s r s', callback p x s = Ok (r, s') -> lists s' = lists s /\ locks s' = locks s /\ l_processLock s' = l_processLock s.

Lemma foreach_visit {L} (callback : Z -> L -> M (ptable A) (Z * L)) fuel s l0 l ans x : gentle callback ->
  dlist (lists s) (l0 ++ l) -> (length l < fuel)%nat ->
  foreach_loop fuel callback (first_of l) ans x s = visit callback l ans x s.
Proof.
  intros Hg. revert s l0 l ans x. induction fuel as [|fuel IH]; intros s l0 l ans x Hd Hf; [lia |]. cbn [foreach_loop].
  destruct l as [|p l]; [done |]. destruct (dlist_lookup _ _ _ _ Hd) as [_ Hpn]. cbn [first_of visit].
  destruct (Z.eqb_spec p NULL) as [|_]; [done |]. rewrite !run_bind. destruct (callback p x s) as [[[a y] s1]|] eqn:E; [|done].
  destruct (Hg _ _ _ _ _ E) as (Hl & _). destruct (Z.eqb_spec a 0) as [->|]; cbn [negb]; [|done].
  mrun. rewrite Hl, (NEXT_LINEAR_ok _ _ _ _ Hd). mrun. apply (IH s1 (l0 ++ [p])); [|simpl in Hf; lia].
  by rewrite Hl, <- app_assoc.
Qed.

Lemma visit_gentle {L} (callback : Z -> L -> M (ptable A) (Z * L)) l ans x s r s' : gentle callback ->
  visit callback l ans x s = Ok (r, s') -> lists s' = lists s /\ locks s' = locks s /\ l_processLock s' = l_processLock s.
Proof.
  intros Hg. revert ans x s. induction l as [|p l IH]; intros ans x s Hv; cbn [visit] in Hv.
  - by injection Hv as <- <-.
  - rewrite run_bind in Hv. destruct (callback p x s) as [[[a y] s1]|] eqn:E; [|done].
    destruct (Hg _ _ _ _ _ E) as (<- & <- & <-). destruct (a =? 0); [by apply IH in Hv | by injection Hv as <- <-].
Qed.

(** The lock is held during the walk and free afterwards. *)
Lemma process_foreach_ok {L} (callback : Z -> L -> M (ptable A) (Z * L)) flags s l T x r s' : gentle callback ->
  kin_ok s l T -> lock_free s (l_processLock s) -> flags = READER \/ flags = WRITER ->
  visit callback l 0 x (with_lock s (l_processLock s) (held_lock flags)) = Ok (r, s') ->
  process_foreach callback flags x s = Ok (r, with_lock s' (l_processLock s) (RwLock 0 0 0 0)).
Proof.
  intros Hg Hk Hl Hflags Hv. unfold process_foreach. rewrite run_bind. mred.
  set (s1 := with_lock s _ _) in *.
  assert (foreach_loop (S (base.size (lists s))) callback (first_of l) 0 x s1 = Ok (r, s')) as Hw.
  { rewrite <- Hv. apply (foreach_visit callback _ s1 []); [done | exact (ko_list _ _ _ Hk) |].
    pose proof (dlist_size _ _ (ko_list _ _ _ Hk)). lia. }
  assert (release (l_processLock s) s' = Ok (tt, with_lock s' (l_processLock s) (RwLock 0 0 0 0))) as Hr.
  { destruct (visit_gentle callback l 0 x s1 r s' Hg Hv) as (_ & Hls & _).
    apply (release_ok s' _ (held_lock flags) (proj1 Hl)); [rewrite Hls; apply lookup_insert_eq |].
    unfold held_lock. destruct (flags =? READER); auto. }
  rewrite (ko_root _ _ _ Hk). destruct Hflags as [-> | ->]; cbn [READER WRITER Z.eqb Pos.eqb].
  - rewrite run_bind, (get_read_ok _ _ Hl). mrun. change (with_lock s _ _) with s1. rewrite Hw. mrun. rewrite Hr. by mrun.
  - mrun. rewrite (get_write_ok _ _ Hl). mrun. change (with_lock s _ _) with s1. rewrite Hw. mrun. rewrite Hr. by mrun.
Qed.
End access.
