(* ===== verification/ProcTable.v ===== *)
(** The theorems about the process table of [Processes], and a table of two
    processes on which they compute. *)
From S2P Require Import Prelude Mm Strings Dll Lists Family HTable RwLock Env Processes.

(** [next_pid] ends and hands out the first number from the counter on that
    no process of the table has, and moves the counter behind it: the loop passes
    every number in use, and the number is free until it is inserted. *)
Theorem next_pid_hands_out {A} `{MmLaws A} (s : ptable A) l : pids_ok s l -> l_PIDlock s = 0 ->
  0 < l_PID s -> l_PID s + Z.of_nat (length l) <= 20000000 ->
  exists n, next_pid s = Ok (n, set_PID (n + 1) s) /\ l_PID s <= n <= 20000000 /\
  (forall q, q ∈ l -> ~ pid_is s q n) /\ (forall k, l_PID s <= k < n -> exists q, q ∈ l /\ pid_is s q k).
Proof. apply next_pid_fresh. Qed.

(** [insert_process] makes the process the first child of its parent and the
    second element of the list, and returns its number with the lock free: the
    tree, the list and, unless the hash table was full, the hash table agree on
    the processes.  A full table is not reported. *)
Theorem insert_process_links {A} `{MmLaws A} (s : ptable A) r rest T frame p pr n q m :
  table_ok s (r :: rest) T frame -> new_proc s (r :: rest) T p pr ->
  size (ptab s) < 500000 -> q ∈ r :: rest -> pid_is s q n -> T !! q = Some m ->
  exists s', insert_process n p s = Ok (pid pr, s') /\ inserted s s' (r :: p :: rest) (<[q := p :: m]> T) p frame.
Proof. apply insert_process_ok. Qed.

(** C28. [remove_process] takes a process out of the tree, the list and the hash
    table: its children go to its parent, in front of the other children and in
    reverse order, the table stays consistent with the lock free, and the process
    could be inserted again. *)
Theorem remove_process_unlinks {A} `{MmLaws A} (s : ptable A) r l1 p l2 T frame q k m1 m2 pr :
  table_ok s (r :: l1 ++ p :: l2) T frame ->
  T !! p = Some k -> T !! q = Some (m1 ++ p :: m2) -> procs s !! p = Some pr ->
  exists s', remove_process p s = Ok (tt, s') /\ table_ok s' (r :: l1 ++ l2) (orphaned T p q k m1 m2) frame /\
  new_proc s' (r :: l1 ++ l2) (orphaned T p q k m1 m2) p pr /\ l_PID s' = l_PID s.
Proof. apply remove_process_ok. Qed.

(** C29. [checkout_process] by the number of a process answers with that process,
    leaving the list locked for reading and the process locked as asked, and
    [commit_process] undoes exactly that; for a number that nobody has it answers
    with the null pointer and nothing stays locked. *)
Theorem checkout_commit_roundtrip {A} `{MmLaws A} (s : ptable A) l n flags : pids_ok s l ->
  0 <= n <= 20000000 -> lock_free s (l_processLock s) -> NULL ∉ l ->
  (forall p pr, p ∈ l -> procs s !! p = Some pr -> lock_free s (lock pr) /\ lock pr <> l_processLock s) ->
  (exists p pr, p ∈ l /\ procs s !! p = Some pr /\ pid pr = n /\
    let s' := with_lock (with_lock s (l_processLock s) (RwLock 1 0 0 0)) (lock pr) (held_lock flags) in
    checkout_process n flags s = Ok (p, s') /\ commit_process p s' = Ok (tt, s)) \/
  ((forall p, p ∈ l -> ~ pid_is s p n) /\ checkout_process n flags s = Ok (NULL, s)).
Proof.
  intros Hok Hn Hl Hnull Hlocks. destruct (find_pid_ok s l n Hok Hn) as (p & _ & [(Hpn & Hp & pr & Hpr & <-)|(_ & Hno)]).
  - left. destruct (Hlocks p pr Hp Hpr) as [Hlp Hne]. exists p, pr. cbv zeta. split_and!; try done.
    + by apply (checkout_found s l).
    + by apply commit_after_checkout.
  - right. split; [done |]. by apply (checkout_missing s l).
Qed.

(** [find_process] answers with the number of the first process of the list
    whose name agrees with the given one on its first 64 characters, or with -1,
    and leaves the lock free. *)
Theorem find_process_first {A} `{MmLaws A} (s : ptable A) l T nm : pids_ok s l -> kin_ok s l T ->
  lock_free s (l_processLock s) -> readable 64 nm -> (forall p, p ∈ l -> readable 64 (name_of s p)) ->
  find_process nm s = Ok (named s nm l, s).
Proof. apply find_process_ok. Qed.

(** [process_foreach] is the fold of the callback over the list of processes
    that ends at the first answer other than zero: the lock is held while the
    callbacks run and free afterwards. *)
Theorem process_foreach_folds {A} `{MmLaws A} {L} (callback : Z -> L -> M (ptable A) (Z * L)) flags (s : ptable A) l T x r s' :
  gentle callback -> kin_ok s l T -> lock_free s (l_processLock s) -> flags = READER \/ flags = WRITER ->
  visit callback l 0 x (with_lock s (l_processLock s) (held_lock flags)) = Ok (r, s') ->
  process_foreach callback flags x s = Ok (r, with_lock s' (l_processLock s) (RwLock 0 0 0 0)).
Proof. apply process_foreach_ok. Qed.

(** * A table of two processes *)

(** The processes at 100 and 200, the second a child of the first, and one at 300
    that is not yet in the table. *)
Definition sample_proc (c n k : Z) : process := Proc (c :: replicate 63 0) n 0 k.
Definition sample_procs : gmap Z process :=
  {[100 := sample_proc 65 1 500; 200 := sample_proc 66 2 600; 300 := sample_proc 67 4 700]}.
Definition sample_tree : fheap :=
  {[100 := Family NULL 200 NULL NULL; 200 := Family 100 NULL NULL NULL; 300 := Family NULL NULL NULL NULL]}.
Definition sample_lists : lheap := {[100 := DsList NULL 200; 200 := DsList 100 NULL; 300 := DsList NULL NULL]}.
Definition sample_locks : gmap Z rwlock :=
  {[50 := RwLock 0 0 0 0; 500 := RwLock 0 0 0 0; 600 := RwLock 0 0 0 0; 700 := RwLock 0 0 0 0]}.
Definition sample_ptab : hash_table := HashTable (fun _ _ => 0) (fun _ => 0) 2 8 75 40 [200; 0; 0; 0; 100; 0; 0; 0].
Definition sample_env : env_state arena := EnvState ∅ ∅ ∅ (Arena 9 {[40; 5]}).
Definition sample_ptable : ptable arena :=
  PTable 30 sample_ptab 100 50 2 0 sample_procs sample_tree sample_lists sample_locks sample_env.
Definition sample_kids : kids := {[100 := [200]; 200 := []; 300 := []]}.

Lemma sample_in (l : list Z) p : p ∈ l -> forall (P : Z -> Prop), Forall P l -> P p.
Proof. intros Hp P Hl. rewrite Forall_forall in Hl. by apply Hl. Qed.

(** One goal for every element of a concrete list. *)
Ltac each p Hp := pattern p; apply (sample_in _ _ Hp); repeat first [apply Forall_nil_2 | apply Forall_cons_2]; cbv beta.

Lemma sample_pids : pids_ok sample_ptable [100; 200].
Proof.
  split.
  - unfold ht_wf. simpl. split_and!; (lia || done).
  - apply perm_swap.
  - intros p Hp. each p Hp; (split; [done | eexists; split; [reflexivity | simpl; lia]]).
  - intros p q n Hp. each p Hp; intros Hq; each q Hq; intros (? & [= <-] & <-) (? & [= <-] & ?); done.
Qed.

Lemma sample_kids_inv q m : sample_kids !! q = Some m -> (q = 100 /\ m = [200]) \/ (q = 200 /\ m = []) \/ (q = 300 /\ m = []).
Proof.
  unfold sample_kids. intros Hq. destruct (decide (q = 100)) as [->|]; [left; by injection Hq as <- |].
  destruct (decide (q = 200)) as [->|]; [right; left; by injection Hq as <- |].
  destruct (decide (q = 300)) as [->|]; [right; right; by injection Hq as <- |]. by rewrite !lookup_insert_ne, lookup_singleton_ne in Hq by done.
Qed.

Lemma sample_fam : fam_ok sample_tree sample_kids.
Proof.
  split.
  - intros a. unfold sample_tree, sample_kids. rewrite !lookup_insert_is_Some, !lookup_singleton_is_Some. tauto.
  - done.
  - intros p l1 a l2 [(-> & E)|[(-> & E)|(-> & E)]]%sample_kids_inv; try by destruct l1.
    destruct l1 as [|? [|]]; simpl in E; simplify_eq. eexists. split; [reflexivity | done].
  - intros p l [(-> & ->)|[(-> & ->)|(-> & ->)]]%sample_kids_inv; repeat constructor; apply not_elem_of_nil.
  - intros p q l m a Hp Hq Ha Hb. apply sample_kids_inv in Hp as [(-> & ->)|[(-> & ->)|(-> & ->)]], Hq as [(-> & ->)|[(-> & ->)|(-> & ->)]];
      first [done | by apply not_elem_of_nil in Ha | by apply not_elem_of_nil in Hb].
  - intros a [l [(-> & ->)|[(-> & ->)|(-> & ->)]]%sample_kids_inv] Hroot; [by eexists | | by eexists].
    destruct (Hroot 100 [200]); [done | by apply elem_of_cons; left].
  - exists (fun a => if a =? 100 then 0%nat else 1%nat).
    intros p l c [(-> & ->)|[(-> & ->)|(-> & ->)]]%sample_kids_inv Hc; [|by apply not_elem_of_nil in Hc..].
    apply list_elem_of_singleton in Hc as ->. simpl. lia.
Qed.

Lemma sample_kin : kin_ok sample_ptable [100; 200] sample_kids.
Proof.
  split.
  - done.
  - split_and!; [simpl; done | repeat constructor; set_solver | set_solver].
  - exact sample_fam.
  - intros p Hp. each p Hp; by eexists.
  - intros p Hp. each p Hp; intros Hn; [done |]. exists 100, [200]. split_and!; try done; set_solver.
  - intros q m p [(-> & ->)|[(-> & ->)|(-> & ->)]]%sample_kids_inv Hp; set_solver.
  - intros q m [(-> & ->)|[(-> & ->)|(-> & ->)]]%sample_kids_inv; set_solver.
Qed.

Lemma sample_lock k : k ∈ [50; 500; 600; 700] -> lock_free sample_ptable k.
Proof. intros Hk. by each k Hk. Qed.

Lemma sample_table_ok : table_ok sample_ptable [100; 200] sample_kids {[5]}.
Proof.
  split_and!; [exact sample_pids | exact sample_kin | apply sample_lock; set_solver |]. unfold ht_owns. simpl.
  split_and!; [done | set_solver | set_solver].
Qed.

Lemma sample_new : new_proc sample_ptable [100; 200] sample_kids 300 (sample_proc 67 4 700).
Proof.
  split; try done.
  - intros q Hq. each q Hq; by intros (? & [= <-] & ?).
  - split_and!; [done | done | set_solver].
Qed.

Lemma next_pid_hands_out_witness : exists n, next_pid sample_ptable = Ok (n, set_PID (n + 1) sample_ptable) /\ 2 <= n <= 20000000.
Proof.
  destruct (next_pid_hands_out sample_ptable [100; 200] sample_pids) as (n & E & Hn & _);
    [reflexivity | reflexivity | vm_compute; discriminate |]. exists n. split; [exact E | exact Hn].
Defined.

Lemma insert_process_links_witness : exists s', insert_process 2 300 sample_ptable = Ok (4, s') /\
  inserted sample_ptable s' [100; 300; 200] (<[200 := [300]]> sample_kids) 300 {[5]}.
Proof.
  apply (insert_process_links sample_ptable 100 [200] sample_kids {[5]} 300 (sample_proc 67 4 700) 2 200 []).
  - exact sample_table_ok.
  - exact sample_new.
  - reflexivity.
  - apply list_elem_of_further, list_elem_of_here.
  - exists (sample_proc 66 2 600). split; reflexivity.
  - reflexivity.
Defined.

Lemma remove_process_unlinks_witness : exists s', remove_process 200 sample_ptable = Ok (tt, s') /\
  table_ok s' [100] (orphaned sample_kids 200 100 [] [] []) {[5]}.
Proof.
  destruct (remove_process_unlinks sample_ptable 100 [] 200 [] sample_kids {[5]} 100 [] [] [] (sample_proc 66 2 600)) as (s' & E & Hs & _).
  - exact sample_table_ok.
  - reflexivity.
  - reflexivity.
  - reflexivity.
  - exists s'. split; [exact E | exact Hs].
Defined.

Lemma sample_proc_locks p pr : p ∈ [100; 200] -> procs sample_ptable !! p = Some pr ->
  lock_free sample_ptable (lock pr) /\ lock pr <> l_processLock sample_ptable.
Proof.
  intros Hp. each p Hp; intros [= <-]; (split; [apply sample_lock; set_solver | done]).
Qed.

Lemma checkout_commit_roundtrip_witness :
  (exists p pr, p ∈ [100; 200] /\ procs sample_ptable !! p = Some pr /\ pid pr = 2 /\
    let s' := with_lock (with_lock sample_ptable 50 (RwLock 1 0 0 0)) (lock pr) (held_lock WRITER) in
    checkout_process 2 WRITER sample_ptable = Ok (p, s') /\ commit_process p s' = Ok (tt, sample_ptable)) \/
  ((forall p, p ∈ [100; 200] -> ~ pid_is sample_ptable p 2) /\ checkout_process 2 WRITER sample_ptable = Ok (NULL, sample_ptable)).
Proof.
  apply (checkout_commit_roundtrip sample_ptable [100; 200] 2 WRITER sample_pids).
  - lia.
  - apply sample_lock, list_elem_of_here.
  - set_solver.
  - exact sample_proc_locks.
Defined.

Lemma find_process_first_witness : find_process [66; 0] sample_ptable = Ok (2, sample_ptable).
Proof.
  refine (find_process_first sample_ptable [100; 200] sample_kids [66; 0] sample_pids sample_kin _ _ _).
  - apply sample_lock, list_elem_of_here.
  - left. apply list_elem_of_further, list_elem_of_here.
  - intros p Hp. each p Hp; right; apply le_n.
Defined.

(** A callback that counts and ends at the process at 200. *)
Definition count_until (p x : Z) : M (ptable arena) (Z * Z) := mret (if p =? 200 then 1 else 0, x + 1).

Lemma process_foreach_folds_witness : process_foreach count_until READER 0 sample_ptable = Ok ((1, 2), with_lock sample_ptable 50 (RwLock 0 0 0 0)).
Proof.
  refine (process_foreach_folds count_until READER sample_ptable [100; 200] sample_kids 0 (1, 2)
    (with_lock sample_ptable 50 (RwLock 1 0 0 0)) _ sample_kin _ _ _).
  - intros p x s r s' [= _ <-]. split_and!; reflexivity.
  - apply sample_lock, list_elem_of_here.
  - left. reflexivity.
  - reflexivity.
Defined.
