(* ===== verification/Shmem.v ===== *)
(** Shared memory regions (shmem.c): named runs of physical pages in a hash table
    by their number, each with the list of the processes that may use it.  The
    operations work on the process table, on the page directories of the
    processes and on physical memory. *)
From S2P Require Import Prelude Mm Cpu Strings Lists PhysMem Paging HTable RwLock Env Processes.

(** shmem.h, limits.h and threads.h *)
Definition SHMEM_RDWR : Z := 1.
Definition SHMEM_IMMORTAL : Z := 2.
Definition SHMEM_PROMISCUOUS : Z := 4.
Definition SHMEM_ORPHAN : Z := 32.
Definition SHMEM_MASK : Z := 7.
Definition SHMEM_NAME : Z := 64.
Definition sK_BASE : Z := 2147483648.
Definition sK_CEILING : Z := 4194304000.

(** [struct shmem_info]; its list element is found by its address. *)
Record shmem_info := ShmemInfo {
  in_pid : Z; in_location : Z; in_pages : Z; in_flags : Z; in_usage : Z; in_tmp : Z; in_tmp2 : Z
}.
Definition set_mapping loc n i := ShmemInfo (in_pid i) loc n (in_flags i) (in_usage i) (in_tmp i) (in_tmp2 i).
Definition set_usage n i := ShmemInfo (in_pid i) (in_location i) (in_pages i) (in_flags i) n (in_tmp i) (in_tmp2 i).
Definition set_tmp v i := ShmemInfo (in_pid i) (in_location i) (in_pages i) (in_flags i) (in_usage i) v (in_tmp2 i).
Definition set_tmp2 v i := ShmemInfo (in_pid i) (in_location i) (in_pages i) (in_flags i) (in_usage i) (in_tmp i) v.

(** [struct shmem] *)
Record shmem := Shmem {
  sh_id : Z; sh_name : list Z; sh_lock : Z; sh_pid : Z; sh_flags : Z; sh_internal : Z;
  sh_location : Z; sh_pages : Z; sh_list : Z
}.
Definition set_sid v r := Shmem v (sh_name r) (sh_lock r) (sh_pid r) (sh_flags r) (sh_internal r) (sh_location r) (sh_pages r) (sh_list r).
Definition set_sflags v r := Shmem (sh_id r) (sh_name r) (sh_lock r) (sh_pid r) v (sh_internal r) (sh_location r) (sh_pages r) (sh_list r).
Definition set_slist v r := Shmem (sh_id r) (sh_name r) (sh_lock r) (sh_pid r) (sh_flags r) (sh_internal r) (sh_location r) (sh_pages r) v.

(** The static variables of shmem.c, the objects by address, the interrupt flag,
    the process table with the locks and the allocator, the page directory of
    every process, and the paging state with physical memory. *)
Record shstate (A : Type) := ShState {
  shmem_table : Z; stab : hash_table; shmem_id : Z; shmem_lock : Z;
  shs : gmap Z shmem; infos : gmap Z shmem_info; ilist : lheap;
  iflag : bool; ppt : ptable A; pmap : gmap Z Z; pg : paging
}.
Arguments ShState {A} _ _ _ _ _ _ _ _ _ _ _.
Arguments shmem_table {A} _.
Arguments stab {A} _.
Arguments shmem_id {A} _.
Arguments shmem_lock {A} _.
Arguments shs {A} _.
Arguments infos {A} _.
Arguments ilist {A} _.
Arguments iflag {A} _.
Arguments ppt {A} _.
Arguments pmap {A} _.
Arguments pg {A} _.

(** The functions of the hash table. *)
Definition shmem_key (h : gmap Z shmem) (a : Z) : Z := match h !! a with Some sh => s32 (sh_id sh * 100) | None => 0 end.
Definition shmem_cmp (h : gmap Z shmem) (a b : Z) : Z :=
  match h !! a, h !! b with
  | Some sa, Some sb => if sh_id sa =? sh_id sb then 0 else if sh_id sa <? sh_id sb then -1 else 1
  | _, _ => 1
  end.
Definition shmem_on (h : gmap Z shmem) (t : hash_table) : hash_table :=
  HashTable (shmem_cmp h) (shmem_key h) (total t) (size t) (percent t) (table t) (slots t).

(** The automatic object [sample]: no heap object has its address. *)
Definition temp_shmem : Z := -1.
Definition sample_shmem (id : Z) : shmem := Shmem id [] NULL 0 0 0 0 0 NULL.

Section shmem.
Context {A : Type} `{MmSubsystem A}.
Abbreviation K := (M (shstate A)).

Definition set_stab p t (s : shstate A) := ShState p t (shmem_id s) (shmem_lock s) (shs s) (infos s) (ilist s) (iflag s) (ppt s) (pmap s) (pg s).
Definition set_id v (s : shstate A) := ShState (shmem_table s) (stab s) v (shmem_lock s) (shs s) (infos s) (ilist s) (iflag s) (ppt s) (pmap s) (pg s).
Definition set_slock v (s : shstate A) := ShState (shmem_table s) (stab s) (shmem_id s) v (shs s) (infos s) (ilist s) (iflag s) (ppt s) (pmap s) (pg s).
Definition set_shs h (s : shstate A) := ShState (shmem_table s) (stab s) (shmem_id s) (shmem_lock s) h (infos s) (ilist s) (iflag s) (ppt s) (pmap s) (pg s).
Definition set_infos h (s : shstate A) := ShState (shmem_table s) (stab s) (shmem_id s) (shmem_lock s) (shs s) h (ilist s) (iflag s) (ppt s) (pmap s) (pg s).
Definition set_ilist h (s : shstate A) := ShState (shmem_table s) (stab s) (shmem_id s) (shmem_lock s) (shs s) (infos s) h (iflag s) (ppt s) (pmap s) (pg s).
Definition set_iflag v (s : shstate A) := ShState (shmem_table s) (stab s) (shmem_id s) (shmem_lock s) (shs s) (infos s) (ilist s) v (ppt s) (pmap s) (pg s).
Definition set_ppt (v : ptable A) (s : shstate A) := ShState (shmem_table s) (stab s) (shmem_id s) (shmem_lock s) (shs s) (infos s) (ilist s) (iflag s) v (pmap s) (pg s).
Definition set_pg v (s : shstate A) := ShState (shmem_table s) (stab s) (shmem_id s) (shmem_lock s) (shs s) (infos s) (ilist s) (iflag s) (ppt s) (pmap s) v.

(** The operations of the other components on their part of the state. *)
Definition on_ppt {B} (m : M (ptable A) B) : K B :=
  fun s => match m (ppt s) with Ok (b, p) => Ok (b, set_ppt p s) | Halt f => Halt f end.
Definition on_pg {B} (m : M paging B) : K B :=
  fun s => match m (pg s) with Ok (b, p) => Ok (b, set_pg p s) | Halt f => Halt f end.
Definition mem (s : shstate A) : A := emem (penv (ppt s)).
Definition set_smem (a : A) (s : shstate A) := set_ppt (set_mem a (ppt s)) s.

Definition ldsh (p : Z) : K shmem := s ← getS; liftO (hload (shs s) p).
Definition updsh (p : Z) (f : shmem -> shmem) : K unit := s ← getS; h ← liftO (hupd (shs s) p f); modifyS (set_shs h).
Definition ldin (p : Z) : K shmem_info := s ← getS; liftO (hload (infos s) p).
Definition updin (p : Z) (f : shmem_info -> shmem_info) : K unit := s ← getS; h ← liftO (hupd (infos s) p f); modifyS (set_infos h).
Definition next_info (p : Z) : K Z := s ← getS; liftO (NEXT_LINEAR p (ilist s)).
Definition malloc (n : Z) : K Z := s ← getS; let '(p, a) := kmalloc n (mem s) in modifyS (set_smem a) ;; mret p.
Definition free (p : Z) : K unit := s ← getS; a ← liftO (kfree p (mem s)); modifyS (set_smem a).

(** [kfree] of a user, with its list element. *)
Definition free_info (p : Z) : K unit :=
  free p ;; modifyS (fun s => set_ilist (base.delete p (ilist s)) (set_infos (base.delete p (infos s)) s)).

(** The process's [map]. *)
Definition map_of (proc : Z) : K Z := s ← getS; liftO (hload (pmap s) proc).

Definition pages_alloc (pages : Z) : K Z :=
  on_pg (s ← getS; '(ptr, m) ← liftO (memory_alloc pages (phys s)); modifyS (set_phys m) ;; mret ptr).
Definition pages_free (pages position : Z) : K unit :=
  on_pg (s ← getS; m ← liftO (memory_free pages position (phys s)); modifyS (set_phys m)).

(** [kmemcpy] between physical pages. *)
Fixpoint copy_bytes (n : nat) (dst src : Z) : M paging unit :=
  match n with O => mret tt | S n => b ← get_byte src; set_byte dst b ;; copy_bytes n (u32 (dst + 1)) (u32 (src + 1)) end.

Definition cli : K Z := s ← getS; let '(ei, f) := disable_interrupts (iflag s) in modifyS (set_iflag f) ;; mret ei.
(** [if ( enabled == 1 ) enable_interrupts();] *)
Definition sti_if (enabled : Z) : K unit := if enabled =? 1 then modifyS (fun s => set_iflag (enable_interrupts (iflag s)) s) else mret tt.

Definition retrieve (id : Z) : K Z :=
  s ← getS; let h := <[temp_shmem := sample_shmem id]> (shs s) in liftO (htable_retrieve (shmem_on h (stab s)) temp_shmem).

(** The permissions of a mapping. *)
Definition map_flags (flags : Z) : Z := if Z.land flags SHMEM_RDWR =? SHMEM_RDWR then Z.lor USER_PAGE READ_WRITE else Z.lor USER_PAGE READ_ONLY.

(** * Creation *)

(** [shmem_init]; [shmem_shutdown] is one assertion that fails. *)
Definition shmem_init : K Z :=
  s ← getS;
  '(t, a) ← liftO (init_htable 64 80 (shmem_key (shs s)) (shmem_cmp (shs s)) (mem s));
  modifyS (set_smem a) ;;
  modifyS (fun s => match t with Some (p, t) => set_stab p t s | None => set_stab NULL (stab s) s end) ;;
  modifyS (set_id 0) ;;
  s ← getS;
  '(l, x, a) ← liftO (init_rwlock (mem s));
  modifyS (set_smem a) ;;
  modifyS (fun s => set_slock l (set_ppt (set_locks (<[l := x]> (locks (ppt s))) (ppt s)) s)) ;;
  mret 0.

(** The search for a number that is free. *)
Fixpoint fresh_id (fuel : nat) : K Z :=
  match fuel with
  | O => liftO (Halt Spin)
  | S fuel =>
      s ← getS;
      let id := shmem_id s in
      modifyS (set_id (s32 (id + 1))) ;;
      modifyS (fun s => if shmem_id s <? 0 then set_id 0 s else s) ;;
      d ← retrieve id;
      if negb (d =? NULL) then fresh_id fuel else mret id
  end.

Definition shmem_create_direct (name : list Z) (pid pages flags location internal : Z) : K Z :=
  if pages <=? 0 then mret (-1)
  else
    n ← liftO (kstrlen name);
    if n <=? 0 then mret (-1)
    else
      sh ← malloc 96;
      if sh =? NULL then mret (-1)
      else
        s ← getS;
        '(l, x, a) ← liftO (init_rwlock (mem s));
        modifyS (set_smem a) ;;
        modifyS (fun s => set_ppt (set_locks (<[l := x]> (locks (ppt s))) (ppt s)) s) ;;
        nm ← liftO (kstrncpy (replicate 64 0) name SHMEM_NAME);
        modifyS (fun s => set_shs (<[sh := Shmem 0 nm l pid (Z.land flags SHMEM_MASK) internal location pages NULL]> (shs s)) s) ;;
        s ← getS;
        on_ppt (get_write (shmem_lock s)) ;;
        id ← fresh_id (2 + length (slots (stab s)));
        updsh sh (set_sid id) ;;
        s ← getS;
        '(_, t, a) ← liftO (htable_insert 2 (shmem_on (shs s) (stab s)) sh (mem s));
        modifyS (set_smem a) ;;
        modifyS (fun s => set_stab (shmem_table s) t s) ;;
        on_ppt (release (shmem_lock s)) ;;
        mret id.

Definition shmem_create (name : list Z) (pid pages flags : Z) : K Z :=
  location ← pages_alloc (u32 pages);
  if location =? 0 then mret (-1)
  else
    id ← shmem_create_direct name pid pages flags location 1;
    (if id <? 0 then pages_free (u32 pages) location else mret tt) ;;
    mret id.

(** * Users *)

(** The walk over the users for one process. *)
Fixpoint user_of (fuel : nat) (info pid : Z) : K Z :=
  match fuel with
  | O => liftO (Halt Spin)
  | S fuel =>
      if info =? NULL then mret NULL
      else
        i ← ldin info;
        if in_pid i =? pid then mret info else nx ← next_info info; user_of fuel nx pid
  end.
Definition find_user (sh pid : Z) : K Z := r ← ldsh sh; s ← getS; user_of (S (base.size (ilist s))) (sh_list r) pid.

(** A new user in front of the list; a null pointer without memory. *)
Definition add_user (sh pid flags : Z) : K Z :=
  info ← malloc 40;
  (if info =? NULL then mret tt
   else
     modifyS (fun s => set_infos (<[info := ShmemInfo pid 0 (-1) (Z.land flags SHMEM_MASK) 0 NULL NULL]> (infos s)) s) ;;
     modifyS (fun s => set_ilist (list_init info (ilist s)) s) ;;
     r ← ldsh sh;
     (if negb (sh_list r =? NULL) then s ← getS; h ← liftO (list_insertBefore (sh_list r) info (ilist s)); modifyS (set_ilist h) else mret tt) ;;
     updsh sh (set_slist info)) ;;
  mret info.

(** The frame of the operations on one region: it is found and locked; [no] is the
    answer when there is none. *)
Definition with_region {B} (id : Z) (no : B) (body : Z -> K B) : K B :=
  s ← getS;
  on_ppt (get_read (shmem_lock s)) ;;
  sh ← retrieve id;
  if sh =? NULL then on_ppt (release (shmem_lock s)) ;; mret no
  else
    r ← ldsh sh;
    on_ppt (get_write (sh_lock r)) ;;
    rc ← body sh;
    r ← ldsh sh;
    on_ppt (release (sh_lock r)) ;;
    s ← getS;
    on_ppt (release (shmem_lock s)) ;;
    mret rc.

Definition shmem_grant (owner id pid flags : Z) : K Z :=
  with_region id (-1) (fun sh =>
    r ← ldsh sh;
    if negb (owner =? sh_pid r) then mret (-1)
    else
      info ← find_user sh pid;
      if negb (info =? NULL) then mret (-1)
      else
        info ← add_user sh pid flags;
        mret (if info =? NULL then -1 else 0)).

(** The pid of a process. *)
Definition proc_pid (proc : Z) : K Z := n ← on_ppt (pid_of proc); mret (s32 n).

(** The copy that the process goes on with. *)
Definition scratch (proc sh info data : Z) (pages : Z) : K unit :=
  i ← ldin info; m ← map_of proc;
  on_pg (page_direct_map m data (in_location i) pages (map_flags (in_flags i))) ;;
  r ← ldsh sh;
  on_pg (copy_bytes (Z.to_nat (u32 (sh_pages r * PAGE_SIZE))) data (sh_location r)).

Definition shmem_revoke (owner proc id : Z) : K Z :=
  with_region id (-1) (fun sh =>
    r ← ldsh sh;
    if negb (owner =? sh_pid r) then mret (-1)
    else
      pid ← proc_pid proc;
      info ← find_user sh pid;
      if info =? NULL then mret (-1)
      else
        i ← ldin info;
        data ← (if 0 <? in_usage i then
                  enabled ← cli;
                  data ← pages_alloc (u32 (sh_pages r));
                  (if data =? NULL then mret tt
                   else cli ;; scratch proc sh info data (in_pages i) ;; sti_if enabled) ;;
                  mret data
                else mret 1);
        if data =? NULL then mret (-1)
        else
          r ← ldsh sh;
          (if sh_list r =? info then nx ← next_info info; updsh sh (set_slist nx) else mret tt) ;;
          s ← getS; h ← liftO (list_remove info (ilist s)); modifyS (set_ilist h) ;;
          free_info info ;;
          mret 0).

(** The part of [shmem_request] for a process that is a user: the region is mapped
    in unless it is already, and counted. *)
Definition use_region (fuel : nat) (proc sh info : Z) (out : Z * Z * Z) : K (Z * (Z * Z * Z)) :=
  i ← ldin info;
  r ← ldsh sh;
  ok ← (if in_pages i <? 0 then
          m ← map_of proc;
          loc ← on_pg (page_provide fuel m (sh_location r) sK_BASE sK_CEILING (u32 (sh_pages r)) (map_flags (in_flags i)));
          updin info (set_mapping loc (in_pages i)) ;;
          if loc =? 0 then mret false
          else updin info (set_mapping loc (sh_pages r)) ;; mret true
        else mret true);
  if negb ok then mret (-1, out)
  else
    i ← ldin info;
    updin info (set_usage (s32 (in_usage i + 1))) ;;
    mret (0, (in_location i, in_pages i, in_flags i)).

(** [shmem_request]; [out] is what [location], [pages] and [flags] point to. *)
Definition shmem_request (fuel : nat) (proc id : Z) (out : Z * Z * Z) : K (Z * (Z * Z * Z)) :=
  with_region id (-1, out) (fun sh =>
    r ← ldsh sh;
    pid ← proc_pid proc;
    info ← find_user sh pid;
    info ← (if (info =? NULL) && (Z.land (sh_flags r) SHMEM_PROMISCUOUS =? SHMEM_PROMISCUOUS)
            then add_user sh pid (sh_flags r) else mret info);
    if info =? NULL then mret (-1, out) else use_region fuel proc sh info out).

Definition shmem_release (proc id : Z) : K Z :=
  with_region id (-1) (fun sh =>
    pid ← proc_pid proc;
    info ← find_user sh pid;
    if info =? NULL then mret (-1)
    else
      i ← ldin info;
      let usage := s32 (in_usage i - 1) in
      updin info (set_usage usage) ;;
      (if usage =? 0 then
         m ← map_of proc;
         on_pg (page_release m (in_location i) (in_pages i)) ;;
         updin info (set_mapping 0 (-1))
       else mret tt) ;;
      mret 0).

(** * Searches *)

Definition get_nth (i : Z) : K Z := s ← getS; liftO (htable_get (shmem_on (shs s) (stab s)) i).

Fixpoint find_loop (fuel : nat) (i : Z) (name : list Z) (out : Z) : K (Z * Z) :=
  match fuel with
  | O => liftO (Halt Spin)
  | S fuel =>
      sh ← get_nth i;
      if sh =? NULL then mret (-1, out)
      else
        r ← ldsh sh;
        c ← liftO (kstrncmp name (sh_name r) SHMEM_NAME);
        if c =? 0 then mret (sh_id r, sh_pid r) else find_loop fuel (i + 1) name out
  end.

(** [shmem_find]; [out] is what [pid] points to. *)
Definition shmem_find (name : list Z) (out : Z) : K (Z * Z) :=
  s ← getS;
  on_ppt (get_read (shmem_lock s)) ;;
  res ← find_loop (S (length (slots (stab s)))) 0 name out;
  on_ppt (release (shmem_lock s)) ;;
  mret res.

Fixpoint get_loop (fuel : nat) (i num : Z) (out : list Z * Z * Z * Z) : K (Z * (list Z * Z * Z * Z)) :=
  match fuel with
  | O => liftO (Halt Spin)
  | S fuel =>
      sh ← get_nth i;
      if sh =? NULL then mret (-1, out)
      else if num <? i + 1 then
        r ← ldsh sh;
        nm ← liftO (kstrncpy out.1.1.1 (sh_name r) SHMEM_NAME);
        mret (0, (nm, sh_pid r, sh_pages r, sh_flags r))
      else get_loop fuel (i + 1) num out
  end.

(** [shmem_get]; [out] is what the pointers point to. *)
Definition shmem_get (num : Z) (out : list Z * Z * Z * Z) : K (Z * (list Z * Z * Z * Z)) :=
  s ← getS;
  on_ppt (get_read (shmem_lock s)) ;;
  res ← get_loop (S (length (slots (stab s)))) 0 num out;
  on_ppt (release (shmem_lock s)) ;;
  mret res.

(** * Deletion *)

(** The processes that use the region are locked, and get a page run each. *)
Fixpoint lock_users (fuel : nat) (info pages usage : Z) : K Z :=
  match fuel with
  | O => liftO (Halt Spin)
  | S fuel =>
      if info =? NULL then mret usage
      else
        i ← ldin info;
        usage ← (if 0 <? in_usage i then
                   p ← on_ppt (checkout_process (in_pid i) WRITER);
                   updin info (set_tmp p) ;;
                   if negb (p =? NULL) then
                     data ← pages_alloc (u32 pages);
                     updin info (set_tmp2 data) ;;
                     mret (s32 (usage + 1))
                   else mret usage
                 else mret usage);
        nx ← next_info info;
        lock_users fuel nx pages usage
  end.

(** The pages are copied and mapped in. *)
Fixpoint move_users (fuel : nat) (info sh : Z) : K unit :=
  match fuel with
  | O => liftO (Halt Spin)
  | S fuel =>
      if info =? NULL then mret tt
      else
        i ← ldin info; r ← ldsh sh;
        (if negb (in_tmp i =? NULL) && negb (in_tmp2 i =? NULL) then
           on_pg (copy_bytes (Z.to_nat (u32 (sh_pages r * PAGE_SIZE))) (in_tmp2 i) (sh_location r)) ;;
           m ← map_of (in_tmp i);
           on_pg (page_direct_map m (in_tmp2 i) (in_location i) (sh_pages r) (map_flags (in_flags i))) ;;
           mret tt
         else mret tt) ;;
        nx ← next_info info;
        move_users fuel nx sh
  end.

(** The users are freed; the successor is read afterwards. *)
Fixpoint drop_users (fuel : nat) (info : Z) : K unit :=
  match fuel with
  | O => liftO (Halt Spin)
  | S fuel =>
      if info =? NULL then mret tt
      else
        i ← ldin info;
        (if negb (in_tmp i =? NULL) then on_ppt (commit_process (in_tmp i)) else mret tt) ;;
        free_info info ;;
        nx ← next_info info;
        drop_users fuel nx
  end.

(** The second part of [shmem_delete], with nothing locked: the users go on with
    copies, and everything is freed. *)
Definition destroy_region (sh : Z) (r : shmem) : K Z :=
  s ← getS;
  let fuel := S (base.size (ilist s)) in
  usage ← lock_users fuel (sh_list r) (sh_pages r) 0;
  (if 0 <? usage then enabled ← cli; move_users fuel (sh_list r) sh ;; sti_if enabled else mret tt) ;;
  drop_users fuel (sh_list r) ;;
  (if negb (sh_internal r =? 0) then pages_free (u32 (sh_pages r)) (sh_location r) else mret tt) ;;
  free (sh_lock r) ;;
  modifyS (fun s => set_ppt (set_locks (base.delete (sh_lock r) (locks (ppt s))) (ppt s)) s) ;;
  free sh ;;
  modifyS (fun s => set_shs (base.delete sh (shs s)) s) ;;
  mret 0.

Definition shmem_delete (owner id : Z) : K Z :=
  s ← getS;
  on_ppt (get_write (shmem_lock s)) ;;
  sh ← retrieve id;
  if sh =? NULL then on_ppt (release (shmem_lock s)) ;; mret (-1)
  else
    r ← ldsh sh;
    if negb (owner =? sh_pid r) then on_ppt (release (shmem_lock s)) ;; mret (-1)
    else
      s ← getS;
      '(rc, t, a) ← liftO (htable_remove 2 (shmem_on (shs s) (stab s)) sh (mem s));
      modifyS (set_smem a) ;;
      modifyS (fun s => set_stab (shmem_table s) t s) ;;
      massert (rc =? 0) ;;
      on_ppt (release (shmem_lock s)) ;;
      destroy_region sh r.

(** [shmem_clean], called when a process ends; [fuel] bounds the regions looked at. *)
Fixpoint clean_loop (fuel : nat) (i pid : Z) : K Z :=
  match fuel with
  | O => liftO (Halt Spin)
  | S fuel =>
      sh ← get_nth i;
      if sh =? NULL then s ← getS; on_ppt (release (shmem_lock s)) ;; mret 0
      else
        r ← ldsh sh;
        if negb (sh_pid r =? pid) then clean_loop fuel (i + 1) pid
        else if Z.land (sh_flags r) SHMEM_IMMORTAL =? SHMEM_IMMORTAL then
          on_ppt (get_write (sh_lock r)) ;;
          updsh sh (fun r => set_sflags (Z.lor (sh_flags r) SHMEM_ORPHAN) r) ;;
          on_ppt (release (sh_lock r)) ;;
          clean_loop fuel (i + 1) pid
        else
          s ← getS;
          on_ppt (release (shmem_lock s)) ;;
          rc ← shmem_delete pid (sh_id r);
          if negb (rc =? 0) then mret (-1)
          else
            s ← getS;
            on_ppt (get_read (shmem_lock s)) ;;
            clean_loop fuel 0 pid
  end.

Definition shmem_clean (fuel : nat) (pid : Z) : K Z := s ← getS; on_ppt (get_read (shmem_lock s)) ;; clean_loop fuel 0 pid.
End shmem.
