(* ===== verification/ShmemRep.v ===== *)
(** The shared memory regions of [Shmem] with their users: the invariant of the
    table, and the runs of the operations on one region. *)
From S2P Require Import Prelude Mm Cpu Strings Lists PhysMem Paging HTable RwLock Env Processes Shmem.

(** The users of a region, first the last one that was added: the addresses of
    their objects, and the objects. *)
Notation users := (list (Z * shmem_info)).

Section rep.
Context {A : Type} `{MmLaws A}.
Implicit Types s : shstate A.

(** The object at [d] with its users, in the objects alone. *)
Record region_at (hs : gmap Z shmem) (hi : gmap Z shmem_info) (hl : lheap) (d : Z) (r : shmem) (U : users) : Prop := {
  rg_obj : hs !! d = Some r;
  rg_id : 0 <= sh_id r <= 20000000;
  rg_addr : d <> NULL /\ d <> temp_shmem;
  rg_list : sh_list r = first_of U.*1;
  rg_dlist : dlist hl U.*1;
  rg_users : forall u i, (u, i) ∈ U -> hi !! u = Some i;
  rg_pids : NoDup (in_pid <$> U.*2)
}.
(** The region at [d] with its users and its lock, that nobody holds. *)
Definition region_ok s (d : Z) (r : shmem) (U : users) : Prop :=
  region_at (shs s) (infos s) (ilist s) d r U /\ lock_free (ppt s) (sh_lock r) /\ sh_lock r <> shmem_lock s.

(** The blocks of a region: the object, its lock and its users. *)
Definition blocks (d : Z) (r : shmem) (U : users) : list Z := d :: sh_lock r :: U.*1.

(** The table of regions; [frame] are the blocks that are not the hash table's. *)
Record shm_ok s (R : gmap Z users) (frame : gset Z) : Prop := {
  so_ht : ht_wf (stab s);
  so_entries : forall d, d ∈ entries (stab s) <-> is_Some (R !! d);
  so_nodup : NoDup (entries (stab s));
  so_region : forall d U, R !! d = Some U -> exists r, region_ok s d r U;
  so_unique : forall d d' r r', is_Some (R !! d) -> is_Some (R !! d') -> shs s !! d = Some r -> shs s !! d' = Some r' -> sh_id r = sh_id r' -> d = d';
  so_apart : forall d d' r r' U U' x, R !! d = Some U -> R !! d' = Some U' -> shs s !! d = Some r -> shs s !! d' = Some r' ->
    x ∈ blocks d r U -> x ∈ blocks d' r' U' -> d = d';
  so_lock : lock_free (ppt s) (shmem_lock s);
  so_mem : ht_owns (stab s) (mem s) frame;
  so_blocks : forall d r U, R !! d = Some U -> shs s !! d = Some r -> NoDup (blocks d r U) /\ forall x, x ∈ blocks d r U -> x ∈ frame;
  so_table : shmem_lock s ∈ frame /\ forall d, is_Some (R !! d) -> d <> shmem_lock s
}.

Lemma so_object s R frame d U : shm_ok s R frame -> R !! d = Some U -> exists r, region_ok s d r U /\ shs s !! d = Some r.
Proof. intros Hs HU. destruct (so_region _ _ _ Hs _ _ HU) as [r Hr]. exists r. split; [done | apply (proj1 Hr)]. Qed.

Lemma so_live s R frame d U u : shm_ok s R frame -> R !! d = Some U -> u ∈ U.*1 -> u ∈ frame.
Proof.
  intros Hs HU Hu. destruct (so_object _ _ _ _ _ Hs HU) as (r & _ & Hr). apply (so_blocks _ _ _ Hs d r U HU Hr). by do 2 (apply elem_of_cons; right).
Qed.

Lemma so_regions_live s R frame d : shm_ok s R frame -> is_Some (R !! d) -> d ∈ frame.
Proof.
  intros Hs [U HU]. destruct (so_object _ _ _ _ _ Hs HU) as (r & _ & Hr). apply (so_blocks _ _ _ Hs d r U HU Hr). by apply elem_of_cons; left.
Qed.

Lemma shmem_key_ok (h : gmap Z shmem) d r : h !! d = Some r -> 0 <= sh_id r <= 20000000 -> key_ok (shmem_key h) d.
Proof. intros Hd Hr. unfold key_ok, shmem_key. rewrite Hd, s32_small by (unfold is_s32; lia). lia. Qed.

(** The objects of the table have numbers. *)
Definition numbered s : Prop := ht_wf (stab s) /\ forall d, d ∈ entries (stab s) -> d <> temp_shmem /\ exists r, shs s !! d = Some r /\ 0 <= sh_id r <= 20000000.

Lemma shm_numbered s R frame : shm_ok s R frame -> numbered s.
Proof.
  intros Hs. split; [exact (so_ht _ _ _ Hs) |]. intros d Hd. apply (so_entries _ _ _ Hs) in Hd as [U HU]. destruct (so_region _ _ _ Hs _ _ HU) as [r [Hr _]].
  split; [apply Hr |]. exists r. split; apply Hr.
Qed.

(** The search by number. *)
Lemma retrieve_at s id : numbered s -> 0 <= id <= 20000000 -> exists d, retrieve id s = Ok (d, s) /\
  ((d <> NULL /\ d ∈ entries (stab s) /\ exists r, shs s !! d = Some r /\ sh_id r = id) \/
   (d = NULL /\ forall e r, e ∈ entries (stab s) -> shs s !! e = Some r -> sh_id r <> id)).
Proof.
  intros [Hwf Hn] Hid. unfold retrieve. mrun. set (h' := <[temp_shmem := sample_shmem id]> (shs s)).
  assert (h' !! temp_shmem = Some (sample_shmem id)) as Ht by apply lookup_insert_eq.
  assert (forall d r, d ∈ entries (stab s) -> shs s !! d = Some r -> (shmem_cmp h' d temp_shmem = 0 <-> sh_id r = id)) as Hc.
  { intros d r Hd Hr. destruct (Hn d Hd) as [Hne _]. assert (h' !! d = Some r) as Hd' by (unfold h'; by rewrite lookup_insert_ne).
    unfold shmem_cmp. rewrite Hd', Ht. cbn [sample_shmem sh_id]. zbool. }
  destruct (htable_retrieve_spec (shmem_on h' (stab s)) temp_shmem) as (d & Ed & Hcase); [exact Hwf | by apply (shmem_key_ok _ _ (sample_shmem id)) |].
  change (entries (shmem_on h' (stab s))) with (entries (stab s)) in Hcase. change (compare (shmem_on h' (stab s))) with (shmem_cmp h') in Hcase.
  rewrite Ed. exists d. split; [done |]. destruct Hcase as [(Hne & He & Hz)|(-> & Hno)].
  - left. destruct (Hn d He) as (_ & r & Hr & _). split_and!; try done. exists r. split; [done |]. by apply (Hc d r).
  - right. split; [done |]. intros e r He Hr Hi. apply (Hno e He). by apply (Hc e r).
Qed.

Lemma retrieve_ok s R frame id : shm_ok s R frame -> 0 <= id <= 20000000 ->
  (exists d r U, retrieve id s = Ok (d, s) /\ d <> NULL /\ R !! d = Some U /\ region_ok s d r U /\ sh_id r = id) \/
  (retrieve id s = Ok (NULL, s) /\ forall d r U, R !! d = Some U -> region_ok s d r U -> sh_id r <> id).
Proof.
  intros Hs Hid. destruct (retrieve_at s id (shm_numbered s R frame Hs) Hid) as (d & E & [(Hn & Hd & r & Hr & Hi)|[-> Hno]]).
  - left. apply (so_entries _ _ _ Hs) in Hd as [U HU]. destruct (so_region _ _ _ Hs _ _ HU) as [r' Hr'].
    pose proof (rg_obj _ _ _ _ _ _ (proj1 Hr')). exists d, r, U. split_and!; try done. congruence.
  - right. split; [done |]. intros d r U HU Hr. apply (Hno d r); [apply (so_entries _ _ _ Hs); by eexists | apply (rg_obj _ _ _ _ _ _ (proj1 Hr))].
Qed.

(** ** Locking a region *)

Lemma two_inserts {B} (m : gmap Z B) a b x y z : a <> b -> m !! a = Some z -> m !! b = Some z -> <[a := z]> (<[b := z]> (<[b := y]> (<[a := x]> m))) = m.
Proof.
  intros Hab Ha Hb. apply map_eq. intros k. destruct (decide (k = a)) as [->|]; [by rewrite lookup_insert_eq | rewrite lookup_insert_ne by done].
  destruct (decide (k = b)) as [->|]; [by rewrite lookup_insert_eq | by rewrite !lookup_insert_ne].
Qed.

Definition locked s (r : shmem) : shstate A :=
  set_ppt (with_lock (with_lock (ppt s) (shmem_lock s) (RwLock 1 0 0 0)) (sh_lock r) (RwLock 0 1 0 0)) s.

(** The parts of the state that an operation on a region changes. *)
Definition upd_all (a : A) hs hi hl f p s : shstate A :=
  ShState (shmem_table s) (stab s) (shmem_id s) (shmem_lock s) hs hi hl f (set_mem a (ppt s)) (pmap s) p.

Lemma upd_all_id s : upd_all (mem s) (shs s) (infos s) (ilist s) (iflag s) (pg s) s = s.
Proof. destruct s as [? ? ? ? ? ? ? ? [? ? ? ? ? ? ? ? ? ? [? ? ? ?]] ? ?]. done. Qed.

Lemma on_ppt_ok {B} (m : M (ptable A) B) s b p : m (ppt s) = Ok (b, p) -> on_ppt m s = Ok (b, set_ppt p s).
Proof. intros E. unfold on_ppt. by rewrite E. Qed.

Lemma on_pg_ok {B} (m : M paging B) s b p : m (pg s) = Ok (b, p) -> on_pg m s = Ok (b, set_pg p s).
Proof. intros E. unfold on_pg. by rewrite E. Qed.

Lemma ldsh_ok s d r : d <> NULL -> shs s !! d = Some r -> ldsh d s = Ok (r, s).
Proof. intros Hd Hr. unfold ldsh. mrun. by rewrite (hload_Some _ _ _ Hd Hr). Qed.

Lemma ldin_ok s u i : u <> NULL -> infos s !! u = Some i -> ldin u s = Ok (i, s).
Proof. intros Hu Hi. unfold ldin. mrun. by rewrite (hload_Some _ _ _ Hu Hi). Qed.

Lemma updsh_ok s d r f : d <> NULL -> shs s !! d = Some r -> updsh d f s = Ok (tt, set_shs (<[d := f r]> (shs s)) s).
Proof. intros Hd Hr. unfold updsh. mrun. by rewrite (hupd_Some _ _ _ _ Hd Hr). Qed.

Lemma updin_ok s u i f : u <> NULL -> infos s !! u = Some i -> updin u f s = Ok (tt, set_infos (<[u := f i]> (infos s)) s).
Proof. intros Hu Hi. unfold updin. mrun. by rewrite (hupd_Some _ _ _ _ Hu Hi). Qed.

(** Locks by the operations of the process table. *)
Lemma region_locks s r d U : region_ok s d r U -> lock_free (ppt s) (shmem_lock s) ->
  on_ppt (get_read (shmem_lock s)) s = Ok (tt, set_ppt (with_lock (ppt s) (shmem_lock s) (RwLock 1 0 0 0)) s) /\
  on_ppt (get_write (sh_lock r)) (set_ppt (with_lock (ppt s) (shmem_lock s) (RwLock 1 0 0 0)) s) = Ok (tt, locked s r).
Proof.
  intros Hr Hl. destruct Hr as (_ & Hlr & Hne). split.
  - apply on_ppt_ok. by apply get_read_ok.
  - erewrite on_ppt_ok; [| apply get_write_ok; by apply lock_free_other]. done.
Qed.

Lemma region_unlocks s d r r' U a hs hi hl f p : region_ok s d r U -> lock_free (ppt s) (shmem_lock s) -> sh_lock r' = sh_lock r ->
  (on_ppt (release (sh_lock r')) ;; s ← getS; on_ppt (release (shmem_lock s))) (upd_all a hs hi hl f p (locked s r)) = Ok (tt, upd_all a hs hi hl f p s).
Proof.
  intros Hr Hl ->. destruct Hr as (_ & [Hlr1 Hlr2] & Hne). destruct Hl as [Hl1 Hl2]. rewrite run_bind.
  erewrite on_ppt_ok; [| apply (release_ok _ _ (RwLock 0 1 0 0)); [done | apply lookup_insert_eq | by left]]. mrun.
  erewrite on_ppt_ok; [| apply (release_ok _ _ (RwLock 1 0 0 0)); [done | cbn; by rewrite lookup_insert_ne, lookup_insert_ne, lookup_insert_eq by congruence | by right]].
  f_equal. f_equal. destruct s as [t0 h0 i0 l0 s0 n0 k0 f0 pp m0 p0]. destruct pp as [x1 x2 x3 x4 x5 x6 x7 x8 x9 lk [x10 x11 x12 x13]].
  unfold upd_all, locked, with_lock, set_ppt, set_locks, set_mem, set_penv. cbn in *. do 2 f_equal.
  by apply two_inserts.
Qed.

(** A number that no region has: nothing stays locked. *)
Lemma retrieve_locked s p : retrieve (A := A) p (set_ppt (with_lock (ppt s) (shmem_lock s) (RwLock 1 0 0 0)) s) =
  match retrieve p s with Ok (d, _) => Ok (d, set_ppt (with_lock (ppt s) (shmem_lock s) (RwLock 1 0 0 0)) s) | Halt f => Halt f end.
Proof. unfold retrieve. mrun. by destruct (htable_retrieve _ _). Qed.

Lemma unlock_table s : lock_free (ppt s) (shmem_lock s) ->
  on_ppt (release (shmem_lock s)) (set_ppt (with_lock (ppt s) (shmem_lock s) (RwLock 1 0 0 0)) s) = Ok (tt, s).
Proof.
  intros Hl. erewrite on_ppt_ok; [| apply (release_ok _ _ (RwLock 1 0 0 0)); [apply Hl | apply lookup_insert_eq | by right]].
  cbn [set_ppt ppt]. rewrite with_lock_restore by done. by destruct s.
Qed.

Lemma with_region_miss {B} s id (no : B) body : lock_free (ppt s) (shmem_lock s) -> retrieve id s = Ok (NULL, s) -> with_region id no body s = Ok (no, s).
Proof.
  intros Hl Hr. unfold with_region. rewrite run_bind. unfold getS at 1. rewrite run_bind. erewrite on_ppt_ok; [| by apply get_read_ok].
  rewrite run_bind, retrieve_locked, Hr. change (NULL =? NULL) with true. cbn iota. rewrite run_bind.
  by rewrite unlock_table.
Qed.

(** The operation on the region runs under both locks. *)
Lemma with_region_hit {B} s id d r r' U (no : B) body rc a hs hi hl f p : region_ok s d r U -> lock_free (ppt s) (shmem_lock s) -> retrieve id s = Ok (d, s) ->
  body d (locked s r) = Ok (rc, upd_all a hs hi hl f p (locked s r)) -> hs !! d = Some r' -> sh_lock r' = sh_lock r ->
  with_region id no body s = Ok (rc, upd_all a hs hi hl f p s).
Proof.
  intros Hr Hl Hd Hb Hr' El. destruct (rg_addr _ _ _ _ _ _ (proj1 Hr)) as [Hdn _]. destruct (region_locks s r d U Hr Hl) as [E1 E2].
  unfold with_region. rewrite run_bind. unfold getS at 1. rewrite run_bind, E1, run_bind, retrieve_locked, Hd.
  destruct (Z.eqb_spec d NULL) as [|_]; [done |]. rewrite run_bind, (ldsh_ok (set_ppt _ s) d r Hdn (rg_obj _ _ _ _ _ _ (proj1 Hr))), run_bind, E2, run_bind, Hb, run_bind.
  rewrite (ldsh_ok (upd_all a hs hi hl f p (locked s r)) d r' Hdn Hr'). pose proof (region_unlocks s d r r' U a hs hi hl f p Hr Hl El) as Hu.
  revert Hu. rewrite !run_bind. destruct (on_ppt (release (sh_lock r')) _) as [[[] s1]|]; [|done]. mrun.
  destruct (on_ppt (release (shmem_lock s1)) s1) as [[[] s2]|]; [|done]. by intros [= ->].
Qed.

(** ** Users *)

(** The user with a pid. *)
Fixpoint user_with (pid : Z) (U : users) : Z :=
  match U with [] => NULL | (u, i) :: U => if in_pid i =? pid then u else user_with pid U end.

Lemma user_with_spec pid U : (exists u i, (u, i) ∈ U /\ in_pid i = pid /\ user_with pid U = u) \/
  ((forall u i, (u, i) ∈ U -> in_pid i <> pid) /\ user_with pid U = NULL).
Proof.
  induction U as [|[u i] U IH]; simpl.
  - right. split; [|done]. intros u i Hin. by apply not_elem_of_nil in Hin.
  - destruct (Z.eqb_spec (in_pid i) pid) as [E|E].
    + left. exists u, i. split_and!; try done. by apply elem_of_cons; left.
    + destruct IH as [(v & j & Hin & Hj & ->)|[Hno ->]].
      * left. exists v, j. split_and!; try done. by apply elem_of_cons; right.
      * right. split; [|done]. intros v j [[= -> ->]|Hin]%elem_of_cons; [done | by eapply Hno].
Qed.

Lemma user_of_ok fuel s U0 U pid : dlist (ilist s) (U0 ++ U).*1 -> (forall u i, (u, i) ∈ U -> infos s !! u = Some i) -> (length U < fuel)%nat ->
  user_of fuel (first_of U.*1) pid s = Ok (user_with pid U, s).
Proof.
  revert U0 U. induction fuel as [|fuel IH]; intros U0 U Hd Hi Hf; [lia |]. cbn [user_of]. destruct U as [|[u i] U]; [done |].
  rewrite fmap_app, fmap_cons in Hd. cbn [fst] in Hd. destruct (dlist_lookup _ _ _ _ Hd) as [_ Hu]. rewrite fmap_cons. cbn [first_of fst user_with].
  destruct (Z.eqb_spec u NULL) as [|_]; [done |]. rewrite run_bind, (ldin_ok s u i Hu) by (apply Hi; by apply elem_of_cons; left).
  destruct (in_pid i =? pid); [done |]. rewrite run_bind. unfold next_info. mrun. rewrite (NEXT_LINEAR_ok _ _ _ _ Hd). mrun.
  apply (IH (U0 ++ [(u, i)])).
  - by rewrite !fmap_app, <- app_assoc.
  - intros v j Hin. apply Hi. by apply elem_of_cons; right.
  - simpl in Hf. lia.
Qed.

Lemma find_user_ok s d r U pid : region_at (shs s) (infos s) (ilist s) d r U -> find_user d pid s = Ok (user_with pid U, s).
Proof.
  intros Hr. destruct (rg_addr _ _ _ _ _ _ Hr) as [Hd _]. unfold find_user. rewrite run_bind, (ldsh_ok _ _ _ Hd (rg_obj _ _ _ _ _ _ Hr)). mrun.
  rewrite (rg_list _ _ _ _ _ _ Hr). apply (user_of_ok _ s [] U); [exact (rg_dlist _ _ _ _ _ _ Hr) | exact (rg_users _ _ _ _ _ _ Hr) |].
  pose proof (dlist_size _ _ (rg_dlist _ _ _ _ _ _ Hr)) as Hsz. rewrite length_fmap in Hsz. lia.
Qed.

Definition new_user (pid flags : Z) : shmem_info := ShmemInfo pid 0 (-1) (Z.land flags SHMEM_MASK) 0 NULL NULL.

(** A user is added in front, unless there is no memory. *)
Lemma add_user_ok s d r U pid flags : region_at (shs s) (infos s) (ilist s) d r U -> (forall u, u ∈ U.*1 -> u ∈ mm_live (mem s)) ->
  let s' a hs hi hl := upd_all a hs hi hl (iflag s) (pg s) s in
  (exists a, add_user d pid flags s = Ok (NULL, s' a (shs s) (infos s) (ilist s)) /\ mm_live a = mm_live (mem s)) \/
  (exists u a hl, add_user d pid flags s = Ok (u, s' a (<[d := set_slist u r]> (shs s)) (<[u := new_user pid flags]> (infos s)) hl) /\
     u <> NULL /\ u ∉ mm_live (mem s) /\ mm_live a = {[u]} ∪ mm_live (mem s) /\ dlist hl (u :: U.*1) /\
     forall v, v ∉ u :: U.*1 -> hl !! v = ilist s !! v).
Proof.
  intros Hr Hlive s'. destruct (rg_addr _ _ _ _ _ _ Hr) as [Hd _]. unfold add_user, malloc. destruct (kmalloc 40 (mem s)) as [u a] eqn:Em.
  assert (forall B (k : Z -> M (shstate A) B), (u ← (s ← getS; let '(p, a) := kmalloc 40 (mem s) in modifyS (set_smem a) ;; mret p); k u) s = k u (set_smem a s)) as Hm.
  { intros B k. mrun. rewrite Em. by mrun. }
  rewrite Hm. destruct (kmalloc_cases _ _ _ _ Em) as [[-> Ha]|(Hu & Hn & Ha)].
  - left. exists a. split; [|done]. change (NULL =? NULL) with true. mrun. destruct s as [? ? ? ? ? ? ? ? [? ? ? ? ? ? ? ? ? ? [? ? ? ?]] ? ?]. done.
  - right. destruct (Z.eqb_spec u NULL) as [|_]; [done |]. assert (u ∉ U.*1) as HuU by (intros Hin; by apply Hn, Hlive).
    set (l1 := list_init u (ilist s)). assert (dlist l1 U.*1) as Hd1.
    { eapply dlist_frame; [|exact (rg_dlist _ _ _ _ _ _ Hr)]. intros v Hv. unfold l1, list_init. apply lookup_insert_ne. intros <-. done. }
    assert (exists hl, (if negb (sh_list r =? NULL) then list_insertBefore (sh_list r) u l1 else Ok l1) = Ok hl /\ dlist hl (u :: U.*1) /\
      forall v, v ∉ u :: U.*1 -> hl !! v = ilist s !! v) as (hl & El & Hdl & Hfl).
    { rewrite (rg_list _ _ _ _ _ _ Hr). destruct U as [|[v j] U]; cbn [fmap list_fmap first_of fst].
      - change (NULL =? NULL) with true. exists l1. split; [done |]. split; [|intros w Hw; apply lookup_insert_ne; intros <-; apply Hw; by apply elem_of_cons; left].
        split; [|split; [apply NoDup_singleton | intros ?%list_elem_of_singleton; done]]. cbn. split; [apply lookup_insert_eq | done].
      - rewrite fmap_cons in Hd1, HuU. cbn [fst] in Hd1, HuU. destruct (dlist_lookup l1 [] v U.*1 Hd1) as [_ Hv]. destruct (Z.eqb_spec v NULL) as [|_]; [done |]. cbn [negb].
        destruct (list_insertBefore_ok l1 [] v U.*1 u Hd1 Hu HuU) as (hl & El & Hdl & Hfl); [by eexists; apply lookup_insert_eq |].
        exists hl. split; [exact El |]. split; [exact Hdl |]. intros w Hw. rewrite Hfl by exact Hw. apply lookup_insert_ne. intros <-. apply Hw. by apply elem_of_cons; left. }
    exists u, a, hl. split; [|by split_and!]. mrun. set (s1 := set_ilist _ (set_infos _ _)).
    rewrite (ldsh_ok s1 d r Hd (rg_obj _ _ _ _ _ _ Hr)), run_bind.
    assert ((if negb (sh_list r =? NULL) then s ← getS; h ← liftO (list_insertBefore (sh_list r) u (ilist s)); modifyS (set_ilist h) else mret tt) s1 = Ok (tt, set_ilist hl s1)) as ->.
    { change l1 with (ilist s1) in El. revert El. destruct (negb (sh_list r =? NULL)); intros El; [|by injection El as <-].
      rewrite run_bind. unfold getS at 1. by rewrite run_bind, El. }
    rewrite (updsh_ok (set_ilist hl s1) d r _ Hd (rg_obj _ _ _ _ _ _ Hr)). mrun. destruct s as [? ? ? ? ? ? ? ? [? ? ? ? ? ? ? ? ? ? [? ? ? ?]] ? ?]. done.
Qed.

(** What [shm_ok] needs of a change at one region. *)
Lemma shm_ok_update s R frame d r r' U U' a hs hi hl f p frame' : shm_ok s R frame -> R !! d = Some U -> region_ok s d r U ->
  let s' := upd_all a hs hi hl f p s in
  hs = <[d := r']> (shs s) -> sh_id r' = sh_id r -> sh_lock r' = sh_lock r -> region_ok s' d r' U' ->
  (forall v, v ∉ U.*1 -> v ∉ U'.*1 -> v ∈ frame -> hi !! v = infos s !! v /\ hl !! v = ilist s !! v) ->
  (forall v, v ∈ U'.*1 -> v ∈ U.*1 \/ v ∉ frame) -> ht_owns (stab s) a frame' -> frame ⊆ frame' ->
  (forall v, v ∈ U'.*1 -> v ∈ frame') -> shm_ok s' (<[d := U']> R) frame'.
Proof.
  intros Hs HU Hr s' -> Eid Elk Hr' Hframe Hnew Hown Hsub Hlive. pose proof Hs as [S1 S2 S3 S4 S5 S6 S7 S8 S9 S10].
  pose proof (rg_obj _ _ _ _ _ _ (proj1 Hr)) as Hobj.
  assert (forall e V, <[d := U']> R !! e = Some V -> (e = d /\ V = U') \/ (e <> d /\ R !! e = Some V)) as Hcase.
  { intros e V He. apply lookup_insert_Some in He as [[<- <-]|[Hne He]]; [by left | right; by split]. }
  assert (forall e, is_Some (<[d := U']> R !! e) <-> is_Some (R !! e)) as Hdom.
  { intros e. rewrite lookup_insert_is_Some'. split; [intros [<-|?]; [by eexists | done] | by right]. }
  assert (forall e x, (<[d := r']> (shs s)) !! e = Some x -> exists y, shs s !! e = Some y /\ sh_id y = sh_id x) as Hids.
  { intros e x Hx. apply lookup_insert_Some in Hx as [[<- <-]|[_ Hx]]; [by exists r | by exists x]. }
  assert (forall e V x, <[d := U']> R !! e = Some V -> (<[d := r']> (shs s)) !! e = Some x ->
    (e = d /\ V = U' /\ x = r') \/ (e <> d /\ R !! e = Some V /\ shs s !! e = Some x)) as Hcase2.
  { intros e V x [[-> ->]|[Hne He]]%Hcase Hx; [left; by rewrite lookup_insert_eq in Hx; injection Hx as <- | right; rewrite lookup_insert_ne in Hx by congruence; done]. }
  assert (forall x, x ∈ blocks d r' U' -> x ∈ blocks d r U \/ x ∉ frame) as Hbl.
  { intros x [->|[->|Hx]%elem_of_cons]%elem_of_cons; [left; by apply elem_of_cons; left | left; rewrite Elk; by apply elem_of_cons; right; apply elem_of_cons; left |].
    destruct (Hnew x Hx); [left | by right]. by do 2 (apply elem_of_cons; right). }
  destruct (S9 d r U HU Hobj) as [Hnd Hin].
  split; try done.
  - intros e. rewrite Hdom. apply S2.
  - intros e V [[-> ->]|[Hne He]]%Hcase; [by exists r' |]. destruct (S4 e V He) as [x Hx]. exists x.
    assert (forall v, v ∈ V.*1 -> v ∉ U.*1 /\ v ∉ U'.*1) as Hout.
    { intros v Hv. pose proof (so_live s R frame e V v Hs He Hv) as Hvf.
      assert (v ∉ U.*1) as Hvu by (intros Hvu; apply Hne; apply (S6 e d x r V U v); try done; [apply Hx | by do 2 (apply elem_of_cons; right)..]).
      split; [done |]. intros Hv'. by destruct (Hnew v Hv'). }
    destruct Hx as [[X1 X2 X3 X4 X5 X6 X7] X8]. split; [|done]. split; try done.
    + cbn. by rewrite lookup_insert_ne by congruence.
    + eapply dlist_frame; [|exact X5]. intros v Hv. destruct (Hout v Hv). apply Hframe; [done | done | by apply (so_live s R frame e V)].
    + intros u i Hin'. assert (u ∈ V.*1) as Hu by (apply list_elem_of_fmap; by exists (u, i)). destruct (Hout u Hu).
      rewrite <- (X6 u i Hin'). apply Hframe; [done | done | by apply (so_live s R frame e V)].
  - intros e e' x x' He He' Hx Hx' Ei. rewrite Hdom in He, He'. destruct (Hids _ _ Hx) as (y & Hy & Ey), (Hids _ _ Hx') as (y' & Hy' & Ey').
    apply (S5 e e' y y'); try done. congruence.
  - intros e e' x x' V V' v He He' Hx Hx' Hv Hv'.
    destruct (Hcase2 e V x He Hx) as [(-> & -> & ->)|(Hne & He2 & Hx2)], (Hcase2 e' V' x' He' Hx') as [(-> & -> & ->)|(Hne' & He2' & Hx2')]; [done | | | by apply (S6 e e' x x' V V' v)].
    + destruct (Hbl v Hv) as [Hb|Hb]; [by apply (S6 d e' r x' U V' v) | destruct Hb; by apply (S9 e' x' V')].
    + destruct (Hbl v Hv') as [Hb|Hb]; [by apply (S6 e d x r V U v) | destruct Hb; by apply (S9 e x V)].
  - intros e x V He Hx. destruct (Hcase2 e V x He Hx) as [(-> & -> & ->)|(Hne & He2 & Hx2)].
    + split.
      * unfold blocks in *. rewrite Elk. apply NoDup_cons in Hnd as [N1 [N2 N3]%NoDup_cons]. pose proof (rg_dlist _ _ _ _ _ _ (proj1 Hr')) as (_ & Hnd' & _).
        apply NoDup_cons. split; [|apply NoDup_cons; split; [|done]].
        -- intros [Ed|Hd]%elem_of_cons; [by apply N1, elem_of_cons; left |]. destruct (Hnew d Hd) as [?|Hb]; [by apply N1, elem_of_cons; right |]. by apply Hb, Hin, elem_of_cons; left.
        -- intros Hd. destruct (Hnew _ Hd) as [?|Hb]; [done |]. by apply Hb, Hin, elem_of_cons; right; apply elem_of_cons; left.
      * intros y [->|[->|Hy]%elem_of_cons]%elem_of_cons; [by apply Hsub, Hin, elem_of_cons; left | | by apply Hlive].
        rewrite Elk. by apply Hsub, Hin, elem_of_cons; right; apply elem_of_cons; left.
    + destruct (S9 e x V He2 Hx2) as [Hn Hi]. split; [done |]. intros y Hy. by apply Hsub, Hi.
  - destruct S10 as [Hf Ht]. split; [by apply Hsub |]. intros e He. apply Ht. by rewrite <- Hdom.
Qed.
End rep.
