(* ===== verification/ShmemUse.v ===== *)
(** Who may use a shared memory region: the operations [shmem_grant],
    [shmem_release], [shmem_find] and the searches on a table of regions. *)
From S2P Require Import Prelude Mm Cpu Strings Lists PhysMem Paging PagingRuns HTable RwLock Env Processes Shmem ShmemRep.

Section uses.
Context {A : Type} `{MmLaws A}.
Implicit Types s : shstate A.

Lemma user_addr hs hi hl d r U u : region_at hs hi hl d r U -> u ∈ U.*1 -> u <> NULL.
Proof. intros Hr Hu ->. by destruct (rg_dlist _ _ _ _ _ _ Hr) as (_ & _ & Hn). Qed.

Lemma user_with_null hs hi hl d r U pid : region_at hs hi hl d r U -> (user_with pid U = NULL <-> forall u i, (u, i) ∈ U -> in_pid i <> pid).
Proof.
  intros Hr. destruct (user_with_spec pid U) as [(u & i & Hin & Hi & ->)|[Hno ->]]; [|done]. split; [|intros Hall; by destruct (Hall u i)].
  intros ->. destruct (user_addr _ _ _ _ _ _ NULL Hr); [|done]. apply list_elem_of_fmap. by exists (NULL, i).
Qed.

Lemma upd_all_mem s a : upd_all a (shs s) (infos s) (ilist s) (iflag s) (pg s) s = set_smem a s.
Proof. by destruct s as [? ? ? ? ? ? ? ? [? ? ? ? ? ? ? ? ? ? [? ? ? ?]] ? ?]. Qed.

(** The region that a number stands for. *)
Definition region_of s (R : gmap Z users) id d r U : Prop := R !! d = Some U /\ region_ok s d r U /\ sh_id r = id.

Lemma region_of_unique s R frame id d r U d' r' U' : shm_ok s R frame -> region_of s R id d r U -> region_of s R id d' r' U' -> d' = d /\ r' = r /\ U' = U.
Proof.
  intros Hs (HU & Hr & Hi) (HU' & Hr' & Hi'). pose proof (rg_obj _ _ _ _ _ _ (proj1 Hr)) as Ho. pose proof (rg_obj _ _ _ _ _ _ (proj1 Hr')) as Ho'.
  assert (d' = d) as -> by (apply (so_unique _ _ _ Hs d' d r' r); [by eexists | by eexists | done | done | congruence]). split_and!; [done | congruence | congruence].
Qed.

(** [with_region] when the operation refuses and changes nothing. *)
Lemma with_region_refuses {B} s R frame id (no : B) body : shm_ok s R frame -> 0 <= id <= 20000000 ->
  (forall d r U, region_of s R id d r U -> body d (locked s r) = Ok (no, locked s r)) -> with_region id no body s = Ok (no, s).
Proof.
  intros Hs Hid Hb. destruct (retrieve_ok s R frame id Hs Hid) as [(d & r & U & Er & Hd & HU & Hr & Hi)|[Er _]].
  - rewrite (with_region_hit s id d r r U no body no (mem s) (shs s) (infos s) (ilist s) (iflag s) (pg s) Hr (so_lock _ _ _ Hs) Er).
    + by rewrite upd_all_id.
    + change (body d (locked s r) = Ok (no, upd_all (mem (locked s r)) (shs (locked s r)) (infos (locked s r)) (ilist (locked s r)) (iflag (locked s r)) (pg (locked s r)) (locked s r))).
      rewrite upd_all_id. by apply (Hb d r U).
    + apply (rg_obj _ _ _ _ _ _ (proj1 Hr)).
    + done.
  - apply with_region_miss; [apply (so_lock _ _ _ Hs) | done].
Qed.

(** [with_region] on the region of the number. *)
Lemma with_region_runs {B} s R frame id d r U r' (no : B) body rc a hs hi hl f p : shm_ok s R frame -> region_of s R id d r U ->
  body d (locked s r) = Ok (rc, upd_all a hs hi hl f p (locked s r)) -> hs !! d = Some r' -> sh_lock r' = sh_lock r ->
  with_region id no body s = Ok (rc, upd_all a hs hi hl f p s).
Proof.
  intros Hs Hof Hb Ho El. pose proof Hof as (HU & Hr & Hi). pose proof (rg_id _ _ _ _ _ _ (proj1 Hr)) as Hid. rewrite Hi in Hid.
  destruct (retrieve_ok s R frame id Hs Hid) as [(d' & r2 & U2 & Er & Hd & HU2 & Hr2 & Hi2)|[_ Hno]].
  - destruct (region_of_unique s R frame id d r U d' r2 U2 Hs Hof) as (-> & -> & ->); [by split |].
    exact (with_region_hit s id d r r' U no body rc a hs hi hl f p Hr (so_lock _ _ _ Hs) Er Hb Ho El).
  - by destruct (Hno d r U).
Qed.

(** ** Granting *)

Definition may_grant (owner pid : Z) (r : shmem) (U : users) : Prop := owner = sh_pid r /\ forall u i, (u, i) ∈ U -> in_pid i <> pid.

Lemma shmem_grant_refused s R frame owner id pid flags : shm_ok s R frame -> 0 <= id <= 20000000 ->
  (forall d r U, region_of s R id d r U -> ~ may_grant owner pid r U) -> shmem_grant owner id pid flags s = Ok (-1, s).
Proof.
  intros Hs Hid Hno. apply (with_region_refuses s R frame id _ _ Hs Hid). intros d r U Hof. pose proof Hof as (HU & [Hr _] & _).
  destruct (rg_addr _ _ _ _ _ _ Hr) as [Hd _]. rewrite run_bind, (ldsh_ok (locked s r) d r Hd (rg_obj _ _ _ _ _ _ Hr)).
  destruct (Z.eqb_spec owner (sh_pid r)) as [Ho|]; cbn [negb]; [|done]. rewrite run_bind, (find_user_ok (locked s r) d r U pid Hr).
  destruct (Z.eqb_spec (user_with pid U) NULL) as [Hn|]; cbn [negb]; [|done]. destruct (Hno d r U Hof). split; [done |].
  by apply (user_with_null _ _ _ _ _ _ pid Hr).
Qed.

(** The state after a user was added. *)
Definition granted s d r u i a hl : shstate A := upd_all a (<[d := set_slist u r]> (shs s)) (<[u := i]> (infos s)) hl (iflag s) (pg s) s.

Lemma granted_ok s R frame id d r U u i a hl : shm_ok s R frame -> region_of s R id d r U -> u ∉ mm_live (mem s) -> u <> NULL ->
  mm_live a = {[u]} ∪ mm_live (mem s) -> dlist hl (u :: U.*1) -> (forall v, v ∉ u :: U.*1 -> hl !! v = ilist s !! v) ->
  (forall v j, (v, j) ∈ U -> in_pid j <> in_pid i) -> shm_ok (granted s d r u i a hl) (<[d := (u, i) :: U]> R) ({[u]} ∪ frame).
Proof.
  intros Hs (HU & Hr & Hi) Hu Hun Ha Hdl Hfl Hpid. destruct (so_mem _ _ _ Hs) as (Ho1 & Ho2 & Ho3).
  assert (u ∉ frame) as Huf by (rewrite Ho3 in Hu; set_solver).
  assert (u ∉ U.*1) as HuU by (intros Hin; apply Huf; by apply (so_live s R frame d U)).
  apply (shm_ok_update s R frame d r (set_slist u r) U); try done.
  - destruct Hr as [[X1 X2 X3 X4 X5 X6 X7] X8]. split; [|exact X8]. split; try done.
    + apply lookup_insert_eq.
    + intros v j [[= -> ->]|Hin]%elem_of_cons; [apply lookup_insert_eq |]. change ((<[u := i]> (infos s)) !! v = Some j).
      rewrite lookup_insert_ne; [by apply X6 |]. intros <-. apply HuU, list_elem_of_fmap. by exists (u, j).
    + rewrite !fmap_cons. apply NoDup_cons. split; [|done]. intros (j & Ej & Hj)%list_elem_of_fmap. apply list_elem_of_fmap in Hj as ([v j'] & -> & Hin).
      by apply (Hpid v j').
  - intros v Hv Hv' Hvf. split; [|apply Hfl; by rewrite fmap_cons in Hv'].
    rewrite fmap_cons in Hv'. apply not_elem_of_cons in Hv' as [Hne _]. by apply lookup_insert_ne.
  - intros v Hv. rewrite fmap_cons in Hv. apply elem_of_cons in Hv as [->|Hv]; [by right | by left].
  - split_and!; [done | rewrite Ho3 in Hu; set_solver | rewrite Ha, Ho3; set_solver].
  - set_solver.
  - intros v Hv. rewrite fmap_cons in Hv. apply elem_of_cons in Hv as [->|Hv]; [set_solver |]. pose proof (so_live s R frame d U v Hs HU Hv). set_solver.
Qed.

Lemma users_live s R frame d U : shm_ok s R frame -> R !! d = Some U -> forall u, u ∈ U.*1 -> u ∈ mm_live (mem s).
Proof. intros Hs HU u Hu. destruct (so_mem _ _ _ Hs) as (_ & _ & ->). pose proof (so_live s R frame d U u Hs HU Hu). set_solver. Qed.

Lemma shmem_grant_ok s R frame owner id pid flags d r U : shm_ok s R frame -> region_of s R id d r U -> may_grant owner pid r U ->
  (exists a, shmem_grant owner id pid flags s = Ok (-1, set_smem a s) /\ mm_live a = mm_live (mem s)) \/
  (exists u a hl, let s' := granted s d r u (new_user pid flags) a hl in shmem_grant owner id pid flags s = Ok (0, s') /\
     u ∉ mm_live (mem s) /\ shm_ok s' (<[d := (u, new_user pid flags) :: U]> R) ({[u]} ∪ frame)).
Proof.
  intros Hs Hof [Ho Hpid]. pose proof Hof as (HU & [Hr Hlk] & _). destruct (rg_addr _ _ _ _ _ _ Hr) as [Hd _].
  assert (forall k, (r0 ← ldsh d; if negb (owner =? sh_pid r0) then mret (-1)
    else info ← find_user d pid; if negb (info =? NULL) then mret (-1) else k) (locked s r) = k (locked s r)) as Hbody.
  { intros k. rewrite run_bind, (ldsh_ok (locked s r) d r Hd (rg_obj _ _ _ _ _ _ Hr)). rewrite Ho, Z.eqb_refl. cbn [negb].
    rewrite run_bind, (find_user_ok (locked s r) d r U pid Hr), (proj2 (user_with_null _ _ _ _ _ _ pid Hr) Hpid). done. }
  destruct (add_user_ok (locked s r) d r U pid flags Hr) as [(a & Ea & Hl)|(u & a & hl & Ea & Hu & Hul & Ha & Hdl & Hfl)].
  - intros u Hu. apply (users_live s R frame d U Hs HU u Hu).
  - left. exists a. split; [|exact Hl]. rewrite <- upd_all_mem. unfold shmem_grant.
    apply (with_region_runs s R frame id d r U r); try done; [|exact (rg_obj _ _ _ _ _ _ Hr)]. rewrite Hbody, run_bind, Ea. done.
  - right. exists u, a, hl. split; [|split; [exact Hul | by apply (granted_ok s R frame id d r U)]].
    unfold shmem_grant, granted. apply (with_region_runs s R frame id d r U (set_slist u r)); try done; [|apply lookup_insert_eq].
    rewrite Hbody, run_bind, Ea. by destruct (Z.eqb_spec u NULL).
Qed.

(** ** Requesting *)

(** One user replaced. *)
Definition upd_user (u : Z) (j : shmem_info) (U : users) : users := map (fun x => if decide (x.1 = u) then (u, j) else x) U.

Lemma upd_user_fst u j U : (upd_user u j U).*1 = U.*1.
Proof. unfold upd_user. rewrite <- list_fmap_compose. apply list_fmap_ext. intros k [v i] _. simpl. by case_decide. Qed.

Lemma upd_user_in u j U v k : (v, k) ∈ upd_user u j U -> (v = u /\ k = j) \/ (v <> u /\ (v, k) ∈ U).
Proof. intros ([w i] & E & Hin)%list_elem_of_fmap. simpl in E. case_decide; injection E as -> ->; [by left | by right]. Qed.

Lemma user_unique hs hi hl d r U u i j : region_at hs hi hl d r U -> (u, i) ∈ U -> (u, j) ∈ U -> i = j.
Proof. intros Hr Hi Hj. pose proof (rg_users _ _ _ _ _ _ Hr _ _ Hi). pose proof (rg_users _ _ _ _ _ _ Hr _ _ Hj). congruence. Qed.

Lemma region_at_upd hs hi hl d r U u i j : region_at hs hi hl d r U -> (u, i) ∈ U -> in_pid j = in_pid i ->
  region_at hs (<[u := j]> hi) hl d r (upd_user u j U).
Proof.
  intros Hr Hin Hp. pose proof Hr as [X1 X2 X3 X4 X5 X6 X7]. split; try done; rewrite ?upd_user_fst; try done.
  - intros v k [[-> ->]|[Hne Hk]]%upd_user_in; [apply lookup_insert_eq |]. rewrite lookup_insert_ne by done. by apply X6.
  - assert (in_pid <$> (upd_user u j U).*2 = in_pid <$> U.*2) as ->; [|done].
    unfold upd_user. rewrite <- !list_fmap_compose. apply list_fmap_ext. intros k [v x] Hx. simpl. case_decide; [|done]. subst. simpl. rewrite Hp.
    f_equal. apply (user_unique _ _ _ _ _ _ u i x Hr Hin). by apply list_elem_of_lookup; exists k.
Qed.

(** The state after a user's object and the paging state changed. *)
Definition touched s u j p : shstate A := upd_all (mem s) (shs s) (<[u := j]> (infos s)) (ilist s) (iflag s) p s.

Lemma touched_ok s R frame id d r U u i j p : shm_ok s R frame -> region_of s R id d r U -> (u, i) ∈ U -> in_pid j = in_pid i ->
  shm_ok (touched s u j p) (<[d := upd_user u j U]> R) frame.
Proof.
  intros Hs (HU & [Hr Hlk] & Hi) Hin Hp. assert (u ∈ U.*1) as Hu by (apply list_elem_of_fmap; by exists (u, i)).
  apply (shm_ok_update s R frame d r r U); try done.
  - symmetry. apply insert_id. apply (rg_obj _ _ _ _ _ _ Hr).
  - split; [|exact Hlk]. by apply (region_at_upd _ _ _ _ _ U u i).
  - intros v Hv _ _. split; [|done]. apply lookup_insert_ne. by intros <-.
  - intros v. rewrite upd_user_fst. by left.
  - exact (so_mem _ _ _ Hs).
  - intros v. rewrite upd_user_fst. by apply (so_live s R frame d U).
Qed.

Lemma user_with_in pid U u i : NoDup (in_pid <$> U.*2) -> (u, i) ∈ U -> in_pid i = pid -> user_with pid U = u.
Proof.
  intros Hnd Hin Hp. induction U as [|[v j] U IH]; [by apply not_elem_of_nil in Hin |]. rewrite !fmap_cons in Hnd. apply NoDup_cons in Hnd as [Hno Hnd].
  simpl. apply elem_of_cons in Hin as [[= -> ->]|Hin]; [by rewrite Hp, Z.eqb_refl |].
  destruct (Z.eqb_spec (in_pid j) pid) as [E|_]; [|by apply IH]. destruct Hno. apply list_elem_of_fmap. exists i. split; [simpl; congruence |].
  apply list_elem_of_fmap. by exists (u, i).
Qed.

(** The process: its number and its page directory. *)
Definition runs_as s proc pid m : Prop := proc <> NULL /\ (exists pr, procs (ppt s) !! proc = Some pr /\ s32 (Processes.pid pr) = pid) /\ pmap s !! proc = Some m.

Lemma proc_pid_ok s proc pid m : runs_as s proc pid m -> proc_pid proc s = Ok (pid, s).
Proof.
  intros (Hn & (pr & Hpr & <-) & _). unfold proc_pid. rewrite run_bind. erewrite on_ppt_ok.
  2: { unfold pid_of. mrun. by rewrite (hload_Some _ _ _ Hn Hpr). } by destruct s.
Qed.

Lemma map_of_ok s proc pid m : runs_as s proc pid m -> map_of proc s = Ok (m, s).
Proof. intros (Hn & _ & Hm). unfold map_of. mrun. by rewrite (hload_Some _ _ _ Hn Hm). Qed.

(** The region can be mapped into the directory: enough free pages for tables. *)
Definition mappable (fuel : nat) s m (r : shmem) : Prop :=
  pg_wf (pg s) m /\ 0 < sh_pages r <= 16384 /\ sh_pages r < s_freePages (phys (pg s)) /\ 499712 < Z.of_nat fuel /\
  exists f, sh_location r = f * 4096 /\ 0 <= f < 1048576 /\ f + sh_pages r <= 1048576.

(** The hardware finds the region at page [q], with the user's permission, and
    everything else where it was. *)
Definition mapped_at (p p' : paging) m (r : shmem) (flags q : Z) : Prop :=
  524288 <= q /\ q * 4096 < sK_CEILING /\ free_run p m q (sh_pages r) /\ pg_wf p' m /\
  forall a, is_u32 a -> mmu p' m a = if decide (q <= a / 4096 < q + sh_pages r)
    then Some (sh_location r + (a - q * 4096), Z.lor (convert_paging_types (map_flags flags)) PAGE_PRESENT) else mmu p m a.

Lemma use_counts fuel s proc d r U u i out : region_at (shs s) (infos s) (ilist s) d r U -> (u, i) ∈ U -> 0 <= in_pages i ->
  use_region fuel proc d u out s = Ok ((0, (in_location i, in_pages i, in_flags i)), touched s u (set_usage (s32 (in_usage i + 1)) i) (pg s)).
Proof.
  intros Hr Hin Hp. destruct (rg_addr _ _ _ _ _ _ Hr) as [Hd _]. pose proof (rg_users _ _ _ _ _ _ Hr _ _ Hin) as Hu.
  assert (u <> NULL) as Hun by (apply (user_addr _ _ _ _ _ _ u Hr); apply list_elem_of_fmap; by exists (u, i)).
  unfold use_region. rewrite run_bind, (ldin_ok s u i Hun Hu), run_bind, (ldsh_ok s d r Hd (rg_obj _ _ _ _ _ _ Hr)). 
  destruct (Z.ltb_spec (in_pages i) 0) as [|_]; [lia |]. mrun. rewrite (ldin_ok s u i Hun Hu), run_bind, (updin_ok s u i _ Hun Hu). mrun.
  by destruct s as [? ? ? ? ? ? ? ? [? ? ? ? ? ? ? ? ? ? [? ? ? ?]] ? ?].
Qed.

Lemma use_maps fuel s proc pid m d r U u i out : region_at (shs s) (infos s) (ilist s) d r U -> (u, i) ∈ U -> in_pages i < 0 ->
  runs_as s proc pid m -> mappable fuel s m r -> 
  (exists q p, use_region fuel proc d u out s = Ok ((0, (q * 4096, sh_pages r, in_flags i)),
       touched s u (set_usage (s32 (in_usage i + 1)) (set_mapping (q * 4096) (sh_pages r) i)) p) /\ mapped_at (pg s) p m r (in_flags i) q) \/
  (use_region fuel proc d u out s = Ok ((-1, out), touched s u (set_mapping 0 (in_pages i) i) (pg s)) /\
     forall k, 524288 <= k -> k * 4096 < sK_CEILING -> ~ free_run (pg s) m k (sh_pages r)).
Proof.
  intros Hr Hin Hp Hpr (Hwf & Hn & Hfree & Hfuel & f & Hf & Hf1 & Hf2). destruct (rg_addr _ _ _ _ _ _ Hr) as [Hd _].
  pose proof (rg_users _ _ _ _ _ _ Hr _ _ Hin) as Hu.
  assert (u <> NULL) as Hun by (apply (user_addr _ _ _ _ _ _ u Hr); apply list_elem_of_fmap; by exists (u, i)).
  unfold use_region. rewrite run_bind, (ldin_ok s u i Hun Hu), run_bind, (ldsh_ok s d r Hd (rg_obj _ _ _ _ _ _ Hr)), run_bind.
  destruct (Z.ltb_spec (in_pages i) 0) as [_|]; [|lia]. rewrite run_bind, (map_of_ok s proc pid m Hpr), run_bind, Hf, (u32_small (sh_pages r)) by (unfold is_u32, two32; lia).
  destruct (page_provide_ok fuel (pg s) m f sK_BASE sK_CEILING (sh_pages r) (map_flags (in_flags i)) Hwf) as (loc & p & E & Hcase);
    change (sK_BASE / 4096) with 524288; change ((sK_CEILING + 4095) / 4096) with 1024000; try (unfold sK_BASE, is_u32, two32; lia).
  rewrite (on_pg_ok _ s _ _ E), run_bind, (updin_ok (set_pg p s) u i _ Hun Hu). set (s1 := set_infos _ (set_pg p s)).
  assert (infos s1 !! u = Some (set_mapping loc (in_pages i) i)) as Hu1 by apply lookup_insert_eq.
  destruct Hcase as [(q & -> & Hq & Hqf & Hfr & Hwf' & _ & Hm)|(-> & -> & Hnone)].
  - left. change (sK_BASE / 4096) with 524288 in Hq. exists q, p. split; [|by split_and!; rewrite ?Hf].
    destruct (Z.eqb_spec (q * 4096) 0) as [|_]; [lia |]. rewrite run_bind, (updin_ok s1 u _ _ Hun Hu1).
    set (s2 := set_infos _ s1). assert (infos s2 !! u = Some (set_mapping (q * 4096) (sh_pages r) i)) as Hu2 by (unfold s2; cbn; by rewrite lookup_insert_eq).
    cbn [mret M_ret negb]. rewrite run_bind, (ldin_ok s2 u _ Hun Hu2), run_bind, (updin_ok s2 u _ _ Hun Hu2). unfold mret. do 2 f_equal. unfold s2, s1. cbn. rewrite !insert_insert_eq.
    by destruct s as [? ? ? ? ? ? ? ? [? ? ? ? ? ? ? ? ? ? [? ? ? ?]] ? ?].
  - right. split; [|exact Hnone]. unfold mret, s1. cbn. by destruct s as [? ? ? ? ? ? ? ? [? ? ? ? ? ? ? ? ? ? [? ? ? ?]] ? ?].
Qed.

(** Who is let in. *)
Definition may_use (pid : Z) (r : shmem) (U : users) : Prop :=
  (exists u i, (u, i) ∈ U /\ in_pid i = pid) \/ Z.land (sh_flags r) SHMEM_PROMISCUOUS = SHMEM_PROMISCUOUS.

Lemma shmem_request_refused s R frame fuel proc pid m id out : shm_ok s R frame -> 0 <= id <= 20000000 -> runs_as s proc pid m ->
  (forall d r U, region_of s R id d r U -> ~ may_use pid r U) -> shmem_request fuel proc id out s = Ok ((-1, out), s).
Proof.
  intros Hs Hid Hpr Hno. apply (with_region_refuses s R frame id _ _ Hs Hid). intros d r U Hof. pose proof Hof as (HU & [Hr _] & _).
  destruct (rg_addr _ _ _ _ _ _ Hr) as [Hd _]. rewrite run_bind, (ldsh_ok (locked s r) d r Hd (rg_obj _ _ _ _ _ _ Hr)).
  rewrite run_bind, (proc_pid_ok (locked s r) proc pid m Hpr), run_bind, (find_user_ok (locked s r) d r U pid Hr).
  assert (user_with pid U = NULL) as ->.
  { apply (user_with_null _ _ _ _ _ _ pid Hr). intros u i Hin Hp. apply (Hno d r U Hof). left. by exists u, i. }
  destruct (Z.eqb_spec (Z.land (sh_flags r) SHMEM_PROMISCUOUS) SHMEM_PROMISCUOUS) as [E|_]; [|done]. destruct (Hno d r U Hof). by right.
Qed.

(** A process that is a user goes on with [use_region]. *)
Lemma request_user s R frame fuel proc m id out d r U u i res j p : shm_ok s R frame -> region_of s R id d r U -> (u, i) ∈ U -> runs_as s proc (in_pid i) m ->
  use_region fuel proc d u out (locked s r) = Ok (res, touched (locked s r) u j p) -> shmem_request fuel proc id out s = Ok (res, touched s u j p).
Proof.
  intros Hs Hof Hin Hpr Hu. pose proof Hof as (HU & [Hr Hlk] & _). destruct (rg_addr _ _ _ _ _ _ Hr) as [Hd _]. unfold shmem_request, touched.
  apply (with_region_runs s R frame id d r U r); try done; [|exact (rg_obj _ _ _ _ _ _ Hr)].
  rewrite run_bind, (ldsh_ok (locked s r) d r Hd (rg_obj _ _ _ _ _ _ Hr)), run_bind, (proc_pid_ok (locked s r) proc _ m Hpr), run_bind, (find_user_ok (locked s r) d r U (in_pid i) Hr).
  rewrite (user_with_in (in_pid i) U u i (rg_pids _ _ _ _ _ _ Hr) Hin eq_refl).
  destruct (Z.eqb_spec u NULL) as [->|Hun]; [|cbn [andb]; rewrite run_bind; cbn [mret M_ret]; destruct (Z.eqb_spec u NULL); done].
  destruct (user_addr _ _ _ _ _ _ NULL Hr); [|done]. apply list_elem_of_fmap. by exists (NULL, i).
Qed.

Lemma shmem_request_maps s R frame fuel proc m id out d r U u i : shm_ok s R frame -> region_of s R id d r U -> (u, i) ∈ U ->
  runs_as s proc (in_pid i) m -> in_pages i < 0 -> mappable fuel s m r ->
  (exists q p, let s' := touched s u (set_usage (s32 (in_usage i + 1)) (set_mapping (q * 4096) (sh_pages r) i)) p in
     shmem_request fuel proc id out s = Ok ((0, (q * 4096, sh_pages r, in_flags i)), s') /\ mapped_at (pg s) p m r (in_flags i) q) \/
  (shmem_request fuel proc id out s = Ok ((-1, out), touched s u (set_mapping 0 (in_pages i) i) (pg s)) /\
     forall k, 524288 <= k -> k * 4096 < sK_CEILING -> ~ free_run (pg s) m k (sh_pages r)).
Proof.
  intros Hs Hof Hin Hpr Hp Hm. pose proof Hof as (_ & [Hr _] & _).
  destruct (use_maps fuel (locked s r) proc (in_pid i) m d r U u i out Hr Hin Hp Hpr Hm) as [(q & p & E & Hat)|[E Hno]].
  - left. exists q, p. split; [|exact Hat]. by apply (request_user s R frame fuel proc m id out d r U u i).
  - right. split; [|exact Hno]. by apply (request_user s R frame fuel proc m id out d r U u i).
Qed.

Lemma shmem_request_counts s R frame fuel proc m id out d r U u i : shm_ok s R frame -> region_of s R id d r U -> (u, i) ∈ U ->
  runs_as s proc (in_pid i) m -> 0 <= in_pages i ->
  shmem_request fuel proc id out s = Ok ((0, (in_location i, in_pages i, in_flags i)), touched s u (set_usage (s32 (in_usage i + 1)) i) (pg s)).
Proof.
  intros Hs Hof Hin Hpr Hp. pose proof Hof as (_ & [Hr _] & _). apply (request_user s R frame fuel proc m id out d r U u i); try done.
  by apply (use_counts fuel (locked s r) proc d r U u i).
Qed.

(** ** Releasing *)

Lemma shmem_release_refused s R frame proc pid m id : shm_ok s R frame -> 0 <= id <= 20000000 -> runs_as s proc pid m ->
  (forall d r U u i, region_of s R id d r U -> (u, i) ∈ U -> in_pid i <> pid) -> shmem_release proc id s = Ok (-1, s).
Proof.
  intros Hs Hid Hpr Hno. apply (with_region_refuses s R frame id _ _ Hs Hid). intros d r U Hof. pose proof Hof as (HU & [Hr _] & _).
  rewrite run_bind, (proc_pid_ok (locked s r) proc pid m Hpr), run_bind, (find_user_ok (locked s r) d r U pid Hr).
  assert (user_with pid U = NULL) as ->; [|done].
  apply (user_with_null _ _ _ _ _ _ pid Hr). intros u i Hin. by apply (Hno d r U u).
Qed.

Lemma release_user s R frame proc m id d r U u i j p : shm_ok s R frame -> region_of s R id d r U -> (u, i) ∈ U -> runs_as s proc (in_pid i) m ->
  (let usage := s32 (in_usage i - 1) in
   if usage =? 0 then exists rc, page_release m (in_location i) (in_pages i) (pg s) = Ok (rc, p) /\ j = set_mapping 0 (-1) (set_usage usage i)
   else j = set_usage usage i /\ p = pg s) -> shmem_release proc id s = Ok (0, touched s u j p).
Proof.
  intros Hs Hof Hin Hpr Hj. pose proof Hof as (HU & [Hr Hlk] & _). unfold shmem_release, touched.
  assert (u <> NULL) as Hun by (apply (user_addr _ _ _ _ _ _ u Hr); apply list_elem_of_fmap; by exists (u, i)).
  pose proof (rg_users _ _ _ _ _ _ Hr _ _ Hin) as Hu.
  apply (with_region_runs s R frame id d r U r); try done; [|exact (rg_obj _ _ _ _ _ _ Hr)].
  rewrite run_bind, (proc_pid_ok (locked s r) proc _ m Hpr), run_bind, (find_user_ok (locked s r) d r U (in_pid i) Hr).
  rewrite (user_with_in (in_pid i) U u i (rg_pids _ _ _ _ _ _ Hr) Hin eq_refl). destruct (Z.eqb_spec u NULL) as [|_]; [done |].
  rewrite run_bind, (ldin_ok (locked s r) u i Hun Hu). cbn zeta in Hj |- *. rewrite run_bind, (updin_ok (locked s r) u i _ Hun Hu), run_bind.
  set (s1 := set_infos _ (locked s r)). assert (infos s1 !! u = Some (set_usage (s32 (in_usage i - 1)) i)) as Hu1 by apply lookup_insert_eq.
  destruct (s32 (in_usage i - 1) =? 0).
  - destruct Hj as (rc & Ep & ->). rewrite run_bind, (map_of_ok s1 proc (in_pid i) m Hpr), run_bind, (on_pg_ok _ s1 _ _ Ep).
    rewrite (updin_ok (set_pg p s1) u _ _ Hun Hu1). unfold mret. cbn. rewrite insert_insert_eq.
    by destruct s as [? ? ? ? ? ? ? ? [? ? ? ? ? ? ? ? ? ? [? ? ? ?]] ? ?].
  - destruct Hj as [-> ->]. unfold mret. cbn. by destruct s as [? ? ? ? ? ? ? ? [? ? ? ? ? ? ? ? ? ? [? ? ? ?]] ? ?].
Qed.

Lemma shmem_release_unmaps s R frame proc m id d r U u i q : shm_ok s R frame -> region_of s R id d r U -> (u, i) ∈ U -> runs_as s proc (in_pid i) m ->
  in_usage i = 1 -> in_location i = q * 4096 -> user_pages q (in_pages i) -> pg_wf (pg s) m ->
  exists p, shmem_release proc id s = Ok (0, touched s u (set_mapping 0 (-1) (set_usage 0 i)) p) /\ released (pg s) p m q (in_pages i).
Proof.
  intros Hs Hof Hin Hpr Hus Hloc Hup Hwf. destruct (page_release_ok (pg s) m q (in_pages i) Hwf Hup) as (p & E & Hrel). exists p. split; [|done].
  apply (release_user s R frame proc m id d r U u i); try done. rewrite Hus. cbn. exists 0. by rewrite Hloc.
Qed.

Lemma shmem_release_counts s R frame proc m id d r U u i : shm_ok s R frame -> region_of s R id d r U -> (u, i) ∈ U -> runs_as s proc (in_pid i) m ->
  1 < in_usage i -> is_s32 (in_usage i) -> shmem_release proc id s = Ok (0, touched s u (set_usage (in_usage i - 1) i) (pg s)).
Proof.
  intros Hs Hof Hin Hpr Hus Hb. apply (release_user s R frame proc m id d r U u i); try done. cbn zeta.
  assert (s32 (in_usage i - 1) = in_usage i - 1) as -> by (apply s32_small; unfold is_s32 in *; lia). by destruct (Z.eqb_spec (in_usage i - 1) 0); [lia |].
Qed.
End uses.
