(* ===== verification/ShmemMake.v ===== *)
(** How shared memory regions come to be: the number that no other region has, and
    [shmem_create_direct] on a table of regions. *)
From S2P Require Import Prelude Mm Cpu Strings Lists PhysMem Paging HTable RwLock Env Processes Shmem ShmemRep ShmemUse.

Section make.
Context {A : Type} `{MmLaws A}.
Implicit Types s : shstate A.

(** The search moves past the numbers of the regions; [L] holds those that may
    still be in the way. *)
Lemma fresh_id_ok fuel s (L : list Z) : numbered s -> 0 <= shmem_id s ->
  (forall e r, e ∈ entries (stab s) -> shs s !! e = Some r -> shmem_id s <= sh_id r -> e ∈ L) ->
  shmem_id s + Z.of_nat (length L) <= 20000000 -> (length L < fuel)%nat ->
  exists n, fresh_id fuel s = Ok (n, set_id (n + 1) s) /\ shmem_id s <= n <= 20000000 /\
    forall e r, e ∈ entries (stab s) -> shs s !! e = Some r -> sh_id r <> n.
Proof.
  revert s L. induction fuel as [|fuel IH]; intros s L Hn Hz HL Hb Hf; [lia |]. cbn [fresh_id].
  assert (forall k : M (shstate A) Z, (modifyS (set_id (s32 (shmem_id s + 1))) ;; modifyS (fun s => if shmem_id s <? 0 then set_id 0 s else s) ;; k) s = k (set_id (shmem_id s + 1) s)) as Hstep.
  { intros k. mrun. rewrite s32_small by (unfold is_s32; lia). unfold modifyS. cbn [set_id shmem_id].
    by destruct (Z.ltb_spec (shmem_id s + 1) 0); [lia |]. }
  rewrite run_bind. unfold getS at 1. cbn zeta. rewrite Hstep, run_bind. set (s1 := set_id (shmem_id s + 1) s).
  destruct (retrieve_at s1 (shmem_id s)) as (d & -> & [(Hd & Hin & r & Hr & Hi)|[-> Hno]]); [exact Hn | lia | |].
  - destruct (Z.eqb_spec d NULL) as [|_]; [done |]. cbn [negb]. assert (d ∈ L) as HdL by (apply (HL d r); [done | done | lia]).
    pose proof (length_filter_lt (fun e => e <> d) L d HdL ltac:(by intros Hc)) as Hlt.
    destruct (IH s1 (filter (fun e => e <> d) L)) as (n & E & Hrange & Hfresh); [exact Hn | cbn; lia | | cbn; lia | lia |].
    + intros e x He Hx Hge. cbn in Hge, Hx, He. apply list_elem_of_filter. split; [|apply (HL e x); [done | done | lia]].
      intros ->. change (shs s !! d = Some r) in Hr. replace x with r in Hge by congruence. lia.
    + exists n. rewrite E. split; [by destruct s |]. split; [cbn in Hrange; lia | done].
  - exists (shmem_id s). split; [done |]. split; [lia |]. exact Hno.
Qed.

(** A block is never at the address that stands for the automatic object. *)
Definition never_temp : Prop := forall n (a : A), (kmalloc n a).1 <> temp_shmem.

(** The new region, and the state with it. *)
Definition region_named (name : list Z) pid pages flags location internal (l id : Z) : shmem :=
  Shmem id (take 64 (cstr name ++ replicate 64 0)) l pid (Z.land flags SHMEM_MASK) internal location pages NULL.

Definition created s sh r t l (a : A) id : shstate A :=
  ShState (shmem_table s) t id (shmem_lock s) (<[sh := r]> (shs s)) (infos s) (ilist s) (iflag s)
    (set_mem a (set_locks (<[l := RwLock 0 0 0 0]> (locks (ppt s))) (ppt s))) (pmap s) (pg s).

Lemma lock_free_more (p : ptable A) k l a : lock_free p k -> lock_free (set_mem a (set_locks (<[l := RwLock 0 0 0 0]> (locks p)) p)) k.
Proof.
  intros [Hn Hk]. split; [done |]. cbn. destruct (decide (l = k)) as [->|]; [by rewrite lookup_insert_eq | by rewrite lookup_insert_ne].
Qed.

Lemma name_copied name : terminated name -> kstrncpy (replicate 64 0) name SHMEM_NAME = Ok (take 64 (cstr name ++ replicate 64 0)).
Proof.
  intros Ht. unfold kstrncpy. change (u32 SHMEM_NAME) with 64. pose proof (strncpy_loop_spec 64 0 (replicate 64 0) name) as E.
  change (Z.of_nat 0) with 0 in E. change (Z.to_nat 64) with 64%nat. rewrite E; [| simpl; lia | left; by rewrite drop_0].
  rewrite take_0, app_nil_l, drop_0, (drop_ge (replicate 64 0)) by (rewrite length_replicate; lia). by rewrite app_nil_r.
Qed.

(** The blocks of a new region: of the object and of its lock. *)
Record new_blocks s (frame : gset Z) (sh l : Z) : Prop := {
  nb_obj : sh <> NULL /\ sh <> temp_shmem /\ sh ∉ frame;
  nb_lock : l <> NULL /\ l ∉ frame /\ l <> sh
}.

(** The table with the new region. *)
Lemma created_ok s R frame sh l a r t id : shm_ok s R frame -> new_blocks s frame sh l ->
  ht_wf t -> ht_owns t a ({[l]} ∪ ({[sh]} ∪ frame)) -> entries t ≡ₚ sh :: entries (stab s) ->
  0 <= sh_id r <= 20000000 -> sh_list r = NULL -> sh_lock r = l ->
  (forall e x, e ∈ entries (stab s) -> shs s !! e = Some x -> sh_id x <> sh_id r) ->
  shm_ok (created s sh r t l a id) (<[sh := []]> R) ({[l]} ∪ ({[sh]} ∪ frame)).
Proof.
  intros Hs [(Hn & Htmp & Hsf) (Hln & Hlf & Hls)] Hwf Hown Hperm Hid Hlist Hlock Hfresh.
  pose proof Hs as [S1 S2 S3 S4 S5 S6 S7 S8 S9 [S10 S12]]. pose proof (fun e => so_regions_live s R frame e Hs) as S11.
  assert (R !! sh = None) as HRn. { destruct (R !! sh) eqn:E; [|done]. destruct Hsf. apply S11. by rewrite E. }
  assert (forall e V, <[sh := []]> R !! e = Some V -> (e = sh /\ V = []) \/ (e <> sh /\ R !! e = Some V)) as Hcase.
  { intros e V He. apply lookup_insert_Some in He as [[<- <-]|[Hne He]]; [by left | right; by split]. }
  assert (forall e V x, <[sh := []]> R !! e = Some V -> (<[sh := r]> (shs s)) !! e = Some x ->
    (e = sh /\ V = [] /\ x = r) \/ (e <> sh /\ R !! e = Some V /\ shs s !! e = Some x)) as Hcase2.
  { intros e V x [[-> ->]|[Ne He]]%Hcase Hx; [left; by rewrite lookup_insert_eq in Hx; injection Hx as <- | right; by rewrite lookup_insert_ne in Hx by congruence]. }
  assert (forall x, x ∈ blocks sh r [] -> x ∉ frame) as Hnew.
  { unfold blocks. rewrite Hlock. by intros x [->|[->|?%not_elem_of_nil]%elem_of_cons]%elem_of_cons. }
  assert (forall e, is_Some (R !! e) -> e <> sh) as Hne by (intros e [V He] ->; congruence).
  split; try done.
  - intros e. cbn. rewrite Hperm, elem_of_cons, S2, lookup_insert_is_Some'. split; intros [Hx|Hx]; auto.
  - cbn. rewrite Hperm. apply NoDup_cons. split; [|done]. intros Hin. apply S2 in Hin. by apply Hne in Hin.
  - intros e V [[-> ->]|[He HV]]%Hcase.
    + exists r. split; [split; try done |].
      * cbn. by rewrite lookup_insert_eq.
      * split; [done | split; [constructor | apply not_elem_of_nil]].
      * intros u i Hin. by apply not_elem_of_nil in Hin.
      * constructor.
      * rewrite Hlock. split; [split; [done | cbn; apply lookup_insert_eq] |]. intros E. apply Hlf. by rewrite E.
    + destruct (S4 e V HV) as (x & [X1 X2 X3 X4 X5 X6 X7] & X8 & X9). exists x. split; [split; try done; cbn; by rewrite lookup_insert_ne |].
      split; [by apply lock_free_more | done].
  - intros e e' x x' He He' Hx Hx' Ei. cbn in Hx, Hx'. apply lookup_insert_is_Some' in He, He'.
    apply lookup_insert_Some in Hx as [[<- <-]|[Ne Hx]], Hx' as [[<- <-]|[Ne' Hx']]; [done | | | ].
    + destruct He' as [?|He']; [done |]. destruct (Hfresh e' x'); [by apply S2 | done | done].
    + destruct He as [?|He]; [done |]. destruct (Hfresh e x); [by apply S2 | done | done].
    + destruct He, He'; try done. by apply (S5 e e' x x').
  - intros e e' x x' V V' v He He' Hx Hx' Hv Hv'.
    destruct (Hcase2 e V x He Hx) as [(-> & -> & ->)|(Ne & He2 & Hx2)], (Hcase2 e' V' x' He' Hx') as [(-> & -> & ->)|(Ne' & He2' & Hx2')]; [done | | | by apply (S6 e e' x x' V V' v)].
    + destruct (Hnew v Hv). by apply (S9 e' x' V').
    + destruct (Hnew v Hv'). by apply (S9 e x V).
  - by apply lock_free_more.
  - intros e x V He Hx. destruct (Hcase2 e V x He Hx) as [(-> & -> & ->)|(Ne & He2 & Hx2)].
    + unfold blocks. rewrite Hlock. split; [|intros y [->|[->|Hy%not_elem_of_nil]%elem_of_cons]%elem_of_cons; [set_solver | set_solver | done]].
      apply NoDup_cons. split; [intros [?|?%not_elem_of_nil]%elem_of_cons; done | apply NoDup_singleton].
    + destruct (S9 e x V He2 Hx2) as [Hnd Hi]. split; [done |]. intros y Hy. specialize (Hi y Hy). set_solver.
  - split; [set_solver |]. intros e [->|He]%lookup_insert_is_Some'; [intros E; apply Hsf; by rewrite E | by apply S12].
Qed.

(** The lock and the object of a new region come from the allocator. *)
Lemma new_blocks_ok s R frame sh a1 l a2 : never_temp -> shm_ok s R frame -> kmalloc 96 (mem s) = (sh, a1) -> kmalloc 16 a1 = (l, a2) ->
  sh <> NULL -> l <> NULL -> new_blocks s frame sh l /\ ht_owns (stab s) a2 ({[l]} ∪ ({[sh]} ∪ frame)).
Proof.
  intros Hnt Hs E1 E2 Hsh Hl. destruct (so_mem _ _ _ Hs) as (Ho1 & Ho2 & Ho3). pose proof (Hnt 96 (mem s)) as Ht. rewrite E1 in Ht. cbn in Ht.
  destruct (kmalloc_cases _ _ _ _ E1) as [[? _]|(_ & Hn1 & Hl1)]; [done |]. destruct (kmalloc_cases _ _ _ _ E2) as [[? _]|(_ & Hn2 & Hl2)]; [done |].
  rewrite Ho3 in Hn1, Hl1. rewrite Hl1 in Hn2, Hl2. split; [split |].
  - split_and!; [done | done | set_solver].
  - split_and!; [done | set_solver | set_solver].
  - split_and!; [done | set_solver | rewrite Hl2; set_solver].
Qed.

(** The state in which the number is looked for: the object is there, without a
    number, and the table is locked. *)
Definition filling s sh r l (a : A) : shstate A :=
  set_ppt (with_lock (set_locks (<[l := RwLock 0 0 0 0]> (locks (ppt s))) (set_mem a (ppt s))) (shmem_lock s) (RwLock 0 1 0 0)) (set_shs (<[sh := r]> (shs s)) s).

(** From there on: a number, the table, and the lock given back. *)
Lemma create_registers s R frame sh l a r : shm_ok s R frame -> new_blocks s frame sh l -> ht_owns (stab s) a ({[l]} ∪ ({[sh]} ∪ frame)) -> sh_list r = NULL -> sh_lock r = l ->
  0 <= shmem_id s -> shmem_id s + size (stab s) <= 20000000 -> total (stab s) < size (stab s) < 500000 ->
  exists id t a' frame', let s' := created s sh (set_sid id r) t l a' (id + 1) in
  (id ← fresh_id (2 + length (slots (stab s)));
   updsh sh (set_sid id) ;;
   s ← getS;
   '(_, t, a) ← liftO (htable_insert 2 (shmem_on (shs s) (stab s)) sh (mem s));
   modifyS (set_smem a) ;;
   modifyS (fun s => set_stab (shmem_table s) t s) ;;
   on_ppt (release (shmem_lock s)) ;;
   mret id) (filling s sh r l a) = Ok (id, s') /\
  0 <= id /\ (forall d x, is_Some (R !! d) -> shs s !! d = Some x -> sh_id x <> id) /\ R !! sh = None /\
  shm_ok s' (<[sh := []]> R) frame' /\ frame' = {[l]} ∪ ({[sh]} ∪ frame).
Proof.
  intros Hs Hnb Hown Hlist Hlock Hz Hb Hsz. pose proof Hnb as [(Hn & Htmp & Hsf) (Hln & Hlf & Hls)]. pose proof (so_table _ _ _ Hs) as [S10 _]. pose proof (fun e => so_regions_live s R frame e Hs) as S11.
  assert (forall d, d ∈ entries (stab s) -> d <> sh) as Hne by (intros d Hd ->; apply Hsf, S11; by apply (so_entries _ _ _ Hs)).
  set (s1 := filling s sh r l a). pose proof (shm_numbered _ _ _ Hs) as [Hwf Hnum]. pose proof Hwf as (Hw1 & Hw2 & Hw3 & Hw4).
  assert (numbered s1) as Hn1.
  { split; [exact Hwf |]. intros d Hd. destruct (Hnum d Hd) as (? & x & Hx & ?). split; [done |]. exists x. split; [|done]. cbn. rewrite lookup_insert_ne; [done |].
    by apply not_eq_sym, Hne. }
  pose proof (length_filter (fun d => d <> NULL) (slots (stab s))) as Hlen. change (length (entries (stab s)) <= length (slots (stab s)))%nat in Hlen.
  destruct (fresh_id_ok (2 + length (slots (stab s))) s1 (entries (stab s)) Hn1 Hz) as (id & Ei & Hid & Hfresh); [by intros | cbn; lia | cbn; lia |].
  set (s2 := set_shs (<[sh := set_sid id r]> (shs (set_id (id + 1) s1))) (set_id (id + 1) s1)).
  assert (shs s2 = <[sh := set_sid id r]> (shs s)) as Es2 by (cbn; by rewrite insert_insert_eq).
  assert (forall e x, e ∈ entries (stab s) -> shs s !! e = Some x -> sh_id x <> id) as Hfr.
  { intros e x He Hx. apply (Hfresh e x He). cbn. rewrite lookup_insert_ne; [done | by apply not_eq_sym, Hne]. }
  assert (forall d, d = sh \/ d ∈ entries (stab s) -> key_ok (key (shmem_on (shs s2) (stab s))) d) as Hkeys.
  { intros d [->|Hd]; cbn [key shmem_on].
    - apply (shmem_key_ok _ _ (set_sid id r)); [rewrite Es2; apply lookup_insert_eq | cbn in Hid |- *; lia].
    - destruct (Hnum d Hd) as (_ & x & Hx & Hix). apply (shmem_key_ok _ _ x); [|done]. rewrite Es2, lookup_insert_ne; [done | by apply not_eq_sym, Hne]. }
  destruct (htable_insert_spec 0 (shmem_on (shs s2) (stab s)) sh a ({[l]} ∪ ({[sh]} ∪ frame))) as (rc & t & a' & Et & Hwf' & Hsame & Hown' & Hcase);
    [exact Hwf | cbn; lia | done | apply Hkeys; by left | intros d Hd; apply Hkeys; by right | exact Hown |].
  destruct Hcase as [(_ & _ & Hfull)|[_ Hperm]]; [cbn in Hfull; lia |].
  exists id, t, a', ({[l]} ∪ ({[sh]} ∪ frame)). cbn zeta. split.
  - rewrite run_bind, Ei, run_bind, (updsh_ok (set_id (id + 1) s1) sh r _ Hn) by apply lookup_insert_eq. fold s2. mrun. fold s2.
    change (stab s2) with (stab s). change (mem s2) with a. rewrite Et. mrun.
    erewrite on_ppt_ok; [| apply (release_ok _ _ (RwLock 0 1 0 0)); [apply (so_lock _ _ _ Hs) | apply lookup_insert_eq | by left]].
    change (shs s2) with (shs s2). unfold created. rewrite <- Es2. cbn iota. cbn [mret M_ret].
    destruct (so_lock _ _ _ Hs) as [_ Hlk]. destruct s as [? ? ? ? ? ? ? ? [? ? ? ? ? ? ? ? ? lk [? ? ? ?]] ? ?]. cbn in *.
    assert (<[shmem_lock := RwLock 0 0 0 0]> (<[shmem_lock := RwLock 0 1 0 0]> (<[l := RwLock 0 0 0 0]> lk)) = <[l := RwLock 0 0 0 0]> lk) as E.
    { rewrite insert_insert_eq. apply insert_id. rewrite lookup_insert_ne; [done |]. by intros ->. }
    unfold with_lock, set_ppt, set_locks, set_mem, set_penv. cbn. by rewrite E.
  - split; [cbn in Hid; lia |]. split; [intros d x Hd; apply Hfr; by apply (so_entries _ _ _ Hs) |].
    split; [destruct (R !! sh) eqn:E; [|done]; destruct Hsf; apply S11; by rewrite E |]. split; [|done].
    apply created_ok; try done; cbn in Hid |- *; lia.
Qed.

(** What [shmem_create_direct] refuses at once. *)
Lemma shmem_create_direct_refuses s name pid pages flags location internal : terminated name -> Z.of_nat (length name) < two32 ->
  pages <= 0 \/ cstr name = [] -> shmem_create_direct name pid pages flags location internal s = Ok (-1, s).
Proof.
  intros Ht Hlen Hno. unfold shmem_create_direct. destruct (Z.leb_spec pages 0) as [|Hp]; [done |]. destruct Hno as [?|Hn]; [lia |].
  mrun. rewrite kstrlen_spec by done. rewrite Hn. done.
Qed.

Lemma shmem_create_direct_ok s R frame name pid pages flags location internal : never_temp -> shm_ok s R frame ->
  terminated name -> Z.of_nat (length name) < two32 -> 0 < pages -> cstr name <> [] ->
  0 <= shmem_id s -> shmem_id s + size (stab s) <= 20000000 -> total (stab s) < size (stab s) < 500000 ->
  (exists a, shmem_create_direct name pid pages flags location internal s = Ok (-1, set_smem a s) /\ mm_live a = mm_live (mem s)) \/
  shmem_create_direct name pid pages flags location internal s = Halt NullDeref \/
  (exists sh l id t a', let r := region_named name pid pages flags location internal l id in let s' := created s sh r t l a' (id + 1) in
   shmem_create_direct name pid pages flags location internal s = Ok (id, s') /\ 0 <= id /\
   R !! sh = None /\ (forall d x, is_Some (R !! d) -> shs s !! d = Some x -> sh_id x <> id) /\
   shm_ok s' (<[sh := []]> R) ({[l]} ∪ ({[sh]} ∪ frame))).
Proof.
  intros Hnt Hs Ht Hlen Hp Hname Hz Hb Hsz. unfold shmem_create_direct. destruct (Z.leb_spec pages 0) as [|_]; [lia |].
  mrun. rewrite kstrlen_spec by done. mrun. destruct (Z.leb_spec (Z.of_nat (length (cstr name))) 0) as [Hle|_].
  { destruct (cstr name); [done | simpl in Hle; lia]. }
  unfold malloc. mrun. destruct (kmalloc 96 (mem s)) as [sh a1] eqn:E1. mrun. destruct (kmalloc_cases _ _ _ _ E1) as [[-> Hl1]|(Hsh & _ & _)].
  { left. exists a1. by split. }
  destruct (Z.eqb_spec sh NULL) as [|_]; [done |]. mrun. change (mem (set_smem a1 s)) with a1. unfold init_rwlock. destruct (kmalloc 16 a1) as [l a2] eqn:E2.
  destruct (Z.eqb_spec l NULL) as [->|Hl]; [right; by left |]. right; right. mrun. rewrite name_copied by done. mrun.
  destruct (new_blocks_ok s R frame sh a1 l a2 Hnt Hs E1 E2 Hsh Hl) as [Hnb Hown].
  destruct (create_registers s R frame sh l a2 (Shmem 0 (take 64 (cstr name ++ replicate 64 0)) l pid (Z.land flags SHMEM_MASK) internal location pages NULL) Hs Hnb Hown)
    as (id & t & a' & frame' & E & Hid & Hfr & HR & Hok & ->); try done.
  exists sh, l, id, t, a'. cbn zeta. split; [|by split_and!].
  match goal with |- match on_ppt _ ?s2 with _ => _ end = _ => set (S2 := s2) end.
  assert (lock_free (ppt S2) (shmem_lock S2)) as Hfree by exact (lock_free_more (ppt s) (shmem_lock s) l a2 (so_lock _ _ _ Hs)).
  rewrite (on_ppt_ok (get_write (shmem_lock S2)) S2 tt _ (get_write_ok _ _ Hfree)). exact E.
Qed.
End make.
