(* ===== verification/ShmemDelete.v ===== *)
(** How shared memory regions go: [shmem_delete] on a table of regions, for a
    region without users and for one with. *)
From S2P Require Import Prelude Mm Cpu Strings Lists PhysMem Paging HTable RwLock Env Processes Shmem ShmemRep ShmemUse.

Section delete.
Context {A : Type} `{MmLaws A}.
Implicit Types s : shstate A.

(** The table of regions locked for writing. *)
Definition wlocked s : shstate A := set_ppt (with_lock (ppt s) (shmem_lock s) (RwLock 0 1 0 0)) s.

Lemma retrieve_wlocked s p : retrieve p (wlocked s) = match retrieve p s with Ok (d, _) => Ok (d, wlocked s) | Halt f => Halt f end.
Proof. unfold retrieve. mrun. by destruct (htable_retrieve _ _). Qed.

Lemma unlock_wlocked s : lock_free (ppt s) (shmem_lock s) -> on_ppt (release (shmem_lock s)) (wlocked s) = Ok (tt, s).
Proof.
  intros Hl. erewrite on_ppt_ok; [| apply (release_ok _ _ (RwLock 0 1 0 0)); [apply Hl | apply lookup_insert_eq | by left]].
  cbn [set_ppt ppt wlocked]. rewrite with_lock_restore by done. by destruct s.
Qed.

Lemma shmem_delete_refused s R frame owner id : shm_ok s R frame -> 0 <= id <= 20000000 ->
  (forall d r U, region_of s R id d r U -> owner <> sh_pid r) -> shmem_delete owner id s = Ok (-1, s).
Proof.
  intros Hs Hid Hno. pose proof (so_lock _ _ _ Hs) as Hl. unfold shmem_delete. rewrite run_bind. unfold getS at 1. rewrite run_bind.
  rewrite (on_ppt_ok _ s tt _ (get_write_ok _ _ Hl)). fold (wlocked s). rewrite run_bind, retrieve_wlocked.
  destruct (retrieve_ok s R frame id Hs Hid) as [(d & r & U & -> & Hd & HU & Hr & Hi)|[-> _]].
  - destruct (Z.eqb_spec d NULL) as [|_]; [done |]. rewrite run_bind, (ldsh_ok (wlocked s) d r Hd (rg_obj _ _ _ _ _ _ (proj1 Hr))).
    destruct (Z.eqb_spec owner (sh_pid r)) as [Ho|_]; [by destruct (Hno d r U) |]. cbn [negb]. by rewrite run_bind, unlock_wlocked.
  - change (NULL =? NULL) with true. cbn iota. by rewrite run_bind, unlock_wlocked.
Qed.

(** The state with the region out of the hash table. *)
Definition untabled s t (a : A) : shstate A := set_stab (shmem_table s) t (set_smem a s).

Lemma shmem_delete_unlinks s R frame id d r U : shm_ok s R frame -> region_of s R id d r U -> exists t a,
  shmem_delete (sh_pid r) id s = destroy_region d r (untabled s t a) /\
  ht_wf t /\ ht_owns t a frame /\ entries (stab s) ≡ₚ d :: entries t.
Proof.
  intros Hs Hof. pose proof Hof as (HU & Hr & Hi). pose proof (so_lock _ _ _ Hs) as Hl. pose proof (shm_numbered _ _ _ Hs) as [Hwf Hnum].
  pose proof (rg_id _ _ _ _ _ _ (proj1 Hr)) as Hid. rewrite Hi in Hid.
  assert (d ∈ entries (stab s)) as Hd by (apply (so_entries _ _ _ Hs); by eexists).
  assert (forall e, e ∈ entries (stab s) -> key_ok (key (shmem_on (shs s) (stab s))) e) as Hkeys.
  { intros e He. destruct (Hnum e He) as (_ & x & Hx & Hxi). by apply (shmem_key_ok _ _ x). }
  assert (d <> NULL) as Hdn by apply (rg_addr _ _ _ _ _ _ (proj1 Hr)).
  destruct (htable_remove_spec 1 (shmem_on (shs s) (stab s)) d (mem s) frame Hwf Hdn (Hkeys d Hd) Hkeys (so_mem _ _ _ Hs))
    as (rc & t & a & Et & Hwf' & _ & Hown & [(_ & _ & He)|[(-> & _ & Hperm)|(_ & Hno & _)]]); [| |done].
  { change (entries (stab s) = []) in He. rewrite He in Hd. by apply not_elem_of_nil in Hd. }
  exists t, a. split; [|by split_and!]. unfold shmem_delete. rewrite run_bind. unfold getS at 1. rewrite run_bind.
  rewrite (on_ppt_ok _ s tt _ (get_write_ok _ _ Hl)). fold (wlocked s). rewrite run_bind, retrieve_wlocked.
  destruct (retrieve_ok s R frame id Hs Hid) as [(d' & r' & U' & -> & Hd' & HU' & Hr' & Hi')|[_ Hno]]; [|by destruct (Hno d r U)].
  destruct (region_of_unique s R frame id d r U d' r' U' Hs Hof (conj HU' (conj Hr' Hi'))) as (-> & -> & ->).
  destruct (Z.eqb_spec d NULL) as [|_]; [done |]. rewrite run_bind, (ldsh_ok (wlocked s) d r Hdn (rg_obj _ _ _ _ _ _ (proj1 Hr))), Z.eqb_refl. cbn [negb].
  mrun. change (shs (wlocked s)) with (shs s). change (stab (wlocked s)) with (stab s). change (mem (wlocked s)) with (mem s). rewrite Et. mrun.
  set (s1 := set_stab _ t _). change (massert (0 =? 0) s1) with (Ok (tt, s1)). cbn iota. rewrite run_bind.
  assert (on_ppt (release (shmem_lock s)) s1 = Ok (tt, untabled s t a)) as E; [|change (shmem_lock (wlocked s)) with (shmem_lock s); by rewrite E].
  destruct Hl as [Hln Hlk]. rewrite (on_ppt_ok _ s1 tt _ (release_ok (ppt s1) (shmem_lock s) (RwLock 0 1 0 0) Hln (lookup_insert_eq _ _ _) (or_introl eq_refl))).
  do 2 f_equal. destruct s as [? ? ? ? ? ? ? ? [? ? ? ? ? ? ? ? ? lk [? ? ? ?]] ? ?]. cbn in *. unfold with_lock, set_ppt, set_locks, set_mem, set_penv, untabled, set_stab, set_smem. cbn.
  by rewrite insert_insert_eq, insert_id.
Qed.

(** The state without the region, its lock and, when it was made with them, its
    pages. *)
Definition deleted s d r t (a : A) p : shstate A :=
  ShState (shmem_table s) t (shmem_id s) (shmem_lock s) (base.delete d (shs s)) (infos s) (ilist s) (iflag s)
    (set_locks (base.delete (sh_lock r) (locks (ppt s))) (set_mem a (ppt s))) (pmap s) p.

Lemma deleted_ok s R frame d r t a p : shm_ok s R frame -> R !! d = Some [] -> shs s !! d = Some r -> sh_lock r <> shmem_lock s ->
  ht_wf t -> ht_owns t a (frame ∖ {[sh_lock r]} ∖ {[d]}) -> entries (stab s) ≡ₚ d :: entries t ->
  shm_ok (deleted s d r t a p) (base.delete d R) (frame ∖ {[sh_lock r]} ∖ {[d]}).
Proof.
  intros Hs HU Hobj Hlk Hwf Hown Hperm. pose proof Hs as [S1 S2 S3 S4 S5 S6 S7 S8 S9 [S10 S11]].
  assert (NoDup (d :: entries t)) as [Hd Hnd]%NoDup_cons by by rewrite <- Hperm.
  assert (forall e V, base.delete d R !! e = Some V -> e <> d /\ R !! e = Some V) as Hcase.
  { intros e V He. apply lookup_delete_Some in He as [Hne He]. split; [congruence | done]. }
  assert (forall e x, e <> d -> base.delete d (shs s) !! e = Some x -> shs s !! e = Some x) as Hsh by (intros e x Hne; by rewrite lookup_delete_ne by congruence).
  assert (forall e V x y, e <> d -> R !! e = Some V -> shs s !! e = Some x -> y ∈ blocks e x V -> y <> sh_lock r /\ y <> d) as Hout.
  { intros e V x y Hne He Hx Hy. split; intros ->; apply Hne; apply (S6 e d x r V [] _ He HU Hx Hobj Hy); [apply elem_of_cons; right|]; by apply elem_of_cons; left. }
  assert (forall k, lock_free (ppt s) k -> k <> sh_lock r -> lock_free (ppt (deleted s d r t a p)) k) as Hlf.
  { intros k [Hn Hk] Hne. split; [done |]. cbn. by rewrite lookup_delete_ne by congruence. }
  split.
  - done.
  - intros e. rewrite lookup_delete_is_Some. cbn [deleted stab]. rewrite <- S2, Hperm, elem_of_cons. split; [intros He; split; [by intros <- | by right] | intros [Hne [?|?]]; congruence].
  - done.
  - intros e V [Hne He]%Hcase. destruct (so_object _ _ _ _ _ Hs He) as (x & [[X1 X2 X3 X4 X5 X6 X7] [X8 X9]] & _). exists x.
    split; [split; try done; cbn; by rewrite lookup_delete_ne by congruence |]. split; [|done]. apply Hlf; [done |].
    apply (Hout e V x); try done. by apply elem_of_cons; right; apply elem_of_cons; left.
  - intros e e' x x' [V [Ne He]%Hcase] [V' [Ne' He']%Hcase] Hx Hx'. apply (S5 e e' x x'); (by eexists) || by apply Hsh.
  - intros e e' x x' V V' v [Ne He]%Hcase [Ne' He']%Hcase Hx Hx'. apply (S6 e e' x x' V V'); try done; by apply Hsh.
  - apply Hlf; [done | by intros E; apply Hlk].
  - done.
  - intros e x V [Ne He]%Hcase Hx. apply Hsh in Hx; [|done]. destruct (S9 e x V He Hx) as [Hn Hi]. split; [done |]. intros y Hy.
    destruct (Hout e V x y Ne He Hx Hy). specialize (Hi y Hy). set_solver.
  - split; [|intros e [V [Ne He]%Hcase]; apply S11; by eexists]. assert (d <> shmem_lock s) by (apply S11; by eexists). cbn. set_solver.
Qed.

Lemma two_blocks_less (t l d : Z) (F : gset Z) : t ∉ F -> l ∈ F -> d ∈ F -> ({[t]} ∪ F) ∖ {[l]} ∖ {[d]} = {[t]} ∪ F ∖ {[l]} ∖ {[d]}.
Proof.
  intros Ht Hl Hd. assert (t <> l /\ t <> d) as [Hl' Hd'] by (split; by intros ->). apply set_eq. intros x.
  rewrite !elem_of_difference, !elem_of_union, !elem_of_difference, !elem_of_singleton. clear -Hl' Hd'. split; [tauto |].
  intros [->|?]; tauto.
Qed.

(** A region without users. *)
Lemma destroy_unused s t a frame d r m' : sh_list r = NULL -> ht_owns t a frame -> d ∈ frame -> sh_lock r ∈ frame -> sh_lock r <> d ->
  (if sh_internal r =? 0 then m' = phys (pg s) else memory_free (u32 (sh_pages r)) (sh_location r) (phys (pg s)) = Ok m') ->
  exists a', destroy_region d r (untabled s t a) = Ok (0, deleted s d r t a' (set_phys m' (pg s))) /\ ht_owns t a' (frame ∖ {[sh_lock r]} ∖ {[d]}).
Proof.
  intros Hl (Ho1 & Ho2 & Ho3) Hd Hk Hne Hm. unfold destroy_region. rewrite Hl. mrun. cbn [lock_users]. change (NULL =? NULL) with true. mrun.
  change (0 <? 0) with false. mrun. cbn [drop_users]. change (NULL =? NULL) with true. mrun.
  assert ((if negb (sh_internal r =? 0) then pages_free (u32 (sh_pages r)) (sh_location r) else mret tt) (untabled s t a) = Ok (tt, untabled (set_pg (set_phys m' (pg s)) s) t a)) as ->.
  { destruct (sh_internal r =? 0); cbn [negb].
    - subst m'. unfold mret. cbn. destruct s as [? ? ? ? ? ? ? ? ? ? []]. done.
    - unfold pages_free. erewrite on_pg_ok; [|mrun; change (phys (pg (untabled s t a))) with (phys (pg s)); by rewrite Hm]. done. }
  set (s1 := set_pg (set_phys m' (pg s)) s).
  destruct (kfree_live (sh_lock r) a) as (a1 & E1 & L1); [rewrite Ho3; set_solver |].
  destruct (kfree_live d a1) as (a2 & E2 & L2); [rewrite L1, Ho3; set_solver |].
  assert (forall q (b b' : A) s0, mem s0 = b -> kfree q b = Ok b' -> free q s0 = Ok (tt, set_smem b' s0)) as Hfree.
  { intros q b b' s0 Hb E. unfold free. mrun. by rewrite Hb, E. }
  rewrite run_bind, (Hfree (sh_lock r) a a1 (untabled s1 t a) eq_refl E1). mrun.
  match goal with |- context [free d ?x] => rewrite (Hfree d a1 a2 x eq_refl E2) end. mrun. exists a2. split.
  - do 2 f_equal.
  - split_and!; [done | by intros [[? _]%elem_of_difference _]%elem_of_difference | rewrite L2, L1, Ho3]. by apply two_blocks_less.
Qed.

(** Users that do not use the region are passed over. *)
Lemma lock_users_idle fuel s U0 U pages n : dlist (ilist s) (U0 ++ U).*1 -> (forall u i, (u, i) ∈ U -> infos s !! u = Some i /\ in_usage i <= 0) ->
  (length U < fuel)%nat -> lock_users fuel (first_of U.*1) pages n s = Ok (n, s).
Proof.
  revert U0 U. induction fuel as [|fuel IH]; intros U0 U Hd Hi Hf; [lia |]. cbn [lock_users]. destruct U as [|[u i] U]; [done |].
  rewrite fmap_app, fmap_cons in Hd. cbn [fst] in Hd. destruct (dlist_lookup _ _ _ _ Hd) as [_ Hu]. rewrite fmap_cons. cbn [first_of fst].
  destruct (Z.eqb_spec u NULL) as [|_]; [done |]. destruct (Hi u i) as [Hui Hn]; [by apply elem_of_cons; left |].
  rewrite run_bind, (ldin_ok s u i Hu Hui). destruct (Z.ltb_spec 0 (in_usage i)) as [|_]; [lia |]. mrun.
  unfold next_info. mrun. rewrite (NEXT_LINEAR_ok _ _ _ _ Hd). mrun. apply (IH (U0 ++ [(u, i)])).
  - by rewrite !fmap_app, <- app_assoc.
  - intros v j Hin. apply Hi. by apply elem_of_cons; right.
  - simpl in Hf. lia.
Qed.

(** A region with users: the successor of the first is read from its block after
    the block was given back. *)
Lemma destroy_used s t a frame d r u i U : region_at (shs s) (infos s) (ilist s) d r ((u, i) :: U) -> ht_owns t a frame -> u ∈ frame ->
  (forall v j, (v, j) ∈ (u, i) :: U -> in_usage j <= 0) -> in_tmp i = NULL -> destroy_region d r (untabled s t a) = Halt BadAccess.
Proof.
  intros Hr (Ho1 & Ho2 & Ho3) Hu Hidle Ht. pose proof (rg_dlist _ _ _ _ _ _ Hr) as Hd. pose proof (dlist_size _ _ Hd) as Hsz. rewrite length_fmap in Hsz.
  assert (u <> NULL) as Hun by (apply (user_addr _ _ _ _ _ _ u Hr); by apply elem_of_cons; left).
  assert (infos s !! u = Some i) as Hui by (apply (rg_users _ _ _ _ _ _ Hr); by apply elem_of_cons; left).
  unfold destroy_region. rewrite (rg_list _ _ _ _ _ _ Hr). rewrite run_bind. unfold getS at 1. cbn zeta. rewrite run_bind.
  change (ilist (untabled s t a)) with (ilist s).
  rewrite (lock_users_idle _ (untabled s t a) [] ((u, i) :: U)); [|exact Hd | | simpl in Hsz |- *; lia].
  2: { intros v j Hin. split; [by apply (rg_users _ _ _ _ _ _ Hr) | by apply (Hidle v j)]. }
  change (0 <? 0) with false. mrun. cbn [drop_users first_of fmap list_fmap fst]. destruct (Z.eqb_spec u NULL) as [|_]; [done |].
  rewrite run_bind, (ldin_ok (untabled s t a) u i Hun Hui). rewrite Ht. change (negb (NULL =? NULL)) with false. mrun.
  destruct (kfree_live u a) as (a1 & E1 & _); [rewrite Ho3; set_solver |].
  assert (free_info u (untabled s t a) = Ok (tt, set_ilist (base.delete u (ilist s)) (set_infos (base.delete u (infos s)) (untabled s t a1)))) as ->.
  { unfold free_info, free. mrun. change (mem (untabled s t a)) with a. rewrite E1. done. }
  unfold next_info. mrun. unfold NEXT_LINEAR, hload. cbn [ilist set_ilist]. rewrite lookup_delete_eq. by destruct (Z.eqb_spec u NULL).
Qed.
End delete.
