(* ===== verification/ShmemThms.v ===== *)
(** The theorems about the shared memory regions of [Shmem], and a table with one
    region on which they compute. *)
From S2P Require Import Prelude Mm Cpu Strings Lists PhysMem Paging PagingRuns HTable RwLock Env Processes.
From S2P Require Import Shmem ShmemRep ShmemUse ShmemMake ShmemDelete.

Lemma upd_user_twice u i j U : upd_user u j (upd_user u i U) = upd_user u j U.
Proof. unfold upd_user. rewrite map_map. apply map_ext. intros [v k]. simpl. repeat (case_decide; simpl in *); congruence. Qed.

Lemma upd_user_has u i j U : (u, i) ∈ U -> (u, j) ∈ upd_user u j U.
Proof. intros Hin. apply list_elem_of_fmap. exists (u, i). simpl. by rewrite decide_True. Qed.

Section thms.
Context {A : Type} `{MmLaws A}.
Implicit Types s : shstate A.

(** The region after one of its users changed. *)
Lemma region_of_touched s R frame id d r U u i j p : shm_ok s R frame -> region_of s R id d r U -> (u, i) ∈ U -> in_pid j = in_pid i ->
  region_of (touched s u j p) (<[d := upd_user u j U]> R) id d r (upd_user u j U).
Proof.
  intros Hs (HU & [Hr Hlk] & Hi) Hin Hp. split; [apply lookup_insert_eq |]. split; [|done]. split; [|exact Hlk]. by apply (region_at_upd _ _ _ _ _ U u i).
Qed.


(** C17. The first [shmem_request] of a user followed by [shmem_release] leaves the
    address space of the process as it was: every address is translated as before
    the request, the memory of the region is not given back, and the user is
    there with no mapping, not counted. *)
Theorem shmem_request_release_roundtrip s R frame fuel proc m id out d r U u i k : shm_ok s R frame -> region_of s R id d r U ->
  (u, i) ∈ U -> runs_as s proc (in_pid i) m -> in_pages i < 0 -> in_usage i = 0 -> mappable fuel s m r ->
  524288 <= k -> k * 4096 < sK_CEILING -> free_run (pg s) m k (sh_pages r) -> exists q s1 s2,
  shmem_request fuel proc id out s = Ok ((0, (q * 4096, sh_pages r, in_flags i)), s1) /\ mapped_at (pg s) (pg s1) m r (in_flags i) q /\
  shmem_release proc id s1 = Ok (0, s2) /\ (forall a, is_u32 a -> mmu (pg s2) m a = mmu (pg s) m a) /\
  phys (pg s2) = phys (pg s1) /\ shm_ok s2 (<[d := upd_user u (set_mapping 0 (-1) i) U]> R) frame.
Proof.
  intros Hs Hof Hin Hpr Hp Hus Hm Hk1 Hk2 Hk3. pose proof Hm as (_ & Hn & _).
  destruct (shmem_request_maps s R frame fuel proc m id out d r U u i Hs Hof Hin Hpr Hp Hm) as [(q & p & E & Hat)|[_ Hno]]; [|by destruct (Hno k)].
  rewrite Hus in E. change (s32 (0 + 1)) with 1 in E. set (j := set_usage 1 (set_mapping (q * 4096) (sh_pages r) i)) in *.
  set (s1 := touched s u j p) in *. pose proof Hat as (Hq & Hqf & Hfr & Hwf & Hmm).
  pose proof (touched_ok s R frame id d r U u i j p Hs Hof Hin eq_refl) as Hs1. pose proof (region_of_touched s R frame id d r U u i j p Hs Hof Hin eq_refl) as Hof1.
  destruct (shmem_release_unmaps s1 _ frame proc m id d r _ u j q Hs1 Hof1 (upd_user_has _ _ _ _ Hin) Hpr eq_refl eq_refl) as (p2 & E2 & Hrel); [|exact Hwf |].
  { unfold user_pages, sK_CEILING in *. cbn. lia. }
  assert (set_mapping 0 (-1) (set_usage 0 j) = set_mapping 0 (-1) i) as Ej by (destruct i; cbn in *; by subst). rewrite Ej in E2.
  pose proof Hrel as (_ & Hph & _ & _ & _ & Hm2). exists q, s1, (touched s1 u (set_mapping 0 (-1) i) p2).
  split; [exact E |]. split; [exact Hat |]. split; [exact E2 |]. split; [|split; [exact Hph |]].
  - intros a Ha. cbn [touched upd_all pg]. rewrite Hm2 by done. change (in_pages j) with (sh_pages r). change (pg s1) with p. rewrite Hmm by done.
    case_decide as Hd; [|done]. destruct (mmu (pg s) m a) eqn:Em; [|done].
    assert (mapped (pg s) m (a / 4096) = true) as Hc by (apply mmu_page; [done | by rewrite Em]). rewrite Hfr in Hc by done. done.
  - pose proof (touched_ok s1 _ frame id d r _ u j (set_mapping 0 (-1) i) p2 Hs1 Hof1 (upd_user_has _ _ _ _ Hin) eq_refl) as Hs2.
    by rewrite insert_insert_eq, upd_user_twice in Hs2.
Qed.

(** C19. [shmem_grant] is for the owner of a region: for any other process, for a
    process that is a user already, and for a number without a region the answer
    is -1 and nothing changes.  Otherwise the process becomes a user, in front of
    the others and without a mapping, and the table stays consistent, or the
    allocator has no memory and only -1 is answered. *)
Theorem shmem_grant_adds s R frame owner id pid flags : shm_ok s R frame -> 0 <= id <= 20000000 ->
  ((forall d r U, region_of s R id d r U -> ~ may_grant owner pid r U) -> shmem_grant owner id pid flags s = Ok (-1, s)) /\
  (forall d r U, region_of s R id d r U -> may_grant owner pid r U ->
    (exists a, shmem_grant owner id pid flags s = Ok (-1, set_smem a s) /\ mm_live a = mm_live (mem s)) \/
    (exists u s', shmem_grant owner id pid flags s = Ok (0, s') /\ u ∉ mm_live (mem s) /\ pg s' = pg s /\
      shm_ok s' (<[d := (u, new_user pid flags) :: U]> R) ({[u]} ∪ frame))).
Proof.
  intros Hs Hid. split; [by apply (shmem_grant_refused s R frame) |]. intros d r U Hof Hg.
  destruct (shmem_grant_ok s R frame owner id pid flags d r U Hs Hof Hg) as [?|(u & a & hl & E & Hu & Hok)]; [by left |].
  right. eexists u, _. split; [exact E |]. by split_and!.
Qed.

(** C18. [shmem_create_direct] without pages or without a name answers -1 and
    changes nothing.  Otherwise the search for a number ends, the number is one
    that no other region has, and the region is in the table under it, without
    users; or the allocator has no memory: -1 when it refuses the object, a
    write through the null pointer when it refuses the lock. *)
Theorem shmem_create_direct_registers s R frame name pid pages flags location internal : never_temp (A := A) -> shm_ok s R frame ->
  terminated name -> Z.of_nat (length name) < two32 ->
  0 <= shmem_id s -> shmem_id s + size (stab s) <= 20000000 -> total (stab s) < size (stab s) < 500000 ->
  let res := shmem_create_direct name pid pages flags location internal s in
  (pages <= 0 \/ cstr name = [] -> res = Ok (-1, s)) /\
  (0 < pages -> cstr name <> [] ->
    (exists a, res = Ok (-1, set_smem a s) /\ mm_live a = mm_live (mem s)) \/ res = Halt NullDeref \/
    (exists d l id s', res = Ok (id, s') /\ shs s' !! d = Some (region_named name pid pages flags location internal l id) /\ 0 <= id /\
      R !! d = None /\ (forall e x, is_Some (R !! e) -> shs s !! e = Some x -> sh_id x <> id) /\
      shm_ok s' (<[d := []]> R) ({[l]} ∪ ({[d]} ∪ frame)))).
Proof.
  intros Hnt Hs Ht Hlen Hz Hb Hsz. cbn zeta. split; [by apply shmem_create_direct_refuses |]. intros Hp Hn.
  destruct (shmem_create_direct_ok s R frame name pid pages flags location internal Hnt Hs Ht Hlen Hp Hn Hz Hb Hsz) as [?|[?|(d & l & id & t & a' & E & Hid & HR & Hf & Hok)]];
    [by left | by right; left |].
  right; right. eexists d, l, id, _. split; [exact E |]. split; [apply lookup_insert_eq |]. by split_and!.
Qed.

(** C20. [shmem_delete] is for the owner of a region: any other process, and a
    number without a region, are answered with -1 and nothing changes.  A region
    without users goes: its object and its lock are given back, and its pages
    when they were allocated with it, and the table stays consistent.  With a
    user, even one that does not use it, the block of the user is read after it
    was given back. *)
Theorem shmem_delete_removes s R frame owner id : shm_ok s R frame -> 0 <= id <= 20000000 ->
  ((forall d r U, region_of s R id d r U -> owner <> sh_pid r) -> shmem_delete owner id s = Ok (-1, s)) /\
  (forall d r m', region_of s R id d r [] -> owner = sh_pid r ->
    (if sh_internal r =? 0 then m' = phys (pg s) else memory_free (u32 (sh_pages r)) (sh_location r) (phys (pg s)) = Ok m') ->
    exists s', shmem_delete owner id s = Ok (0, s') /\ shm_ok s' (base.delete d R) (frame ∖ {[sh_lock r]} ∖ {[d]}) /\ pg s' = set_phys m' (pg s)) /\
  (forall d r u i U, region_of s R id d r ((u, i) :: U) -> owner = sh_pid r ->
    (forall v j, (v, j) ∈ (u, i) :: U -> in_usage j <= 0) -> in_tmp i = NULL -> shmem_delete owner id s = Halt BadAccess).
Proof.
  intros Hs Hid. split; [by apply (shmem_delete_refused s R frame) |]. split.
  - intros d r m' Hof -> Hm. pose proof Hof as (HU & Hr & _). pose proof (rg_obj _ _ _ _ _ _ (proj1 Hr)) as Hobj.
    destruct (shmem_delete_unlinks s R frame id d r [] Hs Hof) as (t & a & E & Hwf & Hown & Hperm). rewrite E.
    destruct (so_blocks _ _ _ Hs d r [] HU Hobj) as [[Hn _]%NoDup_cons Hin].
    destruct (destroy_unused s t a frame d r m') as (a' & -> & Hown'); try done.
    + apply (rg_list _ _ _ _ _ _ (proj1 Hr)).
    + by apply Hin, elem_of_cons; left.
    + by apply Hin, elem_of_cons; right; apply elem_of_cons; left.
    + intros Ed. by apply Hn, elem_of_cons; left.
    + eexists. split; [done |]. split; [|done]. apply deleted_ok; try done. apply Hr.
  - intros d r u i U Hof -> Hidle Ht. pose proof Hof as (HU & [Hr _] & _).
    destruct (shmem_delete_unlinks s R frame id d r _ Hs Hof) as (t & a & E & _ & Hown & _). rewrite E.
    apply (destroy_used s t a frame d r u i U); try done. apply (so_live s R frame d _ u Hs HU). by apply elem_of_cons; left.
Qed.
End thms.

(** * A table with one region *)

(** The region with number 3 at 1000, of two pages at 1 MB and owned by process 2;
    its user is process 7, at 400, which has no mapping yet. *)
Definition sample_user : shmem_info := ShmemInfo 7 0 (-1) 1 0 NULL NULL.
Definition sample_region : shmem := Shmem 3 (65 :: replicate 63 0) 510 2 0 1 1048576 2 900.
Definition sample_users : users := [(900, sample_user)].
Definition sample_htab : hash_table := HashTable (fun _ _ => 0) (fun _ => 0) 1 8 80 40 [0; 1000; 0; 0; 0; 0; 0; 0].
Definition sample_frame : gset Z := {[50; 510; 900; 1000]}.
Definition sample_ppt : ptable arena :=
  PTable 30 sample_htab 400 60 8 0 {[400 := Proc (replicate 64 0) 7 0 700]} ∅ ∅ {[50 := RwLock 0 0 0 0; 510 := RwLock 0 0 0 0]}
    (EnvState ∅ ∅ ∅ (Arena 9 ({[40]} ∪ sample_frame))).
Definition sample_shmem_state : shstate arena :=
  ShState 30 sample_htab 4 50 {[1000 := sample_region]} {[900 := sample_user]} {[900 := DsList NULL NULL]} true sample_ppt {[400 := sample_map]} sample_paging.
Definition sample_regions : gmap Z users := {[1000 := sample_users]}.

Lemma sample_region_ok : region_ok sample_shmem_state 1000 sample_region sample_users.
Proof.
  split; [split; try done |].
  - split; [|split; [apply NoDup_singleton | intros ?%list_elem_of_singleton; done]]. by split.
  - intros u i Hin. apply list_elem_of_singleton in Hin as [= -> ->]. done.
  - apply NoDup_singleton.
  - by split.
Qed.

Lemma sample_regions_inv d U : sample_regions !! d = Some U -> d = 1000 /\ U = sample_users.
Proof. unfold sample_regions. intros [<- <-]%lookup_singleton_Some. done. Qed.

Lemma sample_shm_ok : shm_ok sample_shmem_state sample_regions sample_frame.
Proof.
  split.
  - unfold ht_wf. simpl. split_and!; (lia || done).
  - intros d. unfold sample_regions. rewrite lookup_singleton_is_Some. change (entries (stab sample_shmem_state)) with [1000]. rewrite list_elem_of_singleton. done.
  - apply NoDup_singleton.
  - intros d U [-> ->]%sample_regions_inv. exists sample_region. exact sample_region_ok.
  - intros d d' r r' [U [-> _]%sample_regions_inv] [U' [-> _]%sample_regions_inv] _ _ _. done.
  - intros d d' r r' U U' x [-> _]%sample_regions_inv [-> _]%sample_regions_inv _ _ _ _. done.
  - by split.
  - unfold ht_owns. split_and!; [done | unfold sample_frame; simpl; set_solver |]. unfold mem. simpl. unfold sample_frame. set_solver.
  - intros d r U [-> ->]%sample_regions_inv [= <-]. change (blocks 1000 sample_region sample_users) with [1000; 510; 900]. split.
    + by apply (bool_decide_unpack _).
    + intros x Hx. unfold sample_frame. set_solver.
  - split; [unfold sample_frame; simpl; set_solver |]. by intros d [U [-> _]%sample_regions_inv].
Qed.

Lemma sample_region_of : region_of sample_shmem_state sample_regions 3 1000 sample_region sample_users.
Proof. split; [apply lookup_singleton_eq |]. split; [exact sample_region_ok | done]. Qed.

Lemma sample_runs : runs_as sample_shmem_state 400 7 sample_map.
Proof. split; [done |]. split; [by eexists | done]. Qed.

Lemma sample_mappable : mappable (Z.to_nat 500000) sample_shmem_state sample_map sample_region.
Proof.
  split; [exact sample_paging_wf |]. cbn [sh_pages sample_region]. split; [lia |]. split; [reflexivity |].
  rewrite Z2Nat.id by lia. split; [lia |]. exists 256. cbn. lia.
Qed.

Lemma sample_free_run : free_run sample_paging sample_map 524288 2.
Proof. intros k Hk. apply sample_unmapped. unfold user_pages. lia. Qed.

Lemma arena_never_temp : never_temp (A := arena).
Proof.
  intros n a. unfold kmalloc. cbn [mm_malloc arena_mm]. unfold arena_malloc. destruct (arena_budget a); [done |]. cbn [fst].
  unfold arena_next, temp_shmem. pose proof (proj1 (set_fold_max_ub (arena_live a ∖ {[NULL]}))). lia.
Qed.


Lemma shmem_request_release_roundtrip_witness : exists q s1 s2,
  shmem_request (Z.to_nat 500000) 400 3 (1, 2, 3) sample_shmem_state = Ok ((0, (q * 4096, 2, 1)), s1) /\
  shmem_release 400 3 s1 = Ok (0, s2) /\ (forall a, is_u32 a -> mmu (pg s2) sample_map a = mmu sample_paging sample_map a).
Proof.
  destruct (shmem_request_release_roundtrip sample_shmem_state sample_regions sample_frame (Z.to_nat 500000) 400 sample_map 3 (1, 2, 3) 1000 sample_region sample_users 900 sample_user 524288)
    as (q & s1 & s2 & E1 & _ & E2 & Hm & _).
  - exact sample_shm_ok.
  - exact sample_region_of.
  - apply list_elem_of_here.
  - exact sample_runs.
  - reflexivity.
  - reflexivity.
  - exact sample_mappable.
  - lia.
  - reflexivity.
  - exact sample_free_run.
  - exists q, s1, s2. split; [exact E1 | split; [exact E2 | exact Hm]].
Defined.

Lemma shmem_grant_adds_witness : shmem_grant 9 3 8 1 sample_shmem_state = Ok (-1, sample_shmem_state) /\
  exists u s', shmem_grant 2 3 8 1 sample_shmem_state = Ok (0, s') /\ shm_ok s' (<[1000 := (u, new_user 8 1) :: sample_users]> sample_regions) ({[u]} ∪ sample_frame).
Proof.
  split.
  - apply (shmem_grant_adds sample_shmem_state sample_regions sample_frame 9 3 8 1 sample_shm_ok); [lia |].
    intros d r U (HU & [Hr _] & Hi) [Ho _]. apply sample_regions_inv in HU as [-> ->]. apply rg_obj in Hr. injection Hr as <-. discriminate Ho.
  - assert (match shmem_grant 2 3 8 1 sample_shmem_state with Ok (v, _) => v | Halt _ => 5 end = 0) as Ev by (vm_compute; reflexivity).
    destruct (shmem_grant_adds sample_shmem_state sample_regions sample_frame 2 3 8 1 sample_shm_ok) as [_ Hyes]; [lia |].
    destruct (Hyes 1000 sample_region sample_users sample_region_of) as [(a & E & _)|(u & s' & E & _ & _ & Hok)].
    + split; [reflexivity |]. intros u i Hin. apply list_elem_of_singleton in Hin as [= -> ->]. discriminate.
    + rewrite E in Ev. discriminate Ev.
    + exists u, s'. split; [exact E | exact Hok].
Defined.

Lemma shmem_create_direct_registers_witness :
  shmem_create_direct [0] 7 1 0 2097152 1 sample_shmem_state = Ok (-1, sample_shmem_state) /\
  exists d l s', shmem_create_direct [66; 0] 7 1 0 2097152 1 sample_shmem_state = Ok (4, s') /\
  shm_ok s' (<[d := []]> sample_regions) ({[l]} ∪ ({[d]} ∪ sample_frame)).
Proof.
  assert (total (stab sample_shmem_state) < size (stab sample_shmem_state) < 500000) as Hsz by (cbn; lia).
  split.
  - destruct (shmem_create_direct_registers sample_shmem_state sample_regions sample_frame [0] 7 1 0 2097152 1 arena_never_temp sample_shm_ok) as [Hno _].
    + apply list_elem_of_here.
    + reflexivity.
    + cbn. lia.
    + cbn. lia.
    + exact Hsz.
    + apply Hno. right. reflexivity.
  - assert (match shmem_create_direct [66; 0] 7 1 0 2097152 1 sample_shmem_state with Ok (v, _) => v | Halt _ => 5 end = 4) as Ev by (vm_compute; reflexivity).
    destruct (shmem_create_direct_registers sample_shmem_state sample_regions sample_frame [66; 0] 7 1 0 2097152 1 arena_never_temp sample_shm_ok) as [_ Hyes].
    + apply list_elem_of_further, list_elem_of_here.
    + reflexivity.
    + cbn. lia.
    + cbn. lia.
    + exact Hsz.
    + destruct Hyes as [(a & E & _)|[E|(d & l & id & s' & E & _ & _ & _ & _ & Hok)]].
      * lia.
      * discriminate.
      * rewrite E in Ev. discriminate Ev.
      * rewrite E in Ev. discriminate Ev.
      * rewrite E in Ev. subst id. exists d, l, s'. split; [exact E | exact Hok].
Defined.

Lemma shmem_delete_removes_witness : shmem_delete 9 3 sample_shmem_state = Ok (-1, sample_shmem_state) /\
  shmem_delete 2 3 sample_shmem_state = Halt BadAccess.
Proof.
  split.
  - apply (shmem_delete_removes sample_shmem_state sample_regions sample_frame 9 3 sample_shm_ok); [lia |].
    intros d r U (HU & [Hr _] & Hi) Ho. apply sample_regions_inv in HU as [-> ->]. apply rg_obj in Hr. injection Hr as <-. discriminate Ho.
  - destruct (shmem_delete_removes sample_shmem_state sample_regions sample_frame 2 3 sample_shm_ok) as (_ & _ & Hused); [lia |].
    apply (Hused 1000 sample_region 900 sample_user [] sample_region_of).
    + reflexivity.
    + intros v j Hin. apply list_elem_of_singleton in Hin as [= _ ->]. cbn. lia.
    + reflexivity.
Defined.
