(* ===== verification/Objects.v ===== *)
(** The kernel objects that several components share: the thread and process
    structures of processes/threads.h and processes/process.h and the port block
    of ipc/ipc.h, with the fields that the modelled operations touch, and the
    search for a thread by its number. *)
From S2P Require Import Prelude Strings HTable.

(** Thread states of processes/threads.h. *)
Definition THREAD_RUNNING : Z := 1.
Definition THREAD_SUSPENDED : Z := 2.
Definition THREAD_DORMANT : Z := 3.
Definition THREAD_FINISHED : Z := 8.
Definition THREAD_IRQ : Z := 10.

Definition MAX_PORTS : Z := 1024.
Definition SMK_NAME_LENGTH : Z := 64.

(** [struct thread]; [process] is the address of the owning process. *)
Record thread := Thread {
  name : list Z;
  tid : Z;
  state : Z;
  process : Z;
  irq : Z;
  duration : Z;
  ports : list Z;
  last_port_pulse : Z;
  last_port_message : Z;
  cpu : Z;
  cpu_affinity : Z;
  fast_queued : Z
}.

Definition set_state (v : Z) (x : thread) : thread :=
  Thread (name x) (tid x) v (process x) (irq x) (duration x) (ports x) (last_port_pulse x)
    (last_port_message x) (cpu x) (cpu_affinity x) (fast_queued x).
Definition set_irq (v : Z) (x : thread) : thread :=
  Thread (name x) (tid x) (state x) (process x) v (duration x) (ports x)
    (last_port_pulse x) (last_port_message x) (cpu x) (cpu_affinity x) (fast_queued x).
Definition set_duration (v : Z) (x : thread) : thread :=
  Thread (name x) (tid x) (state x) (process x) (irq x) v (ports x) (last_port_pulse x)
    (last_port_message x) (cpu x) (cpu_affinity x) (fast_queued x).
Definition set_ports (v : list Z) (x : thread) : thread :=
  Thread (name x) (tid x) (state x) (process x) (irq x) (duration x) v (last_port_pulse x)
    (last_port_message x) (cpu x) (cpu_affinity x) (fast_queued x).
Definition set_last_port_pulse (v : Z) (x : thread) : thread :=
  Thread (name x) (tid x) (state x) (process x) (irq x) (duration x) (ports x) v
    (last_port_message x) (cpu x) (cpu_affinity x) (fast_queued x).
Definition set_last_port_message (v : Z) (x : thread) : thread :=
  Thread (name x) (tid x) (state x) (process x) (irq x) (duration x) (ports x)
    (last_port_pulse x) v (cpu x) (cpu_affinity x) (fast_queued x).
Definition set_cpu (v : Z) (x : thread) : thread :=
  Thread (name x) (tid x) (state x) (process x) (irq x) (duration x) (ports x)
    (last_port_pulse x) (last_port_message x) v (cpu_affinity x) (fast_queued x).
Definition set_fast_queued (v : Z) (x : thread) : thread :=
  Thread (name x) (tid x) (state x) (process x) (irq x) (duration x) (ports x)
    (last_port_pulse x) (last_port_message x) (cpu x) (cpu_affinity x) v.

Definition set_affinity (v : Z) (x : thread) : thread :=
  Thread (name x) (tid x) (state x) (process x) (irq x) (duration x) (ports x)
    (last_port_pulse x) (last_port_message x) (cpu x) v (fast_queued x).

(** [struct ipc_block] *)
Record ipc_block := IpcBlock { ib_tid : Z; ib_flags : Z; pulse_q : Z; message_q : Z }.

(** [struct process]: its number, its ports and the table of its threads; the key
    and comparison functions of the table are [threads_key] and
    [threads_compare] below, applied to the threads that are live at the time. *)
Record process_block := Process {
  pid : Z;
  ipc : list ipc_block;
  threads_htable : hash_table
}.

Definition set_ipc (v : list ipc_block) (x : process_block) : process_block :=
  Process (pid x) v (threads_htable x).

(** * Finding a thread *)

Definition threads_key (h : gmap Z thread) (td : Z) : Z :=
  match h !! td with
  | Some t => let ans := s32 (tid t * 100) in if ans <? 0 then s32 (- ans) else ans
  | None => 0
  end.

(** Names are arrays of 64 characters, so the comparison of names ends. *)
Definition threads_compare (h : gmap Z thread) (ad bd : Z) : Z :=
  match h !! ad, h !! bd with
  | Some a, Some b =>
      if negb (tid b =? -1) then
        if tid a <? tid b then -1 else if tid b <? tid a then 1 else 0
      else match kstrncmp (name a) (name b) SMK_NAME_LENGTH with Ok r => r | Halt _ => 0 end
  | _, _ => 1
  end.

Definition threads_table (h : gmap Z thread) (t : hash_table) : hash_table :=
  HashTable (threads_compare h) (threads_key h) (total t) (size t) (percent t) (table t) (slots t).

(** The automatic object [temp] of the searches: no heap object has its address. *)
Definition temp_address : Z := -1.
Definition temp_thread (n : Z) : thread := Thread (replicate 64 0) n 0 0 0 0 [] 0 0 0 0 0.

(** [get_thread] *)
Definition get_thread (proc : process_block) (n : Z) (h : gmap Z thread) : outcome Z :=
  let h := <[temp_address := temp_thread n]> h in
  htable_retrieve (threads_table h (threads_htable proc)) temp_address.

(** The table of a process: well formed, and every entry is a live thread whose
    number the key function does not overflow on. *)
Definition threads_wf (proc : process_block) (h : gmap Z thread) : Prop :=
  ht_wf (threads_table h (threads_htable proc)) /\
  forall p, p ∈ entries (threads_htable proc) ->
    p <> temp_address /\ exists t, h !! p = Some t /\ 0 <= tid t <= 20000000.

Lemma threads_key_ok h p t : h !! p = Some t -> 0 <= tid t <= 20000000 -> key_ok (threads_key h) p.
Proof.
  intros Hp Ht. unfold key_ok, threads_key. rewrite Hp. rewrite s32_small by (unfold is_s32; lia).
  cbv zeta. destruct (Z.ltb_spec (tid t * 100) 0); lia.
Qed.

(** [get_thread] finds a thread of the process by its number: on a well-formed
    table it runs without fault and answers with a thread of the table that has
    that number, or with the null pointer exactly when the process has none. *)
Theorem get_thread_finds proc n h : threads_wf proc h -> 0 <= n <= 20000000 ->
  exists p, get_thread proc n h = Ok p /\
  ((p <> NULL /\ p ∈ entries (threads_htable proc) /\ exists t, h !! p = Some t /\ tid t = n) \/
   (p = NULL /\ forall q t, q ∈ entries (threads_htable proc) -> h !! q = Some t -> tid t <> n)).
Proof.
  intros [Hwf Hlive] Hn. unfold get_thread.
  set (h' := <[temp_address := temp_thread n]> h).
  assert (h' !! temp_address = Some (temp_thread n)) as Ht by apply lookup_insert_eq.
  assert (forall q, q ∈ entries (threads_htable proc) -> exists t, h' !! q = Some t /\ h !! q = Some t /\
    0 <= tid t <= 20000000 /\
    (threads_compare h' q temp_address = 0 <-> tid t = n)) as Hcmp.
  { intros q Hq. destruct (Hlive q Hq) as (Hne & t & Hqt & Hr). exists t.
    assert (h' !! q = Some t) as Hq' by (unfold h'; by rewrite lookup_insert_ne by done).
    split_and!; try done; try lia. unfold threads_compare. rewrite Hq', Ht. simpl.
    destruct (Z.eqb_spec n (-1)); [lia |]. simpl. zbool; split; (done || lia). }
  destruct (htable_retrieve_spec (threads_table h' (threads_htable proc)) temp_address)
    as (d & Hd & Hcase); [exact Hwf | apply (threads_key_ok _ _ (temp_thread n)); (done || simpl; lia) |].
  exists d. split; [exact Hd |]. destruct Hcase as [(Hne & He & Hc)|(-> & Hno)].
  - left. destruct (Hcmp d He) as (t & _ & Hdt & _ & Heq). split_and!; [done | done |].
    exists t. split; [done | by apply Heq].
  - right. split; [done |]. intros q t Hq Hqt Htid. destruct (Hcmp q Hq) as (t' & _ & Hqt' & _ & Heq).
    rewrite Hqt in Hqt'. injection Hqt' as <-. apply (Hno q Hq), Heq, Htid.
Qed.

Lemma get_thread_finds_witness :
  let proc := Process 1 [] (HashTable (fun _ _ => 0) (fun _ => 0) 2 4 75 40 [0; 200; 0; 300]) in
  let h := {[200 := temp_thread 7; 300 := temp_thread 9]} in
  exists p, get_thread proc 9 h = Ok p.
Proof.
  intros proc h. destruct (get_thread_finds proc 9 h) as (p & Hp & _).
  - split; [unfold ht_wf; simpl; split_and!; (done || lia) |].
    intros p Hp. assert (p = 200 \/ p = 300) as [->| ->] by (vm_compute in Hp; set_solver).
    + split; [done |]. exists (temp_thread 7). split; [reflexivity | simpl; lia].
    + split; [done |]. exists (temp_thread 9). split; [reflexivity | simpl; lia].
  - lia.
  - exists p. exact Hp.
Defined.
