(* ===== verification/Scheduler.v ===== *)
(** The per-processor scheduler (scheduler/scheduler.c): the run queue, the queue
    of timed sleepers, the fast queue of interrupt handlers, their locks, and the
    thread state changes that move threads between them (processes/threads.c).
    The operations run on processor [cpuid]; a busy lock or a running remote
    processor that the code would wait for is the fault [Spin]. *)
From S2P Require Import Prelude Cpu Objects.

Definition INITIAL_SCHED_SIZE : Z := 1024.
Definition TIMESLICE : Z := 10.
Definition MAX_FAST : Z := 32.

(** [struct paused_schedule] *)
Record paused_schedule := PausedSchedule {
  ps_tr : Z; ps_state : Z; ps_request : Z; ps_start : Z
}.

Definition no_pause : paused_schedule := PausedSchedule NULL 0 0 0.

(** [struct scheduler_info]; an element of [sched_queue] is the thread address of
    a [struct schedule]. *)
Record scheduler_info := SchedulerInfo {
  si_cpu_id : Z;
  current_thread : Z;
  requesting_state : Z;
  requesting_thread : Z;
  sched_queue : list Z;
  pause_queue : list paused_schedule;
  sched_count : Z;
  pause_count : Z;
  sched_size : Z;
  pause_size : Z;
  running : Z;
  idle : Z;
  lock_scheduler : Z;
  lock_flags : Z;
  nested_lock : Z;
  position : Z;
  fast_queue_ : list Z;
  fast_start : Z;
  fast_stop : Z
}.

Definition set_current_thread (v : Z) (x : scheduler_info) : scheduler_info :=
  SchedulerInfo (si_cpu_id x) v (requesting_state x) (requesting_thread x) (sched_queue x)
    (pause_queue x) (sched_count x) (pause_count x) (sched_size x) (pause_size x)
    (running x) (idle x) (lock_scheduler x) (lock_flags x) (nested_lock x) (position x)
    (fast_queue_ x) (fast_start x) (fast_stop x).
Definition set_requesting_state (v : Z) (x : scheduler_info) : scheduler_info :=
  SchedulerInfo (si_cpu_id x) (current_thread x) v (requesting_thread x) (sched_queue x)
    (pause_queue x) (sched_count x) (pause_count x) (sched_size x) (pause_size x)
    (running x) (idle x) (lock_scheduler x) (lock_flags x) (nested_lock x) (position x)
    (fast_queue_ x) (fast_start x) (fast_stop x).
Definition set_requesting_thread (v : Z) (x : scheduler_info) : scheduler_info :=
  SchedulerInfo (si_cpu_id x) (current_thread x) (requesting_state x) v (sched_queue x)
    (pause_queue x) (sched_count x) (pause_count x) (sched_size x) (pause_size x)
    (running x) (idle x) (lock_scheduler x) (lock_flags x) (nested_lock x) (position x)
    (fast_queue_ x) (fast_start x) (fast_stop x).
Definition set_sched_queue (v : list Z) (x : scheduler_info) : scheduler_info :=
  SchedulerInfo (si_cpu_id x) (current_thread x) (requesting_state x) (requesting_thread x)
    v (pause_queue x) (sched_count x) (pause_count x) (sched_size x) (pause_size x)
    (running x) (idle x) (lock_scheduler x) (lock_flags x) (nested_lock x) (position x)
    (fast_queue_ x) (fast_start x) (fast_stop x).
Definition set_pause_queue (v : list paused_schedule) (x : scheduler_info) : scheduler_info :=
  SchedulerInfo (si_cpu_id x) (current_thread x) (requesting_state x) (requesting_thread x)
    (sched_queue x) v (sched_count x) (pause_count x) (sched_size x) (pause_size x)
    (running x) (idle x) (lock_scheduler x) (lock_flags x) (nested_lock x) (position x)
    (fast_queue_ x) (fast_start x) (fast_stop x).
Definition set_sched_count (v : Z) (x : scheduler_info) : scheduler_info :=
  SchedulerInfo (si_cpu_id x) (current_thread x) (requesting_state x) (requesting_thread x)
    (sched_queue x) (pause_queue x) v (pause_count x) (sched_size x) (pause_size x)
    (running x) (idle x) (lock_scheduler x) (lock_flags x) (nested_lock x) (position x)
    (fast_queue_ x) (fast_start x) (fast_stop x).
Definition set_pause_count (v : Z) (x : scheduler_info) : scheduler_info :=
  SchedulerInfo (si_cpu_id x) (current_thread x) (requesting_state x) (requesting_thread x)
    (sched_queue x) (pause_queue x) (sched_count x) v (sched_size x) (pause_size x)
    (running x) (idle x) (lock_scheduler x) (lock_flags x) (nested_lock x) (position x)
    (fast_queue_ x) (fast_start x) (fast_stop x).
Definition set_running (v : Z) (x : scheduler_info) : scheduler_info :=
  SchedulerInfo (si_cpu_id x) (current_thread x) (requesting_state x) (requesting_thread x)
    (sched_queue x) (pause_queue x) (sched_count x) (pause_count x) (sched_size x)
    (pause_size x) v (idle x) (lock_scheduler x) (lock_flags x) (nested_lock x)
    (position x) (fast_queue_ x) (fast_start x) (fast_stop x).
Definition set_idle (v : Z) (x : scheduler_info) : scheduler_info :=
  SchedulerInfo (si_cpu_id x) (current_thread x) (requesting_state x) (requesting_thread x)
    (sched_queue x) (pause_queue x) (sched_count x) (pause_count x) (sched_size x)
    (pause_size x) (running x) v (lock_scheduler x) (lock_flags x) (nested_lock x)
    (position x) (fast_queue_ x) (fast_start x) (fast_stop x).
Definition set_lock_scheduler (v : Z) (x : scheduler_info) : scheduler_info :=
  SchedulerInfo (si_cpu_id x) (current_thread x) (requesting_state x) (requesting_thread x)
    (sched_queue x) (pause_queue x) (sched_count x) (pause_count x) (sched_size x)
    (pause_size x) (running x) (idle x) v (lock_flags x) (nested_lock x) (position x)
    (fast_queue_ x) (fast_start x) (fast_stop x).
Definition set_lock_flags (v : Z) (x : scheduler_info) : scheduler_info :=
  SchedulerInfo (si_cpu_id x) (current_thread x) (requesting_state x) (requesting_thread x)
    (sched_queue x) (pause_queue x) (sched_count x) (pause_count x) (sched_size x)
    (pause_size x) (running x) (idle x) (lock_scheduler x) v (nested_lock x) (position x)
    (fast_queue_ x) (fast_start x) (fast_stop x).
Definition set_nested_lock (v : Z) (x : scheduler_info) : scheduler_info :=
  SchedulerInfo (si_cpu_id x) (current_thread x) (requesting_state x) (requesting_thread x)
    (sched_queue x) (pause_queue x) (sched_count x) (pause_count x) (sched_size x)
    (pause_size x) (running x) (idle x) (lock_scheduler x) (lock_flags x) v (position x)
    (fast_queue_ x) (fast_start x) (fast_stop x).
Definition set_position (v : Z) (x : scheduler_info) : scheduler_info :=
  SchedulerInfo (si_cpu_id x) (current_thread x) (requesting_state x) (requesting_thread x)
    (sched_queue x) (pause_queue x) (sched_count x) (pause_count x) (sched_size x)
    (pause_size x) (running x) (idle x) (lock_scheduler x) (lock_flags x) (nested_lock x) v
    (fast_queue_ x) (fast_start x) (fast_stop x).
Definition set_fast_queue_ (v : list Z) (x : scheduler_info) : scheduler_info :=
  SchedulerInfo (si_cpu_id x) (current_thread x) (requesting_state x) (requesting_thread x)
    (sched_queue x) (pause_queue x) (sched_count x) (pause_count x) (sched_size x)
    (pause_size x) (running x) (idle x) (lock_scheduler x) (lock_flags x) (nested_lock x)
    (position x) v (fast_start x) (fast_stop x).
Definition set_fast_start (v : Z) (x : scheduler_info) : scheduler_info :=
  SchedulerInfo (si_cpu_id x) (current_thread x) (requesting_state x) (requesting_thread x)
    (sched_queue x) (pause_queue x) (sched_count x) (pause_count x) (sched_size x)
    (pause_size x) (running x) (idle x) (lock_scheduler x) (lock_flags x) (nested_lock x)
    (position x) (fast_queue_ x) v (fast_stop x).
Definition set_fast_stop (v : Z) (x : scheduler_info) : scheduler_info :=
  SchedulerInfo (si_cpu_id x) (current_thread x) (requesting_state x) (requesting_thread x)
    (sched_queue x) (pause_queue x) (sched_count x) (pause_count x) (sched_size x)
    (pause_size x) (running x) (idle x) (lock_scheduler x) (lock_flags x) (nested_lock x)
    (position x) (fast_queue_ x) (fast_start x) v.

(** What the operations work on: the [sched] field and the clock
    [st_systemTime.usage] of every processor, the threads, the running processor
    with its interrupt flag, and the wake-up interrupts sent so far. *)
Record sched_state := SchedState {
  cpus : list scheduler_info;
  threads : gmap Z thread;
  cpuid : Z;
  cpu_count : Z;
  iflag : bool;
  usage : list Z;
  ipis : list Z;
  sched_global_lock : Z
}.

Definition set_cpus (v : list scheduler_info) (x : sched_state) : sched_state :=
  SchedState v (threads x) (cpuid x) (cpu_count x) (iflag x) (usage x) (ipis x) (sched_global_lock x).
Definition set_threads (v : gmap Z thread) (x : sched_state) : sched_state :=
  SchedState (cpus x) v (cpuid x) (cpu_count x) (iflag x) (usage x) (ipis x) (sched_global_lock x).
Definition set_iflag (v : bool) (x : sched_state) : sched_state :=
  SchedState (cpus x) (threads x) (cpuid x) (cpu_count x) v (usage x) (ipis x) (sched_global_lock x).
Definition set_ipis (v : list Z) (x : sched_state) : sched_state :=
  SchedState (cpus x) (threads x) (cpuid x) (cpu_count x) (iflag x) (usage x) v (sched_global_lock x).
Definition set_global_lock (v : Z) (x : sched_state) : sched_state :=
  SchedState (cpus x) (threads x) (cpuid x) (cpu_count x) (iflag x) (usage x) (ipis x) v.

Abbreviation K := (M sched_state).

Definition get_si (id : Z) : K scheduler_info := s ← getS; liftO (aget (cpus s) id).
Definition put_si (id : Z) (si : scheduler_info) : K unit :=
  s ← getS; l ← liftO (aset (cpus s) id si); modifyS (set_cpus l).
Definition get_tr (p : Z) : K thread := s ← getS; liftO (hload (threads s) p).
Definition put_tr (p : Z) (t : thread) : K unit :=
  s ← getS; h ← liftO (hstore (threads s) p t); modifyS (set_threads h).

(** [load_scheduler] *)
Definition load_scheduler (cpu_id : Z) : K unit :=
  let n := Z.to_nat INITIAL_SCHED_SIZE in
  si ← get_si cpu_id;
  put_si cpu_id (SchedulerInfo cpu_id NULL (-1) NULL (replicate n NULL) (replicate n no_pause)
    0 0 INITIAL_SCHED_SIZE INITIAL_SCHED_SIZE 0 0 0 (lock_flags si) 0 0 (fast_queue_ si) 0 0).

(** [sched_lock] *)
Definition sched_lock (cpu_id : Z) (complete : bool) : K unit :=
  s ← getS;
  massert ((0 <=? cpu_id) && (cpu_id <? cpu_count s)) ;;
  massert (negb ((cpuid s =? cpu_id) && complete)) ;;
  let '(lock, off) := disable_interrupts (iflag s) in
  modifyS (set_iflag off) ;;
  si ← get_si cpu_id;
  (if lock_scheduler si =? 0 then mret tt else liftO (Halt Spin)) ;;
  let si := set_lock_flags lock (set_lock_scheduler 1 si) in
  si ← (if idle si =? 0 then mret si
        else modifyS (fun s => set_ipis (ipis s ++ [cpu_id]) s) ;; mret (set_idle 0 si));
  (if complete && negb (running si =? 0) then liftO (Halt Spin) else mret tt) ;;
  put_si cpu_id (set_nested_lock (u32 (nested_lock si + 1)) si) ;;
  massert (nested_lock si =? 0).

(** [sched_unlock] *)
Definition sched_unlock (cpu_id : Z) : K unit :=
  si ← get_si cpu_id;
  let enable := lock_flags si in
  s ← getS;
  massert ((0 <=? cpu_id) && (cpu_id <? cpu_count s)) ;;
  put_si cpu_id (set_lock_scheduler 0 (set_nested_lock (u32 (nested_lock si - 1)) si)) ;;
  massert (nested_lock si =? 1) ;;
  if (cpuid s =? cpu_id) && negb (enable =? 0)
  then modifyS (set_iflag (enable_interrupts (iflag s))) else mret tt.

(** [sched_lock_all] and [sched_unlock_all], under the global lock; the
    processors from [i] on. *)
Fixpoint lock_from (n : nat) (i : Z) : K unit :=
  match n with
  | O => mret tt
  | S n => s ← getS; sched_lock i (negb (cpuid s =? i)) ;; lock_from n (i + 1)
  end.
Definition sched_lock_all : K unit :=
  s ← getS;
  (if sched_global_lock s =? 0 then mret tt else liftO (Halt Spin)) ;;
  modifyS (set_global_lock 1) ;;
  lock_from (Z.to_nat (cpu_count s)) 0.

Fixpoint unlock_from (n : nat) (i : Z) : K unit :=
  match n with O => mret tt | S n => sched_unlock i ;; unlock_from n (i + 1) end.
Definition sched_unlock_all : K unit :=
  s ← getS;
  unlock_from (Z.to_nat (cpu_count s)) 0 ;;
  modifyS (set_global_lock 0).

(** * Queues as arrays *)

(** [for ( pos = i; pos < i + n; pos++ ) if ( p( q[pos] ) ) break;] *)
Fixpoint find_pos {T} (p : T -> bool) (n : nat) (i : Z) (q : list T) : outcome Z :=
  match n with
  | O => Ok i
  | S n => x ← aget q i; if p x then Ok i else find_pos p n (i + 1) q
  end.

(** [for ( ; n > 0; n--, i++ ) q[i] = q[i+count];] *)
Fixpoint shift_down {T} (n : nat) (i count : Z) (q : list T) : outcome (list T) :=
  match n with
  | O => Ok q
  | S n => x ← aget q (i + count); q ← aset q i x; shift_down n (i + 1) count q
  end.

(** [for ( i = pos; i < last; i++ ) q[i] = q[i+1];], [n] rounds. *)
Definition close_gap {T} (n : nat) (i : Z) (q : list T) : outcome (list T) := shift_down n i 1 q.

(** [for ( i = hi; i > lo; i-- ) q[i] = q[i-1];], [n] = [hi - lo] rounds. *)
Fixpoint open_gap {T} (n : nat) (i : Z) (q : list T) : outcome (list T) :=
  match n with
  | O => Ok q
  | S n => x ← aget q (i - 1); q ← aset q i x; open_gap n (i - 1) q
  end.

(** The removal of the thread at [pos] from the run queue with its count and
    round-robin position, in [sub_dequeue] and [remove_last]. *)
Definition remove_at (si : scheduler_info) (pos : Z) : outcome scheduler_info :=
  q ← close_gap (Z.to_nat (sched_count si - 1 - pos)) pos (sched_queue si);
  let c := u32 (sched_count si - 1) in
  p ← (if c =? 0 then Ok 0 else umod (u32 (position si - 1)) c);
  Ok (set_position p (set_sched_count c (set_sched_queue q si))).

Definition sub_queue (id : Z) (tr : Z) : K Z :=
  si ← get_si id;
  sched_lock (si_cpu_id si) false ;;
  si ← get_si id;
  if sched_count si =? sched_size si then sched_unlock (si_cpu_id si) ;; mret (-1)
  else
    q ← liftO (aset (sched_queue si) (sched_count si) tr);
    put_si id (set_sched_count (u32 (sched_count si + 1)) (set_sched_queue q si)) ;;
    sched_unlock (si_cpu_id si) ;;
    mret 0.

Definition sub_dequeue (id : Z) (tr : Z) : K Z :=
  s ← getS;
  me ← get_si (cpuid s);
  massert (negb (tr =? current_thread me)) ;;
  si ← get_si id;
  sched_lock (si_cpu_id si) (negb (si_cpu_id si =? cpuid s)) ;;
  si ← get_si id;
  pos ← liftO (find_pos (Z.eqb tr) (Z.to_nat (sched_count si)) 0 (sched_queue si));
  massert (negb (pos =? sched_count si)) ;;
  si ← liftO (remove_at si pos);
  put_si id si ;;
  sched_unlock (si_cpu_id si) ;;
  mret 0.

(** [queue] and [dequeue] *)
Definition thread_home (t : thread) (cpus_n : Z) : outcome Z :=
  if cpu_affinity t <? 0 then
    if cpus_n =? 0 then Halt DivByZero else Ok (Z.rem (s32 (tid t - 1)) cpus_n)
  else Ok (cpu_affinity t).

Definition queue (tr : Z) : K Z :=
  s ← getS;
  t ← get_tr tr;
  id ← liftO (thread_home t (cpu_count s));
  massert (cpu t <? 0) ;;
  put_tr tr (set_cpu id t) ;;
  sub_queue id tr.

Definition dequeue (tr : Z) : K Z :=
  t ← get_tr tr;
  massert (0 <=? cpu t) ;;
  ans ← sub_dequeue (cpu t) tr;
  t ← get_tr tr;
  put_tr tr (set_cpu (-1) t) ;;
  mret ans.

(** [restart]: the sleeper goes to the head of the pause queue, due at once. *)
Definition restart (tr : Z) : K Z :=
  s ← getS;
  t ← get_tr tr;
  id ← liftO (thread_home t (cpu_count s));
  sched_lock id (negb (id =? cpuid s)) ;;
  si ← get_si id;
  pos ← liftO (find_pos (fun e => tr =? ps_tr e) (Z.to_nat (pause_count si)) 0 (pause_queue si));
  if pos =? pause_count si then
    sched_unlock id ;; massert false ;; mret (-1)
  else
    ps ← liftO (aget (pause_queue si) pos);
    q ← liftO (open_gap (Z.to_nat pos) pos (pause_queue si));
    q ← liftO (aset q 0 (PausedSchedule (ps_tr ps) (ps_state ps) 0 (ps_start ps)));
    put_si id (set_pause_queue q si) ;;
    sched_unlock id ;;
    mret 0.

(** [set_thread_state] of processes/threads.c *)
Definition set_thread_state (tr : Z) (st : Z) : K unit :=
  t ← get_tr tr;
  if state t =? st then mret tt
  else
    s ← getS;
    me ← get_si (cpuid s);
    if tr =? current_thread me then
      massert (state t =? THREAD_RUNNING) ;;
      let '(ei, off) := disable_interrupts (iflag s) in
      modifyS (set_iflag off) ;;
      put_si (cpuid s) (set_requesting_state st (set_requesting_thread tr me)) ;;
      modifyS (fun s => set_iflag (restore_interrupts ei (iflag s)) s)
    else if (state t =? THREAD_DORMANT) && negb (duration t =? 0) then
      massert (st =? THREAD_RUNNING) ;; restart tr ;; mret tt
    else
      (if state t =? THREAD_RUNNING then dequeue tr ;; mret tt else mret tt) ;;
      t ← get_tr tr;
      put_tr tr (set_state st t) ;;
      if st =? THREAD_RUNNING then queue tr ;; mret tt else mret tt.

(** [pause] *)
Definition pause (tr : Z) (milliseconds : Z) : K Z :=
  massert (negb (tr =? NULL)) ;;
  massert (0 <? milliseconds) ;;
  s ← getS;
  t ← get_tr tr;
  massert (cpu t =? cpuid s) ;;
  let id := cpu t in
  sched_lock id false ;;
  si ← get_si id;
  now ← liftO (aget (usage s) id);
  let target := (milliseconds + now) mod 2 ^ 64 in
  if pause_count si =? pause_size si then sched_unlock id ;; mret (-1)
  else
    pos ← liftO (find_pos (fun e => target <? ps_request e) (Z.to_nat (pause_count si)) 0
                   (pause_queue si));
    q ← liftO (open_gap (Z.to_nat (pause_count si - pos)) (pause_count si) (pause_queue si));
    q ← liftO (aset q pos (PausedSchedule tr (state t) target now));
    put_si id (set_pause_count (u32 (pause_count si + 1)) (set_pause_queue q si)) ;;
    set_thread_state tr THREAD_DORMANT ;;
    t ← get_tr tr;
    put_tr tr (set_duration milliseconds t) ;;
    sched_unlock id ;;
    mret 0.

(** [remove_last]: the state change that the last thread asked for. *)
Definition remove_last (id : Z) : K unit :=
  si ← get_si id;
  if negb (requesting_thread si =? NULL) && (0 <=? requesting_state si) then
    let tr := requesting_thread si in
    pos ← liftO (find_pos (Z.eqb tr) (Z.to_nat (sched_count si)) 0 (sched_queue si));
    if pos =? sched_count si then
      put_si id (set_requesting_state (-1) (set_requesting_thread NULL si))
    else
      si ← liftO (remove_at si pos);
      t ← get_tr tr;
      put_tr tr (set_cpu (-1) (set_state (requesting_state si) t)) ;;
      put_si id (set_requesting_state (-1) (set_requesting_thread NULL si))
  else
    massert (requesting_thread si =? NULL) ;;
    massert (requesting_state si <? 0).

(** The waking loop of [remove_timers]: [fuel] rounds at most, [count] done. *)
Fixpoint wake_loop (fuel : nat) (id time count : Z) : K Z :=
  match fuel with
  | O => liftO (Halt Spin)
  | S fuel =>
      si ← get_si id;
      e ← liftO (aget (pause_queue si) count);
      if ps_request e <=? time then
        t ← get_tr (ps_tr e);
        put_tr (ps_tr e) (set_cpu (si_cpu_id si)
          (set_duration ((time - ps_start e) mod 2 ^ 64) (set_state (ps_state e) t))) ;;
        massert (negb (sched_count si =? sched_size si)) ;;
        q ← liftO (aset (sched_queue si) (sched_count si) (ps_tr e));
        let si := set_pause_count (u32 (pause_count si - 1))
                    (set_sched_count (u32 (sched_count si + 1)) (set_sched_queue q si)) in
        put_si id si ;;
        if pause_count si =? 0 then mret (count + 1) else wake_loop fuel id time (count + 1)
      else mret count
  end.

(** [remove_timers]: the time until the next sleeper is due, 0 without one. *)
Definition remove_timers (id time : Z) : K Z :=
  si ← get_si id;
  if pause_count si =? 0 then mret 0
  else
    count ← wake_loop (S (Z.to_nat (pause_count si))) id time 0;
    si ← get_si id;
    q ← liftO (shift_down (Z.to_nat (pause_count si)) 0 count (pause_queue si));
    put_si id (set_pause_queue q si) ;;
    if pause_count si =? 0 then mret 0
    else e ← liftO (aget q 0); mret ((ps_request e - time) mod 2 ^ 64).

(** [fast_queue] and [fast_dequeue] *)
Definition fast_queue (tr : Z) : K Z :=
  s ← getS;
  t ← get_tr tr;
  let id := cpu_affinity t in
  massert ((0 <=? id) && (id <? cpu_count s)) ;;
  sched_lock id false ;;
  t ← get_tr tr;
  put_tr tr (set_fast_queued (s32 (fast_queued t + 1)) (set_cpu id t)) ;;
  si ← get_si id;
  let new_stop := fast_stop si in
  q ← liftO (aset (fast_queue_ si) new_stop tr);
  let si := set_fast_stop (u32 (new_stop + 1) mod MAX_FAST) (set_fast_queue_ q si) in
  put_si id si ;;
  massert (negb (fast_stop si =? fast_start si)) ;;
  sched_unlock id ;;
  mret 0.

Definition fast_dequeue (tr : Z) : K Z :=
  t ← get_tr tr;
  let id := cpu t in
  massert (0 <=? id) ;;
  sched_lock id false ;;
  s ← getS;
  massert (cpu t =? cpuid s) ;;
  si ← get_si id;
  x ← liftO (aget (fast_queue_ si) (fast_start si));
  massert (tr =? x) ;;
  put_si id (set_fast_start (u32 (fast_start si + 1) mod MAX_FAST) si) ;;
  let t := set_fast_queued (s32 (fast_queued t - 1)) t in
  put_tr tr (if fast_queued t =? 0 then set_cpu (-1) t else t) ;;
  sched_unlock id ;;
  mret 0.

(** [get_fast] *)
Definition get_fast (si : scheduler_info) : outcome Z :=
  if fast_start si =? fast_stop si then Ok NULL else aget (fast_queue_ si) (fast_start si).

(** One turn of the endless loop of [scheduler] on processor [id].  [exec]
    stands for [exec_thread] and the clock update that follows it (it switches
    to the thread and comes back at the next timer interrupt), [gc_work] for
    [gc_has_work], [gc_tr] and [idle_tr] for the collector's and the idle
    thread; the result is the new value of [flip]. *)
Definition scheduler_turn (exec : Z -> Z -> Z -> K unit) (gc_work : K Z) (gc_tr idle_tr : Z)
    (id flip : Z) : K Z :=
  w ← gc_work;
  (if w =? 0 then exec gc_tr TIMESLICE 0 else mret tt) ;;
  s ← getS;
  time ← liftO (aget (usage s) id);
  requested_time ← remove_timers id time;
  si ← get_si id;
  tr ← (if flip =? 0 then liftO (get_fast si) else mret NULL);
  if negb (tr =? NULL) then
    exec tr TIMESLICE 0 ;;
    si ← get_si id;
    mret (if negb (sched_count si =? 0) then 1 else flip)
  else if sched_count si =? 0 then
    w ← gc_work;
    if w =? 0 then mret 0
    else exec idle_tr requested_time 1 ;; remove_last id ;; mret 0
  else
    tr ← liftO (aget (sched_queue si) (position si));
    p ← liftO (umod (u32 (position si + 1)) (sched_count si));
    put_si id (set_position p si) ;;
    exec tr TIMESLICE 0 ;;
    remove_last id ;;
    mret 0.

(** * The queues as lists *)

(** The threads in the run queue, the sleepers in the pause queue, in order. *)
Definition runq (si : scheduler_info) : list Z := take (Z.to_nat (sched_count si)) (sched_queue si).
Definition pauseq (si : scheduler_info) : list paused_schedule :=
  take (Z.to_nat (pause_count si)) (pause_queue si).

(** The interrupt handlers in the fast queue, in order. *)
Definition fastq (si : scheduler_info) : list Z :=
  ring (fast_queue_ si) (Z.to_nat (fast_start si))
    (Z.to_nat ((fast_stop si - fast_start si) mod MAX_FAST)).

Definition si_wf (si : scheduler_info) : Prop :=
  0 <= sched_count si <= sched_size si /\ sched_size si < 1000000 /\
  Z.of_nat (length (sched_queue si)) = sched_size si /\
  0 <= pause_count si <= pause_size si /\ pause_size si < 1000000 /\
  Z.of_nat (length (pause_queue si)) = pause_size si /\
  (0 <= position si /\ (position si = 0 \/ position si < sched_count si)) /\
  length (fast_queue_ si) = 32%nat /\
  0 <= fast_start si < MAX_FAST /\ 0 <= fast_stop si < MAX_FAST.

(** Sleepers are kept in the order in which they are due. *)
Definition due_sorted (l : list paused_schedule) : Prop :=
  forall i j x y, (i < j)%nat -> l !! i = Some x -> l !! j = Some y -> ps_request x <= ps_request y.

Section array_loops.
Context {T : Type}.
Implicit Types (q : list T).

Lemma find_pos_spec (p : T -> bool) n i q : (i + n <= length q)%nat ->
  exists k, find_pos p n (Z.of_nat i) q = Ok (Z.of_nat k) /\ (i <= k <= i + n)%nat /\
  (forall j x, (i <= j < k)%nat -> q !! j = Some x -> p x = false) /\
  ((k < i + n)%nat -> exists x, q !! k = Some x /\ p x = true).
Proof.
  revert i. induction n as [|n IH]; intros i Hi; cbn [find_pos].
  { exists i. split_and!; [done | lia | lia | lia | lia]. }
  destruct (lookup_lt_is_Some_2 q i) as [x Hx]; [lia |].
  rewrite (aget_nat _ _ _ Hx). cbn [mbind outcome_bind]. destruct (p x) eqn:Hp.
  - exists i. split_and!; [done | lia | lia | lia | by exists x].
  - replace (Z.of_nat i + 1) with (Z.of_nat (S i)) by lia.
    destruct (IH (S i)) as (k & -> & Hk & Hbefore & Hat); [lia |].
    exists k. split_and!; [done | lia | lia | | intros; apply Hat; lia].
    intros j y Hj Hy. destruct (decide (j = i)) as [->|]; [congruence |].
    apply (Hbefore j); [lia | done].
Qed.

Lemma shift_down_spec n i c q : (i + n + c <= length q)%nat ->
  exists q', shift_down n (Z.of_nat i) (Z.of_nat c) q = Ok q' /\ length q' = length q /\
  forall k, q' !! k = if decide (i <= k < i + n)%nat then q !! (k + c)%nat else q !! k.
Proof.
  revert i q. induction n as [|n IH]; intros i q Hi; cbn [shift_down].
  { exists q. split_and!; [done | done |]. intros k. by rewrite decide_False by lia. }
  destruct (lookup_lt_is_Some_2 q (i + c)%nat) as [x Hx]; [lia |].
  rewrite <- Nat2Z.inj_add, (aget_nat _ _ _ Hx). cbn [mbind outcome_bind].
  rewrite aset_lt by lia. cbn [mbind outcome_bind]. rewrite Nat2Z.id.
  replace (Z.of_nat i + 1) with (Z.of_nat (S i)) by lia.
  destruct (IH (S i) (<[i:=x]> q)) as (q' & -> & Hlen & Hq); [rewrite length_insert; lia |].
  exists q'. split_and!; [done | by rewrite Hlen, length_insert |].
  intros k. rewrite Hq. destruct (decide (k = i)) as [->|Hk].
  - rewrite decide_False, decide_True by lia. rewrite list_lookup_insert_eq by lia. done.
  - repeat case_decide; try lia; rewrite list_lookup_insert_ne by lia; done.
Qed.

Lemma shift_down_take n c q : (n + c <= length q)%nat ->
  exists q', shift_down n 0 (Z.of_nat c) q = Ok q' /\ length q' = length q /\
  take n q' = take n (drop c q).
Proof.
  intros Hn. destruct (shift_down_spec n 0 c q) as (q' & E & Hl & Hq); [lia |].
  exists q'. split_and!; [exact E | done |]. apply list_eq. intros j.
  destruct (decide (j < n)%nat); [|by rewrite !lookup_take_ge by lia].
  rewrite !lookup_take_lt, lookup_drop, Hq, decide_True by lia. f_equal. lia.
Qed.

Lemma open_gap_spec n lo q : (lo + n < length q)%nat ->
  exists q', open_gap n (Z.of_nat (lo + n)) q = Ok q' /\ length q' = length q /\
  forall k, q' !! k = if decide (lo < k <= lo + n)%nat then q !! (k - 1)%nat else q !! k.
Proof.
  revert q. induction n as [|n IH]; intros q Hi; cbn [open_gap].
  { exists q. split_and!; [done | done |]. intros k. by rewrite decide_False by lia. }
  destruct (lookup_lt_is_Some_2 q (lo + n)%nat) as [x Hx]; [lia |].
  replace (Z.of_nat (lo + S n) - 1) with (Z.of_nat (lo + n)) by lia.
  rewrite (aget_nat _ _ _ Hx). cbn [mbind outcome_bind].
  rewrite aset_lt by lia. cbn [mbind outcome_bind]. rewrite Nat2Z.id.
  destruct (IH (<[(lo + S n)%nat:=x]> q)) as (q' & -> & Hlen & Hq); [rewrite length_insert; lia |].
  exists q'. split_and!; [done | by rewrite Hlen, length_insert |].
  intros k. rewrite Hq. destruct (decide (k = lo + S n)%nat) as [->|Hk].
  - rewrite decide_False, decide_True by lia. rewrite list_lookup_insert_eq by lia.
    by replace (lo + S n - 1)%nat with (lo + n)%nat by lia.
  - repeat case_decide; try lia; rewrite list_lookup_insert_ne by lia; done.
Qed.
End array_loops.

Lemma take_delete_lookup {T} (q q' : list T) (k n : nat) :
  (k < n)%nat -> (n <= length q)%nat -> length q' = length q ->
  (forall j, (j < n - 1)%nat -> q' !! j = if decide (k <= j)%nat then q !! (j + 1)%nat else q !! j) ->
  take (n - 1) q' = delete k (take n q).
Proof.
  intros Hk Hn Hlen Hq. apply list_eq. intros j.
  destruct (decide (j < n - 1)%nat) as [Hj|Hj].
  - rewrite lookup_take_lt, Hq by lia. case_decide.
    + rewrite list_lookup_delete_ge, lookup_take_lt by lia. f_equal. lia.
    + rewrite list_lookup_delete_lt, lookup_take_lt by lia. done.
  - rewrite lookup_take_ge by lia. symmetry. apply lookup_ge_None.
    rewrite length_delete by (apply lookup_lt_is_Some_2; rewrite length_take; lia).
    rewrite length_take. lia.
Qed.

(** Removal from the run queue: exactly the thread at that place goes, the order
    of the others stays, and the round-robin position stays in range. *)
Lemma remove_at_spec si k : si_wf si -> (Z.of_nat k < sched_count si) ->
  exists si', remove_at si (Z.of_nat k) = Ok si' /\ si_wf si' /\
  runq si' = delete k (runq si) /\ sched_count si' = sched_count si - 1 /\
  pauseq si' = pauseq si /\ requesting_state si' = requesting_state si /\
  requesting_thread si' = requesting_thread si /\ lock_scheduler si' = lock_scheduler si /\
  nested_lock si' = nested_lock si /\ si_cpu_id si' = si_cpu_id si /\
  lock_flags si' = lock_flags si.
Proof.
  intros Hwf Hk. pose proof Hwf as (Hc & Hs & Hl & Hpc & Hps & Hpl & Hpos & Hfl & Hfs & Hfe).
  unfold remove_at, close_gap.
  destruct (shift_down_spec (Z.to_nat (sched_count si - 1 - Z.of_nat k)) k 1 (sched_queue si))
    as (q' & Hrun & Hlen & Hq); [lia |].
  change (Z.of_nat 1) with 1 in Hrun. rewrite Hrun. cbn [mbind outcome_bind].
  rewrite (u32_small (sched_count si - 1)) by (unfold is_u32, two32; lia).
  assert (exists p, (if sched_count si - 1 =? 0 then Ok 0
      else umod (u32 (position si - 1)) (sched_count si - 1)) = Ok p /\
      0 <= p /\ (p = 0 \/ p < sched_count si - 1)) as (p & -> & Hp).
  { destruct (Z.eqb_spec (sched_count si - 1) 0); [exists 0; split; [done | lia] |].
    rewrite umod_pos by lia. eexists. split; [done |].
    pose proof (Z.mod_pos_bound (u32 (position si - 1)) (sched_count si - 1)). lia. }
  cbn [mbind outcome_bind]. eexists. split; [done |]. simpl.
  split_and!; try done.
  - unfold si_wf. simpl. split_and!; (done || lia).
  - unfold runq. simpl.
    replace (Z.to_nat (sched_count si - 1)) with (Z.to_nat (sched_count si) - 1)%nat by lia.
    apply take_delete_lookup; try lia. intros j Hj. rewrite Hq.
    repeat case_decide; try lia; done.
Qed.

(** * Locking *)

Definition unlocked (si : scheduler_info) : Prop := lock_scheduler si = 0 /\ nested_lock si = 0.

(** The scheduler structure of a processor once locked. *)
Definition locked_si (fl : bool) (si : scheduler_info) : scheduler_info :=
  set_nested_lock 1 (set_idle 0 (set_lock_flags (if fl then 1 else 0) (set_lock_scheduler 1 si))).

Definition unlocked_si (si : scheduler_info) : scheduler_info :=
  set_lock_scheduler 0 (set_nested_lock 0 si).

Lemma sched_lock_ok s id si complete :
  aget (cpus s) id = Ok si -> unlocked si -> 0 <= id < cpu_count s ->
  (complete = true -> cpuid s <> id /\ running si = 0) ->
  exists ip, sched_lock id complete s =
    Ok (tt, SchedState (<[Z.to_nat id := locked_si (iflag s) si]> (cpus s)) (threads s) (cpuid s)
              (cpu_count s) false (usage s) ip (sched_global_lock s)).
Proof.
  intros Hsi [Hlk Hne] Hid Hco. unfold sched_lock, get_si, put_si. mrun.
  destruct (Z.leb_spec 0 id), (Z.ltb_spec id (cpu_count s)); try lia. mrun.
  assert ((cpuid s =? id) && complete = false) as ->.
  { destruct (Z.eqb_spec (cpuid s) id) as [E|]; [|done].
    destruct complete; [|done]. by destruct (Hco eq_refl). }
  mrun. unfold disable_interrupts. mrun. cbn [cpus set_iflag]. rewrite Hsi. mrun. rewrite Hlk.
  cbn [Z.eqb]. mrun. assert (complete && negb (running si =? 0) = false) as Hrun.
  { destruct complete; [|done]. destruct (Hco eq_refl) as [_ ->]. done. }
  cbn [idle set_lock_flags set_lock_scheduler].
  destruct (Z.eqb_spec (idle si) 0) as [Ei|Ei]; mrun;
    cbn [running set_idle set_lock_flags set_lock_scheduler]; rewrite Hrun; mrun;
    cbn [cpus set_ipis set_iflag]; rewrite (aset_aget _ _ _ _ Hsi); mrun;
    cbn [nested_lock set_idle set_lock_flags set_lock_scheduler]; rewrite Hne; mrun;
    eexists; unfold set_cpus, locked_si, set_nested_lock, set_lock_flags, set_lock_scheduler, set_idle;
    simpl; rewrite ?Ei; done.
Qed.

Lemma sched_unlock_ok s id si :
  aget (cpus s) id = Ok si -> nested_lock si = 1 -> 0 <= id < cpu_count s ->
  sched_unlock id s =
    Ok (tt, SchedState (<[Z.to_nat id := unlocked_si si]> (cpus s)) (threads s) (cpuid s)
              (cpu_count s) (if (cpuid s =? id) && negb (lock_flags si =? 0) then true else iflag s)
              (usage s) (ipis s) (sched_global_lock s)).
Proof.
  intros Hsi Hne Hid. unfold sched_unlock, get_si, put_si. mrun. rewrite Hsi. mrun.
  destruct (Z.leb_spec 0 id), (Z.ltb_spec id (cpu_count s)); try lia. mrun.
  rewrite (aset_aget _ _ _ _ Hsi). mrun. rewrite Hne. mrun.
  destruct (_ && _); done.
Qed.

(** Locking the processors from [i] on; only the first lock can see interrupts
    enabled. *)
Lemma lock_from_ok n : forall (i : nat) s,
  Z.of_nat (i + n) = cpu_count s ->
  (forall id, (i <= id < i + n)%nat -> exists si, cpus s !! id = Some si /\ unlocked si /\
    (Z.of_nat id <> cpuid s -> running si = 0)) ->
  exists ip L, lock_from n (Z.of_nat i) s =
    Ok (tt, SchedState L (threads s) (cpuid s) (cpu_count s) (iflag s && bool_decide (n = 0%nat)) (usage s) ip
              (sched_global_lock s)) /\
  forall id : nat, L !! id = if decide (i <= id < i + n)%nat
    then locked_si (iflag s && bool_decide (id = i)) <$> cpus s !! id else cpus s !! id.
Proof.
  induction n as [|n IH]; intros i s Hn Hall; cbn [lock_from].
  { exists (ipis s), (cpus s). mrun. rewrite bool_decide_eq_true_2, andb_true_r by done. split; [by destruct s |].
    intros id. by rewrite decide_False by lia. }
  destruct (Hall i) as (si & Hsi & Hun & Hrun); [lia |].
  assert (aget (cpus s) (Z.of_nat i) = Ok si) as Hget by (by apply aget_nat).
  mrun. destruct (sched_lock_ok s (Z.of_nat i) si (negb (cpuid s =? Z.of_nat i)) Hget Hun) as [ip1 Hlock]; [lia | |].
  { destruct (Z.eqb_spec (cpuid s) (Z.of_nat i)); [done |]. intros _. split; [done | apply Hrun; lia]. }
  rewrite Hlock. mrun. replace (Z.of_nat i + 1) with (Z.of_nat (S i)) by lia.
  set (s1 := SchedState _ _ _ _ _ _ _ _).
  destruct (IH (S i) s1) as (ip & L & Hrun' & HL).
  - simpl. rewrite <- Hn. f_equal. lia.
  - intros id Hid. destruct (Hall id) as (x & Hx & ? & ?); [lia |]. exists x. split_and!; try done.
    simpl. by rewrite list_lookup_insert_ne by lia.
  - rewrite Hrun'. exists ip, L. split; [by destruct (iflag s) |].
    intros id. rewrite HL. unfold s1. simpl. rewrite Nat2Z.id. destruct (decide (id = i)) as [->|Hne].
    + rewrite decide_False, decide_True by lia. rewrite bool_decide_eq_true_2, andb_true_r by done.
      rewrite Hsi, list_lookup_insert_eq by (by eapply lookup_lt_Some). done.
    + rewrite list_lookup_insert_ne by done. rewrite (bool_decide_eq_false_2 (id = i)), andb_false_r by done.
      repeat case_decide; try lia; done.
Qed.

Lemma unlock_from_ok n : forall (i : nat) s,
  Z.of_nat (i + n) = cpu_count s ->
  (forall id, (i <= id < i + n)%nat -> exists si, cpus s !! id = Some si /\ nested_lock si = 1) ->
  exists fl L, unlock_from n (Z.of_nat i) s =
    Ok (tt, SchedState L (threads s) (cpuid s) (cpu_count s) fl (usage s) (ipis s) (sched_global_lock s)) /\
  (forall id : nat, L !! id = if decide (i <= id < i + n)%nat
    then unlocked_si <$> cpus s !! id else cpus s !! id) /\
  (fl = true <-> iflag s = true \/ exists id si, (i <= id < i + n)%nat /\ cpuid s = Z.of_nat id /\
    cpus s !! id = Some si /\ lock_flags si <> 0).
Proof.
  induction n as [|n IH]; intros i s Hn Hall; cbn [unlock_from].
  { exists (iflag s), (cpus s). mrun. split; [by destruct s |]. split; [intros id; by rewrite decide_False by lia |].
    split; [by left |]. intros [?|(id & si & ? & _)]; [done | lia]. }
  destruct (Hall i) as (si & Hsi & Hne); [lia |]. pose proof (lookup_lt_Some _ _ _ Hsi) as Hlt.
  mrun. rewrite (sched_unlock_ok s (Z.of_nat i) si) by (lia || done || by apply aget_nat). mrun.
  replace (Z.of_nat i + 1) with (Z.of_nat (S i)) by lia. rewrite Nat2Z.id. set (s1 := SchedState _ _ _ _ _ _ _ _).
  destruct (IH (S i) s1) as (fl & L & Hrun & HL & Hfl).
  - simpl. rewrite <- Hn. f_equal. lia.
  - intros id Hid. destruct (Hall id) as (x & Hx & ?); [lia |]. exists x. split; [|done].
    simpl. by rewrite list_lookup_insert_ne by lia.
  - rewrite Hrun. exists fl, L. split; [done |]. split.
    + intros id. rewrite HL. unfold s1. simpl. destruct (decide (id = i)) as [->|].
      * rewrite decide_False, decide_True by lia. by rewrite Hsi, list_lookup_insert_eq.
      * rewrite list_lookup_insert_ne by done. repeat case_decide; (done || lia).
    + rewrite Hfl. unfold s1. simpl. split.
      * intros [Hif|(id & x & Hid & Hc & Hx & Hf)].
        -- destruct (_ && _) eqn:E; [|by left]. apply andb_prop in E as [E1%Z.eqb_eq E2]. right.
           exists i, si. split_and!; [lia | lia | done | done |]. intros E3. by rewrite E3 in E2.
        -- rewrite list_lookup_insert_ne in Hx by lia. right. exists id, x. split_and!; (done || lia).
      * intros [Hif|(id & x & Hid & Hc & Hx & Hf)].
        -- left. rewrite Hif. by destruct (_ && _).
        -- destruct (decide (id = i)) as [->|].
           ++ left. rewrite Hc, Z.eqb_refl. replace x with si in Hf by congruence.
              by destruct (Z.eqb_spec (lock_flags si) 0).
           ++ right. exists id, x. rewrite list_lookup_insert_ne by done. split_and!; (done || lia).
Qed.

(** All processors can be locked: nobody holds a lock and no other processor runs
    a thread. *)
Definition lockable (s : sched_state) : Prop :=
  sched_global_lock s = 0 /\ Z.of_nat (length (cpus s)) = cpu_count s /\
  forall id si, cpus s !! id = Some si -> unlocked si /\ (Z.of_nat id <> cpuid s -> running si = 0).

(** The processors while everything is locked. *)
Definition all_locked (s s' : sched_state) : Prop :=
  cpuid s' = cpuid s /\ cpu_count s' = cpu_count s /\ usage s' = usage s /\ iflag s' = iflag s && (cpu_count s =? 0) /\
  forall id : nat, cpus s' !! id = locked_si (iflag s && bool_decide (id = 0%nat)) <$> cpus s !! id.

Lemma sched_lock_all_ok s : lockable s -> exists s', sched_lock_all s = Ok (tt, s') /\ all_locked s s' /\
  threads s' = threads s.
Proof.
  intros (Hg & Hlen & Hall). unfold sched_lock_all. mrun. rewrite Hg. cbn [Z.eqb]. mrun.
  destruct (lock_from_ok (Z.to_nat (cpu_count s)) 0 (set_global_lock 1 s)) as (ip & L & Hrun & HL).
  - simpl. lia.
  - intros id Hid. simpl. destruct (lookup_lt_is_Some_2 (cpus s) id) as [si Hsi]; [lia |].
    exists si. destruct (Hall id si Hsi). by split_and!.
  - change 0 with (Z.of_nat 0) at 1. rewrite Hrun. eexists. split; [done |]. split; [|done].
    split_and!; simpl; try done.
    + f_equal. destruct (Z.eqb_spec (cpu_count s) 0) as [->|];
        [by rewrite bool_decide_eq_true_2 | by rewrite bool_decide_eq_false_2 by lia].
    + intros id. rewrite HL. simpl. destruct (decide _) as [|Hd]; [done |].
      rewrite lookup_ge_None_2 by lia. done.
Qed.

(** [sched_unlock_all] after [sched_lock_all]: no processor is locked and the
    queues are what they were; interrupts are enabled again only on processor 0. *)
Lemma sched_unlock_all_ok s s1 : all_locked s s1 -> lockable s -> exists s', sched_unlock_all s1 = Ok (tt, s') /\
  threads s' = threads s1 /\ cpuid s' = cpuid s /\ cpu_count s' = cpu_count s /\ usage s' = usage s /\
  sched_global_lock s' = 0 /\
  iflag s' = iflag s && ((cpu_count s =? 0) || (cpuid s =? 0)) /\
  forall id : nat, cpus s' !! id = (fun si => unlocked_si (locked_si (iflag s && bool_decide (id = 0%nat)) si)) <$> cpus s !! id.
Proof.
  intros (Hid & Hcnt & Hus & Hif & Hcp) (Hg & Hlen & Hall). unfold sched_unlock_all. mrun.
  destruct (unlock_from_ok (Z.to_nat (cpu_count s1)) 0 s1) as (fl & L & Hrun & HL & Hfl).
  - simpl. lia.
  - intros id Hi. destruct (lookup_lt_is_Some_2 (cpus s) id) as [si Hsi]; [lia |].
    rewrite Hcp, Hsi. by eexists.
  - change 0 with (Z.of_nat 0) at 1. rewrite Hrun. mrun. eexists. split; [done |]. simpl. split_and!; try done.
    + apply eq_true_iff_eq. rewrite Hfl, Hif. destruct (iflag s) eqn:Ef; simpl.
      * rewrite orb_true_iff, !Z.eqb_eq. split.
        -- intros [?|(id & si & Hr & Hc & Hsi & Hf)]; [by left | right].
           rewrite Hcp in Hsi. destruct (cpus s !! id) as [x|]; [|done]. injection Hsi as <-.
           destruct (bool_decide_reflect (id = 0%nat)) as [->|]; [lia | done].
        -- intros [?|Hc]; [by left |]. destruct (Z.eqb_spec (cpu_count s) 0); [by left | right].
           destruct (lookup_lt_is_Some_2 (cpus s) 0) as [si Hsi]; [lia |]. exists 0%nat.
           eexists. rewrite Hcp, Hsi. split_and!; [lia | lia | lia | done | done].
      * split; [|done]. intros [?|(id & si & Hr & Hc & Hsi & Hf)]; [done |]. rewrite Hcp in Hsi.
        destruct (cpus s !! id) as [x|]; [|done]. by injection Hsi as <-.
    + intros id. rewrite HL, Hcp. destruct (decide _) as [|Hd]; [by destruct (cpus s !! id) |].
      by rewrite lookup_ge_None_2 by lia.
Qed.

(** * The pause queue *)

(** Where [pause] puts a sleeper that is due at [target]. *)
Definition pause_rank (target : Z) (l : list paused_schedule) (k : nat) : Prop :=
  (k <= length l)%nat /\
  (forall j x, (j < k)%nat -> l !! j = Some x -> ps_request x <= target) /\
  (forall x, l !! k = Some x -> target < ps_request x).

Lemma pause_insert_sorted target x l k : due_sorted l -> pause_rank target l k ->
  ps_request x = target -> due_sorted (take k l ++ x :: drop k l).
Proof.
  intros Hs (Hk & Hb & Ha) Hx.
  assert (forall j y, (k <= j)%nat -> l !! j = Some y -> target < ps_request y) as Hafter.
  { intros j y Hj Hy. destruct (lookup_lt_is_Some_2 l k) as [z Hz].
    { apply lookup_lt_Some in Hy. lia. }
    specialize (Ha z Hz). destruct (decide (j = k)) as [->|]; [congruence |].
    pose proof (Hs k j z y ltac:(lia) Hz Hy). lia. }
  assert (forall j y, (take k l ++ x :: drop k l) !! j = Some y ->
    (j < k /\ l !! j = Some y) \/ (j = k /\ y = x) \/ (k < j /\ l !! (j - 1) = Some y))%nat as Hcase.
  { intros j y Hy. destruct (decide (j < k)%nat) as [Hj|Hj].
    - rewrite lookup_app_l in Hy by (rewrite length_take; lia).
      apply lookup_take_Some in Hy as [Hy _]. by left.
    - rewrite lookup_app_r in Hy by (rewrite length_take; lia). rewrite length_take in Hy.
      replace (k `min` length l)%nat with k in Hy by lia.
      destruct (j - k)%nat as [|m] eqn:E; simpl in Hy.
      + injection Hy as <-. right. left. split; [lia | done].
      + rewrite lookup_drop in Hy. right. right. split; [lia |].
        by replace (j - 1)%nat with (k + m)%nat by lia. }
  intros i j y z Hij Hy Hz. apply Hcase in Hy, Hz.
  destruct Hy as [[Hi Hy]|[[Hi ->]|[Hi Hy]]], Hz as [[Hj Hz]|[[Hj ->]|[Hj Hz]]]; try lia.
  - by apply (Hs i j).
  - rewrite Hx. by apply (Hb i).
  - pose proof (Hb i y Hi Hy). pose proof (Hafter (j - 1)%nat z ltac:(lia) Hz). lia.
  - rewrite Hx. pose proof (Hafter (j - 1)%nat z ltac:(lia) Hz). lia.
  - apply (Hs (i - 1)%nat (j - 1)%nat); [lia | done | done].
Qed.

(** The array work of [pause]: search, make room, store. *)
Lemma pause_array si target x : si_wf si -> pause_count si < pause_size si ->
  exists k q1 q2,
    find_pos (fun e => target <? ps_request e) (Z.to_nat (pause_count si)) 0 (pause_queue si) = Ok (Z.of_nat k) /\
    open_gap (Z.to_nat (pause_count si - Z.of_nat k)) (pause_count si) (pause_queue si) = Ok q1 /\
    aset q1 (Z.of_nat k) x = Ok q2 /\ length q2 = length (pause_queue si) /\
    pause_rank target (pauseq si) k /\
    take (S (Z.to_nat (pause_count si))) q2 = take k (pauseq si) ++ x :: drop k (pauseq si).
Proof.
  intros (Hc & Hs & Hl & Hpc & Hps & Hpl & Hpos & Hfl & Hfs & Hfe) Hlt.
  set (n := Z.to_nat (pause_count si)).
  destruct (find_pos_spec (fun e => target <? ps_request e) n 0 (pause_queue si))
    as (k & Hfind & Hk & Hbefore & Hat); [lia |].
  destruct (open_gap_spec (n - k) k (pause_queue si)) as (q1 & Hopen & Hlen1 & Hq1); [lia |].
  exists k, q1, (<[k := x]> q1). split_and!.
  - exact Hfind.
  - rewrite <- Hopen. f_equal; lia.
  - rewrite aset_lt by lia. by rewrite Nat2Z.id.
  - by rewrite length_insert.
  - unfold pause_rank, pauseq. fold n. rewrite length_take. split_and!; [lia | |].
    + intros j y Hj Hy. apply lookup_take_Some in Hy as [Hy _].
      pose proof (Hbefore j y ltac:(lia) Hy) as Hb. apply Z.ltb_ge in Hb. done.
    + intros y Hy. apply lookup_take_Some in Hy as [Hy Hkn].
      destruct Hat as (z & Hz & Hb); [lia |]. apply Z.ltb_lt in Hb. congruence.
  - apply list_eq. intros j. unfold pauseq. fold n.
    destruct (decide (j < S n)%nat) as [Hj|Hj].
    + rewrite lookup_take_lt by lia. destruct (decide (j = k)) as [->|Hjk].
      * rewrite list_lookup_insert_eq by lia.
        rewrite lookup_app_r by (rewrite !length_take; lia).
        rewrite !length_take. by replace (k - k `min` (n `min` length (pause_queue si)))%nat with 0%nat by lia.
      * rewrite list_lookup_insert_ne, Hq1 by done. destruct (decide (j < k)%nat) as [Hlt'|Hge].
        -- rewrite decide_False by lia. rewrite lookup_app_l by (rewrite !length_take; lia).
           rewrite !lookup_take_lt by lia. done.
        -- rewrite decide_True by lia. rewrite lookup_app_r by (rewrite !length_take; lia).
           rewrite !length_take.
           replace (j - k `min` (n `min` length (pause_queue si)))%nat with (S (j - 1 - k)) by lia.
           simpl. rewrite lookup_drop, lookup_take_lt by lia. f_equal. lia.
    + rewrite lookup_take_ge by lia. symmetry. apply lookup_ge_None.
      rewrite length_app. simpl. rewrite length_drop, !length_take. lia.
Qed.

(** * Running the primitive steps *)

Lemma get_si_ok id s si : aget (cpus s) id = Ok si -> get_si id s = Ok (si, s).
Proof. intros H. unfold get_si. mrun. by rewrite H. Qed.

Lemma put_si_ok id s si si' : aget (cpus s) id = Ok si' ->
  put_si id si s = Ok (tt, set_cpus (<[Z.to_nat id := si]> (cpus s)) s).
Proof. intros H. unfold put_si. mrun. by rewrite (aset_aget _ _ _ _ H). Qed.

Lemma get_tr_ok p s t : p <> 0 -> threads s !! p = Some t -> get_tr p s = Ok (t, s).
Proof. intros Hp H. unfold get_tr. mrun. by rewrite (hload_Some _ _ _ Hp H). Qed.

Lemma put_tr_ok p s t t' : p <> 0 -> threads s !! p = Some t' ->
  put_tr p t s = Ok (tt, set_threads (<[p := t]> (threads s)) s).
Proof. intros Hp H. unfold put_tr. mrun. by rewrite hstore_Some by eauto. Qed.

(** Runs the next step with the given equation for it. *)
Ltac step E := rewrite (run_bind_Ok _ _ _ _ _ E); cbv beta.

Ltac snorm :=
  cbn [cpus threads cpuid cpu_count iflag usage ipis set_cpus set_threads set_iflag set_ipis];
  rewrite ?list_insert_insert_eq, ?insert_insert_eq.

(** What an operation that locks and unlocks the scheduler of its own processor
    leaves there: the fields of [si'] behind an open lock. *)
Definition after_lock (fl : bool) (si : scheduler_info) : scheduler_info :=
  unlocked_si (locked_si fl si).

Lemma iflag_restored s id :
  (if (cpuid s =? id) && negb ((if iflag s then 1 else 0) =? 0) then true else false) =
  (if cpuid s =? id then iflag s else false).
Proof. by destruct (cpuid s =? id), (iflag s). Qed.

Lemma set_thread_state_current s tr st me t :
  aget (cpus s) (cpuid s) = Ok me -> tr <> 0 -> threads s !! tr = Some t ->
  current_thread me = tr -> state t = THREAD_RUNNING -> st <> THREAD_RUNNING ->
  set_thread_state tr st s =
    Ok (tt, set_cpus (<[Z.to_nat (cpuid s) :=
               set_requesting_state st (set_requesting_thread tr me)]> (cpus s)) s).
Proof.
  intros Hme Htr Ht Hcur Hrun Hst. unfold set_thread_state. step (get_tr_ok _ _ _ Htr Ht).
  rewrite Hrun. destruct (Z.eqb_spec THREAD_RUNNING st); [congruence |]. mrun.
  rewrite (get_si_ok _ _ _ Hme), Hcur, !Z.eqb_refl. mrun. unfold disable_interrupts. mrun.
  rewrite (put_si_ok (cpuid s) (set_iflag false s) _ me) by exact Hme. mrun. by destruct s as [???? [] ???].
Qed.

(** C36. [pause] on the running thread: the thread is put behind every sleeper that
    is due no later and before every one due later, so the pause queue stays
    sorted and equal deadlines keep their order; the thread is asked to go
    dormant at the end of its turn, its duration is set, and the lock and the
    interrupt flag are left as they were. *)
Theorem pause_inserts_sorted s tr ms t si now :
  tr <> 0 -> threads s !! tr = Some t -> state t = THREAD_RUNNING -> cpu t = cpuid s ->
  0 < ms -> 0 <= cpuid s < cpu_count s ->
  aget (cpus s) (cpuid s) = Ok si -> si_wf si -> unlocked si -> current_thread si = tr ->
  aget (usage s) (cpuid s) = Ok now ->
  due_sorted (pauseq si) -> pause_count si < pause_size si ->
  exists s' si' k, pause tr ms s = Ok (0, s') /\ aget (cpus s') (cpuid s) = Ok si' /\
  pause_rank ((ms + now) mod 2 ^ 64) (pauseq si) k /\
  pauseq si' = take k (pauseq si) ++
    PausedSchedule tr THREAD_RUNNING ((ms + now) mod 2 ^ 64) now :: drop k (pauseq si) /\
  due_sorted (pauseq si') /\ si_wf si' /\ unlocked si' /\ runq si' = runq si /\
  requesting_thread si' = tr /\ requesting_state si' = THREAD_DORMANT /\
  threads s' = <[tr := set_duration ms t]> (threads s) /\ iflag s' = iflag s.
Proof.
  intros Htr Ht Hst Hcpu Hms Hid Hsi Hwf Hun Hcur Hnow Hsort Hroom.
  set (target := (ms + now) mod 2 ^ 64).
  set (x := PausedSchedule tr THREAD_RUNNING target now).
  destruct (sched_lock_ok s (cpuid s) si false Hsi Hun Hid ltac:(done)) as [ip Hlock].
  destruct (pause_array si target x Hwf Hroom) as (k & q1 & q2 & Hfind & Hopen & Hset & Hlen & Hrank & Htake).
  pose proof (aget_bounds _ _ _ Hsi) as Hb.
  unfold pause, massert. mrun. destruct (Z.eqb_spec tr NULL); [done |].
  destruct (Z.ltb_spec 0 ms); [|lia]. mrun. rewrite (get_tr_ok _ _ _ Htr Ht). mrun.
  rewrite Hcpu, Z.eqb_refl. mrun. rewrite Hlock. mrun.
  rewrite (get_si_ok (cpuid s) _ (locked_si (iflag s) si)) by (by apply aget_insert). mrun.
  cbn [usage]. rewrite Hnow. mrun. fold target.
  change (pause_count (locked_si (iflag s) si)) with (pause_count si).
  change (pause_size (locked_si (iflag s) si)) with (pause_size si).
  change (pause_queue (locked_si (iflag s) si)) with (pause_queue si).
  destruct (Z.eqb_spec (pause_count si) (pause_size si)); [lia |]. mrun.
  rewrite Hfind. mrun. rewrite Hopen. mrun. rewrite Hst. fold x. rewrite Hset. mrun.
  erewrite put_si_ok by (cbn [cpus]; by apply aget_insert). mrun.
  erewrite set_thread_state_current; cycle 1.
  { cbn [cpus set_cpus cpuid]. apply aget_insert. rewrite length_insert. done. }
  { exact Htr. } { exact Ht. } { exact Hcur. } { exact Hst. } { done. }
  mrun. erewrite get_tr_ok by done. mrun. erewrite put_tr_ok by done. mrun.
  erewrite sched_unlock_ok; cycle 1.
  { cbn [cpus set_threads set_cpus cpuid]. apply aget_insert. rewrite !length_insert. done. }
  { done. } { done. }
  mrun. snorm. do 2 eexists. exists k.
  split; [done |]. cbn [cpus]. split; [by apply aget_insert |].
  set (si' := unlocked_si _).
  assert (pause_count si + 1 < two32) as Hsm.
  { destruct Hwf as (_ & _ & _ & Hc & Hs & _). unfold two32. lia. }
  assert (pauseq si' = take k (pauseq si) ++ x :: drop k (pauseq si)) as Hq.
  { rewrite <- Htake. unfold pauseq. simpl. f_equal.
    destruct Hwf as (_ & _ & _ & Hc & Hs & _).
    rewrite u32_small by (unfold is_u32; lia). lia. }
  rewrite Hq. split_and!; try done.
  - by apply (pause_insert_sorted target).
  - destruct Hwf as (Hc & Hs & Hl & Hpc & Hps & Hpl & Hpos & Hfl & Hfs & Hfe).
    unfold si_wf, si'. simpl. rewrite u32_small by (unfold is_u32; lia).
    split_and!; try done; lia.
  - cbn [iflag cpuid lock_flags]. simpl. rewrite Z.eqb_refl. by destruct (iflag s).
Qed.

(** * Waking sleepers *)

Definition wake (cpu_id time : Z) (h : gmap Z thread) (e : paused_schedule) : gmap Z thread :=
  match h !! ps_tr e with
  | Some t => <[ps_tr e := set_cpu cpu_id
      (set_duration ((time - ps_start e) mod 2 ^ 64) (set_state (ps_state e) t))]> h
  | None => h
  end.

(** The sleepers at the head of the queue that are due at [time]. *)
Fixpoint due_prefix (time : Z) (l : list paused_schedule) : list paused_schedule :=
  match l with
  | e :: l => if ps_request e <=? time then e :: due_prefix time l else []
  | [] => []
  end.

Lemma due_sorted_tail e l : due_sorted (e :: l) ->
  due_sorted l /\ forall y, y ∈ l -> ps_request e <= ps_request y.
Proof.
  intros H. split.
  - intros i j x y Hij Hx Hy. apply (H (S i) (S j)); [lia | done | done].
  - intros y [j Hj]%list_elem_of_lookup. by apply (H 0%nat (S j)); [lia | |].
Qed.

Lemma due_sorted_cons e l : due_sorted l -> (forall y, y ∈ l -> ps_request e <= ps_request y) ->
  due_sorted (e :: l).
Proof.
  intros Hl He [|i] [|j] x y Hij Hx Hy; try lia; simpl in *.
  - injection Hx as <-. apply He. apply list_elem_of_lookup. eauto.
  - apply (Hl i j); [lia | done | done].
Qed.

Lemma due_prefix_filter time l : due_sorted l ->
  due_prefix time l = filter (fun e => ps_request e <= time) l /\
  l = due_prefix time l ++ filter (fun e => ~ ps_request e <= time) l.
Proof.
  induction l as [|e l IH]; intros Hs; [done |].
  apply due_sorted_tail in Hs as [Hl He]. destruct (IH Hl) as [IH1 IH2]. simpl.
  rewrite !filter_cons. destruct (Z.leb_spec (ps_request e) time).
  - rewrite decide_True, decide_False by lia. simpl. split; [by f_equal | by f_equal].
  - rewrite decide_False, decide_True by lia.
    assert (filter (fun e => ps_request e <= time) l = []) as ->.
    { apply filter_none. intros y Hy. specialize (He y Hy). lia. }
    split; [done |]. simpl. f_equal. rewrite IH2 at 1.
    rewrite IH1. assert (filter (fun e => ps_request e <= time) l = []) as ->; [|done].
    apply filter_none. intros y Hy. specialize (He y Hy). lia.
Qed.

Lemma wake_live cpu_id time h e p : is_Some (h !! p) -> is_Some (wake cpu_id time h e !! p).
Proof.
  intros H. unfold wake. destruct (h !! ps_tr e); [|done].
  destruct (decide (ps_tr e = p)) as [->|]; [rewrite lookup_insert_eq; eauto |].
  by rewrite lookup_insert_ne.
Qed.

Lemma wake_loop_spec time id rest : forall fuel c s si,
  aget (cpus s) id = Ok si -> si_cpu_id si = id ->
  rest <> [] -> pause_count si = Z.of_nat (length rest) ->
  (forall j e, rest !! j = Some e -> pause_queue si !! (c + j)%nat = Some e) ->
  0 <= sched_count si -> sched_count si + Z.of_nat (length rest) <= sched_size si ->
  Z.of_nat (length (sched_queue si)) = sched_size si -> sched_size si < 1000000 ->
  Forall (fun e => ps_tr e <> 0 /\ is_Some (threads s !! ps_tr e)) rest ->
  (length rest < fuel)%nat ->
  exists q', length q' = length (sched_queue si) /\
  let due := due_prefix time rest in
  take (Z.to_nat (sched_count si) + length due) q' = runq si ++ map ps_tr due /\
  wake_loop fuel id time (Z.of_nat c) s = Ok (Z.of_nat (c + length due),
    set_threads (foldl (wake id time) (threads s) due)
      (set_cpus (<[Z.to_nat id :=
         set_pause_count (Z.of_nat (length rest - length due))
           (set_sched_count (sched_count si + Z.of_nat (length due)) (set_sched_queue q' si))]>
         (cpus s)) s)).
Proof.
  induction rest as [|e rest IH]; intros fuel c s si Hsi Hid Hne Hpc Harr H0 Hroom Hlen Hsz Hlive Hfuel;
    [done |].
  destruct fuel as [|fuel]; [simpl in Hfuel; lia |]. simpl length in *.
  apply Forall_cons in Hlive as [[Htr [t Ht]] Hlive].
  cbn [wake_loop due_prefix]. mrun. rewrite (get_si_ok _ _ _ Hsi). mrun.
  pose proof (Harr 0%nat e eq_refl) as He. rewrite Nat.add_0_r in He.
  rewrite (aget_nat _ _ _ He). mrun. destruct (Z.leb_spec (ps_request e) time) as [Hdue|Hdue].
  2:{ exists (sched_queue si). split; [done |]. simpl. rewrite app_nil_r, !Nat.add_0_r.
      split; [done |]. mrun. rewrite Z.add_0_r, <- Hpc.
      replace (set_pause_count _ _) with si by by destruct si.
      rewrite list_insert_id; [by destruct s |]. by apply aget_Some in Hsi as [_ ?]. }
  mrun. rewrite (get_tr_ok _ _ _ Htr Ht). mrun. rewrite (put_tr_ok _ _ _ _ Htr Ht). mrun.
  destruct (Z.eqb_spec (sched_count si) (sched_size si)); [lia |]. mrun.
  rewrite aset_lt by lia. mrun.
  erewrite put_si_ok by (snorm; exact Hsi). mrun. snorm.
  rewrite !u32_small by (unfold is_u32, two32; lia).
  set (q1 := <[Z.to_nat (sched_count si) := ps_tr e]> (sched_queue si)).
  assert (take (S (Z.to_nat (sched_count si))) q1 = runq si ++ [ps_tr e]) as Hq1.
  { unfold q1, runq. rewrite (take_S_r _ _ (ps_tr e)) by (apply list_lookup_insert_eq; lia).
    f_equal. apply take_insert_ge. lia. }
  assert (wake id time (threads s) e = <[ps_tr e := set_cpu (si_cpu_id si)
      (set_duration ((time - ps_start e) mod 2 ^ 64) (set_state (ps_state e) t))]> (threads s)) as Hw.
  { unfold wake. by rewrite Ht, Hid. }
  rewrite <- Hw. cbn [pause_count set_pause_count].
  destruct (Z.eqb_spec (pause_count si - 1) 0) as [Hz|Hz].
  - destruct rest; [|simpl in *; lia]. simpl in *. exists q1. unfold q1 at 1. rewrite length_insert.
    split; [done |]. split; [by replace (Z.to_nat (sched_count si) + 1)%nat with (S (Z.to_nat (sched_count si))) by lia |].
    mrun. do 3 f_equal; [lia |]. do 2 f_equal. by rewrite Hz.
  - set (si1 := set_pause_count _ _). set (s1 := set_cpus _ _).
    destruct (IH fuel (S c) s1 si1) as (q' & Hl' & Ht' & Hrun).
    + unfold s1. snorm. apply aget_insert. by apply aget_bounds in Hsi.
    + done.
    + destruct rest; [simpl in *; lia | done].
    + simpl. lia.
    + intros j x Hx. simpl. replace (S (c + j)) with (c + S j)%nat by lia. by apply Harr.
    + simpl. lia.
    + simpl. lia.
    + simpl. unfold q1. by rewrite length_insert.
    + done.
    + eapply Forall_impl; [exact Hlive |]. simpl. intros x [? ?]. split; [done |]. by apply wake_live.
    + lia.
    + exists q'. split; [rewrite Hl'; simpl; unfold q1; by rewrite length_insert |].
      simpl length. split.
      * replace (Z.to_nat (sched_count si) + S (length (due_prefix time rest)))%nat
          with (Z.to_nat (sched_count si1) + length (due_prefix time rest))%nat by (simpl; lia).
        rewrite Ht'. unfold runq at 1. simpl sched_queue.
        simpl sched_count. replace (Z.to_nat (sched_count si + 1)) with (S (Z.to_nat (sched_count si))) by lia.
        rewrite Hq1, <- app_assoc. done.
      * replace (Z.of_nat c + 1) with (Z.of_nat (S c)) by lia. rewrite Hrun.
        unfold s1, set_threads, set_cpus. simpl. rewrite list_insert_insert_eq. f_equal. f_equal; [lia |].
        f_equal. f_equal.
        unfold si1, set_pause_count, set_sched_count, set_sched_queue. simpl. f_equal; lia.
Qed.

(** C35. [remove_timers] wakes exactly the sleepers that are due, in the order of
    their deadlines: they are appended to the run queue, get back the state they
    slept in, the time they really slept and this processor; the others keep
    their place at the head of the pause queue, and the result is the time until
    the first of them is due, 0 when none is left. *)
Theorem remove_timers_wakes_due id time s si :
  aget (cpus s) id = Ok si -> si_cpu_id si = id -> si_wf si -> due_sorted (pauseq si) ->
  sched_count si + pause_count si <= sched_size si ->
  Forall (fun e => ps_tr e <> 0 /\ is_Some (threads s !! ps_tr e)) (pauseq si) ->
  let due := filter (fun e => ps_request e <= time) (pauseq si) in
  let rest := filter (fun e => ~ ps_request e <= time) (pauseq si) in
  exists s' si',
    remove_timers id time s =
      Ok (match rest with [] => 0 | e :: _ => (ps_request e - time) mod 2 ^ 64 end, s') /\
    aget (cpus s') id = Ok si' /\ si_wf si' /\
    runq si' = runq si ++ map ps_tr due /\ pauseq si' = rest /\
    threads s' = foldl (wake id time) (threads s) due.
Proof.
  intros Hsi Hid Hwf Hsort Hroom Hlive due rest.
  pose proof Hwf as (Hc & Hs & Hl & Hpc & Hps & Hpl & Hpos & Hfl & Hfs & Hfe).
  destruct (due_prefix_filter time (pauseq si) Hsort) as [Hdue Hsplit]. fold due in Hdue.
  fold rest in Hsplit. rewrite Hdue in Hsplit.
  assert (length (pauseq si) = Z.to_nat (pause_count si)) as Hlp.
  { unfold pauseq. rewrite length_take. lia. }
  unfold remove_timers. mrun. rewrite (get_si_ok _ _ _ Hsi). mrun.
  destruct (Z.eqb_spec (pause_count si) 0) as [Hz|Hz].
  { assert (pauseq si = []) as Hnil by (apply nil_length_inv; lia).
    unfold due, rest. rewrite Hnil. simpl. exists s, si.
    rewrite app_nil_r. split_and!; done. }
  destruct (wake_loop_spec time id (pauseq si) (S (Z.to_nat (pause_count si))) 0 s si)
    as (q' & Hlq & Htq & Hrun); try done; try lia.
  { intros E. rewrite E in Hlp. simpl in Hlp. lia. }
  { intros j e Hj. unfold pauseq in Hj. apply lookup_take_Some in Hj as [Hj _]. exact Hj. }
  rewrite Hdue in Htq, Hrun. cbv zeta in Hrun, Htq. rewrite Nat.add_0_l in Hrun.
  change (Z.of_nat 0) with 0 in Hrun.
  assert (length (pauseq si) = (length due + length rest)%nat) as Hlsum.
  { rewrite Hsplit at 1. by rewrite length_app. }
  mrun. rewrite Hrun. mrun. set (si1 := set_pause_count _ _).
  erewrite (get_si_ok id) by (snorm; apply aget_insert; by apply aget_bounds in Hsi). mrun.
  assert (pause_count si1 = Z.of_nat (length rest)) as Hpc1 by (simpl; lia).
  assert (exists q2, shift_down (Z.to_nat (pause_count si1)) 0 (Z.of_nat (length due)) (pause_queue si1) = Ok q2
    /\ length q2 = length (pause_queue si) /\ take (length rest) q2 = rest) as (q2 & Hsh & Hlq2 & Htq2).
  { rewrite Hpc1, Nat2Z.id. change (pause_queue si1) with (pause_queue si).
    destruct (shift_down_take (length rest) (length due) (pause_queue si)) as (q2 & E & Hl2 & Hq2); [lia |].
    exists q2. split_and!; [exact E | exact Hl2 |]. rewrite Hq2.
    rewrite take_drop_commute, <- Hlsum, Hlp. fold (pauseq si).
    rewrite Hsplit. apply drop_app_length. }
  rewrite Hsh. mrun. erewrite put_si_ok by (snorm; apply aget_insert; by apply aget_bounds in Hsi).
  mrun. snorm. rewrite Hpc1. set (si2 := set_pause_queue q2 si1).
  assert (si_wf si2) as Hwf2.
  { unfold si_wf, si2, si1. simpl. split_and!; (done || lia). }
  assert (runq si2 = runq si ++ map ps_tr due) as Hr2.
  { unfold runq at 1, si2, si1. simpl. rewrite <- Htq. f_equal. lia. }
  assert (pauseq si2 = rest) as Hp2.
  { unfold pauseq. change (pause_count si2) with (pause_count si1). rewrite Hpc1, Nat2Z.id. exact Htq2. }
  assert (aget (<[Z.to_nat id := si2]> (cpus s)) id = Ok si2) as Hg2.
  { apply aget_insert. by apply aget_bounds in Hsi. }
  destruct rest as [|e rest'] eqn:Er.
  - simpl. mrun. do 2 eexists. split; [done |]. split_and!; done.
  - simpl length. destruct (Z.eqb_spec (Z.of_nat (S (length rest'))) 0); [lia |].
    assert (q2 !! 0%nat = Some e) as He2.
    { rewrite <- (lookup_take_lt _ (length (e :: rest')) 0) by (simpl; lia). by rewrite Htq2. }
    mrun. rewrite (aget_nat _ 0 _ He2 : aget q2 0 = Ok e). mrun.
    do 2 eexists. split; [done |]. split_and!; done.
Qed.

(** * The run queue *)

Lemma find_runq si tr : si_wf si ->
  exists k, find_pos (Z.eqb tr) (Z.to_nat (sched_count si)) 0 (sched_queue si) = Ok (Z.of_nat k) /\
  (k <= length (runq si))%nat /\ Z.of_nat (length (runq si)) = sched_count si /\
  (forall j, (j < k)%nat -> runq si !! j <> Some tr) /\
  ((k < length (runq si))%nat -> runq si !! k = Some tr).
Proof.
  intros (Hc & Hs & Hl & _).
  destruct (find_pos_spec (Z.eqb tr) (Z.to_nat (sched_count si)) 0 (sched_queue si))
    as (k & Hfind & Hk & Hbefore & Hat); [lia |].
  assert (length (runq si) = Z.to_nat (sched_count si)) as Hlr by (unfold runq; rewrite length_take; lia).
  exists k. split_and!; [exact Hfind | lia | lia | |].
  - intros j Hj E. unfold runq in E. apply lookup_take_Some in E as [E _].
    pose proof (Hbefore j tr ltac:(lia) E) as Hb. by rewrite Z.eqb_refl in Hb.
  - intros Hlt. destruct Hat as (x & Hx & Hp); [lia |]. apply Z.eqb_eq in Hp as <-.
    unfold runq. rewrite lookup_take_lt by lia. done.
Qed.

(** [remove_last] honours the state change that the running thread asked for:
    when the thread is in the run queue its first entry goes, with the order of
    the others and the round-robin position kept in range, and the thread leaves
    the processor in the state it asked for; when it is not there only the
    request is cleared. *)
Theorem remove_last_honours id s si tr t :
  aget (cpus s) id = Ok si -> si_wf si -> requesting_thread si = tr -> tr <> 0 ->
  0 <= requesting_state si -> threads s !! tr = Some t ->
  exists s' si', remove_last id s = Ok (tt, s') /\ aget (cpus s') id = Ok si' /\ si_wf si' /\
  requesting_thread si' = NULL /\ requesting_state si' = -1 /\ pauseq si' = pauseq si /\
  ((exists k, runq si !! k = Some tr /\ tr ∉ take k (runq si) /\ runq si' = delete k (runq si) /\
     threads s' = <[tr := set_cpu (-1) (set_state (requesting_state si) t)]> (threads s)) \/
   (tr ∉ runq si /\ runq si' = runq si /\ threads s' = threads s)).
Proof.
  intros Hsi Hwf Hreq Htr Hst Ht. pose proof (aget_bounds _ _ _ Hsi) as Hb.
  destruct (find_runq si tr Hwf) as (k & Hfind & Hk & Hlen & Hbefore & Hat).
  unfold remove_last. mrun. rewrite (get_si_ok _ _ _ Hsi). mrun. rewrite Hreq.
  destruct (Z.eqb_spec tr NULL); [done |]. destruct (Z.leb_spec 0 (requesting_state si)); [|lia].
  mrun. rewrite Hfind. mrun. destruct (Z.eqb_spec (Z.of_nat k) (sched_count si)).
  - mrun. erewrite put_si_ok by done. do 2 eexists. split; [done |]. snorm.
    split; [by apply aget_insert |]. split_and!; try done. right. split_and!; try done.
    intros [j Hj]%list_elem_of_lookup. pose proof (lookup_lt_Some _ _ _ Hj).
    by apply (Hbefore j); [lia |].
  - destruct (remove_at_spec si k Hwf) as (si' & E & Hwf' & Hr & Hcnt & Hp & _ ); [lia |].
    rewrite E. mrun. rewrite (get_tr_ok _ _ _ Htr Ht). mrun. rewrite (put_tr_ok _ _ _ _ Htr Ht). mrun.
    erewrite put_si_ok by (snorm; exact Hsi). do 2 eexists. split; [done |]. snorm.
    split; [by apply aget_insert |]. split; [exact Hwf' |]. split_and!; try done.
    left. exists k. split_and!; [apply Hat; lia | | exact Hr |].
    + intros [j Hj]%list_elem_of_lookup. apply lookup_take_Some in Hj as [Hj Hjk]. by apply (Hbefore j).
    + do 3 f_equal. unfold remove_at in E. inv_ok. done.
Qed.

(** [scheduler] for [n] turns. *)
Fixpoint turns (exec : Z -> Z -> Z -> K unit) (gc_work : K Z) (gc_tr idle_tr : Z)
    (n : nat) (id flip : Z) : K Z :=
  match n with
  | O => mret flip
  | S n => flip ← scheduler_turn exec gc_work gc_tr idle_tr id flip;
           turns exec gc_work gc_tr idle_tr n id flip
  end.

Section fairness.
Context (gc_work : K Z) (gc_tr idle_tr id : Z) (s : sched_state) (si : scheduler_info) (now : Z).
Hypothesis (Hgc : forall s, exists w, gc_work s = Ok (w, s) /\ w <> 0).
Hypothesis (Hsi : aget (cpus s) id = Ok si) (Hwf : si_wf si) (Hnow : aget (usage s) id = Ok now).
Hypothesis (Hsleep : pause_count si = 0) (Hcount : 0 < sched_count si).
Hypothesis (Hreq : requesting_thread si = NULL) (Hrst : requesting_state si = -1).

(** The state with the round-robin position at [p]. *)
Definition at_position (p : Z) : sched_state :=
  set_cpus (<[Z.to_nat id := set_position p si]> (cpus s)) s.

Lemma at_position_si p : aget (cpus (at_position p)) id = Ok (set_position p si).
Proof. snorm. apply aget_insert. by apply aget_bounds in Hsi. Qed.

Lemma get_fast_total : exists f, get_fast si = Ok f.
Proof.
  destruct Hwf as (_ & _ & _ & _ & _ & _ & _ & Hl & Hfs & _). unfold get_fast.
  destruct (_ =? _); [by eexists |]. apply aget_lt. unfold MAX_FAST in Hfs. lia.
Qed.

Lemma turn_prefix exec p flip :
  scheduler_turn exec gc_work gc_tr idle_tr id flip (at_position p) =
  (tr ← (if flip =? 0 then liftO (get_fast si) else mret NULL);
   if negb (tr =? NULL) then exec tr TIMESLICE 0 ;; si ← get_si id;
     mret (if negb (sched_count si =? 0) then 1 else flip)
   else
     tr ← liftO (aget (sched_queue si) p);
     put_si id (set_position ((p + 1) mod two32 mod sched_count si) (set_position p si)) ;;
     exec tr TIMESLICE 0 ;; remove_last id ;; mret 0) (at_position p).
Proof.
  unfold scheduler_turn. destruct (Hgc (at_position p)) as (w & Hw & Hw0).
  mrun. rewrite Hw. destruct (Z.eqb_spec w 0); [done |]. mrun.
  change (usage (at_position p)) with (usage s). rewrite Hnow. mrun.
  unfold remove_timers. mrun. rewrite (get_si_ok _ _ _ (at_position_si p)). mrun.
  change (pause_count (set_position p si)) with (pause_count si).
  rewrite Hsleep. mrun. cbn [Z.eqb]. mrun. rewrite (get_si_ok _ _ _ (at_position_si p)). mrun.
  change (get_fast (set_position p si)) with (get_fast si).
  destruct ((if flip =? 0 then liftO (get_fast si) else mret NULL) (at_position p))
    as [[tr s']|] eqn:E; [|done].
  assert (s' = at_position p) as ->.
  { destruct (flip =? 0); [|by injection E]. unfold liftO in E. by destruct (get_fast si); simplify_eq. }
  destruct (Z.eqb_spec tr NULL); [|done]. mrun. cbn [sched_count set_position sched_queue position].
  destruct (Z.eqb_spec (sched_count si) 0); [lia |]. mrun.
  destruct (aget (sched_queue si) p); [|done]. mrun. rewrite umod_pos by lia. mrun. done.
Qed.

Lemma remove_last_idle p : remove_last id (at_position p) = Ok (tt, at_position p).
Proof.
  unfold remove_last. mrun. rewrite (get_si_ok _ _ _ (at_position_si p)). mrun.
  cbn [requesting_thread set_position requesting_state]. rewrite Hreq, Hrst. done.
Qed.

(** A turn of the run queue, with any effect [exec] of the thread. *)
Lemma turn_runs exec p flip tr : 0 <= p < sched_count si -> runq si !! Z.to_nat p = Some tr ->
  (flip <> 0 \/ get_fast si = Ok NULL) ->
  scheduler_turn exec gc_work gc_tr idle_tr id flip (at_position p) =
  (exec tr TIMESLICE 0 ;; remove_last id ;; mret 0) (at_position ((p + 1) mod sched_count si)).
Proof.
  intros Hp Htr Hfl. rewrite turn_prefix. pose proof Hwf as (Hc & Hs & Hl & _).
  assert ((if flip =? 0 then liftO (get_fast si) else mret NULL) (at_position p)
    = Ok (NULL, at_position p)) as E.
  { destruct (Z.eqb_spec flip 0); [|done]. destruct Hfl as [|Hf]; [done |]. unfold liftO. by rewrite Hf. }
  mrun. rewrite E. mrun. rewrite Z.eqb_refl. mrun. rewrite (proj2 (aget_Some (sched_queue si) p tr)).
  2:{ split; [lia |]. unfold runq in Htr. by apply lookup_take_Some in Htr as [? _]. }
  mrun. rewrite (put_si_ok _ _ _ _ (at_position_si p)). snorm.
  rewrite (Z.mod_small _ two32) by (unfold two32; lia). rewrite run_bind.
  do 2 f_equal. unfold at_position, set_cpus. simpl. by rewrite list_insert_insert_eq.
Qed.

Definition quiet (tr slice idle : Z) : K unit := mret tt.

Lemma quiet_turn p flip : 0 <= p < sched_count si -> (flip <> 0 \/ get_fast si = Ok NULL) ->
  scheduler_turn quiet gc_work gc_tr idle_tr id flip (at_position p) =
  Ok (0, at_position ((p + 1) mod sched_count si)).
Proof.
  intros Hp Hfl. destruct (lookup_lt_is_Some_2 (runq si) (Z.to_nat p)) as [tr Htr].
  { destruct Hwf as (Hc & Hs & Hl & _). unfold runq. rewrite length_take. lia. }
  rewrite (turn_runs _ _ _ _ Hp Htr Hfl). unfold quiet. mrun. by rewrite remove_last_idle.
Qed.

(** At most one turn of the fast queue comes before a turn of the run queue. *)
Lemma quiet_fast p flip : exists n flip', (n <= 1)%nat /\
  turns quiet gc_work gc_tr idle_tr n id flip (at_position p) = Ok (flip', at_position p) /\
  (flip' <> 0 \/ get_fast si = Ok NULL).
Proof.
  destruct get_fast_total as [f Hf]. destruct (decide (flip = 0)) as [->|Hfl].
  2:{ exists 0%nat, flip. split_and!; [lia | done | by left]. }
  destruct (decide (f = NULL)) as [->|Hn].
  { exists 0%nat, 0. split_and!; [lia | done | by right]. }
  exists 1%nat, 1. split_and!; [lia | | by left].
  cbn [turns]. mrun. rewrite turn_prefix. cbn [Z.eqb]. mrun. rewrite Hf. mrun.
  destruct (Z.eqb_spec f NULL); [done |]. unfold quiet. mrun. rewrite (get_si_ok _ _ _ (at_position_si p)). mrun.
  cbn [sched_count set_position]. destruct (Z.eqb_spec (sched_count si) 0); [lia |]. done.
Qed.

Lemma turns_app exec n m flip st f st1 r : 
  turns exec gc_work gc_tr idle_tr n id flip st = Ok (f, st1) ->
  turns exec gc_work gc_tr idle_tr m id f st1 = r ->
  turns exec gc_work gc_tr idle_tr (n + m) id flip st = r.
Proof.
  revert flip st. induction n as [|n IH]; intros flip st Hn Hm; cbn [turns Nat.add] in *.
  { injection Hn as -> ->. done. }
  rewrite run_bind in *. destruct (scheduler_turn _ _ _ _ _ flip st) as [[f1 s1]|]; [|done]. eauto.
Qed.

Lemma reaches_position d : forall p flip, 0 <= p < sched_count si ->
  exists n flip', (n <= 2 * d + 1)%nat /\
  turns quiet gc_work gc_tr idle_tr n id flip (at_position p) =
    Ok (flip', at_position ((p + Z.of_nat d) mod sched_count si)) /\
  (flip' <> 0 \/ get_fast si = Ok NULL).
Proof.
  induction d as [|d IH]; intros p flip Hp; destruct (quiet_fast p flip) as (n & f & Hn & Hrun & Hf).
  - exists n, f. rewrite Z.add_0_r, Z.mod_small by lia. split_and!; [lia | done | done].
  - destruct (IH ((p + 1) mod sched_count si) 0) as (m & f' & Hm & Hrun' & Hf').
    { apply Z.mod_pos_bound. lia. }
    exists (n + S m)%nat, f'. split; [lia |]. split; [|done].
    apply (turns_app _ _ _ _ _ _ _ _ Hrun). cbn [turns]. mrun. rewrite (quiet_turn _ _ Hp Hf).
    rewrite Hrun'. do 3 f_equal. rewrite Zplus_mod_idemp_l. f_equal. lia.
Qed.

End fairness.

(** * The fast queue *)

Lemma fast_length si : si_wf si -> Z.of_nat (length (fastq si)) = (fast_stop si - fast_start si) mod MAX_FAST.
Proof.
  intros (_ & _ & _ & _ & _ & _ & _ & Hl & Hfs & Hfe). unfold fastq, MAX_FAST in *.
  rewrite length_ring by lia. pose proof (Z.mod_pos_bound (fast_stop si - fast_start si) 32). lia.
Qed.

Lemma fast_stop_slot si : si_wf si ->
  ((Z.to_nat (fast_start si) + Z.to_nat ((fast_stop si - fast_start si) mod MAX_FAST)) mod 32)%nat
  = Z.to_nat (fast_stop si).
Proof.
  intros (_ & _ & _ & _ & _ & _ & _ & Hl & Hfs & Hfe). unfold MAX_FAST in *.
  apply Nat2Z.inj. rewrite Nat2Z.inj_mod, Nat2Z.inj_add, !Z2Nat.id by
    (pose proof (Z.mod_pos_bound (fast_stop si - fast_start si) 32); lia).
  change (Z.of_nat 32) with 32. rewrite Zplus_mod_idemp_r.
  replace (fast_start si + (fast_stop si - fast_start si)) with (fast_stop si) by lia.
  apply Z.mod_small. lia.
Qed.

Lemma fast_put si tr : si_wf si -> Z.of_nat (length (fastq si)) < MAX_FAST - 1 ->
  let stop := u32 (fast_stop si + 1) mod MAX_FAST in
  let si' := set_fast_stop stop (set_fast_queue_ (<[Z.to_nat (fast_stop si) := tr]> (fast_queue_ si)) si) in
  stop <> fast_start si /\ si_wf si' /\ fastq si' = fastq si ++ [tr].
Proof.
  intros Hwf Hlt. rewrite (fast_length _ Hwf) in Hlt. pose proof (fast_stop_slot _ Hwf) as Hslot.
  pose proof Hwf as (Hc & Hs & Hl & Hpc & Hps & Hpl & Hpos & Hfl & Hfs & Hfe).
  unfold MAX_FAST in *. simpl. rewrite u32_small by (unfold is_u32, two32; lia).
  set (n := (fast_stop si - fast_start si) mod 32) in *.
  pose proof (Z.mod_pos_bound (fast_stop si - fast_start si) 32 ltac:(lia)) as Hn. fold n in Hn.
  assert (((fast_stop si + 1) mod 32 - fast_start si) mod 32 = n + 1) as Hn1.
  { rewrite Zminus_mod_idemp_l. replace (fast_stop si + 1 - fast_start si) with ((fast_stop si - fast_start si) + 1) by lia.
    rewrite <- Zplus_mod_idemp_l. fold n. apply Z.mod_small. lia. }
  split_and!.
  - intros E. rewrite E, Z.sub_diag in Hn1. change (0 mod 32) with 0 in Hn1. lia.
  - pose proof (Z.mod_pos_bound (fast_stop si + 1) 32 ltac:(lia)). unfold si_wf, MAX_FAST. simpl.
    rewrite length_insert. split_and!; (done || lia).
  - unfold fastq, MAX_FAST. simpl. rewrite Hn1. fold n.
    replace (Z.to_nat (n + 1)) with (S (Z.to_nat n)) by lia.
    rewrite <- Hslot, <- Hfl. apply ring_snoc; lia.
Qed.

Lemma fast_take si tr rest : si_wf si -> fastq si = tr :: rest ->
  let si' := set_fast_start (u32 (fast_start si + 1) mod MAX_FAST) si in
  aget (fast_queue_ si) (fast_start si) = Ok tr /\ si_wf si' /\ fastq si' = rest.
Proof.
  intros Hwf Hq. pose proof (fast_length _ Hwf) as Hlen. rewrite Hq in Hlen. simpl length in Hlen.
  pose proof Hwf as (Hc & Hs & Hl & Hpc & Hps & Hpl & Hpos & Hfl & Hfs & Hfe).
  unfold MAX_FAST in *. simpl. rewrite u32_small by (unfold is_u32, two32; lia).
  set (n := (fast_stop si - fast_start si) mod 32) in *.
  destruct (lookup_lt_is_Some_2 (fast_queue_ si) (Z.to_nat (fast_start si))) as [x Hx]; [lia |].
  unfold fastq, MAX_FAST in Hq. fold n in Hq. replace (Z.to_nat n) with (S (length rest)) in Hq by lia.
  rewrite (ring_head _ _ _ x) in Hq by (done || lia). injection Hq as -> Hrest.
  split_and!.
  - apply aget_Some. split; [lia | done].
  - pose proof (Z.mod_pos_bound (fast_start si + 1) 32 ltac:(lia)). unfold si_wf, MAX_FAST. simpl.
    split_and!; (done || lia).
  - unfold fastq, MAX_FAST. simpl.
    assert ((fast_stop si - (fast_start si + 1) mod 32) mod 32 = n - 1) as ->.
    { rewrite Zminus_mod_idemp_r. replace (fast_stop si - (fast_start si + 1)) with ((fast_stop si - fast_start si) - 1) by lia.
      rewrite <- Zminus_mod_idemp_l. fold n. apply Z.mod_small.
      pose proof (Z.mod_pos_bound (fast_stop si - fast_start si) 32 ltac:(lia)). lia. }
    replace (Z.to_nat (n - 1)) with (length rest) by lia. rewrite <- Hrest at 2. f_equal.
    rewrite Hfl. apply Nat2Z.inj. rewrite Nat2Z.inj_mod, Z2Nat.id by (apply Z.mod_pos_bound; lia).
    rewrite Nat2Z.inj_add, Z2Nat.id by lia. done.
Qed.

(** [fast_queue] in full. *)
Lemma fast_queue_spec s tr t si :
  tr <> 0 -> threads s !! tr = Some t -> 0 <= cpu_affinity t < cpu_count s ->
  aget (cpus s) (cpu_affinity t) = Ok si -> si_wf si -> unlocked si ->
  (Z.of_nat (length (fastq si)) < MAX_FAST - 1 ->
    exists s' si', fast_queue tr s = Ok (0, s') /\ aget (cpus s') (cpu_affinity t) = Ok si' /\
    si_wf si' /\ unlocked si' /\ fastq si' = fastq si ++ [tr] /\
    current_thread si' = current_thread si /\ cpuid s' = cpuid s /\ cpu_count s' = cpu_count s /\
    cpus s' = <[Z.to_nat (cpu_affinity t) := si']> (cpus s) /\
    iflag s' = (if cpuid s =? cpu_affinity t then iflag s else false) /\
    threads s' = <[tr := set_fast_queued (s32 (fast_queued t + 1)) (set_cpu (cpu_affinity t) t)]> (threads s)) /\
  (Z.of_nat (length (fastq si)) = MAX_FAST - 1 -> fast_queue tr s = Halt AssertFail).
Proof.
  intros Htr Ht Hid Hsi Hwf Hun. set (id := cpu_affinity t) in *.
  destruct (sched_lock_ok s id si false Hsi Hun Hid ltac:(done)) as [ip Hlock].
  pose proof Hwf as (_ & _ & _ & _ & _ & _ & _ & Hfl & _ & Hfe). unfold MAX_FAST in Hfe.
  pose proof (aget_bounds _ _ _ Hsi) as Hb. set (si1 := locked_si (iflag s) si) in *.
  assert (si_wf si1) as Hwf1 by exact Hwf.
  assert (fast_queue tr s =
    (let stop := u32 (fast_stop si + 1) mod MAX_FAST in
     let si' := set_fast_stop stop (set_fast_queue_ (<[Z.to_nat (fast_stop si) := tr]> (fast_queue_ si)) si1) in
     massert (negb (stop =? fast_start si)) ;; sched_unlock id ;; mret 0)
    (SchedState (<[Z.to_nat id := set_fast_stop (u32 (fast_stop si + 1) mod MAX_FAST)
        (set_fast_queue_ (<[Z.to_nat (fast_stop si) := tr]> (fast_queue_ si)) si1)]> (cpus s))
       (<[tr := set_fast_queued (s32 (fast_queued t + 1)) (set_cpu id t)]> (threads s))
       (cpuid s) (cpu_count s) false (usage s) ip (sched_global_lock s))) as ->.
  { unfold fast_queue. mrun. rewrite (get_tr_ok _ _ _ Htr Ht). mrun. fold id.
    destruct (Z.leb_spec 0 id), (Z.ltb_spec id (cpu_count s)); try lia. mrun. rewrite Hlock. mrun.
    rewrite (get_tr_ok _ _ t Htr) by exact Ht. mrun. rewrite (put_tr_ok _ _ _ t Htr) by exact Ht. mrun.
    erewrite (get_si_ok id) by (snorm; by apply aget_insert). mrun.
    change (fast_stop si1) with (fast_stop si). change (fast_queue_ si1) with (fast_queue_ si).
    rewrite aset_lt by lia. mrun. erewrite put_si_ok by (snorm; by apply aget_insert). mrun. snorm. done. }
  split.
  - intros Hlt. destruct (fast_put si1 tr Hwf1 Hlt) as (Hne & Hwf' & Hq).
    mrun. destruct (Z.eqb_spec (u32 (fast_stop si + 1) mod MAX_FAST) (fast_start si)) as [E|]; [by destruct Hne |].
    mrun. erewrite sched_unlock_ok; cycle 1; [by snorm; apply aget_insert | done | done |].
    mrun. snorm. do 2 eexists. split; [done |]. split; [by snorm; apply aget_insert |].
    split_and!; try done. cbn [Scheduler.iflag]. simpl. by destruct (cpuid s =? id), (iflag s).
  - intros Hfull. rewrite (fast_length _ Hwf) in Hfull. unfold MAX_FAST in *.
    destruct Hwf as (_ & _ & _ & _ & _ & _ & _ & _ & Hfs & _). unfold MAX_FAST in Hfs.
    mrun. rewrite u32_small by (unfold is_u32, two32; lia).
    assert ((fast_stop si + 1) mod 32 = fast_start si) as ->.
    { pose proof (Z.div_mod (fast_stop si - fast_start si) 32 ltac:(lia)) as Hdm.
      set (q := (fast_stop si - fast_start si) / 32) in *.
      replace (fast_stop si + 1) with (fast_start si + (q + 1) * 32) by lia.
      rewrite Z_mod_plus_full. apply Z.mod_small. lia. }
    by rewrite Z.eqb_refl.
Qed.

(** [fast_queue] appends the interrupt handler to the fast queue of its
    processor, which holds up to 31 entries in order of arrival, and counts the
    entry in the thread; on the 32nd entry the assertion that guards the ring
    stops the kernel instead of losing the queue. *)
Theorem fast_queue_appends s tr t si :
  tr <> 0 -> threads s !! tr = Some t -> 0 <= cpu_affinity t < cpu_count s ->
  aget (cpus s) (cpu_affinity t) = Ok si -> si_wf si -> unlocked si ->
  (Z.of_nat (length (fastq si)) < MAX_FAST - 1 ->
    exists s' si', fast_queue tr s = Ok (0, s') /\ aget (cpus s') (cpu_affinity t) = Ok si' /\
    si_wf si' /\ unlocked si' /\ fastq si' = fastq si ++ [tr] /\
    threads s' = <[tr := set_fast_queued (s32 (fast_queued t + 1)) (set_cpu (cpu_affinity t) t)]> (threads s)) /\
  (Z.of_nat (length (fastq si)) = MAX_FAST - 1 -> fast_queue tr s = Halt AssertFail).
Proof.
  intros Htr Ht Hid Hsi Hwf Hun. destruct (fast_queue_spec s tr t si) as [H1 H2]; try done.
  split; [|done]. intros Hlt. destruct (H1 Hlt) as (s' & si' & ?). exists s', si'. tauto.
Qed.

(** [fast_dequeue] in full. *)
Lemma fast_dequeue_spec s tr t si rest :
  tr <> 0 -> threads s !! tr = Some t -> cpu t = cpuid s -> 0 <= cpuid s < cpu_count s ->
  aget (cpus s) (cpuid s) = Ok si -> si_wf si -> unlocked si -> fastq si = tr :: rest ->
  exists s' si' t', fast_dequeue tr s = Ok (0, s') /\ aget (cpus s') (cpuid s) = Ok si' /\
  si_wf si' /\ unlocked si' /\ fastq si' = rest /\ iflag s' = iflag s /\
  current_thread si' = current_thread si /\ cpuid s' = cpuid s /\ cpu_count s' = cpu_count s /\
  cpus s' = <[Z.to_nat (cpuid s) := si']> (cpus s) /\
  threads s' = <[tr := t']> (threads s) /\ fast_queued t' = s32 (fast_queued t - 1) /\
  cpu t' = (if fast_queued t' =? 0 then -1 else cpuid s) /\
  t' = set_cpu (cpu t') (set_fast_queued (fast_queued t') t).
Proof.
  intros Htr Ht Hcpu Hid Hsi Hwf Hun Hq. set (id := cpuid s) in *.
  destruct (sched_lock_ok s id si false Hsi Hun Hid ltac:(done)) as [ip Hlock].
  pose proof (aget_bounds _ _ _ Hsi) as Hb. set (si1 := locked_si (iflag s) si) in *.
  assert (si_wf si1) as Hwf1 by exact Hwf.
  destruct (fast_take si1 tr rest Hwf1 Hq) as (Hhead & Hwf' & Hrest).
  unfold fast_dequeue. mrun. rewrite (get_tr_ok _ _ _ Htr Ht). mrun. rewrite Hcpu.
  destruct (Z.leb_spec 0 id); [|lia]. mrun. rewrite Hlock. mrun. snorm. unfold id at 2.
  rewrite Z.eqb_refl. mrun. erewrite (get_si_ok id) by (snorm; by apply aget_insert). mrun.
  rewrite Hhead. mrun. rewrite Z.eqb_refl. mrun. erewrite put_si_ok by (snorm; by apply aget_insert). mrun.
  snorm. erewrite put_tr_ok by done. mrun.
  erewrite sched_unlock_ok; cycle 1; [by snorm; apply aget_insert | done | done |].
  mrun. snorm. do 3 eexists. split; [done |]. split; [by snorm; apply aget_insert |].
  split; [exact Hwf' |]. split; [done |]. split; [exact Hrest |]. split.
  { cbn [iflag]. simpl. fold id. rewrite Z.eqb_refl. by destruct (iflag s). }
  do 5 (split; [done |]). cbn [fast_queued set_fast_queued].
  destruct (Z.eqb_spec (s32 (fast_queued t - 1)) 0) as [E|E]; simpl.
  - rewrite E. done.
  - destruct (Z.eqb_spec (s32 (fast_queued t - 1)) 0); [done |]. split_and!; [done | done |]. by destruct t.
Qed.

(** [fast_dequeue] by the handler that runs: it was at the head of the fast
    queue, the others keep their order, and the thread leaves the processor when
    it has no other entry there. *)
Theorem fast_dequeue_takes_head s tr t si rest :
  tr <> 0 -> threads s !! tr = Some t -> cpu t = cpuid s -> 0 <= cpuid s < cpu_count s ->
  aget (cpus s) (cpuid s) = Ok si -> si_wf si -> unlocked si -> fastq si = tr :: rest ->
  exists s' si' t', fast_dequeue tr s = Ok (0, s') /\ aget (cpus s') (cpuid s) = Ok si' /\
  si_wf si' /\ unlocked si' /\ fastq si' = rest /\ iflag s' = iflag s /\
  threads s' = <[tr := t']> (threads s) /\ fast_queued t' = s32 (fast_queued t - 1) /\
  cpu t' = (if fast_queued t' =? 0 then -1 else cpuid s).
Proof.
  intros. destruct (fast_dequeue_spec s tr t si rest) as (s' & si' & t' & ?); try done.
  exists s', si', t'. tauto.
Qed.

(** * Thread state changes *)

Lemma sub_queue_ok s id tr si :
  aget (cpus s) id = Ok si -> si_cpu_id si = id -> si_wf si -> unlocked si -> 0 <= id < cpu_count s ->
  exists r s' si', sub_queue id tr s = Ok (r, s') /\ aget (cpus s') id = Ok si' /\ si_wf si' /\
  unlocked si' /\ threads s' = threads s /\ pauseq si' = pauseq si /\
  if decide (sched_count si = sched_size si) then r = -1 /\ runq si' = runq si
  else r = 0 /\ runq si' = runq si ++ [tr].
Proof.
  intros Hsi Hcid Hwf Hun Hid. pose proof (aget_bounds _ _ _ Hsi) as Hb.
  pose proof Hwf as (Hc & Hs & Hl & Hpc & Hps & Hpl & Hpos & Hfl & Hfs & Hfe).
  destruct (sched_lock_ok s id si false Hsi Hun Hid ltac:(done)) as [ip Hlock].
  unfold sub_queue. mrun. rewrite (get_si_ok _ _ _ Hsi). mrun. rewrite Hcid, Hlock. mrun.
  erewrite get_si_ok by (snorm; by apply aget_insert). mrun.
  change (sched_count (locked_si (iflag s) si)) with (sched_count si).
  change (sched_size (locked_si (iflag s) si)) with (sched_size si).
  change (sched_queue (locked_si (iflag s) si)) with (sched_queue si).
  change (si_cpu_id (locked_si (iflag s) si)) with (si_cpu_id si). rewrite Hcid.
  destruct (Z.eqb_spec (sched_count si) (sched_size si)) as [E|E].
  - mrun. erewrite sched_unlock_ok; cycle 1; [by snorm; apply aget_insert | done | done |].
    mrun. snorm. do 3 eexists. split; [done |]. split; [by snorm; apply aget_insert |].
    rewrite decide_True by done. split_and!; (exact Hwf || done).
  - mrun. rewrite aset_lt by lia. mrun. erewrite put_si_ok by (snorm; by apply aget_insert). mrun.
    erewrite sched_unlock_ok; cycle 1; [by snorm; apply aget_insert | done | done |].
    mrun. snorm. do 3 eexists. split; [done |]. split; [by snorm; apply aget_insert |].
    rewrite decide_False by done. rewrite u32_small by (unfold is_u32, two32; lia).
    split_and!; try done.
    + unfold si_wf. simpl. rewrite length_insert. split_and!; (done || lia).
    + unfold runq. simpl. replace (Z.to_nat (sched_count si + 1)) with (S (Z.to_nat (sched_count si))) by lia.
      rewrite (take_S_r _ _ tr) by (apply list_lookup_insert_eq; lia).
      f_equal. apply take_insert_ge. lia.
Qed.

Lemma sub_dequeue_ok s id tr si me :
  aget (cpus s) (cpuid s) = Ok me -> current_thread me <> tr ->
  aget (cpus s) id = Ok si -> si_cpu_id si = id -> si_wf si -> unlocked si -> 0 <= id < cpu_count s ->
  (id <> cpuid s -> running si = 0) -> tr ∈ runq si ->
  exists s' si' k, sub_dequeue id tr s = Ok (0, s') /\ aget (cpus s') id = Ok si' /\ si_wf si' /\
  unlocked si' /\ threads s' = threads s /\ pauseq si' = pauseq si /\
  runq si !! k = Some tr /\ tr ∉ take k (runq si) /\ runq si' = delete k (runq si).
Proof.
  intros Hme Hcur Hsi Hcid Hwf Hun Hid Hrem Hin. pose proof (aget_bounds _ _ _ Hsi) as Hb.
  destruct (sched_lock_ok s id si (negb (id =? cpuid s)) Hsi Hun Hid) as [ip Hlock].
  { destruct (Z.eqb_spec id (cpuid s)); [done |]. auto. }
  set (si1 := locked_si (iflag s) si) in *. assert (si_wf si1) as Hwf1 by exact Hwf.
  destruct (find_runq si1 tr Hwf1) as (k & Hfind & Hk & Hlen & Hbefore & Hat).
  apply list_elem_of_lookup in Hin as [j Hj].
  assert (k < length (runq si1))%nat as Hklt.
  { apply lookup_lt_Some in Hj as Hjl. change (runq si) with (runq si1) in *.
    destruct (decide (j < k)%nat); [by destruct (Hbefore j) | lia]. }
  destruct (remove_at_spec si1 k Hwf1) as (si2 & E & Hwf2 & Hr2 & Hc2 & Hp2 & _ & _ & Hlk2 & Hn2 & Hcid2 & Hlf2); [lia |].
  unfold sub_dequeue. mrun. rewrite (get_si_ok _ _ _ Hme). mrun.
  destruct (Z.eqb_spec tr (current_thread me)); [congruence |]. mrun.
  rewrite (get_si_ok _ _ _ Hsi). mrun. rewrite Hcid, Hlock. mrun.
  erewrite get_si_ok by (snorm; by apply aget_insert). mrun. rewrite Hfind. mrun.
  destruct (Z.eqb_spec (Z.of_nat k) (sched_count si1)); [lia |]. mrun. rewrite E. mrun.
  erewrite put_si_ok by (snorm; by apply aget_insert). mrun.
  rewrite Hcid2. change (si_cpu_id si1) with (si_cpu_id si). rewrite Hcid.
  erewrite sched_unlock_ok; cycle 1;
    [by snorm; apply aget_insert | by rewrite Hn2 | done |].
  mrun. snorm. do 2 eexists. exists k. split; [done |]. split; [by snorm; apply aget_insert |].
  split_and!; try done; [exact (Hat Hklt) |].
  intros [i Hi]%list_elem_of_lookup. apply lookup_take_Some in Hi as [Hi Hik]. by apply (Hbefore i).
Qed.

(** [set_thread_state] moves a thread between the queues.  A suspended thread
    that becomes runnable gets its home processor and the last place of the run
    queue there (and no place, with the state changed all the same, when that
    queue is full); a runnable thread that is not running here and gets another
    state leaves the run queue of its processor, the others keeping their order. *)
Theorem set_thread_state_moves s tr t st me :
  tr <> 0 -> threads s !! tr = Some t -> state t <> st ->
  aget (cpus s) (cpuid s) = Ok me -> current_thread me <> tr ->
  (forall id si, st = THREAD_RUNNING -> (state t = THREAD_DORMANT -> duration t = 0) -> cpu t < 0 ->
    thread_home t (cpu_count s) = Ok id -> 0 <= id < cpu_count s ->
    aget (cpus s) id = Ok si -> si_cpu_id si = id -> si_wf si -> unlocked si ->
    exists s' si', set_thread_state tr st s = Ok (tt, s') /\ aget (cpus s') id = Ok si' /\
    si_wf si' /\ unlocked si' /\ threads s' = <[tr := set_cpu id (set_state st t)]> (threads s) /\
    runq si' = if decide (sched_count si = sched_size si) then runq si else runq si ++ [tr]) /\
  (forall si, state t = THREAD_RUNNING -> 0 <= cpu t < cpu_count s ->
    aget (cpus s) (cpu t) = Ok si -> si_cpu_id si = cpu t -> si_wf si -> unlocked si ->
    (cpu t <> cpuid s -> running si = 0) -> tr ∈ runq si ->
    exists s' si' k, set_thread_state tr st s = Ok (tt, s') /\ aget (cpus s') (cpu t) = Ok si' /\
    si_wf si' /\ unlocked si' /\ threads s' = <[tr := set_state st (set_cpu (-1) t)]> (threads s) /\
    runq si !! k = Some tr /\ runq si' = delete k (runq si)).
Proof.
  intros Htr Ht Hst Hme Hcur. split.
  - intros id si -> Hd Hcpu Hhome Hid Hsi Hcid Hwf Hun.
    unfold set_thread_state. mrun. rewrite (get_tr_ok _ _ _ Htr Ht). mrun.
    destruct (Z.eqb_spec (state t) THREAD_RUNNING); [done |]. mrun. rewrite (get_si_ok _ _ _ Hme). mrun.
    destruct (Z.eqb_spec tr (current_thread me)); [congruence |].
    assert ((state t =? THREAD_DORMANT) && negb (duration t =? 0) = false) as ->.
    { destruct (Z.eqb_spec (state t) THREAD_DORMANT); [|done]. by rewrite Hd. }
    mrun. rewrite (get_tr_ok _ _ _ Htr Ht). mrun. rewrite (put_tr_ok _ _ _ _ Htr Ht). mrun.
    rewrite Z.eqb_refl. mrun. unfold queue. mrun.
    rewrite (get_tr_ok _ _ (set_state THREAD_RUNNING t) Htr) by (snorm; by rewrite lookup_insert_eq). mrun. snorm.
    change (thread_home (set_state THREAD_RUNNING t)) with (thread_home t). rewrite Hhome. mrun.
    cbn [cpu set_state]. destruct (Z.ltb_spec (cpu t) 0); [|lia]. mrun.
    erewrite put_tr_ok by (try exact Htr; snorm; by rewrite lookup_insert_eq). mrun. snorm.
    match goal with |- context [sub_queue id tr ?s1] =>
      destruct (sub_queue_ok s1 id tr si Hsi Hcid Hwf Hun Hid)
        as (r & s' & si' & -> & Hsi' & Hwf' & Hun' & Hth & _ & Hres) end.
    mrun. exists s', si'. split_and!; try done. by destruct (decide _), Hres.
  - intros si Hrun Hid Hsi Hcid Hwf Hun Hrem Hin.
    destruct (sub_dequeue_ok s (cpu t) tr si me Hme Hcur Hsi Hcid Hwf Hun Hid Hrem Hin)
      as (s' & si' & k & Hdq & Hsi' & Hwf' & Hun' & Hth & _ & Hk & _ & Hdel).
    unfold set_thread_state. mrun. rewrite (get_tr_ok _ _ _ Htr Ht). mrun. rewrite Hrun in *.
    destruct (Z.eqb_spec THREAD_RUNNING st); [done |]. mrun. rewrite (get_si_ok _ _ _ Hme). mrun.
    destruct (Z.eqb_spec tr (current_thread me)); [congruence |]. cbn [andb].
    replace (THREAD_RUNNING =? THREAD_DORMANT) with false by done. rewrite Z.eqb_refl. mrun.
    unfold dequeue. mrun. rewrite (get_tr_ok _ _ _ Htr Ht). mrun.
    destruct (Z.leb_spec 0 (cpu t)); [|lia]. mrun. rewrite Hdq. mrun.
    assert (threads s' !! tr = Some t) as Ht' by by rewrite Hth.
    rewrite (get_tr_ok _ _ _ Htr Ht'). mrun. rewrite (put_tr_ok _ _ _ _ Htr Ht'). mrun.
    erewrite get_tr_ok by (try exact Htr; snorm; by rewrite lookup_insert_eq). mrun.
    erewrite put_tr_ok by (try exact Htr; snorm; by rewrite lookup_insert_eq). mrun. snorm.
    destruct (Z.eqb_spec st THREAD_RUNNING); [congruence |]. mrun.
    do 2 eexists. exists k. split; [done |]. snorm. rewrite Hth. split_and!; done.
Qed.

(** Locking and unlocking all processors: the call returns when nobody holds
    a lock and no other processor runs a thread, every processor keeps its queues
    and ends up unlocked.  The interrupt flag comes back only on processor 0: on
    any other processor the flag that is restored was saved after processor 0's
    lock had already disabled interrupts, so they stay disabled. *)
Theorem sched_all_restores s : lockable s -> 0 < cpu_count s ->
  exists s', (sched_lock_all ;; sched_unlock_all) s = Ok (tt, s') /\ lockable s' /\ threads s' = threads s /\
  iflag s' = iflag s && (cpuid s =? 0) /\
  forall id si, cpus s !! id = Some si -> exists si', cpus s' !! id = Some si' /\
    runq si' = runq si /\ pauseq si' = pauseq si /\ fastq si' = fastq si /\ position si' = position si.
Proof.
  intros Hl Hc. destruct (sched_lock_all_ok s Hl) as (s1 & H1 & Hall & Ht1).
  destruct (sched_unlock_all_ok s s1 Hall Hl) as (s' & H2 & Ht & Hid & Hcnt & Hus & Hg & Hif & Hcp).
  exists s'. split; [mrun; by rewrite H1|]. destruct Hl as (_ & Hlen & Hun). split; [|split; [congruence | split]].
  - split_and!; [done | |].
    + rewrite Hcnt, <- Hlen. f_equal. apply Nat.le_antisymm; apply Nat.nlt_ge; intros Hlt.
      * apply lookup_lt_is_Some_2 in Hlt as [x Hx]. rewrite Hcp in Hx.
        by rewrite lookup_ge_None_2 in Hx by lia.
      * apply lookup_lt_is_Some_2 in Hlt as [x Hx]. pose proof (Hcp (length (cpus s'))) as E.
        by rewrite Hx, lookup_ge_None_2 in E by lia.
    + intros id si Hsi. rewrite Hcp in Hsi. destruct (cpus s !! id) as [x|] eqn:Ex; [|done].
      injection Hsi as <-. rewrite Hid. destruct (Hun id x Ex) as [_ Hr]. by split.
  - rewrite Hif. by destruct (Z.eqb_spec (cpu_count s) 0); [lia |].
  - intros id si Hsi. rewrite Hcp, Hsi. by eexists.
Qed.

(** * Sample state *)

Definition sample_thread (n st c aff fq : Z) : thread := Thread [] n st 7000 0 0 [] 0 0 c aff fq.

Definition sample_si : scheduler_info :=
  SchedulerInfo 0 100 (-1) NULL [100; 200; 0; 0]
    [PausedSchedule 300 THREAD_RUNNING 50 10; PausedSchedule 400 THREAD_RUNNING 90 20; no_pause; no_pause]
    2 2 4 4 1 0 0 0 0 1 (500 :: replicate 31 NULL) 0 1.

Definition sample_threads : gmap Z thread :=
  <[100 := sample_thread 1 THREAD_RUNNING 0 (-1) 0]> (<[200 := sample_thread 3 THREAD_RUNNING 0 (-1) 0]>
  (<[300 := sample_thread 5 THREAD_DORMANT 0 (-1) 0]> (<[400 := sample_thread 7 THREAD_DORMANT 0 (-1) 0]>
  (<[500 := sample_thread 9 THREAD_IRQ 0 0 1]> (<[600 := sample_thread 11 THREAD_SUSPENDED (-1) (-1) 0]> ∅))))).

Definition sample_sched (si : scheduler_info) : sched_state :=
  SchedState [si] sample_threads 0 1 true [60] [] 0.

Lemma sample_wf : si_wf sample_si.
Proof. unfold si_wf, MAX_FAST. simpl. split_and!; (done || lia). Qed.

Lemma sample_sorted : due_sorted (pauseq sample_si).
Proof.
  apply due_sorted_cons; [apply due_sorted_cons |].
  - intros i j x y ? ? ?; done.
  - intros y Hy. by apply elem_of_nil in Hy.
  - intros y [->|[]%elem_of_nil]%elem_of_cons. simpl. lia.
Qed.

Lemma pause_inserts_sorted_witness : exists s' si' k,
  pause 100 20 (sample_sched sample_si) = Ok (0, s') /\ aget (cpus s') 0 = Ok si' /\
  pauseq si' = take k (pauseq sample_si) ++
    PausedSchedule 100 THREAD_RUNNING 80 60 :: drop k (pauseq sample_si).
Proof.
  destruct (pause_inserts_sorted (sample_sched sample_si) 100 20 (sample_thread 1 THREAD_RUNNING 0 (-1) 0)
    sample_si 60) as (s' & si' & k & H1 & H2 & _ & H3 & _);
    try reflexivity; try exact sample_wf; try exact sample_sorted; try done.
  exists s', si', k. split; [exact H1 |]. split; [exact H2 |]. exact H3.
Defined.

Lemma remove_timers_wakes_due_witness : exists s' si',
  remove_timers 0 60 (sample_sched sample_si) = Ok (30, s') /\ aget (cpus s') 0 = Ok si' /\
  runq si' = [100; 200; 300].
Proof.
  destruct (remove_timers_wakes_due 0 60 (sample_sched sample_si) sample_si)
    as (s' & si' & H1 & H2 & _ & H3 & _); try reflexivity; try exact sample_wf; try exact sample_sorted; try done.
  { repeat constructor; vm_compute; eauto; done. }
  exists s', si'. split; [exact H1 |]. split; [exact H2 |]. rewrite H3. reflexivity.
Defined.

Lemma remove_last_honours_witness : exists s' si',
  remove_last 0 (sample_sched (set_requesting_state THREAD_SUSPENDED (set_requesting_thread 100 sample_si)))
    = Ok (tt, s') /\ aget (cpus s') 0 = Ok si' /\ requesting_thread si' = NULL.
Proof.
  destruct (remove_last_honours 0
    (sample_sched (set_requesting_state THREAD_SUSPENDED (set_requesting_thread 100 sample_si)))
    (set_requesting_state THREAD_SUSPENDED (set_requesting_thread 100 sample_si)) 100
    (sample_thread 1 THREAD_RUNNING 0 (-1) 0)) as (s' & si' & H1 & H2 & _ & H3 & _);
    try reflexivity; try exact sample_wf; try done.
  exists s', si'. auto.
Defined.


Lemma fast_queue_appends_witness : exists s' si',
  fast_queue 500 (sample_sched sample_si) = Ok (0, s') /\ aget (cpus s') 0 = Ok si' /\
  fastq si' = [500; 500].
Proof.
  destruct (fast_queue_appends (sample_sched sample_si) 500 (sample_thread 9 THREAD_IRQ 0 0 1) sample_si)
    as [H _]; try reflexivity; try exact sample_wf; try done.
  destruct H as (s' & si' & H1 & H2 & _ & _ & H3 & _); [reflexivity |].
  exists s', si'. split; [exact H1 |]. split; [exact H2 |]. rewrite H3. reflexivity.
Defined.

Lemma fast_dequeue_takes_head_witness : exists s' si',
  fast_dequeue 500 (sample_sched sample_si) = Ok (0, s') /\ aget (cpus s') 0 = Ok si' /\
  fastq si' = [].
Proof.
  destruct (fast_dequeue_takes_head (sample_sched sample_si) 500 (sample_thread 9 THREAD_IRQ 0 0 1) sample_si [])
    as (s' & si' & t' & H1 & H2 & _ & _ & H3 & _); try reflexivity; try exact sample_wf; try done.
  exists s', si'. auto.
Defined.

Lemma set_thread_state_moves_witness :
  (exists s' si', set_thread_state 600 THREAD_RUNNING (sample_sched sample_si) = Ok (tt, s') /\
    aget (cpus s') 0 = Ok si' /\ runq si' = [100; 200; 600]) /\
  (exists s' si', set_thread_state 200 THREAD_SUSPENDED (sample_sched sample_si) = Ok (tt, s') /\
    aget (cpus s') 0 = Ok si').
Proof.
  split.
  - destruct (set_thread_state_moves (sample_sched sample_si) 600
      (sample_thread 11 THREAD_SUSPENDED (-1) (-1) 0) THREAD_RUNNING sample_si) as [H _]; try reflexivity; try done.
    destruct (H 0 sample_si) as (s' & si' & H1 & H2 & _ & _ & _ & H3); try reflexivity; try exact sample_wf; try done.
    exists s', si'. split; [exact H1 |]. split; [exact H2 |]. rewrite H3. reflexivity.
  - destruct (set_thread_state_moves (sample_sched sample_si) 200
      (sample_thread 3 THREAD_RUNNING 0 (-1) 0) THREAD_SUSPENDED sample_si) as [_ H]; try reflexivity; try done.
    destruct (H sample_si) as (s' & si' & k & H1 & H2 & _); try reflexivity; try exact sample_wf; try done.
    + apply elem_of_cons. right. apply elem_of_cons. by left.
    + exists s', si'. auto.
Defined.

(** Two processors, of which the second one runs this code. *)
Lemma sched_all_restores_witness : exists s', (sched_lock_all ;; sched_unlock_all)
    (SchedState [set_running 0 sample_si; sample_si] sample_threads 1 2 true [60; 60] [] 0) = Ok (tt, s') /\
  iflag s' = false.
Proof.
  destruct (sched_all_restores (SchedState [set_running 0 sample_si; sample_si] sample_threads 1 2 true [60; 60] [] 0))
    as (s' & H1 & _ & _ & H2 & _); [| done | by exists s'].
  split_and!; [done | done |]. intros [|[|]] si Hsi; [injection Hsi as <-; done | injection Hsi as <-; done | done].
Defined.
