(* ===== verification/Ipc.v ===== *)
(** What the inter-process communication code (ipc/) works on: the processes with
    their ports, the queues of pulses and messages, the buffers that hold message
    data and the allocator, next to the scheduler's state, which owns the
    threads; with the port lookups that every part uses (ipc/ports.c). *)
From S2P Require Import Prelude Mm Strings AQueue HTable Objects Scheduler.

Definition IPC_MASKED : Z := 1.
Definition PULSE_OBJECTS : Z := 1024.
Definition MESSAGE_OBJECTS : Z := 256.

(** [struct pulse] and [struct message] *)
Record pulse := Pulse {
  p_source_pid : Z; p_source_port : Z; p_dest_port : Z;
  data1 : Z; data2 : Z; data3 : Z; data4 : Z; data5 : Z; data6 : Z
}.
Record message := Message {
  m_source_pid : Z; m_source_port : Z; m_dest_port : Z; m_bytes : Z; m_data : Z
}.

(** The state; [buffers] holds the bytes of message data blocks and of the
    callers' buffers, by address. *)
Record ipc_state (A : Type) := IpcState {
  sched : sched_state;
  procs : gmap Z process_block;
  queues : gmap Z aqueue;
  pulse_pages : gmap Z (aqueue_page pulse);
  message_pages : gmap Z (aqueue_page message);
  buffers : gmap Z (list Z);
  mem : A
}.
Arguments IpcState {A} _ _ _ _ _ _ _.
Arguments sched {A} _.
Arguments procs {A} _.
Arguments queues {A} _.
Arguments pulse_pages {A} _.
Arguments message_pages {A} _.
Arguments buffers {A} _.
Arguments mem {A} _.

Section ipc.
Context {A : Type} `{MmSubsystem A}.
Abbreviation K := (M (ipc_state A)).

Definition set_sched (v : sched_state) (x : ipc_state A) : ipc_state A :=
  IpcState v (procs x) (queues x) (pulse_pages x) (message_pages x) (buffers x) (mem x).
Definition set_procs (v : gmap Z process_block) (x : ipc_state A) : ipc_state A :=
  IpcState (sched x) v (queues x) (pulse_pages x) (message_pages x) (buffers x) (mem x).
Definition set_queues (v : gmap Z aqueue) (x : ipc_state A) : ipc_state A :=
  IpcState (sched x) (procs x) v (pulse_pages x) (message_pages x) (buffers x) (mem x).
Definition set_buffers (v : gmap Z (list Z)) (x : ipc_state A) : ipc_state A :=
  IpcState (sched x) (procs x) (queues x) (pulse_pages x) (message_pages x) v (mem x).
Definition set_mem (v : A) (x : ipc_state A) : ipc_state A :=
  IpcState (sched x) (procs x) (queues x) (pulse_pages x) (message_pages x) (buffers x) v.

Definition thread_get (tr : Z) : K thread :=
  s ← getS; liftO (hload (threads (sched s)) tr).
Definition thread_put (tr : Z) (t : thread) : K unit :=
  s ← getS; h ← liftO (hstore (threads (sched s)) tr t);
  modifyS (set_sched (set_threads h (sched s))).
Definition proc_get (p : Z) : K process_block := s ← getS; liftO (hload (procs s) p).

(** [proc->ipc[port]] and its update. *)
Definition ipc_get (p port : Z) : K ipc_block :=
  pr ← proc_get p; liftO (aget (ipc pr) port).
Definition ipc_put (p port : Z) (b : ipc_block) : K unit :=
  s ← getS; pr ← proc_get p; l ← liftO (aset (ipc pr) port b);
  modifyS (set_procs (<[p := set_ipc l pr]> (procs s))).

(** A scheduler operation on the shared threads. *)
Definition run_sched {R} (m : M sched_state R) : K R := fun s =>
  match m (sched s) with
  | Ok (r, sc) => Ok (r, set_sched sc s)
  | Halt f => Halt f
  end.

Definition find_thread (p n : Z) : K Z :=
  s ← getS; pr ← proc_get p; liftO (get_thread pr n (threads (sched s))).

(** The queue operations of ds/aqueue.c on the queue at address [q]. *)
Definition queue_count (q : Z) : K Z :=
  s ← getS; aq ← liftO (hload (queues s) q);
  '(n, aq) ← liftO (aqueue_count aq);
  modifyS (set_queues (<[q := aq]> (queues s))) ;; mret n.

Definition pulse_add (q : Z) (x : pulse) : K Z :=
  s ← getS; aq ← liftO (hload (queues s) q);
  '(rc, aq, h, a) ← liftO (aqueue_add aq x (pulse_pages s) (mem s));
  modifyS (fun s => IpcState (sched s) (procs s) (<[q := aq]> (queues s)) h (message_pages s) (buffers s) a) ;;
  mret rc.

Definition pulse_next (q : Z) : K (Z * pulse) :=
  s ← getS; aq ← liftO (hload (queues s) q);
  '(rc, x, aq, h, a) ← liftO (aqueue_next aq (pulse_pages s) (mem s));
  modifyS (fun s => IpcState (sched s) (procs s) (<[q := aq]> (queues s)) h (message_pages s) (buffers s) a) ;;
  mret (rc, x).

Definition message_add (q : Z) (x : message) : K Z :=
  s ← getS; aq ← liftO (hload (queues s) q);
  '(rc, aq, h, a) ← liftO (aqueue_add aq x (message_pages s) (mem s));
  modifyS (fun s => IpcState (sched s) (procs s) (<[q := aq]> (queues s)) (pulse_pages s) h (buffers s) a) ;;
  mret rc.

Definition message_next (q : Z) : K (Z * message) :=
  s ← getS; aq ← liftO (hload (queues s) q);
  '(rc, x, aq, h, a) ← liftO (aqueue_next aq (message_pages s) (mem s));
  modifyS (fun s => IpcState (sched s) (procs s) (<[q := aq]> (queues s)) (pulse_pages s) h (buffers s) a) ;;
  mret (rc, x).

Definition queue_create (sz cnt : Z) : K Z :=
  s ← getS;
  let '(r, a) := aqueue_create sz cnt (mem s) in
  modifyS (set_mem a) ;;
  match r with
  | None => mret NULL
  | Some (q, aq) => modifyS (fun s => set_queues (<[q := aq]> (queues s)) s) ;; mret q
  end.

Definition pulse_queue_destroy (q : Z) : K unit :=
  s ← getS; aq ← liftO (hload (queues s) q);
  '(h, a) ← liftO (aqueue_destroy q aq (pulse_pages s) (mem s));
  modifyS (fun s => IpcState (sched s) (procs s) (delete q (queues s)) h (message_pages s) (buffers s) a).

Definition message_queue_destroy (q : Z) : K unit :=
  s ← getS; aq ← liftO (hload (queues s) q);
  '(h, a) ← liftO (aqueue_destroy q aq (message_pages s) (mem s));
  modifyS (fun s => IpcState (sched s) (procs s) (delete q (queues s)) (pulse_pages s) h (buffers s) a).

(** [kmalloc] of a data block of [n] bytes, and [kfree]. *)
Definition buffer_alloc (n : Z) : K Z :=
  s ← getS;
  let '(p, a) := kmalloc (u32 n) (mem s) in
  modifyS (set_mem a) ;;
  if p =? NULL then mret NULL
  else modifyS (fun s => set_buffers (<[p := replicate (Z.to_nat (u32 n)) 0]> (buffers s)) s) ;; mret p.

Definition buffer_free (p : Z) : K unit :=
  s ← getS; a ← liftO (kfree p (mem s));
  modifyS (fun s => set_mem a (set_buffers (delete p (buffers s)) s)).

Definition buffer_copy (dest src n : Z) : K unit :=
  s ← getS;
  d ← liftO (hload (buffers s) dest);
  c ← liftO (hload (buffers s) src);
  d ← liftO (kmemcpy d c n);
  modifyS (fun s => set_buffers (<[dest := d]> (buffers s)) s).

(** * Port lookups of ipc/ports.c *)

Definition port2tid (p port : Z) : K Z :=
  if (port <? 0) || (MAX_PORTS <=? port) then mret (-1)
  else b ← ipc_get p port; mret (ib_tid b).

Fixpoint tid2port_from (fuel : nat) (i p n : Z) : K Z :=
  match fuel with
  | O => mret (-1)
  | S fuel => b ← ipc_get p i; if ib_tid b =? n then mret i else tid2port_from fuel (i + 1) p n
  end.
Definition tid2port (p n : Z) : K Z := tid2port_from (Z.to_nat MAX_PORTS) 0 p n.

Definition port_flags (p port flags : Z) : K Z :=
  if (port <? 0) || (MAX_PORTS <=? port) then mret (-1)
  else
    b ← ipc_get p port;
    if ib_tid b =? -1 then mret (-1) else mret (s32 (Z.land (ib_flags b) flags)).

Definition get_port_flags (tr port : Z) : K Z :=
  t ← thread_get tr;
  if (port <? 0) || (MAX_PORTS <=? port) then mret (-1)
  else
    b ← ipc_get (process t) port;
    if ib_tid b =? -1 then mret (-1) else mret (s32 (ib_flags b)).

(** [for ( i = 0; i < n; i++ ) { if ( tr->ports[i] == -1 ) break; ... }]: [body] is
    given the port, and answers [None] to go on and [Some rc] to return. *)
Fixpoint scan_ports (n : nat) (i tr : Z) (body : Z -> K (option Z)) : K Z :=
  match n with
  | O => mret (-1)
  | S n =>
      t ← thread_get tr;
      p ← liftO (aget (ports t) i);
      if p =? -1 then mret (-1)
      else r ← body p;
           match r with None => scan_ports n (i + 1) tr body | Some rc => mret rc end
  end.

(** The same loop with a running count. *)
Fixpoint sum_ports (n : nat) (i tr count : Z) (body : Z -> K Z) : K Z :=
  match n with
  | O => mret count
  | S n =>
      t ← thread_get tr;
      p ← liftO (aget (ports t) i);
      if p =? -1 then mret count
      else c ← body p; sum_ports n (i + 1) tr (s32 (count + c)) body
  end.

(** The search of the previews for the caller's port among the thread's: the
    interval of indices to look at, [None] when it is not there. *)
Fixpoint find_port (n : nat) (i tr port : Z) : K (option (Z * nat)) :=
  match n with
  | O => mret None
  | S n =>
      t ← thread_get tr;
      p ← liftO (aget (ports t) i);
      if p =? -1 then mret None
      else if p =? port then mret (Some (i, 1%nat)) else find_port n (i + 1) tr port
  end.
End ipc.

(** * Running the primitive steps *)

Section ipc_steps.
Context {A : Type} `{MmLaws A}.
Implicit Types s : ipc_state A.

Lemma thread_get_ok tr s t : tr <> 0 -> threads (sched s) !! tr = Some t -> thread_get tr s = Ok (t, s).
Proof. intros Hp Ht. unfold thread_get. mrun. by rewrite (hload_Some _ _ _ Hp Ht). Qed.

Lemma thread_put_ok tr t t' s : tr <> 0 -> threads (sched s) !! tr = Some t' ->
  thread_put tr t s = Ok (tt, set_sched (set_threads (<[tr := t]> (threads (sched s))) (sched s)) s).
Proof. intros Hp Ht. unfold thread_put. mrun. by rewrite hstore_Some by eauto. Qed.

Lemma ipc_get_ok p port s pr b : p <> 0 -> procs s !! p = Some pr -> aget (ipc pr) port = Ok b ->
  ipc_get p port s = Ok (b, s).
Proof.
  intros Hp Hpr Hb. unfold ipc_get, proc_get. mrun. rewrite (hload_Some _ _ _ Hp Hpr). mrun. by rewrite Hb.
Qed.

Lemma ipc_put_ok p port s pr b b' : p <> 0 -> procs s !! p = Some pr -> aget (ipc pr) port = Ok b ->
  ipc_put p port b' s =
    Ok (tt, set_procs (<[p := set_ipc (<[Z.to_nat port := b']> (ipc pr)) pr]> (procs s)) s).
Proof.
  intros Hp Hpr Hb. unfold ipc_put, proc_get. mrun. rewrite (hload_Some _ _ _ Hp Hpr). mrun.
  by rewrite (aset_aget _ _ _ _ Hb).
Qed.

Lemma find_thread_ok p n s pr tr : p <> 0 -> procs s !! p = Some pr ->
  get_thread pr n (threads (sched s)) = Ok tr -> find_thread p n s = Ok (tr, s).
Proof.
  intros Hp Hpr Ht. unfold find_thread, proc_get. mrun. rewrite (hload_Some _ _ _ Hp Hpr). mrun. by rewrite Ht.
Qed.

(** Port [port] of the process at [p] is assigned, with block [b]. *)
Definition port_open s (p port : Z) (pr : process_block) (b : ipc_block) : Prop :=
  p <> 0 /\ procs s !! p = Some pr /\ 0 <= port < MAX_PORTS /\ aget (ipc pr) port = Ok b /\ 0 <= ib_tid b.

Lemma port_range port : 0 <= port < MAX_PORTS -> (port <? 0) || (MAX_PORTS <=? port) = false.
Proof. intros Hr. destruct (Z.ltb_spec port 0), (Z.leb_spec MAX_PORTS port); (done || lia). Qed.

Lemma port_flags_ok s p port pr b fl : port_open s p port pr b ->
  port_flags p port fl s = Ok (s32 (Z.land (ib_flags b) fl), s).
Proof.
  intros (Hp & Hpr & Hr & Hb & Ht). unfold port_flags. rewrite port_range by done.
  mrun. rewrite (ipc_get_ok _ _ _ _ _ Hp Hpr Hb). mrun. by destruct (Z.eqb_spec (ib_tid b) (-1)); [lia |].
Qed.

Lemma port2tid_ok s p port pr b : port_open s p port pr b -> port2tid p port s = Ok (ib_tid b, s).
Proof.
  intros (Hp & Hpr & Hr & Hb & Ht). unfold port2tid. rewrite port_range by done.
  mrun. by rewrite (ipc_get_ok _ _ _ _ _ Hp Hpr Hb).
Qed.

(** An unmasked port. *)
Lemma unmasked_s32 b : Z.land (ib_flags b) IPC_MASKED = 0 -> (s32 (Z.land (ib_flags b) IPC_MASKED) =? 0) = true.
Proof. by intros ->. Qed.

Lemma lock_twice aq : AQueue.lock aq = 0 -> release_spinlock (AQueue.set_lock aq 1) = aq.
Proof. intros E. destruct aq. unfold AQueue.lock in E. subst. done. Qed.

Lemma queue_count_ok q s aq : q <> 0 -> queues s !! q = Some aq -> AQueue.lock aq = 0 ->
  queue_count q s = Ok (u32 (AQueue.last_position aq - AQueue.position aq), s).
Proof.
  intros Hq Haq Hl. unfold queue_count. mrun. rewrite (hload_Some _ _ _ Hq Haq). mrun.
  unfold aqueue_count, acquire_spinlock. rewrite Hl. cbn [Z.eqb mbind outcome_bind].
  rewrite lock_twice by done. mrun. rewrite insert_id by done. by destruct s.
Qed.

Lemma rep_count {T} aq (h : gmap Z (aqueue_page T)) ps l : aq_rep aq h ps l ->
  u32 (AQueue.last_position aq - AQueue.position aq) = Z.of_nat (length l).
Proof.
  intros (Hlk & Hoc & Hnd & _ & Hpg & Hroom & Hch & Hp0 & Hpl & Hlp & Hl).
  apply (f_equal length) in Hl. rewrite length_fmap, length_drop, length_take in Hl.
  assert (length (page_slots h ps) = (Z.to_nat (obj_count aq) * length ps)%nat) as Hs.
  { clear -Hch. revert Hch. generalize (page aq). induction ps as [|q ps IH]; intros p Hc; [simpl; lia |].
    destruct Hc as (-> & _ & pg & Hpg & Hlen & Hc). unfold page_slots in *. simpl. rewrite Hpg, length_app.
    rewrite (IH _ Hc). lia. }
  rewrite Hs in Hl. rewrite u32_small; [nia |]. unfold is_u32, two32. nia.
Qed.

Lemma message_next_ok q s aq ps m l frame : q <> 0 -> queues s !! q = Some aq ->
  aq_rep aq (message_pages s) ps (m :: l) ->
  mm_live (mem s) = list_to_set ps ∪ frame -> list_to_set ps ## frame ->
  exists aq' h' a' ps', message_next q s =
    Ok ((0, m), IpcState (sched s) (procs s) (<[q := aq']> (queues s)) (pulse_pages s) h' (buffers s) a') /\
  aq_rep aq' h' ps' l /\ mm_live a' = list_to_set ps' ∪ frame.
Proof.
  intros Hq Haq Hrep Hlive Hd. unfold message_next. mrun. rewrite (hload_Some _ _ _ Hq Haq). mrun.
  destruct (aqueue_next_spec aq (message_pages s) ps m l (mem s) frame Hrep Hlive Hd)
    as (aq' & h' & a' & n & _ & -> & Hrep' & Hlive'). mrun. do 3 eexists. exists (drop n ps).
  split_and!; done.
Qed.
End ipc_steps.

(** * Sample state *)

(** A process at 7000 whose thread 100 (number 1) owns port 5, open, and port 6,
    masked; port 5 holds one message with two bytes at 9000, its pulse queue
    was never written to. *)
Definition closed_port : ipc_block := IpcBlock (-1) 0 NULL NULL.
Definition sample_process : process_block :=
  Process 1 (replicate 5 closed_port ++ [IpcBlock 1 0 8000 8100; IpcBlock 1 1 8200 8300] ++ replicate 1017 closed_port)
    (HashTable (fun _ _ => 0) (fun _ => 0) 1 4 75 40 [100; 0; 0; 0]).
Definition sample_owner : thread :=
  Thread (replicate 64 0) 1 THREAD_RUNNING 7000 (-1) 0 ([5; 6] ++ replicate 1022 (-1)) (-1) (-1) 0 (-1) 0.
Definition young_queue (sz cnt : Z) : aqueue := AQueue 0 0 sz cnt 0 0 NULL NULL.
Definition sample_message : message := Message 4 2 5 2 9000.
Definition sample_ipc : ipc_state arena :=
  IpcState (SchedState [sample_si] {[100 := sample_owner]} 0 1 true [60] [] 0)
    {[7000 := sample_process]}
    (<[8000 := young_queue 36 1024]> (<[8200 := young_queue 36 1024]> (<[8300 := young_queue 20 256]>
      {[8100 := AQueue 0 1 20 2 0 1 8500 8500]})))
    ∅ {[8500 := AQueuePage NULL [Some sample_message; None]]}
    (<[9000 := [104; 105]]> {[9500 := [0; 0; 0; 0]]})
    (Arena 4 {[8000; 8100; 8200; 8300; 8500; 9000; 7000]}).
