(* ===== verification/Pulses.v ===== *)
(** Pulses, the small fixed-size notifications between processes (ipc/pulse.c):
    sending, receiving, previewing, counting and dropping. *)
From S2P Require Import Prelude Mm AQueue HTable Objects Scheduler Ipc.

Section pulses.
Context {A : Type} `{MmSubsystem A}.
Abbreviation K := (M (ipc_state A)).

(** [send_pulse]; [p] is the target process. *)
Definition send_pulse (source_pid source_port p dest_port d1 d2 d3 d4 d5 d6 : Z) : K Z :=
  n ← port2tid p dest_port;
  if n <? 0 then mret (-1)
  else
    tr ← find_thread p n;
    if tr =? NULL then mret (-1)
    else
      b ← ipc_get p dest_port;
      massert (negb (pulse_q b =? NULL)) ;;
      rc ← pulse_add (pulse_q b) (Pulse source_pid source_port dest_port d1 d2 d3 d4 d5 d6);
      if negb (rc =? 0) then mret (-1)
      else
        fl ← port_flags p dest_port IPC_MASKED;
        (if fl =? 0 then
           t ← thread_get tr;
           if state t =? THREAD_DORMANT then run_sched (set_thread_state tr THREAD_RUNNING)
           else mret tt
         else mret tt) ;;
        mret 0.

(** The part of [receive_pulse] after the port is chosen: the queue is not empty,
    and the pulse goes to the caller's variables, here the result. *)
Definition take_pulse (q : Z) : K (Z * option pulse) :=
  '(i, x) ← pulse_next q;
  massert (negb (i =? 0)) ;;
  mret (0, Some x).

(** The scan loops hand over the pulse next to the return code. *)
Fixpoint scan_pulses (n : nat) (i tr : Z) (body : Z -> K (option (Z * option pulse)))
    : K (Z * option pulse) :=
  match n with
  | O => mret (-1, None)
  | S n =>
      t ← thread_get tr;
      p ← liftO (aget (ports t) i);
      if p =? -1 then mret (-1, None)
      else r ← body p;
           match r with None => scan_pulses n (i + 1) tr body | Some x => mret x end
  end.

(** [receive_pulse]; [want] is the value of [*dest_port] on entry, the answer the
    return code and the pulse stored through the pointers. *)
Definition receive_pulse (tr want : Z) : K (Z * option pulse) :=
  t ← thread_get tr;
  let proc := process t in
  let port := if (0 <=? want) && (want <? MAX_PORTS) then want else last_port_pulse t in
  thread_put tr (set_last_port_pulse (-1) t) ;;
  if (0 <=? port) && (port <? MAX_PORTS) then
    fl ← port_flags proc port IPC_MASKED;
    if negb (fl =? 0) then mret (-1, None)
    else
      b ← ipc_get proc port;
      massert (negb (pulse_q b =? NULL)) ;;
      c ← queue_count (pulse_q b);
      if c =? 0 then mret (-1, None) else take_pulse (pulse_q b)
  else
    scan_pulses (Z.to_nat MAX_PORTS) 0 tr (fun port =>
      fl ← port_flags proc port IPC_MASKED;
      if negb (fl =? 0) then mret None
      else
        b ← ipc_get proc port;
        massert (negb (pulse_q b =? NULL)) ;;
        c ← queue_count (pulse_q b);
        if c =? 0 then mret (Some (-1, None))
        else x ← take_pulse (pulse_q b); mret (Some x)).

(** [preview_pulse] *)
Definition preview_pulse (tr want : Z) : K (Z * option pulse) :=
  t ← thread_get tr;
  let proc := process t in
  range ← (if (0 <=? want) && (want <? MAX_PORTS)
           then find_port (Z.to_nat MAX_PORTS) 0 tr want
           else mret (Some (0, Z.to_nat MAX_PORTS)));
  match range with
  | None => mret (-1, None)
  | Some (bottom, n) =>
      t ← thread_get tr;
      thread_put tr (set_last_port_pulse (-1) t) ;;
      scan_pulses n bottom tr (fun port =>
        fl ← port_flags proc port IPC_MASKED;
        if negb (fl =? 0) then mret None
        else
          b ← ipc_get proc port;
          massert (negb (pulse_q b =? NULL)) ;;
          c ← queue_count (pulse_q b);
          if c =? 0 then mret (Some (-1, None))
          else
            '(i, x) ← pulse_next (pulse_q b);
            massert (i =? 0) ;;
            t ← thread_get tr;
            thread_put tr (set_last_port_pulse port t) ;;
            mret (Some (0, Some x)))
  end.

Definition pulses_waiting (tr : Z) : K Z :=
  t ← thread_get tr;
  let proc := process t in
  sum_ports (Z.to_nat MAX_PORTS) 0 tr 0 (fun port =>
    fl ← port_flags proc port IPC_MASKED;
    if negb (fl =? 0) then mret 0
    else
      b ← ipc_get proc port;
      massert (negb (pulse_q b =? NULL)) ;;
      queue_count (pulse_q b)).

Definition drop_pulse (tr : Z) : K Z :=
  t ← thread_get tr;
  let proc := process t in
  let port := last_port_pulse t in
  thread_put tr (set_last_port_pulse (-1) t) ;;
  if (0 <=? port) && (port <? MAX_PORTS) then
    fl ← port_flags proc port IPC_MASKED;
    if negb (fl =? 0) then mret (-1)
    else
      b ← ipc_get proc port;
      massert (negb (pulse_q b =? NULL)) ;;
      pulse_next (pulse_q b) ;; mret 0
  else
    scan_ports (Z.to_nat MAX_PORTS) 0 tr (fun port =>
      b ← ipc_get proc port;
      pulse_next (pulse_q b) ;; mret (Some 0)).
End pulses.

(** * Receiving *)

Section receiving.
Context {A : Type} `{MmSubsystem A}.
Implicit Types s : ipc_state A.

Lemma aqueue_next_rc {T} aq (h : gmap Z (aqueue_page T)) (a : A) rc x aq' h' a' :
  aqueue_next aq h a = Ok (rc, x, aq', h', a') -> rc = 0.
Proof. unfold aqueue_next. intros E. inv_ok. case_match; [|done]. by simplify_eq. Qed.

Lemma pulse_next_rc q s rc x s' : pulse_next q s = Ok (rc, x, s') -> rc = 0.
Proof.
  unfold pulse_next. intros E. inv_run. repeat case_match; simplify_eq. inv_run. simplify_eq.
  unfold liftO in *. repeat case_match; simplify_eq. by eapply aqueue_next_rc.
Qed.

Lemma take_pulse_halts q s r : take_pulse q s = Ok r -> False.
Proof.
  unfold take_pulse. intros E. inv_run. repeat case_match; simplify_eq. inv_run.
  match goal with Hn : pulse_next _ _ = Ok _ |- _ => apply pulse_next_rc in Hn; subst end. done.
Qed.
Lemma scan_pulses_inv (P : Z * option pulse -> Prop) body tr : P (-1, None) ->
  (forall port s r s', body port s = Ok (Some r, s') -> P r) ->
  forall n i s r s', scan_pulses n i tr body s = Ok (r, s') -> P r.
Proof.
  intros H0 Hbody. induction n as [|n IH]; intros i s r s' E; cbn [scan_pulses] in E.
  { by inv_run. }
  inv_run. case_match; inv_run; [done |]. case_match; inv_run; [by eapply Hbody | by eapply IH].
Qed.
End receiving.

(** [receive_pulse] never delivers a pulse: the assertion after [aqueue_next]
    asks for a non-zero return code and [aqueue_next] answers 0, so the only
    answer of a call that returns is -1 with nothing stored; a call that finds a
    pulse stops the kernel. *)
Theorem receive_pulse_never_delivers {A} `{MmSubsystem A} tr want (s s' : ipc_state A) rc x :
  receive_pulse tr want s = Ok (rc, x, s') -> rc = -1 /\ x = None.
Proof.
  intros E. unfold receive_pulse in E. inv_run. case_match; inv_run.
  - case_match; inv_run; [done |]. case_match; inv_run; [done |].
    by destruct (take_pulse_halts _ _ _ E).
  - apply (scan_pulses_inv (fun r => r.1 = -1 /\ r.2 = None)) in E; [done | done |].
    intros port st ans st2 Hb. inv_run. case_match; inv_run; simplify_eq. case_match; inv_run; [by simplify_eq |].
    by match goal with Ht : take_pulse _ _ = Ok _ |- _ => apply take_pulse_halts in Ht end.
Qed.

Lemma receive_pulse_never_delivers_witness : exists s',
  receive_pulse 100 5 sample_ipc = Ok ((-1, None), s') /\ (-1 = -1 /\ @None pulse = None).
Proof.
  destruct (receive_pulse 100 5 sample_ipc) as [[[rc x] s']|f] eqn:E; [|vm_compute in E; discriminate].
  exists s'. destruct (receive_pulse_never_delivers 100 5 _ _ _ _ E) as [-> ->]. auto.
Defined.
