(* ===== verification/Messages.v ===== *)
(** Messages, the copied variable-size data between processes (ipc/messages.c):
    sending, receiving, peeking, counting and dropping. *)
From S2P Require Import Prelude Mm Strings AQueue HTable Objects Scheduler Ipc.

Section messages.
Context {A : Type} `{MmSubsystem A}.
Abbreviation K := (M (ipc_state A)).

(** [send_message]; [p] is the target process, [location] the sender's buffer. *)
Definition send_message (source_pid source_port p dest_port bytes location : Z) : K Z :=
  n ← port2tid p dest_port;
  if n <? 0 then mret (-1)
  else
    tr ← find_thread p n;
    if tr =? NULL then mret (-1)
    else
      data ← buffer_alloc bytes;
      if data =? NULL then mret (-1)
      else
        buffer_copy data location bytes ;;
        b ← ipc_get p dest_port;
        rc ← message_add (message_q b) (Message source_pid source_port dest_port bytes data);
        if negb (rc =? 0) then buffer_free data ;; mret (-1)
        else
          fl ← port_flags p dest_port IPC_MASKED;
          (if fl =? 0 then
             t ← thread_get tr;
             if state t =? THREAD_DORMANT then run_sched (set_thread_state tr THREAD_RUNNING)
             else mret tt
           else mret tt) ;;
          mret 0.

(** The part of [recv_message] after the port is chosen, on a queue that is not
    empty: at most [bytes] bytes go to [location] and the block is freed. *)
Definition take_message (q bytes location : Z) : K (Z * option message) :=
  '(i, tmp) ← message_next q;
  massert (i =? 0) ;;
  let size := if bytes <? m_bytes tmp then bytes else m_bytes tmp in
  buffer_copy location (m_data tmp) size ;;
  buffer_free (m_data tmp) ;;
  mret (size, Some tmp).

Fixpoint scan_messages (n : nat) (i tr : Z) (body : Z -> K (option (Z * option message)))
    : K (Z * option message) :=
  match n with
  | O => mret (-1, None)
  | S n =>
      t ← thread_get tr;
      p ← liftO (aget (ports t) i);
      if p =? -1 then mret (-1, None)
      else r ← body p;
           match r with None => scan_messages n (i + 1) tr body | Some x => mret x end
  end.

(** [recv_message]; [want] is the value of [*dest_port] on entry, the answer the
    return code and the message whose addresses are stored through the pointers. *)
Definition recv_message (tr want bytes location : Z) : K (Z * option message) :=
  t ← thread_get tr;
  let proc := process t in
  let port := if (0 <=? want) && (want <? MAX_PORTS) then want else last_port_message t in
  thread_put tr (set_last_port_message (-1) t) ;;
  if (0 <=? port) && (port <? MAX_PORTS) then
    fl ← port_flags proc port IPC_MASKED;
    if negb (fl =? 0) then mret (-1, None)
    else
      b ← ipc_get proc port;
      massert (negb (message_q b =? NULL)) ;;
      c ← queue_count (message_q b);
      if c =? 0 then mret (-1, None) else take_message (message_q b) bytes location
  else
    scan_messages (Z.to_nat MAX_PORTS) 0 tr (fun port =>
      fl ← port_flags proc port IPC_MASKED;
      if negb (fl =? 0) then mret None
      else
        b ← ipc_get proc port;
        massert (negb (message_q b =? NULL)) ;;
        c ← queue_count (message_q b);
        if c =? 0 then mret None
        else x ← take_message (message_q b) bytes location; mret (Some x)).

(** [peek_message]; the sender, the ports and the size of the answer are stored
    through the pointers. *)
Definition peek_message (tr want : Z) : K (Z * option message) :=
  t ← thread_get tr;
  let proc := process t in
  range ← (if (0 <=? want) && (want <? MAX_PORTS)
           then find_port (Z.to_nat MAX_PORTS) 0 tr want
           else mret (Some (0, Z.to_nat MAX_PORTS)));
  match range with
  | None => mret (-1, None)
  | Some (bottom, n) =>
      t ← thread_get tr;
      thread_put tr (set_last_port_message (-1) t) ;;
      scan_messages n bottom tr (fun port =>
        fl ← port_flags proc port IPC_MASKED;
        if negb (fl =? 0) then mret None
        else
          b ← ipc_get proc port;
          massert (negb (message_q b =? NULL)) ;;
          c ← queue_count (message_q b);
          if c =? 0 then mret None
          else
            '(i, tmp) ← message_next (message_q b);
            massert (i =? 0) ;;
            t ← thread_get tr;
            thread_put tr (set_last_port_message port t) ;;
            mret (Some (0, Some tmp)))
  end.

Definition messages_waiting (tr : Z) : K Z :=
  t ← thread_get tr;
  let proc := process t in
  sum_ports (Z.to_nat MAX_PORTS) 0 tr 0 (fun port =>
    fl ← port_flags proc port IPC_MASKED;
    if negb (fl =? 0) then mret 0
    else
      b ← ipc_get proc port;
      massert (negb (message_q b =? NULL)) ;;
      queue_count (message_q b)).

(** The removal of the oldest message of queue [q] with its data. *)
Definition drop_first (q : Z) : K Z :=
  c ← queue_count q;
  if c =? 0 then mret (-1)
  else
    '(i, tmp) ← message_next q;
    massert (i =? 0) ;;
    buffer_free (m_data tmp) ;;
    mret 0.

Definition drop_message (tr : Z) : K Z :=
  t ← thread_get tr;
  let proc := process t in
  let port := last_port_message t in
  thread_put tr (set_last_port_message (-1) t) ;;
  if (0 <=? port) && (port <? MAX_PORTS) then
    fl ← port_flags proc port IPC_MASKED;
    if negb (fl =? 0) then mret (-1)
    else
      b ← ipc_get proc port;
      massert (negb (message_q b =? NULL)) ;;
      drop_first (message_q b)
  else
    scan_ports (Z.to_nat MAX_PORTS) 0 tr (fun port =>
      fl ← port_flags proc port IPC_MASKED;
      if negb (fl =? 0) then mret None
      else
        b ← ipc_get proc port;
        massert (negb (message_q b =? NULL)) ;;
        rc ← drop_first (message_q b); mret (Some rc)).
End messages.

(** * Delivery *)

(** [recv_message] on an unmasked port that holds messages takes the oldest
    one: it answers the number of bytes copied, at most what the caller has room
    for, puts exactly that prefix of the data into the caller's buffer, hands over
    the sender, gives the data block back and leaves the other messages queued
    in order. *)
Theorem recv_message_delivers {A} `{MmLaws A} (s : ipc_state A) tr t want port pr b q aq ps m l frame
    bytes location lb db :
  tr <> 0 -> threads (sched s) !! tr = Some t ->
  port = (if (0 <=? want) && (want <? MAX_PORTS) then want else last_port_message t) ->
  port_open s (process t) port pr b -> Z.land (ib_flags b) IPC_MASKED = 0 ->
  message_q b = q -> q <> 0 -> queues s !! q = Some aq ->
  aq_rep aq (message_pages s) ps (m :: l) ->
  mm_live (mem s) = list_to_set ps ∪ frame -> list_to_set ps ## frame -> m_data m ∈ frame ->
  location <> 0 -> location <> m_data m ->
  buffers s !! location = Some lb -> buffers s !! m_data m = Some db ->
  0 <= bytes -> 0 <= m_bytes m ->
  let size := Z.min bytes (m_bytes m) in
  size < two32 -> size <= Z.of_nat (length lb) -> size <= Z.of_nat (length db) ->
  exists s' aq' ps', recv_message tr want bytes location s = Ok ((size, Some m), s') /\
  buffers s' = delete (m_data m)
    (<[location := take (Z.to_nat size) db ++ drop (Z.to_nat size) lb]> (buffers s)) /\
  queues s' !! q = Some aq' /\ aq_rep aq' (message_pages s') ps' l /\
  mm_live (mem s') = (list_to_set ps' ∪ frame) ∖ {[m_data m]} /\
  threads (sched s') = <[tr := set_last_port_message (-1) t]> (threads (sched s)).
Proof.
  intros Htr Ht Hport Hopen Hmask Hq Hq0 Haq Hrep Hlive Hdisj Hdm Hloc Hld Hlb Hdb Hb0 Hm0 size Hs32 Hsl Hsd.
  assert (m_data m <> 0) as Hd0.
  { intros E. apply (mm_live_nonnull (mem s)). rewrite Hlive. unfold NULL. rewrite <- E. set_solver. }
  assert (AQueue.lock aq = 0) as Hlk by by destruct Hrep.
  pose proof Hopen as (Hp & Hpr & Hr & Hb & Htid).
  set (s1 := set_sched (set_threads (<[tr := set_last_port_message (-1) t]> (threads (sched s))) (sched s)) s).
  destruct (message_next_ok q s1 aq ps m l frame Hq0 Haq Hrep Hlive Hdisj)
    as (aq' & h' & a' & ps' & Hnext & Hrep' & Hlive').
  destruct (kfree_live (m_data m) a') as (a2 & Hfree & Hl2); [rewrite Hlive'; set_solver |].
  unfold recv_message. mrun. rewrite (thread_get_ok _ _ _ Htr Ht). mrun. rewrite <- Hport.
  rewrite (thread_put_ok _ _ _ _ Htr Ht). mrun. fold s1.
  destruct (Z.leb_spec 0 port), (Z.ltb_spec port MAX_PORTS); try lia. mrun.
  rewrite (port_flags_ok s1 _ _ pr b) by exact Hopen. mrun. rewrite unmasked_s32 by done. mrun.
  rewrite (ipc_get_ok _ _ s1 pr b) by done. mrun. rewrite Hq.
  destruct (Z.eqb_spec q NULL); [done |]. mrun. rewrite (queue_count_ok q s1 aq) by done. mrun.
  rewrite (rep_count _ _ _ _ Hrep). cbn [length]. destruct (Z.eqb_spec (Z.of_nat (S (length l))) 0); [lia |].
  unfold take_message. mrun. rewrite Hnext. mrun. cbn [Z.eqb]. mrun.
  assert ((if bytes <? m_bytes m then bytes else m_bytes m) = size) as ->.
  { unfold size. destruct (Z.ltb_spec bytes (m_bytes m)); lia. }
  unfold buffer_copy. mrun. cbn [buffers]. change (buffers s1) with (buffers s).
  rewrite (hload_Some _ _ _ Hloc Hlb). mrun. rewrite (hload_Some _ _ _ Hd0 Hdb). mrun.
  rewrite kmemcpy_spec by (unfold is_u32; lia). rewrite decide_True by lia. mrun.
  unfold buffer_free. mrun. unfold set_buffers, set_mem. simpl. rewrite Hfree. mrun.
  do 3 eexists. split; [done |]. simpl. split; [done |]. split; [apply lookup_insert_eq |].
  split; [exact Hrep' |]. split; [by rewrite Hl2, Hlive' | done].
Qed.

Lemma recv_message_delivers_witness : exists s' aq' ps',
  recv_message 100 5 4 9500 sample_ipc = Ok ((2, Some sample_message), s') /\
  buffers s' = delete 9000 (<[9500 := [104; 105; 0; 0]]> (buffers sample_ipc)) /\
  queues s' !! 8100 = Some aq' /\ aq_rep aq' (message_pages s') ps' [].
Proof.
  destruct (recv_message_delivers sample_ipc 100 sample_owner 5 5 sample_process (IpcBlock 1 0 8000 8100) 8100
    (AQueue 0 1 20 2 0 1 8500 8500) [8500] sample_message [] {[8000; 8100; 8200; 8300; 9000; 7000]}
    4 9500 [0; 0; 0; 0] [104; 105]) as (s' & aq' & ps' & H1 & H2 & H3 & H4 & _);
    [try reflexivity; try done; try (simpl; lia); try (simpl; set_solver) .. |].
  { unfold aq_rep. simpl. split_and!; try (done || lia).
    - apply NoDup_singleton.
    - eexists. split; [reflexivity |]. done. }
  exists s', aq', ps'. auto.
Defined.
