(* ===== verification/Ports.v ===== *)
(** Ports, the end points of messages and pulses (ipc/ports.c): creation with
    their queues, flags, release, and the bulk calls. *)
From S2P Require Import Prelude Mm AQueue HTable Objects Scheduler Ipc Pulses Messages.

Section ports.
Context {A : Type} `{MmSubsystem A}.
Abbreviation K := (M (ipc_state A)).

(** [for ( i = 0; i < MAX_PORTS; i++ ) if ( ports[i] == -1 ) { ports[i] = port; break; }] *)
Fixpoint add_port (n : nat) (i port : Z) (l : list Z) : outcome (list Z) :=
  match n with
  | O => Ok l
  | S n =>
      p ← aget l i;
      if p =? -1 then aset l i port else add_port n (i + 1) port l
  end.

Definition create_port (tr port n : Z) : K Z :=
  t ← thread_get tr;
  let proc := process t in
  if (port <? 0) || (MAX_PORTS <=? port) then mret (-1)
  else
    b ← ipc_get proc port;
    if negb (ib_tid b =? -1) then mret (-1)
    else
      target ← (if tid t =? n then mret tr else find_thread proc n);
      if target =? NULL then mret (-1)
      else
        pq ← queue_create 36 PULSE_OBJECTS;
        b ← ipc_get proc port;
        ipc_put proc port (IpcBlock (ib_tid b) (ib_flags b) pq (message_q b)) ;;
        if pq =? NULL then mret (-1)
        else
          mq ← queue_create 20 MESSAGE_OBJECTS;
          ipc_put proc port (IpcBlock (ib_tid b) (ib_flags b) pq mq) ;;
          if mq =? NULL then
            pulse_queue_destroy pq ;;
            ipc_put proc port (IpcBlock (ib_tid b) (ib_flags b) NULL mq) ;;
            mret (-1)
          else
            ipc_put proc port (IpcBlock n 0 pq mq) ;;
            t ← thread_get target;
            l ← liftO (add_port (Z.to_nat MAX_PORTS) 0 port (ports t));
            thread_put target (set_ports l t) ;;
            mret 0.

(** The [-1] case of [set_port_flags]: every port of the thread, in order. *)
Fixpoint set_all_flags (n : nat) (i tr flags : Z) : K Z :=
  match n with
  | O => mret 0
  | S n =>
      t ← thread_get tr;
      p ← liftO (aget (ports t) i);
      if p =? -1 then mret 0
      else
        b ← ipc_get (process t) p;
        ipc_put (process t) p (IpcBlock (ib_tid b) flags (pulse_q b) (message_q b)) ;;
        set_all_flags n (i + 1) tr flags
  end.

Definition set_port_flags (tr port flags : Z) : K Z :=
  t ← thread_get tr;
  let proc := process t in
  if (port <? -1) || (MAX_PORTS <=? port) then mret (-1)
  else
    thread_put tr (set_last_port_pulse (-1) (set_last_port_message (-1) t)) ;;
    if 0 <=? port then
      b ← ipc_get proc port;
      if ib_tid b =? -1 then mret (-1)
      else ipc_put proc port (IpcBlock (ib_tid b) flags (pulse_q b) (message_q b)) ;; mret 0
    else set_all_flags (Z.to_nat MAX_PORTS) 0 tr flags.

(** [do { target->last_port_message = port; } while ( drop( target ) >= 0 );],
    [fuel] rounds at most. *)
Fixpoint drop_all (fuel : nat) (target port : Z) (drop : Z -> K Z) : K unit :=
  match fuel with
  | O => liftO (Halt Spin)
  | S fuel =>
      t ← thread_get target;
      thread_put target (set_last_port_message port t) ;;
      rc ← drop target;
      if 0 <=? rc then drop_all fuel target port drop else mret tt
  end.

(** The loop of [release_port] that takes the port out of the thread's list:
    [n] rounds from index [i], [found] once the port was met. *)
Fixpoint remove_port (n : nat) (i port found : Z) (l : list Z) : outcome (list Z) :=
  match n with
  | O => Ok l
  | S n =>
      p ← aget l i;
      if p =? -1 then Ok l
      else
        l ← (if p =? port then aset l i (-1) else Ok l);
        let found := if p =? port then 1 else found in
        l ← (if (found =? 1) && (i =? MAX_PORTS - 1) then aset l i (-1)
             else x ← aget l (i + found); aset l i x);
        remove_port n (i + 1) port found l
  end.

Definition release_port (fuel : nat) (tr port : Z) : K Z :=
  t ← thread_get tr;
  let proc := process t in
  if port <? 0 then mret (-1)
  else if MAX_PORTS <=? port then mret (-1)
  else
    b ← ipc_get proc port;
    if ib_tid b =? -1 then mret (-1)
    else
      target ← (if tid t =? ib_tid b then mret tr else find_thread proc (ib_tid b));
      (if negb (target =? NULL) then
         drop_all fuel target port drop_pulse ;; drop_all fuel target port drop_message
       else mret tt) ;;
      b ← ipc_get proc port;
      pulse_queue_destroy (pulse_q b) ;;
      message_queue_destroy (message_q b) ;;
      ipc_put proc port (IpcBlock (-1) 0 NULL NULL) ;;
      (if negb (target =? NULL) then
         t ← thread_get target;
         l ← liftO (remove_port (Z.to_nat MAX_PORTS) 0 port 0 (ports t));
         thread_put target (set_ports l t)
       else mret tt) ;;
      mret 0.

(** [bulk_get_ports]; the pairs that are written, the last one with port -1 and
    no flags when the thread has fewer than [MAX_PORTS] ports. *)
Fixpoint bulk_get_from (n : nat) (i tr : Z) : K (list (Z * option Z)) :=
  match n with
  | O => mret []
  | S n =>
      t ← thread_get tr;
      p ← liftO (aget (ports t) i);
      if p =? -1 then mret [(-1, None)]
      else
        f ← get_port_flags tr p;
        l ← bulk_get_from n (i + 1) tr;
        mret ((p, Some (u32 f)) :: l)
  end.
Definition bulk_get_ports (tr : Z) : K (list (Z * option Z)) :=
  bulk_get_from (Z.to_nat MAX_PORTS) 0 tr.

(** [bulk_set_ports] on the caller's pairs. *)
Fixpoint bulk_set_from (n : nat) (i tr : Z) (pairs : list (Z * Z)) : K Z :=
  match n with
  | O => mret 0
  | S n =>
      '(p, f) ← liftO (aget pairs i);
      if p =? -1 then mret 0
      else set_port_flags tr p f ;; bulk_set_from n (i + 1) tr pairs
  end.
Definition bulk_set_ports (tr : Z) (pairs : list (Z * Z)) : K Z :=
  bulk_set_from (Z.to_nat MAX_PORTS) 0 tr pairs.

(** [release_thread_ports] *)
Fixpoint release_ports (fuel : nat) (tr count : Z) : K Z :=
  match fuel with
  | O => liftO (Halt Spin)
  | S n =>
      t ← thread_get tr;
      p ← liftO (aget (ports t) 0);
      if p =? -1 then mret count
      else release_port fuel tr p ;; release_ports n tr (s32 (count + 1))
  end.
Definition release_thread_ports (fuel : nat) (tr : Z) : K Z := release_ports fuel tr 0.
End ports.

(** * Creating and releasing ports *)

Section port_facts.
Context {A : Type} `{MmLaws A}.
Implicit Types s : ipc_state A.

Lemma add_port_spec n i port l : (i + n <= length l)%nat ->
  exists k, (i <= k <= i + n)%nat /\ (forall j x, (i <= j < k)%nat -> l !! j = Some x -> x <> -1) /\
  ((k < i + n)%nat -> l !! k = Some (-1)) /\
  add_port n (Z.of_nat i) port l = Ok (if decide (k < i + n)%nat then <[k := port]> l else l).
Proof.
  revert i. induction n as [|n IH]; intros i Hi; cbn [add_port].
  { exists i. split_and!; try lia. by rewrite decide_False by lia. }
  destruct (lookup_lt_is_Some_2 l i) as [x Hx]; [lia |].
  rewrite (aget_nat _ _ _ Hx). cbn [mbind outcome_bind]. destruct (Z.eqb_spec x (-1)) as [->|Hn].
  - exists i. split_and!; try lia; [done |]. rewrite decide_True by lia.
    rewrite aset_lt by lia. by rewrite Nat2Z.id.
  - replace (Z.of_nat i + 1) with (Z.of_nat (S i)) by lia.
    destruct (IH (S i)) as (k & Hk & Hb & Ha & ->); [lia |]. exists k.
    split; [lia |]. split; [|split].
    + intros j y Hj Hy. destruct (decide (j = i)) as [->|]; [congruence | apply (Hb j); [lia | done]].
    + intros Hlt. apply Ha. lia.
    + by replace (S i + n)%nat with (i + S n)%nat by lia.
Qed.

Lemma ipc_queue_create s sz cnt p a : kmalloc 32 (mem s) = (p, a) -> p <> NULL ->
  queue_create sz cnt s = Ok (p, set_queues (<[p := young_queue sz cnt]> (queues s)) (set_mem a s)).
Proof.
  intros Hm Hp. unfold queue_create. mrun. unfold aqueue_create. rewrite Hm.
  destruct (Z.eqb_spec p NULL); [done |]. by mrun.
Qed.
End port_facts.

(** [create_port] by a thread for itself on a free port, when the allocator
    serves both queues: the call answers 0, the port belongs to the thread with
    no flags, its two queues are new, empty and distinct, the other ports stay,
    and the port takes the first free place of the thread's list (none when the
    list is full). *)
Theorem create_port_opens {A} `{MmLaws A} (s : ipc_state A) tr t pr port b p1 p2 a1 a2 :
  tr <> 0 -> threads (sched s) !! tr = Some t -> length (ports t) = Z.to_nat MAX_PORTS ->
  process t <> 0 -> procs s !! process t = Some pr -> 0 <= port < MAX_PORTS ->
  aget (ipc pr) port = Ok b -> ib_tid b = -1 ->
  kmalloc 32 (mem s) = (p1, a1) -> p1 <> NULL -> kmalloc 32 a1 = (p2, a2) -> p2 <> NULL ->
  exists s' l, create_port tr port (tid t) s = Ok (0, s') /\
  procs s' = <[process t := set_ipc (<[Z.to_nat port := IpcBlock (tid t) 0 p1 p2]> (ipc pr)) pr]> (procs s) /\
  p1 <> p2 /\ queues s' = <[p2 := young_queue 20 MESSAGE_OBJECTS]> (<[p1 := young_queue 36 PULSE_OBJECTS]> (queues s)) /\
  mem s' = a2 /\ threads (sched s') = <[tr := set_ports l t]> (threads (sched s)) /\
  ((exists k, ports t !! k = Some (-1) /\ Forall (fun x => x <> -1) (take k (ports t)) /\
      l = <[k := port]> (ports t)) \/
   (Forall (fun x => x <> -1) (ports t) /\ l = ports t)).
Proof.
  intros Htr Ht Hlen Hp Hpr Hport Hb Htid Hm1 Hp1 Hm2 Hp2.
  assert (p1 <> p2) as Hne.
  { destruct (kmalloc_cases _ _ _ _ Hm1) as [[]|(_ & _ & Hl1)]; [done |].
    destruct (kmalloc_cases _ _ _ _ Hm2) as [[]|(_ & Hn2 & _)]; [done |].
    intros ->. apply Hn2. rewrite Hl1. set_solver. }
  pose proof (aget_bounds _ _ _ Hb) as Hbd.
  destruct (add_port_spec (Z.to_nat MAX_PORTS) 0 port (ports t)) as (k & Hk & Hbef & Hat & Hadd); [lia |].
  set (l := if decide (k < 0 + Z.to_nat MAX_PORTS)%nat then <[k := port]> (ports t) else ports t) in *.
  assert (create_port tr port (tid t) s = Ok (0, IpcState
    (set_threads (<[tr := set_ports l t]> (threads (sched s))) (sched s))
    (<[process t := set_ipc (<[Z.to_nat port := IpcBlock (tid t) 0 p1 p2]> (ipc pr)) pr]> (procs s))
    (<[p2 := young_queue 20 MESSAGE_OBJECTS]> (<[p1 := young_queue 36 PULSE_OBJECTS]> (queues s)))
    (pulse_pages s) (message_pages s) (buffers s) a2)) as ->.
  { unfold create_port. mrun. rewrite (thread_get_ok _ _ _ Htr Ht). mrun. rewrite port_range by done. mrun.
    rewrite (ipc_get_ok _ _ _ _ _ Hp Hpr Hb). mrun. rewrite Htid. cbn [Z.eqb Pos.eqb]. rewrite Z.eqb_refl. mrun.
    destruct (Z.eqb_spec tr NULL); [done |]. mrun. rewrite (ipc_queue_create _ _ _ _ _ Hm1 Hp1). mrun.
    erewrite ipc_get_ok by done. mrun. erewrite ipc_put_ok by done. mrun.
    destruct (Z.eqb_spec p1 NULL); [done |]. mrun.
    erewrite ipc_queue_create by (exact Hm2 || done). mrun.
    erewrite ipc_put_ok by (exact Hp || apply lookup_insert_eq || (simpl; by apply aget_insert)). mrun.
    destruct (Z.eqb_spec p2 NULL); [done |]. mrun.
    erewrite ipc_put_ok.
    2: exact Hp. 2: (simpl; apply lookup_insert_eq).
    2: (simpl; apply aget_insert; rewrite length_insert; exact Hbd). mrun.
    erewrite thread_get_ok by (exact Htr || exact Ht). mrun.
    change (Z.of_nat 0) with 0 in Hadd. rewrite Hadd. mrun.
    erewrite thread_put_ok by (exact Htr || exact Ht). mrun.
    do 2 f_equal. unfold set_sched, set_procs, set_queues, set_mem. simpl.
    rewrite !insert_insert_eq. f_equal. f_equal. unfold set_ipc. simpl. by rewrite !list_insert_insert_eq. }
  do 2 eexists. split; [done |]. simpl. split_and!; try done.
  unfold l. destruct (decide _).
  - left. exists k. split; [apply Hat; lia |]. split; [|done].
    apply Forall_lookup. intros j x Hx. apply lookup_take_Some in Hx as [Hx Hj]. apply (Hbef j); [lia | done].
  - right. split; [|done]. apply Forall_lookup. intros j x Hx. pose proof (lookup_lt_Some _ _ _ Hx).
    apply (Hbef j); [lia | done].
Qed.

Lemma create_port_opens_witness : exists s' l,
  create_port 100 7 1 sample_ipc = Ok (0, s') /\ threads (sched s') = {[100 := set_ports l sample_owner]}.
Proof.
  destruct (create_port_opens sample_ipc 100 sample_owner sample_process 7 closed_port 9001 9002
    (Arena 3 ({[9001]} ∪ arena_live (mem sample_ipc)))
    (Arena 2 ({[9002]} ∪ ({[9001]} ∪ arena_live (mem sample_ipc))))) as (s' & l & H1 & _ & _ & _ & _ & H2 & _);
    [done | reflexivity | vm_compute; reflexivity | done | reflexivity | done | vm_compute; reflexivity
    | reflexivity | vm_compute; reflexivity | done | vm_compute; reflexivity | done |].
  exists s', l. split; [exact H1 |]. rewrite H2. apply insert_insert_eq.
Defined.

(** [release_port] stops the kernel: when a thread releases a port of its own
    and no pulse can be taken from the first port of its list, the loop that
    drops pulses does not look at the queue's count, and the assertion inside
    [aqueue_next] fails.  (Sent pulses are never counted, so the premise holds
    of every port list that is not empty.) *)
Theorem release_port_halts {A} `{MmSubsystem A} (s : ipc_state A) tr t pr port b port0 b0 aq fuel :
  tr <> 0 -> threads (sched s) !! tr = Some t ->
  port_open s (process t) port pr b -> tid t = ib_tid b ->
  last_port_pulse t = -1 -> ports t !! 0%nat = Some port0 -> port0 <> -1 ->
  port_open s (process t) port0 pr b0 -> pulse_q b0 <> 0 -> queues s !! pulse_q b0 = Some aq ->
  AQueue.lock aq = 0 -> 0 < obj_count aq -> AQueue.position aq = last_position aq ->
  release_port (S fuel) tr port s = Halt AssertFail.
Proof.
  intros Htr Ht (Hp & Hpr & Hport & Hb & Hib) Htid Hlast Hports Hp0 (_ & _ & Hr0 & Hb0 & _) Hq Haq Hlk Hoc Hpos.
  unfold release_port. mrun. rewrite (thread_get_ok _ _ _ Htr Ht). mrun.
  destruct (Z.ltb_spec port 0), (Z.leb_spec MAX_PORTS port); try lia. mrun.
  rewrite (ipc_get_ok _ _ _ _ _ Hp Hpr Hb). mrun.
  destruct (Z.eqb_spec (ib_tid b) (-1)); [lia |]. mrun. rewrite Htid, Z.eqb_refl. mrun.
  destruct (Z.eqb_spec tr NULL); [done |]. mrun. cbn [drop_all]. mrun.
  rewrite (thread_get_ok _ _ _ Htr Ht). mrun. rewrite (thread_put_ok _ _ _ _ Htr Ht). mrun.
  set (t1 := set_last_port_message port t). unfold drop_pulse. mrun.
  rewrite (thread_get_ok _ _ t1) by (exact Htr || apply lookup_insert_eq). mrun.
  erewrite thread_put_ok by (exact Htr || apply lookup_insert_eq). mrun.
  change (last_port_pulse t1) with (last_port_pulse t). rewrite Hlast. cbn [Z.leb Z.compare andb].
  assert (exists m, Z.to_nat MAX_PORTS = S m) as [m ->] by by exists 1023%nat. cbn [scan_ports]. mrun.
  erewrite thread_get_ok by (exact Htr || apply lookup_insert_eq). mrun.
  cbn [ports set_last_port_pulse]. change (ports t1) with (ports t).
  rewrite (aget_nat _ 0 port0 Hports : aget (ports t) 0 = Ok port0). mrun.
  destruct (Z.eqb_spec port0 (-1)); [contradiction |]. mrun. change (process t1) with (process t).
  erewrite ipc_get_ok by (exact Hp || exact Hpr || exact Hb0). mrun. unfold pulse_next. mrun.
  cbn [queues set_sched]. rewrite (hload_Some _ _ _ Hq Haq). mrun.
  unfold aqueue_next, acquire_spinlock. rewrite Hlk. cbn [Z.eqb mbind outcome_bind].
  cbn [AQueue.position obj_count AQueue.set_lock last_position].
  rewrite udiv_pos, umod_pos by lia. cbn [mbind outcome_bind]. rewrite Hpos, Z.eqb_refl. done.
Qed.

Lemma release_port_halts_witness : release_port 9 100 5 sample_ipc = Halt AssertFail.
Proof.
  apply (release_port_halts sample_ipc 100 sample_owner sample_process 5 (IpcBlock 1 0 8000 8100)
    5 (IpcBlock 1 0 8000 8100) (young_queue 36 1024) 8);
    first [vm_compute; reflexivity | done | by split_and!; vm_compute].
Defined.

Section flags.
Context {A : Type} `{MmSubsystem A}.
Implicit Types s : ipc_state A.

(** The port table with the flags of the ports in [l] set, in order. *)
Definition flag_block (fl : Z) (b : ipc_block) : ipc_block := IpcBlock (ib_tid b) fl (pulse_q b) (message_q b).
Fixpoint flag_ports (fl : Z) (l : list Z) (tbl : list ipc_block) : list ipc_block :=
  match l with
  | [] => tbl
  | p :: l => flag_ports fl l (alter (flag_block fl) (Z.to_nat p) tbl)
  end.

Lemma length_flag_ports fl l tbl : length (flag_ports fl l tbl) = length tbl.
Proof. revert tbl. induction l as [|p l IH]; intros tbl; simpl; [done |]. by rewrite IH, length_alter. Qed.

Lemma flag_ports_lookup fl l tbl (k : nat) b : Forall (fun p => 0 <= p) l -> tbl !! k = Some b ->
  flag_ports fl l tbl !! k = Some (if decide (Z.of_nat k ∈ l) then flag_block fl b else b).
Proof.
  intros Hl. revert tbl b. induction Hl as [|p l Hp Hl IH]; intros tbl b Hk; cbn [flag_ports].
  { rewrite decide_False; [done | by apply not_elem_of_nil]. }
  destruct (decide (Z.to_nat p = k)) as [<-|Hne].
  - rewrite (IH _ (flag_block fl b)) by (rewrite list_lookup_alter_eq, Hk; done).
    assert (Z.of_nat (Z.to_nat p) ∈ p :: l) as Hin by (rewrite Z2Nat.id by done; by apply elem_of_cons; left).
    destruct (decide (Z.of_nat (Z.to_nat p) ∈ l)), (decide (Z.of_nat (Z.to_nat p) ∈ p :: l)); done.
  - rewrite (IH _ b) by (by rewrite list_lookup_alter_ne). f_equal.
    destruct (decide (Z.of_nat k ∈ l)) as [Hin|Hin], (decide (Z.of_nat k ∈ p :: l)) as [Hin'|Hin']; try done.
    + destruct Hin'. by apply elem_of_cons; right.
    + apply elem_of_cons in Hin' as [|]; [lia | done].
Qed.

Lemma set_all_flags_spec tr fl n : forall i s t pr l,
  tr <> 0 -> threads (sched s) !! tr = Some t -> process t <> 0 -> procs s !! process t = Some pr ->
  (forall j p, l !! j = Some p -> ports t !! (i + j)%nat = Some p /\ p <> -1 /\ 0 <= p < Z.of_nat (length (ipc pr))) ->
  (length l <= n)%nat -> ((length l < n)%nat -> ports t !! (i + length l)%nat = Some (-1)) ->
  set_all_flags n (Z.of_nat i) tr fl s =
    Ok (0, set_procs (<[process t := set_ipc (flag_ports fl l (ipc pr)) pr]> (procs s)) s).
Proof.
  induction n as [|n IH]; intros i s t pr l Htr Ht Hp Hpr Hl Hlen Hend; cbn [set_all_flags].
  { destruct l; [|simpl in Hlen; lia]. mrun. do 2 f_equal.
    destruct s, pr. unfold set_procs. simpl in *. by rewrite insert_id. }
  mrun. rewrite (thread_get_ok _ _ _ Htr Ht). mrun. destruct l as [|p l].
  - specialize (Hend ltac:(simpl; lia)). rewrite Nat.add_0_r in Hend. rewrite (aget_nat _ _ _ Hend). mrun.
    cbn [Z.eqb Pos.eqb]. mrun. do 2 f_equal. destruct s, pr. unfold set_procs. simpl in *. by rewrite insert_id.
  - destruct (Hl 0%nat p eq_refl) as (Hp0 & Hpn & Hpr0). rewrite Nat.add_0_r in Hp0.
    rewrite (aget_nat _ _ _ Hp0). mrun. destruct (Z.eqb_spec p (-1)); [contradiction |]. mrun.
    destruct (aget_lt (ipc pr) p Hpr0) as [b Hb]. rewrite (ipc_get_ok _ _ _ _ _ Hp Hpr Hb). mrun.
    rewrite (ipc_put_ok _ _ _ _ _ _ Hp Hpr Hb). mrun.
    replace (Z.of_nat i + 1) with (Z.of_nat (S i)) by lia.
    assert (<[Z.to_nat p := IpcBlock (ib_tid b) fl (pulse_q b) (message_q b)]> (ipc pr)
      = alter (flag_block fl) (Z.to_nat p) (ipc pr)) as ->.
    { apply aget_Some in Hb as [_ Hb]. clear -Hb. revert Hb. generalize (Z.to_nat p) as k, (ipc pr) as tb.
      induction k as [|k IHk]; intros [|x tb] Hb; simpl in Hb; simplify_eq; simpl; [done |]. f_equal. by apply IHk. }
    rewrite (IH (S i) _ t (set_ipc (alter (flag_block fl) (Z.to_nat p) (ipc pr)) pr) l).
    + unfold set_procs, set_ipc. simpl. by rewrite insert_insert_eq.
    + done. + done. + done. + apply lookup_insert_eq.
    + intros j q Hj. destruct (Hl (S j) q Hj) as (H1 & H2 & H3). simpl. rewrite length_alter.
      rewrite <- Nat.add_succ_comm in H1. done.
    + simpl in Hlen. lia.
    + intros Hlt. simpl in Hend. rewrite <- Nat.add_succ_comm in Hend. apply Hend. lia.
Qed.
End flags.

(** [set_port_flags] with port -1 sets the flags of exactly the ports in the
    thread's list, up to its first free place, leaves every other port of the
    process alone, forgets both port hints of the thread and answers 0. *)
Theorem set_port_flags_all {A} `{MmSubsystem A} (s : ipc_state A) tr t pr fl l :
  tr <> 0 -> threads (sched s) !! tr = Some t -> process t <> 0 -> procs s !! process t = Some pr ->
  length (ports t) = Z.to_nat MAX_PORTS ->
  (forall j p, l !! j = Some p -> ports t !! j = Some p /\ p <> -1 /\ 0 <= p < Z.of_nat (length (ipc pr))) ->
  (length l <= Z.to_nat MAX_PORTS)%nat ->
  ((length l < Z.to_nat MAX_PORTS)%nat -> ports t !! length l = Some (-1)) ->
  exists s' pr', set_port_flags tr (-1) fl s = Ok (0, s') /\ procs s' = <[process t := pr']> (procs s) /\ length (ipc pr') = length (ipc pr) /\
  (forall port b, aget (ipc pr) port = Ok b ->
     aget (ipc pr') port = Ok (if decide (port ∈ l) then flag_block fl b else b)) /\ queues s' = queues s /\ threads (sched s') =
    <[tr := set_last_port_pulse (-1) (set_last_port_message (-1) t)]> (threads (sched s)).
Proof.
  intros Htr Ht Hp Hpr Hlen Hl Hmax Hend.
  set (t1 := set_last_port_pulse (-1) (set_last_port_message (-1) t)).
  unfold set_port_flags. mrun. rewrite (thread_get_ok _ _ _ Htr Ht). mrun.
  change ((-1 <? -1) || (MAX_PORTS <=? -1)) with false. change (0 <=? -1) with false. mrun.
  rewrite (thread_put_ok _ _ _ _ Htr Ht). mrun. fold t1.
  set (s1 := set_sched _ s).
  pose proof (set_all_flags_spec tr fl (Z.to_nat MAX_PORTS) 0 s1 t1 pr l Htr (lookup_insert_eq _ _ _)
    Hp Hpr Hl Hmax Hend) as Hall. change (Z.of_nat 0) with 0 in Hall. rewrite Hall.
  do 2 eexists. split; [done |]. split; [done |]. simpl. rewrite length_flag_ports. split; [done |].
  split; [|done]. intros port b Hb. apply aget_Some in Hb as [H0 Hb]. apply aget_Some. split; [done |].
  rewrite (flag_ports_lookup _ _ _ _ b).
  - rewrite Z2Nat.id by done. done.
  - apply Forall_lookup. intros j p Hj. destruct (Hl j p Hj) as (_ & _ & ?). lia.
  - done.
Qed.

Lemma set_port_flags_all_witness : exists s' pr',
  set_port_flags 100 (-1) 1 sample_ipc = Ok (0, s') /\ procs s' = <[7000 := pr']> (procs sample_ipc) /\ aget (ipc pr') 5 = Ok (IpcBlock 1 1 8000 8100).
Proof.
  destruct (set_port_flags_all sample_ipc 100 sample_owner sample_process 1 [5; 6])
    as (s' & pr' & H1 & H2 & _ & H3 & _).
  - done. - reflexivity. - done. - reflexivity. - vm_compute; reflexivity.
  - intros [|[|j]] p Hj; simpl in Hj; simplify_eq; (split; [vm_compute; reflexivity | vm_compute; split_and!; congruence]).
  - vm_compute. lia.
  - intros _. vm_compute. reflexivity.
  - exists s', pr'. split; [exact H1 |]. split; [exact H2 |].
    rewrite (H3 5 (IpcBlock 1 0 8000 8100)) by (vm_compute; reflexivity). reflexivity.
Defined.
