(* ===== verification/IpcTrace.v ===== *)
(** The inter-process communication as a whole: runs of its operations in any
    order, as a step relation, and what they can and cannot deliver. *)
From S2P Require Import Prelude Mm Strings AQueue HTable Objects Scheduler Ipc Pulses Messages Ports.

Section trace.
Context {A : Type} `{MmSubsystem A}.
Implicit Types s : ipc_state A.

(** What an operation tells its caller. *)
Inductive ipc_answer :=
  | ACode (rc : Z)
  | APulse (rc : Z) (x : option pulse)
  | AMessage (rc : Z) (x : option message)
  | AWaiting (n : Z).

(** One call of an operation of ports.c, pulse.c or messages.c that returns.
    [SOther] is anything else the kernel does between the calls, as long as it
    leaves the queues alone. *)
Inductive ipc_step : ipc_state A -> ipc_answer -> ipc_state A -> Prop :=
  | SCreate s tr port n rc s' : create_port tr port n s = Ok (rc, s') -> ipc_step s (ACode rc) s'
  | SRelease s f tr port rc s' : release_port f tr port s = Ok (rc, s') -> ipc_step s (ACode rc) s'
  | SReleaseAll s f tr rc s' : release_thread_ports f tr s = Ok (rc, s') -> ipc_step s (ACode rc) s'
  | SFlags s tr port fl rc s' : set_port_flags tr port fl s = Ok (rc, s') -> ipc_step s (ACode rc) s'
  | SSendPulse s spid sport p port d1 d2 d3 d4 d5 d6 rc s' :
      send_pulse spid sport p port d1 d2 d3 d4 d5 d6 s = Ok (rc, s') -> ipc_step s (ACode rc) s'
  | SReceivePulse s tr want rc x s' : receive_pulse tr want s = Ok (rc, x, s') -> ipc_step s (APulse rc x) s'
  | SPreviewPulse s tr want rc x s' : preview_pulse tr want s = Ok (rc, x, s') -> ipc_step s (APulse rc x) s'
  | SPulses s tr n s' : pulses_waiting tr s = Ok (n, s') -> ipc_step s (AWaiting n) s'
  | SDropPulse s tr rc s' : drop_pulse tr s = Ok (rc, s') -> ipc_step s (ACode rc) s'
  | SSend s spid sport p port bytes loc rc s' :
      send_message spid sport p port bytes loc s = Ok (rc, s') -> ipc_step s (ACode rc) s'
  | SRecv s tr want bytes loc rc x s' :
      recv_message tr want bytes loc s = Ok (rc, x, s') -> ipc_step s (AMessage rc x) s'
  | SPeek s tr want rc x s' : peek_message tr want s = Ok (rc, x, s') -> ipc_step s (AMessage rc x) s'
  | SMessages s tr n s' : messages_waiting tr s = Ok (n, s') -> ipc_step s (AWaiting n) s'
  | SDropMessage s tr rc s' : drop_message tr s = Ok (rc, s') -> ipc_step s (ACode rc) s'
  | SOther s sc pr bf a : ipc_step s (ACode 0)
      (IpcState sc pr (queues s) (pulse_pages s) (message_pages s) bf a).

(** Runs, with the answers given on the way. *)
Inductive ipc_run : ipc_state A -> list ipc_answer -> ipc_state A -> Prop :=
  | RNil s : ipc_run s [] s
  | RCons s1 x s2 l s3 : ipc_step s1 x s2 -> ipc_run s2 l s3 -> ipc_run s1 (x :: l) s3.

(** Nothing was ever counted in a queue. *)
Definition fresh_queues s : Prop :=
  forall q aq, queues s !! q = Some aq -> AQueue.position aq = 0 /\ last_position aq = 0.

(** [m] keeps that, and its results satisfy [P]. *)
Definition keeps {R} (P : R -> Prop) (m : M (ipc_state A) R) : Prop :=
  forall s r s', fresh_queues s -> m s = Ok (r, s') -> fresh_queues s' /\ P r.

Lemma keeps_bind {R R'} (Q : R -> Prop) (P : R' -> Prop) (m : M (ipc_state A) R) k :
  keeps Q m -> (forall r, Q r -> keeps P (k r)) -> keeps P (mbind k m).
Proof.
  intros Hm Hk s r s' Hf E. apply run_bind_inv in E as (a & s1 & E1 & E2).
  destruct (Hm _ _ _ Hf E1) as [Hf1 Ha]. by eapply Hk.
Qed.

Lemma keeps_ret {R} (P : R -> Prop) r : P r -> keeps P (mret r).
Proof. intros Hr s r' s' Hf [= <- <-]. done. Qed.

Lemma keeps_get (P : ipc_state A -> Prop) : (forall s, fresh_queues s -> P s) -> keeps P getS.
Proof. intros HP s r s' Hf [= <- <-]. auto. Qed.

Lemma keeps_lift {R} (P : R -> Prop) (m : outcome R) : (forall r, m = Ok r -> P r) -> keeps P (liftO m).
Proof. intros HP s r s' Hf E. unfold liftO in E. destruct m; [|done]. injection E as <- <-. auto. Qed.

Lemma keeps_modify f : (forall s, fresh_queues s -> fresh_queues (f s)) -> keeps (fun _ => True) (modifyS f).
Proof. intros Hf s r s' Hs [= <- <-]. auto. Qed.

Lemma keeps_weaken {R} (P Q : R -> Prop) m : keeps P m -> (forall r, P r -> Q r) -> keeps Q m.
Proof. intros Hm HPQ s r s' Hf E. destruct (Hm _ _ _ Hf E). auto. Qed.

Lemma fresh_insert s h q aq : fresh_queues s -> AQueue.position aq = 0 -> last_position aq = 0 ->
  queues h = <[q := aq]> (queues s) -> fresh_queues h.
Proof.
  intros Hf Hp Hl Hq q' aq'. rewrite Hq. intros E.
  apply lookup_insert_Some in E as [[<- <-]|[_ E]]; [done | by eapply Hf].
Qed.

Lemma fresh_delete s h q : fresh_queues s -> queues h = delete q (queues s) -> fresh_queues h.
Proof. intros Hf Hq q' aq'. rewrite Hq. intros [_ E]%lookup_delete_Some. by eapply Hf. Qed.

(** * The primitives *)

Lemma aqueue_add_positions {T} aq (x : T) h (a : A) rc aq' h' a' :
  aqueue_add aq x h a = Ok (rc, aq', h', a') ->
  AQueue.position aq' = AQueue.position aq /\ last_position aq' = last_position aq.
Proof.
  unfold aqueue_add, aqueue_add_page, acquire_spinlock. intros E.
  repeat (inv_ok; case_match); inv_ok; simplify_eq; simpl; repeat (inv_ok; case_match); inv_ok; simplify_eq; done.
Qed.

Lemma aqueue_next_counted {T} aq (h : gmap Z (aqueue_page T)) (a : A) r :
  AQueue.position aq = last_position aq -> aqueue_next aq h a = Ok r -> False.
Proof.
  unfold aqueue_next, acquire_spinlock. intros Hpl E. case_match; [|inv_ok; done]. inv_ok.
  match goal with H : negb (_ =? _) = true |- _ => simpl in H; rewrite Hpl, Z.eqb_refl in H end. done.
Qed.

Lemma fresh_lookup s q aq : fresh_queues s -> hload (queues s) q = Ok aq ->
  AQueue.position aq = 0 /\ last_position aq = 0.
Proof. intros Hf E. apply hload_Ok_inv in E as [_ E]. by eapply Hf. Qed.

Ltac lifted := unfold liftO in *; repeat case_match; simplify_eq.
Ltac fresh_pos := match goal with
  | Hf : fresh_queues ?s, Hq : hload (queues ?s) _ = Ok ?aq |- _ =>
      destruct (fresh_lookup _ _ _ Hf Hq) as [Hpos Hlast] end.

Lemma keeps_thread_get tr : keeps (fun _ => True) (thread_get tr).
Proof. intros s r s' Hf E. unfold thread_get in E. inv_run. lifted. injection E0 as <- <-. done. Qed.

Lemma keeps_thread_put tr t : keeps (fun _ => True) (thread_put tr t).
Proof.
  intros s r s' Hf E. unfold thread_put in E. inv_run. lifted.
  injection E as <- <-. injection E0 as <- <-. done.
Qed.

Lemma keeps_ipc_get p port : keeps (fun _ => True) (ipc_get p port).
Proof.
  intros s r s' Hf E. unfold ipc_get, proc_get in E. inv_run. lifted.
  injection E1 as <- <-. done.
Qed.

Lemma keeps_ipc_put p port b : keeps (fun _ => True) (ipc_put p port b).
Proof.
  intros s r s' Hf E. unfold ipc_put, proc_get in E. inv_run. lifted.
  repeat match goal with Hg : getS _ = Ok _ |- _ => injection Hg as <- <- end.
  injection E as <- <-. done.
Qed.

Lemma keeps_find_thread p n : keeps (fun _ => True) (find_thread p n).
Proof.
  intros s r s' Hf E. unfold find_thread, proc_get in E. inv_run. lifted.
  repeat match goal with Hg : getS _ = Ok _ |- _ => injection Hg as <- <- end. done.
Qed.

Lemma keeps_run_sched {R} (m : M sched_state R) : keeps (fun _ => True) (run_sched m).
Proof. intros s r s' Hf E. unfold run_sched in E. destruct (m (sched s)) as [[? ?]|]; [|done]. by injection E as <- <-. Qed.

Ltac got := repeat match goal with Hg : getS _ = Ok _ |- _ => injection Hg as <- <- end.

Lemma keeps_queue_count q : keeps (fun n => n = 0) (queue_count q).
Proof.
  intros s r s' Hf E. unfold queue_count in E. inv_run. lifted. got. inv_run. simplify_eq.
  fresh_pos. unfold aqueue_count, acquire_spinlock in *. inv_ok. case_match; inv_ok.
  unfold modifyS in *. simplify_eq. split.
  - eapply (fresh_insert _ _ q); [exact Hf | | | done]; done.
  - simpl. by rewrite Hpos, Hlast.
Qed.

Lemma keeps_pulse_add q x : keeps (fun _ => True) (pulse_add q x).
Proof.
  intros s r s' Hf E. unfold pulse_add in E. inv_run. lifted. got. inv_run. simplify_eq. fresh_pos.
  match goal with Ha : aqueue_add _ _ _ _ = Ok _ |- _ => apply aqueue_add_positions in Ha as [??] end.
  unfold modifyS in *. simplify_eq. split; [|done].
  eapply (fresh_insert _ _ q); [exact Hf | | | done]; congruence.
Qed.

Lemma keeps_message_add q x : keeps (fun _ => True) (message_add q x).
Proof.
  intros s r s' Hf E. unfold message_add in E. inv_run. lifted. got. inv_run. simplify_eq. fresh_pos.
  match goal with Ha : aqueue_add _ _ _ _ = Ok _ |- _ => apply aqueue_add_positions in Ha as [??] end.
  unfold modifyS in *. simplify_eq. split; [|done].
  eapply (fresh_insert _ _ q); [exact Hf | | | done]; congruence.
Qed.

(** Taking from a queue never returns. *)
Lemma keeps_pulse_next (P : Z * pulse -> Prop) q : keeps P (pulse_next q).
Proof.
  intros s r s' Hf E. unfold pulse_next in E. inv_run. lifted. got. fresh_pos.
  match goal with Ha : aqueue_next _ _ _ = Ok _ |- _ => apply aqueue_next_counted in Ha; [done | congruence] end.
Qed.

Lemma keeps_message_next (P : Z * message -> Prop) q : keeps P (message_next q).
Proof.
  intros s r s' Hf E. unfold message_next in E. inv_run. lifted. got. fresh_pos.
  match goal with Ha : aqueue_next _ _ _ = Ok _ |- _ => apply aqueue_next_counted in Ha; [done | congruence] end.
Qed.

Lemma keeps_queue_create sz cnt : keeps (fun _ => True) (queue_create sz cnt).
Proof.
  intros s r s' Hf E. unfold queue_create in E. inv_run. got.
  destruct (aqueue_create sz cnt (mem s)) as [[[q aq]|] am] eqn:Ec; inv_run;
    unfold modifyS in *; simplify_eq; injection E as <- <-; [|split; [exact Hf | done]].
  unfold aqueue_create in Ec. destruct (kmalloc 32 (mem s)). case_match; simplify_eq. split; [|done].
  eapply (fresh_insert (set_mem a s) _ q); [exact Hf | | | done]; done.
Qed.

Lemma keeps_pulse_destroy q : keeps (fun _ => True) (pulse_queue_destroy q).
Proof.
  intros s r s' Hf E. unfold pulse_queue_destroy in E. inv_run. lifted. got.
  unfold modifyS in *. simplify_eq. split; [|done]. by eapply (fresh_delete _ _ q).
Qed.

Lemma keeps_message_destroy q : keeps (fun _ => True) (message_queue_destroy q).
Proof.
  intros s r s' Hf E. unfold message_queue_destroy in E. inv_run. lifted. got.
  unfold modifyS in *. simplify_eq. split; [|done]. by eapply (fresh_delete _ _ q).
Qed.

Lemma keeps_buffer_alloc n : keeps (fun _ => True) (buffer_alloc n).
Proof.
  intros s r s' Hf E. unfold buffer_alloc in E. inv_run. got. destruct (kmalloc _ _). inv_run.
  unfold modifyS in *. simplify_eq. case_match; inv_run; simplify_eq; done.
Qed.

Lemma keeps_buffer_free p : keeps (fun _ => True) (buffer_free p).
Proof.
  intros s r s' Hf E. unfold buffer_free in E. inv_run. lifted. got. unfold modifyS in *. by simplify_eq.
Qed.

Lemma keeps_buffer_copy d c n : keeps (fun _ => True) (buffer_copy d c n).
Proof.
  intros s r s' Hf E. unfold buffer_copy in E. inv_run. lifted. got. unfold modifyS in *. by simplify_eq.
Qed.

(** * The operations *)

Create HintDb ipc_keeps discriminated.
#[local] Hint Resolve keeps_thread_get keeps_thread_put keeps_ipc_get keeps_ipc_put keeps_find_thread
  keeps_run_sched keeps_queue_count keeps_pulse_add keeps_message_add keeps_queue_create keeps_pulse_destroy
  keeps_message_destroy keeps_buffer_alloc keeps_buffer_free keeps_buffer_copy : ipc_keeps.

Lemma keeps_take_pulse P q : keeps P (take_pulse q).
Proof. unfold take_pulse. eapply keeps_bind; [apply (keeps_pulse_next (fun _ => False)) | intros ? []]. Qed.

Lemma keeps_take_message P q bytes loc : keeps P (take_message q bytes loc).
Proof. unfold take_message. eapply keeps_bind; [apply (keeps_message_next (fun _ => False)) | intros ? []]. Qed.

(** Goes through an operation step by step with the lemmas above. *)
Ltac keeps_step :=
  lazymatch goal with
  | |- keeps _ (mret _) => apply keeps_ret; simpl; first [done | by intros ? [= <-]]
  | |- keeps _ (mbind _ (liftO _)) =>
      eapply keeps_bind; [apply (keeps_lift (fun _ => True)); done | intros ? _]
  | |- keeps _ (mbind _ (massert _)) =>
      eapply keeps_bind; [apply (keeps_lift (fun _ => True)); done | intros ? _]
  | |- keeps _ (mbind _ (message_next _)) =>
      eapply keeps_bind; [apply (keeps_message_next (fun _ => False)) | intros ? []]
  | |- keeps _ (mbind _ (pulse_next _)) =>
      eapply keeps_bind; [apply (keeps_pulse_next (fun _ => False)) | intros ? []]
  | |- keeps _ (mbind _ (take_pulse _)) =>
      eapply keeps_bind; [apply (keeps_take_pulse (fun _ => False)) | intros ? []]
  | |- keeps _ (mbind _ (take_message _ _ _)) =>
      eapply keeps_bind; [apply (keeps_take_message (fun _ => False)) | intros ? []]
  | |- keeps _ (take_pulse _) => apply keeps_take_pulse
  | |- keeps _ (take_message _ _ _) => apply keeps_take_message
  | |- keeps _ (mbind _ (if ?b then _ else _)) =>
      eapply (keeps_bind (fun _ => True)); [destruct b | intros ? _]
  | |- keeps _ (mbind _ (mbind _ _)) =>
      eapply (keeps_bind (fun _ => True)); [| intros ? _]
  | |- keeps _ (mbind _ _) => eapply keeps_bind; [solve [eauto with ipc_keeps] | intros ? ?]
  | |- keeps _ (if ?b then _ else _) => destruct b eqn:?
  | |- keeps _ (match ?b with None => _ | Some _ => _ end) => destruct b as [?|]
  | |- keeps _ (let '(_, _) := ?b in _) => destruct b
  | |- keeps _ _ => solve [eauto with ipc_keeps]
  end.
Ltac keeps_go := cbv zeta; repeat keeps_step.

Lemma keeps_port_flags p port fl : keeps (fun _ => True) (port_flags p port fl).
Proof. unfold port_flags. keeps_go. Qed.

Lemma keeps_port2tid p port : keeps (fun _ => True) (port2tid p port).
Proof. unfold port2tid. keeps_go. Qed.
#[local] Hint Resolve keeps_port_flags keeps_port2tid : ipc_keeps.

Lemma keeps_find_port n i tr port : keeps (fun _ => True) (find_port n i tr port).
Proof. revert i. induction n as [|n IH]; intros i; cbn [find_port]; keeps_go. Qed.

Lemma keeps_scan_ports n i tr body : (forall port, keeps (fun _ => True) (body port)) ->
  keeps (fun _ => True) (scan_ports n i tr body).
Proof. intros Hb. revert i. induction n as [|n IH]; intros i; cbn [scan_ports]; keeps_go. Qed.

Definition nothing {T} (r : Z * option T) : Prop := r = (-1, None).

Lemma keeps_scan_pulses n i tr body :
  (forall port, keeps (fun r => forall x, r = Some x -> nothing x) (body port)) ->
  keeps nothing (scan_pulses n i tr body).
Proof.
  intros Hb. revert i. induction n as [|n IH]; intros i; cbn [scan_pulses]; keeps_go.
  apply keeps_ret; auto.
Qed.

Lemma keeps_scan_messages n i tr body :
  (forall port, keeps (fun r => forall x, r = Some x -> nothing x) (body port)) ->
  keeps nothing (scan_messages n i tr body).
Proof.
  intros Hb. revert i. induction n as [|n IH]; intros i; cbn [scan_messages]; keeps_go.
  apply keeps_ret; auto.
Qed.

Lemma keeps_sum_ports n i tr body : (forall port, keeps (fun c => c = 0) (body port)) ->
  keeps (fun c => c = 0) (sum_ports n i tr 0 body).
Proof.
  intros Hb. revert i. induction n as [|n IH]; intros i; cbn [sum_ports]; keeps_go.
  match goal with Hc : _ |- keeps _ (sum_ports _ _ _ (s32 (0 + ?c)) _) =>
    assert (c = 0) as -> by done end. apply IH.
Qed.

Lemma keeps_receive_pulse tr want : keeps nothing (receive_pulse tr want).
Proof. unfold receive_pulse. keeps_go. apply keeps_scan_pulses. intros port. keeps_go. Qed.

Lemma keeps_preview_pulse tr want : keeps nothing (preview_pulse tr want).
Proof.
  pose proof keeps_find_port. unfold preview_pulse. keeps_go.
  apply keeps_scan_pulses. intros port. keeps_go.
Qed.

Lemma keeps_pulses_waiting tr : keeps (fun n => n = 0) (pulses_waiting tr).
Proof. unfold pulses_waiting. keeps_go. apply keeps_sum_ports. intros port. keeps_go. Qed.

Lemma keeps_drop_pulse tr : keeps (fun _ => True) (drop_pulse tr).
Proof. unfold drop_pulse. keeps_go. apply keeps_scan_ports. intros port. keeps_go. Qed.

Lemma keeps_send_pulse a b p port c d e f g h : keeps (fun _ => True) (send_pulse a b p port c d e f g h).
Proof. unfold send_pulse. keeps_go. Qed.

Lemma keeps_send_message a b p port n loc : keeps (fun _ => True) (send_message a b p port n loc).
Proof. unfold send_message. keeps_go. Qed.

Lemma keeps_recv_message tr want n loc : keeps nothing (recv_message tr want n loc).
Proof. unfold recv_message. keeps_go. apply keeps_scan_messages. intros port. keeps_go. Qed.

Lemma keeps_peek_message tr want : keeps nothing (peek_message tr want).
Proof.
  pose proof keeps_find_port. unfold peek_message. keeps_go.
  apply keeps_scan_messages. intros port. keeps_go.
Qed.

Lemma keeps_messages_waiting tr : keeps (fun n => n = 0) (messages_waiting tr).
Proof. unfold messages_waiting. keeps_go. apply keeps_sum_ports. intros port. keeps_go. Qed.

Lemma keeps_drop_first q : keeps (fun _ => True) (drop_first q).
Proof. unfold drop_first. keeps_go. Qed.
#[local] Hint Resolve keeps_drop_first : ipc_keeps.

Lemma keeps_drop_message tr : keeps (fun _ => True) (drop_message tr).
Proof. unfold drop_message. keeps_go. apply keeps_scan_ports. intros port. keeps_go. Qed.
#[local] Hint Resolve keeps_drop_pulse keeps_drop_message : ipc_keeps.

Lemma keeps_create_port tr port n : keeps (fun _ => True) (create_port tr port n).
Proof. unfold create_port. keeps_go. Qed.

Lemma keeps_set_all_flags n i tr fl : keeps (fun _ => True) (set_all_flags n i tr fl).
Proof. revert i. induction n as [|n IH]; intros i; cbn [set_all_flags]; keeps_go. Qed.
#[local] Hint Resolve keeps_set_all_flags : ipc_keeps.

Lemma keeps_set_port_flags tr port fl : keeps (fun _ => True) (set_port_flags tr port fl).
Proof. unfold set_port_flags. keeps_go. Qed.

Lemma keeps_drop_all fuel target port d : (forall t, keeps (fun _ => True) (d t)) ->
  keeps (fun _ => True) (drop_all fuel target port d).
Proof.
  intros Hd. induction fuel as [|fuel IH]; cbn [drop_all]; [by apply keeps_lift |]. keeps_go.
Qed.
#[local] Hint Resolve keeps_drop_all : ipc_keeps.

Lemma keeps_release_port fuel tr port : keeps (fun _ => True) (release_port fuel tr port).
Proof. unfold release_port. keeps_go. Qed.
#[local] Hint Resolve keeps_release_port : ipc_keeps.

Lemma keeps_release_ports fuel tr count : keeps (fun _ => True) (release_ports fuel tr count).
Proof.
  revert count. induction fuel as [|fuel IH]; intros count; cbn [release_ports]; [by apply keeps_lift |].
  keeps_go.
Qed.
End trace.

(** An answer that brings nothing. *)
Definition answers_nothing (x : ipc_answer) : Prop :=
  match x with
  | ACode _ => True
  | APulse rc x => rc = -1 /\ x = None
  | AMessage rc x => rc = -1 /\ x = None
  | AWaiting n => n = 0
  end.

Lemma nothing_pair {T} rc (x : option T) : nothing (rc, x) -> rc = -1 /\ x = None.
Proof. by intros [= -> ->]. Qed.

Lemma ipc_step_fresh {A} `{MmSubsystem A} (s : ipc_state A) x s' :
  ipc_step s x s' -> fresh_queues s -> fresh_queues s' /\ answers_nothing x.
Proof.
  intros Hstep Hf. destruct Hstep as [| | | | | | | | | | | | | |]; simpl;
    match goal with
    | E : create_port _ _ _ _ = _ |- _ => apply (keeps_create_port _ _ _ _ _ _ Hf E)
    | E : release_port _ _ _ _ = _ |- _ => apply (keeps_release_port _ _ _ _ _ _ Hf E)
    | E : release_thread_ports _ _ _ = _ |- _ => apply (keeps_release_ports _ _ _ _ _ _ Hf E)
    | E : set_port_flags _ _ _ _ = _ |- _ => apply (keeps_set_port_flags _ _ _ _ _ _ Hf E)
    | E : send_pulse _ _ _ _ _ _ _ _ _ _ _ = _ |- _ => eapply keeps_send_pulse; [exact Hf | exact E]
    | E : receive_pulse _ _ _ = _ |- _ =>
        destruct (keeps_receive_pulse _ _ _ _ _ Hf E) as [? ?]; split; [done | by apply nothing_pair]
    | E : preview_pulse _ _ _ = _ |- _ =>
        destruct (keeps_preview_pulse _ _ _ _ _ Hf E) as [? ?]; split; [done | by apply nothing_pair]
    | E : pulses_waiting _ _ = _ |- _ => apply (keeps_pulses_waiting _ _ _ _ Hf E)
    | E : drop_pulse _ _ = _ |- _ => apply (keeps_drop_pulse _ _ _ _ Hf E)
    | E : send_message _ _ _ _ _ _ _ = _ |- _ => eapply keeps_send_message; [exact Hf | exact E]
    | E : recv_message _ _ _ _ _ = _ |- _ =>
        destruct (keeps_recv_message _ _ _ _ _ _ _ Hf E) as [? ?]; split; [done | by apply nothing_pair]
    | E : peek_message _ _ _ = _ |- _ =>
        destruct (keeps_peek_message _ _ _ _ _ Hf E) as [? ?]; split; [done | by apply nothing_pair]
    | E : messages_waiting _ _ = _ |- _ => apply (keeps_messages_waiting _ _ _ _ Hf E)
    | E : drop_message _ _ = _ |- _ => apply (keeps_drop_message _ _ _ _ Hf E)
    | |- _ => split; [exact Hf | done]
    end.
Qed.

(** C2. Inter-process communication delivers nothing: from a system without
    queues, in every run of port, pulse and message operations in any order and
    interleaved with anything that leaves the queues alone, every receive,
    preview and peek answers -1 with nothing and every count of waiting pulses
    or messages is 0, whatever was sent before. *)
Theorem ipc_never_delivers {A} `{MmSubsystem A} (s : ipc_state A) l s' :
  queues s = ∅ -> ipc_run s l s' -> Forall answers_nothing l.
Proof.
  intros Hq Hrun. assert (fresh_queues s) as Hf.
  { intros q aq. rewrite Hq. by rewrite lookup_empty. }
  clear Hq. induction Hrun as [|s1 x s2 l s3 Hstep Hrun IH]; [done |].
  destruct (ipc_step_fresh _ _ _ Hstep Hf) as [Hf2 Hx]. constructor; [done | by apply IH].
Qed.

(** A system in which thread 100 has no port yet. *)
Definition quiet_ipc : ipc_state arena :=
  IpcState (SchedState [sample_si]
      {[100 := set_ports (replicate 1024 (-1)) sample_owner]} 0 1 true [60] [] 0)
    {[7000 := set_ipc (replicate 1024 closed_port) sample_process]}
    ∅ ∅ ∅ {[9500 := [104; 105]]} (Arena 9 {[7000]}).

Lemma ipc_never_delivers_witness : exists l s', ipc_run quiet_ipc l s' /\
  l = [ACode 0; ACode 0; AWaiting 0; AMessage (-1) None] /\ Forall answers_nothing l.
Proof.
  assert (exists s', ipc_run quiet_ipc [ACode 0; ACode 0; AWaiting 0; AMessage (-1) None] s') as [s' Hrun].
  { destruct (create_port 100 5 1 quiet_ipc) as [[r1 s1]|] eqn:E1; [|vm_compute in E1; discriminate].
    destruct (send_message 1 5 7000 5 2 9500 s1) as [[r2 s2]|] eqn:E2.
    2: { vm_compute in E1. injection E1 as <- <-. vm_compute in E2. discriminate. }
    destruct (messages_waiting 100 s2) as [[r3 s3]|] eqn:E3.
    2: { vm_compute in E1. injection E1 as <- <-. vm_compute in E2. injection E2 as <- <-.
         vm_compute in E3. discriminate. }
    destruct (recv_message 100 5 2 9500 s3) as [[[r4 x4] s4]|] eqn:E4.
    2: { vm_compute in E1. injection E1 as <- <-. vm_compute in E2. injection E2 as <- <-.
         vm_compute in E3. injection E3 as <- <-. vm_compute in E4. discriminate. }
    exists s4. assert (r1 = 0 /\ r2 = 0 /\ r3 = 0 /\ r4 = -1 /\ x4 = None) as (-> & -> & -> & -> & ->).
    { clear -E1 E2 E3 E4. vm_compute in E1. injection E1 as <- <-. vm_compute in E2. injection E2 as <- <-.
      vm_compute in E3. injection E3 as <- <-. vm_compute in E4. injection E4 as <- <- <-. done. }
    econstructor; [eapply SCreate, E1 |]. econstructor; [eapply SSend, E2 |].
    econstructor; [eapply SMessages, E3 |]. econstructor; [eapply SRecv, E4 |]. constructor. }
  exists [ACode 0; ACode 0; AWaiting 0; AMessage (-1) None], s'. split; [done |]. split; [done |].
  exact (ipc_never_delivers quiet_ipc _ s' eq_refl Hrun).
Defined.
