(* ===== verification/Irq.v ===== *)
(** Interrupt requests (irq.c): the chain of handler threads per request line,
    their registration and release, and the hand-over of an interrupt from one
    handler to the next through the fast queue of the scheduler.  Port writes and
    controller commands are a log of device events. *)
From S2P Require Import Prelude Mm Cpu Objects Scheduler.

Definition IRQ_COUNT : Z := 24.
Definition PORT_8259M : Z := 32.
Definition PORT_8259S : Z := 160.

(** [struct irq_stub] (20 bytes) and [struct irq_hook] (24 bytes); [stubs] is the
    address of an array of stubs. *)
Record irq_stub := IrqStub { st_tr : Z; ack : Z; nop : Z }.
Record irq_hook := IrqHook { raised : Z; index : Z; last : Z; count : Z; stubs : Z }.

(** The contents of new blocks, before they are written. *)
Definition raw_stub : irq_stub := IrqStub NULL 0 0.
Definition raw_hook : irq_hook := IrqHook 0 0 0 0 NULL.

(** What the code tells the devices. *)
Inductive device :=
  | OutB (port value : Z)
  | UnmaskIoapic (irq : Z)
  | MaskIoapic (irq : Z)
  | AckApic.

(** The tables of irq.c with the hooks and stub arrays they point to, next to the
    scheduler's state. *)
Record irq_state (A : Type) := IrqState {
  isched : sched_state;
  irq_locks : list Z;
  handlers : list Z;
  hooks : gmap Z irq_hook;
  stub_arrays : gmap Z (list irq_stub);
  irq_mask : Z;
  devices : list device;
  has_ioapic : bool;
  imem : A
}.
Arguments IrqState {A} _ _ _ _ _ _ _ _ _.
Arguments isched {A} _.
Arguments irq_locks {A} _.
Arguments handlers {A} _.
Arguments hooks {A} _.
Arguments stub_arrays {A} _.
Arguments irq_mask {A} _.
Arguments devices {A} _.
Arguments has_ioapic {A} _.
Arguments imem {A} _.

Section irq.
Context {A : Type} `{MmSubsystem A}.
Abbreviation K := (M (irq_state A)).

Definition set_isched (v : sched_state) (x : irq_state A) : irq_state A :=
  IrqState v (irq_locks x) (handlers x) (hooks x) (stub_arrays x) (irq_mask x) (devices x) (has_ioapic x) (imem x).
Definition set_irq_locks (v : list Z) (x : irq_state A) : irq_state A :=
  IrqState (isched x) v (handlers x) (hooks x) (stub_arrays x) (irq_mask x) (devices x) (has_ioapic x) (imem x).
Definition set_handlers (v : list Z) (x : irq_state A) : irq_state A :=
  IrqState (isched x) (irq_locks x) v (hooks x) (stub_arrays x) (irq_mask x) (devices x) (has_ioapic x) (imem x).
Definition set_hooks (v : gmap Z irq_hook) (a : A) (x : irq_state A) : irq_state A :=
  IrqState (isched x) (irq_locks x) (handlers x) v (stub_arrays x) (irq_mask x) (devices x) (has_ioapic x) a.
Definition set_stub_arrays (v : gmap Z (list irq_stub)) (a : A) (x : irq_state A) : irq_state A :=
  IrqState (isched x) (irq_locks x) (handlers x) (hooks x) v (irq_mask x) (devices x) (has_ioapic x) a.
Definition set_irq_mask (v : Z) (x : irq_state A) : irq_state A :=
  IrqState (isched x) (irq_locks x) (handlers x) (hooks x) (stub_arrays x) v (devices x) (has_ioapic x) (imem x).
Definition emit (d : device) : K unit := modifyS (fun x =>
  IrqState (isched x) (irq_locks x) (handlers x) (hooks x) (stub_arrays x) (irq_mask x) (devices x ++ [d])
    (has_ioapic x) (imem x)).

(** A scheduler operation. *)
Definition on_sched {R} (m : M sched_state R) : K R := fun s =>
  match m (isched s) with
  | Ok (r, sc) => Ok (r, set_isched sc s)
  | Halt f => Halt f
  end.

(** [irq_locks[irq]] *)
Definition lock_irq (irq : Z) : K unit :=
  s ← getS; v ← liftO (aget (irq_locks s) irq);
  (if v =? 0 then mret tt else liftO (Halt Spin)) ;;
  l ← liftO (aset (irq_locks s) irq 1); modifyS (set_irq_locks l).
Definition unlock_irq (irq : Z) : K unit :=
  s ← getS; l ← liftO (aset (irq_locks s) irq 0); modifyS (set_irq_locks l).

(** [*handlers[irq]] and its update; [stubs[i]] and its update. *)
Definition hook_get (irq : Z) : K irq_hook :=
  s ← getS; p ← liftO (aget (handlers s) irq); liftO (hload (hooks s) p).
Definition hook_put (irq : Z) (h : irq_hook) : K unit :=
  s ← getS; p ← liftO (aget (handlers s) irq); m ← liftO (hstore (hooks s) p h);
  modifyS (fun s => set_hooks m (imem s) s).
Definition stub_get (q i : Z) : K irq_stub :=
  s ← getS; l ← liftO (hload (stub_arrays s) q); liftO (aget l i).
Definition stub_put (q i : Z) (x : irq_stub) : K unit :=
  s ← getS; l ← liftO (hload (stub_arrays s) q); l ← liftO (aset l i x);
  modifyS (fun s => set_stub_arrays (<[q := l]> (stub_arrays s)) (imem s) s).

(** [kmalloc] and [kfree] of a hook and of an array of stubs. *)
Definition hook_alloc : K Z :=
  s ← getS;
  let '(p, a) := kmalloc 24 (imem s) in
  modifyS (set_hooks (if p =? NULL then hooks s else <[p := raw_hook]> (hooks s)) a) ;; mret p.
Definition hook_free (p : Z) : K unit :=
  s ← getS; a ← liftO (kfree p (imem s)); modifyS (set_hooks (delete p (hooks s)) a).
Definition stubs_alloc (bytes : Z) : K Z :=
  s ← getS;
  let '(p, a) := kmalloc bytes (imem s) in
  modifyS (set_stub_arrays (if p =? NULL then stub_arrays s
    else <[p := replicate (Z.to_nat (bytes / 20)) raw_stub]> (stub_arrays s)) a) ;; mret p.
Definition stubs_free (p : Z) : K unit :=
  s ← getS; a ← liftO (kfree p (imem s)); modifyS (set_stub_arrays (delete p (stub_arrays s)) a).

(** * The interrupt controller *)

(** The mask register of the controller that serves [irq]. *)
Definition write_mask (irq : Z) : K unit :=
  s ← getS;
  emit (if irq <? 8 then OutB (PORT_8259M + 1) (Z.land (irq_mask s) 255)
        else OutB (PORT_8259S + 1) (Z.land (Z.shiftr (irq_mask s) 8) 255)).

Definition unmask_8259 (irq : Z) : K unit :=
  modifyS (fun s => set_irq_mask (Z.land (irq_mask s) (u32 (Z.lnot (Z.shiftl 1 irq)))) s) ;;
  write_mask irq.

Definition mask_8259 (irq : Z) : K unit :=
  modifyS (fun s => set_irq_mask (u32 (Z.lor (irq_mask s) (Z.shiftl 1 irq))) s) ;;
  write_mask irq.

Definition ack_8259 (irq : Z) : K unit :=
  (if 7 <? irq then emit (OutB 160 32) else mret tt) ;;
  emit (OutB 32 32).

Definition unmask (irq : Z) : K unit :=
  s ← getS; if has_ioapic s then emit (UnmaskIoapic irq) else unmask_8259 irq.
Definition mask (irq : Z) : K unit :=
  s ← getS; if has_ioapic s then emit (MaskIoapic irq) else mask_8259 irq.
Definition acknowledge (irq : Z) : K unit :=
  s ← getS; if has_ioapic s then emit AckApic else ack_8259 irq.

Fixpoint emits (l : list device) : K unit :=
  match l with [] => mret tt | d :: l => emit d ;; emits l end.

(** [remap_irqs]; [inb] gives the values that the input ports have. *)
Definition remap_irqs (inb : Z -> Z) (pic1 pic2 : Z) : K Z :=
  let a := inb PORT_8259M in
  let b := inb PORT_8259S in
  emits [OutB PORT_8259M 17; OutB PORT_8259S 17;
         OutB (PORT_8259M + 1) pic1; OutB (PORT_8259S + 1) pic2;
         OutB (PORT_8259M + 1) 4; OutB (PORT_8259S + 1) 2;
         OutB (PORT_8259M + 1) 1; OutB (PORT_8259S + 1) 1;
         OutB (PORT_8259M + 1) a; OutB (PORT_8259S + 1) b] ;;
  mret 0.

(** The loop of [init_irqs]: [n] lines left from line [i]. *)
Fixpoint init_hooks (n : nat) (i : Z) : K unit :=
  match n with
  | O => mret tt
  | S n =>
      p ← hook_alloc;
      s ← getS; l ← liftO (aset (handlers s) i p); modifyS (set_handlers l) ;;
      hook_put i raw_hook ;;
      unlock_irq i ;;
      init_hooks n (i + 1)
  end.

Definition init_irqs (inb : Z -> Z) : K unit :=
  remap_irqs inb 32 40 ;;
  s ← getS;
  emits [OutB (PORT_8259M + 1) (Z.land (irq_mask s) 255);
         OutB (PORT_8259S + 1) (Z.land (Z.shiftr (irq_mask s) 8) 255);
         OutB 97 (Z.land (inb 97) (Z.lnot 12))] ;;
  init_hooks (Z.to_nat IRQ_COUNT) 0.

(** * Registration *)

(** The thread at [t], in the scheduler's heap. *)
Definition irq_thread (t : Z) : K thread := s ← getS; liftO (hload (threads (isched s)) t).
Definition put_irq_thread (t : Z) (th : thread) : K unit :=
  s ← getS; h ← liftO (hstore (threads (isched s)) t th);
  modifyS (set_isched (set_threads h (isched s))).

(** [atomic_exchange( &hook, &handlers[irq] )]: the new hook goes in, the old one
    comes out. *)
Definition exchange (irq hook : Z) : K Z :=
  s ← getS; old ← liftO (aget (handlers s) irq); l ← liftO (aset (handlers s) irq hook);
  modifyS (set_handlers l) ;; mret old.

Definition hook_store (p : Z) (h : irq_hook) : K unit :=
  s ← getS; m ← liftO (hstore (hooks s) p h); modifyS (fun s => set_hooks m (imem s) s).

(** The release of the hook that was replaced. *)
Definition free_old (p : Z) : K unit :=
  massert (negb (p =? NULL)) ;;
  s ← getS; h ← liftO (hload (hooks s) p);
  (if negb (stubs h =? NULL) then stubs_free (stubs h) else mret tt) ;;
  hook_free p.

(** [kmemcpy] of [n] stubs from the array [src] to the array [dest]. *)
Definition copy_stubs (dest src n : Z) : K unit :=
  s ← getS; d ← liftO (hload (stub_arrays s) dest); c ← liftO (hload (stub_arrays s) src);
  if (n <=? Z.of_nat (length c)) && (n <=? Z.of_nat (length d)) then
    modifyS (fun s => set_stub_arrays
      (<[dest := take (Z.to_nat n) c ++ drop (Z.to_nat n) d]> (stub_arrays s)) (imem s) s)
  else liftO (Halt BadAccess).

(** The second half of [request_irq]: the new hook at [hook] with the stub array
    [q] takes the place of the old one, which had [n] stubs. *)
Definition request_install (t irq hook q n : Z) : K Z :=
  old ← hook_get irq;
  (if negb (n =? 0) then copy_stubs q (stubs old) n else mret tt) ;;
  stub_put q n (IrqStub t 0 0) ;;
  let c := s32 (n + 1) in
  on_sched sched_lock_all ;;
  old ← hook_get irq;
  hook_store hook (IrqHook (raised old) (if index old <? 0 then 0 else index old)
                     (if last old <? 0 then 0 else last old) c q) ;;
  (if c =? 1 then unmask irq else mret tt) ;;
  hook ← exchange irq hook;
  th ← irq_thread t;
  s ← getS;
  aff ← (if cpu_affinity th <? 0 then
           if cpu_count (isched s) =? 0 then liftO (Halt DivByZero)
           else mret (Z.rem (s32 (tid th - 1)) (cpu_count (isched s)))
         else mret (cpu_affinity th));
  put_irq_thread t (set_affinity aff (set_state THREAD_IRQ (set_irq irq th))) ;;
  on_sched sched_unlock_all ;;
  unlock_irq irq ;;
  free_old hook ;;
  mret 0.

Definition request_irq (t irq : Z) : K Z :=
  if (irq <? 0) || (IRQ_COUNT <=? irq) then mret (-1)
  else
    th ← irq_thread t;
    if negb (state th =? THREAD_SUSPENDED) then mret (-1)
    else
      hook ← hook_alloc;
      if hook =? NULL then mret (-1)
      else
        lock_irq irq ;;
        old ← hook_get irq;
        let n := count old in
        q ← stubs_alloc (u32 (20 * (n + 1)));
        if q =? NULL then unlock_irq irq ;; hook_free hook ;; mret (-1)
        else request_install t irq hook q n.

(** The loop of [release_irq] that copies the stubs of the other threads: [n]
    left from index [i], [found] stubs of the thread skipped so far. *)
Fixpoint release_copy (n : nat) (i found t src dest : Z) : K Z :=
  match n with
  | O => mret found
  | S n =>
      x ← stub_get src i;
      if st_tr x =? t then release_copy n (i + 1) (found + 1) t src dest
      else stub_put dest (i - found) x ;; release_copy n (i + 1) found t src dest
  end.

(** The second half of [release_irq]: the hook at [hook] with the [c] stubs at [q]
    takes the place of the old one. *)
Definition release_install (t irq hook q c : Z) : K Z :=
  on_sched sched_lock_all ;;
  old ← hook_get irq;
  let idx := if (c <=? index old) && (0 <? index old) then s32 (index old - 1) else index old in
  let lst := if (c <=? last old) && (0 <? last old) then s32 (last old - -1) else last old in
  hook_store hook (IrqHook (raised old) idx lst c q) ;;
  (if c =? 0 then mask irq else mret tt) ;;
  hook ← exchange irq hook;
  th ← irq_thread t;
  put_irq_thread t (set_irq (-1) (set_state THREAD_SUSPENDED th)) ;;
  on_sched sched_unlock_all ;;
  unlock_irq irq ;;
  free_old hook ;;
  mret 0.

Definition release_irq (t irq : Z) : K Z :=
  if (irq <? 0) || (IRQ_COUNT <=? irq) then mret (-1)
  else
    hook ← hook_alloc;
    if hook =? NULL then mret (-1)
    else
      lock_irq irq ;;
      old ← hook_get irq;
      let c := s32 (count old - 1) in
      r ← (if c =? 0 then
             x ← stub_get (stubs old) 0;
             th0 ← irq_thread (st_tr x);
             th ← irq_thread t;
             mret (Some (NULL, if process th0 =? process th then 1 else 0))
           else
             q ← stubs_alloc (u32 (20 * c));
             if q =? NULL then unlock_irq irq ;; hook_free hook ;; mret None
             else
               found ← release_copy (Z.to_nat (count old)) 0 0 t (stubs old) q;
               mret (Some (q, found)));
      match (r : option (Z * Z)) with
      | None => mret (-1)
      | Some (q, found) =>
          if found =? 0 then
            unlock_irq irq ;;
            (if negb (q =? NULL) then hook_free hook else mret tt) ;;
            hook_free hook ;;
            mret (-1)
          else
            massert (found =? 1) ;;
            release_install t irq hook q c
      end.

(** * Handling *)

(** [current_thread()] *)
Definition current : K Z :=
  s ← getS; si ← liftO (aget (cpus (isched s)) (cpuid (isched s))); mret (current_thread si).

(** [(handlers[irq]->index + handlers[irq]->last) % handlers[irq]->count] *)
Definition hook_pos (h : irq_hook) : outcome Z :=
  if count h =? 0 then Halt DivByZero else Ok (Z.rem (s32 (index h + last h)) (count h)).

Definition irq_ack (irq : Z) : K Z :=
  tr ← current;
  if (irq <? 0) || (IRQ_COUNT <=? irq) then mret (-1)
  else
    lock_irq irq ;;
    h ← hook_get irq;
    pos ← liftO (hook_pos h);
    x ← stub_get (stubs h) pos;
    if negb (st_tr x =? tr) then unlock_irq irq ;; mret (-1)
    else
      s ← getS;
      let '(cl, off) := disable_interrupts (iflag (isched s)) in
      modifyS (fun s => set_isched (set_iflag off (isched s)) s) ;;
      acknowledge irq ;;
      unlock_irq irq ;;
      modifyS (fun s => set_isched (set_iflag (restore_interrupts cl (iflag (isched s))) (isched s)) s) ;;
      mret 0.

(** The end of [irq_complete]: the handler leaves the fast queue. *)
Definition irq_finish (sched_yield : K unit) (irq tr rc : Z) : K Z :=
  s ← getS;
  let '(cl, off) := disable_interrupts (iflag (isched s)) in
  modifyS (fun s => set_isched (set_iflag off (isched s)) s) ;;
  massert (negb (cl =? 0)) ;;
  on_sched (fast_dequeue tr) ;;
  unlock_irq irq ;;
  (if rc =? 0 then sched_yield else mret tt) ;;
  modifyS (fun s => set_isched (set_iflag (enable_interrupts (iflag (isched s))) (isched s)) s) ;;
  mret 0.

(** [irq_complete]; [sched_yield] is the interrupt that runs the scheduler. *)
Definition irq_complete (sched_yield : K unit) (status : Z) : K Z :=
  tr ← current;
  th ← irq_thread tr;
  let irq := Objects.irq th in
  if (irq <? 0) || (IRQ_COUNT <=? irq) then mret (-1)
  else
    lock_irq irq ;;
    h ← hook_get irq;
    pos ← liftO (hook_pos h);
    x ← stub_get (stubs h) pos;
    if negb (st_tr x =? tr) then unlock_irq irq ;; mret (-1)
    else
      rc ← (if status =? 0 then
              stub_put (stubs h) pos (IrqStub (st_tr x) ((ack x + 1) mod 2 ^ 64) (nop x)) ;;
              hook_put irq (IrqHook (raised h) (index h) pos (count h) (stubs h)) ;;
              mret 0
            else
              stub_put (stubs h) pos (IrqStub (st_tr x) (ack x) ((nop x + 1) mod 2 ^ 64)) ;;
              let idx := s32 (index h + 1) in
              hook_put irq (IrqHook (raised h) idx (last h) (count h) (stubs h)) ;;
              if idx <? count h then
                y ← stub_get (stubs h) (Z.rem (s32 (pos + 1)) (count h));
                on_sched (fast_queue (st_tr y)) ;;
                mret 1
              else mret 2);
      irq_finish sched_yield irq tr rc.

Definition irq_handler (irq : Z) : K Z :=
  s ← getS;
  massert (negb (iflag (isched s))) ;;
  if irq =? 0 then acknowledge irq ;; mret 0
  else
    h ← hook_get irq;
    let h := IrqHook ((raised h + 1) mod 2 ^ 64) 0 (last h) (count h) (stubs h) in
    hook_put irq h ;;
    if count h <=? 0 then mret 0
    else
      massert (0 <? count h) ;;
      x ← stub_get (stubs h) (last h);
      on_sched (fast_queue (st_tr x)) ;;
      mret 0.

(** * An interrupt from the first handler to the last *)

(** The scheduler's choice while interrupt handlers wait: the head of the fast
    queue runs, with interrupts enabled (the part of [exec_thread] before the
    switch that this code sees). *)
Definition dispatch : K Z :=
  s ← getS;
  si ← liftO (aget (cpus (isched s)) (cpuid (isched s)));
  tr ← liftO (get_fast si);
  l ← liftO (aset (cpus (isched s)) (cpuid (isched s)) (set_current_thread tr si));
  modifyS (set_isched (set_iflag true (set_cpus l (isched s)))) ;;
  mret tr.

(** The handlers that run, one after the other, and complete with the given
    statuses: the threads in order. *)
Fixpoint irq_answers (statuses : list Z) : K (list Z) :=
  match statuses with
  | [] => mret []
  | status :: statuses =>
      tr ← dispatch;
      irq_complete (mret tt) status ;;
      l ← irq_answers statuses;
      mret (tr :: l)
  end.
End irq.

(** * The chain of handlers of a line *)

Section irq_facts.
Context {A : Type} `{MmLaws A}.
Implicit Types s : irq_state A.

(** Line [irq] has the hook [h] at [p] with the stubs [arr], whose threads
    handle the line on this processor. *)
Record irq_ready s (irq p : Z) (h : irq_hook) (arr : list irq_stub) : Prop := {
  ir_range : 0 < irq < IRQ_COUNT;
  ir_lock : aget (irq_locks s) irq = Ok 0;
  ir_hook : aget (handlers s) irq = Ok p /\ p <> 0 /\ hooks s !! p = Some h;
  ir_stubs : stubs h <> 0 /\ stub_arrays s !! stubs h = Some arr;
  ir_count : count h = Z.of_nat (length arr) /\ 0 < count h < 1000000;
  ir_last : 0 <= last h < count h;
  ir_threads : forall x, x ∈ arr -> st_tr x <> 0 /\ exists th, threads (isched s) !! st_tr x = Some th /\
    Objects.irq th = irq /\ cpu_affinity th = cpuid (isched s);
  ir_distinct : NoDup (st_tr <$> arr);
  ir_cpu : 0 <= cpuid (isched s) < cpu_count (isched s)
}.

(** The fast queue of this processor, at rest, is [l]. *)
Definition fast_is s (l : list Z) : Prop :=
  exists si, aget (cpus (isched s)) (cpuid (isched s)) = Ok si /\ si_wf si /\ unlocked si /\ fastq si = l.

(** The handlers in the order in which an interrupt visits them. *)
Definition visit_order (h : irq_hook) (arr : list irq_stub) : list Z :=
  rotate (Z.to_nat (last h)) (st_tr <$> arr).

(** The interrupt was declined by the first [k] handlers and waits for the next. *)
Definition in_chain s (irq p : Z) h arr (k : nat) : Prop :=
  irq_ready s irq p h arr /\ index h = Z.of_nat k /\ (k <= length arr)%nat /\
  match visit_order h arr !! k with
  | Some tr => fast_is s [tr] /\ exists th, threads (isched s) !! tr = Some th /\ cpu th = cpuid (isched s)
  | None => fast_is s []
  end.

Lemma visit_lookup h arr (k : nat) : 0 <= last h < Z.of_nat (length arr) -> (k < length arr)%nat ->
  exists x, arr !! Z.to_nat ((last h + Z.of_nat k) mod Z.of_nat (length arr)) = Some x /\
  visit_order h arr !! k = Some (st_tr x).
Proof.
  intros Hl Hk. unfold visit_order. rewrite lookup_rotate_r by (rewrite length_fmap; done).
  unfold rotate_nat_add. rewrite length_fmap, Z2Nat.id by lia.
  pose proof (Z.mod_pos_bound (last h + Z.of_nat k) (Z.of_nat (length arr)) ltac:(lia)).
  destruct (lookup_lt_is_Some_2 arr (Z.to_nat ((last h + Z.of_nat k) mod Z.of_nat (length arr)))) as [x Hx]; [lia |].
  exists x. by rewrite list_lookup_fmap, Hx.
Qed.

Lemma visit_length h arr : length (visit_order h arr) = length arr.
Proof. unfold visit_order. by rewrite length_rotate, length_fmap. Qed.

(** ** Running the primitive steps *)

Lemma on_sched_ok {R} (m : M sched_state R) s r sc : m (isched s) = Ok (r, sc) ->
  on_sched m s = Ok (r, set_isched sc s).
Proof. intros E. unfold on_sched. by rewrite E. Qed.

Lemma lock_irq_ok irq s : aget (irq_locks s) irq = Ok 0 ->
  lock_irq irq s = Ok (tt, set_irq_locks (<[Z.to_nat irq := 1]> (irq_locks s)) s).
Proof. intros E. unfold lock_irq. mrun. rewrite E. mrun. by rewrite (aset_aget _ _ _ _ E). Qed.

Lemma unlock_irq_ok irq s v : aget (irq_locks s) irq = Ok v ->
  unlock_irq irq s = Ok (tt, set_irq_locks (<[Z.to_nat irq := 0]> (irq_locks s)) s).
Proof. intros E. unfold unlock_irq. mrun. by rewrite (aset_aget _ _ _ _ E). Qed.

Lemma hook_get_ok irq p h s : aget (handlers s) irq = Ok p -> p <> 0 -> hooks s !! p = Some h ->
  hook_get irq s = Ok (h, s).
Proof. intros E Hp Hh. unfold hook_get. mrun. rewrite E. mrun. by rewrite (hload_Some _ _ _ Hp Hh). Qed.

Lemma hook_put_ok irq p h h' s : aget (handlers s) irq = Ok p -> p <> 0 -> hooks s !! p = Some h ->
  hook_put irq h' s = Ok (tt, set_hooks (<[p := h']> (hooks s)) (imem s) s).
Proof. intros E Hp Hh. unfold hook_put. mrun. rewrite E. mrun. by rewrite hstore_Some by eauto. Qed.

Lemma stub_get_ok q i l x s : q <> 0 -> stub_arrays s !! q = Some l -> aget l i = Ok x -> stub_get q i s = Ok (x, s).
Proof. intros Hq Hl Hx. unfold stub_get. mrun. rewrite (hload_Some _ _ _ Hq Hl). mrun. by rewrite Hx. Qed.

Lemma stub_put_ok q i l x y s : q <> 0 -> stub_arrays s !! q = Some l -> aget l i = Ok x ->
  stub_put q i y s = Ok (tt, set_stub_arrays (<[q := <[Z.to_nat i := y]> l]> (stub_arrays s)) (imem s) s).
Proof.
  intros Hq Hl Hx. unfold stub_put. mrun. rewrite (hload_Some _ _ _ Hq Hl). mrun.
  by rewrite (aset_aget _ _ _ _ Hx).
Qed.

Lemma irq_thread_ok t th s : t <> 0 -> threads (isched s) !! t = Some th -> irq_thread t s = Ok (th, s).
Proof. intros Ht E. unfold irq_thread. mrun. by rewrite (hload_Some _ _ _ Ht E). Qed.

Lemma put_irq_thread_ok t th th' s : t <> 0 -> threads (isched s) !! t = Some th' ->
  put_irq_thread t th s = Ok (tt, set_isched (set_threads (<[t := th]> (threads (isched s))) (isched s)) s).
Proof. intros Ht E. unfold put_irq_thread. mrun. by rewrite hstore_Some by eauto. Qed.

(** The position of the handler whose turn it is. *)
Lemma hook_pos_ok h (k n : nat) : count h = Z.of_nat n -> 0 < count h < 1000000 -> 0 <= last h < count h ->
  index h = Z.of_nat k -> (k <= n)%nat -> hook_pos h = Ok ((last h + Z.of_nat k) mod Z.of_nat n).
Proof.
  intros Hc Hb Hl Hi Hk. unfold hook_pos. destruct (Z.eqb_spec (count h) 0); [lia |].
  rewrite s32_small by (unfold is_s32; lia). rewrite Z.rem_mod_nonneg by lia. do 2 f_equal; lia.
Qed.

(** The fields of the threads that make them handlers are kept. *)
Definition threads_kept s s' : Prop :=
  forall t th, threads (isched s) !! t = Some th -> exists th', threads (isched s') !! t = Some th' /\
  Objects.irq th' = Objects.irq th /\ cpu_affinity th' = cpu_affinity th.

Lemma kept_insert s s' t th th' : threads (isched s) !! t = Some th ->
  Objects.irq th' = Objects.irq th -> cpu_affinity th' = cpu_affinity th ->
  threads (isched s') = <[t := th']> (threads (isched s)) -> threads_kept s s'.
Proof.
  intros Ht Hi Ha E u uh Hu. rewrite E. destruct (decide (u = t)) as [->|Hne].
  - rewrite lookup_insert_eq. exists th'. replace uh with th by congruence. done.
  - rewrite lookup_insert_ne by done. by exists uh.
Qed.

Lemma kept_trans s1 s2 s3 : threads_kept s1 s2 -> threads_kept s2 s3 -> threads_kept s1 s3.
Proof.
  intros H1 H2 t th Ht. destruct (H1 t th Ht) as (th' & Ht' & Hi & Ha).
  destruct (H2 t th' Ht') as (th'' & Ht'' & Hi' & Ha'). exists th''. split_and!; (done || congruence).
Qed.

Lemma ready_update s s' irq p h h' arr arr' : irq_ready s irq p h arr ->
  aget (irq_locks s') irq = Ok 0 -> handlers s' = handlers s -> hooks s' !! p = Some h' ->
  stubs h' = stubs h -> count h' = count h -> stub_arrays s' !! stubs h = Some arr' ->
  st_tr <$> arr' = st_tr <$> arr -> 0 <= last h' < count h -> cpuid (isched s') = cpuid (isched s) ->
  cpu_count (isched s') = cpu_count (isched s) -> threads_kept s s' -> irq_ready s' irq p h' arr'.
Proof.
  intros [Hr _ (Hh & Hp & _) (Hq & _) (Hc & Hb) _ Ht Hnd Hcpu] Hlk Ehd Hhk Es Ec Hst Etr Hl Eid Ecnt Hkept.
  pose proof (f_equal length Etr) as El. rewrite !length_fmap in El.
  split; try done.
  - by rewrite Ehd.
  - by rewrite Es.
  - rewrite Ec, El. done.
  - by rewrite Ec.
  - intros x Hx. assert (st_tr x ∈ st_tr <$> arr) as Hin by (rewrite <- Etr; apply list_elem_of_fmap; eauto).
    apply list_elem_of_fmap in Hin as (y & -> & Hy). destruct (Ht y Hy) as (Hy0 & th & Hth & Hi & Ha).
    split; [done |]. destruct (Hkept _ _ Hth) as (th' & Hth' & Hi' & Ha').
    exists th'. split_and!; (done || congruence).
  - by rewrite Etr.
  - by rewrite Eid, Ecnt.
Qed.

(** Counting in the stub of one handler keeps the threads. *)
Lemma stub_count_trs (arr : list irq_stub) (i : nat) x a n : arr !! i = Some x ->
  st_tr <$> <[i := IrqStub (st_tr x) a n]> arr = st_tr <$> arr.
Proof. intros Hx. rewrite list_fmap_insert. simpl. apply list_insert_id. by rewrite list_lookup_fmap, Hx. Qed.

(** An interrupt on a line at rest goes to the handler that took the last one. *)
Lemma irq_handler_starts s irq p h arr : irq_ready s irq p h arr -> fast_is s [] -> iflag (isched s) = false ->
  exists s' h', irq_handler irq s = Ok (0, s') /\ in_chain s' irq p h' arr 0 /\ last h' = last h /\
  raised h' = (raised h + 1) mod 2 ^ 64.
Proof.
  intros Hready (si & Hsi & Hwf & Hun & Hq) Hif.
  pose proof Hready as [Hr Hlk (Hh & Hp & Hhk) (Hst0 & Hst) (Hc & Hb) Hl Ht Hnd Hcpu].
  unfold irq_handler. mrun. rewrite Hif. mrun. destruct (Z.eqb_spec irq 0); [lia |]. mrun.
  rewrite (hook_get_ok _ _ _ _ Hh Hp Hhk). mrun. erewrite hook_put_ok by done. mrun.
  cbn [count last stubs]. destruct (Z.leb_spec (count h) 0); [lia |]. destruct (Z.ltb_spec 0 (count h)); [|lia]. mrun.
  set (h' := IrqHook _ _ _ _ _).
  destruct (visit_lookup h' arr 0) as (x & Hx & Hvis); [simpl; lia | lia |].
  simpl last in Hx. rewrite Z.add_0_r, Z.mod_small in Hx by lia.
  assert (x ∈ arr) as Hxin by (by eapply list_elem_of_lookup_2).
  destruct (Ht x Hxin) as (Hx0 & th & Hth & Hirq & Haff).
  rewrite (stub_get_ok _ _ arr x) by (done || (apply aget_Some; split; [lia | done])). mrun.
  destruct (fast_queue_spec (isched s) (st_tr x) th si) as [Hfq _]; try done; [by rewrite Haff | by rewrite Haff |].
  destruct Hfq as (sc & si' & Hrun & Hsi' & Hwf' & Hun' & Hq' & _ & Hid' & Hcnt' & _ & _ & Hth'); [rewrite Hq; simpl; unfold MAX_FAST; lia |].
  erewrite on_sched_ok by exact Hrun. mrun. eexists _, h'. split; [done |]. split; [|done].
  split; [|split; [done | split; [lia |]]].
  - eapply (ready_update s); try done; simpl; [by rewrite lookup_insert_eq |].
    eapply kept_insert; [exact Hth | | | simpl; exact Hth']; done.
  - rewrite Hvis. split.
    + exists si'. simpl. rewrite Hid', <- Haff. split_and!; try done. by rewrite Hq', Hq.
    + eexists. simpl. rewrite Hth', lookup_insert_eq. split; [done |]. simpl. congruence.
Qed.

Lemma irq_finish_ok irq tr rc s th rest v : fast_is s (tr :: rest) -> tr <> 0 ->
  threads (isched s) !! tr = Some th -> cpu th = cpuid (isched s) ->
  0 <= cpuid (isched s) < cpu_count (isched s) -> iflag (isched s) = true -> aget (irq_locks s) irq = Ok v ->
  exists s', irq_finish (mret tt) irq tr rc s = Ok (0, s') /\ fast_is s' rest /\ iflag (isched s') = true /\
  aget (irq_locks s') irq = Ok 0 /\ handlers s' = handlers s /\ hooks s' = hooks s /\
  stub_arrays s' = stub_arrays s /\ threads_kept s s' /\ cpuid (isched s') = cpuid (isched s) /\
  cpu_count (isched s') = cpu_count (isched s) /\
  forall u, u <> tr -> threads (isched s') !! u = threads (isched s) !! u.
Proof.
  intros (si & Hsi & Hwf & Hun & Hq) Htr Hth Hcpu Hid Hif Hlk.
  destruct (fast_dequeue_spec (set_iflag false (isched s)) tr th si rest)
    as (sc & si' & th' & Hrun & Hsi' & Hwf' & Hun' & Hq' & _ & _ & Hid' & Hcnt' & _ & Hth' & _ & _ & Eth); try done.
  unfold irq_finish. mrun. rewrite Hif. unfold disable_interrupts. mrun. cbn [Z.eqb]. mrun.
  erewrite on_sched_ok by exact Hrun. mrun.
  erewrite unlock_irq_ok by (simpl; exact Hlk). mrun.
  assert ((if rc =? 0 then mret tt else mret tt : M (irq_state A) unit) = mret tt) as -> by by destruct (rc =? 0).
  mrun. eexists. split; [done |]. simpl. rewrite Hth', Hid', Hcnt'. simpl. split_and!; try done.
  - exists si'. simpl. rewrite Hid'. split_and!; done.
  - apply aget_insert. by eapply aget_bounds.
  - eapply (kept_insert s _ tr th th' Hth); simpl; [by rewrite Eth | by rewrite Eth | done].
  - intros u Hu. by apply lookup_insert_ne.
Qed.

(** What the running handler finds when it completes. *)
Lemma complete_finds s irq p h arr k tr : in_chain s irq p h arr k -> visit_order h arr !! k = Some tr ->
  exists x th, let pos := (last h + Z.of_nat k) mod Z.of_nat (length arr) in
  st_tr x = tr /\ tr <> 0 /\ arr !! Z.to_nat pos = Some x /\ 0 <= pos < Z.of_nat (length arr) /\
  hook_pos h = Ok pos /\ threads (isched s) !! tr = Some th /\ Objects.irq th = irq /\
  cpu th = cpuid (isched s) /\ fast_is s [tr] /\ (k < length arr)%nat.
Proof.
  intros (Hready & Hi & Hk & Hm) Hv. rewrite Hv in Hm. destruct Hm as (Hq & th & Hth & Hcpu).
  pose proof (lookup_lt_Some _ _ _ Hv) as Hkl. rewrite visit_length in Hkl.
  pose proof Hready as [Hr Hlk _ _ (Hc & Hb) Hl Ht _ _].
  destruct (visit_lookup h arr k) as (x & Hx & Hv'); [lia | done |].
  assert (st_tr x = tr) as Hxt by congruence. exists x, th. cbv zeta.
  destruct (Ht x) as (Hx0 & th' & Hth' & Hirq & _); [by eapply list_elem_of_lookup_2 |].
  rewrite Hxt in *. split_and!; try done; try (apply Z.mod_pos_bound; lia).
  - apply hook_pos_ok; (done || lia).
  - congruence.
Qed.

(** A handler that accepts ends the chain and is the first one next time. *)
Lemma irq_complete_accepts s irq p h arr k tr : in_chain s irq p h arr k ->
  visit_order h arr !! k = Some tr -> current s = Ok (tr, s) -> iflag (isched s) = true ->
  exists s' h' arr', irq_complete (mret tt) 0 s = Ok (0, s') /\ irq_ready s' irq p h' arr' /\ fast_is s' [] /\
  last h' = (last h + Z.of_nat k) mod Z.of_nat (length arr) /\ st_tr <$> arr' = st_tr <$> arr.
Proof.
  intros Hch Hv Hcur Hif.
  destruct (complete_finds _ _ _ _ _ _ _ Hch Hv) as (x & th & Hxt & Htr & Hx & Hpos & Hhp & Hth & Hirq & Hcpu & Hq & Hkl).
  destruct Hch as (Hready & Hi & _).
  set (pos := (last h + Z.of_nat k) mod Z.of_nat (length arr)) in *.
  pose proof Hready as [Hr Hlk (Hh & Hp & Hhk) (Hst0 & Hst) (Hc & Hb) Hl Ht Hnd Hid].
  assert (aget arr pos = Ok x) as Hax by (apply aget_Some; split; [lia | done]).
  unfold irq_complete. mrun. rewrite Hcur. mrun. rewrite (irq_thread_ok _ _ _ Htr Hth). mrun. rewrite Hirq.
  destruct (Z.ltb_spec irq 0), (Z.leb_spec IRQ_COUNT irq); try lia. mrun. rewrite (lock_irq_ok _ _ Hlk). mrun.
  erewrite hook_get_ok by done. mrun. rewrite Hhp. mrun. erewrite stub_get_ok by done. mrun.
  rewrite Hxt, Z.eqb_refl. mrun. cbn [Z.eqb]. mrun. erewrite stub_put_ok by done. mrun.
  erewrite hook_put_ok by done. mrun.
  match goal with |- context [irq_finish _ irq tr 0 ?st] =>
    destruct (irq_finish_ok irq tr 0 st th [] 1) as (s' & Hrun & Hq' & Hif' & Hlk' & Ehd & Ehk & Est & Hkept & Eid & Ecnt & _) end;
    try done; [simpl; apply aget_insert; by eapply aget_bounds |].
  set (arr' := <[Z.to_nat pos := IrqStub tr ((ack x + 1) mod 2 ^ 64) (nop x)]> arr) in *.
  assert (st_tr <$> arr' = st_tr <$> arr) as Htrs.
  { unfold arr'. rewrite <- Hxt. exact (stub_count_trs _ _ _ _ _ Hx). }
  exists s', (IrqHook (raised h) (index h) pos (count h) (stubs h)), arr'. split; [exact Hrun |].
  split; [|by split_and!].
  eapply (ready_update s); try done; [rewrite Ehk; simpl; by rewrite lookup_insert_eq
    | rewrite Est; simpl; by rewrite lookup_insert_eq | simpl; lia].
Qed.

Lemma visit_distinct h arr i j tr : NoDup (st_tr <$> arr) ->
  visit_order h arr !! i = Some tr -> visit_order h arr !! j = Some tr -> i = j.
Proof.
  intros Hnd. apply NoDup_lookup. unfold visit_order, rotate. rewrite Permutation_app_comm, take_drop. done.
Qed.

(** A handler that declines passes the interrupt on to the next one. *)
Lemma irq_complete_declines s irq p h arr k tr status : in_chain s irq p h arr k ->
  visit_order h arr !! k = Some tr -> current s = Ok (tr, s) -> iflag (isched s) = true -> status <> 0 ->
  exists s' h' arr', irq_complete (mret tt) status s = Ok (0, s') /\ in_chain s' irq p h' arr' (S k) /\
  last h' = last h /\ st_tr <$> arr' = st_tr <$> arr.
Proof.
  intros Hch Hv Hcur Hif Hstatus.
  destruct (complete_finds _ _ _ _ _ _ _ Hch Hv) as (x & th & Hxt & Htr & Hx & Hpos & Hhp & Hth & Hirq & Hcpu & Hq & Hkl).
  destruct Hch as (Hready & Hi & _).
  set (pos := (last h + Z.of_nat k) mod Z.of_nat (length arr)) in *.
  pose proof Hready as [Hr Hlk (Hh & Hp & Hhk) (Hst0 & Hst) (Hc & Hb) Hl Ht Hnd Hid].
  assert (aget arr pos = Ok x) as Hax by (apply aget_Some; split; [lia | done]).
  set (arr' := <[Z.to_nat pos := IrqStub tr (ack x) ((nop x + 1) mod 2 ^ 64)]> arr).
  assert (st_tr <$> arr' = st_tr <$> arr) as Htrs.
  { unfold arr'. rewrite <- Hxt. exact (stub_count_trs _ _ _ _ _ Hx). }
  assert (length arr' = length arr) as Hlen by apply length_insert.
  set (h' := IrqHook (raised h) (Z.of_nat (S k)) (last h) (count h) (stubs h)).
  assert (visit_order h' arr' = visit_order h arr) as Hvo by (unfold visit_order; by rewrite Htrs).
  unfold irq_complete. mrun. rewrite Hcur. mrun. rewrite (irq_thread_ok _ _ _ Htr Hth). mrun. rewrite Hirq.
  destruct (Z.ltb_spec irq 0), (Z.leb_spec IRQ_COUNT irq); try lia. mrun. rewrite (lock_irq_ok _ _ Hlk). mrun.
  erewrite hook_get_ok by done. mrun. rewrite Hhp. mrun. erewrite stub_get_ok by done. mrun.
  rewrite Hxt, Z.eqb_refl. mrun. destruct (Z.eqb_spec status 0); [done |]. mrun. erewrite stub_put_ok by done. mrun.
  erewrite hook_put_ok by done. mrun. fold arr'.
  rewrite s32_small by (unfold is_s32; lia). rewrite Hi. replace (Z.of_nat k + 1) with (Z.of_nat (S k)) by lia. fold h'.
  destruct (Z.ltb_spec (Z.of_nat (S k)) (count h)) as [Hmore|Hlast].
  - destruct (visit_lookup h' arr' (S k)) as (y & Hy & Hvy); [simpl; lia | lia |].
    rewrite Hvo in Hvy. simpl last in Hy. rewrite Hlen in Hy.
    assert (Z.rem (s32 (pos + 1)) (count h) = (last h + Z.of_nat (S k)) mod Z.of_nat (length arr)) as ->.
    { rewrite s32_small by (unfold is_s32; lia). rewrite Z.rem_mod_nonneg by lia. rewrite Hc. unfold pos.
      rewrite Zplus_mod_idemp_l. f_equal. lia. }
    pose proof (Z.mod_pos_bound (last h + Z.of_nat (S k)) (Z.of_nat (length arr)) ltac:(lia)) as Hpy.
    assert (st_tr y <> tr) as Hne.
    { intros E. rewrite E in Hvy. pose proof (visit_distinct _ _ _ _ _ Hnd Hv Hvy). lia. }
    assert (exists z, z ∈ arr /\ st_tr z = st_tr y) as (z & Hz & Hzy).
    { assert (st_tr y ∈ st_tr <$> arr) as Hin.
      { rewrite <- Htrs. apply list_elem_of_fmap. exists y. split; [done | by eapply list_elem_of_lookup_2]. }
      apply list_elem_of_fmap in Hin as (z & ? & ?). by exists z. }
    destruct (Ht z Hz) as (Hz0 & thy & Hthy & Hiy & Hay). rewrite Hzy in *.
    mrun. erewrite (stub_get_ok _ _ arr' y); [| done | simpl; by rewrite lookup_insert_eq | apply aget_Some; split; [lia | done]].
    mrun. destruct Hq as (si & Hsi & Hwf & Hun & Hq).
    destruct (fast_queue_spec (isched s) (st_tr y) thy si) as [Hfq _]; try done; [by rewrite Hay | by rewrite Hay |].
    destruct Hfq as (sc & si' & Hrun & Hsi' & Hwf' & Hun' & Hq' & _ & Hid' & Hcnt' & _ & Hif' & Hth');
      [rewrite Hq; simpl; unfold MAX_FAST; lia |].
    erewrite on_sched_ok by exact Hrun. mrun. rewrite Hay, Z.eqb_refl in *.
    match goal with |- context [irq_finish _ irq tr 1 ?st] =>
      destruct (irq_finish_ok irq tr 1 st th [st_tr y] 1)
        as (s' & Hf & Hq2 & Hif2 & Hlk2 & Ehd & Ehk & Est & Hkept & Eid & Ecnt & Hother) end;
      [exists si'; simpl; rewrite Hid', Hq', Hq; by split_and! | done
      | simpl; rewrite Hth'; by rewrite lookup_insert_ne | simpl; congruence | simpl; congruence | simpl; congruence
      | simpl; apply aget_insert; by eapply aget_bounds |].
    exists s', h', arr'. split; [exact Hf |]. split; [|done].
    split; [|split; [done | split; [lia |]]].
    + eapply (ready_update s); try done; simpl in *;
        [by rewrite Ehk, lookup_insert_eq | by rewrite Est, lookup_insert_eq | congruence | congruence |].
      refine (kept_trans _ _ _ _ Hkept). eapply (kept_insert s _ (st_tr y) thy); [exact Hthy | | | exact Hth']; done.
    + rewrite Hvo, Hvy. split; [exact Hq2 |]. eexists.
      rewrite Hother by done. simpl. rewrite Hth', lookup_insert_eq, Eid. split; [done |]. simpl. congruence.
  - mrun. match goal with |- context [irq_finish _ irq tr 2 ?st] =>
      destruct (irq_finish_ok irq tr 2 st th [] 1)
        as (s' & Hf & Hq2 & Hif2 & Hlk2 & Ehd & Ehk & Est & Hkept & Eid & Ecnt & _) end;
      try done; [simpl; apply aget_insert; by eapply aget_bounds |].
    exists s', h', arr'. split; [exact Hf |]. split; [|done].
    split; [|split; [done | split; [lia |]]].
    + eapply (ready_update s); try done; simpl in *;
        [by rewrite Ehk, lookup_insert_eq | by rewrite Est, lookup_insert_eq].
    + rewrite Hvo. by rewrite (lookup_ge_None_2 _ (S k)) by (rewrite visit_length; lia).
Qed.

Lemma get_fast_single si tr : si_wf si -> fastq si = [tr] -> get_fast si = Ok tr.
Proof.
  intros Hwf Hq. destruct (fast_take si tr [] Hwf Hq) as (Hget & _ & _). unfold get_fast.
  pose proof (fast_length si Hwf) as Hl. rewrite Hq in Hl. simpl in Hl.
  destruct (Z.eqb_spec (fast_start si) (fast_stop si)) as [E|]; [|done].
  rewrite E, Z.sub_diag in Hl. done.
Qed.

Lemma dispatch_ok s irq p h arr k tr : in_chain s irq p h arr k -> visit_order h arr !! k = Some tr ->
  exists s', dispatch s = Ok (tr, s') /\ in_chain s' irq p h arr k /\ current s' = Ok (tr, s') /\
  iflag (isched s') = true.
Proof.
  intros (Hready & Hi & Hk & Hm) Hv. rewrite Hv in Hm. destruct Hm as ((si & Hsi & Hwf & Hun & Hq) & Hth).
  pose proof (aget_bounds _ _ _ Hsi) as Hb.
  unfold dispatch. mrun. rewrite Hsi. mrun. rewrite (get_fast_single _ _ Hwf Hq). mrun.
  rewrite (aset_aget _ _ _ _ Hsi). mrun. eexists. split; [done |]. split; [|split; [|done]].
  - split; [destruct Hready; by split|]. split; [done |]. split; [done |]. rewrite Hv. split; [|done].
    exists (set_current_thread tr si). simpl. split; [by apply aget_insert |]. by split_and!.
  - unfold current. mrun. simpl. by rewrite aget_insert by done.
Qed.

(** Handlers that decline, from the [k]-th on. *)
Lemma irq_declines sts : forall s irq p h arr k, in_chain s irq p h arr k ->
  (forall st, st ∈ sts -> st <> 0) -> (k + length sts <= length arr)%nat ->
  exists s' h' arr', irq_answers sts s = Ok (take (length sts) (drop k (visit_order h arr)), s') /\
  in_chain s' irq p h' arr' (k + length sts) /\ last h' = last h /\ st_tr <$> arr' = st_tr <$> arr.
Proof.
  induction sts as [|st sts IH]; intros s irq p h arr k Hch Hst Hlen.
  { exists s, h, arr. simpl. rewrite Nat.add_0_r. by split_and!. }
  simpl length in *. destruct (lookup_lt_is_Some_2 (visit_order h arr) k) as [tr Hv]; [rewrite visit_length; lia |].
  destruct (dispatch_ok _ _ _ _ _ _ _ Hch Hv) as (s1 & Hd & Hch1 & Hcur & Hif).
  destruct (irq_complete_declines s1 irq p h arr k tr st Hch1 Hv Hcur Hif) as (s2 & h2 & arr2 & Hc & Hch2 & Hl2 & Ht2);
    [apply Hst; left |].
  assert (length arr2 = length arr) as El by (apply (f_equal length) in Ht2; by rewrite !length_fmap in Ht2).
  destruct (IH s2 irq p h2 arr2 (S k) Hch2) as (s3 & h3 & arr3 & Hrun & Hch3 & Hl3 & Ht3);
    [intros; apply Hst; by right | lia |].
  exists s3, h3, arr3. split_and!; [|by replace (k + S (length sts))%nat with (S k + length sts)%nat by lia | congruence | congruence].
  cbn [irq_answers]. mrun. rewrite Hd. mrun. rewrite Hc. mrun. rewrite Hrun. mrun.
  unfold visit_order. rewrite Hl2, Ht2. fold (visit_order h arr). do 2 f_equal.
  by rewrite (drop_S _ _ _ Hv).
Qed.

Lemma irq_answers_app sts1 sts2 s l1 s1 l2 s2 : irq_answers sts1 s = Ok (l1, s1) ->
  irq_answers sts2 s1 = Ok (l2, s2) -> irq_answers (sts1 ++ sts2) s = Ok (l1 ++ l2, s2).
Proof.
  revert s l1. induction sts1 as [|st sts1 IH]; intros s l1 H1 H2; cbn [irq_answers app] in *.
  - by injection H1 as <- <-.
  - inv_run. mrun. rewrite E. mrun. rewrite E0. mrun. by rewrite (IH _ _ E1 H2).
Qed.
End irq_facts.

(** C3. An interrupt visits the handlers of its line in turn, starting with the
    one that took the last interrupt: each one that declines passes it on to the
    next through the fast queue, no handler is asked twice, the first one that
    accepts ends the chain and becomes the starting point, and when all decline
    every handler was asked exactly once and the starting point stays.  The fast
    queue is empty again at the end. *)
Theorem irq_chain_visits {A} `{MmLaws A} (s : irq_state A) irq p h arr declined :
  irq_ready s irq p h arr -> fast_is s [] -> iflag (isched s) = false -> (forall st, st ∈ declined -> st <> 0) ->
  ((length declined < length arr)%nat -> exists s' h' arr',
    (irq_handler irq ;; irq_answers (declined ++ [0])) s = Ok (take (S (length declined)) (visit_order h arr), s') /\
    irq_ready s' irq p h' arr' /\ fast_is s' [] /\ st_tr <$> arr' = st_tr <$> arr /\
    last h' = (last h + Z.of_nat (length declined)) mod Z.of_nat (length arr)) /\
  (length declined = length arr -> exists s' h' arr',
    (irq_handler irq ;; irq_answers declined) s = Ok (visit_order h arr, s') /\
    irq_ready s' irq p h' arr' /\ fast_is s' [] /\ st_tr <$> arr' = st_tr <$> arr /\ last h' = last h).
Proof.
  intros Hready Hq Hif Hst. destruct (irq_handler_starts s irq p h arr Hready Hq Hif) as (s1 & h1 & Hh & Hch & Hl1 & _).
  assert (visit_order h1 arr = visit_order h arr) as Hvo by (unfold visit_order; by rewrite Hl1).
  assert (length declined <= length arr -> exists s' h' arr',
    irq_answers declined s1 = Ok (take (length declined) (visit_order h arr), s') /\
    in_chain s' irq p h' arr' (length declined) /\ last h' = last h /\ st_tr <$> arr' = st_tr <$> arr)%nat as Hdec.
  { intros Hlen. destruct (irq_declines declined s1 irq p h1 arr 0 Hch Hst Hlen) as (s2 & h2 & arr2 & Hrun & Hch2 & Hl2 & Ht2).
    exists s2, h2, arr2. rewrite drop_0, Hvo in Hrun. split_and!; (done || congruence). }
  split; intros Hlen.
  - destruct Hdec as (s2 & h2 & arr2 & Hrun & Hch2 & Hl2 & Ht2); [lia |].
    assert (visit_order h2 arr2 = visit_order h arr) as Hvo2 by (unfold visit_order; by rewrite Hl2, Ht2).
    assert (length arr2 = length arr) as El by (apply (f_equal length) in Ht2; by rewrite !length_fmap in Ht2).
    destruct (lookup_lt_is_Some_2 (visit_order h arr) (length declined)) as [tr Hv]; [by rewrite visit_length |].
    pose proof Hv as Hv2. rewrite <- Hvo2 in Hv2.
    destruct (dispatch_ok _ _ _ _ _ _ _ Hch2 Hv2) as (s3 & Hd & Hch3 & Hcur & Hif3).
    destruct (irq_complete_accepts s3 irq p h2 arr2 _ tr Hch3 Hv2 Hcur Hif3) as (s4 & h4 & arr4 & Hc & Hr4 & Hq4 & Hl4 & Ht4).
    exists s4, h4, arr4. split_and!; [| done | done | congruence | by rewrite Hl4, Hl2, El].
    mrun. rewrite Hh. mrun. rewrite (take_S_r _ _ _ Hv). eapply irq_answers_app; [exact Hrun |].
    cbn [irq_answers]. mrun. rewrite Hd. mrun. by rewrite Hc.
  - destruct Hdec as (s2 & h2 & arr2 & Hrun & (Hr2 & _ & _ & Hm) & Hl2 & Ht2); [lia |].
    assert (length arr2 = length arr) as El by (apply (f_equal length) in Ht2; by rewrite !length_fmap in Ht2).
    exists s2, h2, arr2. split_and!; try done.
    + mrun. rewrite Hh. mrun. rewrite Hrun. by rewrite take_ge by (rewrite visit_length; lia).
    + by rewrite lookup_ge_None_2 in Hm by (rewrite visit_length; lia).
Qed.

(** * Registration *)

Section registration.
Context {A : Type} `{MmLaws A}.
Implicit Types s : irq_state A.

(** Line [irq], with lock value [v], has the hook [h] at [p] with the stubs [arr];
    both blocks are the line's own. *)
Record line_is s (v irq p : Z) (h : irq_hook) (arr : list irq_stub) : Prop := {
  li_range : 0 <= irq < IRQ_COUNT;
  li_lock : aget (irq_locks s) irq = Ok v;
  li_hook : aget (handlers s) irq = Ok p /\ p <> 0 /\ hooks s !! p = Some h /\ p ∈ mm_live (imem s);
  li_count : count h = Z.of_nat (length arr) /\ count h < 1000000;
  li_stubs : (stubs h = NULL /\ arr = []) \/
    (stubs h <> NULL /\ stub_arrays s !! stubs h = Some arr /\ stubs h ∈ mm_live (imem s) /\ stubs h <> p)
}.

(** Changes elsewhere leave the line alone. *)
Lemma line_frame s s' v w irq p h arr : line_is s v irq p h arr -> aget (irq_locks s') irq = Ok w ->
  aget (handlers s') irq = aget (handlers s) irq -> hooks s' !! p = hooks s !! p ->
  (stubs h <> NULL -> stub_arrays s' !! stubs h = stub_arrays s !! stubs h) ->
  (forall x, x = p \/ x = stubs h -> x ∈ mm_live (imem s) -> x ∈ mm_live (imem s')) ->
  line_is s' w irq p h arr.
Proof.
  intros [Hr Hl (Hh & Hp & Hk & Hv) Hc Hs] Hw Ehd Ehk Est Hlive. split; [done | done | | done |].
  - rewrite Ehd, Ehk. split_and!; auto.
  - destruct Hs as [?|(Hn & Ha & Hsl & Hne)]; [by left | right]. rewrite Est by done. split_and!; auto.
Qed.

(** A fresh block is none of the line's. *)
Lemma line_fresh s v irq p h arr x : line_is s v irq p h arr -> x <> NULL -> x ∉ mm_live (imem s) ->
  x <> p /\ x <> stubs h.
Proof.
  intros [_ _ (_ & _ & _ & Hp) _ Hs] Hx Hf. split; [by intros -> |].
  destruct Hs as [[-> _]|(_ & _ & Hl & _)]; [done | by intros ->].
Qed.

Lemma hook_alloc_cases s : exists p s', hook_alloc s = Ok (p, s') /\
  isched s' = isched s /\ irq_locks s' = irq_locks s /\ handlers s' = handlers s /\
  stub_arrays s' = stub_arrays s /\ irq_mask s' = irq_mask s /\ devices s' = devices s /\
  has_ioapic s' = has_ioapic s /\
  ((p = NULL /\ hooks s' = hooks s /\ mm_live (imem s') = mm_live (imem s)) \/
   (p <> NULL /\ hooks s' = <[p := raw_hook]> (hooks s) /\ p ∉ mm_live (imem s) /\
    mm_live (imem s') = {[p]} ∪ mm_live (imem s))).
Proof.
  unfold hook_alloc. mrun. destruct (kmalloc 24 (imem s)) as [p a] eqn:E. mrun.
  do 2 eexists. split; [done |]. simpl. split_and!; try done.
  destruct (kmalloc_cases _ _ _ _ E) as [[-> Hl]|(Hp & Hf & Hl)]; [by left | right].
  destruct (Z.eqb_spec p NULL); [done |]. by split_and!.
Qed.

Lemma stubs_alloc_cases bytes s : exists p s', stubs_alloc bytes s = Ok (p, s') /\
  isched s' = isched s /\ irq_locks s' = irq_locks s /\ handlers s' = handlers s /\
  hooks s' = hooks s /\ irq_mask s' = irq_mask s /\ devices s' = devices s /\
  has_ioapic s' = has_ioapic s /\
  ((p = NULL /\ stub_arrays s' = stub_arrays s /\ mm_live (imem s') = mm_live (imem s)) \/
   (p <> NULL /\ stub_arrays s' = <[p := replicate (Z.to_nat (bytes / 20)) raw_stub]> (stub_arrays s) /\
    p ∉ mm_live (imem s) /\ mm_live (imem s') = {[p]} ∪ mm_live (imem s))).
Proof.
  unfold stubs_alloc. mrun. destruct (kmalloc bytes (imem s)) as [p a] eqn:E. mrun.
  do 2 eexists. split; [done |]. simpl. split_and!; try done.
  destruct (kmalloc_cases _ _ _ _ E) as [[-> Hl]|(Hp & Hf & Hl)]; [by left | right].
  destruct (Z.eqb_spec p NULL); [done |]. by split_and!.
Qed.

Lemma hook_free_ok p s : p ∈ mm_live (imem s) -> exists a,
  hook_free p s = Ok (tt, set_hooks (delete p (hooks s)) a s) /\ mm_live a = mm_live (imem s) ∖ {[p]}.
Proof.
  intros Hp. destruct (kfree_live p (imem s) Hp) as (a & E & Hl). exists a. split; [|done].
  unfold hook_free. mrun. by rewrite E.
Qed.

Lemma stubs_free_ok p s : p ∈ mm_live (imem s) -> exists a,
  stubs_free p s = Ok (tt, set_stub_arrays (delete p (stub_arrays s)) a s) /\ mm_live a = mm_live (imem s) ∖ {[p]}.
Proof.
  intros Hp. destruct (kfree_live p (imem s) Hp) as (a & E & Hl). exists a. split; [|done].
  unfold stubs_free. mrun. by rewrite E.
Qed.

Lemma hook_store_ok p h h' s : p <> 0 -> hooks s !! p = Some h' ->
  hook_store p h s = Ok (tt, set_hooks (<[p := h]> (hooks s)) (imem s) s).
Proof. intros Hp Hh. unfold hook_store. mrun. by rewrite hstore_Some by eauto. Qed.

Lemma exchange_ok irq p q s : aget (handlers s) irq = Ok p ->
  exchange irq q s = Ok (p, set_handlers (<[Z.to_nat irq := q]> (handlers s)) s).
Proof. intros E. unfold exchange. mrun. rewrite E. mrun. by rewrite (aset_aget _ _ _ _ E). Qed.

(** The blocks of the hook that was replaced are given back. *)
Lemma free_old_ok p h s : p <> 0 -> hooks s !! p = Some h -> p ∈ mm_live (imem s) ->
  (stubs h = NULL \/ (stubs h ∈ mm_live (imem s) /\ stubs h <> p)) ->
  exists s', free_old p s = Ok (tt, s') /\ isched s' = isched s /\ irq_locks s' = irq_locks s /\
  handlers s' = handlers s /\ hooks s' = delete p (hooks s) /\ irq_mask s' = irq_mask s /\ devices s' = devices s /\
  has_ioapic s' = has_ioapic s /\
  stub_arrays s' = (if stubs h =? NULL then stub_arrays s else delete (stubs h) (stub_arrays s)) /\
  mm_live (imem s') = mm_live (imem s) ∖ {[p; stubs h]}.
Proof.
  intros Hp Hh Hl Hst. unfold free_old. destruct (Z.eqb_spec p NULL); [done |]. mrun.
  rewrite (hload_Some _ _ _ Hp Hh). mrun. destruct (Z.eqb_spec (stubs h) NULL) as [E|E]; mrun.
  - destruct (hook_free_ok p s Hl) as (a & -> & Hla). mrun. eexists. split; [done |]. simpl. split_and!; try done.
    rewrite Hla, E. pose proof (mm_live_nonnull (imem s)). set_solver.
  - destruct Hst as [|[Hsl Hne]]; [done |]. destruct (stubs_free_ok (stubs h) s Hsl) as (a1 & -> & Hl1). mrun.
    destruct (hook_free_ok p (set_stub_arrays (delete (stubs h) (stub_arrays s)) a1 s)) as (a2 & -> & Hl2).
    { simpl. rewrite Hl1. set_solver. }
    mrun. eexists. split; [done |]. simpl. split_and!; try done. rewrite Hl2. simpl. rewrite Hl1. set_solver.
Qed.

Lemma copy_stubs_ok dest src n d c s : dest <> 0 -> src <> 0 -> stub_arrays s !! dest = Some d ->
  stub_arrays s !! src = Some c -> n <= Z.of_nat (length c) -> n <= Z.of_nat (length d) ->
  copy_stubs dest src n s = Ok (tt, set_stub_arrays
    (<[dest := take (Z.to_nat n) c ++ drop (Z.to_nat n) d]> (stub_arrays s)) (imem s) s).
Proof.
  intros Hd Hc Ed Ec Hnc Hnd. unfold copy_stubs. mrun. rewrite (hload_Some _ _ _ Hd Ed). mrun.
  rewrite (hload_Some _ _ _ Hc Ec). mrun.
  by destruct (Z.leb_spec n (Z.of_nat (length c))), (Z.leb_spec n (Z.of_nat (length d))); try lia.
Qed.

Lemma unmask_ok irq s : 0 <= irq < 32 -> exists s', unmask irq s = Ok (tt, s') /\ isched s' = isched s /\
  irq_locks s' = irq_locks s /\ handlers s' = handlers s /\ hooks s' = hooks s /\ stub_arrays s' = stub_arrays s /\
  imem s' = imem s /\ has_ioapic s' = has_ioapic s /\
  (has_ioapic s = false -> Z.testbit (irq_mask s') irq = false).
Proof.
  intros Hr. unfold unmask. mrun. destruct (has_ioapic s) eqn:Ei; mrun.
  - eexists. split; [done |]. simpl. split_and!; done.
  - unfold unmask_8259, write_mask. mrun. eexists. split; [done |]. simpl. split_and!; try done.
    intros _. rewrite Z.land_spec. unfold u32, two32. change 4294967296 with (2 ^ 32).
    rewrite Z.mod_pow2_bits_low by lia. rewrite Z.lnot_spec, Z.shiftl_spec by lia. rewrite Z.sub_diag.
    apply andb_false_r.
Qed.

(** The steps that both operations start with: a new hook, then the line's lock. *)
Lemma open_line s irq p h arr : line_is s 0 irq p h arr -> exists p' s1, hook_alloc s = Ok (p', s1) /\
  ((p' = NULL /\ line_is s1 0 irq p h arr /\ isched s1 = isched s /\ mm_live (imem s1) = mm_live (imem s)) \/
   (p' <> NULL /\ p' <> p /\ p' <> stubs h /\ p' ∉ mm_live (imem s) /\ exists s2, lock_irq irq s1 = Ok (tt, s2) /\
    line_is s2 1 irq p h arr /\ isched s2 = isched s /\ irq_mask s2 = irq_mask s /\ has_ioapic s2 = has_ioapic s /\
    hooks s2 !! p' = Some raw_hook /\ mm_live (imem s2) = {[p']} ∪ mm_live (imem s))).
Proof.
  intros Hl. destruct (hook_alloc_cases s) as (p' & s1 & Ha & Es1 & Elk1 & Ehd1 & Est1 & Emk1 & _ & Eio1 & Hal1).
  exists p', s1. split; [done |]. destruct Hal1 as [(-> & Ehk1 & Elv1)|(Hp' & Ehk1 & Hpf & Elv1)]; [left | right].
  - split_and!; try done. eapply line_frame; [exact Hl | rewrite Elk1; apply Hl | by rewrite Ehd1 | by rewrite Ehk1
      | intros; by rewrite Est1 | intros; by rewrite Elv1].
  - destruct (line_fresh _ _ _ _ _ _ _ Hl Hp' Hpf) as [Hpp Hsp]. do 4 (split; [done |]).
    eexists. split; [apply lock_irq_ok; rewrite Elk1; apply Hl |]. split_and!; simpl; try done.
    + eapply line_frame; [exact Hl | | simpl; by rewrite Ehd1 | simpl; by rewrite Ehk1, lookup_insert_ne by done
        | intros; simpl; by rewrite Est1 | intros; simpl; rewrite Elv1; set_solver].
      simpl. apply aget_insert. rewrite Elk1. eapply aget_bounds, Hl.
    + by rewrite Ehk1, lookup_insert_eq.
Qed.

(** A new stub array. *)
Lemma more_stubs s irq p h arr p' (n : nat) bytes : line_is s 1 irq p h arr -> bytes = 20 * Z.of_nat n ->
  20 * Z.of_nat n < two32 -> p' ∈ mm_live (imem s) -> exists q s3, stubs_alloc (u32 bytes) s = Ok (q, s3) /\
  isched s3 = isched s /\ irq_mask s3 = irq_mask s /\ has_ioapic s3 = has_ioapic s /\ hooks s3 = hooks s /\
  line_is s3 1 irq p h arr /\
  ((q = NULL /\ mm_live (imem s3) = mm_live (imem s)) \/
   (q <> NULL /\ q <> p /\ q <> stubs h /\ q <> p' /\ q ∉ mm_live (imem s) /\
    stub_arrays s3 = <[q := replicate n raw_stub]> (stub_arrays s) /\
    mm_live (imem s3) = {[q]} ∪ mm_live (imem s))).
Proof.
  intros Hl -> Hn Hp'. destruct (stubs_alloc_cases (u32 (20 * Z.of_nat n)) s)
    as (q & s3 & Ha & Es3 & Elk3 & Ehd3 & Ehk3 & Emk3 & _ & Eio3 & Hal3).
  rewrite u32_small in * by (unfold is_u32; lia). rewrite Z.mul_comm, Z.div_mul in Hal3 by lia. rewrite Nat2Z.id in Hal3.
  exists q, s3. do 5 (split; [done |]). destruct Hal3 as [(-> & Est3 & Elv3)|(Hq & Est3 & Hqf & Elv3)].
  - split; [|by left]. eapply line_frame; [exact Hl | rewrite Elk3; apply Hl | by rewrite Ehd3 | by rewrite Ehk3
      | intros; by rewrite Est3 | intros; by rewrite Elv3].
  - destruct (line_fresh _ _ _ _ _ _ _ Hl Hq Hqf) as [Hqp Hqs]. split.
    + eapply line_frame; [exact Hl | rewrite Elk3; apply Hl | by rewrite Ehd3 | by rewrite Ehk3
        | intros; by rewrite Est3, lookup_insert_ne | intros; rewrite Elv3; set_solver].
    + right. split_and!; try done. by intros ->.
Qed.

(** Giving up: the lock is released and the new hook given back. *)
Lemma close_line s irq p h arr p' : line_is s 1 irq p h arr -> p' <> p -> p' <> stubs h -> p' ∈ mm_live (imem s) ->
  exists s1 s2, unlock_irq irq s = Ok (tt, s1) /\ hook_free p' s1 = Ok (tt, s2) /\ line_is s2 0 irq p h arr /\
  isched s2 = isched s /\ mm_live (imem s2) = mm_live (imem s) ∖ {[p']}.
Proof.
  intros Hl Hpp Hps Hlive. eexists. destruct (hook_free_ok p' (set_irq_locks (<[Z.to_nat irq := 0]> (irq_locks s)) s))
    as (a & Hf & Hla); [done |].
  eexists. split; [eapply unlock_irq_ok, Hl |]. split; [exact Hf |]. split_and!; simpl in *; try done.
  eapply line_frame; [exact Hl | simpl; apply aget_insert; eapply aget_bounds, Hl | done | simpl; by rewrite lookup_delete_ne
    | done |]. intros x Hx Hxl. simpl. rewrite Hla. assert (x <> p') by (destruct Hx; congruence). set_solver.
Qed.

(** The new array holds the old stubs, with room for one more. *)
Lemma grow_stubs_ok s v irq p h arr q : line_is s v irq p h arr -> q <> 0 ->
  stub_arrays s !! q = Some (replicate (S (length arr)) raw_stub) ->
  (if negb (count h =? 0) then copy_stubs q (stubs h) (count h) else mret tt) s =
    Ok (tt, set_stub_arrays (<[q := arr ++ [raw_stub]]> (stub_arrays s)) (imem s) s).
Proof.
  intros Hl Hq Hst. destruct (li_count _ _ _ _ _ _ Hl) as [Hc _]. destruct (Z.eqb_spec (count h) 0) as [E|E].
  - rewrite E in Hc. destruct arr; [|simpl in Hc; lia]. mrun.
    simpl in *. rewrite insert_id by done. by destruct s.
  - destruct (li_stubs _ _ _ _ _ _ Hl) as [[_ ->]|(Hs0 & Hs & _ & _)]; [by rewrite Hc in E |]. mrun.
    erewrite copy_stubs_ok; [| exact Hq | exact Hs0 | exact Hst | exact Hs | lia | rewrite length_replicate; lia].
    rewrite Hc, Nat2Z.id, firstn_all, drop_replicate.
    by replace (S (length arr) - length arr)%nat with 1%nat by lia.
Qed.

(** What [request_irq] promises, relative to the live blocks [live]. *)
Definition registered s s' (live : gset Z) (t irq p : Z) h arr (th : thread) : Prop :=
  exists p' h' th', line_is s' 0 irq p' h' (arr ++ [IrqStub t 0 0]) /\ raised h' = raised h /\
  index h' = Z.max 0 (index h) /\ last h' = Z.max 0 (last h) /\
  threads (isched s') = <[t := th']> (threads (isched s)) /\ state th' = THREAD_IRQ /\ Objects.irq th' = irq /\
  cpu_affinity th' = (if cpu_affinity th <? 0 then Z.rem (tid th - 1) (cpu_count (isched s)) else cpu_affinity th) /\
  mm_live (imem s') = {[p'; stubs h']} ∪ (live ∖ {[p; stubs h]}) /\
  (arr = [] -> has_ioapic s = false -> Z.testbit (irq_mask s') irq = false).

Lemma unmask_first c irq s : 0 <= irq < 32 -> exists s', (if c =? 1 then unmask irq else mret tt) s = Ok (tt, s') /\
  isched s' = isched s /\ irq_locks s' = irq_locks s /\ handlers s' = handlers s /\ hooks s' = hooks s /\
  stub_arrays s' = stub_arrays s /\ imem s' = imem s /\
  (c = 1 -> has_ioapic s = false -> Z.testbit (irq_mask s') irq = false).
Proof.
  intros Hr. destruct (Z.eqb_spec c 1).
  - destruct (unmask_ok irq s Hr) as (s' & ? & ? & ? & ? & ? & ? & ? & _ & ?). exists s'. by split_and!.
  - exists s. by split_and!.
Qed.

(** The processor that a thread without preference is bound to. *)
Lemma affinity_ok th n s : 0 < n -> -2147483648 < tid th < 2147483648 ->
  (if cpu_affinity th <? 0 then if n =? 0 then liftO (Halt DivByZero) else mret (Z.rem (s32 (tid th - 1)) n)
   else mret (cpu_affinity th) : M (irq_state A) Z) s =
  Ok (if cpu_affinity th <? 0 then Z.rem (tid th - 1) n else cpu_affinity th, s).
Proof.
  intros Hn Htid. destruct (cpu_affinity th <? 0); [|done]. destruct (Z.eqb_spec n 0); [lia |].
  by rewrite s32_small by (unfold is_s32; lia).
Qed.

Lemma request_install_ok s t irq p h arr th p' q : line_is s 1 irq p h arr -> count h < 999999 -> t <> 0 ->
  threads (isched s) !! t = Some th -> lockable (isched s) ->
  0 < cpu_count (isched s) -> -2147483648 < tid th < 2147483648 ->
  p' <> 0 -> p' <> p -> p' ∈ mm_live (imem s) -> hooks s !! p' = Some raw_hook -> p' <> stubs h ->
  q <> 0 -> q <> stubs h -> q <> p -> q <> p' -> q ∈ mm_live (imem s) ->
  stub_arrays s !! q = Some (replicate (S (length arr)) raw_stub) ->
  exists s', request_install t irq p' q (count h) s = Ok (0, s') /\
  registered s s' (mm_live (imem s) ∖ {[p'; q]}) t irq p h arr th.
Proof.
  intros Hl Hcb Ht Hth Hlockable Hcc Htid Hp0 Hpp Hplive Hraw Hps Hq0 Hqs Hqp Hqp' Hql Hqa.
  pose proof Hl as [Hr Hlk (Hh & Hp & Hhk & Hpl) (Hc & Hb) Hs].
  unfold request_install. mrun. rewrite (hook_get_ok irq p h) by done. mrun.
  rewrite (grow_stubs_ok s 1 irq p h arr q Hl Hq0 Hqa). mrun.
  erewrite (stub_put_ok q (count h) (arr ++ [raw_stub])); [| done | simpl; by rewrite lookup_insert_eq
    | apply aget_Some; split; [lia | rewrite Hc, Nat2Z.id; by rewrite lookup_app_r, Nat.sub_diag by lia]].
  mrun. simpl. rewrite insert_insert_eq, Hc, Nat2Z.id, insert_app_r_alt, Nat.sub_diag by lia. simpl.
  rewrite s32_small by (unfold is_s32; lia).
  destruct (sched_lock_all_ok (isched s) Hlockable) as (sc1 & Hlock & Hall & Hth1).
  erewrite on_sched_ok by (simpl; exact Hlock). mrun.
  rewrite (hook_get_ok irq p h) by done. mrun. erewrite hook_store_ok by (done || simpl; exact Hraw). mrun. simpl.
  set (h' := IrqHook _ _ _ _ _).
  match goal with |- context [(if ?c then unmask irq else mret tt) ?st] =>
    destruct (unmask_first (Z.of_nat (length arr) + 1) irq st)
      as (s5 & Hun5 & Es5 & Elk5 & Ehd5 & Ehk5 & Est5 & Emm5 & Hbit); [unfold IRQ_COUNT in Hr; lia |] end.
  rewrite Hun5. mrun. simpl in *. rewrite (exchange_ok irq p) by (by rewrite Ehd5). mrun.
  pose proof Hall as (Hcid & Hccnt & _ & _ & Hcpus).
  rewrite (irq_thread_ok t th) by (done || (simpl; by rewrite Es5, Hth1)). mrun. simpl. rewrite Es5, Hccnt.
  rewrite affinity_ok by done. mrun. set (aff := if cpu_affinity th <? 0 then _ else _).
  set (th' := set_affinity aff (set_state THREAD_IRQ (set_irq irq th))).
  erewrite put_irq_thread_ok by (done || (simpl; by rewrite Es5, Hth1)). mrun.
  set (sc2 := set_threads (<[t := th']> (threads sc1)) sc1).
  destruct (sched_unlock_all_ok (isched s) sc2) as (sc3 & Hunl & Hth3 & _); [done | done |].
  erewrite on_sched_ok by (simpl; rewrite Es5; exact Hunl). mrun.
  erewrite unlock_irq_ok by (simpl; rewrite Elk5; exact Hlk). mrun.
  match goal with |- context [free_old p ?st] =>
    destruct (free_old_ok p h st) as (s7 & Hfr & Es7 & Elk7 & Ehd7 & Ehk7 & Emk7 & _ & _ & Est7 & Elv7) end;
    [done | simpl; rewrite Ehk5; by rewrite lookup_insert_ne | simpl; by rewrite Emm5
    | simpl; rewrite Emm5; destruct Hs as [[? _]|(_ & _ & ? & ?)]; auto |].
  rewrite Hfr. mrun. exists s7. split; [done |]. simpl in *.
  exists p', h', th'. split; [split|].
  - done.
  - rewrite Elk7, Elk5. apply aget_insert. by eapply aget_bounds.
  - rewrite Ehd7, Ehd5, Ehk7, Ehk5, Elv7, Emm5. split; [apply aget_insert; by eapply aget_bounds |].
    split; [done |]. split; [by rewrite lookup_delete_ne, lookup_insert_eq by done | by apply elem_of_diff2].
  - simpl. rewrite length_app. simpl. lia.
  - right. simpl. split; [done |]. rewrite Est7, Est5, Elv7, Emm5. split; [|split; [by apply elem_of_diff2 | done]].
    destruct (Z.eqb_spec (stubs h) NULL); [|rewrite lookup_delete_ne by done]; by rewrite lookup_insert_eq.
  - simpl. split; [done |]. split; [destruct (Z.ltb_spec (index h) 0); lia |].
    split; [destruct (Z.ltb_spec (last h) 0); lia |]. split; [by rewrite Es7, Hth3; simpl; rewrite Hth1 |].
    do 3 (split; [done |]). split; [rewrite Elv7, Emm5; by apply swap_diff2 |].
    intros -> Hio. rewrite Emk7. apply Hbit; done.
Qed.
End registration.

(** C37. [request_irq] by a suspended thread on a line: either -1 with the line,
    the threads and the allocator's live blocks as they were, or 0 with the thread
    as the last handler of the line after the ones that were there, in the state
    [THREAD_IRQ], bound to one processor, the old hook and its array given back for
    the new ones, and the line unmasked at the controller when it is the first
    handler. *)
Theorem request_irq_adds {A} `{MmLaws A} (s : irq_state A) t irq p h arr th :
  line_is s 0 irq p h arr -> count h < 999999 -> t <> 0 -> threads (isched s) !! t = Some th ->
  state th = THREAD_SUSPENDED -> lockable (isched s) -> 0 < cpu_count (isched s) -> -2147483648 < tid th < 2147483648 ->
  exists rc s', request_irq t irq s = Ok (rc, s') /\
  (rc = -1 /\ line_is s' 0 irq p h arr /\ isched s' = isched s /\ mm_live (imem s') = mm_live (imem s) \/
   rc = 0 /\ registered s s' (mm_live (imem s)) t irq p h arr th).
Proof.
  intros Hl Hcb Ht Hth Hst Hlockable Hcc Htid. pose proof (li_range _ _ _ _ _ _ Hl) as Hr.
  pose proof (li_count _ _ _ _ _ _ Hl) as [Hc _].
  unfold request_irq. destruct (Z.ltb_spec irq 0), (Z.leb_spec IRQ_COUNT irq); try lia. mrun.
  rewrite (irq_thread_ok _ _ _ Ht Hth). mrun. rewrite Hst, Z.eqb_refl. mrun.
  destruct (open_line s irq p h arr Hl) as (p' & s1 & -> & Hopen). mrun.
  destruct Hopen as [(-> & Hl1 & Es1 & Elv1)|(Hp' & Hpp & Hps & Hpf & s2 & Hlock & Hl2 & Es2 & _ & Eio2 & Hraw & Elv2)].
  { change (NULL =? NULL) with true. mrun. do 2 eexists. split; [done |]. by left. }
  destruct (Z.eqb_spec p' NULL); [done |]. mrun. rewrite Hlock. mrun.
  rewrite (hook_get_ok irq p h) by apply Hl2. mrun.
  assert (p' ∈ mm_live (imem s2)) as Hpl2 by (rewrite Elv2; clear; set_solver).
  destruct (more_stubs s2 irq p h arr p' (S (length arr)) (20 * (count h + 1)) Hl2)
    as (q & s3 & -> & Es3 & _ & Eio3 & Ehk3 & Hl3 & Hal3); [lia | unfold two32; lia | done |]. mrun.
  destruct Hal3 as [(-> & Elv3)|(Hq & Hqp & Hqs & Hqp' & Hqf & Est3 & Elv3)].
  - change (NULL =? NULL) with true. mrun.
    destruct (close_line s3 irq p h arr p' Hl3 Hpp Hps) as (s4 & s5 & -> & Hfree & Hl5 & Es5 & Elv5); [by rewrite Elv3 |].
    mrun. rewrite Hfree. mrun. do 2 eexists. split; [done |]. left. split_and!; try done; [congruence |].
    rewrite Elv5, Elv3, Elv2. clear -Hpf. set_solver.
  - destruct (Z.eqb_spec q NULL); [done |].
    assert (mm_live (imem s3) ∖ {[p'; q]} = mm_live (imem s)) as Elv
      by (rewrite Elv3, Elv2; rewrite Elv2 in Hqf; clear -Hpf Hqf; set_solver).
    destruct (request_install_ok s3 t irq p h arr th p' q) as (s' & Hrun & Hreg); try done;
      rewrite ?Es3, ?Es2, ?Ehk3, ?Elv3, ?Est3; try done; [clear -Hpl2; set_solver | clear; set_solver | by rewrite lookup_insert_eq |].
    mrun. do 2 eexists. split; [exact Hrun |]. right. split; [done |].
    rewrite Elv in Hreg. unfold registered in *. by rewrite Es3, Es2, Eio3, Eio2 in Hreg.
Qed.

Section release.
Context {A : Type} `{MmLaws A}.
Implicit Types s : irq_state A.

(** The copy of the other handlers' stubs: the thread was at [k], and [i] stubs
    were looked at. *)
Lemma release_copy_ok t src dest arr k x n : forall i s d,
  src <> 0 -> dest <> 0 -> src <> dest -> arr !! k = Some x -> st_tr x = t -> NoDup (st_tr <$> arr) ->
  (i + n = length arr)%nat -> stub_arrays s !! src = Some arr -> length d = (length arr - 1)%nat ->
  let f := if decide (k < i)%nat then 1%nat else 0%nat in
  stub_arrays s !! dest = Some (take (i - f) (delete k arr) ++ drop (i - f) d) ->
  release_copy n (Z.of_nat i) (Z.of_nat f) t src dest s =
    Ok (1, set_stub_arrays (<[dest := delete k arr]> (stub_arrays s)) (imem s) s).
Proof.
  induction n as [|n IH]; intros i s d Hs Hd Hne Hx Ht Hnd Hi Hsrc Hlen f Hdest;
    pose proof (lookup_lt_Some _ _ _ Hx) as Hk; pose proof (length_delete _ _ (mk_is_Some _ _ Hx)) as Hld;
    cbn [release_copy].
  { unfold f in *. rewrite decide_True in * by lia. rewrite take_ge in Hdest by lia.
    rewrite drop_ge, app_nil_r in Hdest by lia. mrun. rewrite insert_id by done. by destruct s. }
  destruct (lookup_lt_is_Some_2 arr i) as [y Hy]; [lia |].
  mrun. rewrite (stub_get_ok src (Z.of_nat i) arr y) by (done || by apply aget_nat). mrun.
  replace (Z.of_nat i + 1) with (Z.of_nat (S i)) by lia.
  destruct (decide (i = k)) as [->|Hik].
  - replace y with x by congruence. rewrite Ht, Z.eqb_refl. mrun. unfold f in *. rewrite decide_False in * by lia.
    replace (Z.of_nat 0 + 1) with (Z.of_nat (if decide (k < S k)%nat then 1 else 0)) by (by rewrite decide_True by lia).
    apply (IH (S k) s d); try done; [lia |]. rewrite decide_True by lia. by replace (S k - 1)%nat with (k - 0)%nat by lia.
  - destruct (Z.eqb_spec (st_tr y) t) as [E|E].
    { destruct Hik. apply (NoDup_lookup _ i k t Hnd); rewrite list_lookup_fmap; [rewrite Hy | rewrite Hx]; simpl; congruence. }
    mrun. assert (delete k arr !! (i - f)%nat = Some y) as Hdy.
    { unfold f. destruct (decide (k < i)%nat).
      - rewrite list_lookup_delete_ge by lia. by replace (S (i - 1)) with i by lia.
      - by rewrite list_lookup_delete_lt, Nat.sub_0_r by lia. }
    pose proof (lookup_lt_Some _ _ _ Hdy) as Hif.
    replace (Z.of_nat i - Z.of_nat f) with (Z.of_nat (i - f)) by (unfold f; destruct (decide _); lia).
    destruct (lookup_lt_is_Some_2 (take (i - f) (delete k arr) ++ drop (i - f) d) (i - f)) as [z Hz].
    { rewrite length_app, length_take, length_drop. lia. }
    erewrite stub_put_ok; [| exact Hd | exact Hdest | by apply aget_nat]. mrun. rewrite Nat2Z.id.
    assert ((if decide (k < S i)%nat then 1%nat else 0%nat) = f) as Hf' by (unfold f; repeat case_decide; lia).
    rewrite <- Hf'. erewrite (IH (S i) _ d); try done; [simpl; by rewrite insert_insert_eq | lia | simpl; by rewrite lookup_insert_ne |].
    simpl. rewrite lookup_insert_eq. f_equal. rewrite Hf'.
    replace (S i - f)%nat with (S (i - f)) by (unfold f; destruct (decide _); lia).
    rewrite (take_S_r _ _ _ Hdy). rewrite insert_app_r_alt by (rewrite length_take; lia).
    rewrite length_take, Nat.min_l, Nat.sub_diag by lia.
    destruct (lookup_lt_is_Some_2 d (i - f)) as [w Hw]; [lia |]. rewrite (drop_S _ _ _ Hw). simpl. by rewrite <- app_assoc.
Qed.

(** What [release_irq] promises when other handlers stay: the stub at [k] is gone.
    A last position behind the remaining handlers is moved further out. *)
Definition released s s' (live : gset Z) (t irq p : Z) h arr (k : nat) (th : thread) : Prop :=
  exists p' h', line_is s' 0 irq p' h' (delete k arr) /\ raised h' = raised h /\ stubs h' <> NULL /\
  last h' = (if Z.of_nat (length arr) - 1 <=? last h then last h + 1 else last h) /\
  threads (isched s') = <[t := set_irq (-1) (set_state THREAD_SUSPENDED th)]> (threads (isched s)) /\
  mm_live (imem s') = {[p'; stubs h']} ∪ (live ∖ {[p; stubs h]}).

Lemma release_install_ok s t irq p h arr k th p' q : line_is s 1 irq p h arr -> (2 <= length arr)%nat ->
  (k < length arr)%nat -> 0 <= last h < 1000000 -> t <> 0 -> threads (isched s) !! t = Some th -> lockable (isched s) ->
  p' <> 0 -> p' <> p -> p' ∈ mm_live (imem s) -> hooks s !! p' = Some raw_hook ->
  q <> 0 -> q <> stubs h -> q <> p -> q <> p' -> p' <> stubs h -> q ∈ mm_live (imem s) ->
  stub_arrays s !! q = Some (delete k arr) ->
  exists s', release_install t irq p' q (count h - 1) s = Ok (0, s') /\
  released s s' (mm_live (imem s) ∖ {[p'; q]}) t irq p h arr k th.
Proof.
  intros Hl Hlen Hk Hlast Ht Hth Hlockable Hp0 Hpp Hplive Hraw Hq0 Hqs Hqp Hqp' Hps Hql Hqa.
  pose proof Hl as [Hr Hlk (Hh & Hp & Hhk & Hpl) (Hc & Hb) Hs].
  unfold release_install. destruct (sched_lock_all_ok (isched s) Hlockable) as (sc1 & Hlock & Hall & Hth1).
  mrun. erewrite on_sched_ok by exact Hlock. mrun.
  rewrite (hook_get_ok irq p h) by done. mrun. erewrite hook_store_ok by (done || simpl; exact Hraw). mrun. simpl.
  destruct (Z.eqb_spec (count h - 1) 0); [lia |]. mrun. rewrite (exchange_ok irq p) by done. mrun.
  rewrite (irq_thread_ok t th) by (done || (simpl; by rewrite Hth1)). mrun.
  erewrite put_irq_thread_ok by (done || (simpl; by rewrite Hth1)). mrun. simpl.
  set (th' := set_irq (-1) (set_state THREAD_SUSPENDED th)).
  destruct (sched_unlock_all_ok (isched s) (set_threads (<[t := th']> (threads sc1)) sc1)) as (sc3 & Hunl & Hth3 & _);
    [done | done |].
  erewrite on_sched_ok by exact Hunl. mrun. erewrite unlock_irq_ok by exact Hlk. mrun.
  set (h' := IrqHook _ _ _ _ _).
  match goal with |- context [free_old p ?st] =>
    destruct (free_old_ok p h st) as (s7 & Hfr & Es7 & Elk7 & Ehd7 & Ehk7 & _ & _ & _ & Est7 & Elv7) end;
    [done | simpl; by rewrite lookup_insert_ne | done | simpl; destruct Hs as [[? _]|(_ & _ & ? & ?)]; auto |].
  rewrite Hfr. mrun. exists s7. split; [done |]. simpl in *.
  assert (stub_arrays s7 !! q = Some (delete k arr)) as Hq7.
  { rewrite Est7. by destruct (Z.eqb_spec (stubs h) NULL); [|rewrite lookup_delete_ne by done]. }
  exists p', h'. split; [split|].
  - done.
  - rewrite Elk7. apply aget_insert. by eapply aget_bounds.
  - rewrite Ehd7, Ehk7, Elv7. split; [apply aget_insert; by eapply aget_bounds |].
    split; [done |]. split; [by rewrite lookup_delete_ne, lookup_insert_eq by done | by apply elem_of_diff2].
  - simpl. rewrite length_delete by (by apply lookup_lt_is_Some_2). lia.
  - right. simpl. split_and!; try done. rewrite Elv7. by apply elem_of_diff2.
  - simpl. split; [done |]. split; [done |]. split; [|split; [by rewrite Es7, Hth3; simpl; rewrite Hth1 | rewrite Elv7; by apply swap_diff2]].
    rewrite Hc. destruct (Z.leb_spec (Z.of_nat (length arr) - 1) (last h)); [|done].
    destruct (Z.ltb_spec 0 (last h)); [|lia]. cbn [andb]. rewrite s32_small by (unfold is_s32; lia). lia.
Qed.
End release.

(** C38. [release_irq] by one of several handlers of a line: either -1 for lack of
    memory, or 0 with exactly that handler gone, the others in order, the thread
    suspended again without a line and the old blocks given back for the new
    ones.  But the correction of the position of the last successful handler has
    the wrong sign: when it was at the end, it is moved behind the array, and the
    next interrupt on the line reads outside of it. *)
Theorem release_irq_removes {A} `{MmLaws A} (s : irq_state A) t irq p h arr k x th :
  line_is s 0 irq p h arr -> 0 < irq -> (2 <= length arr)%nat -> 0 <= last h < count h -> t <> 0 ->
  arr !! k = Some x -> st_tr x = t -> NoDup (st_tr <$> arr) ->
  threads (isched s) !! t = Some th -> lockable (isched s) ->
  exists rc s', release_irq t irq s = Ok (rc, s') /\
  (rc = -1 /\ line_is s' 0 irq p h arr /\ mm_live (imem s') = mm_live (imem s) \/
   rc = 0 /\ released s s' (mm_live (imem s)) t irq p h arr k th /\
   (last h = count h - 1 -> forall sc, iflag sc = false -> irq_handler irq (set_isched sc s') = Halt BadAccess)).
Proof.
  intros Hl Hirq Hlen Hlast Ht Hx Hxt Hnd Hth Hlockable. pose proof (li_range _ _ _ _ _ _ Hl) as Hr.
  pose proof (li_count _ _ _ _ _ _ Hl) as [Hc Hb]. pose proof (lookup_lt_Some _ _ _ Hx) as Hk.
  unfold release_irq. destruct (Z.ltb_spec irq 0), (Z.leb_spec IRQ_COUNT irq); try lia. mrun.
  destruct (open_line s irq p h arr Hl) as (p' & s1 & -> & Hopen). mrun.
  destruct Hopen as [(-> & Hl1 & Es1 & Elv1)|(Hp' & Hpp & Hps & Hpf & s2 & Hlock & Hl2 & Es2 & _ & _ & Hraw & Elv2)].
  { change (NULL =? NULL) with true. mrun. do 2 eexists. split; [done |]. by left. }
  destruct (Z.eqb_spec p' NULL); [done |]. mrun. rewrite Hlock. mrun.
  rewrite (hook_get_ok irq p h) by apply Hl2. mrun. rewrite s32_small by (unfold is_s32; lia).
  destruct (Z.eqb_spec (count h - 1) 0); [lia |]. mrun.
  assert (p' ∈ mm_live (imem s2)) as Hpl2 by (rewrite Elv2; clear; set_solver).
  destruct (more_stubs s2 irq p h arr p' (length arr - 1) (20 * (count h - 1)) Hl2)
    as (q & s3 & -> & Es3 & _ & _ & Ehk3 & Hl3 & Hal3); [lia | unfold two32; lia | done |]. mrun.
  destruct Hal3 as [(-> & Elv3)|(Hq & Hqp & Hqs & Hqp' & Hqf & Est3 & Elv3)].
  { change (NULL =? NULL) with true. mrun.
    destruct (close_line s3 irq p h arr p' Hl3 Hpp Hps) as (s4 & s5 & -> & Hfree & Hl5 & Es5 & Elv5); [by rewrite Elv3 |].
    mrun. rewrite Hfree. mrun. do 2 eexists. split; [done |]. left. split_and!; try done.
    rewrite Elv5, Elv3, Elv2. clear -Hpf. set_solver. }
  destruct (Z.eqb_spec q NULL); [done |]. mrun.
  destruct (li_stubs _ _ _ _ _ _ Hl3) as [[_ ->]|(Hs0 & Hsa & _)]; [simpl in Hlen; lia |].
  assert (release_copy (length arr) 0 0 t (stubs h) q s3 =
    Ok (1, set_stub_arrays (<[q := delete k arr]> (stub_arrays s3)) (imem s3) s3)) as Hcopy.
  { pose proof (release_copy_ok t (stubs h) q arr k x (length arr) 0 s3 (replicate (length arr - 1) raw_stub)) as Hcp.
    cbv zeta in Hcp. rewrite decide_False in Hcp by lia. apply Hcp; try done; [apply length_replicate |].
    by rewrite Est3, lookup_insert_eq. }
  assert (Z.to_nat (count h) = length arr) as -> by lia. rewrite Hcopy.
  mrun. change (1 =? 0) with false. change (1 =? 1) with true. mrun.
  assert (mm_live (imem s3) ∖ {[p'; q]} = mm_live (imem s)) as Elv
    by (rewrite Elv3, Elv2; rewrite Elv2 in Hqf; clear -Hpf Hqf; set_solver).
  match goal with |- context [release_install _ _ _ _ _ ?st] =>
    destruct (release_install_ok st t irq p h arr k th p' q) as (s' & Hrun & Hrel) end; simpl;
    rewrite ?Es3, ?Es2, ?Ehk3, ?Elv3; try done;
    [| lia | clear -Hpl2; set_solver | clear; set_solver | by rewrite lookup_insert_eq |].
  { eapply line_frame; [exact Hl3 | apply Hl3 | done | done | intros; simpl; by rewrite lookup_insert_ne | done]. }
  do 2 eexists. split; [exact Hrun |]. right. split; [done |].
  simpl in Hrel. rewrite Elv in Hrel. unfold released in *. simpl in Hrel. rewrite Es3, Es2 in Hrel. split; [exact Hrel |].
  intros Hend sc Hsc. destruct Hrel as (p2 & h2 & Hl5 & _ & Hst2 & Hlast2 & _).
  pose proof (li_count _ _ _ _ _ _ Hl5) as [Hc2 _]. rewrite length_delete in Hc2 by (by apply lookup_lt_is_Some_2).
  unfold irq_handler. mrun. cbn [isched set_isched]. rewrite Hsc. mrun. destruct (Z.eqb_spec irq 0); [lia |]. mrun.
  erewrite (hook_get_ok irq p2 h2) by apply Hl5. mrun.
  erewrite (hook_put_ok irq p2 h2) by apply Hl5. mrun. cbn [count last stubs].
  destruct (Z.leb_spec (count h2) 0); [lia |]. destruct (Z.ltb_spec 0 (count h2)); [|lia]. mrun.
  destruct (li_stubs _ _ _ _ _ _ Hl5) as [[? _]|(_ & Hsa2 & _)]; [done |].
  unfold stub_get. mrun. cbn [stub_arrays set_hooks set_isched]. rewrite (hload_Some _ _ _ Hst2 Hsa2). mrun. rewrite aget_oob; [done |].
  right. rewrite length_delete by (by apply lookup_lt_is_Some_2). rewrite Hlast2.
  destruct (Z.leb_spec (Z.of_nat (length arr) - 1) (last h)); lia.
Qed.

(** * A concrete line *)

(** Line 5 has the handlers 701, 702 and 703 on processor 0; 703 took the last
    interrupt.  Thread 600 is suspended. *)
Definition sample_handler (n : Z) : thread := Thread [] n THREAD_IRQ 7000 5 0 [] 0 0 (-1) 0 0.
Definition sample_hook : irq_hook := IrqHook 8 0 2 3 51.
Definition sample_stubs : list irq_stub := [IrqStub 701 2 1; IrqStub 702 0 3; IrqStub 703 5 0].
Definition sample_irq : irq_state arena :=
  IrqState (SchedState [set_fast_stop 0 sample_si]
      (<[701 := sample_handler 21]> (<[702 := sample_handler 23]> (<[703 := sample_handler 25]> sample_threads)))
      0 1 false [60] [] 0)
    (replicate 24 0) (<[5%nat := 50]> (replicate 24 NULL)) {[50 := sample_hook]} {[51 := sample_stubs]}
    65499 [] false (Arena 4 {[50; 51]}).

Lemma sample_line : line_is sample_irq 0 5 50 sample_hook sample_stubs.
Proof.
  split; [done | reflexivity | | done | right].
  - split_and!; [reflexivity | done | reflexivity | simpl; unfold NULL; set_solver].
  - split_and!; [done | reflexivity | simpl; unfold NULL; set_solver | done].
Qed.

Lemma sample_distinct : NoDup (st_tr <$> sample_stubs).
Proof. by apply (bool_decide_unpack _). Qed.

Lemma sample_ready : irq_ready sample_irq 5 50 sample_hook sample_stubs.
Proof.
  split; [done | reflexivity | done | done | done | done | | exact sample_distinct | done].
  intros x Hx. repeat (apply elem_of_cons in Hx as [->|Hx]); [ | | | by apply elem_of_nil in Hx];
    (split; [done |]; eexists; split; [reflexivity | done]).
Qed.

Lemma sample_lockable : lockable (isched sample_irq).
Proof. split_and!; [done | done |]. intros [|[]] si Hsi; [injection Hsi as <- | done | done]. done. Qed.

Lemma sample_quiet : fast_is sample_irq [].
Proof.
  exists (set_fast_stop 0 sample_si). split_and!; [reflexivity | | done | done].
  unfold si_wf, MAX_FAST. simpl. split_and!; (done || lia).
Qed.

Lemma irq_chain_visits_witness :
  (exists s', (irq_handler 5 ;; irq_answers [1; 0]) sample_irq = Ok ([703; 701], s')) /\
  (exists s', (irq_handler 5 ;; irq_answers [1; 1; 1]) sample_irq = Ok ([703; 701; 702], s')).
Proof.
  split.
  - destruct (irq_chain_visits sample_irq 5 50 sample_hook sample_stubs [1] sample_ready sample_quiet)
      as [H _]; [done | intros st [->|[]%elem_of_nil]%elem_of_cons; done |].
    destruct H as (s' & h' & arr' & H & _); [simpl; lia | by exists s'].
  - destruct (irq_chain_visits sample_irq 5 50 sample_hook sample_stubs [1; 1; 1] sample_ready sample_quiet)
      as [_ H]; [done | intros st Hst; repeat (apply elem_of_cons in Hst as [->|Hst]); [done .. | by apply elem_of_nil in Hst] |].
    destruct H as (s' & h' & arr' & H & _); [done | by exists s'].
Defined.

Lemma request_irq_adds_witness : exists rc s', request_irq 600 5 sample_irq = Ok (rc, s').
Proof.
  destruct (request_irq_adds sample_irq 600 5 50 sample_hook sample_stubs (sample_thread 11 THREAD_SUSPENDED (-1) (-1) 0)
    sample_line) as (rc & s' & H & _); [simpl; lia | done | reflexivity | done | exact sample_lockable | simpl; lia | simpl; lia |].
  by exists rc, s'.
Defined.

Lemma release_irq_removes_witness : exists rc s', release_irq 702 5 sample_irq = Ok (rc, s').
Proof.
  destruct (release_irq_removes sample_irq 702 5 50 sample_hook sample_stubs 1 (IrqStub 702 0 3) (sample_handler 23)
    sample_line) as (rc & s' & H & _);
    [done | simpl; lia | simpl; lia | done | done | done | exact sample_distinct | reflexivity | exact sample_lockable |].
  by exists rc, s'.
Defined.

(** After 600 was added and 702 has left, the line has the others in order. *)
Definition line_threads (s : irq_state arena) (irq : nat) : option (list Z) :=
  p ← handlers s !! irq; h ← hooks s !! p; l ← stub_arrays s !! stubs h; Some (map st_tr l).

Example request_then_release :
  match (request_irq 600 5 ;; release_irq 702 5) sample_irq with
  | Ok (rc, s') => Some (rc, line_threads s' 5)
  | Halt _ => None
  end = Some (0, Some [701; 703; 600]).
Proof. vm_compute. reflexivity. Qed.
